(* ===== verification/_CoqProject ===== *)
-Q . S2P
Prelude.v
MathUtil.v
Buffer.v
Bytes.v
KernelStore.v
FileSaver.v
OmFile.v
FormatsUtils.v
FormatIndex.v
FormatNc1hwc0.v
FormatC1hwncoc0.v
FormatFracz3D.v
FormatFractalNz.v
FormatFractalZz.v
FormatTranspose.v
FormatFractalZ.v
FormatFzC04.v
MemAllocator.v
BlockHeap.v
CachingAllocator.v
CachingInvariant.v
CachingContract.v
CachingTheorems.v
MemRanges.v
MemoryBlock.v
BlockForest.v
MemoryPlan.v
LifeReuse.v
ReuseSafety.v
MemoryAssign.v
Fp16.v
Fp16Round.v
Fp16Convert.v
Fp16Integers.v
Fp16Arith.v
Fp16Div.v
Fp16Theorems.v
DataTypeTransfer.v
Formats.v
BCast.v
FloatMath.v
HostKernels.v
KernelTheorems.v
RdmaPool.v
RdmaTheorems.v
MemManager.v
ManagerTheorems.v
VarManager.v
VarSizes.v
VarTheorems.v
SliceKernels.v
SliceTheorems.v
TransKernels.v
GatherKernels.v
GatherTheorems.v
NumericKernels.v
NumericTheorems.v
ShapeKernels.v
ShapeTheorems.v
