(* ===== verification/Prelude.v ===== *)
(** * GraphEngine: a verification library

    GraphEngine (GE) compiles computation graphs for the Ascend device and runs them.  Its own
    sources are under src/ge; the graph classes (metadef), the device runtime (runtime/),
    the logging and the securec library are outside the repository.  This library models the parts with
    self-contained core logic and proves them correct: the memory of the device (ge/graph/manager), the
    memory plan of a graph (ge/graph/build/memory), tensor formats and data types (ge/common/formats, fp16_t,
    ge/common/math), the kernels that fold constants on the host (ge/host_kernels) and the
    model files (ge/common/auth, helper, kernel_store).

    ** How the parts interact

    Compilation folds operators on constant tensors with the host kernels, which broadcast their
    operands ([BCast]), cut, join and pick elements, and hand whole tensors to the format and data type
    transfers ([Formats] picks one by the pair of formats); all of them rely on the overflow checks of
    math_util.  The outputs and workspaces of the graph are then grouped into block sizes ([MemRanges]), blocks
    that are never in use together share memory ([LifeReuse]) and each block gets its offset
    ([MemoryPlan]).  The variables of a session get their addresses from the [VarManager].  The compiled kernels
    ([KernelStore]) and the other partitions of the model are written to an offline model file and found again
    ([OmFile] over [FileSaver]).  At run time the [MemManager] owns the allocators of a device: the
    [MemoryAllocator], which calls the runtime, the caching allocator and the RDMA pool, which cut what they
    get from it into blocks on a shared heap of linked records ([BlockHeap]), and the host allocator.

    ** Files

    Shared:
    - [Prelude]: status codes, the outcome type of fallible code ([Ok], [Err], [Stuck]; [Stuck]
      stands for an exception or undefined behaviour), the state monad [SM], machine integers as [Z] with explicit wrapping
      ([wrapS], [wrapU], the scope [i64]), checked vector access ([at_], [vget], [vset]), counted
      loops ([for_range]) and the general lemmas and tactics.
    - [MathUtil]: ge/common/math/math_util.h: the integer overflow checks and the checking macros; [FloatMath]: the
      checks of fp16_t, float and double over IEEE 754 arithmetic on bit patterns.
    - [Buffer]: byte buffers, [memcpy_s] and [memset_s] with their error results and limits, the notion of
      a buffer that is filled element by element ([Fills]); the class [Env].  [Bytes]: structures in byte buffers.

    Formats and data types:
    - [FormatsUtils]: ge/common/formats/utils: cube sizes, item counts, shape validity, [Ceil]; the
      types [TransArgs] and [TransResult].  [FormatIndex]: row-major indices and their decomposition.
    - [FormatNc1hwc0], [FormatC1hwncoc0], [FormatFracz3D], [FormatFractalNz], [FormatFractalZz],
      [FormatTranspose], [FormatFractalZ], [FormatFzC04]: the transfers, one Module per source file of
      ge/common/formats/format_transfers, with the functions of the source.
    - [Fp16]: ge/common/fp16_t; [Fp16Round], [Fp16Convert], [Fp16Integers], [Fp16Arith], [Fp16Div], [Fp16Theorems]: rounding to
      nearest, and the proofs that the bit manipulations compute it.
    - [DataTypeTransfer]: datatype_transfer, the casts between element types.
    - [Formats]: formats.cc, the entry points over the table of registered transfers.

    Device memory:
    - [MemAllocator]: graph_mem_allocator: [MemoryAllocator] over the class [Runtime]
      (rtMalloc, rtFree and the host heap) with its laws [RuntimeOk]; the ownership predicate [kept].
    - [BlockHeap]: block_memory.h: the block objects as a heap of records with
      prev and next links, chains of blocks that tile an extent, the ordered bins.
    - [CachingAllocator]: graph_caching_allocator, every method, in a state monad
      that fails on a null or dangling dereference; the double arithmetic of ShouldSplit is
      modelled with its rounding to 53 bits.  [CachingInvariant]: the invariant [wf] and its preservation;
      [CachingContract]: the contracts of the public methods; [CachingTheorems]: the abstract specification and the theorems.
    - [RdmaPool], [RdmaTheorems]: rdma_pool_allocator, on the same heap.
    - [MemManager], [ManagerTheorems]: MemManager and host_mem_allocator over the interface [Allocator] with its
      laws [AllocatorOk], which the four allocators implement.
    - [VarManager], [VarSizes], [VarTheorems]: graph_var_manager over the memory manager.

    The memory plan (ge/graph/build/memory):
    - [MemRanges]: the block sizes of the binary and the maximal assigner.
    - [MemoryBlock], [BlockForest]: the blocks, their life times, and blocks nested in blocks as a forest.
    - [LifeReuse], [ReuseSafety]: merging of blocks by life time and the invariant it keeps.
    - [MemoryPlan], [MemoryAssign]: sizes and offsets; the composition of the phases.

    Model files:
    - [KernelStore], [FileSaver], [OmFile]: the table of kernels, the writer, and the two helpers for the model file.

    Host kernels:
    - [BCast]: ge/graph/common/bcast; [HostKernels], [KernelTheorems]: the element-wise kernels.
    - [SliceKernels], [SliceTheorems]: Slice, SliceD, StridedSlice with OpUtils.
    - [GatherKernels], [GatherTheorems]: GatherV2, Pack, ConcatV2, ConcatOffset.
    - [NumericKernels], [NumericTheorems]: Range, Fill, ReduceProd.
    - [TransKernels]: Transpose, Permute, TransData and Cast, over the transfers.
    - [ShapeKernels], [ShapeTheorems]: Shape, ShapeN, Size, Rank, the broadcast arguments, DynamicStitch, and the
      kernels that hand a tensor on.

    ** What the theorems show

    - Allocators: any sequence of Malloc and Free calls is a run of an abstract
      specification of disjoint regions and never dereferences a bad pointer; over a
      whole life the device gets back all it gave; when a request succeeds; which block it gets.  All allocators of the
      memory manager together: no two regions handed out overlap.
    - Variables: the regions of a session are aligned, inside its memory and disjoint, and map to live device memory;
      a variable is entered once and found again; the sizes parsed from options and the layout derived from them.
    - Memory plan: the phases end, blocks in use together get disjoint ranges large enough for their data, and blocks
      that share memory are not in use together; the dependencies it relies on are exact.
    - Transfers: for every data type, and for every non-empty tensor whose shape TransShape accepts,
      TransFormat delivers the element the layout prescribes at every place and zero in the
      padding, stays inside both buffers, does not wrap an offset, and fails only
      when the host heap cannot give the buffer.  Where the code has both directions, there and
      back is the identity on the bytes.  The routines that
      build FRACTAL_Z from three source formats build the same bytes.
    - Half precision: arithmetic and conversions are the exact result rounded to nearest; lossless casts come back.
    - Host kernels: the tensor a kernel returns is the one the operator prescribes, element by element, or the
      operator stays in the graph.
    - Model files: what is saved is loaded; loading is safe on arbitrary bytes.
    - Overflow checks: each accepts exactly the operands whose mathematical result is representable.
    - Deviations the models brought up are theorems too, next to the operations they are about.

    ** Conventions and bounds

    Most loops are structural ([for_range] over a count, [Fixpoint] over a list or an index).  Where the
    recursion of the code is not, a definition takes fuel, and the theorems show that the fuel given is enough: the number of
    nodes for the walk over the graph and the number of blocks for nested blocks ([LifeReuse], [MemoryBlock]), one
    pass per range ([MemRanges]), the length of the data for parsers and chunked writes ([KernelStore], [FileSaver]), the
    width of the mantissa for the normalisation loops ([Fp16]), the missing dimensions for an ellipsis ([SliceKernels]).  64-bit
    arithmetic is written with [%i64] and wraps; the theorems show that it does not in
    the cases they cover.  Shapes that the code accepts have at most 2^40 elements
    times small factors (kShapeItemNumMAX bounds the item count), which gives the
    bounds used in the offset lemmas.  The dimensions are assumed to be int64_t values below 2^63.
    Calls of an allocator are atomic steps: the code holds a recursive mutex.  An allocation on the host heap is a function of
    the size ([new_uint8]): it may fail for any size, but not for one request and succeed for another of the same size.

    Conditions the theorems put on callers or on the graph are named in their comments.  Three of them are not
    ensured by the code: InitMemory of the RDMA pool resets the device right after it took the pool, so that the statements
    on device memory ask for a reset that releases none ([reset_keeps]); the tests of the memory reuse are right for
    life times that begin with their node and, across streams, where the table of AddDependLife is right of the graph
    ([MemoryAssign]); and a model file loads only with one, three, four or five partitions ([OmFile]).

    Code outside the repository is a parameter, a class of operations with a class of laws that state documented
    behaviour only, and a sample instance on which the witnesses evaluate the models: [Env] (element sizes of
    metadef, securec, the host heap), [Runtime] and [DeviceApi] (the device runtime), [HostHeap] (aligned host
    memory), [Files] (the file system), [KernelBins] (OpKernelBin, the order of a hash map), [Graph] (the compute graph), [StdSort]
    (std::sort), [RangeEnv] (the logarithm of the platform), [TensorLib], [ShapeLib], [DescLib], [NodeLib] and [TensorDescLib] (tensors,
    shapes, attributes, nodes and descriptors of metadef), [Transfers] (the registries of transfers, which metadef keeps).

    ** Not modelled

    Logging, error reports and the mutexes are left out throughout.  Not modelled: the code that rewrites or walks over whole
    graphs (passes, partition, preparation, stream and label allocation, the parts of memory assignment that
    read node attributes), whose meaning lies in the graph classes of metadef, which are not in the repository; the executors and
    task wrappers, which drive the runtime; profiling, dumps, plugins and sessions, which are input and output or
    registries; the functions of fp16_math and kernels such as Rsqrt and SSDPriorBox that call the floating-point library of the
    platform; data transfer of variables. *)
From stdpp Require Export base tactics numbers list.
From Stdlib Require Export ZArith Lia.

#[export] Set Default Goal Selector "!".
#[export] Set Warnings "-clear-no-such-hyp".
Global Open Scope Z_scope.

(** * Status codes

    The values of [Status] the modelled functions return
    (inc/framework/common/ge_inner_error_codes.h and the ACL error codes). *)
Inductive Status :=
| SUCCESS
| FAILED
| PARAM_INVALID
| UNSUPPORTED
| INTERNAL_ERROR
| OUT_OF_MEMORY
| ACL_ERROR_GE_MEMORY_ALLOCATION
| ACL_ERROR_GE_INTERNAL_ERROR
| ACL_ERROR_GE_TRANSSHAPE_SHAPE_INVALID
| ACL_ERROR_GE_TRANSSHAPE_FORMAT_INVALID
| ACL_ERROR_GE_TRANSSHAPE_DATATYPE_INVALID
| NOT_CHANGED
| GE_MULTI_INIT
| GE_GRAPH_MALLOC_FAILED
| GE_GRAPH_FREE_FAILED
| GE_GRAPH_SAVE_FAILED
| ACL_ERROR_GE_PARAM_INVALID
| ACL_ERROR_GE_EXEC_MODEL_ADDR_INVALID
| ACL_ERROR_GE_EXEC_MODEL_DATA_SIZE_INVALID
| MEMALLOC_FAILED
| GE_GRAPH_OPTIONS_INVALID
| RT_ERROR (code : Z).

#[export] Instance Status_eq_dec : EqDecision Status.
Proof. solve_decision. Defined.

(** * Outcomes

    [Ok a]: the function returned SUCCESS with its out parameters set to [a];
    [Err s]: it returned the status [s]; [Stuck]: the C++ code throws an
    exception or has undefined behaviour (a dereference outside a buffer, a
    division by zero). *)
Inductive outcome (A : Type) :=
| Ok (a : A)
| Err (s : Status)
| Stuck.
Arguments Ok {A} a.
Arguments Err {A} s.
Arguments Stuck {A}.

#[export] Instance outcome_ret : MRet outcome := fun A a => Ok a.
#[export] Instance outcome_bind : MBind outcome := fun A B f m =>
  match m with
  | Ok a => f a
  | Err s => Err s
  | Stuck => Stuck
  end.

(** * State passing

    Code that mutates an object of type [S]; [None] is undefined behaviour. *)
Definition SM (S A : Type) : Type := S -> option (A * S).
#[export] Instance SM_ret S : MRet (SM S) := fun A a s => Some (a, s).
#[export] Instance SM_bind S : MBind (SM S) := fun A B f m s => match m s with Some (a, s') => f a s' | None => None end.
Definition sm_get {S} : SM S S := fun s => Some (s, s).
Definition sm_modify {S} (f : S -> S) : SM S unit := fun s => Some (tt, f s).
Definition sm_stuck {S A} : SM S A := fun _ => None.

Lemma sm_bind_eq {S A B} (m : SM S A) (f : A -> SM S B) s a s1 : m s = Some (a, s1) -> (m ≫= f) s = f a s1.
Proof. intros H. unfold mbind, SM_bind. by rewrite H. Qed.

(** A call whose failure the caller replaces by a status of its own
    (`if (f() != SUCCESS) return st;`). *)
Definition or_else {A} (st : Status) (m : outcome A) : outcome A :=
  match m with
  | Ok a => Ok a
  | Err _ => Err st
  | Stuck => Stuck
  end.

(** `if (!cond) return st;` *)
Definition require (cond : bool) (st : Status) : outcome unit :=
  if cond then Ok tt else Err st.

(** `vec.at(i)` throws, and `vec[i]` is undefined, outside the vector. *)
Definition at_ {A} (l : list A) (i : nat) : outcome A :=
  match l !! i with
  | Some x => Ok x
  | None => Stuck
  end.

(** `vec[i]` read and written at an integer index. *)
Definition vget {A} (l : list A) (i : Z) : outcome A :=
  if i <? 0 then Stuck else at_ l (Z.to_nat i).
Definition vset {A} (l : list A) (i : Z) (x : A) : outcome (list A) :=
  if (i <? 0) || (Z.of_nat (length l) <=? i) then Stuck else Ok (<[Z.to_nat i := x]> l).

(** * Machine integers

    A signed or unsigned w-bit integer is a [Z]; arithmetic writes out its
    two's-complement reduction. *)
Definition wrapS (w z : Z) : Z := (z + 2 ^ (w - 1)) mod 2 ^ w - 2 ^ (w - 1).
Definition wrapU (w z : Z) : Z := z mod 2 ^ w.
Definition inS (w z : Z) : Prop := - 2 ^ (w - 1) <= z < 2 ^ (w - 1).
Definition inU (w z : Z) : Prop := 0 <= z < 2 ^ w.

Definition wrap64 (z : Z) : Z := wrapS 64 z.
Definition wrapU64 (z : Z) : Z := wrapU 64 z.

(** int64_t arithmetic; [/] and [%] truncate towards zero as in C++. *)
Definition add64 (a b : Z) : Z := wrap64 (a + b).
Definition sub64 (a b : Z) : Z := wrap64 (a - b).
Definition mul64 (a b : Z) : Z := wrap64 (a * b).
Definition quot64 (a b : Z) : Z := wrap64 (Z.quot a b).
Definition rem64 (a b : Z) : Z := Z.rem a b.

Declare Scope int64_scope.
Delimit Scope int64_scope with i64.
Arguments add64 (a b)%_i64.
Arguments sub64 (a b)%_i64.
Arguments mul64 (a b)%_i64.
Arguments quot64 (a b)%_i64.
Arguments rem64 (a b)%_i64.
Notation "a + b" := (add64 a b) : int64_scope.
Notation "a - b" := (sub64 a b) : int64_scope.
Notation "a * b" := (mul64 a b) : int64_scope.
Notation "a / b" := (quot64 a b) : int64_scope.
Notation "a 'rem' b" := (rem64 a b) (at level 40, no associativity) : int64_scope.

(** A division whose divisor is not known to be non-zero. *)
Definition div_ (a b : Z) : outcome Z := if b =? 0 then Stuck else Ok (quot64 a b).

(** * Bounded loops: `for (int64_t i = 0; i < n; i++) body` *)
Fixpoint for_loop {S} (k : nat) (i : Z) (body : Z -> S -> outcome S) (s : S) : outcome S :=
  match k with
  | O => Ok s
  | Datatypes.S k => s' ← body i s; for_loop k (i + 1) body s'
  end.
Definition for_range {S} (n : Z) (body : Z -> S -> outcome S) (s : S) : outcome S :=
  for_loop (Z.to_nat n) 0 body s.

(** * Machine-integer lemmas *)
Lemma wrapS_id w z : 0 < w -> inS w z -> wrapS w z = z.
Proof.
  intros Hw Hz. unfold wrapS, inS in *.
  assert (2 ^ w = 2 * 2 ^ (w - 1)) by (rewrite <- Z.pow_succ_r by lia; f_equal; lia).
  rewrite Z.mod_small; lia.
Qed.

Lemma wrapS_in w z : 0 < w -> inS w (wrapS w z).
Proof.
  intros Hw. unfold wrapS, inS.
  assert (2 ^ w = 2 * 2 ^ (w - 1)) by (rewrite <- Z.pow_succ_r by lia; f_equal; lia).
  pose proof (Z.mod_pos_bound (z + 2 ^ (w - 1)) (2 ^ w) ltac:(lia)). lia.
Qed.

Lemma wrapU_id w z : inU w z -> wrapU w z = z.
Proof. intros Hz. apply Z.mod_small, Hz. Qed.

Lemma wrap64_id z : - 2 ^ 63 <= z < 2 ^ 63 -> wrap64 z = z.
Proof. intros Hz. apply wrapS_id; [lia|exact Hz]. Qed.

Lemma wrapU64_id z : 0 <= z < 2 ^ 64 -> wrapU64 z = z.
Proof. apply wrapU_id. Qed.

(** Equality modulo 2^64: wrapping is invisible to it, and the ring operations
    respect it, so a whole index expression is reduced once, at its end. *)
Definition eqm (a b : Z) : Prop := a mod 2 ^ 64 = b mod 2 ^ 64.
Infix "≡64" := eqm (at level 70).

#[export] Instance eqm_equiv : Equivalence eqm.
Proof. split; unfold eqm; repeat intro; congruence. Qed.

#[export] Instance eqm_add : Proper (eqm ==> eqm ==> eqm) Z.add.
Proof.
  intros a a' Ha b b' Hb. unfold eqm in *.
  rewrite Z.add_mod, Ha, Hb, <- Z.add_mod; lia.
Qed.

#[export] Instance eqm_sub : Proper (eqm ==> eqm ==> eqm) Z.sub.
Proof. intros a a' Ha b b' Hb. unfold eqm in *. rewrite Zminus_mod, Ha, Hb, <- Zminus_mod. done. Qed.

#[export] Instance eqm_mul : Proper (eqm ==> eqm ==> eqm) Z.mul.
Proof.
  intros a a' Ha b b' Hb. unfold eqm in *.
  rewrite Z.mul_mod, Ha, Hb, <- Z.mul_mod; lia.
Qed.

Lemma wrap64_eqm z : wrap64 z ≡64 z.
Proof.
  unfold eqm, wrap64, wrapS. change (64 - 1) with 63.
  rewrite Zminus_mod_idemp_l. f_equal. lia.
Qed.

#[export] Instance wrap64_proper : Proper (eqm ==> eq) wrap64.
Proof.
  intros a b H. unfold wrap64, wrapS. f_equal. change (64 - 1) with 63.
  fold (eqm (a + 2 ^ 63) (b + 2 ^ 63)). by rewrite H.
Qed.

Lemma eqm_eq a b : a = b -> a ≡64 b.
Proof. by intros ->. Qed.

Lemma add64_eqm a b : add64 a b ≡64 a + b.
Proof. apply wrap64_eqm. Qed.
Lemma sub64_eqm a b : sub64 a b ≡64 a - b.
Proof. apply wrap64_eqm. Qed.
Lemma mul64_eqm a b : mul64 a b ≡64 a * b.
Proof. apply wrap64_eqm. Qed.

#[export] Instance add64_proper : Proper (eqm ==> eqm ==> eqm) add64.
Proof. intros a a' Ha b b' Hb. by rewrite !add64_eqm, Ha, Hb. Qed.
#[export] Instance sub64_proper : Proper (eqm ==> eqm ==> eqm) sub64.
Proof. intros a a' Ha b b' Hb. by rewrite !sub64_eqm, Ha, Hb. Qed.
#[export] Instance mul64_proper : Proper (eqm ==> eqm ==> eqm) mul64.
Proof. intros a a' Ha b b' Hb. by rewrite !mul64_eqm, Ha, Hb. Qed.

(** The value of a wrapped ring expression that does not overflow. *)
Lemma wrap64_is a b : a ≡64 b -> - 2 ^ 63 <= b < 2 ^ 63 -> wrap64 a = b.
Proof. intros -> Hb. by apply wrap64_id. Qed.
Lemma add64_is a b c : a + b ≡64 c -> - 2 ^ 63 <= c < 2 ^ 63 -> add64 a b = c.
Proof. apply wrap64_is. Qed.
Lemma sub64_is a b c : a - b ≡64 c -> - 2 ^ 63 <= c < 2 ^ 63 -> sub64 a b = c.
Proof. apply wrap64_is. Qed.
Lemma mul64_is a b c : a * b ≡64 c -> - 2 ^ 63 <= c < 2 ^ 63 -> mul64 a b = c.
Proof. apply wrap64_is. Qed.

(** [ring64] proves a congruence between ring expressions with wrapped
    subterms; [no_wrap e] replaces the wrapped expression [e] of the goal by the
    exact value [v], leaving the range of [v]. *)
Ltac unwrap64 :=
  repeat first [rewrite add64_eqm | rewrite sub64_eqm | rewrite mul64_eqm | rewrite wrap64_eqm].
Ltac ring64 := unwrap64; apply eqm_eq; ring.
Ltac no_wrap e v :=
  let H := fresh in
  assert (e = v) as H;
  [ first [apply add64_is | apply sub64_is | apply mul64_is | apply wrap64_is]; [ring64|] | rewrite H; clear H ].

(** Definitions of index functions, unfolded when a wrapped index expression is
    compared with them. *)
Create HintDb fmt_index.

(** [wrap_eq] proves that a wrapped expression has an exact value written with
    the index functions, leaving the range of the value. *)
Ltac wrap_eq :=
  first [apply mul64_is | apply add64_is | apply sub64_is];
  [unwrap64; autounfold with fmt_index; apply eqm_eq; ring|].

(** * Loop lemmas *)
Lemma for_loop_inv {S} (I : Z -> S -> Prop) (n : Z) body k i s :
  0 <= i -> i + Z.of_nat k <= n -> I i s ->
  (forall j s, 0 <= j < n -> I j s -> exists s', body j s = Ok s' /\ I (j + 1) s') ->
  exists s', for_loop k i body s = Ok s' /\ I (i + Z.of_nat k) s'.
Proof.
  intros Hi Hn HI Hstep. revert i s Hi Hn HI.
  induction k as [|k IH]; intros i s Hi Hn HI; cbn [for_loop].
  - exists s. by rewrite Z.add_0_r.
  - destruct (Hstep i s) as (s' & Hb & HI'); [lia|done|].
    rewrite Hb. cbn [mbind outcome_bind].
    destruct (IH (i + 1) s') as (s'' & Hr & HI''); [lia..|done|].
    exists s''. split; [done|].
    by replace (i + Z.of_nat (Datatypes.S k)) with (i + 1 + Z.of_nat k) by lia.
Qed.

(** The rule for a loop that always completes: an invariant indexed by the
    iteration. *)
Lemma for_range_inv {S} (I : Z -> S -> Prop) n body s :
  I 0 s ->
  (forall i s, 0 <= i < n -> I i s -> exists s', body i s = Ok s' /\ I (i + 1) s') ->
  exists s', for_range n body s = Ok s' /\ I (Z.max 0 n) s'.
Proof.
  intros H0 Hstep. unfold for_range.
  destruct (Z.le_gt_cases n 0).
  - exists s. rewrite Z.max_l by lia. replace (Z.to_nat n) with O by lia. done.
  - destruct (for_loop_inv I n body (Z.to_nat n) 0 s) as (s' & Hr & HI); [lia..|done|done|].
    exists s'. split; [done|]. by replace (Z.max 0 n) with (0 + Z.of_nat (Z.to_nat n)) by lia.
Qed.

(** * Mixed-radix indices *)
Lemma radix_range i j a b : 0 <= i < a -> 0 <= j < b -> 0 <= i * b + j < a * b.
Proof. nia. Qed.

Lemma radix_inj i j i' j' b :
  0 <= j < b -> 0 <= j' < b -> i * b + j = i' * b + j' -> i = i' /\ j = j'.
Proof.
  intros Hj Hj' Heq. assert (i = i') by (destruct (Z.lt_trichotomy i i') as [?|[?|?]]; [nia|done|nia]).
  subst. lia.
Qed.

Lemma radix_div i j b : 0 <= j < b -> (i * b + j) / b = i.
Proof. intros. rewrite Z.div_add_l by lia. rewrite Z.div_small; lia. Qed.

Lemma radix_mod i j b : 0 <= j < b -> (i * b + j) mod b = j.
Proof. intros. rewrite Z.add_comm, Z.mod_add by lia. by apply Z.mod_small. Qed.

Lemma radix_split k b : 0 < b -> k = (k / b) * b + k mod b.
Proof. intros. rewrite Z.mul_comm. by apply Z.div_mod; lia. Qed.

Lemma div_range k a b : 0 <= k < a * b -> 0 < b -> 0 <= k / b < a.
Proof. intros. split; [apply Z.div_pos; lia|apply Z.div_lt_upper_bound; lia]. Qed.

(** * Slices of byte lists *)
Definition zlen {A} (l : list A) : Z := Z.of_nat (length l).
Definition slice {A} (off len : Z) (l : list A) : list A :=
  take (Z.to_nat len) (drop (Z.to_nat off) l).
(** [splice off v l]: [l] with the elements from [off] on overwritten by [v]. *)
Definition splice {A} (off : Z) (v l : list A) : list A :=
  take (Z.to_nat off) l ++ v ++ drop (Z.to_nat off + length v) l.

Lemma zlen_splice {A} off (v l : list A) :
  0 <= off -> off + zlen v <= zlen l -> zlen (splice off v l) = zlen l.
Proof. unfold zlen, splice. intros. rewrite !length_app, length_take, length_drop. lia. Qed.

Lemma zlen_slice {A} off len (l : list A) :
  0 <= off -> 0 <= len -> off + len <= zlen l -> zlen (slice off len l) = len.
Proof. unfold zlen, slice. intros. rewrite length_take, length_drop. lia. Qed.

Lemma slice_splice_eq {A} off (v l : list A) :
  0 <= off -> off + zlen v <= zlen l -> slice off (zlen v) (splice off v l) = v.
Proof.
  unfold zlen, slice, splice. intros.
  rewrite drop_app_length' by (rewrite length_take; lia).
  rewrite take_app_length' by lia. done.
Qed.

Lemma lookup_splice_ne {A} off (v l : list A) (i : nat) :
  0 <= off -> off + zlen v <= zlen l ->
  Z.of_nat i < off \/ off + zlen v <= Z.of_nat i -> splice off v l !! i = l !! i.
Proof.
  unfold zlen, splice. intros Hoff Hv [Hi|Hi].
  - rewrite lookup_app_l by (rewrite length_take; lia). by rewrite lookup_take_lt by lia.
  - rewrite lookup_app_r by (rewrite length_take; lia).
    rewrite lookup_app_r by (rewrite length_take; lia).
    rewrite lookup_drop, !length_take. f_equal. lia.
Qed.

Lemma slice_ext {A} off len (l l' : list A) :
  0 <= off ->
  (forall i : nat, off <= Z.of_nat i < off + len -> l !! i = l' !! i) -> slice off len l = slice off len l'.
Proof.
  intros Hoff H. unfold slice. apply list_eq. intros i.
  destruct (decide (Z.of_nat i < len)).
  - rewrite !lookup_take_lt, !lookup_drop by lia. apply H. lia.
  - rewrite !lookup_take_ge by lia. done.
Qed.

Lemma slice_splice_ne {A} off len off' (v l : list A) :
  0 <= off -> 0 <= off' -> off' + zlen v <= zlen l ->
  off + len <= off' \/ off' + zlen v <= off ->
  slice off len (splice off' v l) = slice off len l.
Proof. intros. apply slice_ext; [done|]. intros i Hi. apply lookup_splice_ne; lia. Qed.

Lemma slice_lookup {A} off len (l : list A) (i : nat) :
  0 <= off -> Z.of_nat i < len -> slice off len l !! i = l !! (Z.to_nat off + i)%nat.
Proof. intros. unfold slice. rewrite lookup_take_lt, lookup_drop by lia. done. Qed.

(** A slice of a slice. *)
Lemma slice_slice {A} o1 n1 o2 n2 (l : list A) :
  0 <= o1 -> 0 <= o2 -> o2 + n2 <= n1 -> slice o2 n2 (slice o1 n1 l) = slice (o1 + o2) n2 l.
Proof.
  intros. apply list_eq. intros i. destruct (decide (Z.of_nat i < n2)).
  - rewrite !slice_lookup by lia. f_equal. lia.
  - unfold slice. rewrite !lookup_take_ge by lia. done.
Qed.

Lemma lookup_repeat {A} (x : A) (n i : nat) : (i < n)%nat -> repeat x n !! i = Some x.
Proof. revert i. induction n as [|n IH]; intros [|i] Hi; [lia..|done|]. cbn. apply IH. lia. Qed.

Lemma Forall2_zip {A B} (P : A -> B -> Prop) l k :
  Forall2 P l k <-> length l = length k /\ Forall (fun x => P x.1 x.2) (zip l k).
Proof.
  split.
  - induction 1 as [|x y l k Hxy HF [IH1 IH2]]; [done|]. cbn. split; [lia|]. by constructor.
  - revert k. induction l as [|x l IH]; intros [|y k] [Hl HF]; try done.
    apply Forall_cons in HF as [? ?]. constructor; [done|]. apply IH. cbn in Hl. split; [lia|done].
Qed.
