(* ===== verification/MathUtil.v ===== *)
(** Overflow checks (ge/common/math/math_util.h).

    Every integer [Check*Overflow] function of the header, at the width the C++
    integer promotions give its arithmetic, and the [FMK_*CHECK] macros that turn
    a failed check into INTERNAL_ERROR.  The theorems say that each check accepts
    exactly the operands whose exact result is representable, so the wrapped
    machine operation behind an accepted check is the exact one.  The fp16_t,
    float and double checks are in FloatMath.  CheckInt64MulOverflow of ge/common/util.cc, which
    the kernels and a transfer use instead, is at the end. *)
From S2P Require Import Prelude.

(** * Limits (climits, cstdint) *)
Definition INT8_MIN : Z := - 2 ^ 7.
Definition INT8_MAX : Z := 2 ^ 7 - 1.
Definition INT16_MIN : Z := - 2 ^ 15.
Definition INT16_MAX : Z := 2 ^ 15 - 1.
Definition INT32_MIN : Z := - 2 ^ 31.
Definition INT32_MAX : Z := 2 ^ 31 - 1.
Definition INT64_MIN : Z := - 2 ^ 63.
Definition INT64_MAX : Z := 2 ^ 63 - 1.
Definition UINT8_MAX : Z := 2 ^ 8 - 1.
Definition UINT16_MAX : Z := 2 ^ 16 - 1.
Definition UINT32_MAX : Z := 2 ^ 32 - 1.
Definition UINT64_MAX : Z := 2 ^ 64 - 1.

(** * The bodies the header repeats

    [w] is the width the expression is evaluated at after promotion: 32 for the
    types not wider than int, 64 for int64_t and uint64_t. *)
Definition signed_add_check (w MIN MAX a b : Z) : Status :=
  if ((0 <? b) && (wrapS w (MAX - b) <? a)) || ((b <? 0) && (a <? wrapS w (MIN - b)))
  then FAILED else SUCCESS.

Definition signed_sub_check (w MIN MAX a b : Z) : Status :=
  if ((0 <? b) && (a <? wrapS w (MIN + b))) || ((b <? 0) && (wrapS w (MAX + b) <? a))
  then FAILED else SUCCESS.

Definition signed_mul_check (w MIN MAX a b : Z) : Status :=
  if 0 <? a then
    if 0 <? b then
      if wrapS w (Z.quot MAX b) <? a then FAILED else SUCCESS
    else
      if b <? wrapS w (Z.quot MIN a) then FAILED else SUCCESS
  else
    if 0 <? b then
      if a <? wrapS w (Z.quot MIN b) then FAILED else SUCCESS
    else
      if negb (a =? 0) && (b <? wrapS w (Z.quot MAX a)) then FAILED else SUCCESS.

(** [reduce] is the reduction of the promoted type: int for uint8_t and
    uint16_t, the type itself for uint32_t and uint64_t. *)
Definition unsigned_add_check (reduce : Z -> Z) (MAX a b : Z) : Status :=
  if reduce (MAX - b) <? a then FAILED else SUCCESS.

Definition unsigned_sub_check (a b : Z) : Status :=
  if a <? b then FAILED else SUCCESS.

Definition unsigned_mul_check (reduce : Z -> Z) (MAX a b : Z) : Status :=
  if (a =? 0) || (b =? 0) then SUCCESS
  else if reduce (Z.quot MAX b) <? a then FAILED else SUCCESS.

Definition signed_div_check (MIN a b : Z) : Status :=
  if (b =? 0) || ((a =? MIN) && (b =? -1)) then FAILED else SUCCESS.

(** * The checks, one per C++ function *)
Definition CheckIntAddOverflow : Z -> Z -> Status := signed_add_check 32 INT32_MIN INT32_MAX.
Definition CheckInt8AddOverflow : Z -> Z -> Status := signed_add_check 32 INT8_MIN INT8_MAX.
Definition CheckInt16AddOverflow : Z -> Z -> Status := signed_add_check 32 INT16_MIN INT16_MAX.
Definition CheckInt32AddOverflow : Z -> Z -> Status := signed_add_check 32 INT32_MIN INT32_MAX.
Definition CheckInt64AddOverflow : Z -> Z -> Status := signed_add_check 64 INT64_MIN INT64_MAX.
Definition CheckUint8AddOverflow : Z -> Z -> Status := unsigned_add_check (wrapS 32) UINT8_MAX.
Definition CheckUint16AddOverflow : Z -> Z -> Status := unsigned_add_check (wrapS 32) UINT16_MAX.
Definition CheckUint32AddOverflow : Z -> Z -> Status := unsigned_add_check (wrapU 32) UINT32_MAX.
Definition CheckUint64AddOverflow : Z -> Z -> Status := unsigned_add_check (wrapU 64) UINT64_MAX.
Definition CheckIntSubOverflow : Z -> Z -> Status := signed_sub_check 32 INT32_MIN INT32_MAX.
Definition CheckInt8SubOverflow : Z -> Z -> Status := signed_sub_check 32 INT8_MIN INT8_MAX.
Definition CheckInt16SubOverflow : Z -> Z -> Status := signed_sub_check 32 INT16_MIN INT16_MAX.
Definition CheckInt32SubOverflow : Z -> Z -> Status := signed_sub_check 32 INT32_MIN INT32_MAX.
Definition CheckInt64SubOverflow : Z -> Z -> Status := signed_sub_check 64 INT64_MIN INT64_MAX.
Definition CheckUint8SubOverflow : Z -> Z -> Status := unsigned_sub_check.
Definition CheckUint16SubOverflow : Z -> Z -> Status := unsigned_sub_check.
Definition CheckUint32SubOverflow : Z -> Z -> Status := unsigned_sub_check.
Definition CheckUint64SubOverflow : Z -> Z -> Status := unsigned_sub_check.
Definition CheckIntMulOverflow : Z -> Z -> Status := signed_mul_check 32 INT32_MIN INT32_MAX.
Definition CheckInt8MulOverflow : Z -> Z -> Status := signed_mul_check 32 INT8_MIN INT8_MAX.
Definition CheckInt16MulOverflow : Z -> Z -> Status := signed_mul_check 32 INT16_MIN INT16_MAX.
Definition CheckInt32MulOverflow : Z -> Z -> Status := signed_mul_check 32 INT32_MIN INT32_MAX.
Definition Int64MulCheckOverflow : Z -> Z -> Status := signed_mul_check 64 INT64_MIN INT64_MAX.
Definition CheckInt64Int32MulOverflow : Z -> Z -> Status := signed_mul_check 64 INT64_MIN INT64_MAX.
Definition CheckUint8MulOverflow : Z -> Z -> Status := unsigned_mul_check (wrapS 32) UINT8_MAX.
Definition CheckUint16MulOverflow : Z -> Z -> Status := unsigned_mul_check (wrapS 32) UINT16_MAX.
Definition CheckUint32MulOverflow : Z -> Z -> Status := unsigned_mul_check (wrapU 32) UINT32_MAX.
Definition CheckUint64MulOverflow : Z -> Z -> Status := unsigned_mul_check (wrapU 64) UINT64_MAX.

(** int64_t times uint32_t: the quotient is taken in int64_t. *)
Definition CheckInt64Uint32MulOverflow (a b : Z) : Status :=
  if (a =? 0) || (b =? 0) then SUCCESS
  else if 0 <? a then
    if wrapS 64 (Z.quot INT64_MAX b) <? a then FAILED else SUCCESS
  else
    if a <? wrapS 64 (Z.quot INT64_MIN b) then FAILED else SUCCESS.

Definition CheckIntDivOverflow : Z -> Z -> Status := signed_div_check INT32_MIN.
Definition CheckInt32DivOverflow : Z -> Z -> Status := signed_div_check INT32_MIN.

(** * The checking macros: `if (check != SUCCESS) return INTERNAL_ERROR;` *)
Definition fmk_check (st : Status) : outcome unit :=
  require (bool_decide (st = SUCCESS)) INTERNAL_ERROR.

Definition FMK_INT_ADDCHECK (a b : Z) : outcome unit := fmk_check (CheckIntAddOverflow a b).
Definition FMK_INT8_ADDCHECK (a b : Z) : outcome unit := fmk_check (CheckInt8AddOverflow a b).
Definition FMK_INT16_ADDCHECK (a b : Z) : outcome unit := fmk_check (CheckInt16AddOverflow a b).
Definition FMK_INT32_ADDCHECK (a b : Z) : outcome unit := fmk_check (CheckInt32AddOverflow a b).
Definition FMK_INT64_ADDCHECK (a b : Z) : outcome unit := fmk_check (CheckInt64AddOverflow a b).
Definition FMK_UINT8_ADDCHECK (a b : Z) : outcome unit := fmk_check (CheckUint8AddOverflow a b).
Definition FMK_UINT16_ADDCHECK (a b : Z) : outcome unit := fmk_check (CheckUint16AddOverflow a b).
Definition FMK_UINT32_ADDCHECK (a b : Z) : outcome unit := fmk_check (CheckUint32AddOverflow a b).
Definition FMK_UINT64_ADDCHECK (a b : Z) : outcome unit := fmk_check (CheckUint64AddOverflow a b).
Definition FMK_INT_SUBCHECK (a b : Z) : outcome unit := fmk_check (CheckIntSubOverflow a b).
Definition FMK_INT8_SUBCHECK (a b : Z) : outcome unit := fmk_check (CheckInt8SubOverflow a b).
Definition FMK_INT16_SUBCHECK (a b : Z) : outcome unit := fmk_check (CheckInt16SubOverflow a b).
Definition FMK_INT32_SUBCHECK (a b : Z) : outcome unit := fmk_check (CheckInt32SubOverflow a b).
Definition FMK_INT64_SUBCHECK (a b : Z) : outcome unit := fmk_check (CheckInt64SubOverflow a b).
Definition FMK_UINT8_SUBCHECK (a b : Z) : outcome unit := fmk_check (CheckUint8SubOverflow a b).
Definition FMK_UINT16_SUBCHECK (a b : Z) : outcome unit := fmk_check (CheckUint16SubOverflow a b).
Definition FMK_UINT32_SUBCHECK (a b : Z) : outcome unit := fmk_check (CheckUint32SubOverflow a b).
Definition FMK_UINT64_SUBCHECK (a b : Z) : outcome unit := fmk_check (CheckUint64SubOverflow a b).
Definition FMK_INT_MULCHECK (a b : Z) : outcome unit := fmk_check (CheckIntMulOverflow a b).
Definition FMK_INT8_MULCHECK (a b : Z) : outcome unit := fmk_check (CheckInt8MulOverflow a b).
Definition FMK_INT16_MULCHECK (a b : Z) : outcome unit := fmk_check (CheckInt16MulOverflow a b).
Definition FMK_INT32_MULCHECK (a b : Z) : outcome unit := fmk_check (CheckInt32MulOverflow a b).
Definition FMK_INT64_MULCHECK (a b : Z) : outcome unit := fmk_check (Int64MulCheckOverflow a b).
Definition FMK_UINT8_MULCHECK (a b : Z) : outcome unit := fmk_check (CheckUint8MulOverflow a b).
Definition FMK_UINT16_MULCHECK (a b : Z) : outcome unit := fmk_check (CheckUint16MulOverflow a b).
Definition FMK_UINT32_MULCHECK (a b : Z) : outcome unit := fmk_check (CheckUint32MulOverflow a b).
Definition FMK_UINT64_MULCHECK (a b : Z) : outcome unit := fmk_check (CheckUint64MulOverflow a b).
Definition FMK_INT_DIVCHECK (a b : Z) : outcome unit := fmk_check (CheckIntDivOverflow a b).
Definition FMK_INT32_DIVCHECK (a b : Z) : outcome unit := fmk_check (CheckInt32DivOverflow a b).
Definition FMK_INT64_UINT32_MULCHECK (a b : Z) : outcome unit := fmk_check (CheckInt64Uint32MulOverflow a b).

(** * Correctness of the bodies *)
Ltac unfold_limits :=
  unfold INT8_MIN, INT8_MAX, INT16_MIN, INT16_MAX, INT32_MIN, INT32_MAX, INT64_MIN, INT64_MAX,
    UINT8_MAX, UINT16_MAX, UINT32_MAX, UINT64_MAX in *.

(** Closes `status = SUCCESS <-> range` once the branch taken is known. *)
Ltac status_iff := split; intros; try done; try discriminate; try (exfalso; lia); try lia.

(** The truncated quotient against which each sign case compares. *)
Lemma quot_le_iff m a b : 0 <= m -> 0 < b -> 0 <= a -> a <= Z.quot m b <-> a * b <= m.
Proof.
  intros Hm Hb Ha. rewrite Z.quot_div_nonneg by lia. split; intros H.
  - pose proof (Z.mul_div_le m b Hb). nia.
  - apply Z.div_le_lower_bound; lia.
Qed.

Lemma quot_neg_le_iff m a b : 0 <= m -> 0 < a -> b <= 0 -> Z.quot (- m) a <= b <-> - m <= a * b.
Proof.
  intros Hm Ha Hb. rewrite Z.quot_opp_l by lia.
  pose proof (quot_le_iff m (- b) a Hm Ha). lia.
Qed.

Lemma quot_pos_neg_le_iff m a b : 0 <= m -> a < 0 -> b <= 0 -> Z.quot m a <= b <-> a * b <= m.
Proof.
  intros Hm Ha Hb. replace a with (- (- a)) at 1 by lia. rewrite Z.quot_opp_r by lia.
  pose proof (quot_le_iff m (- b) (- a) Hm ltac:(lia)). lia.
Qed.

(** A type [[MIN, MAX]] whose arithmetic is evaluated at the width [w]. *)
Section Signed.
Context (w MIN MAX : Z).
Hypothesis Hw : 0 < w.
Hypothesis Hmin : - 2 ^ (w - 1) <= MIN.
Hypothesis Hmax : MAX < 2 ^ (w - 1).
Hypothesis Hsym : MIN = - MAX - 1.
Hypothesis Hpos : 0 < MAX.

Lemma signed_wrap_id z : MIN <= z <= MAX -> wrapS w z = z.
Proof. intros. apply wrapS_id; [done|]. unfold inS. lia. Qed.

Lemma signed_add_check_exact a b :
  MIN <= a <= MAX -> MIN <= b <= MAX ->
  signed_add_check w MIN MAX a b = SUCCESS <-> MIN <= a + b <= MAX.
Proof.
  intros Ha Hb. unfold signed_add_check.
  destruct (Z.ltb_spec 0 b), (Z.ltb_spec b 0); cbn; try lia.
  - rewrite (signed_wrap_id (MAX - b)) by lia. destruct (Z.ltb_spec (MAX - b) a); cbn; status_iff.
  - rewrite (signed_wrap_id (MIN - b)) by lia. destruct (Z.ltb_spec a (MIN - b)); status_iff.
  - status_iff.
Qed.

Lemma signed_sub_check_exact a b :
  MIN <= a <= MAX -> MIN <= b <= MAX ->
  signed_sub_check w MIN MAX a b = SUCCESS <-> MIN <= a - b <= MAX.
Proof.
  intros Ha Hb. unfold signed_sub_check.
  destruct (Z.ltb_spec 0 b), (Z.ltb_spec b 0); cbn; try lia.
  - rewrite (signed_wrap_id (MIN + b)) by lia. destruct (Z.ltb_spec a (MIN + b)); cbn; status_iff.
  - rewrite (signed_wrap_id (MAX + b)) by lia. destruct (Z.ltb_spec (MAX + b) a); status_iff.
  - status_iff.
Qed.

Lemma quot_in m b : MIN <= m <= MAX -> b <> 0 -> (m = MIN -> b <> -1) -> MIN <= Z.quot m b <= MAX.
Proof using Hsym Hpos.
  intros Hm Hb Hm1. clear Hmin Hmax Hw.
  assert (Z.abs (Z.quot m b) <= Z.abs m).
  { rewrite <- Z.quot_abs by done. apply Z.quot_le_upper_bound; [lia|].
    pose proof (Z.abs_nonneg m). nia. }
  destruct (decide (m = MIN)) as [->|]; [|lia].
  destruct (decide (b = 1)) as [->|]; [rewrite Z.quot_1_r; lia|].
  assert (Z.abs (Z.quot MIN b) <= MAX); [|lia].
  rewrite <- Z.quot_abs by done. apply Z.quot_le_upper_bound; [lia|]. nia.
Qed.

Lemma signed_mul_check_exact a b :
  MIN <= a <= MAX -> MIN <= b <= MAX ->
  signed_mul_check w MIN MAX a b = SUCCESS <-> MIN <= a * b <= MAX.
Proof.
  intros Ha Hb. unfold signed_mul_check.
  destruct (Z.ltb_spec 0 a); destruct (Z.ltb_spec 0 b).
  - rewrite signed_wrap_id by (apply quot_in; lia).
    pose proof (quot_le_iff MAX a b). destruct (Z.ltb_spec (Z.quot MAX b) a); status_iff.
  - rewrite signed_wrap_id by (apply quot_in; lia).
    pose proof (quot_neg_le_iff (- MIN) a b) as Hq. rewrite Z.opp_involutive in Hq.
    destruct (Z.ltb_spec b (Z.quot MIN a)); status_iff.
  - rewrite signed_wrap_id by (apply quot_in; lia).
    pose proof (quot_neg_le_iff (- MIN) b a) as Hq. rewrite Z.opp_involutive in Hq.
    destruct (Z.ltb_spec a (Z.quot MIN b)); status_iff.
  - destruct (Z.eqb_spec a 0) as [->|]; cbn; [status_iff|].
    rewrite signed_wrap_id by (apply quot_in; lia).
    pose proof (quot_pos_neg_le_iff MAX a b).
    destruct (Z.ltb_spec b (Z.quot MAX a)); status_iff.
Qed.

Lemma signed_div_check_exact a b :
  MIN <= a <= MAX -> MIN <= b <= MAX ->
  signed_div_check MIN a b = SUCCESS <-> b <> 0 /\ MIN <= Z.quot a b <= MAX.
Proof.
  intros Ha Hb. unfold signed_div_check.
  destruct (Z.eqb_spec b 0); cbn; [status_iff|].
  destruct (Z.eqb_spec a MIN) as [->|], (Z.eqb_spec b (-1)) as [->|]; cbn.
  - split; [done|]. intros [_ H]. rewrite (Z.quot_opp_r _ 1), Z.quot_1_r in H by lia. lia.
  - split; [intros _; split; [done|apply quot_in; lia]|done].
  - split; [intros _; split; [done|apply quot_in; lia]|done].
  - split; [intros _; split; [done|apply quot_in; lia]|done].
Qed.
End Signed.

(** Unsigned types: [reduce] does not change the values of the type. *)
Section Unsigned.
Context (reduce : Z -> Z) (MAX : Z).
Hypothesis Hred : forall z, 0 <= z <= MAX -> reduce z = z.
Hypothesis Hpos : 0 < MAX.

Lemma unsigned_add_check_exact a b :
  0 <= a <= MAX -> 0 <= b <= MAX -> unsigned_add_check reduce MAX a b = SUCCESS <-> 0 <= a + b <= MAX.
Proof.
  intros Ha Hb. unfold unsigned_add_check. rewrite Hred by lia.
  destruct (Z.ltb_spec (MAX - b) a); status_iff.
Qed.

Lemma unsigned_sub_check_exact a b :
  0 <= a <= MAX -> 0 <= b <= MAX -> unsigned_sub_check a b = SUCCESS <-> 0 <= a - b <= MAX.
Proof. intros Ha Hb. unfold unsigned_sub_check. destruct (Z.ltb_spec a b); status_iff. Qed.

Lemma unsigned_mul_check_exact a b :
  0 <= a <= MAX -> 0 <= b <= MAX -> unsigned_mul_check reduce MAX a b = SUCCESS <-> 0 <= a * b <= MAX.
Proof.
  intros Ha Hb. unfold unsigned_mul_check.
  destruct (Z.eqb_spec a 0) as [->|]; cbn; [status_iff|].
  destruct (Z.eqb_spec b 0) as [->|]; cbn; [status_iff|].
  pose proof (quot_le_iff MAX a b). pose proof (Z.mul_pos_pos a b ltac:(lia) ltac:(lia)).
  rewrite Hred.
  - destruct (Z.ltb_spec (Z.quot MAX b) a); status_iff.
  - split; [apply Z.quot_pos; lia|]. apply Z.quot_le_upper_bound; [lia|]. nia.
Qed.
End Unsigned.

(** * The contract of a check

    What a caller may rely on: on operands of its parameter types, the check
    succeeds exactly when the exact result fits the result type. *)
Class OverflowCheck (check : Z -> Z -> Status) (op : Z -> Z -> Z) (lo hi lo' hi' : Z) : Prop :=
  check_exact : forall a b, lo <= a <= hi -> lo' <= b <= hi' -> check a b = SUCCESS <-> lo <= op a b <= hi.

Ltac signed_check lem := intros a b Ha Hb; apply lem; unfold_limits; lia.
Ltac unsigned_check lem :=
  intros a b Ha Hb; apply lem; unfold_limits; try lia;
  intros z Hz; first [apply wrapU_id; unfold inU; lia | apply wrapS_id; [lia|unfold inS; lia]].

#[export] Instance CheckIntAddOverflow_exact : OverflowCheck CheckIntAddOverflow Z.add INT32_MIN INT32_MAX INT32_MIN INT32_MAX.
Proof. signed_check signed_add_check_exact. Qed.
#[export] Instance CheckInt8AddOverflow_exact : OverflowCheck CheckInt8AddOverflow Z.add INT8_MIN INT8_MAX INT8_MIN INT8_MAX.
Proof. signed_check signed_add_check_exact. Qed.
#[export] Instance CheckInt16AddOverflow_exact : OverflowCheck CheckInt16AddOverflow Z.add INT16_MIN INT16_MAX INT16_MIN INT16_MAX.
Proof. signed_check signed_add_check_exact. Qed.
#[export] Instance CheckInt32AddOverflow_exact : OverflowCheck CheckInt32AddOverflow Z.add INT32_MIN INT32_MAX INT32_MIN INT32_MAX.
Proof. signed_check signed_add_check_exact. Qed.
#[export] Instance CheckInt64AddOverflow_exact : OverflowCheck CheckInt64AddOverflow Z.add INT64_MIN INT64_MAX INT64_MIN INT64_MAX.
Proof. signed_check signed_add_check_exact. Qed.
#[export] Instance CheckUint8AddOverflow_exact : OverflowCheck CheckUint8AddOverflow Z.add 0 UINT8_MAX 0 UINT8_MAX.
Proof. unsigned_check unsigned_add_check_exact. Qed.
#[export] Instance CheckUint16AddOverflow_exact : OverflowCheck CheckUint16AddOverflow Z.add 0 UINT16_MAX 0 UINT16_MAX.
Proof. unsigned_check unsigned_add_check_exact. Qed.
#[export] Instance CheckUint32AddOverflow_exact : OverflowCheck CheckUint32AddOverflow Z.add 0 UINT32_MAX 0 UINT32_MAX.
Proof. unsigned_check unsigned_add_check_exact. Qed.
#[export] Instance CheckUint64AddOverflow_exact : OverflowCheck CheckUint64AddOverflow Z.add 0 UINT64_MAX 0 UINT64_MAX.
Proof. unsigned_check unsigned_add_check_exact. Qed.
#[export] Instance CheckIntSubOverflow_exact : OverflowCheck CheckIntSubOverflow Z.sub INT32_MIN INT32_MAX INT32_MIN INT32_MAX.
Proof. signed_check signed_sub_check_exact. Qed.
#[export] Instance CheckInt8SubOverflow_exact : OverflowCheck CheckInt8SubOverflow Z.sub INT8_MIN INT8_MAX INT8_MIN INT8_MAX.
Proof. signed_check signed_sub_check_exact. Qed.
#[export] Instance CheckInt16SubOverflow_exact : OverflowCheck CheckInt16SubOverflow Z.sub INT16_MIN INT16_MAX INT16_MIN INT16_MAX.
Proof. signed_check signed_sub_check_exact. Qed.
#[export] Instance CheckInt32SubOverflow_exact : OverflowCheck CheckInt32SubOverflow Z.sub INT32_MIN INT32_MAX INT32_MIN INT32_MAX.
Proof. signed_check signed_sub_check_exact. Qed.
#[export] Instance CheckInt64SubOverflow_exact : OverflowCheck CheckInt64SubOverflow Z.sub INT64_MIN INT64_MAX INT64_MIN INT64_MAX.
Proof. signed_check signed_sub_check_exact. Qed.
#[export] Instance CheckUint8SubOverflow_exact : OverflowCheck CheckUint8SubOverflow Z.sub 0 UINT8_MAX 0 UINT8_MAX.
Proof. signed_check unsigned_sub_check_exact. Qed.
#[export] Instance CheckUint16SubOverflow_exact : OverflowCheck CheckUint16SubOverflow Z.sub 0 UINT16_MAX 0 UINT16_MAX.
Proof. signed_check unsigned_sub_check_exact. Qed.
#[export] Instance CheckUint32SubOverflow_exact : OverflowCheck CheckUint32SubOverflow Z.sub 0 UINT32_MAX 0 UINT32_MAX.
Proof. signed_check unsigned_sub_check_exact. Qed.
#[export] Instance CheckUint64SubOverflow_exact : OverflowCheck CheckUint64SubOverflow Z.sub 0 UINT64_MAX 0 UINT64_MAX.
Proof. signed_check unsigned_sub_check_exact. Qed.
#[export] Instance CheckIntMulOverflow_exact : OverflowCheck CheckIntMulOverflow Z.mul INT32_MIN INT32_MAX INT32_MIN INT32_MAX.
Proof. signed_check signed_mul_check_exact. Qed.
#[export] Instance CheckInt8MulOverflow_exact : OverflowCheck CheckInt8MulOverflow Z.mul INT8_MIN INT8_MAX INT8_MIN INT8_MAX.
Proof. signed_check signed_mul_check_exact. Qed.
#[export] Instance CheckInt16MulOverflow_exact : OverflowCheck CheckInt16MulOverflow Z.mul INT16_MIN INT16_MAX INT16_MIN INT16_MAX.
Proof. signed_check signed_mul_check_exact. Qed.
#[export] Instance CheckInt32MulOverflow_exact : OverflowCheck CheckInt32MulOverflow Z.mul INT32_MIN INT32_MAX INT32_MIN INT32_MAX.
Proof. signed_check signed_mul_check_exact. Qed.
#[export] Instance Int64MulCheckOverflow_exact : OverflowCheck Int64MulCheckOverflow Z.mul INT64_MIN INT64_MAX INT64_MIN INT64_MAX.
Proof. signed_check signed_mul_check_exact. Qed.
#[export] Instance CheckInt64Int32MulOverflow_exact : OverflowCheck CheckInt64Int32MulOverflow Z.mul INT64_MIN INT64_MAX INT32_MIN INT32_MAX.
Proof. signed_check signed_mul_check_exact. Qed.
Ltac int64_uint32_check :=
  intros a b Ha Hb; unfold CheckInt64Uint32MulOverflow;
  destruct (Z.eqb_spec a 0) as [->|]; cbn [orb]; [unfold_limits; status_iff|];
  destruct (Z.eqb_spec b 0) as [->|]; cbn [orb]; [rewrite Z.mul_0_r; unfold_limits; status_iff|];
  assert (wrapS 64 (Z.quot INT64_MAX b) = Z.quot INT64_MAX b) as ->
    by (apply (signed_wrap_id 64 INT64_MIN INT64_MAX); try apply quot_in; unfold_limits; lia);
  assert (wrapS 64 (Z.quot INT64_MIN b) = Z.quot INT64_MIN b) as ->
    by (apply (signed_wrap_id 64 INT64_MIN INT64_MAX); try apply quot_in; unfold_limits; lia);
  pose proof (quot_le_iff INT64_MAX a b); pose proof (quot_neg_le_iff (- INT64_MIN) b a) as Hq;
  rewrite Z.opp_involutive, (Z.mul_comm b a) in Hq;
  destruct (Z.ltb_spec 0 a);
  [ pose proof (Z.mul_pos_pos a b); destruct (Z.ltb_spec (Z.quot INT64_MAX b) a)
  | pose proof (Z.mul_neg_pos a b); destruct (Z.ltb_spec a (Z.quot INT64_MIN b)) ];
  unfold_limits; status_iff.

#[export] Instance CheckInt64Uint32MulOverflow_exact : OverflowCheck CheckInt64Uint32MulOverflow Z.mul INT64_MIN INT64_MAX 0 UINT32_MAX.
Proof. int64_uint32_check. Qed.
#[export] Instance CheckUint8MulOverflow_exact : OverflowCheck CheckUint8MulOverflow Z.mul 0 UINT8_MAX 0 UINT8_MAX.
Proof. unsigned_check unsigned_mul_check_exact. Qed.
#[export] Instance CheckUint16MulOverflow_exact : OverflowCheck CheckUint16MulOverflow Z.mul 0 UINT16_MAX 0 UINT16_MAX.
Proof. unsigned_check unsigned_mul_check_exact. Qed.
#[export] Instance CheckUint32MulOverflow_exact : OverflowCheck CheckUint32MulOverflow Z.mul 0 UINT32_MAX 0 UINT32_MAX.
Proof. unsigned_check unsigned_mul_check_exact. Qed.
#[export] Instance CheckUint64MulOverflow_exact : OverflowCheck CheckUint64MulOverflow Z.mul 0 UINT64_MAX 0 UINT64_MAX.
Proof. unsigned_check unsigned_mul_check_exact. Qed.

(** A macro is its check: it lets the operands through exactly when the result
    fits, and fails with INTERNAL_ERROR otherwise. *)
Lemma fmk_check_cases check op lo hi lo' hi' `{!OverflowCheck check op lo hi lo' hi'} a b :
  lo <= a <= hi -> lo' <= b <= hi' ->
  (fmk_check (check a b) = Ok tt /\ lo <= op a b <= hi) \/
  (fmk_check (check a b) = Err INTERNAL_ERROR /\ ~ lo <= op a b <= hi).
Proof.
  intros Ha Hb. pose proof (check_exact a b Ha Hb) as Hx. unfold fmk_check, require.
  case_bool_decide; [left|right]; split; tauto.
Qed.

(** * Properties *)

(** For every integer type of the header, the addition, subtraction and multiplication
    checks return SUCCESS exactly when the mathematical result lies in the range of the type, for all
    operands in range: they reject every overflow and no representable result. *)
Theorem integer_checks_exact :
  OverflowCheck CheckIntAddOverflow Z.add INT32_MIN INT32_MAX INT32_MIN INT32_MAX /\
  OverflowCheck CheckInt8AddOverflow Z.add INT8_MIN INT8_MAX INT8_MIN INT8_MAX /\
  OverflowCheck CheckInt16AddOverflow Z.add INT16_MIN INT16_MAX INT16_MIN INT16_MAX /\
  OverflowCheck CheckInt32AddOverflow Z.add INT32_MIN INT32_MAX INT32_MIN INT32_MAX /\
  OverflowCheck CheckInt64AddOverflow Z.add INT64_MIN INT64_MAX INT64_MIN INT64_MAX /\
  OverflowCheck CheckUint8AddOverflow Z.add 0 UINT8_MAX 0 UINT8_MAX /\
  OverflowCheck CheckUint16AddOverflow Z.add 0 UINT16_MAX 0 UINT16_MAX /\
  OverflowCheck CheckUint32AddOverflow Z.add 0 UINT32_MAX 0 UINT32_MAX /\
  OverflowCheck CheckUint64AddOverflow Z.add 0 UINT64_MAX 0 UINT64_MAX /\
  OverflowCheck CheckIntSubOverflow Z.sub INT32_MIN INT32_MAX INT32_MIN INT32_MAX /\
  OverflowCheck CheckInt8SubOverflow Z.sub INT8_MIN INT8_MAX INT8_MIN INT8_MAX /\
  OverflowCheck CheckInt16SubOverflow Z.sub INT16_MIN INT16_MAX INT16_MIN INT16_MAX /\
  OverflowCheck CheckInt32SubOverflow Z.sub INT32_MIN INT32_MAX INT32_MIN INT32_MAX /\
  OverflowCheck CheckInt64SubOverflow Z.sub INT64_MIN INT64_MAX INT64_MIN INT64_MAX /\
  OverflowCheck CheckUint8SubOverflow Z.sub 0 UINT8_MAX 0 UINT8_MAX /\
  OverflowCheck CheckUint16SubOverflow Z.sub 0 UINT16_MAX 0 UINT16_MAX /\
  OverflowCheck CheckUint32SubOverflow Z.sub 0 UINT32_MAX 0 UINT32_MAX /\
  OverflowCheck CheckUint64SubOverflow Z.sub 0 UINT64_MAX 0 UINT64_MAX /\
  OverflowCheck CheckIntMulOverflow Z.mul INT32_MIN INT32_MAX INT32_MIN INT32_MAX /\
  OverflowCheck CheckInt8MulOverflow Z.mul INT8_MIN INT8_MAX INT8_MIN INT8_MAX /\
  OverflowCheck CheckInt16MulOverflow Z.mul INT16_MIN INT16_MAX INT16_MIN INT16_MAX /\
  OverflowCheck CheckInt32MulOverflow Z.mul INT32_MIN INT32_MAX INT32_MIN INT32_MAX /\
  OverflowCheck Int64MulCheckOverflow Z.mul INT64_MIN INT64_MAX INT64_MIN INT64_MAX /\
  OverflowCheck CheckInt64Int32MulOverflow Z.mul INT64_MIN INT64_MAX INT32_MIN INT32_MAX /\
  OverflowCheck CheckInt64Uint32MulOverflow Z.mul INT64_MIN INT64_MAX 0 UINT32_MAX /\
  OverflowCheck CheckUint8MulOverflow Z.mul 0 UINT8_MAX 0 UINT8_MAX /\
  OverflowCheck CheckUint16MulOverflow Z.mul 0 UINT16_MAX 0 UINT16_MAX /\
  OverflowCheck CheckUint32MulOverflow Z.mul 0 UINT32_MAX 0 UINT32_MAX /\
  OverflowCheck CheckUint64MulOverflow Z.mul 0 UINT64_MAX 0 UINT64_MAX.
Proof. split_and!; apply _. Qed.

(** The division checks return SUCCESS exactly when the divisor is not zero
    and the truncated quotient is an int. *)
Theorem div_checks_exact a b :
  INT32_MIN <= a <= INT32_MAX -> INT32_MIN <= b <= INT32_MAX ->
  (CheckIntDivOverflow a b = SUCCESS <-> b <> 0 /\ INT32_MIN <= Z.quot a b <= INT32_MAX) /\
  (CheckInt32DivOverflow a b = SUCCESS <-> b <> 0 /\ INT32_MIN <= Z.quot a b <= INT32_MAX).
Proof. intros Ha Hb. split; apply (signed_div_check_exact 32 INT32_MIN INT32_MAX); unfold_limits; lia. Qed.

Lemma div_checks_exact_witness :
  CheckIntDivOverflow INT32_MIN (-1) = FAILED /\
  ((CheckIntDivOverflow 7 (-2) = SUCCESS <-> -2 <> 0 /\ INT32_MIN <= Z.quot 7 (-2) <= INT32_MAX) /\
   (CheckInt32DivOverflow 7 (-2) = SUCCESS <-> -2 <> 0 /\ INT32_MIN <= Z.quot 7 (-2) <= INT32_MAX)).
Proof. split; [reflexivity|]. apply (div_checks_exact 7 (-2)); unfold_limits; lia. Defined.

(** Behind each 64-bit checking macro the machine operation is exact: the
    macro either passes and the two's-complement result is the mathematical one,
    or it returns INTERNAL_ERROR and the mathematical result is not an int64_t. *)
Theorem fmk_int64_checks_sound a b :
  INT64_MIN <= a <= INT64_MAX -> INT64_MIN <= b <= INT64_MAX ->
  ((FMK_INT64_ADDCHECK a b = Ok tt /\ (a + b)%i64 = a + b) \/
   (FMK_INT64_ADDCHECK a b = Err INTERNAL_ERROR /\ ~ INT64_MIN <= a + b <= INT64_MAX)) /\
  ((FMK_INT64_SUBCHECK a b = Ok tt /\ (a - b)%i64 = a - b) \/
   (FMK_INT64_SUBCHECK a b = Err INTERNAL_ERROR /\ ~ INT64_MIN <= a - b <= INT64_MAX)) /\
  ((FMK_INT64_MULCHECK a b = Ok tt /\ (a * b)%i64 = a * b) \/
   (FMK_INT64_MULCHECK a b = Err INTERNAL_ERROR /\ ~ INT64_MIN <= a * b <= INT64_MAX)).
Proof.
  intros Ha Hb. split_and!.
  - destruct (fmk_check_cases CheckInt64AddOverflow Z.add _ _ _ _ a b Ha Hb) as [[H1 H2]|H];
      [left|by right]. split; [done|]. apply wrap64_id. unfold_limits. lia.
  - destruct (fmk_check_cases CheckInt64SubOverflow Z.sub _ _ _ _ a b Ha Hb) as [[H1 H2]|H];
      [left|by right]. split; [done|]. apply wrap64_id. unfold_limits. lia.
  - destruct (fmk_check_cases Int64MulCheckOverflow Z.mul _ _ _ _ a b Ha Hb) as [[H1 H2]|H];
      [left|by right]. split; [done|]. apply wrap64_id. unfold_limits. lia.
Qed.

Lemma fmk_int64_checks_sound_witness :
  FMK_INT64_MULCHECK (2 ^ 62) 2 = Err INTERNAL_ERROR /\
  ((FMK_INT64_ADDCHECK (2 ^ 62) 2 = Ok tt /\ (2 ^ 62 + 2)%i64 = 2 ^ 62 + 2) \/
   (FMK_INT64_ADDCHECK (2 ^ 62) 2 = Err INTERNAL_ERROR /\ ~ INT64_MIN <= 2 ^ 62 + 2 <= INT64_MAX)).
Proof. split; [reflexivity|]. apply (fmk_int64_checks_sound (2 ^ 62) 2); unfold_limits; lia. Defined.

(** * The multiplication check of ge/common/util.cc *)
Definition CheckInt64MulOverflow (a b : Z) : bool :=
  if 0 <? a then
    if 0 <? b then negb (quot64 INT64_MAX b <? a) else negb (b <? quot64 INT64_MIN a)
  else
    if 0 <? b then negb (a <? quot64 INT64_MIN b) else negb (negb (a =? 0) && (b <? quot64 INT64_MAX a)).

Lemma CheckInt64MulOverflow_small a b : 0 <= a -> 0 <= b -> a * b < 2 ^ 63 -> CheckInt64MulOverflow a b = true.
Proof.
  intros Ha Hb H. unfold CheckInt64MulOverflow, quot64, INT64_MAX, INT64_MIN. destruct (Z.ltb_spec 0 a).
  - destruct (Z.ltb_spec 0 b).
    + assert (a <= (2 ^ 63 - 1) ÷ b) by (rewrite Z.quot_div_nonneg by lia; apply Z.div_le_lower_bound; lia).
      assert ((2 ^ 63 - 1) ÷ b <= 2 ^ 63 - 1) by (rewrite Z.quot_div_nonneg by lia; apply Z.div_le_upper_bound; nia).
      rewrite wrap64_id by lia. destruct (Z.ltb_spec ((2 ^ 63 - 1) ÷ b) a); [lia|done].
    + assert (b = 0) as -> by lia. destruct (Z.ltb_spec 0 (wrap64 ((- 2 ^ 63) ÷ a))) as [Hq|]; [|done]. exfalso.
      assert (- 2 ^ 63 <= (- 2 ^ 63) ÷ a <= 0).
      { rewrite Z.quot_opp_l, Z.quot_div_nonneg by lia. pose proof (Z.div_pos (2 ^ 63) a ltac:(lia) ltac:(lia)).
        pose proof (Z.div_le_upper_bound (2 ^ 63) a (2 ^ 63) ltac:(lia) ltac:(nia)). lia. }
      rewrite wrap64_id in Hq; lia.
  - assert (a = 0) as -> by lia. destruct (Z.ltb_spec 0 b); [|done].
    destruct (Z.ltb_spec 0 (wrap64 ((- 2 ^ 63) ÷ b))) as [Hq|]; [|done]. exfalso.
    assert (- 2 ^ 63 <= (- 2 ^ 63) ÷ b <= 0).
    { rewrite Z.quot_opp_l, Z.quot_div_nonneg by lia. pose proof (Z.div_pos (2 ^ 63) b ltac:(lia) ltac:(lia)).
      pose proof (Z.div_le_upper_bound (2 ^ 63) b (2 ^ 63) ltac:(lia) ltac:(nia)). lia. }
    rewrite wrap64_id in Hq; lia.
Qed.
