(* ===== verification/Buffer.v ===== *)
(** Byte buffers and the C functions that move them.

    The format transfers fill a freshly allocated byte buffer with memcpy_s and
    memset_s inside loop nests.  [Env] holds what they take from outside the
    repository: the securec library, the allocator's answers and the element
    sizes of the metadef library; [EnvOk] states the documented behaviour they
    rely on.  [Fills] is the specification of a piece of such a loop nest, with
    one rule per construct. *)
From S2P Require Import Prelude.

(** * Enumerations of the metadef library

    The enumerators the sources of this repository name; every other value is
    an [_OTHER]. *)
Inductive DataType :=
| DT_FLOAT
| DT_FLOAT16
| DT_INT8
| DT_INT16
| DT_INT32
| DT_INT64
| DT_UINT8
| DT_UINT16
| DT_UINT32
| DT_UINT64
| DT_BOOL
| DT_DOUBLE
| DT_OTHER (code : Z).

Inductive Format :=
| FORMAT_NCHW
| FORMAT_NHWC
| FORMAT_ND
| FORMAT_NC1HWC0
| FORMAT_FRACTAL_Z
| FORMAT_FRACTAL_Z_C04
| FORMAT_C1HWNCoC0
| FORMAT_HWCN
| FORMAT_CHWN
| FORMAT_DHWCN
| FORMAT_DHWNC
| FORMAT_FRACTAL_Z_3D
| FORMAT_FRACTAL_Z_3D_TRANSPOSE
| FORMAT_FRACTAL_NZ
| FORMAT_FRACTAL_ZZ
| FORMAT_OTHER (code : Z).

#[export] Instance DataType_eq_dec : EqDecision DataType.
Proof. solve_decision. Defined.
#[export] Instance Format_eq_dec : EqDecision Format.
Proof. solve_decision. Defined.

(** * The environment of the transfers *)
Class Env := {
  (** metadef: bytes of one element, not positive when the type is invalid. *)
  GetSizeByDataType : DataType -> Z;
  (** securec: the largest destMax memcpy_s and memset_s accept, and "no error". *)
  SECUREC_MEM_MAX_LEN : Z;
  EOK : Z;
  (** [memcpy_s dst doff dmax src soff n] is memcpy_s(dst + doff, dmax, src + soff, n):
      the error code and the new contents of [dst].  [None] is the null pointer. *)
  memcpy_s : list Z -> Z -> Z -> option (list Z) -> Z -> Z -> Z * list Z;
  (** The error code of memcpy_s for a null destination. *)
  memcpy_s_null_dst : Z;
  (** [memset_s dst doff dmax c n] is memset_s(dst + doff, dmax, c, n). *)
  memset_s : list Z -> Z -> Z -> Z -> Z -> Z * list Z;
  (** What `new (std::nothrow) uint8_t[n]` gives: the null pointer, or a buffer
      with unspecified contents.  It is a function of the size: two requests of one size have one answer. *)
  new_uint8 : Z -> option (list Z);
}.

(** Documented behaviour: EOK is 0, element sizes are a few bytes, destMax is limited to
    2 GB, and a call that asks for at most destMax bytes, all inside the two buffers, copies
    or sets exactly those bytes.  Nothing is assumed about other calls. *)
Class EnvOk (E : Env) : Prop := {
  EOK_zero : EOK = 0;
  GetSizeByDataType_small d : GetSizeByDataType d <= 1024;
  SECUREC_MEM_MAX_LEN_2G : 2 ^ 31 - 1 <= SECUREC_MEM_MAX_LEN < 2 ^ 63;
  memcpy_s_ok dst doff dmax src soff n :
    0 < n <= dmax -> dmax <= SECUREC_MEM_MAX_LEN ->
    0 <= doff -> doff + n <= zlen dst -> 0 <= soff -> soff + n <= zlen src ->
    memcpy_s dst doff dmax (Some src) soff n = (EOK, splice doff (slice soff n src) dst);
  memcpy_s_null_dst_err : memcpy_s_null_dst <> EOK;
  memset_s_ok dst doff dmax c n :
    0 < n <= dmax -> dmax <= SECUREC_MEM_MAX_LEN ->
    0 <= doff -> doff + dmax <= zlen dst ->
    memset_s dst doff dmax c n = (EOK, splice doff (repeat c (Z.to_nat n)) dst);
  new_uint8_len n b : new_uint8 n = Some b -> zlen b = Z.max 0 n;
}.

(** An environment that meets [EnvOk], used to run the model: elements have
    their usual width, securec checks its documented error conditions, and
    the allocator returns 0xCD bytes. *)
Definition sample_env : Env := {|
  GetSizeByDataType := fun d =>
    match d with
    | DT_INT8 | DT_UINT8 | DT_BOOL => 1
    | DT_FLOAT16 | DT_INT16 | DT_UINT16 => 2
    | DT_FLOAT | DT_INT32 | DT_UINT32 => 4
    | DT_INT64 | DT_UINT64 | DT_DOUBLE => 8
    | DT_OTHER _ => -1
    end;
  SECUREC_MEM_MAX_LEN := 2 ^ 31 - 1;
  EOK := 0;
  memcpy_s := fun dst doff dmax src soff n =>
    match src with
    | Some src =>
        if (dmax =? 0) || (2 ^ 31 - 1 <? dmax) then (34, dst)
        else if dmax <? n then (162, dst)
        else (0, splice doff (slice soff n src) dst)
    | None => (22, dst)
    end;
  memcpy_s_null_dst := 22;
  memset_s := fun dst doff dmax c n =>
    if (dmax =? 0) || (2 ^ 31 - 1 <? dmax) then (34, dst)
    else if dmax <? n then (162, dst)
    else (0, splice doff (repeat c (Z.to_nat n)) dst);
  new_uint8 := fun n => Some (repeat 205 (Z.to_nat n));
|}.

Section Transfer.
Context `{E : Env}.

(** `protected_size`: the room left in the destination, capped at what securec
    accepts, as every transfer computes it. *)
Definition protected_size (total_size dst_offset : Z) : Z :=
  if (total_size - dst_offset)%i64 <? SECUREC_MEM_MAX_LEN
  then (total_size - dst_offset)%i64 else SECUREC_MEM_MAX_LEN.

(** `new (std::nothrow) uint8_t[n]()`: the elements are set to zero. *)
Definition new_uint8_zero (n : Z) : option (list Z) := (fun b => repeat 0 (length b)) <$> new_uint8 n.

(** A securec call whose error the caller turns into INTERNAL_ERROR. *)
Definition check_eok (r : Z * list Z) : outcome (list Z) :=
  if r.1 =? EOK then Ok r.2 else Err INTERNAL_ERROR.

(** The byte loop `*dst_data++ = *src_data++` over [n] bytes; reading or writing
    outside a buffer is undefined. *)
Definition copy_bytes (dst : list Z) (doff : Z) (src : option (list Z)) (soff n : Z) : outcome (list Z) :=
  match src with
  | None => Stuck
  | Some src =>
    for_range n (fun i dst =>
      if (doff + i <? 0) || (soff + i <? 0) then Stuck else
      b ← at_ src (Z.to_nat (soff + i));
      if decide (doff + i < zlen dst) then Ok (<[Z.to_nat (doff + i) := b]> dst) else Stuck) dst
  end.

(** The copy of one element as the fractal transfers write it: a check of the
    room left, then the byte loop. *)
Definition copy_element (dst : list Z) (offset protected_size : Z) (src : option (list Z)) (src_offset size : Z) :
    outcome (list Z) :=
  if protected_size <? size then Err INTERNAL_ERROR else copy_bytes dst offset src src_offset size.

(** * Buffers seen as arrays of elements *)
Definition elem (size : Z) (b : list Z) (k : Z) : list Z := slice (k * size) size b.
Definition zeros (size : Z) : list Z := repeat 0 (Z.to_nat size).

(** [Fills size N V body D]: run on any buffer of [N] elements, [body] completes;
    afterwards every element in [D] is the one [V] specifies, and an element that
    already was stays so. *)
Definition Fills (size N : Z) (V : Z -> list Z) (body : list Z -> outcome (list Z)) (D : Z -> Prop) : Prop :=
  forall b, zlen b = N * size ->
  exists b', body b = Ok b' /\ zlen b' = N * size /\
    (forall k, 0 <= k < N -> elem size b k = V k -> elem size b' k = V k) /\
    (forall k, 0 <= k < N -> D k -> elem size b' k = V k).
End Transfer.

(** * Lemmas on elements *)
Lemma zlen_zeros size : 0 <= size -> zlen (zeros size) = size.
Proof. intros. unfold zlen, zeros. rewrite repeat_length. lia. Qed.

Lemma zlen_repeat {A} (x : A) n : 0 <= n -> zlen (repeat x (Z.to_nat n)) = n.
Proof. intros. unfold zlen. rewrite repeat_length. lia. Qed.

Lemma zlen_repeat_nat {A} (x : A) (n : nat) : zlen (repeat x n) = Z.of_nat n.
Proof. unfold zlen. by rewrite repeat_length. Qed.

Lemma elem_bound k N size : 0 <= k < N -> 0 < size -> 0 <= k * size /\ k * size + size <= N * size.
Proof. nia. Qed.

(** Byte counts and byte offsets of the tensors the checks admit fit int64_t. *)
Lemma bytes_bound T size : 0 <= T <= 2 ^ 40 -> 0 < size <= 1024 -> 0 <= T * size < 2 ^ 63.
Proof. nia. Qed.

Lemma offset_bound k T size :
  0 <= k < T -> T <= 2 ^ 40 -> 0 < size <= 1024 -> - 2 ^ 63 <= k * size < 2 ^ 63.
Proof. nia. Qed.

(** The same for targets whose padding no check bounds. *)
Lemma bytes_bound_wide T size : 0 <= T <= 2 ^ 50 -> 0 < size <= 1024 -> 0 <= T * size < 2 ^ 63.
Proof. nia. Qed.

Lemma offset_bound_wide k T size :
  0 <= k < T -> T <= 2 ^ 50 -> 0 < size <= 1024 -> - 2 ^ 63 <= k * size < 2 ^ 63.
Proof. nia. Qed.

Lemma zlen_elem size N b k : 0 < size -> zlen b = N * size -> 0 <= k < N -> zlen (elem size b k) = size.
Proof. intros. unfold elem. pose proof (elem_bound k N size). apply zlen_slice; lia. Qed.

Lemma elem_splice_eq size N b k v :
  0 < size -> zlen b = N * size -> 0 <= k < N -> zlen v = size -> elem size (splice (k * size) v b) k = v.
Proof.
  intros. pose proof (elem_bound k N size). unfold elem.
  replace size with (zlen v) at 2 by done. apply slice_splice_eq; lia.
Qed.

Lemma elem_splice_ne size N b k j v :
  0 < size -> zlen b = N * size -> 0 <= k < N -> 0 <= j < N -> k <> j -> zlen v = size ->
  elem size (splice (k * size) v b) j = elem size b j.
Proof.
  intros. pose proof (elem_bound k N size). unfold elem.
  apply slice_splice_ne; [nia|lia|lia|]. assert (j < k \/ k < j) as [|] by lia; [left|right]; nia.
Qed.

(** An element of a run of elements. *)
Lemma elem_slice size (l : list Z) s m j :
  0 < size -> 0 <= s -> 0 <= j < m -> elem size (slice (s * size) (m * size) l) j = elem size l (s + j).
Proof.
  intros. unfold elem. rewrite slice_slice by nia. f_equal. ring.
Qed.

Lemma elem_splice_run size N b k m v j :
  0 < size -> zlen b = N * size -> 0 <= k -> k + m <= N -> zlen v = m * size -> 0 <= j < m ->
  elem size (splice (k * size) v b) (k + j) = elem size v j.
Proof.
  intros Hs Hb Hk Hm Hv Hj.
  rewrite <- (elem_slice size (splice (k * size) v b) k m j) by lia. rewrite <- Hv.
  rewrite slice_splice_eq; [done|nia|]. rewrite Hv, Hb. nia.
Qed.

Lemma elem_splice_out size N b k m v j :
  0 < size -> zlen b = N * size -> 0 <= k -> k + m <= N -> zlen v = m * size -> 0 <= j < N -> j < k \/ k + m <= j ->
  elem size (splice (k * size) v b) j = elem size b j.
Proof.
  intros. unfold elem. apply slice_splice_ne; [nia|nia|nia|]. rewrite H3. destruct H5; [left|right]; nia.
Qed.

Lemma elem_zero size n k : 0 < size -> 0 <= k -> (k + 1) * size <= Z.of_nat n -> elem size (repeat 0 n) k = zeros size.
Proof.
  intros Hs Hk Hn. unfold elem, slice, zeros.
  apply list_eq. intros i. destruct (decide (i < Z.to_nat size)%nat) as [Hi|Hi].
  - rewrite lookup_take_lt, lookup_drop by lia. rewrite !lookup_repeat by nia. done.
  - rewrite lookup_take_ge by lia. symmetry. apply lookup_ge_None_2. rewrite repeat_length. lia.
Qed.

(** Two buffers with the same elements are equal. *)
Lemma elem_ext size N b b' :
  0 < size -> zlen b = N * size -> zlen b' = N * size ->
  (forall k, 0 <= k < N -> elem size b k = elem size b' k) -> b = b'.
Proof.
  intros Hs Hb Hb' Hk. apply list_eq. intros i.
  destruct (decide (Z.of_nat i < N * size)) as [Hi|Hi].
  - pose proof (div_range (Z.of_nat i) N size ltac:(lia) Hs) as Hq.
    pose proof (Z.mod_pos_bound (Z.of_nat i) size Hs) as Hr.
    pose proof (radix_split (Z.of_nat i) size Hs) as Hdm.
    set (q := Z.of_nat i / size) in *. set (r := Z.of_nat i mod size) in *.
    specialize (Hk q Hq). unfold elem in Hk.
    apply (f_equal (fun l => l !! Z.to_nat r)) in Hk.
    rewrite !slice_lookup in Hk by nia.
    by replace i with (Z.to_nat (q * size) + Z.to_nat r)%nat by nia.
  - rewrite !lookup_ge_None_2 by (unfold zlen in *; lia). done.
Qed.

(** * Rules for [Fills] *)
Section Rules.
Context (size N : Z) (V : Z -> list Z).
Hypothesis Hsize : 0 < size.
Hypothesis HV : forall k, 0 <= k < N -> zlen (V k) = size.

Lemma Fills_mono body (D D' : Z -> Prop) :
  Fills size N V body D -> (forall k, 0 <= k < N -> D' k -> D k) -> Fills size N V body D'.
Proof. intros HF HD b Hb. destruct (HF b Hb) as (b' & ? & ? & ? & ?). exists b'. split_and!; auto. Qed.

(** Writing the specified element [k] at its place. *)
Lemma Fills_elem body k :
  0 <= k < N -> (forall b, zlen b = N * size -> body b = Ok (splice (k * size) (V k) b)) ->
  Fills size N V body (fun j => j = k).
Proof.
  intros Hk Hbody b Hb. exists (splice (k * size) (V k) b). rewrite Hbody by done.
  pose proof (elem_bound k N size Hk Hsize). pose proof (HV k Hk).
  split_and!; [done|by rewrite zlen_splice by lia|..].
  - intros j Hj Hjv. destruct (decide (j = k)) as [->|].
    + apply elem_splice_eq with N; auto.
    + rewrite elem_splice_ne with (N := N); auto.
  - intros j Hj ->. apply elem_splice_eq with N; auto.
Qed.

(** Writing a run of [m] specified elements from [k] on. *)
Lemma Fills_elems body k m :
  0 <= k -> 0 <= m -> k + m <= N ->
  (forall b, zlen b = N * size -> exists v, body b = Ok (splice (k * size) v b) /\ zlen v = m * size /\
     forall j, 0 <= j < m -> elem size v j = V (k + j)) ->
  Fills size N V body (fun i => k <= i < k + m).
Proof.
  intros Hk Hm HkN Hbody b Hb. destruct (Hbody b Hb) as (v & Hr & Hv & Hel). exists (splice (k * size) v b).
  assert (Hin : forall i, k <= i < k + m -> elem size (splice (k * size) v b) i = V i).
  { intros i Hi. replace i with (k + (i - k)) by lia. rewrite (elem_splice_run size N b k m v) by (done || lia). apply Hel. lia. }
  split_and!; [done|rewrite zlen_splice; [done|nia|nia]| |].
  - intros i Hi Hv'. destruct (decide (k <= i < k + m)) as [|Hout]; [by apply Hin|].
    rewrite (elem_splice_out size N b k m v) by (done || lia). done.
  - intros i _ Hi. by apply Hin.
Qed.

(** A loop fills what its iterations fill. *)
Lemma Fills_for n body (D : Z -> Z -> Prop) :
  (forall i, 0 <= i < n -> Fills size N V (body i) (D i)) ->
  Fills size N V (for_range n body) (fun k => exists i, 0 <= i < n /\ D i k).
Proof.
  intros Hbody b Hb.
  destruct (for_range_inv (fun i b' => zlen b' = N * size /\
      (forall k, 0 <= k < N -> elem size b k = V k -> elem size b' k = V k) /\
      (forall k, 0 <= k < N -> (exists j, 0 <= j < i /\ D j k) -> elem size b' k = V k)) n body b)
    as (b' & Hr & Hl & Hkeep & Hdone).
  - split_and!; [done|done|]. intros k _ (j & ? & _). lia.
  - intros i b1 Hi (Hl & Hkeep & Hdone).
    destruct (Hbody i Hi b1 Hl) as (b2 & Hb2 & Hl2 & Hk2 & Hd2).
    exists b2. split_and!; [done|done|auto|].
    intros k Hk (j & Hj & HD). destruct (decide (j = i)) as [->|]; [auto|].
    apply Hk2; [done|]. apply Hdone; [done|]. exists j. split; [lia|done].
  - exists b'. split_and!; [done|done|done|]. intros k Hk (j & ? & ?). apply Hdone; [done|].
    exists j. split; [lia|done].
Qed.

Lemma Fills_seq f g (D D' : Z -> Prop) :
  Fills size N V f D -> Fills size N V g D' ->
  Fills size N V (fun b => f b ≫= g) (fun k => D k \/ D' k).
Proof.
  intros Hf Hg b Hb. destruct (Hf b Hb) as (b1 & Hf1 & Hl1 & Hk1 & Hd1).
  destruct (Hg b1 Hl1) as (b2 & Hg2 & Hl2 & Hk2 & Hd2).
  exists b2. rewrite Hf1. cbn [mbind outcome_bind]. split_and!; [done|done|auto|].
  intros k Hk [?|?]; auto.
Qed.

(** Running a nest from a fresh buffer and returning a value built from it. *)
Lemma Fills_run {A} body D b (f : list Z -> A) (P : list Z -> Prop) :
  Fills size N V body D -> zlen b = N * size ->
  (forall out, zlen out = N * size -> (forall k, 0 <= k < N -> D k -> elem size out k = V k) -> P out) ->
  exists out, (body b ≫= fun b' => Ok (f b')) = Ok (f out) /\ P out.
Proof.
  intros HF Hb HP. destruct (HF b Hb) as (b' & Hr & ? & _ & ?). exists b'. rewrite Hr. split; [done|]. auto.
Qed.

(** The same when the elements the nest does not reach are right from the start. *)
Lemma Fills_run_from {A} body D b (f : list Z -> A) (P : list Z -> Prop) :
  Fills size N V body D -> zlen b = N * size -> (forall k, 0 <= k < N -> D k \/ elem size b k = V k) ->
  (forall out, zlen out = N * size -> (forall k, 0 <= k < N -> elem size out k = V k) -> P out) ->
  exists out, (body b ≫= fun b' => Ok (f b')) = Ok (f out) /\ P out.
Proof.
  intros HF Hb Hinit HP. destruct (HF b Hb) as (b' & Hr & Hl & Hkeep & Hdone). exists b'. rewrite Hr. split; [done|].
  apply HP; [done|]. intros k Hk. destruct (Hinit k Hk); auto.
Qed.

(** A nest that reaches every element makes the buffer the specified one. *)
Lemma Fills_all body b :
  Fills size N V body (fun _ => True) -> zlen b = N * size ->
  exists b', body b = Ok b' /\ zlen b' = N * size /\ forall k, 0 <= k < N -> elem size b' k = V k.
Proof. intros HF Hb. destruct (HF b Hb) as (b' & ? & ? & _ & ?). exists b'. split_and!; auto. Qed.
End Rules.

(** An element is reached by a nest: name the iteration of each loop. *)
Ltac nest_cover := repeat (eexists; split; [eassumption|]); reflexivity.

(** * The byte loop copies a slice *)
Lemma splice_snoc {A} (dst : list A) doff v x :
  0 <= doff -> doff + zlen v < zlen dst ->
  <[Z.to_nat (doff + zlen v) := x]> (splice doff v dst) = splice doff (v ++ [x]) dst.
Proof.
  intros H0 H1. unfold zlen in H1. unfold splice.
  destruct (drop (Z.to_nat doff + length v) dst) as [|y rest] eqn:Hd.
  { apply (f_equal length) in Hd. rewrite length_drop in Hd. cbn in Hd. lia. }
  assert (drop (Z.to_nat doff + length (v ++ [x])) dst = rest) as ->.
  { rewrite length_app. cbn. rewrite Nat.add_assoc, <- drop_drop, Hd. done. }
  rewrite insert_app_r_alt by (rewrite length_take; unfold zlen; lia).
  rewrite insert_app_r_alt by (rewrite length_take; unfold zlen; lia).
  rewrite length_take. replace (_ - _ - _)%nat with 0%nat by (unfold zlen; lia).
  cbn. by rewrite <- app_assoc.
Qed.

Lemma slice_snoc (src : list Z) soff n x :
  0 <= soff -> 0 <= n -> src !! Z.to_nat (soff + n) = Some x -> slice soff (n + 1) src = slice soff n src ++ [x].
Proof.
  intros Hs Hn Hx. unfold slice. replace (Z.to_nat (n + 1)) with (S (Z.to_nat n)) by lia.
  apply take_S_r. rewrite lookup_drop. rewrite <- Hx. f_equal. lia.
Qed.

Lemma copy_bytes_ok dst doff (src : list Z) soff n :
  0 <= n -> 0 <= doff -> doff + n <= zlen dst -> 0 <= soff -> soff + n <= zlen src ->
  copy_bytes dst doff (Some src) soff n = Ok (splice doff (slice soff n src) dst).
Proof.
  intros Hn Hd Hdl Hs Hsl. unfold copy_bytes.
  destruct (for_range_inv (fun i (b : list Z) => b = splice doff (slice soff i src) dst) n (fun i dst =>
      if (doff + i <? 0) || (soff + i <? 0) then Stuck else
      b ← at_ src (Z.to_nat (soff + i));
      if decide (doff + i < zlen dst) then Ok (<[Z.to_nat (doff + i) := b]> dst) else Stuck) dst)
    as (b' & -> & ->).
  - unfold splice, slice. change (Z.to_nat 0) with 0%nat. rewrite take_0. cbn [app length]. by rewrite Nat.add_0_r, take_drop.
  - intros i b Hi ->. destruct (Z.ltb_spec (doff + i) 0), (Z.ltb_spec (soff + i) 0); try lia. cbn [orb].
    destruct (lookup_lt_is_Some_2 src (Z.to_nat (soff + i))) as [x Hx]; [unfold zlen in *; lia|].
    unfold at_. rewrite Hx. cbn [mbind outcome_bind].
    assert (zlen (slice soff i src) = i) as Hl by (apply zlen_slice; lia).
    rewrite zlen_splice by lia. destruct (decide (doff + i < zlen dst)); [|lia].
    eexists. split; [reflexivity|]. rewrite (slice_snoc _ _ _ x) by (done || lia).
    rewrite <- splice_snoc by lia. by rewrite Hl.
  - f_equal. f_equal. f_equal. lia.
Qed.

(** * The securec calls of the transfers *)
Section Calls.
Context `{E : Env} {HE : EnvOk E}.

Lemma zlen_new n size b : new_uint8 (n * size) = Some b -> 0 <= n -> 0 <= size -> zlen b = n * size.
Proof. intros Hb ? ?. rewrite (new_uint8_len _ _ Hb). nia. Qed.

Context (size N : Z).
Hypothesis Hsize : 0 < size <= 1024.
Hypothesis HN : N <= 2 ^ 50.

Lemma protected_size_ok k :
  0 <= k < N ->
  size <= wrapU64 (protected_size (N * size) (k * size)) /\
  wrapU64 (protected_size (N * size) (k * size)) <= SECUREC_MEM_MAX_LEN /\
  k * size + wrapU64 (protected_size (N * size) (k * size)) <= N * size.
Proof.
  intros Hk. pose proof SECUREC_MEM_MAX_LEN_2G. pose proof (elem_bound k N size Hk ltac:(lia)).
  unfold protected_size. assert (0 <= N * size <= 2 ^ 60) by nia.
  assert (sub64 (N * size)%Z (k * size)%Z = N * size - k * size) as -> by (apply wrap64_id; lia).
  destruct (Z.ltb_spec (N * size - k * size) SECUREC_MEM_MAX_LEN); rewrite wrapU64_id; lia.
Qed.

(** Copying one element from element [s] of the source. *)
Lemma memcpy_elem_wide b k M src s :
  zlen b = N * size -> 0 <= k < N -> zlen src = M * size -> 0 <= s < M ->
  check_eok (memcpy_s b (k * size) (wrapU64 (protected_size (N * size) (k * size))) (Some src)
               (s * size) (wrapU64 size)) = Ok (splice (k * size) (elem size src s) b).
Proof.
  intros Hb Hk Hsrc Hs. pose proof (protected_size_ok k Hk). pose proof (elem_bound s M size Hs ltac:(lia)).
  rewrite (wrapU64_id size) by lia. rewrite memcpy_s_ok by lia.
  unfold check_eok. cbn. by rewrite Z.eqb_refl.
Qed.

(** Copying a run of [m] elements. *)
Lemma memcpy_elems_wide b k m M src s :
  zlen b = N * size -> 0 <= k -> 0 < m <= 32 -> k + m <= N -> zlen src = M * size -> 0 <= s -> s + m <= M ->
  check_eok (memcpy_s b (k * size) (wrapU64 (protected_size (N * size) (k * size))) (Some src)
               (s * size) (wrapU64 (m * size))) = Ok (splice (k * size) (slice (s * size) (m * size) src) b).
Proof.
  intros Hb Hk Hm HkN Hsrc Hs HsM. pose proof (protected_size_ok k ltac:(lia)) as (_ & Hmax & Hend).
  pose proof SECUREC_MEM_MAX_LEN_2G. assert (0 <= N * size <= 2 ^ 60) by nia. assert (0 < m * size <= 32768) by nia.
  rewrite (wrapU64_id (m * size)) by lia.
  assert (m * size <= wrapU64 (protected_size (N * size) (k * size))) as Hroom.
  { unfold protected_size. assert (sub64 (N * size)%Z (k * size)%Z = N * size - k * size) as -> by (apply wrap64_id; nia).
    destruct (Z.ltb_spec (N * size - k * size) SECUREC_MEM_MAX_LEN); rewrite wrapU64_id; nia. }
  rewrite memcpy_s_ok by (done || nia). unfold check_eok. cbn. by rewrite Z.eqb_refl.
Qed.

(** ... fills those elements of the target. *)
Lemma Fills_copy V k m M src s doff soff n :
  (forall k, 0 <= k < N -> zlen (V k) = size) ->
  0 <= k -> 0 < m <= 32 -> k + m <= N -> zlen src = M * size -> 0 <= s -> s + m <= M ->
  doff = k * size -> soff = s * size -> n = m * size -> (forall j, 0 <= j < m -> elem size src (s + j) = V (k + j)) ->
  Fills size N V (fun b => check_eok (memcpy_s b doff (wrapU64 (protected_size (N * size) doff)) (Some src) soff (wrapU64 n)))
    (fun i => k <= i < k + m).
Proof.
  intros HV Hk Hm HkN Hsrc Hs HsM -> -> -> Hel. apply Fills_elems; [lia|done|lia|done|]. intros b Hb.
  exists (slice (s * size) (m * size) src). split; [by eapply memcpy_elems_wide|].
  split; [apply zlen_slice; nia|]. intros j Hj. rewrite elem_slice by lia. by apply Hel.
Qed.

Lemma copy_elem_wide b k M src s :
  zlen b = N * size -> 0 <= k < N -> zlen src = M * size -> 0 <= s < M ->
  copy_element b (k * size) (protected_size (N * size) (k * size)) (Some src) (s * size) size
  = Ok (splice (k * size) (elem size src s) b).
Proof.
  intros Hb Hk Hsrc Hs. pose proof (elem_bound k N size Hk ltac:(lia)). pose proof (elem_bound s M size Hs ltac:(lia)).
  pose proof SECUREC_MEM_MAX_LEN_2G. unfold copy_element, protected_size. assert (0 <= N * size <= 2 ^ 60) by nia.
  assert (sub64 (N * size)%Z (k * size)%Z = N * size - k * size) as -> by (apply wrap64_id; lia).
  destruct (Z.ltb_spec (N * size - k * size) SECUREC_MEM_MAX_LEN).
  - destruct (Z.ltb_spec (N * size - k * size) size); [lia|]. apply copy_bytes_ok; lia.
  - destruct (Z.ltb_spec SECUREC_MEM_MAX_LEN size); [lia|]. apply copy_bytes_ok; lia.
Qed.

Lemma memset_elem_wide b k :
  zlen b = N * size -> 0 <= k < N ->
  check_eok (memset_s b (k * size) (wrapU64 (protected_size (N * size) (k * size))) 0 (wrapU64 size))
    = Ok (splice (k * size) (zeros size) b).
Proof.
  intros Hb Hk. pose proof (protected_size_ok k Hk).
  rewrite (wrapU64_id size) by lia. rewrite memset_s_ok by lia.
  unfold check_eok. cbn. by rewrite Z.eqb_refl.
Qed.
End Calls.

(** The same for targets within the item limit of the shape checks. *)
Section Calls40.
Context `{E : Env} {HE : EnvOk E}.
Context (size N : Z).
Hypothesis Hsize : 0 < size <= 1024.
Hypothesis HN : N <= 2 ^ 40.

Lemma memcpy_elem b k M src s :
  zlen b = N * size -> 0 <= k < N -> zlen src = M * size -> 0 <= s < M ->
  check_eok (memcpy_s b (k * size) (wrapU64 (protected_size (N * size) (k * size))) (Some src)
               (s * size) (wrapU64 size)) = Ok (splice (k * size) (elem size src s) b).
Proof. apply memcpy_elem_wide; lia. Qed.

Lemma copy_elem b k M src s :
  zlen b = N * size -> 0 <= k < N -> zlen src = M * size -> 0 <= s < M ->
  copy_element b (k * size) (protected_size (N * size) (k * size)) (Some src) (s * size) size
  = Ok (splice (k * size) (elem size src s) b).
Proof. apply copy_elem_wide; lia. Qed.

Lemma memset_elem b k :
  zlen b = N * size -> 0 <= k < N ->
  check_eok (memset_s b (k * size) (wrapU64 (protected_size (N * size) (k * size))) 0 (wrapU64 size))
    = Ok (splice (k * size) (zeros size) b).
Proof. apply memset_elem_wide; lia. Qed.
End Calls40.

#[export] Instance sample_env_ok : EnvOk sample_env.
Proof.
  split; cbn.
  - done.
  - intros []; lia.
  - lia.
  - intros dst doff dmax src soff n. intros.
    destruct (Z.eqb_spec dmax 0); [lia|]. destruct (Z.ltb_spec (2 ^ 31 - 1) dmax); [lia|].
    cbn [orb]. destruct (Z.ltb_spec dmax n); [lia|reflexivity].
  - done.
  - intros dst doff dmax c n. intros.
    destruct (Z.eqb_spec dmax 0); [lia|]. destruct (Z.ltb_spec (2 ^ 31 - 1) dmax); [lia|].
    cbn [orb]. destruct (Z.ltb_spec dmax n); [lia|reflexivity].
  - intros n b [= <-]. unfold zlen. rewrite repeat_length. lia.
Qed.
