(* ===== verification/Bytes.v ===== *)
(** Structures in byte buffers: little-endian 32-bit fields as a struct assignment writes them
    and a cast of a byte pointer reads them, and reads of byte ranges.  Shared by the
    serialisation components. *)
From S2P Require Import Prelude Buffer.

Definition is_byte (b : Z) : Prop := 0 <= b < 256.

(** * Fields *)
Definition le32 (z : Z) : list Z := [z mod 2 ^ 8; (z / 2 ^ 8) mod 2 ^ 8; (z / 2 ^ 16) mod 2 ^ 8; (z / 2 ^ 24) mod 2 ^ 8].

(** A uint32_t field at [off]; a read outside the buffer is undefined. *)
Definition read32 (b : list Z) (off : Z) : outcome Z :=
  b0 ← vget b off;
  b1 ← vget b (off + 1);
  b2 ← vget b (off + 2);
  b3 ← vget b (off + 3);
  Ok (b0 + b1 * 2 ^ 8 + b2 * 2 ^ 16 + b3 * 2 ^ 24).

(** The [n] bytes from [off] on. *)
Definition read_bytes (b : list Z) (off n : Z) : outcome (list Z) :=
  if (0 <=? off) && (off + n <=? zlen b) then Ok (slice off n b) else Stuck.

(** * Lemmas *)
Lemma zlen_app {A} (l k : list A) : zlen (l ++ k) = zlen l + zlen k.
Proof. unfold zlen. rewrite length_app. lia. Qed.

Lemma zlen_nil {A} : zlen (@nil A) = 0.
Proof. done. Qed.

Lemma zlen_cons {A} (x : A) l : zlen (x :: l) = zlen l + 1.
Proof. unfold zlen. cbn [length]. lia. Qed.

Lemma zlen_nonneg {A} (l : list A) : 0 <= zlen l.
Proof. unfold zlen. lia. Qed.

Lemma zlen_le32 z : zlen (le32 z) = 4.
Proof. done. Qed.

Lemma le32_bytes z : Forall is_byte (le32 z).
Proof. repeat constructor; unfold is_byte; apply Z.mod_pos_bound; lia. Qed.

Lemma le32_value z : inU 32 z ->
  z mod 2 ^ 8 + (z / 2 ^ 8) mod 2 ^ 8 * 2 ^ 8 + (z / 2 ^ 16) mod 2 ^ 8 * 2 ^ 16 + (z / 2 ^ 24) mod 2 ^ 8 * 2 ^ 24 = z.
Proof.
  intros Hz. unfold inU in Hz.
  assert (H1 : z / 2 ^ 16 = z / 2 ^ 8 / 2 ^ 8) by (rewrite Z.div_div by lia; done).
  assert (H2 : z / 2 ^ 24 = z / 2 ^ 16 / 2 ^ 8) by (rewrite Z.div_div by lia; done).
  assert (H3 : (z / 2 ^ 24) mod 2 ^ 8 = z / 2 ^ 24).
  { apply Z.mod_small. split; [apply Z.div_pos; lia|apply Z.div_lt_upper_bound; lia]. }
  rewrite H3. pose proof (Z.div_mod z (2 ^ 8) ltac:(lia)) as E1. pose proof (Z.div_mod (z / 2 ^ 8) (2 ^ 8) ltac:(lia)) as E2.
  pose proof (Z.div_mod (z / 2 ^ 16) (2 ^ 8) ltac:(lia)) as E3. rewrite <- H1 in E2. rewrite <- H2 in E3.
  clear - E1 E2 E3. revert E1 E2 E3. generalize (z mod 2 ^ 8) ((z / 2 ^ 8) mod 2 ^ 8) ((z / 2 ^ 16) mod 2 ^ 8) (z / 2 ^ 24).
  generalize (z / 2 ^ 16) (z / 2 ^ 8). intros. lia.
Qed.

Lemma vget_app_r {A} (l k : list A) i : 0 <= i -> vget (l ++ k) (zlen l + i) = vget k i.
Proof.
  intros Hi. unfold vget, at_, zlen. destruct (Z.ltb_spec (Z.of_nat (length l) + i) 0); [lia|].
  destruct (Z.ltb_spec i 0); [lia|]. rewrite lookup_app_r by lia.
  by replace (Z.to_nat (Z.of_nat (length l) + i) - length l)%nat with (Z.to_nat i) by lia.
Qed.

Lemma vget_in {A} (l : list A) i : 0 <= i < zlen l -> exists x, vget l i = Ok x /\ x ∈ l.
Proof.
  intros Hi. unfold vget, at_, zlen in *. destruct (Z.ltb_spec i 0); [lia|].
  destruct (lookup_lt_is_Some_2 l (Z.to_nat i)) as [x Hx]; [lia|]. rewrite Hx. exists x. split; [done|].
  by eapply list_elem_of_lookup_2.
Qed.

(** A field written by [le32] is read back. *)
Lemma read32_le32 pre z suf : inU 32 z -> read32 (pre ++ le32 z ++ suf) (zlen pre) = Ok z.
Proof.
  intros Hz. unfold read32. rewrite <- (Z.add_0_r (zlen pre)), <- !Z.add_assoc, !vget_app_r by lia.
  pose proof (le32_value z Hz) as Hv. unfold le32. revert Hv.
  generalize (z mod 2 ^ 8) ((z / 2 ^ 8) mod 2 ^ 8) ((z / 2 ^ 16) mod 2 ^ 8) ((z / 2 ^ 24) mod 2 ^ 8).
  intros b0 b1 b2 b3 <-. reflexivity.
Qed.

(** Inside the buffer a field can be read and is a uint32_t. *)
Lemma read32_in b off : Forall is_byte b -> 0 <= off -> off + 4 <= zlen b -> exists v, read32 b off = Ok v /\ inU 32 v.
Proof.
  intros Hb H0 Hlen. rewrite Forall_forall in Hb. unfold read32.
  destruct (vget_in b off) as (x0 & -> & Hx0%Hb); [lia|]. destruct (vget_in b (off + 1)) as (x1 & -> & Hx1%Hb); [lia|].
  destruct (vget_in b (off + 2)) as (x2 & -> & Hx2%Hb); [lia|]. destruct (vget_in b (off + 3)) as (x3 & -> & Hx3%Hb); [lia|].
  cbn [mbind outcome_bind]. eexists. split; [done|]. unfold inU, is_byte in *. lia.
Qed.

(** A field that can be read lies inside the buffer. *)
Lemma vget_bound {A} (l : list A) i x : vget l i = Ok x -> 0 <= i < zlen l.
Proof.
  unfold vget, at_, zlen. destruct (Z.ltb_spec i 0); [done|]. destruct (l !! Z.to_nat i) eqn:Hl; [|done].
  intros _. apply lookup_lt_Some in Hl. lia.
Qed.

Lemma slice_app_mid {A} (pre v suf : list A) : slice (zlen pre) (zlen v) (pre ++ v ++ suf) = v.
Proof. unfold slice, zlen. rewrite !Nat2Z.id, drop_app_length, take_app_length. done. Qed.

Lemma read_bytes_app pre v suf : read_bytes (pre ++ v ++ suf) (zlen pre) (zlen v) = Ok v.
Proof.
  unfold read_bytes. rewrite slice_app_mid. pose proof (zlen_nonneg pre). pose proof (zlen_nonneg suf). rewrite !zlen_app.
  destruct (Z.leb_spec 0 (zlen pre)); [|lia]. destruct (Z.leb_spec (zlen pre + zlen v) (zlen pre + (zlen v + zlen suf))); [done|lia].
Qed.

(** A copy of [v] to the start of the unwritten rest of a buffer. *)
Lemma splice_app {A} (done rest v : list A) :
  zlen v <= zlen rest -> splice (zlen done) v (done ++ rest) = done ++ v ++ drop (length v) rest.
Proof.
  intros _. unfold splice, zlen. rewrite Nat2Z.id, take_app_length.
  rewrite drop_app_ge by lia. do 3 f_equal. lia.
Qed.

Lemma read_bytes_in b off n : 0 <= off -> off + n <= zlen b -> read_bytes b off n = Ok (slice off n b).
Proof.
  intros. unfold read_bytes. destruct (Z.leb_spec 0 off); [|lia]. by destruct (Z.leb_spec (off + n) (zlen b)); [|lia].
Qed.

Lemma zlen_drop {A} n (l : list A) : Z.of_nat n <= zlen l -> zlen (drop n l) = zlen l - Z.of_nat n.
Proof. unfold zlen. rewrite length_drop. lia. Qed.

Lemma zlen_take {A} n (l : list A) : 0 <= n <= zlen l -> zlen (take (Z.to_nat n) l) = n.
Proof. unfold zlen. rewrite length_take. lia. Qed.

Lemma slice_0 {A} n (l : list A) : slice 0 n l = take (Z.to_nat n) l.
Proof. done. Qed.

Lemma take_zlen {A} (l : list A) : take (Z.to_nat (zlen l)) l = l.
Proof. unfold zlen. by rewrite Nat2Z.id, firstn_all. Qed.

(** A securec copy of [n] bytes to the start of the unwritten rest of a buffer. *)
Lemma memcpy_s_next `{E : Env} {HE : EnvOk E} done rest v dmax n :
  0 < n <= zlen v -> n <= dmax -> dmax <= zlen rest -> dmax <= SECUREC_MEM_MAX_LEN ->
  memcpy_s (done ++ rest) (zlen done) dmax (Some v) 0 n = (EOK, (done ++ take (Z.to_nat n) v) ++ drop (Z.to_nat n) rest).
Proof.
  intros Hn Hd Hr Hm. pose proof (zlen_nonneg done). assert (zlen (done ++ rest) = zlen done + zlen rest) by apply zlen_app.
  rewrite memcpy_s_ok by lia. rewrite slice_0, splice_app by (rewrite zlen_take; lia). rewrite app_assoc.
  by replace (length (take (Z.to_nat n) v)) with (Z.to_nat n) by (rewrite length_take; unfold zlen in *; lia).
Qed.
