(* ===== verification/KernelStore.v ===== *)
(** The store of compiled kernels (ge/common/kernel_store.{h,cc}): a table from names to kernel
    binaries, its serialisation [Build] into the kernel partition of a model file and the
    parser [Load].

    A name and a binary are byte lists.  [KernelBins] holds what the store takes from
    outside the repository: the class OpKernelBin, the traversal order of the hash map and the
    answer of the heap to `buffer_.resize`. *)
From stdpp Require Import gmap.
From S2P Require Import Prelude Buffer Bytes.

Class KernelBins := {
  OpKernelBin : Type;
  GetName : OpKernelBin -> list Z;
  GetBinData : OpKernelBin -> list Z;
  (** MakeShared<KernelBin>(name, bin): the null pointer when the heap is exhausted. *)
  MakeKernelBin : list Z -> list Z -> option OpKernelBin;
  kernels_order : gmap (list Z) OpKernelBin -> list (list Z * OpKernelBin);
  buffer_resize : Z -> bool;
}.

Class KernelBinsOk (K : KernelBins) : Prop := {
  MakeKernelBin_ok n b k : MakeKernelBin n b = Some k -> GetName k = n /\ GetBinData k = b;
  kernels_order_perm m : kernels_order m ≡ₚ map_to_list m;
}.

(** A kernel is its name and its binary; the heap never fails. *)
Definition sample_bins : KernelBins := {|
  OpKernelBin := list Z * list Z;
  GetName := fst;
  GetBinData := snd;
  MakeKernelBin := fun n b => Some (n, b);
  kernels_order := map_to_list;
  buffer_resize := fun _ => true;
|}.
Lemma sample_bins_ok : KernelBinsOk sample_bins.
Proof. split; [by intros n b k [= <-]|done]. Qed.

Definition kKernelItemMagic : Z := 0x5d776efd.
Definition sizeof_KernelStoreItemHead : Z := 12.

(** The bytes of a KernelStoreItemHead. *)
Record KernelStoreItemHead := mkHead { magic : Z; name_len : Z; bin_len : Z }.
Definition head_bytes (h : KernelStoreItemHead) : list Z := le32 (magic h) ++ le32 (name_len h) ++ le32 (bin_len h).

Section Model.
Context `{E : Env} `{K : KernelBins}.

Record KernelStore := mkStore { kernels_ : gmap (list Z) OpKernelBin; buffer_ : list Z }.
Definition new_KernelStore : KernelStore := mkStore ∅ [].

Definition AddKernel (kernel : option OpKernelBin) (s : KernelStore) : KernelStore :=
  match kernel with
  | Some k => mkStore (<[GetName k := k]> (kernels_ s)) (buffer_ s)
  | None => s
  end.

(** The first loop of Build. *)
Fixpoint Build_total (items : list (list Z * OpKernelBin)) (total_len : Z) : Z :=
  match items with
  | [] => total_len
  | item :: items =>
      let kernel := item.2 in
      let total_len := wrapU64 (total_len + sizeof_KernelStoreItemHead) in
      let total_len := wrapU64 (total_len + zlen (GetName kernel)) in
      let total_len := wrapU64 (total_len + zlen (GetBinData kernel)) in
      Build_total items total_len
  end.

(** The second loop: [next] is next_buffer - buffer_.data().  [None]: a copy failed. *)
Fixpoint Build_items (items : list (list Z * OpKernelBin)) (buffer : list Z) (next remain_len : Z) : option (list Z) * list Z :=
  match items with
  | [] => (Some buffer, buffer)
  | item :: items =>
      let kernel := item.2 in
      let kernel_head := mkHead kKernelItemMagic (wrapU 32 (zlen (GetName kernel))) (wrapU 32 (zlen (GetBinData kernel))) in
      let r := memcpy_s buffer next remain_len (Some (head_bytes kernel_head)) 0 sizeof_KernelStoreItemHead in
      if negb (r.1 =? EOK) then (None, r.2) else
      let next := next + sizeof_KernelStoreItemHead in
      let r := memcpy_s r.2 next (wrapU64 (remain_len - sizeof_KernelStoreItemHead)) (Some (GetName kernel)) 0 (name_len kernel_head) in
      if negb (r.1 =? EOK) then (None, r.2) else
      let next := next + name_len kernel_head in
      let r := memcpy_s r.2 next (wrapU64 (remain_len - sizeof_KernelStoreItemHead - name_len kernel_head))
                 (Some (GetBinData kernel)) 0 (bin_len kernel_head) in
      if negb (r.1 =? EOK) then (None, r.2) else
      let next := next + bin_len kernel_head in
      let remain_len := wrapU64 (remain_len - sizeof_KernelStoreItemHead - name_len kernel_head - bin_len kernel_head) in
      Build_items items r.2 next remain_len
  end.

Definition Build (s : KernelStore) : bool * KernelStore :=
  let items := kernels_order (kernels_ s) in
  let total_len := Build_total items 0 in
  if negb (buffer_resize total_len) then (false, mkStore (kernels_ s) []) else
  match Build_items items (repeat 0 (Z.to_nat total_len)) 0 total_len with
  | (Some buffer, _) => (true, mkStore ∅ buffer)
  | (None, buffer) => (false, mkStore (kernels_ s) buffer)
  end.

Definition Data (s : KernelStore) : list Z := buffer_ s.
Definition DataSize (s : KernelStore) : Z := zlen (buffer_ s).

(** The loop of Load; [data] is what the pointer points to.  [name_len + bin_len] is computed in
    uint32_t, the other sums in size_t. *)
Fixpoint Load_loop (fuel : nat) (data : list Z) (len buffer_len : Z) (kernels : gmap (list Z) OpKernelBin) :
    outcome (gmap (list Z) OpKernelBin) :=
  match fuel with
  | O => Stuck
  | S fuel =>
      if sizeof_KernelStoreItemHead <? buffer_len then
        let next_buffer := wrapU64 (len - buffer_len) in
        name_len ← read32 data (next_buffer + 4);
        bin_len ← read32 data (next_buffer + 8);
        if buffer_len <? wrapU64 (wrapU 32 (name_len + bin_len) + sizeof_KernelStoreItemHead) then Ok kernels else
        let next_buffer := next_buffer + sizeof_KernelStoreItemHead in
        name ← read_bytes data next_buffer name_len;
        let next_buffer := next_buffer + name_len in
        kernel_bin ← read_bytes data next_buffer bin_len;
        let kernels :=
          match MakeKernelBin name kernel_bin with
          | Some k => match kernels !! name with Some _ => kernels | None => <[name := k]> kernels end
          | None => kernels
          end in
        Load_loop fuel data len (wrapU64 (buffer_len - (sizeof_KernelStoreItemHead + name_len + bin_len))) kernels
      else Ok kernels
  end.

(** The result is the returned bool and the store. *)
Definition Load (data : option (list Z)) (len : Z) (s : KernelStore) : outcome (bool * KernelStore) :=
  match data with
  | None => Ok (false, s)
  | Some data =>
      if len =? 0 then Ok (false, s) else
      kernels ← Load_loop (S (length data)) data len len (kernels_ s);
      Ok (true, mkStore kernels (buffer_ s))
  end.

Definition FindKernel (name : list Z) (s : KernelStore) : option OpKernelBin := kernels_ s !! name.
End Model.

(** * Specification of the layout *)
Section Layout.
Context `{K : KernelBins}.

(** A kernel whose lengths fit the header; securec refuses to copy nothing. *)
Definition storable (k : OpKernelBin) : Prop := 0 < zlen (GetName k) < 2 ^ 32 /\ 0 < zlen (GetBinData k) < 2 ^ 32.

Definition kernel_bytes (k : OpKernelBin) : list Z :=
  head_bytes (mkHead kKernelItemMagic (zlen (GetName k)) (zlen (GetBinData k))) ++ GetName k ++ GetBinData k.
Definition kernels_bytes (items : list (list Z * OpKernelBin)) : list Z := concat (map (fun item => kernel_bytes item.2) items).

(** What a store holds, by value. *)
Definition contents (k : OpKernelBin) : list Z * list Z := (GetName k, GetBinData k).
End Layout.

Section Proofs.
Context `{E : Env} {HE : EnvOk E} `{K : KernelBins} {HK : KernelBinsOk K}.

Lemma zlen_head h : zlen (head_bytes h) = 12.
Proof. done. Qed.

Lemma zlen_kernel k : zlen (kernel_bytes k) = 12 + zlen (GetName k) + zlen (GetBinData k).
Proof. unfold kernel_bytes. rewrite !zlen_app, zlen_head. lia. Qed.

Lemma kernels_bytes_cons i items : kernels_bytes (i :: items) = kernel_bytes i.2 ++ kernels_bytes items.
Proof. done. Qed.

Lemma Build_total_ok items : forall t,
  0 <= t -> t + zlen (kernels_bytes items) < 2 ^ 64 -> Build_total items t = t + zlen (kernels_bytes items).
Proof.
  induction items as [|i items IH]; intros t Ht Hb; cbn [Build_total]; [by rewrite Z.add_0_r|].
  rewrite kernels_bytes_cons, zlen_app, zlen_kernel in *. unfold sizeof_KernelStoreItemHead.
  pose proof (zlen_nonneg (GetName i.2)). pose proof (zlen_nonneg (GetBinData i.2)). pose proof (zlen_nonneg (kernels_bytes items)).
  rewrite (wrapU64_id (t + 12)) by lia. rewrite (wrapU64_id (t + 12 + _)) by lia. rewrite wrapU64_id by lia. rewrite IH by lia. lia.
Qed.

(** A copy of a whole byte list. *)
Lemma memcpy_s_all done rest v dmax :
  0 < zlen v <= dmax -> dmax <= zlen rest -> dmax <= SECUREC_MEM_MAX_LEN ->
  memcpy_s (done ++ rest) (zlen done) dmax (Some v) 0 (zlen v) = (EOK, (done ++ v) ++ drop (length v) rest).
Proof. intros. rewrite memcpy_s_next, take_zlen by lia. unfold zlen at 1. by rewrite Nat2Z.id. Qed.

Lemma Build_items_ok items : forall done rest,
  Forall (fun i => storable i.2) items -> zlen rest = zlen (kernels_bytes items) -> zlen rest <= SECUREC_MEM_MAX_LEN ->
  (Build_items items (done ++ rest) (zlen done) (zlen rest)).1 = Some (done ++ kernels_bytes items).
Proof.
  induction items as [|i items IH]; intros done rest HF Hr Hm; cbn [Build_items].
  { destruct rest; [done|]. rewrite zlen_cons in Hr. pose proof (zlen_nonneg rest). change (zlen (kernels_bytes [])) with 0 in Hr. lia. }
  apply Forall_cons in HF as [[Hn Hb] HF]. rewrite kernels_bytes_cons, zlen_app, zlen_kernel in Hr.
  pose proof (zlen_nonneg (kernels_bytes items)) as Hk. pose proof SECUREC_MEM_MAX_LEN_2G as HM.
  cbn [name_len bin_len]. unfold sizeof_KernelStoreItemHead.
  rewrite (wrapU_id 32 (zlen (GetName i.2))), (wrapU_id 32 (zlen (GetBinData i.2))) by (unfold inU; lia).
  set (hd := head_bytes _). assert (Hhd : zlen hd = 12) by done. pose proof (memcpy_s_all done rest hd (zlen rest)) as Hc. rewrite Hhd in Hc. rewrite Hc by lia. cbn [fst snd]. rewrite Z.eqb_refl. cbn [negb].
  assert (Hl1 : zlen (drop (length hd) rest) = zlen rest - 12) by (rewrite zlen_drop; cbn; lia).
  replace (zlen done + 12) with (zlen (done ++ hd)) by (rewrite zlen_app; done).
  rewrite !wrapU64_id by lia. rewrite memcpy_s_all by lia. cbn [fst snd]. rewrite Z.eqb_refl. cbn [negb].
  assert (Hl2 : zlen (drop (length (GetName i.2)) (drop (length hd) rest)) = zlen rest - 12 - zlen (GetName i.2))
    by (rewrite zlen_drop by (unfold zlen in *; lia); unfold zlen in *; lia).
  rewrite <- zlen_app. rewrite memcpy_s_all by lia. cbn [fst snd]. rewrite Z.eqb_refl. cbn [negb]. rewrite <- zlen_app.
  set (rest' := drop (length (GetBinData i.2)) _).
  assert (Hl3 : zlen rest' = zlen rest - 12 - zlen (GetName i.2) - zlen (GetBinData i.2))
    by (unfold rest'; rewrite zlen_drop by (unfold zlen in *; lia); unfold zlen in *; lia).
  rewrite <- Hl3. rewrite IH by (done || lia). rewrite kernels_bytes_cons. unfold kernel_bytes. fold hd. by rewrite <- !app_assoc.
Qed.

(** The table after the items of [items] were read. *)
Definition emplace (m : gmap (list Z) OpKernelBin) (k : OpKernelBin) : gmap (list Z) OpKernelBin :=
  match MakeKernelBin (GetName k) (GetBinData k) with
  | Some k' => match m !! GetName k with Some _ => m | None => <[GetName k := k']> m end
  | None => m
  end.

(** The fields of an item in the middle of a buffer. *)
Lemma kernel_fields pre k suf :
  storable k ->
  let data := pre ++ kernel_bytes k ++ suf in
  read32 data (zlen pre + 4) = Ok (zlen (GetName k)) /\ read32 data (zlen pre + 8) = Ok (zlen (GetBinData k)) /\
  read_bytes data (zlen pre + 12) (zlen (GetName k)) = Ok (GetName k) /\
  read_bytes data (zlen pre + 12 + zlen (GetName k)) (zlen (GetBinData k)) = Ok (GetBinData k).
Proof.
  intros [Hn Hb]. cbv zeta. set (nl := le32 (zlen (GetName k))). set (bl := le32 (zlen (GetBinData k))). set (mg := le32 kKernelItemMagic).
  assert (HD : pre ++ kernel_bytes k ++ suf = pre ++ mg ++ nl ++ bl ++ GetName k ++ GetBinData k ++ suf)
    by (unfold kernel_bytes, head_bytes; cbn [magic name_len bin_len]; by rewrite <- !app_assoc).
  rewrite HD. split_and!.
  - rewrite (app_assoc pre mg). replace (zlen pre + 4) with (zlen (pre ++ mg)) by (rewrite zlen_app; done). apply read32_le32. unfold inU. lia.
  - rewrite (app_assoc mg nl), (app_assoc pre). replace (zlen pre + 8) with (zlen (pre ++ mg ++ nl)) by (rewrite !zlen_app; done).
    apply read32_le32. unfold inU. lia.
  - rewrite (app_assoc nl bl), (app_assoc mg), (app_assoc pre). replace (zlen pre + 12) with (zlen (pre ++ mg ++ nl ++ bl)) by (rewrite !zlen_app; done).
    apply read_bytes_app.
  - rewrite (app_assoc bl), (app_assoc nl), (app_assoc mg), (app_assoc pre).
    replace (zlen pre + 12 + zlen (GetName k)) with (zlen (pre ++ mg ++ nl ++ bl ++ GetName k))
      by (rewrite !zlen_app; unfold mg, nl, bl; rewrite !zlen_le32; lia).
    apply read_bytes_app.
Qed.

Lemma Load_step fuel pre k suf m :
  storable k -> zlen (pre ++ kernel_bytes k ++ suf) < 2 ^ 64 ->
  let data := pre ++ kernel_bytes k ++ suf in
  Load_loop (S fuel) data (zlen data) (zlen (kernel_bytes k ++ suf)) m = Load_loop fuel data (zlen data) (zlen suf) (emplace m k).
Proof.
  intros Hk Hlen. cbv zeta. cbn [Load_loop]. destruct (kernel_fields pre k suf Hk) as (F1 & F2 & F3 & F4). destruct Hk as [Hn Hb].
  pose proof (zlen_nonneg pre). pose proof (zlen_nonneg suf).
  assert (Hk := zlen_kernel k). assert (Hks : zlen (kernel_bytes k ++ suf) = zlen (kernel_bytes k) + zlen suf) by apply zlen_app.
  assert (Hd : zlen (pre ++ kernel_bytes k ++ suf) = zlen pre + zlen (kernel_bytes k ++ suf)) by apply zlen_app.
  unfold sizeof_KernelStoreItemHead. destruct (Z.ltb_spec 12 (zlen (kernel_bytes k ++ suf))); [|lia].
  assert (wrapU64 (zlen (pre ++ kernel_bytes k ++ suf) - zlen (kernel_bytes k ++ suf)) = zlen pre) as -> by (rewrite wrapU64_id; lia).
  rewrite F1, F2. cbn [mbind outcome_bind].
  pose proof (Z.mod_le (zlen (GetName k) + zlen (GetBinData k)) (2 ^ 32)). pose proof (Z.mod_pos_bound (zlen (GetName k) + zlen (GetBinData k)) (2 ^ 32)).
  fold (wrapU 32 (zlen (GetName k) + zlen (GetBinData k))) in *. rewrite (wrapU64_id (wrapU 32 _ + 12)) by lia.
  destruct (Z.ltb_spec (zlen (kernel_bytes k ++ suf)) (wrapU 32 (zlen (GetName k) + zlen (GetBinData k)) + 12)); [lia|].
  rewrite F3. cbn [mbind outcome_bind]. rewrite F4. cbn [mbind outcome_bind].
  rewrite (wrapU64_id (zlen (kernel_bytes k ++ suf) - _)) by lia. unfold emplace. f_equal. lia.
Qed.

Lemma Load_loop_ok items : forall fuel pre m,
  (length items < fuel)%nat -> Forall (fun i => storable i.2) items -> zlen (pre ++ kernels_bytes items) < 2 ^ 64 ->
  Load_loop fuel (pre ++ kernels_bytes items) (zlen (pre ++ kernels_bytes items)) (zlen (kernels_bytes items)) m
  = Ok (fold_left (fun m i => emplace m i.2) items m).
Proof.
  induction items as [|i items IH]; intros fuel pre m Hf HF Hlen; (destruct fuel as [|fuel]; [cbn in Hf; lia|]); [done|].
  apply Forall_cons in HF as [Hi HF]. rewrite kernels_bytes_cons in *. rewrite Load_step by done.
  rewrite app_assoc in *. rewrite IH; [done|cbn in Hf; lia|done|done].
Qed.

Lemma emplace_fold (items : list (list Z * OpKernelBin)) : forall m,
  (forall n b, MakeKernelBin n b <> None) ->
  Forall (fun i => GetName i.2 = i.1) items -> NoDup items.*1 -> (forall n, n ∈ items.*1 -> m !! n = None) ->
  forall name, contents <$> (fold_left (fun m i => emplace m i.2) items m !! name)
    = match (list_to_map items : gmap (list Z) OpKernelBin) !! name with Some k => Some (contents k) | None => contents <$> (m !! name : option OpKernelBin) end.
Proof.
  induction items as [|[n k] items IH]; intros m Hmk HF HN Hm name; [done|]. cbn [fold_left list_to_map foldr].
  apply Forall_cons in HF as [Hn HF]. cbn in Hn. subst n. cbn in HN. apply NoDup_cons in HN as [Hni HN].
  cbn [snd]. unfold emplace at 2. destruct (MakeKernelBin (GetName k) (GetBinData k)) as [k'|] eqn:Hk; [|by apply Hmk in Hk].
  destruct (MakeKernelBin_ok _ _ _ Hk) as [Hk1 Hk2]. rewrite Hm by (cbn; set_solver).
  rewrite IH; [|done|done|done|].
  - cbn. destruct (decide (GetName k = name)) as [<-|Hne].
    + rewrite not_elem_of_list_to_map_1 by done. rewrite !lookup_insert_eq. cbn. unfold contents. congruence.
    + by rewrite !lookup_insert_ne by done.
  - intros n Hin. rewrite lookup_insert_ne by (intros Hx; subst n; done). apply Hm. cbn. set_solver.
Qed.

(** The keys of a store filled by AddKernel are the names of its kernels. *)
Lemma AddKernel_keys (ks : list OpKernelBin) : forall s,
  (forall n k, kernels_ s !! n = Some k -> GetName k = n) ->
  forall n k, kernels_ (fold_left (fun s k => AddKernel (Some k) s) ks s) !! n = Some k -> GetName k = n /\ (k ∈ ks \/ kernels_ s !! n = Some k).
Proof.
  induction ks as [|k0 ks IH]; intros s Hs n k; cbn [fold_left].
  { intros Hk. split; [by apply Hs|by right]. }
  intros Hk. destruct (IH (AddKernel (Some k0) s)) with (n := n) (k := k) as [Hn Hor]; [|done|].
  - intros n' k'. cbn. intros [[<- <-]|[_ ?]]%lookup_insert_Some; [done|by apply Hs].
  - split; [done|]. destruct Hor as [?|Hor]; [left; by right|]. cbn in Hor.
    apply lookup_insert_Some in Hor as [[_ <-]|[_ ?]]; [left; by left|by right].
Qed.

(** A loop round on arbitrary bytes, when the lengths of no item overflow uint32_t. *)
Lemma Load_loop_safe data : Forall is_byte data -> zlen data < 2 ^ 64 ->
  (forall off nl bl, read32 data (off + 4) = Ok nl -> read32 data (off + 8) = Ok bl -> nl + bl < 2 ^ 32) ->
  forall fuel buffer_len m, buffer_len < Z.of_nat fuel -> 0 <= buffer_len <= zlen data ->
  exists m', Load_loop fuel data (zlen data) buffer_len m = Ok m'.
Proof.
  intros HB Hlen Hno. induction fuel as [|fuel IH]; intros bl m Hf Hbl; [lia|]. cbn [Load_loop].
  unfold sizeof_KernelStoreItemHead. destruct (Z.ltb_spec 12 bl) as [H12|]; [|by eexists].
  rewrite (wrapU64_id (zlen data - bl)) by lia.
  destruct (read32_in data (zlen data - bl + 4) HB) as (n & Hn & Hn32); [lia..|].
  destruct (read32_in data (zlen data - bl + 8) HB) as (b & Hb & Hb32); [lia..|].
  rewrite Hn, Hb. cbn [mbind outcome_bind]. specialize (Hno _ _ _ Hn Hb). unfold inU in *.
  rewrite (wrapU_id 32) by (unfold inU; lia). rewrite wrapU64_id by lia.
  destruct (Z.ltb_spec bl (n + b + 12)); [by eexists|].
  rewrite read_bytes_in by lia. cbn [mbind outcome_bind]. rewrite read_bytes_in by lia. cbn [mbind outcome_bind].
  rewrite wrapU64_id by lia. apply IH; lia.
Qed.
End Proofs.

(** * Theorems *)
Section Theorems.
Context `{E : Env} {HE : EnvOk E} `{K : KernelBins} {HK : KernelBinsOk K}.

(** A store filled by AddKernel and serialised by Build, up to what securec copies at once, is restored by
    Load: a store that loads the buffer finds for every name the kernel the first store found,
    with the same name and binary, whatever the traversal order of the hash map. *)
Theorem kernel_store_roundtrip (ks : list OpKernelBin) :
  (forall n b, MakeKernelBin n b <> None) -> (forall n, buffer_resize n = true) -> Forall storable ks -> ks <> [] ->
  let s := fold_left (fun s k => AddKernel (Some k) s) ks new_KernelStore in
  zlen (kernels_bytes (kernels_order (kernels_ s))) <= SECUREC_MEM_MAX_LEN ->
  exists s1 s2, Build s = (true, s1) /\ Load (Some (Data s1)) (DataSize s1) new_KernelStore = Ok (true, s2) /\
    forall name, contents <$> FindKernel name s2 = contents <$> FindKernel name s.
Proof.
  intros Hmk Hrs HF Hne s Hlen. set (items := kernels_order (kernels_ s)) in *.
  assert (Hperm : items ≡ₚ map_to_list (kernels_ s)) by apply kernels_order_perm.
  assert (Hkeys : forall n k, (n, k) ∈ items -> GetName k = n /\ k ∈ ks).
  { intros n k. rewrite Hperm, elem_of_map_to_list. intros Hk. apply AddKernel_keys in Hk as [Hn [?|Hk]]; [done| |].
    - cbn in Hk. by rewrite lookup_empty in Hk.
    - intros n' k' Hk'. cbn in Hk'. by rewrite lookup_empty in Hk'. }
  assert (Hst : Forall (fun i => storable i.2) items).
  { apply Forall_forall. intros [n k] [_ Hk]%Hkeys. rewrite Forall_forall in HF. by apply HF. }
  assert (HND : NoDup items.*1) by (rewrite Hperm; apply NoDup_fst_map_to_list).
  assert (Hmap : list_to_map items = kernels_ s) by (rewrite (list_to_map_proper items _ HND Hperm); apply list_to_map_to_list).
  assert (Hitems : items <> []).
  { intros Hx. rewrite Hx in Hmap. destruct ks as [|k0 ks] using rev_ind; [done|]. unfold s in Hmap. rewrite fold_left_app in Hmap. cbn in Hmap.
    assert (HX := f_equal (fun m : gmap (list Z) OpKernelBin => m !! GetName k0) Hmap). cbn in HX. by rewrite lookup_insert_eq in HX. }
  pose proof SECUREC_MEM_MAX_LEN_2G. pose proof (zlen_nonneg (kernels_bytes items)).
  assert (Hb : Build s = (true, mkStore ∅ (kernels_bytes items))).
  { unfold Build. fold items. rewrite Build_total_ok, Z.add_0_l, Hrs by lia. cbn [negb].
    pose proof (Build_items_ok items [] (repeat 0 (Z.to_nat (zlen (kernels_bytes items)))) Hst) as Hok. rewrite !zlen_repeat in Hok by lia.
    specialize (Hok eq_refl Hlen). cbn in Hok. destruct (Build_items _ _ _ _) as [[b|] b']; [|done]. by injection Hok as ->. }
  exists (mkStore ∅ (kernels_bytes items)), (mkStore (fold_left (fun m i => emplace m i.2) items ∅) []). split; [done|].
  assert (Hpos : 0 < zlen (kernels_bytes items)).
  { destruct items as [|i items']; [done|]. rewrite kernels_bytes_cons, zlen_app, zlen_kernel. pose proof (zlen_nonneg (kernels_bytes items')).
    pose proof (zlen_nonneg (GetName i.2)). pose proof (zlen_nonneg (GetBinData i.2)). lia. }
  split.
  - unfold Load, DataSize, Data. cbn [buffer_ kernels_ new_KernelStore]. destruct (Z.eqb_spec (zlen (kernels_bytes items)) 0); [lia|].
    pose proof (Load_loop_ok items (S (length (kernels_bytes items))) [] ∅) as Hok. cbn [app] in Hok. rewrite Hok; [done| |done|lia].
    clear. induction items as [|i items IH]; [cbn; lia|]. rewrite kernels_bytes_cons, length_app. pose proof (zlen_kernel i.2).
    pose proof (zlen_nonneg (GetName i.2)). pose proof (zlen_nonneg (GetBinData i.2)). unfold zlen in *. cbn [length]. lia.
  - intros name. unfold FindKernel. cbn [kernels_]. rewrite emplace_fold; [|done| |done|intros; apply lookup_empty].
    + rewrite Hmap. destruct (kernels_ s !! name); [done|]. by rewrite lookup_empty.
    + apply Forall_forall. intros [n k] Hin. cbn. by eapply Hkeys.
Qed.

(** Load on arbitrary bytes never reads outside them and returns, provided no item
    header has lengths whose sum overflows uint32_t. *)
Lemma Load_safe data s :
  Forall is_byte data -> zlen data < 2 ^ 64 ->
  (forall off nl bl, read32 data (off + 4) = Ok nl -> read32 data (off + 8) = Ok bl -> nl + bl < 2 ^ 32) ->
  exists r, Load (Some data) (zlen data) s = Ok r.
Proof.
  intros HB Hlen Hno. unfold Load. destruct (_ =? 0); [by eexists|]. pose proof (zlen_nonneg data).
  destruct (Load_loop_safe data HB Hlen Hno (S (length data)) (zlen data) (kernels_ s)) as [m ->]; [unfold zlen; lia|lia|]. by eexists.
Qed.
End Theorems.

(** * Concrete runs *)
Local Existing Instance sample_bins.
Local Existing Instance sample_bins_ok.
Local Existing Instance sample_env.

(** Load on arbitrary bytes never reads outside them and returns, provided no item header has lengths whose
    sum overflows uint32_t.  The condition is needed: in the 13-byte buffer below the header claims a name of 2^32 - 1
    bytes and a binary of one byte; the sum wraps to 0, the length check passes and Load reads the name far
    outside the buffer. *)
Theorem kernel_store_load_safe data s :
  Forall is_byte data -> zlen data < 2 ^ 64 ->
  (forall off nl bl, read32 data (off + 4) = Ok nl -> read32 data (off + 8) = Ok bl -> nl + bl < 2 ^ 32) ->
  (exists r, Load (Some data) (zlen data) s = Ok r) /\
  Load (Some (head_bytes (mkHead kKernelItemMagic (2 ^ 32 - 1) 1) ++ [0])) 13 new_KernelStore = Stuck.
Proof. intros. split; [by apply Load_safe|vm_compute; reflexivity]. Qed.

Definition sample_kernel : OpKernelBin := ([1], [2; 3]).

Lemma kernel_store_roundtrip_witness :
  exists s1 s2, Build (AddKernel (Some sample_kernel) new_KernelStore) = (true, s1) /\
    Load (Some (Data s1)) (DataSize s1) new_KernelStore = Ok (true, s2) /\
    contents <$> FindKernel [1] s2 = Some ([1], [2; 3]).
Proof.
  destruct (kernel_store_roundtrip [sample_kernel])
    as (s1 & s2 & H1 & H2 & H3); [done|done|by repeat constructor|done|vm_compute; congruence|].
  exists s1, s2. exact (conj H1 (conj H2 (H3 [1]))).
Defined.

Lemma kernel_store_load_safe_witness : exists r, Load (Some [0; 0; 0]) 3 new_KernelStore = Ok r.
Proof.
  refine (proj1 (kernel_store_load_safe [0; 0; 0] new_KernelStore _ _ _)).
  - repeat constructor; unfold is_byte; lia.
  - vm_compute. reflexivity.
  - intros off nl bl H1 H2. unfold read32 in *. exfalso.
    destruct (vget [0; 0; 0] (off + 8)) eqn:Hv; [|done..]. apply vget_bound in Hv. destruct (vget [0; 0; 0] (off + 4)) eqn:Hw; [|done..]. apply vget_bound in Hw.
    unfold zlen in *. cbn [length Z.of_nat Pos.of_succ_nat Pos.succ] in *. lia.
Defined.
