(* ===== verification/FileSaver.v ===== *)
(** Writing model files (ge/common/auth/file_saver.{h,cc}): the header, the partition tables and
    the partitions, to a file or to a buffer.

    A pointer to memory is the list of the bytes that can be read from it on.  The file
    system and malloc are outside the repository: [Files] holds the operations the code
    calls, [FilesOk] what it relies on.  mmWrite may write less than it is asked to and returns
    how much it wrote, as write(2) does. *)
From S2P Require Import Prelude MathUtil Buffer Bytes.

(** * Data *)
Definition MODEL_FILE_MAGIC_NUM : Z := 0x444F4D49.
Definition MODEL_FILE_HEAD_LEN : Z := 256.
Definition MODEL_VERSION : Z := 0x20000000.
Definition UNENCRYPTED : Z := 0.
Definition CHECK : Z := 0.

Record ModelFileHeader := mkHeader {
  h_magic : Z;
  h_headsize : Z;
  h_version : Z;
  h_checksum : list Z;
  h_length : Z;
  h_is_encrypt : Z;
  h_is_checksum : Z;
  h_modeltype : Z;
  h_genmode : Z;
  h_name : list Z;
  h_ops : Z;
  h_userdefineinfo : list Z;
  h_om_ir_version : Z;
  h_model_num : Z;
  h_platform_version : list Z;
  h_platform_type : Z;
  h_reserved : list Z;
}.

(** The default member initialisers. *)
Definition new_ModelFileHeader : ModelFileHeader := {|
  h_magic := MODEL_FILE_MAGIC_NUM; h_headsize := MODEL_FILE_HEAD_LEN; h_version := MODEL_VERSION; h_checksum := repeat 0 64;
  h_length := 0; h_is_encrypt := UNENCRYPTED; h_is_checksum := CHECK; h_modeltype := 0; h_genmode := 0; h_name := repeat 0 32;
  h_ops := 0; h_userdefineinfo := repeat 0 32; h_om_ir_version := 0; h_model_num := 0; h_platform_version := repeat 0 20;
  h_platform_type := 0; h_reserved := repeat 0 75;
|}.

Definition set_length (n : Z) (h : ModelFileHeader) : ModelFileHeader :=
  mkHeader (h_magic h) (h_headsize h) (h_version h) (h_checksum h) n (h_is_encrypt h) (h_is_checksum h) (h_modeltype h) (h_genmode h)
    (h_name h) (h_ops h) (h_userdefineinfo h) (h_om_ir_version h) (h_model_num h) (h_platform_version h) (h_platform_type h) (h_reserved h).
Definition set_is_encrypt (e : Z) (h : ModelFileHeader) : ModelFileHeader :=
  mkHeader (h_magic h) (h_headsize h) (h_version h) (h_checksum h) (h_length h) e (h_is_checksum h) (h_modeltype h) (h_genmode h)
    (h_name h) (h_ops h) (h_userdefineinfo h) (h_om_ir_version h) (h_model_num h) (h_platform_version h) (h_platform_type h) (h_reserved h).

Definition sizeof_ModelFileHeader : Z := 256.
Definition header_bytes (h : ModelFileHeader) : list Z :=
  le32 (h_magic h) ++ le32 (h_headsize h) ++ le32 (h_version h) ++ h_checksum h ++ le32 (h_length h) ++
  [h_is_encrypt h; h_is_checksum h; h_modeltype h; h_genmode h] ++ h_name h ++ le32 (h_ops h) ++ h_userdefineinfo h ++
  le32 (h_om_ir_version h) ++ le32 (h_model_num h) ++ h_platform_version h ++ [h_platform_type h] ++ h_reserved h.

(** The arrays of the struct have their lengths. *)
Definition header_ok (h : ModelFileHeader) : Prop :=
  zlen (h_checksum h) = 64 /\ zlen (h_name h) = 32 /\ zlen (h_userdefineinfo h) = 32 /\ zlen (h_platform_version h) = 20 /\
  zlen (h_reserved h) = 75.

(** ModelPartitionType, an enumeration read from files as a number. *)
Definition MODEL_DEF : Z := 0.
Definition WEIGHTS_DATA : Z := 1.
Definition TASK_INFO : Z := 2.
Definition TBE_KERNELS : Z := 3.
Definition CUST_AICPU_KERNELS : Z := 4.
Definition PARTITION_SIZE : Z := 5.

Record ModelPartition := mkPart { p_type : Z; p_data : option (list Z); p_size : Z }.

(** A ModelPartitionTable with its flexible array, as bytes. *)
Definition sizeof_ModelPartitionTable : Z := 4.
Definition sizeof_ModelPartitionMemInfo : Z := 12.
Definition SIZE_OF_MODEL_PARTITION_TABLE (num : Z) : Z := wrapU64 (sizeof_ModelPartitionTable + wrapU64 (sizeof_ModelPartitionMemInfo * num)).
Definition meminfo_bytes (type mem_offset mem_size : Z) : list Z := le32 type ++ le32 mem_offset ++ le32 mem_size.

(** * The file system *)
Class Files := {
  FS : Type;
  EN_OK : Z;
  EN_ERROR : Z;
  EN_INVALID_PARAM : Z;
  EEXIST : Z;
  MMPA_MAX_PATH : Z;
  (** [mmMkdir path s]: the result, errno and the new state. *)
  mmMkdir : list Z -> FS -> Z * Z * FS;
  mmAccess2 : list Z -> FS -> Z;
  (** The result and the resolved path. *)
  mmRealPath : list Z -> FS -> Z * list Z;
  mmOpen2 : list Z -> FS -> Z * FS;
  mmWrite : Z -> list Z -> FS -> Z * FS;
  mmClose : Z -> FS -> Z * FS;
  malloc : Z -> option (list Z);
}.

(** An opened file is empty; a write appends a prefix of the data, as long as the result says, and
    fails without an effect; opening, writing and closing one file leaves the others alone. *)
Class FilesOk (F : Files) := {
  fs_file : FS -> Z -> option (list Z);
  EN_neg : EN_ERROR < 0 /\ EN_INVALID_PARAM < 0;
  mmOpen2_ok path s fd s' : mmOpen2 path s = (fd, s') -> fd <> EN_ERROR -> fd <> EN_INVALID_PARAM -> fs_file s' fd = Some [];
  mmWrite_ok fd bs s n s' old : mmWrite fd bs s = (n, s') -> fs_file s fd = Some old ->
    (n = EN_ERROR \/ n = EN_INVALID_PARAM) /\ fs_file s' fd = Some old \/
    0 <= n <= zlen bs /\ fs_file s' fd = Some (old ++ take (Z.to_nat n) bs);
  mmClose_ok fd s n s' : mmClose fd s = (n, s') -> fs_file s' fd = fs_file s fd;
  malloc_len n b : malloc n = Some b -> zlen b = n;
}.

(** No write is cut short by the file system. *)
Definition writes_complete `{F : Files} : Prop :=
  forall fd bs s, (mmWrite fd bs s).1 = zlen bs \/ (mmWrite fd bs s).1 = EN_ERROR \/ (mmWrite fd bs s).1 = EN_INVALID_PARAM.
Definition writes_succeed `{F : Files} : Prop := forall fd bs s, (mmWrite fd bs s).1 = zlen bs.

(** Code that runs on the file system. *)
Abbreviation fsM := (SM FS).

Section Model.
Context `{E : Env} `{F : Files}.

Definition io {A} (f : FS -> A * FS) : fsM A := fun s => Some (f s).
Definition query {A} (f : FS -> A) : fsM A := fun s => Some (f s, s).

(** ge/common/util.cc: the directories above [directory_path], then itself. *)
Definition is_separator (c : Z) : bool := (c =? 92) || (c =? 47).
Definition mkdir_ok (path : list Z) : fsM Z :=
  r ← io (fun s => let '(ret, errno, s') := mmMkdir path s in ((ret, errno), s'));
  mret (if negb (r.1 =? 0) && negb (r.2 =? EEXIST) then r.1 else 0).
Fixpoint CreateDirectory_loop (tmp_dir_path rest : list Z) : fsM Z :=
  match rest with
  | [] => mret 0
  | c :: rest =>
      let tmp_dir_path := tmp_dir_path ++ [c] in
      ret ← (if is_separator c then
               a ← query (mmAccess2 tmp_dir_path);
               if negb (a =? EN_OK) then mkdir_ok tmp_dir_path else mret 0
             else mret 0);
      if negb (ret =? 0) then mret ret else CreateDirectory_loop tmp_dir_path rest
  end.
Definition CreateDirectory (directory_path : list Z) : fsM Z :=
  if zlen directory_path =? 0 then mret (-1) else
  if MMPA_MAX_PATH <=? zlen directory_path then mret (-1) else
  ret ← CreateDirectory_loop [] directory_path;
  if negb (ret =? 0) then mret ret else mkdir_ok directory_path.

(** The position of the last separator, -1 without one; [rev] is the path from its end. *)
Fixpoint last_separator (rev : list Z) : Z :=
  match rev with
  | [] => -1
  | c :: rev => if is_separator c then zlen rev else last_separator rev
  end.
Definition CheckPath (file_path : list Z) : fsM Status :=
  if MMPA_MAX_PATH <=? zlen file_path then mret FAILED else
  let path_split_pos := last_separator (rev file_path) in
  if path_split_pos =? 0 then mret SUCCESS else
  if negb (path_split_pos =? -1) then
    ret ← CreateDirectory (take (Z.to_nat path_split_pos) file_path);
    mret (if negb (ret =? 0) then FAILED else SUCCESS)
  else mret SUCCESS.

(** The out parameter fd is part of the result. *)
Definition OpenFile (file_path : list Z) : fsM (Status * Z) :=
  c ← CheckPath file_path;
  if negb (bool_decide (c = SUCCESS)) then mret (FAILED, 0) else
  r ← query (mmRealPath file_path);
  fd ← io (mmOpen2 r.2);
  if (fd =? EN_INVALID_PARAM) || (fd =? EN_ERROR) then mret (FAILED, fd) else mret (SUCCESS, fd).

Definition size_2g : Z := 2147483648.
Definition size_1g : Z := 1073741824.
Definition write_failed (write_count : Z) : bool := (write_count =? EN_INVALID_PARAM) || (write_count =? EN_ERROR).

(** mmWrite of the [size] bytes at a pointer. *)
Definition write_at (fd : Z) (seek : list Z) (size : Z) : fsM Z :=
  if size <=? zlen seek then io (mmWrite fd (take (Z.to_nat size) seek)) else sm_stuck.

(** The chunks of 1 GB; a uint32_t size has at most three of them.  [None]: a write failed. *)
Fixpoint WriteData_chunks (fuel : nat) (fd : Z) (seek : list Z) (size : Z) : fsM (option (list Z * Z)) :=
  match fuel with
  | O => sm_stuck
  | S fuel =>
      if size_1g <? size then
        write_count ← write_at fd seek size_1g;
        if write_failed write_count then mret None
        else WriteData_chunks fuel fd (drop (Z.to_nat size_1g) seek) (size - size_1g)
      else mret (Some (seek, size))
  end.

Definition WriteData (data : option (list Z)) (size fd : Z) : fsM Status :=
  match data with
  | None => mret PARAM_INVALID
  | Some data =>
      if size =? 0 then mret PARAM_INVALID else
      if size_2g <? size then
        r ← WriteData_chunks 5 fd data size;
        match r with
        | None => mret FAILED
        | Some (seek, size) =>
            write_count ← write_at fd seek size;
            mret (if write_failed write_count then FAILED else SUCCESS)
        end
      else
        write_count ← write_at fd data size;
        mret (if write_failed write_count then FAILED else SUCCESS)
  end.

(** ** Whole files *)

(** The end of the saving functions, after the do-while(0) block left [ret]; [ok] is what they
    compare the result of mmClose with. *)
Definition close_file (ok fd : Z) (ret : Status) : fsM Status :=
  c ← io (mmClose fd);
  mret (if negb (c =? ok) then FAILED else ret).

(** SaveWithFileHeader(file_path, file_header, data, len). *)
Definition SaveWithFileHeader_data (file_path : list Z) (file_header : ModelFileHeader) (data : option (list Z)) (len : Z) : fsM Status :=
  if bool_decide (data = None) || (len <=? 0) then mret FAILED else
  '(st, fd) ← OpenFile file_path;
  if negb (bool_decide (st = SUCCESS)) then mret FAILED else
  w ← WriteData (Some (header_bytes file_header)) sizeof_ModelFileHeader fd;
  ret ← (if bool_decide (w = SUCCESS) then
           w ← WriteData data (wrapU 32 len) fd;
           mret (if bool_decide (w = SUCCESS) then SUCCESS else FAILED)
         else mret FAILED);
  close_file 0 fd ret.

(** The loop over the partitions: [break] leaves this loop only. *)
Fixpoint write_partitions (partition_datas : list ModelPartition) (fd : Z) (ret : Status) : fsM Status :=
  match partition_datas with
  | [] => mret ret
  | partitionData :: partition_datas =>
      w ← WriteData (p_data partitionData) (p_size partitionData) fd;
      if negb (bool_decide (w = SUCCESS)) then mret FAILED else write_partitions partition_datas fd ret
  end.

(** `(table).num` *)
Definition table_num (table : list Z) : fsM Z := match read32 table 0 with Ok n => mret n | _ => sm_stuck end.

(** The check of a table against its partitions. *)
Definition table_matches (num : Z) (partition_datas : list ModelPartition) : bool :=
  negb (zlen partition_datas =? 0) && negb (num =? 0) && (num =? zlen partition_datas).

Definition SaveWithFileHeader (file_path : list Z) (file_header : ModelFileHeader) (model_partition_table : list Z)
    (partition_datas : list ModelPartition) : fsM Status :=
  num ← table_num model_partition_table;
  if negb (table_matches num partition_datas) then mret FAILED else
  '(st, fd) ← OpenFile file_path;
  if negb (bool_decide (st = SUCCESS)) then mret FAILED else
  w ← WriteData (Some (header_bytes file_header)) sizeof_ModelFileHeader fd;
  ret ← (if negb (bool_decide (w = SUCCESS)) then mret FAILED else
         let table_size := wrapU 32 (SIZE_OF_MODEL_PARTITION_TABLE num) in
         w ← WriteData (Some model_partition_table) table_size fd;
         if negb (bool_decide (w = SUCCESS)) then mret FAILED else
         write_partitions partition_datas fd SUCCESS);
  close_file EN_OK fd ret.

(** The check loop of the version for several models. *)
Fixpoint tables_match (model_partition_tables : list (list Z)) (all_partition_datas : list (list ModelPartition)) : fsM bool :=
  match model_partition_tables, all_partition_datas with
  | table :: tables, datas :: all_datas =>
      num ← table_num table;
      if negb (table_matches num datas) then mret false else tables_match tables all_datas
  | _, _ => mret true
  end.

(** Its writing loop: a table that cannot be written ends it, a partition only ends its model. *)
Fixpoint write_models (model_partition_tables : list (list Z)) (all_partition_datas : list (list ModelPartition)) (fd : Z)
    (ret : Status) : fsM Status :=
  match model_partition_tables, all_partition_datas with
  | table :: tables, datas :: all_datas =>
      num ← table_num table;
      let table_size := wrapU 32 (SIZE_OF_MODEL_PARTITION_TABLE num) in
      w ← WriteData (Some table) table_size fd;
      if negb (bool_decide (w = SUCCESS)) then mret FAILED else
      ret ← write_partitions datas fd ret;
      write_models tables all_datas fd ret
  | _, _ => mret ret
  end.

Definition SaveWithFileHeader_root (file_path : list Z) (file_header : ModelFileHeader) (model_partition_tables : list (list Z))
    (all_partition_datas : list (list ModelPartition)) : fsM Status :=
  if negb (zlen model_partition_tables =? zlen all_partition_datas) then mret PARAM_INVALID else
  ok ← tables_match model_partition_tables all_partition_datas;
  if negb ok then mret FAILED else
  '(st, fd) ← OpenFile file_path;
  if negb (bool_decide (st = SUCCESS)) then mret FAILED else
  w ← WriteData (Some (header_bytes file_header)) sizeof_ModelFileHeader fd;
  ret ← (if negb (bool_decide (w = SUCCESS)) then mret FAILED else
         write_models model_partition_tables all_partition_datas fd SUCCESS);
  close_file EN_OK fd ret.

(** ** Buffers *)
Record ModelBufferData := mkBufferData { mb_data : option (list Z); mb_length : Z }.

Fixpoint total_size_loop (partitionDatas : list ModelPartition) (total_size : Z) : option Z :=
  match partitionDatas with
  | [] => Some total_size
  | partitionData :: partitionDatas =>
      if negb (bool_decide (CheckUint32AddOverflow total_size (p_size partitionData) = SUCCESS)) then None
      else total_size_loop partitionDatas (wrapU 32 (total_size + p_size partitionData))
  end.

(** The copies; [buff] is the offset of the pointer of that name.  The status and the buffer. *)
Fixpoint copy_partitions (partitionDatas : list ModelPartition) (data : list Z) (buff left_space : Z) : Status * list Z :=
  match partitionDatas with
  | [] => (SUCCESS, data)
  | partitionData :: partitionDatas =>
      let r := memcpy_s data buff left_space (p_data partitionData) 0 (p_size partitionData) in
      if negb (r.1 =? 0) then (FAILED, r.2)
      else copy_partitions partitionDatas r.2 (buff + p_size partitionData) (wrapU 32 (left_space - p_size partitionData))
  end.

(** The out parameter [model] is part of the result. *)
Definition SaveToBuffWithFileHeader (file_header : ModelFileHeader) (model_partition_table : list Z)
    (partitionDatas : list ModelPartition) (model : ModelBufferData) : outcome (Status * ModelBufferData) :=
  num ← read32 model_partition_table 0;
  if negb (table_matches num partitionDatas) then Ok (FAILED, model) else
  let model_header_size := sizeof_ModelFileHeader in
  let table_size := wrapU 32 (SIZE_OF_MODEL_PARTITION_TABLE num) in
  match total_size_loop partitionDatas (wrapU 32 (model_header_size + table_size)) with
  | None => Ok (FAILED, model)
  | Some total_size =>
      match malloc total_size with
      | None => Ok (FAILED, model)
      | Some data =>
          let left_space := total_size in
          let r := memcpy_s data 0 left_space (Some (header_bytes file_header)) 0 model_header_size in
          if negb (r.1 =? 0) then Ok (FAILED, mkBufferData (Some r.2) total_size) else
          let left_space := wrapU 32 (left_space - model_header_size) in
          let r := memcpy_s r.2 model_header_size left_space (Some model_partition_table) 0 table_size in
          if negb (r.1 =? 0) then Ok (FAILED, mkBufferData (Some r.2) total_size) else
          let left_space := wrapU 32 (left_space - table_size) in
          let '(st, data) := copy_partitions partitionDatas r.2 (model_header_size + table_size) left_space in
          Ok (st, mkBufferData (Some data) total_size)
      end
  end.

(** ** SaveToFile *)
Record ModelData := mkModelData { model_data : option (list Z); model_len : Z }.

(** The copy of a 256-byte header into another always succeeds. *)
Definition SaveToFile_model (file_path : list Z) (model : ModelData) (model_file_header : option ModelFileHeader) : fsM Status :=
  if (zlen file_path =? 0) || bool_decide (model_data model = None) || (model_len model =? 0) then mret FAILED else
  let file_header := match model_file_header with Some h => h | None => new_ModelFileHeader end in
  let file_header := set_is_encrypt UNENCRYPTED (set_length (model_len model) file_header) in
  ret ← SaveWithFileHeader_data file_path file_header (model_data model) (wrapS 32 (h_length file_header));
  mret (if negb (bool_decide (ret = SUCCESS)) then FAILED else SUCCESS).

(** The changed header is part of the result. *)
Definition SaveToFile (file_path : list Z) (file_header : ModelFileHeader) (model_partition_table : list Z)
    (partition_datas : list ModelPartition) : fsM (Status * ModelFileHeader) :=
  let file_header := set_is_encrypt UNENCRYPTED file_header in
  ret ← SaveWithFileHeader file_path file_header model_partition_table partition_datas;
  mret (if bool_decide (ret = SUCCESS) then SUCCESS else FAILED, file_header).

Definition SaveToFile_root (file_path : list Z) (file_header : ModelFileHeader) (model_partition_tables : list (list Z))
    (all_partition_datas : list (list ModelPartition)) : fsM (Status * ModelFileHeader) :=
  let file_header := set_is_encrypt UNENCRYPTED file_header in
  ret ← SaveWithFileHeader_root file_path file_header model_partition_tables all_partition_datas;
  mret (if bool_decide (ret = SUCCESS) then SUCCESS else FAILED, file_header).

Definition SaveToFile_data (file_path : list Z) (data : option (list Z)) (len : Z) : fsM Status :=
  if bool_decide (data = None) || (len <=? 0) then mret FAILED else
  '(st, fd) ← OpenFile file_path;
  if negb (bool_decide (st = SUCCESS)) then mret FAILED else
  w ← WriteData data (wrapU 32 len) fd;
  close_file 0 fd (if bool_decide (w = SUCCESS) then SUCCESS else FAILED).
End Model.

(** * Specification of the layout *)

(** The memory a partition describes can be read. *)
Definition part_readable (p : ModelPartition) : Prop :=
  inU 32 (p_size p) /\ match p_data p with Some d => p_size p <= zlen d | None => True end.
Definition part_bytes (p : ModelPartition) : list Z :=
  match p_data p with Some d => take (Z.to_nat (p_size p)) d | None => [] end.
Definition parts_bytes (ps : list ModelPartition) : list Z := concat (map part_bytes ps).
Definition parts_size (ps : list ModelPartition) : Z := foldr (fun p n => p_size p + n) 0 ps.

(** A partition with data: neither the file nor the buffer saver takes an empty one. *)
Definition part_ok (p : ModelPartition) : Prop :=
  0 < p_size p < 2 ^ 32 /\ inU 32 (p_type p) /\ exists d, p_data p = Some d /\ p_size p <= zlen d.

Lemma part_ok_readable p : part_ok p -> part_readable p.
Proof. intros (Hs & _ & d & Hd & Hl). unfold part_readable, inU. rewrite Hd. lia. Qed.

Lemma zlen_part p : part_ok p -> zlen (part_bytes p) = p_size p.
Proof. intros (Hs & _ & d & Hd & Hl). unfold part_bytes. rewrite Hd, zlen_take; lia. Qed.

Lemma zlen_parts ps : Forall part_ok ps -> zlen (parts_bytes ps) = parts_size ps.
Proof.
  induction 1 as [|p ps Hp Hps IH]; [done|]. unfold parts_bytes in *. cbn [map concat parts_size foldr].
  rewrite zlen_app, zlen_part, IH by done. done.
Qed.

Lemma parts_size_nonneg ps : Forall part_ok ps -> 0 <= parts_size ps.
Proof. induction 1 as [|p ps [? _] _ IH]; cbn; [lia|]. unfold parts_size in IH. lia. Qed.

Lemma zlen_header h : header_ok h -> zlen (header_bytes h) = 256.
Proof.
  intros (H1 & H2 & H3 & H4 & H5). unfold header_bytes. rewrite !zlen_app, !zlen_le32, H1, H2, H3, H4, H5. done.
Qed.

Section Proofs.
Context `{E : Env} {HE : EnvOk E} `{F : Files} {HF : FilesOk F}.

(** ** Writing to a file *)

Lemma write_at_ok fd seek size s old :
  writes_complete -> 0 <= size <= zlen seek -> fs_file s fd = Some old ->
  exists n s', write_at fd seek size s = Some (n, s') /\
    (write_failed n = true /\ fs_file s' fd = Some old \/
     write_failed n = false /\ fs_file s' fd = Some (old ++ take (Z.to_nat size) seek)).
Proof.
  intros Hc Hsz Hold. unfold write_at. destruct (Z.leb_spec size (zlen seek)); [|lia]. unfold io, write_failed.
  set (bs := take (Z.to_nat size) seek). destruct (mmWrite fd bs s) as [n s'] eqn:Hw. exists n, s'. split; [done|].
  pose proof (zlen_nonneg bs). destruct EN_neg. specialize (Hc fd bs s). rewrite Hw in Hc. cbn in Hc.
  destruct (mmWrite_ok _ _ _ _ _ _ Hw Hold) as [[Hn Hf]|[Hn Hf]].
  - left. split; [|done]. apply orb_true_iff. rewrite !Z.eqb_eq. tauto.
  - right. assert (n = zlen bs) as -> by lia. rewrite take_zlen in Hf. split; [|done]. apply orb_false_iff. rewrite !Z.eqb_neq. lia.
Qed.

Lemma take_drop_app {A} (n k : nat) (l : list A) : take n l ++ take k (drop n l) = take (n + k) l.
Proof. by rewrite take_take_drop. Qed.

Lemma WriteData_chunks_ok fuel : forall fd seek size s old,
  writes_complete -> 0 <= size <= zlen seek -> size <= Z.of_nat fuel * size_1g -> fs_file s fd = Some old -> (0 < fuel)%nat ->
  exists r s' old', WriteData_chunks fuel fd seek size s = Some (r, s') /\ fs_file s' fd = Some old' /\
    match r with
    | None => True
    | Some (seek', size') => 0 <= size' <= zlen seek' /\ old' ++ take (Z.to_nat size') seek' = old ++ take (Z.to_nat size) seek
    end.
Proof.
  induction fuel as [|fuel IH]; intros fd seek size s old Hc Hsz Hf Hold Hpos; [lia|]. cbn [WriteData_chunks].
  destruct (Z.ltb_spec size_1g size) as [Hlt|Hge]; [|by exists (Some (seek, size)), s, old].
  destruct (write_at_ok fd seek size_1g s old Hc) as (n & s1 & Hw & Hor); [unfold size_1g in *; lia|done|].
  erewrite sm_bind_eq by exact Hw. destruct Hor as [[-> Hs1]|[-> Hs1]]; [by exists None, s1, old|].
  destruct (IH fd (drop (Z.to_nat size_1g) seek) (size - size_1g) s1 (old ++ take (Z.to_nat size_1g) seek) Hc) as (r & s' & old' & Hr & Hf' & Hm); [| |exact Hs1| |].
  - rewrite zlen_drop by (unfold size_1g in *; lia). unfold size_1g in *; lia.
  - lia.
  - destruct fuel; [unfold size_1g in *; lia|lia].
  - exists r, s', old'. split; [done|]. split; [done|]. destruct r as [[seek' size']|]; [|done].
    destruct Hm as [? ->]. split; [done|]. rewrite <- app_assoc, take_drop_app. do 2 f_equal. unfold size_1g in *. lia.
Qed.

Lemma WriteData_ok fd data size s old :
  writes_complete -> inU 32 size -> match data with Some d => size <= zlen d | None => True end -> fs_file s fd = Some old ->
  exists st s' c, WriteData data size fd s = Some (st, s') /\ fs_file s' fd = Some c /\
    (st = SUCCESS -> 0 < size /\ exists d, data = Some d /\ c = old ++ take (Z.to_nat size) d).
Proof.
  intros Hc Hu Hlen Hold. unfold inU in Hu. unfold WriteData. destruct data as [d|]; [|by exists PARAM_INVALID, s, old].
  destruct (Z.eqb_spec size 0); [by exists PARAM_INVALID, s, old|]. destruct (size_2g <? size).
  - destruct (WriteData_chunks_ok 5 fd d size s old Hc) as (r & s1 & old1 & Hr & Hf1 & Hm); [lia|unfold size_1g; lia|done|lia|].
    erewrite sm_bind_eq by exact Hr. destruct r as [[seek' size']|]; [|by exists FAILED, s1, old1]. destruct Hm as [Hsz Heq].
    destruct (write_at_ok fd seek' size' s1 old1 Hc Hsz Hf1) as (wn & s2 & Hw & Hor). erewrite sm_bind_eq by exact Hw.
    destruct Hor as [[-> ?]|[-> Hs2]]; [by exists FAILED, s2, old1|]. rewrite Heq in Hs2.
    exists SUCCESS, s2, (old ++ take (Z.to_nat size) d). split_and!; [done..|]. split; [lia|by exists d].
  - destruct (write_at_ok fd d size s old Hc ltac:(lia) Hold) as (wn & s2 & Hw & Hor). erewrite sm_bind_eq by exact Hw.
    destruct Hor as [[-> ?]|[-> Hs2]]; [by exists FAILED, s2, old|].
    exists SUCCESS, s2, (old ++ take (Z.to_nat size) d). split_and!; [done..|]. split; [lia|by exists d].
Qed.

Lemma write_partitions_ok ps : forall fd ret s old,
  writes_complete -> Forall part_readable ps -> fs_file s fd = Some old ->
  exists st s' c, write_partitions ps fd ret s = Some (st, s') /\ fs_file s' fd = Some c /\
    (st = SUCCESS -> ret = SUCCESS /\ c = old ++ parts_bytes ps).
Proof.
  induction ps as [|p ps IH]; intros fd ret s old Hc HP Hold; cbn [write_partitions].
  { exists ret, s, old. split_and!; [done..|]. intros ->. by rewrite app_nil_r. }
  apply Forall_cons in HP as [[Hu Hl] HP].
  destruct (WriteData_ok fd (p_data p) (p_size p) s old Hc Hu Hl Hold) as (st & s1 & c1 & Hw & Hf1 & Hs).
  erewrite sm_bind_eq by exact Hw. case_bool_decide as Hst; cbn [negb]; [|by exists FAILED, s1, c1].
  destruct (Hs Hst) as (_ & d & Hd & ->). destruct (IH fd ret s1 _ Hc HP Hf1) as (st2 & s2 & c2 & Hr & Hf2 & H2).
  exists st2, s2, c2. split_and!; [done..|]. intros ?. destruct (H2 ltac:(done)) as [? ->]. split; [done|].
  unfold parts_bytes. cbn [map concat]. unfold part_bytes at 2. by rewrite Hd, app_assoc.
Qed.

Lemma CreateDirectory_runs path s : exists r s', CreateDirectory path s = Some (r, s').
Proof.
  assert (Hmk : forall p s, exists r s', mkdir_ok p s = Some (r, s')).
  { intros p s0. unfold mkdir_ok, io, mbind, SM_bind. destruct (mmMkdir p s0) as [[ret e] s']. by eexists _, _. }
  assert (Hloop : forall rest pre s, exists r s', CreateDirectory_loop pre rest s = Some (r, s')).
  { induction rest as [|c rest IH]; intros pre s0; cbn [CreateDirectory_loop]; [by eexists _, _|].
    assert (exists r s', (if is_separator c then a ← query (mmAccess2 (pre ++ [c])); if negb (a =? EN_OK) then mkdir_ok (pre ++ [c]) else mret 0
      else mret 0) s0 = Some (r, s')) as (r & s1 & Hr).
    { destruct (is_separator c); [|by eexists _, _]. erewrite sm_bind_eq by done. destruct (negb _); [apply Hmk|by eexists _, _]. }
    erewrite sm_bind_eq by exact Hr. destruct (negb _); [by eexists _, _|apply IH]. }
  unfold CreateDirectory. destruct (_ =? 0); [by eexists _, _|]. destruct (_ <=? _); [by eexists _, _|].
  destruct (Hloop path [] s) as (r & s1 & Hr). erewrite sm_bind_eq by exact Hr. destruct (negb _); [by eexists _, _|apply Hmk].
Qed.

Lemma OpenFile_ok path s :
  exists st fd s', OpenFile path s = Some ((st, fd), s') /\ (st = SUCCESS -> fs_file s' fd = Some []).
Proof.
  unfold OpenFile. assert (exists c s1, CheckPath path s = Some (c, s1)) as (c & s1 & Hc).
  { unfold CheckPath. destruct (_ <=? _); [by eexists _, _|]. cbv zeta. destruct (_ =? 0); [by eexists _, _|]. destruct (negb _); [|by eexists _, _].
    destruct (CreateDirectory_runs (take (Z.to_nat (last_separator (rev path))) path) s) as (r & s1 & Hr).
    erewrite sm_bind_eq by exact Hr. by eexists _, _. }
  erewrite sm_bind_eq by exact Hc. case_bool_decide; cbn [negb]; [|by eexists _, _, _].
  erewrite sm_bind_eq by done. destruct (mmOpen2 (mmRealPath path s1).2 s1) as [fd s2] eqn:Ho. erewrite sm_bind_eq by (unfold io; by rewrite Ho).
  destruct (Z.eqb_spec fd EN_INVALID_PARAM); [by eexists _, _, _|]. destruct (Z.eqb_spec fd EN_ERROR); [by eexists _, _, _|].
  exists SUCCESS, fd, s2. split; [done|]. intros _. by eapply mmOpen2_ok.
Qed.

Lemma close_file_ok ok fd ret s : exists st s', close_file ok fd ret s = Some (st, s') /\ fs_file s' fd = fs_file s fd /\ (st = SUCCESS -> ret = SUCCESS).
Proof.
  unfold close_file, io. destruct (mmClose fd s) as [n s'] eqn:Hc. erewrite sm_bind_eq by (by rewrite Hc).
  eexists _, s'. split; [done|]. split; [by eapply mmClose_ok|]. by destruct (negb _).
Qed.

(** A table and the number of its entries. *)
Definition table_ok (table : list Z) (num : Z) : Prop :=
  read32 table 0 = Ok num /\ 0 <= num < 357913941 /\ zlen table = 4 + 12 * num.

Lemma table_size num : 0 <= num < 357913941 -> wrapU 32 (SIZE_OF_MODEL_PARTITION_TABLE num) = 4 + 12 * num.
Proof.
  intros. unfold SIZE_OF_MODEL_PARTITION_TABLE, sizeof_ModelPartitionTable, sizeof_ModelPartitionMemInfo.
  rewrite (wrapU64_id (12 * num)) by lia. rewrite wrapU64_id by lia. apply wrapU_id. unfold inU. lia.
Qed.

Lemma take_all_z {A} n (l : list A) : zlen l = n -> take (Z.to_nat n) l = l.
Proof. intros <-. apply take_zlen. Qed.

Lemma write_header_ok h fd s :
  writes_complete -> header_ok h -> fs_file s fd = Some [] ->
  exists st s' c, WriteData (Some (header_bytes h)) sizeof_ModelFileHeader fd s = Some (st, s') /\ fs_file s' fd = Some c /\
    (st = SUCCESS -> c = header_bytes h).
Proof.
  intros Hc Hh Hf. pose proof (zlen_header h Hh) as Hl.
  destruct (WriteData_ok fd (Some (header_bytes h)) sizeof_ModelFileHeader s [] Hc) as (st & s' & c & Hw & Hf' & Hs);
    [unfold inU, sizeof_ModelFileHeader; lia|unfold sizeof_ModelFileHeader; lia|done|].
  exists st, s', c. split_and!; [done..|]. intros Hst. destruct (Hs Hst) as (_ & d & [= <-] & ->). by rewrite take_all_z.
Qed.

Lemma write_table_ok table num fd s old :
  writes_complete -> table_ok table num -> fs_file s fd = Some old ->
  exists st s' c, WriteData (Some table) (wrapU 32 (SIZE_OF_MODEL_PARTITION_TABLE num)) fd s = Some (st, s') /\ fs_file s' fd = Some c /\
    (st = SUCCESS -> c = old ++ table).
Proof.
  intros Hc (_ & Hn & Hl) Hf. rewrite table_size by done.
  destruct (WriteData_ok fd (Some table) (4 + 12 * num) s old Hc) as (st & s' & c & Hw & Hf' & Hs); [unfold inU; lia|lia|done|].
  exists st, s', c. split_and!; [done..|]. intros Hst. destruct (Hs Hst) as (_ & d & [= <-] & ->). by rewrite take_all_z.
Qed.

(** A file that was saved with success holds the header, the table and the partitions. *)
Lemma SaveWithFileHeader_ok path h table num ps s :
  writes_complete -> header_ok h -> table_ok table num -> Forall part_readable ps ->
  exists st s', SaveWithFileHeader path h table ps s = Some (st, s') /\
    (st = SUCCESS -> exists fd, fs_file s' fd = Some (header_bytes h ++ table ++ parts_bytes ps)).
Proof.
  intros Hc Hh Ht Hps. unfold SaveWithFileHeader. erewrite sm_bind_eq by (unfold table_num; by rewrite (proj1 Ht)).
  destruct (table_matches num ps); cbn [negb]; [|by exists FAILED, s].
  destruct (OpenFile_ok path s) as (st0 & fd & s0 & Ho & Hopen). erewrite sm_bind_eq by exact Ho. cbv beta iota.
  case_bool_decide as Hst0; cbn [negb]; [|by exists FAILED, s0]. specialize (Hopen Hst0).
  destruct (write_header_ok h fd s0 Hc Hh Hopen) as (st1 & s1 & c1 & Hw1 & Hf1 & H1). erewrite sm_bind_eq by exact Hw1.
  set (m := if negb _ then _ else _).
  assert (exists ret s2 c2, m s1 = Some (ret, s2) /\ fs_file s2 fd = Some c2 /\ (ret = SUCCESS -> c2 = header_bytes h ++ table ++ parts_bytes ps))
    as (ret & s2 & c2 & Hm & Hf2 & H2).
  { unfold m. case_bool_decide as Hst1; cbn [negb]; [|by exists FAILED, s1, c1]. cbv zeta.
    destruct (write_table_ok table num fd s1 c1 Hc Ht Hf1) as (st2 & s2 & c2 & Hw2 & Hf2 & H2). erewrite sm_bind_eq by exact Hw2.
    case_bool_decide as Hst2; cbn [negb]; [|by exists FAILED, s2, c2].
    destruct (write_partitions_ok ps fd SUCCESS s2 c2 Hc Hps Hf2) as (st3 & s3 & c3 & Hw3 & Hf3 & H3).
    exists st3, s3, c3. split_and!; [done..|]. intros Hst3. destruct (H3 Hst3) as [_ ->]. by rewrite (H2 Hst2), (H1 Hst1), <- app_assoc. }
  erewrite sm_bind_eq by exact Hm. destruct (close_file_ok EN_OK fd ret s2) as (st & s' & Hcl & Hf' & Hst).
  exists st, s'. split; [done|]. intros Hs. exists fd. by rewrite Hf', Hf2, (H2 (Hst Hs)).
Qed.

(** ** Several models *)
Definition models_bytes (tables : list (list Z)) (datas : list (list ModelPartition)) : list Z :=
  concat (zip_with (fun t ps => t ++ parts_bytes ps) tables datas).

Lemma write_models_ok tables : forall datas fd ret s old,
  writes_complete -> Forall (fun t => exists num, table_ok t num) tables -> Forall (Forall part_readable) datas -> fs_file s fd = Some old ->
  exists st s' c, write_models tables datas fd ret s = Some (st, s') /\ fs_file s' fd = Some c /\
    (st = SUCCESS -> ret = SUCCESS /\ c = old ++ models_bytes tables datas).
Proof.
  induction tables as [|t tables IH]; intros datas fd ret s old Hc HT HP Hf; cbn [write_models].
  { exists ret, s, old. split_and!; [done..|]. intros ->. by rewrite app_nil_r. }
  destruct datas as [|ps datas].
  { exists ret, s, old. split_and!; [done..|]. intros ->. by rewrite app_nil_r. }
  apply Forall_cons in HT as [[num Ht] HT]. apply Forall_cons in HP as [Hp HP].
  erewrite sm_bind_eq by (unfold table_num; by rewrite (proj1 Ht)). cbv zeta.
  destruct (write_table_ok t num fd s old Hc Ht Hf) as (st1 & s1 & c1 & Hw1 & Hf1 & H1). erewrite sm_bind_eq by exact Hw1.
  case_bool_decide as Hst1; cbn [negb]; [|by exists FAILED, s1, c1].
  destruct (write_partitions_ok ps fd ret s1 c1 Hc Hp Hf1) as (st2 & s2 & c2 & Hw2 & Hf2 & H2). erewrite sm_bind_eq by exact Hw2.
  destruct (IH datas fd st2 s2 c2 Hc HT HP Hf2) as (st3 & s3 & c3 & Hw3 & Hf3 & H3). exists st3, s3, c3. split_and!; [done..|].
  intros Hst3. destruct (H3 Hst3) as [Hst2 ->]. destruct (H2 Hst2) as [Hret ->]. rewrite (H1 Hst1). split; [done|].
  unfold models_bytes. cbn [zip_with concat]. by rewrite <- !app_assoc.
Qed.

Lemma SaveWithFileHeader_root_ok path h tables datas s :
  writes_complete -> header_ok h -> Forall (fun t => exists num, table_ok t num) tables -> Forall (Forall part_readable) datas ->
  exists st s', SaveWithFileHeader_root path h tables datas s = Some (st, s') /\
    (st = SUCCESS -> exists fd, fs_file s' fd = Some (header_bytes h ++ models_bytes tables datas)).
Proof.
  intros Hc Hh HT HP. unfold SaveWithFileHeader_root. destruct (negb _); [by exists PARAM_INVALID, s|].
  assert (exists b, tables_match tables datas s = Some (b, s)) as [b Hb].
  { clear HP. revert datas. induction HT as [|t tables [num Ht] HT IH]; intros [|ps datas]; cbn [tables_match]; [by eexists..|].
    erewrite sm_bind_eq by (unfold table_num; by rewrite (proj1 Ht)). destruct (negb _); [by eexists|apply IH]. }
  erewrite sm_bind_eq by exact Hb. destruct b; cbn [negb]; [|by exists FAILED, s].
  destruct (OpenFile_ok path s) as (st0 & fd & s0 & Ho & Hopen). erewrite sm_bind_eq by exact Ho. cbv beta iota.
  case_bool_decide as Hst0; cbn [negb]; [|by exists FAILED, s0]. specialize (Hopen Hst0).
  destruct (write_header_ok h fd s0 Hc Hh Hopen) as (st1 & s1 & c1 & Hw1 & Hf1 & H1). erewrite sm_bind_eq by exact Hw1.
  set (m := if negb _ then _ else _).
  assert (exists ret s2 c2, m s1 = Some (ret, s2) /\ fs_file s2 fd = Some c2 /\ (ret = SUCCESS -> c2 = header_bytes h ++ models_bytes tables datas))
    as (ret & s2 & c2 & Hm & Hf2 & H2).
  { unfold m. case_bool_decide as Hst1; cbn [negb]; [|by exists FAILED, s1, c1].
    destruct (write_models_ok tables datas fd SUCCESS s1 c1 Hc HT HP Hf1) as (st3 & s3 & c3 & Hw3 & Hf3 & H3).
    exists st3, s3, c3. split_and!; [done..|]. intros Hst3. destruct (H3 Hst3) as [_ ->]. by rewrite (H1 Hst1). }
  erewrite sm_bind_eq by exact Hm. destruct (close_file_ok EN_OK fd ret s2) as (st & s' & Hcl & Hf' & Hst).
  exists st, s'. split; [done|]. intros Hs. exists fd. by rewrite Hf', Hf2, (H2 (Hst Hs)).
Qed.

(** ** Saving to a buffer *)
Lemma add32_ok a b : 0 <= a -> 0 <= b -> a + b < 2 ^ 32 -> CheckUint32AddOverflow a b = SUCCESS.
Proof. intros. apply CheckUint32AddOverflow_exact; unfold UINT32_MAX; lia. Qed.

Lemma total_size_loop_ok ps : forall t,
  Forall part_ok ps -> 0 <= t -> t + parts_size ps < 2 ^ 32 -> total_size_loop ps t = Some (t + parts_size ps).
Proof.
  induction ps as [|p ps IH]; intros t HP Ht Hb; cbn [total_size_loop]; [by rewrite Z.add_0_r|].
  apply Forall_cons in HP as [[Hp Hp'] HP]. pose proof (parts_size_nonneg ps HP). change (parts_size (p :: ps)) with (p_size p + parts_size ps) in *.
  rewrite bool_decide_eq_true_2 by (apply add32_ok; lia). cbn [negb].
  rewrite wrapU_id by (unfold inU; lia). rewrite IH by (done || lia). f_equal. lia.
Qed.

Lemma copy_partitions_ok ps : forall done rest,
  Forall part_ok ps -> zlen rest = parts_size ps -> zlen rest <= SECUREC_MEM_MAX_LEN -> zlen rest < 2 ^ 32 ->
  copy_partitions ps (done ++ rest) (zlen done) (zlen rest) = (SUCCESS, done ++ parts_bytes ps).
Proof.
  induction ps as [|p ps IH]; intros done rest HP Hr Hm Hu; cbn [copy_partitions].
  { destruct rest; [done|]. rewrite zlen_cons in Hr. pose proof (zlen_nonneg rest). cbn in Hr. lia. }
  apply Forall_cons in HP as [Hp HP]. pose proof (parts_size_nonneg ps HP). change (parts_size (p :: ps)) with (p_size p + parts_size ps) in *.
  pose proof (zlen_part p Hp) as Hlp. unfold part_bytes in Hlp. destruct Hp as (Hsz & _ & d & Hd & Hl). rewrite Hd in *.
  rewrite memcpy_s_next by lia. cbn [fst snd]. rewrite EOK_zero. cbn [Z.eqb negb].
  rewrite wrapU_id by (unfold inU; lia).
  assert (Hlr : zlen (drop (Z.to_nat (p_size p)) rest) = zlen rest - p_size p) by (rewrite zlen_drop; lia).
  rewrite <- Hlr. replace (zlen done + p_size p) with (zlen (done ++ take (Z.to_nat (p_size p)) d)) by (rewrite zlen_app; lia).
  rewrite IH by (done || lia). unfold parts_bytes. cbn [map concat]. unfold part_bytes at 2. by rewrite Hd, <- app_assoc.
Qed.

Lemma table_matches_ok ps : ps <> [] -> table_matches (zlen ps) ps = true.
Proof.
  intros Hne. unfold table_matches. destruct ps as [|p ps]; [done|]. rewrite zlen_cons. pose proof (zlen_nonneg ps).
  rewrite Z.eqb_refl, (proj2 (Z.eqb_neq _ _)) by lia. done.
Qed.

Lemma SaveToBuffWithFileHeader_ok h table ps model buf :
  header_ok h -> table_ok table (zlen ps) -> Forall part_ok ps -> ps <> [] ->
  let total := 256 + zlen table + parts_size ps in
  total < 2 ^ 32 -> total <= SECUREC_MEM_MAX_LEN -> malloc total = Some buf ->
  SaveToBuffWithFileHeader h table ps model
  = Ok (SUCCESS, mkBufferData (Some (header_bytes h ++ table ++ parts_bytes ps)) total).
Proof.
  intros Hh Ht HP Hne. cbv zeta. intros Hu Hm Hbuf. unfold SaveToBuffWithFileHeader. pose proof (parts_size_nonneg ps HP).
  destruct Ht as (Hn & Hb & Hl). rewrite Hn. cbn [mbind outcome_bind]. rewrite table_matches_ok by done. cbn [negb].
  rewrite table_size by done. unfold sizeof_ModelFileHeader. rewrite wrapU_id by (unfold inU; lia).
  rewrite total_size_loop_ok by (done || lia). replace (256 + (4 + 12 * zlen ps) + parts_size ps) with (256 + zlen table + parts_size ps) by lia.
  rewrite Hbuf. pose proof (zlen_header h Hh) as Hlh. pose proof (malloc_len _ _ Hbuf) as Hlb.
  pose proof (memcpy_s_next [] buf (header_bytes h) (256 + zlen table + parts_size ps) 256) as C1.
  change (zlen (@nil Z)) with 0 in C1. cbn [app] in C1. rewrite C1 by lia. cbn [fst snd]. rewrite EOK_zero. cbn [Z.eqb negb].
  rewrite wrapU_id by (unfold inU; lia). rewrite (take_all_z 256) by done. set (rest := drop (Z.to_nat 256) buf).
  assert (Hlr : zlen rest = zlen table + parts_size ps) by (unfold rest; rewrite zlen_drop; lia).
  replace (256 + zlen table + parts_size ps - 256) with (zlen rest) by lia. replace (4 + 12 * zlen ps) with (zlen table) by lia.
  pose proof (memcpy_s_next (header_bytes h) rest table (zlen rest) (zlen table)) as C2. rewrite Hlh in C2. rewrite C2 by lia. cbn [fst snd]. rewrite EOK_zero. cbn [Z.eqb negb]. rewrite take_zlen.
  rewrite wrapU_id by (unfold inU; lia). set (rest2 := drop (Z.to_nat (zlen table)) rest).
  assert (Hlr2 : zlen rest2 = parts_size ps) by (unfold rest2; rewrite zlen_drop; lia).
  replace (zlen rest - zlen table) with (zlen rest2) by lia. replace (256 + zlen table) with (zlen (header_bytes h ++ table)) by (rewrite zlen_app; lia).
  rewrite copy_partitions_ok by (done || lia). by rewrite <- app_assoc.
Qed.
End Proofs.

(** * A file system to run on

    One file, descriptor 3; a write stores at most [limit] bytes, when there is a limit. *)
Definition stored (limit : option Z) (n : Z) : Z := match limit with Some k => Z.min k n | None => n end.
Definition sample_files (limit : option Z) : Files := {|
  FS := option (list Z);
  EN_OK := 0;
  EN_ERROR := -1;
  EN_INVALID_PARAM := -2;
  EEXIST := 17;
  MMPA_MAX_PATH := 4096;
  mmMkdir := fun _ s => (0, 0, s);
  mmAccess2 := fun _ _ => 0;
  mmRealPath := fun path _ => (0, path);
  mmOpen2 := fun _ _ => (3, Some []);
  mmWrite := fun fd bs s =>
    match s with
    | Some old => if fd =? 3 then (stored limit (zlen bs), Some (old ++ take (Z.to_nat (stored limit (zlen bs))) bs)) else (-1, s)
    | None => (-1, s)
    end;
  mmClose := fun _ s => (0, s);
  malloc := fun n => if 0 <=? n then Some (repeat 0 (Z.to_nat n)) else None;
|}.

Definition sample_files_ok limit : match limit with Some k => 0 <= k | None => True end -> FilesOk (sample_files limit).
Proof.
  intros Hl. refine {| fs_file := (fun s fd => if fd =? 3 then s else None) : @FS (sample_files limit) -> Z -> option (list Z) |}; cbn.
  - lia.
  - intros path s fd s' [= <- <-] _ _. done.
  - intros fd bs s n s' old. destruct (Z.eqb_spec fd 3) as [->|]; [|done]. destruct s as [o|]; [|done]. intros [= <- <-] [= ->]. right.
    pose proof (zlen_nonneg bs). split; [destruct limit; cbn; lia|done].
  - by intros fd s n s' [= _ <-].
  - intros n b. destruct (Z.leb_spec 0 n); [|done]. intros [= <-]. by apply zlen_repeat.
Defined.

(** A write that the file system cuts short goes unnoticed: up to 2 GB, WriteData reports success and
    the file holds only the part that was written. *)
Theorem short_write_unnoticed `{F : Files} {HF : FilesOk F} fd d size s old n s' :
  0 < size <= size_2g -> size <= zlen d -> fs_file s fd = Some old ->
  mmWrite fd (take (Z.to_nat size) d) s = (n, s') -> 0 <= n < size ->
  WriteData (Some d) size fd s = Some (SUCCESS, s') /\ fs_file s' fd = Some (old ++ take (Z.to_nat n) d).
Proof.
  intros Hs Hl Hold Hw Hn. destruct EN_neg. unfold WriteData. destruct (Z.eqb_spec size 0); [lia|]. destruct (Z.ltb_spec size_2g size); [lia|].
  split.
  - unfold write_at. destruct (Z.leb_spec size (zlen d)); [|lia]. erewrite sm_bind_eq by (unfold io; by rewrite Hw).
    unfold write_failed. rewrite !(proj2 (Z.eqb_neq _ _)) by lia. done.
  - destruct (mmWrite_ok _ _ _ _ _ _ Hw Hold) as [[? _]|[_ Hf]]; [lia|]. rewrite Hf, take_take. do 3 f_equal. lia.
Qed.

Lemma short_write_unnoticed_witness :
  WriteData (F := sample_files (Some 2)) (Some [1; 2; 3]) 3 3 (Some []) = Some (SUCCESS, Some [1; 2]).
Proof.
  exact (proj1 (short_write_unnoticed (F := sample_files (Some 2)) (HF := sample_files_ok (Some 2) ltac:(cbn; lia)) 3 [1; 2; 3] 3 (Some []) [] 2 (Some [1; 2])
    ltac:(unfold size_2g; lia) ltac:(vm_compute; congruence) eq_refl eq_refl ltac:(lia))).
Defined.
