(* ===== verification/OmFile.v ===== *)
(** Offline model files (ge/common/helper/om_file_helper.cc, inc/framework/common/helper/om_file_helper.h): the helper that
    collects the partitions of one or several models and saves them, and the helper that
    finds them again in the bytes of a file.

    A file is the 256-byte header and, for each model, the partition table and the partitions.
    The theorems show that what is saved is loaded, that loading a single model is safe on
    arbitrary bytes, and where the version for several models is not. *)
From S2P Require Import Prelude MathUtil Buffer Bytes FileSaver.

Record OmFileContext := mkContext { partition_datas_ : list ModelPartition; partition_table_ : list Z; model_data_len_ : Z }.
Definition new_OmFileContext : OmFileContext := mkContext [] [] 0.

Module OmFileSaveHelper.
Record OmFileSaveHelper := mkSave {
  model_header_ : ModelFileHeader;
  context_ : OmFileContext;
  model_contexts_ : list OmFileContext;
}.
Definition new_helper : OmFileSaveHelper := mkSave new_ModelFileHeader new_OmFileContext [].

Definition push_partition (partition : ModelPartition) (c : OmFileContext) : OmFileContext :=
  mkContext (partition_datas_ c ++ [partition]) (partition_table_ c) (wrapU 32 (model_data_len_ c + p_size partition)).

Definition AddPartition (partition : ModelPartition) (h : OmFileSaveHelper) : Status * OmFileSaveHelper :=
  if negb (bool_decide (CheckUint32AddOverflow (model_data_len_ (context_ h)) (p_size partition) = SUCCESS)) then (FAILED, h) else
  (SUCCESS, mkSave (model_header_ h) (push_partition partition (context_ h)) (model_contexts_ h)).

(** The version with a model index. *)
Definition AddPartition_at (partition : ModelPartition) (cur_index : nat) (h : OmFileSaveHelper) : Status * OmFileSaveHelper :=
  if negb (bool_decide (CheckUint32AddOverflow (model_data_len_ (context_ h)) (p_size partition) = SUCCESS)) then (FAILED, h) else
  match model_contexts_ h !! cur_index with
  | Some ctx => (SUCCESS, mkSave (model_header_ h) (context_ h) (<[cur_index := push_partition partition ctx]> (model_contexts_ h)))
  | None =>
      if negb (cur_index =? length (model_contexts_ h))%nat then (FAILED, h) else
      (SUCCESS, mkSave (model_header_ h) (context_ h) (model_contexts_ h ++ [push_partition partition new_OmFileContext]))
  end.

Definition GetModelPartitions (h : OmFileSaveHelper) : list ModelPartition := partition_datas_ (context_ h).

(** The loop that fills the table. *)
Fixpoint table_entries (partition_datas : list ModelPartition) (mem_offset : Z) : list Z :=
  match partition_datas with
  | [] => []
  | partition :: partition_datas =>
      meminfo_bytes (p_type partition) mem_offset (p_size partition)
      ++ table_entries partition_datas (wrapU 32 (mem_offset + p_size partition))
  end.

(** GetPartitionTable on a context: the table it returns a pointer to is stored in the context. *)
Definition GetPartitionTable (c : OmFileContext) : list Z * OmFileContext :=
  let table := le32 (wrapU 32 (zlen (partition_datas_ c))) ++ table_entries (partition_datas_ c) 0 in
  (table, mkContext (partition_datas_ c) table (model_data_len_ c)).

Section Save.
Context `{E : Env} `{F : Files}.

(** The status, the buffer out parameter and the helper. *)
Definition SaveModelToFile (output_file : list Z) (model : ModelBufferData) (is_offline : bool) (h : OmFileSaveHelper) :
    fsM (Status * ModelBufferData * OmFileSaveHelper) :=
  let empty := zlen (partition_datas_ (context_ h)) =? 0 in
  match empty, model_contexts_ h with
  | true, [] => mret (FAILED, model, h)
  | _, _ =>
      let context := match empty, model_contexts_ h with true, c :: _ => c | _, _ => context_ h end in
      let h := mkSave (model_header_ h) context (model_contexts_ h) in
      let model_data_len := model_data_len_ context in
      if model_data_len =? 0 then mret (PARAM_INVALID, model, h) else
      let '(partition_table, context) := GetPartitionTable context in
      let h := mkSave (model_header_ h) context (model_contexts_ h) in
      num ← table_num partition_table;
      let size_of_table := wrapU 32 (SIZE_OF_MODEL_PARTITION_TABLE num) in
      match FMK_UINT32_ADDCHECK size_of_table model_data_len with
      | Err e => mret (e, model, h)
      | Stuck => sm_stuck
      | Ok _ =>
          let header := set_length (wrapU 32 (size_of_table + model_data_len)) (model_header_ h) in
          let h := mkSave header context (model_contexts_ h) in
          let partition_datas := partition_datas_ context in
          if is_offline then
            r ← SaveToFile output_file header partition_table partition_datas;
            mret (r.1, model, mkSave r.2 context (model_contexts_ h))
          else
            match SaveToBuffWithFileHeader header partition_table partition_datas model with
            | Ok (st, model) => mret (st, model, h)
            | Err e => mret (e, model, h)
            | Stuck => sm_stuck
            end
      end
  end.

Definition SaveModel (output_file : list Z) (model : ModelBufferData) (is_offline : bool) (h : OmFileSaveHelper) :
    fsM (Status * ModelBufferData * OmFileSaveHelper) :=
  SaveModelToFile output_file model is_offline h.

(** The loop of SaveRootModel over the models: [done] holds the contexts already visited, with their
    tables; [h_length] of the header grows with every model.  [Err e]: an early return. *)
Fixpoint SaveRootModel_loop (contexts done : list OmFileContext) (header : ModelFileHeader) :
    outcome (Status * list OmFileContext * ModelFileHeader) :=
  match contexts with
  | [] => Ok (SUCCESS, done, header)
  | cur_ctx :: contexts =>
      let cur_model_data_len := model_data_len_ cur_ctx in
      if cur_model_data_len =? 0 then Ok (PARAM_INVALID, done ++ cur_ctx :: contexts, header) else
      let '(tmp_table, cur_ctx) := GetPartitionTable cur_ctx in
      num ← read32 tmp_table 0;
      let size_of_table := wrapU 32 (SIZE_OF_MODEL_PARTITION_TABLE num) in
      match FMK_UINT32_ADDCHECK size_of_table cur_model_data_len,
            FMK_UINT32_ADDCHECK (wrapU 32 (size_of_table + cur_model_data_len)) (h_length header) with
      | Ok _, Ok _ =>
          let header := set_length (wrapU 32 (h_length header + wrapU 32 (size_of_table + cur_model_data_len))) header in
          SaveRootModel_loop contexts (done ++ [cur_ctx]) header
      | _, _ => Ok (INTERNAL_ERROR, done ++ cur_ctx :: contexts, header)
      end
  end.

Definition SaveRootModel (output_file : list Z) (is_offline : bool) (h : OmFileSaveHelper) : fsM (Status * OmFileSaveHelper) :=
  match SaveRootModel_loop (model_contexts_ h) [] (model_header_ h) with
  | Ok (st, contexts, header) =>
      let h := mkSave header (context_ h) contexts in
      if negb (bool_decide (st = SUCCESS)) then mret (st, h) else
      if is_offline then
        r ← SaveToFile_root output_file header (map partition_table_ contexts) (map partition_datas_ contexts);
        mret (r.1, mkSave r.2 (context_ h) contexts)
      else mret (FAILED, h)
  | _ => sm_stuck
  end.
End Save.
End OmFileSaveHelper.

Module OmFileLoadHelper.
Record OmFileLoadHelper := mkLoad { context_ : OmFileContext; model_contexts_ : list OmFileContext; is_inited_ : bool }.
Definition new_helper : OmFileLoadHelper := mkLoad new_OmFileContext [] false.

Definition kOptionalNum : Z := 2.
Definition of_outcome {S A} (o : outcome A) : SM S A := match o with Ok a => mret a | _ => sm_stuck end.

Definition push (partition : ModelPartition) (c : OmFileContext) : OmFileContext :=
  mkContext (partition_datas_ c ++ [partition]) (partition_table_ c) (model_data_len_ c).
Definition set_context (c : OmFileContext) (h : OmFileLoadHelper) : OmFileLoadHelper := mkLoad c (model_contexts_ h) (is_inited_ h).
Definition set_contexts (l : list OmFileContext) (h : OmFileLoadHelper) : OmFileLoadHelper := mkLoad (context_ h) l (is_inited_ h).

Definition CheckModelValid (model : ModelData) : outcome Status :=
  match model_data model with
  | None => Ok PARAM_INVALID
  | Some d =>
      if model_len model <? sizeof_ModelFileHeader + sizeof_ModelPartitionTable then Ok PARAM_INVALID else
      length ← read32 d 76;
      magic ← read32 d 0;
      if negb (length =? wrapU64 (model_len model - sizeof_ModelFileHeader)) || negb (MODEL_FILE_MAGIC_NUM =? magic)
      then Ok PARAM_INVALID else Ok SUCCESS
  end.

(** The fields of entry [i] of the table at [table]. *)
Definition entry_type (d : list Z) (table i : Z) : outcome Z := read32 d (table + sizeof_ModelPartitionTable + sizeof_ModelPartitionMemInfo * i).
Definition entry_size (d : list Z) (table i : Z) : outcome Z := read32 d (table + sizeof_ModelPartitionTable + sizeof_ModelPartitionMemInfo * i + 8).

(** The loop over the entries, from entry [i] on; the partition is pushed before its size is checked. *)
Fixpoint load_entries (k : nat) (i : Z) (d : list Z) (model_data_size mem_offset : Z) : SM OmFileLoadHelper Status :=
  match k with
  | O => mret SUCCESS
  | S k =>
      size ← of_outcome (entry_size d 0 i);
      type ← of_outcome (entry_type d 0 i);
      let partition := mkPart type (Some (drop (Z.to_nat mem_offset) d)) size in
      _ ← sm_modify (fun h => set_context (push partition (context_ h)) h);
      if (model_data_size <? size) || (wrapU 32 (model_data_size - size) <? mem_offset)
      then mret ACL_ERROR_GE_EXEC_MODEL_DATA_SIZE_INVALID
      else load_entries k (i + 1) d model_data_size (wrapU64 (mem_offset + size))
  end.

Definition LoadModelPartitionTable (model_data : option (list Z)) (model_data_size : Z) : SM OmFileLoadHelper Status :=
  match model_data with
  | None => mret ACL_ERROR_GE_EXEC_MODEL_ADDR_INVALID
  | Some d =>
      num ← of_outcome (read32 d 0);
      if negb (num =? PARTITION_SIZE) && negb (num =? PARTITION_SIZE - 1) && negb (num =? PARTITION_SIZE - kOptionalNum) && negb (num =? 1)
      then mret ACL_ERROR_GE_PARAM_INVALID else
      let mem_offset := SIZE_OF_MODEL_PARTITION_TABLE num in
      if model_data_size <=? mem_offset then mret ACL_ERROR_GE_EXEC_MODEL_DATA_SIZE_INVALID else
      load_entries (Z.to_nat num) 0 d model_data_size mem_offset
  end.

Definition Init_data (model_data : option (list Z)) (model_data_size : Z) : SM OmFileLoadHelper Status :=
  status ← LoadModelPartitionTable model_data model_data_size;
  if negb (bool_decide (status = SUCCESS)) then mret status else
  _ ← sm_modify (fun h => mkLoad (context_ h) (model_contexts_ h) true);
  mret SUCCESS.

Definition Init (model : ModelData) : SM OmFileLoadHelper Status :=
  status ← of_outcome (CheckModelValid model);
  if negb (bool_decide (status = SUCCESS)) then mret FAILED else
  let model_data_size := wrapU 32 (model_len model - sizeof_ModelFileHeader) in
  Init_data (drop (Z.to_nat sizeof_ModelFileHeader) <$> model_data model) model_data_size.

(** ** Several models *)

(** The partition of model [index]: a new context for the first one. *)
Definition push_at (index : nat) (partition : ModelPartition) : SM OmFileLoadHelper bool :=
  h ← sm_get;
  match model_contexts_ h !! index with
  | Some ctx => _ ← sm_modify (set_contexts (<[index := push partition ctx]> (model_contexts_ h))); mret true
  | None =>
      if negb (index =? length (model_contexts_ h))%nat then mret false else
      _ ← sm_modify (set_contexts (model_contexts_ h ++ [push partition new_OmFileContext])); mret true
  end.

(** The entries of the table at [table]; the result is the status and cur_offset. *)
Fixpoint load_entries_at (k : nat) (i : Z) (index : nat) (d : list Z) (table model_data_size cur_offset : Z) :
    SM OmFileLoadHelper (Status * Z) :=
  match k with
  | O => mret (SUCCESS, cur_offset)
  | S k =>
      size ← of_outcome (entry_size d table i);
      type ← of_outcome (entry_type d table i);
      ok ← push_at index (mkPart type (Some (drop (Z.to_nat cur_offset) d)) size);
      if negb ok then mret (FAILED, cur_offset) else
      if (model_data_size <? size) || (wrapU 32 (model_data_size - size) <? cur_offset)
      then mret (ACL_ERROR_GE_EXEC_MODEL_DATA_SIZE_INVALID, cur_offset)
      else load_entries_at k (i + 1) index d table model_data_size (wrapU 32 (cur_offset + size))
  end.

Fixpoint load_models (k index : nat) (d : list Z) (model_data_size cur_offset : Z) : SM OmFileLoadHelper (Status * Z) :=
  match k with
  | O => mret (SUCCESS, cur_offset)
  | S k =>
      let table := cur_offset in
      num ← of_outcome (read32 d table);
      let cur_offset := wrapU 32 (cur_offset + SIZE_OF_MODEL_PARTITION_TABLE num) in
      if model_data_size <=? cur_offset then mret (ACL_ERROR_GE_EXEC_MODEL_DATA_SIZE_INVALID, cur_offset) else
      r ← load_entries_at (Z.to_nat num) 0 index d table model_data_size cur_offset;
      if negb (bool_decide (r.1 = SUCCESS)) then mret r else load_models k (S index) d model_data_size r.2
  end.

Definition LoadModelPartitionTable_root (model_data : option (list Z)) (model_data_size model_num : Z) : SM OmFileLoadHelper Status :=
  match model_data with
  | None => mret PARAM_INVALID
  | Some d =>
      r ← load_models (Z.to_nat model_num) 0 d model_data_size 0;
      if negb (bool_decide (r.1 = SUCCESS)) then mret r.1 else
      mret (if negb (r.2 =? model_data_size) then FAILED else SUCCESS)
  end.

Definition Init_root (model_data : option (list Z)) (model_data_size model_num : Z) : SM OmFileLoadHelper Status :=
  status ← LoadModelPartitionTable_root model_data model_data_size model_num;
  if negb (bool_decide (status = SUCCESS)) then mret status else
  _ ← sm_modify (fun h => mkLoad (context_ h) (model_contexts_ h) true);
  mret SUCCESS.

(** ** Lookup *)

(** The first partition of the type; the out parameter keeps its value when there is none. *)
Fixpoint find_partition (type : Z) (parts : list ModelPartition) : option ModelPartition :=
  match parts with
  | [] => None
  | part :: parts => if p_type part =? type then Some part else find_partition type parts
  end.
Definition found_or_optional (type : Z) (found : option ModelPartition) (partition : ModelPartition) : Status * ModelPartition :=
  match found with
  | Some part => (SUCCESS, part)
  | None =>
      if negb (type =? TBE_KERNELS) && negb (type =? WEIGHTS_DATA) && negb (type =? CUST_AICPU_KERNELS)
      then (FAILED, partition) else (SUCCESS, partition)
  end.

Definition GetModelPartition (type : Z) (partition : ModelPartition) (h : OmFileLoadHelper) : Status * ModelPartition :=
  if negb (is_inited_ h) then (PARAM_INVALID, partition) else
  found_or_optional type (find_partition type (partition_datas_ (context_ h))) partition.

Definition GetModelPartition_at (type : Z) (partition : ModelPartition) (model_index : nat) (h : OmFileLoadHelper) : Status * ModelPartition :=
  if negb (is_inited_ h) then (PARAM_INVALID, partition) else
  match model_contexts_ h !! model_index with
  | None => (PARAM_INVALID, partition)
  | Some cur_ctx => found_or_optional type (find_partition type (partition_datas_ cur_ctx)) partition
  end.
End OmFileLoadHelper.

(** * The layout of a model *)
Import OmFileSaveHelper(table_entries, GetPartitionTable).

Definition table_bytes (ps : list ModelPartition) : list Z := le32 (zlen ps) ++ table_entries ps 0.
Definition model_bytes (ps : list ModelPartition) : list Z := table_bytes ps ++ parts_bytes ps.

(** Two partitions with the same contents, wherever they are in memory. *)
Definition same_partition (p q : ModelPartition) : Prop := p_type p = p_type q /\ p_size p = p_size q /\ part_bytes p = part_bytes q.

(** The partitions [ps] as pointers into [d], from [off] on. *)
Fixpoint placed (d : list Z) (off : Z) (ps : list ModelPartition) : list ModelPartition :=
  match ps with
  | [] => []
  | p :: ps => mkPart (p_type p) (Some (drop (Z.to_nat off) d)) (p_size p) :: placed d (off + p_size p) ps
  end.

Definition extend (ps : list ModelPartition) (c : OmFileContext) : OmFileContext :=
  mkContext (partition_datas_ c ++ ps) (partition_table_ c) (model_data_len_ c).

Lemma parts_size_app ps qs : parts_size (ps ++ qs) = parts_size ps + parts_size qs.
Proof. induction ps as [|p ps IH]; [done|]. cbn [app parts_size foldr] in *. unfold parts_size in *. lia. Qed.

Lemma parts_bytes_app ps qs : parts_bytes (ps ++ qs) = parts_bytes ps ++ parts_bytes qs.
Proof. unfold parts_bytes. by rewrite map_app, concat_app. Qed.

Lemma zlen_entries ps : forall o, zlen (table_entries ps o) = 12 * zlen ps.
Proof.
  induction ps as [|p ps IH]; intros o; [done|]. cbn [table_entries]. unfold meminfo_bytes.
  rewrite !zlen_app, IH, !zlen_le32, zlen_cons. lia.
Qed.

Lemma zlen_table ps : zlen (table_bytes ps) = 4 + 12 * zlen ps.
Proof. unfold table_bytes. by rewrite zlen_app, zlen_le32, zlen_entries. Qed.

Lemma table_bytes_ok ps : zlen ps < 357913941 -> table_ok (table_bytes ps) (zlen ps).
Proof.
  intros Hn. pose proof (zlen_nonneg ps). split_and!; [|lia..|apply zlen_table].
  apply (read32_le32 [] (zlen ps) (table_entries ps 0)). unfold inU. lia.
Qed.

(** The entry of one partition inside the table. *)
Lemma entries_split ps1 p ps2 : forall o, exists o' rest,
  table_entries (ps1 ++ p :: ps2) o = table_entries ps1 o ++ meminfo_bytes (p_type p) o' (p_size p) ++ rest.
Proof.
  induction ps1 as [|q ps1 IH]; intros o; cbn [app table_entries]; [by eexists _, _|].
  destruct (IH (wrapU 32 (o + p_size q))) as (o' & rest & ->). exists o', rest. by rewrite <- app_assoc.
Qed.

Lemma entry_read pre ps1 p ps2 suf :
  part_ok p ->
  let d := pre ++ table_bytes (ps1 ++ p :: ps2) ++ suf in
  OmFileLoadHelper.entry_type d (zlen pre) (zlen ps1) = Ok (p_type p) /\ OmFileLoadHelper.entry_size d (zlen pre) (zlen ps1) = Ok (p_size p).
Proof.
  intros (Hs & Ht & _). cbv zeta. unfold table_bytes. destruct (entries_split ps1 p ps2 0) as (o' & rest & ->).
  set (n := le32 (zlen (ps1 ++ p :: ps2))). unfold meminfo_bytes, OmFileLoadHelper.entry_type, OmFileLoadHelper.entry_size.
  unfold sizeof_ModelPartitionTable, sizeof_ModelPartitionMemInfo. set (front := pre ++ n ++ table_entries ps1 0).
  assert (Hf : zlen front = zlen pre + 4 + 12 * zlen ps1).
  { unfold front. rewrite !zlen_app, zlen_entries. unfold n. rewrite zlen_le32. lia. }
  assert (HD : pre ++ (n ++ table_entries ps1 0 ++ (le32 (p_type p) ++ le32 o' ++ le32 (p_size p)) ++ rest) ++ suf
    = front ++ le32 (p_type p) ++ le32 o' ++ le32 (p_size p) ++ rest ++ suf) by (unfold front; by rewrite <- !app_assoc).
  rewrite HD, <- Hf. split; [by apply read32_le32|].
  replace (zlen front + 8) with (zlen (front ++ le32 (p_type p) ++ le32 o')) by (rewrite !zlen_app, !zlen_le32; lia).
  rewrite (app_assoc (le32 (p_type p))), (app_assoc front). apply read32_le32. unfold inU. lia.
Qed.

(** Partitions placed in a buffer that holds them are the partitions. *)
Lemma placed_same ps : forall d off suf,
  0 <= off -> Forall part_ok ps -> drop (Z.to_nat off) d = parts_bytes ps ++ suf -> Forall2 same_partition ps (placed d off ps).
Proof.
  induction ps as [|p ps IH]; intros d off suf Ho HP Hd; cbn [placed]; [constructor|].
  apply Forall_cons in HP as [Hp HP]. pose proof (zlen_part p Hp) as Hl. pose proof Hp as (Hs & _).
  unfold parts_bytes in Hd. cbn [map concat] in Hd. fold (parts_bytes ps) in Hd. rewrite <- app_assoc in Hd. constructor.
  - unfold same_partition. split_and!; [done..|]. unfold part_bytes at 2. cbn [p_data p_size]. rewrite Hd, <- Hl.
    unfold zlen. by rewrite Nat2Z.id, take_app_length.
  - apply (IH d _ suf); [lia|done|]. replace (Z.to_nat (off + p_size p)) with (Z.to_nat off + Z.to_nat (p_size p))%nat by lia.
    rewrite <- drop_drop, Hd, <- Hl. unfold zlen. by rewrite Nat2Z.id, drop_app_length.
Qed.

(** Lookup by type sees the contents only. *)
Lemma find_same type ps qs : Forall2 same_partition ps qs ->
  match OmFileLoadHelper.find_partition type ps with
  | Some p => exists q, OmFileLoadHelper.find_partition type qs = Some q /\ same_partition p q
  | None => OmFileLoadHelper.find_partition type qs = None
  end.
Proof.
  induction 1 as [|p q ps qs Hpq _ IH]; cbn [OmFileLoadHelper.find_partition]; [done|].
  pose proof Hpq as (Ht & _). rewrite <- Ht. destruct (p_type p =? type); [by exists q|exact IH].
Qed.

(** * Loading what was saved *)
Section Load.
Import OmFileLoadHelper.

Lemma of_outcome_ok {S A} (o : outcome A) a (s : S) : o = Ok a -> of_outcome o s = Some (a, s).
Proof. by intros ->. Qed.

Lemma load_entries_ok all ps2 : forall ps1 suf h,
  let d := table_bytes all ++ parts_bytes all ++ suf in
  all = ps1 ++ ps2 -> Forall part_ok all -> zlen d < 2 ^ 32 ->
  load_entries (length ps2) (zlen ps1) d (zlen d) (zlen (table_bytes all) + parts_size ps1) h
  = Some (SUCCESS, set_context (extend (placed d (zlen (table_bytes all) + parts_size ps1) ps2) (context_ h)) h).
Proof.
  induction ps2 as [|p ps2 IH]; intros ps1 suf h; cbv zeta; intros Hall HP Hu; cbn [load_entries length placed].
  { unfold extend, set_context. destruct h as [[a b c] m i]. cbn. by rewrite app_nil_r. }
  pose proof HP as HP'. rewrite Hall in HP'. apply Forall_app in HP' as [HP1 HP2]. apply Forall_cons in HP2 as [Hp HP2].
  destruct (entry_read [] ps1 p ps2 (parts_bytes all ++ suf) Hp) as [Ety Esz]. cbn [app] in Ety, Esz. change (zlen (@nil Z)) with 0 in Ety, Esz.
  rewrite <- Hall in Ety, Esz. erewrite sm_bind_eq by (by apply of_outcome_ok). erewrite sm_bind_eq by (by apply of_outcome_ok).
  erewrite sm_bind_eq by done. cbv beta.
  pose proof (parts_size_nonneg ps1 HP1). pose proof (parts_size_nonneg ps2 HP2). pose proof Hp as (Hsz & _).
  assert (Hd : zlen (table_bytes all ++ parts_bytes all ++ suf) = zlen (table_bytes all) + parts_size ps1 + p_size p + parts_size ps2 + zlen suf).
  { rewrite !zlen_app, (zlen_parts all) by done. rewrite Hall, parts_size_app. cbn. fold (parts_size ps2). lia. }
  pose proof (zlen_nonneg suf). pose proof (zlen_nonneg (table_bytes all)).
  destruct (Z.ltb_spec (zlen (table_bytes all ++ parts_bytes all ++ suf)) (p_size p)); [lia|]. cbn [orb].
  rewrite wrapU_id by (unfold inU; lia). destruct (Z.ltb_spec (zlen (table_bytes all ++ parts_bytes all ++ suf) - p_size p) (zlen (table_bytes all) + parts_size ps1)); [lia|].
  rewrite wrapU64_id by lia. specialize (IH (ps1 ++ [p]) suf (set_context (push (mkPart (p_type p) (Some (drop (Z.to_nat (zlen (table_bytes all) + parts_size ps1)) (table_bytes all ++ parts_bytes all ++ suf))) (p_size p)) (context_ h)) h)).
  cbv zeta in IH. replace (zlen ps1 + 1) with (zlen (ps1 ++ [p])) by (rewrite zlen_app; done).
  replace (zlen (table_bytes all) + parts_size ps1 + p_size p) with (zlen (table_bytes all) + parts_size (ps1 ++ [p])) by (rewrite parts_size_app; cbn; lia).
  rewrite IH by (done || by rewrite Hall, <- app_assoc). do 2 f_equal. unfold set_context, extend, push. cbn. by rewrite <- app_assoc.
Qed.

(** The numbers of partitions LoadModelPartitionTable accepts.  Two is not among them, although SaveModel writes a
    model of two partitions. *)
Definition loadable_count (n : Z) : Prop := n = 1 \/ n = 3 \/ n = 4 \/ n = 5.

Lemma LoadModelPartitionTable_ok ps h :
  Forall part_ok ps -> loadable_count (zlen ps) -> zlen (model_bytes ps) < 2 ^ 32 ->
  LoadModelPartitionTable (Some (model_bytes ps)) (zlen (model_bytes ps)) h
  = Some (SUCCESS, set_context (extend (placed (model_bytes ps) (zlen (table_bytes ps)) ps) (context_ h)) h).
Proof.
  intros HP Hn Hu. unfold LoadModelPartitionTable. assert (H28 : zlen ps < 357913941) by (destruct Hn as [?|[?|[?|?]]]; lia).
  destruct (table_bytes_ok ps H28) as (Hr & Hb & Hl).
  assert (Hr' : read32 (model_bytes ps) 0 = Ok (zlen ps)).
  { unfold model_bytes, table_bytes. rewrite <- app_assoc. apply (read32_le32 [] (zlen ps)). unfold inU. lia. }
  erewrite sm_bind_eq by (by apply of_outcome_ok). unfold PARTITION_SIZE, kOptionalNum.
  assert (negb (zlen ps =? 5) && negb (zlen ps =? 5 - 1) && negb (zlen ps =? 5 - 2) && negb (zlen ps =? 1) = false) as ->
    by (destruct Hn as [-> | [-> | [-> | ->]]]; done).
  assert (HS : SIZE_OF_MODEL_PARTITION_TABLE (zlen ps) = zlen (table_bytes ps)).
  { unfold SIZE_OF_MODEL_PARTITION_TABLE, sizeof_ModelPartitionTable, sizeof_ModelPartitionMemInfo. rewrite Hl, (wrapU64_id (12 * zlen ps)), wrapU64_id; lia. }
  rewrite HS. assert (Hm : zlen (model_bytes ps) = zlen (table_bytes ps) + parts_size ps) by (unfold model_bytes; by rewrite zlen_app, zlen_parts).
  assert (0 < parts_size ps).
  { destruct ps as [|p ps]; [destruct Hn as [?|[?|[?|?]]]; done|]. apply Forall_cons in HP as [(? & _) HP]. pose proof (parts_size_nonneg ps HP). cbn. fold (parts_size ps). lia. }
  destruct (Z.leb_spec (zlen (model_bytes ps)) (zlen (table_bytes ps))); [lia|].
  pose proof (load_entries_ok ps ps [] [] h) as Hok. cbv zeta in Hok. rewrite app_nil_r in Hok. fold (model_bytes ps) in Hok.
  change (parts_size []) with 0 in Hok. change (zlen (@nil ModelPartition)) with 0 in Hok. rewrite Z.add_0_r in Hok.
  replace (Z.to_nat (zlen ps)) with (length ps) by (unfold zlen; lia). by apply Hok.
Qed.

Lemma header_fields hdr rest : header_ok hdr -> inU 32 (h_magic hdr) -> inU 32 (h_length hdr) ->
  read32 (header_bytes hdr ++ rest) 0 = Ok (h_magic hdr) /\ read32 (header_bytes hdr ++ rest) 76 = Ok (h_length hdr).
Proof.
  intros (Hck & _) Hm Hl. unfold header_bytes. rewrite <- !app_assoc. split; [by apply (read32_le32 [])|].
  set (front := le32 (h_magic hdr) ++ le32 (h_headsize hdr) ++ le32 (h_version hdr) ++ h_checksum hdr).
  replace 76 with (zlen front) by (unfold front; rewrite !zlen_app, !zlen_le32, Hck; done).
  match goal with |- read32 ?b _ = _ => match b with context [le32 (h_length hdr) ++ ?r] =>
    replace b with (front ++ le32 (h_length hdr) ++ r) by (unfold front; by rewrite <- !app_assoc) end end.
  by apply read32_le32.
Qed.

Lemma LoadModelPartitionTable_refuses ps h :
  zlen ps < 357913941 -> ~ loadable_count (zlen ps) ->
  LoadModelPartitionTable (Some (model_bytes ps)) (zlen (model_bytes ps)) h = Some (ACL_ERROR_GE_PARAM_INVALID, h).
Proof.
  intros H28 Hn. unfold LoadModelPartitionTable. pose proof (zlen_nonneg ps).
  assert (Hr' : read32 (model_bytes ps) 0 = Ok (zlen ps)).
  { unfold model_bytes, table_bytes. rewrite <- app_assoc. apply (read32_le32 [] (zlen ps)). unfold inU. lia. }
  erewrite sm_bind_eq by (by apply of_outcome_ok). unfold PARTITION_SIZE, kOptionalNum, loadable_count in *.
  by destruct (Z.eqb_spec (zlen ps) 5), (Z.eqb_spec (zlen ps) (5 - 1)), (Z.eqb_spec (zlen ps) (5 - 2)), (Z.eqb_spec (zlen ps) 1); try lia.
Qed.

(** A valid header leaves the rest of the file to Init_data. *)
Lemma Init_header hdr ps h :
  header_ok hdr -> h_magic hdr = MODEL_FILE_MAGIC_NUM ->
  h_length hdr = zlen (model_bytes ps) -> 256 + zlen (model_bytes ps) < 2 ^ 32 ->
  let file := header_bytes hdr ++ model_bytes ps in
  Init (mkModelData (Some file) (zlen file)) h = Init_data (Some (model_bytes ps)) (zlen (model_bytes ps)) h.
Proof.
  intros Hh Hmg Hlen Hu. cbv zeta. pose proof (zlen_header hdr Hh) as Hlh. pose proof (zlen_nonneg (model_bytes ps)).
  assert (Hf : zlen (header_bytes hdr ++ model_bytes ps) = 256 + zlen (model_bytes ps)) by (rewrite zlen_app; lia).
  assert (Hmp : 4 <= zlen (model_bytes ps)).
  { unfold model_bytes. rewrite zlen_app, zlen_table. pose proof (zlen_nonneg (parts_bytes ps)). pose proof (zlen_nonneg ps). lia. }
  unfold Init. assert (Hck : CheckModelValid (mkModelData (Some (header_bytes hdr ++ model_bytes ps)) (zlen (header_bytes hdr ++ model_bytes ps))) = Ok SUCCESS).
  { unfold CheckModelValid. cbn [model_data model_len]. unfold sizeof_ModelFileHeader, sizeof_ModelPartitionTable.
    destruct (Z.ltb_spec (zlen (header_bytes hdr ++ model_bytes ps)) (256 + 4)); [lia|].
    destruct (header_fields hdr (model_bytes ps) Hh) as [-> ->]; [by rewrite Hmg|unfold inU; lia|]. cbn [mbind outcome_bind].
    rewrite Hf, wrapU64_id by lia. rewrite Hlen, Hmg. replace (256 + zlen (model_bytes ps) - 256) with (zlen (model_bytes ps)) by lia.
    by rewrite Z.eqb_refl. }
  erewrite sm_bind_eq by (apply of_outcome_ok; exact Hck). rewrite bool_decide_eq_true_2 by done. cbn [negb model_data model_len]. cbv zeta.
  unfold sizeof_ModelFileHeader. rewrite Hf, wrapU_id by (unfold inU; lia). replace (256 + zlen (model_bytes ps) - 256) with (zlen (model_bytes ps)) by lia.
  cbn [fmap option_fmap option_map]. replace (drop (Z.to_nat 256) (header_bytes hdr ++ model_bytes ps)) with (model_bytes ps).
  2: { rewrite <- Hlh. unfold zlen. by rewrite Nat2Z.id, drop_app_length. }
  done.
Qed.

Lemma Init_ok hdr ps h :
  header_ok hdr -> h_magic hdr = MODEL_FILE_MAGIC_NUM -> Forall part_ok ps -> loadable_count (zlen ps) ->
  h_length hdr = zlen (model_bytes ps) -> 256 + zlen (model_bytes ps) < 2 ^ 32 ->
  let file := header_bytes hdr ++ model_bytes ps in
  Init (mkModelData (Some file) (zlen file)) h
  = Some (SUCCESS, mkLoad (extend (placed (model_bytes ps) (zlen (table_bytes ps)) ps) (context_ h)) (model_contexts_ h) true).
Proof.
  intros Hh Hmg HP Hn Hlen Hu file. unfold file. rewrite Init_header by done. unfold Init_data.
  erewrite sm_bind_eq by (apply LoadModelPartitionTable_ok; done || lia). by rewrite bool_decide_eq_true_2.
Qed.

Lemma Init_refuses hdr ps h :
  header_ok hdr -> h_magic hdr = MODEL_FILE_MAGIC_NUM -> zlen ps < 357913941 -> ~ loadable_count (zlen ps) ->
  h_length hdr = zlen (model_bytes ps) -> 256 + zlen (model_bytes ps) < 2 ^ 32 ->
  let file := header_bytes hdr ++ model_bytes ps in
  Init (mkModelData (Some file) (zlen file)) h = Some (ACL_ERROR_GE_PARAM_INVALID, h).
Proof.
  intros Hh Hmg H28 Hn Hlen Hu file. unfold file. rewrite Init_header by done. unfold Init_data.
  erewrite sm_bind_eq by (by apply LoadModelPartitionTable_refuses). done.
Qed.

(** What a lookup by type gives on a loaded model. *)
Definition finds (ps : list ModelPartition) (get : Z -> ModelPartition -> Status * ModelPartition) : Prop :=
  forall type out,
    match find_partition type ps with
    | Some p => exists q, get type out = (SUCCESS, q) /\ same_partition p q
    | None => get type out = found_or_optional type None out
    end.

Lemma finds_loaded ps qs get :
  Forall2 same_partition ps qs -> (forall type out, get type out = found_or_optional type (find_partition type qs) out) -> finds ps get.
Proof.
  intros Hf Hg type out. rewrite Hg. pose proof (find_same type ps qs Hf) as Hs. destruct (find_partition type ps) as [p|].
  - destruct Hs as (q & -> & ?). by exists q.
  - by rewrite Hs.
Qed.

Lemma model_placed ps : Forall part_ok ps -> Forall2 same_partition ps (placed (model_bytes ps) (zlen (table_bytes ps)) ps).
Proof.
  intros HP. apply (placed_same ps _ _ []); [apply zlen_nonneg|done|]. unfold model_bytes, zlen. by rewrite Nat2Z.id, drop_app_length, app_nil_r.
Qed.

(** ** Several models *)

(** The context of the model being loaded, absent until its first partition is found. *)
Definition ctx_of (qs : list ModelPartition) : list OmFileContext := match qs with [] => [] | _ => [mkContext qs [] 0] end.

Lemma push_at_ok L qs q h : model_contexts_ h = L ++ ctx_of qs ->
  push_at (length L) q h = Some (true, set_contexts (L ++ ctx_of (qs ++ [q])) h).
Proof.
  intros Hc. unfold push_at. erewrite sm_bind_eq by done. rewrite Hc. destruct qs as [|q0 qs]; cbn [ctx_of app].
  - rewrite app_nil_r, lookup_ge_None_2 by lia. rewrite Nat.eqb_refl. done.
  - rewrite list_lookup_middle by done. erewrite sm_bind_eq by done. unfold mret, SM_ret. do 2 f_equal. f_equal.
    rewrite insert_app_r_alt by lia. by rewrite Nat.sub_diag.
Qed.

Lemma load_entries_at_ok all ps2 : forall ps1 pre suf L qs h,
  let d := pre ++ table_bytes all ++ parts_bytes all ++ suf in
  let off := zlen pre + zlen (table_bytes all) + parts_size ps1 in
  all = ps1 ++ ps2 -> Forall part_ok all -> zlen d < 2 ^ 32 -> model_contexts_ h = L ++ ctx_of qs ->
  load_entries_at (length ps2) (zlen ps1) (length L) d (zlen pre) (zlen d) off h
  = Some ((SUCCESS, off + parts_size ps2), set_contexts (L ++ ctx_of (qs ++ placed d off ps2)) h).
Proof.
  induction ps2 as [|p ps2 IH]; intros ps1 pre suf L qs h; cbv zeta; intros Hall HP Hu Hh; cbn [load_entries_at length placed].
  { rewrite app_nil_r, <- Hh, Z.add_0_r. by destruct h. }
  pose proof HP as HP'. rewrite Hall in HP'. apply Forall_app in HP' as [HP1 HP2]. apply Forall_cons in HP2 as [Hp HP2].
  destruct (entry_read pre ps1 p ps2 (parts_bytes all ++ suf) Hp) as [Ety Esz]. rewrite <- Hall in Ety, Esz.
  erewrite sm_bind_eq by (by apply of_outcome_ok). erewrite sm_bind_eq by (by apply of_outcome_ok).
  erewrite sm_bind_eq by (by apply push_at_ok). cbn [negb].
  pose proof (parts_size_nonneg ps1 HP1). pose proof (parts_size_nonneg ps2 HP2). pose proof Hp as (Hsz & _).
  assert (Hd : zlen (pre ++ table_bytes all ++ parts_bytes all ++ suf)
    = zlen pre + zlen (table_bytes all) + parts_size ps1 + p_size p + parts_size ps2 + zlen suf).
  { rewrite !zlen_app, (zlen_parts all) by done. rewrite Hall, parts_size_app. cbn. fold (parts_size ps2). lia. }
  pose proof (zlen_nonneg suf). pose proof (zlen_nonneg pre). pose proof (zlen_nonneg (table_bytes all)). set (d := pre ++ _) in *.
  destruct (Z.ltb_spec (zlen d) (p_size p)); [lia|]. cbn [orb]. rewrite wrapU_id by (unfold inU; lia).
  destruct (Z.ltb_spec (zlen d - p_size p) (zlen pre + zlen (table_bytes all) + parts_size ps1)); [lia|].
  rewrite wrapU_id by (unfold inU; lia).
  set (off := zlen pre + zlen (table_bytes all) + parts_size ps1). set (q := mkPart (p_type p) (Some (drop (Z.to_nat off) d)) (p_size p)).
  specialize (IH (ps1 ++ [p]) pre suf L (qs ++ [q]) (set_contexts (L ++ ctx_of (qs ++ [q])) h)). cbv zeta in IH. fold d in IH.
  replace (zlen ps1 + 1) with (zlen (ps1 ++ [p])) by (rewrite zlen_app; done).
  replace (off + p_size p) with (zlen pre + zlen (table_bytes all) + parts_size (ps1 ++ [p])) by (unfold off; rewrite parts_size_app; cbn; lia).
  rewrite IH by (done || by rewrite Hall, <- app_assoc). unfold set_contexts. cbn [context_ is_inited_]. rewrite <- app_assoc.
  do 3 f_equal. change (parts_size (p :: ps2)) with (p_size p + parts_size ps2). rewrite parts_size_app. unfold off. cbn. lia.
Qed.

Definition root_bytes (models : list (list ModelPartition)) : list Z := concat (map model_bytes models).
Definition model_ok (ps : list ModelPartition) : Prop := Forall part_ok ps /\ ps <> [].

Lemma load_models_ok models : forall pre L h,
  let d := pre ++ root_bytes models in
  Forall model_ok models -> zlen d < 2 ^ 32 -> model_contexts_ h = L ->
  exists qss, Forall2 (Forall2 same_partition) models qss /\
    load_models (length models) (length L) d (zlen d) (zlen pre) h
    = Some ((SUCCESS, zlen d), set_contexts (L ++ map (fun qs => mkContext qs [] 0) qss) h).
Proof.
  induction models as [|ps models IH]; intros pre L h; cbv zeta; intros HM Hu Hh; cbn [load_models length].
  { exists []. split; [constructor|]. unfold root_bytes. cbn. rewrite !app_nil_r, <- Hh. by destruct h. }
  apply Forall_cons in HM as [[HP Hne] HM]. unfold root_bytes in Hu. cbn [map concat] in Hu. fold (root_bytes models) in Hu.
  unfold root_bytes. cbn [map concat]. fold (root_bytes models). unfold model_bytes in *. rewrite <- !app_assoc in *.
  set (d := pre ++ table_bytes ps ++ parts_bytes ps ++ root_bytes models) in *.
  assert (Hd : zlen d = zlen pre + zlen (table_bytes ps) + parts_size ps + zlen (root_bytes models)) by (unfold d; rewrite !zlen_app, (zlen_parts ps) by done; lia).
  pose proof (zlen_table ps) as Ht. pose proof (zlen_nonneg pre). pose proof (zlen_nonneg ps). pose proof (zlen_nonneg (root_bytes models)). pose proof (parts_size_nonneg ps HP).
  assert (Hpos : 0 < parts_size ps).
  { destruct ps as [|p ps]; [done|]. apply Forall_cons in HP as [(? & _) HP]. pose proof (parts_size_nonneg ps HP). cbn. fold (parts_size ps). lia. }
  assert (Hnum : read32 d (zlen pre) = Ok (zlen ps)).
  { unfold d, table_bytes. rewrite <- !app_assoc. apply read32_le32. unfold inU. lia. }
  erewrite sm_bind_eq by (by apply of_outcome_ok). cbv zeta.
  assert (HS : SIZE_OF_MODEL_PARTITION_TABLE (zlen ps) = zlen (table_bytes ps)).
  { unfold SIZE_OF_MODEL_PARTITION_TABLE, sizeof_ModelPartitionTable, sizeof_ModelPartitionMemInfo. rewrite Ht, (wrapU64_id (12 * zlen ps)), wrapU64_id; lia. }
  rewrite HS, wrapU_id by (unfold inU; lia). destruct (Z.leb_spec (zlen d) (zlen pre + zlen (table_bytes ps))); [lia|].
  pose proof (load_entries_at_ok ps ps [] pre (root_bytes models) L [] h) as Hok. cbv zeta in Hok. fold d in Hok.
  change (parts_size []) with 0 in Hok. change (zlen (@nil ModelPartition)) with 0 in Hok. rewrite Z.add_0_r in Hok.
  replace (Z.to_nat (zlen ps)) with (length ps) by (unfold zlen; lia).
  erewrite sm_bind_eq by (apply Hok; [done|done|done|by rewrite app_nil_r]). cbn [fst snd]. rewrite bool_decide_eq_true_2 by done. cbn [negb app].
  set (qs := placed d (zlen pre + zlen (table_bytes ps)) ps). assert (Hqs : Forall2 same_partition ps qs).
  { apply (placed_same ps d _ (root_bytes models)); [lia|done|]. unfold d. rewrite (app_assoc pre). rewrite <- zlen_app. unfold zlen. by rewrite Nat2Z.id, drop_app_length. }
  assert (Hq : ctx_of qs = [mkContext qs [] 0]) by (destruct ps as [|p ps]; [done|]; done). rewrite Hq.
  specialize (IH (pre ++ table_bytes ps ++ parts_bytes ps) (L ++ [mkContext qs [] 0]) (set_contexts (L ++ [mkContext qs [] 0]) h)).
  cbv zeta in IH. rewrite <- !app_assoc in IH. fold d in IH. destruct IH as (qss & HQ & Hr); [done..|].
  exists (qs :: qss). split; [by constructor|]. rewrite length_app in Hr. cbn [length] in Hr. rewrite Nat.add_1_r in Hr.
  replace (zlen pre + zlen (table_bytes ps) + parts_size ps) with (zlen (pre ++ table_bytes ps ++ parts_bytes ps)) by (rewrite !zlen_app, zlen_parts by done; lia).
  rewrite Hr. unfold set_contexts. cbn [context_ is_inited_ map]. by rewrite <- app_assoc.
Qed.

Lemma Init_root_ok models :
  Forall model_ok models -> zlen (root_bytes models) < 2 ^ 32 ->
  exists h2, Init_root (Some (root_bytes models)) (zlen (root_bytes models)) (zlen models) new_helper = Some (SUCCESS, h2) /\
    forall i ps, models !! i = Some ps -> finds ps (fun type out => GetModelPartition_at type out i h2).
Proof.
  intros HM Hu. destruct (load_models_ok models [] [] new_helper HM Hu eq_refl) as (qss & HQ & Hr). cbn [app length] in Hr.
  change (zlen (@nil Z)) with 0 in Hr. eexists. split.
  - unfold Init_root, LoadModelPartitionTable_root. erewrite sm_bind_eq.
    2: { replace (Z.to_nat (zlen models)) with (length models) by (unfold zlen; lia). erewrite sm_bind_eq by exact Hr. cbn [fst snd].
         rewrite bool_decide_eq_true_2 by done. cbn [negb]. by rewrite Z.eqb_refl. }
    by rewrite bool_decide_eq_true_2.
  - intros i ps Hi. destruct (Forall2_lookup_l _ _ _ _ _ HQ Hi) as (qs & Hqs & Hsame). apply (finds_loaded ps qs); [done|].
    intros type out. unfold GetModelPartition_at. cbn [is_inited_ negb model_contexts_ set_contexts]. by rewrite list_lookup_fmap, Hqs.
Qed.
End Load.

(** * Saving *)
Section Save.
Context `{E : Env} {HE : EnvOk E} `{F : Files} {HF : FilesOk F}.
Import OmFileSaveHelper.

Lemma model_size ps : Forall part_ok ps -> zlen (model_bytes ps) = zlen (table_bytes ps) + parts_size ps.
Proof. intros HP. unfold model_bytes. by rewrite zlen_app, zlen_parts. Qed.

Lemma model_count ps : Forall part_ok ps -> ps <> [] -> zlen (model_bytes ps) < 2 ^ 32 -> zlen ps < 357913941 /\ 0 < parts_size ps.
Proof.
  intros HP Hne Hu. rewrite model_size, zlen_table in Hu by done.
  assert (Hge : zlen ps <= parts_size ps).
  { clear -HP. induction HP as [|p ps (? & _) _ IH]; [done|]. rewrite zlen_cons. cbn. fold (parts_size ps). lia. }
  assert (0 < zlen ps) by (destruct ps; [done|]; rewrite zlen_cons; pose proof (zlen_nonneg ps); lia). lia.
Qed.

(** The partitions of [ps] added one after another, each with success. *)
Fixpoint add_all (ps : list ModelPartition) (h : OmFileSaveHelper) : option OmFileSaveHelper :=
  match ps with
  | [] => Some h
  | p :: ps => match AddPartition p h with (SUCCESS, h') => add_all ps h' | _ => None end
  end.

Lemma add_all_ok ps : forall h h',
  Forall part_ok ps -> inU 32 (model_data_len_ (context_ h)) -> add_all ps h = Some h' ->
  partition_datas_ (context_ h') = partition_datas_ (context_ h) ++ ps /\
  model_data_len_ (context_ h') = model_data_len_ (context_ h) + parts_size ps /\ inU 32 (model_data_len_ (context_ h')) /\
  model_header_ h' = model_header_ h /\ model_contexts_ h' = model_contexts_ h.
Proof.
  induction ps as [|p ps IH]; intros h h' HP Hu Hadd; cbn [add_all] in Hadd.
  { injection Hadd as <-. rewrite app_nil_r, Z.add_0_r. done. }
  apply Forall_cons in HP as [(Hs & _) HP]. unfold AddPartition in Hadd.
  case_bool_decide as Hck; cbn [negb] in Hadd; [|done]. unfold inU in Hu.
  apply CheckUint32AddOverflow_exact in Hck; [|unfold UINT32_MAX; lia..]. unfold UINT32_MAX in Hck.
  edestruct IH as (H1 & H2 & H3 & H4 & H5); [exact HP| |exact Hadd|]; cbn [context_ push_partition partition_datas_ model_data_len_ model_header_ model_contexts_] in *.
  { rewrite wrapU_id; unfold inU; lia. }
  rewrite wrapU_id in H2 by (unfold inU; lia). rewrite H1, <- app_assoc. split_and!; [done| |done..]. cbn. fold (parts_size ps). lia.
Qed.

Lemma GetPartitionTable_eq ps t n : zlen ps < 357913941 ->
  GetPartitionTable (mkContext ps t n) = (table_bytes ps, mkContext ps (table_bytes ps) n).
Proof.
  intros Hn. pose proof (zlen_nonneg ps). unfold GetPartitionTable, table_bytes. cbn [partition_datas_ model_data_len_].
  by rewrite wrapU_id by (unfold inU; lia).
Qed.

(** The helper just before the bytes are written, with the length of the model in the header. *)
Definition model_header (hdr : ModelFileHeader) (ps : list ModelPartition) : ModelFileHeader := set_length (zlen (model_bytes ps)) hdr.

Lemma SaveModelToFile_eq out model off h s hdr ps :
  Forall part_ok ps -> ps <> [] -> zlen (model_bytes ps) < 2 ^ 32 -> add_all ps (mkSave hdr new_OmFileContext []) = Some h ->
  SaveModelToFile out model off h s
  = (let ctx := mkContext ps (table_bytes ps) (parts_size ps) in
     if off then (r ← SaveToFile out (model_header hdr ps) (table_bytes ps) ps; mret (r.1, model, mkSave r.2 ctx [])) s
     else match SaveToBuffWithFileHeader (model_header hdr ps) (table_bytes ps) ps model with
          | Ok (st, model) => mret (st, model, mkSave (model_header hdr ps) ctx [])
          | Err e => mret (e, model, mkSave (model_header hdr ps) ctx [])
          | Stuck => sm_stuck
          end s).
Proof.
  intros HP Hne Hu Hadd. assert (H0 : inU 32 0) by (unfold inU; lia). destruct (add_all_ok ps (mkSave hdr new_OmFileContext []) h HP H0 Hadd) as (H1 & H2 & H3 & H4 & H5).
  destruct h as [hd [datas tab len] ctxs].
  cbn [context_ partition_datas_ model_data_len_ model_header_ model_contexts_ new_OmFileContext app] in H1, H2, H3, H4, H5. subst hd ctxs. assert (datas = ps) as -> by (rewrite H1; done).
  assert (Hlen : len = parts_size ps) by (rewrite H2; done). rewrite Hlen in *. clear H1 H2 Hadd.
  pose proof (model_size ps HP) as Hm. pose proof (zlen_table ps) as Ht. destruct (model_count ps HP Hne Hu) as [H28 Hpos].
  assert (0 < zlen ps) by (destruct ps; [done|]; rewrite zlen_cons; pose proof (zlen_nonneg ps); lia).
  unfold SaveModelToFile. cbn [context_ partition_datas_ model_contexts_ model_header_ model_data_len_].
  destruct (Z.eqb_spec (zlen ps) 0); [lia|]. cbv zeta. cbn [model_data_len_]. destruct (Z.eqb_spec (parts_size ps) 0); [lia|].
  rewrite GetPartitionTable_eq by done. destruct (table_bytes_ok ps H28) as (Hr & Hb & Hl).
  erewrite sm_bind_eq by (unfold table_num; by rewrite Hr). rewrite table_size by done. rewrite <- Ht.
  unfold FMK_UINT32_ADDCHECK, fmk_check. rewrite bool_decide_eq_true_2 by (apply add32_ok; lia). cbn [require]. rewrite wrapU_id by (unfold inU; lia). rewrite <- Hm. by destruct off.
Qed.

(** A context whose length field is right. *)
Definition context_ok (c : OmFileContext) : Prop :=
  model_ok (partition_datas_ c) /\ model_data_len_ c = parts_size (partition_datas_ c) /\ zlen (model_bytes (partition_datas_ c)) < 2 ^ 32.
Definition with_table (c : OmFileContext) : OmFileContext := mkContext (partition_datas_ c) (table_bytes (partition_datas_ c)) (model_data_len_ c).

Lemma SaveRootModel_loop_ok cs : forall done hdr,
  Forall context_ok cs -> inU 32 (h_length hdr) ->
  exists st done' hdr', SaveRootModel_loop cs done hdr = Ok (st, done', hdr') /\
    (st = SUCCESS -> done' = done ++ map with_table cs /\ hdr' = set_length (h_length hdr + zlen (root_bytes (map partition_datas_ cs))) hdr /\
       h_length hdr + zlen (root_bytes (map partition_datas_ cs)) < 2 ^ 32).
Proof.
  induction cs as [|c cs IH]; intros done hdr HC Hu; cbn [SaveRootModel_loop].
  { exists SUCCESS, done, hdr. split; [done|]. intros _. unfold root_bytes. cbn. rewrite app_nil_r, Z.add_0_r. unfold inU in Hu. split_and!; [done| |lia]. by destruct hdr. }
  apply Forall_cons in HC as [((HP & Hne) & Hlen & Hm32) HC]. destruct (model_count _ HP Hne Hm32) as [H28 Hpos]. unfold inU in Hu.
  rewrite Hlen. destruct (Z.eqb_spec (parts_size (partition_datas_ c)) 0); [lia|].
  destruct c as [ps t n0]. cbn [partition_datas_ model_data_len_] in *. rewrite GetPartitionTable_eq by done. pose proof (model_size ps HP) as Hms.
  destruct (table_bytes_ok ps H28) as (Hr & Hb & Hl). rewrite Hr. cbn [mbind outcome_bind]. rewrite table_size by done. rewrite <- Hl.
  pose proof (zlen_nonneg (table_bytes ps)). rewrite wrapU_id by (unfold inU; lia).
  unfold FMK_UINT32_ADDCHECK, fmk_check. rewrite bool_decide_eq_true_2 by (apply add32_ok; lia). cbn [require].
  rewrite <- Hms. case_bool_decide as Hck; cbn [require]; [|by eexists _, _, _].
  apply CheckUint32AddOverflow_exact in Hck; [|unfold UINT32_MAX; lia..]. unfold UINT32_MAX in Hck. rewrite wrapU_id by (unfold inU; lia).
  destruct (IH (done ++ [mkContext ps (table_bytes ps) n0]) (set_length (h_length hdr + zlen (model_bytes ps)) hdr) HC) as (st & done' & hdr' & Hrun & Hok).
  { cbn [set_length h_length]. unfold inU. lia. }
  exists st, done', hdr'. split; [done|]. intros Hst. destruct (Hok Hst) as (-> & -> & Hlt). cbn [h_length set_length] in *.
  unfold root_bytes in *. cbn [map concat partition_datas_]. rewrite zlen_app, <- app_assoc. split_and!; [by rewrite Hlen|by rewrite Z.add_assoc|lia].
Qed.
End Save.

(** * Arbitrary bytes *)
Section Safety.
Import OmFileLoadHelper.

(** A partition inside the buffer [d]. *)
Definition inside (d : list Z) (p : ModelPartition) : Prop :=
  exists o, 0 <= o /\ 0 <= p_size p /\ o + p_size p <= zlen d /\ p_data p = Some (drop (Z.to_nat o) d).

Lemma load_entries_safe d : Forall is_byte d -> zlen d < 2 ^ 32 -> forall k i off h,
  0 <= i -> 4 + 12 * (i + Z.of_nat k) <= zlen d -> 0 <= off ->
  exists st h' ps, load_entries k i d (zlen d) off h = Some (st, h') /\ context_ h' = extend ps (context_ h) /\
    model_contexts_ h' = model_contexts_ h /\ is_inited_ h' = is_inited_ h /\
    (st = SUCCESS -> length ps = k /\ Forall (inside d) ps).
Proof.
  intros HB Hu. induction k as [|k IH]; intros i off h Hi Hk Ho; cbn [load_entries].
  { exists SUCCESS, h, []. split_and!; try done. unfold extend. destruct h as [[a b c] m n]. cbn. by rewrite app_nil_r. }
  unfold entry_size, entry_type, sizeof_ModelPartitionTable, sizeof_ModelPartitionMemInfo.
  destruct (read32_in d (0 + 4 + 12 * i + 8) HB) as (size & Hs & Hs32); [lia..|]. destruct (read32_in d (0 + 4 + 12 * i) HB) as (type & Ht & _); [lia..|].
  erewrite sm_bind_eq by (by apply of_outcome_ok). erewrite sm_bind_eq by (by apply of_outcome_ok). erewrite sm_bind_eq by done. cbv beta.
  set (p := mkPart type (Some (drop (Z.to_nat off) d)) size). unfold inU in Hs32.
  destruct ((zlen d <? size) || _) eqn:Hck.
  { exists ACL_ERROR_GE_EXEC_MODEL_DATA_SIZE_INVALID, (set_context (push p (context_ h)) h), [p]. by split_and!. }
  apply orb_false_iff in Hck as [Hc1%Z.ltb_ge Hc2]. rewrite wrapU_id in Hc2 by (unfold inU; lia). apply Z.ltb_ge in Hc2. rewrite wrapU64_id by lia.
  destruct (IH (i + 1) (off + size) (set_context (push p (context_ h)) h)) as (st & h' & ps & Hr & Hc & Hm & Hin & Hok); [lia..|].
  exists st, h', (p :: ps). split_and!; [done| |done|done|].
  - rewrite Hc. unfold extend, push. cbn. by rewrite <- app_assoc.
  - intros Hst. destruct (Hok Hst) as [<- HF]. split; [done|]. constructor; [|done]. exists off. unfold p. cbn. split_and!; done || lia.
Qed.

(** C18 Loading a single model is safe on any file contents: Init always returns, reads only inside the given
    bytes, and when it succeeds the partitions it has found, of which there are one, three, four or
    five, all lie inside the file. *)
Theorem om_load_safe file :
  Forall is_byte file -> zlen file < 2 ^ 32 ->
  exists st h ps, Init (mkModelData (Some file) (zlen file)) new_helper = Some (st, h) /\
    context_ h = extend ps new_OmFileContext /\
    (st = SUCCESS -> loadable_count (zlen ps) /\ Forall (inside (drop 256 file)) ps).
Proof.
  intros HB Hu. unfold Init. assert (Hn : new_OmFileContext = extend [] new_OmFileContext) by done.
  assert (exists st, CheckModelValid (mkModelData (Some file) (zlen file)) = Ok st /\ (st = SUCCESS -> 260 <= zlen file)) as (st0 & Hck & Hlen).
  { unfold CheckModelValid. cbn [model_data model_len]. unfold sizeof_ModelFileHeader, sizeof_ModelPartitionTable.
    destruct (Z.ltb_spec (zlen file) (256 + 4)); [by eexists|].
    destruct (read32_in file 76 HB) as (len & -> & _); [lia..|]. destruct (read32_in file 0 HB) as (mg & -> & _); [lia..|]. cbn [mbind outcome_bind].
    destruct (negb _ || _); by eexists. }
  erewrite sm_bind_eq by (apply of_outcome_ok; exact Hck). case_bool_decide as Hst0; cbn [negb]; [|by exists FAILED, new_helper, []].
  specialize (Hlen Hst0). cbn [model_data model_len fmap option_fmap option_map]. cbv zeta. unfold sizeof_ModelFileHeader.
  rewrite wrapU_id by (unfold inU; lia). change (Z.to_nat 256) with 256%nat. set (d := drop 256 file).
  assert (Hd : zlen d = zlen file - 256) by (unfold d; rewrite zlen_drop; lia). rewrite <- Hd.
  assert (HBd : Forall is_byte d) by by apply Forall_drop. unfold Init_data, LoadModelPartitionTable.
  destruct (read32_in d 0 HBd) as (num & Hnum & _); [lia..|].
  assert (exists st h ps, (num0 ← of_outcome (read32 d 0);
      if negb (num0 =? PARTITION_SIZE) && negb (num0 =? PARTITION_SIZE - 1) && negb (num0 =? PARTITION_SIZE - kOptionalNum) && negb (num0 =? 1)
      then mret ACL_ERROR_GE_PARAM_INVALID else
      if zlen d <=? SIZE_OF_MODEL_PARTITION_TABLE num0 then mret ACL_ERROR_GE_EXEC_MODEL_DATA_SIZE_INVALID else
      load_entries (Z.to_nat num0) 0 d (zlen d) (SIZE_OF_MODEL_PARTITION_TABLE num0)) new_helper = Some (st, h) /\
    context_ h = extend ps new_OmFileContext /\ (st = SUCCESS -> loadable_count (zlen ps) /\ Forall (inside d) ps)) as (st & h & ps & Hr & Hc & Hok).
  { erewrite sm_bind_eq by (by apply of_outcome_ok). unfold PARTITION_SIZE, kOptionalNum.
    destruct (negb (num =? 5) && _ && _ && _) eqn:Hnk; [by exists ACL_ERROR_GE_PARAM_INVALID, new_helper, []|].
    assert (Hcount : loadable_count num).
    { rewrite !andb_false_iff, !negb_false_iff, !Z.eqb_eq in Hnk. unfold loadable_count. lia. }
    assert (HS : SIZE_OF_MODEL_PARTITION_TABLE num = 4 + 12 * num) by (destruct Hcount as [-> | [-> | [-> | ->]]]; done).
    assert (Hnn : 0 <= num) by (unfold loadable_count in Hcount; lia). rewrite HS. destruct (Z.leb_spec (zlen d) (4 + 12 * num)).
    { by exists ACL_ERROR_GE_EXEC_MODEL_DATA_SIZE_INVALID, new_helper, []. }
    destruct (load_entries_safe d HBd ltac:(lia) (Z.to_nat num) 0 (4 + 12 * num) new_helper) as (st & h' & ps & Hr & Hc & _ & _ & Hok); [lia..|].
    exists st, h', ps. split_and!; [done..|]. intros Hst. destruct (Hok Hst) as [Hl HF]. split; [|done]. unfold zlen. by rewrite Hl, Z2Nat.id. }
  erewrite sm_bind_eq by exact Hr. case_bool_decide as Hst; cbn [negb]; [|by exists st, h, ps].
  exists SUCCESS, (mkLoad (context_ h) (model_contexts_ h) true), ps. split_and!; [done..|]. intros _. by apply Hok.
Qed.
End Safety.

Section Theorems.
Context `{E : Env} {HE : EnvOk E} `{F : Files} {HF : FilesOk F}.
Import OmFileLoadHelper.

(** A model loaded by Init finds the partitions that were saved. *)
Lemma loaded_finds hdr ps :
  header_ok hdr -> h_magic hdr = MODEL_FILE_MAGIC_NUM -> Forall part_ok ps -> loadable_count (zlen ps) ->
  h_length hdr = zlen (model_bytes ps) -> 256 + zlen (model_bytes ps) < 2 ^ 32 ->
  let file := header_bytes hdr ++ model_bytes ps in
  exists h2, Init (mkModelData (Some file) (zlen file)) new_helper = Some (SUCCESS, h2) /\
    finds ps (fun type out => GetModelPartition type out h2).
Proof.
  intros Hh Hm HP Hn Hl Hu. eexists. split; [by apply Init_ok|]. apply (finds_loaded ps (placed (model_bytes ps) (zlen (table_bytes ps)) ps)); [by apply model_placed|].
  done.
Qed.

Lemma loadable_dec n : loadable_count n \/ ~ loadable_count n.
Proof. unfold loadable_count. lia. Qed.

Lemma loadable_nonempty (ps : list ModelPartition) : loadable_count (zlen ps) -> ps <> [].
Proof. intros Hn ->. destruct Hn as [?|[?|[?|?]]]; done. Qed.

(** Round trip through a buffer: the partitions added to a fresh save helper, one, three, four or five of
    them, saved to a buffer of at most 2 GB and loaded again from it are found by their types with the same
    sizes and bytes; a type that was not added is answered as the code documents (an error, except
    for the optional partitions). *)
Theorem om_buffer_roundtrip out model hdr ps h s :
  header_ok hdr -> h_magic hdr = MODEL_FILE_MAGIC_NUM -> Forall part_ok ps -> loadable_count (zlen ps) ->
  add_all ps (OmFileSaveHelper.mkSave hdr new_OmFileContext []) = Some h ->
  256 + zlen (model_bytes ps) < 2 ^ 32 -> 256 + zlen (model_bytes ps) <= SECUREC_MEM_MAX_LEN -> malloc (256 + zlen (model_bytes ps)) <> None ->
  exists (file : list Z) h1 h2, OmFileSaveHelper.SaveModel out model false h s = Some ((SUCCESS, mkBufferData (Some file) (zlen file), h1), s) /\
    Init (mkModelData (Some file) (zlen file)) new_helper = Some (SUCCESS, h2) /\ finds ps (fun type out => GetModelPartition type out h2).
Proof.
  intros Hh Hm HP Hn Hadd Hu Hs Hmal. assert (Hne := loadable_nonempty ps Hn). destruct (malloc _) as [buf|] eqn:Hbuf; [|done].
  pose proof (model_size ps HP) as Hmb.
  destruct (loaded_finds (model_header hdr ps) ps) as (h2 & HI & Hfind); try done.
  exists (header_bytes (model_header hdr ps) ++ model_bytes ps). eexists. exists h2. split; [|done].
  unfold OmFileSaveHelper.SaveModel. rewrite (SaveModelToFile_eq out model false h s hdr ps) by (done || lia). cbv zeta.
  rewrite (SaveToBuffWithFileHeader_ok (model_header hdr ps) (table_bytes ps) ps model buf); [|done| |done|done|lia|lia|by rewrite <- Z.add_assoc, <- Hmb].
  - replace (256 + zlen (table_bytes ps) + parts_size ps) with (zlen (header_bytes (model_header hdr ps) ++ model_bytes ps)) by (rewrite zlen_app, zlen_header by done; lia). done.
  - apply table_bytes_ok. destruct Hn as [-> | [-> | [-> | ->]]]; lia.
Qed.

(** C7 Round trip through a file, when the file system writes completely what it accepts: SaveModel always
    returns, and if it reports success the file it has written loads and finds every partition exactly when the model
    has one, three, four or five partitions; with any other number, two for instance, the loader refuses the file that
    was saved with success. *)
Theorem om_file_roundtrip out model hdr ps h s :
  writes_complete -> header_ok hdr -> h_magic hdr = MODEL_FILE_MAGIC_NUM -> Forall part_ok ps -> ps <> [] ->
  add_all ps (OmFileSaveHelper.mkSave hdr new_OmFileContext []) = Some h -> 256 + zlen (model_bytes ps) < 2 ^ 32 ->
  exists st h1 s', OmFileSaveHelper.SaveModel out model true h s = Some ((st, model, h1), s') /\
    (st = SUCCESS -> exists fd file st2 h2, fs_file s' fd = Some file /\
       Init (mkModelData (Some file) (zlen file)) new_helper = Some (st2, h2) /\
       (loadable_count (zlen ps) -> st2 = SUCCESS /\ finds ps (fun type out => GetModelPartition type out h2)) /\
       (~ loadable_count (zlen ps) -> st2 = ACL_ERROR_GE_PARAM_INVALID)).
Proof.
  intros Hw Hh Hm HP Hne Hadd Hu. destruct (model_count ps HP Hne) as [H28 _]; [lia|].
  unfold OmFileSaveHelper.SaveModel. rewrite (SaveModelToFile_eq out model true h s hdr ps) by (done || lia). cbv zeta. unfold SaveToFile.
  set (hd := set_is_encrypt UNENCRYPTED (model_header hdr ps)).
  destruct (SaveWithFileHeader_ok out hd (table_bytes ps) (zlen ps) ps s Hw) as (st & s' & Hr & Hst); [done| | |].
  - by apply table_bytes_ok.
  - eapply Forall_impl; [exact HP|]. apply part_ok_readable.
  - eexists _, _, s'. split.
    { erewrite sm_bind_eq; [done|]. erewrite sm_bind_eq by exact Hr. done. }
    cbn [fst]. case_bool_decide as Hs; [|done]. intros _. destruct (Hst Hs) as [fd Hfd]. exists fd, (header_bytes hd ++ model_bytes ps).
    destruct (loadable_dec (zlen ps)) as [Hn|Hn].
    + destruct (loaded_finds hd ps) as (h2 & HI & Hfind); try done. by exists SUCCESS, h2.
    + eexists _, _. split; [exact Hfd|]. split; [by apply Init_refuses|done].
Qed.

(** Round trip of several models in one file, when the length field of every context is right and the
    file system writes completely what it accepts: SaveRootModel always returns, and if it reports
    success, loading the part of the file after the header with the number of models finds, in every
    model, every partition by its type with the same size and bytes. *)
Theorem om_root_roundtrip out h s :
  writes_complete -> header_ok (OmFileSaveHelper.model_header_ h) -> h_length (OmFileSaveHelper.model_header_ h) = 0 ->
  Forall context_ok (OmFileSaveHelper.model_contexts_ h) ->
  let models := map partition_datas_ (OmFileSaveHelper.model_contexts_ h) in
  exists st h1 s', OmFileSaveHelper.SaveRootModel out true h s = Some ((st, h1), s') /\
    (st = SUCCESS -> exists fd file h2, fs_file s' fd = Some file /\ zlen file = 256 + zlen (root_bytes models) /\
       Init_root (Some (drop 256 file)) (zlen file - 256) (zlen models) new_helper = Some (SUCCESS, h2) /\
       forall i ps, models !! i = Some ps -> finds ps (fun type out => GetModelPartition_at type out i h2)).
Proof.
  intros Hw Hh H0 HC. cbv zeta. set (cs := OmFileSaveHelper.model_contexts_ h) in *. set (hdr := OmFileSaveHelper.model_header_ h) in *.
  unfold OmFileSaveHelper.SaveRootModel. destruct (SaveRootModel_loop_ok cs [] hdr HC) as (st & done' & hdr' & Hrun & Hok); [rewrite H0; unfold inU; lia|].
  fold cs hdr. rewrite Hrun. case_bool_decide as Hst; cbn [negb]; [|by eexists _, _, s]. destruct (Hok Hst) as (-> & -> & Hlt). cbn [app]. rewrite H0 in *. cbn [Z.add] in *.
  set (models := map partition_datas_ cs) in *. unfold SaveToFile_root.
  set (hd := set_is_encrypt UNENCRYPTED _). assert (Hhd : header_ok hd) by done.
  assert (HT : map partition_table_ (map with_table cs) = map table_bytes models) by (unfold models; by rewrite !map_map).
  assert (HD : map partition_datas_ (map with_table cs) = models) by (unfold models; by rewrite map_map). rewrite HT, HD.
  assert (HM : Forall model_ok models) by (unfold models; apply Forall_map; eapply Forall_impl; [exact HC|]; by intros c (? & _)).
  destruct (SaveWithFileHeader_root_ok out hd (map table_bytes models) models s Hw Hhd) as (st2 & s2 & Hr2 & Hok2).
  { unfold models. rewrite map_map. apply Forall_map. eapply Forall_impl; [exact HC|]. intros c ((HP & Hne) & _ & Hm). cbn.
    exists (zlen (partition_datas_ c)). apply table_bytes_ok. by apply model_count. }
  { eapply Forall_impl; [exact HM|]. intros ps [HP _]. eapply Forall_impl; [exact HP|]. apply part_ok_readable. }
  eexists _, _, s2. split.
  { erewrite sm_bind_eq; [done|]. erewrite sm_bind_eq by exact Hr2. done. }
  cbn [fst]. case_bool_decide as Hs; [|done]. intros _. destruct (Hok2 Hs) as [fd Hfd].
  assert (HB : models_bytes (map table_bytes models) models = root_bytes models).
  { unfold models_bytes, root_bytes. f_equal. clear. induction models as [|ps ms IH]; [done|]. cbn. by rewrite IH. }
  rewrite HB in Hfd. destruct (Init_root_ok models HM Hlt) as (h2 & HI & Hfind). pose proof (zlen_header hd Hhd) as Hlh.
  exists fd, (header_bytes hd ++ root_bytes models), h2. split_and!; [done|rewrite zlen_app; lia| |done].
  replace (drop 256 (header_bytes hd ++ root_bytes models)) with (root_bytes models)
    by (change 256%nat with (Z.to_nat 256); rewrite <- Hlh; unfold zlen; by rewrite Nat2Z.id, drop_app_length).
  by replace (zlen (header_bytes hd ++ root_bytes models) - 256) with (zlen (root_bytes models)) by (rewrite zlen_app; lia).
Qed.
End Theorems.

(** * Deviations *)

(** AddPartition with a model index checks the length of the wrong context: as long as the helper's own
    context is empty, a partition is always accepted, also when the length of the model overflows and wraps. *)
Theorem add_partition_at_unchecked p i h ctx :
  OmFileSaveHelper.context_ h = new_OmFileContext -> OmFileSaveHelper.model_contexts_ h !! i = Some ctx -> inU 32 (p_size p) ->
  exists h' ctx', OmFileSaveHelper.AddPartition_at p i h = (SUCCESS, h') /\ OmFileSaveHelper.model_contexts_ h' !! i = Some ctx' /\
    partition_datas_ ctx' = partition_datas_ ctx ++ [p] /\ model_data_len_ ctx' = (model_data_len_ ctx + p_size p) mod 2 ^ 32.
Proof.
  intros Hc Hi Hu. unfold inU in Hu. unfold OmFileSaveHelper.AddPartition_at. rewrite Hc. cbn [model_data_len_ new_OmFileContext].
  rewrite bool_decide_eq_true_2 by (apply add32_ok; lia). cbn [negb]. rewrite Hi. eexists _, (OmFileSaveHelper.push_partition p ctx).
  split; [done|]. split; [|done]. cbn [OmFileSaveHelper.model_contexts_]. apply list_lookup_insert_eq. by eapply lookup_lt_Some.
Qed.

(** Two partitions of 3 GB in one model: its length becomes 2 GB. *)
Lemma add_partition_at_unchecked_witness :
  exists h' ctx', OmFileSaveHelper.AddPartition_at (mkPart WEIGHTS_DATA None 3221225472) 0
      (OmFileSaveHelper.mkSave new_ModelFileHeader new_OmFileContext [mkContext [mkPart MODEL_DEF None 3221225472] [] 3221225472]) = (SUCCESS, h') /\
    OmFileSaveHelper.model_contexts_ h' !! 0%nat = Some ctx' /\ model_data_len_ ctx' = 2147483648.
Proof.
  destruct (add_partition_at_unchecked (mkPart WEIGHTS_DATA None 3221225472) 0
    (OmFileSaveHelper.mkSave new_ModelFileHeader new_OmFileContext [mkContext [mkPart MODEL_DEF None 3221225472] [] 3221225472])
    (mkContext [mkPart MODEL_DEF None 3221225472] [] 3221225472)) as (h' & ctx' & H1 & H2 & _ & H3); [done|done|vm_compute; split; congruence|].
  exists h', ctx'. split; [exact H1|]. split; [exact H2|]. exact H3.
Defined.

(** A model with one partition of three bytes. *)
Definition sample_parts : list ModelPartition := [mkPart MODEL_DEF (Some [7; 8; 9]) 3].

Lemma sample_parts_ok : Forall part_ok sample_parts.
Proof. repeat constructor; try (vm_compute; congruence). by exists [7; 8; 9]. Qed.

(** The loader for several models trusts the number of models: given a complete file of one model and the
    number two, it reads the second table behind the end of the data. *)
Theorem om_root_load_overread :
  OmFileLoadHelper.Init_root (Some (model_bytes sample_parts)) (zlen (model_bytes sample_parts)) 2 OmFileLoadHelper.new_helper = None.
Proof. vm_compute. reflexivity. Qed.

(** * Concrete runs *)
Section Witnesses.
Local Existing Instance sample_env.
Local Instance complete_files : Files := sample_files None.
Local Instance complete_files_ok : FilesOk complete_files := sample_files_ok None I.

Definition no_file : @FS complete_files := None.
Definition saved : OmFileSaveHelper.OmFileSaveHelper :=
  OmFileSaveHelper.mkSave new_ModelFileHeader (mkContext sample_parts [] 3) [].
Definition saved_root : OmFileSaveHelper.OmFileSaveHelper :=
  OmFileSaveHelper.mkSave new_ModelFileHeader new_OmFileContext [mkContext sample_parts [] 3; mkContext sample_parts [] 3].

Lemma saved_eq : add_all sample_parts (OmFileSaveHelper.mkSave new_ModelFileHeader new_OmFileContext []) = Some saved.
Proof. vm_compute. reflexivity. Qed.

Lemma om_buffer_roundtrip_witness :
  exists (file : list Z) h1 h2, OmFileSaveHelper.SaveModel [] (mkBufferData None 0) false saved no_file
      = Some ((SUCCESS, mkBufferData (Some file) (zlen file), h1), no_file) /\
    OmFileLoadHelper.Init (mkModelData (Some file) (zlen file)) OmFileLoadHelper.new_helper = Some (SUCCESS, h2).
Proof.
  destruct (om_buffer_roundtrip [] (mkBufferData None 0) new_ModelFileHeader sample_parts saved no_file)
    as (file & h1 & h2 & H1 & H2 & _); [by vm_compute|done|exact sample_parts_ok|by left|exact saved_eq|by vm_compute|by vm_compute|by vm_compute|].
  exists file, h1, h2. exact (conj H1 H2).
Defined.

Lemma sample_writes_complete : writes_complete (F := complete_files).
Proof. intros fd bs s. cbn. destruct s; [|by right; left]. destruct (fd =? 3); [by left|by right; left]. Qed.

Lemma om_file_roundtrip_witness :
  exists h1 s', OmFileSaveHelper.SaveModel [] (mkBufferData None 0) true saved no_file = Some ((SUCCESS, mkBufferData None 0, h1), s') /\
    exists fd file h2, fs_file s' fd = Some file /\
      OmFileLoadHelper.Init (mkModelData (Some file) (zlen file)) OmFileLoadHelper.new_helper = Some (SUCCESS, h2) /\
      finds sample_parts (fun type out => OmFileLoadHelper.GetModelPartition type out h2).
Proof.
  destruct (om_file_roundtrip [] (mkBufferData None 0) new_ModelFileHeader sample_parts saved no_file)
    as (st & h1 & s' & H1 & H2); [exact sample_writes_complete|by vm_compute|done|exact sample_parts_ok|discriminate|exact saved_eq|by vm_compute|].
  assert (Hst : st = SUCCESS) by (vm_compute in H1; congruence). destruct (H2 Hst) as (fd & file & st2 & h2 & Hf & HI & Hok & _).
  destruct Hok as [Hst2 Hfind]; [by left|]. rewrite Hst in H1. rewrite Hst2 in HI.
  exists h1, s'. split; [exact H1|]. exists fd, file, h2. exact (conj Hf (conj HI Hfind)).
Defined.

(** A model of a graph and its tasks, without weights: SaveModel reports success, and the loader refuses the file. *)
Definition two_parts : list ModelPartition := [mkPart MODEL_DEF (Some [7; 8; 9]) 3; mkPart TASK_INFO (Some [1; 2]) 2].

Theorem two_partitions_refused :
  match OmFileSaveHelper.SaveModel [] (mkBufferData None 0) true
          (OmFileSaveHelper.mkSave new_ModelFileHeader (mkContext two_parts [] 5) []) no_file with
  | Some ((st, _, _), s') => st = SUCCESS /\
      (file ← fs_file s' 3; fst <$> OmFileLoadHelper.Init (mkModelData (Some file) (zlen file)) OmFileLoadHelper.new_helper)
      = Some ACL_ERROR_GE_PARAM_INVALID
  | None => False
  end.
Proof. vm_compute. split; reflexivity. Qed.

Lemma om_root_roundtrip_witness :
  exists h1 s', OmFileSaveHelper.SaveRootModel [] true saved_root no_file = Some ((SUCCESS, h1), s') /\ 
    exists fd file h2, fs_file s' fd = Some file /\ 
      OmFileLoadHelper.Init_root (Some (drop 256 file)) (zlen file - 256) 2 OmFileLoadHelper.new_helper = Some (SUCCESS, h2).
Proof.
  destruct (om_root_roundtrip [] saved_root no_file) as (st & h1 & s' & H1 & H2); [exact sample_writes_complete|by vm_compute|done| |].
  { assert (Hc : context_ok (mkContext sample_parts [] 3)) by (split; [split; [exact sample_parts_ok|discriminate]|split; vm_compute; reflexivity]).
    exact (Forall_cons_2 _ _ _ Hc (Forall_cons_2 _ _ _ Hc (Forall_nil_2 _))). }
  assert (Hst : st = SUCCESS) by (vm_compute in H1; congruence). destruct (H2 Hst) as (fd & file & h2 & Hf & _ & HI & _). rewrite Hst in H1.
  exists h1, s'. split; [exact H1|]. exists fd, file, h2. exact (conj Hf HI).
Defined.

Lemma om_load_safe_witness :
  exists st h, OmFileLoadHelper.Init (mkModelData (Some (repeat 0 300)) 300) OmFileLoadHelper.new_helper = Some (st, h).
Proof.
  destruct (om_load_safe (repeat 0 300)) as (st & h & _ & H & _); [|by vm_compute|].
  - apply Forall_forall. intros x Hx%list_elem_of_In%repeat_spec. subst x. unfold is_byte. lia.
  - exists st, h. exact H.
Defined.
End Witnesses.
