(* ===== verification/FormatsUtils.v ===== *)
(** Shapes and shape checks shared by the format transfers
    (ge/common/formats/utils/formats_definitions.h, formats_trans_utils.{h,cc}).

    The main result is the exact meaning of [IsShapeValid]: it accepts a shape
    when no dimension is negative and no prefix product exceeds 2^40, so that the
    item count the transfers compute with int64_t does not wrap. *)
From S2P Require Import Prelude Buffer.

(** * formats_definitions.h *)
Definition kCubeSize : Z := 16.
Definition kNiSize : Z := 16.
Definition kShapeItemNumMAX : Z := 1024 * 1024 * 1024 * 1024.

Definition kNchwN : nat := 0.
Definition kNchwC : nat := 1.
Definition kNchwH : nat := 2.
Definition kNchwW : nat := 3.
Definition kNchwDimsNum : Z := 4.

Definition kNhwcN : nat := 0.
Definition kNhwcH : nat := 1.
Definition kNhwcW : nat := 2.
Definition kNhwcC : nat := 3.
Definition kNhwcDimsNum : Z := 4.

Definition kHwcnH : nat := 0.
Definition kHwcnW : nat := 1.
Definition kHwcnC : nat := 2.
Definition kHwcnN : nat := 3.
Definition kHwcnDimsNum : Z := 4.

Definition kChwnC : nat := 0.
Definition kChwnH : nat := 1.
Definition kChwnW : nat := 2.
Definition kChwnN : nat := 3.

Definition kNc1hwc0N : nat := 0.
Definition kNc1hwc0C1 : nat := 1.
Definition kNc1hwc0H : nat := 2.
Definition kNc1hwc0W : nat := 3.
Definition kNc1hwc0C0 : nat := 4.
Definition kNc1hwc0DimsNum : Z := 5.

Definition kC1hwncoc0C1 : nat := 0.
Definition kC1hwncoc0H : nat := 1.
Definition kC1hwncoc0W : nat := 2.
Definition kC1hwncoc0N : nat := 3.
Definition kC1hwncoc0Co : nat := 4.
Definition kC1hwncoc0C0 : nat := 5.
Definition kC1hwncoc0DimsNum : Z := 6.

Definition kFracZHWC1 : nat := 0.
Definition kFracZN0 : nat := 1.
Definition kFracZNi : nat := 2.
Definition kFracZC0 : nat := 3.
Definition kFracZDimsNum : Z := 4.

Definition kDhwcnD : nat := 0.
Definition kDhwcnH : nat := 1.
Definition kDhwcnW : nat := 2.
Definition kDhwcnC : nat := 3.
Definition kDhwcnN : nat := 4.
Definition kDhwcnDimsNum : Z := 5.

Definition kDhwncD : nat := 0.
Definition kDhwncH : nat := 1.
Definition kDhwncW : nat := 2.
Definition kDhwncN : nat := 3.
Definition kDhwncC : nat := 4.
Definition kDhwncDimsNum : Z := 5.

(** ge/common/types.cc *)
Definition DIM_DEFAULT_VALUE : Z := 1.

(** * The arguments and the result of a transfer (metadef) *)
Record TransArgs := {
  data : option (list Z);
  src_format : Format;
  dst_format : Format;
  src_shape : list Z;
  dst_shape : list Z;
  src_data_type : DataType;
}.

Record TransResult := {
  res_data : option (list Z);
  res_length : Z;
}.

(** * formats_trans_utils *)
Section Utils.
Context `{E : Env}.

Definition GetCubeSizeByDataType (data_type : DataType) : Z :=
  let size := GetSizeByDataType data_type in
  if size <=? 0 then -1
  else if size =? 1 then (kCubeSize * 2)%i64
  else kCubeSize.

Definition GetItemNumByShape (shape : list Z) : Z :=
  fold_left (fun num dim => (num * dim)%i64) shape 1.

Fixpoint IsShapeValid_loop (num : Z) (shape : list Z) : bool :=
  match shape with
  | [] => true
  | dim :: shape =>
      if dim <? 0 then false
      else if negb (dim =? 0) && ((kShapeItemNumMAX / dim)%i64 <? num) then false
      else IsShapeValid_loop (num * dim)%i64 shape
  end.

Definition IsShapeValid (shape : list Z) : bool :=
  match shape with
  | [] => false
  | _ => IsShapeValid_loop 1 shape
  end.

Definition CheckShapeValid (shape : list Z) (expect_dims : Z) : bool :=
  if (expect_dims <=? 0) || negb (zlen shape =? wrapU64 expect_dims) then false
  else IsShapeValid shape.

Fixpoint IsShapeEqual_loop (src dst : list Z) : bool :=
  match src, dst with
  | s :: src, d :: dst => if negb (s =? d) then false else IsShapeEqual_loop src dst
  | _, _ => true
  end.

Definition IsShapeEqual (src dst : list Z) : bool :=
  if negb (zlen src =? zlen dst) then false else IsShapeEqual_loop src dst.

Definition IsTransShapeSrcCorrect (args : TransArgs) (expect_shape : list Z) : bool :=
  bool_decide (src_shape args = expect_shape).

Definition IsTransShapeDstCorrect (args : TransArgs) (expect_shape : list Z) : bool :=
  negb (negb (bool_decide (dst_shape args = [])) && negb (bool_decide (dst_shape args = expect_shape))).

(** The body of [TransFormat] after the argument check, which nine transfers
    repeat: nothing to do for an empty tensor, otherwise run [trans]
    (GetDstDataAfterTrans) on the total size and report its failure. *)
Definition TransWithTotalSize (trans : TransArgs -> TransResult -> Z -> Z -> outcome TransResult)
    (args : TransArgs) (result : TransResult) : outcome TransResult :=
  let size := GetSizeByDataType (src_data_type args) in
  let total_size := (GetItemNumByShape (dst_shape args) * size)%i64 in
  if total_size <=? 0 then
    let src_size := GetItemNumByShape (src_shape args) in
    if (total_size =? 0) && (src_size =? 0)
    then Ok {| res_data := res_data result; res_length := wrapU64 total_size |}
    else Err PARAM_INVALID
  else or_else INTERNAL_ERROR (trans args result size total_size).

(** What a transfer promises for a non-empty tensor of [T] elements of [size]
    bytes: the status [oom] when the destination cannot be allocated, otherwise a
    buffer of exactly that size that satisfies [spec]. *)
Definition delivers (r : outcome TransResult) (oom : Status) (size T : Z) (spec : list Z -> Prop) : Prop :=
  match new_uint8 (T * size) with
  | None => r = Err oom
  | Some _ => exists out, r = Ok {| res_data := Some out; res_length := T * size |} /\
                          zlen out = T * size /\ spec out
  end.

Definition Ceil (n1 n2 : Z) : Z :=
  if n1 =? 0 then 0
  else if negb (n2 =? 0) then ((n1 - 1) / n2 + 1)%i64 else 0.
End Utils.

(** * Lemmas *)
Definition prodZ (l : list Z) : Z := foldr Z.mul 1 l.

Lemma prodZ_app l k : prodZ (l ++ k) = prodZ l * prodZ k.
Proof. unfold prodZ. induction l as [|x l IH]; cbn; [by destruct (foldr _ _ _)|]. rewrite IH. ring. Qed.

Lemma prodZ_take_0 l : prodZ (take 0 l) = 1.
Proof. reflexivity. Qed.

Lemma prodZ_take_S n d l : prodZ (take (S n) (d :: l)) = d * prodZ (take n l).
Proof. reflexivity. Qed.

Lemma prodZ_nonneg l : Forall (Z.le 0) l -> 0 <= prodZ l.
Proof. induction 1; cbn; [lia|]. unfold prodZ in *. nia. Qed.

Lemma prodZ_pos l : Forall (Z.le 0) l -> prodZ l <> 0 -> Forall (Z.lt 0) l.
Proof.
  induction 1 as [|x l Hx Hl IH]; [done|]. cbn. intros Hp. constructor.
  - destruct (decide (x = 0)) as [->|]; [done|lia].
  - apply IH. intros H0. unfold prodZ in H0. rewrite H0 in Hp. lia.
Qed.

(** What the running product of [IsShapeValid] establishes. *)
Lemma IsShapeValid_loop_spec shape num :
  0 <= num <= 2 ^ 40 -> Forall (fun d => d < 2 ^ 63) shape ->
  IsShapeValid_loop num shape = true <->
  Forall (Z.le 0) shape /\ forall n, num * prodZ (take n shape) <= 2 ^ 40.
Proof.
  intros Hnum Hs. revert num Hnum. induction Hs as [|d shape Hd Hs IH]; intros num Hnum; cbn [IsShapeValid_loop].
  { split; [intros _|done]. split; [done|]. intros n. rewrite take_nil. cbn. lia. }
  destruct (Z.ltb_spec d 0) as [Hneg|Hnn].
  { split; [done|]. intros [HF _]. inversion HF. lia. }
  assert (Hdiv : d <> 0 -> (kShapeItemNumMAX / d)%i64 = 2 ^ 40 / d).
  { intros. unfold quot64. change kShapeItemNumMAX with (2 ^ 40). rewrite Z.quot_div_nonneg by lia.
    apply wrap64_id. split; [pose proof (Z.div_pos (2 ^ 40) d); lia|].
    apply Z.le_lt_trans with (2 ^ 40); [apply Z.div_le_upper_bound; nia|lia]. }
  destruct (negb (d =? 0) && _) eqn:Hov.
  - apply andb_prop in Hov as [Hd0 Hlt]. destruct (Z.eqb_spec d 0) as [|Hd0']; [done|].
    rewrite Hdiv in Hlt by done. apply Z.ltb_lt in Hlt.
    split; [done|]. intros [_ Hp]. specialize (Hp 1%nat). rewrite prodZ_take_S, prodZ_take_0 in Hp.
    pose proof (Z.div_le_lower_bound (2 ^ 40) d num). exfalso. lia.
  - assert (Hle : num * d <= 2 ^ 40).
    { destruct (Z.eqb_spec d 0) as [->|]; [lia|]. cbn in Hov. rewrite Hdiv in Hov by done.
      apply Z.ltb_ge in Hov. pose proof (Z.mul_div_le (2 ^ 40) d ltac:(lia)). nia. }
    assert ((num * d)%i64 = num * d) as -> by (apply wrap64_id; nia).
    rewrite IH by nia. rewrite Forall_cons. split.
    + intros [HF Hp]. split; [split; [lia|done]|]. intros [|n]; rewrite ?prodZ_take_0, ?prodZ_take_S; [lia|].
      specialize (Hp n). lia.
    + intros [[_ HF] Hp]. split; [done|]. intros n. specialize (Hp (S n)).
      rewrite prodZ_take_S in Hp. lia.
Qed.

Lemma IsShapeValid_spec shape :
  Forall (fun d => d < 2 ^ 63) shape ->
  IsShapeValid shape = true <->
  shape <> [] /\ Forall (Z.le 0) shape /\ forall n, prodZ (take n shape) <= 2 ^ 40.
Proof.
  intros Hs. destruct shape as [|d shape]; [naive_solver|].
  unfold IsShapeValid. rewrite IsShapeValid_loop_spec by (done || lia).
  split; intros H; (split_and!; [done|apply H|intros n; pose proof (proj2 H n)]; lia) ||
    (destruct H as (_ & HF & Hp); split; [done|intros n; specialize (Hp n); lia]).
Qed.

(** The item count of a valid shape is exact. *)
Lemma GetItemNumByShape_exact shape :
  Forall (Z.le 0) shape -> (forall n, prodZ (take n shape) <= 2 ^ 40) -> GetItemNumByShape shape = prodZ shape.
Proof.
  intros HF Hp. unfold GetItemNumByShape.
  assert (Hgen : forall a, 0 <= a -> (forall n, a * prodZ (take n shape) <= 2 ^ 40) ->
                           fold_left (fun num dim => (num * dim)%i64) shape a = a * prodZ shape).
  { clear Hp. induction HF as [|d shape Hd HF IH]; intros a Ha Hp; cbn; [lia|].
    assert ((a * d)%i64 = a * d) as ->.
    { apply wrap64_id. specialize (Hp 1%nat). rewrite prodZ_take_S, prodZ_take_0 in Hp. nia. }
    rewrite IH; [unfold prodZ; cbn; ring|nia|]. intros n. specialize (Hp (S n)).
    rewrite prodZ_take_S in Hp. lia. }
  rewrite Hgen; [lia|lia|]. intros n. rewrite Z.mul_1_l. apply Hp.
Qed.

(** What a transfer knows of a shape that passed its check. *)
Lemma IsShapeValid_facts shape :
  Forall (fun d => d < 2 ^ 63) shape -> IsShapeValid shape = true ->
  Forall (Z.le 0) shape /\ GetItemNumByShape shape = prodZ shape /\ 0 <= prodZ shape <= 2 ^ 40.
Proof.
  intros Hs Hv. apply IsShapeValid_spec in Hv as (_ & HF & Hp); [|done].
  split_and!; [done|by apply GetItemNumByShape_exact|by apply prodZ_nonneg|].
  specialize (Hp (length shape)). by rewrite firstn_all in Hp.
Qed.

Lemma CheckShapeValid_facts shape (n : nat) :
  Forall (fun d => d < 2 ^ 63) shape -> (0 < n)%nat -> Z.of_nat n < 2 ^ 63 ->
  CheckShapeValid shape (Z.of_nat n) = true <-> length shape = n /\ IsShapeValid shape = true.
Proof.
  intros Hs Hn Hn'. unfold CheckShapeValid, zlen. rewrite wrapU64_id by lia.
  destruct (Z.leb_spec (Z.of_nat n) 0); [lia|]. cbn.
  destruct (Z.eqb_spec (Z.of_nat (length shape)) (Z.of_nat n)); cbn; [naive_solver lia|].
  split; [done|]. intros []. lia.
Qed.

(** [Ceil] is the rounded-up quotient. *)
Lemma Ceil_spec n1 n2 : 0 <= n1 < 2 ^ 62 -> 0 < n2 -> Ceil n1 n2 = (n1 + n2 - 1) / n2.
Proof.
  intros H1 H2. unfold Ceil. destruct (Z.eqb_spec n1 0) as [->|].
  { rewrite Z.div_small; lia. }
  destruct (Z.eqb_spec n2 0); [lia|]. cbn [negb].
  unfold quot64. assert ((n1 - 1)%i64 = n1 - 1) as -> by (apply wrap64_id; lia).
  rewrite Z.quot_div_nonneg by lia.
  assert (0 <= (n1 - 1) / n2 <= n1 - 1).
  { split; [apply Z.div_pos; lia|]. apply Z.div_le_upper_bound; nia. }
  rewrite wrap64_id by lia. unfold add64. rewrite wrap64_id by lia.
  replace (n1 + n2 - 1) with (n1 - 1 + 1 * n2) by lia. rewrite Z.div_add by lia. done.
Qed.

Lemma Ceil_bound n1 n2 :
  0 <= n1 < 2 ^ 62 -> 0 < n2 -> n1 <= Ceil n1 n2 * n2 < n1 + n2.
Proof.
  intros. rewrite Ceil_spec by done.
  pose proof (Z.mul_div_le (n1 + n2 - 1) n2 ltac:(lia)).
  pose proof (Z.mod_pos_bound (n1 + n2 - 1) n2 ltac:(lia)).
  pose proof (Z.div_mod (n1 + n2 - 1) n2 ltac:(lia)). lia.
Qed.

Lemma Ceil_le n1 n2 : 0 < n1 < 2 ^ 62 -> 0 < n2 -> 0 < Ceil n1 n2 <= n1.
Proof.
  intros. pose proof (Ceil_bound n1 n2 ltac:(lia) ltac:(lia)). split; [nia|].
  apply Z.le_ngt. intros Hgt. assert ((n1 + 1) * n2 <= Ceil n1 n2 * n2) by nia. nia.
Qed.

Lemma IsShapeEqual_spec src dst : IsShapeEqual src dst = true <-> src = dst.
Proof.
  unfold IsShapeEqual, zlen. destruct (Z.eqb_spec (Z.of_nat (length src)) (Z.of_nat (length dst))) as [Hl|Hl]; cbn.
  - apply Nat2Z.inj in Hl. revert dst Hl. induction src as [|s src IH]; intros [|d dst] Hl; cbn in *; try done.
    destruct (Z.eqb_spec s d) as [->|]; cbn; [rewrite IH by lia; naive_solver|naive_solver].
  - naive_solver.
Qed.

Section UtilsLemmas.
Context `{E : Env} {HE : EnvOk E}.

(** The cube size is 32 elements for one-byte types, 16 for the others, and
    negative exactly when the type is invalid. *)
Lemma GetCubeSizeByDataType_cases d :
  (GetSizeByDataType d <= 0 /\ GetCubeSizeByDataType d = -1) \/
  (GetSizeByDataType d = 1 /\ GetCubeSizeByDataType d = 32) \/
  (1 < GetSizeByDataType d <= 1024 /\ GetCubeSizeByDataType d = 16).
Proof.
  pose proof (GetSizeByDataType_small d). unfold GetCubeSizeByDataType.
  destruct (Z.leb_spec (GetSizeByDataType d) 0); [left; lia|].
  destruct (Z.eqb_spec (GetSizeByDataType d) 1); [right; left|right; right]; (split; [lia|reflexivity]).
Qed.

Lemma TransWithTotalSize_run trans args result size T :
  GetSizeByDataType (src_data_type args) = size -> 0 < size <= 1024 ->
  GetItemNumByShape (dst_shape args) = T -> 0 < T <= 2 ^ 40 ->
  TransWithTotalSize trans args result = or_else INTERNAL_ERROR (trans args result size (T * size)).
Proof.
  intros Hs Hsp HT HTp. unfold TransWithTotalSize. rewrite Hs, HT.
  assert ((T * size)%i64 = T * size) as -> by (apply wrap64_id; nia).
  destruct (Z.leb_spec (T * size) 0); [nia|done].
Qed.

(** A transfer keeps its promise when its data routine does. *)
Lemma TransWithTotalSize_delivers trans args result size T spec :
  GetSizeByDataType (src_data_type args) = size -> 0 < size <= 1024 ->
  GetItemNumByShape (dst_shape args) = T -> 0 < T <= 2 ^ 40 ->
  (new_uint8 (T * size) = None -> trans args result size (T * size) = Err OUT_OF_MEMORY) ->
  (forall b0, new_uint8 (T * size) = Some b0 ->
     exists out, trans args result size (T * size) = Ok {| res_data := Some out; res_length := T * size |} /\
                 zlen out = T * size /\ spec out) ->
  delivers (TransWithTotalSize trans args result) INTERNAL_ERROR size T spec.
Proof.
  intros Hs Hsp HT HTp Hoom Hrun. rewrite (TransWithTotalSize_run trans args result size T) by done.
  unfold delivers. destruct (new_uint8 (T * size)) as [b0|].
  - destruct (Hrun b0 eq_refl) as (out & -> & ? & ?). by exists out.
  - by rewrite Hoom.
Qed.

(** An empty tensor is accepted without touching the destination. *)
Lemma TransWithTotalSize_empty trans args result :
  GetItemNumByShape (dst_shape args) = 0 -> GetItemNumByShape (src_shape args) = 0 ->
  TransWithTotalSize trans args result = Ok {| res_data := res_data result; res_length := 0 |}.
Proof. intros H1 H2. unfold TransWithTotalSize. rewrite H1, H2. reflexivity. Qed.

(** A valid data type, by its size or by its cube size. *)
Lemma cube_pos d : 0 < GetSizeByDataType d -> 0 < GetSizeByDataType d <= 1024 /\ 0 < GetCubeSizeByDataType d <= 32.
Proof. pose proof (GetCubeSizeByDataType_cases d). lia. Qed.

Lemma cube_valid d : (GetCubeSizeByDataType d <=? 0) = false -> 0 < GetSizeByDataType d.
Proof. pose proof (GetCubeSizeByDataType_cases d). intros ?%Z.leb_gt. lia. Qed.
End UtilsLemmas.

(** The shapes of fixed rank the transfers accept. *)
Lemma Valid4 a b c d :
  Forall (fun d => d < 2 ^ 63) [a; b; c; d] -> CheckShapeValid [a; b; c; d] 4 = true ->
  GetItemNumByShape [a; b; c; d] = a * b * c * d /\ 0 <= a * b * c * d <= 2 ^ 40.
Proof.
  intros Hs Hv. apply (CheckShapeValid_facts _ 4) in Hv as [_ Hv]; [|done|lia|lia].
  apply IsShapeValid_facts in Hv as (_ & -> & Hp); [|done]. unfold prodZ in *. cbn in *. split; [ring|].
  replace (a * b * c * d) with (a * (b * (c * (d * 1)))) by ring. done.
Qed.

Lemma Valid5 a b c d e :
  Forall (fun d => d < 2 ^ 63) [a; b; c; d; e] -> CheckShapeValid [a; b; c; d; e] 5 = true ->
  GetItemNumByShape [a; b; c; d; e] = a * b * c * d * e /\ 0 <= a * b * c * d * e <= 2 ^ 40.
Proof.
  intros Hs Hv. apply (CheckShapeValid_facts _ 5) in Hv as [_ Hv]; [|done|lia|lia].
  apply IsShapeValid_facts in Hv as (_ & -> & Hp); [|done]. unfold prodZ in *. cbn in *. split; [ring|].
  replace (a * b * c * d * e) with (a * (b * (c * (d * (e * 1))))) by ring. done.
Qed.

Lemma Valid6 a b c d e f :
  Forall (fun d => d < 2 ^ 63) [a; b; c; d; e; f] -> CheckShapeValid [a; b; c; d; e; f] 6 = true ->
  GetItemNumByShape [a; b; c; d; e; f] = a * b * c * d * e * f /\ 0 <= a * b * c * d * e * f <= 2 ^ 40.
Proof.
  intros Hs Hv. apply (CheckShapeValid_facts _ 6) in Hv as [_ Hv]; [|done|lia|lia].
  apply IsShapeValid_facts in Hv as (_ & -> & Hp); [|done]. unfold prodZ in *. cbn in *. split; [ring|].
  replace (a * b * c * d * e * f) with (a * (b * (c * (d * (e * (f * 1)))))) by ring. done.
Qed.

(** A factor of a product of positive numbers is at most the product. *)
Lemma factor_le a b M : 0 < a -> 0 < b -> a * b <= M -> a <= M /\ b <= M.
Proof. nia. Qed.

Lemma dims4_small a b c d : 0 < a -> 0 < b -> 0 < c -> 0 < d -> a * b * c * d <= 2 ^ 40 ->
  a <= 2 ^ 40 /\ b <= 2 ^ 40 /\ c <= 2 ^ 40 /\ d <= 2 ^ 40.
Proof.
  intros. assert (0 < a * b) by nia. assert (0 < a * b * c) by nia.
  destruct (factor_le (a * b * c) d (2 ^ 40)); [done..|].
  destruct (factor_le (a * b) c (2 ^ 40)); [done..|]. destruct (factor_le a b (2 ^ 40)); done.
Qed.

(** [Ceil] is an int64_t value. *)
Lemma Ceil_int n1 n2 : Ceil n1 n2 < 2 ^ 63.
Proof.
  unfold Ceil, add64. destruct (n1 =? 0); [lia|]. destruct (n2 =? 0); cbn [negb]; [lia|].
  pose proof (wrapS_in 64 (quot64 (n1 - 1)%i64 n2 + 1)) as Hw. unfold inS, wrap64 in *. lia.
Qed.

(** Arguments of a transfer between two formats. *)
Definition mk_args (d : option (list Z)) (sf df : Format) (ss ds : list Z) (dt : DataType) : TransArgs :=
  {| data := d; src_format := sf; dst_format := df; src_shape := ss; dst_shape := ds; src_data_type := dt |}.

(** Evaluates a check of the formats and reads the shapes. *)
Ltac check_args :=
  cbn [mk_args src_format dst_format src_shape dst_shape src_data_type];
  rewrite !bool_decide_eq_true_2 by done; cbn [negb orb andb].

(** Decides the comparisons of concrete formats. *)
Ltac eval_formats :=
  repeat match goal with
  | |- context [bool_decide (@eq Format ?a ?b)] =>
      first [rewrite (bool_decide_eq_true_2 (a = b)) by done | rewrite (bool_decide_eq_false_2 (a = b)) by done]
  end; cbn [negb andb orb].

(** The data of a successful run of a transfer. *)
Lemma delivers_ok `{E : Env} r st oom size T spec :
  delivers r oom size T spec -> r = Ok st ->
  exists out, res_data st = Some out /\ res_length st = T * size /\ zlen out = T * size /\ spec out.
Proof.
  unfold delivers. destruct (new_uint8 (T * size)).
  - intros (out & -> & ? & ?) [= <-]. by exists out.
  - by intros ->.
Qed.

Lemma delivers_mono `{E : Env} r oom size T (spec spec' : list Z -> Prop) :
  delivers r oom size T spec -> (forall out, zlen out = T * size -> spec out -> spec' out) ->
  delivers r oom size T spec'.
Proof. unfold delivers. destruct (new_uint8 (T * size)); [|done]. intros (out & ? & ? & ?) ?. exists out. auto. Qed.

