(* ===== verification/FormatIndex.v ===== *)
(** Row-major indices of the 4-, 5- and 6-dimensional formats.

    [idx4 B C D a b c d] is the linear index of the element [a, b, c, d] of a
    tensor of shape [_; B; C; D]; [dec4 B C D f k] is the value [f] gives the
    element at the linear index [k].  The transfers are specified with [dec*] and
    their theorems stated with [idx*]. *)
From S2P Require Import Prelude.

Definition idx3 (B C a b c : Z) : Z := (a * B + b) * C + c.
Definition idx4 (B C D a b c d : Z) : Z := ((a * B + b) * C + c) * D + d.
Definition idx5 (B C D E a b c d e : Z) : Z := (((a * B + b) * C + c) * D + d) * E + e.
Definition idx6 (B C D E F a b c d e f : Z) : Z := ((((a * B + b) * C + c) * D + d) * E + e) * F + f.

#[export] Hint Unfold idx3 idx4 idx5 idx6 : fmt_index.

Definition dec3 {A} (B C : Z) (v : Z -> Z -> Z -> A) (k : Z) : A :=
  v (k / C / B) (k / C mod B) (k mod C).
Definition dec4 {A} (B C D : Z) (v : Z -> Z -> Z -> Z -> A) (k : Z) : A :=
  v (k / D / C / B) (k / D / C mod B) (k / D mod C) (k mod D).
Definition dec5 {A} (B C D E : Z) (v : Z -> Z -> Z -> Z -> Z -> A) (k : Z) : A :=
  v (k / E / D / C / B) (k / E / D / C mod B) (k / E / D mod C) (k / E mod D) (k mod E).
Definition dec6 {A} (B C D E F : Z) (v : Z -> Z -> Z -> Z -> Z -> Z -> A) (k : Z) : A :=
  v (k / F / E / D / C / B) (k / F / E / D / C mod B) (k / F / E / D mod C) (k / F / E mod D) (k / F mod E) (k mod F).

Lemma idx3_range A B C a b c :
  0 <= a < A -> 0 <= b < B -> 0 <= c < C -> 0 <= idx3 B C a b c < A * B * C.
Proof. intros. unfold idx3. repeat apply radix_range; done. Qed.

Lemma idx4_range A B C D a b c d :
  0 <= a < A -> 0 <= b < B -> 0 <= c < C -> 0 <= d < D -> 0 <= idx4 B C D a b c d < A * B * C * D.
Proof. intros. unfold idx4. repeat apply radix_range; done. Qed.

Lemma idx5_range A B C D E a b c d e :
  0 <= a < A -> 0 <= b < B -> 0 <= c < C -> 0 <= d < D -> 0 <= e < E ->
  0 <= idx5 B C D E a b c d e < A * B * C * D * E.
Proof. intros. unfold idx5. repeat apply radix_range; done. Qed.

Lemma idx6_range A B C D E F a b c d e f :
  0 <= a < A -> 0 <= b < B -> 0 <= c < C -> 0 <= d < D -> 0 <= e < E -> 0 <= f < F ->
  0 <= idx6 B C D E F a b c d e f < A * B * C * D * E * F.
Proof. intros. unfold idx6. repeat apply radix_range; done. Qed.

Ltac decode := repeat first [rewrite radix_div by done | rewrite radix_mod by done]; done.

Lemma dec3_at {T} B C (v : Z -> Z -> Z -> T) a b c :
  0 <= b < B -> 0 <= c < C -> dec3 B C v (idx3 B C a b c) = v a b c.
Proof. intros. unfold dec3, idx3. decode. Qed.

Lemma dec4_at {T} B C D (v : Z -> Z -> Z -> Z -> T) a b c d :
  0 <= b < B -> 0 <= c < C -> 0 <= d < D -> dec4 B C D v (idx4 B C D a b c d) = v a b c d.
Proof. intros. unfold dec4, idx4. decode. Qed.

Lemma dec5_at {T} B C D E (v : Z -> Z -> Z -> Z -> Z -> T) a b c d e :
  0 <= b < B -> 0 <= c < C -> 0 <= d < D -> 0 <= e < E ->
  dec5 B C D E v (idx5 B C D E a b c d e) = v a b c d e.
Proof. intros. unfold dec5, idx5. decode. Qed.

Lemma dec6_at {T} B C D E F (v : Z -> Z -> Z -> Z -> Z -> Z -> T) a b c d e f :
  0 <= b < B -> 0 <= c < C -> 0 <= d < D -> 0 <= e < E -> 0 <= f < F ->
  dec6 B C D E F v (idx6 B C D E F a b c d e f) = v a b c d e f.
Proof. intros. unfold dec6, idx6. decode. Qed.

(** Every linear index is the index of an element, one dimension at a time. *)
Lemma radix_surj k A B : 0 < B -> 0 <= k < A * B -> exists a b, 0 <= a < A /\ 0 <= b < B /\ k = a * B + b.
Proof.
  intros HB Hk. exists (k / B), (k mod B).
  split; [apply div_range; lia|]. split; [apply Z.mod_pos_bound; lia|by apply radix_split].
Qed.

Lemma idx3_surj k A B C :
  0 < B -> 0 < C -> 0 <= k < A * B * C ->
  exists a b c, 0 <= a < A /\ 0 <= b < B /\ 0 <= c < C /\ k = idx3 B C a b c.
Proof.
  intros ? ? Hk. destruct (radix_surj k (A * B) C) as (k1 & c & Hk1 & ? & ->); [done..|].
  destruct (radix_surj k1 A B) as (a & b & ? & ? & ->); [done..|]. by exists a, b, c.
Qed.

Lemma idx4_surj k A B C D :
  0 < B -> 0 < C -> 0 < D -> 0 <= k < A * B * C * D ->
  exists a b c d, 0 <= a < A /\ 0 <= b < B /\ 0 <= c < C /\ 0 <= d < D /\ k = idx4 B C D a b c d.
Proof.
  intros ? ? ? Hk. destruct (radix_surj k (A * B * C) D) as (k1 & d & Hk1 & ? & ->); [done..|].
  destruct (radix_surj k1 (A * B) C) as (k2 & c & Hk2 & ? & ->); [done..|].
  destruct (radix_surj k2 A B) as (a & b & ? & ? & ->); [done..|].
  exists a, b, c, d. done.
Qed.

Lemma idx5_surj k A B C D E :
  0 < B -> 0 < C -> 0 < D -> 0 < E -> 0 <= k < A * B * C * D * E ->
  exists a b c d e, 0 <= a < A /\ 0 <= b < B /\ 0 <= c < C /\ 0 <= d < D /\ 0 <= e < E /\
    k = idx5 B C D E a b c d e.
Proof.
  intros ? ? ? ? Hk. destruct (radix_surj k (A * B * C * D) E) as (k1 & e & Hk1 & ? & ->); [done..|].
  destruct (idx4_surj k1 A B C D) as (a & b & c & d & ? & ? & ? & ? & ->); [done..|].
  exists a, b, c, d, e. done.
Qed.

Lemma idx6_surj k A B C D E F :
  0 < B -> 0 < C -> 0 < D -> 0 < E -> 0 < F -> 0 <= k < A * B * C * D * E * F ->
  exists a b c d e f, 0 <= a < A /\ 0 <= b < B /\ 0 <= c < C /\ 0 <= d < D /\ 0 <= e < E /\ 0 <= f < F /\
    k = idx6 B C D E F a b c d e f.
Proof.
  intros ? ? ? ? ? Hk. destruct (radix_surj k (A * B * C * D * E) F) as (k1 & f & Hk1 & ? & ->); [done..|].
  destruct (idx5_surj k1 A B C D E) as (a & b & c & d & e & ? & ? & ? & ? & ? & ->); [done..|].
  exists a, b, c, d, e, f. done.
Qed.

(** A property of every value specified by [dec*]. *)
Lemma dec3_all {T} (P : T -> Prop) A B C v k :
  0 < B -> 0 < C -> (forall a b c, 0 <= a < A -> 0 <= b < B -> 0 <= c < C -> P (v a b c)) ->
  0 <= k < A * B * C -> P (dec3 B C v k).
Proof.
  intros ? ? HP Hk. destruct (idx3_surj k A B C) as (a & b & c & ? & ? & ? & ->); [done..|].
  rewrite dec3_at by done. auto.
Qed.

Lemma dec4_all {T} (P : T -> Prop) A B C D v k :
  0 < B -> 0 < C -> 0 < D ->
  (forall a b c d, 0 <= a < A -> 0 <= b < B -> 0 <= c < C -> 0 <= d < D -> P (v a b c d)) ->
  0 <= k < A * B * C * D -> P (dec4 B C D v k).
Proof.
  intros ? ? ? HP Hk. destruct (idx4_surj k A B C D) as (a & b & c & d & ? & ? & ? & ? & ->); [done..|].
  rewrite dec4_at by done. auto.
Qed.

Lemma dec5_all {T} (P : T -> Prop) A B C D E v k :
  0 < B -> 0 < C -> 0 < D -> 0 < E ->
  (forall a b c d e, 0 <= a < A -> 0 <= b < B -> 0 <= c < C -> 0 <= d < D -> 0 <= e < E -> P (v a b c d e)) ->
  0 <= k < A * B * C * D * E -> P (dec5 B C D E v k).
Proof.
  intros ? ? ? ? HP Hk.
  destruct (idx5_surj k A B C D E) as (a & b & c & d & e & ? & ? & ? & ? & ? & ->); [done..|].
  rewrite dec5_at by done. auto.
Qed.

Lemma dec6_all {T} (P : T -> Prop) A B C D E F v k :
  0 < B -> 0 < C -> 0 < D -> 0 < E -> 0 < F ->
  (forall a b c d e f, 0 <= a < A -> 0 <= b < B -> 0 <= c < C -> 0 <= d < D -> 0 <= e < E -> 0 <= f < F ->
     P (v a b c d e f)) ->
  0 <= k < A * B * C * D * E * F -> P (dec6 B C D E F v k).
Proof.
  intros ? ? ? ? ? HP Hk.
  destruct (idx6_surj k A B C D E F) as (a & b & c & d & e & f & ? & ? & ? & ? & ? & ? & ->); [done..|].
  rewrite dec6_at by done. auto.
Qed.

(** Channel [c] lies in group [c / C0] at position [c mod C0]. *)
Lemma channel_group C C1 C0 c :
  0 < C0 -> C <= C1 * C0 -> 0 <= c < C ->
  0 <= c / C0 < C1 /\ 0 <= c mod C0 < C0 /\ (c / C0) * C0 + c mod C0 = c.
Proof.
  intros. split; [apply div_range; lia|]. split; [apply Z.mod_pos_bound; lia|].
  symmetry. by apply radix_split.
Qed.
