(* ===== verification/FormatNc1hwc0.v ===== *)
(** Transfers between the 4-D formats and NC1HWC0
    (ge/common/formats/format_transfers/format_transfer_{nchw,nhwc}_nc1hwc0.cc and
    format_transfer_nc1hwc0_{nchw,nhwc}.cc).

    NC1HWC0 cuts the channels into C1 groups of C0 (the cube size of the data
    type) and pads the last group with zeros.  The theorems place every element of
    the result, show that the loop nests stay inside both buffers and do not
    overflow, and that going to NC1HWC0 and back gives the original tensor. *)
From S2P Require Import Prelude Buffer FormatsUtils FormatIndex.

Module NchwNc1hwc0.
Section Model.
Context `{E : Env}.

Definition TransShapeNchwToNc1hwc0 (src_shape : list Z) (data_type : DataType) : outcome (list Z) :=
  let c0 := GetCubeSizeByDataType data_type in
  if c0 <=? 0 then Err ACL_ERROR_GE_TRANSSHAPE_DATATYPE_INVALID else
  if negb (CheckShapeValid src_shape kNchwDimsNum) then Err ACL_ERROR_GE_TRANSSHAPE_SHAPE_INVALID else
  n ← at_ src_shape kNchwN;
  c ← at_ src_shape kNchwC;
  h ← at_ src_shape kNchwH;
  w ← at_ src_shape kNchwW;
  let dst_shape := [n; Ceil c c0; h; w; c0] in
  if negb (CheckShapeValid dst_shape kNc1hwc0DimsNum) then Err ACL_ERROR_GE_TRANSSHAPE_SHAPE_INVALID else
  Ok dst_shape.

Definition CheckArgsForNchwToNc1hwc0 (args : TransArgs) : outcome unit :=
  if negb (bool_decide (src_format args = FORMAT_NCHW)) || negb (bool_decide (dst_format args = FORMAT_NC1HWC0))
  then Err UNSUPPORTED else
  expect_5d_shape ← TransShapeNchwToNc1hwc0 (src_shape args) (src_data_type args);
  if negb (bool_decide (expect_5d_shape = dst_shape args)) then Err PARAM_INVALID else
  Ok tt.

Definition GetDstDataAfterTrans (args : TransArgs) (result : TransResult) (size total_size : Z) : outcome TransResult :=
  match new_uint8 total_size with
  | None => Err OUT_OF_MEMORY
  | Some dst =>
    n ← at_ (src_shape args) kNchwN;
    c ← at_ (src_shape args) kNchwC;
    h ← at_ (src_shape args) kNchwH;
    w ← at_ (src_shape args) kNchwW;
    let c0 := GetCubeSizeByDataType (src_data_type args) in
    if c0 <=? 0 then Err PARAM_INVALID else
    let c1 := ((c - 1) / c0 + 1)%i64 in
    let hw := (h * w)%i64 in
    let chw := (c * hw)%i64 in
    let hwc0 := (hw * c0)%i64 in
    let c1hwc0 := (c1 * hwc0)%i64 in
    let wc0 := (w * c0)%i64 in
    dst ← for_range n (fun n_idx dst =>
      let n_head_addr := (n_idx * c1hwc0)%i64 in
      for_range c1 (fun c1_idx dst =>
        let c1_head_addr := (n_head_addr + c1_idx * hwc0)%i64 in
        for_range h (fun h_idx dst =>
          let h_head_addr := (c1_head_addr + h_idx * wc0)%i64 in
          for_range w (fun w_idx dst =>
            let w_head_addr := (h_head_addr + w_idx * c0)%i64 in
            for_range c0 (fun c0_idx dst =>
              let dst_index := (c0_idx + w_head_addr)%i64 in
              let dst_offset := (dst_index * size)%i64 in
              let protected_size := protected_size total_size dst_offset in
              let cIdx := (c0_idx + c1_idx * c0)%i64 in
              let srcIdx := (n_idx * chw + cIdx * hw + h_idx * w + w_idx)%i64 in
              let src_offset := (srcIdx * size)%i64 in
              if cIdx <? c then
                check_eok (memcpy_s dst dst_offset (wrapU64 protected_size) (data args) src_offset (wrapU64 size))
              else
                check_eok (memset_s dst dst_offset (wrapU64 protected_size) 0 (wrapU64 size))
            ) dst) dst) dst) dst) dst;
    Ok {| res_data := Some dst; res_length := wrapU64 total_size |}
  end.

Definition TransFormat (args : TransArgs) (result : TransResult) : outcome TransResult :=
  _ ← or_else PARAM_INVALID (CheckArgsForNchwToNc1hwc0 args);
  TransWithTotalSize GetDstDataAfterTrans args result.

Definition TransShape (src_format : Format) (src_shape : list Z) (data_type : DataType) (dst_format : Format) :
    outcome (list Z) :=
  if bool_decide (src_format = FORMAT_NCHW) then TransShapeNchwToNc1hwc0 src_shape data_type
  else Err ACL_ERROR_GE_TRANSSHAPE_FORMAT_INVALID.
End Model.
End NchwNc1hwc0.

Module NhwcNc1hwc0.
Section Model.
Context `{E : Env}.

Definition CheckDataTypeSupported (data_type : DataType) : bool := 0 <? GetSizeByDataType data_type.

Definition TransShapeNhwcToNc1hwc0 (src_shape : list Z) (data_type : DataType) : outcome (list Z) :=
  let c0 := GetCubeSizeByDataType data_type in
  if c0 <=? 0 then Err ACL_ERROR_GE_TRANSSHAPE_DATATYPE_INVALID else
  n ← at_ src_shape kNhwcN;
  c ← at_ src_shape kNhwcC;
  h ← at_ src_shape kNhwcH;
  w ← at_ src_shape kNhwcW;
  let dst_shape := [n; Ceil c c0; h; w; c0] in
  if negb (CheckShapeValid dst_shape kNc1hwc0DimsNum) then Err ACL_ERROR_GE_TRANSSHAPE_SHAPE_INVALID else
  Ok dst_shape.

Definition CheckArgsForNhwcToNc1hwc0 (args : TransArgs) : outcome unit :=
  if negb (bool_decide (src_format args = FORMAT_NHWC)) || negb (bool_decide (dst_format args = FORMAT_NC1HWC0))
  then Err UNSUPPORTED else
  if negb (CheckDataTypeSupported (src_data_type args)) then Err UNSUPPORTED else
  if negb (CheckShapeValid (src_shape args) kNhwcDimsNum) then Err PARAM_INVALID else
  if negb (CheckShapeValid (dst_shape args) kNc1hwc0DimsNum) then Err PARAM_INVALID else
  expect_dst_shape ← TransShapeNhwcToNc1hwc0 (src_shape args) (src_data_type args);
  if negb (bool_decide (dst_shape args = expect_dst_shape)) then Err PARAM_INVALID else
  Ok tt.

Definition GetDstDataAfterTrans (args : TransArgs) (result : TransResult) (size total_size : Z) : outcome TransResult :=
  match new_uint8 total_size with
  | None => Err OUT_OF_MEMORY
  | Some dst =>
    n ← at_ (src_shape args) kNhwcN;
    h ← at_ (src_shape args) kNhwcH;
    w ← at_ (src_shape args) kNhwcW;
    c ← at_ (src_shape args) kNhwcC;
    c1 ← at_ (dst_shape args) kNc1hwc0C1;
    c0 ← at_ (dst_shape args) kNc1hwc0C0;
    let wc := (w * c)%i64 in
    let hwc := (h * wc)%i64 in
    let wc0 := (w * c0)%i64 in
    let hwc0 := (h * wc0)%i64 in
    let c1hwc0 := (c1 * hwc0)%i64 in
    dst ← for_range n (fun n_idx dst =>
      let n_head_addr := (n_idx * c1hwc0)%i64 in
      for_range c1 (fun c1_idx dst =>
        let c1_head_addr := (n_head_addr + c1_idx * hwc0)%i64 in
        for_range h (fun h_idx dst =>
          let h_head_addr := (c1_head_addr + h_idx * wc0)%i64 in
          for_range w (fun w_idx dst =>
            let w_head_addr := (h_head_addr + w_idx * c0)%i64 in
            for_range c0 (fun c0_idx dst =>
              let dst_idx := (c0_idx + w_head_addr)%i64 in
              let dst_offset := (dst_idx * size)%i64 in
              let protected_size := protected_size total_size dst_offset in
              let c_idx := (c0_idx + c1_idx * c0)%i64 in
              let src_idx := (n_idx * hwc + h_idx * wc + w_idx * c + c_idx)%i64 in
              let src_offset := (src_idx * size)%i64 in
              if c_idx <? c then
                check_eok (memcpy_s dst dst_offset (wrapU64 protected_size) (data args) src_offset (wrapU64 size))
              else
                check_eok (memset_s dst dst_offset (wrapU64 protected_size) 0 (wrapU64 size))
            ) dst) dst) dst) dst) dst;
    Ok {| res_data := Some dst; res_length := wrapU64 total_size |}
  end.

Definition TransFormat (args : TransArgs) (result : TransResult) : outcome TransResult :=
  _ ← or_else PARAM_INVALID (CheckArgsForNhwcToNc1hwc0 args);
  TransWithTotalSize GetDstDataAfterTrans args result.

Definition TransShape (src_format : Format) (src_shape : list Z) (data_type : DataType) (dst_format : Format) :
    outcome (list Z) :=
  if bool_decide (src_format = FORMAT_NHWC) && CheckDataTypeSupported data_type then
    if negb (CheckShapeValid src_shape kNhwcDimsNum) then Err ACL_ERROR_GE_TRANSSHAPE_SHAPE_INVALID
    else TransShapeNhwcToNc1hwc0 src_shape data_type
  else if negb (bool_decide (src_format = FORMAT_NHWC)) then Err ACL_ERROR_GE_TRANSSHAPE_FORMAT_INVALID
  else Err ACL_ERROR_GE_TRANSSHAPE_DATATYPE_INVALID.
End Model.
End NhwcNc1hwc0.

Module Nc1hwc0Nchw.
Section Model.
Context `{E : Env}.

Definition CheckDataTypeSupported (data_type : DataType) : bool := 0 <? GetSizeByDataType data_type.

Definition CheckArgsForNc1hwc0ToNchw (args : TransArgs) : outcome unit :=
  if negb (bool_decide (src_format args = FORMAT_NC1HWC0)) || negb (bool_decide (dst_format args = FORMAT_NCHW))
  then Err UNSUPPORTED else
  if negb (CheckDataTypeSupported (src_data_type args)) then Err UNSUPPORTED else
  if negb (CheckShapeValid (src_shape args) kNc1hwc0DimsNum) then Err PARAM_INVALID else
  if negb (CheckShapeValid (dst_shape args) kNchwDimsNum) then Err PARAM_INVALID else
  let c0 := GetCubeSizeByDataType (src_data_type args) in
  if c0 <=? 0 then Err PARAM_INVALID else
  src_h ← at_ (src_shape args) kNc1hwc0H;
  src_w ← at_ (src_shape args) kNc1hwc0W;
  src_n ← at_ (src_shape args) kNc1hwc0N;
  src_c0 ← at_ (src_shape args) kNc1hwc0C0;
  src_c1 ← at_ (src_shape args) kNc1hwc0C1;
  dst_h ← at_ (dst_shape args) kNchwH;
  dst_w ← at_ (dst_shape args) kNchwW;
  dst_n ← at_ (dst_shape args) kNchwN;
  dst_c ← at_ (dst_shape args) kNchwC;
  if negb (src_h =? dst_h) || negb (src_w =? dst_w) || negb (src_n =? dst_n) || negb (src_c0 =? c0) ||
     negb (src_c1 =? Ceil dst_c c0)
  then Err PARAM_INVALID else
  Ok tt.

Definition GetDstDataAfterTrans (args : TransArgs) (result : TransResult) (size total_size : Z) : outcome TransResult :=
  match new_uint8 total_size with
  | None => Err OUT_OF_MEMORY
  | Some dst =>
    h ← at_ (src_shape args) kNc1hwc0H;
    w ← at_ (src_shape args) kNc1hwc0W;
    n ← at_ (src_shape args) kNc1hwc0N;
    c1 ← at_ (src_shape args) kNc1hwc0C1;
    c0 ← at_ (src_shape args) kNc1hwc0C0;
    c ← at_ (dst_shape args) kNchwC;
    let hw := (h * w)%i64 in
    let chw := (c * hw)%i64 in
    let wc0 := (w * c0)%i64 in
    let hwc0 := (h * wc0)%i64 in
    let c1hwc0 := (c1 * hwc0)%i64 in
    dst ← for_range n (fun n_idx dst =>
      let n_head_addr := (n_idx * chw)%i64 in
      for_range c (fun c_idx dst =>
        let c_head_addr := (n_head_addr + c_idx * hw)%i64 in
        for_range h (fun h_idx dst =>
          let h_head_addr := (c_head_addr + h_idx * w)%i64 in
          for_range w (fun w_idx dst =>
            let dst_idx := (h_head_addr + w_idx)%i64 in
            let c1_idx := (c_idx / c0)%i64 in
            let c0_idx := (c_idx rem c0)%i64 in
            let src_idx := (n_idx * c1hwc0 + c1_idx * hwc0 + h_idx * wc0 + w_idx * c0 + c0_idx)%i64 in
            let src_offset := (src_idx * size)%i64 in
            let dst_offset := (dst_idx * size)%i64 in
            let protected_size := protected_size total_size dst_offset in
            check_eok (memcpy_s dst dst_offset (wrapU64 protected_size) (data args) src_offset (wrapU64 size))
          ) dst) dst) dst) dst;
    Ok {| res_data := Some dst; res_length := wrapU64 total_size |}
  end.

Definition TransFormat (args : TransArgs) (result : TransResult) : outcome TransResult :=
  _ ← or_else PARAM_INVALID (CheckArgsForNc1hwc0ToNchw args);
  TransWithTotalSize GetDstDataAfterTrans args result.

Definition TransShape (src_format : Format) (src_shape : list Z) (data_type : DataType) (dst_format : Format) :
    outcome (list Z) :=
  Err UNSUPPORTED.
End Model.
End Nc1hwc0Nchw.

Module Nc1hwc0Nhwc.
Section Model.
Context `{E : Env}.

Definition CheckDataTypeSupported (data_type : DataType) : bool := 0 <? GetSizeByDataType data_type.

Definition CheckArgsForNc1hwc0ToNhwc (args : TransArgs) : outcome unit :=
  if negb (bool_decide (src_format args = FORMAT_NC1HWC0)) || negb (bool_decide (dst_format args = FORMAT_NHWC))
  then Err UNSUPPORTED else
  if negb (CheckDataTypeSupported (src_data_type args)) then Err UNSUPPORTED else
  if negb (CheckShapeValid (src_shape args) kNc1hwc0DimsNum) then Err PARAM_INVALID else
  if negb (CheckShapeValid (dst_shape args) kNhwcDimsNum) then Err PARAM_INVALID else
  let c0 := GetCubeSizeByDataType (src_data_type args) in
  if c0 <=? 0 then Err PARAM_INVALID else
  src_h ← at_ (src_shape args) kNc1hwc0H;
  src_w ← at_ (src_shape args) kNc1hwc0W;
  src_n ← at_ (src_shape args) kNc1hwc0N;
  src_c0 ← at_ (src_shape args) kNc1hwc0C0;
  src_c1 ← at_ (src_shape args) kNc1hwc0C1;
  dst_h ← at_ (dst_shape args) kNhwcH;
  dst_w ← at_ (dst_shape args) kNhwcW;
  dst_n ← at_ (dst_shape args) kNhwcN;
  dst_c ← at_ (dst_shape args) kNhwcC;
  if negb (src_h =? dst_h) || negb (src_w =? dst_w) || negb (src_n =? dst_n) || negb (src_c0 =? c0) ||
     negb (src_c1 =? Ceil dst_c c0)
  then Err PARAM_INVALID else
  Ok tt.

Definition GetDstDataAfterTrans (args : TransArgs) (result : TransResult) (size total_size : Z) : outcome TransResult :=
  match new_uint8 total_size with
  | None => Err OUT_OF_MEMORY
  | Some dst =>
    h ← at_ (src_shape args) kNc1hwc0H;
    w ← at_ (src_shape args) kNc1hwc0W;
    n ← at_ (src_shape args) kNc1hwc0N;
    c1 ← at_ (src_shape args) kNc1hwc0C1;
    c0 ← at_ (src_shape args) kNc1hwc0C0;
    c ← at_ (dst_shape args) kNhwcC;
    let wc := (w * c)%i64 in
    let hwc := (h * wc)%i64 in
    let wc0 := (w * c0)%i64 in
    let hwc0 := (h * wc0)%i64 in
    let c1hwc0 := (c1 * hwc0)%i64 in
    dst ← for_range n (fun n_idx dst =>
      let n_head_addr := (n_idx * hwc)%i64 in
      for_range h (fun h_idx dst =>
        let h_head_addr := (n_head_addr + h_idx * wc)%i64 in
        for_range w (fun w_idx dst =>
          let w_head_addr := (h_head_addr + w_idx * c)%i64 in
          for_range c (fun c_idx dst =>
            let dst_idx := (w_head_addr + c_idx)%i64 in
            let c1_idx := (c_idx / c0)%i64 in
            let c0_idx := (c_idx rem c0)%i64 in
            let src_idx := (n_idx * c1hwc0 + c1_idx * hwc0 + h_idx * wc0 + w_idx * c0 + c0_idx)%i64 in
            let src_offset := (src_idx * size)%i64 in
            let dst_offset := (dst_idx * size)%i64 in
            let protected_size := protected_size total_size dst_offset in
            check_eok (memcpy_s dst dst_offset (wrapU64 protected_size) (data args) src_offset (wrapU64 size))
          ) dst) dst) dst) dst;
    Ok {| res_data := Some dst; res_length := wrapU64 total_size |}
  end.

Definition TransFormat (args : TransArgs) (result : TransResult) : outcome TransResult :=
  _ ← or_else PARAM_INVALID (CheckArgsForNc1hwc0ToNhwc args);
  TransWithTotalSize GetDstDataAfterTrans args result.

Definition TransShape (src_format : Format) (src_shape : list Z) (data_type : DataType) (dst_format : Format) :
    outcome (list Z) :=
  Err ACL_ERROR_GE_TRANSSHAPE_FORMAT_INVALID.
End Model.
End Nc1hwc0Nhwc.

(** * Specification

    The contents of an NC1HWC0 buffer of [C] channels in groups of [C0], where
    [src n c h w] is the element of the logical tensor: padded channels are zero. *)
Definition nc1hwc0_elem (size C C0 : Z) (src : Z -> Z -> Z -> Z -> list Z) (n c1 h w c0 : Z) : list Z :=
  if c1 * C0 + c0 <? C then src n (c1 * C0 + c0) h w else zeros size.

(** The sizes of a tensor and of its NC1HWC0 image, once the checks passed. *)
Record Dims5 `{E : Env} (dt : DataType) (size N C H W C1 C0 : Z) : Prop := {
  d5_size : GetSizeByDataType dt = size;
  d5_size_pos : 0 < size <= 1024;
  d5_C0 : GetCubeSizeByDataType dt = C0;
  d5_C0_pos : 0 < C0 <= 32;
  d5_C1 : Ceil C C0 = C1;
  d5_C1_pos : 0 < C1;
  d5_C1_bound : C <= C1 * C0 < C + C0;
  d5_pos : 0 < N /\ 0 < C /\ 0 < H /\ 0 < W;
  d5_C_small : C <= 2 ^ 40;
  d5_src : N * C * H * W <= 2 ^ 40;
  d5_dst : N * C1 * H * W * C0 <= 2 ^ 40;
}.

(** Evaluates the `shape.at(i)` reads of a transfer on explicit shapes. *)
Ltac read_dims :=
  cbn [at_ lookup list_lookup mbind outcome_bind kNchwN kNchwC kNchwH kNchwW kNhwcN kNhwcH kNhwcW kNhwcC
       kNc1hwc0N kNc1hwc0C1 kNc1hwc0H kNc1hwc0W kNc1hwc0C0].

Section Proofs.
Context `{E : Env} {HE : EnvOk E}.
Context (dt : DataType) (size N C H W C1 C0 : Z).
Context (D5 : Dims5 dt size N C H W C1 C0).

(** `(c - 1) / c0 + 1` is the number of channel groups. *)
Lemma c1_eq : ((C - 1) / C0 + 1)%i64 = C1.
Proof.
  destruct D5 as [_ _ _ ? HC1 _ _ ? _ _ _]. rewrite <- HC1. unfold Ceil.
  destruct (Z.eqb_spec C 0); [lia|]. destruct (Z.eqb_spec C0 0); [lia|reflexivity].
Qed.

Lemma d5_total_pos : 0 < N * C1 * H * W * C0.
Proof. destruct D5. repeat apply Z.mul_pos_pos; lia. Qed.

Lemma d5_src_pos : 0 < N * C * H * W.
Proof. destruct D5. repeat apply Z.mul_pos_pos; lia. Qed.

(** The specified elements have the element size. *)
Lemma nc1hwc0_elem_len src k :
  (forall n c h w, 0 <= n < N -> 0 <= c < C -> 0 <= h < H -> 0 <= w < W -> zlen (src n c h w) = size) ->
  0 <= k < N * C1 * H * W * C0 -> zlen (dec5 C1 H W C0 (nc1hwc0_elem size C C0 src) k) = size.
Proof.
  destruct D5. intros Hs. apply (dec5_all (fun v => zlen v = size) N); [lia..|].
  intros n c1 h w c0 ? ? ? ? ?. unfold nc1hwc0_elem.
  destruct (Z.ltb_spec (c1 * C0 + c0) C); [apply Hs; nia|apply zlen_zeros; lia].
Qed.

Lemma channel_value c1 c0 : 0 <= c1 < C1 -> 0 <= c0 < C0 -> (c0 + c1 * C0)%i64 = c1 * C0 + c0.
Proof. destruct D5. intros. wrap_eq. pose proof (radix_range c1 c0 C1 C0). lia. Qed.

Lemma GetDst_nchw_nc1hwc0 args result b0 d :
  zlen d = N * C * H * W * size ->
  src_shape args = [N; C; H; W] -> src_data_type args = dt -> data args = Some d ->
  new_uint8 (N * C1 * H * W * C0 * size) = Some b0 ->
  exists out,
    NchwNc1hwc0.GetDstDataAfterTrans args result size (N * C1 * H * W * C0 * size)
      = Ok {| res_data := Some out; res_length := N * C1 * H * W * C0 * size |} /\
    zlen out = N * C1 * H * W * C0 * size /\
    forall n c1 h w c0, 0 <= n < N -> 0 <= c1 < C1 -> 0 <= h < H -> 0 <= w < W -> 0 <= c0 < C0 ->
      elem size out (idx5 C1 H W C0 n c1 h w c0)
      = nc1hwc0_elem size C C0 (fun n c h w => elem size d (idx4 C H W n c h w)) n c1 h w c0.
Proof.
  intros Hd Hss Hdt Hdata Hnew. pose proof D5 as [Hsz Hszp HC0 HC0p HC1 HC1p HC1b Hpos HCs Hsrc Hdst].
  pose proof d5_total_pos. pose proof (bytes_bound (N * C1 * H * W * C0) size ltac:(lia) Hszp).
  unfold NchwNc1hwc0.GetDstDataAfterTrans. rewrite Hnew, Hss, Hdt, Hdata, HC0. read_dims.
  destruct (Z.leb_spec C0 0); [lia|]. rewrite c1_eq. cbv zeta.
  rewrite (wrapU64_id (N * C1 * H * W * C0 * size)) by lia.
  set (V := dec5 C1 H W C0 (nc1hwc0_elem size C C0 (fun n c h w => elem size d (idx4 C H W n c h w)))).
  assert (HV : forall k, 0 <= k < N * C1 * H * W * C0 -> zlen (V k) = size).
  { intros k. apply nc1hwc0_elem_len. intros. eapply zlen_elem; [lia|done|by apply idx4_range]. }
  eapply (Fills_run size (N * C1 * H * W * C0) V); [|apply zlen_new; [done|lia|lia]|].
  - repeat (apply Fills_for; intros ? ?). rename i into n, i0 into c1, i1 into h, i2 into w, i3 into c0.
    assert (Hk : 0 <= idx5 C1 H W C0 n c1 h w c0 < N * C1 * H * W * C0) by (by apply idx5_range).
    apply (Fills_elem size _ _ (proj1 Hszp) HV _ (idx5 C1 H W C0 n c1 h w c0)); [done|].
    intros b Hb. unfold V. rewrite dec5_at by done. unfold nc1hwc0_elem.
    assert (((c0 + (n * (C1 * (H * W * C0)) + c1 * (H * W * C0) + h * (W * C0) + w * C0)) * size)%i64
      = idx5 C1 H W C0 n c1 h w c0 * size) as -> by (wrap_eq; by eapply offset_bound).
    rewrite channel_value by done.
    destruct (Z.ltb_spec (c1 * C0 + c0) C); [|by apply memset_elem].
    assert (Hs : 0 <= idx4 C H W n (c1 * C0 + c0) h w < N * C * H * W) by (apply idx4_range; nia).
    assert (((n * (C * (H * W)) + (c1 * C0 + c0)%Z * (H * W) + h * W + w) * size)%i64
      = idx4 C H W n (c1 * C0 + c0) h w * size) as -> by (wrap_eq; by eapply offset_bound).
    by apply memcpy_elem with (N * C * H * W).
  - intros out Hlen Hout. split; [done|]. intros. rewrite Hout.
    + by apply dec5_at.
    + by apply idx5_range.
    + nest_cover.
Qed.

Lemma d5_src_nhwc : N * H * W * C = N * C * H * W.
Proof. ring. Qed.

Lemma GetDst_nhwc_nc1hwc0 args result b0 d :
  zlen d = N * H * W * C * size ->
  src_shape args = [N; H; W; C] -> dst_shape args = [N; C1; H; W; C0] -> data args = Some d ->
  new_uint8 (N * C1 * H * W * C0 * size) = Some b0 ->
  exists out,
    NhwcNc1hwc0.GetDstDataAfterTrans args result size (N * C1 * H * W * C0 * size)
      = Ok {| res_data := Some out; res_length := N * C1 * H * W * C0 * size |} /\
    zlen out = N * C1 * H * W * C0 * size /\
    forall n c1 h w c0, 0 <= n < N -> 0 <= c1 < C1 -> 0 <= h < H -> 0 <= w < W -> 0 <= c0 < C0 ->
      elem size out (idx5 C1 H W C0 n c1 h w c0)
      = nc1hwc0_elem size C C0 (fun n c h w => elem size d (idx4 H W C n h w c)) n c1 h w c0.
Proof.
  intros Hd Hss Hds Hdata Hnew. pose proof D5 as [Hsz Hszp HC0 HC0p HC1 HC1p HC1b Hpos HCs Hsrc Hdst].
  rewrite <- d5_src_nhwc in Hsrc.
  pose proof d5_total_pos. pose proof (bytes_bound (N * C1 * H * W * C0) size ltac:(lia) Hszp).
  unfold NhwcNc1hwc0.GetDstDataAfterTrans. rewrite Hnew, Hss, Hds, Hdata. read_dims. cbv zeta.
  rewrite (wrapU64_id (N * C1 * H * W * C0 * size)) by lia.
  set (V := dec5 C1 H W C0 (nc1hwc0_elem size C C0 (fun n c h w => elem size d (idx4 H W C n h w c)))).
  assert (HV : forall k, 0 <= k < N * C1 * H * W * C0 -> zlen (V k) = size).
  { intros k. apply nc1hwc0_elem_len. intros. eapply zlen_elem; [lia|done|by apply idx4_range]. }
  eapply (Fills_run size (N * C1 * H * W * C0) V); [|apply zlen_new; [done|lia|lia]|].
  - repeat (apply Fills_for; intros ? ?). rename i into n, i0 into c1, i1 into h, i2 into w, i3 into c0.
    assert (Hk : 0 <= idx5 C1 H W C0 n c1 h w c0 < N * C1 * H * W * C0) by (by apply idx5_range).
    apply (Fills_elem size _ _ (proj1 Hszp) HV _ (idx5 C1 H W C0 n c1 h w c0)); [done|].
    intros b Hb. unfold V. rewrite dec5_at by done. unfold nc1hwc0_elem.
    assert (((c0 + (n * (C1 * (H * (W * C0))) + c1 * (H * (W * C0)) + h * (W * C0) + w * C0)) * size)%i64
      = idx5 C1 H W C0 n c1 h w c0 * size) as -> by (wrap_eq; by eapply offset_bound).
    rewrite channel_value by done.
    destruct (Z.ltb_spec (c1 * C0 + c0) C); [|by apply memset_elem].
    assert (Hs : 0 <= idx4 H W C n h w (c1 * C0 + c0) < N * H * W * C) by (apply idx4_range; nia).
    assert (((n * (H * (W * C)) + h * (W * C) + w * C + (c1 * C0 + c0)%Z) * size)%i64
      = idx4 H W C n h w (c1 * C0 + c0) * size) as -> by (wrap_eq; by eapply offset_bound).
    by apply memcpy_elem with (N * H * W * C).
  - intros out Hlen Hout. split; [done|]. intros. rewrite Hout.
    + by apply dec5_at.
    + by apply idx5_range.
    + nest_cover.
Qed.

(** Channel [c] of the 4-D tensor is read from its place in the padded groups. *)
Lemma nc1hwc0_source n c h w :
  0 <= n < N -> 0 <= c < C -> 0 <= h < H -> 0 <= w < W ->
  0 <= idx5 C1 H W C0 n (c / C0) h w (c mod C0) < N * C1 * H * W * C0.
Proof.
  destruct D5. intros. destruct (channel_group C C1 C0 c) as (? & ? & _); [lia..|]. by apply idx5_range.
Qed.

Lemma nc1hwc0_source_offset n c h w :
  0 <= n < N -> 0 <= c < C -> 0 <= h < H -> 0 <= w < W ->
  ((n * (C1 * (H * (W * C0))) + c / C0 * (H * (W * C0)) + h * (W * C0) + w * C0 + c rem C0) * size)%i64
  = idx5 C1 H W C0 n (c / C0)%Z h w (c mod C0) * size.
Proof.
  intros. pose proof (nc1hwc0_source n c h w). destruct D5.
  assert ((c / C0)%i64 = (c / C0)%Z) as ->.
  { unfold quot64. rewrite Z.quot_div_nonneg by lia. apply wrap64_id.
    destruct (channel_group C C1 C0 c) as (? & ? & _); [lia..|]. nia. }
  assert ((c rem C0)%i64 = c mod C0) as -> by (apply Z.rem_mod_nonneg; lia).
  wrap_eq. eapply offset_bound; [by auto|done|done].
Qed.

Lemma GetDst_nc1hwc0_nchw args result b0 d :
  zlen d = N * C1 * H * W * C0 * size ->
  src_shape args = [N; C1; H; W; C0] -> dst_shape args = [N; C; H; W] -> data args = Some d ->
  new_uint8 (N * C * H * W * size) = Some b0 ->
  exists out,
    Nc1hwc0Nchw.GetDstDataAfterTrans args result size (N * C * H * W * size)
      = Ok {| res_data := Some out; res_length := N * C * H * W * size |} /\
    zlen out = N * C * H * W * size /\
    forall n c h w, 0 <= n < N -> 0 <= c < C -> 0 <= h < H -> 0 <= w < W ->
      elem size out (idx4 C H W n c h w) = elem size d (idx5 C1 H W C0 n (c / C0) h w (c mod C0)).
Proof.
  intros Hd Hss Hds Hdata Hnew. pose proof D5 as [Hsz Hszp HC0 HC0p HC1 HC1p HC1b Hpos HCs Hsrc Hdst].
  pose proof d5_src_pos. pose proof (bytes_bound (N * C * H * W) size ltac:(lia) Hszp).
  unfold Nc1hwc0Nchw.GetDstDataAfterTrans. rewrite Hnew, Hss, Hds, Hdata. read_dims. cbv zeta.
  rewrite (wrapU64_id (N * C * H * W * size)) by lia.
  set (V := dec4 C H W (fun n c h w => elem size d (idx5 C1 H W C0 n (c / C0) h w (c mod C0)))).
  assert (HV : forall k, 0 <= k < N * C * H * W -> zlen (V k) = size).
  { intros k. apply (dec4_all (fun v => zlen v = size) N); [lia..|].
    intros. eapply zlen_elem; [lia|done|by apply nc1hwc0_source]. }
  eapply (Fills_run size (N * C * H * W) V); [|apply zlen_new; [done|lia|lia]|].
  - repeat (apply Fills_for; intros ? ?). rename i into n, i0 into c, i1 into h, i2 into w.
    assert (Hk : 0 <= idx4 C H W n c h w < N * C * H * W) by (by apply idx4_range).
    apply (Fills_elem size _ _ (proj1 Hszp) HV _ (idx4 C H W n c h w)); [done|].
    intros b Hb. unfold V. rewrite dec4_at by done. rewrite nc1hwc0_source_offset by done.
    assert (((n * (C * (H * W)) + c * (H * W) + h * W + w) * size)%i64 = idx4 C H W n c h w * size) as ->
      by (wrap_eq; by eapply offset_bound).
    apply memcpy_elem with (N * C1 * H * W * C0); [done..|]. by apply nc1hwc0_source.
  - intros out Hlen Hout. split; [done|]. intros. rewrite Hout.
    + by apply dec4_at.
    + by apply idx4_range.
    + nest_cover.
Qed.

Lemma GetDst_nc1hwc0_nhwc args result b0 d :
  zlen d = N * C1 * H * W * C0 * size ->
  src_shape args = [N; C1; H; W; C0] -> dst_shape args = [N; H; W; C] -> data args = Some d ->
  new_uint8 (N * H * W * C * size) = Some b0 ->
  exists out,
    Nc1hwc0Nhwc.GetDstDataAfterTrans args result size (N * H * W * C * size)
      = Ok {| res_data := Some out; res_length := N * H * W * C * size |} /\
    zlen out = N * H * W * C * size /\
    forall n c h w, 0 <= n < N -> 0 <= c < C -> 0 <= h < H -> 0 <= w < W ->
      elem size out (idx4 H W C n h w c) = elem size d (idx5 C1 H W C0 n (c / C0) h w (c mod C0)).
Proof.
  intros Hd Hss Hds Hdata Hnew. pose proof D5 as [Hsz Hszp HC0 HC0p HC1 HC1p HC1b Hpos HCs Hsrc Hdst].
  pose proof d5_src_pos as Hp. rewrite <- d5_src_nhwc in Hsrc, Hp.
  pose proof (bytes_bound (N * H * W * C) size ltac:(lia) Hszp).
  unfold Nc1hwc0Nhwc.GetDstDataAfterTrans. rewrite Hnew, Hss, Hds, Hdata. read_dims. cbv zeta.
  rewrite (wrapU64_id (N * H * W * C * size)) by lia.
  set (V := dec4 H W C (fun n h w c => elem size d (idx5 C1 H W C0 n (c / C0) h w (c mod C0)))).
  assert (HV : forall k, 0 <= k < N * H * W * C -> zlen (V k) = size).
  { intros k. apply (dec4_all (fun v => zlen v = size) N); [lia..|].
    intros. eapply zlen_elem; [lia|done|by apply nc1hwc0_source]. }
  eapply (Fills_run size (N * H * W * C) V); [|apply zlen_new; [done|lia|lia]|].
  - repeat (apply Fills_for; intros ? ?). rename i into n, i0 into h, i1 into w, i2 into c.
    assert (Hk : 0 <= idx4 H W C n h w c < N * H * W * C) by (by apply idx4_range).
    apply (Fills_elem size _ _ (proj1 Hszp) HV _ (idx4 H W C n h w c)); [done|].
    intros b Hb. unfold V. rewrite dec4_at by done. rewrite nc1hwc0_source_offset by done.
    assert (((n * (H * (W * C)) + h * (W * C) + w * C + c) * size)%i64 = idx4 H W C n h w c * size) as ->
      by (wrap_eq; by eapply offset_bound).
    apply memcpy_elem with (N * C1 * H * W * C0); [done..|]. by apply nc1hwc0_source.
  - intros out Hlen Hout. split; [done|]. intros. rewrite Hout.
    + by apply dec4_at.
    + by apply idx4_range.
    + nest_cover.
Qed.
End Proofs.

(** * What the checks establish *)
Section Checks.
Context `{E : Env} {HE : EnvOk E}.
Context (dt : DataType) (N C H W : Z).
Let C0 := GetCubeSizeByDataType dt.
Let C1 := Ceil C C0.
Let size := GetSizeByDataType dt.
Hypothesis Hpos : 0 < N /\ 0 < C /\ 0 < H /\ 0 < W.

Lemma Dims5_intro :
  0 < size -> N * C * H * W <= 2 ^ 40 -> N * C1 * H * W * C0 <= 2 ^ 40 -> Dims5 dt size N C H W C1 C0.
Proof.
  intros Hs Hsrc Hdst. destruct (cube_pos dt Hs) as [Hs' Hc0]. fold C0 in Hc0.
  assert (HC : C <= 2 ^ 40).
  { apply (factor_le C (N * H * W)); [lia|repeat apply Z.mul_pos_pos; lia|].
    replace (C * (N * H * W)) with (N * C * H * W) by ring. done. }
  pose proof (Ceil_bound C C0 ltac:(lia) ltac:(lia)) as Hb. fold C1 in Hb.
  split; try done; nia.
Qed.

Lemma C1_small : C <= 2 ^ 40 -> 0 < C0 -> C1 < 2 ^ 63.
Proof. intros. pose proof (Ceil_bound C C0 ltac:(lia) ltac:(lia)) as Hb. fold C1 in Hb. nia. Qed.

Lemma TransShape_nchw_ok ds :
  Forall (fun x => x < 2 ^ 63) [N; C; H; W] ->
  NchwNc1hwc0.TransShapeNchwToNc1hwc0 [N; C; H; W] dt = Ok ds ->
  ds = [N; C1; H; W; C0] /\ Dims5 dt size N C H W C1 C0 /\
  GetItemNumByShape ds = N * C1 * H * W * C0 /\
  CheckShapeValid [N; C; H; W] 4 = true /\ CheckShapeValid ds 5 = true.
Proof.
  intros Hint. unfold NchwNc1hwc0.TransShapeNchwToNc1hwc0. fold C0.
  destruct (C0 <=? 0) eqn:HC0; [done|]. pose proof (cube_valid dt HC0) as Hs.
  destruct (CheckShapeValid [N; C; H; W] kNchwDimsNum) eqn:Hv; cbn [negb]; [|done].
  apply Valid4 in Hv as Hv'; [|done]. destruct Hv' as [_ Hsrc]. read_dims. fold C1.
  destruct (CheckShapeValid [N; C1; H; W; C0] kNc1hwc0DimsNum) eqn:Hv5; cbn [negb]; [|done]. intros [= <-].
  destruct (dims4_small N C H W) as (? & ? & ? & ?); [lia..|].
  destruct (cube_pos dt Hs) as [_ Hc0]. fold C0 in Hc0.
  apply Valid5 in Hv5 as Hv'; [|repeat constructor; try lia; apply C1_small; lia].
  destruct Hv' as [Hn Hd]. split_and!; [done|apply Dims5_intro; lia|done|done|done].
Qed.

Lemma TransShape_nhwc_ok ds :
  Forall (fun x => x < 2 ^ 63) [N; H; W; C] ->
  NhwcNc1hwc0.TransShape FORMAT_NHWC [N; H; W; C] dt FORMAT_NC1HWC0 = Ok ds ->
  ds = [N; C1; H; W; C0] /\ Dims5 dt size N C H W C1 C0 /\
  GetItemNumByShape ds = N * C1 * H * W * C0 /\
  CheckShapeValid [N; H; W; C] 4 = true /\ CheckShapeValid ds 5 = true.
Proof.
  intros Hint. unfold NhwcNc1hwc0.TransShape, NhwcNc1hwc0.CheckDataTypeSupported. cbn [bool_decide decide_rel].
  rewrite bool_decide_eq_true_2 by done. cbn [andb].
  destruct (Z.ltb_spec 0 (GetSizeByDataType dt)) as [Hs|]; [|done].
  destruct (CheckShapeValid [N; H; W; C] kNhwcDimsNum) eqn:Hv; cbn [negb]; [|done].
  apply Valid4 in Hv as Hv'; [|done]. destruct Hv' as [_ Hsrc].
  unfold NhwcNc1hwc0.TransShapeNhwcToNc1hwc0. destruct (cube_pos dt Hs) as [_ Hc0]. fold C0 in Hc0 |- *.
  destruct (Z.leb_spec C0 0); [lia|]. read_dims. fold C1.
  destruct (CheckShapeValid [N; C1; H; W; C0] kNc1hwc0DimsNum) eqn:Hv5; cbn [negb]; [|done]. intros [= <-].
  destruct (dims4_small N H W C) as (? & ? & ? & ?); [lia..|].
  apply Valid5 in Hv5 as Hv'; [|repeat constructor; try lia; apply C1_small; lia].
  destruct Hv' as [Hn Hd]. replace (N * H * W * C) with (N * C * H * W) in Hsrc by ring.
  split_and!; [done|apply Dims5_intro; lia|done|done|done].
Qed.
End Checks.

(** * The transfers as a whole *)
Section Transfers.
Context `{E : Env} {HE : EnvOk E}.

Lemma nchw_nc1hwc0_delivers dt size N C H W C1 C0 (D5 : Dims5 dt size N C H W C1 C0) d args result :
  NchwNc1hwc0.CheckArgsForNchwToNc1hwc0 args = Ok tt ->
  src_shape args = [N; C; H; W] -> GetItemNumByShape (dst_shape args) = N * C1 * H * W * C0 ->
  src_data_type args = dt -> data args = Some d -> zlen d = N * C * H * W * size ->
  delivers (NchwNc1hwc0.TransFormat args result) INTERNAL_ERROR size (N * C1 * H * W * C0) (fun out =>
    forall n c1 h w c0, 0 <= n < N -> 0 <= c1 < C1 -> 0 <= h < H -> 0 <= w < W -> 0 <= c0 < C0 ->
      elem size out (idx5 C1 H W C0 n c1 h w c0)
      = nc1hwc0_elem size C C0 (fun n c h w => elem size d (idx4 C H W n c h w)) n c1 h w c0).
Proof.
  intros Hck Hss Hn Hdt Hdata Hd. pose proof (d5_total_pos _ _ _ _ _ _ _ _ D5). pose proof D5 as [].
  unfold NchwNc1hwc0.TransFormat. rewrite Hck. cbn [or_else mbind outcome_bind].
  apply TransWithTotalSize_delivers; [by rewrite Hdt|done|done|lia|..].
  - intros Hnew. unfold NchwNc1hwc0.GetDstDataAfterTrans. by rewrite Hnew.
  - intros b0 Hnew. by eapply GetDst_nchw_nc1hwc0.
Qed.

Lemma nhwc_nc1hwc0_delivers dt size N C H W C1 C0 (D5 : Dims5 dt size N C H W C1 C0) d args result :
  NhwcNc1hwc0.CheckArgsForNhwcToNc1hwc0 args = Ok tt ->
  src_shape args = [N; H; W; C] -> dst_shape args = [N; C1; H; W; C0] ->
  GetItemNumByShape (dst_shape args) = N * C1 * H * W * C0 ->
  src_data_type args = dt -> data args = Some d -> zlen d = N * H * W * C * size ->
  delivers (NhwcNc1hwc0.TransFormat args result) INTERNAL_ERROR size (N * C1 * H * W * C0) (fun out =>
    forall n c1 h w c0, 0 <= n < N -> 0 <= c1 < C1 -> 0 <= h < H -> 0 <= w < W -> 0 <= c0 < C0 ->
      elem size out (idx5 C1 H W C0 n c1 h w c0)
      = nc1hwc0_elem size C C0 (fun n c h w => elem size d (idx4 H W C n h w c)) n c1 h w c0).
Proof.
  intros Hck Hss Hds Hn Hdt Hdata Hd. pose proof (d5_total_pos _ _ _ _ _ _ _ _ D5). pose proof D5 as [].
  unfold NhwcNc1hwc0.TransFormat. rewrite Hck. cbn [or_else mbind outcome_bind].
  apply TransWithTotalSize_delivers; [by rewrite Hdt|done|done|lia|..].
  - intros Hnew. unfold NhwcNc1hwc0.GetDstDataAfterTrans. by rewrite Hnew.
  - intros b0 Hnew. by eapply GetDst_nhwc_nc1hwc0.
Qed.

Lemma nc1hwc0_nchw_delivers dt size N C H W C1 C0 (D5 : Dims5 dt size N C H W C1 C0) d args result :
  Nc1hwc0Nchw.CheckArgsForNc1hwc0ToNchw args = Ok tt ->
  src_shape args = [N; C1; H; W; C0] -> dst_shape args = [N; C; H; W] ->
  GetItemNumByShape (dst_shape args) = N * C * H * W ->
  src_data_type args = dt -> data args = Some d -> zlen d = N * C1 * H * W * C0 * size ->
  delivers (Nc1hwc0Nchw.TransFormat args result) INTERNAL_ERROR size (N * C * H * W) (fun out =>
    forall n c h w, 0 <= n < N -> 0 <= c < C -> 0 <= h < H -> 0 <= w < W ->
      elem size out (idx4 C H W n c h w) = elem size d (idx5 C1 H W C0 n (c / C0) h w (c mod C0))).
Proof.
  intros Hck Hss Hds Hn Hdt Hdata Hd. pose proof (d5_src_pos _ _ _ _ _ _ _ _ D5). pose proof D5 as [].
  unfold Nc1hwc0Nchw.TransFormat. rewrite Hck. cbn [or_else mbind outcome_bind].
  apply TransWithTotalSize_delivers; [by rewrite Hdt|done|done|lia|..].
  - intros Hnew. unfold Nc1hwc0Nchw.GetDstDataAfterTrans. by rewrite Hnew.
  - intros b0 Hnew. by eapply GetDst_nc1hwc0_nchw.
Qed.

Lemma nc1hwc0_nhwc_delivers dt size N C H W C1 C0 (D5 : Dims5 dt size N C H W C1 C0) d args result :
  Nc1hwc0Nhwc.CheckArgsForNc1hwc0ToNhwc args = Ok tt ->
  src_shape args = [N; C1; H; W; C0] -> dst_shape args = [N; H; W; C] ->
  GetItemNumByShape (dst_shape args) = N * H * W * C ->
  src_data_type args = dt -> data args = Some d -> zlen d = N * C1 * H * W * C0 * size ->
  delivers (Nc1hwc0Nhwc.TransFormat args result) INTERNAL_ERROR size (N * H * W * C) (fun out =>
    forall n c h w, 0 <= n < N -> 0 <= c < C -> 0 <= h < H -> 0 <= w < W ->
      elem size out (idx4 H W C n h w c) = elem size d (idx5 C1 H W C0 n (c / C0) h w (c mod C0))).
Proof.
  intros Hck Hss Hds Hn Hdt Hdata Hd. pose proof (d5_src_pos _ _ _ _ _ _ _ _ D5) as Hp. pose proof D5 as [].
  rewrite <- (d5_src_nhwc N C H W) in *.
  unfold Nc1hwc0Nhwc.TransFormat. rewrite Hck. cbn [or_else mbind outcome_bind].
  apply TransWithTotalSize_delivers; [by rewrite Hdt|done|done|lia|..].
  - intros Hnew. unfold Nc1hwc0Nhwc.GetDstDataAfterTrans. by rewrite Hnew.
  - intros b0 Hnew. by eapply GetDst_nc1hwc0_nhwc.
Qed.

(** The element of a padded buffer at the place of a real channel. *)
Lemma nc1hwc0_elem_channel size C C0 C1 src n c h w :
  0 < C0 -> C <= C1 * C0 -> 0 <= c < C -> nc1hwc0_elem size C C0 src n (c / C0) h w (c mod C0) = src n c h w.
Proof.
  intros. destruct (channel_group C C1 C0 c) as (_ & _ & Hc); [done..|].
  unfold nc1hwc0_elem. rewrite Hc. destruct (Z.ltb_spec c C); [done|lia].
Qed.
End Transfers.

(** * The argument checks accept what the shape transfer produces *)
Section Accept.
Context `{E : Env} {HE : EnvOk E}.
Context (dt : DataType) (size N C H W C1 C0 : Z) (D5 : Dims5 dt size N C H W C1 C0).

Lemma size_ltb : (0 <? GetSizeByDataType dt) = true.
Proof. destruct D5. apply Z.ltb_lt. lia. Qed.

Lemma CheckArgs_nhwc_ok d :
  CheckShapeValid [N; H; W; C] 4 = true -> CheckShapeValid [N; C1; H; W; C0] 5 = true ->
  NhwcNc1hwc0.CheckArgsForNhwcToNc1hwc0
    (mk_args d FORMAT_NHWC FORMAT_NC1HWC0 [N; H; W; C] [N; C1; H; W; C0] dt) = Ok tt.
Proof.
  intros Hv4 Hv5. unfold NhwcNc1hwc0.CheckArgsForNhwcToNc1hwc0, NhwcNc1hwc0.CheckDataTypeSupported.
  check_args. rewrite size_ltb. unfold kNhwcDimsNum, kNc1hwc0DimsNum. rewrite Hv4, Hv5. cbn [negb].
  unfold NhwcNc1hwc0.TransShapeNhwcToNc1hwc0, kNc1hwc0DimsNum. destruct D5 as [_ _ HC0 ? HC1 _ _ _ _ _ _].
  rewrite HC0. destruct (Z.leb_spec C0 0); [lia|]. read_dims. rewrite HC1, Hv5. cbn [negb mbind outcome_bind].
  by rewrite bool_decide_eq_true_2.
Qed.

(** The relation between the two shapes that the transfers from NC1HWC0 check. *)
Lemma CheckArgs_back_nchw_ok d :
  CheckShapeValid [N; C; H; W] 4 = true -> CheckShapeValid [N; C1; H; W; C0] 5 = true ->
  Nc1hwc0Nchw.CheckArgsForNc1hwc0ToNchw
    (mk_args d FORMAT_NC1HWC0 FORMAT_NCHW [N; C1; H; W; C0] [N; C; H; W] dt) = Ok tt.
Proof.
  intros Hv4 Hv5. unfold Nc1hwc0Nchw.CheckArgsForNc1hwc0ToNchw, Nc1hwc0Nchw.CheckDataTypeSupported.
  check_args. rewrite size_ltb. unfold kNchwDimsNum, kNc1hwc0DimsNum. rewrite Hv4, Hv5. cbn [negb].
  destruct D5 as [_ _ HC0 ? HC1 _ _ _ _ _ _]. rewrite HC0. destruct (Z.leb_spec C0 0); [lia|].
  read_dims. rewrite HC1, !Z.eqb_refl. done.
Qed.

Lemma CheckArgs_back_nhwc_ok d :
  CheckShapeValid [N; H; W; C] 4 = true -> CheckShapeValid [N; C1; H; W; C0] 5 = true ->
  Nc1hwc0Nhwc.CheckArgsForNc1hwc0ToNhwc
    (mk_args d FORMAT_NC1HWC0 FORMAT_NHWC [N; C1; H; W; C0] [N; H; W; C] dt) = Ok tt.
Proof.
  intros Hv4 Hv5. unfold Nc1hwc0Nhwc.CheckArgsForNc1hwc0ToNhwc, Nc1hwc0Nhwc.CheckDataTypeSupported.
  check_args. rewrite size_ltb. unfold kNhwcDimsNum, kNc1hwc0DimsNum. rewrite Hv4, Hv5. cbn [negb].
  destruct D5 as [_ _ HC0 ? HC1 _ _ _ _ _ _]. rewrite HC0. destruct (Z.leb_spec C0 0); [lia|].
  read_dims. rewrite HC1, !Z.eqb_refl. done.
Qed.
End Accept.

(** The properties of the four transfers, for a tensor the shape check accepts. *)
Section Properties.
Context `{E : Env} {HE : EnvOk E}.
Context (dt : DataType) (N C H W : Z) (ds : list Z) (d : list Z).
Hypothesis Hpos : 0 < N /\ 0 < C /\ 0 < H /\ 0 < W.

Lemma nchw_to_nc1hwc0_run result :
  Forall (fun x => x < 2 ^ 63) [N; C; H; W] ->
  NchwNc1hwc0.TransShape FORMAT_NCHW [N; C; H; W] dt FORMAT_NC1HWC0 = Ok ds ->
  zlen d = N * C * H * W * GetSizeByDataType dt ->
  let size := GetSizeByDataType dt in
  let C0 := GetCubeSizeByDataType dt in
  let C1 := Ceil C C0 in
  ds = [N; C1; H; W; C0] /\
  delivers (NchwNc1hwc0.TransFormat (mk_args (Some d) FORMAT_NCHW FORMAT_NC1HWC0 [N; C; H; W] ds dt) result)
    INTERNAL_ERROR size (N * C1 * H * W * C0) (fun out =>
    forall n c1 h w c0, 0 <= n < N -> 0 <= c1 < C1 -> 0 <= h < H -> 0 <= w < W -> 0 <= c0 < C0 ->
      elem size out (idx5 C1 H W C0 n c1 h w c0)
      = nc1hwc0_elem size C C0 (fun n c h w => elem size d (idx4 C H W n c h w)) n c1 h w c0).
Proof.
  intros Hint Hts Hd. cbv zeta.
  destruct (TransShape_nchw_ok dt N C H W Hpos ds Hint Hts) as (Hds & D5 & Hn & _ & _). split; [done|].
  eapply nchw_nc1hwc0_delivers; [exact D5|..]; try done.
  unfold NchwNc1hwc0.CheckArgsForNchwToNc1hwc0. check_args.
  unfold NchwNc1hwc0.TransShape in Hts. rewrite bool_decide_eq_true_2 in Hts by done.
  rewrite Hts. cbn [mbind outcome_bind]. by rewrite bool_decide_eq_true_2.
Qed.

Lemma nhwc_to_nc1hwc0_run result :
  Forall (fun x => x < 2 ^ 63) [N; H; W; C] ->
  NhwcNc1hwc0.TransShape FORMAT_NHWC [N; H; W; C] dt FORMAT_NC1HWC0 = Ok ds ->
  zlen d = N * H * W * C * GetSizeByDataType dt ->
  let size := GetSizeByDataType dt in
  let C0 := GetCubeSizeByDataType dt in
  let C1 := Ceil C C0 in
  ds = [N; C1; H; W; C0] /\
  delivers (NhwcNc1hwc0.TransFormat (mk_args (Some d) FORMAT_NHWC FORMAT_NC1HWC0 [N; H; W; C] ds dt) result)
    INTERNAL_ERROR size (N * C1 * H * W * C0) (fun out =>
    forall n c1 h w c0, 0 <= n < N -> 0 <= c1 < C1 -> 0 <= h < H -> 0 <= w < W -> 0 <= c0 < C0 ->
      elem size out (idx5 C1 H W C0 n c1 h w c0)
      = nc1hwc0_elem size C C0 (fun n c h w => elem size d (idx4 H W C n h w c)) n c1 h w c0).
Proof.
  intros Hint Hts Hd. cbv zeta.
  destruct (TransShape_nhwc_ok dt N C H W Hpos ds Hint Hts) as (Hds & D5 & Hn & Hv4 & Hv5). split; [done|].
  rewrite Hds in *. eapply nhwc_nc1hwc0_delivers; [exact D5|..]; try done. by eapply CheckArgs_nhwc_ok.
Qed.

(** A non-empty NCHW tensor whose shape [TransShape] accepts is transferred to
    NC1HWC0: the destination shape is [N; ceil(C/C0); H; W; C0]; [TransFormat]
    succeeds unless the buffer cannot be allocated (INTERNAL_ERROR); and every
    destination element is the source element of its channel, or zero when the
    channel is padding.  No access leaves a buffer and no int64_t offset wraps. *)
Theorem nchw_to_nc1hwc0_correct result :
  Forall (fun x => x < 2 ^ 63) [N; C; H; W] ->
  NchwNc1hwc0.TransShape FORMAT_NCHW [N; C; H; W] dt FORMAT_NC1HWC0 = Ok ds ->
  zlen d = N * C * H * W * GetSizeByDataType dt ->
  let size := GetSizeByDataType dt in
  let C0 := GetCubeSizeByDataType dt in
  let C1 := Ceil C C0 in
  ds = [N; C1; H; W; C0] /\
  delivers (NchwNc1hwc0.TransFormat (mk_args (Some d) FORMAT_NCHW FORMAT_NC1HWC0 [N; C; H; W] ds dt) result)
    INTERNAL_ERROR size (N * C1 * H * W * C0) (fun out =>
    forall n c1 h w c0, 0 <= n < N -> 0 <= c1 < C1 -> 0 <= h < H -> 0 <= w < W -> 0 <= c0 < C0 ->
      elem size out (idx5 C1 H W C0 n c1 h w c0)
      = if c1 * C0 + c0 <? C then elem size d (idx4 C H W n (c1 * C0 + c0) h w) else zeros size).
Proof. apply nchw_to_nc1hwc0_run. Qed.

(** The same for an NHWC tensor: every NC1HWC0 element is the NHWC element of
    its channel, or zero in the padding. *)
Theorem nhwc_to_nc1hwc0_correct result :
  Forall (fun x => x < 2 ^ 63) [N; H; W; C] ->
  NhwcNc1hwc0.TransShape FORMAT_NHWC [N; H; W; C] dt FORMAT_NC1HWC0 = Ok ds ->
  zlen d = N * H * W * C * GetSizeByDataType dt ->
  let size := GetSizeByDataType dt in
  let C0 := GetCubeSizeByDataType dt in
  let C1 := Ceil C C0 in
  ds = [N; C1; H; W; C0] /\
  delivers (NhwcNc1hwc0.TransFormat (mk_args (Some d) FORMAT_NHWC FORMAT_NC1HWC0 [N; H; W; C] ds dt) result)
    INTERNAL_ERROR size (N * C1 * H * W * C0) (fun out =>
    forall n c1 h w c0, 0 <= n < N -> 0 <= c1 < C1 -> 0 <= h < H -> 0 <= w < W -> 0 <= c0 < C0 ->
      elem size out (idx5 C1 H W C0 n c1 h w c0)
      = if c1 * C0 + c0 <? C then elem size d (idx4 H W C n h w (c1 * C0 + c0)) else zeros size).
Proof. apply nhwc_to_nc1hwc0_run. Qed.

(** NCHW to NC1HWC0 and back is the identity: whatever buffer the first
    transfer returned, the second one restores the original bytes (or reports that
    it could not allocate). *)
Theorem nchw_nc1hwc0_roundtrip result result' r :
  Forall (fun x => x < 2 ^ 63) [N; C; H; W] ->
  NchwNc1hwc0.TransShape FORMAT_NCHW [N; C; H; W] dt FORMAT_NC1HWC0 = Ok ds ->
  zlen d = N * C * H * W * GetSizeByDataType dt ->
  NchwNc1hwc0.TransFormat (mk_args (Some d) FORMAT_NCHW FORMAT_NC1HWC0 [N; C; H; W] ds dt) result = Ok r ->
  delivers (Nc1hwc0Nchw.TransFormat (mk_args (res_data r) FORMAT_NC1HWC0 FORMAT_NCHW ds [N; C; H; W] dt) result')
    INTERNAL_ERROR (GetSizeByDataType dt) (N * C * H * W) (fun out => out = d).
Proof.
  intros Hint Hts Hd Hr. pose proof (TransShape_nchw_ok dt N C H W Hpos ds Hint Hts) as (Hds & D5 & _ & Hv4 & Hv5).
  pose proof (nchw_to_nc1hwc0_run result Hint Hts Hd) as [_ Hfw].
  destruct (delivers_ok _ _ _ _ _ _ Hfw Hr) as (d5 & -> & _ & Hl5 & Hd5). rewrite Hds in *.
  eapply delivers_mono.
  - eapply nc1hwc0_nchw_delivers; [exact D5|..]; try done; [by eapply CheckArgs_back_nchw_ok|].
    by apply (Valid4 N C H W).
  - intros out Hl Hout. destruct D5. eapply elem_ext; [|done|done|]; [lia|]. intros k Hk.
    destruct (idx4_surj k N C H W) as (n & c & h & w & ? & ? & ? & ? & ->); [lia..|].
    destruct (channel_group C (Ceil C (GetCubeSizeByDataType dt)) (GetCubeSizeByDataType dt) c) as (? & ? & _); [lia..|].
    rewrite Hout, Hd5 by done. by rewrite nc1hwc0_elem_channel with (C1 := Ceil C (GetCubeSizeByDataType dt)) by lia.
Qed.

(** NHWC to NC1HWC0 and back is the identity. *)
Theorem nhwc_nc1hwc0_roundtrip result result' r :
  Forall (fun x => x < 2 ^ 63) [N; H; W; C] ->
  NhwcNc1hwc0.TransShape FORMAT_NHWC [N; H; W; C] dt FORMAT_NC1HWC0 = Ok ds ->
  zlen d = N * H * W * C * GetSizeByDataType dt ->
  NhwcNc1hwc0.TransFormat (mk_args (Some d) FORMAT_NHWC FORMAT_NC1HWC0 [N; H; W; C] ds dt) result = Ok r ->
  delivers (Nc1hwc0Nhwc.TransFormat (mk_args (res_data r) FORMAT_NC1HWC0 FORMAT_NHWC ds [N; H; W; C] dt) result')
    INTERNAL_ERROR (GetSizeByDataType dt) (N * H * W * C) (fun out => out = d).
Proof.
  intros Hint Hts Hd Hr. pose proof (TransShape_nhwc_ok dt N C H W Hpos ds Hint Hts) as (Hds & D5 & _ & Hv4 & Hv5).
  pose proof (nhwc_to_nc1hwc0_run result Hint Hts Hd) as [_ Hfw].
  destruct (delivers_ok _ _ _ _ _ _ Hfw Hr) as (d5 & -> & _ & Hl5 & Hd5). rewrite Hds in *.
  eapply delivers_mono.
  - eapply nc1hwc0_nhwc_delivers; [exact D5|..]; try done; [by eapply CheckArgs_back_nhwc_ok|].
    by apply (Valid4 N H W C).
  - intros out Hl Hout. destruct D5. eapply elem_ext; [|done|done|]; [lia|]. intros k Hk.
    destruct (idx4_surj k N H W C) as (n & h & w & c & ? & ? & ? & ? & ->); [lia..|].
    destruct (channel_group C (Ceil C (GetCubeSizeByDataType dt)) (GetCubeSizeByDataType dt) c) as (? & ? & _); [lia..|].
    rewrite Hout, Hd5 by done. by rewrite nc1hwc0_elem_channel with (C1 := Ceil C (GetCubeSizeByDataType dt)) by lia.
Qed.
End Properties.

(** One channel of float16, two pixels, through NC1HWC0 and back. *)
Definition sample_result : TransResult := {| res_data := None; res_length := 0 |}.
Definition sample_5hd : list Z := [1; 2] ++ repeat 0 30 ++ [3; 4] ++ repeat 0 30.

Lemma nchw_to_nc1hwc0_correct_witness :
  exists out, NchwNc1hwc0.TransFormat (E := sample_env)
      (mk_args (Some [1; 2; 3; 4]) FORMAT_NCHW FORMAT_NC1HWC0 [1; 1; 1; 2] [1; 1; 1; 2; 16] DT_FLOAT16) sample_result
    = Ok {| res_data := Some out; res_length := 64 |} /\ zlen out = 64 /\ elem 2 out 16 = [3; 4].
Proof.
  destruct (nchw_to_nc1hwc0_correct (E := sample_env) DT_FLOAT16 1 1 1 2 [1; 1; 1; 2; 16] [1; 2; 3; 4]
    ltac:(lia) sample_result) as [_ (out & Hr & Hl & Hout)].
  - repeat constructor; lia.
  - vm_compute. reflexivity.
  - reflexivity.
  - exists out. split; [exact Hr|]. split; [exact Hl|].
    exact (Hout 0 0 0 1 0 ltac:(lia) ltac:(vm_compute; split; congruence) ltac:(lia) ltac:(lia)
             ltac:(vm_compute; split; congruence)).
Defined.

Lemma nhwc_to_nc1hwc0_correct_witness :
  exists out, NhwcNc1hwc0.TransFormat (E := sample_env)
      (mk_args (Some [1; 2; 3; 4]) FORMAT_NHWC FORMAT_NC1HWC0 [1; 1; 2; 1] [1; 1; 1; 2; 16] DT_FLOAT16) sample_result
    = Ok {| res_data := Some out; res_length := 64 |} /\ zlen out = 64 /\ elem 2 out 16 = [3; 4].
Proof.
  destruct (nhwc_to_nc1hwc0_correct (E := sample_env) DT_FLOAT16 1 1 1 2 [1; 1; 1; 2; 16] [1; 2; 3; 4]
    ltac:(lia) sample_result) as [_ (out & Hr & Hl & Hout)].
  - repeat constructor; lia.
  - vm_compute. reflexivity.
  - reflexivity.
  - exists out. split; [exact Hr|]. split; [exact Hl|].
    exact (Hout 0 0 0 1 0 ltac:(lia) ltac:(vm_compute; split; congruence) ltac:(lia) ltac:(lia)
             ltac:(vm_compute; split; congruence)).
Defined.

Lemma nchw_nc1hwc0_roundtrip_witness :
  exists out, Nc1hwc0Nchw.TransFormat (E := sample_env)
      (mk_args (Some sample_5hd) FORMAT_NC1HWC0 FORMAT_NCHW [1; 1; 1; 2; 16] [1; 1; 1; 2] DT_FLOAT16) sample_result
    = Ok {| res_data := Some out; res_length := 4 |} /\ zlen out = 4 /\ out = [1; 2; 3; 4].
Proof.
  apply (nchw_nc1hwc0_roundtrip (E := sample_env) DT_FLOAT16 1 1 1 2 [1; 1; 1; 2; 16] [1; 2; 3; 4]
    ltac:(lia) sample_result sample_result {| res_data := Some sample_5hd; res_length := 64 |}).
  - repeat constructor; lia.
  - vm_compute. reflexivity.
  - reflexivity.
  - vm_compute. reflexivity.
Defined.

Lemma nhwc_nc1hwc0_roundtrip_witness :
  exists out, Nc1hwc0Nhwc.TransFormat (E := sample_env)
      (mk_args (Some sample_5hd) FORMAT_NC1HWC0 FORMAT_NHWC [1; 1; 1; 2; 16] [1; 1; 2; 1] DT_FLOAT16) sample_result
    = Ok {| res_data := Some out; res_length := 4 |} /\ zlen out = 4 /\ out = [1; 2; 3; 4].
Proof.
  apply (nhwc_nc1hwc0_roundtrip (E := sample_env) DT_FLOAT16 1 1 1 2 [1; 1; 1; 2; 16] [1; 2; 3; 4]
    ltac:(lia) sample_result sample_result {| res_data := Some sample_5hd; res_length := 64 |}).
  - repeat constructor; lia.
  - vm_compute. reflexivity.
  - reflexivity.
  - vm_compute. reflexivity.
Defined.
