(* ===== verification/FormatC1hwncoc0.v ===== *)
(** Transfers between HWCN and C1HWNCoC0
    (ge/common/formats/format_transfers/format_transfer_{hwcn_c1hwncoc0,c1hwncoc0_hwcn}.cc).

    C1HWNCoC0 spreads the channels of a group over a Co x C0 square: channel c is on
    the diagonal, every other element is zero.  The theorems give the contents of
    the target buffer and the round trip. *)
From S2P Require Import Prelude Buffer FormatsUtils FormatIndex FormatNc1hwc0.

Module HwcnC1hwncoc0.
Section Model.
Context `{E : Env}.

Definition CheckDataTypeSupported (data_type : DataType) : bool :=
  bool_decide (data_type = DT_FLOAT) || bool_decide (data_type = DT_FLOAT16) || bool_decide (data_type = DT_INT8).

Definition TransShapeHwcnToC1hwncoc0 (data_type : DataType) (src_shape : list Z) : outcome (list Z) :=
  let cube_size := GetCubeSizeByDataType data_type in
  c ← at_ src_shape kHwcnC;
  h ← at_ src_shape kHwcnH;
  w ← at_ src_shape kHwcnW;
  n ← at_ src_shape kHwcnN;
  let dst_shape := [Ceil c cube_size; h; w; n; cube_size; cube_size] in
  if negb (CheckShapeValid dst_shape kC1hwncoc0DimsNum) then Err ACL_ERROR_GE_TRANSSHAPE_SHAPE_INVALID
  else Ok dst_shape.

Definition CheckArgsForHwcnToC1hwncoc0 (args : TransArgs) : outcome unit :=
  if negb (bool_decide (src_format args = FORMAT_HWCN)) || negb (bool_decide (dst_format args = FORMAT_C1HWNCoC0))
  then Err UNSUPPORTED else
  if negb (CheckDataTypeSupported (src_data_type args)) then Err UNSUPPORTED else
  if negb (CheckShapeValid (src_shape args) kHwcnDimsNum) then Err PARAM_INVALID else
  if negb (CheckShapeValid (dst_shape args) kC1hwncoc0DimsNum) then Err PARAM_INVALID else
  expect_dst_shape ← TransShapeHwcnToC1hwncoc0 (src_data_type args) (src_shape args);
  if negb (bool_decide (dst_shape args = expect_dst_shape)) then Err PARAM_INVALID else
  Ok tt.

Definition GetDstDataAfterTrans (args : TransArgs) (result : TransResult) (size total_size : Z) : outcome TransResult :=
  match new_uint8 total_size with
  | None => Err OUT_OF_MEMORY
  | Some dst =>
    h ← at_ (src_shape args) kHwcnH;
    w ← at_ (src_shape args) kHwcnW;
    c ← at_ (src_shape args) kHwcnC;
    n ← at_ (src_shape args) kHwcnN;
    c1 ← at_ (dst_shape args) kC1hwncoc0C1;
    c0 ← at_ (dst_shape args) kC1hwncoc0C0;
    co ← at_ (dst_shape args) kC1hwncoc0Co;
    let coc0 := (co * c0)%i64 in
    let ncoc0 := (n * coc0)%i64 in
    let wncoc0 := (w * ncoc0)%i64 in
    let hwncoc0 := (h * wncoc0)%i64 in
    let cn := (c * n)%i64 in
    let wcn := (w * cn)%i64 in
    dst ← for_range c1 (fun c1_idx dst =>
      let c1_head_addr := (c1_idx * hwncoc0)%i64 in
      for_range h (fun h_idx dst =>
        let h_head_addr := (c1_head_addr + h_idx * wncoc0)%i64 in
        for_range w (fun w_idx dst =>
          let w_head_addr := (h_head_addr + w_idx * ncoc0)%i64 in
          for_range n (fun n_idx dst =>
            let n_head_addr := (w_head_addr + n_idx * coc0)%i64 in
            for_range co (fun co_idx dst =>
              let co_head_addr := (n_head_addr + co_idx * c0)%i64 in
              for_range c0 (fun c0_idx dst =>
                let dst_idx := (c0_idx + co_head_addr)%i64 in
                let dst_offset := (dst_idx * size)%i64 in
                let protected_size := protected_size total_size dst_offset in
                let c_idx := (c0_idx + c1_idx * c0)%i64 in
                let src_idx := (h_idx * wcn + w_idx * cn + c_idx * n + n_idx)%i64 in
                let src_offset := (src_idx * size)%i64 in
                if (c_idx <? c) && (c0_idx =? co_idx) then
                  check_eok (memcpy_s dst dst_offset (wrapU64 protected_size) (data args) src_offset (wrapU64 size))
                else
                  check_eok (memset_s dst dst_offset (wrapU64 protected_size) 0 (wrapU64 size))
              ) dst) dst) dst) dst) dst) dst;
    Ok {| res_data := Some dst; res_length := wrapU64 total_size |}
  end.

Definition TransFormat (args : TransArgs) (result : TransResult) : outcome TransResult :=
  _ ← or_else PARAM_INVALID (CheckArgsForHwcnToC1hwncoc0 args);
  TransWithTotalSize GetDstDataAfterTrans args result.

Definition TransShape (src_format : Format) (src_shape : list Z) (data_type : DataType) (dst_format : Format) :
    outcome (list Z) :=
  if bool_decide (src_format = FORMAT_HWCN) && CheckDataTypeSupported data_type then
    if negb (CheckShapeValid src_shape kHwcnDimsNum) then Err ACL_ERROR_GE_TRANSSHAPE_SHAPE_INVALID
    else TransShapeHwcnToC1hwncoc0 data_type src_shape
  else if negb (bool_decide (src_format = FORMAT_HWCN)) then Err ACL_ERROR_GE_TRANSSHAPE_FORMAT_INVALID
  else Err ACL_ERROR_GE_TRANSSHAPE_DATATYPE_INVALID.
End Model.
End HwcnC1hwncoc0.

Module C1hwncoc0Hwcn.
Section Model.
Context `{E : Env}.

Definition CheckDataTypeSupported (data_type : DataType) : bool :=
  bool_decide (data_type = DT_FLOAT) || bool_decide (data_type = DT_FLOAT16) || bool_decide (data_type = DT_INT8).

Definition CheckArgsForC1hwncoc0ToHwcn (args : TransArgs) : outcome unit :=
  let src_shape := src_shape args in
  let dst_shape := dst_shape args in
  if negb (bool_decide (src_format args = FORMAT_C1HWNCoC0)) || negb (bool_decide (dst_format args = FORMAT_HWCN))
  then Err UNSUPPORTED else
  if negb (CheckDataTypeSupported (src_data_type args)) then Err UNSUPPORTED else
  if negb (CheckShapeValid src_shape kC1hwncoc0DimsNum) then Err PARAM_INVALID else
  if negb (CheckShapeValid dst_shape kHwcnDimsNum) then Err PARAM_INVALID else
  let cube_size := GetCubeSizeByDataType (src_data_type args) in
  src_c1 ← at_ src_shape kC1hwncoc0C1;
  src_h ← at_ src_shape kC1hwncoc0H;
  src_w ← at_ src_shape kC1hwncoc0W;
  src_n ← at_ src_shape kC1hwncoc0N;
  src_co ← at_ src_shape kC1hwncoc0Co;
  src_c0 ← at_ src_shape kC1hwncoc0C0;
  dst_h ← at_ dst_shape kHwcnH;
  dst_w ← at_ dst_shape kHwcnW;
  dst_c ← at_ dst_shape kHwcnC;
  dst_n ← at_ dst_shape kHwcnN;
  if negb (src_c1 =? ((dst_c - 1) / cube_size + 1)%i64) || negb (src_h =? dst_h) || negb (src_w =? dst_w) ||
     negb (src_n =? dst_n) || negb (src_co =? cube_size) || negb (src_c0 =? cube_size)
  then Err PARAM_INVALID else
  Ok tt.

Definition GetDstDataAfterTrans (args : TransArgs) (result : TransResult) (size total_size : Z) : outcome TransResult :=
  match new_uint8 total_size with
  | None => Err OUT_OF_MEMORY
  | Some dst =>
    h ← at_ (src_shape args) kC1hwncoc0H;
    w ← at_ (src_shape args) kC1hwncoc0W;
    n ← at_ (src_shape args) kC1hwncoc0N;
    c0 ← at_ (src_shape args) kC1hwncoc0C0;
    co ← at_ (src_shape args) kC1hwncoc0Co;
    c ← at_ (dst_shape args) kHwcnC;
    let cube_size := GetCubeSizeByDataType (src_data_type args) in
    let cn := (c * n)%i64 in
    let wcn := (w * cn)%i64 in
    let coc0 := (co * c0)%i64 in
    let ncoc0 := (n * coc0)%i64 in
    let wncoc0 := (w * ncoc0)%i64 in
    let hwncoc0 := (h * wncoc0)%i64 in
    dst ← for_range h (fun h_idx dst =>
      let h_head_addr := (h_idx * wcn)%i64 in
      for_range w (fun w_idx dst =>
        let w_head_addr := (h_head_addr + w_idx * cn)%i64 in
        for_range c (fun c_idx dst =>
          let c_head_addr := (w_head_addr + c_idx * n)%i64 in
          for_range n (fun n_idx dst =>
            let dst_idx := (c_head_addr + n_idx)%i64 in
            let c1_idx := (c_idx / cube_size)%i64 in
            let c0_idx := (c_idx rem cube_size)%i64 in
            let co_idx := c0_idx in
            let src_idx := (c1_idx * hwncoc0 + h_idx * wncoc0 + w_idx * ncoc0 + n_idx * coc0 + co_idx * c0 + c0_idx)%i64 in
            let src_offset := (src_idx * size)%i64 in
            let dst_offset := (dst_idx * size)%i64 in
            let protected_size := protected_size total_size dst_offset in
            check_eok (memcpy_s dst dst_offset (wrapU64 protected_size) (data args) src_offset (wrapU64 size))
          ) dst) dst) dst) dst;
    Ok {| res_data := Some dst; res_length := wrapU64 total_size |}
  end.

Definition TransFormat (args : TransArgs) (result : TransResult) : outcome TransResult :=
  _ ← or_else PARAM_INVALID (CheckArgsForC1hwncoc0ToHwcn args);
  TransWithTotalSize GetDstDataAfterTrans args result.

Definition TransShape (src_format : Format) (src_shape : list Z) (data_type : DataType) (dst_format : Format) :
    outcome (list Z) :=
  Err ACL_ERROR_GE_TRANSSHAPE_FORMAT_INVALID.
End Model.
End C1hwncoc0Hwcn.

(** * Specification *)

(** The contents of a C1HWNCoC0 buffer of [C] channels in groups of [C0]. *)
Definition c1hwncoc0_elem (size C C0 : Z) (src : Z -> Z -> Z -> Z -> list Z) (c1 h w n co c0 : Z) : list Z :=
  if (c1 * C0 + c0 <? C) && (c0 =? co) then src h w (c1 * C0 + c0) n else zeros size.

(** The sizes of a tensor and of its image, once the checks passed. *)
Record Dims6 `{E : Env} (dt : DataType) (size H W C N C1 C0 : Z) : Prop := {
  d6_size : GetSizeByDataType dt = size;
  d6_size_pos : 0 < size <= 1024;
  d6_C0 : GetCubeSizeByDataType dt = C0;
  d6_C0_pos : 0 < C0 <= 32;
  d6_C1 : Ceil C C0 = C1;
  d6_C1_pos : 0 < C1;
  d6_C1_bound : C <= C1 * C0 < C + C0;
  d6_pos : 0 < H /\ 0 < W /\ 0 < C /\ 0 < N;
  d6_C_small : C <= 2 ^ 40;
  d6_src : H * W * C * N <= 2 ^ 40;
  d6_dst : C1 * H * W * N * C0 * C0 <= 2 ^ 40;
}.

Ltac read_dims6 :=
  cbn [at_ lookup list_lookup mbind outcome_bind kHwcnH kHwcnW kHwcnC kHwcnN
       kC1hwncoc0C1 kC1hwncoc0H kC1hwncoc0W kC1hwncoc0N kC1hwncoc0Co kC1hwncoc0C0].

Section Proofs.
Context `{E : Env} {HE : EnvOk E}.
Context (dt : DataType) (size H W C N C1 C0 : Z).
Context (D6 : Dims6 dt size H W C N C1 C0).

Lemma d6_total_pos : 0 < C1 * H * W * N * C0 * C0.
Proof. destruct D6. repeat apply Z.mul_pos_pos; lia. Qed.

Lemma d6_src_pos : 0 < H * W * C * N.
Proof. destruct D6. repeat apply Z.mul_pos_pos; lia. Qed.

Lemma d6_channel c1 c0 : 0 <= c1 < C1 -> 0 <= c0 < C0 -> (c0 + c1 * C0)%i64 = c1 * C0 + c0.
Proof. destruct D6. intros. wrap_eq. pose proof (radix_range c1 c0 C1 C0). lia. Qed.

Lemma GetDst_hwcn_c1hwncoc0 args result b0 d :
  zlen d = H * W * C * N * size ->
  src_shape args = [H; W; C; N] -> dst_shape args = [C1; H; W; N; C0; C0] -> data args = Some d ->
  new_uint8 (C1 * H * W * N * C0 * C0 * size) = Some b0 ->
  exists out,
    HwcnC1hwncoc0.GetDstDataAfterTrans args result size (C1 * H * W * N * C0 * C0 * size)
      = Ok {| res_data := Some out; res_length := C1 * H * W * N * C0 * C0 * size |} /\
    zlen out = C1 * H * W * N * C0 * C0 * size /\
    forall c1 h w n co c0, 0 <= c1 < C1 -> 0 <= h < H -> 0 <= w < W -> 0 <= n < N -> 0 <= co < C0 -> 0 <= c0 < C0 ->
      elem size out (idx6 H W N C0 C0 c1 h w n co c0)
      = c1hwncoc0_elem size C C0 (fun h w c n => elem size d (idx4 W C N h w c n)) c1 h w n co c0.
Proof.
  intros Hd Hss Hds Hdata Hnew. pose proof D6 as [Hsz Hszp HC0 HC0p HC1 HC1p HC1b Hpos HCs Hsrc Hdst].
  pose proof d6_total_pos. pose proof (bytes_bound (C1 * H * W * N * C0 * C0) size ltac:(lia) Hszp).
  unfold HwcnC1hwncoc0.GetDstDataAfterTrans. rewrite Hnew, Hss, Hds, Hdata. read_dims6. cbv zeta.
  rewrite (wrapU64_id (C1 * H * W * N * C0 * C0 * size)) by lia.
  set (V := dec6 H W N C0 C0 (c1hwncoc0_elem size C C0 (fun h w c n => elem size d (idx4 W C N h w c n)))).
  assert (HV : forall k, 0 <= k < C1 * H * W * N * C0 * C0 -> zlen (V k) = size).
  { intros k. apply (dec6_all (fun v => zlen v = size) C1); [lia..|]. intros c1 h w n co c0 ? ? ? ? ? ?. unfold c1hwncoc0_elem.
    destruct (Z.ltb_spec (c1 * C0 + c0) C); cbn [andb]; [|apply zlen_zeros; lia].
    destruct (c0 =? co); [|apply zlen_zeros; lia]. eapply zlen_elem; [lia|done|apply idx4_range; nia]. }
  eapply (Fills_run size (C1 * H * W * N * C0 * C0) V); [|apply zlen_new; [done|lia|lia]|].
  - repeat (apply Fills_for; intros ? ?). rename i into c1, i0 into h, i1 into w, i2 into n, i3 into co, i4 into c0.
    assert (Hk : 0 <= idx6 H W N C0 C0 c1 h w n co c0 < C1 * H * W * N * C0 * C0) by (by apply idx6_range).
    apply (Fills_elem size _ _ (proj1 Hszp) HV _ (idx6 H W N C0 C0 c1 h w n co c0)); [done|].
    intros b Hb. unfold V. rewrite dec6_at by done. unfold c1hwncoc0_elem.
    assert (((c0 + (c1 * (H * (W * (N * (C0 * C0)))) + h * (W * (N * (C0 * C0))) + w * (N * (C0 * C0)) + n * (C0 * C0) + co * C0))
       * size)%i64 = idx6 H W N C0 C0 c1 h w n co c0 * size) as -> by (wrap_eq; by eapply offset_bound).
    rewrite d6_channel by done.
    destruct (Z.ltb_spec (c1 * C0 + c0) C); cbn [andb]; [|by apply memset_elem].
    destruct (c0 =? co); [|by apply memset_elem].
    assert (Hs : 0 <= idx4 W C N h w (c1 * C0 + c0) n < H * W * C * N) by (apply idx4_range; nia).
    assert (((h * (W * (C * N)) + w * (C * N) + (c1 * C0 + c0)%Z * N + n) * size)%i64
      = idx4 W C N h w (c1 * C0 + c0) n * size) as -> by (wrap_eq; by eapply offset_bound).
    by apply memcpy_elem with (H * W * C * N).
  - intros out Hlen Hout. split; [done|]. intros. rewrite Hout.
    + by apply dec6_at.
    + by apply idx6_range.
    + exists c1. split; [done|]. exists h. split; [done|]. exists w. split; [done|]. exists n. split; [done|].
      exists co. split; [done|]. by exists c0.
Qed.

Lemma c1hwncoc0_source h w c n :
  0 <= h < H -> 0 <= w < W -> 0 <= c < C -> 0 <= n < N ->
  0 <= idx6 H W N C0 C0 (c / C0) h w n (c mod C0) (c mod C0) < C1 * H * W * N * C0 * C0.
Proof.
  destruct D6. intros. destruct (channel_group C C1 C0 c) as (? & ? & _); [lia..|]. by apply idx6_range.
Qed.

Lemma c1hwncoc0_source_offset h w c n :
  0 <= h < H -> 0 <= w < W -> 0 <= c < C -> 0 <= n < N ->
  ((c / C0 * (H * (W * (N * (C0 * C0)))) + h * (W * (N * (C0 * C0))) + w * (N * (C0 * C0)) + n * (C0 * C0)
     + c rem C0 * C0 + c rem C0) * size)%i64
  = idx6 H W N C0 C0 (c / C0)%Z h w n (c mod C0) (c mod C0) * size.
Proof.
  intros. pose proof (c1hwncoc0_source h w c n). destruct D6.
  assert ((c / C0)%i64 = (c / C0)%Z) as ->.
  { unfold quot64. rewrite Z.quot_div_nonneg by lia. apply wrap64_id.
    destruct (channel_group C C1 C0 c) as (? & ? & _); [lia..|]. nia. }
  assert ((c rem C0)%i64 = c mod C0) as -> by (apply Z.rem_mod_nonneg; lia).
  wrap_eq. eapply offset_bound; [by auto|done|done].
Qed.

Lemma GetDst_c1hwncoc0_hwcn args result b0 d :
  zlen d = C1 * H * W * N * C0 * C0 * size ->
  src_shape args = [C1; H; W; N; C0; C0] -> dst_shape args = [H; W; C; N] -> src_data_type args = dt -> data args = Some d ->
  new_uint8 (H * W * C * N * size) = Some b0 ->
  exists out,
    C1hwncoc0Hwcn.GetDstDataAfterTrans args result size (H * W * C * N * size)
      = Ok {| res_data := Some out; res_length := H * W * C * N * size |} /\
    zlen out = H * W * C * N * size /\
    forall h w c n, 0 <= h < H -> 0 <= w < W -> 0 <= c < C -> 0 <= n < N ->
      elem size out (idx4 W C N h w c n) = elem size d (idx6 H W N C0 C0 (c / C0) h w n (c mod C0) (c mod C0)).
Proof.
  intros Hd Hss Hds Hdt Hdata Hnew. pose proof D6 as [Hsz Hszp HC0 HC0p HC1 HC1p HC1b Hpos HCs Hsrc Hdst].
  pose proof d6_src_pos. pose proof (bytes_bound (H * W * C * N) size ltac:(lia) Hszp).
  unfold C1hwncoc0Hwcn.GetDstDataAfterTrans. rewrite Hnew, Hss, Hds, Hdata, Hdt, HC0. read_dims6. cbv zeta.
  rewrite (wrapU64_id (H * W * C * N * size)) by lia.
  set (V := dec4 W C N (fun h w c n => elem size d (idx6 H W N C0 C0 (c / C0) h w n (c mod C0) (c mod C0)))).
  assert (HV : forall k, 0 <= k < H * W * C * N -> zlen (V k) = size).
  { intros k. apply (dec4_all (fun v => zlen v = size) H); [lia..|].
    intros. eapply zlen_elem; [lia|done|by apply c1hwncoc0_source]. }
  eapply (Fills_run size (H * W * C * N) V); [|apply zlen_new; [done|lia|lia]|].
  - repeat (apply Fills_for; intros ? ?). rename i into h, i0 into w, i1 into c, i2 into n.
    assert (Hk : 0 <= idx4 W C N h w c n < H * W * C * N) by (by apply idx4_range).
    apply (Fills_elem size _ _ (proj1 Hszp) HV _ (idx4 W C N h w c n)); [done|].
    intros b Hb. unfold V. rewrite dec4_at by done. rewrite c1hwncoc0_source_offset by done.
    assert (((h * (W * (C * N)) + w * (C * N) + c * N + n) * size)%i64 = idx4 W C N h w c n * size) as ->
      by (wrap_eq; by eapply offset_bound).
    apply memcpy_elem with (C1 * H * W * N * C0 * C0); [done..|]. by apply c1hwncoc0_source.
  - intros out Hlen Hout. split; [done|]. intros. rewrite Hout.
    + by apply dec4_at.
    + by apply idx4_range.
    + nest_cover.
Qed.
End Proofs.

(** * What the checks establish *)
Section Checks.
Context `{E : Env} {HE : EnvOk E}.
Context (dt : DataType) (H W C N : Z).
Let C0 := GetCubeSizeByDataType dt.
Let C1 := Ceil C C0.
Let size := GetSizeByDataType dt.
Hypothesis Hpos : 0 < H /\ 0 < W /\ 0 < C /\ 0 < N.

Lemma TransShape_hwcn_ok ds :
  Forall (fun x => x < 2 ^ 63) [H; W; C; N] ->
  HwcnC1hwncoc0.TransShape FORMAT_HWCN [H; W; C; N] dt FORMAT_C1HWNCoC0 = Ok ds ->
  ds = [C1; H; W; N; C0; C0] /\ Dims6 dt size H W C N C1 C0 /\
  HwcnC1hwncoc0.CheckDataTypeSupported dt = true /\
  GetItemNumByShape ds = C1 * H * W * N * C0 * C0 /\
  CheckShapeValid [H; W; C; N] 4 = true /\ CheckShapeValid ds 6 = true.
Proof.
  intros Hint. unfold HwcnC1hwncoc0.TransShape. rewrite bool_decide_eq_true_2 by done. cbn [andb negb].
  destruct (HwcnC1hwncoc0.CheckDataTypeSupported dt) eqn:Hsup; [|done].
  destruct (CheckShapeValid [H; W; C; N] kHwcnDimsNum) eqn:Hv; cbn [negb]; [|done].
  apply Valid4 in Hv as Hv'; [|done]. destruct Hv' as [_ Hsrc].
  destruct (dims4_small H W C N) as (? & ? & ? & ?); [lia..|].
  unfold HwcnC1hwncoc0.TransShapeHwcnToC1hwncoc0. read_dims6. fold C0. fold C1.
  destruct (CheckShapeValid [C1; H; W; N; C0; C0] kC1hwncoc0DimsNum) eqn:Hv6; cbn [negb]; [|done]. intros [= <-].
  pose proof (GetCubeSizeByDataType_cases dt) as Hcube. fold C0 in Hcube. fold size in Hcube |- *.
  assert (Hint6 : Forall (fun x => x < 2 ^ 63) [C1; H; W; N; C0; C0]) by (repeat constructor; try lia; apply Ceil_int).
  assert (Hs : 0 < size).
  { destruct Hcube as [[_ Hneg]|?]; [|lia]. exfalso. apply (CheckShapeValid_facts _ 6) in Hv6 as [_ Hv6]; [|done|lia|lia].
    apply IsShapeValid_facts in Hv6 as (HF & _); [|done]. rewrite Hneg in HF.
    repeat match goal with HF : Forall _ (_ :: _) |- _ => inversion HF; clear HF; subst end. lia. }
  destruct (cube_pos dt Hs) as [Hs' Hc0]. fold C0 in Hc0. fold size in Hs'.
  pose proof (Ceil_bound C C0 ltac:(lia) ltac:(lia)) as Hb. fold C1 in Hb.
  apply Valid6 in Hv6 as Hv'; [|done]. destruct Hv' as [Hn Hd].
  split_and!; [done| |done|done|done|done]. split; try done; nia.
Qed.
End Checks.

Section Properties.
Context `{E : Env} {HE : EnvOk E}.
Context (dt : DataType) (H W C N : Z) (ds : list Z) (d : list Z).
Hypothesis Hpos : 0 < H /\ 0 < W /\ 0 < C /\ 0 < N.

Lemma hwcn_to_c1hwncoc0_run result :
  Forall (fun x => x < 2 ^ 63) [H; W; C; N] ->
  HwcnC1hwncoc0.TransShape FORMAT_HWCN [H; W; C; N] dt FORMAT_C1HWNCoC0 = Ok ds ->
  zlen d = H * W * C * N * GetSizeByDataType dt ->
  let size := GetSizeByDataType dt in
  let C0 := GetCubeSizeByDataType dt in
  let C1 := Ceil C C0 in
  ds = [C1; H; W; N; C0; C0] /\
  delivers (HwcnC1hwncoc0.TransFormat (mk_args (Some d) FORMAT_HWCN FORMAT_C1HWNCoC0 [H; W; C; N] ds dt) result)
    INTERNAL_ERROR size (C1 * H * W * N * C0 * C0) (fun out =>
    forall c1 h w n co c0, 0 <= c1 < C1 -> 0 <= h < H -> 0 <= w < W -> 0 <= n < N -> 0 <= co < C0 -> 0 <= c0 < C0 ->
      elem size out (idx6 H W N C0 C0 c1 h w n co c0)
      = c1hwncoc0_elem size C C0 (fun h w c n => elem size d (idx4 W C N h w c n)) c1 h w n co c0).
Proof.
  intros Hint Hts Hd. cbv zeta.
  destruct (TransShape_hwcn_ok dt H W C N Hpos ds Hint Hts) as (Hds & D6 & Hsup & Hn & Hv4 & Hv6). split; [done|].
  pose proof (d6_total_pos _ _ _ _ _ _ _ _ D6). pose proof D6 as [].
  unfold HwcnC1hwncoc0.TransFormat, HwcnC1hwncoc0.CheckArgsForHwcnToC1hwncoc0. check_args. rewrite Hsup. cbn [negb].
  unfold kHwcnDimsNum, kC1hwncoc0DimsNum. rewrite Hv4, Hv6. cbn [negb].
  unfold HwcnC1hwncoc0.TransShape in Hts. rewrite bool_decide_eq_true_2, Hsup in Hts by done. cbn [andb negb] in Hts.
  unfold kHwcnDimsNum in Hts. rewrite Hv4 in Hts. cbn [negb] in Hts. rewrite Hts. cbn [mbind outcome_bind].
  rewrite bool_decide_eq_true_2 by done. cbn [negb or_else mbind outcome_bind].
  apply TransWithTotalSize_delivers; [done|done|done|lia|..].
  - intros Hnew. unfold HwcnC1hwncoc0.GetDstDataAfterTrans. by rewrite Hnew.
  - intros b0 Hnew. by eapply (GetDst_hwcn_c1hwncoc0 dt).
Qed.

Lemma CheckArgs_c1hwncoc0_ok x :
  Dims6 dt (GetSizeByDataType dt) H W C N (Ceil C (GetCubeSizeByDataType dt)) (GetCubeSizeByDataType dt) ->
  HwcnC1hwncoc0.CheckDataTypeSupported dt = true ->
  ds = [Ceil C (GetCubeSizeByDataType dt); H; W; N; GetCubeSizeByDataType dt; GetCubeSizeByDataType dt] ->
  CheckShapeValid [H; W; C; N] 4 = true -> CheckShapeValid ds 6 = true ->
  C1hwncoc0Hwcn.CheckArgsForC1hwncoc0ToHwcn (mk_args x FORMAT_C1HWNCoC0 FORMAT_HWCN ds [H; W; C; N] dt) = Ok tt.
Proof.
  intros D6 Hsup -> Hv4 Hv6. pose proof D6 as []. unfold C1hwncoc0Hwcn.CheckArgsForC1hwncoc0ToHwcn. check_args.
  change (C1hwncoc0Hwcn.CheckDataTypeSupported dt) with (HwcnC1hwncoc0.CheckDataTypeSupported dt). rewrite Hsup. cbn [negb].
  unfold kHwcnDimsNum, kC1hwncoc0DimsNum. rewrite Hv4, Hv6. cbn [negb]. read_dims6.
  assert (((C - 1) / GetCubeSizeByDataType dt + 1)%i64 = Ceil C (GetCubeSizeByDataType dt)) as ->.
  { unfold Ceil. destruct (Z.eqb_spec C 0); [lia|]. destruct (Z.eqb_spec (GetCubeSizeByDataType dt) 0); [lia|done]. }
  by rewrite !Z.eqb_refl.
Qed.

(** A non-empty HWCN tensor whose shape TransShape accepts is transferred to C1HWNCoC0: the destination
    shape is [ceil(C/C0); H; W; N; C0; C0]; TransFormat succeeds unless the buffer cannot be
    allocated; channel c of a group sits on the diagonal of its Co x C0 square and everything
    else, the padding included, is zero.  No access leaves a buffer and no offset wraps. *)
Theorem hwcn_to_c1hwncoc0_correct result :
  Forall (fun x => x < 2 ^ 63) [H; W; C; N] ->
  HwcnC1hwncoc0.TransShape FORMAT_HWCN [H; W; C; N] dt FORMAT_C1HWNCoC0 = Ok ds ->
  zlen d = H * W * C * N * GetSizeByDataType dt ->
  let size := GetSizeByDataType dt in
  let C0 := GetCubeSizeByDataType dt in
  let C1 := Ceil C C0 in
  ds = [C1; H; W; N; C0; C0] /\
  delivers (HwcnC1hwncoc0.TransFormat (mk_args (Some d) FORMAT_HWCN FORMAT_C1HWNCoC0 [H; W; C; N] ds dt) result)
    INTERNAL_ERROR size (C1 * H * W * N * C0 * C0) (fun out =>
    forall c1 h w n co c0, 0 <= c1 < C1 -> 0 <= h < H -> 0 <= w < W -> 0 <= n < N -> 0 <= co < C0 -> 0 <= c0 < C0 ->
      elem size out (idx6 H W N C0 C0 c1 h w n co c0)
      = if (c1 * C0 + c0 <? C) && (c0 =? co) then elem size d (idx4 W C N h w (c1 * C0 + c0) n) else zeros size).
Proof. apply hwcn_to_c1hwncoc0_run. Qed.

(** HWCN to C1HWNCoC0 and back restores the original bytes. *)
Theorem hwcn_c1hwncoc0_roundtrip result result' r :
  Forall (fun x => x < 2 ^ 63) [H; W; C; N] ->
  HwcnC1hwncoc0.TransShape FORMAT_HWCN [H; W; C; N] dt FORMAT_C1HWNCoC0 = Ok ds ->
  zlen d = H * W * C * N * GetSizeByDataType dt ->
  HwcnC1hwncoc0.TransFormat (mk_args (Some d) FORMAT_HWCN FORMAT_C1HWNCoC0 [H; W; C; N] ds dt) result = Ok r ->
  delivers (C1hwncoc0Hwcn.TransFormat (mk_args (res_data r) FORMAT_C1HWNCoC0 FORMAT_HWCN ds [H; W; C; N] dt) result')
    INTERNAL_ERROR (GetSizeByDataType dt) (H * W * C * N) (fun out => out = d).
Proof.
  intros Hint Hts Hd Hr. pose proof (TransShape_hwcn_ok dt H W C N Hpos ds Hint Hts) as (Hds & D6 & Hsup & _ & Hv4 & Hv6).
  pose proof (hwcn_to_c1hwncoc0_run result Hint Hts Hd) as [_ Hfw].
  destruct (delivers_ok _ _ _ _ _ _ Hfw Hr) as (d6 & -> & _ & Hl6 & Hd6).
  pose proof (CheckArgs_c1hwncoc0_ok (Some d6) D6 Hsup Hds Hv4 Hv6) as Hck.
  pose proof (d6_src_pos _ _ _ _ _ _ _ _ D6). pose proof (Valid4 H W C N Hint Hv4) as [Hn _]. pose proof D6 as [].
  unfold C1hwncoc0Hwcn.TransFormat. rewrite Hck. cbn [or_else mbind outcome_bind].
  apply TransWithTotalSize_delivers; [done|done|done|lia|..].
  - intros Hnew. unfold C1hwncoc0Hwcn.GetDstDataAfterTrans. by rewrite Hnew.
  - intros b0 Hnew. destruct (GetDst_c1hwncoc0_hwcn dt _ _ _ _ _ _ _ D6 (mk_args (Some d6) FORMAT_C1HWNCoC0 FORMAT_HWCN ds [H; W; C; N] dt)
      result' b0 d6) as (out & Hrun & Hl & Hout); [done..|]. exists out. split; [done|]. split; [done|].
    eapply elem_ext; [|done|done|]; [lia|]. intros k Hk.
    destruct (idx4_surj k H W C N) as (h & w & c & n & ? & ? & ? & ? & ->); [lia..|].
    destruct (channel_group C (Ceil C (GetCubeSizeByDataType dt)) (GetCubeSizeByDataType dt) c) as (? & ? & Hc); [lia..|].
    rewrite Hout, Hd6 by done. unfold c1hwncoc0_elem. rewrite Hc, Z.eqb_refl. destruct (Z.ltb_spec c C); [done|lia].
Qed.
End Properties.

(** One channel of float16, two kernels. *)
Definition sample_c1 : list Z := Eval vm_compute in
  match HwcnC1hwncoc0.TransFormat (E := sample_env)
      (mk_args (Some [1; 2; 3; 4]) FORMAT_HWCN FORMAT_C1HWNCoC0 [1; 1; 1; 2] [1; 1; 1; 2; 16; 16] DT_FLOAT16) sample_result with
  | Ok r => default [] (res_data r)
  | _ => []
  end.

Lemma hwcn_to_c1hwncoc0_correct_witness :
  exists out, HwcnC1hwncoc0.TransFormat (E := sample_env)
      (mk_args (Some [1; 2; 3; 4]) FORMAT_HWCN FORMAT_C1HWNCoC0 [1; 1; 1; 2] [1; 1; 1; 2; 16; 16] DT_FLOAT16) sample_result
    = Ok {| res_data := Some out; res_length := 1024 |} /\ zlen out = 1024 /\ elem 2 out 256 = [3; 4].
Proof.
  destruct (hwcn_to_c1hwncoc0_correct (E := sample_env) DT_FLOAT16 1 1 1 2 [1; 1; 1; 2; 16; 16] [1; 2; 3; 4]
    ltac:(lia) sample_result) as [_ (out & Hr & Hl & Hout)].
  - repeat constructor; lia.
  - vm_compute. reflexivity.
  - reflexivity.
  - exists out. split; [exact Hr|]. split; [exact Hl|].
    exact (Hout 0 0 0 1 0 0 ltac:(vm_compute; split; congruence) ltac:(lia) ltac:(lia) ltac:(lia)
             ltac:(vm_compute; split; congruence) ltac:(vm_compute; split; congruence)).
Defined.

Lemma hwcn_c1hwncoc0_roundtrip_witness :
  exists out, C1hwncoc0Hwcn.TransFormat (E := sample_env)
      (mk_args (Some sample_c1) FORMAT_C1HWNCoC0 FORMAT_HWCN [1; 1; 1; 2; 16; 16] [1; 1; 1; 2] DT_FLOAT16) sample_result
    = Ok {| res_data := Some out; res_length := 4 |} /\ zlen out = 4 /\ out = [1; 2; 3; 4].
Proof.
  apply (hwcn_c1hwncoc0_roundtrip (E := sample_env) DT_FLOAT16 1 1 1 2 [1; 1; 1; 2; 16; 16] [1; 2; 3; 4]
    ltac:(lia) sample_result sample_result {| res_data := Some sample_c1; res_length := 1024 |}).
  - repeat constructor; lia.
  - vm_compute. reflexivity.
  - reflexivity.
  - vm_compute. reflexivity.
Defined.
