(* ===== verification/FormatFracz3D.v ===== *)
(** Transfers of 3-D convolution weights: DHWCN to FRACTAL_Z_3D and DHWNC to
    FRACTAL_Z_3D_TRANSPOSE
    (ge/common/formats/format_transfers/format_transfer_{dhwcn_fracz3D,dhwnc_fracz3D_transpose}.cc).

    Neither routine checks the item count of its target, so the bound on the offsets
    comes from the padding: it multiplies the source by less than 2^10. *)
From S2P Require Import Prelude Buffer FormatsUtils FormatIndex.

Module DhwcnFracZ3D.
Section Model.
Context `{E : Env}.

Definition CheckDataTypeSupport (dtype : DataType) : Status :=
  if 0 <? GetSizeByDataType dtype then SUCCESS else UNSUPPORTED.

Definition TransShapeToFz (d n c h w : Z) (data_type : DataType) : outcome (list Z) :=
  let c0 := GetCubeSizeByDataType data_type in
  if c0 <? 0 then Err ACL_ERROR_GE_TRANSSHAPE_DATATYPE_INVALID else
  let c1 := Ceil c c0 in
  let no := Ceil n kNiSize in
  Ok [(d * c1 * h * w)%i64; no; kNiSize; c0].

Definition TransShapeDhwckToFz3D (src_shape : list Z) (data_type : DataType) : outcome (list Z) :=
  if negb (CheckShapeValid src_shape kDhwcnDimsNum) then Err ACL_ERROR_GE_TRANSSHAPE_SHAPE_INVALID else
  d ← at_ src_shape kDhwcnD;
  h ← at_ src_shape kDhwcnH;
  w ← at_ src_shape kDhwcnW;
  c ← at_ src_shape kDhwcnC;
  n ← at_ src_shape kDhwcnN;
  TransShapeToFz d n c h w data_type.

Definition TransFormatDhwckToFz3D (args : TransArgs) (result : TransResult) : outcome TransResult :=
  if negb (CheckShapeValid (src_shape args) kDhwcnDimsNum) then Err PARAM_INVALID else
  d ← at_ (src_shape args) kDhwcnD;
  h ← at_ (src_shape args) kDhwcnH;
  w ← at_ (src_shape args) kDhwcnW;
  c ← at_ (src_shape args) kDhwcnC;
  n ← at_ (src_shape args) kDhwcnN;
  let n1n0 := (Ceil n kNiSize * kNiSize)%i64 in
  let c0 := GetCubeSizeByDataType (src_data_type args) in
  let c1 := Ceil c c0 in
  let cn := (c * n)%i64 in
  let wcn := (w * cn)%i64 in
  let hwcn := (h * wcn)%i64 in
  let n1n0c0 := (n1n0 * c0)%i64 in
  let wn1n0c0 := (w * n1n0c0)%i64 in
  let hwn1n0c0 := (h * wn1n0c0)%i64 in
  let c1hwn1n0c0 := (c1 * hwn1n0c0)%i64 in
  let data_size := GetSizeByDataType (src_data_type args) in
  let dst_size := fold_left (fun dst_size dim => (dst_size * dim)%i64) (dst_shape args) 1 in
  let dst_size := (dst_size * data_size)%i64 in
  if dst_size =? 0 then Ok {| res_data := res_data result; res_length := wrapU64 dst_size |} else
  match new_uint8 dst_size with
  | None => Err OUT_OF_MEMORY
  | Some dst =>
    dst ← for_range d (fun di dst =>
      for_range c1 (fun c1i dst =>
        for_range h (fun hi dst =>
          for_range w (fun wi dst =>
            for_range n1n0 (fun n1n0i dst =>
              for_range c0 (fun c0i dst =>
                let dst_idx := (di * c1hwn1n0c0 + c1i * hwn1n0c0 + hi * wn1n0c0 + wi * n1n0c0 + n1n0i * c0 + c0i)%i64 in
                let dst_offset := (dst_idx * data_size)%i64 in
                let pad_zero := (c <=? (c1i * c0 + c0i)%i64) || (n <=? n1n0i) in
                let protected_size := protected_size dst_size dst_offset in
                if pad_zero then
                  check_eok (memset_s dst dst_offset (wrapU64 protected_size) 0 (wrapU64 data_size))
                else
                  let src_idx := (di * hwcn + hi * wcn + wi * cn + (c1i * c0 + c0i) * n + n1n0i)%i64 in
                  check_eok (memcpy_s dst dst_offset (wrapU64 protected_size) (data args) (src_idx * data_size)%i64 (wrapU64 data_size))
              ) dst) dst) dst) dst) dst) dst;
    Ok {| res_data := Some dst; res_length := wrapU64 dst_size |}
  end.

Definition TransShape (src_format : Format) (src_shape : list Z) (data_type : DataType) (dst_format : Format) :
    outcome (list Z) :=
  if negb (bool_decide (CheckDataTypeSupport data_type = SUCCESS)) then Err ACL_ERROR_GE_TRANSSHAPE_DATATYPE_INVALID else
  if bool_decide (src_format = FORMAT_DHWCN) && bool_decide (dst_format = FORMAT_FRACTAL_Z_3D)
  then TransShapeDhwckToFz3D src_shape data_type
  else Err ACL_ERROR_GE_TRANSSHAPE_FORMAT_INVALID.

Definition TransFormat (args : TransArgs) (result : TransResult) : outcome TransResult :=
  expect_shape ← TransShape (src_format args) (src_shape args) (src_data_type args) (dst_format args);
  if negb (IsTransShapeDstCorrect args expect_shape) then Err PARAM_INVALID else
  if bool_decide (src_format args = FORMAT_DHWCN) && bool_decide (dst_format args = FORMAT_FRACTAL_Z_3D)
  then TransFormatDhwckToFz3D args result
  else Err UNSUPPORTED.
End Model.
End DhwcnFracZ3D.

Module DhwncFracZ3DTranspose.
Section Model.
Context `{E : Env}.

Definition CheckDataTypeSupport (dtype : DataType) : Status :=
  if 0 <? GetSizeByDataType dtype then SUCCESS else UNSUPPORTED.

Definition TransShapeToFz (d n c h w : Z) (data_type : DataType) : outcome (list Z) :=
  let c0 := GetCubeSizeByDataType data_type in
  if c0 <? 0 then Err ACL_ERROR_GE_TRANSSHAPE_DATATYPE_INVALID else
  let c1 := Ceil c c0 in
  let no := Ceil n kNiSize in
  Ok [(d * c1 * h * w)%i64; no; kNiSize; c0].

Definition TransShapeDhwncToFz3DTranspose (src_shape : list Z) (data_type : DataType) : outcome (list Z) :=
  if negb (CheckShapeValid src_shape kDhwncDimsNum) then Err ACL_ERROR_GE_TRANSSHAPE_SHAPE_INVALID else
  d ← at_ src_shape kDhwncD;
  h ← at_ src_shape kDhwncH;
  w ← at_ src_shape kDhwncW;
  n ← at_ src_shape kDhwncN;
  c ← at_ src_shape kDhwncC;
  TransShapeToFz d c n h w data_type.

Definition TransFormatDhwncToFz3DTranspose (args : TransArgs) (result : TransResult) : outcome TransResult :=
  if negb (CheckShapeValid (src_shape args) kDhwncDimsNum) then Err PARAM_INVALID else
  d ← at_ (src_shape args) kDhwncD;
  h ← at_ (src_shape args) kDhwncH;
  w ← at_ (src_shape args) kDhwncW;
  c ← at_ (src_shape args) kDhwncN;
  n ← at_ (src_shape args) kDhwncC;
  let n1n0 := (Ceil n kNiSize * kNiSize)%i64 in
  let c0 := GetCubeSizeByDataType (src_data_type args) in
  let c1 := Ceil c c0 in
  let cn := (c * n)%i64 in
  let wcn := (w * cn)%i64 in
  let hwcn := (h * wcn)%i64 in
  let n1n0c0 := (n1n0 * c0)%i64 in
  let wn1n0c0 := (w * n1n0c0)%i64 in
  let hwn1n0c0 := (h * wn1n0c0)%i64 in
  let c1hwn1n0c0 := (c1 * hwn1n0c0)%i64 in
  let data_size := GetSizeByDataType (src_data_type args) in
  let dst_size := fold_left (fun dst_size dim => (dst_size * dim)%i64) (dst_shape args) 1 in
  let dst_size := (dst_size * data_size)%i64 in
  if dst_size =? 0 then Ok {| res_data := res_data result; res_length := wrapU64 dst_size |} else
  match new_uint8 dst_size with
  | None => Err OUT_OF_MEMORY
  | Some dst =>
    dst ← for_range d (fun di dst =>
      for_range c1 (fun c1i dst =>
        for_range h (fun hi dst =>
          for_range w (fun wi dst =>
            for_range n1n0 (fun n1n0i dst =>
              for_range c0 (fun c0i dst =>
                let dst_idx := (di * c1hwn1n0c0 + c1i * hwn1n0c0 + hi * wn1n0c0 + wi * n1n0c0 + n1n0i * c0 + c0i)%i64 in
                let dst_offset := (dst_idx * data_size)%i64 in
                let protected_size := protected_size dst_size dst_offset in
                let pad_zero := (c <=? (c1i * c0 + c0i)%i64) || (n <=? n1n0i) in
                if pad_zero then
                  check_eok (memset_s dst dst_offset (wrapU64 protected_size) 0 (wrapU64 data_size))
                else
                  let src_idx := (di * hwcn + hi * wcn + wi * cn + (c1i * c0 + c0i) * n + n1n0i)%i64 in
                  check_eok (memcpy_s dst dst_offset (wrapU64 protected_size) (data args) (src_idx * data_size)%i64 (wrapU64 data_size))
              ) dst) dst) dst) dst) dst) dst;
    Ok {| res_data := Some dst; res_length := wrapU64 dst_size |}
  end.

Definition TransShape (src_format : Format) (src_shape : list Z) (data_type : DataType) (dst_format : Format) :
    outcome (list Z) :=
  if negb (bool_decide (CheckDataTypeSupport data_type = SUCCESS)) then Err ACL_ERROR_GE_TRANSSHAPE_DATATYPE_INVALID else
  if bool_decide (src_format = FORMAT_DHWNC) && bool_decide (dst_format = FORMAT_FRACTAL_Z_3D_TRANSPOSE)
  then TransShapeDhwncToFz3DTranspose src_shape data_type
  else Err ACL_ERROR_GE_TRANSSHAPE_FORMAT_INVALID.

Definition TransFormat (args : TransArgs) (result : TransResult) : outcome TransResult :=
  expect_shape ← TransShape (src_format args) (src_shape args) (src_data_type args) (dst_format args);
  if negb (IsTransShapeDstCorrect args expect_shape) then Err PARAM_INVALID else
  if bool_decide (src_format args = FORMAT_DHWNC) && bool_decide (dst_format args = FORMAT_FRACTAL_Z_3D_TRANSPOSE)
  then TransFormatDhwncToFz3DTranspose args result
  else Err UNSUPPORTED.
End Model.
End DhwncFracZ3DTranspose.

(** * Specification *)

(** An element of a FRACTAL_Z_3D buffer; [src d h w c n] is the logical tensor. *)
Definition fz3_elem (size C N C0 : Z) (src : Z -> Z -> Z -> Z -> Z -> list Z) (d c1 h w n c0 : Z) : list Z :=
  if (c1 * C0 + c0 <? C) && (n <? N) then src d h w (c1 * C0 + c0) n else zeros size.

Ltac read_dims_3d :=
  cbn [at_ lookup list_lookup mbind outcome_bind kDhwcnD kDhwcnH kDhwcnW kDhwcnC kDhwcnN].

Section Proofs.
Context `{E : Env} {HE : EnvOk E}.
Context (dt : DataType) (D H W C N : Z).
Local Abbreviation size := (GetSizeByDataType dt).
Local Abbreviation C0 := (GetCubeSizeByDataType dt).
Local Abbreviation C1 := (Ceil C C0).
Local Abbreviation N1 := (Ceil N kNiSize).
Local Abbreviation T := (D * C1 * H * W * (N1 * 16) * C0).
Hypothesis Hpos : 0 < D /\ 0 < H /\ 0 < W /\ 0 < C /\ 0 < N.
Hypothesis Hsize : 0 < size.
Hypothesis Hsrc : D * H * W * C * N <= 2 ^ 40.

(** The sizes of the target: the padded source. *)
Record Dims3D : Prop := {
  d3_size : 0 < size <= 1024;
  d3_C0 : 0 < C0 <= 32;
  d3_C1 : 0 < C1 <= C;
  d3_C1b : C <= C1 * C0 < C + C0;
  d3_N1 : 0 < N1 <= N;
  d3_N1b : N <= N1 * 16 < N + 16;
  d3_C : C <= 2 ^ 40;
  d3_N : N <= 2 ^ 40;
  d3_lead : 0 < D * C1 * H * W <= 2 ^ 40;
  d3_total : 0 < T <= 2 ^ 50;
}.

Lemma dims3d : Dims3D.
Proof.
  destruct (cube_pos dt Hsize) as [Hs Hc0]. assert (0 < D * H * W) by (repeat apply Z.mul_pos_pos; lia).
  assert (0 < D * H * W * C) by nia.
  destruct (factor_le (D * H * W * C) N (2 ^ 40)) as [HP HN]; [lia..|]. destruct (factor_le (D * H * W) C (2 ^ 40)) as [_ HC]; [lia..|].
  assert (C <= C1 * C0 < C + C0) as HC1 by (apply Ceil_bound; lia).
  assert (N <= N1 * 16 < N + 16) as HN1 by (apply Ceil_bound; unfold kNiSize; lia).
  assert (0 < C1 <= C) by (apply Ceil_le; lia). assert (0 < N1 <= N) by (apply Ceil_le; unfold kNiSize; lia).
  assert (D * C1 * H * W = D * H * W * C1) as Hl by ring.
  assert (T = D * H * W * ((C1 * C0) * (N1 * 16))) as HT by ring.
  assert (0 < C1 * C0 <= 33 * C) by lia. assert (0 < N1 * 16 <= 17 * N) by lia.
  assert (0 < (C1 * C0) * (N1 * 16) <= 561 * (C * N)) by nia.
  split; try done; [rewrite Hl; nia|]. rewrite HT. assert (D * H * W * (C * N) <= 2 ^ 40) by lia. nia.
Qed.

Definition holds_fz3 (src : Z -> Z -> Z -> Z -> Z -> list Z) (out : list Z) : Prop :=
  forall d c1 h w n c0, 0 <= d < D -> 0 <= c1 < C1 -> 0 <= h < H -> 0 <= w < W -> 0 <= n < N1 * 16 -> 0 <= c0 < C0 ->
    elem size out (idx6 C1 H W (N1 * 16) C0 d c1 h w n c0) = fz3_elem size C N C0 src d c1 h w n c0.

Lemma Trans_dhwcn_fz3d args result x :
  zlen x = D * H * W * C * N * size ->
  CheckShapeValid [D; H; W; C; N] 5 = true ->
  src_shape args = [D; H; W; C; N] -> dst_shape args = [D * C1 * H * W; N1; 16; C0] -> src_data_type args = dt ->
  data args = Some x ->
  delivers (DhwcnFracZ3D.TransFormatDhwckToFz3D args result) OUT_OF_MEMORY size T
    (holds_fz3 (fun d h w c n => elem size x (idx5 H W C N d h w c n))).
Proof.
  intros Hx Hv Hss Hds Hdt Hdata. pose proof dims3d as [Hszp HC0p HC1p HC1b HN1p HN1b HC HN Hlead HT].
  pose proof (bytes_bound_wide T size (conj (Z.lt_le_incl _ _ (proj1 HT)) (proj2 HT)) Hszp).
  unfold DhwcnFracZ3D.TransFormatDhwckToFz3D. rewrite Hss, Hds, Hdt, Hdata. unfold kDhwcnDimsNum. rewrite Hv. cbn [negb]. read_dims_3d.
  assert ((N1 * kNiSize)%i64 = N1 * 16) as -> by (apply wrap64_id; change (N1 * kNiSize) with (N1 * 16); lia). cbn [fold_left]. cbv zeta.
  assert ((1 * (D * C1 * H * W)%Z * N1 * 16 * C0 * size)%i64 = T * size) as -> by (apply mul64_is; [ring64|lia]).
  destruct (Z.eqb_spec (T * size) 0) as [|_]; [nia|]. unfold delivers.
  destruct (new_uint8 (T * size)) as [b0|] eqn:Hnew; [|done]. rewrite (wrapU64_id (T * size)) by lia.
  set (V := dec6 C1 H W (N1 * 16) C0 (fz3_elem size C N C0 (fun d h w c n => elem size x (idx5 H W C N d h w c n)))).
  assert (HV : forall k, 0 <= k < T -> zlen (V k) = size).
  { intros k. apply (dec6_all (fun v => zlen v = size) D); [lia..|]. intros d c1 h w n c0 ? ? ? ? ? ?. unfold fz3_elem.
    destruct (Z.ltb_spec (c1 * C0 + c0) C), (Z.ltb_spec n N); cbn [andb]; [|apply zlen_zeros; lia..].
    eapply zlen_elem; [lia|done|apply idx5_range; nia]. }
  eapply (Fills_run size T V); [|apply zlen_new; [done|lia|lia]|].
  - repeat (apply Fills_for; intros ? ?). rename i into d, i0 into c1, i1 into h, i2 into w, i3 into n, i4 into c0.
    assert (Hk : 0 <= idx6 C1 H W (N1 * 16) C0 d c1 h w n c0 < T) by (by apply idx6_range).
    apply (Fills_elem size _ _ (proj1 Hszp) HV _ (idx6 C1 H W (N1 * 16) C0 d c1 h w n c0)); [done|].
    intros b Hb. unfold V. rewrite dec6_at by done. unfold fz3_elem.
    assert (((d * (C1 * (H * (W * ((N1 * 16)%Z * C0)))) + c1 * (H * (W * ((N1 * 16)%Z * C0))) + h * (W * ((N1 * 16)%Z * C0))
      + w * ((N1 * 16)%Z * C0) + n * C0 + c0) * size)%i64
      = idx6 C1 H W (N1 * 16) C0 d c1 h w n c0 * size) as -> by (wrap_eq; eapply offset_bound_wide; [done|lia|done]).
    assert ((c1 * C0 + c0)%i64 = c1 * C0 + c0) as -> by (wrap_eq; pose proof (radix_range c1 c0 C1 C0); lia).
    rewrite (Z.leb_antisym _ C), (Z.leb_antisym _ N), <- negb_andb.
    destruct (Z.ltb_spec (c1 * C0 + c0) C), (Z.ltb_spec n N); cbn [andb negb]; [|apply memset_elem_wide; done || lia..].
    assert (Hs : 0 <= idx5 H W C N d h w (c1 * C0 + c0) n < D * H * W * C * N) by (apply idx5_range; nia).
    assert (((d * (H * (W * (C * N))) + h * (W * (C * N)) + w * (C * N) + (c1 * C0 + c0)%Z * N + n) * size)%i64
      = idx5 H W C N d h w (c1 * C0 + c0) n * size) as -> by (wrap_eq; by eapply offset_bound).
    apply memcpy_elem_wide with (D * H * W * C * N); done || lia.
  - intros out Hlen Hout. split; [done|]. intros d c1 h w n c0 ? ? ? ? ? ?. rewrite Hout.
    + by apply dec6_at.
    + by apply idx6_range.
    + nest_cover.
Qed.

Lemma TransShape_dhwcn_ok ds :
  DhwcnFracZ3D.TransShape FORMAT_DHWCN [D; H; W; C; N] dt FORMAT_FRACTAL_Z_3D = Ok ds ->
  ds = [D * C1 * H * W; N1; 16; C0] /\ CheckShapeValid [D; H; W; C; N] 5 = true.
Proof.
  pose proof dims3d as []. unfold DhwcnFracZ3D.TransShape, DhwcnFracZ3D.CheckDataTypeSupport.
  destruct (Z.ltb_spec 0 size); [|lia]. rewrite !bool_decide_eq_true_2 by done. cbn [negb andb].
  unfold DhwcnFracZ3D.TransShapeDhwckToFz3D. destruct (CheckShapeValid [D; H; W; C; N] kDhwcnDimsNum) eqn:Hv; [|done].
  cbn [negb]. read_dims_3d. unfold DhwcnFracZ3D.TransShapeToFz. destruct (Z.ltb_spec C0 0); [lia|].
  assert ((D * C1 * H * W)%i64 = D * C1 * H * W) as -> by (apply mul64_is; [ring64|lia]). intros [= <-]. done.
Qed.
End Proofs.

(** * Theorems *)
Section Theorems.
Context `{E : Env} {HE : EnvOk E}.
Context (dt : DataType) (D H W C N : Z) (ds x : list Z).

Lemma fz3d_run result :
  0 < D /\ 0 < H /\ 0 < W /\ 0 < C /\ 0 < N -> Forall (fun d => d < 2 ^ 63) [D; H; W; C; N] ->
  DhwcnFracZ3D.TransShape FORMAT_DHWCN [D; H; W; C; N] dt FORMAT_FRACTAL_Z_3D = Ok ds ->
  zlen x = D * H * W * C * N * GetSizeByDataType dt ->
  let size := GetSizeByDataType dt in
  let C0 := GetCubeSizeByDataType dt in
  let C1 := Ceil C C0 in
  let N1 := Ceil N kNiSize in
  ds = [D * C1 * H * W; N1; 16; C0] /\
  delivers (DhwcnFracZ3D.TransFormat (mk_args (Some x) FORMAT_DHWCN FORMAT_FRACTAL_Z_3D [D; H; W; C; N] ds dt) result)
    OUT_OF_MEMORY size (D * C1 * H * W * (N1 * 16) * C0) (fun out =>
    forall d c1 h w n c0, 0 <= d < D -> 0 <= c1 < C1 -> 0 <= h < H -> 0 <= w < W -> 0 <= n < N1 * 16 -> 0 <= c0 < C0 ->
      elem size out (idx6 C1 H W (N1 * 16) C0 d c1 h w n c0)
      = if (c1 * C0 + c0 <? C) && (n <? N) then elem size x (idx5 H W C N d h w (c1 * C0 + c0) n) else zeros size).
Proof.
  intros Hpos Hint Hts Hx. cbv zeta.
  assert (Hs : 0 < GetSizeByDataType dt).
  { unfold DhwcnFracZ3D.TransShape, DhwcnFracZ3D.CheckDataTypeSupport in Hts.
    destruct (Z.ltb_spec 0 (GetSizeByDataType dt)); [done|]. by rewrite bool_decide_eq_false_2 in Hts. }
  assert (Hv : CheckShapeValid [D; H; W; C; N] 5 = true).
  { unfold DhwcnFracZ3D.TransShape, DhwcnFracZ3D.CheckDataTypeSupport in Hts. destruct (Z.ltb_spec 0 (GetSizeByDataType dt)); [|lia].
    rewrite !bool_decide_eq_true_2 in Hts by done. cbn [negb andb] in Hts. unfold DhwcnFracZ3D.TransShapeDhwckToFz3D, kDhwcnDimsNum in Hts.
    by destruct (CheckShapeValid [D; H; W; C; N] 5). }
  destruct (Valid5 D H W C N Hint Hv) as [_ Hsrc].
  destruct (TransShape_dhwcn_ok dt D H W C N Hpos Hs (proj2 Hsrc) ds Hts) as [Hds _]. split; [done|].
  unfold DhwcnFracZ3D.TransFormat. cbn [mk_args src_format src_shape src_data_type dst_format]. rewrite Hts. cbn [mbind outcome_bind].
  unfold IsTransShapeDstCorrect. cbn [mk_args dst_shape]. rewrite (bool_decide_eq_true_2 (ds = ds)) by done.
  cbn [negb]. rewrite andb_false_r. cbn [negb]. rewrite !bool_decide_eq_true_2 by done. cbn [andb].
  by apply (Trans_dhwcn_fz3d dt D H W C N Hpos Hs (proj2 Hsrc)).
Qed.

(** A non-empty DHWCN weight whose shape TransShape accepts is transferred to FRACTAL_Z_3D: the
    target has shape [D * ceil(C/C0) * H * W; ceil(N/16); 16; C0]; TransFormat succeeds
    unless the buffer cannot be allocated; every element is the one of its channel and
    kernel, or zero in the padding.  No access leaves a buffer and no offset wraps,
    although the size of the padded target is never checked. *)
Theorem fz3d_correct result :
  0 < D /\ 0 < H /\ 0 < W /\ 0 < C /\ 0 < N -> Forall (fun d => d < 2 ^ 63) [D; H; W; C; N] ->
  DhwcnFracZ3D.TransShape FORMAT_DHWCN [D; H; W; C; N] dt FORMAT_FRACTAL_Z_3D = Ok ds ->
  zlen x = D * H * W * C * N * GetSizeByDataType dt ->
  let size := GetSizeByDataType dt in
  let C0 := GetCubeSizeByDataType dt in
  let C1 := Ceil C C0 in
  let N1 := Ceil N kNiSize in
  ds = [D * C1 * H * W; N1; 16; C0] /\
  delivers (DhwcnFracZ3D.TransFormat (mk_args (Some x) FORMAT_DHWCN FORMAT_FRACTAL_Z_3D [D; H; W; C; N] ds dt) result)
    OUT_OF_MEMORY size (D * C1 * H * W * (N1 * 16) * C0) (fun out =>
    forall d c1 h w n c0, 0 <= d < D -> 0 <= c1 < C1 -> 0 <= h < H -> 0 <= w < W -> 0 <= n < N1 * 16 -> 0 <= c0 < C0 ->
      elem size out (idx6 C1 H W (N1 * 16) C0 d c1 h w n c0)
      = if (c1 * C0 + c0 <? C) && (n <? N) then elem size x (idx5 H W C N d h w (c1 * C0 + c0) n) else zeros size).
Proof. apply fz3d_run. Qed.

(** The transposed routine is the plain one with the roles of N and C exchanged. *)
Lemma fz3d_transpose_agrees data0 ss result :
  DhwncFracZ3DTranspose.TransFormat (mk_args data0 FORMAT_DHWNC FORMAT_FRACTAL_Z_3D_TRANSPOSE ss ds dt) result
  = DhwcnFracZ3D.TransFormat (mk_args data0 FORMAT_DHWCN FORMAT_FRACTAL_Z_3D ss ds dt) result /\
  DhwncFracZ3DTranspose.TransShape FORMAT_DHWNC ss dt FORMAT_FRACTAL_Z_3D_TRANSPOSE
  = DhwcnFracZ3D.TransShape FORMAT_DHWCN ss dt FORMAT_FRACTAL_Z_3D.
Proof. split; reflexivity. Qed.

End Theorems.

Section Transposed.
Context `{E : Env} {HE : EnvOk E}.
Context (dt : DataType) (D H W N C : Z) (ds x : list Z).

(** A non-empty DHWNC weight whose shape TransShape accepts is transferred to
    FRACTAL_Z_3D_TRANSPOSE with the roles of N and C exchanged: the groups of C0 run over N and
    the blocks of 16 over C; the target has shape [D * ceil(N/C0) * H * W; ceil(C/16); 16; C0];
    every element is the one of its place, or zero in the padding. *)
Theorem fz3d_transpose_correct result :
  0 < D /\ 0 < H /\ 0 < W /\ 0 < N /\ 0 < C -> Forall (fun d => d < 2 ^ 63) [D; H; W; N; C] ->
  DhwncFracZ3DTranspose.TransShape FORMAT_DHWNC [D; H; W; N; C] dt FORMAT_FRACTAL_Z_3D_TRANSPOSE = Ok ds ->
  zlen x = D * H * W * N * C * GetSizeByDataType dt ->
  let size := GetSizeByDataType dt in
  let C0 := GetCubeSizeByDataType dt in
  let N1 := Ceil N C0 in
  let C1 := Ceil C kNiSize in
  ds = [D * N1 * H * W; C1; 16; C0] /\
  delivers (DhwncFracZ3DTranspose.TransFormat
      (mk_args (Some x) FORMAT_DHWNC FORMAT_FRACTAL_Z_3D_TRANSPOSE [D; H; W; N; C] ds dt) result)
    OUT_OF_MEMORY size (D * N1 * H * W * (C1 * 16) * C0) (fun out =>
    forall d n1 h w c n0, 0 <= d < D -> 0 <= n1 < N1 -> 0 <= h < H -> 0 <= w < W -> 0 <= c < C1 * 16 -> 0 <= n0 < C0 ->
      elem size out (idx6 N1 H W (C1 * 16) C0 d n1 h w c n0)
      = if (n1 * C0 + n0 <? N) && (c <? C) then elem size x (idx5 H W N C d h w (n1 * C0 + n0) c) else zeros size).
Proof.
  intros Hpos Hint Hts Hx. destruct (fz3d_transpose_agrees dt ds (Some x) [D; H; W; N; C] result) as [-> Hs].
  rewrite Hs in Hts. by apply fz3d_run.
Qed.
End Transposed.

Lemma fz3d_correct_witness :
  exists out, DhwcnFracZ3D.TransFormat (E := sample_env)
      (mk_args (Some [1; 2; 3; 4]) FORMAT_DHWCN FORMAT_FRACTAL_Z_3D [1; 1; 1; 1; 2] [1; 1; 16; 16] DT_FLOAT16)
      {| res_data := None; res_length := 0 |}
    = Ok {| res_data := Some out; res_length := 512 |} /\ zlen out = 512 /\ elem 2 out 16 = [3; 4].
Proof.
  destruct (fz3d_correct (E := sample_env) DT_FLOAT16 1 1 1 1 2 [1; 1; 16; 16] [1; 2; 3; 4] {| res_data := None; res_length := 0 |})
    as [_ (out & Hr & Hl & Hout)].
  - lia.
  - repeat constructor; lia.
  - vm_compute. reflexivity.
  - reflexivity.
  - exists out. split; [exact Hr|]. split; [exact Hl|].
    exact (Hout 0 0 0 0 1 0 ltac:(lia) ltac:(vm_compute; split; congruence) ltac:(lia) ltac:(lia)
             ltac:(vm_compute; split; congruence) ltac:(vm_compute; split; congruence)).
Defined.

Lemma fz3d_transpose_correct_witness :
  exists out, DhwncFracZ3DTranspose.TransFormat (E := sample_env)
      (mk_args (Some [1; 2; 3; 4]) FORMAT_DHWNC FORMAT_FRACTAL_Z_3D_TRANSPOSE [1; 1; 1; 2; 1] [1; 1; 16; 16] DT_FLOAT16)
      {| res_data := None; res_length := 0 |}
    = Ok {| res_data := Some out; res_length := 512 |} /\ zlen out = 512 /\ elem 2 out 1 = [3; 4].
Proof.
  destruct (fz3d_transpose_correct (E := sample_env) DT_FLOAT16 1 1 1 2 1 [1; 1; 16; 16] [1; 2; 3; 4] {| res_data := None; res_length := 0 |})
    as [_ (out & Hr & Hl & Hout)].
  - lia.
  - repeat constructor; lia.
  - vm_compute. reflexivity.
  - reflexivity.
  - exists out. split; [exact Hr|]. split; [exact Hl|].
    exact (Hout 0 0 0 0 0 1 ltac:(lia) ltac:(vm_compute; split; congruence) ltac:(lia) ltac:(lia)
             ltac:(vm_compute; split; congruence) ltac:(vm_compute; split; congruence)).
Defined.
