(* ===== verification/FormatFractalNz.v ===== *)
(** Transfers between ND, NCHW or NHWC and FRACTAL_NZ
    (ge/common/formats/format_transfers/format_transfer_fractal_nz.cc).

    The last two dimensions H x W of a tensor of any rank are cut into blocks of 16 x C0;
    the blocks are stored column by column, the leading dimensions are kept.  The
    routines copy whole block rows with one memcpy_s and the rest of a row element by
    element; the theorems show that this is the element-wise transfer. *)
From S2P Require Import Prelude Buffer FormatsUtils FormatIndex.

(** The definitions the sources for FRACTAL_NZ and FRACTAL_ZZ share verbatim. *)
Definition kDimSize4D : Z := 4.
Definition kNdDimIndexN : nat := 0.
Definition kNdDimIndexH : nat := 1.
Definition kNdDimIndexW : nat := 2.
Definition kDimDValueBNdFNz : nat := 2.
Definition kNdDimCountBackwardsW : nat := 1.
Definition kNdDimCountBackwardsWH : nat := 2.

Module FractalNz.
Section Model.
Context `{E : Env}.

Definition IsDataTypeSupport (data_type : DataType) : bool := 0 <? GetSizeByDataType data_type.

Definition CheckShape (format : Format) (shape : list Z) : bool :=
  match format with
  | FORMAT_ND => IsShapeValid shape
  | FORMAT_NCHW | FORMAT_NHWC => CheckShapeValid shape kDimSize4D
  | _ => false
  end.

(** The result is [(dst_shape, hw_shape)].  For an empty shape `size - 2` wraps around
    and the loop reads beyond the vector. *)
Definition TransShapeToFracNz (src_shape : list Z) (data_type : DataType) : outcome (list Z * list Z) :=
  let w0 := GetCubeSizeByDataType data_type in
  let h0 := kCubeSize in
  match src_shape with
  | [] => Stuck
  | [n] =>
      let dst_shape := [Ceil n w0; DIM_DEFAULT_VALUE; h0; w0] in
      let hw_shape := [DIM_DEFAULT_VALUE; DIM_DEFAULT_VALUE; n] in
      if negb (IsShapeValid dst_shape) then Err ACL_ERROR_GE_TRANSSHAPE_SHAPE_INVALID else Ok (dst_shape, hw_shape)
  | _ =>
      let size := length src_shape in
      let lead := take (size - kDimDValueBNdFNz) src_shape in
      let times := fold_left (fun times dim => (times * dim)%i64) lead 1 in
      w ← at_ src_shape (size - kNdDimCountBackwardsW);
      h ← at_ src_shape (size - kNdDimCountBackwardsWH);
      let dst_shape := lead ++ [Ceil w w0; Ceil h h0; h0; w0] in
      let hw_shape := [times; h; w] in
      if negb (IsShapeValid dst_shape) then Err ACL_ERROR_GE_TRANSSHAPE_SHAPE_INVALID else Ok (dst_shape, hw_shape)
  end.

Definition CheckShapeRelation (args : TransArgs) : outcome (list Z) :=
  r ← or_else INTERNAL_ERROR (TransShapeToFracNz (dst_shape args) (src_data_type args));
  let '(expect_src_shape, hw_shape) := r in
  if negb (IsTransShapeSrcCorrect args expect_src_shape) then Err PARAM_INVALID else Ok hw_shape.

Definition TransFormatFromNdToFracNz (args : TransArgs) (result : TransResult) (hw_shape : list Z) : outcome TransResult :=
  let size := GetSizeByDataType (src_data_type args) in
  let dst_size := (GetItemNumByShape (dst_shape args) * size)%i64 in
  if dst_size =? 0 then Ok {| res_data := res_data result; res_length := wrapU64 dst_size |} else
  match new_uint8_zero dst_size with
  | None => Err OUT_OF_MEMORY
  | Some dst =>
    times ← at_ hw_shape kNdDimIndexN;
    h ← at_ hw_shape kNdDimIndexH;
    w ← at_ hw_shape kNdDimIndexW;
    let hw := (h * w)%i64 in
    let shape_size := length (dst_shape args) in
    w1 ← at_ (dst_shape args) (shape_size - 4);
    h1 ← at_ (dst_shape args) (shape_size - 3);
    h0 ← at_ (dst_shape args) (shape_size - 2);
    w0 ← at_ (dst_shape args) (shape_size - 1);
    let h1h0 := (h1 * h0)%i64 in
    let h1h0w0 := (h1h0 * w0)%i64 in
    let w1h1h0w0 := (w1 * h1h0w0)%i64 in
    num_w1 ← div_ w w0;
    dst ← for_range times (fun times_idx dst =>
      let times_head := (times_idx * w1h1h0w0)%i64 in
      let src_times_head := (times_idx * hw)%i64 in
      for_range h (fun h1h0_idx dst =>
        let h1h0_head := (times_head + h1h0_idx * w0)%i64 in
        let src_h_head := (src_times_head + h1h0_idx * w)%i64 in
        dst ← for_range num_w1 (fun w1_idx dst =>
          let dst_offset := ((h1h0_head + w1_idx * h1h0w0) * size)%i64 in
          let src_offset := ((src_h_head + w1_idx * w0) * size)%i64 in
          let protected_size := protected_size dst_size dst_offset in
          check_eok (memcpy_s dst dst_offset (wrapU64 protected_size) (data args) src_offset (wrapU64 (size * w0)%i64))) dst;
        let w1_head := (num_w1 * w0)%i64 in
        for_range (w - w1_head)%i64 (fun w0_idx dst =>
          let src_w_idx := (w1_head + w0_idx)%i64 in
          let dst_offset := ((h1h0_head + num_w1 * h1h0w0 + w0_idx) * size)%i64 in
          let src_offset := ((src_h_head + src_w_idx) * size)%i64 in
          let protected_size := protected_size dst_size dst_offset in
          check_eok (memcpy_s dst dst_offset (wrapU64 protected_size) (data args) src_offset (wrapU64 size))) dst
      ) dst) dst;
    Ok {| res_data := Some dst; res_length := wrapU64 dst_size |}
  end.

Definition TransFormatFromFracNzToNd (args : TransArgs) (result : TransResult) (dst_hw_shape : list Z) : outcome TransResult :=
  let size := GetSizeByDataType (src_data_type args) in
  let dst_size := (GetItemNumByShape (dst_shape args) * size)%i64 in
  if dst_size =? 0 then Ok {| res_data := res_data result; res_length := wrapU64 dst_size |} else
  match new_uint8 dst_size with
  | None => Err OUT_OF_MEMORY
  | Some dst =>
    times ← at_ dst_hw_shape kNdDimIndexN;
    h ← at_ dst_hw_shape kNdDimIndexH;
    w ← at_ dst_hw_shape kNdDimIndexW;
    let hw := (h * w)%i64 in
    let shape_size := length (src_shape args) in
    w1 ← at_ (src_shape args) (shape_size - 4);
    h1 ← at_ (src_shape args) (shape_size - 3);
    h0 ← at_ (src_shape args) (shape_size - 2);
    w0 ← at_ (src_shape args) (shape_size - 1);
    let h1h0 := (h1 * h0)%i64 in
    let h1h0w0 := (h1h0 * w0)%i64 in
    let w1h1h0w0 := (w1 * h1h0w0)%i64 in
    num_w1 ← div_ w w0;
    dst ← for_range times (fun times_idx dst =>
      let times_head := (times_idx * w1h1h0w0)%i64 in
      let dst_times_head := (times_idx * hw)%i64 in
      for_range h (fun h1h0_idx dst =>
        let h1h0_head := (times_head + h1h0_idx * w0)%i64 in
        let dst_h_head := (dst_times_head + h1h0_idx * w)%i64 in
        dst ← for_range num_w1 (fun w1_idx dst =>
          let src_offset := ((h1h0_head + w1_idx * h1h0w0) * size)%i64 in
          let dst_offset := ((dst_h_head + w1_idx * w0) * size)%i64 in
          let protected_size := protected_size dst_size dst_offset in
          check_eok (memcpy_s dst dst_offset (wrapU64 protected_size) (data args) src_offset (wrapU64 (size * w0)%i64))) dst;
        let w1_head := (num_w1 * w0)%i64 in
        for_range (w - w1_head)%i64 (fun w0_idx dst =>
          let dst_w_idx := (w1_head + w0_idx)%i64 in
          let src_offset := ((h1h0_head + num_w1 * h1h0w0 + w0_idx) * size)%i64 in
          let dst_offset := ((dst_h_head + dst_w_idx) * size)%i64 in
          let protected_size := protected_size dst_size dst_offset in
          check_eok (memcpy_s dst dst_offset (wrapU64 protected_size) (data args) src_offset (wrapU64 size))) dst
      ) dst) dst;
    Ok {| res_data := Some dst; res_length := wrapU64 dst_size |}
  end.

(** FormatTransferFractalNz *)
Definition TransFormat (args : TransArgs) (result : TransResult) : outcome TransResult :=
  if negb (IsDataTypeSupport (src_data_type args)) || negb (CheckShape (src_format args) (src_shape args)) ||
     negb (IsShapeValid (dst_shape args))
  then Err PARAM_INVALID else
  r ← TransShapeToFracNz (src_shape args) (src_data_type args);
  let '(expect_shape, hw_shape) := r in
  if negb (IsTransShapeDstCorrect args expect_shape) then Err PARAM_INVALID else
  TransFormatFromNdToFracNz args result hw_shape.

Definition TransShape (src_format : Format) (src_shape : list Z) (data_type : DataType) (dst_format : Format) :
    outcome (list Z) :=
  if negb (IsDataTypeSupport data_type) then Err ACL_ERROR_GE_TRANSSHAPE_DATATYPE_INVALID else
  if negb (CheckShape src_format src_shape) then Err ACL_ERROR_GE_TRANSSHAPE_SHAPE_INVALID else
  r ← TransShapeToFracNz src_shape data_type;
  Ok r.1.

(** FormatTransferFractalNzND *)
Definition TransFormatND (args : TransArgs) (result : TransResult) : outcome TransResult :=
  if negb (IsDataTypeSupport (src_data_type args)) || negb (IsShapeValid (src_shape args)) ||
     negb (CheckShape (dst_format args) (dst_shape args))
  then Err PARAM_INVALID else
  hw_shape ← or_else PARAM_INVALID (CheckShapeRelation args);
  TransFormatFromFracNzToNd args result hw_shape.

Definition TransShapeND (src_format : Format) (src_shape : list Z) (data_type : DataType) (dst_format : Format) :
    outcome (list Z) :=
  Err ACL_ERROR_GE_TRANSSHAPE_FORMAT_INVALID.
End Model.
End FractalNz.

(** * Specification *)

(** A shape seen as leading dimensions and a last matrix; a vector is one row. *)
Definition nd_view (shape lead : list Z) (H W : Z) : Prop :=
  shape = lead ++ [H; W] \/ (shape = [W] /\ lead = [] /\ H = 1).

Lemma nd_view_exists shape : shape <> [] -> exists lead H W, nd_view shape lead H W.
Proof.
  intros Hne. destruct shape as [|x shape]; [done|].
  destruct shape as [|y shape]; [by exists [], 1, x; right|].
  assert (exists lead H W, x :: y :: shape = lead ++ [H; W]) as (lead & H & W & ->); [|by exists lead, H, W; left].
  clear Hne. revert x y. induction shape as [|z shape IH]; intros x y; [by exists [], x, y|].
  destruct (IH y z) as (lead & H & W & ->). by exists (x :: lead), H, W.
Qed.

Lemma nd_view_prod shape lead H W : nd_view shape lead H W -> prodZ shape = prodZ lead * H * W.
Proof. intros [->|(-> & -> & ->)]; [rewrite prodZ_app|]; unfold prodZ; cbn; ring. Qed.

(** The sizes of a tensor of [T] matrices H x W and of its blocks. *)
Record DimsNd `{E : Env} (dt : DataType) (size T H W H1 W1 H0 W0 : Z) : Prop := {
  dn_size : GetSizeByDataType dt = size;
  dn_size_pos : 0 < size <= 1024;
  dn_W0 : GetCubeSizeByDataType dt = W0;
  dn_W0_pos : 0 < W0 <= 32;
  dn_H0_pos : 0 < H0 <= 32;
  dn_W1 : Ceil W W0 = W1;
  dn_W1_bound : W <= W1 * W0 < W + W0;
  dn_H1 : Ceil H H0 = H1;
  dn_H1_bound : H <= H1 * H0 < H + H0;
  dn_pos : 0 < T /\ 0 < H /\ 0 < W;
  dn_src : T * H * W <= 2 ^ 40;
  dn_dst : T * W1 * (H1 * H0) * W0 <= 2 ^ 40;
}.

(** The contents of the blocks: [src t h w] in the matrix, zero in the padding. *)
Definition nz_elem (size H W W0 : Z) (src : Z -> Z -> Z -> list Z) (t w1 h w0 : Z) : list Z :=
  if (h <? H) && (w1 * W0 + w0 <? W) then src t h (w1 * W0 + w0) else zeros size.

(** Reads from the end of a shape. *)
Lemma at_tail4 (lead : list Z) a b c d :
  at_ (lead ++ [a; b; c; d]) (length (lead ++ [a; b; c; d]) - 4) = Ok a /\
  at_ (lead ++ [a; b; c; d]) (length (lead ++ [a; b; c; d]) - 3) = Ok b /\
  at_ (lead ++ [a; b; c; d]) (length (lead ++ [a; b; c; d]) - 2) = Ok c /\
  at_ (lead ++ [a; b; c; d]) (length (lead ++ [a; b; c; d]) - 1) = Ok d.
Proof.
  unfold at_. rewrite !length_app. cbn [length].
  split_and!; rewrite lookup_app_r by lia;
    [replace (_ - _ - _)%nat with 0%nat by lia|replace (_ - _ - _)%nat with 1%nat by lia
    |replace (_ - _ - _)%nat with 2%nat by lia|replace (_ - _ - _)%nat with 3%nat by lia]; done.
Qed.

Lemma at_tail2 (lead : list Z) a b :
  at_ (lead ++ [a; b]) (length (lead ++ [a; b]) - 1) = Ok b /\ at_ (lead ++ [a; b]) (length (lead ++ [a; b]) - 2) = Ok a.
Proof.
  unfold at_. rewrite !length_app. cbn [length].
  split; rewrite lookup_app_r by lia; [replace (_ - _ - _)%nat with 1%nat by lia|replace (_ - _ - _)%nat with 0%nat by lia]; done.
Qed.

Section Proofs.
Context `{E : Env} {HE : EnvOk E}.
Context (dt : DataType) (size T H W H1 W1 H0 W0 : Z).
Context (DN : DimsNd dt size T H W H1 W1 H0 W0).
Local Abbreviation HH := (H1 * H0).
Local Abbreviation M := (T * H * W).
Local Abbreviation N := (T * W1 * HH * W0).
Local Abbreviation num := (W / W0).

Lemma dn_facts : 0 < W1 /\ 0 < HH /\ 0 < M /\ 0 < N /\ 0 <= num <= W1 /\ W = num * W0 + W mod W0 /\ 0 <= W mod W0 < W0 /\
  (W mod W0 <> 0 -> num < W1) /\ 0 < W <= 2 ^ 40 /\ 0 < H <= 2 ^ 40.
Proof.
  destruct DN as [_ _ _ ? ? _ ? _ ? Hpos Hsrc _]. pose proof (Z.div_mod W W0 ltac:(lia)). pose proof (Z.mod_pos_bound W W0 ltac:(lia)).
  assert (0 < W1) by nia. assert (0 < HH) by lia. assert (0 < T * H) by nia. assert (0 < M) by nia.
  assert (0 < T * W1 * HH) by (repeat apply Z.mul_pos_pos; lia).
  destruct (factor_le (T * H) W (2 ^ 40)) as [? ?]; [lia..|]. destruct (factor_le T H (2 ^ 40)) as [? ?]; [lia..|].
  split_and!; try lia; nia.
Qed.

(** The row-wise copies: whole blocks, then the rest of the row. *)
Lemma num_w1 : div_ W W0 = Ok num.
Proof.
  destruct DN. pose proof dn_facts. unfold div_. destruct (Z.eqb_spec W0 0); [lia|]. unfold quot64.
  rewrite Z.quot_div_nonneg, wrap64_id by lia. done.
Qed.

Lemma rest_w : (W - num * W0)%i64 = W mod W0.
Proof.
  destruct DN. pose proof dn_facts as (_ & _ & _ & _ & ? & HW & ? & _ & ? & _).
  assert ((num * W0)%i64 = num * W0) as -> by (apply wrap64_id; nia). unfold sub64. rewrite wrap64_id by nia. nia.
Qed.

Lemma run_bytes : (size * W0)%i64 = W0 * size.
Proof. destruct DN. unfold mul64. rewrite wrap64_id by nia. ring. Qed.

Definition holds_nz (src : Z -> Z -> Z -> list Z) (out : list Z) : Prop :=
  forall t w1 h w0, 0 <= t < T -> 0 <= w1 < W1 -> 0 <= h < HH -> 0 <= w0 < W0 ->
    elem size out (idx4 W1 HH W0 t w1 h w0) = nz_elem size H W W0 src t w1 h w0.

Lemma nz_elem_len src k :
  (forall t h w, 0 <= t < T -> 0 <= h < H -> 0 <= w < W -> zlen (src t h w) = size) ->
  0 <= k < N -> zlen (dec4 W1 HH W0 (nz_elem size H W W0 src) k) = size.
Proof.
  pose proof DN as []. pose proof dn_facts. intros Hs. apply (dec4_all (fun v => zlen v = size) T); [lia..|].
  intros t w1 h w0 ? ? ? ?. unfold nz_elem.
  destruct (Z.ltb_spec h H), (Z.ltb_spec (w1 * W0 + w0) W); cbn [andb]; [apply Hs; nia|apply zlen_zeros; lia..].
Qed.

(** A place of the matrix is reached by a block copy or by the rest of its row. *)
Lemma row_cases w1 w0 :
  0 <= w1 -> 0 <= w0 < W0 -> w1 * W0 + w0 < W -> w1 < num \/ (w1 = num /\ w0 < W mod W0).
Proof. destruct DN. pose proof dn_facts. intros. destruct (Z.lt_trichotomy w1 num) as [?|[?|?]]; [by left|right; nia|nia]. Qed.

(** The copy of one row between a matrix and its blocks, in either direction: runs of [W0]
    elements, [kst] apart in the target and [sst] apart in the source, then single elements. *)
Lemma row_fills Nt Ms V (src : list Z) kb kst sb sst (doff soff doff' soff' : Z -> Z) :
  Nt <= 2 ^ 40 -> (forall k, 0 <= k < Nt -> zlen (V k) = size) -> zlen src = Ms * size ->
  (forall w1 w0, 0 <= w1 -> 0 <= w0 < W0 -> w1 * W0 + w0 < W ->
     0 <= kb + w1 * kst + w0 < Nt /\ 0 <= sb + w1 * sst + w0 < Ms /\
     elem size src (sb + w1 * sst + w0) = V (kb + w1 * kst + w0)) ->
  (forall w1, 0 <= w1 < num -> doff w1 = (kb + w1 * kst) * size /\ soff w1 = (sb + w1 * sst) * size) ->
  (forall w0, 0 <= w0 < W mod W0 -> doff' w0 = (kb + num * kst + w0) * size /\ soff' w0 = (sb + num * sst + w0) * size) ->
  Fills size Nt V (fun b =>
    for_range num (fun w1 dst => check_eok (memcpy_s dst (doff w1) (wrapU64 (protected_size (Nt * size) (doff w1)))
                                              (Some src) (soff w1) (wrapU64 (W0 * size)))) b ≫=
    for_range (W mod W0) (fun w0 dst => check_eok (memcpy_s dst (doff' w0) (wrapU64 (protected_size (Nt * size) (doff' w0)))
                                              (Some src) (soff' w0) (wrapU64 size))))
    (fun k => exists w1 w0, 0 <= w1 /\ 0 <= w0 < W0 /\ w1 * W0 + w0 < W /\ k = kb + w1 * kst + w0).
Proof.
  intros HNt HV Hsrc Hel Hrun Hrest. pose proof DN as [_ Hszp _ HW0p _ _ _ _ _ _ _ _].
  pose proof dn_facts as (_ & _ & _ & _ & Hnum & HWd & Hmod & _ & _ & _).
  eapply Fills_mono; [apply Fills_seq; apply Fills_for|].
  - intros w1 Hw1. destruct (Hrun w1 Hw1) as [Hd Hs]. assert (w1 * W0 + W0 <= W) by nia.
    destruct (Hel w1 0) as (? & ? & _); [lia..|]. destruct (Hel w1 (W0 - 1)) as (? & ? & _); [lia..|].
    apply (Fills_copy size Nt Hszp ltac:(lia) V (kb + w1 * kst) W0 Ms src (sb + w1 * sst) _ _ _ HV); try done; try lia.
    intros j Hj. apply Hel; lia.
  - intros w0 Hw0. destruct (Hrest w0 Hw0) as [Hd Hs]. destruct (Hel num w0) as (? & ? & Heq); [lia..|].
    apply (Fills_copy size Nt Hszp ltac:(lia) V (kb + num * kst + w0) 1 Ms src (sb + num * sst + w0) _ _ _ HV); try done; try lia.
    intros j Hj. replace j with 0 by lia. by rewrite !Z.add_0_r.
  - intros k _ (w1 & w0 & ? & ? & ? & ->). destruct (row_cases w1 w0) as [?|[-> ?]]; [lia..|left|right].
    + exists w1. split; [lia|]. lia.
    + exists w0. split; [lia|]. lia.
Qed.

Lemma Trans_nd_nz args result lead d :
  zlen d = M * size -> dst_shape args = lead ++ [W1; H1; H0; W0] -> GetItemNumByShape (dst_shape args) = N ->
  src_data_type args = dt -> data args = Some d ->
  delivers (FractalNz.TransFormatFromNdToFracNz args result [T; H; W]) OUT_OF_MEMORY size N
    (holds_nz (fun t h w => elem size d (idx3 H W t h w))).
Proof.
  intros Hd Hds Hn Hdt Hdata. pose proof DN as [Hsz Hszp HW0 HW0p HH0p HW1 HW1b HH1 HH1b Hpos Hsrc Hdst].
  pose proof dn_facts as (HW1p & HHp & HM & HN & Hnum & HWd & Hmod & Hlast & HWs & HHs).
  pose proof (bytes_bound N size ltac:(lia) Hszp).
  unfold FractalNz.TransFormatFromNdToFracNz. rewrite Hn, Hdt, Hdata, Hsz.
  assert ((N * size)%i64 = N * size) as -> by (apply wrap64_id; lia).
  destruct (Z.eqb_spec (N * size) 0) as [|_]; [nia|]. unfold delivers, new_uint8_zero.
  destruct (new_uint8 (N * size)) as [b0|] eqn:Hnew; cbn [fmap option_fmap option_map]; [|done].
  cbn [at_ lookup list_lookup mbind outcome_bind kNdDimIndexN kNdDimIndexH kNdDimIndexW]. rewrite Hds.
  destruct (at_tail4 lead W1 H1 H0 W0) as (-> & -> & -> & ->). cbn [mbind outcome_bind]. rewrite num_w1. cbn [mbind outcome_bind]. cbv zeta.
  rewrite rest_w, run_bytes, (wrapU64_id (N * size)) by lia.
  set (src := fun t h w => elem size d (idx3 H W t h w)). set (V := dec4 W1 HH W0 (nz_elem size H W W0 src)).
  assert (HV : forall k, 0 <= k < N -> zlen (V k) = size).
  { intros k. apply nz_elem_len. intros. eapply zlen_elem; [lia|done|by apply idx3_range]. }
  pose proof (zlen_new N size b0 Hnew ltac:(lia) ltac:(lia)) as Hb0. unfold zlen in Hb0.
  eapply (Fills_run_from size N V).
  - apply Fills_for. intros t Ht. apply Fills_for. intros h Hh.
    eapply (row_fills N M V d (idx4 W1 HH W0 t 0 h 0) (HH * W0) (idx3 H W t h 0) W0 _ _ _ _ Hdst HV Hd).
    + intros w1 w0 ? ? ?. assert (w1 < W1) by nia.
      replace (idx4 W1 HH W0 t 0 h 0 + w1 * (HH * W0) + w0) with (idx4 W1 HH W0 t w1 h w0) by (unfold idx4; ring).
      replace (idx3 H W t h 0 + w1 * W0 + w0) with (idx3 H W t h (w1 * W0 + w0)) by (unfold idx3; ring).
      split; [apply idx4_range; lia|]. split; [apply idx3_range; lia|]. unfold V. rewrite dec4_at by lia. unfold nz_elem.
      destruct (Z.ltb_spec h H), (Z.ltb_spec (w1 * W0 + w0) W); [done|lia..].
    + intros w1 Hw1. assert (w1 * W0 < W) by nia.
      pose proof (idx4_range T W1 HH W0 t w1 h 0 Ht ltac:(lia) ltac:(lia) ltac:(lia)). pose proof (idx3_range T H W t h (w1 * W0) Ht Hh ltac:(lia)).
      replace (idx4 W1 HH W0 t 0 h 0 + w1 * (HH * W0)) with (idx4 W1 HH W0 t w1 h 0) by (unfold idx4; ring).
      replace (idx3 H W t h 0 + w1 * W0) with (idx3 H W t h (w1 * W0)) by (unfold idx3; ring).
      split; wrap_eq; by eapply offset_bound.
    + intros w0 Hw0. assert (num < W1) by (apply Hlast; lia).
      pose proof (idx4_range T W1 HH W0 t num h w0 Ht ltac:(lia) ltac:(lia) ltac:(lia)). pose proof (idx3_range T H W t h (num * W0 + w0) Ht Hh ltac:(nia)).
      replace (idx4 W1 HH W0 t 0 h 0 + num * (HH * W0) + w0) with (idx4 W1 HH W0 t num h w0) by (unfold idx4; ring).
      replace (idx3 H W t h 0 + num * W0 + w0) with (idx3 H W t h (num * W0 + w0)) by (unfold idx3; ring).
      split; wrap_eq; by eapply offset_bound.
  - rewrite zlen_repeat_nat. lia.
  - intros k Hk. destruct (idx4_surj k T W1 HH W0) as (t & w1 & h & w0 & ? & ? & ? & ? & ->); [lia..|].
    destruct (decide (h < H /\ w1 * W0 + w0 < W)) as [[Hh Hw]|Hout].
    + left. exists t. split; [done|]. exists h. split; [lia|]. exists w1, w0. split_and!; [lia..|]. unfold idx4. ring.
    + right. unfold V. rewrite dec4_at by done. unfold nz_elem. rewrite elem_zero; [|lia|lia|nia].
      destruct (Z.ltb_spec h H), (Z.ltb_spec (w1 * W0 + w0) W); [lia|done..].
  - intros out Hlen Hout. split; [done|]. intros t w1 h w0 ? ? ? ?. rewrite Hout by (by apply idx4_range). unfold V. by apply dec4_at.
Qed.

(** Place [w] of a row lies in block [w / W0] at [w mod W0]. *)
Lemma block_place w : 0 <= w < W -> 0 <= w / W0 < W1 /\ 0 <= w mod W0 < W0 /\ w / W0 * W0 + w mod W0 = w.
Proof. destruct DN. intros. apply (channel_group W W1 W0 w); lia. Qed.

Lemma Trans_nz_nd args result lead d :
  zlen d = N * size -> src_shape args = lead ++ [W1; H1; H0; W0] -> GetItemNumByShape (dst_shape args) = M ->
  src_data_type args = dt -> data args = Some d ->
  delivers (FractalNz.TransFormatFromFracNzToNd args result [T; H; W]) OUT_OF_MEMORY size M (fun out =>
    forall t h w, 0 <= t < T -> 0 <= h < H -> 0 <= w < W ->
      elem size out (idx3 H W t h w) = elem size d (idx4 W1 HH W0 t (w / W0) h (w mod W0))).
Proof.
  intros Hd Hss Hn Hdt Hdata. pose proof DN as [Hsz Hszp HW0 HW0p HH0p HW1 HW1b HH1 HH1b Hpos Hsrc Hdst].
  pose proof dn_facts as (HW1p & HHp & HM & HN & Hnum & HWd & Hmod & Hlast & HWs & HHs).
  pose proof (bytes_bound M size ltac:(lia) Hszp).
  unfold FractalNz.TransFormatFromFracNzToNd. rewrite Hn, Hdt, Hdata, Hsz.
  assert ((M * size)%i64 = M * size) as -> by (apply wrap64_id; lia).
  destruct (Z.eqb_spec (M * size) 0) as [|_]; [nia|]. unfold delivers.
  destruct (new_uint8 (M * size)) as [b0|] eqn:Hnew; [|done].
  cbn [at_ lookup list_lookup mbind outcome_bind kNdDimIndexN kNdDimIndexH kNdDimIndexW]. rewrite Hss.
  destruct (at_tail4 lead W1 H1 H0 W0) as (-> & -> & -> & ->). cbn [mbind outcome_bind]. rewrite num_w1. cbn [mbind outcome_bind]. cbv zeta.
  rewrite rest_w, run_bytes, (wrapU64_id (M * size)) by lia.
  set (V := dec3 H W (fun t h w => elem size d (idx4 W1 HH W0 t (w / W0) h (w mod W0)))).
  assert (HV : forall k, 0 <= k < M -> zlen (V k) = size).
  { intros k. apply (dec3_all (fun v => zlen v = size) T); [lia..|]. intros t h w ? ? ?.
    destruct (block_place w) as (? & ? & _); [done|]. eapply zlen_elem; [lia|done|apply idx4_range; lia]. }
  eapply (Fills_run size M V).
  - apply Fills_for. intros t Ht. apply Fills_for. intros h Hh.
    eapply (row_fills M N V d (idx3 H W t h 0) W0 (idx4 W1 HH W0 t 0 h 0) (HH * W0) _ _ _ _ Hsrc HV Hd).
    + intros w1 w0 ? ? ?. assert (w1 < W1) by nia.
      replace (idx4 W1 HH W0 t 0 h 0 + w1 * (HH * W0) + w0) with (idx4 W1 HH W0 t w1 h w0) by (unfold idx4; ring).
      replace (idx3 H W t h 0 + w1 * W0 + w0) with (idx3 H W t h (w1 * W0 + w0)) by (unfold idx3; ring).
      split; [apply idx3_range; lia|]. split; [apply idx4_range; lia|]. unfold V. rewrite dec3_at by lia.
      by rewrite radix_div, radix_mod by lia.
    + intros w1 Hw1. assert (w1 * W0 < W) by nia.
      pose proof (idx4_range T W1 HH W0 t w1 h 0 Ht ltac:(lia) ltac:(lia) ltac:(lia)). pose proof (idx3_range T H W t h (w1 * W0) Ht Hh ltac:(lia)).
      replace (idx4 W1 HH W0 t 0 h 0 + w1 * (HH * W0)) with (idx4 W1 HH W0 t w1 h 0) by (unfold idx4; ring).
      replace (idx3 H W t h 0 + w1 * W0) with (idx3 H W t h (w1 * W0)) by (unfold idx3; ring).
      split; wrap_eq; by eapply offset_bound.
    + intros w0 Hw0. assert (num < W1) by (apply Hlast; lia).
      pose proof (idx4_range T W1 HH W0 t num h w0 Ht ltac:(lia) ltac:(lia) ltac:(lia)). pose proof (idx3_range T H W t h (num * W0 + w0) Ht Hh ltac:(nia)).
      replace (idx4 W1 HH W0 t 0 h 0 + num * (HH * W0) + w0) with (idx4 W1 HH W0 t num h w0) by (unfold idx4; ring).
      replace (idx3 H W t h 0 + num * W0 + w0) with (idx3 H W t h (num * W0 + w0)) by (unfold idx3; ring).
      split; wrap_eq; by eapply offset_bound.
  - by apply zlen_new; [|lia|lia].
  - intros out Hlen Hout. split; [done|]. intros t h w ? ? Hw. destruct (block_place w Hw) as (? & ? & Hplace). rewrite Hout.
    + unfold V. by rewrite dec3_at.
    + by apply idx3_range.
    + exists t. split; [done|]. exists h. split; [done|]. exists (w / W0), (w mod W0). split_and!; [lia..|].
      unfold idx3. rewrite <- Hplace at 1. ring.
Qed.
End Proofs.

(** * What the checks establish *)
Lemma shape_cases {A} (l : list Z) (a : A) (f : Z -> A) (b : A) :
  (2 <= length l)%nat -> match l with [] => a | [n] => f n | _ => b end = b.
Proof. destruct l as [|x [|y l]]; cbn; [lia|lia|done]. Qed.

Lemma IsShapeValid_prefix lead rest :
  Forall (fun d => d < 2 ^ 63) (lead ++ rest) -> IsShapeValid (lead ++ rest) = true ->
  fold_left (fun times dim => (times * dim)%i64) lead 1 = prodZ lead.
Proof.
  intros Hint (_ & HF & Hp)%IsShapeValid_spec; [|done]. apply Forall_app in HF as [HF _].
  apply (GetItemNumByShape_exact lead); [done|]. intros n. destruct (decide (n <= length lead)%nat).
  - specialize (Hp n). by rewrite take_app_le in Hp by done.
  - rewrite take_ge by lia. specialize (Hp (length lead)). by rewrite take_app_length in Hp.
Qed.

Section Checks.
Context `{E : Env} {HE : EnvOk E}.
Context (dt : DataType) (shape lead : list Z) (H W : Z).
Local Abbreviation size := (GetSizeByDataType dt).
Local Abbreviation W0 := (GetCubeSizeByDataType dt).
Local Abbreviation T := (prodZ lead).
Hypothesis Hview : nd_view shape lead H W.
Hypothesis Hint : Forall (fun d => d < 2 ^ 63) shape.
Hypothesis Hv : IsShapeValid shape = true.
Hypothesis Hne : 0 < prodZ shape.
Hypothesis Hsize : 0 < size.

Lemma nd_facts : 0 < T /\ 0 < H /\ 0 < W /\ T * H * W <= 2 ^ 40 /\ GetItemNumByShape shape = T * H * W /\
  fold_left (fun times dim => (times * dim)%i64) lead 1 = T /\ Forall (fun d => 0 <= d <= 2 ^ 40) lead /\ H <= 2 ^ 40 /\ W <= 2 ^ 40.
Proof.
  destruct (IsShapeValid_facts shape Hint Hv) as (HF & Hn & Hp). pose proof (nd_view_prod _ _ _ _ Hview) as Hprod.
  assert (Hpos : Forall (Z.lt 0) shape) by (apply prodZ_pos; [done|lia]).
  assert (Forall (Z.lt 0) lead /\ 0 < H /\ 0 < W) as (Hl & HH & HW).
  { destruct Hview as [->|(-> & -> & ->)].
    - apply Forall_app in Hpos as [? [? [? _]%Forall_cons]%Forall_cons]. done.
    - apply Forall_cons in Hpos as [? _]. split; [done|lia]. }
  assert (HT : 0 < T) by (clear -Hl; induction Hl; cbn in *; [lia|unfold prodZ in *; nia]).
  assert (Hfold : fold_left (fun times dim => (times * dim)%i64) lead 1 = T).
  { destruct Hview as [Heq|(_ & -> & _)]; [|done]. apply (IsShapeValid_prefix lead [H; W]); by rewrite <- Heq. }
  assert (0 < T * H) by nia. destruct (factor_le (T * H) W (2 ^ 40)) as [? ?]; [lia..|]. destruct (factor_le T H (2 ^ 40)) as [HT40 ?]; [lia..|].
  split_and!; try done; [lia|by rewrite Hn| ].
  clear -Hl HT40. induction Hl as [|x l Hx Hl IH]; constructor.
  - assert (0 < prodZ l) by (clear -Hl; induction Hl; cbn in *; [lia|unfold prodZ in *; nia]).
    unfold prodZ in *. cbn in HT40. nia.
  - apply IH. assert (0 < prodZ l) by (clear -Hl; induction Hl; cbn in *; [lia|unfold prodZ in *; nia]).
    unfold prodZ in *. cbn in HT40. nia.
Qed.

(** The block shape [lead; a; b; H0; W0] holds the padded matrix. *)
Lemma nd_dims H0 a b :
  0 < H0 <= 32 -> (a = Ceil W W0 /\ b = Ceil H H0) \/ (a = Ceil H H0 /\ b = Ceil W W0) ->
  IsShapeValid (lead ++ [a; b; H0; W0]) = true ->
  DimsNd dt size T H W (Ceil H H0) (Ceil W W0) H0 W0 /\
  GetItemNumByShape (lead ++ [a; b; H0; W0]) = T * Ceil W W0 * (Ceil H H0 * H0) * W0.
Proof.
  intros HH0 Hab Hvd. pose proof nd_facts as (HT & HH & HW & HM & _ & _ & Hl & HHs & HWs). destruct (cube_pos dt Hsize) as [Hs Hw0].
  assert (Hint' : Forall (fun d => d < 2 ^ 63) (lead ++ [a; b; H0; W0])).
  { apply Forall_app. split; [eapply Forall_impl; [exact Hl|]; intros; cbn in *; lia|].
    repeat constructor; try lia; destruct Hab as [[-> ->]|[-> ->]]; apply Ceil_int. }
  destruct (IsShapeValid_facts _ Hint' Hvd) as (_ & Hn & Hp). rewrite prodZ_app in Hn, Hp.
  assert (prodZ lead * prodZ [a; b; H0; W0] = T * Ceil W W0 * (Ceil H H0 * H0) * W0) as Heq.
  { destruct Hab as [[-> ->]|[-> ->]]; unfold prodZ; cbn; ring. }
  rewrite Heq in Hn, Hp. split; [|done].
  split; try done; try lia; apply Ceil_bound; lia.
Qed.

Lemma TransShapeToFracNz_ok ds hw :
  FractalNz.TransShapeToFracNz shape dt = Ok (ds, hw) ->
  ds = lead ++ [Ceil W W0; Ceil H 16; 16; W0] /\ hw = [T; H; W] /\ IsShapeValid ds = true.
Proof.
  pose proof nd_facts as (_ & _ & _ & _ & _ & Hfold & _ & _ & _). unfold FractalNz.TransShapeToFracNz, kCubeSize.
  destruct Hview as [->|(-> & -> & ->)].
  - rewrite shape_cases by (rewrite length_app; cbn; lia). cbv zeta. unfold kNdDimCountBackwardsW, kNdDimCountBackwardsWH, kDimDValueBNdFNz.
    destruct (at_tail2 lead H W) as [-> ->]. cbn [mbind outcome_bind]. rewrite length_app. cbn [length].
    replace (length lead + 2 - 2)%nat with (length lead) by lia. rewrite take_app_length, Hfold.
    destruct (IsShapeValid (lead ++ [Ceil W W0; _; _; _])) eqn:Hvd; cbn [negb]; [|done]. intros [= <- <-]. done.
  - destruct (IsShapeValid [Ceil W W0; _; _; _]) eqn:Hvd; cbn [negb]; [|done]. intros [= <- <-]. done.
Qed.
End Checks.

(** * Theorems *)
Section Theorems.
Context `{E : Env} {HE : EnvOk E}.
Context (dt : DataType) (f : Format) (shape lead : list Z) (H W : Z) (ds d : list Z).
Local Abbreviation size := (GetSizeByDataType dt).
Local Abbreviation W0 := (GetCubeSizeByDataType dt).
Local Abbreviation T := (prodZ lead).
Local Abbreviation W1 := (Ceil W W0).
Local Abbreviation H1 := (Ceil H 16).
Hypothesis Hview : nd_view shape lead H W.
Hypothesis Hint : Forall (fun d => d < 2 ^ 63) shape.
Hypothesis Hne : 0 < prodZ shape.
Hypothesis Hts : FractalNz.TransShape f shape dt FORMAT_FRACTAL_NZ = Ok ds.

Lemma nz_checked :
  0 < size /\ FractalNz.CheckShape f shape = true /\ IsShapeValid shape = true /\ ds = lead ++ [W1; H1; 16; W0] /\ IsShapeValid ds = true /\
  FractalNz.TransShapeToFracNz shape dt = Ok (ds, [T; H; W]) /\ DimsNd dt size T H W H1 W1 16 W0 /\
  GetItemNumByShape ds = T * W1 * (H1 * 16) * W0 /\ GetItemNumByShape shape = T * H * W.
Proof.
  unfold FractalNz.TransShape, FractalNz.IsDataTypeSupport in Hts. destruct (Z.ltb_spec 0 size) as [Hs|]; [|done]. cbn [negb] in Hts.
  destruct (FractalNz.CheckShape f shape) eqn:Hck; [|done]. cbn [negb] in Hts.
  assert (Hv : IsShapeValid shape = true).
  { unfold FractalNz.CheckShape in Hck. destruct f; try done; unfold CheckShapeValid in Hck; by destruct (_ || _). }
  destruct (FractalNz.TransShapeToFracNz shape dt) as [[ds0 hw]|e|] eqn:Hr; [|done..]. cbn in Hts. injection Hts as Hds0. rewrite Hds0 in *.
  destruct (TransShapeToFracNz_ok dt shape lead H W Hview Hint Hv Hne ds hw Hr) as (Hds & Hhw & Hvd). rewrite Hhw in *.
  pose proof (nd_facts shape lead H W Hview Hint Hv Hne) as (_ & _ & _ & _ & Hn & _).
  destruct (nd_dims dt shape lead H W Hview Hint Hv Hne Hs 16 W1 H1) as [HD HN]; [lia|by left|by rewrite <- Hds|].
  rewrite <- Hds in HN. done.
Qed.

Lemma nd_to_nz_run result :
  zlen d = prodZ shape * size ->
  delivers (FractalNz.TransFormat (mk_args (Some d) f FORMAT_FRACTAL_NZ shape ds dt) result)
    OUT_OF_MEMORY size (T * W1 * (H1 * 16) * W0) (holds_nz size T H W H1 W1 16 W0 (fun t h w => elem size d (idx3 H W t h w))).
Proof.
  intros Hd. destruct nz_checked as (Hs & Hck & Hv & Hds & Hvd & Hr & HD & HN & Hn).
  unfold FractalNz.TransFormat, FractalNz.IsDataTypeSupport. cbn [mk_args src_data_type src_format src_shape dst_shape].
  destruct (Z.ltb_spec 0 size); [|lia]. rewrite Hck, Hvd, Hr. cbn [negb orb mbind outcome_bind].
  unfold IsTransShapeDstCorrect. cbn [mk_args dst_shape]. rewrite (bool_decide_eq_true_2 (ds = ds)) by done. cbn [negb]. rewrite andb_false_r. cbn [negb].
  rewrite (nd_view_prod _ _ _ _ Hview) in Hd. by eapply (Trans_nd_nz dt); [exact HD|done|cbn; exact Hds|..].
Qed.

(** A non-empty tensor of any rank (a vector counts as one row, ND, NCHW or NHWC alike) whose shape
    TransShape accepts is transferred to FRACTAL_NZ: the target shape is the leading dimensions and
    [ceil(W/C0); ceil(H/16); 16; C0]; TransFormat succeeds unless the buffer cannot be
    allocated; the element at column block w1, row h and place w0 is the source
    element of row h and column w1 * C0 + w0, or zero in the padding. *)
Theorem nd_to_nz_correct result :
  zlen d = prodZ shape * GetSizeByDataType dt ->
  ds = lead ++ [W1; H1; 16; W0] /\
  delivers (FractalNz.TransFormat (mk_args (Some d) f FORMAT_FRACTAL_NZ shape ds dt) result)
    OUT_OF_MEMORY size (T * W1 * (H1 * 16) * W0) (fun out =>
    forall t w1 h w0, 0 <= t < T -> 0 <= w1 < W1 -> 0 <= h < H1 * 16 -> 0 <= w0 < W0 ->
      elem size out (idx4 W1 (H1 * 16) W0 t w1 h w0)
      = if (h <? H) && (w1 * W0 + w0 <? W) then elem size d (idx3 H W t h (w1 * W0 + w0)) else zeros size).
Proof. intros Hd. split; [apply nz_checked|by apply nd_to_nz_run]. Qed.

(** To FRACTAL_NZ and back restores the bytes, for every rank and for each of ND, NCHW and NHWC. *)
Theorem nz_roundtrip result result' r :
  zlen d = prodZ shape * GetSizeByDataType dt ->
  FractalNz.TransFormat (mk_args (Some d) f FORMAT_FRACTAL_NZ shape ds dt) result = Ok r ->
  delivers (FractalNz.TransFormatND (mk_args (res_data r) FORMAT_FRACTAL_NZ f ds shape dt) result')
    OUT_OF_MEMORY size (prodZ shape) (fun out => out = d).
Proof.
  intros Hd Hr. pose proof (nd_to_nz_run result Hd) as Hfw. destruct nz_checked as (Hs & Hck & Hv & Hds & Hvd & Hrr & HD & HN & Hn).
  destruct (delivers_ok _ _ _ _ _ _ Hfw Hr) as (b & -> & _ & Hlb & Hb). rewrite (nd_view_prod _ _ _ _ Hview) in *.
  unfold FractalNz.TransFormatND, FractalNz.IsDataTypeSupport, FractalNz.CheckShapeRelation.
  cbn [mk_args src_data_type dst_format src_shape dst_shape]. destruct (Z.ltb_spec 0 size); [|lia].
  rewrite Hck, Hvd, Hrr. cbn [negb orb or_else mbind outcome_bind]. unfold IsTransShapeSrcCorrect. cbn [mk_args src_shape].
  rewrite bool_decide_eq_true_2 by done. cbn [negb or_else mbind outcome_bind].
  eapply delivers_mono; [by eapply (Trans_nz_nd dt _ _ _ _ _ _ _ _ HD); [exact Hlb|cbn; exact Hds|..]|].
  intros out Hl Hout. pose proof HD as []. pose proof (dn_facts dt _ _ _ _ _ _ _ _ HD) as (? & ? & ? & ? & _).
  eapply elem_ext; [|done|done|]; [lia|]. intros k Hk.
  destruct (idx3_surj k T H W) as (t & h & w & ? & ? & ? & ->); [lia..|].
  destruct (block_place dt _ _ _ _ _ _ _ _ HD w) as (? & ? & Hp); [done|]. rewrite Hout, Hb by lia. unfold nz_elem. rewrite Hp.
  destruct (Z.ltb_spec h H), (Z.ltb_spec w W); [done|lia..].
Qed.
End Theorems.

(** A vector of three float16 values. *)
Definition sample_nz : list Z := [1; 2; 3; 4; 5; 6] ++ repeat 0 506.

Lemma nd_to_nz_correct_witness :
  exists out, FractalNz.TransFormat (E := sample_env) (mk_args (Some [1; 2; 3; 4; 5; 6]) FORMAT_ND FORMAT_FRACTAL_NZ [3] [1; 1; 16; 16] DT_FLOAT16)
      {| res_data := None; res_length := 0 |} = Ok {| res_data := Some out; res_length := 512 |} /\ zlen out = 512 /\ elem 2 out 2 = [5; 6].
Proof.
  destruct (nd_to_nz_correct (E := sample_env) DT_FLOAT16 FORMAT_ND [3] [] 1 3 [1; 1; 16; 16] [1; 2; 3; 4; 5; 6] ltac:(by right)
    ltac:(repeat constructor; lia) ltac:(done) ltac:(vm_compute; reflexivity) {| res_data := None; res_length := 0 |} ltac:(done))
    as [_ (out & Hr & Hl & Hout)].
  exists out. split; [exact Hr|]. split; [exact Hl|].
  exact (Hout 0 0 0 2 ltac:(vm_compute; split; congruence) ltac:(vm_compute; split; congruence)
    ltac:(vm_compute; split; congruence) ltac:(vm_compute; split; congruence)).
Defined.

Lemma nz_roundtrip_witness :
  exists out, FractalNz.TransFormatND (E := sample_env) (mk_args (Some sample_nz) FORMAT_FRACTAL_NZ FORMAT_ND [1; 1; 16; 16] [3] DT_FLOAT16)
      {| res_data := None; res_length := 0 |} = Ok {| res_data := Some out; res_length := 6 |} /\ zlen out = 6 /\ out = [1; 2; 3; 4; 5; 6].
Proof.
  apply (nz_roundtrip (E := sample_env) DT_FLOAT16 FORMAT_ND [3] [] 1 3 [1; 1; 16; 16] [1; 2; 3; 4; 5; 6] ltac:(by right)
    ltac:(repeat constructor; lia) ltac:(done) ltac:(vm_compute; reflexivity) {| res_data := None; res_length := 0 |}
    {| res_data := None; res_length := 0 |} {| res_data := Some sample_nz; res_length := 512 |}); [done|vm_compute; reflexivity].
Defined.
