(* ===== verification/FormatFractalZz.v ===== *)
(** Transfers between ND, NCHW or NHWC and FRACTAL_ZZ
    (ge/common/formats/format_transfers/format_transfer_fractal_zz.cc).

    As for FRACTAL_NZ the last two dimensions are cut into blocks, here of C0 x C0 elements
    stored row by row.  The row copy lemma and the sizes are shared with FormatFractalNz. *)
From S2P Require Import Prelude Buffer FormatsUtils FormatIndex FormatFractalNz.

Definition kDimDValueBNdFZz : nat := 2.

Module FractalZz.
Section Model.
Context `{E : Env}.

Definition IsDataTypeSupport (data_type : DataType) : bool := 0 <? GetSizeByDataType data_type.

Definition CheckShape (format : Format) (shape : list Z) : bool :=
  match format with
  | FORMAT_ND => IsShapeValid shape
  | FORMAT_NCHW | FORMAT_NHWC => CheckShapeValid shape kDimSize4D
  | _ => false
  end.

(** The result is [(dst_shape, hw_shape)].  For an empty shape `size - 2` wraps around
    and the loop reads beyond the vector. *)
Definition TransShapeToFracZz (src_shape : list Z) (data_type : DataType) : outcome (list Z * list Z) :=
  let w0 := GetCubeSizeByDataType data_type in
  let h0 := GetCubeSizeByDataType data_type in
  match src_shape with
  | [] => Stuck
  | [n] =>
      let dst_shape := [DIM_DEFAULT_VALUE; Ceil n w0; h0; w0] in
      let hw_shape := [DIM_DEFAULT_VALUE; DIM_DEFAULT_VALUE; n] in
      if negb (IsShapeValid dst_shape) then Err ACL_ERROR_GE_TRANSSHAPE_SHAPE_INVALID else Ok (dst_shape, hw_shape)
  | _ =>
      let size := length src_shape in
      let lead := take (size - kDimDValueBNdFZz) src_shape in
      let times := fold_left (fun times dim => (times * dim)%i64) lead 1 in
      w ← at_ src_shape (size - kNdDimCountBackwardsW);
      h ← at_ src_shape (size - kNdDimCountBackwardsWH);
      let dst_shape := lead ++ [Ceil h h0; Ceil w w0; h0; w0] in
      let hw_shape := [times; h; w] in
      if negb (IsShapeValid dst_shape) then Err ACL_ERROR_GE_TRANSSHAPE_SHAPE_INVALID else Ok (dst_shape, hw_shape)
  end.

Definition CheckShapeRelation (args : TransArgs) : outcome (list Z) :=
  r ← or_else INTERNAL_ERROR (TransShapeToFracZz (dst_shape args) (src_data_type args));
  let '(expect_src_shape, hw_shape) := r in
  if negb (IsTransShapeSrcCorrect args expect_src_shape) then Err PARAM_INVALID else Ok hw_shape.

Definition TransFormatFromNdToFracZz (args : TransArgs) (result : TransResult) (hw_shape : list Z) : outcome TransResult :=
  let size := GetSizeByDataType (src_data_type args) in
  let dst_size := (GetItemNumByShape (dst_shape args) * size)%i64 in
  if dst_size =? 0 then Ok {| res_data := res_data result; res_length := wrapU64 dst_size |} else
  match new_uint8_zero dst_size with
  | None => Err OUT_OF_MEMORY
  | Some dst =>
    times ← at_ hw_shape kNdDimIndexN;
    h ← at_ hw_shape kNdDimIndexH;
    w ← at_ hw_shape kNdDimIndexW;
    let hw := (h * w)%i64 in
    let shape_size := length (dst_shape args) in
    h1 ← at_ (dst_shape args) (shape_size - 4);
    w1 ← at_ (dst_shape args) (shape_size - 3);
    h0 ← at_ (dst_shape args) (shape_size - 2);
    w0 ← at_ (dst_shape args) (shape_size - 1);
    let h0w0 := (h0 * w0)%i64 in
    let w1h0w0 := (w1 * h0w0)%i64 in
    let h1w1h0w0 := (h1 * w1h0w0)%i64 in
    num_w1 ← div_ w w0;
    dst ← for_range times (fun times_idx dst =>
      let times_head := (times_idx * h1w1h0w0)%i64 in
      let src_times_head := (times_idx * hw)%i64 in
      for_range h1 (fun h1_idx dst =>
        let h1_head := (times_head + h1_idx * w1h0w0)%i64 in
        let src_h1_head := (h1_idx * h0)%i64 in
        for_range (Z.min h0 (h - src_h1_head)%i64) (fun h0_idx dst =>
          let h0_head := (h1_head + h0_idx * w0)%i64 in
          let src_h_head := (src_times_head + (src_h1_head + h0_idx) * w)%i64 in
          dst ← for_range num_w1 (fun w1_idx dst =>
            let src_offset := ((src_h_head + w1_idx * w0) * size)%i64 in
            let dst_offset := ((h0_head + w1_idx * h0w0) * size)%i64 in
            let protected_size := protected_size dst_size dst_offset in
            check_eok (memcpy_s dst dst_offset (wrapU64 protected_size) (data args) src_offset (wrapU64 (size * w0)%i64))) dst;
          let w1_head := (num_w1 * w0)%i64 in
          let w0_head := (h0_head + num_w1 * h0w0)%i64 in
          for_range (w - w1_head)%i64 (fun w0_idx dst =>
            let src_w_idx := (w1_head + w0_idx)%i64 in
            let src_offset := ((src_h_head + src_w_idx) * size)%i64 in
            let dst_offset := ((w0_head + w0_idx) * size)%i64 in
            let protected_size := protected_size dst_size dst_offset in
            check_eok (memcpy_s dst dst_offset (wrapU64 protected_size) (data args) src_offset (wrapU64 size))) dst
        ) dst) dst) dst;
    Ok {| res_data := Some dst; res_length := wrapU64 dst_size |}
  end.

Definition TransFormatFromFracZzToNd (args : TransArgs) (result : TransResult) (dst_hw_shape : list Z) : outcome TransResult :=
  let size := GetSizeByDataType (src_data_type args) in
  let dst_size := (GetItemNumByShape (dst_shape args) * size)%i64 in
  if dst_size =? 0 then Ok {| res_data := res_data result; res_length := wrapU64 dst_size |} else
  match new_uint8_zero dst_size with
  | None => Err OUT_OF_MEMORY
  | Some dst =>
    times ← at_ dst_hw_shape kNdDimIndexN;
    h ← at_ dst_hw_shape kNdDimIndexH;
    w ← at_ dst_hw_shape kNdDimIndexW;
    let hw := (h * w)%i64 in
    let shape_size := length (src_shape args) in
    h1 ← at_ (src_shape args) (shape_size - 4);
    w1 ← at_ (src_shape args) (shape_size - 3);
    h0 ← at_ (src_shape args) (shape_size - 2);
    w0 ← at_ (src_shape args) (shape_size - 1);
    let h0w0 := (h0 * w0)%i64 in
    let w1h0w0 := (w1 * h0w0)%i64 in
    let h1w1h0w0 := (h1 * w1h0w0)%i64 in
    num_w1 ← div_ w w0;
    dst ← for_range times (fun times_idx dst =>
      let times_head := (times_idx * h1w1h0w0)%i64 in
      let dst_times_head := (times_idx * hw)%i64 in
      for_range h1 (fun h1_idx dst =>
        let h1_head := (times_head + h1_idx * w1h0w0)%i64 in
        let dst_h1_head := (h1_idx * h0)%i64 in
        for_range (Z.min h0 (h - dst_h1_head)%i64) (fun h0_idx dst =>
          let h0_head := (h1_head + h0_idx * w0)%i64 in
          let dst_h_head := (dst_times_head + (dst_h1_head + h0_idx) * w)%i64 in
          dst ← for_range num_w1 (fun w1_idx dst =>
            let src_offset := ((h0_head + w1_idx * h0w0) * size)%i64 in
            let dst_offset := ((dst_h_head + w1_idx * w0) * size)%i64 in
            let protected_size := protected_size dst_size dst_offset in
            check_eok (memcpy_s dst dst_offset (wrapU64 protected_size) (data args) src_offset (wrapU64 (size * w0)%i64))) dst;
          let w1_head := (num_w1 * w0)%i64 in
          let w0_head := (h0_head + num_w1 * h0w0)%i64 in
          for_range (w - w1_head)%i64 (fun w0_idx dst =>
            let src_offset := ((w0_head + w0_idx) * size)%i64 in
            let dst_w_idx := (w1_head + w0_idx)%i64 in
            let dst_offset := ((dst_h_head + dst_w_idx) * size)%i64 in
            let protected_size := protected_size dst_size dst_offset in
            check_eok (memcpy_s dst dst_offset (wrapU64 protected_size) (data args) src_offset (wrapU64 size))) dst
        ) dst) dst) dst;
    Ok {| res_data := Some dst; res_length := wrapU64 dst_size |}
  end.

(** FormatTransferFractalZz *)
Definition TransFormat (args : TransArgs) (result : TransResult) : outcome TransResult :=
  if negb (IsDataTypeSupport (src_data_type args)) || negb (CheckShape (src_format args) (src_shape args)) ||
     negb (IsShapeValid (dst_shape args))
  then Err PARAM_INVALID else
  r ← TransShapeToFracZz (src_shape args) (src_data_type args);
  let '(expect_shape, hw_shape) := r in
  if negb (IsTransShapeDstCorrect args expect_shape) then Err PARAM_INVALID else
  TransFormatFromNdToFracZz args result hw_shape.

Definition TransShape (src_format : Format) (src_shape : list Z) (data_type : DataType) (dst_format : Format) :
    outcome (list Z) :=
  if negb (IsDataTypeSupport data_type) then Err ACL_ERROR_GE_TRANSSHAPE_DATATYPE_INVALID else
  if negb (CheckShape src_format src_shape) then Err ACL_ERROR_GE_TRANSSHAPE_SHAPE_INVALID else
  r ← TransShapeToFracZz src_shape data_type;
  Ok r.1.

(** FormatTransferFractalZzND *)
Definition TransFormatND (args : TransArgs) (result : TransResult) : outcome TransResult :=
  if negb (IsDataTypeSupport (src_data_type args)) || negb (IsShapeValid (src_shape args)) ||
     negb (CheckShape (dst_format args) (dst_shape args))
  then Err PARAM_INVALID else
  hw_shape ← or_else PARAM_INVALID (CheckShapeRelation args);
  TransFormatFromFracZzToNd args result hw_shape.

Definition TransShapeND (src_format : Format) (src_shape : list Z) (data_type : DataType) (dst_format : Format) :
    outcome (list Z) :=
  Err ACL_ERROR_GE_TRANSSHAPE_FORMAT_INVALID.
End Model.
End FractalZz.

(** * Specification *)

(** The contents of the blocks: [src t h w] in the matrix, zero in the padding. *)
Definition zz_elem (size H W H0 W0 : Z) (src : Z -> Z -> Z -> list Z) (t h1 w1 h0 w0 : Z) : list Z :=
  if (h1 * H0 + h0 <? H) && (w1 * W0 + w0 <? W) then src t (h1 * H0 + h0) (w1 * W0 + w0) else zeros size.

Section Proofs.
Context `{E : Env} {HE : EnvOk E}.
Context (dt : DataType) (size T H W H1 W1 H0 W0 : Z).
Context (DN : DimsNd dt size T H W H1 W1 H0 W0).
Local Abbreviation M := (T * H * W).
Local Abbreviation N := (T * H1 * W1 * H0 * W0).
Local Abbreviation num := (W / W0).

Lemma zz_total : N = T * W1 * (H1 * H0) * W0.
Proof. ring. Qed.

Lemma zz_facts : 0 < H1 /\ 0 < N <= 2 ^ 40.
Proof.
  pose proof (dn_facts dt _ _ _ _ _ _ _ _ DN) as (_ & ? & _ & ? & _). destruct DN. rewrite zz_total. split; [nia|done].
Qed.

Definition holds_zz (src : Z -> Z -> Z -> list Z) (out : list Z) : Prop :=
  forall t h1 w1 h0 w0, 0 <= t < T -> 0 <= h1 < H1 -> 0 <= w1 < W1 -> 0 <= h0 < H0 -> 0 <= w0 < W0 ->
    elem size out (idx5 H1 W1 H0 W0 t h1 w1 h0 w0) = zz_elem size H W H0 W0 src t h1 w1 h0 w0.

(** The rows of block row [h1] that belong to the matrix. *)
Lemma block_rows h1 : 0 <= h1 < H1 -> (H - h1 * H0)%i64 = H - h1 * H0 /\ (h1 * H0)%i64 = h1 * H0.
Proof.
  destruct DN. pose proof (dn_facts dt _ _ _ _ _ _ _ _ DN) as (_ & _ & _ & _ & _ & _ & _ & _ & _ & ?). intros.
  assert ((h1 * H0)%i64 = h1 * H0) as -> by (apply wrap64_id; nia). split; [apply wrap64_id; nia|done].
Qed.

(** Offsets of a row of blocks and of the row of the matrix it holds. *)
Lemma zz_offsets t h1 h0 w1 w0 :
  0 <= t < T -> 0 <= h1 < H1 -> 0 <= h0 < H0 -> h1 * H0 + h0 < H -> 0 <= w1 -> 0 <= w0 < W0 -> w1 * W0 + w0 < W ->
  idx5 H1 W1 H0 W0 t h1 0 h0 0 + w1 * (H0 * W0) + w0 = idx5 H1 W1 H0 W0 t h1 w1 h0 w0 /\
  idx3 H W t (h1 * H0 + h0) 0 + w1 * W0 + w0 = idx3 H W t (h1 * H0 + h0) (w1 * W0 + w0) /\
  0 <= idx5 H1 W1 H0 W0 t h1 w1 h0 w0 < N /\ 0 <= idx3 H W t (h1 * H0 + h0) (w1 * W0 + w0) < M.
Proof.
  intros. pose proof DN as []. assert (w1 < W1) by nia. split; [unfold idx5; ring|]. split; [unfold idx3; ring|].
  split; [apply idx5_range; lia|apply idx3_range; nia].
Qed.

Lemma zz_bytes k s : 0 <= k < N -> 0 <= s < M -> - 2 ^ 63 <= k * size < 2 ^ 63 /\ - 2 ^ 63 <= s * size < 2 ^ 63.
Proof.
  intros. pose proof DN as []. pose proof zz_facts as [_ [_ ?]]. split; [by apply (offset_bound k N)|by apply (offset_bound s M)].
Qed.

(** The int64_t offsets of the loops are exact. *)
Lemma zz_run_offset t h1 h0 w1 :
  0 <= t < T -> 0 <= h1 < H1 -> 0 <= h0 < H0 -> h1 * H0 + h0 < H -> 0 <= w1 < num ->
  ((t * (H1 * (W1 * (H0 * W0))) + h1 * (W1 * (H0 * W0)) + h0 * W0 + w1 * (H0 * W0)) * size)%i64
    = (idx5 H1 W1 H0 W0 t h1 0 h0 0 + w1 * (H0 * W0)) * size /\
  ((t * (H * W) + (h1 * H0 + h0) * W + w1 * W0) * size)%i64 = (idx3 H W t (h1 * H0 + h0) 0 + w1 * W0) * size.
Proof.
  intros Ht Hh1 Hh0 Hh Hw1. pose proof DN as []. pose proof (dn_facts dt _ _ _ _ _ _ _ _ DN) as (_ & _ & _ & _ & _ & ? & ? & _).
  assert (w1 * W0 + 0 < W) by nia.
  destruct (zz_offsets t h1 h0 w1 0 Ht Hh1 Hh0 Hh ltac:(lia) ltac:(lia) ltac:(lia)) as (Hk & Hs & Hkr & Hsr).
  rewrite Z.add_0_r in Hk, Hs. rewrite Hk, Hs. destruct (zz_bytes _ _ Hkr Hsr).
  split; wrap_eq; rewrite ?Z.add_0_r in *; done.
Qed.

Lemma zz_rest_offset t h1 h0 w0 :
  0 <= t < T -> 0 <= h1 < H1 -> 0 <= h0 < H0 -> h1 * H0 + h0 < H -> 0 <= w0 < W mod W0 ->
  ((t * (H1 * (W1 * (H0 * W0))) + h1 * (W1 * (H0 * W0)) + h0 * W0 + num * (H0 * W0) + w0) * size)%i64
    = (idx5 H1 W1 H0 W0 t h1 0 h0 0 + num * (H0 * W0) + w0) * size /\
  ((t * (H * W) + (h1 * H0 + h0) * W + (num * W0 + w0)) * size)%i64 = (idx3 H W t (h1 * H0 + h0) 0 + num * W0 + w0) * size.
Proof.
  intros Ht Hh1 Hh0 Hh Hw0. pose proof DN as []. pose proof (dn_facts dt _ _ _ _ _ _ _ _ DN) as (_ & _ & _ & _ & ? & ? & ? & _).
  destruct (zz_offsets t h1 h0 num w0 Ht Hh1 Hh0 Hh ltac:(lia) ltac:(lia) ltac:(lia)) as (Hk & Hs & Hkr & Hsr).
  rewrite Hk, Hs. destruct (zz_bytes _ _ Hkr Hsr). split; wrap_eq; done.
Qed.

Lemma zz_elem_len src k :
  (forall t h w, 0 <= t < T -> 0 <= h < H -> 0 <= w < W -> zlen (src t h w) = size) ->
  0 <= k < N -> zlen (dec5 H1 W1 H0 W0 (zz_elem size H W H0 W0 src) k) = size.
Proof.
  pose proof DN as []. pose proof zz_facts. pose proof (dn_facts dt _ _ _ _ _ _ _ _ DN) as (? & _).
  intros Hs. apply (dec5_all (fun v => zlen v = size) T); [lia..|]. intros t h1 w1 h0 w0 ? ? ? ? ?. unfold zz_elem.
  destruct (Z.ltb_spec (h1 * H0 + h0) H), (Z.ltb_spec (w1 * W0 + w0) W); cbn [andb]; [apply Hs; nia|apply zlen_zeros; lia..].
Qed.

Lemma Trans_nd_zz args result lead d :
  zlen d = M * size -> dst_shape args = lead ++ [H1; W1; H0; W0] -> GetItemNumByShape (dst_shape args) = N ->
  src_data_type args = dt -> data args = Some d ->
  delivers (FractalZz.TransFormatFromNdToFracZz args result [T; H; W]) OUT_OF_MEMORY size N
    (holds_zz (fun t h w => elem size d (idx3 H W t h w))).
Proof.
  intros Hd Hds Hn Hdt Hdata. pose proof DN as [Hsz Hszp HW0 HW0p HH0p HW1 HW1b HH1 HH1b Hpos Hsrc _]. pose proof zz_facts as [HH1p HN].
  pose proof (dn_facts dt _ _ _ _ _ _ _ _ DN) as (HW1p & _ & HM & _ & Hnum & HWd & Hmod & Hlast & HWs & HHs).
  pose proof (bytes_bound N size ltac:(lia) Hszp).
  unfold FractalZz.TransFormatFromNdToFracZz. rewrite Hn, Hdt, Hdata, Hsz.
  assert ((N * size)%i64 = N * size) as -> by (apply wrap64_id; lia).
  destruct (Z.eqb_spec (N * size) 0) as [|_]; [nia|]. unfold delivers, new_uint8_zero.
  destruct (new_uint8 (N * size)) as [b0|] eqn:Hnew; cbn [fmap option_fmap option_map]; [|done].
  cbn [at_ lookup list_lookup mbind outcome_bind kNdDimIndexN kNdDimIndexH kNdDimIndexW]. rewrite Hds.
  destruct (at_tail4 lead H1 W1 H0 W0) as (-> & -> & -> & ->). cbn [mbind outcome_bind].
  rewrite (num_w1 dt _ _ _ _ _ _ _ _ DN). cbn [mbind outcome_bind]. cbv zeta.
  rewrite (rest_w dt _ _ _ _ _ _ _ _ DN), (run_bytes dt _ _ _ _ _ _ _ _ DN), (wrapU64_id (N * size)) by lia.
  set (src := fun t h w => elem size d (idx3 H W t h w)). set (V := dec5 H1 W1 H0 W0 (zz_elem size H W H0 W0 src)).
  assert (HV : forall k, 0 <= k < N -> zlen (V k) = size).
  { intros k. apply zz_elem_len. intros. eapply zlen_elem; [lia|done|by apply idx3_range]. }
  pose proof (zlen_new N size b0 Hnew ltac:(lia) ltac:(lia)) as Hb0. unfold zlen in Hb0.
  eapply (Fills_run_from size N V).
  - apply Fills_for. intros t Ht. apply Fills_for. intros h1 Hh1. destruct (block_rows h1 Hh1) as [Hrows Hh1h0]. rewrite Hrows.
    apply Fills_for. intros h0 Hh0.
    eapply (row_fills dt _ _ _ _ _ _ _ _ DN N M V d (idx5 H1 W1 H0 W0 t h1 0 h0 0) (H0 * W0) (idx3 H W t (h1 * H0 + h0) 0) W0 _ _ _ _ (proj2 HN) HV Hd).
    + intros w1 w0 ? ? ?. destruct (zz_offsets t h1 h0 w1 w0) as (-> & -> & Hkr & Hsr); [lia..|]. split; [done|]. split; [done|].
      assert (w1 < W1) by nia. unfold V. rewrite dec5_at by lia. unfold zz_elem.
      destruct (Z.ltb_spec (h1 * H0 + h0) H), (Z.ltb_spec (w1 * W0 + w0) W); [done|lia..].
    + intros w1 Hw1. apply zz_run_offset; lia.
    + intros w0 Hw0. apply zz_rest_offset; lia.
  - rewrite zlen_repeat_nat. lia.
  - intros k Hk. destruct (idx5_surj k T H1 W1 H0 W0) as (t & h1 & w1 & h0 & w0 & ? & ? & ? & ? & ? & ->); [lia..|].
    destruct (decide (h1 * H0 + h0 < H /\ w1 * W0 + w0 < W)) as [[Hh Hw]|Hout].
    + left. exists t. split; [done|]. exists h1. split; [done|]. exists h0. split; [lia|]. exists w1, w0. split_and!; [lia..|].
      unfold idx5. ring.
    + right. unfold V. rewrite dec5_at by done. unfold zz_elem. rewrite elem_zero; [|lia|lia|nia].
      destruct (Z.ltb_spec (h1 * H0 + h0) H), (Z.ltb_spec (w1 * W0 + w0) W); [lia|done..].
  - intros out Hlen Hout. split; [done|]. intros t h1 w1 h0 w0 ? ? ? ? ?. rewrite Hout by (by apply idx5_range). unfold V. by apply dec5_at.
Qed.

Lemma Trans_zz_nd args result lead d :
  zlen d = N * size -> src_shape args = lead ++ [H1; W1; H0; W0] -> GetItemNumByShape (dst_shape args) = M ->
  src_data_type args = dt -> data args = Some d ->
  delivers (FractalZz.TransFormatFromFracZzToNd args result [T; H; W]) OUT_OF_MEMORY size M (fun out =>
    forall t h w, 0 <= t < T -> 0 <= h < H -> 0 <= w < W ->
      elem size out (idx3 H W t h w) = elem size d (idx5 H1 W1 H0 W0 t (h / H0) (w / W0) (h mod H0) (w mod W0))).
Proof.
  intros Hd Hss Hn Hdt Hdata. pose proof DN as [Hsz Hszp HW0 HW0p HH0p HW1 HW1b HH1 HH1b Hpos Hsrc _]. pose proof zz_facts as [HH1p HN].
  pose proof (dn_facts dt _ _ _ _ _ _ _ _ DN) as (HW1p & _ & HM & _ & Hnum & HWd & Hmod & Hlast & HWs & HHs).
  pose proof (bytes_bound M size ltac:(lia) Hszp).
  unfold FractalZz.TransFormatFromFracZzToNd. rewrite Hn, Hdt, Hdata, Hsz.
  assert ((M * size)%i64 = M * size) as -> by (apply wrap64_id; lia).
  destruct (Z.eqb_spec (M * size) 0) as [|_]; [nia|]. unfold delivers, new_uint8_zero.
  destruct (new_uint8 (M * size)) as [b0|] eqn:Hnew; cbn [fmap option_fmap option_map]; [|done].
  cbn [at_ lookup list_lookup mbind outcome_bind kNdDimIndexN kNdDimIndexH kNdDimIndexW]. rewrite Hss.
  destruct (at_tail4 lead H1 W1 H0 W0) as (-> & -> & -> & ->). cbn [mbind outcome_bind].
  rewrite (num_w1 dt _ _ _ _ _ _ _ _ DN). cbn [mbind outcome_bind]. cbv zeta.
  rewrite (rest_w dt _ _ _ _ _ _ _ _ DN), (run_bytes dt _ _ _ _ _ _ _ _ DN), (wrapU64_id (M * size)) by lia.
  set (V := dec3 H W (fun t h w => elem size d (idx5 H1 W1 H0 W0 t (h / H0) (w / W0) (h mod H0) (w mod W0)))).
  assert (Hplace : forall h, 0 <= h < H -> 0 <= h / H0 < H1 /\ 0 <= h mod H0 < H0 /\ h / H0 * H0 + h mod H0 = h)
    by (intros h Hh; apply (channel_group H H1 H0 h); lia).
  assert (HV : forall k, 0 <= k < M -> zlen (V k) = size).
  { intros k. apply (dec3_all (fun v => zlen v = size) T); [lia..|]. intros t h w ? Hh Hw. destruct (Hplace h Hh) as (? & ? & _).
    destruct (block_place dt _ _ _ _ _ _ _ _ DN w Hw) as (? & ? & _). eapply zlen_elem; [lia|done|by apply idx5_range]. }
  pose proof (zlen_new M size b0 Hnew ltac:(lia) ltac:(lia)) as Hb0. unfold zlen in Hb0.
  eapply (Fills_run size M V).
  - apply Fills_for. intros t Ht. apply Fills_for. intros h1 Hh1. destruct (block_rows h1 Hh1) as [Hrows Hh1h0]. rewrite Hrows.
    apply Fills_for. intros h0 Hh0.
    eapply (row_fills dt _ _ _ _ _ _ _ _ DN M N V d (idx3 H W t (h1 * H0 + h0) 0) W0 (idx5 H1 W1 H0 W0 t h1 0 h0 0) (H0 * W0) _ _ _ _ Hsrc HV Hd).
    + intros w1 w0 ? ? ?. destruct (zz_offsets t h1 h0 w1 w0) as (-> & -> & Hkr & Hsr); [lia..|]. split; [done|]. split; [done|].
      unfold V. rewrite dec3_at by nia. by rewrite !radix_div, !radix_mod by lia.
    + intros w1 Hw1. split; apply zz_run_offset; lia.
    + intros w0 Hw0. split; apply zz_rest_offset; lia.
  - rewrite zlen_repeat_nat. lia.
  - intros out Hlen Hout. split; [done|]. intros t h w ? Hh Hw. destruct (block_place dt _ _ _ _ _ _ _ _ DN w Hw) as (? & ? & Hpw).
    destruct (Hplace h Hh) as (? & ? & Hph). rewrite Hout.
    + unfold V. by rewrite dec3_at.
    + by apply idx3_range.
    + exists t. split; [done|]. exists (h / H0). split; [done|]. exists (h mod H0). split; [lia|]. exists (w / W0), (w mod W0). split_and!; [lia..|].
      rewrite Hph. unfold idx3. rewrite <- Hpw at 1. ring.
Qed.
End Proofs.

(** * Theorems *)
Section Theorems.
Context `{E : Env} {HE : EnvOk E}.
Context (dt : DataType) (f : Format) (shape lead : list Z) (H W : Z) (ds d : list Z).
Local Abbreviation size := (GetSizeByDataType dt).
Local Abbreviation C0 := (GetCubeSizeByDataType dt).
Local Abbreviation T := (prodZ lead).
Local Abbreviation W1 := (Ceil W C0).
Local Abbreviation H1 := (Ceil H C0).
Hypothesis Hview : nd_view shape lead H W.
Hypothesis Hint : Forall (fun d => d < 2 ^ 63) shape.
Hypothesis Hne : 0 < prodZ shape.
Hypothesis Hts : FractalZz.TransShape f shape dt FORMAT_FRACTAL_ZZ = Ok ds.

Lemma TransShapeToFracZz_ok ds' hw :
  0 < size -> IsShapeValid shape = true -> FractalZz.TransShapeToFracZz shape dt = Ok (ds', hw) ->
  ds' = lead ++ [H1; W1; C0; C0] /\ hw = [T; H; W] /\ IsShapeValid ds' = true.
Proof.
  intros Hs Hv. pose proof (nd_facts shape lead H W Hview Hint Hv Hne) as (_ & _ & _ & _ & _ & Hfold & _ & _ & _).
  destruct (cube_pos dt Hs) as [_ Hc0]. unfold FractalZz.TransShapeToFracZz.
  destruct Hview as [Hsh|(Hsh & Hl & HH)]; rewrite Hsh.
  - rewrite shape_cases by (rewrite length_app; cbn; lia). cbv zeta. unfold kNdDimCountBackwardsW, kNdDimCountBackwardsWH, kDimDValueBNdFZz.
    destruct (at_tail2 lead H W) as [-> ->]. cbn [mbind outcome_bind]. rewrite length_app. cbn [length].
    replace (length lead + 2 - 2)%nat with (length lead) by lia. rewrite take_app_length, Hfold.
    destruct (IsShapeValid (lead ++ [H1; _; _; _])) eqn:Hvd; cbn [negb]; [|done]. intros [= <- <-]. done.
  - rewrite Hl, HH. destruct (IsShapeValid [_; W1; C0; C0]) eqn:Hvd; cbn [negb]; [|done]. intros [= <- <-].
    assert (Ceil 1 C0 = 1) as ->; [|done]. assert (0 < Ceil 1 C0 <= 1) by (apply Ceil_le; lia). lia.
Qed.

Lemma zz_checked :
  0 < size /\ FractalZz.CheckShape f shape = true /\ IsShapeValid shape = true /\ ds = lead ++ [H1; W1; C0; C0] /\ IsShapeValid ds = true /\
  FractalZz.TransShapeToFracZz shape dt = Ok (ds, [T; H; W]) /\ DimsNd dt size T H W H1 W1 C0 C0 /\
  GetItemNumByShape ds = T * H1 * W1 * C0 * C0 /\ GetItemNumByShape shape = T * H * W.
Proof.
  unfold FractalZz.TransShape, FractalZz.IsDataTypeSupport in Hts. destruct (Z.ltb_spec 0 size) as [Hs|]; [|done]. cbn [negb] in Hts.
  destruct (FractalZz.CheckShape f shape) eqn:Hck; [|done]. cbn [negb] in Hts.
  assert (Hv : IsShapeValid shape = true).
  { unfold FractalZz.CheckShape in Hck. destruct f; try done; unfold CheckShapeValid in Hck; by destruct (_ || _). }
  destruct (FractalZz.TransShapeToFracZz shape dt) as [[ds0 hw]|e|] eqn:Hr; [|done..]. cbn in Hts. injection Hts as Hds0. rewrite Hds0 in *.
  destruct (TransShapeToFracZz_ok ds hw Hs Hv Hr) as (Hds & Hhw & Hvd). rewrite Hhw in *.
  pose proof (nd_facts shape lead H W Hview Hint Hv Hne) as (_ & _ & _ & _ & Hn & _). destruct (cube_pos dt Hs) as [_ Hc0].
  destruct (nd_dims dt shape lead H W Hview Hint Hv Hne Hs C0 H1 W1) as [HD HN]; [lia|by right|by rewrite <- Hds|].
  rewrite <- Hds, <- zz_total in HN. done.
Qed.

Lemma nd_to_zz_run result :
  zlen d = prodZ shape * size ->
  delivers (FractalZz.TransFormat (mk_args (Some d) f FORMAT_FRACTAL_ZZ shape ds dt) result)
    OUT_OF_MEMORY size (T * H1 * W1 * C0 * C0) (holds_zz size T H W H1 W1 C0 C0 (fun t h w => elem size d (idx3 H W t h w))).
Proof.
  intros Hd. destruct zz_checked as (Hs & Hck & Hv & Hds & Hvd & Hr & HD & HN & Hn).
  unfold FractalZz.TransFormat, FractalZz.IsDataTypeSupport. cbn [mk_args src_data_type src_format src_shape dst_shape].
  destruct (Z.ltb_spec 0 size); [|lia]. rewrite Hck, Hvd, Hr. cbn [negb orb mbind outcome_bind].
  unfold IsTransShapeDstCorrect. cbn [mk_args dst_shape]. rewrite (bool_decide_eq_true_2 (ds = ds)) by done. cbn [negb]. rewrite andb_false_r. cbn [negb].
  rewrite (nd_view_prod _ _ _ _ Hview) in Hd. by eapply (Trans_nd_zz dt); [exact HD|done|cbn; exact Hds|..].
Qed.

(** A non-empty tensor of any rank whose shape TransShape accepts is transferred to FRACTAL_ZZ: the target
    shape is the leading dimensions and [ceil(H/C0); ceil(W/C0); C0; C0]; TransFormat succeeds
    unless the buffer cannot be allocated; the element at place (h0, w0) of block (h1, w1) is the
    source element of row h1 * C0 + h0 and column w1 * C0 + w0, or zero in the padding. *)
Theorem nd_to_zz_correct result :
  zlen d = prodZ shape * GetSizeByDataType dt ->
  ds = lead ++ [H1; W1; C0; C0] /\
  delivers (FractalZz.TransFormat (mk_args (Some d) f FORMAT_FRACTAL_ZZ shape ds dt) result)
    OUT_OF_MEMORY size (T * H1 * W1 * C0 * C0) (fun out =>
    forall t h1 w1 h0 w0, 0 <= t < T -> 0 <= h1 < H1 -> 0 <= w1 < W1 -> 0 <= h0 < C0 -> 0 <= w0 < C0 ->
      elem size out (idx5 H1 W1 C0 C0 t h1 w1 h0 w0)
      = if (h1 * C0 + h0 <? H) && (w1 * C0 + w0 <? W) then elem size d (idx3 H W t (h1 * C0 + h0) (w1 * C0 + w0)) else zeros size).
Proof. intros Hd. split; [apply zz_checked|by apply nd_to_zz_run]. Qed.

(** To FRACTAL_ZZ and back restores the bytes, for every rank and for each of ND, NCHW and NHWC. *)
Theorem zz_roundtrip result result' r :
  zlen d = prodZ shape * GetSizeByDataType dt ->
  FractalZz.TransFormat (mk_args (Some d) f FORMAT_FRACTAL_ZZ shape ds dt) result = Ok r ->
  delivers (FractalZz.TransFormatND (mk_args (res_data r) FORMAT_FRACTAL_ZZ f ds shape dt) result')
    OUT_OF_MEMORY size (prodZ shape) (fun out => out = d).
Proof.
  intros Hd Hr. pose proof (nd_to_zz_run result Hd) as Hfw. destruct zz_checked as (Hs & Hck & Hv & Hds & Hvd & Hrr & HD & HN & Hn).
  destruct (delivers_ok _ _ _ _ _ _ Hfw Hr) as (b & -> & _ & Hlb & Hb). rewrite (nd_view_prod _ _ _ _ Hview) in *.
  unfold FractalZz.TransFormatND, FractalZz.IsDataTypeSupport, FractalZz.CheckShapeRelation.
  cbn [mk_args src_data_type dst_format src_shape dst_shape]. destruct (Z.ltb_spec 0 size); [|lia].
  rewrite Hck, Hvd, Hrr. cbn [negb orb or_else mbind outcome_bind]. unfold IsTransShapeSrcCorrect. cbn [mk_args src_shape].
  rewrite bool_decide_eq_true_2 by done. cbn [negb or_else mbind outcome_bind].
  eapply delivers_mono; [by eapply (Trans_zz_nd dt _ _ _ _ _ _ _ _ HD); [exact Hlb|cbn; exact Hds|..]|].
  intros out Hl Hout. pose proof HD as []. pose proof (dn_facts dt _ _ _ _ _ _ _ _ HD) as (? & ? & ? & ? & _).
  eapply elem_ext; [|done|done|]; [lia|]. intros k Hk.
  destruct (idx3_surj k T H W) as (t & h & w & ? & ? & ? & ->); [lia..|].
  destruct (block_place dt _ _ _ _ _ _ _ _ HD w) as (? & ? & Hp); [done|].
  destruct (channel_group H (Ceil H C0) C0 h) as (? & ? & Hph); [lia..|]. rewrite Hout, Hb by lia. unfold zz_elem. rewrite Hp, Hph.
  destruct (Z.ltb_spec h H), (Z.ltb_spec w W); [done|lia..].
Qed.
End Theorems.

(** A 2 x 1 matrix of float16 values. *)
Definition sample_zz : list Z := [1; 2] ++ repeat 0 30 ++ [3; 4] ++ repeat 0 478.

Lemma nd_to_zz_correct_witness :
  exists out, FractalZz.TransFormat (E := sample_env) (mk_args (Some [1; 2; 3; 4]) FORMAT_ND FORMAT_FRACTAL_ZZ [2; 1] [1; 1; 16; 16] DT_FLOAT16)
      {| res_data := None; res_length := 0 |} = Ok {| res_data := Some out; res_length := 512 |} /\ zlen out = 512 /\ elem 2 out 16 = [3; 4].
Proof.
  destruct (nd_to_zz_correct (E := sample_env) DT_FLOAT16 FORMAT_ND [2; 1] [] 2 1 [1; 1; 16; 16] [1; 2; 3; 4] ltac:(by left)
    ltac:(repeat constructor; lia) ltac:(done) ltac:(vm_compute; reflexivity) {| res_data := None; res_length := 0 |} ltac:(done))
    as [_ (out & Hr & Hl & Hout)].
  exists out. split; [exact Hr|]. split; [exact Hl|].
  exact (Hout 0 0 0 1 0 ltac:(vm_compute; split; congruence) ltac:(vm_compute; split; congruence)
    ltac:(vm_compute; split; congruence) ltac:(vm_compute; split; congruence) ltac:(vm_compute; split; congruence)).
Defined.

Lemma zz_roundtrip_witness :
  exists out, FractalZz.TransFormatND (E := sample_env) (mk_args (Some sample_zz) FORMAT_FRACTAL_ZZ FORMAT_ND [1; 1; 16; 16] [2; 1] DT_FLOAT16)
      {| res_data := None; res_length := 0 |} = Ok {| res_data := Some out; res_length := 4 |} /\ zlen out = 4 /\ out = [1; 2; 3; 4].
Proof.
  apply (zz_roundtrip (E := sample_env) DT_FLOAT16 FORMAT_ND [2; 1] [] 2 1 [1; 1; 16; 16] [1; 2; 3; 4] ltac:(by left)
    ltac:(repeat constructor; lia) ltac:(done) ltac:(vm_compute; reflexivity) {| res_data := None; res_length := 0 |}
    {| res_data := None; res_length := 0 |} {| res_data := Some sample_zz; res_length := 512 |}); [done|vm_compute; reflexivity].
Defined.
