(* ===== verification/FormatTranspose.v ===== *)
(** Transposition of a tensor of any rank
    (ge/common/formats/format_transfers/format_transfer_transpose.cc).

    [Transpose] walks the destination linearly with an odometer of indexes
    (AddOne) and gathers from the source with permuted strides (GenHeads,
    GenOffset).  The theorems show that the element at a multi-index moves to the
    permuted multi-index, for every rank and every permutation the checks accept,
    and that the permutations of the format table undo each other. *)
From S2P Require Import Prelude Buffer FormatsUtils.

Module Transpose.
Section Model.
Context `{E : Env}.

Definition perm_args (src_format dst_format : Format) : option (list Z) :=
  match src_format, dst_format with
  | FORMAT_NCHW, FORMAT_NHWC => Some (Z.of_nat <$> [kNchwN; kNchwH; kNchwW; kNchwC])
  | FORMAT_NCHW, FORMAT_HWCN => Some (Z.of_nat <$> [kNchwH; kNchwW; kNchwC; kNchwN])
  | FORMAT_NCHW, FORMAT_CHWN => Some (Z.of_nat <$> [kNchwC; kNchwH; kNchwW; kNchwN])
  | FORMAT_NHWC, FORMAT_NCHW => Some (Z.of_nat <$> [kNhwcN; kNhwcC; kNhwcH; kNhwcW])
  | FORMAT_NHWC, FORMAT_CHWN => Some (Z.of_nat <$> [kNhwcC; kNhwcH; kNhwcW; kNhwcN])
  | FORMAT_NHWC, FORMAT_HWCN => Some (Z.of_nat <$> [kNhwcH; kNhwcW; kNhwcC; kNhwcN])
  | FORMAT_HWCN, FORMAT_NCHW => Some (Z.of_nat <$> [kHwcnN; kHwcnC; kHwcnH; kHwcnW])
  | FORMAT_HWCN, FORMAT_NHWC => Some (Z.of_nat <$> [kHwcnN; kHwcnH; kHwcnW; kHwcnC])
  | FORMAT_HWCN, FORMAT_CHWN => Some (Z.of_nat <$> [kHwcnC; kHwcnH; kHwcnW; kHwcnN])
  | FORMAT_CHWN, FORMAT_NCHW => Some (Z.of_nat <$> [kChwnN; kChwnC; kChwnH; kChwnW])
  | FORMAT_CHWN, FORMAT_NHWC => Some (Z.of_nat <$> [kChwnN; kChwnH; kChwnW; kChwnC])
  | FORMAT_CHWN, FORMAT_HWCN => Some (Z.of_nat <$> [kChwnH; kChwnW; kChwnC; kChwnN])
  | _, _ => None
  end.

(** The loop over perm_arg: [exists_] counts the occurrences seen so far; its
    index is checked before it is used. *)
Fixpoint perm_loop (exists_ perm_arg : list Z) : bool :=
  match perm_arg with
  | [] => true
  | perm :: perm_arg =>
      if (perm <? 0) || (zlen exists_ <=? wrapU64 perm) then false else
      let count := (default 0 (exists_ !! Z.to_nat perm) + 1)%i64 in
      if 1 <? count then false else perm_loop (<[Z.to_nat perm := count]> exists_) perm_arg
  end.

Definition IsShapeArgValid (src_shape perm_arg : list Z) : bool :=
  if bool_decide (src_shape = []) then false else
  if existsb (fun dim => dim <? 0) src_shape then false else
  if negb (zlen perm_arg =? zlen src_shape) then false else
  perm_loop (repeat 0 (length perm_arg)) perm_arg.

Definition IsTransposeArgValid (src : option (list Z)) (src_shape : list Z) (src_data_type : DataType)
    (perm_arg : list Z) : bool :=
  if bool_decide (src = None) then false else
  if GetSizeByDataType src_data_type <? 0 then false else
  IsShapeArgValid src_shape perm_arg.

(** The loop runs from the last dimension down: heads[i] = shape[i+1] * heads[i+1]. *)
Fixpoint GenHeads (shape : list Z) : list Z :=
  match shape with
  | [] => []
  | _ :: shape' =>
      let heads := GenHeads shape' in
      match shape' with
      | [] => 1 :: heads
      | s :: _ => (s * hd 0 heads)%i64 :: heads
      end
  end.

Fixpoint GenOffset_loop (offset : Z) (offsets indexes : list Z) : outcome Z :=
  match indexes, offsets with
  | [], _ => Ok offset
  | x :: indexes, o :: offsets => GenOffset_loop (offset + o * x)%i64 offsets indexes
  | _ :: _, [] => Stuck
  end.
Definition GenOffset (offsets indexes : list Z) : outcome Z := GenOffset_loop 0 offsets indexes.

(** `while (i > 0)`: carry from position [i] to position [i - 1]. *)
Fixpoint AddOne_loop (shape : list Z) (i : nat) (indexes : list Z) : outcome (list Z) :=
  match i with
  | O => Ok indexes
  | S j =>
      x ← at_ indexes i;
      d ← at_ shape i;
      if d <=? x then
        indexes ← vset indexes (Z.of_nat i) 0;
        y ← at_ indexes j;
        indexes ← vset indexes (Z.of_nat j) (y + 1)%i64;
        AddOne_loop shape j indexes
      else Ok indexes
  end.

Definition AddOne (shape indexes : list Z) : outcome (list Z) :=
  let i := (length indexes - 1)%nat in
  x ← at_ indexes i;
  indexes ← vset indexes (Z.of_nat i) (x + 1)%i64;
  AddOne_loop shape i indexes.

Fixpoint TransShapeByPerm_loop (src_shape perm_arg : list Z) (i : Z) (dst_shape : list Z) : outcome (list Z) :=
  match perm_arg with
  | [] => Ok dst_shape
  | perm :: perm_arg =>
      x ← vget src_shape perm;
      dst_shape ← vset dst_shape i x;
      TransShapeByPerm_loop src_shape perm_arg (i + 1) dst_shape
  end.
Definition TransShapeByPerm (src_shape perm_arg : list Z) : outcome (list Z) :=
  TransShapeByPerm_loop src_shape perm_arg 0 (repeat 0 (length src_shape)).

(** One iteration of the copy loop, on the buffer and the odometer. *)
Definition copy_step (src : option (list Z)) (dst_shape src_heads : list Z) (data_size dst_size dst_index : Z)
    (st : list Z * list Z) : outcome (list Z * list Z) :=
  let '(dst, dst_indexes) := st in
  off ← GenOffset src_heads dst_indexes;
  let src_offset := (off * data_size)%i64 in
  let dst_offset_bytes := (dst_index * data_size)%i64 in
  let protected_size := protected_size dst_size dst_offset_bytes in
  dst ← check_eok (memcpy_s dst dst_offset_bytes (wrapU64 protected_size) src src_offset (wrapU64 data_size));
  dst_indexes ← AddOne dst_shape dst_indexes;
  Ok (dst, dst_indexes).

Definition Transpose (src : option (list Z)) (src_shape : list Z) (src_data_type : DataType) (perm_arg : list Z)
    (result : TransResult) : outcome TransResult :=
  if negb (IsTransposeArgValid src src_shape src_data_type perm_arg) then Err PARAM_INVALID else
  dst_shape ← TransShapeByPerm src_shape perm_arg;
  let src_origin_ordered_heads := GenHeads src_shape in
  src_heads ← TransShapeByPerm src_origin_ordered_heads perm_arg;
  let dst_ele_num := GetItemNumByShape dst_shape in
  let data_size := GetSizeByDataType src_data_type in
  let dst_size := (data_size * dst_ele_num)%i64 in
  if dst_ele_num =? 0 then Ok {| res_data := res_data result; res_length := wrapU64 dst_size |} else
  match new_uint8 dst_size with
  | None =>
      (* the allocation is not checked: the first memcpy_s sees a null destination *)
      if dst_ele_num <=? 0 then Ok {| res_data := None; res_length := wrapU64 dst_size |}
      else if memcpy_s_null_dst =? EOK then Stuck else Err INTERNAL_ERROR
  | Some dst =>
      '(dst, _) ← for_range dst_ele_num (copy_step src dst_shape src_heads data_size dst_size)
                    (dst, repeat 0 (length dst_shape));
      Ok {| res_data := Some dst; res_length := wrapU64 dst_size |}
  end.

(** A destination shape that is not the expected one is logged, and the
    transposition goes on. *)
Definition TransposeWithShapeCheck (data : option (list Z)) (src_shape dst_shape : list Z) (src_data_type : DataType)
    (perm_arg : list Z) (result : TransResult) : outcome TransResult :=
  if negb (IsTransposeArgValid data src_shape src_data_type perm_arg) then Err PARAM_INVALID else
  expected_shape ← TransShapeByPerm src_shape perm_arg;
  Transpose data src_shape src_data_type perm_arg result.

Definition GetPermByForamt (src_format dst_format : Format) : outcome (list Z) :=
  match perm_args src_format dst_format with
  | Some perm => Ok perm
  | None => Err ACL_ERROR_GE_TRANSSHAPE_FORMAT_INVALID
  end.

Definition TransShape (src_format : Format) (src_shape : list Z) (data_type : DataType) (dst_format : Format) :
    outcome (list Z) :=
  perm_arg ← GetPermByForamt src_format dst_format;
  if negb (IsShapeArgValid src_shape perm_arg) then Err ACL_ERROR_GE_TRANSSHAPE_SHAPE_INVALID else
  TransShapeByPerm src_shape perm_arg.

Definition TransFormat (args : TransArgs) (result : TransResult) : outcome TransResult :=
  expected_shape ← TransShape (src_format args) (src_shape args) (src_data_type args) (dst_format args);
  if negb (IsTransShapeDstCorrect args expected_shape) then Err PARAM_INVALID else
  Transpose (data args) (src_shape args) (src_data_type args)
    (default [] (perm_args (src_format args) (dst_format args))) result.
End Model.
End Transpose.

(** * Specification: row-major indices of any rank *)
Fixpoint linear (shape idx : list Z) : Z :=
  match shape, idx with
  | _ :: shape, i :: idx => i * prodZ shape + linear shape idx
  | _, _ => 0
  end.

(** The multi-index of a linear index. *)
Fixpoint digits (shape : list Z) (k : Z) : list Z :=
  match shape with
  | [] => []
  | _ :: shape => k / prodZ shape :: digits shape (k mod prodZ shape)
  end.

Definition in_shape (shape idx : list Z) : Prop := Forall2 (fun i d => 0 <= i < d) idx shape.

(** [permute perm l]: the list whose element [i] is [l[perm[i]]]. *)
Definition permute {A} `{Inhabited A} (perm : list Z) (l : list A) : list A :=
  (fun p => l !!! Z.to_nat p) <$> perm.

Definition is_perm (n : nat) (perm : list Z) : Prop := perm ≡ₚ seqZ 0 (Z.of_nat n).

Lemma prodZ_cons d l : prodZ (d :: l) = d * prodZ l.
Proof. reflexivity. Qed.

Lemma prodZ_gt0 l : Forall (Z.lt 0) l -> 0 < prodZ l.
Proof. induction 1; [done|]. rewrite prodZ_cons. nia. Qed.

Lemma prodZ_take_le l n : Forall (Z.lt 0) l -> prodZ (take n l) <= prodZ l.
Proof.
  intros HF. rewrite <- (take_drop n l) at 2. rewrite prodZ_app.
  pose proof (prodZ_gt0 _ (Forall_take _ n _ HF)). pose proof (prodZ_gt0 _ (Forall_drop _ n _ HF)). nia.
Qed.

Lemma prodZ_perm l l' : l ≡ₚ l' -> prodZ l = prodZ l'.
Proof. induction 1; rewrite ?prodZ_cons; [done|congruence|ring|congruence]. Qed.

Lemma linear_range shape idx : in_shape shape idx -> 0 <= linear shape idx < prodZ shape.
Proof.
  induction 1 as [|i d idx shape Hi HF IH]; [done|]. cbn [linear]. rewrite prodZ_cons. by apply radix_range.
Qed.

Lemma in_shape_pos shape idx : in_shape shape idx -> Forall (Z.lt 0) shape.
Proof. induction 1; constructor; [lia|done]. Qed.

Lemma digits_linear shape idx : in_shape shape idx -> digits shape (linear shape idx) = idx.
Proof.
  induction 1 as [|i d idx shape Hi HF IH]; [done|]. cbn [linear digits].
  pose proof (linear_range shape idx HF). rewrite radix_div, radix_mod by done. by rewrite IH.
Qed.

Lemma digits_in_shape shape k : Forall (Z.lt 0) shape -> 0 <= k < prodZ shape -> in_shape shape (digits shape k).
Proof.
  intros HF. revert k. induction HF as [|d shape Hd HF IH]; intros k Hk; [constructor|].
  rewrite prodZ_cons in Hk. pose proof (prodZ_gt0 _ HF). constructor; [by apply div_range|].
  apply IH. by apply Z.mod_pos_bound.
Qed.

Lemma linear_digits shape k : Forall (Z.lt 0) shape -> 0 <= k < prodZ shape -> linear shape (digits shape k) = k.
Proof.
  intros HF. revert k. induction HF as [|d shape Hd HF IH]; intros k Hk; [cbn in *; lia|].
  cbn [linear digits]. pose proof (prodZ_gt0 _ HF). rewrite IH by (by apply Z.mod_pos_bound).
  symmetry. by apply radix_split.
Qed.

Lemma length_digits shape k : length (digits shape k) = length shape.
Proof. revert k. induction shape; intros; cbn; auto. Qed.

(** The last digit is split off by one division. *)
Lemma digits_snoc s d e k :
  Forall (Z.lt 0) (e :: s) -> 0 < d -> 0 <= k ->
  digits ((e :: s) ++ [d]) k = digits (e :: s) (k / d) ++ [k mod d].
Proof.
  revert e k. induction s as [|e' s IH]; intros e k HF Hd Hk.
  - cbn. by rewrite !Z.mul_1_r, !Z.div_1_r.
  - apply Forall_cons in HF as [He HF]. change ((e :: e' :: s) ++ [d]) with (e :: (e' :: s) ++ [d]).
    pose proof (prodZ_gt0 _ HF) as Hp. set (P := prodZ (e' :: s)) in *.
    assert (prodZ ((e' :: s) ++ [d]) = d * P) as HP by (rewrite prodZ_app; unfold P; cbn; ring).
    change (digits (e :: ?l) ?k) with (k / prodZ l :: digits l (k mod prodZ l)).
    rewrite HP, IH by (try apply Z.mod_pos_bound; try done; lia). fold P. cbn [app].
    f_equal; [by rewrite Z.div_div by lia|]. f_equal.
    + f_equal. rewrite Z.rem_mul_r by lia. rewrite Z.mul_comm, Z.div_add by lia.
      rewrite Z.div_small by (by apply Z.mod_pos_bound). lia.
    + f_equal. rewrite Z.rem_mul_r by lia. rewrite Z.mul_comm, Z.mod_add by lia. by rewrite Z.mod_mod by lia.
Qed.

(** * The odometer counts *)
Definition init_digits (s : list Z) (d k : Z) : list Z := match s with [] => [] | _ => digits s (k / d) end.
Definition last_digit (s : list Z) (d k : Z) : Z := match s with [] => k | _ => k mod d end.

Lemma digits_split s d k :
  Forall (Z.lt 0) s -> 0 < d -> 0 <= k -> digits (s ++ [d]) k = init_digits s d k ++ [last_digit s d k].
Proof. destruct s as [|e s]; [intros; cbn; by rewrite Z.div_1_r|]. apply digits_snoc. Qed.

Lemma length_init_digits s d k : length (init_digits s d k) = length s.
Proof. destruct s; [done|]. apply length_digits. Qed.

Lemma last_digit_range s d k : 0 < d -> 0 <= k -> 0 <= last_digit s d k <= k.
Proof.
  intros. destruct s; cbn; [lia|]. pose proof (Z.mod_pos_bound k d). pose proof (Z.mod_le k d). lia.
Qed.

Lemma at_middle {A} (l1 l2 : list A) x i : i = length l1 -> at_ (l1 ++ x :: l2) i = Ok x.
Proof. intros ->. unfold at_. by rewrite list_lookup_middle. Qed.

Lemma vset_middle {A} (l1 l2 : list A) x y i :
  i = Z.of_nat (length l1) -> vset (l1 ++ x :: l2) i y = Ok (l1 ++ y :: l2).
Proof.
  intros ->. unfold vset. rewrite length_app. cbn [length].
  destruct (Z.ltb_spec (Z.of_nat (length l1)) 0); [lia|].
  destruct (Z.leb_spec (Z.of_nat (length l1 + S (length l2))) (Z.of_nat (length l1))); [lia|]. cbn.
  rewrite Nat2Z.id. by rewrite insert_app_r_alt, Nat.sub_diag by done.
Qed.

Lemma add64_small a b : - 2 ^ 63 <= a + b < 2 ^ 63 -> (a + b)%i64 = a + b.
Proof. apply wrap64_id. Qed.

Lemma carry_digits d k :
  0 < d -> 0 <= k ->
  if d <=? k mod d + 1 then (k + 1) / d = k / d + 1 /\ (k + 1) mod d = 0
  else (k + 1) / d = k / d /\ (k + 1) mod d = k mod d + 1.
Proof.
  intros Hd Hk. pose proof (Z.mod_pos_bound k d Hd) as Hm. pose proof (radix_split k d Hd) as Hs.
  destruct (Z.leb_spec d (k mod d + 1)).
  - replace (k + 1) with ((k / d + 1) * d + 0) by lia. rewrite radix_div, radix_mod by lia. done.
  - replace (k + 1) with (k / d * d + (k mod d + 1)) by lia. rewrite radix_div, radix_mod by lia. done.
Qed.

Lemma AddOne_loop_digits s : forall d t post k,
  Forall (Z.lt 0) s -> 0 < d -> 0 <= k < 2 ^ 62 ->
  Transpose.AddOne_loop (s ++ d :: t) (length s) (init_digits s d k ++ (last_digit s d k + 1) :: post)
  = Ok (digits (s ++ [d]) (k + 1) ++ post).
Proof.
  induction s as [|e s IH] using rev_ind; intros d t post k Hs Hd Hk.
  { cbn. by rewrite Z.div_1_r. }
  rewrite length_app, Nat.add_1_r. cbn [length Transpose.AddOne_loop].
  pose proof Hs as Hse. apply Forall_app in Hs as [Hs He]. apply Forall_cons in He as [He _].
  assert (init_digits (s ++ [e]) d k = digits (s ++ [e]) (k / d)) as Hi by (by destruct s).
  assert (forall j, last_digit (s ++ [e]) d j = j mod d) as Hl by (by destruct s).
  assert (init_digits (s ++ [e]) d (k + 1) = digits (s ++ [e]) ((k + 1) / d)) as Hi' by (by destruct s).
  rewrite (digits_split (s ++ [e]) d (k + 1)) by (done || lia). rewrite Hi, Hi', !Hl.
  rewrite !at_middle by (rewrite ?length_digits, length_app, Nat.add_1_r; done). cbn [mbind outcome_bind].
  pose proof (carry_digits d k Hd ltac:(lia)) as Hc.
  destruct (d <=? k mod d + 1); destruct Hc as [-> ->].
  - rewrite vset_middle by (rewrite length_digits, length_app, Nat.add_1_r; done). cbn [mbind outcome_bind].
    assert (0 <= k / d <= k) by (split; [apply Z.div_pos; lia|apply Z.div_le_upper_bound; nia]).
    rewrite (digits_split s e (k / d)) by (done || lia). rewrite <- !app_assoc. cbn [app].
    pose proof (last_digit_range s e (k / d) He ltac:(lia)).
    rewrite at_middle by (by rewrite length_init_digits). cbn [mbind outcome_bind].
    rewrite vset_middle by (by rewrite length_init_digits). cbn [mbind outcome_bind].
    rewrite add64_small by lia. rewrite IH by (done || lia).
    done.
  - by rewrite <- app_assoc.
Qed.

(** [AddOne] on the digits of [k] gives the digits of [k + 1]. *)
Lemma AddOne_digits shape k :
  shape <> [] -> Forall (Z.lt 0) shape -> 0 <= k < 2 ^ 62 ->
  Transpose.AddOne shape (digits shape k) = Ok (digits shape (k + 1)).
Proof.
  intros Hne HF Hk. destruct shape as [|d s _] using rev_ind; [done|].
  apply Forall_app in HF as [Hs Hd]. apply Forall_cons in Hd as [Hd _].
  unfold Transpose.AddOne. rewrite length_digits, length_app. cbn [length].
  replace (length s + 1 - 1)%nat with (length s) by lia. rewrite (digits_split s d k) by (done || lia).
  pose proof (last_digit_range s d k Hd ltac:(lia)).
  rewrite at_middle by (by rewrite length_init_digits). cbn [mbind outcome_bind].
  rewrite vset_middle by (by rewrite length_init_digits). cbn [mbind outcome_bind].
  rewrite add64_small by lia. rewrite (AddOne_loop_digits s d [] [] k) by done. by rewrite app_nil_r.
Qed.

Lemma digits_0 shape : Forall (Z.lt 0) shape -> digits shape 0 = repeat 0 (length shape).
Proof. induction 1 as [|d s Hd HF IH]; [done|]. cbn. by rewrite Z.div_0_l, Z.mod_0_l, IH by (pose proof (prodZ_gt0 s HF); lia). Qed.

(** * What the argument check accepts *)
Lemma perm_loop_spec ps : forall ex,
  Forall (fun e => e = 0 \/ e = 1) ex -> Forall (fun p => p < 2 ^ 63) ps ->
  Transpose.perm_loop ex ps = true <->
  Forall (fun p => 0 <= p < zlen ex /\ ex !! Z.to_nat p = Some 0) ps /\ NoDup ps.
Proof.
  induction ps as [|p ps IH]; intros ex Hex Hps; cbn [Transpose.perm_loop].
  { split; [|done]. intros _. split; [constructor|by apply NoDup_nil]. }
  rewrite Forall_cons, NoDup_cons. apply Forall_cons in Hps as [Hp Hps]. cbv zeta.
  destruct (Z.ltb_spec p 0); cbn [orb]; [split; [done|lia]|]. rewrite wrapU64_id by lia.
  destruct (Z.leb_spec (zlen ex) p) as [Hge|Hlt]; [split; [done|lia]|].
  destruct (lookup_lt_is_Some_2 ex (Z.to_nat p)) as [e He]; [unfold zlen in *; lia|].
  rewrite He. unfold default, id. pose proof (proj1 (Forall_lookup _ _) Hex _ _ He) as [->| ->].
  - change (add64 0 1) with 1. cbn [Z.ltb Z.compare Pos.compare Pos.compare_cont].
    rewrite IH.
    + unfold zlen. rewrite length_insert. fold (zlen ex).
      split.
      * intros [HF Hnd]. split_and!; try done.
        -- rewrite Forall_forall in *. intros q Hq. destruct (HF q Hq) as [? Hq'].
           split; [done|]. rewrite list_lookup_insert_ne in Hq'; [done|]. intros Heq.
           rewrite Heq, list_lookup_insert_eq in Hq' by (unfold zlen in *; lia). done.
        -- intros Hin. rewrite Forall_forall in HF. destruct (HF p Hin) as [_ Hq'].
           by rewrite list_lookup_insert_eq in Hq' by (unfold zlen in *; lia).
      * intros [[_ HF] [Hnin Hnd]]. split; [|done]. rewrite Forall_forall in *. intros q Hq.
        destruct (HF q Hq) as [? Hq']. split; [done|]. rewrite list_lookup_insert_ne; [done|].
        intros Heq. assert (p = q) as -> by lia. done.
    + apply Forall_insert; [done|by right].
    + done.
  - split; [done|]. intros [[[_ ?] _] _]. done.
Qed.

Lemma IsShapeArgValid_spec src_shape perm :
  Forall (fun p => p < 2 ^ 63) perm ->
  Transpose.IsShapeArgValid src_shape perm = true <->
  src_shape <> [] /\ Forall (Z.le 0) src_shape /\ is_perm (length src_shape) perm.
Proof.
  intros Hp. unfold Transpose.IsShapeArgValid.
  destruct (bool_decide_reflect (src_shape = [])); [naive_solver|].
  destruct (existsb (fun dim => dim <? 0) src_shape) eqn:Hneg.
  { split; [done|]. intros (_ & HF & _). apply existsb_exists in Hneg as (d & Hin & Hd%Z.ltb_lt).
    rewrite Forall_forall in HF. apply list_elem_of_In in Hin. specialize (HF d Hin). lia. }
  assert (Forall (Z.le 0) src_shape) as Hpos.
  { rewrite Forall_forall. intros d Hin. apply list_elem_of_In in Hin.
    destruct (Z.le_gt_cases 0 d) as [|Hd]; [done|]. exfalso. apply not_true_iff_false in Hneg. apply Hneg.
    apply existsb_exists. exists d. split; [done|]. by apply Z.ltb_lt. }
  unfold is_perm, zlen.
  destruct (Z.eqb_spec (Z.of_nat (length perm)) (Z.of_nat (length src_shape))) as [Hl|Hl]; cbn [negb].
  2: { split; [done|]. intros (_ & _ & Hpm). apply Permutation_length in Hpm. rewrite length_seqZ in Hpm. lia. }
  apply Nat2Z.inj in Hl. rewrite perm_loop_spec by (done || (apply Forall_forall; intros ? ?%list_elem_of_In%repeat_spec; by left)).
  unfold zlen. rewrite repeat_length, <- Hl. split.
  - intros [HF Hnd]. split_and!; [done|done|]. apply submseteq_length_Permutation.
    + apply NoDup_submseteq; [done|]. intros p Hin. rewrite Forall_forall in HF. apply elem_of_seqZ.
      destruct (HF p Hin). lia.
    + rewrite length_seqZ. lia.
  - intros (_ & _ & Hpm). split.
    + rewrite Forall_forall. intros p Hin. rewrite Hpm, elem_of_seqZ in Hin. split; [lia|].
      apply lookup_repeat. lia.
    + rewrite Hpm. apply NoDup_seqZ.
Qed.

(** * Permuted lists *)
Section Permute.
Context {A : Type} `{Inhabited A}.

Lemma length_permute perm (l : list A) : length (permute perm l) = length perm.
Proof. apply length_fmap. Qed.

Lemma permute_seqZ (l : list A) : permute (seqZ 0 (zlen l)) l = l.
Proof.
  apply list_eq. intros i. unfold permute. rewrite list_lookup_fmap.
  destruct (l !! i) as [x|] eqn:Hi.
  - pose proof (lookup_lt_Some _ _ _ Hi). rewrite lookup_seqZ_lt by (unfold zlen; lia). cbn.
    rewrite Z.add_0_l, Nat2Z.id. by rewrite (list_lookup_total_correct _ _ _ Hi).
  - apply lookup_ge_None_1 in Hi. by rewrite lookup_seqZ_ge by (unfold zlen; lia).
Qed.

Lemma permute_Permutation perm (l : list A) : is_perm (length l) perm -> permute perm l ≡ₚ l.
Proof. intros Hp. rewrite <- (permute_seqZ l) at 2. unfold permute. by apply fmap_Permutation. Qed.

(** Every list is a permuted list. *)
Lemma permute_surj perm (l : list A) n :
  is_perm n perm -> length l = n -> exists idx, length idx = n /\ permute perm idx = l.
Proof.
  intros Hp Hl. pose proof (Permutation_length Hp) as Hlp. rewrite length_seqZ, Nat2Z.id in Hlp.
  assert (seqZ 0 (Z.of_nat n) ≡ₚ map fst (zip perm l)) as Hz.
  { rewrite <- Hp. change (map fst (zip perm l)) with ((zip perm l).*1). by rewrite fst_zip by lia. }
  destruct (Permutation_map_inv _ _ Hz) as (l3 & Hs & Hl3). exists (l3.*2).
  assert (length l3 = n) as Hln.
  { apply Permutation_length in Hl3. rewrite <- Hl3, length_zip_with. lia. }
  split; [by rewrite length_fmap|]. apply list_eq. intros i. unfold permute. rewrite list_lookup_fmap.
  destruct (perm !! i) as [p|] eqn:Hi.
  2: { apply lookup_ge_None_1 in Hi. cbn. rewrite lookup_ge_None_2 by lia. done. }
  pose proof (lookup_lt_Some _ _ _ Hi). destruct (lookup_lt_is_Some_2 l i) as [x Hx]; [lia|].
  assert ((p, x) ∈ l3) as Hin.
  { rewrite <- Hl3. apply list_elem_of_lookup_2 with i. apply lookup_zip_with_Some. by exists p, x. }
  apply list_elem_of_lookup_1 in Hin as [j Hj].
  assert (seqZ 0 (Z.of_nat n) !! j = Some p) as Hjp.
  { rewrite Hs. change (map fst l3) with (l3.*1). by rewrite list_lookup_fmap, Hj. }
  apply lookup_seqZ in Hjp as [-> Hjn]. rewrite Hx. cbn. rewrite Z.add_0_l, Nat2Z.id. f_equal.
  apply list_lookup_total_correct. by rewrite list_lookup_fmap, Hj.
Qed.

Lemma permute_lookup perm (l : list A) i p :
  perm !! i = Some p -> 0 <= p < zlen l -> permute perm l !! i = l !! Z.to_nat p.
Proof.
  intros Hi Hp. unfold permute. rewrite list_lookup_fmap, Hi. cbn.
  destruct (lookup_lt_is_Some_2 l (Z.to_nat p)) as [x Hx]; [unfold zlen in *; lia|].
  by rewrite Hx, (list_lookup_total_correct _ _ _ Hx).
Qed.
End Permute.

Lemma permute_zip {A B} `{Inhabited A, Inhabited B} perm (l : list A) (k : list B) :
  is_perm (length l) perm -> length l = length k ->
  zip (permute perm l) (permute perm k) = permute perm (zip l k).
Proof.
  intros Hp Hl. unfold permute. rewrite zip_with_fmap_l, zip_with_fmap_r, zip_with_diag.
  apply list_fmap_ext. intros i p Hi. assert (0 <= p < zlen l) as Hr.
  { apply list_elem_of_lookup_2 in Hi. rewrite Hp in Hi. apply elem_of_seqZ in Hi. unfold zlen. lia. }
  symmetry. apply list_lookup_total_correct. apply lookup_zip_with_Some.
  exists (l !!! Z.to_nat p), (k !!! Z.to_nat p). unfold zlen in *.
  split_and!; [done|apply list_lookup_lookup_total_lt; lia|apply list_lookup_lookup_total_lt; lia].
Qed.

Lemma in_shape_permute perm shape idx :
  is_perm (length shape) perm -> length idx = length shape ->
  in_shape (permute perm shape) (permute perm idx) <-> in_shape shape idx.
Proof.
  intros Hp Hl. unfold in_shape. rewrite !Forall2_zip, !length_permute.
  rewrite permute_zip by (rewrite ?Hl; done). rewrite permute_Permutation; [naive_solver|].
  rewrite length_zip_with, Hl, Nat.min_id. done.
Qed.

(** * Strides and offsets *)
Fixpoint strides (shape : list Z) : list Z :=
  match shape with
  | [] => []
  | _ :: shape => prodZ shape :: strides shape
  end.
Definition dot (l : list (Z * Z)) : Z := foldr (fun x s => x.1 * x.2 + s) 0 l.

Lemma dot_perm l l' : l ≡ₚ l' -> dot l = dot l'.
Proof. unfold dot. induction 1; cbn in *; lia. Qed.

Lemma length_strides shape : length (strides shape) = length shape.
Proof. induction shape; cbn; auto. Qed.

Lemma dot_strides shape idx : length idx = length shape -> dot (zip (strides shape) idx) = linear shape idx.
Proof.
  revert idx. induction shape as [|d shape IH]; intros [|i idx] Hl; try done. cbn in *. rewrite IH by lia. lia.
Qed.

Lemma prodZ_tail d shape : Forall (Z.lt 0) (d :: shape) -> 0 < prodZ shape <= prodZ (d :: shape).
Proof. intros [Hd HF]%Forall_cons. pose proof (prodZ_gt0 _ HF). rewrite prodZ_cons. nia. Qed.

Lemma GenHeads_strides shape :
  Forall (Z.lt 0) shape -> prodZ shape < 2 ^ 63 -> Transpose.GenHeads shape = strides shape.
Proof.
  induction shape as [|d shape IH]; intros HF Hp; [done|]. pose proof (prodZ_tail _ _ HF) as Ht.
  apply Forall_cons in HF as [Hd HF]. cbn [Transpose.GenHeads strides]. rewrite IH by (done || lia).
  destruct shape as [|e shape]; [done|]. cbn [strides hd]. f_equal. apply wrap64_id. change (e * prodZ shape) with (prodZ (e :: shape)). lia.
Qed.

Lemma GenOffset_loop_dot acc h : forall x,
  length x = length h -> Forall (fun p => 0 <= p.1 * p.2) (zip h x) -> 0 <= acc -> acc + dot (zip h x) < 2 ^ 63 ->
  Transpose.GenOffset_loop acc h x = Ok (acc + dot (zip h x)).
Proof.
  revert acc. induction h as [|o h IH]; intros acc [|i x] Hl HF Ha Hd; try done.
  { cbn. f_equal. lia. }
  cbn [Transpose.GenOffset_loop zip_with dot foldr fst snd] in *. apply Forall_cons in HF as [Hoi HF]. cbn in Hoi.
  assert (0 <= dot (zip h x)) by (unfold dot; clear - HF; induction HF; cbn; lia).
  fold (dot (zip h x)) in *.
  assert ((acc + o * i)%i64 = acc + o * i) as ->.
  { apply add64_is; [ring64|lia]. }
  rewrite IH; [f_equal; lia|cbn in Hl; lia|done|lia|lia].
Qed.

Lemma TransShapeByPerm_loop_ok src perm : forall pre n,
  Forall (fun p => 0 <= p < zlen src) perm -> length perm = n ->
  Transpose.TransShapeByPerm_loop src perm (zlen pre) (pre ++ repeat 0 n) = Ok (pre ++ permute perm src).
Proof.
  induction perm as [|p perm IH]; intros pre n HF Hn; subst n; cbn [length repeat Transpose.TransShapeByPerm_loop].
  { done. }
  apply Forall_cons in HF as [Hp HF]. unfold vget, at_. destruct (Z.ltb_spec p 0); [lia|].
  unfold zlen in Hp. rewrite (list_lookup_lookup_total_lt src) by lia. cbn [mbind outcome_bind].
  rewrite vset_middle by done. cbn [mbind outcome_bind].
  replace (zlen pre + 1) with (zlen (pre ++ [src !!! Z.to_nat p])) by (unfold zlen; rewrite length_app; cbn; lia).
  change (?x :: repeat 0 ?n) with ([x] ++ repeat 0 n). rewrite app_assoc, IH by done. by rewrite <- app_assoc.
Qed.

Lemma is_perm_range n perm : is_perm n perm -> Forall (fun p => 0 <= p < Z.of_nat n) perm.
Proof. intros Hp. rewrite Forall_forall. intros p. rewrite Hp, elem_of_seqZ. lia. Qed.

Lemma is_perm_length n perm : is_perm n perm -> length perm = n.
Proof. intros Hp. apply Permutation_length in Hp. rewrite length_seqZ in Hp. lia. Qed.

Lemma TransShapeByPerm_ok src perm :
  is_perm (length src) perm -> Transpose.TransShapeByPerm src perm = Ok (permute perm src).
Proof.
  intros Hp. unfold Transpose.TransShapeByPerm.
  apply (TransShapeByPerm_loop_ok src perm [] (length src)); [by apply is_perm_range|by apply is_perm_length].
Qed.

(** The gathered offset of a destination index is the linear index of the
    source element. *)
Lemma GenOffset_permute perm shape idx :
  is_perm (length shape) perm -> in_shape shape idx -> prodZ shape < 2 ^ 63 ->
  Transpose.GenOffset (permute perm (strides shape)) (permute perm idx) = Ok (linear shape idx).
Proof.
  intros Hp Hin Hb. pose proof (Forall2_length _ _ _ Hin) as Hl. pose proof (linear_range _ _ Hin) as Hr.
  assert (is_perm (length (strides shape)) perm) as Hps by (by rewrite length_strides).
  assert (zip (permute perm (strides shape)) (permute perm idx) ≡ₚ zip (strides shape) idx) as Hz.
  { rewrite permute_zip by (rewrite ?length_strides; done). apply permute_Permutation.
    rewrite length_zip_with, length_strides, Hl, Nat.min_id. done. }
  rewrite <- (dot_strides shape idx Hl) in *. rewrite <- (dot_perm _ _ Hz) in *. unfold Transpose.GenOffset.
  rewrite GenOffset_loop_dot; [done|by rewrite !length_permute| |done|lia].
  rewrite Hz. clear - Hin. unfold in_shape in Hin.
  induction Hin as [|i d idx shape Hi HF IH]; [constructor|]. cbn. constructor; [|done].
  pose proof (prodZ_gt0 shape (in_shape_pos _ _ HF)). cbn. nia.
Qed.

Section Properties.
Context `{E : Env} {HE : EnvOk E}.
Context (dt : DataType) (shape perm d : list Z).
Local Abbreviation size := (GetSizeByDataType dt).
Local Abbreviation T := (prodZ shape).
Hypothesis Hsize : 0 < size.
Hypothesis Hbits : Forall (fun p => p < 2 ^ 63) perm.
Hypothesis Hvalid : Transpose.IsShapeArgValid shape perm = true.
Hypothesis HT : 0 < T <= 2 ^ 40.
Hypothesis Hd : zlen d = T * size.

(** What a transposed buffer holds: the element at a multi-index moved to the
    permuted multi-index. *)
Definition transposed (out : list Z) : Prop :=
  forall idx, in_shape shape idx ->
  elem size out (linear (permute perm shape) (permute perm idx)) = elem size d (linear shape idx).

Lemma valid_perm : shape <> [] /\ Forall (Z.lt 0) shape /\ is_perm (length shape) perm.
Proof.
  apply IsShapeArgValid_spec in Hvalid as (? & ? & ?); [|done]. split_and!; [done| |done].
  apply prodZ_pos; [done|lia].
Qed.

Lemma permuted_shape_facts :
  prodZ (permute perm shape) = T /\ Forall (Z.lt 0) (permute perm shape) /\ permute perm shape <> [].
Proof.
  destruct valid_perm as (Hne & HF & Hp). pose proof (permute_Permutation perm shape Hp) as HP.
  split_and!; [by apply prodZ_perm|by rewrite HP|]. intros H0. rewrite H0 in HP.
  by apply Permutation_nil in HP.
Qed.

(** One step of the copy loop moves one element and turns the odometer. *)
Lemma copy_step_ok k b :
  0 <= k < T -> zlen b = T * size ->
  exists idx, in_shape shape idx /\ permute perm idx = digits (permute perm shape) k /\
    Transpose.copy_step (Some d) (permute perm shape) (permute perm (strides shape)) size (T * size) k
      (b, digits (permute perm shape) k)
    = Ok (splice (k * size) (elem size d (linear shape idx)) b, digits (permute perm shape) (k + 1)).
Proof.
  intros Hk Hb. destruct valid_perm as (Hne & HF & Hp). destruct permuted_shape_facts as (HPT & HPF & HPne).
  pose proof (GetSizeByDataType_small dt).
  destruct (permute_surj perm (digits (permute perm shape) k) (length shape)) as (idx & Hl & Hidx); [done| |].
  { rewrite length_digits, length_permute. by apply is_perm_length. }
  assert (in_shape shape idx) as Hin.
  { apply (in_shape_permute perm); [done|done|]. rewrite Hidx. apply digits_in_shape; [done|lia]. }
  exists idx. split_and!; [done|done|]. unfold Transpose.copy_step. rewrite <- Hidx.
  rewrite GenOffset_permute by (done || lia). cbn [mbind outcome_bind].
  pose proof (linear_range _ _ Hin).
  assert ((linear shape idx * size)%i64 = linear shape idx * size) as -> by (apply wrap64_id; nia).
  assert ((k * size)%i64 = k * size) as -> by (apply wrap64_id; nia).
  rewrite (memcpy_elem size T) with (M := T) by (done || lia). cbn [mbind outcome_bind].
  rewrite Hidx, AddOne_digits by (done || lia). done.
Qed.

Lemma copy_loop_ok b :
  zlen b = T * size ->
  exists out ix, for_range T
      (Transpose.copy_step (Some d) (permute perm shape) (permute perm (strides shape)) size (T * size))
      (b, digits (permute perm shape) 0) = Ok (out, ix) /\ zlen out = T * size /\ transposed out.
Proof.
  intros Hb. destruct valid_perm as (Hne & HF & Hp). destruct permuted_shape_facts as (HPT & HPF & HPne).
  destruct (for_range_inv (fun i st => st.2 = digits (permute perm shape) i /\ zlen st.1 = T * size /\
      (forall idx, in_shape shape idx -> linear (permute perm shape) (permute perm idx) < i ->
       elem size st.1 (linear (permute perm shape) (permute perm idx)) = elem size d (linear shape idx))) T
      (Transpose.copy_step (Some d) (permute perm shape) (permute perm (strides shape)) size (T * size))
      (b, digits (permute perm shape) 0)) as ([out ix] & Hr & _ & Hl & Hout).
  - split_and!; [done|done|]. intros idx Hin%(in_shape_permute perm) Hlt; [|done|by eapply Forall2_length].
    apply linear_range in Hin. lia.
  - intros i [b1 ix] Hi (Hix & Hl1 & Hdone). cbn in Hix, Hl1, Hdone. subst ix.
    destruct (copy_step_ok i b1 Hi Hl1) as (idx & Hin & Hidx & Hstep). rewrite Hstep.
    eexists; split; [done|]. cbn. pose proof (linear_range _ _ Hin) as Hlr.
    assert (zlen (elem size d (linear shape idx)) = size) as Hle by (by apply zlen_elem with T).
    pose proof (elem_bound i T size Hi Hsize).
    split_and!; [done|rewrite zlen_splice; lia|]. intros jdx Hj Hlt.
    pose proof (Forall2_length _ _ _ Hj) as Hjl.
    assert (in_shape (permute perm shape) (permute perm jdx)) as Hjp by (by apply in_shape_permute).
    pose proof (linear_range _ _ Hjp) as Hjr.
    destruct (decide (linear (permute perm shape) (permute perm jdx) = i)) as [Heq|].
    + assert (permute perm jdx = permute perm idx) as Hpe by (rewrite Hidx, <- Heq; symmetry; by apply digits_linear).
      pose proof (GenOffset_permute perm shape jdx Hp Hj ltac:(lia)) as Hg.
      rewrite Hpe, GenOffset_permute in Hg by (done || lia). injection Hg as Hg.
      rewrite Heq, <- Hg. by apply elem_splice_eq with T.
    + rewrite (elem_splice_ne size T) by (done || lia). apply Hdone; [done|lia].
  - exists out, ix. split_and!; [done|done|]. intros idx Hin. apply Hout; [done|].
    apply (in_shape_permute perm) in Hin; [|done|by eapply Forall2_length]. apply linear_range in Hin. lia.
Qed.

Lemma Transpose_delivers result :
  delivers (Transpose.Transpose (Some d) shape dt perm result) INTERNAL_ERROR size T transposed.
Proof.
  destruct valid_perm as (Hne & HF & Hp). destruct permuted_shape_facts as (HPT & HPF & HPne).
  pose proof (GetSizeByDataType_small dt).
  unfold Transpose.Transpose, Transpose.IsTransposeArgValid. rewrite bool_decide_eq_false_2 by done.
  destruct (Z.ltb_spec size 0); [lia|]. rewrite Hvalid. cbn [negb].
  rewrite (TransShapeByPerm_ok shape) by done. cbn [mbind outcome_bind]. rewrite GenHeads_strides by (done || lia).
  rewrite TransShapeByPerm_ok by (by rewrite length_strides). cbn [mbind outcome_bind]. cbv zeta.
  rewrite GetItemNumByShape_exact.
  2: { eapply Forall_impl; [exact HPF|]. intros; lia. }
  2: { intros n. pose proof (prodZ_take_le _ n HPF). lia. }
  rewrite HPT. assert ((size * T)%i64 = T * size) as -> by (apply mul64_is; [ring64|nia]).
  destruct (Z.eqb_spec T 0); [lia|]. unfold delivers. rewrite wrapU64_id by nia.
  destruct (new_uint8 (T * size)) as [b|] eqn:Hb.
  - rewrite <- digits_0 by done.
    destruct (copy_loop_ok b) as (out & ix & -> & ? & ?); [by apply zlen_new; [|lia|lia]|].
    by exists out.
  - destruct (Z.leb_spec T 0); [lia|]. destruct (Z.eqb_spec memcpy_s_null_dst EOK) as [Hnull|]; [|done].
    by apply memcpy_s_null_dst_err in Hnull.
Qed.
End Properties.

(** C9 For every rank, every permutation and every shape the argument check
    accepts with at most 2^40 elements, [Transpose] either reports that the
    destination could not be written or returns a buffer in which the element at
    each multi-index of the source stands at the permuted multi-index: the odometer
    and the permuted strides never leave either buffer and never overflow. *)
Theorem transpose_correct `{E : Env} {HE : EnvOk E} dt shape perm d result :
  Forall (fun p => p < 2 ^ 63) perm ->
  Transpose.IsTransposeArgValid (Some d) shape dt perm = true ->
  0 < GetSizeByDataType dt -> 0 < prodZ shape <= 2 ^ 40 -> zlen d = prodZ shape * GetSizeByDataType dt ->
  delivers (Transpose.Transpose (Some d) shape dt perm result) INTERNAL_ERROR (GetSizeByDataType dt) (prodZ shape)
    (fun out => forall idx, in_shape shape idx ->
       elem (GetSizeByDataType dt) out (linear (permute perm shape) (permute perm idx))
       = elem (GetSizeByDataType dt) d (linear shape idx)).
Proof.
  intros Hb Hv Hs HT Hd. apply Transpose_delivers; try done.
  unfold Transpose.IsTransposeArgValid in Hv. rewrite bool_decide_eq_false_2 in Hv by done.
  by destruct (_ <? _).
Qed.

(** * The format table *)
Definition supported (sf df : Format) : bool := bool_decide (is_Some (Transpose.perm_args sf df)).

(** The table is symmetric and the two permutations of a pair are inverse. *)
Lemma perm_args_inverse sf df p (l : list Z) :
  Transpose.perm_args sf df = Some p -> length l = 4%nat ->
  exists q, Transpose.perm_args df sf = Some q /\ is_perm 4 p /\ is_perm 4 q /\
            permute q (permute p l) = l /\ Forall (fun x => x < 2 ^ 63) p /\ Forall (fun x => x < 2 ^ 63) q.
Proof.
  intros Hp Hl. destruct l as [|a [|b [|c [|e [|]]]]]; try done.
  destruct sf, df; cbn in Hp; try discriminate; injection Hp as <-;
    (eexists; split; [reflexivity|]; split_and!;
     [apply IsShapeArgValid_spec with (src_shape := [1; 1; 1; 1]); [by repeat constructor|reflexivity]..
     |reflexivity|by repeat constructor|by repeat constructor]).
Qed.

(** The accepted shapes of a pair of formats. *)
Lemma TransShape_ok sf df dt shape ds `{E : Env} :
  Transpose.TransShape sf shape dt df = Ok ds ->
  exists p, Transpose.perm_args sf df = Some p /\ length shape = 4%nat /\ ds = permute p shape /\
    Transpose.IsShapeArgValid shape p = true.
Proof.
  unfold Transpose.TransShape, Transpose.GetPermByForamt.
  destruct (Transpose.perm_args sf df) as [p|] eqn:Hp; [|done]. cbn [mbind outcome_bind].
  destruct (perm_args_inverse sf df p [0; 0; 0; 0] Hp eq_refl) as (q & _ & Hp4 & _ & _ & Hpb & _).
  destruct (Transpose.IsShapeArgValid shape p) eqn:Hv; [|done]. cbn [negb]. intros Hds. exists p.
  pose proof Hv as Hv'. apply IsShapeArgValid_spec in Hv' as (_ & _ & Hpm); [|done].
  rewrite TransShapeByPerm_ok in Hds by done. injection Hds as <-.
  apply is_perm_length in Hp4. apply is_perm_length in Hpm. split_and!; [done|lia|done|done].
Qed.

(** The way back is supported and has the original shape. *)
Lemma TransShape_back `{E : Env} sf df dt shape ds p q :
  0 < prodZ shape <= 2 ^ 40 -> Transpose.perm_args sf df = Some p -> Transpose.perm_args df sf = Some q ->
  Transpose.TransShape sf shape dt df = Ok ds ->
  prodZ ds = prodZ shape /\ Transpose.TransShape df ds dt sf = Ok shape.
Proof.
  intros HT Hp Hq Hts. destruct (TransShape_ok sf df dt shape ds Hts) as (p' & Hp' & Hl & Hds & Hv).
  assert (p' = p) as -> by congruence.
  destruct (perm_args_inverse sf df p shape Hp Hl) as (q' & Hq' & Hp4 & Hq4 & Hqp & Hpb & Hqb).
  assert (q' = q) as -> by congruence.
  pose proof (permuted_shape_facts shape p Hpb Hv HT) as (HPT & HPF & HPne). rewrite <- Hds in *.
  assert (length ds = 4%nat) as Hdl by (rewrite Hds, length_permute; by apply is_perm_length).
  split; [done|]. unfold Transpose.TransShape, Transpose.GetPermByForamt. rewrite Hq. cbn [mbind outcome_bind].
  assert (Transpose.IsShapeArgValid ds q = true) as ->.
  { apply IsShapeArgValid_spec; [done|]. rewrite Hdl. split_and!; [done| |done].
    eapply Forall_impl; [exact HPF|]. intros; lia. }
  cbn [negb]. rewrite TransShapeByPerm_ok by (by rewrite Hdl). by rewrite Hqp.
Qed.

Section TableProperties.
Context `{E : Env} {HE : EnvOk E}.
Context (sf df : Format) (dt : DataType) (shape ds d : list Z).
Local Abbreviation size := (GetSizeByDataType dt).
Hypothesis Hsize : 0 < size.
Hypothesis HT : 0 < prodZ shape <= 2 ^ 40.
Hypothesis Hts : Transpose.TransShape sf shape dt df = Ok ds.
Hypothesis Hd : zlen d = prodZ shape * size.

Lemma TransFormat_delivers p ds' result :
  Transpose.perm_args sf df = Some p -> ds' = ds \/ ds' = [] ->
  delivers (Transpose.TransFormat (mk_args (Some d) sf df shape ds' dt) result) INTERNAL_ERROR size (prodZ shape)
    (transposed dt shape p d).
Proof.
  intros Hp Hds'. unfold Transpose.TransFormat. cbn [mk_args src_format dst_format src_shape dst_shape src_data_type data].
  destruct (TransShape_ok sf df dt shape ds Hts) as (p' & Hp' & Hl & Hds & Hv). rewrite Hts, Hp. cbn [mbind outcome_bind].
  assert (p' = p) as -> by congruence.
  destruct (perm_args_inverse sf df p shape Hp Hl) as (q & _ & _ & _ & _ & Hpb & _).
  assert (IsTransShapeDstCorrect (mk_args (Some d) sf df shape ds' dt) ds = true) as ->.
  { unfold IsTransShapeDstCorrect. cbn. destruct Hds' as [-> | ->]; [|done].
    by rewrite (bool_decide_eq_true_2 (ds = ds)), andb_false_r by done. }
  cbn [negb]. by apply Transpose_delivers.
Qed.

End TableProperties.

(** Between any two of NCHW, NHWC, HWCN and CHWN, transferring an accepted tensor and
    transferring the result back gives the original bytes. *)
Theorem transpose_roundtrip `{E : Env} {HE : EnvOk E} sf df dt shape ds d result result' r :
  0 < GetSizeByDataType dt -> 0 < prodZ shape <= 2 ^ 40 -> zlen d = prodZ shape * GetSizeByDataType dt ->
  Transpose.TransShape sf shape dt df = Ok ds ->
  Transpose.TransFormat (mk_args (Some d) sf df shape ds dt) result = Ok r ->
  delivers (Transpose.TransFormat (mk_args (res_data r) df sf ds shape dt) result') INTERNAL_ERROR
    (GetSizeByDataType dt) (prodZ shape) (fun out => out = d).
Proof.
  intros Hsize HT Hd Hts Hr. destruct (TransShape_ok sf df dt shape ds Hts) as (p & Hp & Hl & Hds & Hv).
  destruct (perm_args_inverse sf df p shape Hp Hl) as (q & Hq & Hp4 & Hq4 & Hqp & Hpb & Hqb).
  pose proof (TransFormat_delivers sf df dt shape ds d Hsize HT Hts Hd p ds result Hp (or_introl eq_refl)) as Hfw.
  destruct (delivers_ok _ _ _ _ _ _ Hfw Hr) as (d2 & -> & _ & Hl2 & Hd2).
  destruct (TransShape_back sf df dt shape ds p q) as (HPT & Hts2); [done..|].
  rewrite <- HPT in *. eapply delivers_mono; [by apply TransFormat_delivers with (p := q) (ds := shape); auto|].
  intros out Hlo Hout. eapply elem_ext; [exact Hsize|done|done|]. intros k Hk.
  assert (Forall (Z.lt 0) shape) as HF.
  { apply prodZ_pos; [by apply IsShapeArgValid_spec in Hv as (_ & ? & _)|lia]. }
  rewrite HPT in Hk. pose proof (digits_in_shape shape k HF Hk) as Hin.
  pose proof (Forall2_length _ _ _ Hin) as Hil.
  destruct (perm_args_inverse sf df p (digits shape k) Hp) as (q' & Hq' & _ & _ & Hqp' & _); [lia|].
  assert (q' = q) as -> by congruence.
  specialize (Hd2 (digits shape k) Hin). rewrite <- Hds in Hd2. specialize (Hout (permute p (digits shape k))).
  rewrite Hds, Hqp, Hqp', linear_digits, <- Hds, Hd2 in Hout by done. rewrite linear_digits in Hout by done.
  apply Hout. rewrite Hds. apply in_shape_permute; [by rewrite Hl|done|done].
Qed.

(** The destination shape given to [TransposeWithShapeCheck] has no effect: whatever it
    is, the result is that of [Transpose]. *)
Theorem transpose_shape_check_ignored `{E : Env} data shape ds dt perm result :
  Forall (fun p => p < 2 ^ 63) perm ->
  Transpose.TransposeWithShapeCheck data shape ds dt perm result = Transpose.Transpose data shape dt perm result.
Proof.
  intros Hb. unfold Transpose.TransposeWithShapeCheck.
  destruct (Transpose.IsTransposeArgValid data shape dt perm) eqn:Hv; cbn [negb].
  - rewrite TransShapeByPerm_ok; [done|]. unfold Transpose.IsTransposeArgValid in Hv.
    destruct (bool_decide _); [done|]. destruct (_ <? _); [done|]. by apply IsShapeArgValid_spec in Hv as (_ & _ & ?).
  - unfold Transpose.Transpose. by rewrite Hv.
Qed.

(** * Runs on concrete tensors *)
Definition sample_out : TransResult := {| res_data := None; res_length := 0 |}.

Lemma transpose_correct_witness :
  exists out, Transpose.Transpose (E := sample_env) (Some [1; 2; 3; 4; 5; 6]) [2; 3] DT_INT8 [1; 0] sample_out
    = Ok {| res_data := Some out; res_length := 6 |} /\ zlen out = 6 /\ elem 1 out 3 = [5].
Proof.
  destruct (transpose_correct (E := sample_env) DT_INT8 [2; 3] [1; 0] [1; 2; 3; 4; 5; 6] sample_out)
    as (out & Hr & Hl & Hout).
  - repeat constructor.
  - vm_compute. reflexivity.
  - vm_compute. reflexivity.
  - vm_compute. split; congruence.
  - vm_compute. reflexivity.
  - exists out. split; [exact Hr|]. split; [exact Hl|]. apply (Hout [1; 1]). repeat constructor; vm_compute; congruence.
Defined.

Lemma transpose_roundtrip_witness :
  exists out, Transpose.TransFormat (E := sample_env)
      (mk_args (Some [1; 4; 2; 5; 3; 6]) FORMAT_NHWC FORMAT_NCHW [1; 1; 3; 2] [1; 2; 1; 3] DT_INT8) sample_out
    = Ok {| res_data := Some out; res_length := 6 |} /\ zlen out = 6 /\ out = [1; 2; 3; 4; 5; 6].
Proof.
  apply (transpose_roundtrip (E := sample_env) FORMAT_NCHW FORMAT_NHWC DT_INT8 [1; 2; 1; 3] [1; 1; 3; 2]
    [1; 2; 3; 4; 5; 6] sample_out sample_out {| res_data := Some [1; 4; 2; 5; 3; 6]; res_length := 6 |}).
  - vm_compute. reflexivity.
  - vm_compute. split; congruence.
  - vm_compute. reflexivity.
  - vm_compute. reflexivity.
  - vm_compute. reflexivity.
Defined.

Lemma transpose_shape_check_ignored_witness :
  Transpose.TransposeWithShapeCheck (E := sample_env) (Some [1; 2; 3; 4]) [2; 2] [7; 7; 7] DT_INT8 [1; 0] sample_out
  = Ok {| res_data := Some [1; 3; 2; 4]; res_length := 4 |}.
Proof.
  rewrite (transpose_shape_check_ignored (E := sample_env)).
  - vm_compute. reflexivity.
  - repeat constructor.
Defined.
