(* ===== verification/FormatFractalZ.v ===== *)
(** Transfers between the 4-D formats and FRACTAL_Z
    (ge/common/formats/format_transfers/format_transfer_fractal_z.cc and
    format_transfer_fracz_{nchw,hwcn,nhwc}.cc).

    FRACTAL_Z holds the weights of a convolution as blocks of Ni = 16 kernels by
    C0 channels, the blocks ordered by channel group, row, column and kernel group;
    kernels and channels are padded with zeros to whole blocks.  The three forward
    routines (one of them with its own block arithmetic) are shown to build the same
    layout, and each round trip to be the identity. *)
From S2P Require Import Prelude Buffer FormatsUtils FormatIndex.

Module FractalZ.
Section Model.
Context `{E : Env}.

Definition CheckDataTypeSupport (data_type : DataType) : Status :=
  if 0 <? GetSizeByDataType data_type then SUCCESS else UNSUPPORTED.

Definition TransShapeToFz (n c h w : Z) (data_type : DataType) : outcome (list Z) :=
  let c0 := GetCubeSizeByDataType data_type in
  if c0 <? 0 then Err ACL_ERROR_GE_TRANSSHAPE_DATATYPE_INVALID else
  let c1 := Ceil c c0 in
  let no := Ceil n kNiSize in
  let dst_shape := [(h * w * c1)%i64; no; kNiSize; c0] in
  if negb (IsShapeValid dst_shape) then Err ACL_ERROR_GE_TRANSSHAPE_SHAPE_INVALID else
  Ok dst_shape.

Definition TransShapeNchwToFz (src_shape : list Z) (data_type : DataType) : outcome (list Z) :=
  if negb (CheckShapeValid src_shape kNchwDimsNum) then Err ACL_ERROR_GE_TRANSSHAPE_SHAPE_INVALID else
  n ← at_ src_shape kNchwN;
  c ← at_ src_shape kNchwC;
  h ← at_ src_shape kNchwH;
  w ← at_ src_shape kNchwW;
  TransShapeToFz n c h w data_type.

Definition TransShapeHwcnToFz (src_shape : list Z) (data_type : DataType) : outcome (list Z) :=
  if negb (CheckShapeValid src_shape kHwcnDimsNum) then Err ACL_ERROR_GE_TRANSSHAPE_SHAPE_INVALID else
  h ← at_ src_shape kHwcnH;
  w ← at_ src_shape kHwcnW;
  c ← at_ src_shape kHwcnC;
  n ← at_ src_shape kHwcnN;
  TransShapeToFz n c h w data_type.

Definition TransShapeNhwcToFz (src_shape : list Z) (data_type : DataType) : outcome (list Z) :=
  if negb (CheckShapeValid src_shape kNhwcDimsNum) then Err ACL_ERROR_GE_TRANSSHAPE_SHAPE_INVALID else
  n ← at_ src_shape kNhwcN;
  h ← at_ src_shape kNhwcH;
  w ← at_ src_shape kNhwcW;
  c ← at_ src_shape kNhwcC;
  TransShapeToFz n c h w data_type.

Definition TransFormatFromNchwToFz (args : TransArgs) (result : TransResult) : outcome TransResult :=
  n ← at_ (src_shape args) kNchwN;
  c ← at_ (src_shape args) kNchwC;
  h ← at_ (src_shape args) kNchwH;
  w ← at_ (src_shape args) kNchwW;
  let c0 := GetCubeSizeByDataType (src_data_type args) in
  let c1 := Ceil c c0 in
  let hw := (h * w)%i64 in
  let chw := (c * hw)%i64 in
  let nchw := (n * chw)%i64 in
  let hwc0 := (hw * c0)%i64 in
  let hf_cnt := Ceil n kNiSize in
  let vf_cnt := (c1 * hw)%i64 in
  let fractal_ele_cnt := (c0 * kNiSize)%i64 in
  let total_ele_cnt := (hf_cnt * vf_cnt * fractal_ele_cnt)%i64 in
  let size := GetSizeByDataType (src_data_type args) in
  let dst_size := (total_ele_cnt * size)%i64 in
  if dst_size =? 0 then Ok {| res_data := res_data result; res_length := wrapU64 dst_size |} else
  match new_uint8 dst_size with
  | None => Err OUT_OF_MEMORY
  | Some dst =>
    dst ← for_range vf_cnt (fun vfi dst =>
      let vf_base_i := (vfi * hf_cnt)%i64 in
      for_range hf_cnt (fun hfi dst =>
        let gfi := (vf_base_i + hfi)%i64 in
        let src_n_offset := (hfi * chw * kNiSize)%i64 in
        let src_f_offset := (src_n_offset + (vfi rem hw) + vfi / hw * hwc0)%i64 in
        for_range c0 (fun row dst =>
          let src_ci := (vfi / hw * c0 + row)%i64 in
          let src_row_offset := (src_f_offset + row * hw)%i64 in
          for_range kNiSize (fun col dst =>
            let src_ni := (hfi * kNiSize + col)%i64 in
            let src_offset := (src_row_offset + chw * col)%i64 in
            let need_pad_zero := (n <=? src_ni) || (nchw <=? src_offset) || (c <=? src_ci) in
            let idx := (gfi * fractal_ele_cnt + col * c0 + row)%i64 in
            let offset := (idx * size)%i64 in
            let protected_size := protected_size dst_size offset in
            if need_pad_zero then
              check_eok (memset_s dst offset (wrapU64 protected_size) 0 (wrapU64 size))
            else
              copy_element dst offset protected_size (data args) (src_offset * size)%i64 size
          ) dst) dst) dst) dst;
    Ok {| res_data := Some dst; res_length := wrapU64 dst_size |}
  end.

Definition TransFormatHwcnToFz (args : TransArgs) (result : TransResult) : outcome TransResult :=
  h ← at_ (src_shape args) kHwcnH;
  w ← at_ (src_shape args) kHwcnW;
  c ← at_ (src_shape args) kHwcnC;
  n ← at_ (src_shape args) kHwcnN;
  let n1n0 := (Ceil n kNiSize * kNiSize)%i64 in
  let c0 := GetCubeSizeByDataType (src_data_type args) in
  let c1 := Ceil c c0 in
  let cn := (c * n)%i64 in
  let wcn := (w * cn)%i64 in
  let n1n0c0 := (n1n0 * c0)%i64 in
  let wn1n0c0 := (w * n1n0c0)%i64 in
  let hwn1n0c0 := (h * wn1n0c0)%i64 in
  let data_size := GetSizeByDataType (src_data_type args) in
  let dst_size := fold_left (fun dst_size dim => (dst_size * dim)%i64) (dst_shape args) 1 in
  let dst_size := (dst_size * data_size)%i64 in
  if dst_size =? 0 then Ok {| res_data := res_data result; res_length := wrapU64 dst_size |} else
  match new_uint8 dst_size with
  | None => Err OUT_OF_MEMORY
  | Some dst =>
    dst ← for_range c1 (fun c1i dst =>
      for_range h (fun hi dst =>
        for_range w (fun wi dst =>
          for_range n1n0 (fun n1n0i dst =>
            for_range c0 (fun c0i dst =>
              let dst_idx := (c1i * hwn1n0c0 + hi * wn1n0c0 + wi * n1n0c0 + n1n0i * c0 + c0i)%i64 in
              let dst_offset := (dst_idx * data_size)%i64 in
              let protected_size := protected_size dst_size dst_offset in
              let pad_zero := (c <=? (c1i * c0 + c0i)%i64) || (n <=? n1n0i) in
              if pad_zero then
                check_eok (memset_s dst dst_offset (wrapU64 protected_size) 0 (wrapU64 data_size))
              else
                let src_idx := (hi * wcn + wi * cn + (c1i * c0 + c0i) * n + n1n0i)%i64 in
                copy_element dst dst_offset protected_size (data args) (src_idx * data_size)%i64 data_size
            ) dst) dst) dst) dst) dst;
    Ok {| res_data := Some dst; res_length := wrapU64 dst_size |}
  end.

Definition TransFormatNhwcToFz (args : TransArgs) (result : TransResult) : outcome TransResult :=
  n ← at_ (src_shape args) kNhwcN;
  h ← at_ (src_shape args) kNhwcH;
  w ← at_ (src_shape args) kNhwcW;
  c ← at_ (src_shape args) kNhwcC;
  let wc := (w * c)%i64 in
  let hwc := (h * w * c)%i64 in
  let n1n0 := (Ceil n kNiSize * kNiSize)%i64 in
  let c0 := GetCubeSizeByDataType (src_data_type args) in
  let c1 := Ceil c c0 in
  let n1n0c0 := (n1n0 * c0)%i64 in
  let wn1n0c0 := (w * n1n0c0)%i64 in
  let hwn1n0c0 := (h * wn1n0c0)%i64 in
  let data_size := GetSizeByDataType (src_data_type args) in
  let dst_size := fold_left (fun dst_size dim => (dst_size * dim)%i64) (dst_shape args) 1 in
  let dst_size := (dst_size * data_size)%i64 in
  if dst_size =? 0 then Ok {| res_data := res_data result; res_length := wrapU64 dst_size |} else
  match new_uint8 dst_size with
  | None => Err OUT_OF_MEMORY
  | Some dst =>
    dst ← for_range c1 (fun c1i dst =>
      for_range h (fun hi dst =>
        for_range w (fun wi dst =>
          for_range n1n0 (fun n1n0i dst =>
            for_range c0 (fun c0i dst =>
              let dst_idx := (c1i * hwn1n0c0 + hi * wn1n0c0 + wi * n1n0c0 + n1n0i * c0 + c0i)%i64 in
              let dst_offset := (dst_idx * data_size)%i64 in
              let protected_size := protected_size dst_size dst_offset in
              let pad_zero := (c <=? (c1i * c0 + c0i)%i64) || (n <=? n1n0i) in
              if pad_zero then
                check_eok (memset_s dst dst_offset (wrapU64 protected_size) 0 (wrapU64 data_size))
              else
                let src_idx := (n1n0i * hwc + hi * wc + wi * c + (c1i * c0 + c0i))%i64 in
                copy_element dst dst_offset protected_size (data args) (src_idx * data_size)%i64 data_size
            ) dst) dst) dst) dst) dst;
    Ok {| res_data := Some dst; res_length := wrapU64 dst_size |}
  end.

Definition TransShape (src_format : Format) (src_shape : list Z) (data_type : DataType) (dst_format : Format) :
    outcome (list Z) :=
  if negb (bool_decide (CheckDataTypeSupport data_type = SUCCESS)) then Err ACL_ERROR_GE_TRANSSHAPE_DATATYPE_INVALID else
  if bool_decide (src_format = FORMAT_NHWC) && bool_decide (dst_format = FORMAT_FRACTAL_Z)
  then TransShapeNhwcToFz src_shape data_type else
  if bool_decide (src_format = FORMAT_HWCN) && bool_decide (dst_format = FORMAT_FRACTAL_Z)
  then TransShapeHwcnToFz src_shape data_type else
  if bool_decide (src_format = FORMAT_NCHW) && bool_decide (dst_format = FORMAT_FRACTAL_Z)
  then TransShapeNchwToFz src_shape data_type else
  Err ACL_ERROR_GE_TRANSSHAPE_FORMAT_INVALID.

Definition TransFormat (args : TransArgs) (result : TransResult) : outcome TransResult :=
  expect_shape ← TransShape (src_format args) (src_shape args) (src_data_type args) (dst_format args);
  if negb (IsTransShapeDstCorrect args expect_shape) then Err PARAM_INVALID else
  if bool_decide (src_format args = FORMAT_NHWC) && bool_decide (dst_format args = FORMAT_FRACTAL_Z)
  then TransFormatNhwcToFz args result else
  if bool_decide (src_format args = FORMAT_HWCN) && bool_decide (dst_format args = FORMAT_FRACTAL_Z)
  then TransFormatHwcnToFz args result else
  if bool_decide (src_format args = FORMAT_NCHW) && bool_decide (dst_format args = FORMAT_FRACTAL_Z)
  then TransFormatFromNchwToFz args result else
  Err UNSUPPORTED.
End Model.
End FractalZ.

Module FracZNchw.
Section Model.
Context `{E : Env}.

Definition CheckDataTypeSupported (data_type : DataType) : bool := 0 <? GetSizeByDataType data_type.

Definition CheckArgsForFracZToNchw (args : TransArgs) : outcome unit :=
  if negb (bool_decide (src_format args = FORMAT_FRACTAL_Z)) || negb (bool_decide (dst_format args = FORMAT_NCHW))
  then Err UNSUPPORTED else
  if negb (CheckDataTypeSupported (src_data_type args)) then Err UNSUPPORTED else
  if negb (CheckShapeValid (src_shape args) kFracZDimsNum) then Err PARAM_INVALID else
  if negb (CheckShapeValid (dst_shape args) kNchwDimsNum) then Err PARAM_INVALID else
  let c0 := GetCubeSizeByDataType (src_data_type args) in
  if c0 <? 0 then Err PARAM_INVALID else
  dst_c ← at_ (dst_shape args) kNchwC;
  dst_n ← at_ (dst_shape args) kNchwN;
  let c1 := Ceil dst_c c0 in
  let n0 := Ceil dst_n kNiSize in
  src_hwc1 ← at_ (src_shape args) kFracZHWC1;
  dst_h ← at_ (dst_shape args) kNchwH;
  dst_w ← at_ (dst_shape args) kNchwW;
  src_c0 ← at_ (src_shape args) kFracZC0;
  src_ni ← at_ (src_shape args) kFracZNi;
  src_n0 ← at_ (src_shape args) kFracZN0;
  if negb (src_hwc1 =? (dst_h * dst_w * c1)%i64) || negb (src_c0 =? c0) || negb (src_ni =? kNiSize) ||
     negb (src_n0 =? n0)
  then Err PARAM_INVALID else
  Ok tt.

Definition GetDstDataAfterTrans (args : TransArgs) (result : TransResult) (size total_size : Z) : outcome TransResult :=
  match new_uint8 total_size with
  | None => Err OUT_OF_MEMORY
  | Some dst =>
    n0 ← at_ (src_shape args) kFracZN0;
    ni ← at_ (src_shape args) kFracZNi;
    c0 ← at_ (src_shape args) kFracZC0;
    h ← at_ (dst_shape args) kNchwH;
    w ← at_ (dst_shape args) kNchwW;
    c ← at_ (dst_shape args) kNchwC;
    n ← at_ (dst_shape args) kNchwN;
    let nc := (ni * n0)%i64 in
    let ncc0 := (nc * c0)%i64 in
    let wncc0 := (w * ncc0)%i64 in
    let hwncc0 := (h * wncc0)%i64 in
    let hw := (h * w)%i64 in
    let chw := (c * hw)%i64 in
    dst ← for_range n (fun n_idx dst =>
      let n_head_addr := (n_idx * chw)%i64 in
      for_range c (fun c_idx dst =>
        let c_head_addr := (n_head_addr + c_idx * hw)%i64 in
        for_range h (fun h_idx dst =>
          let h_head_addr := (c_head_addr + h_idx * w)%i64 in
          for_range w (fun w_idx dst =>
            let dst_idx := (h_head_addr + w_idx)%i64 in
            let c1_idx := (c_idx / c0)%i64 in
            let c0_idx := (c_idx rem c0)%i64 in
            let nc_idx := n_idx in
            let src_idx := (c1_idx * hwncc0 + h_idx * wncc0 + w_idx * ncc0 + nc_idx * c0 + c0_idx)%i64 in
            let src_offset := (src_idx * size)%i64 in
            let dst_offset := (dst_idx * size)%i64 in
            let protected_size := protected_size total_size dst_offset in
            check_eok (memcpy_s dst dst_offset (wrapU64 protected_size) (data args) src_offset (wrapU64 size))
    ) dst) dst) dst) dst;
    Ok {| res_data := Some dst; res_length := wrapU64 total_size |}
  end.

Definition TransFormat (args : TransArgs) (result : TransResult) : outcome TransResult :=
  _ ← or_else PARAM_INVALID (CheckArgsForFracZToNchw args);
  TransWithTotalSize GetDstDataAfterTrans args result.

Definition TransShape (src_format : Format) (src_shape : list Z) (data_type : DataType) (dst_format : Format) :
    outcome (list Z) :=
  Err ACL_ERROR_GE_TRANSSHAPE_FORMAT_INVALID.
End Model.
End FracZNchw.

Module FracZHwcn.
Section Model.
Context `{E : Env}.

Definition CheckDataTypeSupported (data_type : DataType) : bool := 0 <? GetSizeByDataType data_type.

Definition CheckArgsForFracZToHwcn (args : TransArgs) : outcome unit :=
  if negb (bool_decide (src_format args = FORMAT_FRACTAL_Z)) || negb (bool_decide (dst_format args = FORMAT_HWCN))
  then Err UNSUPPORTED else
  if negb (CheckDataTypeSupported (src_data_type args)) then Err UNSUPPORTED else
  if negb (CheckShapeValid (src_shape args) kFracZDimsNum) then Err PARAM_INVALID else
  if negb (CheckShapeValid (dst_shape args) kHwcnDimsNum) then Err PARAM_INVALID else
  let c0 := GetCubeSizeByDataType (src_data_type args) in
  if c0 <? 0 then Err PARAM_INVALID else
  dst_c ← at_ (dst_shape args) kHwcnC;
  dst_n ← at_ (dst_shape args) kHwcnN;
  let c1 := Ceil dst_c c0 in
  let n0 := Ceil dst_n kNiSize in
  src_hwc1 ← at_ (src_shape args) kFracZHWC1;
  dst_h ← at_ (dst_shape args) kHwcnH;
  dst_w ← at_ (dst_shape args) kHwcnW;
  src_c0 ← at_ (src_shape args) kFracZC0;
  src_ni ← at_ (src_shape args) kFracZNi;
  src_n0 ← at_ (src_shape args) kFracZN0;
  if negb (src_hwc1 =? (dst_h * dst_w * c1)%i64) || negb (src_c0 =? c0) || negb (src_ni =? kNiSize) ||
     negb (src_n0 =? n0)
  then Err PARAM_INVALID else
  Ok tt.

Definition GetDstDataAfterTrans (args : TransArgs) (result : TransResult) (size total_size : Z) : outcome TransResult :=
  match new_uint8 total_size with
  | None => Err OUT_OF_MEMORY
  | Some dst =>
    n0 ← at_ (src_shape args) kFracZN0;
    ni ← at_ (src_shape args) kFracZNi;
    c0 ← at_ (src_shape args) kFracZC0;
    h ← at_ (dst_shape args) kHwcnH;
    w ← at_ (dst_shape args) kHwcnW;
    c ← at_ (dst_shape args) kHwcnC;
    n ← at_ (dst_shape args) kHwcnN;
    let nc := (ni * n0)%i64 in
    let ncc0 := (nc * c0)%i64 in
    let wncc0 := (w * ncc0)%i64 in
    let hwncc0 := (h * wncc0)%i64 in
    let cn := (c * n)%i64 in
    let wcn := (w * cn)%i64 in
    dst ← for_range h (fun h_idx dst =>
      let h_head_addr := (h_idx * wcn)%i64 in
      for_range w (fun w_idx dst =>
        let w_head_addr := (h_head_addr + w_idx * cn)%i64 in
        for_range c (fun c_idx dst =>
          let c_head_addr := (w_head_addr + c_idx * n)%i64 in
          for_range n (fun n_idx dst =>
            let dst_idx := (c_head_addr + n_idx)%i64 in
            let c1_idx := (c_idx / c0)%i64 in
            let c0_idx := (c_idx rem c0)%i64 in
            let nc_idx := n_idx in
            let src_idx := (c1_idx * hwncc0 + h_idx * wncc0 + w_idx * ncc0 + nc_idx * c0 + c0_idx)%i64 in
            let src_offset := (src_idx * size)%i64 in
            let dst_offset := (dst_idx * size)%i64 in
            let protected_size := protected_size total_size dst_offset in
            check_eok (memcpy_s dst dst_offset (wrapU64 protected_size) (data args) src_offset (wrapU64 size))
    ) dst) dst) dst) dst;
    Ok {| res_data := Some dst; res_length := wrapU64 total_size |}
  end.

Definition TransFormat (args : TransArgs) (result : TransResult) : outcome TransResult :=
  _ ← or_else PARAM_INVALID (CheckArgsForFracZToHwcn args);
  TransWithTotalSize GetDstDataAfterTrans args result.

Definition TransShape (src_format : Format) (src_shape : list Z) (data_type : DataType) (dst_format : Format) :
    outcome (list Z) :=
  Err ACL_ERROR_GE_TRANSSHAPE_FORMAT_INVALID.
End Model.
End FracZHwcn.

Module FracZNhwc.
Section Model.
Context `{E : Env}.

Definition CheckDataTypeSupported (data_type : DataType) : bool := 0 <? GetSizeByDataType data_type.

Definition CheckArgsForFracZToNhwc (args : TransArgs) : outcome unit :=
  if negb (bool_decide (src_format args = FORMAT_FRACTAL_Z)) || negb (bool_decide (dst_format args = FORMAT_NHWC))
  then Err UNSUPPORTED else
  if negb (CheckDataTypeSupported (src_data_type args)) then Err UNSUPPORTED else
  if negb (CheckShapeValid (src_shape args) kFracZDimsNum) then Err PARAM_INVALID else
  if negb (CheckShapeValid (dst_shape args) kNhwcDimsNum) then Err PARAM_INVALID else
  let c0 := GetCubeSizeByDataType (src_data_type args) in
  if c0 <? 0 then Err PARAM_INVALID else
  dst_c ← at_ (dst_shape args) kNhwcC;
  dst_n ← at_ (dst_shape args) kNhwcN;
  let c1 := Ceil dst_c c0 in
  let n0 := Ceil dst_n kNiSize in
  src_hwc1 ← at_ (src_shape args) kFracZHWC1;
  dst_h ← at_ (dst_shape args) kNhwcH;
  dst_w ← at_ (dst_shape args) kNhwcW;
  src_c0 ← at_ (src_shape args) kFracZC0;
  src_ni ← at_ (src_shape args) kFracZNi;
  src_n0 ← at_ (src_shape args) kFracZN0;
  if negb (src_hwc1 =? (dst_h * dst_w * c1)%i64) || negb (src_c0 =? c0) || negb (src_ni =? kNiSize) ||
     negb (src_n0 =? n0)
  then Err PARAM_INVALID else
  Ok tt.

Definition GetDstDataAfterTrans (args : TransArgs) (result : TransResult) (size total_size : Z) : outcome TransResult :=
  match new_uint8 total_size with
  | None => Err OUT_OF_MEMORY
  | Some dst =>
    n0 ← at_ (src_shape args) kFracZN0;
    ni ← at_ (src_shape args) kFracZNi;
    c0 ← at_ (src_shape args) kFracZC0;
    h ← at_ (dst_shape args) kNhwcH;
    w ← at_ (dst_shape args) kNhwcW;
    c ← at_ (dst_shape args) kNhwcC;
    n ← at_ (dst_shape args) kNhwcN;
    let nc := (ni * n0)%i64 in
    let ncc0 := (nc * c0)%i64 in
    let wncc0 := (w * ncc0)%i64 in
    let hwncc0 := (h * wncc0)%i64 in
    let wc := (w * c)%i64 in
    let hwc := (h * wc)%i64 in
    dst ← for_range n (fun n_idx dst =>
      let n_head_addr := (n_idx * hwc)%i64 in
      for_range h (fun h_idx dst =>
        let h_head_addr := (n_head_addr + h_idx * wc)%i64 in
        for_range w (fun w_idx dst =>
          let w_head_addr := (h_head_addr + w_idx * c)%i64 in
          for_range c (fun c_idx dst =>
            let dst_idx := (w_head_addr + c_idx)%i64 in
            let c1_idx := (c_idx / c0)%i64 in
            let c0_idx := (c_idx rem c0)%i64 in
            let nc_idx := n_idx in
            let src_idx := (c1_idx * hwncc0 + h_idx * wncc0 + w_idx * ncc0 + nc_idx * c0 + c0_idx)%i64 in
            let src_offset := (src_idx * size)%i64 in
            let dst_offset := (dst_idx * size)%i64 in
            let protected_size := protected_size total_size dst_offset in
            check_eok (memcpy_s dst dst_offset (wrapU64 protected_size) (data args) src_offset (wrapU64 size))
    ) dst) dst) dst) dst;
    Ok {| res_data := Some dst; res_length := wrapU64 total_size |}
  end.

Definition TransFormat (args : TransArgs) (result : TransResult) : outcome TransResult :=
  _ ← or_else PARAM_INVALID (CheckArgsForFracZToNhwc args);
  TransWithTotalSize GetDstDataAfterTrans args result.

Definition TransShape (src_format : Format) (src_shape : list Z) (data_type : DataType) (dst_format : Format) :
    outcome (list Z) :=
  Err UNSUPPORTED.
End Model.
End FracZNhwc.

(** * Specification

    An element of a FRACTAL_Z buffer, addressed by channel group, row, column,
    kernel and channel within the group; [src n c h w] is the logical tensor. *)
Definition fz_elem (size N C C0 : Z) (src : Z -> Z -> Z -> Z -> list Z) (c1 h w n c0 : Z) : list Z :=
  if (c1 * C0 + c0 <? C) && (n <? N) then src n (c1 * C0 + c0) h w else zeros size.

(** The sizes of a tensor and of its FRACTAL_Z image, once the checks passed;
    the image has [N1] groups of 16 kernels. *)
Record DimsZ `{E : Env} (dt : DataType) (size N C H W C1 N1 C0 : Z) : Prop := {
  dz_size : GetSizeByDataType dt = size;
  dz_size_pos : 0 < size <= 1024;
  dz_C0 : GetCubeSizeByDataType dt = C0;
  dz_C0_pos : 0 < C0 <= 32;
  dz_C1 : Ceil C C0 = C1;
  dz_C1_pos : 0 < C1;
  dz_C1_bound : C <= C1 * C0 < C + C0;
  dz_N1 : Ceil N kNiSize = N1;
  dz_N1_pos : 0 < N1;
  dz_N1_bound : N <= N1 * 16 < N + 16;
  dz_pos : 0 < N /\ 0 < C /\ 0 < H /\ 0 < W;
  dz_src : N * C * H * W <= 2 ^ 40;
  dz_dst : C1 * H * W * (N1 * 16) * C0 <= 2 ^ 40;
}.

(** Evaluates the `shape.at(i)` reads of a transfer on explicit shapes. *)
Ltac read_dims_z :=
  cbn [at_ lookup list_lookup mbind outcome_bind kNchwN kNchwC kNchwH kNchwW kNhwcN kNhwcH kNhwcW kNhwcC
       kHwcnH kHwcnW kHwcnC kHwcnN kFracZHWC1 kFracZN0 kFracZNi kFracZC0].

Section Proofs.
Context `{E : Env} {HE : EnvOk E}.
Context (dt : DataType) (size N C H W C1 N1 C0 : Z).
Context (DZ : DimsZ dt size N C H W C1 N1 C0).
Local Abbreviation T := (C1 * H * W * (N1 * 16) * C0).

Lemma dz_total_pos : 0 < T.
Proof. destruct DZ. repeat apply Z.mul_pos_pos; lia. Qed.

Lemma dz_src_pos : 0 < N * C * H * W.
Proof. destruct DZ. repeat apply Z.mul_pos_pos; lia. Qed.

(** Partial products of the sizes stay small. *)
Lemma dz_small : C1 * H * W <= 2 ^ 40 /\ N1 * 16 <= 2 ^ 40 /\ C1 * C0 <= 2 ^ 41 /\ C <= 2 ^ 40 /\ N <= 2 ^ 40.
Proof.
  pose proof dz_total_pos. destruct DZ as [_ _ _ ? _ ? ? _ ? ? ? ? ?].
  assert (0 < C1 * H * W) by (repeat apply Z.mul_pos_pos; lia).
  assert (N <= 2 ^ 40 /\ C <= 2 ^ 40).
  { assert (0 < H * W) by (apply Z.mul_pos_pos; lia). split; [|nia].
    assert (0 < C * (H * W)) by (apply Z.mul_pos_pos; lia). nia. }
  split_and!; nia.
Qed.

Lemma fz_elem_len src k :
  (forall n c h w, 0 <= n < N -> 0 <= c < C -> 0 <= h < H -> 0 <= w < W -> zlen (src n c h w) = size) ->
  0 <= k < T -> zlen (dec5 H W (N1 * 16) C0 (fz_elem size N C C0 src) k) = size.
Proof.
  destruct DZ. intros Hs. apply (dec5_all (fun v => zlen v = size) C1); [lia..|].
  intros c1 h w n c0 ? ? ? ? ?. unfold fz_elem.
  destruct (Z.ltb_spec (c1 * C0 + c0) C), (Z.ltb_spec n N); cbn [andb];
    [apply Hs; nia|apply zlen_zeros; lia..].
Qed.

Lemma channel_value_z c1 c0 : 0 <= c1 < C1 -> 0 <= c0 < C0 -> (c1 * C0 + c0)%i64 = c1 * C0 + c0.
Proof. pose proof dz_small. intros. wrap_eq. pose proof (radix_range c1 c0 C1 C0). lia. Qed.

(** What a forward routine delivers from the logical tensor [src]. *)
Definition holds_fz (src : Z -> Z -> Z -> Z -> list Z) (out : list Z) : Prop :=
  forall c1 h w n c0, 0 <= c1 < C1 -> 0 <= h < H -> 0 <= w < W -> 0 <= n < N1 * 16 -> 0 <= c0 < C0 ->
    elem size out (idx5 H W (N1 * 16) C0 c1 h w n c0) = fz_elem size N C C0 src c1 h w n c0.

Lemma n1n0_eq : (Ceil N kNiSize * kNiSize)%i64 = N1 * 16.
Proof. pose proof dz_small. destruct DZ. rewrite dz_N2. unfold kNiSize. apply wrap64_id. lia. Qed.

Lemma Trans_hwcn_fz args result d :
  zlen d = H * W * C * N * size ->
  src_shape args = [H; W; C; N] -> dst_shape args = [H * W * C1; N1; 16; C0] -> src_data_type args = dt ->
  data args = Some d ->
  delivers (FractalZ.TransFormatHwcnToFz args result) OUT_OF_MEMORY size T
    (holds_fz (fun n c h w => elem size d (idx4 W C N h w c n))).
Proof.
  intros Hd Hss Hds Hdt Hdata. pose proof DZ as [Hsz Hszp HC0 HC0p HC1 HC1p HC1b HN1 HN1p HN1b Hpos Hsrc Hdst].
  assert (H * W * C * N = N * C * H * W) as Hperm by ring. rewrite <- Hperm in Hsrc.
  pose proof dz_total_pos. pose proof (bytes_bound T size ltac:(lia) Hszp).
  unfold FractalZ.TransFormatHwcnToFz. rewrite Hss, Hds, Hdt, Hdata. read_dims_z.
  rewrite n1n0_eq, HC0, HC1, Hsz. cbn [fold_left]. cbv zeta.
  assert ((1 * (H * W * C1)%Z * N1 * 16 * C0 * size)%i64 = T * size) as -> by (apply mul64_is; [ring64|lia]).
  destruct (Z.eqb_spec (T * size) 0) as [|_]; [nia|]. unfold delivers.
  destruct (new_uint8 (T * size)) as [b0|] eqn:Hnew; [|done].
  rewrite (wrapU64_id (T * size)) by lia.
  set (V := dec5 H W (N1 * 16) C0 (fz_elem size N C C0 (fun n c h w => elem size d (idx4 W C N h w c n)))).
  assert (HV : forall k, 0 <= k < T -> zlen (V k) = size).
  { intros k. apply fz_elem_len. intros. eapply zlen_elem; [lia|done|by apply idx4_range]. }
  eapply (Fills_run size T V); [|apply zlen_new; [done|lia|lia]|].
  - repeat (apply Fills_for; intros ? ?). rename i into c1, i0 into h, i1 into w, i2 into n, i3 into c0.
    assert (Hk : 0 <= idx5 H W (N1 * 16) C0 c1 h w n c0 < T) by (by apply idx5_range).
    apply (Fills_elem size _ _ (proj1 Hszp) HV _ (idx5 H W (N1 * 16) C0 c1 h w n c0)); [done|].
    intros b Hb. unfold V. rewrite dec5_at by done. unfold fz_elem.
    assert (((c1 * (H * (W * ((N1 * 16)%Z * C0))) + h * (W * ((N1 * 16)%Z * C0)) + w * ((N1 * 16)%Z * C0) + n * C0 + c0) * size)%i64
      = idx5 H W (N1 * 16) C0 c1 h w n c0 * size) as -> by (wrap_eq; by eapply offset_bound).
    rewrite channel_value_z by done.
    rewrite (Z.leb_antisym _ C), (Z.leb_antisym _ N), <- negb_andb.
    destruct (Z.ltb_spec (c1 * C0 + c0) C), (Z.ltb_spec n N); cbn [andb negb]; [|by apply memset_elem..].
    assert (Hs : 0 <= idx4 W C N h w (c1 * C0 + c0) n < H * W * C * N) by (apply idx4_range; nia).
    assert (((h * (W * (C * N)) + w * (C * N) + (c1 * C0 + c0)%Z * N + n) * size)%i64
      = idx4 W C N h w (c1 * C0 + c0) n * size) as -> by (wrap_eq; by eapply offset_bound).
    by apply copy_elem with (H * W * C * N).
  - intros out Hlen Hout. split; [done|]. intros c1 h w n c0 ? ? ? ? ?. rewrite Hout.
    + by apply dec5_at.
    + by apply idx5_range.
    + nest_cover.
Qed.

Lemma Trans_nhwc_fz args result d :
  zlen d = N * H * W * C * size ->
  src_shape args = [N; H; W; C] -> dst_shape args = [H * W * C1; N1; 16; C0] -> src_data_type args = dt ->
  data args = Some d ->
  delivers (FractalZ.TransFormatNhwcToFz args result) OUT_OF_MEMORY size T
    (holds_fz (fun n c h w => elem size d (idx4 H W C n h w c))).
Proof.
  intros Hd Hss Hds Hdt Hdata. pose proof DZ as [Hsz Hszp HC0 HC0p HC1 HC1p HC1b HN1 HN1p HN1b Hpos Hsrc Hdst].
  assert (N * H * W * C = N * C * H * W) as Hperm by ring. rewrite <- Hperm in Hsrc.
  pose proof dz_total_pos. pose proof (bytes_bound T size ltac:(lia) Hszp).
  unfold FractalZ.TransFormatNhwcToFz. rewrite Hss, Hds, Hdt, Hdata. read_dims_z.
  rewrite n1n0_eq, HC0, HC1, Hsz. cbn [fold_left]. cbv zeta.
  assert ((1 * (H * W * C1)%Z * N1 * 16 * C0 * size)%i64 = T * size) as -> by (apply mul64_is; [ring64|lia]).
  destruct (Z.eqb_spec (T * size) 0) as [|_]; [nia|]. unfold delivers.
  destruct (new_uint8 (T * size)) as [b0|] eqn:Hnew; [|done].
  rewrite (wrapU64_id (T * size)) by lia.
  set (V := dec5 H W (N1 * 16) C0 (fz_elem size N C C0 (fun n c h w => elem size d (idx4 H W C n h w c)))).
  assert (HV : forall k, 0 <= k < T -> zlen (V k) = size).
  { intros k. apply fz_elem_len. intros. eapply zlen_elem; [lia|done|by apply idx4_range]. }
  eapply (Fills_run size T V); [|apply zlen_new; [done|lia|lia]|].
  - repeat (apply Fills_for; intros ? ?). rename i into c1, i0 into h, i1 into w, i2 into n, i3 into c0.
    assert (Hk : 0 <= idx5 H W (N1 * 16) C0 c1 h w n c0 < T) by (by apply idx5_range).
    apply (Fills_elem size _ _ (proj1 Hszp) HV _ (idx5 H W (N1 * 16) C0 c1 h w n c0)); [done|].
    intros b Hb. unfold V. rewrite dec5_at by done. unfold fz_elem.
    assert (((c1 * (H * (W * ((N1 * 16)%Z * C0))) + h * (W * ((N1 * 16)%Z * C0)) + w * ((N1 * 16)%Z * C0) + n * C0 + c0) * size)%i64
      = idx5 H W (N1 * 16) C0 c1 h w n c0 * size) as -> by (wrap_eq; by eapply offset_bound).
    rewrite channel_value_z by done.
    rewrite (Z.leb_antisym _ C), (Z.leb_antisym _ N), <- negb_andb.
    destruct (Z.ltb_spec (c1 * C0 + c0) C), (Z.ltb_spec n N); cbn [andb negb]; [|by apply memset_elem..].
    assert (Hs : 0 <= idx4 H W C n h w (c1 * C0 + c0) < N * H * W * C) by (apply idx4_range; nia).
    assert (((n * (H * W * C) + h * (W * C) + w * C + (c1 * C0 + c0)%Z) * size)%i64
      = idx4 H W C n h w (c1 * C0 + c0) * size) as -> by (wrap_eq; by eapply offset_bound).
    by apply copy_elem with (N * H * W * C).
  - intros out Hlen Hout. split; [done|]. intros c1 h w n c0 ? ? ? ? ?. rewrite Hout.
    + by apply dec5_at.
    + by apply idx5_range.
    + nest_cover.
Qed.

(** The block arithmetic of the NCHW routine: the vertical block number [vfi]
    packs channel group, row and column. *)
Lemma vfi_split vfi :
  0 <= vfi < C1 * (H * W) ->
  exists c1 h w, 0 <= c1 < C1 /\ 0 <= h < H /\ 0 <= w < W /\ vfi = (c1 * H + h) * W + w /\
    (vfi / (H * W)%Z)%i64 = c1 /\ (vfi rem (H * W)%Z)%i64 = h * W + w.
Proof.
  pose proof dz_small. destruct DZ as [_ _ _ ? _ ? ? _ ? ? ? ? ?]. intros Hv.
  destruct (radix_surj vfi (C1 * H) W) as (ch & w & Hch & Hw & ->); [lia..|].
  destruct (radix_surj ch C1 H) as (c1 & h & Hc1 & Hh & ->); [lia..|].
  pose proof (radix_range h w H W Hh Hw) as Hhw. exists c1, h, w.
  replace ((c1 * H + h) * W + w) with (c1 * (H * W) + (h * W + w)) by ring.
  assert (0 <= c1 * (H * W) + (h * W + w) < C1 * (H * W)) as Hr by (by apply radix_range).
  split_and!; try done; try lia.
  - unfold quot64. rewrite Z.quot_div_nonneg by lia. rewrite radix_div by done. apply wrap64_id. lia.
  - unfold rem64. rewrite Z.rem_mod_nonneg by lia. by apply radix_mod.
Qed.

Lemma Trans_nchw_fz args result d :
  zlen d = N * C * H * W * size ->
  src_shape args = [N; C; H; W] -> src_data_type args = dt ->
  data args = Some d ->
  delivers (FractalZ.TransFormatFromNchwToFz args result) OUT_OF_MEMORY size T
    (holds_fz (fun n c h w => elem size d (idx4 C H W n c h w))).
Proof.
  intros Hd Hss Hdt Hdata. pose proof DZ as [Hsz Hszp HC0 HC0p HC1 HC1p HC1b HN1 HN1p HN1b Hpos Hsrc Hdst].
  pose proof dz_total_pos. pose proof (bytes_bound T size ltac:(lia) Hszp).
  unfold FractalZ.TransFormatFromNchwToFz. rewrite Hss, Hdt, Hdata. read_dims_z.
  rewrite HC0, HC1, HN1, Hsz. cbv zeta.
  assert ((N1 * (C1 * (H * W)) * (C0 * kNiSize) * size)%i64 = T * size) as ->.
  { apply mul64_is; [unfold kNiSize; ring64|lia]. }
  destruct (Z.eqb_spec (T * size) 0) as [|_]; [nia|]. unfold delivers.
  destruct (new_uint8 (T * size)) as [b0|] eqn:Hnew; [|done].
  rewrite (wrapU64_id (T * size)) by lia.
  pose proof dz_small as [Hchw _]. assert (0 < H * W) by nia. assert (0 < C1 * (H * W) <= 2 ^ 40) by nia.
  assert ((H * W)%i64 = H * W) as -> by (apply wrap64_id; nia).
  assert ((C1 * (H * W)%Z)%i64 = C1 * (H * W)) as -> by (apply wrap64_id; lia).
  set (V := dec5 H W (N1 * 16) C0 (fz_elem size N C C0 (fun n c h w => elem size d (idx4 C H W n c h w)))).
  assert (HV : forall k, 0 <= k < T -> zlen (V k) = size).
  { intros k. apply fz_elem_len. intros. eapply zlen_elem; [lia|done|by apply idx4_range]. }
  eapply (Fills_run size T V); [|apply zlen_new; [done|lia|lia]|].
  - repeat (apply Fills_for; intros ? ?). rename i into vfi, i0 into hfi, i1 into c0, i2 into col.
    destruct (vfi_split vfi) as (c1 & h & w & Hc1 & Hh & Hw & Hvfi & Hdiv & Hrem); [done|].
    rewrite Hdiv, Hrem. set (n := hfi * 16 + col).
    assert (Hn : 0 <= n < N1 * 16) by (by apply radix_range).
    assert (Hk : 0 <= idx5 H W (N1 * 16) C0 c1 h w n c0 < T) by (by apply idx5_range).
    assert ((vfi * N1 + hfi) * (C0 * 16) + col * C0 + c0 = idx5 H W (N1 * 16) C0 c1 h w n c0) as Hidx.
    { rewrite Hvfi. unfold n, idx5. ring. }
    apply (Fills_elem size _ _ (proj1 Hszp) HV _ ((vfi * N1 + hfi) * (C0 * 16) + col * C0 + c0)).
    { by rewrite Hidx. }
    rewrite Hidx. intros b Hb. unfold V. rewrite dec5_at by done. unfold fz_elem.
    assert ((((vfi * N1 + hfi) * (C0 * kNiSize) + col * C0 + c0) * size)%i64
      = idx5 H W (N1 * 16) C0 c1 h w n c0 * size) as ->.
    { rewrite <- Hidx in *. unfold kNiSize. wrap_eq. by eapply offset_bound. }
    rewrite channel_value_z by done.
    assert ((hfi * kNiSize + col)%i64 = n) as -> by (unfold n, kNiSize; wrap_eq; pose proof dz_small; fold n; lia).
    assert (N <= n \/ C <= c1 * C0 + c0 \/ 0 <= idx4 C H W n (c1 * C0 + c0) h w < N * C * H * W) as Hcase.
    { destruct (Z.le_gt_cases N n); [by left|]. destruct (Z.le_gt_cases C (c1 * C0 + c0)); [by right; left|].
      right; right. apply idx4_range; nia. }
    destruct (Z.leb_spec N n), (Z.ltb_spec n N); cbn [orb andb]; try lia; [rewrite andb_false_r; by apply memset_elem|].
    rewrite (Z.leb_antisym _ C).
    destruct (Z.ltb_spec (c1 * C0 + c0) C); cbn [andb negb]; [|rewrite orb_true_r; by apply memset_elem].
    rewrite orb_false_r. assert (0 <= idx4 C H W n (c1 * C0 + c0) h w < N * C * H * W) as Hs by lia.
    assert ((hfi * (C * (H * W)%Z) * kNiSize + (h * W + w)%Z + c1 * ((H * W)%Z * C0) + c0 * (H * W)%Z
             + C * (H * W)%Z * col)%i64 = idx4 C H W n (c1 * C0 + c0) h w) as Hsoff.
    { apply add64_is; [unfold n, kNiSize; unwrap64; unfold idx4; apply eqm_eq; ring|lia]. }
    rewrite Hsoff. assert ((N * (C * (H * W)%Z))%i64 = N * C * H * W) as -> by (apply mul64_is; [ring64|lia]).
    destruct (Z.leb_spec (N * C * H * W) (idx4 C H W n (c1 * C0 + c0) h w)); [lia|].
    assert ((idx4 C H W n (c1 * C0 + c0) h w * size)%i64 = idx4 C H W n (c1 * C0 + c0) h w * size) as ->.
    { apply wrap64_id. by eapply offset_bound. }
    by apply copy_elem with (N * C * H * W).
  - intros out Hlen Hout. split; [done|]. intros c1 h w n c0 ? ? ? ? ?. rewrite Hout.
    + by apply dec5_at.
    + by apply idx5_range.
    + destruct (channel_group (N1 * 16) N1 16 n) as (? & ? & Hn); [lia..|].
      exists ((c1 * H + h) * W + w). split; [rewrite (Z.mul_assoc C1); by repeat apply radix_range|].
      exists (n / 16). split; [done|]. exists c0. split; [done|]. exists (n mod 16). split; [done|].
      rewrite <- Hn at 1. unfold idx5. ring.
Qed.

(** Where the backward routines read the element of channel [c]. *)
Lemma fz_source n c h w :
  0 <= n < N -> 0 <= c < C -> 0 <= h < H -> 0 <= w < W ->
  0 <= idx5 H W (N1 * 16) C0 (c / C0) h w n (c mod C0) < T.
Proof. destruct DZ. intros. destruct (channel_group C C1 C0 c) as (? & ? & _); [lia..|]. apply idx5_range; lia. Qed.

Lemma fz_source_offset n c h w :
  0 <= n < N -> 0 <= c < C -> 0 <= h < H -> 0 <= w < W ->
  (((c / C0) * (H * (W * (16 * N1 * C0))) + h * (W * (16 * N1 * C0)) + w * (16 * N1 * C0) + n * C0 + (c rem C0)) * size)%i64
  = idx5 H W (N1 * 16) C0 (c / C0) h w n (c mod C0) * size.
Proof.
  intros Hn Hc Hh Hw. pose proof (fz_source n c h w Hn Hc Hh Hw) as Hr. pose proof dz_small. destruct DZ.
  assert ((c rem C0)%i64 = c mod C0) as -> by (apply Z.rem_mod_nonneg; lia).
  assert ((c / C0)%i64 = c / C0) as ->.
  { unfold quot64. rewrite Z.quot_div_nonneg by lia. apply wrap64_id.
    assert (0 <= c / C0 <= c) by (split; [apply Z.div_pos; lia|apply Z.div_le_upper_bound; nia]). lia. }
  wrap_eq. by eapply offset_bound.
Qed.

(** The element of a FRACTAL_Z buffer at the place of a real kernel and channel. *)
Lemma fz_elem_channel src n c h w :
  0 <= n < N -> 0 <= c < C -> fz_elem size N C C0 src (c / C0) h w n (c mod C0) = src n c h w.
Proof.
  destruct DZ. intros. destruct (channel_group C C1 C0 c) as (_ & _ & Hc); [lia..|].
  unfold fz_elem. rewrite Hc. destruct (Z.ltb_spec c C), (Z.ltb_spec n N); [done|lia..].
Qed.

(** What a backward routine delivers at the index [at_] of an element. *)
Definition holds_4d (at_ : Z -> Z -> Z -> Z -> Z) (d out : list Z) : Prop :=
  forall n c h w, 0 <= n < N -> 0 <= c < C -> 0 <= h < H -> 0 <= w < W ->
    elem size out (at_ n c h w) = elem size d (idx5 H W (N1 * 16) C0 (c / C0) h w n (c mod C0)).

Lemma fz_nchw_delivers args result d :
  FracZNchw.CheckArgsForFracZToNchw args = Ok tt ->
  src_shape args = [H * W * C1; N1; 16; C0] -> dst_shape args = [N; C; H; W] ->
  GetItemNumByShape (dst_shape args) = N * C * H * W ->
  src_data_type args = dt -> data args = Some d -> zlen d = T * size ->
  delivers (FracZNchw.TransFormat args result) INTERNAL_ERROR size (N * C * H * W)
    (holds_4d (fun n c h w => idx4 C H W n c h w) d).
Proof.
  intros Hck Hss Hds Hitem Hdt Hdata Hd. pose proof DZ as [Hsz Hszp HC0 HC0p HC1 HC1p HC1b HN1 HN1p HN1b Hpos Hsrc Hdst].
  pose proof dz_src_pos as Hp.
  pose proof (bytes_bound (N * C * H * W) size ltac:(lia) Hszp).
  unfold FracZNchw.TransFormat. rewrite Hck. cbn [or_else mbind outcome_bind].
  apply TransWithTotalSize_delivers; [by rewrite Hdt|done|done|lia|..].
  { intros Hnew. unfold FracZNchw.GetDstDataAfterTrans. by rewrite Hnew. }
  intros b0 Hnew. unfold FracZNchw.GetDstDataAfterTrans. rewrite Hnew, Hss, Hds, Hdata. read_dims_z. cbv zeta.
  rewrite (wrapU64_id (N * C * H * W * size)) by lia.
  set (V := dec4 C H W (fun n c h w => elem size d (idx5 H W (N1 * 16) C0 (c / C0) h w n (c mod C0)))).
  assert (HV : forall k, 0 <= k < N * C * H * W -> zlen (V k) = size).
  { intros k. apply (dec4_all (fun v => zlen v = size) N); [lia..|].
    intros. eapply zlen_elem; [lia|done|by apply fz_source]. }
  eapply (Fills_run size (N * C * H * W) V); [|apply zlen_new; [done|lia|lia]|].
  - repeat (apply Fills_for; intros ? ?). rename i into n, i0 into c, i1 into h, i2 into w.
    assert (Hk : 0 <= idx4 C H W n c h w < N * C * H * W) by (by apply idx4_range).
    apply (Fills_elem size _ _ (proj1 Hszp) HV _ (idx4 C H W n c h w)); [done|].
    intros b Hb. unfold V. rewrite dec4_at by done. rewrite fz_source_offset by done.
    assert (((n * (C * (H * W)) + c * (H * W) + h * W + w) * size)%i64 = idx4 C H W n c h w * size) as ->
      by (wrap_eq; by eapply offset_bound).
    apply memcpy_elem with T; [done..|]. by apply fz_source.
  - intros out Hlen Hout. split; [done|]. intros n c h w ? ? ? ?. rewrite Hout.
    + by apply dec4_at.
    + by apply idx4_range.
    + nest_cover.
Qed.

Lemma fz_hwcn_delivers args result d :
  FracZHwcn.CheckArgsForFracZToHwcn args = Ok tt ->
  src_shape args = [H * W * C1; N1; 16; C0] -> dst_shape args = [H; W; C; N] ->
  GetItemNumByShape (dst_shape args) = H * W * C * N ->
  src_data_type args = dt -> data args = Some d -> zlen d = T * size ->
  delivers (FracZHwcn.TransFormat args result) INTERNAL_ERROR size (H * W * C * N)
    (holds_4d (fun n c h w => idx4 W C N h w c n) d).
Proof.
  intros Hck Hss Hds Hitem Hdt Hdata Hd. pose proof DZ as [Hsz Hszp HC0 HC0p HC1 HC1p HC1b HN1 HN1p HN1b Hpos Hsrc Hdst].
  pose proof dz_src_pos as Hp. replace (N * C * H * W) with (H * W * C * N) in Hsrc, Hp by ring.
  pose proof (bytes_bound (H * W * C * N) size ltac:(lia) Hszp).
  unfold FracZHwcn.TransFormat. rewrite Hck. cbn [or_else mbind outcome_bind].
  apply TransWithTotalSize_delivers; [by rewrite Hdt|done|done|lia|..].
  { intros Hnew. unfold FracZHwcn.GetDstDataAfterTrans. by rewrite Hnew. }
  intros b0 Hnew. unfold FracZHwcn.GetDstDataAfterTrans. rewrite Hnew, Hss, Hds, Hdata. read_dims_z. cbv zeta.
  rewrite (wrapU64_id (H * W * C * N * size)) by lia.
  set (V := dec4 W C N (fun h w c n => elem size d (idx5 H W (N1 * 16) C0 (c / C0) h w n (c mod C0)))).
  assert (HV : forall k, 0 <= k < H * W * C * N -> zlen (V k) = size).
  { intros k. apply (dec4_all (fun v => zlen v = size) H); [lia..|].
    intros. eapply zlen_elem; [lia|done|by apply fz_source]. }
  eapply (Fills_run size (H * W * C * N) V); [|apply zlen_new; [done|lia|lia]|].
  - repeat (apply Fills_for; intros ? ?). rename i into h, i0 into w, i1 into c, i2 into n.
    assert (Hk : 0 <= idx4 W C N h w c n < H * W * C * N) by (by apply idx4_range).
    apply (Fills_elem size _ _ (proj1 Hszp) HV _ (idx4 W C N h w c n)); [done|].
    intros b Hb. unfold V. rewrite dec4_at by done. rewrite fz_source_offset by done.
    assert (((h * (W * (C * N)) + w * (C * N) + c * N + n) * size)%i64 = idx4 W C N h w c n * size) as ->
      by (wrap_eq; by eapply offset_bound).
    apply memcpy_elem with T; [done..|]. by apply fz_source.
  - intros out Hlen Hout. split; [done|]. intros n c h w ? ? ? ?. rewrite Hout.
    + by apply dec4_at.
    + by apply idx4_range.
    + nest_cover.
Qed.

Lemma fz_nhwc_delivers args result d :
  FracZNhwc.CheckArgsForFracZToNhwc args = Ok tt ->
  src_shape args = [H * W * C1; N1; 16; C0] -> dst_shape args = [N; H; W; C] ->
  GetItemNumByShape (dst_shape args) = N * H * W * C ->
  src_data_type args = dt -> data args = Some d -> zlen d = T * size ->
  delivers (FracZNhwc.TransFormat args result) INTERNAL_ERROR size (N * H * W * C)
    (holds_4d (fun n c h w => idx4 H W C n h w c) d).
Proof.
  intros Hck Hss Hds Hitem Hdt Hdata Hd. pose proof DZ as [Hsz Hszp HC0 HC0p HC1 HC1p HC1b HN1 HN1p HN1b Hpos Hsrc Hdst].
  pose proof dz_src_pos as Hp. replace (N * C * H * W) with (N * H * W * C) in Hsrc, Hp by ring.
  pose proof (bytes_bound (N * H * W * C) size ltac:(lia) Hszp).
  unfold FracZNhwc.TransFormat. rewrite Hck. cbn [or_else mbind outcome_bind].
  apply TransWithTotalSize_delivers; [by rewrite Hdt|done|done|lia|..].
  { intros Hnew. unfold FracZNhwc.GetDstDataAfterTrans. by rewrite Hnew. }
  intros b0 Hnew. unfold FracZNhwc.GetDstDataAfterTrans. rewrite Hnew, Hss, Hds, Hdata. read_dims_z. cbv zeta.
  rewrite (wrapU64_id (N * H * W * C * size)) by lia.
  set (V := dec4 H W C (fun n h w c => elem size d (idx5 H W (N1 * 16) C0 (c / C0) h w n (c mod C0)))).
  assert (HV : forall k, 0 <= k < N * H * W * C -> zlen (V k) = size).
  { intros k. apply (dec4_all (fun v => zlen v = size) N); [lia..|].
    intros. eapply zlen_elem; [lia|done|by apply fz_source]. }
  eapply (Fills_run size (N * H * W * C) V); [|apply zlen_new; [done|lia|lia]|].
  - repeat (apply Fills_for; intros ? ?). rename i into n, i0 into h, i1 into w, i2 into c.
    assert (Hk : 0 <= idx4 H W C n h w c < N * H * W * C) by (by apply idx4_range).
    apply (Fills_elem size _ _ (proj1 Hszp) HV _ (idx4 H W C n h w c)); [done|].
    intros b Hb. unfold V. rewrite dec4_at by done. rewrite fz_source_offset by done.
    assert (((n * (H * (W * C)) + h * (W * C) + w * C + c) * size)%i64 = idx4 H W C n h w c * size) as ->
      by (wrap_eq; by eapply offset_bound).
    apply memcpy_elem with T; [done..|]. by apply fz_source.
  - intros out Hlen Hout. split; [done|]. intros n c h w ? ? ? ?. rewrite Hout.
    + by apply dec4_at.
    + by apply idx4_range.
    + nest_cover.
Qed.
End Proofs.

(** * What the checks establish *)
Lemma dims4_small_z N C H W :
  0 < N /\ 0 < C /\ 0 < H /\ 0 < W -> N * C * H * W <= 2 ^ 40 ->
  N <= 2 ^ 40 /\ C <= 2 ^ 40 /\ H <= 2 ^ 40 /\ W <= 2 ^ 40 /\ H * W * C <= 2 ^ 40.
Proof.
  intros Hpos HT. assert (0 < H * W) by nia. assert (0 < C * (H * W)) by nia.
  assert (N * (C * (H * W)) <= 2 ^ 40) by lia.
  assert (C * (H * W) <= 2 ^ 40) by nia. assert (H * W <= 2 ^ 40) by nia. repeat split; nia.
Qed.

Section Checks.
Context `{E : Env} {HE : EnvOk E}.
Context (dt : DataType) (N C H W : Z).
Local Abbreviation size := (GetSizeByDataType dt).
Local Abbreviation C0 := (GetCubeSizeByDataType dt).
Local Abbreviation C1 := (Ceil C C0).
Local Abbreviation N1 := (Ceil N kNiSize).
Hypothesis Hpos : 0 < N /\ 0 < C /\ 0 < H /\ 0 < W.

Lemma TransShapeToFz_ok ds :
  0 < size -> N * C * H * W <= 2 ^ 40 -> FractalZ.TransShapeToFz N C H W dt = Ok ds ->
  ds = [H * W * C1; N1; 16; C0] /\ DimsZ dt size N C H W C1 N1 C0 /\ CheckShapeValid ds 4 = true.
Proof.
  intros Hs Hsrc. destruct (cube_pos dt Hs) as [Hs' Hc0].
  pose proof (dims4_small_z N C H W Hpos Hsrc) as (HN & HC & HH & HW & HHWC).
  assert (C <= C1 * C0 < C + C0) as HC1 by (apply Ceil_bound; lia).
  assert (N <= N1 * 16 < N + 16) as HN1 by (apply Ceil_bound; unfold kNiSize; lia).
  assert (0 < C1 <= C) by (apply Ceil_le; lia). assert (0 < N1 <= N) by (apply Ceil_le; unfold kNiSize; lia).
  assert (0 < H * W <= 2 ^ 40) by nia.
  assert (0 < H * W * C1 <= 2 ^ 40) by nia.
  unfold FractalZ.TransShapeToFz. destruct (Z.ltb_spec C0 0); [lia|].
  assert ((H * W * C1)%i64 = H * W * C1) as -> by (apply mul64_is; [ring64|lia]).
  destruct (IsShapeValid _) eqn:Hv; [|done]. cbn [negb]. intros [= <-].
  assert (CheckShapeValid [H * W * C1; N1; 16; C0] 4 = true) as Hv4 by done.
  split_and!; [done| |done].
  apply Valid4 in Hv4 as [_ Hp]; [|repeat constructor; lia].
  split; try done; try lia.
Qed.
End Checks.

(** * The three 4-D formats of a weight *)
Definition shape4 (f : Format) (N C H W : Z) : list Z :=
  match f with
  | FORMAT_NCHW => [N; C; H; W]
  | FORMAT_NHWC => [N; H; W; C]
  | FORMAT_HWCN => [H; W; C; N]
  | _ => []
  end.
Definition at4 (f : Format) (N C H W n c h w : Z) : Z :=
  match f with
  | FORMAT_NCHW => idx4 C H W n c h w
  | FORMAT_NHWC => idx4 H W C n h w c
  | FORMAT_HWCN => idx4 W C N h w c n
  | _ => 0
  end.
(** The transfer back from FRACTAL_Z. *)
Definition from_fz `{E : Env} (f : Format) : TransArgs -> TransResult -> outcome TransResult :=
  match f with
  | FORMAT_NCHW => FracZNchw.TransFormat
  | FORMAT_NHWC => FracZNhwc.TransFormat
  | FORMAT_HWCN => FracZHwcn.TransFormat
  | _ => fun _ _ => Err UNSUPPORTED
  end.

Section Properties.
Context `{E : Env} {HE : EnvOk E}.
Context (f : Format) (dt : DataType) (N C H W : Z) (ds d : list Z).
Local Abbreviation size := (GetSizeByDataType dt).
Local Abbreviation C0 := (GetCubeSizeByDataType dt).
Local Abbreviation C1 := (Ceil C C0).
Local Abbreviation N1 := (Ceil N kNiSize).
Hypothesis Hpos : 0 < N /\ 0 < C /\ 0 < H /\ 0 < W.
Hypothesis Hint : Forall (fun x => x < 2 ^ 63) [N; C; H; W].
Hypothesis Hts : FractalZ.TransShape f (shape4 f N C H W) dt FORMAT_FRACTAL_Z = Ok ds.

Lemma TransShape_fz_ok :
  (f = FORMAT_NCHW \/ f = FORMAT_NHWC \/ f = FORMAT_HWCN) /\
  ds = [H * W * C1; N1; 16; C0] /\ DimsZ dt size N C H W C1 N1 C0 /\ CheckShapeValid ds 4 = true /\
  CheckShapeValid (shape4 f N C H W) 4 = true /\ GetItemNumByShape (shape4 f N C H W) = N * C * H * W.
Proof.
  revert Hts. unfold FractalZ.TransShape, FractalZ.CheckDataTypeSupport.
  destruct (Z.ltb_spec 0 size) as [Hs|]; [|done]. rewrite (bool_decide_eq_true_2 (SUCCESS = SUCCESS)) by done.
  cbn [negb]. rewrite !Forall_cons in Hint. destruct Hint as (? & ? & ? & ? & _).
  destruct f; eval_formats; try done;
    unfold FractalZ.TransShapeNchwToFz, FractalZ.TransShapeNhwcToFz, FractalZ.TransShapeHwcnToFz,
      kNchwDimsNum, kNhwcDimsNum, kHwcnDimsNum; cbn [shape4];
    (destruct (CheckShapeValid _ 4) eqn:Hv; [|done]); cbn [negb]; read_dims_z;
    intros Hds; pose proof Hv as Hv'; apply Valid4 in Hv' as [Hn Hp]; try (by rewrite !Forall_cons);
    (destruct (TransShapeToFz_ok dt N C H W Hpos ds Hs) as (? & ? & ?); [lia|done|]);
    (split_and!; [by auto|done|done|done|done|rewrite Hn; ring]).
Qed.

Lemma at4_surj g k :
  g = FORMAT_NCHW \/ g = FORMAT_NHWC \/ g = FORMAT_HWCN -> 0 <= k < N * C * H * W ->
  exists n c h w, 0 <= n < N /\ 0 <= c < C /\ 0 <= h < H /\ 0 <= w < W /\ k = at4 g N C H W n c h w.
Proof.
  intros [-> | [-> | ->]] Hk; cbn [at4].
  - destruct (idx4_surj k N C H W) as (n & c & h & w & ?); [lia..|]. exists n, c, h, w. done.
  - destruct (idx4_surj k N H W C) as (n & h & w & c & ?); [lia..|]. exists n, c, h, w. naive_solver.
  - destruct (idx4_surj k H W C N) as (h & w & c & n & ?); [lia..|]. exists n, c, h, w. naive_solver.
Qed.

(** The forward transfer, for each of the three formats. *)
Lemma to_fz_run result :
  zlen d = N * C * H * W * size ->
  delivers (FractalZ.TransFormat (mk_args (Some d) f FORMAT_FRACTAL_Z (shape4 f N C H W) ds dt) result)
    OUT_OF_MEMORY size (C1 * H * W * (N1 * 16) * C0)
    (holds_fz size N C H W C1 N1 C0 (fun n c h w => elem size d (at4 f N C H W n c h w))).
Proof.
  intros Hd. destruct TransShape_fz_ok as (Hf & Hds & DZ & _).
  unfold FractalZ.TransFormat. cbn [mk_args src_format dst_format src_shape dst_shape src_data_type data].
  rewrite Hts. cbn [mbind outcome_bind].
  assert (IsTransShapeDstCorrect (mk_args (Some d) f FORMAT_FRACTAL_Z (shape4 f N C H W) ds dt) ds = true) as ->.
  { unfold IsTransShapeDstCorrect. cbn. by rewrite (bool_decide_eq_true_2 (ds = ds)), andb_false_r by done. }
  rewrite Hds. destruct Hf as [-> | [-> | ->]]; eval_formats.
  - by apply Trans_nchw_fz with dt.
  - apply Trans_nhwc_fz with dt; try done. rewrite Hd. ring.
  - apply Trans_hwcn_fz with dt; try done. rewrite Hd. ring.
Qed.

(** The argument checks of the backward transfers accept these shapes. *)
Lemma from_fz_run result d' :
  zlen d' = C1 * H * W * (N1 * 16) * C0 * size ->
  delivers (from_fz f (mk_args (Some d') FORMAT_FRACTAL_Z f ds (shape4 f N C H W) dt) result)
    INTERNAL_ERROR size (N * C * H * W)
    (holds_4d size N C H W N1 C0 (at4 f N C H W) d').
Proof.
  intros Hd'. destruct TransShape_fz_ok as (Hf & -> & DZ & Hv & Hv4 & Hn). pose proof DZ as [].
  assert ((H * W * C1)%i64 = H * W * C1) as Hhwc1.
  { pose proof (dz_small _ _ _ _ _ _ _ _ _ DZ). apply mul64_is; [ring64|]. assert (0 < H * W) by nia. nia. }
  assert (Hck : forall args, src_format args = FORMAT_FRACTAL_Z -> dst_format args = f -> src_data_type args = dt ->
    src_shape args = [H * W * C1; N1; 16; C0] -> dst_shape args = shape4 f N C H W ->
    match f with
    | FORMAT_NCHW => FracZNchw.CheckArgsForFracZToNchw args
    | FORMAT_NHWC => FracZNhwc.CheckArgsForFracZToNhwc args
    | FORMAT_HWCN => FracZHwcn.CheckArgsForFracZToHwcn args
    | _ => Ok tt
    end = Ok tt).
  { intros args Hsf Hdf Hdt Hss Hds.
    destruct Hf as [-> | [-> | ->]];
      unfold FracZNchw.CheckArgsForFracZToNchw, FracZNhwc.CheckArgsForFracZToNhwc, FracZHwcn.CheckArgsForFracZToHwcn,
        FracZNchw.CheckDataTypeSupported, FracZNhwc.CheckDataTypeSupported, FracZHwcn.CheckDataTypeSupported,
        kFracZDimsNum, kNchwDimsNum, kNhwcDimsNum, kHwcnDimsNum;
      rewrite Hsf, Hdf, Hdt, Hss, Hds; eval_formats;
      rewrite (proj2 (Z.ltb_lt 0 size)), Hv, Hv4 by lia; cbn [negb];
      (destruct (Z.ltb_spec C0 0); [lia|]); cbn [shape4]; read_dims_z;
      rewrite Hhwc1, !Z.eqb_refl; done. }
  destruct Hf as [-> | [-> | ->]]; cbn [from_fz shape4] in *.
  - by eapply fz_nchw_delivers; [exact DZ|apply Hck|..].
  - replace (N * C * H * W) with (N * H * W * C) in * by ring.
    by eapply fz_nhwc_delivers; [exact DZ|apply Hck|..].
  - replace (N * C * H * W) with (H * W * C * N) in * by ring.
    by eapply fz_hwcn_delivers; [exact DZ|apply Hck|..].
Qed.

(** A non-empty NCHW, NHWC or HWCN weight whose shape [TransShape] accepts is transferred to
    FRACTAL_Z: [TransFormat] succeeds unless the buffer cannot be allocated, and the
    element of channel group c1, row h, column w, kernel n and channel c0 of the group is
    the source element, or zero when the kernel or the channel is padding. *)
Theorem fz_correct result :
  zlen d = N * C * H * W * GetSizeByDataType dt ->
  let T := C1 * H * W * (N1 * 16) * C0 in
  ds = [H * W * C1; N1; 16; C0] /\
  delivers (FractalZ.TransFormat (mk_args (Some d) f FORMAT_FRACTAL_Z (shape4 f N C H W) ds dt) result)
    OUT_OF_MEMORY size T (fun out =>
    forall c1 h w n c0, 0 <= c1 < C1 -> 0 <= h < H -> 0 <= w < W -> 0 <= n < N1 * 16 -> 0 <= c0 < C0 ->
      elem size out (idx5 H W (N1 * 16) C0 c1 h w n c0)
      = if (c1 * C0 + c0 <? C) && (n <? N) then elem size d (at4 f N C H W n (c1 * C0 + c0) h w) else zeros size).
Proof. intros Hd. split; [apply TransShape_fz_ok|by apply to_fz_run]. Qed.

(** Transferring an accepted weight to FRACTAL_Z and back to its own format restores the
    original bytes, for NCHW, NHWC and HWCN. *)
Theorem fz_roundtrip result result' r :
  zlen d = N * C * H * W * GetSizeByDataType dt ->
  FractalZ.TransFormat (mk_args (Some d) f FORMAT_FRACTAL_Z (shape4 f N C H W) ds dt) result = Ok r ->
  delivers (from_fz f (mk_args (res_data r) FORMAT_FRACTAL_Z f ds (shape4 f N C H W) dt) result')
    INTERNAL_ERROR size (N * C * H * W) (fun out => out = d).
Proof.
  intros Hd Hr. destruct TransShape_fz_ok as (Hf & _ & DZ & _). pose proof DZ as [].
  destruct (delivers_ok _ _ _ _ _ _ (to_fz_run result Hd) Hr) as (dz & -> & _ & Hlz & Hz).
  eapply delivers_mono; [by apply from_fz_run|]. intros out Hl Hout.
  eapply elem_ext; [|done|done|]; [lia|]. intros k Hk.
  destruct (at4_surj f k Hf Hk) as (n & c & h & w & ? & ? & ? & ? & ->).
  destruct (channel_group C C1 C0 c) as (? & ? & _); [lia..|].
  rewrite Hout, Hz by (done || lia). by rewrite (fz_elem_channel _ _ _ _ _ _ _ _ _ DZ).
Qed.
End Properties.

(** C19 The three forward routines agree: from two formats holding the same logical weight they
    build the same FRACTAL_Z bytes (the NCHW routine with its own block arithmetic included). *)
Theorem fz_formats_agree `{E : Env} {HE : EnvOk E} f g dt N C H W ds d d' result result' r r' :
  0 < N /\ 0 < C /\ 0 < H /\ 0 < W -> Forall (fun x => x < 2 ^ 63) [N; C; H; W] ->
  FractalZ.TransShape f (shape4 f N C H W) dt FORMAT_FRACTAL_Z = Ok ds ->
  FractalZ.TransShape g (shape4 g N C H W) dt FORMAT_FRACTAL_Z = Ok ds ->
  zlen d = N * C * H * W * GetSizeByDataType dt -> zlen d' = N * C * H * W * GetSizeByDataType dt ->
  (forall n c h w, 0 <= n < N -> 0 <= c < C -> 0 <= h < H -> 0 <= w < W ->
     elem (GetSizeByDataType dt) d (at4 f N C H W n c h w) = elem (GetSizeByDataType dt) d' (at4 g N C H W n c h w)) ->
  FractalZ.TransFormat (mk_args (Some d) f FORMAT_FRACTAL_Z (shape4 f N C H W) ds dt) result = Ok r ->
  FractalZ.TransFormat (mk_args (Some d') g FORMAT_FRACTAL_Z (shape4 g N C H W) ds dt) result' = Ok r' ->
  r = r'.
Proof.
  intros Hpos Hint Hts Hts' Hd Hd' Hsame Hr Hr'.
  destruct (TransShape_fz_ok f dt N C H W ds Hpos Hint Hts) as (_ & _ & DZ & _). pose proof DZ as [].
  destruct (delivers_ok _ _ _ _ _ _ (to_fz_run f dt N C H W ds d Hpos Hint Hts result Hd) Hr)
    as (o1 & Ho1 & Hlen1 & Hl1 & Hz1).
  destruct (delivers_ok _ _ _ _ _ _ (to_fz_run g dt N C H W ds d' Hpos Hint Hts' result' Hd') Hr')
    as (o2 & Ho2 & Hlen2 & Hl2 & Hz2).
  destruct r as [rd rl], r' as [rd' rl']. cbn in *. subst. f_equal. f_equal.
  eapply elem_ext; [|done|done|]; [lia|]. intros k Hk.
  destruct (idx5_surj k (Ceil C (GetCubeSizeByDataType dt)) H W (Ceil N kNiSize * 16) (GetCubeSizeByDataType dt))
    as (c1 & h & w & n & c0 & ? & ? & ? & ? & ? & ->); [lia..|].
  rewrite Hz1, Hz2 by done. unfold fz_elem.
  destruct (Z.ltb_spec (c1 * GetCubeSizeByDataType dt + c0) C), (Z.ltb_spec n N); cbn [andb]; try done.
  apply Hsame; nia.
Qed.

(** * Runs on concrete weights *)
Definition sample_z : TransResult := {| res_data := None; res_length := 0 |}.
(** Two float16 kernels of one channel and one pixel. *)
Definition sample_fz : list Z := [1; 2] ++ repeat 0 30 ++ [3; 4] ++ repeat 0 478.

Ltac run_fz := first [lia | by repeat constructor | vm_compute; reflexivity].

Lemma fz_correct_witness :
  exists out, FractalZ.TransFormat (E := sample_env)
      (mk_args (Some [1; 2; 3; 4]) FORMAT_NCHW FORMAT_FRACTAL_Z [2; 1; 1; 1] [1; 1; 16; 16] DT_FLOAT16) sample_z
    = Ok {| res_data := Some out; res_length := 512 |} /\ zlen out = 512 /\ elem 2 out 16 = [3; 4].
Proof.
  destruct (fz_correct (E := sample_env) FORMAT_NCHW DT_FLOAT16 2 1 1 1 [1; 1; 16; 16] [1; 2; 3; 4]
    ltac:(lia) ltac:(by repeat constructor) ltac:(vm_compute; reflexivity) sample_z ltac:(reflexivity))
    as [_ (out & Hr & Hl & Hout)].
  exists out. split; [exact Hr|]. split; [exact Hl|].
  exact (Hout 0 0 0 1 0 ltac:(vm_compute; split; congruence) ltac:(lia) ltac:(lia)
           ltac:(vm_compute; split; congruence) ltac:(vm_compute; split; congruence)).
Defined.

Lemma fz_roundtrip_witness :
  exists out, FracZHwcn.TransFormat (E := sample_env)
      (mk_args (Some sample_fz) FORMAT_FRACTAL_Z FORMAT_HWCN [1; 1; 16; 16] [1; 1; 1; 2] DT_FLOAT16) sample_z
    = Ok {| res_data := Some out; res_length := 4 |} /\ zlen out = 4 /\ out = [1; 2; 3; 4].
Proof.
  apply (fz_roundtrip (E := sample_env) FORMAT_HWCN DT_FLOAT16 2 1 1 1 [1; 1; 16; 16] [1; 2; 3; 4]
    ltac:(lia) ltac:(by repeat constructor) ltac:(vm_compute; reflexivity) sample_z sample_z
    {| res_data := Some sample_fz; res_length := 512 |}); vm_compute; reflexivity.
Defined.

(** Two kernels of two channels, in NCHW and in HWCN. *)
Lemma fz_formats_agree_witness :
  let nchw := FractalZ.TransFormat (E := sample_env)
    (mk_args (Some [1; 2; 3; 4; 5; 6; 7; 8]) FORMAT_NCHW FORMAT_FRACTAL_Z [2; 2; 1; 1] [1; 1; 16; 16] DT_FLOAT16) sample_z in
  let hwcn := FractalZ.TransFormat (E := sample_env)
    (mk_args (Some [1; 2; 5; 6; 3; 4; 7; 8]) FORMAT_HWCN FORMAT_FRACTAL_Z [1; 1; 2; 2] [1; 1; 16; 16] DT_FLOAT16) sample_z in
  exists r, nchw = Ok r /\ hwcn = Ok r /\ res_length r = 512.
Proof.
  intros nchw hwcn.
  assert (exists r, nchw = Ok r /\ res_length r = 512) as (r & Hr & Hl) by (eexists; split; vm_compute; reflexivity).
  assert (exists r, hwcn = Ok r) as [r' Hr'] by (eexists; vm_compute; reflexivity).
  exists r. split; [exact Hr|]. split; [|exact Hl]. rewrite Hr'. f_equal. symmetry.
  refine (fz_formats_agree (E := sample_env) FORMAT_NCHW FORMAT_HWCN DT_FLOAT16 2 2 1 1 [1; 1; 16; 16]
    [1; 2; 3; 4; 5; 6; 7; 8] [1; 2; 5; 6; 3; 4; 7; 8] sample_z sample_z r r' _ _ _ _ _ _ _ Hr Hr'); [run_fz..|].
  intros n c h w Hn Hc Hh Hw. assert (h = 0) as -> by lia. assert (w = 0) as -> by lia.
  assert (n = 0 \/ n = 1) as [-> | ->] by lia; assert (c = 0 \/ c = 1) as [-> | ->] by lia; reflexivity.
Defined.

(** The routines differ when the caller leaves the destination shape empty, which the check
    accepts: NCHW derives the size from the source and succeeds, HWCN and NHWC take the
    product of the empty shape, allocate one element and fail. *)
Theorem fz_empty_dst_shape :
  (exists r, FractalZ.TransFormat (E := sample_env)
     (mk_args (Some [1; 2]) FORMAT_NCHW FORMAT_FRACTAL_Z [1; 1; 1; 1] [] DT_FLOAT16) sample_z = Ok r) /\
  FractalZ.TransFormat (E := sample_env)
     (mk_args (Some [1; 2]) FORMAT_HWCN FORMAT_FRACTAL_Z [1; 1; 1; 1] [] DT_FLOAT16) sample_z = Err INTERNAL_ERROR /\
  FractalZ.TransFormat (E := sample_env)
     (mk_args (Some [1; 2]) FORMAT_NHWC FORMAT_FRACTAL_Z [1; 1; 1; 1] [] DT_FLOAT16) sample_z = Err INTERNAL_ERROR.
Proof. split; [eexists; vm_compute; reflexivity|]. split; vm_compute; reflexivity. Qed.
