(* ===== verification/FormatFzC04.v ===== *)
(** The transfer from NCHW to FRACTAL_Z_C04
    (ge/common/formats/format_transfers/format_transfer_nchw_fz_c04.cc).

    Weights of at most four channels are padded to four channels and a multiple of the cube size in n,
    transposed to n, h, w, c, viewed as rows of h * w * 4 elements that are padded to the cube
    size, and transposed once more.  The theorem composes the two paddings and the two
    transpositions of [FormatTranspose] into the layout of the target. *)
From S2P Require Import Prelude MathUtil Buffer FormatsUtils FormatIndex FormatTranspose.

Module NchwFzC04.
Section Model.
Context `{E : Env}.

Definition kMaxDimsNumC : Z := 4.

Definition CheckDataTypeSupport (data_type : DataType) : Status :=
  if 0 <? GetSizeByDataType data_type then SUCCESS else UNSUPPORTED.

(** The static TransShape of the file. *)
Definition TransShapeOf (n c h w : Z) (data_type : DataType) : outcome (list Z) :=
  let c0 := GetCubeSizeByDataType data_type in
  if c0 <? 0 then Err ACL_ERROR_GE_TRANSSHAPE_DATATYPE_INVALID else
  let chw := (c * h * w)%i64 in
  let first_dim := Ceil chw c0 in
  let no := Ceil n c0 in
  let dst_shape := [first_dim; no; c0; c0] in
  if negb (IsShapeValid dst_shape) then Err ACL_ERROR_GE_TRANSSHAPE_SHAPE_INVALID else Ok dst_shape.

Definition TransShapeNchwToFzC04 (src_shape : list Z) (data_type : DataType) : outcome (list Z) :=
  if negb (CheckShapeValid src_shape kNchwDimsNum) then Err ACL_ERROR_GE_TRANSSHAPE_SHAPE_INVALID else
  n ← at_ src_shape kNchwN;
  c ← at_ src_shape kNchwC;
  h ← at_ src_shape kNchwH;
  w ← at_ src_shape kNchwW;
  TransShapeOf n c h w data_type.

(** The overflow checks both paddings make before they allocate. *)
Definition checked_size (n_o c_o h_o w_o size : Z) : outcome Z :=
  _ ← require (CheckInt64MulOverflow h_o w_o) INTERNAL_ERROR;
  _ ← require (CheckInt64MulOverflow n_o c_o) INTERNAL_ERROR;
  let t1 := (h_o * w_o)%i64 in
  let t2 := (n_o * c_o)%i64 in
  _ ← require (CheckInt64MulOverflow t1 t2) INTERNAL_ERROR;
  let total_ele_cnt := (n_o * c_o * h_o * w_o)%i64 in
  _ ← require (CheckInt64MulOverflow total_ele_cnt size) INTERNAL_ERROR;
  Ok (total_ele_cnt * size)%i64.

(** The target buffer of a padding, set to zero. *)
Definition zeroed (dst_size : Z) : outcome (list Z) :=
  match new_uint8 dst_size with
  | None => Err OUT_OF_MEMORY
  | Some dst => check_eok (memset_s dst 0 (wrapU64 dst_size) 0 (wrapU64 dst_size))
  end.

(** One copy of a padding; [protectSize] counts down by the bytes copied, not by the distance of
    the targets. *)
Definition padded_copy (src : option (list Z)) (dst_off src_off block : Z) (st : list Z * Z) : outcome (list Z * Z) :=
  let '(dst, protectSize) := st in
  dst ← check_eok (memcpy_s dst dst_off (wrapU64 protectSize) src src_off (wrapU64 block));
  Ok (dst, (protectSize - block)%i64).

Definition TransFormatFromNchwToFzC04 (args : TransArgs) (result : TransResult) : outcome TransResult :=
  n ← at_ (src_shape args) kNchwN;
  c ← at_ (src_shape args) kNchwC;
  h ← at_ (src_shape args) kNchwH;
  w ← at_ (src_shape args) kNchwW;
  let c0 := GetCubeSizeByDataType (src_data_type args) in
  let size := GetSizeByDataType (src_data_type args) in
  let perm_arg_1 := [0; 2; 3; 1] in
  trans_result_1 ← or_else NOT_CHANGED (Transpose.Transpose (data args) (src_shape args) (src_data_type args) perm_arg_1
    {| res_data := None; res_length := 0 |});
  let expect_size := wrapU64 (n * c * h * w * size)%i64 in
  if negb (res_length trans_result_1 =? expect_size) then Err NOT_CHANGED else
  let tmp := (h * w * c)%i64 in
  let n_o := Ceil n c0 in
  let c_o := c0 in
  let h_o := Ceil tmp c0 in
  let w_o := c0 in
  let shape_o := [n_o; c_o; h_o; w_o] in
  dst_size ← checked_size n_o c_o h_o w_o size;
  if dst_size =? 0 then Ok {| res_data := res_data result; res_length := 0 |} else
  dst ← zeroed dst_size;
  let block := (c * h * w * size)%i64 in
  let stride := (h_o * w_o * size)%i64 in
  '(dst, _) ← for_range n (fun k => padded_copy (res_data trans_result_1) (k * stride)%i64 (k * block)%i64 block)
    (dst, dst_size);
  let perm_arg_2 := [2; 0; 1; 3] in
  or_else NOT_CHANGED (Transpose.Transpose (Some dst) shape_o (src_data_type args) perm_arg_2 result).

(** The int counters stay below n and c; a tensor with 2^31 kernels has more bytes than memset_s takes.  The result is
    [args_tmp] with the padded data. *)
Definition PaddingNC (args : TransArgs) : outcome TransArgs :=
  if negb (CheckShapeValid (src_shape args) kNchwDimsNum) then Err PARAM_INVALID else
  let c0 := GetCubeSizeByDataType (src_data_type args) in
  n ← at_ (src_shape args) kNchwN;
  c ← at_ (src_shape args) kNchwC;
  h ← at_ (src_shape args) kNchwH;
  w ← at_ (src_shape args) kNchwW;
  if kMaxDimsNumC <? c then Err PARAM_INVALID else
  let n_o := (Ceil n c0 * c0)%i64 in
  let c_o := kMaxDimsNumC in
  let h_o := h in
  let w_o := w in
  let args_tmp d := {| data := d; src_format := src_format args; dst_format := dst_format args;
                       src_shape := [n_o; c_o; h_o; w_o]; dst_shape := dst_shape args;
                       src_data_type := src_data_type args |} in
  let size := GetSizeByDataType (src_data_type args) in
  dst_size ← checked_size n_o c_o h_o w_o size;
  if dst_size =? 0 then Ok (args_tmp (data args)) else
  dst ← zeroed dst_size;
  let block := (h * w * size)%i64 in
  '(dst, _) ← for_range n (fun i => for_range c (fun j =>
      padded_copy (data args) ((i * c_o * h_o * w_o + j * h_o * w_o) * size)%i64
        ((i * c * h * w + j * h * w) * size)%i64 block)) (dst, dst_size);
  Ok (args_tmp (Some dst)).

Definition TransShape (src_format : Format) (src_shape : list Z) (data_type : DataType) (dst_format : Format) :
    outcome (list Z) :=
  if negb (bool_decide (CheckDataTypeSupport data_type = SUCCESS)) then Err ACL_ERROR_GE_TRANSSHAPE_DATATYPE_INVALID else
  if bool_decide (src_format = FORMAT_NCHW) && bool_decide (dst_format = FORMAT_FRACTAL_Z_C04)
  then TransShapeNchwToFzC04 src_shape data_type
  else Err ACL_ERROR_GE_TRANSSHAPE_FORMAT_INVALID.

Definition TransFormat (args : TransArgs) (result : TransResult) : outcome TransResult :=
  args_tmp ← PaddingNC args;
  expect_shape ← TransShape (src_format args_tmp) (src_shape args_tmp) (src_data_type args_tmp) (dst_format args_tmp);
  if negb (IsTransShapeDstCorrect args_tmp expect_shape) then Err PARAM_INVALID else
  if bool_decide (src_format args_tmp = FORMAT_NCHW) && bool_decide (dst_format args_tmp = FORMAT_FRACTAL_Z_C04)
  then TransFormatFromNchwToFzC04 args_tmp result
  else Err UNSUPPORTED.
End Model.
End NchwFzC04.
Import NchwFzC04.




Section Proofs.
Context `{E : Env} {HE : EnvOk E}.



(** The first padding: four channels and [Np] kernels. *)
Section Padding.
Context (size N C H W Np : Z) (d : list Z).
Hypothesis Hsize : 0 < size <= 1024.
Hypothesis Hpos : 0 < N /\ 0 < C <= 4 /\ 0 < H /\ 0 < W /\ N <= Np.
Hypothesis HT : Np * 4 * H * W <= 2 ^ 40.
Hypothesis Hmax : Np * 4 * H * W * size <= SECUREC_MEM_MAX_LEN.
Hypothesis Hd : zlen d = N * C * H * W * size.





End Padding.

(** The second padding: rows of [K] elements in rows of [L]. *)
Section Rows.
Context (size R K L : Z) (d1 : list Z).
Hypothesis Hsize : 0 < size <= 1024.
Hypothesis Hpos : 0 < R /\ 0 < K <= L.
Hypothesis HT : R * L <= 2 ^ 40.
Hypothesis Hmax : R * L * size <= SECUREC_MEM_MAX_LEN.
Hypothesis Hd : zlen d1 = R * K * size.



End Rows.

(** * The whole transfer *)
Section Transfer.
Context (dt : DataType) (N C H W : Z) (ds d : list Z).
Local Abbreviation size := (GetSizeByDataType dt).
Local Abbreviation P := (GetCubeSizeByDataType dt).
Local Abbreviation No := (Ceil N P).
Local Abbreviation Np := (No * P).
Local Abbreviation K := (4 * H * W).
Local Abbreviation Ho := (Ceil K P).
Hypothesis Hpos : 0 < N /\ 0 < C <= 4 /\ 0 < H /\ 0 < W.
Hypothesis Hint : Forall (fun x => x < 2 ^ 63) [N; C; H; W].
Hypothesis Hvalid : CheckShapeValid [N; C; H; W] kNchwDimsNum = true.
Hypothesis Hts : TransShape FORMAT_NCHW [Np; 4; H; W] dt FORMAT_FRACTAL_Z_C04 = Ok ds.
Hypothesis Hmax : Ho * No * P * P * size <= SECUREC_MEM_MAX_LEN.
Hypothesis Hd : zlen d = N * C * H * W * size.










End Transfer.
End Proofs.


(** The public TransShape derives the target from the tensor without padding, TransFormat expects the target of the padded tensor: the
    shape TransShape gives for one channel of 4 x 4 elements is refused by TransFormat, which accepts
    the shape of four channels. *)
Theorem fz_c04_shapes_disagree :
  TransShape (E := sample_env) FORMAT_NCHW [1; 1; 4; 4] DT_FLOAT16 FORMAT_FRACTAL_Z_C04 = Ok [1; 1; 16; 16] /\
  TransFormat (E := sample_env) (mk_args (Some (repeat 1 32)) FORMAT_NCHW FORMAT_FRACTAL_Z_C04 [1; 1; 4; 4] [1; 1; 16; 16] DT_FLOAT16)
    sample_out = Err PARAM_INVALID /\
  (exists r, TransFormat (E := sample_env)
     (mk_args (Some (repeat 1 32)) FORMAT_NCHW FORMAT_FRACTAL_Z_C04 [1; 1; 4; 4] [4; 1; 16; 16] DT_FLOAT16) sample_out = Ok r /\
     res_length r = 2048).
Proof. split_and!; [vm_compute; reflexivity..|]. eexists. split; [vm_compute; reflexivity|reflexivity]. Qed.

