(* ===== verification/MemAllocator.v ===== *)
(** Device memory: the runtime interface and MemoryAllocator
    (ge/graph/manager/graph_mem_allocator.{h,cc}).

    [Runtime] is the device runtime the repository links against, with the answers of
    the host heap; [RuntimeOk] states what rtMalloc and rtFree document, as a map of
    the live device regions.  [MemoryAllocator] forwards to the runtime and keeps the
    reference-counted regions shared by a key; the caching and the RDMA allocators take
    their extents from it.  [kept] says that an operation takes and loses no region but those
    its owner holds; it is what the allocators promise to each other. *)
From S2P Require Import Prelude.
From stdpp Require Export gmap.
From stdpp Require Import strings sorting.
Open Scope Z_scope.

(** * The runtime *)
Class Runtime := {
  RT : Type;
  RT_ERROR_NONE : Z;
  (** [rtMalloc size type s]: the error code, the address written to the out parameter, the new state. *)
  rtMalloc : Z -> Z -> RT -> Z * Z * RT;
  rtFree : Z -> RT -> Z * RT;
  (** Whether the next `new (std::nothrow)` of a host object succeeds. *)
  new_nothrow : RT -> bool * RT;
  (** The order in which a std::unordered_map from addresses is traversed. *)
  map_order : gmap Z nat -> list (Z * nat);
}.

(** A region handed out does not overlap a live one; freeing a live region removes it;
    a call that fails changes nothing. *)
Class RuntimeOk (R : Runtime) := {
  rt_live : RT -> gmap Z Z;
  rtMalloc_ok size type s p s' :
    rtMalloc size type s = (RT_ERROR_NONE, p, s') -> 0 < size ->
    0 < p /\ p + size < 2 ^ 64 /\ rt_live s !! p = None /\ rt_live s' = <[p := size]> (rt_live s) /\
    (forall base len, rt_live s !! base = Some len -> base + len <= p \/ p + size <= base);
  rtMalloc_fail size type s e p s' : rtMalloc size type s = (e, p, s') -> e <> RT_ERROR_NONE -> rt_live s' = rt_live s;
  rtFree_ok p s s' len : rtFree p s = (RT_ERROR_NONE, s') -> rt_live s !! p = Some len -> rt_live s' = delete p (rt_live s);
  rtFree_fail p s e s' : rtFree p s = (e, s') -> e <> RT_ERROR_NONE -> rt_live s' = rt_live s;
  new_nothrow_live s b s' : new_nothrow s = (b, s') -> rt_live s' = rt_live s;
  map_order_perm m : map_order m ≡ₚ map_to_list m;
}.

(** A runtime that meets these laws: it hands out ascending addresses up to a
    limit, and the host heap never fails. *)
Record sample_rt := { srt_live : gmap Z Z; srt_top : Z }.
Definition sample_limit : Z := 2 ^ 40.

Definition sample_runtime : Runtime := {|
  RT := sample_rt;
  RT_ERROR_NONE := 0;
  rtMalloc := fun size _ s =>
    let top := Z.max 4096 (srt_top s) in
    if (0 <? size) && (top + size <? sample_limit) && bool_decide (map_Forall (fun base len => base + len <= top /\ base < top) (srt_live s))
    then (0, top, {| srt_live := <[top := size]> (srt_live s); srt_top := top + size |})
    else (1, 0, s);
  rtFree := fun p s =>
    match srt_live s !! p with
    | Some _ => (0, {| srt_live := delete p (srt_live s); srt_top := srt_top s |})
    | None => (1, s)
    end;
  new_nothrow := fun s => (true, s);
  map_order := map_to_list;
|}.

(** * MemoryAllocator *)
Record MemoryInfo := mkMemoryInfo {
  memory_addr_ : Z;
  memory_size_ : Z;
  memory_used_num_ : Z;
}.

Record MemoryAllocator := mkMemoryAllocator {
  memory_type_ : Z;
  mem_malloced_ : bool;
  memory_base_map_ : gmap string MemoryInfo;
}.

Section Model.
Context `{R : Runtime}.

(** The address is the null pointer when rtMalloc fails. *)
Definition MallocMemory (memory_type memory_size : Z) (rt : RT) : Z * RT :=
  let '(err, memory_addr, rt) := rtMalloc memory_size memory_type rt in
  if negb (err =? RT_ERROR_NONE) then (0, rt) else (memory_addr, rt).

Definition FreeMemory (memory_addr : Z) (rt : RT) : Status * RT :=
  let '(rtRet, rt) := rtFree memory_addr rt in
  if negb (rtRet =? RT_ERROR_NONE) then (RT_ERROR rtRet, rt) else (SUCCESS, rt).

(** The entries in key order, as std::map iterates. *)
Definition map_entries (m : gmap string MemoryInfo) : list (string * MemoryInfo) :=
  merge_sort (fun a b => String.le a.1 b.1) (map_to_list m).

(** `for (auto &it : memory_base_map_) FreeMemory(it.second.memory_addr_, device_id)` *)
Definition FreeAll (entries : list (string * MemoryInfo)) (rt : RT) : RT :=
  fold_left (fun rt it => (FreeMemory (memory_addr_ it.2) rt).2) entries rt.

Definition Initialize (ma : MemoryAllocator) (rt : RT) : MemoryAllocator * RT :=
  (mkMemoryAllocator (memory_type_ ma) (mem_malloced_ ma) ∅, FreeAll (map_entries (memory_base_map_ ma)) rt).

Definition Finalize (ma : MemoryAllocator) (rt : RT) : MemoryAllocator * RT :=
  (mkMemoryAllocator (memory_type_ ma) (mem_malloced_ ma) ∅, FreeAll (map_entries (memory_base_map_ ma)) rt).

(** MallocMemory(purpose, memory_key, memory_size, device_id) *)
Definition MallocMemoryKey (memory_key : string) (memory_size : Z) (ma : MemoryAllocator) (rt : RT) :
    Z * MemoryAllocator * RT :=
  match memory_base_map_ ma !! memory_key with
  | Some info =>
      (memory_addr_ info,
       mkMemoryAllocator (memory_type_ ma) (mem_malloced_ ma)
         (<[memory_key := mkMemoryInfo (memory_addr_ info) (memory_size_ info) (wrapS 32 (memory_used_num_ info + 1))]>
            (memory_base_map_ ma)), rt)
  | None =>
      let '(memory_addr, rt) := MallocMemory (memory_type_ ma) memory_size rt in
      if memory_addr =? 0 then (0, ma, rt) else
      (memory_addr,
       mkMemoryAllocator (memory_type_ ma) true
         (<[memory_key := mkMemoryInfo memory_addr memory_size (0 + 1)]> (memory_base_map_ ma)), rt)
  end.

(** FreeMemory(memory_key, device_id) *)
Definition FreeMemoryKey (memory_key : string) (ma : MemoryAllocator) (rt : RT) : Status * MemoryAllocator * RT :=
  match memory_base_map_ ma !! memory_key with
  | None => (INTERNAL_ERROR, ma, rt)
  | Some info =>
      if 1 <? memory_used_num_ info then
        (SUCCESS,
         mkMemoryAllocator (memory_type_ ma) (mem_malloced_ ma)
           (<[memory_key := mkMemoryInfo (memory_addr_ info) (memory_size_ info) (wrapS 32 (memory_used_num_ info - 1))]>
              (memory_base_map_ ma)), rt)
      else
        let '(ret, rt) := FreeMemory (memory_addr_ info) rt in
        if negb (bool_decide (ret = SUCCESS)) then (INTERNAL_ERROR, ma, rt) else
        (SUCCESS, mkMemoryAllocator (memory_type_ ma) (mem_malloced_ ma) (delete memory_key (memory_base_map_ ma)), rt)
  end.

Definition GetMemoryAddr (memory_key : string) (ma : MemoryAllocator) : Z :=
  match memory_base_map_ ma !! memory_key with
  | None => 0
  | Some info => memory_addr_ info
  end.
End Model.

(** * What the clients rely on *)
Section Interface.
Context `{R : Runtime} {RO : RuntimeOk R}.

(** A failed request changes no region; a successful one adds a fresh region. *)
Lemma MallocMemory_spec type size rt p rt' :
  MallocMemory type size rt = (p, rt') -> 0 < size ->
  (p = 0 /\ rt_live rt' = rt_live rt) \/
  (0 < p /\ p + size < 2 ^ 64 /\ rt_live rt !! p = None /\ rt_live rt' = <[p := size]> (rt_live rt) /\
   forall base len, rt_live rt !! base = Some len -> base + len <= p \/ p + size <= base).
Proof.
  unfold MallocMemory. destruct (rtMalloc size type rt) as [[err addr] rt1] eqn:Hm. intros Hp Hs.
  destruct (Z.eqb_spec err RT_ERROR_NONE) as [->|Hne]; cbn [negb] in Hp; injection Hp as <- <-.
  - right. by eapply rtMalloc_ok.
  - left. split; [done|]. by eapply rtMalloc_fail.
Qed.

Lemma FreeMemory_spec p rt st rt' len :
  FreeMemory p rt = (st, rt') -> rt_live rt !! p = Some len ->
  (st = SUCCESS /\ rt_live rt' = delete p (rt_live rt)) \/ (st <> SUCCESS /\ rt_live rt' = rt_live rt).
Proof.
  unfold FreeMemory. destruct (rtFree p rt) as [err rt1] eqn:Hf. intros Hp Hl.
  destruct (Z.eqb_spec err RT_ERROR_NONE) as [->|Hne]; cbn [negb] in Hp; injection Hp as <- <-.
  - left. split; [done|]. by eapply rtFree_ok.
  - right. split; [done|]. by eapply rtFree_fail.
Qed.

(** The device takes back every live region it is given. *)
Definition rtFree_total : Prop := forall p r n, rt_live r !! p = Some n -> (rtFree p r).1 = RT_ERROR_NONE.

Lemma FreeMemory_total p r n : rtFree_total -> rt_live r !! p = Some n -> (FreeMemory p r).1 = SUCCESS.
Proof.
  intros HT Hl. specialize (HT _ _ _ Hl). unfold FreeMemory. destruct (rtFree p r) as [e r']. cbn in HT. subst e.
  by rewrite Z.eqb_refl.
Qed.

(** * Ownership

    The allocators share the device.  [kept ext r ext' r']: in going from the device state [r] to [r'], the
    owner of the regions [ext] ends up with [ext'] and every region of somebody else is still
    there and still theirs; when the device refuses no release, no region has lost its
    owner either; and the live regions still do not overlap. *)
Definition live_disj (m : gmap Z Z) : Prop :=
  forall p n q k, m !! p = Some n -> m !! q = Some k -> p <> q -> p + n <= q \/ q + k <= p.

Definition foreign (ext : gmap Z Z) (r : RT) (ext' : gmap Z Z) (r' : RT) : Prop :=
  forall q n, rt_live r !! q = Some n -> ext !! q = None -> rt_live r' !! q = Some n /\ ext' !! q = None.

Record kept (ext : gmap Z Z) (r : RT) (ext' : gmap Z Z) (r' : RT) : Prop := {
  kp_foreign : foreign ext r ext' r';
  kp_back : rtFree_total -> foreign ext' r' ext r;
  kp_disj : live_disj (rt_live r) -> live_disj (rt_live r');
}.

Lemma kept_same ext r r' : rt_live r' = rt_live r -> kept ext r ext r'.
Proof. intros Hr. split; [|intros _|by rewrite Hr]; intros q n; by rewrite Hr. Qed.

Lemma kept_trans ext1 r1 ext2 r2 ext3 r3 : kept ext1 r1 ext2 r2 -> kept ext2 r2 ext3 r3 -> kept ext1 r1 ext3 r3.
Proof.
  intros [F1 B1 D1] [F2 B2 D2]. split; [| |auto].
  - intros q n Hq He. destruct (F1 q n Hq He). by apply F2.
  - intros HT q n Hq He. destruct (B2 HT q n Hq He). by apply (B1 HT).
Qed.

Lemma live_disj_subseteq m m' : m' ⊆ m -> live_disj m -> live_disj m'.
Proof. intros Hs HD p n q k Hp Hq. apply HD; by eapply lookup_weaken. Qed.

(** A fresh region is added. *)
Lemma kept_grow ext r r' p n :
  rt_live r !! p = None -> rt_live r' = <[p := n]> (rt_live r) ->
  (forall base len, rt_live r !! base = Some len -> base + len <= p \/ p + n <= base) -> kept ext r (<[p := n]> ext) r'.
Proof.
  intros Hf Hr Hd. split.
  - intros q k Hq He. assert (q <> p) by congruence. by rewrite Hr, !lookup_insert_ne.
  - intros _ q k. rewrite Hr, !lookup_insert_Some, lookup_insert_None. naive_solver.
  - intros HD a x b y. rewrite Hr, !lookup_insert_Some.
    intros [[<- <-]|[? Ha]] [[<- <-]|[? Hb]] Hne; [done|destruct (Hd _ _ Hb); lia|destruct (Hd _ _ Ha); lia|by eapply HD].
Qed.

(** A region is given up; it stays on the device only when the device refuses the release. *)
Lemma kept_free ext r p n s r' :
  rt_live r !! p = Some n -> FreeMemory p r = (s, r') -> ext !! p = Some n -> kept ext r (delete p ext) r'.
Proof.
  intros Hl Hf He. destruct (FreeMemory_spec _ _ _ _ _ Hf Hl) as [[-> Hr]|[Hne Hr]].
  - split.
    + intros q k Hq Hq'. assert (q <> p) by congruence. by rewrite Hr, !lookup_delete_ne.
    + intros _ q k. rewrite Hr, lookup_delete_Some, lookup_delete_None. naive_solver.
    + rewrite Hr. apply live_disj_subseteq, delete_subseteq.
  - split; [| |by rewrite Hr].
    + intros q k Hq Hq'. rewrite Hr. split; [done|]. rewrite lookup_delete_None. by right.
    + intros HT. pose proof (FreeMemory_total _ _ _ HT Hl) as Hs. by rewrite Hf in Hs.
Qed.

(** An owner of nothing that ends up with nothing has left the device as it was. *)
Lemma kept_all r r' : kept ∅ r ∅ r' -> rtFree_total -> rt_live r' = rt_live r.
Proof.
  intros [HF HB _] HT. apply map_eq. intros q. apply option_eq. intros n.
  split; intros Hq; [by apply (HB HT)|by apply HF].
Qed.

(** What is held on the device is given back, and nothing else. *)
Lemma kept_gives_back ext r r' : rtFree_total -> kept ext r ∅ r' -> rt_live r' = rt_live r ∖ ext.
Proof.
  intros HT [HF HB _]. apply map_eq. intros q. apply option_eq. intros n. rewrite lookup_difference_Some.
  split; [intros Hq; by apply (HB HT)|intros [Hq He]; by apply HF].
Qed.

(** The object is deleted with what it could not give back. *)
Lemma kept_forget ext r ext' r' : kept ext r ext' r' -> (rtFree_total -> ext' = ∅) -> kept ext r ∅ r'.
Proof.
  intros [HF HB HD] He. split; [| |done].
  - intros q n Hq Hn. by destruct (HF q n Hq Hn).
  - intros HT. rewrite <- (He HT) at 1. by apply HB.
Qed.

(** * The reference-counted regions *)

(** The allocator holds [ext]: one region for every key, and no other. *)
Record ma_owns (ext : gmap Z Z) (ma : MemoryAllocator) (rt : RT) : Prop := {
  mo_live : ext ⊆ rt_live rt;
  mo_region k info : memory_base_map_ ma !! k = Some info -> 0 < memory_addr_ info /\ ext !! memory_addr_ info = Some (memory_size_ info);
  mo_key p n : ext !! p = Some n -> exists k info, memory_base_map_ ma !! k = Some info /\ memory_addr_ info = p;
  mo_distinct k info k' info' : memory_base_map_ ma !! k = Some info -> memory_base_map_ ma !! k' = Some info' ->
    memory_addr_ info = memory_addr_ info' -> k = k';
}.

(** Every key owns a live region of its own and counts at least one user. *)
Record ma_ok (ma : MemoryAllocator) (rt : RT) : Prop := {
  ma_count k info : memory_base_map_ ma !! k = Some info -> 1 <= memory_used_num_ info < 2 ^ 31;
  ma_own : exists ext, ma_owns ext ma rt;
}.

Lemma ma_live ma rt k info :
  ma_ok ma rt -> memory_base_map_ ma !! k = Some info -> 0 < memory_addr_ info /\ rt_live rt !! memory_addr_ info = Some (memory_size_ info).
Proof.
  intros [_ [ext HO]] Hk. destruct (mo_region _ _ _ HO _ _ Hk) as [? He]. split; [done|]. by eapply lookup_weaken, HO.
Qed.

Lemma ma_owns_frame ext ma r r' : ma_owns ext ma r -> ext ⊆ rt_live r' -> ma_owns ext ma r'.
Proof. intros [] ?. by split. Qed.

Lemma ma_owns_update ext ma rt k info n m :
  ma_owns ext ma rt -> memory_base_map_ ma !! k = Some info ->
  ma_owns ext (mkMemoryAllocator (memory_type_ ma) m
           (<[k := mkMemoryInfo (memory_addr_ info) (memory_size_ info) n]> (memory_base_map_ ma))) rt.
Proof.
  intros HM Hk.
  assert (Hback : forall k' i, <[k := mkMemoryInfo (memory_addr_ info) (memory_size_ info) n]> (memory_base_map_ ma) !! k' = Some i ->
    exists i0, memory_base_map_ ma !! k' = Some i0 /\ memory_addr_ i = memory_addr_ i0 /\ memory_size_ i = memory_size_ i0).
  { intros k' i [[<- <-]|[_ ?]]%lookup_insert_Some; [by exists info|by exists i]. }
  split; cbn; [apply HM| | |].
  - intros k' i Hi. apply Hback in Hi as (i0 & ? & -> & ->). by eapply mo_region.
  - intros p x Hp. destruct (mo_key _ _ _ HM _ _ Hp) as (k' & i & Hi & <-). destruct (decide (k' = k)) as [->|].
    + eexists k, _. rewrite lookup_insert_eq. split; [done|]. cbn. congruence.
    + exists k', i. by rewrite lookup_insert_ne.
  - intros k1 i1 k2 i2 (j1 & ? & -> & _)%Hback (j2 & ? & -> & _)%Hback. by eapply mo_distinct.
Qed.

Lemma MallocMemoryKey_owns k size ext ma rt p ma' rt' :
  ma_owns ext ma rt -> 0 < size -> MallocMemoryKey k size ma rt = (p, ma', rt') ->
  exists ext', ma_owns ext' ma' rt' /\ kept ext rt ext' rt'.
Proof.
  intros HM Hs. unfold MallocMemoryKey. destruct (memory_base_map_ ma !! k) as [info|] eqn:Hk.
  { intros [= <- <- <-]. exists ext. split; [by apply ma_owns_update|by apply kept_same]. }
  destruct (MallocMemory _ _ _) as [addr rt1] eqn:Hm.
  destruct (MallocMemory_spec _ _ _ _ _ Hm Hs) as [[-> Hl]|(Hp & _ & Hf & Hl & Hd)].
  { cbn. intros [= <- <- <-]. exists ext. split; [|by apply kept_same]. eapply ma_owns_frame; [done|]. rewrite Hl. apply HM. }
  destruct (Z.eqb_spec addr 0) as [|_]; [lia|]. intros [= <- <- <-]. exists (<[addr := size]> ext). split; [|by apply kept_grow].
  assert (Hx : forall q n, ext !! q = Some n -> q <> addr).
  { intros q n0 Hq ->. pose proof (lookup_weaken _ _ _ _ Hq (mo_live _ _ _ HM)). congruence. }
  assert (Hne : forall k' info, memory_base_map_ ma !! k' = Some info -> memory_addr_ info <> addr)
    by (intros k' i Hi; destruct (mo_region _ _ _ HM _ _ Hi); by eapply Hx).
  split; cbn.
  - rewrite Hl. by apply insert_mono, HM.
  - intros k' i [[<- <-]|[_ Hi]]%lookup_insert_Some; cbn; [by rewrite lookup_insert_eq|].
    rewrite lookup_insert_ne; [by eapply mo_region|]. intros Heq. by eapply Hne.
  - intros q n [[<- <-]|[_ Hq]]%lookup_insert_Some; [eexists k, _; by rewrite lookup_insert_eq|].
    destruct (mo_key _ _ _ HM _ _ Hq) as (k' & i & Hi & <-). exists k', i. rewrite lookup_insert_ne by congruence. done.
  - intros k1 i1 k2 i2 [[<- <-]|[_ H1]]%lookup_insert_Some [[<- <-]|[_ H2]]%lookup_insert_Some; cbn; [done|..].
    + intros Heq. exfalso. by eapply Hne.
    + intros Heq. exfalso. by eapply Hne.
    + by eapply mo_distinct.
Qed.

(** One key is forgotten and its region given up. *)
Lemma ma_owns_drop ext ma r k info s r' m :
  ma_owns ext ma r -> memory_base_map_ ma !! k = Some info -> FreeMemory (memory_addr_ info) r = (s, r') ->
  let ext' := delete (memory_addr_ info) ext in
  ma_owns ext' (mkMemoryAllocator (memory_type_ ma) m (delete k (memory_base_map_ ma))) r' /\ kept ext r ext' r'.
Proof.
  intros HM Hk Hf ext'. destruct (mo_region _ _ _ HM _ _ Hk) as [_ He].
  assert (Hl : rt_live r !! memory_addr_ info = Some (memory_size_ info)) by (by eapply lookup_weaken, HM).
  split; [|by eapply kept_free]. split; cbn.
  - destruct (FreeMemory_spec _ _ _ _ _ Hf Hl) as [[_ ->]|[_ ->]]; [by apply delete_mono, HM|].
    etrans; [apply delete_subseteq|apply HM].
  - intros k' i [Hkk Hi]%lookup_delete_Some. destruct (mo_region _ _ _ HM _ _ Hi). split; [done|].
    unfold ext'. rewrite lookup_delete_ne; [done|]. intros Heq. apply Hkk. by eapply mo_distinct.
  - intros p n [Hp Hq]%lookup_delete_Some. destruct (mo_key _ _ _ HM _ _ Hq) as (k' & i & Hi & <-).
    exists k', i. rewrite lookup_delete_ne by congruence. done.
  - intros k1 i1 k2 i2 [_ ?]%lookup_delete_Some [_ ?]%lookup_delete_Some. by eapply mo_distinct.
Qed.

Lemma FreeMemoryKey_owns k ext ma rt st ma' rt' :
  ma_owns ext ma rt -> FreeMemoryKey k ma rt = (st, ma', rt') -> exists ext', ma_owns ext' ma' rt' /\ kept ext rt ext' rt'.
Proof.
  intros HM. unfold FreeMemoryKey. destruct (memory_base_map_ ma !! k) as [info|] eqn:Hk.
  2: { intros [= <- <- <-]. exists ext. split; [done|by apply kept_same]. }
  destruct (Z.ltb_spec 1 (memory_used_num_ info)).
  { intros [= <- <- <-]. exists ext. split; [by apply ma_owns_update|by apply kept_same]. }
  destruct (FreeMemory _ _) as [ret rt1] eqn:Hf. case_bool_decide as Hret; cbn; intros [= <- <- <-].
  { eexists. by apply (ma_owns_drop ext ma rt k info ret rt1). }
  destruct (mo_region _ _ _ HM _ _ Hk) as [_ He].
  destruct (FreeMemory_spec _ _ _ _ _ Hf (lookup_weaken _ _ _ _ He (mo_live _ _ _ HM))) as [[? _]|[_ Hl]]; [done|].
  exists ext. split; [|by apply kept_same]. eapply ma_owns_frame; [done|]. rewrite Hl. apply HM.
Qed.

(** Finalize and Initialize give everything up. *)
Lemma FreeAll_owns entries : forall ext ma r,
  ma_owns ext ma r -> NoDup entries.*1 -> (forall k i, memory_base_map_ ma !! k = Some i <-> (k, i) ∈ entries) ->
  kept ext r ∅ (FreeAll entries r).
Proof.
  induction entries as [|[k info] entries IH]; intros ext ma r HM Hnd Hel; cbn.
  { assert (ext = ∅) as ->; [|by apply kept_same]. apply map_eq. intros p. rewrite lookup_empty.
    destruct (ext !! p) as [n|] eqn:Hp; [|done]. destruct (mo_key _ _ _ HM _ _ Hp) as (k & i & Hi%Hel & _). by apply elem_of_nil in Hi. }
  apply NoDup_cons in Hnd as [Hk Hnd]. assert (Hk' : memory_base_map_ ma !! k = Some info) by (apply Hel; left).
  destruct (FreeMemory (memory_addr_ info) r) as [s r1] eqn:Hf.
  destruct (ma_owns_drop ext ma r k info s r1 true HM Hk' Hf) as [HM1 HK1]. eapply kept_trans; [exact HK1|].
  eapply IH; [exact HM1|done|]. intros k' i. cbn. rewrite lookup_delete_Some, Hel, elem_of_cons. split.
  - intros [Hne [[= -> ->]|?]]; [done|done].
  - intros Hi. split; [|by right]. intros <-. apply Hk, list_elem_of_fmap. by exists (k, i).
Qed.

Lemma Finalize_owns ext ma r :
  ma_owns ext ma r -> ma_owns ∅ (Finalize ma r).1 (Finalize ma r).2 /\ kept ext r ∅ (Finalize ma r).2.
Proof.
  intros HM. unfold Finalize. cbn. split.
  - split; cbn; [apply map_empty_subseteq|..]; intros *; by rewrite lookup_empty.
  - eapply FreeAll_owns; [exact HM| |].
    + unfold map_entries. rewrite merge_sort_Permutation. apply NoDup_fst_map_to_list.
    + intros k i. unfold map_entries. rewrite merge_sort_Permutation. symmetry. apply elem_of_map_to_list.
Qed.

Lemma MallocMemoryKey_ok k size ma rt p ma' rt' :
  ma_ok ma rt -> 0 < size ->
  (forall info, memory_base_map_ ma !! k = Some info -> memory_used_num_ info + 1 < 2 ^ 31) ->
  MallocMemoryKey k size ma rt = (p, ma', rt') -> ma_ok ma' rt'.
Proof.
  intros [Hc [ext HO]] Hs Hcnt Hrun. destruct (MallocMemoryKey_owns _ _ _ _ _ _ _ _ HO Hs Hrun) as (ext' & HO' & _).
  split; [|by exists ext']. revert Hrun. unfold MallocMemoryKey. destruct (memory_base_map_ ma !! k) as [info|] eqn:Hk.
  - intros [= <- <- <-]. pose proof (Hc _ _ Hk). specialize (Hcnt info eq_refl). rewrite wrapS_id by (unfold inS; lia).
    cbn; intros k' i [[<- <-]|[_ ?]]%lookup_insert_Some; [cbn; lia|by eapply Hc].
  - destruct (MallocMemory _ _ _) as [addr rt1]. destruct (addr =? 0); intros [= <- <- <-]; [done|].
    cbn; intros k' i [[<- <-]|[_ ?]]%lookup_insert_Some; [cbn; lia|by eapply Hc].
Qed.

Lemma FreeMemoryKey_ok k ma rt st ma' rt' :
  ma_ok ma rt -> FreeMemoryKey k ma rt = (st, ma', rt') -> ma_ok ma' rt'.
Proof.
  intros [Hc [ext HO]] Hrun. destruct (FreeMemoryKey_owns _ _ _ _ _ _ _ HO Hrun) as (ext' & HO' & _).
  split; [|by exists ext']. revert Hrun. unfold FreeMemoryKey. destruct (memory_base_map_ ma !! k) as [info|] eqn:Hk; [|by intros [= <- <- <-]].
  pose proof (Hc _ _ Hk). destruct (Z.ltb_spec 1 (memory_used_num_ info)).
  - intros [= <- <- <-]. rewrite wrapS_id by (unfold inS; lia). cbn; intros k' i [[<- <-]|[_ ?]]%lookup_insert_Some; [cbn; lia|by eapply Hc].
  - destruct (FreeMemory _ _) as [ret rt1]. case_bool_decide; cbn; intros [= <- <- <-]; [|done].
    cbn; intros k' i [_ ?]%lookup_delete_Some. by eapply Hc.
Qed.

(** [n] calls in a row on the same key. *)
Definition malloc_n (n : nat) (k : string) (size : Z) (st : MemoryAllocator * RT) : MemoryAllocator * RT :=
  Nat.iter n (fun st => let '(_, ma, rt) := MallocMemoryKey k size st.1 st.2 in (ma, rt)) st.
Definition free_n (n : nat) (k : string) (st : MemoryAllocator * RT) : MemoryAllocator * RT :=
  Nat.iter n (fun st => let '(_, ma, rt) := FreeMemoryKey k st.1 st.2 in (ma, rt)) st.

Lemma malloc_n_count n k size ma rt info :
  memory_base_map_ ma !! k = Some info -> 1 <= memory_used_num_ info -> memory_used_num_ info + Z.of_nat n < 2 ^ 31 ->
  malloc_n n k size (ma, rt)
  = (mkMemoryAllocator (memory_type_ ma) (mem_malloced_ ma)
       (<[k := mkMemoryInfo (memory_addr_ info) (memory_size_ info) (memory_used_num_ info + Z.of_nat n)]> (memory_base_map_ ma)), rt).
Proof.
  intros Hk Hc. induction n as [|n IH]; intros Hn.
  - cbn. destruct ma as [ty mm m], info as [a s c]. cbn in *. by rewrite Z.add_0_r, insert_id.
  - unfold malloc_n in *. rewrite Nat.iter_succ, IH by lia. unfold MallocMemoryKey. cbn.
    rewrite lookup_insert_eq. cbn. rewrite insert_insert_eq, wrapS_id by (unfold inS; lia).
    by replace (memory_used_num_ info + Z.of_nat n + 1) with (memory_used_num_ info + Z.of_nat (S n)) by lia.
Qed.

Lemma free_n_count n k ma rt info :
  memory_base_map_ ma !! k = Some info -> 1 <= memory_used_num_ info - Z.of_nat n -> memory_used_num_ info < 2 ^ 31 ->
  free_n n k (ma, rt)
  = (mkMemoryAllocator (memory_type_ ma) (mem_malloced_ ma)
       (<[k := mkMemoryInfo (memory_addr_ info) (memory_size_ info) (memory_used_num_ info - Z.of_nat n)]> (memory_base_map_ ma)), rt).
Proof.
  intros Hk. induction n as [|n IH]; intros Hn Hc.
  - cbn. destruct ma as [ty mm m], info as [a s c]. cbn in *. by rewrite Z.sub_0_r, insert_id.
  - unfold free_n in *. rewrite Nat.iter_succ, IH by lia. unfold FreeMemoryKey. cbn.
    rewrite lookup_insert_eq. cbn. destruct (Z.ltb_spec 1 (memory_used_num_ info - Z.of_nat n)); [|lia].
    rewrite insert_insert_eq, wrapS_id by (unfold inS; lia).
    by replace (memory_used_num_ info - Z.of_nat n - 1) with (memory_used_num_ info - Z.of_nat (S n)) by lia.
Qed.

(** Sharing a region by key is balanced: after [n] further requests for a key that has a
    region and [n] releases, the allocator and the device are exactly as before, and no
    request or release in between reached the device. *)
Theorem memory_key_balanced n k size ma rt info :
  memory_base_map_ ma !! k = Some info -> 1 <= memory_used_num_ info -> memory_used_num_ info + Z.of_nat n < 2 ^ 31 ->
  (malloc_n n k size (ma, rt)).2 = rt /\ free_n n k (malloc_n n k size (ma, rt)) = (ma, rt).
Proof.
  intros Hk Hc Hn. rewrite (malloc_n_count n k size ma rt info) by done. split; [done|].
  rewrite (free_n_count n k _ rt (mkMemoryInfo (memory_addr_ info) (memory_size_ info) (memory_used_num_ info + Z.of_nat n)));
    cbn; [|by rewrite lookup_insert_eq|lia|lia].
  rewrite insert_insert_eq. replace (memory_used_num_ info + Z.of_nat n - Z.of_nat n) with (memory_used_num_ info) by lia.
  destruct ma as [ty mm m], info as [a s c]. cbn in *. by rewrite insert_id.
Qed.

(** Requests and releases by key keep the invariant that every key owns a live device
    region of its own with a positive count; the last release removes exactly that
    region when rtFree succeeds and keeps the entry when it fails. *)
Theorem memory_key_invariant k size ma rt :
  ma_ok ma rt -> 0 < size ->
  (forall info, memory_base_map_ ma !! k = Some info -> memory_used_num_ info + 1 < 2 ^ 31) ->
  (forall p ma' rt', MallocMemoryKey k size ma rt = (p, ma', rt') ->
     ma_ok ma' rt' /\ (p <> 0 -> GetMemoryAddr k ma' = p)) /\
  (forall st ma' rt', FreeMemoryKey k ma rt = (st, ma', rt') ->
     ma_ok ma' rt' /\
     (forall info, memory_base_map_ ma !! k = Some info -> memory_used_num_ info = 1 ->
        (st = SUCCESS /\ memory_base_map_ ma' !! k = None /\ rt_live rt' = delete (memory_addr_ info) (rt_live rt)) \/
        (st = INTERNAL_ERROR /\ ma' = ma /\ rt_live rt' = rt_live rt))).
Proof.
  intros HM Hs Hcnt. split.
  - intros p ma' rt' Hm. split; [by eapply MallocMemoryKey_ok|]. intros Hp. revert Hm. unfold MallocMemoryKey, GetMemoryAddr.
    destruct (memory_base_map_ ma !! k) as [info|]; [intros [= <- <- <-]; cbn; by rewrite lookup_insert_eq|].
    destruct (MallocMemory _ _ _) as [addr rt1]. destruct (Z.eqb_spec addr 0); [intros [= <- <- <-]; done|].
    intros [= <- <- <-]. cbn. by rewrite lookup_insert_eq.
  - intros st ma' rt' Hf. split; [by eapply FreeMemoryKey_ok|]. intros info Hk Hone. revert Hf. unfold FreeMemoryKey.
    rewrite Hk, Hone. cbn. destruct (FreeMemory _ _) as [ret rt1] eqn:Hf. destruct (ma_live _ _ _ _ HM Hk) as [_ Hl].
    destruct (FreeMemory_spec _ _ _ _ _ Hf Hl) as [[-> Hl']|[Hne Hl']].
    + rewrite bool_decide_eq_true_2 by done. cbn. intros [= <- <- <-]. left. cbn. by rewrite lookup_delete_eq.
    + rewrite bool_decide_eq_false_2 by done. cbn. intros [= <- <- <-]. by right.
Qed.
End Interface.

#[export] Instance sample_runtime_ok : RuntimeOk sample_runtime.
Proof.
  refine {| rt_live := srt_live : @RT sample_runtime -> gmap Z Z |}; cbn.
  - intros size type s p s'. destruct (Z.ltb_spec 0 size) as [Hs|]; [|done]. cbn [andb].
    destruct (Z.ltb_spec (Z.max 4096 (srt_top s) + size) sample_limit) as [Hl|]; [|done]. cbn [andb].
    case_bool_decide as HF; [|done]. intros [= <- <-] _. unfold sample_limit in Hl. cbn.
    split_and!; [lia|lia| |done|].
    + destruct (srt_live s !! _) as [l|] eqn:Hk; [|done]. specialize (HF _ _ Hk). cbn in HF. lia.
    + intros base len Hk. specialize (HF _ _ Hk). cbn in HF. lia.
  - intros size type s e p s'. destruct (_ && _ && _); intros [= <- _ <-]; done.
  - intros p s s' len Hf Hk. rewrite Hk in Hf. by injection Hf as <-.
  - intros p s e s'. destruct (srt_live s !! p); intros [= <- <-]; done.
  - by intros s b s' [= _ <-].
  - done.
Defined.

(** * Runs *)
Definition rt0 : @RT sample_runtime := {| srt_live := ∅; srt_top := 0 |}.
Definition ma0 : MemoryAllocator := mkMemoryAllocator 2 false ∅.
Definition ma1 : MemoryAllocator := mkMemoryAllocator 2 true {["w" := mkMemoryInfo 4096 512 1]}.
Definition rt1 : @RT sample_runtime := {| srt_live := {[4096 := 512]}; srt_top := 4608 |}.

Lemma memory_key_balanced_witness :
  free_n (R := sample_runtime) 3 "w" (malloc_n (R := sample_runtime) 3 "w" 512 (ma1, rt1)) = (ma1, rt1).
Proof.
  apply (memory_key_balanced (R := sample_runtime) 3 "w" 512 ma1 rt1 (mkMemoryInfo 4096 512 1)).
  - reflexivity.
  - cbn. lia.
  - cbn. lia.
Defined.

Lemma memory_key_invariant_witness :
  exists st ma' rt', FreeMemoryKey (R := sample_runtime) "w" ma1 rt1 = (st, ma', rt') /\
    memory_base_map_ ma' !! "w" = None.
Proof.
  destruct (FreeMemoryKey (R := sample_runtime) "w" ma1 rt1) as [[st ma'] rt'] eqn:Hf.
  destruct (memory_key_invariant (R := sample_runtime) "w" 512 ma1 rt1) as [_ Hfree].
  - split; [cbn; intros k info [_ <-]%lookup_singleton_Some; cbn; lia|]. exists {[4096 := 512]}. split; cbn.
    + reflexivity.
    + intros k info [_ <-]%lookup_singleton_Some. cbn. split; [lia|reflexivity].
    + intros p n [<- <-]%lookup_singleton_Some. exists "w"%string. eexists. split; reflexivity.
    + intros k i k' i' [<- _]%lookup_singleton_Some [<- _]%lookup_singleton_Some _. reflexivity.
  - lia.
  - intros info Hi. injection Hi as <-. reflexivity.
  - exists st, ma', rt'. split; [reflexivity|].
    destruct (Hfree st ma' rt' Hf) as [_ Hlast].
    destruct (Hlast (mkMemoryInfo 4096 512 1) eq_refl eq_refl) as [(_ & Hnone & _)|(Hst & _ & _)]; [exact Hnone|].
    subst st. vm_compute in Hf. discriminate Hf.
Defined.
