(* ===== verification/BlockHeap.v ===== *)
(** The memory blocks of the device-memory allocators (ge/graph/manager/block_memory.h)
    and the pointer surgery both allocators do on them.

    A [Block] object is an entry of a heap keyed by object identity; `Block *` is an
    option of an identity.  [heap_ok] is the structural invariant: the blocks of an
    extent of device memory are linked in address order, tile the extent from its
    first byte to its last, and never overlap.  Each update the allocators make
    (taking a piece off a block, merging a block with a neighbour, adding and removing
    an extent) is shown to preserve it. *)
From S2P Require Import Prelude.
From stdpp Require Export gmap sorting.
Open Scope Z_scope.

(** * Blocks *)
Record Block := mkBlock {
  b_device_id : Z;
  b_size : Z;
  b_bin : option nat;
  b_ptr : Z;
  b_allocated : bool;
  b_prev : option nat;
  b_next : option nat;
}.

(** The constructor of the source: not allocated, not linked. *)
Definition new_Block (device size : Z) (bin : option nat) (ptr : Z) : Block :=
  mkBlock device size bin ptr false None None.

Definition IsSplit (b : Block) : bool :=
  negb (bool_decide (b_prev b = None)) || negb (bool_decide (b_next b = None)).

Definition set_size (x : Z) (b : Block) : Block :=
  mkBlock (b_device_id b) x (b_bin b) (b_ptr b) (b_allocated b) (b_prev b) (b_next b).
Definition set_ptr (x : Z) (b : Block) : Block :=
  mkBlock (b_device_id b) (b_size b) (b_bin b) x (b_allocated b) (b_prev b) (b_next b).
Definition set_allocated (x : bool) (b : Block) : Block :=
  mkBlock (b_device_id b) (b_size b) (b_bin b) (b_ptr b) x (b_prev b) (b_next b).
Definition set_prev (x : option nat) (b : Block) : Block :=
  mkBlock (b_device_id b) (b_size b) (b_bin b) (b_ptr b) (b_allocated b) x (b_next b).
Definition set_next (x : option nat) (b : Block) : Block :=
  mkBlock (b_device_id b) (b_size b) (b_bin b) (b_ptr b) (b_allocated b) (b_prev b) x.

Definition b_end (b : Block) : Z := b_ptr b + b_size b.

(** * The heap of block objects *)
Abbreviation heap := (gmap nat Block).

(** `i->field = ...`: undefined ([None]) when [i] dangles. *)
Definition upd (i : nat) (f : Block -> Block) (h : heap) : option heap :=
  match h !! i with
  | Some b => Some (<[i := f b]> h)
  | None => None
  end.

(** `if (o != nullptr) o->field = ...` *)
Definition upd_opt (o : option nat) (f : Block -> Block) (h : heap) : option heap :=
  match o with
  | Some i => upd i f h
  | None => Some h
  end.

(** The pointer updates of MergeBlocks, up to and including `dst->size += src->size`. *)
Definition merge_links (h : heap) (dst src : nat) : option heap :=
  bd ← h !! dst;
  bs ← h !! src;
  h ← (if bool_decide (b_prev bd = Some src) then
         h ← upd dst (fun b => set_prev (b_prev bs) (set_ptr (b_ptr bs) b)) h;
         upd_opt (b_prev bs) (set_next (Some dst)) h
       else
         h ← upd dst (set_next (b_next bs)) h;
         upd_opt (b_next bs) (set_prev (Some dst)) h);
  upd dst (fun b => set_size (wrapU64 (b_size b + b_size bs)) b) h.

(** * BlockBin: std::set<Block *, Comparison>, a list ordered by the comparator *)
Definition key_less (left right : Z * Z) : bool :=
  if negb (left.1 =? right.1) then left.1 <? right.1 else left.2 <? right.2.

Definition block_key (h : heap) (i : nat) : Z * Z :=
  match h !! i with
  | Some b => (b_size b, b_ptr b)
  | None => (0, 0)
  end.

(** insert: no effect when an equivalent element is there. *)
Fixpoint set_insert (h : heap) (i : nat) (l : list nat) : list nat :=
  match l with
  | [] => [i]
  | j :: l' =>
      if key_less (block_key h i) (block_key h j) then i :: l
      else if key_less (block_key h j) (block_key h i) then j :: set_insert h i l'
      else l
  end.

(** erase(value): the elements equivalent to it. *)
Definition set_erase (h : heap) (i : nat) (l : list nat) : list nat :=
  List.filter (fun j => key_less (block_key h i) (block_key h j) || key_less (block_key h j) (block_key h i)) l.

(** lower_bound(key): the first element not less than [key], with the rest of the set. *)
Fixpoint set_lower_bound (h : heap) (key : Z * Z) (l : list nat) : option nat :=
  match l with
  | [] => None
  | j :: l => if key_less (block_key h j) key then set_lower_bound h key l else Some j
  end.

(** * The structural invariant *)
Record heap_ok (h : heap) (ext : gmap Z Z) : Prop := {
  ho_range i b : h !! i = Some b -> 0 < b_ptr b /\ 0 < b_size b /\ b_end b < 2 ^ 64;
  ho_next i b j : h !! i = Some b -> b_next b = Some j ->
    exists b', h !! j = Some b' /\ b_prev b' = Some i /\ b_ptr b' = b_end b /\ b_bin b' = b_bin b;
  ho_prev i b j : h !! i = Some b -> b_prev b = Some j ->
    exists b', h !! j = Some b' /\ b_next b' = Some i;
  ho_disj i b j b' : h !! i = Some b -> h !! j = Some b' -> i <> j -> b_end b <= b_ptr b' \/ b_end b' <= b_ptr b;
  ho_ext i b : h !! i = Some b ->
    exists base len, ext !! base = Some len /\ base <= b_ptr b /\ b_end b <= base + len /\
      (b_prev b = None <-> b_ptr b = base) /\ (b_next b = None <-> b_end b = base + len);
  ho_cover base len : ext !! base = Some len -> 0 < len /\ exists i b, h !! i = Some b /\ b_ptr b = base;
  ho_ext_disj base len base' len' : ext !! base = Some len -> ext !! base' = Some len' -> base <> base' ->
    base + len <= base' \/ base' + len' <= base;
}.

(** [set_field_eqs] reduces the projections of an updated block. *)
Ltac blk := cbn [b_device_id b_size b_bin b_ptr b_allocated b_prev b_next
                 set_size set_ptr set_allocated set_prev set_next new_Block] in *.

Section Facts.
Context (h : heap) (ext : gmap Z Z) (HO : heap_ok h ext).

(** A block and its predecessor. *)
Lemma heap_ok_prev i b j :
  h !! i = Some b -> b_prev b = Some j ->
  exists b', h !! j = Some b' /\ b_next b' = Some i /\ b_ptr b = b_end b' /\ b_bin b = b_bin b' /\ j <> i.
Proof.
  intros Hi Hj. destruct (ho_prev _ _ HO _ _ _ Hi Hj) as (b' & Hb' & Hn).
  destruct (ho_next _ _ HO _ _ _ Hb' Hn) as (b'' & Hb'' & Hp & Hptr & Hbin).
  assert (b'' = b) as -> by congruence. exists b'. split_and!; try done.
  intros ->. assert (b' = b) as -> by congruence.
  pose proof (ho_range _ _ HO _ _ Hi). unfold b_end in *. lia.
Qed.

Lemma heap_ok_next i b j :
  h !! i = Some b -> b_next b = Some j ->
  exists b', h !! j = Some b' /\ b_prev b' = Some i /\ b_ptr b' = b_end b /\ b_bin b' = b_bin b /\ j <> i.
Proof.
  intros Hi Hj. destruct (ho_next _ _ HO _ _ _ Hi Hj) as (b' & Hb' & Hn & Hptr & Hbin).
  exists b'. split_and!; try done. intros ->. assert (b' = b) as -> by congruence.
  pose proof (ho_range _ _ HO _ _ Hi). unfold b_end in *. lia.
Qed.

(** Blocks are told apart by their address. *)
Lemma heap_ok_ptr_inj i b j b' : h !! i = Some b -> h !! j = Some b' -> b_ptr b = b_ptr b' -> i = j.
Proof.
  intros Hi Hj Hp. destruct (decide (i = j)); [done|].
  pose proof (ho_disj _ _ HO _ _ _ _ Hi Hj ltac:(done)). pose proof (ho_range _ _ HO _ _ Hi).
  pose proof (ho_range _ _ HO _ _ Hj). unfold b_end in *. lia.
Qed.

(** Two linked blocks lie in the same extent. *)
Lemma heap_ok_same_ext i b j b' :
  h !! i = Some b -> b_next b = Some j -> h !! j = Some b' ->
  exists base len, ext !! base = Some len /\ base <= b_ptr b /\ b_end b' <= base + len /\
    (b_prev b = None <-> b_ptr b = base) /\ (b_next b' = None <-> b_end b' = base + len).
Proof.
  intros Hi Hn Hj. destruct (ho_next _ _ HO _ _ _ Hi Hn) as (b'' & Hj' & Hp & Hptr & _).
  assert (b'' = b') as -> by congruence.
  destruct (ho_ext _ _ HO _ _ Hi) as (base & len & He & Hlo & Hhi & Hpr & Hnx).
  destruct (ho_ext _ _ HO _ _ Hj) as (base' & len' & He' & Hlo' & Hhi' & Hpr' & Hnx').
  assert (b_end b <> base + len) by (intros ?%Hnx; congruence).
  pose proof (ho_range _ _ HO _ _ Hi). pose proof (ho_range _ _ HO _ _ Hj).
  destruct (decide (base = base')) as [->|Hne].
  - assert (len' = len) as -> by congruence. exists base', len. done.
  - pose proof (ho_ext_disj _ _ HO _ _ _ _ He He' Hne). unfold b_end in *. lia.
Qed.
End Facts.

(** What an update keeps of a block that it only relinks. *)
Definition bdata (b : Block) : Z * Z * bool * option nat := (b_size b, b_ptr b, b_allocated b, b_bin b).

(** * Merging a block with its predecessor *)
Section MergePrev.
Context (h : heap) (ext : gmap Z Z) (HO : heap_ok h ext).
Context (d s : nat) (bd bs : Block).
Hypothesis Hd : h !! d = Some bd.
Hypothesis Hprev : b_prev bd = Some s.
Hypothesis Hs : h !! s = Some bs.

Definition merged_prev : Block :=
  mkBlock (b_device_id bd) (b_size bd + b_size bs) (b_bin bd) (b_ptr bs) (b_allocated bd) (b_prev bs) (b_next bd).
Definition heap_merge_prev : heap :=
  <[d := merged_prev]> (match b_prev bs with Some p => alter (set_next (Some d)) p h | None => h end).

Lemma merge_prev_facts : b_next bs = Some d /\ b_ptr bd = b_end bs /\ b_bin bd = b_bin bs /\ s <> d.
Proof.
  destruct (heap_ok_prev _ _ HO _ _ _ Hd Hprev) as (b' & Hb' & ? & ? & ? & ?).
  by assert (b' = bs) as -> by congruence.
Qed.

Lemma merge_links_prev : merge_links h d s = Some heap_merge_prev.
Proof.
  destruct merge_prev_facts as (Hn & Hptr & Hbin & Hne). unfold merge_links. rewrite Hd, Hs. cbn [mbind option_bind].
  rewrite bool_decide_eq_true_2 by done. unfold upd_opt, upd. rewrite Hd. cbn [mbind option_bind].
  pose proof (ho_range _ _ HO _ _ Hd). pose proof (ho_range _ _ HO _ _ Hs). unfold b_end in *.
  assert (wrapU64 (b_size bd + b_size bs) = b_size bd + b_size bs) as Hw by (apply wrapU64_id; lia).
  unfold heap_merge_prev. destruct (b_prev bs) as [p|] eqn:Hp.
  - destruct (heap_ok_prev _ _ HO _ _ _ Hs Hp) as (bp & Hbp & Hpn & Hpptr & _ & Hps).
    assert (p <> d) as Hpd by (intros ->; simplify_eq; unfold b_end in *; lia). rewrite lookup_insert_ne, Hbp by done.
    cbn [mbind option_bind]. rewrite lookup_insert_ne, lookup_insert_eq by done. blk. rewrite Hw. f_equal.
    apply map_eq. intros i. destruct (decide (i = d)) as [->|]; [by rewrite !lookup_insert_eq; unfold merged_prev; rewrite Hp|].
    destruct (decide (i = p)) as [->|]; by simplify_map_eq.
  - cbn [mbind option_bind]. rewrite lookup_insert_eq. blk. rewrite Hw. f_equal.
    apply map_eq. intros i. destruct (decide (i = d)) as [->|]; [by rewrite !lookup_insert_eq; unfold merged_prev; rewrite Hp|].
    by rewrite !lookup_insert_ne by done.
Qed.

(** A block of the merged heap: the merged one, or an old one that may have been relinked. *)
Lemma heap_merge_prev_lookup i b :
  delete s heap_merge_prev !! i = Some b ->
  i <> s /\ ((i = d /\ b = merged_prev) \/
             (i <> d /\ exists b0, h !! i = Some b0 /\ bdata b = bdata b0 /\ b_prev b = b_prev b0 /\
                b_next b = if decide (b_prev bs = Some i) then Some d else b_next b0)).
Proof.
  destruct (decide (i = s)) as [->|His]; [by rewrite lookup_delete_eq|]. rewrite lookup_delete_ne by done.
  intros Hi. split; [done|]. unfold heap_merge_prev in Hi.
  destruct (decide (i = d)) as [->|Hid]; [left; rewrite lookup_insert_eq in Hi; by simplify_eq|].
  right. split; [done|]. rewrite lookup_insert_ne in Hi by done.
  destruct (b_prev bs) as [p|]; [|exists b; by destruct (decide _)].
  destruct (decide (i = p)) as [->|].
  - rewrite lookup_alter_eq in Hi. destruct (h !! p) as [b0|]; [|done]. cbn in Hi. simplify_eq.
    exists b0. by destruct (decide (Some p = Some p)).
  - rewrite lookup_alter_ne in Hi by done. exists b. destruct (decide (Some p = Some i)); [congruence|done].
Qed.

Lemma heap_merge_prev_old i b0 :
  h !! i = Some b0 -> i <> s -> i <> d ->
  exists b, delete s heap_merge_prev !! i = Some b /\ bdata b = bdata b0 /\ b_prev b = b_prev b0.
Proof.
  intros Hi His Hid. rewrite lookup_delete_ne by done. unfold heap_merge_prev. rewrite lookup_insert_ne by done.
  destruct (b_prev bs) as [p|]; [|by exists b0].
  destruct (decide (i = p)) as [->|]; [rewrite lookup_alter_eq, Hi; by eexists|].
  rewrite lookup_alter_ne by done. by exists b0.
Qed.

Lemma heap_merge_prev_data i : i <> d -> bdata <$> heap_merge_prev !! i = bdata <$> h !! i.
Proof.
  intros Hid. unfold heap_merge_prev. rewrite lookup_insert_ne by done. destruct (b_prev bs) as [p|]; [|done].
  destruct (decide (i = p)) as [->|]; [rewrite lookup_alter_eq; by destruct (h !! p)|by rewrite lookup_alter_ne].
Qed.

Lemma heap_merge_prev_d : delete s heap_merge_prev !! d = Some merged_prev.
Proof. destruct merge_prev_facts as (_ & _ & _ & ?). rewrite lookup_delete_ne by done. apply lookup_insert_eq. Qed.

Local Abbreviation H' := (delete s heap_merge_prev).

Lemma merge_prev_range i b : H' !! i = Some b -> 0 < b_ptr b /\ 0 < b_size b /\ b_end b < 2 ^ 64.
Proof.
  destruct merge_prev_facts as (Hsn & Hptr & Hbin & Hne).
  pose proof (ho_range _ _ HO _ _ Hd) as Hrd. pose proof (ho_range _ _ HO _ _ Hs) as Hrs.
  intros Hi. apply heap_merge_prev_lookup in Hi as [_ [[-> ->]|(_ & b0 & H0 & [= Hsz Hp _ _] & _)]].
  - unfold b_end, merged_prev in *. blk. lia.
  - unfold b_end. rewrite Hsz, Hp. by apply (ho_range _ _ HO i).
Qed.

Lemma merge_prev_next i b j : H' !! i = Some b -> b_next b = Some j ->
  exists b', H' !! j = Some b' /\ b_prev b' = Some i /\ b_ptr b' = b_end b /\ b_bin b' = b_bin b.
Proof.
  destruct merge_prev_facts as (Hsn & Hptr & Hbin & Hne).
  pose proof (ho_range _ _ HO _ _ Hd) as Hrd. pose proof (ho_range _ _ HO _ _ Hs) as Hrs.
  intros Hi Hj. apply heap_merge_prev_lookup in Hi as [His [[-> ->]|(Hid & b0 & H0 & [= Hsz Hp _ Hbn] & _ & Hnx)]].
  - blk. destruct (heap_ok_next _ _ HO _ _ _ Hd Hj) as (bj & Hbj & Hjp & Hjptr & Hjbin & Hjd).
    assert (j <> s) by (intros ->; simplify_eq; unfold b_end in *; lia).
    destruct (heap_merge_prev_old j bj) as (bj' & ? & [= ? ? ? ?] & ?); [done..|].
    exists bj'. unfold b_end, merged_prev in *. blk. split_and!; [done|congruence|lia|congruence].
  - rewrite Hnx in Hj. destruct (decide (b_prev bs = Some i)) as [Hpi|Hpi].
    + simplify_eq. exists merged_prev. rewrite heap_merge_prev_d.
      destruct (heap_ok_prev _ _ HO _ _ _ Hs Hpi) as (bp & Hbp & _ & Hsptr & Hsbin & _). simplify_eq.
      unfold b_end, merged_prev in *. blk. split_and!; [done|done|lia|congruence].
    + destruct (ho_next _ _ HO _ _ _ H0 Hj) as (bj & Hbj & Hjp & Hjptr & Hjbin).
      assert (j <> s) by (intros ->; congruence). assert (j <> d) by (intros ->; congruence).
      destruct (heap_merge_prev_old j bj) as (bj' & ? & [= ? ? ? ?] & ?); [done..|].
      exists bj'. unfold b_end in *. split_and!; [done|congruence|lia|congruence].
Qed.

Lemma merge_prev_prev i b j : H' !! i = Some b -> b_prev b = Some j ->
  exists b', H' !! j = Some b' /\ b_next b' = Some i.
Proof.
  destruct merge_prev_facts as (Hsn & Hptr & Hbin & Hne).
  pose proof (ho_range _ _ HO _ _ Hd) as Hrd. pose proof (ho_range _ _ HO _ _ Hs) as Hrs.
  intros Hi Hj. apply heap_merge_prev_lookup in Hi as [His [[-> ->]|(Hid & b0 & H0 & [= Hsz Hp _ Hbn] & Hpr & Hnx)]].
  - blk. destruct (heap_ok_prev _ _ HO _ _ _ Hs Hj) as (bj & Hbj & Hjn & ? & ? & Hjs).
    exists (set_next (Some d) bj). assert (j <> d) by (intros ->; simplify_eq; unfold b_end in *; lia).
    rewrite lookup_delete_ne by done. unfold heap_merge_prev. rewrite lookup_insert_ne by done.
    unfold merged_prev in Hj. blk. rewrite Hj, lookup_alter_eq, Hbj. done.
  - rewrite Hpr in Hj. destruct (ho_prev _ _ HO _ _ _ H0 Hj) as (bj & Hbj & Hjn).
    assert (j <> s) by (intros ->; congruence). destruct (decide (j = d)) as [->|Hjd].
    + exists merged_prev. rewrite heap_merge_prev_d. unfold merged_prev. blk. split; [done|congruence].
    + rewrite lookup_delete_ne by done. unfold heap_merge_prev. rewrite lookup_insert_ne by done.
      destruct (b_prev bs) as [p|] eqn:Hpp; [|by exists bj]. destruct (decide (j = p)) as [->|].
      * destruct (heap_ok_prev _ _ HO _ _ _ Hs Hpp) as (bp & Hbp & Hpn & _). congruence.
      * rewrite lookup_alter_ne by done. by exists bj.
Qed.

Lemma merge_prev_disj i b j b' :
  H' !! i = Some b -> H' !! j = Some b' -> i <> j -> b_end b <= b_ptr b' \/ b_end b' <= b_ptr b.
Proof.
  destruct merge_prev_facts as (Hsn & Hptr & Hbin & Hne).
  pose proof (ho_range _ _ HO _ _ Hd) as Hrd. pose proof (ho_range _ _ HO _ _ Hs) as Hrs.
  intros Hi Hj Hij.
  apply heap_merge_prev_lookup in Hi as [His [[-> ->]|(Hid & b0 & H0 & [= Hsz Hp _ _] & _)]];
  apply heap_merge_prev_lookup in Hj as [Hjs [[-> ->]|(Hjd & b0' & H0' & [= Hsz' Hp' _ _] & _)]]; [done|..].
  - pose proof (ho_disj _ _ HO _ _ _ _ Hd H0' ltac:(done)). pose proof (ho_disj _ _ HO _ _ _ _ Hs H0' ltac:(done)).
    pose proof (ho_range _ _ HO _ _ H0'). unfold b_end, merged_prev in *. blk. lia.
  - pose proof (ho_disj _ _ HO _ _ _ _ Hd H0 ltac:(done)). pose proof (ho_disj _ _ HO _ _ _ _ Hs H0 ltac:(done)).
    pose proof (ho_range _ _ HO _ _ H0). unfold b_end, merged_prev in *. blk. lia.
  - pose proof (ho_disj _ _ HO _ _ _ _ H0 H0' ltac:(done)). unfold b_end in *. lia.
Qed.

Lemma merge_prev_ext i b : H' !! i = Some b ->
  exists base len, ext !! base = Some len /\ base <= b_ptr b /\ b_end b <= base + len /\
    (b_prev b = None <-> b_ptr b = base) /\ (b_next b = None <-> b_end b = base + len).
Proof.
  destruct merge_prev_facts as (Hsn & Hptr & Hbin & Hne).
  pose proof (ho_range _ _ HO _ _ Hd) as Hrd. pose proof (ho_range _ _ HO _ _ Hs) as Hrs.
  intros Hi. apply heap_merge_prev_lookup in Hi as [His [[-> ->]|(Hid & b0 & H0 & [= Hsz Hp _ Hbn] & Hpr & Hnx)]].
  - destruct (heap_ok_same_ext _ _ HO _ _ _ _ Hs Hsn Hd) as (base & len & He & Hlo & Hhi & Hpr & Hnx).
    exists base, len. unfold b_end, merged_prev in *. blk. split_and!; [done|lia|lia|done|].
    replace (b_ptr bs + (b_size bd + b_size bs)) with (b_ptr bd + b_size bd) by lia. done.
  - destruct (ho_ext _ _ HO _ _ H0) as (base & len & He & Hlo & Hhi & Hpr0 & Hnx0).
    exists base, len. unfold b_end in *. rewrite Hsz, Hp, Hpr. split_and!; [done|lia|lia|done|].
    rewrite Hnx. destruct (decide (b_prev bs = Some i)) as [Hpi|]; [|done].
    destruct (heap_ok_prev _ _ HO _ _ _ Hs Hpi) as (bp & Hbp & Hpn & _). simplify_eq.
    rewrite <- Hnx0. naive_solver congruence.
Qed.

Lemma merge_prev_cover base len : ext !! base = Some len -> 0 < len /\ exists i b, H' !! i = Some b /\ b_ptr b = base.
Proof.
  destruct merge_prev_facts as (Hsn & Hptr & Hbin & Hne).
  pose proof (ho_range _ _ HO _ _ Hd) as Hrd. pose proof (ho_range _ _ HO _ _ Hs) as Hrs.
  intros He. destruct (ho_cover _ _ HO _ _ He) as (Hlen & i & b & Hi & Hb). split; [done|].
  destruct (decide (i = s)) as [->|His].
  { exists d, merged_prev. rewrite heap_merge_prev_d. split; [done|]. unfold merged_prev. blk. congruence. }
  destruct (decide (i = d)) as [->|Hid].
  { exfalso. destruct (ho_ext _ _ HO _ _ Hs) as (base' & len' & He' & Hlo' & Hhi' & _ & Hnx').
    assert (b_end bs <> base' + len') by (intros ?%Hnx'; congruence). simplify_eq.
    assert (b_ptr bd <> base') by (unfold b_end in *; lia).
    pose proof (ho_ext_disj _ _ HO _ _ _ _ He He' ltac:(done)). unfold b_end in *. lia. }
  destruct (heap_merge_prev_old i b) as (b' & ? & [= ? ? ? ?] & ?); [done..|]. exists i, b'. split; [done|congruence].
Qed.

Lemma heap_merge_prev_ok : heap_ok H' ext.
Proof.
  split; [apply merge_prev_range|apply merge_prev_next|apply merge_prev_prev|apply merge_prev_disj|apply merge_prev_ext
         |apply merge_prev_cover|apply (ho_ext_disj _ _ HO)].
Qed.
End MergePrev.

(** * Merging a block with its successor *)
Section MergeNext.
Context (h : heap) (ext : gmap Z Z) (HO : heap_ok h ext).
Context (d s : nat) (bd bs : Block).
Hypothesis Hd : h !! d = Some bd.
Hypothesis Hnext : b_next bd = Some s.
Hypothesis Hs : h !! s = Some bs.

Definition merged_next : Block :=
  mkBlock (b_device_id bd) (b_size bd + b_size bs) (b_bin bd) (b_ptr bd) (b_allocated bd) (b_prev bd) (b_next bs).
Definition heap_merge_next : heap :=
  <[d := merged_next]> (match b_next bs with Some q => alter (set_prev (Some d)) q h | None => h end).

Lemma merge_next_facts : b_prev bs = Some d /\ b_ptr bs = b_end bd /\ b_bin bs = b_bin bd /\ s <> d.
Proof.
  destruct (heap_ok_next _ _ HO _ _ _ Hd Hnext) as (b' & Hb' & ? & ? & ? & ?).
  by assert (b' = bs) as -> by congruence.
Qed.

Lemma merge_links_next : merge_links h d s = Some heap_merge_next.
Proof.
  destruct merge_next_facts as (Hn & Hptr & Hbin & Hne). unfold merge_links. rewrite Hd, Hs. cbn [mbind option_bind].
  pose proof (ho_range _ _ HO _ _ Hd). pose proof (ho_range _ _ HO _ _ Hs).
  rewrite bool_decide_eq_false_2.
  2: { intros Hp. destruct (heap_ok_prev _ _ HO _ _ _ Hd Hp) as (b' & ? & _ & ? & _). simplify_eq. unfold b_end in *. lia. }
  unfold upd_opt, upd. rewrite Hd. cbn [mbind option_bind]. unfold b_end in *.
  assert (wrapU64 (b_size bd + b_size bs) = b_size bd + b_size bs) as Hw by (apply wrapU64_id; lia).
  unfold heap_merge_next. destruct (b_next bs) as [q|] eqn:Hq.
  - destruct (heap_ok_next _ _ HO _ _ _ Hs Hq) as (bq & Hbq & Hqp & Hqptr & _ & Hqs).
    assert (q <> d) as Hqd by (intros ->; simplify_eq; unfold b_end in *; lia). rewrite lookup_insert_ne, Hbq by done.
    cbn [mbind option_bind]. rewrite lookup_insert_ne, lookup_insert_eq by done. blk. rewrite Hw. f_equal.
    apply map_eq. intros i. destruct (decide (i = d)) as [->|]; [by rewrite !lookup_insert_eq; unfold merged_next; rewrite Hq|].
    destruct (decide (i = q)) as [->|]; by simplify_map_eq.
  - cbn [mbind option_bind]. rewrite lookup_insert_eq. blk. rewrite Hw. f_equal.
    apply map_eq. intros i. destruct (decide (i = d)) as [->|]; [by rewrite !lookup_insert_eq; unfold merged_next; rewrite Hq|].
    by rewrite !lookup_insert_ne by done.
Qed.

Local Abbreviation H' := (delete s heap_merge_next).

Lemma heap_merge_next_lookup i b :
  H' !! i = Some b ->
  i <> s /\ ((i = d /\ b = merged_next) \/
             (i <> d /\ exists b0, h !! i = Some b0 /\ bdata b = bdata b0 /\ b_next b = b_next b0 /\
                b_prev b = if decide (b_next bs = Some i) then Some d else b_prev b0)).
Proof.
  destruct (decide (i = s)) as [->|His]; [by rewrite lookup_delete_eq|]. rewrite lookup_delete_ne by done.
  intros Hi. split; [done|]. unfold heap_merge_next in Hi.
  destruct (decide (i = d)) as [->|Hid]; [left; rewrite lookup_insert_eq in Hi; by simplify_eq|].
  right. split; [done|]. rewrite lookup_insert_ne in Hi by done.
  destruct (b_next bs) as [q|]; [|exists b; by destruct (decide _)].
  destruct (decide (i = q)) as [->|].
  - rewrite lookup_alter_eq in Hi. destruct (h !! q) as [b0|]; [|done]. cbn in Hi. simplify_eq.
    exists b0. by destruct (decide (Some q = Some q)).
  - rewrite lookup_alter_ne in Hi by done. exists b. destruct (decide (Some q = Some i)); [congruence|done].
Qed.

Lemma heap_merge_next_old i b0 :
  h !! i = Some b0 -> i <> s -> i <> d ->
  exists b, H' !! i = Some b /\ bdata b = bdata b0 /\ b_next b = b_next b0 /\
    b_prev b = if decide (b_next bs = Some i) then Some d else b_prev b0.
Proof.
  intros Hi His Hid. rewrite lookup_delete_ne by done. unfold heap_merge_next. rewrite lookup_insert_ne by done.
  destruct (b_next bs) as [q|]; [|exists b0; by destruct (decide _)].
  destruct (decide (i = q)) as [->|].
  - rewrite lookup_alter_eq, Hi. eexists. split; [done|]. by destruct (decide (Some q = Some q)).
  - rewrite lookup_alter_ne by done. exists b0. destruct (decide (Some q = Some i)); [congruence|done].
Qed.

Lemma heap_merge_next_data i : i <> d -> bdata <$> heap_merge_next !! i = bdata <$> h !! i.
Proof.
  intros Hid. unfold heap_merge_next. rewrite lookup_insert_ne by done. destruct (b_next bs) as [q|]; [|done].
  destruct (decide (i = q)) as [->|]; [rewrite lookup_alter_eq; by destruct (h !! q)|by rewrite lookup_alter_ne].
Qed.

Lemma heap_merge_next_d : H' !! d = Some merged_next.
Proof. destruct merge_next_facts as (_ & _ & _ & ?). rewrite lookup_delete_ne by done. apply lookup_insert_eq. Qed.

Lemma merge_next_range i b : H' !! i = Some b -> 0 < b_ptr b /\ 0 < b_size b /\ b_end b < 2 ^ 64.
Proof.
  destruct merge_next_facts as (Hsp & Hptr & Hbin & Hne).
  pose proof (ho_range _ _ HO _ _ Hd). pose proof (ho_range _ _ HO _ _ Hs).
  intros Hi. apply heap_merge_next_lookup in Hi as [_ [[-> ->]|(_ & b0 & H0' & [= Hsz Hp _ _] & _)]].
  - unfold b_end, merged_next in *. blk. lia.
  - unfold b_end. rewrite Hsz, Hp. by apply (ho_range _ _ HO i).
Qed.

Lemma merge_next_next i b j : H' !! i = Some b -> b_next b = Some j ->
  exists b', H' !! j = Some b' /\ b_prev b' = Some i /\ b_ptr b' = b_end b /\ b_bin b' = b_bin b.
Proof.
  destruct merge_next_facts as (Hsp & Hptr & Hbin & Hne).
  pose proof (ho_range _ _ HO _ _ Hd) as Hrd. pose proof (ho_range _ _ HO _ _ Hs) as Hrs.
  intros Hi Hj. apply heap_merge_next_lookup in Hi as [His [[-> ->]|(Hid & b0 & H0 & [= Hsz Hp _ Hbn] & Hnx & _)]].
  - unfold merged_next in Hj. blk. destruct (heap_ok_next _ _ HO _ _ _ Hs Hj) as (bj & Hbj & Hjp & Hjptr & Hjbin & Hjs).
    assert (j <> d) by (intros ->; simplify_eq; unfold b_end in *; lia).
    destruct (heap_merge_next_old j bj) as (bj' & ? & [= ? ? ? ?] & _ & Hpj); [done..|].
    rewrite decide_True in Hpj by done.
    exists bj'. unfold b_end, merged_next in *. blk. split_and!; [done|done|lia|congruence].
  - rewrite Hnx in Hj. destruct (heap_ok_next _ _ HO _ _ _ H0 Hj) as (bj & Hbj & Hjp & Hjptr & Hjbin & Hji).
    assert (j <> s) by (intros ->; congruence). destruct (decide (j = d)) as [->|Hjd].
    + exists merged_next. rewrite heap_merge_next_d. simplify_eq.
      unfold b_end, merged_next in *. blk. split_and!; [done|done|lia|congruence].
    + destruct (heap_merge_next_old j bj) as (bj' & ? & [= ? ? ? ?] & _ & Hpj); [done..|].
      rewrite decide_False in Hpj.
      2: { intros Hq. destruct (heap_ok_next _ _ HO _ _ _ Hs Hq) as (bq & ? & ? & _). congruence. }
      exists bj'. unfold b_end in *. split_and!; [done|congruence|lia|congruence].
Qed.

Lemma merge_next_prev i b j : H' !! i = Some b -> b_prev b = Some j ->
  exists b', H' !! j = Some b' /\ b_next b' = Some i.
Proof.
  destruct merge_next_facts as (Hsp & Hptr & Hbin & Hne).
  pose proof (ho_range _ _ HO _ _ Hd) as Hrd. pose proof (ho_range _ _ HO _ _ Hs) as Hrs.
  intros Hi Hj. apply heap_merge_next_lookup in Hi as [His [[-> ->]|(Hid & b0 & H0 & [= Hsz Hp _ Hbn] & Hnx & Hpr)]].
  - unfold merged_next in Hj. blk. destruct (heap_ok_prev _ _ HO _ _ _ Hd Hj) as (bj & Hbj & Hjn & ? & ? & Hjd).
    assert (j <> s) by (intros ->; simplify_eq; unfold b_end in *; lia).
    destruct (heap_merge_next_old j bj) as (bj' & ? & _ & ? & _); [done..|]. exists bj'. split; [done|congruence].
  - rewrite Hpr in Hj. destruct (decide (b_next bs = Some i)) as [Hq|Hq].
    + simplify_eq. exists merged_next. rewrite heap_merge_next_d. done.
    + destruct (ho_prev _ _ HO _ _ _ H0 Hj) as (bj & Hbj & Hjn).
      assert (j <> s) by (intros ->; congruence). assert (j <> d) by (intros ->; congruence).
      destruct (heap_merge_next_old j bj) as (bj' & ? & _ & ? & _); [done..|]. exists bj'. split; [done|congruence].
Qed.

Lemma merge_next_disj i b j b' :
  H' !! i = Some b -> H' !! j = Some b' -> i <> j -> b_end b <= b_ptr b' \/ b_end b' <= b_ptr b.
Proof.
  destruct merge_next_facts as (Hsp & Hptr & Hbin & Hne).
  pose proof (ho_range _ _ HO _ _ Hd) as Hrd. pose proof (ho_range _ _ HO _ _ Hs) as Hrs.
  intros Hi Hj Hij.
  apply heap_merge_next_lookup in Hi as [His [[-> ->]|(Hid & b0 & H0 & [= Hsz Hp _ _] & _)]];
  apply heap_merge_next_lookup in Hj as [Hjs [[-> ->]|(Hjd & b0' & H0' & [= Hsz' Hp' _ _] & _)]]; [done|..].
  - pose proof (ho_disj _ _ HO _ _ _ _ Hd H0' ltac:(done)). pose proof (ho_disj _ _ HO _ _ _ _ Hs H0' ltac:(done)).
    pose proof (ho_range _ _ HO _ _ H0'). unfold b_end, merged_next in *. blk. lia.
  - pose proof (ho_disj _ _ HO _ _ _ _ Hd H0 ltac:(done)). pose proof (ho_disj _ _ HO _ _ _ _ Hs H0 ltac:(done)).
    pose proof (ho_range _ _ HO _ _ H0). unfold b_end, merged_next in *. blk. lia.
  - pose proof (ho_disj _ _ HO _ _ _ _ H0 H0' ltac:(done)). unfold b_end in *. lia.
Qed.

Lemma merge_next_ext i b : H' !! i = Some b ->
  exists base len, ext !! base = Some len /\ base <= b_ptr b /\ b_end b <= base + len /\
    (b_prev b = None <-> b_ptr b = base) /\ (b_next b = None <-> b_end b = base + len).
Proof.
  destruct merge_next_facts as (Hsp & Hptr & Hbin & Hne).
  intros Hi. apply heap_merge_next_lookup in Hi as [His [[-> ->]|(Hid & b0 & H0 & [= Hsz Hp _ Hbn] & Hnx & Hpr)]].
  - destruct (heap_ok_same_ext _ _ HO _ _ _ _ Hd Hnext Hs) as (base & len & He & Hlo & Hhi & Hpr & Hnx).
    exists base, len. unfold b_end, merged_next in *. blk. split_and!; [done|lia|lia|done|].
    replace (b_ptr bd + (b_size bd + b_size bs)) with (b_ptr bs + b_size bs) by lia. done.
  - destruct (ho_ext _ _ HO _ _ H0) as (base & len & He & Hlo & Hhi & Hpr0 & Hnx0).
    exists base, len. unfold b_end in *. rewrite Hsz, Hp, Hnx. split_and!; [done|lia|lia| |done].
    rewrite Hpr. destruct (decide (b_next bs = Some i)) as [Hq|]; [|done].
    destruct (heap_ok_next _ _ HO _ _ _ Hs Hq) as (bq & Hbq & Hqp & _). simplify_eq.
    rewrite <- Hpr0. naive_solver congruence.
Qed.

Lemma merge_next_cover base len : ext !! base = Some len -> 0 < len /\ exists i b, H' !! i = Some b /\ b_ptr b = base.
Proof.
  destruct merge_next_facts as (Hsp & Hptr & Hbin & Hne). pose proof (ho_range _ _ HO _ _ Hd) as Hrd.
  intros He. destruct (ho_cover _ _ HO _ _ He) as (Hlen & i & b & Hi & Hb). split; [done|].
  destruct (decide (i = d)) as [->|Hid].
  { exists d, merged_next. rewrite heap_merge_next_d. split; [done|]. unfold merged_next. blk. congruence. }
  destruct (decide (i = s)) as [->|His].
  { exfalso. destruct (ho_ext _ _ HO _ _ Hd) as (base' & len' & He' & Hlo' & Hhi' & _ & Hnx').
    assert (b_end bd <> base' + len') by (intros ?%Hnx'; congruence). simplify_eq.
    assert (b_ptr bs <> base') by (unfold b_end in *; lia).
    pose proof (ho_ext_disj _ _ HO _ _ _ _ He He' ltac:(done)). unfold b_end in *. lia. }
  destruct (heap_merge_next_old i b) as (b' & ? & [= ? ? ? ?] & ?); [done..|]. exists i, b'. split; [done|congruence].
Qed.

Lemma heap_merge_next_ok : heap_ok H' ext.
Proof.
  split; [apply merge_next_range|apply merge_next_next|apply merge_next_prev|apply merge_next_disj|apply merge_next_ext
         |apply merge_next_cover|apply (ho_ext_disj _ _ HO)].
Qed.
End MergeNext.

(** * Taking a piece off the front of a block

    The new block [n] gets the first [sz] bytes, the old one keeps the rest. *)
Section SplitFront.
Context (h : heap) (ext : gmap Z Z) (HO : heap_ok h ext).
Context (i n : nat) (b : Block) (dev sz : Z).
Hypothesis Hi : h !! i = Some b.
Hypothesis Hn : h !! n = None.
Hypothesis Hsz : 0 < sz < b_size b.

Definition front_block : Block := mkBlock dev sz (b_bin b) (b_ptr b) false (b_prev b) (Some i).
Definition front_rest : Block :=
  mkBlock (b_device_id b) (b_size b - sz) (b_bin b) (b_ptr b + sz) (b_allocated b) (Some n) (b_next b).
Definition heap_split_front : heap :=
  <[n := front_block]> (<[i := front_rest]>
    (match b_prev b with Some p => alter (set_next (Some n)) p h | None => h end)).

Lemma split_front_ne : n <> i.
Proof. intros ->. congruence. Qed.

Lemma split_front_n : heap_split_front !! n = Some front_block.
Proof. apply lookup_insert_eq. Qed.
Lemma split_front_i : heap_split_front !! i = Some front_rest.
Proof. pose proof split_front_ne. unfold heap_split_front. by rewrite lookup_insert_ne, lookup_insert_eq by done. Qed.

Lemma split_front_old j bj :
  h !! j = Some bj -> j <> i ->
  exists b', heap_split_front !! j = Some b' /\ bdata b' = bdata bj /\ b_prev b' = b_prev bj /\
    b_next b' = if decide (b_prev b = Some j) then Some n else b_next bj.
Proof.
  intros Hj Hji. assert (j <> n) by (intros ->; congruence).
  unfold heap_split_front. rewrite !lookup_insert_ne by done. destruct (b_prev b) as [p|]; [|by exists bj; destruct (decide _)].
  destruct (decide (j = p)) as [->|].
  - rewrite lookup_alter_eq, Hj. eexists. split; [done|]. by destruct (decide (Some p = Some p)).
  - rewrite lookup_alter_ne by done. exists bj. destruct (decide (Some p = Some j)); [congruence|done].
Qed.

Lemma split_front_lookup j b' :
  heap_split_front !! j = Some b' ->
  (j = n /\ b' = front_block) \/ (j = i /\ b' = front_rest) \/
  (j <> i /\ j <> n /\ exists bj, h !! j = Some bj /\ bdata b' = bdata bj /\ b_prev b' = b_prev bj /\
    b_next b' = if decide (b_prev b = Some j) then Some n else b_next bj).
Proof.
  intros Hj. destruct (decide (j = n)) as [->|Hjn]; [left; by rewrite split_front_n in Hj; simplify_eq|]. right.
  destruct (decide (j = i)) as [->|Hji]; [left; by rewrite split_front_i in Hj; simplify_eq|]. right.
  split_and!; [done..|]. destruct (h !! j) as [bj|] eqn:Hbj.
  - destruct (split_front_old j bj Hbj Hji) as (b'' & ? & ?). exists bj. by simplify_eq.
  - unfold heap_split_front in Hj. rewrite !lookup_insert_ne in Hj by done.
    destruct (b_prev b) as [p|]; [|congruence]. apply lookup_alter_Some in Hj. naive_solver congruence.
Qed.

Lemma split_front_range j b' :
  heap_split_front !! j = Some b' -> 0 < b_ptr b' /\ 0 < b_size b' /\ b_end b' < 2 ^ 64.
Proof.
  pose proof (ho_range _ _ HO _ _ Hi) as Hr. unfold b_end in *.
  intros [[-> ->]|[[-> ->]|(_ & _ & bj & Hj & [= Hs Hp _ _] & _)]]%split_front_lookup; unfold front_block, front_rest; blk; [lia..|].
  rewrite Hs, Hp. by apply (ho_range _ _ HO j).
Qed.

Lemma split_front_next j b' k : heap_split_front !! j = Some b' -> b_next b' = Some k ->
  exists b'', heap_split_front !! k = Some b'' /\ b_prev b'' = Some j /\ b_ptr b'' = b_end b' /\ b_bin b'' = b_bin b'.
Proof.
  intros [[-> ->]|[[-> ->]|(Hji & Hjn & bj & Hj & [= Hs Hp _ Hb] & Hpr & Hnx)]]%split_front_lookup Hk.
  - unfold front_block in Hk. blk. injection Hk as <-. exists front_rest. rewrite split_front_i. done.
  - unfold front_rest in Hk. blk.
    destruct (heap_ok_next _ _ HO _ _ _ Hi Hk) as (bk & Hbk & Hkp & Hkptr & Hkb & Hki).
    destruct (split_front_old k bk Hbk Hki) as (b'' & ? & [= ? ? ? ?] & ? & _). exists b''.
    unfold b_end, front_rest in *. blk. split_and!; [done|congruence|lia|congruence].
  - rewrite Hnx in Hk. destruct (decide (b_prev b = Some j)) as [Hpj|Hpj].
    + simplify_eq. exists front_block. rewrite split_front_n.
      destruct (heap_ok_prev _ _ HO _ _ _ Hi Hpj) as (bp & ? & _ & ? & ? & _). simplify_eq.
      unfold b_end, front_block in *. blk. split_and!; [done|done|lia|congruence].
    + destruct (ho_next _ _ HO _ _ _ Hj Hk) as (bk & Hbk & Hkp & Hkptr & Hkb).
      assert (k <> i) by (intros ->; congruence).
      destruct (split_front_old k bk Hbk) as (b'' & ? & [= ? ? ? ?] & ? & _); [done|].
      exists b''. unfold b_end in *. split_and!; [done|congruence|lia|congruence].
Qed.

Lemma split_front_prev j b' k : heap_split_front !! j = Some b' -> b_prev b' = Some k ->
  exists b'', heap_split_front !! k = Some b'' /\ b_next b'' = Some j.
Proof.
  intros [[-> ->]|[[-> ->]|(Hji & Hjn & bj & Hj & _ & Hpr & _)]]%split_front_lookup Hk.
  - unfold front_block in Hk. blk. destruct (heap_ok_prev _ _ HO _ _ _ Hi Hk) as (bk & Hbk & _ & _ & _ & Hki).
    destruct (split_front_old k bk Hbk Hki) as (b'' & ? & _ & _ & Hnx). rewrite decide_True in Hnx by done. by exists b''.
  - unfold front_rest in Hk. blk. simplify_eq. exists front_block. rewrite split_front_n. done.
  - rewrite Hpr in Hk. destruct (ho_prev _ _ HO _ _ _ Hj Hk) as (bk & Hbk & Hkn).
    destruct (decide (k = i)) as [->|Hki].
    + exists front_rest. rewrite split_front_i. unfold front_rest. blk. split; [done|congruence].
    + destruct (split_front_old k bk Hbk Hki) as (b'' & ? & _ & _ & Hnx). exists b''. rewrite Hnx.
      rewrite decide_False; [done|]. intros Hp.
      destruct (heap_ok_prev _ _ HO _ _ _ Hi Hp) as (bk' & ? & ? & _). congruence.
Qed.

(** The address range of each block after the split. *)
Lemma split_front_cases j b' :
  heap_split_front !! j = Some b' ->
  (j = n /\ b_ptr b' = b_ptr b /\ b_size b' = sz) \/
  (j = i /\ b_ptr b' = b_ptr b + sz /\ b_size b' = b_size b - sz) \/
  (j <> i /\ exists bj, h !! j = Some bj /\ b_ptr b' = b_ptr bj /\ b_size b' = b_size bj).
Proof.
  intros [[-> ->]|[[-> ->]|(? & ? & bj & ? & [= ? ? _ _] & _)]]%split_front_lookup; [by left|by right; left|].
  right; right. split; [done|]. by exists bj.
Qed.

Lemma split_front_disj j b' k b'' :
  heap_split_front !! j = Some b' -> heap_split_front !! k = Some b'' -> j <> k ->
  b_end b' <= b_ptr b'' \/ b_end b'' <= b_ptr b'.
Proof.
  unfold b_end. pose proof (ho_range _ _ HO _ _ Hi). pose proof (ho_disj _ _ HO) as HD. unfold b_end in *.
  intros [(-> & -> & ->)|[(-> & -> & ->)|(Hji & bj & Hj & -> & ->)]]%split_front_cases
         [(-> & -> & ->)|[(-> & -> & ->)|(Hki & bk & Hk & -> & ->)]]%split_front_cases Hjk; try lia; try done.
  - pose proof (HD _ _ _ _ Hi Hk ltac:(done)). pose proof (ho_range _ _ HO _ _ Hk). lia.
  - pose proof (HD _ _ _ _ Hi Hk ltac:(done)). pose proof (ho_range _ _ HO _ _ Hk). lia.
  - pose proof (HD _ _ _ _ Hi Hj ltac:(done)). pose proof (ho_range _ _ HO _ _ Hj). lia.
  - pose proof (HD _ _ _ _ Hi Hj ltac:(done)). pose proof (ho_range _ _ HO _ _ Hj). lia.
  - by apply (HD _ _ _ _ Hj Hk).
Qed.

Lemma split_front_ext j b' : heap_split_front !! j = Some b' ->
  exists base len, ext !! base = Some len /\ base <= b_ptr b' /\ b_end b' <= base + len /\
    (b_prev b' = None <-> b_ptr b' = base) /\ (b_next b' = None <-> b_end b' = base + len).
Proof.
  destruct (ho_ext _ _ HO _ _ Hi) as (base & len & He & Hlo & Hhi & Hpr & Hnx).
  pose proof (ho_range _ _ HO _ _ Hi) as Hr. unfold b_end in *.
  intros [[-> ->]|[[-> ->]|(Hji & Hjn & bj & Hj & [= Hs Hp _ Hb] & Hpr' & Hnx')]]%split_front_lookup; blk.
  - exists base, len. unfold front_block. blk. split_and!; [done|lia|lia|done|]. split; [done|lia].
  - exists base, len. unfold front_rest. blk. split_and!; [done|lia|lia| |].
    + split; [done|lia].
    + replace (b_ptr b + sz + (b_size b - sz)) with (b_ptr b + b_size b) by lia. done.
  - destruct (ho_ext _ _ HO _ _ Hj) as (base' & len' & He' & Hlo' & Hhi' & Hpr0 & Hnx0).
    exists base', len'. unfold b_end in *. rewrite Hs, Hp, Hpr'. split_and!; [done..|].
    rewrite Hnx'. destruct (decide (b_prev b = Some j)) as [Hpj|]; [|done].
    destruct (heap_ok_prev _ _ HO _ _ _ Hi Hpj) as (bp & ? & ? & _). simplify_eq. rewrite <- Hnx0. naive_solver congruence.
Qed.

Lemma heap_split_front_ok : heap_ok heap_split_front ext.
Proof.
  split; [apply split_front_range|apply split_front_next|apply split_front_prev|apply split_front_disj
         |apply split_front_ext| |apply (ho_ext_disj _ _ HO)].
  intros base len He. destruct (ho_cover _ _ HO _ _ He) as (Hlen & j & bj & Hj & Hb). split; [done|].
  destruct (decide (j = i)) as [->|Hji].
  - exists n, front_block. rewrite split_front_n. simplify_eq. done.
  - destruct (split_front_old j bj Hj Hji) as (b' & ? & [= ? ? ? ?] & _). exists j, b'. split; [done|congruence].
Qed.
End SplitFront.

(** * Changing only the in-use flag *)
Definition bcore (b : Block) : Z * Z * option nat * option nat * option nat :=
  (b_size b, b_ptr b, b_bin b, b_prev b, b_next b).

Lemma heap_ok_core h h' ext :
  (forall i, bcore <$> h' !! i = bcore <$> h !! i) -> heap_ok h ext -> heap_ok h' ext.
Proof.
  intros Hc HO.
  assert (Hback : forall i b', h' !! i = Some b' -> exists b, h !! i = Some b /\ bcore b' = bcore b).
  { intros i b' Hi. specialize (Hc i). rewrite Hi in Hc. destruct (h !! i) as [b|]; [|done]. exists b. split; [done|]. by apply (inj Some). }
  assert (Hfw : forall i b, h !! i = Some b -> exists b', h' !! i = Some b' /\ bcore b' = bcore b).
  { intros i b Hi. specialize (Hc i). rewrite Hi in Hc. destruct (h' !! i) as [b'|]; [|done]. exists b'. split; [done|]. by apply (inj Some). }
  split.
  - intros i b (b0 & H0 & [= Hs Hp _ _ _])%Hback. unfold b_end. rewrite Hs, Hp. by apply (ho_range _ _ HO i).
  - intros i b j (b0 & H0 & [= Hs Hp Hb _ Hn])%Hback Hj. rewrite Hn in Hj.
    destruct (ho_next _ _ HO _ _ _ H0 Hj) as (bj & Hbj & ? & ? & ?).
    destruct (Hfw _ _ Hbj) as (bj' & ? & [= ? ? ? ? ?]). exists bj'. unfold b_end in *. split_and!; [done|congruence|lia|congruence].
  - intros i b j (b0 & H0 & [= _ _ _ Hp _])%Hback Hj. rewrite Hp in Hj.
    destruct (ho_prev _ _ HO _ _ _ H0 Hj) as (bj & Hbj & ?).
    destruct (Hfw _ _ Hbj) as (bj' & ? & [= ? ? ? ? ?]). exists bj'. split; [done|congruence].
  - intros i b j b' (b0 & H0 & [= Hs Hp _ _ _])%Hback (b0' & H0' & [= Hs' Hp' _ _ _])%Hback Hij.
    unfold b_end. rewrite Hs, Hp, Hs', Hp'. by apply (ho_disj _ _ HO i b0 j b0').
  - intros i b (b0 & H0 & [= Hs Hp _ Hpr Hnx])%Hback. unfold b_end. rewrite Hs, Hp, Hpr, Hnx. by apply (ho_ext _ _ HO i).
  - intros base len He. destruct (ho_cover _ _ HO _ _ He) as (? & i & b & Hi & ?). split; [done|].
    destruct (Hfw _ _ Hi) as (b' & ? & [= ? ? ? ? ?]). exists i, b'. split; [done|congruence].
  - apply (ho_ext_disj _ _ HO).
Qed.

Lemma heap_ok_set_allocated h ext i b x :
  heap_ok h ext -> h !! i = Some b -> heap_ok (<[i := set_allocated x b]> h) ext.
Proof.
  intros HO Hi. eapply heap_ok_core; [|exact HO]. intros j.
  destruct (decide (j = i)) as [->|]; [by rewrite lookup_insert_eq, Hi|by rewrite lookup_insert_ne].
Qed.

(** * Adding and removing an extent *)
Lemma heap_ok_add h ext n dev len bin ptr :
  heap_ok h ext -> h !! n = None -> ext !! ptr = None -> 0 < ptr -> 0 < len -> ptr + len < 2 ^ 64 ->
  (forall base l, ext !! base = Some l -> base + l <= ptr \/ ptr + len <= base) ->
  heap_ok (<[n := new_Block dev len bin ptr]> h) (<[ptr := len]> ext).
Proof.
  intros HO Hn Hfresh Hp Hl Hb Hd.
  assert (Hinv : forall i b, <[n := new_Block dev len bin ptr]> h !! i = Some b ->
    (i = n /\ b = new_Block dev len bin ptr) \/ (i <> n /\ h !! i = Some b)).
  { intros i b. destruct (decide (i = n)) as [->|]; [rewrite lookup_insert_eq; naive_solver|rewrite lookup_insert_ne by done; auto]. }
  assert (Hsub : forall i b, h !! i = Some b -> i <> n) by (intros i b Hi ->; congruence).
  assert (Hapart : forall i b, h !! i = Some b -> b_end b <= ptr \/ ptr + len <= b_ptr b).
  { intros i b Hi. destruct (ho_ext _ _ HO _ _ Hi) as (base & l & He & ? & ? & _). specialize (Hd _ _ He). lia. }
  split.
  - intros i b [[-> ->]|[? Hi]]%Hinv; [unfold b_end; blk; lia|by apply (ho_range _ _ HO i)].
  - intros i b j [[-> ->]|[? Hi]]%Hinv Hj; [done|].
    destruct (ho_next _ _ HO _ _ _ Hi Hj) as (bj & ? & ?). exists bj. by rewrite lookup_insert_ne by (by intros ->; eapply Hsub).
  - intros i b j [[-> ->]|[? Hi]]%Hinv Hj; [done|].
    destruct (ho_prev _ _ HO _ _ _ Hi Hj) as (bj & ? & ?). exists bj. by rewrite lookup_insert_ne by (by intros ->; eapply Hsub).
  - intros i b j b' [[-> ->]|[? Hi]]%Hinv [[-> ->]|[? Hj]]%Hinv Hij; [done|..].
    + specialize (Hapart _ _ Hj). unfold b_end in *. blk. lia.
    + specialize (Hapart _ _ Hi). unfold b_end in *. blk. lia.
    + by apply (ho_disj _ _ HO i b j b').
  - intros i b [[-> ->]|[? Hi]]%Hinv.
    + exists ptr, len. rewrite lookup_insert_eq. unfold b_end. blk. split_and!; done || lia.
    + destruct (ho_ext _ _ HO _ _ Hi) as (base & l & He & ?). exists base, l.
      rewrite lookup_insert_ne by (intros ->; congruence). done.
  - intros base l He. destruct (decide (base = ptr)) as [->|].
    + rewrite lookup_insert_eq in He. simplify_eq. split; [done|]. exists n, (new_Block dev l bin ptr).
      by rewrite lookup_insert_eq.
    + rewrite lookup_insert_ne in He by done. destruct (ho_cover _ _ HO _ _ He) as (? & i & b & Hi & ?). split; [done|].
      exists i, b. by rewrite lookup_insert_ne by (by intros ->; eapply Hsub).
  - intros b1 l1 b2 l2. destruct (decide (b1 = ptr)) as [->|], (decide (b2 = ptr)) as [->|];
      rewrite ?lookup_insert_eq, ?lookup_insert_ne by done; intros ? ? ?; simplify_eq.
    + specialize (Hd b2 l2 ltac:(done)). lia.
    + specialize (Hd b1 l1 ltac:(done)). lia.
    + by apply (ho_ext_disj _ _ HO b1 l1 b2 l2).
Qed.

(** A block without neighbours is its whole extent. *)
Lemma heap_ok_whole h ext i b :
  heap_ok h ext -> h !! i = Some b -> b_prev b = None -> b_next b = None -> ext !! b_ptr b = Some (b_size b).
Proof.
  intros HO Hi Hp Hn. destruct (ho_ext _ _ HO _ _ Hi) as (base & len & He & _ & _ & Hpr & Hnx).
  apply Hpr in Hp. apply Hnx in Hn. subst base. unfold b_end in *. by replace (b_size b) with len by lia.
Qed.

Lemma heap_ok_del h ext i b :
  heap_ok h ext -> h !! i = Some b -> b_prev b = None -> b_next b = None ->
  heap_ok (delete i h) (delete (b_ptr b) ext).
Proof.
  intros HO Hi Hp Hn. pose proof (heap_ok_whole _ _ _ _ HO Hi Hp Hn) as He.
  assert (Hother : forall j bj base len, h !! j = Some bj -> j <> i -> ext !! base = Some len ->
    base <= b_ptr bj -> b_end bj <= base + len -> base <> b_ptr b).
  { intros j bj base len Hj Hji Hb ? ? ->. simplify_eq. pose proof (ho_disj _ _ HO _ _ _ _ Hi Hj ltac:(done)).
    pose proof (ho_range _ _ HO _ _ Hj). pose proof (ho_range _ _ HO _ _ Hi). unfold b_end in *. lia. }
  split.
  - intros j bj [? Hj]%lookup_delete_Some. by apply (ho_range _ _ HO j).
  - intros j bj k [? Hj]%lookup_delete_Some Hk. destruct (ho_next _ _ HO _ _ _ Hj Hk) as (bk & ? & ? & ?).
    exists bk. rewrite lookup_delete_ne by (intros ->; congruence). done.
  - intros j bj k [? Hj]%lookup_delete_Some Hk. destruct (ho_prev _ _ HO _ _ _ Hj Hk) as (bk & ? & ?).
    exists bk. rewrite lookup_delete_ne by (intros ->; congruence). done.
  - intros j bj k bk [? Hj]%lookup_delete_Some [? Hk]%lookup_delete_Some. by apply (ho_disj _ _ HO j bj k bk).
  - intros j bj [? Hj]%lookup_delete_Some. destruct (ho_ext _ _ HO _ _ Hj) as (base & len & Hb & ? & ? & ?).
    exists base, len. rewrite lookup_delete_ne by (apply not_eq_sym; by eapply Hother). done.
  - intros base len [? Hb]%lookup_delete_Some. destruct (ho_cover _ _ HO _ _ Hb) as (? & j & bj & Hj & ?). split; [done|].
    exists j, bj. rewrite lookup_delete_ne by (intros ->; congruence). done.
  - intros b1 l1 b2 l2 [? H1]%lookup_delete_Some [? H2]%lookup_delete_Some. by apply (ho_ext_disj _ _ HO b1 l1 b2 l2).
Qed.

(** * Bins as ordered sets *)
Lemma key_less_irrefl k : key_less k k = false.
Proof. unfold key_less. rewrite Z.eqb_refl. cbn [negb]. apply Z.ltb_irrefl. Qed.

Lemma key_less_trans a b c : key_less a b = true -> key_less b c = true -> key_less a c = true.
Proof.
  unfold key_less. destruct (Z.eqb_spec a.1 b.1), (Z.eqb_spec b.1 c.1), (Z.eqb_spec a.1 c.1); cbn [negb];
    rewrite !Z.ltb_lt; lia.
Qed.

Lemma key_less_total a b : key_less a b = false -> key_less b a = false -> a = b.
Proof.
  destruct a as [a1 a2], b as [b1 b2]. unfold key_less. cbn.
  destruct (Z.eqb_spec a1 b1), (Z.eqb_spec b1 a1); cbn [negb]; rewrite !Z.ltb_ge; intros; try lia.
  f_equal; lia.
Qed.

(** Not less than a key, as a bound on the size first. *)
Lemma key_not_less_size a b : key_less a b = false -> b.1 <= a.1.
Proof. unfold key_less. destruct (Z.eqb_spec a.1 b.1); cbn [negb]; rewrite Z.ltb_ge; lia. Qed.

Definition bin_less (h : heap) (i j : nat) : Prop := key_less (block_key h i) (block_key h j) = true.
Definition bin_sorted (h : heap) (l : list nat) : Prop := StronglySorted (bin_less h) l.

Lemma elem_of_set_insert h i l x :
  (forall j, j ∈ l -> block_key h j <> block_key h i) -> x ∈ set_insert h i l <-> x = i \/ x ∈ l.
Proof.
  induction l as [|j l IH]; intros Hne; cbn [set_insert]; [set_solver|].
  destruct (key_less (block_key h i) (block_key h j)) eqn:H1; [set_solver|].
  destruct (key_less (block_key h j) (block_key h i)) eqn:H2.
  - rewrite !elem_of_cons, IH by set_solver. set_solver.
  - exfalso. apply (Hne j); [set_solver|]. symmetry. by apply key_less_total.
Qed.

Lemma set_insert_sorted h i l : bin_sorted h l -> bin_sorted h (set_insert h i l).
Proof.
  induction 1 as [|j l Hs IH HF]; cbn [set_insert]; [by repeat constructor|].
  destruct (key_less (block_key h i) (block_key h j)) eqn:H1.
  - constructor; [by constructor|]. constructor; [done|]. eapply Forall_impl; [exact HF|].
    intros x Hx. by eapply key_less_trans.
  - destruct (key_less (block_key h j) (block_key h i)) eqn:H2; [|by constructor].
    constructor; [done|]. rewrite Forall_forall in *. intros x Hx.
    assert (x = i \/ x ∈ l) as [-> | ?]; [|done|by apply HF].
    clear - Hx. induction l as [|k l IH]; cbn in Hx; [set_solver|].
    destruct (key_less _ _); [set_solver|]. destruct (key_less _ _); set_solver.
Qed.

Lemma elem_of_set_erase h i l x : x ∈ set_erase h i l <-> x ∈ l /\ block_key h x <> block_key h i.
Proof.
  unfold set_erase. rewrite !list_elem_of_In, filter_In. split; intros [Hin Hk]; split; try done.
  - intros Heq. by rewrite Heq, key_less_irrefl in Hk.
  - apply orb_true_iff. destruct (key_less (block_key h i) (block_key h x)) eqn:H1; [by left|].
    destruct (key_less (block_key h x) (block_key h i)) eqn:H2; [by right|]. by destruct (Hk (eq_sym (key_less_total _ _ H1 H2))).
Qed.

Lemma set_erase_sorted h i l : bin_sorted h l -> bin_sorted h (set_erase h i l).
Proof.
  unfold set_erase. induction 1 as [|j l Hs IH HF]; cbn; [constructor|].
  destruct (_ || _); [|done]. constructor; [done|]. rewrite Forall_forall in *. intros x Hx.
  apply list_elem_of_In, filter_In in Hx as [Hx _]. apply HF. by apply list_elem_of_In.
Qed.

(** lower_bound finds the least sufficient element of the set. *)
Lemma set_lower_bound_Some h key l j :
  set_lower_bound h key l = Some j ->
  j ∈ l /\ key_less (block_key h j) key = false /\
  (bin_sorted h l -> forall x, x ∈ l -> key_less (block_key h x) key = false -> x = j \/ bin_less h j x).
Proof.
  induction l as [|k l IH]; cbn [set_lower_bound]; [done|].
  destruct (key_less (block_key h k) key) eqn:Hk.
  - intros Hj. destruct (IH Hj) as (? & ? & Hmin). split_and!; [set_solver|done|].
    intros Hs x Hx Hxk. apply StronglySorted_inv in Hs as [Hs _].
    apply elem_of_cons in Hx as [-> |Hx]; [congruence|by apply Hmin].
  - intros [= ->]. split_and!; [set_solver|done|]. intros [Hs HF]%StronglySorted_inv x Hx _.
    apply elem_of_cons in Hx as [-> |Hx]; [by left|]. right. rewrite Forall_forall in HF. by apply HF.
Qed.

Lemma set_lower_bound_None h key l :
  set_lower_bound h key l = None -> forall x, x ∈ l -> key_less (block_key h x) key = true.
Proof.
  induction l as [|k l IH]; cbn [set_lower_bound]; [set_solver|].
  destruct (key_less (block_key h k) key) eqn:Hk; [|done]. intros Hn x [-> |Hx]%elem_of_cons; [done|by apply IH].
Qed.

(** An update that keeps the keys of the elements keeps the order. *)
Lemma bin_sorted_frame h h' l :
  (forall x, x ∈ l -> block_key h' x = block_key h x) -> bin_sorted h l -> bin_sorted h' l.
Proof.
  intros Hk. induction 1 as [|j l Hs IH HF]; [constructor|]. constructor; [apply IH; set_solver|].
  rewrite Forall_forall in *. intros x Hx. unfold bin_less. rewrite !Hk by set_solver. by apply HF.
Qed.

Lemma bdata_key h h' i : bdata <$> h' !! i = bdata <$> h !! i -> block_key h' i = block_key h i.
Proof. unfold block_key. destruct (h !! i), (h' !! i); cbn; intros; simplify_eq; congruence. Qed.

Lemma bin_sorted_NoDup h l : bin_sorted h l -> NoDup l.
Proof.
  induction 1 as [|i l Hs IH HF]; constructor; [|done]. intros Hin. rewrite Forall_forall in HF.
  specialize (HF _ Hin). unfold bin_less in HF. by rewrite key_less_irrefl in HF.
Qed.

(** * Blocks in use *)

(** The blocks in use, by identity: address and size. *)
Definition allocs (h : heap) (i : nat) : option (Z * Z) :=
  match h !! i with
  | Some b => if b_allocated b then Some (b_ptr b, b_size b) else None
  | None => None
  end.

(** A neighbour that is in use, or no neighbour. *)
Definition nb_alloc (h : heap) (o : option nat) : Prop :=
  match o with
  | None => True
  | Some j => exists b, h !! j = Some b /\ b_allocated b = true
  end.

Lemma bdata_Some (h h' : heap) i b :
  bdata <$> h' !! i = bdata <$> h !! i -> h !! i = Some b -> exists b', h' !! i = Some b' /\ bdata b' = bdata b.
Proof. intros Hd Hi. rewrite Hi in Hd. destruct (h' !! i) as [b'|]; [|done]. exists b'. split; [done|]. by apply (inj Some). Qed.

Lemma allocs_bdata (h h' : heap) i : bdata <$> h' !! i = bdata <$> h !! i -> allocs h' i = allocs h i.
Proof.
  unfold allocs. destruct (h !! i) as [b|], (h' !! i) as [b'|]; cbn; intros Heq; try done.
  apply (inj Some) in Heq. injection Heq as Hs Hp Ha _. by rewrite Hs, Hp, Ha.
Qed.

Lemma allocs_Some h i p n : allocs h i = Some (p, n) ->
  exists b, h !! i = Some b /\ b_allocated b = true /\ b_ptr b = p /\ b_size b = n.
Proof.
  unfold allocs. destruct (h !! i) as [b|]; [|done]. destruct (b_allocated b) eqn:Ha; [|done]. intros [= <- <-]. by exists b.
Qed.

(** A neighbour keeps its in-use flag through a merge. *)
Lemma nb_alloc_merge h h' d o :
  (forall i, i <> d -> bdata <$> h' !! i = bdata <$> h !! i) -> o <> Some d -> nb_alloc h o -> nb_alloc h' o.
Proof.
  intros Hdata Hd. destruct o as [j|]; [|done]. intros (b & Hb & Ha).
  destruct (bdata_Some h h' j b) as (b' & ? & [= _ _ ? _]); [apply Hdata; congruence|done|]. exists b'. split; [done|congruence].
Qed.

Lemma nb_alloc_delete h s o : o <> Some s -> nb_alloc h o -> nb_alloc (delete s h) o.
Proof. destruct o as [j|]; [|done]. intros Hne (b & Hb & Ha). exists b. by rewrite lookup_delete_ne by congruence. Qed.

(** * Sizes as doubles *)

(** A non-negative integer rounded to the 53 significant bits of a double, ties to even. *)
Definition round53 (z : Z) : Z :=
  if z <? 2 ^ 53 then z else
  let e := Z.log2 z - 52 in
  let q := z / 2 ^ e in
  let r := z mod 2 ^ e in
  if (r <? 2 ^ (e - 1)) || ((r =? 2 ^ (e - 1)) && Z.even q) then q * 2 ^ e else (q + 1) * 2 ^ e.

Lemma round53_small z : z < 2 ^ 53 -> round53 z = z.
Proof. intros. unfold round53. by destruct (Z.ltb_spec z (2 ^ 53)); [|lia]. Qed.

Lemma round53_pos z : 0 < z -> 0 < round53 z.
Proof.
  intros Hz. unfold round53. destruct (Z.ltb_spec z (2 ^ 53)) as [|Hb]; [done|].
  assert (53 <= Z.log2 z) by (by apply Z.log2_le_pow2). pose proof (Z.log2_spec z Hz) as [Hlo _].
  set (e := Z.log2 z - 52). assert (0 < 2 ^ e) by (apply Z.pow_pos_nonneg; lia).
  assert (0 < z / 2 ^ e).
  { apply Z.div_str_pos. split; [done|]. etrans; [|exact Hlo]. apply Z.pow_le_mono_r; lia. }
  destruct (_ || _); nia.
Qed.

(** * Renaming the block objects

    The invariant does not depend on which object represents a block. *)
Definition rename_block (f : nat -> nat) (b : Block) : Block :=
  set_prev (f <$> b_prev b) (set_next (f <$> b_next b) b).

Section Rename.
Context (h h' : heap) (ext : gmap Z Z) (f : nat -> nat) (HO : heap_ok h ext).
Hypothesis Hf : forall i, f (f i) = i.
Hypothesis Hh : forall i, bcore <$> h' !! i = (fun b => bcore (rename_block f b)) <$> h !! f i.

Lemma rename_back i b' : h' !! i = Some b' ->
  exists b, h !! f i = Some b /\ b_size b' = b_size b /\ b_ptr b' = b_ptr b /\ b_bin b' = b_bin b /\
    b_prev b' = f <$> b_prev b /\ b_next b' = f <$> b_next b.
Proof.
  intros Hi. specialize (Hh i). rewrite Hi in Hh. destruct (h !! f i) as [b|]; [|done].
  apply (inj Some) in Hh. unfold bcore in Hh. cbn in Hh. injection Hh as ? ? ? ? ?. by exists b.
Qed.

Lemma rename_fw i b : h !! i = Some b ->
  exists b', h' !! f i = Some b' /\ b_size b' = b_size b /\ b_ptr b' = b_ptr b /\ b_bin b' = b_bin b /\
    b_prev b' = f <$> b_prev b /\ b_next b' = f <$> b_next b.
Proof.
  intros Hi. specialize (Hh (f i)). rewrite Hf, Hi in Hh. destruct (h' !! f i) as [b'|]; [|done].
  apply (inj Some) in Hh. unfold bcore in Hh. cbn in Hh. injection Hh as ? ? ? ? ?. by exists b'.
Qed.

Lemma heap_ok_rename : heap_ok h' ext.
Proof.
  split.
  - intros i b' (b & Hb & Hs & Hp & _)%rename_back. unfold b_end. rewrite Hs, Hp. by apply (ho_range _ _ HO (f i)).
  - intros i b' j (b & Hb & Hs & Hp & Hbin & _ & Hn)%rename_back Hj. rewrite Hn in Hj.
    apply fmap_Some in Hj as (k & Hk & ->). destruct (ho_next _ _ HO _ _ _ Hb Hk) as (bk & Hbk & Hkp & Hkptr & Hkb).
    destruct (rename_fw _ _ Hbk) as (bk' & ? & _ & ? & ? & Hp' & _). exists bk'. unfold b_end in *.
    rewrite Hp', Hkp. cbn. rewrite Hf. split_and!; [done|done|lia|congruence].
  - intros i b' j (b & Hb & _ & _ & _ & Hp & _)%rename_back Hj. rewrite Hp in Hj.
    apply fmap_Some in Hj as (k & Hk & ->). destruct (ho_prev _ _ HO _ _ _ Hb Hk) as (bk & Hbk & Hkn).
    destruct (rename_fw _ _ Hbk) as (bk' & ? & _ & _ & _ & _ & Hn'). exists bk'. rewrite Hn', Hkn. cbn. by rewrite Hf.
  - intros i b j b' (b0 & H0 & Hs & Hp & _)%rename_back (b0' & H0' & Hs' & Hp' & _)%rename_back Hij.
    unfold b_end. rewrite Hs, Hp, Hs', Hp'. apply (ho_disj _ _ HO (f i) b0 (f j) b0'); [done..|].
    intros Heq. apply Hij. by rewrite <- (Hf i), Heq, Hf.
  - intros i b (b0 & H0 & Hs & Hp & _ & Hpr & Hnx)%rename_back. unfold b_end. rewrite Hs, Hp, Hpr, Hnx.
    destruct (ho_ext _ _ HO _ _ H0) as (base & len & ?). exists base, len. by rewrite !fmap_None.
  - intros base len He. destruct (ho_cover _ _ HO _ _ He) as (? & i & b & Hi & ?). split; [done|].
    destruct (rename_fw _ _ Hi) as (b' & ? & _ & ? & _). exists (f i), b'. split; [done|congruence].
  - apply (ho_ext_disj _ _ HO).
Qed.
End Rename.

(** * Cutting off the end of a block

    The old block keeps the first [sz] bytes, the new block [n] gets the rest: the split of
    [SplitFront] with the two objects exchanged. *)
Section SplitBack.
Context (h : heap) (ext : gmap Z Z) (HO : heap_ok h ext).
Context (i n : nat) (b : Block) (dev sz : Z).
Hypothesis Hi : h !! i = Some b.
Hypothesis Hn : h !! n = None.
Hypothesis Hsz : 0 < sz < b_size b.

Definition back_front : Block :=
  mkBlock (b_device_id b) sz (b_bin b) (b_ptr b) (b_allocated b) (b_prev b) (Some n).
Definition back_rest : Block := mkBlock dev (b_size b - sz) (b_bin b) (b_ptr b + sz) false (Some i) (b_next b).
Definition heap_split_back : heap :=
  <[n := back_rest]> (<[i := back_front]>
    (match b_next b with Some q => alter (set_prev (Some n)) q h | None => h end)).

Definition exchange (j : nat) : nat := if decide (j = i) then n else if decide (j = n) then i else j.

Lemma exchange_invol j : exchange (exchange j) = j.
Proof. unfold exchange. repeat destruct (decide _); congruence. Qed.

Lemma exchange_other j : j <> i -> j <> n -> exchange j = j.
Proof. intros. unfold exchange. by rewrite !decide_False. Qed.

Lemma split_back_n : heap_split_back !! n = Some back_rest.
Proof. apply lookup_insert_eq. Qed.
Lemma split_back_i : heap_split_back !! i = Some back_front.
Proof. unfold heap_split_back. by rewrite lookup_insert_ne, lookup_insert_eq by congruence. Qed.

Lemma split_back_old j : j <> i -> j <> n ->
  heap_split_back !! j = (fun bj => if decide (b_next b = Some j) then set_prev (Some n) bj else bj) <$> h !! j.
Proof.
  intros Hji Hjn. unfold heap_split_back. rewrite !lookup_insert_ne by done. destruct (b_next b) as [q|].
  - destruct (decide (j = q)) as [->|]; [rewrite lookup_alter_eq; by destruct (decide (Some q = Some q))|].
    rewrite lookup_alter_ne by done. destruct (decide (Some q = Some j)); [congruence|]. by destruct (h !! j).
  - destruct (decide (None = Some j)); [done|]. by destruct (h !! j).
Qed.

(** The links of a block that is neither [i] nor [n]. *)
Lemma exchange_links j bj : h !! j = Some bj -> j <> i ->
  b_next bj <> Some n /\ b_prev bj <> Some n /\ (b_next bj = Some i <-> b_prev b = Some j) /\ (b_prev bj = Some i <-> b_next b = Some j).
Proof.
  intros Hj Hji. split_and!.
  - intros (b' & ? & _)%(heap_ok_next _ _ HO _ _ _ Hj). congruence.
  - intros (b' & ? & _)%(heap_ok_prev _ _ HO _ _ _ Hj). congruence.
  - split; [intros (b' & ? & ? & _)%(heap_ok_next _ _ HO _ _ _ Hj)|intros (b' & ? & ? & _)%(heap_ok_prev _ _ HO _ _ _ Hi)]; congruence.
  - split; [intros (b' & ? & ? & _)%(heap_ok_prev _ _ HO _ _ _ Hj)|intros (b' & ? & ? & _)%(heap_ok_next _ _ HO _ _ _ Hi)]; congruence.
Qed.

Lemma split_back_exchange j :
  bcore <$> heap_split_back !! j = (fun x => bcore (rename_block exchange x)) <$> heap_split_front h i n b dev sz !! exchange j.
Proof.
  assert (n <> i) as Hni by congruence.
  assert (Hlink : forall o : option nat, o <> Some i -> o <> Some n -> exchange <$> o = o).
  { intros [k|] ? ?; [cbn; by rewrite exchange_other by congruence|done]. }
  assert (exchange i = n) as Ei by (unfold exchange; by rewrite decide_True).
  assert (exchange n = i) as En by (unfold exchange; by rewrite decide_False, decide_True).
  assert (b_prev b <> Some i /\ b_next b <> Some i) as [Hpi Hxi].
  { split; [intros (? & _ & _ & _ & _ & ?)%(heap_ok_prev _ _ HO _ _ _ Hi)|intros (? & _ & _ & _ & _ & ?)%(heap_ok_next _ _ HO _ _ _ Hi)]; congruence. }
  assert (b_prev b <> Some n /\ b_next b <> Some n) as [Hpn Hxn].
  { split; [intros (? & ? & _)%(heap_ok_prev _ _ HO _ _ _ Hi)|intros (? & ? & _)%(heap_ok_next _ _ HO _ _ _ Hi)]; congruence. }
  destruct (decide (j = i)) as [->|Hji].
  { rewrite Ei, split_back_i, split_front_n. cbn. unfold bcore. cbn. rewrite Hlink, Ei by done. done. }
  destruct (decide (j = n)) as [->|Hjn].
  { rewrite En, split_back_n, (split_front_i _ _ n b dev sz Hi Hn). cbn. unfold bcore. cbn. rewrite Hlink, En by done. done. }
  rewrite exchange_other, split_back_old by done. destruct (h !! j) as [bj|] eqn:Hj.
  - destruct (split_front_old h i n b dev sz Hn j bj Hj Hji) as (b' & -> & [= Hs Hp _ Hb] & Hpr & Hnx).
    destruct (exchange_links j bj Hj Hji) as (H1 & H2 & H3 & H4). cbn. unfold bcore. cbn. rewrite Hs, Hp, Hb, Hpr, Hnx.
    assert (exchange <$> b_prev bj = if decide (b_next b = Some j) then Some n else b_prev bj) as ->.
    { destruct (decide (b_next b = Some j)) as [Hq|Hq]; [apply H4 in Hq; rewrite Hq; cbn; by rewrite Ei|apply Hlink; [by rewrite H4|done]]. }
    assert (exchange <$> (if decide (b_prev b = Some j) then Some n else b_next bj) = b_next bj) as ->.
    { destruct (decide (b_prev b = Some j)) as [Hq|Hq]; [cbn; rewrite En; symmetry; by apply H3|apply Hlink; [by rewrite H3|done]]. }
    by destruct (decide (b_next b = Some j)).
  - destruct (heap_split_front h i n b dev sz !! j) as [b'|] eqn:Hb'; [|done].
    apply (split_front_lookup _ _ _ _ _ _ Hi Hn) in Hb' as [[-> _]|[[-> _]|(_ & _ & ? & ? & _)]]; congruence.
Qed.

Lemma heap_split_back_ok : heap_ok heap_split_back ext.
Proof.
  eapply heap_ok_rename; [exact (heap_split_front_ok h ext HO i n b dev sz Hi Hn Hsz)|exact exchange_invol|exact split_back_exchange].
Qed.
End SplitBack.
