(* ===== verification/CachingAllocator.v ===== *)
(** The caching device-memory allocator (ge/graph/manager/graph_caching_allocator.{h,cc}).

    The state holds the block objects, the eight bins of free blocks ordered by size
    and address, the map of blocks in use, and the runtime.  Each method is a function
    in a state monad; [None] is undefined behaviour (a null or dangling pointer).

    The invariant is in CachingInvariant, the contracts of the methods in CachingContract and the theorems in
    CachingTheorems. *)
From S2P Require Import Prelude MemAllocator BlockHeap.

(** * Constants and size arithmetic *)
Definition kRoundBlockSize : Z := 512.
Definition kKByteSize : Z := 1024.
Definition kMByteSize : Z := 1048576.
Definition kGByteSize : Z := 1073741824.
Definition kNumBins : nat := 8.

Definition bin_ranges : list Z :=
  [kRoundBlockSize * kKByteSize; 8 * kMByteSize; 32 * kMByteSize; 128 * kMByteSize; kGByteSize;
   4 * kGByteSize; 16 * kGByteSize; 26 * kGByteSize].

Fixpoint GetBinIndex_loop (size : Z) (ranges : list Z) (index : nat) : nat :=
  match ranges with
  | [] => index
  | range :: ranges => if size <=? range then index else GetBinIndex_loop size ranges (S index)
  end.
Definition GetBinIndex (size : Z) : nat :=
  let index := GetBinIndex_loop size bin_ranges 0 in
  if (kNumBins - 1 <? index)%nat then (kNumBins - 1)%nat else index.

Definition GetAllocationSize (size : Z) : Z := nth (GetBinIndex size) bin_ranges 0.

Definition GetBlockSize (size : Z) : Z :=
  if size =? 0 then kRoundBlockSize
  else wrapU64 (kRoundBlockSize * (wrapU64 (size + kRoundBlockSize - 1) / kRoundBlockSize)).

(** `static_cast<double>(size) <= static_cast<double>(block->size) * 0.75`, both sides
    multiplied by four: rounding to 53 bits commutes with powers of two. *)
Definition ShouldSplit (block : Block) (size : Z) : bool :=
  4 * round53 size <=? round53 (3 * round53 (b_size block)).

(** * The allocator *)
Section Model.
Context `{R : Runtime}.

Record CachingAllocator := mkCA {
  blocks : heap;
  next_id : nat;
  free_block_bins_ : list (option (list nat));
  allocated_blocks_ : gmap Z nat;
  has_allocator : bool;
  ca_type : Z;
  rt : RT;
}.

(** ** The state monad *)
Definition M (A : Type) : Type := CachingAllocator -> option (A * CachingAllocator).
#[export] Instance M_ret : MRet M := fun A a st => Some (a, st).
#[export] Instance M_bind : MBind M := fun A B f m st =>
  match m st with
  | Some (a, st) => f a st
  | None => None
  end.

Definition set_blocks (h : heap) (st : CachingAllocator) : CachingAllocator :=
  mkCA h (next_id st) (free_block_bins_ st) (allocated_blocks_ st) (has_allocator st) (ca_type st) (rt st).
Definition set_bins (l : list (option (list nat))) (st : CachingAllocator) : CachingAllocator :=
  mkCA (blocks st) (next_id st) l (allocated_blocks_ st) (has_allocator st) (ca_type st) (rt st).
Definition set_allocated_blocks (m : gmap Z nat) (st : CachingAllocator) : CachingAllocator :=
  mkCA (blocks st) (next_id st) (free_block_bins_ st) m (has_allocator st) (ca_type st) (rt st).
Definition set_rt (r : RT) (st : CachingAllocator) : CachingAllocator :=
  mkCA (blocks st) (next_id st) (free_block_bins_ st) (allocated_blocks_ st) (has_allocator st) (ca_type st) r.

Definition gets {A} (f : CachingAllocator -> A) : M A := fun st => Some (f st, st).
Definition modify (f : CachingAllocator -> CachingAllocator) : M unit := fun st => Some (tt, f st).

(** `*i` and `i->field = ...` *)
Definition deref (i : nat) : M Block := fun st =>
  match blocks st !! i with Some b => Some (b, st) | None => None end.
Definition update_heap (f : heap -> option heap) : M unit := fun st =>
  match f (blocks st) with Some h => Some (tt, set_blocks h st) | None => None end.
Definition delete_block (i : nat) : M unit := modify (fun st => set_blocks (delete i (blocks st)) st).

(** `new (std::nothrow) Block(...)`: the new object, or the null pointer. *)
Definition new_block (b : Block) : M (option nat) := fun st =>
  let '(ok, r) := new_nothrow (rt st) in
  if ok then
    Some (Some (next_id st),
          mkCA (<[next_id st := b]> (blocks st)) (S (next_id st)) (free_block_bins_ st) (allocated_blocks_ st)
            (has_allocator st) (ca_type st) r)
  else Some (None, set_rt r st).

(** The bin with index [idx]; the null pointer when it has not been created. *)
Definition get_bin (idx : nat) : M (option (list nat)) := fun st =>
  Some (match free_block_bins_ st !! idx with Some (Some l) => Some l | _ => None end, st).
(** An update of an existing bin through a reference to it. *)
Definition update_bin (idx : nat) (f : heap -> list nat -> list nat) : M unit := fun st =>
  match free_block_bins_ st !! idx with
  | Some (Some l) => Some (tt, set_bins (<[idx := Some (f (blocks st) l)]> (free_block_bins_ st)) st)
  | _ => None
  end.

(** The calls of the memory allocator, through `memory_allocator_`. *)
Definition call_MallocMemory (size : Z) : M Z := fun st =>
  if has_allocator st then let '(p, r) := MallocMemory (ca_type st) size (rt st) in Some (p, set_rt r st) else None.
Definition call_FreeMemory (p : Z) : M Status := fun st =>
  if has_allocator st then let '(s, r) := FreeMemory p (rt st) in Some (s, set_rt r st) else None.

(** ** The methods *)
Definition CanMerge (block : option nat) : M bool :=
  match block with
  | None => mret false
  | Some i => b ← deref i; mret (negb (b_allocated b) && IsSplit b)
  end.

Definition MergeBlocks (dst : nat) (src : option nat) (bin : nat) : M unit :=
  c1 ← CanMerge (Some dst);
  c2 ← (if c1 : bool then CanMerge src else mret false);
  match src with
  | Some src =>
      if c2 : bool then
        _ ← update_heap (fun h => merge_links h dst src);
        _ ← update_bin bin (fun h l => set_erase h src l);
        delete_block src
      else mret tt
  | None => mret tt
  end.

Definition FreeBlock (block : option nat) : M unit :=
  match block with
  | None => mret tt
  | Some i =>
      b ← deref i;
      if negb (b_allocated b) then mret tt else
      _ ← update_heap (upd i (set_allocated false));
      match b_bin b with
      | None => fun _ => None
      | Some bin =>
          b ← deref i;
          let prev := b_prev b in
          let next := b_next b in
          _ ← MergeBlocks i prev bin;
          _ ← MergeBlocks i next bin;
          update_bin bin (fun h l => set_insert h i l)
      end
  end.

Definition Free (ptr : Z) : M Status :=
  if ptr =? 0 then mret PARAM_INVALID else
  m ← gets allocated_blocks_;
  match m !! ptr with
  | None => mret PARAM_INVALID
  | Some block =>
      _ ← modify (set_allocated_blocks (delete ptr m));
      _ ← FreeBlock (Some block);
      mret SUCCESS
  end.

Definition GetBlockBin (size : Z) : M (option (list nat)) := get_bin (GetBinIndex size).

(** [bin] is the bin [block] was taken from. *)
Definition SplitBlock (block : nat) (size : Z) (bin : nat) (device_id : Z) : M nat :=
  let remaining := block in
  b ← deref block;
  o ← new_block (new_Block device_id size (Some bin) (b_ptr b));
  match o with
  | None => mret block
  | Some new_block =>
      r ← deref remaining;
      _ ← update_heap (upd new_block (set_prev (b_prev r)));
      _ ← update_heap (upd_opt (b_prev r) (set_next (Some new_block)));
      _ ← update_heap (upd new_block (set_next (Some remaining)));
      _ ← update_heap (upd remaining (set_prev (Some new_block)));
      _ ← update_heap (upd remaining (fun b => set_ptr (b_ptr b + size) b));
      _ ← update_heap (upd remaining (fun b => set_size (wrapU64 (b_size b - size)) b));
      _ ← update_bin bin (fun h l => set_insert h remaining l);
      mret new_block
  end.

Definition FindFreeBlock (size org_ptr device_id : Z) : M (option nat) :=
  let key := (size, if org_ptr =? 0 then 0 else org_ptr - 1) in
  bin ← GetBlockBin size;
  match bin with
  | None => mret None
  | Some l =>
      h ← gets blocks;
      match set_lower_bound h key l with
      | None => mret None
      | Some block =>
          _ ← update_bin (GetBinIndex size) (fun _ l => List.remove Nat.eq_dec block l);
          b ← deref block;
          block ← (if ShouldSplit b size then SplitBlock block size (GetBinIndex size) device_id else mret block);
          b ← deref block;
          _ ← (if negb (b_ptr b =? 0) then
                 _ ← update_heap (upd block (set_allocated true));
                 modify (fun st => set_allocated_blocks (<[b_ptr b := block]> (allocated_blocks_ st)) st)
               else mret tt);
          mret (Some block)
      end
  end.

Definition AddToBlockBin (ptr size device_id : Z) : M Status :=
  bin ← GetBlockBin size;
  match bin with
  | None => mret FAILED
  | Some _ =>
      o ← new_block (new_Block device_id size (Some (GetBinIndex size)) 0);
      match o with
      | None => mret FAILED
      | Some block =>
          _ ← update_heap (upd block (set_ptr ptr));
          _ ← update_heap (upd block (set_size size));
          _ ← update_bin (GetBinIndex size) (fun h l => set_insert h block l);
          mret SUCCESS
      end
  end.

(** The loop over one pool: [l] is what is left of it. *)
Fixpoint FreeCachedBlocks_pool (idx : nat) (l : list nat) : M unit :=
  match l with
  | [] => mret tt
  | block :: l =>
      b ← deref block;
      freed ← (if negb (b_ptr b =? 0) && bool_decide (b_prev b = None) && bool_decide (b_next b = None) then
                 s ← call_FreeMemory (b_ptr b); mret (bool_decide (s = SUCCESS))
               else mret false);
      _ ← (if freed : bool then
             _ ← update_bin idx (fun _ l => List.remove Nat.eq_dec block l);
             delete_block block
           else mret tt);
      FreeCachedBlocks_pool idx l
  end.

Fixpoint FreeCachedBlocks_bins (idxs : list nat) : M unit :=
  match idxs with
  | [] => mret tt
  | i :: idxs =>
      pool ← get_bin i;
      _ ← (match pool with None => mret tt | Some l => FreeCachedBlocks_pool i l end);
      FreeCachedBlocks_bins idxs
  end.
Definition FreeCachedBlocks : M unit := FreeCachedBlocks_bins (seq 0 kNumBins).

Definition TryExtendCache (size device_id : Z) : M Status :=
  let memory_size := GetAllocationSize size in
  memory_addr ← call_MallocMemory memory_size;
  memory_addr ← (if memory_addr =? 0 then
                   _ ← FreeCachedBlocks;
                   call_MallocMemory memory_size
                 else mret memory_addr);
  if memory_addr =? 0 then mret FAILED else
  s ← AddToBlockBin memory_addr memory_size device_id;
  if negb (bool_decide (s = SUCCESS)) then
    _ ← call_FreeMemory memory_addr;
    mret FAILED
  else mret SUCCESS.

Definition Malloc (size org_ptr device_id : Z) : M Z :=
  let size := GetBlockSize size in
  block ← FindFreeBlock size org_ptr device_id;
  match block with
  | Some i => b ← deref i; mret (b_ptr b)
  | None =>
      s ← TryExtendCache size device_id;
      if bool_decide (s = SUCCESS) then
        block ← FindFreeBlock size org_ptr device_id;
        match block with
        | Some i => b ← deref i; mret (b_ptr b)
        | None => mret 0
        end
      else mret 0
  end.

Fixpoint FreeBlocks_loop (l : list (Z * nat)) : M unit :=
  match l with
  | [] => mret tt
  | it :: l => _ ← FreeBlock (Some it.2); FreeBlocks_loop l
  end.
Definition FreeBlocks : M unit :=
  m ← gets allocated_blocks_;
  _ ← FreeBlocks_loop (map_order m);
  _ ← modify (set_allocated_blocks ∅);
  FreeCachedBlocks.

Definition FreeBlockBins : M unit := modify (fun st => set_bins (replicate (length (free_block_bins_ st)) None) st).

Fixpoint Initialize_bins (idxs : list nat) : M Status :=
  match idxs with
  | [] => mret SUCCESS
  | i :: idxs =>
      bin ← get_bin i;
      match bin with
      | Some _ => Initialize_bins idxs
      | None =>
          fun st =>
            let '(ok, r) := new_nothrow (rt st) in
            if ok then Initialize_bins idxs (set_rt r (set_bins (<[i := Some []]> (free_block_bins_ st)) st))
            else Some (ACL_ERROR_GE_MEMORY_ALLOCATION, set_rt r st)
      end
  end.

(** MemManager::Instance never returns the null pointer. *)
Definition Initialize : M Status :=
  _ ← FreeBlocks;
  s ← Initialize_bins (seq 0 kNumBins);
  if negb (bool_decide (s = SUCCESS)) then mret s else
  _ ← modify (fun st => mkCA (blocks st) (next_id st) (free_block_bins_ st) (allocated_blocks_ st) true (ca_type st) (rt st));
  mret SUCCESS.

Definition Finalize : M unit :=
  _ ← FreeBlocks;
  FreeBlockBins.

(** The constructor. *)
Definition CachingAllocator_new (memory_type : Z) (r : RT) : CachingAllocator :=
  mkCA ∅ 0 (replicate kNumBins None) ∅ false memory_type r.
End Model.
