(* ===== verification/CachingInvariant.v ===== *)
(** The invariant of the caching allocator and its preservation by every method of
    graph_caching_allocator.cc. *)
From S2P Require Import Prelude MemAllocator BlockHeap CachingAllocator.

(** The capacity of a bin: the size of the extents it holds. *)
Definition bin_range (idx : nat) : Z := nth idx bin_ranges 0.

Section Invariant.
Context `{R : Runtime} {RO : RuntimeOk R}.

(** [ext] are the extents taken from the device; [fl] is a free block that is
    momentarily in no bin. *)
Record core (ext : gmap Z Z) (fl : option nat) (st : CachingAllocator) : Prop := {
  c_heap : heap_ok (blocks st) ext;
  c_live : ext ⊆ rt_live (rt st);
  c_ids i b : blocks st !! i = Some b -> (i < next_id st)%nat;
  c_bin i b base len : blocks st !! i = Some b -> ext !! base = Some len -> base <= b_ptr b < base + len ->
    exists idx l, b_bin b = Some idx /\ free_block_bins_ st !! idx = Some (Some l) /\ len = bin_range idx;
  c_elem idx l i : free_block_bins_ st !! idx = Some (Some l) ->
    i ∈ l <-> exists b, blocks st !! i = Some b /\ b_bin b = Some idx /\ b_allocated b = false /\ Some i <> fl;
  c_sorted idx l : free_block_bins_ st !! idx = Some (Some l) -> bin_sorted (blocks st) l;
  c_coal i b j b' : blocks st !! i = Some b -> b_next b = Some j -> blocks st !! j = Some b' ->
    b_allocated b = true \/ b_allocated b' = true \/ Some i = fl \/ Some j = fl;
}.

(** What the block operations leave alone. *)
Record same_rest (st st' : CachingAllocator) : Prop := {
  sr_alloc : allocated_blocks_ st' = allocated_blocks_ st;
  sr_has : has_allocator st' = has_allocator st;
  sr_type : ca_type st' = ca_type st;
  sr_bins idx : is_Some (free_block_bins_ st' !! idx ≫= id) <-> is_Some (free_block_bins_ st !! idx ≫= id);
  sr_len : length (free_block_bins_ st') = length (free_block_bins_ st);
}.

Lemma same_rest_refl st : same_rest st st.
Proof. by split. Qed.

Lemma same_rest_trans st1 st2 st3 : same_rest st1 st2 -> same_rest st2 st3 -> same_rest st1 st3.
Proof. intros [] []. split; try congruence. intros idx. by rewrite sr_bins1. Qed.

Lemma bind_eq {A B} (m : M A) (f : A -> M B) st a st1 : m st = Some (a, st1) -> (m ≫= f) st = f a st1.
Proof. intros Hm. unfold mbind, M_bind. by rewrite Hm. Qed.

(** Every block has a bin. *)
Lemma core_bin ext fl st i b :
  core ext fl st -> blocks st !! i = Some b ->
  exists idx l, b_bin b = Some idx /\ free_block_bins_ st !! idx = Some (Some l) /\ b_size b <= bin_range idx.
Proof.
  intros HC Hi. destruct (ho_ext _ _ (c_heap _ _ _ HC) _ _ Hi) as (base & len & He & Hlo & Hhi & _).
  pose proof (ho_range _ _ (c_heap _ _ _ HC) _ _ Hi). unfold b_end in *.
  destruct (c_bin _ _ _ HC i b base len) as (idx & l & ? & ? & ?); [done|done|lia|]. exists idx, l. split_and!; [done|done|lia].
Qed.

Lemma bins_insert (bins : list (option (list nat))) idx l l0 idx' l' :
  bins !! idx = Some (Some l0) -> <[idx := Some l]> bins !! idx' = Some (Some l') ->
  (idx' = idx /\ l' = l) \/ (idx' <> idx /\ bins !! idx' = Some (Some l')).
Proof.
  intros H0. pose proof (lookup_lt_Some _ _ _ H0). destruct (decide (idx' = idx)) as [->|].
  - rewrite list_lookup_insert_eq by done. intros [= ->]. by left.
  - rewrite list_lookup_insert_ne by done. auto.
Qed.

Lemma same_rest_bins st h idx l l0 :
  free_block_bins_ st !! idx = Some (Some l0) ->
  same_rest st (set_blocks h (set_bins (<[idx := Some l]> (free_block_bins_ st)) st)).
Proof.
  intros H0. pose proof (lookup_lt_Some _ _ _ H0). split; try done; cbn; [|by rewrite length_insert].
  intros idx'. destruct (decide (idx' = idx)) as [->|]; [|by rewrite list_lookup_insert_ne].
  rewrite list_lookup_insert_eq, H0 by done. cbn. unfold id. naive_solver.
Qed.

(** ** Merging *)
Section Merge.
Context (ext : gmap Z Z) (st : CachingAllocator) (d s : nat) (bd bs bd' : Block) (h1 : heap) (idx : nat) (l : list nat).
Hypothesis HC : core ext (Some d) st.
Hypothesis Hd : blocks st !! d = Some bd.
Hypothesis Hs : blocks st !! s = Some bs.
Hypothesis Had : b_allocated bd = false.
Hypothesis Has : b_allocated bs = false.
Hypothesis Hbs : b_bin bs = Some idx.
Hypothesis Hbd : b_bin bd = Some idx.
Hypothesis Hsd : s <> d.
Hypothesis Hl : free_block_bins_ st !! idx = Some (Some l).
Hypothesis HO : heap_ok (delete s h1) ext.
Hypothesis Hdata : forall i, i <> d -> bdata <$> h1 !! i = bdata <$> blocks st !! i.
Hypothesis Hd' : h1 !! d = Some bd'.
Hypothesis Had' : b_allocated bd' = false.
Hypothesis Hbd' : b_bin bd' = Some idx.
Hypothesis Hptr : b_ptr bd' = b_ptr bd \/ b_ptr bd' = b_ptr bs.
Hypothesis Hadj : forall i b' j, delete s h1 !! i = Some b' -> b_next b' = Some j -> i = d \/ j = d \/
  exists b, blocks st !! i = Some b /\ b_next b = Some j.

Local Abbreviation st' := (set_blocks (delete s h1) (set_bins (<[idx := Some (set_erase h1 s l)]> (free_block_bins_ st)) st)).

Lemma merge_back i b' :
  delete s h1 !! i = Some b' -> i <> d -> i <> s /\ exists b, blocks st !! i = Some b /\ bdata b = bdata b'.
Proof. intros [Hsi Hi]%lookup_delete_Some Hid. split; [done|]. apply (bdata_Some h1); [by rewrite Hdata|done]. Qed.

Lemma merge_fw i b :
  blocks st !! i = Some b -> i <> d -> i <> s -> exists b', delete s h1 !! i = Some b' /\ bdata b' = bdata b.
Proof. intros Hi Hid His. rewrite lookup_delete_ne by done. apply (bdata_Some (blocks st)); [by rewrite Hdata|done]. Qed.

Lemma merge_key i : i <> d -> block_key h1 i = block_key (blocks st) i.
Proof. intros. apply bdata_key. by rewrite Hdata. Qed.

Lemma merge_not_in idx' l' : free_block_bins_ st !! idx' = Some (Some l') -> d ∉ l'.
Proof. intros Hl' Hin. apply (c_elem _ _ _ HC idx' l' d Hl') in Hin as (? & _ & _ & _ & ?). done. Qed.

Lemma merge_c_bin i b' base len :
  delete s h1 !! i = Some b' -> ext !! base = Some len -> base <= b_ptr b' < base + len ->
  exists idx' l', b_bin b' = Some idx' /\ free_block_bins_ st' !! idx' = Some (Some l') /\ len = bin_range idx'.
Proof.
  intros Hi He Hr. cbn. pose proof (lookup_lt_Some _ _ _ Hl) as Hlt.
  assert (exists j b, blocks st !! j = Some b /\ b_ptr b = b_ptr b' /\ b_bin b = b_bin b') as (j & b & Hj & Hp & Hb).
  { destruct (decide (i = d)) as [->|Hid].
    - rewrite lookup_delete_ne in Hi by done. simplify_eq. destruct Hptr; [exists d, bd|exists s, bs]; split_and!; congruence.
    - destruct (merge_back i b' Hi Hid) as (_ & b & Hb & [= ? ? ? ?]). by exists i, b. }
  destruct (c_bin _ _ _ HC j b base len) as (idx' & l' & ? & Hl' & ?); [done|done|lia|].
  exists idx'. destruct (decide (idx' = idx)) as [->|].
  - exists (set_erase h1 s l). rewrite list_lookup_insert_eq by done. split_and!; [congruence|done|done].
  - exists l'. rewrite list_lookup_insert_ne by done. split_and!; [congruence|done|done].
Qed.

Lemma merge_c_elem idx' l' i :
  free_block_bins_ st' !! idx' = Some (Some l') ->
  i ∈ l' <-> exists b, delete s h1 !! i = Some b /\ b_bin b = Some idx' /\ b_allocated b = false /\ Some i <> Some d.
Proof.
  cbn. intros Hl'. destruct (bins_insert _ _ _ _ _ _ Hl Hl') as [[-> ->]|[Hne Hl0]].
  - rewrite elem_of_set_erase. split.
    + intros [Hin Hk]. apply (c_elem _ _ _ HC idx l i Hl) in Hin as (b & Hb & Hbin & Ha & Hid).
      assert (i <> d) by congruence. assert (i <> s) by (intros ->; done).
      destruct (merge_fw i b) as (b' & Hb' & [= ? ? ? ?]); [done..|]. exists b'. split_and!; congruence.
    + intros (b' & Hb' & Hbin & Ha & Hid). assert (i <> d) as Hid' by congruence.
      destruct (merge_back i b' Hb' Hid') as (His & b & Hb & [= ? ? ? ?]). split.
      * apply (c_elem _ _ _ HC idx l i Hl). exists b. split_and!; congruence.
      * rewrite !merge_key by done. unfold block_key. rewrite Hb, Hs. intros [= _ Hpe]. apply His.
        by eapply (heap_ok_ptr_inj _ _ (c_heap _ _ _ HC)).
  - rewrite (c_elem _ _ _ HC idx' l' i Hl0). split.
    + intros (b & Hb & Hbin & Ha & Hid). assert (i <> d) by congruence. assert (i <> s) by congruence.
      destruct (merge_fw i b) as (b' & Hb' & [= ? ? ? ?]); [done..|]. exists b'. split_and!; congruence.
    + intros (b' & Hb' & Hbin & Ha & Hid). assert (i <> d) as Hid' by congruence.
      destruct (merge_back i b' Hb' Hid') as (His & b & Hb & [= ? ? ? ?]). exists b. split_and!; congruence.
Qed.

Lemma merge_c_sorted idx' l' : free_block_bins_ st' !! idx' = Some (Some l') -> bin_sorted (delete s h1) l'.
Proof.
  cbn. intros Hl'. assert (Hsub : forall m k, free_block_bins_ st !! m = Some (Some k) -> bin_sorted h1 k).
  { intros m k Hm. eapply bin_sorted_frame; [|by eapply (c_sorted _ _ _ HC)].
    intros x Hx. apply merge_key. intros ->. by eapply merge_not_in. }
  assert (Hns : s ∉ l').
  { intros Hin. apply (merge_c_elem idx' l' s) in Hin as (b & Hb & _); [|done]. by rewrite lookup_delete_eq in Hb. }
  eapply bin_sorted_frame; [|destruct (bins_insert _ _ _ _ _ _ Hl Hl') as [[-> ->]|[_ Hl0]]; [apply set_erase_sorted|]; by eapply Hsub].
  intros x Hx. unfold block_key. rewrite lookup_delete_ne by (by intros ->). done.
Qed.

Lemma merge_c_coal i b j b' :
  delete s h1 !! i = Some b -> b_next b = Some j -> delete s h1 !! j = Some b' ->
  b_allocated b = true \/ b_allocated b' = true \/ Some i = Some d \/ Some j = Some d.
Proof.
  intros Hi Hn Hj. destruct (Hadj _ _ _ Hi Hn) as [->|[->|(b0 & Hb0 & Hn0)]]; [auto..|].
  destruct (decide (i = d)) as [->|Hid]; [auto|]. destruct (decide (j = d)) as [->|Hjd]; [auto|].
  destruct (merge_back i b Hi Hid) as (_ & b1 & ? & [= _ _ ? _]).
  destruct (merge_back j b' Hj Hjd) as (_ & b2 & ? & [= _ _ ? _]). simplify_eq.
  destruct (c_coal _ _ _ HC i b0 j b2) as [?|[?|[?|?]]]; [done..| | | |]; [left; congruence|right; left; congruence|auto|auto].
Qed.

Lemma merge_core : core ext (Some d) st'.
Proof.
  split; [done|apply HC| |apply merge_c_bin|apply merge_c_elem|apply merge_c_sorted|apply merge_c_coal].
  intros i b Hi. destruct (decide (i = d)) as [->|Hid]; [exact (c_ids _ _ _ HC _ _ Hd)|].
  destruct (merge_back i b Hi Hid) as (_ & b0 & Hb0 & _). exact (c_ids _ _ _ HC _ _ Hb0).
Qed.

Lemma merge_allocs j : allocs (delete s h1) j = allocs (blocks st) j.
Proof.
  destruct (decide (j = s)) as [->|Hjs]; [unfold allocs; by rewrite lookup_delete_eq, Hs, Has|].
  destruct (decide (j = d)) as [->|Hjd].
  - unfold allocs. by rewrite lookup_delete_ne, Hd', Hd, Had, Had' by done.
  - apply allocs_bdata. rewrite lookup_delete_ne by done. by apply Hdata.
Qed.
End Merge.

(** What one call of MergeBlocks guarantees for the floating block [d]. *)
Record merged (ext : gmap Z Z) (st : CachingAllocator) (d idx : nat) (st' : CachingAllocator) (bd' : Block) : Prop := {
  m_core : core ext (Some d) st';
  m_d : blocks st' !! d = Some bd';
  m_free : b_allocated bd' = false;
  m_bin : b_bin bd' = Some idx;
  m_rest : same_rest st st';
  m_rt : rt st' = rt st;
  m_allocs j : allocs (blocks st') j = allocs (blocks st) j;
}.

Lemma merged_refl ext st d idx bd :
  core ext (Some d) st -> blocks st !! d = Some bd -> b_allocated bd = false -> b_bin bd = Some idx ->
  merged ext st d idx st bd.
Proof. intros. split; auto using same_rest_refl. Qed.

(** MergeBlocks on a neighbour that is in use does nothing. *)
Lemma MergeBlocks_skip st d bd src idx :
  blocks st !! d = Some bd -> nb_alloc (blocks st) src -> MergeBlocks d src idx st = Some (tt, st).
Proof.
  intros Hd Hnb. unfold MergeBlocks, CanMerge, deref, mbind, M_bind. cbn. rewrite Hd.
  destruct src as [s|]; [|by destruct (_ && _)]. destruct Hnb as (bs & Hs & Ha).
  destruct (_ && _); cbn; [|done]. rewrite Hs. cbn. by rewrite Ha.
Qed.

(** MergeBlocks on a free neighbour relinks, unbins and deletes it. *)
Lemma MergeBlocks_run st d s bd bs idx l h1 :
  blocks st !! d = Some bd -> blocks st !! s = Some bs -> b_allocated bd = false -> b_allocated bs = false ->
  IsSplit bd = true -> IsSplit bs = true -> free_block_bins_ st !! idx = Some (Some l) ->
  merge_links (blocks st) d s = Some h1 ->
  MergeBlocks d (Some s) idx st
  = Some (tt, set_blocks (delete s h1) (set_bins (<[idx := Some (set_erase h1 s l)]> (free_block_bins_ st)) st)).
Proof.
  intros Hd Hs Had Has Hsd Hss Hl Hm. unfold MergeBlocks, CanMerge, deref, update_heap, update_bin, delete_block, modify, mbind, M_bind.
  cbn. rewrite Hd. cbn. rewrite Had, Hsd. cbn. rewrite Hs. cbn. rewrite Has, Hss. cbn. rewrite Hm. cbn. by rewrite Hl.
Qed.

Lemma IsSplit_prev b j : b_prev b = Some j -> IsSplit b = true.
Proof. unfold IsSplit. intros ->. done. Qed.
Lemma IsSplit_next b j : b_next b = Some j -> IsSplit b = true.
Proof. unfold IsSplit. intros ->. cbn. apply orb_true_r. Qed.

Lemma MergeBlocks_prev ext st d bd idx :
  core ext (Some d) st -> blocks st !! d = Some bd -> b_allocated bd = false -> b_bin bd = Some idx ->
  exists st' bd', MergeBlocks d (b_prev bd) idx st = Some (tt, st') /\ merged ext st d idx st' bd' /\
    b_next bd' = b_next bd /\ nb_alloc (blocks st') (b_prev bd').
Proof.
  intros HC Hd Had Hbd. pose proof (c_heap _ _ _ HC) as HO. destruct (b_prev bd) as [s|] eqn:Hp.
  2: { exists st, bd. rewrite (MergeBlocks_skip _ _ bd) by done. split_and!; [done|by apply merged_refl|done|by rewrite Hp]. }
  destruct (heap_ok_prev _ _ HO _ _ _ Hd Hp) as (bs & Hs & Hsn & Hptr & Hbin & Hsd).
  destruct (b_allocated bs) eqn:Has.
  { assert (nb_alloc (blocks st) (Some s)) by (by exists bs). exists st, bd. rewrite (MergeBlocks_skip _ _ bd) by done.
    split_and!; [done|by apply merged_refl|done|by rewrite Hp]. }
  destruct (core_bin _ _ _ _ _ HC Hd) as (idx' & l & Hbd2 & Hl & _). assert (idx' = idx) as -> by congruence.
  pose proof (merge_links_prev _ _ HO d s bd bs Hd Hp Hs) as Hm.
  pose proof (heap_merge_prev_data (blocks st) d bd bs) as Hdata.
  assert (Hd' : heap_merge_prev (blocks st) d bd bs !! d = Some (merged_prev bd bs)) by apply lookup_insert_eq.
  eexists _, (merged_prev bd bs). rewrite (MergeBlocks_run st d s bd bs idx l _ Hd Hs Had Has (IsSplit_prev _ _ Hp)
    (IsSplit_next _ _ Hsn) Hl Hm). split; [done|]. split; [split|].
  - eapply merge_core with (bd := bd) (bs := bs) (bd' := merged_prev bd bs); try done; try congruence; [by eapply heap_merge_prev_ok|by right|].
    intros i b' j Hi Hj. apply (heap_merge_prev_lookup (blocks st) d s bd bs) in Hi as [_ [[-> _]|(_ & b0 & Hb0 & _ & _ & Hn)]].
    + by left.
    + right. rewrite Hn in Hj. destruct (decide _); [left; congruence|right; by exists b0].
  - cbn. rewrite lookup_delete_ne by done. done.
  - done.
  - done.
  - by eapply same_rest_bins.
  - done.
  - intros j. cbn. by eapply merge_allocs with (bd := bd) (bs := bs) (bd' := merged_prev bd bs).
  - split; [done|]. cbn. destruct (b_prev bs) as [p|] eqn:Hpp; [|done].
    destruct (heap_ok_prev _ _ HO _ _ _ Hs Hpp) as (bp & Hbp & Hpn & Hpptr & _ & Hps).
    pose proof (ho_range _ _ HO _ _ Hd). pose proof (ho_range _ _ HO _ _ Hs).
    assert (p <> d) by (intros ->; simplify_eq; unfold b_end in *; lia).
    apply nb_alloc_delete; [congruence|]. eapply nb_alloc_merge; [exact Hdata|congruence|]. exists bp. split; [done|].
    destruct (c_coal _ _ _ HC p bp s bs) as [?|[?|[?|?]]]; congruence.
Qed.

Lemma MergeBlocks_next ext st d bd idx :
  core ext (Some d) st -> blocks st !! d = Some bd -> b_allocated bd = false -> b_bin bd = Some idx ->
  nb_alloc (blocks st) (b_prev bd) ->
  exists st' bd', MergeBlocks d (b_next bd) idx st = Some (tt, st') /\ merged ext st d idx st' bd' /\
    nb_alloc (blocks st') (b_prev bd') /\ nb_alloc (blocks st') (b_next bd').
Proof.
  intros HC Hd Had Hbd Hnb. pose proof (c_heap _ _ _ HC) as HO. destruct (b_next bd) as [s|] eqn:Hn.
  2: { exists st, bd. rewrite (MergeBlocks_skip _ _ bd) by done. split_and!; [done|by apply merged_refl|done|by rewrite Hn]. }
  destruct (heap_ok_next _ _ HO _ _ _ Hd Hn) as (bs & Hs & Hsp & Hptr & Hbin & Hsd).
  destruct (b_allocated bs) eqn:Has.
  { assert (nb_alloc (blocks st) (Some s)) by (by exists bs). exists st, bd. rewrite (MergeBlocks_skip _ _ bd) by done.
    split_and!; [done|by apply merged_refl|done|by rewrite Hn]. }
  destruct (core_bin _ _ _ _ _ HC Hd) as (idx' & l & Hbd2 & Hl & _). assert (idx' = idx) as -> by congruence.
  pose proof (merge_links_next _ _ HO d s bd bs Hd Hn Hs) as Hm.
  pose proof (heap_merge_next_data (blocks st) d bd bs) as Hdata.
  pose proof (ho_range _ _ HO _ _ Hd). pose proof (ho_range _ _ HO _ _ Hs).
  assert (Hd' : heap_merge_next (blocks st) d bd bs !! d = Some (merged_next bd bs)) by apply lookup_insert_eq.
  eexists _, (merged_next bd bs). rewrite (MergeBlocks_run st d s bd bs idx l _ Hd Hs Had Has (IsSplit_next _ _ Hn)
    (IsSplit_prev _ _ Hsp) Hl Hm). split; [done|]. split; [split|].
  - eapply merge_core with (bd := bd) (bs := bs) (bd' := merged_next bd bs); try done; try congruence; [by eapply heap_merge_next_ok|by left|].
    intros i b' j Hi Hj. apply (heap_merge_next_lookup (blocks st) d s bd bs) in Hi as [_ [[-> _]|(_ & b0 & Hb0 & _ & Hn0 & _)]].
    + by left.
    + right; right. rewrite Hn0 in Hj. by exists b0.
  - cbn. rewrite lookup_delete_ne by done. done.
  - done.
  - done.
  - by eapply same_rest_bins.
  - done.
  - intros j. cbn. by eapply merge_allocs with (bd := bd) (bs := bs) (bd' := merged_next bd bs).
  - cbn. split.
    + destruct (b_prev bd) as [p|] eqn:Hpp; [|done].
      destruct (heap_ok_prev _ _ HO _ _ _ Hd Hpp) as (bp & Hbp & _ & Hpptr & _ & Hpd).
      assert (p <> s) by (intros ->; simplify_eq; unfold b_end in *; lia).
      apply nb_alloc_delete; [congruence|]. eapply nb_alloc_merge; [exact Hdata|congruence|done].
    + destruct (b_next bs) as [q|] eqn:Hq; [|done].
      destruct (heap_ok_next _ _ HO _ _ _ Hs Hq) as (bq & Hbq & Hqp & Hqptr & _ & Hqs).
      assert (q <> d) by (intros ->; simplify_eq; unfold b_end in *; lia).
      apply nb_alloc_delete; [congruence|]. eapply nb_alloc_merge; [exact Hdata|congruence|]. exists bq. split; [done|].
      destruct (c_coal _ _ _ HC s bs q bq) as [?|[?|[?|?]]]; congruence.
Qed.

(** ** Between the bins and use *)
Section Flag.
Context (ext : gmap Z Z) (st : CachingAllocator) (i : nat) (b : Block) (x : bool).
Hypothesis Hi : blocks st !! i = Some b.
Local Abbreviation h' := (<[i := set_allocated x b]> (blocks st)).

Lemma flag_lookup j bj : h' !! j = Some bj ->
  exists b0, blocks st !! j = Some b0 /\ bcore bj = bcore b0 /\ b_allocated bj = if decide (j = i) then x else b_allocated b0.
Proof.
  destruct (decide (j = i)) as [->|].
  - rewrite lookup_insert_eq. intros [= <-]. by exists b.
  - rewrite lookup_insert_ne by done. intros Hj. by exists bj.
Qed.

Lemma flag_fw j b0 : blocks st !! j = Some b0 ->
  exists bj, h' !! j = Some bj /\ bcore bj = bcore b0 /\ b_allocated bj = if decide (j = i) then x else b_allocated b0.
Proof.
  intros Hj. destruct (decide (j = i)) as [->|]; [rewrite lookup_insert_eq|rewrite lookup_insert_ne by done].
  - eexists. split; [done|]. assert (b0 = b) as -> by congruence. done.
  - by exists b0.
Qed.

Lemma flag_key j : block_key h' j = block_key (blocks st) j.
Proof. unfold block_key. destruct (decide (j = i)) as [->|]; [by rewrite lookup_insert_eq, Hi|by rewrite lookup_insert_ne]. Qed.

Lemma flag_allocs j :
  allocs h' j = if decide (j = i) then (if x then Some (b_ptr b, b_size b) else None) else allocs (blocks st) j.
Proof.
  unfold allocs. destruct (decide (j = i)) as [->|]; [by rewrite lookup_insert_eq|by rewrite lookup_insert_ne].
Qed.

(** The bookkeeping survives a change of the flag that matches the change of [fl]. *)
Lemma core_flag fl fl' :
  core ext fl st ->
  (forall j, j <> i -> Some j <> fl <-> Some j <> fl') ->
  (b_allocated b = false /\ Some i <> fl <-> x = false /\ Some i <> fl') ->
  (forall j bj k bk, h' !! j = Some bj -> b_next bj = Some k -> h' !! k = Some bk ->
     b_allocated bj = true \/ b_allocated bk = true \/ Some j = fl' \/ Some k = fl') ->
  core ext fl' (set_blocks h' st).
Proof.
  intros HC Hfl Hflag Hcoal. split; cbn.
  - apply heap_ok_set_allocated; [apply HC|done].
  - apply HC.
  - intros j bj (b0 & H0 & _)%flag_lookup. by eapply (c_ids _ _ _ HC).
  - intros j bj base len (b0 & H0 & [= _ Hp Hb _ _] & _)%flag_lookup He Hr.
    destruct (c_bin _ _ _ HC j b0 base len) as (idx & l & ? & ? & ?); [done|done|lia|]. exists idx, l. split_and!; [congruence|done|done].
  - intros idx l j Hl. rewrite (c_elem _ _ _ HC idx l j Hl). split.
    + intros (b0 & H0 & Hb & Ha & Hj). destruct (flag_fw j b0 H0) as (bj & Hbj & [= _ _ Hbin _ _] & Ha').
      exists bj. split; [done|]. split; [congruence|]. destruct (decide (j = i)) as [->|]; [naive_solver|].
      rewrite Ha'. split; [done|by apply Hfl].
    + intros (bj & (b0 & H0 & [= _ _ Hbin _ _] & Ha')%flag_lookup & Hb & Ha & Hj). exists b0.
      split; [done|]. split; [congruence|]. destruct (decide (j = i)) as [->|]; [naive_solver|].
      split; [congruence|by apply Hfl].
  - intros idx l Hl. eapply bin_sorted_frame; [|by eapply (c_sorted _ _ _ HC)]. intros. apply flag_key.
  - done.
Qed.
End Flag.

(** A block taken out of use floats. *)
Lemma core_unalloc ext st i b :
  core ext None st -> blocks st !! i = Some b -> b_allocated b = true ->
  core ext (Some i) (set_blocks (<[i := set_allocated false b]> (blocks st)) st).
Proof.
  intros HC Hi Ha. eapply core_flag; [done|exact HC|naive_solver congruence|naive_solver congruence|].
  intros j bj k bk (b0 & H0 & [= _ _ _ _ Hn] & Haj)%(flag_lookup st i b false Hi) Hk (b1 & H1 & _ & Hak)%(flag_lookup st i b false Hi).
  destruct (decide (j = i)) as [->|]; [auto|]. destruct (decide (k = i)) as [->|]; [auto|].
  destruct (c_coal _ _ _ HC j b0 k b1) as [?|[?|[?|?]]]; [done|congruence|done|..]; try done; [left|right; left]; congruence.
Qed.

(** A floating block put into use. *)
Lemma core_alloc ext st i b :
  core ext (Some i) st -> blocks st !! i = Some b -> b_allocated b = false ->
  core ext None (set_blocks (<[i := set_allocated true b]> (blocks st)) st).
Proof.
  intros HC Hi Ha. eapply core_flag; [done|exact HC|naive_solver congruence|naive_solver congruence|].
  intros j bj k bk (b0 & H0 & [= _ _ _ _ Hn] & Haj)%(flag_lookup st i b true Hi) Hk (b1 & H1 & _ & Hak)%(flag_lookup st i b true Hi).
  destruct (decide (j = i)) as [->|]; [auto|]. destruct (decide (k = i)) as [->|]; [auto|].
  destruct (c_coal _ _ _ HC j b0 k b1) as [?|[?|[?|?]]]; [done|congruence|done|..]; [left; congruence|right; left; congruence|congruence..].
Qed.

(** A change of one bin alone. *)
Lemma core_set_bin ext fl fl' st idx l l' :
  core ext fl st -> free_block_bins_ st !! idx = Some (Some l) -> bin_sorted (blocks st) l' ->
  (forall i, i ∈ l' <-> exists b, blocks st !! i = Some b /\ b_bin b = Some idx /\ b_allocated b = false /\ Some i <> fl') ->
  (forall i b, blocks st !! i = Some b -> b_bin b <> Some idx -> Some i <> fl <-> Some i <> fl') ->
  (forall i b j b', blocks st !! i = Some b -> b_next b = Some j -> blocks st !! j = Some b' ->
    b_allocated b = true \/ b_allocated b' = true \/ Some i = fl' \/ Some j = fl') ->
  core ext fl' (set_bins (<[idx := Some l']> (free_block_bins_ st)) st).
Proof.
  intros HC Hl Hs Helem Hother Hcoal. pose proof (lookup_lt_Some _ _ _ Hl) as Hlt. split; cbn; try apply HC.
  - intros i b base len Hi He Hr. destruct (c_bin _ _ _ HC i b base len) as (idx0 & l0 & ? & ? & ?); [done..|].
    exists idx0. destruct (decide (idx0 = idx)) as [->|].
    + exists l'. by rewrite list_lookup_insert_eq.
    + exists l0. by rewrite list_lookup_insert_ne.
  - intros idx0 l0 i H0. destruct (bins_insert _ _ _ _ _ _ Hl H0) as [[-> ->]|[Hne H1]]; [apply Helem|].
    rewrite (c_elem _ _ _ HC idx0 l0 i H1). split; intros (b & Hb & Hbin & ? & ?); exists b; split_and!; try done.
    + apply (Hother i b Hb); [congruence|done].
    + apply (Hother i b Hb); [congruence|done].
  - intros idx0 l0 H0. destruct (bins_insert _ _ _ _ _ _ Hl H0) as [[-> ->]|[Hne H1]]; [done|by eapply (c_sorted _ _ _ HC)].
  - done.
Qed.

(** A floating block with neighbours in use goes into its bin. *)
Lemma core_bin_insert ext st d bd idx l :
  core ext (Some d) st -> blocks st !! d = Some bd -> b_allocated bd = false -> b_bin bd = Some idx ->
  nb_alloc (blocks st) (b_prev bd) -> nb_alloc (blocks st) (b_next bd) ->
  free_block_bins_ st !! idx = Some (Some l) ->
  core ext None (set_bins (<[idx := Some (set_insert (blocks st) d l)]> (free_block_bins_ st)) st).
Proof.
  intros HC Hd Ha Hb Hp Hn Hl. pose proof (c_heap _ _ _ HC) as HO. eapply core_set_bin; [done|done|..].
  - apply set_insert_sorted. by eapply (c_sorted _ _ _ HC).
  - intros i. rewrite elem_of_set_insert.
    + rewrite (c_elem _ _ _ HC idx l i Hl). split.
      * intros [->|(b & ? & ? & ? & ?)]; [by exists bd|by exists b].
      * intros (b & ? & ? & ? & _). destruct (decide (i = d)) as [->|]; [by left|]. right. exists b. split_and!; congruence.
    + intros j Hj. apply (c_elem _ _ _ HC idx l j Hl) in Hj as (bj & Hbj & _ & _ & Hjd).
      unfold block_key. rewrite Hbj, Hd. intros [= _ Hptr]. apply Hjd. f_equal. by eapply (heap_ok_ptr_inj _ _ HO).
  - intros i b Hi Hne. assert (i <> d) by (intros ->; congruence). naive_solver congruence.
  - intros i b j b' Hi Hj Hbj. destruct (c_coal _ _ _ HC i b j b') as [?|[?|[?|?]]]; [done..|auto|auto| |]; simplify_eq.
    + rewrite Hj in Hn. destruct Hn as (b0 & ? & ?). simplify_eq. auto.
    + destruct (ho_next _ _ HO _ _ _ Hi Hj) as (b0 & ? & Hpr & _). simplify_eq. rewrite Hpr in Hp.
      destruct Hp as (b1 & ? & ?). simplify_eq. auto.
Qed.

(** A block taken from its bin floats. *)
Lemma core_bin_remove ext st idx l i :
  core ext None st -> free_block_bins_ st !! idx = Some (Some l) ->
  core ext (Some i) (set_bins (<[idx := Some (List.remove Nat.eq_dec i l)]> (free_block_bins_ st)) st) \/ i ∉ l.
Proof.
  intros HC Hl. destruct (decide (i ∈ l)) as [Hin|]; [left|by right].
  apply (c_elem _ _ _ HC idx l i Hl) in Hin as (bi & Hbi & Hbin & Hai & _).
  eapply core_set_bin; [done|done|..].
  - assert (Hs := c_sorted _ _ _ HC idx l Hl). clear - Hs. induction Hs as [|j l Hs IH HF]; cbn; [constructor|].
    destruct (Nat.eq_dec i j); [done|]. constructor; [done|]. rewrite Forall_forall in *. intros x Hx. apply HF.
    apply list_elem_of_In in Hx. apply list_elem_of_In. by apply List.in_remove in Hx as [? _].
  - intros j. rewrite list_elem_of_In. split.
    + intros [Hj Hji]%List.in_remove. apply list_elem_of_In, (c_elem _ _ _ HC idx l j Hl) in Hj as (b & ? & ? & ? & _).
      exists b. split_and!; congruence.
    + intros (b & ? & ? & ? & Hji). apply List.in_in_remove; [congruence|]. apply list_elem_of_In, (c_elem _ _ _ HC idx l j Hl).
      exists b. done.
  - intros j b Hj Hne. assert (j <> i) by (intros ->; congruence). naive_solver congruence.
  - intros j b k b' Hj Hk Hb'. destruct (c_coal _ _ _ HC j b k b') as [?|[?|[?|?]]]; try done; auto.
Qed.

(** ** FreeBlock *)
Lemma FreeBlock_ok ext st i b :
  core ext None st -> blocks st !! i = Some b -> b_allocated b = true ->
  exists st', FreeBlock (Some i) st = Some (tt, st') /\ core ext None st' /\ same_rest st st' /\ rt st' = rt st /\
    forall j, allocs (blocks st') j = if decide (j = i) then None else allocs (blocks st) j.
Proof.
  intros HC Hi Ha. destruct (core_bin _ _ _ _ _ HC Hi) as (idx & l & Hb & _ & _).
  pose proof (core_unalloc _ _ _ _ HC Hi Ha) as HC1. set (st1 := set_blocks _ st) in HC1.
  assert (H1 : blocks st1 !! i = Some (set_allocated false b)) by apply lookup_insert_eq.
  destruct (MergeBlocks_prev ext st1 i _ idx HC1 H1) as (st2 & b2 & Hm2 & M2 & Hn2 & Hp2); [done..|]. destruct M2.
  destruct (MergeBlocks_next ext st2 i b2 idx) as (st3 & b3 & Hm3 & M3 & Hp3 & Hn3); [done..|]. destruct M3.
  destruct (core_bin _ _ _ _ _ m_core1 m_d1) as (idx' & l3 & Hb3 & Hl3 & _). assert (idx' = idx) as -> by congruence.
  pose proof (core_bin_insert _ _ _ _ _ _ m_core1 m_d1 m_free1 m_bin1 Hp3 Hn3 Hl3) as HC4.
  eexists. split_and!; [|exact HC4|..].
  - unfold FreeBlock. erewrite bind_eq by (unfold deref; by rewrite Hi). rewrite Ha, Hb. cbn [negb].
    erewrite bind_eq by (unfold update_heap, upd; by rewrite Hi). fold st1.
    erewrite bind_eq by (unfold deref; by rewrite H1). cbn zeta. erewrite bind_eq by exact Hm2.
    change (b_next (set_allocated false b)) with (b_next b) in *. rewrite Hn2 in Hm3. erewrite bind_eq by exact Hm3.
    unfold update_bin. by rewrite Hl3.
  - eapply same_rest_trans; [|eapply (same_rest_bins st3 (blocks st3)); exact Hl3].
    eapply same_rest_trans; [|done]. eapply same_rest_trans; [|done]. by split.
  - cbn. by rewrite m_rt1, m_rt0.
  - intros j. cbn. rewrite m_allocs1, m_allocs0. unfold st1. cbn. rewrite (flag_allocs st i b false).
    by destruct (decide (j = i)).
Qed.

(** ** Splitting *)
Lemma core_set_rt ext fl st r : core ext fl st -> ext ⊆ rt_live r -> core ext fl (set_rt r st).
Proof. intros HC Hr. by split; cbn; try apply HC. Qed.

(** Two extents with a common byte are the same. *)
Lemma ext_unique h ext base len base' len' x :
  heap_ok h ext -> ext !! base = Some len -> ext !! base' = Some len' ->
  base <= x < base + len -> base' <= x < base' + len' -> base = base' /\ len = len'.
Proof.
  intros HO He He' Hx Hx'. destruct (decide (base = base')) as [->|Hne]; [split; congruence|].
  pose proof (ho_ext_disj _ _ HO _ _ _ _ He He' Hne). lia.
Qed.

Section Split.
Context (ext : gmap Z Z) (st : CachingAllocator) (i : nat) (b : Block) (dev sz : Z) (idx : nat) (l : list nat) (r : RT).
Hypothesis HC : core ext (Some i) st.
Hypothesis Hi : blocks st !! i = Some b.
Hypothesis Ha : b_allocated b = false.
Hypothesis Hb : b_bin b = Some idx.
Hypothesis Hsz : 0 < sz < b_size b.
Hypothesis Hnext : nb_alloc (blocks st) (b_next b).
Hypothesis Hl : free_block_bins_ st !! idx = Some (Some l).
Hypothesis Hr : ext ⊆ rt_live r.
Local Abbreviation nid := (next_id st).
Local Abbreviation h1 := (heap_split_front (blocks st) i nid b dev sz).
Local Abbreviation st' := (mkCA h1 (S nid) (<[idx := Some (set_insert h1 i l)]> (free_block_bins_ st))
  (allocated_blocks_ st) (has_allocator st) (ca_type st) r).

Lemma split_fresh : blocks st !! nid = None.
Proof. destruct (blocks st !! nid) as [x|] eqn:Hn; [|done]. pose proof (c_ids _ _ _ HC _ _ Hn). lia. Qed.

Lemma split_old j bj : blocks st !! j = Some bj -> j <> i -> exists b', h1 !! j = Some b' /\ bdata b' = bdata bj.
Proof.
  intros Hj Hji. destruct (split_front_old (blocks st) i nid b dev sz split_fresh j bj Hj Hji) as (b' & ? & ? & _).
  by exists b'.
Qed.

(** The pointer updates of SplitBlock build the split heap. *)
Lemma split_updates :
  (h ← upd nid (set_prev (b_prev b)) (<[nid := new_Block dev sz (Some idx) (b_ptr b)]> (blocks st));
   h ← upd_opt (b_prev b) (set_next (Some nid)) h;
   h ← upd nid (set_next (Some i)) h;
   h ← upd i (set_prev (Some nid)) h;
   h ← upd i (fun b => set_ptr (b_ptr b + sz) b) h;
   upd i (fun b => set_size (wrapU64 (b_size b - sz)) b) h) = Some h1.
Proof.
  pose proof split_fresh as Hn. pose proof (c_heap _ _ _ HC) as HO. pose proof (ho_range _ _ HO _ _ Hi).
  assert (nid <> i) by (intros Heq; rewrite Heq in Hn; congruence). unfold b_end in *.
  assert (wrapU64 (b_size b - sz) = b_size b - sz) as Hw by (apply wrapU64_id; lia).
  unfold heap_split_front, upd_opt, upd. rewrite lookup_insert_eq. cbn [mbind option_bind].
  destruct (b_prev b) as [p|] eqn:Hp.
  - destruct (heap_ok_prev _ _ HO _ _ _ Hi Hp) as (bp & Hbp & _ & _ & _ & Hpi).
    assert (p <> nid) by (intros ->; congruence).
    rewrite !lookup_insert_ne, Hbp by done. cbn [mbind option_bind].
    rewrite lookup_insert_ne, lookup_insert_eq by done. cbn [mbind option_bind].
    rewrite !lookup_insert_ne, Hi by done. cbn [mbind option_bind]. rewrite lookup_insert_eq. cbn [mbind option_bind].
    rewrite lookup_insert_eq. blk. rewrite Hw. f_equal. apply map_eq. intros j.
    destruct (decide (j = i)) as [->|]; [simplify_map_eq; by unfold front_rest|].
    destruct (decide (j = nid)) as [->|]; [simplify_map_eq; unfold front_block; by rewrite Hp, Hb|].
    destruct (decide (j = p)) as [->|]; by simplify_map_eq.
  - cbn [mbind option_bind]. rewrite lookup_insert_eq. cbn [mbind option_bind].
    rewrite !lookup_insert_ne, Hi by done. cbn [mbind option_bind]. rewrite lookup_insert_eq. cbn [mbind option_bind].
    rewrite lookup_insert_eq. blk. rewrite Hw. f_equal. apply map_eq. intros j.
    destruct (decide (j = i)) as [->|]; [simplify_map_eq; by unfold front_rest|].
    destruct (decide (j = nid)) as [->|]; [simplify_map_eq; unfold front_block; by rewrite Hp, Hb|].
    by simplify_map_eq.
Qed.

Lemma split_h1_n : h1 !! nid = Some (front_block i b dev sz).
Proof. apply split_front_n. Qed.
Lemma split_h1_i : h1 !! i = Some (front_rest nid b sz).
Proof. apply split_front_i; [exact Hi|exact split_fresh]. Qed.

Lemma split_inv j b' :
  h1 !! j = Some b' ->
  (j = nid /\ b' = front_block i b dev sz) \/ (j = i /\ b' = front_rest nid b sz) \/
  (j <> i /\ j <> nid /\ exists bj, blocks st !! j = Some bj /\ bdata b' = bdata bj /\
    b_next b' = if decide (b_prev b = Some j) then Some nid else b_next bj).
Proof.
  intros [?|[?|(? & ? & bj & ? & ? & _ & ?)]]%(split_front_lookup (blocks st) i nid b dev sz Hi split_fresh Hsz); [by left|by right; left|].
  right; right. split_and!; [done..|]. by exists bj.
Qed.

Lemma split_c_bin j b' base len :
  h1 !! j = Some b' -> ext !! base = Some len -> base <= b_ptr b' < base + len ->
  exists idx' l', b_bin b' = Some idx' /\ free_block_bins_ st' !! idx' = Some (Some l') /\ len = bin_range idx'.
Proof.
  intros Hj He Hrng. cbn. pose proof (lookup_lt_Some _ _ _ Hl) as Hlt. pose proof (c_heap _ _ _ HC) as HO.
  assert (exists k bk, blocks st !! k = Some bk /\ base <= b_ptr bk < base + len /\ b_bin bk = b_bin b') as (k & bk & Hk & Hp & Hbin).
  { destruct (ho_ext _ _ HO _ _ Hi) as (base0 & len0 & He0 & Hlo & Hhi & _). pose proof (ho_range _ _ HO _ _ Hi). unfold b_end in *.
    destruct (split_inv j b' Hj) as [[-> ->]|[[-> ->]|(_ & _ & bj & Hbj & [= _ ? _ ?] & _)]].
    - by exists i, b.
    - unfold front_rest in *. blk. destruct (ext_unique _ _ _ _ _ _ (b_ptr b + sz) HO He He0) as [-> ->]; [lia..|].
      exists i, b. split_and!; [done|lia|lia|done].
    - exists j, bj. split_and!; [done|lia|lia|congruence]. }
  destruct (c_bin _ _ _ HC k bk base len) as (idx' & l' & ? & Hl' & ?); [done..|].
  exists idx'. destruct (decide (idx' = idx)) as [->|].
  - exists (set_insert h1 i l). rewrite list_lookup_insert_eq by done. split_and!; [congruence|done|done].
  - exists l'. rewrite list_lookup_insert_ne by done. split_and!; [congruence|done|done].
Qed.

Lemma split_key j : j <> i -> j <> nid -> block_key h1 j = block_key (blocks st) j.
Proof.
  intros Hji Hjn. unfold block_key. destruct (blocks st !! j) as [bj|] eqn:Hj.
  - destruct (split_old j bj Hj Hji) as (b' & -> & [= ? ? ? ?]). congruence.
  - destruct (h1 !! j) as [b'|] eqn:Hj'; [|done].
    destruct (split_inv j b' Hj') as [[-> _]|[[-> _]|(_ & _ & bj & ? & _)]]; congruence.
Qed.

Lemma split_bin_ids idx' l' j : free_block_bins_ st !! idx' = Some (Some l') -> j ∈ l' -> j <> i /\ j <> nid.
Proof.
  intros Hl' (bj & Hj & _ & _ & Hne)%(c_elem _ _ _ HC idx' l' j Hl'). split; [congruence|].
  intros ->. pose proof split_fresh. congruence.
Qed.

Lemma split_c_elem idx' l' j :
  free_block_bins_ st' !! idx' = Some (Some l') ->
  j ∈ l' <-> exists b, h1 !! j = Some b /\ b_bin b = Some idx' /\ b_allocated b = false /\ Some j <> Some nid.
Proof.
  cbn. intros Hl'. pose proof (c_heap _ _ _ HC) as HO.
  assert (nid <> i) by (intros Heq; pose proof split_fresh as Hf; rewrite Heq in Hf; congruence).
  assert (Hold : forall m k, free_block_bins_ st !! m = Some (Some k) -> j <> i ->
    j ∈ k <-> exists b, h1 !! j = Some b /\ b_bin b = Some m /\ b_allocated b = false /\ Some j <> Some nid).
  { intros m k Hm Hji. rewrite (c_elem _ _ _ HC m k j Hm). split.
    - intros (bj & Hj & ? & ? & _). destruct (split_old j bj Hj Hji) as (b' & ? & [= ? ? ? ?]). exists b'.
      split_and!; [done|congruence|congruence|]. intros [= ->]. pose proof split_fresh. congruence.
    - intros (b' & Hj & ? & ? & Hn). destruct (split_inv j b' Hj) as [[-> _]|[[-> _]|(_ & _ & bj & ? & [= ? ? ? ?] & _)]]; [done..|].
      exists bj. split_and!; congruence. }
  destruct (bins_insert _ _ _ _ _ _ Hl Hl') as [[-> ->]|[Hne Hl0]].
  - rewrite elem_of_set_insert.
    + destruct (decide (j = i)) as [->|Hji]; [|rewrite <- (Hold idx l Hl Hji); naive_solver].
      split; [|by left]. intros _. exists (front_rest nid b sz). rewrite split_h1_i. unfold front_rest. blk.
      split_and!; [done|done|done|congruence].
    + intros k Hk. destruct (split_bin_ids _ _ _ Hl Hk) as [Hki Hkn]. intros Heq.
      apply (c_elem _ _ _ HC idx l k Hl) in Hk as (bk & Hbk & _). destruct (split_old k bk Hbk Hki) as (b' & Hb' & _).
      unfold block_key in Heq. rewrite Hb', split_h1_i in Heq. injection Heq as _ Hpe. apply Hki.
      by eapply (heap_ok_ptr_inj _ _ (heap_split_front_ok _ _ HO i nid b dev sz Hi split_fresh Hsz) _ _ _ _ Hb' split_h1_i).
  - destruct (decide (j = i)) as [->|Hji]; [|by apply Hold]. split.
    + intros Hin. by destruct (split_bin_ids _ _ _ Hl0 Hin).
    + intros (b' & Hb' & Hbin & _). rewrite split_h1_i in Hb'. injection Hb' as <-. unfold front_rest in Hbin. blk. congruence.
Qed.

Lemma split_c_sorted idx' l' : free_block_bins_ st' !! idx' = Some (Some l') -> bin_sorted h1 l'.
Proof.
  cbn. intros Hl'. assert (Hsub : forall m k, free_block_bins_ st !! m = Some (Some k) -> bin_sorted h1 k).
  { intros m k Hm. eapply bin_sorted_frame; [|by eapply (c_sorted _ _ _ HC)].
    intros x Hx. destruct (split_bin_ids _ _ _ Hm Hx). by apply split_key. }
  destruct (bins_insert _ _ _ _ _ _ Hl Hl') as [[-> ->]|[_ Hl0]]; [apply set_insert_sorted|]; by eapply Hsub.
Qed.

Lemma split_c_coal j bj k bk :
  h1 !! j = Some bj -> b_next bj = Some k -> h1 !! k = Some bk ->
  b_allocated bj = true \/ b_allocated bk = true \/ Some j = Some nid \/ Some k = Some nid.
Proof.
  pose proof (c_heap _ _ _ HC) as HO. intros Hj Hk Hbk.
  destruct (split_inv j bj Hj) as [[-> _]|[[-> ->]|(Hji & _ & b0 & H0 & [= _ _ ? _] & Hn)]]; [auto| |].
  - unfold front_rest in Hk. blk. rewrite Hk in Hnext. destruct Hnext as (b1 & Hb1 & Ha1).
    assert (k <> i) by (intros ->; congruence).
    destruct (split_old k b1 Hb1) as (b' & ? & [= _ _ ? _]); [done|]. right; left. congruence.
  - rewrite Hn in Hk. destruct (decide (b_prev b = Some j)) as [Hp|Hp]; [right; right; right; congruence|].
    assert (k <> i).
    { intros ->. destruct (ho_next _ _ HO _ _ _ H0 Hk) as (b1 & ? & ? & _). congruence. }
    destruct (ho_next _ _ HO _ _ _ H0 Hk) as (b1 & Hb1 & _). destruct (split_old k b1 Hb1) as (b' & ? & [= _ _ ? _]); [done|].
    destruct (c_coal _ _ _ HC j b0 k b1) as [?|[?|[?|?]]]; [done..|left; congruence|right; left; congruence|congruence|congruence].
Qed.

Lemma split_core : core ext (Some nid) st'.
Proof.
  split; [|exact Hr| |apply split_c_bin|apply split_c_elem|apply split_c_sorted|apply split_c_coal].
  - apply heap_split_front_ok; [apply HC|done|apply split_fresh|done].
  - cbn. intros j bj Hj. destruct (split_inv j bj Hj) as [[-> _]|[[-> _]|(_ & _ & b0 & H0 & _)]]; [lia|..].
    + pose proof (c_ids _ _ _ HC _ _ Hi). lia.
    + pose proof (c_ids _ _ _ HC _ _ H0). lia.
Qed.

Lemma split_allocs j : allocs h1 j = allocs (blocks st) j.
Proof.
  unfold allocs. destruct (decide (j = i)) as [->|Hji]; [rewrite split_h1_i, Hi; unfold front_rest; blk; by rewrite Ha|].
  destruct (decide (j = nid)) as [->|Hjn]; [rewrite split_h1_n, split_fresh; done|].
  destruct (blocks st !! j) as [bj|] eqn:Hj.
  - destruct (split_old j bj Hj Hji) as (b' & -> & [= Hs Hp Hall _]). by rewrite Hs, Hp, Hall.
  - destruct (h1 !! j) as [b'|] eqn:Hj'; [|done].
    destruct (split_inv j b' Hj') as [[-> _]|[[-> _]|(_ & _ & bj & ? & _)]]; congruence.
Qed.
End Split.

Lemma update_heap_eq {A} f st h (k : unit -> M A) :
  f (blocks st) = Some h -> (update_heap f ≫= k) st = k tt (set_blocks h st).
Proof. intros Hf. apply bind_eq. unfold update_heap. by rewrite Hf. Qed.

(** What is left of a state when only block objects, bins and host-heap answers changed. *)
Record same_alloc (st st' : CachingAllocator) : Prop := {
  sa_rest : same_rest st st';
  sa_live : rt_live (rt st') = rt_live (rt st);
  sa_allocs j : allocs (blocks st') j = allocs (blocks st) j;
}.

Lemma SplitBlock_ok ext st i b dev sz idx l :
  core ext (Some i) st -> blocks st !! i = Some b -> b_allocated b = false -> b_bin b = Some idx ->
  0 < sz < b_size b -> nb_alloc (blocks st) (b_next b) -> free_block_bins_ st !! idx = Some (Some l) ->
  exists o st' bo, SplitBlock i sz idx dev st = Some (o, st') /\ core ext (Some o) st' /\ same_alloc st st' /\
    blocks st' !! o = Some bo /\ b_allocated bo = false /\ b_ptr bo = b_ptr b /\ sz <= b_size bo /\
    ((new_nothrow (rt st)).1 = true -> b_size bo = sz).
Proof.
  intros HC Hi Ha Hb Hsz Hnext Hl. unfold SplitBlock. erewrite bind_eq by (unfold deref; by rewrite Hi). cbv beta.
  destruct (new_nothrow (rt st)) as [ok r] eqn:Hnew. pose proof (new_nothrow_live _ _ _ Hnew) as Hlive.
  assert (ext ⊆ rt_live r) as Hr by (rewrite Hlive; apply HC).
  destruct ok.
  2: { exists i, (set_rt r st), b. erewrite bind_eq by (unfold new_block; by rewrite Hnew).
       split_and!; [done|by apply core_set_rt| |done|done|done|lia|done]. split; [by split|done|done]. }
  erewrite bind_eq by (unfold new_block; by rewrite Hnew). cbv beta iota. set (st1 := mkCA _ _ _ _ _ _ _).
  assert (Hne : next_id st <> i) by (pose proof (c_ids _ _ _ HC _ _ Hi); lia).
  erewrite bind_eq by (unfold deref, st1; cbn; rewrite lookup_insert_ne by done; by rewrite Hi). cbv beta.
  pose proof (split_updates ext st i b dev sz idx HC Hi Hb Hsz) as Hupd.
  destruct (upd (next_id st) (set_prev (b_prev b)) _) as [h2|] eqn:E2; [cbn in Hupd|done].
  destruct (upd_opt _ _ h2) as [h3|] eqn:E3; [cbn in Hupd|done].
  destruct (upd (next_id st) _ h3) as [h4|] eqn:E4; [cbn in Hupd|done].
  destruct (upd i _ h4) as [h5|] eqn:E5; [cbn in Hupd|done]. destruct (upd i _ h5) as [h6|] eqn:E6; [cbn in Hupd|done].
  rewrite (update_heap_eq _ _ h2) by done. rewrite (update_heap_eq _ _ h3) by done. rewrite (update_heap_eq _ _ h4) by done.
  rewrite (update_heap_eq _ _ h5) by done. rewrite (update_heap_eq _ _ h6) by done. erewrite update_heap_eq by exact Hupd.
  erewrite bind_eq by (unfold update_bin; cbn; by rewrite Hl).
  eexists (next_id st), _, (front_block i b dev sz). split; [reflexivity|].
  split; [by apply (split_core ext st i b dev sz idx l r)|]. split; [|split_and!; [apply lookup_insert_eq|done|done|cbn; lia|done]].
  split; [|done|cbn; intros j; by apply (split_allocs ext)].
  pose proof (same_rest_bins st (blocks st) idx (set_insert (heap_split_front (blocks st) i (next_id st) b dev sz) i l) l Hl) as [].
  by split.
Qed.

(** ** FindFreeBlock *)
(** The sizes of the allocator are exact in double precision. *)
Lemma ShouldSplit_spec b size :
  0 <= size <= b_size b -> b_size b < 2 ^ 51 -> ShouldSplit b size = (4 * size <=? 3 * b_size b).
Proof. intros. unfold ShouldSplit. rewrite !round53_small; try lia. rewrite round53_small; lia. Qed.

Lemma bin_range_bound idx : bin_range idx <= 26 * kGByteSize.
Proof. unfold bin_range. do 9 (destruct idx as [|idx]; [vm_compute; congruence|]). vm_compute. congruence. Qed.

Lemma GetBinIndex_lt size : (GetBinIndex size < 8)%nat.
Proof. unfold GetBinIndex, kNumBins. destruct (Nat.ltb_spec (8 - 1) (GetBinIndex_loop size bin_ranges 0)); lia. Qed.

(** A free block that is in its bin has neighbours in use. *)
Lemma core_next_alloc ext st i b :
  core ext None st -> blocks st !! i = Some b -> b_allocated b = false -> nb_alloc (blocks st) (b_next b).
Proof.
  intros HC Hi Ha. destruct (b_next b) as [j|] eqn:Hn; [|done].
  destruct (ho_next _ _ (c_heap _ _ _ HC) _ _ _ Hi Hn) as (b' & Hb' & _). exists b'. split; [done|].
  destruct (c_coal _ _ _ HC i b j b') as [?|[?|[?|?]]]; congruence.
Qed.

(** What a successful search did: block [i] went into use at [p] with [n] bytes. *)
Record taken (ext : gmap Z Z) (st st' : CachingAllocator) (i : nat) (p n : Z) : Prop := {
  t_core : core ext None st';
  t_block : exists b, blocks st' !! i = Some b /\ b_ptr b = p /\ b_size b = n;
  t_fresh : allocs (blocks st) i = None;
  t_allocs j : allocs (blocks st') j = if decide (j = i) then Some (p, n) else allocs (blocks st) j;
  t_map : allocated_blocks_ st' = <[p := i]> (allocated_blocks_ st);
  t_live : rt_live (rt st') = rt_live (rt st);
  t_has : has_allocator st' = has_allocator st;
  t_type : ca_type st' = ca_type st;
  t_bins idx : is_Some (free_block_bins_ st' !! idx ≫= id) <-> is_Some (free_block_bins_ st !! idx ≫= id);
  t_len : length (free_block_bins_ st') = length (free_block_bins_ st);
}.

Lemma mark_allocated ext st0 st o bo :
  core ext (Some o) st -> blocks st !! o = Some bo -> b_allocated bo = false -> same_alloc st0 st ->
  taken ext st0 (set_allocated_blocks (<[b_ptr bo := o]> (allocated_blocks_ st))
                   (set_blocks (<[o := set_allocated true bo]> (blocks st)) st)) o (b_ptr bo) (b_size bo).
Proof.
  intros HC Ho Ha [HR Hl Hal]. pose proof (core_alloc _ _ _ _ HC Ho Ha) as HC'. split.
  - by destruct HC'; split.
  - eexists. split; [apply lookup_insert_eq|done].
  - rewrite <- Hal. unfold allocs. by rewrite Ho, Ha.
  - intros j. cbn. rewrite (flag_allocs st o bo true). destruct (decide (j = o)); [done|apply Hal].
  - cbn. by rewrite (sr_alloc _ _ HR).
  - done.
  - apply HR.
  - apply HR.
  - apply HR.
  - apply HR.
Qed.

(** The end of FindFreeBlock: the block found is put into use. *)
Lemma mark_block ext st st1 o st2 bo :
  same_alloc st st1 -> core ext (Some o) st2 -> same_alloc st1 st2 -> blocks st2 !! o = Some bo ->
  b_allocated bo = false ->
  exists st', (b ← deref o; _ ← (if negb (b_ptr b =? 0) then
               _ ← update_heap (upd o (set_allocated true));
               modify (fun st => set_allocated_blocks (<[b_ptr b := o]> (allocated_blocks_ st)) st)
             else mret tt); mret (Some o)) st2 = Some (Some o, st') /\
    taken ext st st' o (b_ptr bo) (b_size bo).
Proof.
  intros Hsame HC2 HS Ho Hao. pose proof (ho_range _ _ (c_heap _ _ _ HC2) _ _ Ho) as Hrng.
  erewrite bind_eq by (unfold deref; by rewrite Ho). cbv beta. destruct (Z.eqb_spec (b_ptr bo) 0) as [|_]; [lia|]. cbn [negb].
  erewrite bind_eq. 2: { rewrite (update_heap_eq _ _ (<[o := set_allocated true bo]> (blocks st2))) by (unfold upd; by rewrite Ho). reflexivity. }
  eexists. split; [reflexivity|].
  apply (mark_allocated ext st st2 o bo); [done|done|done|]. destruct HS as [HR1 ? Hal1], Hsame as [HR ? Hal].
  split; [by eapply same_rest_trans|congruence|]. intros j. by rewrite Hal1, Hal.
Qed.

(** The key FindFreeBlock searches for. *)
Definition find_key (size org_ptr : Z) : Z * Z := (size, if org_ptr =? 0 then 0 else org_ptr - 1).

(** What FindFreeBlock answers: the least sufficient block [j] of the bin of [size] goes into
    use from its start; a block is wasted by less than a third unless the host heap fails. *)
Definition found (ext : gmap Z Z) (st : CachingAllocator) (size org : Z) (o : option nat) (st' : CachingAllocator) : Prop :=
  match o with
  | None => st' = st /\ forall l, free_block_bins_ st !! GetBinIndex size = Some (Some l) ->
      set_lower_bound (blocks st) (find_key size org) l = None
  | Some i => exists n j l b, taken ext st st' i (b_ptr b) n /\ size <= n /\
      free_block_bins_ st !! GetBinIndex size = Some (Some l) /\
      set_lower_bound (blocks st) (find_key size org) l = Some j /\ blocks st !! j = Some b /\
      ((new_nothrow (rt st)).1 = true -> 3 * n < 4 * size)
  end.

Lemma FindFreeBlock_ok ext st size org dev :
  core ext None st -> 0 < size -> exists o st', FindFreeBlock size org dev st = Some (o, st') /\ found ext st size org o st'.
Proof.
  intros HC Hsize. unfold FindFreeBlock. fold (find_key size org). erewrite bind_eq by reflexivity. cbv beta.
  destruct (free_block_bins_ st !! GetBinIndex size) as [[l|]|] eqn:Hl;
    [|exists None, st; split; [done|]; split; [done|]; congruence..].
  erewrite bind_eq by reflexivity. cbv beta. destruct (set_lower_bound _ _ l) as [i|] eqn:Hlb.
  2: { exists None, st. split; [done|]. split; [done|]. congruence. }
  destruct (set_lower_bound_Some _ _ _ _ Hlb) as (Hin & Hkey & _). apply key_not_less_size in Hkey. cbn in Hkey.
  destruct (core_bin_remove ext st _ l i HC Hl) as [HC1|]; [|done].
  apply (c_elem _ _ _ HC _ _ _ Hl) in Hin as (b & Hb & Hbin & Ha & _). unfold block_key in Hkey. rewrite Hb in Hkey. cbn in Hkey.
  erewrite bind_eq by (unfold update_bin; by rewrite Hl). cbv beta. set (st1 := set_bins _ st) in *.
  erewrite bind_eq by (unfold deref; cbn; by rewrite Hb). cbv beta.
  assert (Hsame : same_alloc st st1).
  { split; [|done|done]. pose proof (same_rest_bins st (blocks st) _ (List.remove Nat.eq_dec i l) l Hl) as []. by split. }
  pose proof (ho_range _ _ (c_heap _ _ _ HC) _ _ Hb) as Hrng.
  destruct (core_bin _ _ _ _ _ HC Hb) as (idx & _ & Hidx & _ & Hbound). pose proof (bin_range_bound idx).
  assert (Hss : ShouldSplit b size = (4 * size <=? 3 * b_size b)) by (apply ShouldSplit_spec; unfold kGByteSize in *; lia).
  destruct (ShouldSplit b size); symmetry in Hss; [apply Z.leb_le in Hss|apply Z.leb_gt in Hss].
  - destruct (SplitBlock_ok ext st1 i b dev size (GetBinIndex size) (List.remove Nat.eq_dec i l))
      as (o & st2 & bo & Hsp & HC2 & HS2 & Ho & Hao & Hpo & Hszo & Hexact); try done.
    + lia.
    + exact (core_next_alloc ext st i b HC Hb Ha).
    + cbn. apply list_lookup_insert_eq. by eapply lookup_lt_Some.
    + erewrite bind_eq by exact Hsp. cbv beta. destruct (mark_block ext st st1 o st2 bo) as (st' & Hrun & HT); [done..|].
      exists (Some o), st'. split; [done|]. rewrite Hpo in HT. exists (b_size bo), i, l, b. split_and!; [done..|].
      intros Hnew. rewrite Hexact by done. lia.
  - erewrite bind_eq by reflexivity. cbv beta. destruct (mark_block ext st st1 i st1 b) as (st' & Hrun & HT); [done..|].
    exists (Some i), st'. split; [done|]. exists (b_size b), i, l, b. split_and!; [done..|]. intros _. lia.
Qed.
End Invariant.
