(* ===== verification/CachingContract.v ===== *)
(** The contract of the caching allocator: extending and shrinking the cache, the
    entry points of graph_caching_allocator.cc as a whole, and the theorems a client
    relies on. *)
From S2P Require Import Prelude MemAllocator BlockHeap CachingAllocator CachingInvariant.

Section Extents.
Context `{R : Runtime} {RO : RuntimeOk R}.

(** ** AddToBlockBin *)
Section Add.
Context (ext : gmap Z Z) (st : CachingAllocator) (p len dev : Z) (idx : nat) (l : list nat) (r : RT).
Hypothesis HC : core ext None st.
Hypothesis Hp : 0 < p.
Hypothesis Hlen : 0 < len.
Hypothesis Hend : p + len < 2 ^ 64.
Hypothesis Hfresh : ext !! p = None.
Hypothesis Hdisj : forall base n, ext !! base = Some n -> base + n <= p \/ p + len <= base.
Hypothesis Hl : free_block_bins_ st !! idx = Some (Some l).
Hypothesis Hrange : len = bin_range idx.
Hypothesis Hr : <[p := len]> ext ⊆ rt_live r.
Local Abbreviation nid := (next_id st).
Local Abbreviation nb := (new_Block dev len (Some idx) p).
Local Abbreviation h1 := (<[nid := nb]> (blocks st)).
Local Abbreviation st' := (mkCA h1 (S nid) (<[idx := Some (set_insert h1 nid l)]> (free_block_bins_ st))
  (allocated_blocks_ st) (has_allocator st) (ca_type st) r).

Lemma add_fresh : blocks st !! nid = None.
Proof. destruct (blocks st !! nid) as [x|] eqn:Hn; [|done]. pose proof (c_ids _ _ _ HC _ _ Hn). lia. Qed.

Lemma add_inv j b : h1 !! j = Some b -> (j = nid /\ b = nb) \/ (j <> nid /\ blocks st !! j = Some b).
Proof.
  destruct (decide (j = nid)) as [->|]; [rewrite lookup_insert_eq; naive_solver|]. rewrite lookup_insert_ne by done. auto.
Qed.

Lemma add_old j b : blocks st !! j = Some b -> j <> nid /\ h1 !! j = Some b.
Proof. intros Hj. assert (j <> nid) by (intros ->; pose proof add_fresh; congruence). split; [done|]. by rewrite lookup_insert_ne. Qed.

Lemma add_heap : heap_ok h1 (<[p := len]> ext).
Proof. by apply heap_ok_add; [apply HC|apply add_fresh|..]. Qed.

Lemma add_c_bin j b base n :
  h1 !! j = Some b -> <[p := len]> ext !! base = Some n -> base <= b_ptr b < base + n ->
  exists idx' l', b_bin b = Some idx' /\ free_block_bins_ st' !! idx' = Some (Some l') /\ n = bin_range idx'.
Proof.
  cbn. intros Hj He Hrng. pose proof (lookup_lt_Some _ _ _ Hl) as Hlt.
  destruct (add_inv j b Hj) as [[-> ->]|[Hjn Hj0]]; blk.
  - exists idx, (set_insert h1 nid l). rewrite list_lookup_insert_eq by done. split_and!; [done|done|].
    destruct (ext_unique _ _ base n p len p add_heap He) as [-> ->]; [apply lookup_insert_eq|lia|lia|done].
  - destruct (ho_ext _ _ (c_heap _ _ _ HC) _ _ Hj0) as (base0 & n0 & He0 & ? & ? & _).
    pose proof (ho_range _ _ (c_heap _ _ _ HC) _ _ Hj0). unfold b_end in *.
    assert (base0 <> p) by (intros ->; congruence).
    destruct (ext_unique _ _ base n base0 n0 (b_ptr b) add_heap He) as [-> ->]; [by rewrite lookup_insert_ne by done|lia|lia|].
    destruct (c_bin _ _ _ HC j b base0 n0) as (idx' & l' & ? & ? & ?); [done|done|lia|].
    exists idx'. destruct (decide (idx' = idx)) as [->|].
    + exists (set_insert h1 nid l). by rewrite list_lookup_insert_eq.
    + exists l'. by rewrite list_lookup_insert_ne.
Qed.

Lemma add_key j : j <> nid -> block_key h1 j = block_key (blocks st) j.
Proof. intros. unfold block_key. by rewrite lookup_insert_ne. Qed.

Lemma add_bin_ids m k j : free_block_bins_ st !! m = Some (Some k) -> j ∈ k -> j <> nid.
Proof. intros Hm (b & Hb & _)%(c_elem _ _ _ HC m k j Hm). by apply (add_old j b). Qed.

Lemma add_c_elem m k j : free_block_bins_ st' !! m = Some (Some k) ->
  j ∈ k <-> exists b, h1 !! j = Some b /\ b_bin b = Some m /\ b_allocated b = false /\ Some j <> None.
Proof.
  cbn. intros Hm.
  assert (Hold : forall m k, free_block_bins_ st !! m = Some (Some k) -> j <> nid ->
    j ∈ k <-> exists b, h1 !! j = Some b /\ b_bin b = Some m /\ b_allocated b = false /\ Some j <> None).
  { intros m' k' Hm' Hj. rewrite (c_elem _ _ _ HC m' k' j Hm'). by rewrite lookup_insert_ne. }
  destruct (bins_insert _ _ _ _ _ _ Hl Hm) as [[-> ->]|[Hne Hm0]].
  - rewrite elem_of_set_insert.
    + destruct (decide (j = nid)) as [->|Hj]; [|rewrite <- (Hold idx l Hl Hj); naive_solver].
      split; [|by left]. intros _. exists nb. by rewrite lookup_insert_eq.
    + intros i Hi. pose proof (add_bin_ids _ _ _ Hl Hi) as Hin. intros Heq.
      apply (c_elem _ _ _ HC idx l i Hl) in Hi as (b & Hb & _). destruct (add_old i b Hb) as [_ Hb1].
      unfold block_key in Heq. rewrite Hb1, lookup_insert_eq in Heq. injection Heq as _ Hpe. apply Hin.
      eapply (heap_ok_ptr_inj _ _ add_heap); [exact Hb1|apply lookup_insert_eq|done].
  - destruct (decide (j = nid)) as [->|Hj]; [|by apply Hold]. split.
    + intros Hin. by destruct (add_bin_ids _ _ _ Hm0 Hin).
    + intros (b & Hb & Hbin & _). rewrite lookup_insert_eq in Hb. injection Hb as <-. blk. congruence.
Qed.

Lemma add_core : core (<[p := len]> ext) None st'.
Proof.
  split; [apply add_heap|exact Hr| |apply add_c_bin|apply add_c_elem|..]; cbn.
  - intros j b Hj. destruct (add_inv j b Hj) as [[-> _]|[_ Hj0]]; [lia|]. pose proof (c_ids _ _ _ HC _ _ Hj0). lia.
  - intros m k Hm. assert (Hsub : forall m k, free_block_bins_ st !! m = Some (Some k) -> bin_sorted h1 k).
    { intros m' k' Hm'. eapply bin_sorted_frame; [|by eapply (c_sorted _ _ _ HC)].
      intros x Hx. apply add_key. by eapply add_bin_ids. }
    destruct (bins_insert _ _ _ _ _ _ Hl Hm) as [[-> ->]|[_ Hm0]]; [apply set_insert_sorted|]; by eapply Hsub.
  - intros i b j b' Hi Hn Hj. destruct (add_inv i b Hi) as [[-> ->]|[_ Hi0]]; [done|].
    destruct (ho_next _ _ (c_heap _ _ _ HC) _ _ _ Hi0 Hn) as (b0 & Hb0 & _). destruct (add_old j b0 Hb0) as [_ ?].
    apply (c_coal _ _ _ HC i b j b'); [done|done|congruence].
Qed.

Lemma add_allocs j : allocs h1 j = allocs (blocks st) j.
Proof.
  unfold allocs. destruct (decide (j = nid)) as [->|]; [by rewrite lookup_insert_eq, add_fresh|by rewrite lookup_insert_ne].
Qed.
End Add.

(** Everything but the extents and the runtime is as before. *)
Record same_use (st st' : CachingAllocator) : Prop := {
  su_rest : same_rest st st';
  su_allocs j : allocs (blocks st') j = allocs (blocks st) j;
}.

Lemma same_use_refl st : same_use st st.
Proof. by split; [apply same_rest_refl|]. Qed.
Lemma same_use_trans st1 st2 st3 : same_use st1 st2 -> same_use st2 st3 -> same_use st1 st3.
Proof. intros [HR1 H1] [HR2 H2]. split; [by eapply same_rest_trans|]. intros j. by rewrite H2, H1. Qed.

Lemma AddToBlockBin_ok ext st p len dev :
  core ext None st -> 0 < p -> 0 < len -> p + len < 2 ^ 64 -> ext !! p = None ->
  (forall base n, ext !! base = Some n -> base + n <= p \/ p + len <= base) ->
  len = bin_range (GetBinIndex len) -> <[p := len]> ext ⊆ rt_live (rt st) ->
  exists s st', AddToBlockBin p len dev st = Some (s, st') /\ same_use st st' /\ rt_live (rt st') = rt_live (rt st) /\
    ((s = SUCCESS /\ core (<[p := len]> ext) None st' /\
      exists i b, blocks st' !! i = Some b /\ b_ptr b = p /\ b_size b = len /\ b_allocated b = false /\ b_bin b = Some (GetBinIndex len)) \/
     (s = FAILED /\ core ext None st' /\
      (free_block_bins_ st !! GetBinIndex len ≫= id = None \/ (new_nothrow (rt st)).1 = false))).
Proof.
  intros HC Hp Hlen Hend Hf Hd Hrange Hlive. unfold AddToBlockBin. erewrite bind_eq by reflexivity. cbv beta.
  destruct (free_block_bins_ st !! GetBinIndex len) as [[l|]|] eqn:Hl;
    [|exists FAILED, st; split_and!; [done|apply same_use_refl|done|right; split_and!; [done|done|by left]]..].
  destruct (new_nothrow (rt st)) as [ok r] eqn:Hnew. pose proof (new_nothrow_live _ _ _ Hnew) as Hrl.
  destruct ok.
  2: { erewrite bind_eq by (unfold new_block; by rewrite Hnew). cbv beta iota. exists FAILED, (set_rt r st).
       split_and!; [done|by split; [by split|]|done|right].
       split_and!; [done| |by right]. apply core_set_rt; [done|]. rewrite Hrl. apply HC. }
  erewrite bind_eq by (unfold new_block; by rewrite Hnew). cbv beta iota.
  erewrite update_heap_eq by (unfold upd; cbn; by rewrite lookup_insert_eq).
  erewrite update_heap_eq by (unfold upd; cbn; by rewrite lookup_insert_eq).
  erewrite bind_eq by (unfold update_bin; cbn; by rewrite Hl). cbn. rewrite !insert_insert_eq.
  change (set_size len _) with (new_Block dev len (Some (GetBinIndex len)) p).
  assert (<[p := len]> ext ⊆ rt_live r) as Hlr by (by rewrite Hrl).
  pose proof (same_rest_bins st (blocks st) _ (set_insert (<[next_id st := new_Block dev len (Some (GetBinIndex len)) p]> (blocks st)) (next_id st) l) l Hl) as [].
  set (nb := new_Block dev len (Some (GetBinIndex len)) p) in *. set (h1 := <[next_id st := nb]> (blocks st)) in *.
  exists SUCCESS, (mkCA h1 (S (next_id st)) (<[GetBinIndex len := Some (set_insert h1 (next_id st) l)]> (free_block_bins_ st))
    (allocated_blocks_ st) (has_allocator st) (ca_type st) r).
  split; [reflexivity|]. split_and!; [|done|left].
  - split; [by split|]. intros j. by apply (add_allocs ext st p len dev (GetBinIndex len)).
  - split; [done|]. split; [by apply (add_core ext st p len dev (GetBinIndex len) l r)|].
    exists (next_id st), nb. split; [apply lookup_insert_eq|done].
Qed.

(** ** FreeCachedBlocks *)

(** Some extents were given back to the device; nothing else changed. *)
Record shrunk (ext : gmap Z Z) (st : CachingAllocator) (ext' : gmap Z Z) (st' : CachingAllocator) : Prop := {
  sk_core : core ext' None st';
  sk_use : same_use st st';
  sk_blocks : blocks st' ⊆ blocks st;
  sk_ext : ext' ⊆ ext;
  sk_out p : ext !! p = None -> rt_live (rt st') !! p = rt_live (rt st) !! p;
  sk_in p : is_Some (ext !! p) -> rt_live (rt st') !! p = ext' !! p;
}.

Lemma shrunk_same ext st r : core ext None st -> rt_live r = rt_live (rt st) -> shrunk ext st ext (set_rt r st).
Proof.
  intros HC Hr. assert (ext ⊆ rt_live r) by (rewrite Hr; apply HC). split; try done.
  - by apply core_set_rt.
  - intros p _. by rewrite <- Hr.
  - intros p [n Hp]. cbn. rewrite Hp. by eapply lookup_weaken.
Qed.

Lemma shrunk_refl ext st : core ext None st -> shrunk ext st ext st.
Proof. intros HC. pose proof (shrunk_same ext st (rt st) HC eq_refl) as Hs. by destruct st. Qed.

Lemma shrunk_trans ext1 st1 ext2 st2 ext3 st3 :
  shrunk ext1 st1 ext2 st2 -> shrunk ext2 st2 ext3 st3 -> shrunk ext1 st1 ext3 st3.
Proof.
  intros H1 H2. split.
  - apply H2.
  - eapply same_use_trans; [apply H1|apply H2].
  - etrans; [exact (sk_blocks _ _ _ _ H2)|exact (sk_blocks _ _ _ _ H1)].
  - etrans; [exact (sk_ext _ _ _ _ H2)|exact (sk_ext _ _ _ _ H1)].
  - intros p Hp. rewrite (sk_out _ _ _ _ H2), (sk_out _ _ _ _ H1); [done..|].
    eapply lookup_weaken_None; [exact Hp|exact (sk_ext _ _ _ _ H1)].
  - intros p Hp. destruct (ext2 !! p) as [n|] eqn:H2p; [by apply (sk_in _ _ _ _ H2)|].
    rewrite (sk_out _ _ _ _ H2), (sk_in _ _ _ _ H1) by done. rewrite H2p. symmetry.
    eapply lookup_weaken_None; [exact H2p|exact (sk_ext _ _ _ _ H2)].
Qed.

(** A floating block that is a whole extent can be deleted with it. *)
Lemma core_drop ext st i b r :
  core ext (Some i) st -> blocks st !! i = Some b -> b_prev b = None -> b_next b = None ->
  rt_live r = delete (b_ptr b) (rt_live (rt st)) ->
  core (delete (b_ptr b) ext) None (set_blocks (delete i (blocks st)) (set_rt r st)).
Proof.
  intros HC Hi Hp Hn Hr. split; cbn.
  - by apply heap_ok_del; [apply HC|..].
  - rewrite Hr. apply delete_mono. apply HC.
  - intros j bj [_ Hj]%lookup_delete_Some. by eapply (c_ids _ _ _ HC).
  - intros j bj base len [_ Hj]%lookup_delete_Some [_ He]%lookup_delete_Some. by eapply (c_bin _ _ _ HC).
  - intros idx l j Hl. rewrite (c_elem _ _ _ HC idx l j Hl). split.
    + intros (bj & ? & ? & ? & ?). exists bj. rewrite lookup_delete_ne by congruence. done.
    + intros (bj & [? ?]%lookup_delete_Some & ? & ? & _). exists bj. split_and!; congruence.
  - intros idx l Hl. eapply bin_sorted_frame; [|by eapply (c_sorted _ _ _ HC)]. intros x Hx.
    apply (c_elem _ _ _ HC idx l x Hl) in Hx as (_ & _ & _ & _ & ?). unfold block_key. by rewrite lookup_delete_ne by congruence.
  - intros j bj k bk [? Hj]%lookup_delete_Some Hk [? Hbk]%lookup_delete_Some.
    destruct (c_coal _ _ _ HC j bj k bk) as [?|[?|[?|?]]]; [done..|auto|auto|congruence|congruence].
Qed.

Lemma drop_shrunk ext st idx l i b r :
  core ext None st -> free_block_bins_ st !! idx = Some (Some l) -> i ∈ l -> blocks st !! i = Some b ->
  b_prev b = None -> b_next b = None -> rt_live r = delete (b_ptr b) (rt_live (rt st)) ->
  shrunk ext st (delete (b_ptr b) ext)
    (set_blocks (delete i (blocks st)) (set_bins (<[idx := Some (List.remove Nat.eq_dec i l)]> (free_block_bins_ st)) (set_rt r st))).
Proof.
  intros HC Hl Hin Hi Hp Hn Hr. destruct (core_bin_remove ext st idx l i HC Hl) as [HC1|]; [|done].
  apply (c_elem _ _ _ HC idx l i Hl) in Hin as (b0 & Hb0 & _ & Ha & _). assert (b0 = b) as -> by congruence.
  pose proof (same_rest_bins st (blocks st) _ (List.remove Nat.eq_dec i l) l Hl) as []. split; cbn.
  - by apply (core_drop ext _ i b r HC1).
  - split; [by split|]. intros j. unfold allocs. cbn. destruct (decide (j = i)) as [->|]; [|by rewrite lookup_delete_ne].
    by rewrite lookup_delete_eq, Hi, Ha.
  - apply delete_subseteq.
  - apply delete_subseteq.
  - intros p He. rewrite Hr. destruct (decide (p = b_ptr b)) as [->|]; [|by rewrite lookup_delete_ne].
    pose proof (heap_ok_whole _ _ _ _ (c_heap _ _ _ HC) Hi Hp Hn). congruence.
  - intros p [n He]. rewrite Hr. destruct (decide (p = b_ptr b)) as [->|]; [by rewrite !lookup_delete_eq|].
    rewrite !lookup_delete_ne by done. rewrite He. eapply lookup_weaken; [exact He|apply HC].
Qed.

Lemma FreeCachedBlocks_pool_ok idx l : forall ext st l0,
  core ext None st -> has_allocator st = true -> free_block_bins_ st !! idx = Some (Some l0) -> l ⊆ l0 -> NoDup l ->
  exists ext' st', FreeCachedBlocks_pool idx l st = Some (tt, st') /\ shrunk ext st ext' st' /\
    (rtFree_total -> forall i b, i ∈ l -> blocks st' !! i = Some b -> IsSplit b = true).
Proof.
  induction l as [|i l IH]; intros ext st l0 HC Hhas Hl Hsub Hnd.
  { exists ext, st. split; [done|]. split; [by apply shrunk_refl|]. set_solver. }
  apply NoDup_cons in Hnd as [Hni Hnd]. assert (Hin : i ∈ l0) by set_solver.
  pose proof Hin as (b & Hb & _ & Ha & _)%(c_elem _ _ _ HC idx l0 i Hl).
  pose proof (ho_range _ _ (c_heap _ _ _ HC) _ _ Hb) as Hrng.
  cbn [FreeCachedBlocks_pool]. erewrite bind_eq by (unfold deref; by rewrite Hb). cbv beta.
  destruct (Z.eqb_spec (b_ptr b) 0) as [|_]; [lia|]. cbn [negb andb].
  assert (Hskip : forall st1 : CachingAllocator, shrunk ext st ext st1 -> free_block_bins_ st1 = free_block_bins_ st ->
    (rtFree_total -> IsSplit b = true) ->
    exists ext' st', FreeCachedBlocks_pool idx l st1 = Some (tt, st') /\ shrunk ext st ext' st' /\
    (rtFree_total -> forall j bj, j ∈ i :: l -> blocks st' !! j = Some bj -> IsSplit bj = true)).
  { intros st1 HS Hbins Hsp. destruct (IH ext st1 l0) as (ext' & st' & Hrun & HS' & Hall);
      [apply HS|by rewrite (sr_has _ _ (su_rest _ _ (sk_use _ _ _ _ HS)))|by rewrite Hbins|set_solver|done|].
    exists ext', st'. split; [done|]. pose proof (shrunk_trans _ _ _ _ _ _ HS HS') as HS2. split; [done|].
    intros HT j bj [->|Hj]%elem_of_cons Hbj; [|by apply (Hall HT j)].
    pose proof (lookup_weaken _ _ _ _ Hbj (sk_blocks _ _ _ _ HS2)). simplify_eq. by apply Hsp. }
  destruct (bool_decide (b_prev b = None)) eqn:Hp; cbn [andb].
  2: { erewrite bind_eq by reflexivity. erewrite bind_eq by reflexivity. apply Hskip; [by apply shrunk_refl|done|].
       intros _. apply bool_decide_eq_false in Hp. destruct (b_prev b) eqn:?; [|done]. by eapply IsSplit_prev. }
  destruct (bool_decide (b_next b = None)) eqn:Hn.
  2: { erewrite bind_eq by reflexivity. erewrite bind_eq by reflexivity. apply Hskip; [by apply shrunk_refl|done|].
       intros _. apply bool_decide_eq_false in Hn. destruct (b_next b) eqn:?; [|done]. by eapply IsSplit_next. }
  apply bool_decide_eq_true in Hp, Hn.
  pose proof (heap_ok_whole _ _ _ _ (c_heap _ _ _ HC) Hb Hp Hn) as He. pose proof (lookup_weaken _ _ _ _ He (c_live _ _ _ HC)) as Hlive.
  destruct (FreeMemory (b_ptr b) (rt st)) as [s r] eqn:Hf.
  erewrite bind_eq. 2: { erewrite bind_eq by (unfold call_FreeMemory; rewrite Hhas, Hf; reflexivity). reflexivity. }
  cbv beta. destruct (FreeMemory_spec _ _ _ _ _ Hf Hlive) as [[-> Hr]|[Hs Hr]].
  - rewrite bool_decide_eq_true_2 by done. erewrite bind_eq.
    2: { erewrite bind_eq by (unfold update_bin; cbn; by rewrite Hl). reflexivity. }
    cbv beta. pose proof (drop_shrunk ext st idx l0 i b r HC Hl Hin Hb Hp Hn Hr) as HS.
    cbn. set (st1 := set_blocks _ _) in *.
    destruct (IH (delete (b_ptr b) ext) st1 (List.remove Nat.eq_dec i l0)) as (ext' & st' & Hrun & HS' & Hall); [apply HS|done| | |done|].
    + cbn. apply list_lookup_insert_eq. by eapply lookup_lt_Some.
    + intros j Hj. apply list_elem_of_In, List.in_in_remove; [by intros ->|]. apply list_elem_of_In. set_solver.
    + exists ext', st'. split; [done|]. split; [by eapply shrunk_trans|].
      intros HT j bj [->|Hj]%elem_of_cons Hbj; [|by apply (Hall HT j)].
      pose proof (lookup_weaken _ _ _ _ Hbj (sk_blocks _ _ _ _ HS')) as Hx. cbn in Hx. by rewrite lookup_delete_eq in Hx.
  - rewrite bool_decide_eq_false_2 by done. erewrite bind_eq by reflexivity. apply Hskip; [by apply shrunk_same|done|].
    intros HT. pose proof (FreeMemory_total _ _ _ HT Hlive) as Hx. rewrite Hf in Hx. done.
Qed.

Lemma FreeCachedBlocks_bins_ok idxs : forall ext st,
  core ext None st -> has_allocator st = true \/ blocks st = ∅ ->
  exists ext' st', FreeCachedBlocks_bins idxs st = Some (tt, st') /\ shrunk ext st ext' st' /\
    (rtFree_total -> forall i b idx, blocks st' !! i = Some b -> b_bin b = Some idx -> idx ∈ idxs ->
       b_allocated b = false -> IsSplit b = true).
Proof.
  induction idxs as [|k idxs IH]; intros ext st HC Hhas.
  { exists ext, st. split; [done|]. split; [by apply shrunk_refl|]. set_solver. }
  cbn [FreeCachedBlocks_bins]. erewrite bind_eq by reflexivity. cbv beta.
  assert (exists ext1 st1, (match (match free_block_bins_ st !! k with Some (Some l) => Some l | _ => None end) with
      None => mret tt | Some l => FreeCachedBlocks_pool k l end) st = Some (tt, st1) /\ shrunk ext st ext1 st1 /\
      (rtFree_total -> forall i b, blocks st1 !! i = Some b -> b_bin b = Some k -> b_allocated b = false -> IsSplit b = true))
    as (ext1 & st1 & Hrun & HS & Hk).
  { destruct (free_block_bins_ st !! k) as [[l|]|] eqn:Hl.
    - pose proof (bin_sorted_NoDup _ _ (c_sorted _ _ _ HC _ _ Hl)) as Hnd. destruct Hhas as [Hhas|Hempty].
      + destruct (FreeCachedBlocks_pool_ok k l ext st l) as (ext1 & st1 & Hrun & HS & Hk); [done..|].
        exists ext1, st1. split; [done|]. split; [done|]. intros HT i b Hb Hbin Ha. apply (Hk HT i b); [|done].
        apply (c_elem _ _ _ HC k l i Hl). exists b. split_and!; [|done..].
        by apply (lookup_weaken _ _ _ _ Hb (sk_blocks _ _ _ _ HS)).
      + destruct l as [|i l]; [|destruct (c_elem _ _ _ HC k _ i Hl) as [(b & Hb & _) _]; [set_solver|by rewrite Hempty in Hb]].
        exists ext, st. split; [done|]. split; [by apply shrunk_refl|]. intros _ i b Hb. by rewrite Hempty in Hb.
    - exists ext, st. split; [done|]. split; [by apply shrunk_refl|]. intros _ i b Hb Hbin.
      destruct (core_bin _ _ _ _ _ HC Hb) as (? & ? & ? & ? & _). congruence.
    - exists ext, st. split; [done|]. split; [by apply shrunk_refl|]. intros _ i b Hb Hbin.
      destruct (core_bin _ _ _ _ _ HC Hb) as (? & ? & ? & ? & _). congruence. }
  erewrite bind_eq by exact Hrun. cbv beta. destruct (IH ext1 st1) as (ext2 & st2 & Hrun2 & HS2 & Hk2).
  - apply HS.
  - destruct Hhas as [Hhas|Hempty]; [left; by rewrite (sr_has _ _ (su_rest _ _ (sk_use _ _ _ _ HS)))|right].
    pose proof (sk_blocks _ _ _ _ HS) as Hsub. rewrite Hempty in Hsub. apply map_empty. intros i. by apply (lookup_weaken_None _ ∅).
  - exists ext2, st2. split; [done|]. split; [by eapply shrunk_trans|].
    intros HT i b idx Hb Hbin [->|Hi]%elem_of_cons Ha; [|by eapply (Hk2 HT)].
    apply (Hk HT i b); [|done..]. by apply (lookup_weaken _ _ _ _ Hb (sk_blocks _ _ _ _ HS2)).
Qed.

Lemma FreeCachedBlocks_ok ext st :
  core ext None st -> has_allocator st = true \/ blocks st = ∅ -> length (free_block_bins_ st) = kNumBins ->
  exists ext' st', FreeCachedBlocks st = Some (tt, st') /\ shrunk ext st ext' st' /\
    (rtFree_total -> forall i b, blocks st' !! i = Some b -> b_allocated b = false -> IsSplit b = true).
Proof.
  intros HC Hhas Hlen. destruct (FreeCachedBlocks_bins_ok (seq 0 kNumBins) ext st HC Hhas) as (ext' & st' & Hrun & HS & Hk).
  exists ext', st'. split; [done|]. split; [done|]. intros HT i b Hb Ha.
  destruct (core_bin _ _ _ _ _ (sk_core _ _ _ _ HS) Hb) as (idx & l & Hbin & Hl & _). apply (Hk HT i b idx); [done..| |done].
  apply elem_of_seq. pose proof (lookup_lt_Some _ _ _ Hl) as Hlt.
  rewrite (sr_len _ _ (su_rest _ _ (sk_use _ _ _ _ HS))), Hlen in Hlt. lia.
Qed.

(** ** TryExtendCache *)

Lemma GetBinIndex_range k : (k < 8)%nat -> GetBinIndex (bin_range k) = k.
Proof. intros Hk. do 8 (destruct k as [|k]; [by vm_compute|]). lia. Qed.

Lemma bin_range_pos k : (k < 8)%nat -> 0 < bin_range k.
Proof. intros Hk. do 8 (destruct k as [|k]; [by vm_compute|]). lia. Qed.

(** A size that some bin can hold fits its own bin. *)
Lemma GetBinIndex_fits size : size <= 26 * kGByteSize -> size <= bin_range (GetBinIndex size).
Proof.
  intros Hs. unfold GetBinIndex, bin_ranges, bin_range, GetBinIndex_loop.
  repeat match goal with |- context [?a <=? ?b] => destruct (Z.leb_spec a b); [done|] end. done.
Qed.

(** The regions of others are [kept]. *)
Definition others_kept (ext : gmap Z Z) (st : CachingAllocator) (ext' : gmap Z Z) (st' : CachingAllocator) : Prop :=
  kept ext (rt st) ext' (rt st').

Lemma others_same ext st st' : rt_live (rt st') = rt_live (rt st) -> others_kept ext st ext st'.
Proof. apply kept_same. Qed.

Lemma others_trans ext1 st1 ext2 st2 ext3 st3 :
  others_kept ext1 st1 ext2 st2 -> others_kept ext2 st2 ext3 st3 -> others_kept ext1 st1 ext3 st3.
Proof. apply kept_trans. Qed.

Lemma shrunk_live ext st ext' st' : ext ⊆ rt_live (rt st) -> shrunk ext st ext' st' -> rt_live (rt st') ⊆ rt_live (rt st).
Proof.
  intros Hl HS. apply map_subseteq_spec. intros q n Hq. destruct (ext !! q) as [m|] eqn:Hm; [|by rewrite (sk_out _ _ _ _ HS) in Hq].
  rewrite (sk_in _ _ _ _ HS) in Hq by done. eapply lookup_weaken; [|exact Hl]. eapply lookup_weaken; [exact Hq|apply HS].
Qed.

Lemma shrunk_others ext st ext' st' : ext ⊆ rt_live (rt st) -> shrunk ext st ext' st' -> others_kept ext st ext' st'.
Proof.
  intros Hl HS. split; [|intros _|apply live_disj_subseteq; by eapply shrunk_live]; intros q n Hq He.
  - rewrite (sk_out _ _ _ _ HS) by done. split; [done|]. eapply lookup_weaken_None; [exact He|exact (sk_ext _ _ _ _ HS)].
  - destruct (ext !! q) as [m|] eqn:Hm; [|by rewrite (sk_out _ _ _ _ HS) in Hq].
    rewrite (sk_in _ _ _ _ HS) in Hq; [congruence|done].
Qed.

(** What an attempt to extend the cache for a block of [size] bytes guarantees: regions
    of others are untouched, and on success a whole free extent is in the bin of [size]. *)
Record extended (ext : gmap Z Z) (st : CachingAllocator) (size : Z) (s : Status) (ext' : gmap Z Z) (st' : CachingAllocator) : Prop := {
  ex_core : core ext' None st';
  ex_use : same_use st st';
  ex_others : others_kept ext st ext' st';
  ex_status : s = SUCCESS \/ s = FAILED;
  ex_block : s = SUCCESS -> exists i b, blocks st' !! i = Some b /\ b_size b = bin_range (GetBinIndex size) /\
    b_allocated b = false /\ b_bin b = Some (GetBinIndex size);
}.

(** The tail of TryExtendCache, once the device has answered. *)
Lemma extend_tail ext st p len dev size r :
  core ext None st -> has_allocator st = true -> 0 < len -> len = bin_range (GetBinIndex size) -> len = bin_range (GetBinIndex len) ->
  MallocMemory (ca_type st) len (rt st) = (p, r) ->
  exists s ext' st', (if p =? 0 then mret FAILED else
    s ← AddToBlockBin p len dev;
    if negb (bool_decide (s = SUCCESS)) then _ ← call_FreeMemory p; mret FAILED else mret SUCCESS) (set_rt r st) = Some (s, st') /\
    extended ext st size s ext' st' /\
    (p <> 0 -> (new_nothrow r).1 = true -> is_Some (free_block_bins_ st !! GetBinIndex len ≫= id) -> s = SUCCESS).
Proof.
  intros HC Hhas Hlen Hrange Hrange' Hm.
  destruct (MallocMemory_spec _ _ _ _ _ Hm Hlen) as [[-> Hr]|(Hp & Hend & Hfresh & Hr & Hdisj)].
  { exists FAILED, ext, (set_rt r st). split; [done|]. split; [|done]. split; [|by split; [by split|]|by apply others_same|by right|done].
    apply core_set_rt; [done|]. rewrite Hr. apply HC. }
  destruct (Z.eqb_spec p 0) as [|_]; [lia|].
  assert (Hnew : ext !! p = None) by (eapply lookup_weaken_None; [exact Hfresh|apply HC]).
  assert (Hsub : <[p := len]> ext ⊆ rt_live r) by (rewrite Hr; apply insert_mono, HC).
  assert (HC0 : core ext None (set_rt r st)).
  { apply core_set_rt; [done|]. rewrite Hr. etrans; [apply HC|]. by apply insert_subseteq. }
  destruct (AddToBlockBin_ok ext (set_rt r st) p len dev HC0) as (s & st1 & Hadd & HU & Hlive & Hs); try done.
  { intros base n He. apply (Hdisj base n). by apply (lookup_weaken _ _ _ _ He (c_live _ _ _ HC)). }
  assert (HU0 : same_use st st1) by (destruct HU as [[] ?]; by split; [split|]).
  assert (Hl1 : rt_live (rt st1) = <[p := len]> (rt_live (rt st))) by (rewrite Hlive; cbn; by rewrite Hr).
  rewrite (bind_eq _ _ _ _ _ Hadd). destruct Hs as [(-> & HC1 & i & b & Hb & Hbp & Hbs & Hba & Hbb)|(-> & HC1 & Hwhy)].
  - rewrite bool_decide_eq_true_2 by done. cbn [negb]. exists SUCCESS, (<[p := len]> ext), st1. split; [done|]. split; [|done].
    split; [done|done| |by left|].
    { by apply kept_grow. }
    intros _. exists i, b. rewrite Hrange' in Hrange.
    assert (GetBinIndex len = GetBinIndex size) as Hidx; [|split_and!; congruence].
    rewrite <- (GetBinIndex_range (GetBinIndex size)), <- Hrange by apply GetBinIndex_lt. by rewrite <- Hrange'.
  - rewrite bool_decide_eq_false_2 by done. cbn [negb].
    assert (Hhas1 : has_allocator st1 = true) by (by rewrite (sr_has _ _ (su_rest _ _ HU0))).
    assert (Hp1 : rt_live (rt st1) !! p = Some len) by (rewrite Hl1; apply lookup_insert_eq).
    destruct (FreeMemory p (rt st1)) as [s2 r2] eqn:Hf.
    erewrite bind_eq by (unfold call_FreeMemory; by rewrite Hhas1, Hf). exists FAILED, ext, (set_rt r2 st1). split; [done|].
    assert (Hr2 : rt_live r2 = rt_live (rt st) \/ (rt_live r2 = <[p := len]> (rt_live (rt st)) /\ ~ rtFree_total)).
    { destruct (FreeMemory_spec _ _ _ _ _ Hf Hp1) as [[_ ->]|[Hs2 ->]]; [left|right]; rewrite Hl1; [by rewrite delete_insert_id|].
      split; [done|]. intros HT. pose proof (FreeMemory_total _ _ _ HT Hp1) as Hx. by rewrite Hf in Hx. }
    split.
    + split; [| | |by right|done].
      * apply core_set_rt; [done|]. destruct Hr2 as [->|[-> _]]; [apply HC|]. etrans; [apply HC|by apply insert_subseteq].
      * destruct HU0 as [[] ?]. by split; [split|].
      * apply (kept_trans ext (rt st) (<[p := len]> ext) (rt st1)); [by apply kept_grow|].
        rewrite <- (delete_insert_id ext p len) at 2 by done. by eapply kept_free; [exact Hp1|exact Hf|apply lookup_insert_eq].
    + intros _ Hok [l Hl]. cbn in Hwhy. destruct Hwhy; congruence.
Qed.

Lemma TryExtendCache_ok ext st size dev :
  core ext None st -> has_allocator st = true -> length (free_block_bins_ st) = kNumBins ->
  exists s ext' st', TryExtendCache size dev st = Some (s, st') /\ extended ext st size s ext' st' /\
    (forall p r, MallocMemory (ca_type st) (GetAllocationSize size) (rt st) = (p, r) -> p <> 0 -> (new_nothrow r).1 = true ->
       is_Some (free_block_bins_ st !! GetBinIndex size ≫= id) -> s = SUCCESS).
Proof.
  intros HC Hhas Hn. change (GetAllocationSize size) with (bin_range (GetBinIndex size)).
  pose proof (GetBinIndex_lt size) as Hlt. pose proof (bin_range_pos _ Hlt) as Hpos. pose proof (GetBinIndex_range _ Hlt) as Hidx.
  unfold TryExtendCache. change (GetAllocationSize size) with (bin_range (GetBinIndex size)).
  set (len := bin_range (GetBinIndex size)) in *. assert (Hlen : len = bin_range (GetBinIndex len)) by (by rewrite Hidx).
  destruct (MallocMemory (ca_type st) len (rt st)) as [p r] eqn:Hm.
  erewrite bind_eq by (unfold call_MallocMemory; by rewrite Hhas, Hm). cbv beta.
  destruct (Z.eqb_spec p 0) as [->|Hp].
  - destruct (MallocMemory_spec _ _ _ _ _ Hm Hpos) as [[_ Hr]|(? & _)]; [|lia].
    destruct (FreeCachedBlocks_ok ext (set_rt r st)) as (ext1 & st1 & Hrun & HS & _); [|by left|done|].
    { apply core_set_rt; [done|]. rewrite Hr. apply HC. }
    pose proof (sr_has _ _ (su_rest _ _ (sk_use _ _ _ _ HS))) as Hhas1. cbn in Hhas1. rewrite Hhas in Hhas1.
    destruct (MallocMemory (ca_type st1) len (rt st1)) as [p1 r1] eqn:Hm1.
    erewrite bind_eq. 2: { erewrite bind_eq by exact Hrun. unfold call_MallocMemory. by rewrite Hhas1, Hm1. }
    destruct (extend_tail ext1 st1 p1 len dev size r1) as (s & ext' & st' & Hrun2 & HE & _); [apply HS|done..|].
    exists s, ext', st'. split; [done|]. split; [|congruence]. destruct HE. split; try done.
    + eapply same_use_trans; [|done]. eapply same_use_trans; [|apply HS]. by split; [by split|].
    + eapply others_trans; [|done]. eapply others_trans; [|apply shrunk_others; [|done]; cbn; rewrite Hr; apply HC]. by apply others_same.
  - erewrite bind_eq by reflexivity. destruct (extend_tail ext st p len dev size r) as (s & ext' & st' & Hrun2 & HE & Hok); [done..|].
    destruct (Z.eqb_spec p 0); [done|]. exists s, ext', st'. split; [done|]. split; [done|].
    intros p' r' [= <- <-] _ Hnew Hbin. apply Hok; [done|done|]. by rewrite Hidx.
Qed.

(** * The contract *)

(** The invariant between calls: [ext] are the extents the allocator holds. *)
Record wf (ext : gmap Z Z) (st : CachingAllocator) : Prop := {
  wf_core : core ext None st;
  wf_map p i : allocated_blocks_ st !! p = Some i <-> exists n, allocs (blocks st) i = Some (p, n);
  wf_len : length (free_block_bins_ st) = kNumBins;
  wf_has : has_allocator st = true \/ blocks st = ∅;
}.

(** The allocator is initialised: all bins exist and the memory allocator is set. *)
Record ready (st : CachingAllocator) : Prop := {
  rd_has : has_allocator st = true;
  rd_bins idx : (idx < kNumBins)%nat -> is_Some (free_block_bins_ st !! idx ≫= id);
}.

(** The abstract state: the regions in use, address and size. *)
Definition in_use (st : CachingAllocator) : gmap Z Z :=
  omap (fun i => snd <$> allocs (blocks st) i) (allocated_blocks_ st).

Lemma in_use_lookup ext st p n :
  wf ext st -> in_use st !! p = Some n <-> exists i, allocs (blocks st) i = Some (p, n).
Proof.
  intros HW. unfold in_use. rewrite lookup_omap_Some. split.
  - intros (i & Hf & Hi). exists i. apply (wf_map _ _ HW) in Hi as [m Hm]. rewrite Hm in *. cbn in Hf. congruence.
  - intros [i Hi]. exists i. rewrite Hi. split; [done|]. apply (wf_map _ _ HW). by exists n.
Qed.

Lemma in_use_disjoint ext st p n q m :
  wf ext st -> in_use st !! p = Some n -> in_use st !! q = Some m -> p <> q -> p + n <= q \/ q + m <= p.
Proof.
  intros HW Hp Hq Hne. apply (in_use_lookup ext) in Hp as [i Hi]; [|done]. apply (in_use_lookup ext) in Hq as [j Hj]; [|done].
  apply allocs_Some in Hi as (bi & Hi & _ & <- & <-), Hj as (bj & Hj & _ & <- & <-).
  apply (ho_disj _ _ (c_heap _ _ _ (wf_core _ _ HW)) i bi j bj Hi Hj). congruence.
Qed.

Lemma in_use_extent ext st p n :
  wf ext st -> in_use st !! p = Some n -> 0 < p /\ 0 < n /\ p + n < 2 ^ 64 /\
  exists base len, ext !! base = Some len /\ rt_live (rt st) !! base = Some len /\ base <= p /\ p + n <= base + len.
Proof.
  intros HW Hp. apply (in_use_lookup ext) in Hp as [i Hi]; [|done]. apply allocs_Some in Hi as (b & Hi & _ & <- & <-).
  pose proof (wf_core _ _ HW) as HC. pose proof (ho_range _ _ (c_heap _ _ _ HC) _ _ Hi) as Hr.
  destruct (ho_ext _ _ (c_heap _ _ _ HC) _ _ Hi) as (base & len & He & ? & ? & _). unfold b_end in *. split_and!; [lia..|].
  exists base, len. split_and!; [done| |lia|lia]. by apply (lookup_weaken _ _ _ _ He (c_live _ _ _ HC)).
Qed.

Lemma wf_same_use ext ext' st st' :
  wf ext st -> core ext' None st' -> same_use st st' -> has_allocator st = true -> wf ext' st' /\ in_use st' = in_use st.
Proof.
  intros HW HC [HR Hal] Hhas.
  assert (HW' : wf ext' st').
  { split; [done| | |].
    - intros p i. rewrite (sr_alloc _ _ HR), Hal. apply (wf_map _ _ HW).
    - rewrite (sr_len _ _ HR). apply HW.
    - left. by rewrite (sr_has _ _ HR). }
  split; [done|]. apply map_eq. intros p. apply option_eq. intros n. rewrite !in_use_lookup by done. by setoid_rewrite Hal.
Qed.

Lemma wf_taken ext st st' i p n :
  wf ext st -> taken ext st st' i p n -> has_allocator st = true ->
  wf ext st' /\ in_use st !! p = None /\ in_use st' = <[p := n]> (in_use st).
Proof.
  intros HW HT Hhas. pose proof (t_core _ _ _ _ _ _ HT) as HC'.
  assert (Hi : allocs (blocks st') i = Some (p, n)) by (by rewrite (t_allocs _ _ _ _ _ _ HT), decide_True).
  assert (Hinj : forall j m, allocs (blocks st') j = Some (p, m) -> j = i).
  { intros j m Hj. apply allocs_Some in Hi as (bi & Hi & _ & Hpi & _), Hj as (bj & Hj & _ & Hpj & _).
    eapply (heap_ok_ptr_inj _ _ (c_heap _ _ _ HC')); [done|done|congruence]. }
  assert (Hold : forall j, j <> i -> allocs (blocks st') j = allocs (blocks st) j)
    by (intros j Hj; by rewrite (t_allocs _ _ _ _ _ _ HT), decide_False).
  pose proof (t_fresh _ _ _ _ _ _ HT) as Hf.
  assert (HW' : wf ext st').
  { split; [done| | |].
    - intros q j. rewrite (t_map _ _ _ _ _ _ HT). destruct (decide (q = p)) as [->|Hq].
      + rewrite lookup_insert_eq. split; [intros [= <-]; by exists n|]. intros [m Hm]. by rewrite (Hinj j m Hm).
      + rewrite lookup_insert_ne, (wf_map _ _ HW) by done. destruct (decide (j = i)) as [->|Hj]; [|by rewrite Hold].
        rewrite Hi, Hf. naive_solver.
    - rewrite (t_len _ _ _ _ _ _ HT). apply HW.
    - left. by rewrite (t_has _ _ _ _ _ _ HT). }
  split; [done|]. assert (in_use st !! p = None) as Hnone.
  { destruct (in_use st !! p) as [m|] eqn:Hm; [|done]. apply (in_use_lookup ext) in Hm as [j Hj]; [|done].
    assert (j <> i) as Hji by (intros ->; congruence). rewrite <- Hold in Hj by done. by destruct Hji; eapply Hinj. }
  split; [done|]. apply map_eq. intros q. apply option_eq. intros m. rewrite (in_use_lookup ext) by done.
  destruct (decide (q = p)) as [->|Hq].
  - rewrite lookup_insert_eq. split; [|intros [= <-]; by exists i]. intros [j Hj]. rewrite (Hinj _ _ Hj) in Hj. congruence.
  - rewrite lookup_insert_ne, (in_use_lookup ext) by done. split; intros [j Hj].
    + exists j. rewrite <- Hold; [done|]. intros ->. congruence.
    + exists j. rewrite Hold; [done|]. intros ->. congruence.
Qed.

Lemma ready_bins st st' :
  ready st -> has_allocator st' = has_allocator st ->
  (forall idx, is_Some (free_block_bins_ st' !! idx ≫= id) <-> is_Some (free_block_bins_ st !! idx ≫= id)) -> ready st'.
Proof. intros [Hh Hb] Hhas Hbins. split; [congruence|]. intros idx Hi. apply Hbins. by apply Hb. Qed.

(** ** Malloc *)

(** The rounding of a request to whole units of 512 bytes. *)
Lemma GetBlockSize_round size :
  0 <= size <= 2 ^ 64 - kRoundBlockSize ->
  0 < GetBlockSize size /\ size <= GetBlockSize size /\ (kRoundBlockSize | GetBlockSize size) /\
  (0 < size -> GetBlockSize size < size + kRoundBlockSize).
Proof.
  unfold GetBlockSize, kRoundBlockSize. intros Hs. destruct (Z.eqb_spec size 0) as [->|Hne].
  { split_and!; [lia|lia|by exists 1|lia]. }
  pose proof (Z.div_mod (size + 512 - 1) 512 ltac:(lia)). pose proof (Z.mod_pos_bound (size + 512 - 1) 512 ltac:(lia)).
  rewrite (wrapU64_id (size + 512 - 1)) by (unfold inU; lia). rewrite wrapU64_id by (unfold inU; lia).
  split_and!; [lia|lia| |lia]. exists ((size + 512 - 1) / 512). lia.
Qed.

(** Outcome of a request of [size] bytes, rounded. *)
Record malloced (ext : gmap Z Z) (st : CachingAllocator) (size p : Z) (ext' : gmap Z Z) (st' : CachingAllocator) : Prop := {
  ml_wf : wf ext' st';
  ml_ready : ready st';
  ml_type : ca_type st' = ca_type st;
  ml_others : others_kept ext st ext' st';
  ml_region : (p = 0 /\ in_use st' = in_use st) \/
    exists n, size <= n /\ in_use st !! p = None /\ in_use st' = <[p := n]> (in_use st);
}.

Lemma found_malloced ext ext0 st0 st size org i st' :
  wf ext st -> ready st -> found ext st size org (Some i) st' -> in_use st = in_use st0 -> ca_type st = ca_type st0 ->
  others_kept ext0 st0 ext st ->
  exists b, blocks st' !! i = Some b /\ b_ptr b <> 0 /\ malloced ext0 st0 size (b_ptr b) ext st'.
Proof.
  intros HW HR (n & j & l & b & HT & Hn & _) Hu Hty Hoth. destruct (wf_taken _ _ _ _ _ _ HW HT) as (HW' & Hnone & Hins); [apply HR|].
  destruct (t_block _ _ _ _ _ _ HT) as (b' & Hb' & Hp & Hs). exists b'. split; [done|]. rewrite Hp. split.
  { pose proof (in_use_extent ext st' (b_ptr b) n HW') as Hx. rewrite Hins, lookup_insert_eq in Hx. destruct (Hx eq_refl). lia. }
  split; [done| | | |].
  - eapply ready_bins; [done|apply HT|apply HT].
  - rewrite (t_type _ _ _ _ _ _ HT). done.
  - eapply others_trans; [exact Hoth|]. apply others_same, HT.
  - right. exists n. rewrite <- Hu. done.
Qed.

Lemma Malloc_ok ext st size org dev :
  wf ext st -> ready st -> 0 < GetBlockSize size ->
  exists p ext' st', Malloc size org dev st = Some (p, st') /\ malloced ext st (GetBlockSize size) p ext' st' /\
    (forall addr r, org = 0 -> GetBlockSize size <= 26 * kGByteSize ->
       MallocMemory (ca_type st) (GetAllocationSize (GetBlockSize size)) (rt st) = (addr, r) -> addr <> 0 ->
       (new_nothrow r).1 = true -> p <> 0).
Proof.
  intros HW HR Hpos. unfold Malloc. set (sz := GetBlockSize size) in *.
  destruct (FindFreeBlock_ok ext st sz org dev (wf_core _ _ HW) Hpos) as (o & st1 & Hrun & HF).
  erewrite bind_eq by exact Hrun. cbv beta. destruct o as [i|].
  { destruct (found_malloced ext ext st st sz org i st1) as (b & Hb & Hp & HM); [done..|].
    erewrite bind_eq by (unfold deref; by rewrite Hb). exists (b_ptr b), ext, st1. split; [done|]. split; [done|]. auto. }
  destruct HF as [-> _].
  destruct (TryExtendCache_ok ext st sz dev) as (s & ext2 & st2 & Hrun2 & HE & Hok); [apply HW|apply HR|apply HW|].
  erewrite bind_eq by exact Hrun2. cbv beta. destruct HE as [HC2 HU Hoth _ Hblk].
  destruct (wf_same_use ext ext2 st st2) as [HW2 Hu]; [done..|apply HR|].
  assert (HR2 : ready st2) by (eapply ready_bins; [done|apply HU|apply HU]).
  assert (Hty : ca_type st2 = ca_type st) by apply HU.
  destruct (decide (s = SUCCESS)) as [->|Hs].
  - rewrite bool_decide_eq_true_2 by done.
    destruct (FindFreeBlock_ok ext2 st2 sz org dev HC2 Hpos) as (o & st3 & Hrun3 & HF). erewrite bind_eq by exact Hrun3. cbv beta.
    destruct o as [i|].
    + destruct (found_malloced ext2 ext st st2 sz org i st3) as (b & Hb & Hp & HM); [done..|].
      erewrite bind_eq by (unfold deref; by rewrite Hb). exists (b_ptr b), ext2, st3. split; [done|]. split; [done|]. auto.
    + destruct HF as [-> Hnone]. exists 0, ext2, st2. split; [done|]. split; [by split; auto|].
      intros addr r -> Hfit _ _ _. destruct (Hblk eq_refl) as (i & b & Hb & Hbs & Ha & Hbin).
      destruct (core_bin _ _ _ _ _ HC2 Hb) as (idx & l & ? & Hl & _). assert (idx = GetBinIndex sz) as -> by congruence.
      assert (Hin : i ∈ l) by (apply (c_elem _ _ _ HC2 _ _ _ Hl); by exists b).
      pose proof (set_lower_bound_None _ _ _ (Hnone l Hl) i Hin) as Hk. unfold block_key, find_key, key_less in Hk.
      rewrite Hb in Hk. cbn in Hk. pose proof (GetBinIndex_fits sz Hfit). pose proof (ho_range _ _ (c_heap _ _ _ HC2) _ _ Hb).
      destruct (Z.eqb_spec (b_size b) sz); cbn [negb] in Hk; apply Z.ltb_lt in Hk; lia.
  - rewrite bool_decide_eq_false_2 by done. exists 0, ext2, st2. split; [done|]. split; [by split; auto|].
    intros addr r _ _ Hm Haddr Hnew. exfalso. apply Hs. eapply Hok; [done..|]. apply HR. apply GetBinIndex_lt.
Qed.

(** ** Free *)
Lemma Free_ok ext st p n :
  wf ext st -> in_use st !! p = Some n ->
  exists st', Free p st = Some (SUCCESS, st') /\ wf ext st' /\ in_use st' = delete p (in_use st) /\ rt st' = rt st /\
    has_allocator st' = has_allocator st /\ ca_type st' = ca_type st /\
    (forall idx, is_Some (free_block_bins_ st' !! idx ≫= id) <-> is_Some (free_block_bins_ st !! idx ≫= id)).
Proof.
  intros HW Hp. destruct (in_use_extent _ _ _ _ HW Hp) as (Hpos & _). pose proof Hp as [i Hi]%(in_use_lookup ext); [|done].
  assert (Hm : allocated_blocks_ st !! p = Some i) by (apply (wf_map _ _ HW); by exists n).
  pose proof (allocs_Some _ _ _ _ Hi) as (b & Hb & Ha & _ & _).
  set (st0 := set_allocated_blocks (delete p (allocated_blocks_ st)) st).
  assert (HC0 : core ext None st0) by (by destruct (wf_core _ _ HW); split).
  destruct (FreeBlock_ok ext st0 i b HC0 Hb Ha) as (st1 & Hrun & HC1 & HR & Hrt & Hal). exists st1.
  assert (HW1 : wf ext st1).
  { split; [done| | |].
    - intros q j. rewrite (sr_alloc _ _ HR), Hal. cbn. rewrite lookup_delete_Some, (wf_map _ _ HW).
      destruct (decide (j = i)) as [->|Hj]; [rewrite Hi; naive_solver|]. split; [by intros [_ ?]|]. intros [m Hq]. split; [|by exists m].
      intros ->. assert (allocated_blocks_ st !! q = Some j) by (apply (wf_map _ _ HW); by exists m). congruence.
    - rewrite (sr_len _ _ HR). apply HW.
    - rewrite (sr_has _ _ HR). destruct (wf_has _ _ HW) as [?|He]; [by left|]. by rewrite He in Hb. }
  split.
  { unfold Free. destruct (Z.eqb_spec p 0); [lia|]. erewrite bind_eq by reflexivity. cbv beta. rewrite Hm.
    erewrite bind_eq by reflexivity. fold st0. by erewrite bind_eq by exact Hrun. }
  split; [done|]. split; [|by destruct HR]. apply map_eq. intros q. apply option_eq. intros m.
  rewrite lookup_delete_Some, !(in_use_lookup ext) by done. setoid_rewrite Hal. cbn. split.
  - intros [j Hj]. destruct (decide (j = i)) as [->|Hne]; [done|]. split; [|by exists j]. intros ->. apply Hne.
    assert (allocated_blocks_ st !! q = Some j) by (apply (wf_map _ _ HW); by exists m). congruence.
  - intros [Hqp [j Hj]]. exists j. destruct (decide (j = i)) as [->|]; congruence.
Qed.

Lemma Free_unknown ext st p : wf ext st -> in_use st !! p = None -> Free p st = Some (PARAM_INVALID, st).
Proof.
  intros HW Hp. unfold Free. destruct (Z.eqb_spec p 0) as [|_]; [done|]. erewrite bind_eq by reflexivity. cbv beta.
  destruct (allocated_blocks_ st !! p) as [i|] eqn:Hi; [|done]. apply (wf_map _ _ HW) in Hi as [n Hn].
  assert (in_use st !! p = Some n) by (apply (in_use_lookup ext); [done|by exists i]). congruence.
Qed.

(** ** FreeBlocks *)
Lemma FreeBlocks_loop_ok ext (l : list (Z * nat)) : forall st,
  core ext None st -> NoDup (l.*2) -> (forall i, i ∈ l.*2 -> is_Some (allocs (blocks st) i)) ->
  exists st', FreeBlocks_loop l st = Some (tt, st') /\ core ext None st' /\ same_rest st st' /\ rt st' = rt st /\
    forall j, allocs (blocks st') j = if decide (j ∈ l.*2) then None else allocs (blocks st) j.
Proof.
  induction l as [|[p i] l IH]; intros st HC Hnd Hal; cbn [FreeBlocks_loop].
  { exists st. split_and!; [done|done|apply same_rest_refl|done|]. intros j. by rewrite decide_False by (cbn; set_solver). }
  cbn in Hnd. apply NoDup_cons in Hnd as [Hni Hnd]. destruct (Hal i) as [[p' n] Hi]; [set_solver|].
  pose proof (allocs_Some _ _ _ _ Hi) as (b & Hb & Ha & _).
  destruct (FreeBlock_ok ext st i b HC Hb Ha) as (st1 & Hrun & HC1 & HR1 & Hrt1 & Hal1).
  cbn [snd]. erewrite bind_eq by exact Hrun. destruct (IH st1 HC1 Hnd) as (st2 & Hrun2 & HC2 & HR2 & Hrt2 & Hal2).
  { intros j Hj. rewrite Hal1. destruct (decide (j = i)) as [->|]; [done|]. apply Hal. set_solver. }
  exists st2. split_and!; [done|done|by eapply same_rest_trans|congruence|]. intros j. rewrite Hal2, Hal1. cbn.
  destruct (decide (j ∈ l.*2)), (decide (j = i)), (decide (j ∈ i :: l.*2)); try done; set_solver.
Qed.

(** Everything is free again; [ext'] are the extents the device refused to take back. *)
Record freed (ext : gmap Z Z) (st : CachingAllocator) (ext' : gmap Z Z) (st' : CachingAllocator) : Prop := {
  fr_wf : wf ext' st';
  fr_empty : in_use st' = ∅;
  fr_has : has_allocator st' = has_allocator st;
  fr_bins idx : is_Some (free_block_bins_ st' !! idx ≫= id) <-> is_Some (free_block_bins_ st !! idx ≫= id);
  fr_others : others_kept ext st ext' st';
  fr_total : rtFree_total -> ext' = ∅ /\ blocks st' = ∅;
}.

Lemma map_order_ids ext st : wf ext st -> NoDup ((map_order (allocated_blocks_ st)).*2).
Proof.
  intros HW. rewrite map_order_perm. apply NoDup_fmap_2_strong; [|apply NoDup_map_to_list].
  intros [p i] [q j] Hp%elem_of_map_to_list Hq%elem_of_map_to_list. cbn. intros <-.
  apply (wf_map _ _ HW) in Hp as [n Hn], Hq as [m Hm]. congruence.
Qed.

(** A block whose neighbours must all be in use has none when nothing is in use. *)
Lemma all_free_unsplit ext st i b :
  core ext None st -> (forall j, allocs (blocks st) j = None) -> blocks st !! i = Some b ->
  b_allocated b = false /\ IsSplit b = false.
Proof.
  intros HC Hal Hi. assert (Hfree : forall j b, blocks st !! j = Some b -> b_allocated b = false).
  { intros j bj Hj. specialize (Hal j). unfold allocs in Hal. rewrite Hj in Hal. by destruct (b_allocated bj). }
  split; [by eapply Hfree|]. destruct (IsSplit b) eqn:Hs; [|done]. exfalso.
  assert (exists j bj k bk, blocks st !! j = Some bj /\ b_next bj = Some k /\ blocks st !! k = Some bk) as (j & bj & k & bk & Hj & Hk & Hbk).
  { unfold IsSplit in Hs. destruct (b_prev b) as [k|] eqn:Hp.
    - destruct (heap_ok_prev _ _ (c_heap _ _ _ HC) _ _ _ Hi Hp) as (bk & Hk & Hn & _). by exists k, bk, i, b.
    - destruct (b_next b) as [k|] eqn:Hn; [|done].
      destruct (ho_next _ _ (c_heap _ _ _ HC) _ _ _ Hi Hn) as (bk & Hk & _). by exists i, b, k, bk. }
  pose proof (Hfree _ _ Hj). pose proof (Hfree _ _ Hbk). destruct (c_coal _ _ _ HC j bj k bk) as [?|[?|[?|?]]]; congruence.
Qed.

Lemma FreeBlocks_ok ext st : wf ext st -> exists ext' st', FreeBlocks st = Some (tt, st') /\ freed ext st ext' st'.
Proof.
  intros HW. unfold FreeBlocks. erewrite bind_eq by reflexivity. cbv beta.
  assert (Hids : forall i, i ∈ (map_order (allocated_blocks_ st)).*2 <-> is_Some (allocs (blocks st) i)).
  { intros i. rewrite map_order_perm, list_elem_of_fmap. split.
    - intros ([p j] & -> & Hp%elem_of_map_to_list). apply (wf_map _ _ HW) in Hp as [n Hn]. by exists (p, n).
    - intros [[p n] Hn]. exists (p, i). split; [done|]. apply elem_of_map_to_list, (wf_map _ _ HW). by exists n. }
  destruct (FreeBlocks_loop_ok ext (map_order (allocated_blocks_ st)) st) as (st1 & Hrun & HC1 & HR1 & Hrt1 & Hal1);
    [apply HW|by eapply map_order_ids|intros i; apply Hids|].
  erewrite bind_eq by exact Hrun. erewrite bind_eq by reflexivity. cbv beta. set (st2 := set_allocated_blocks ∅ st1).
  assert (HC2 : core ext None st2) by (by destruct HC1; split).
  assert (Hal2 : forall j, allocs (blocks st2) j = None).
  { intros j. cbn. rewrite Hal1. destruct (decide _) as [|Hj]; [done|]. rewrite Hids in Hj. by apply eq_None_not_Some. }
  assert (Hhas2 : has_allocator st2 = true \/ blocks st2 = ∅).
  { cbn. rewrite (sr_has _ _ HR1). destruct (wf_has _ _ HW) as [?|He]; [by left|right].
    apply map_empty. intros i. destruct (blocks st1 !! i) as [b|] eqn:Hb; [|done].
    destruct (ho_ext _ _ (c_heap _ _ _ HC1) _ _ Hb) as (base & len & Hext & _).
    destruct (ho_cover _ _ (c_heap _ _ _ (wf_core _ _ HW)) _ _ Hext) as (_ & j & bj & Hj & _). by rewrite He in Hj. }
  destruct (FreeCachedBlocks_ok ext st2 HC2 Hhas2) as (ext3 & st3 & Hrun3 & HS & Hsplit).
  { cbn. rewrite (sr_len _ _ HR1). apply HW. }
  pose proof (sk_use _ _ _ _ HS) as [HR3 Hal3]. exists ext3, st3. split; [done|]. pose proof (sk_core _ _ _ _ HS) as HC3.
  assert (Hnone : forall j, allocs (blocks st3) j = None) by (intros j; by rewrite Hal3).
  assert (Hempty : rtFree_total -> blocks st3 = ∅).
  { intros HT. apply map_empty. intros i. destruct (blocks st3 !! i) as [b|] eqn:Hb; [|done].
    destruct (all_free_unsplit _ _ _ _ HC3 Hnone Hb) as [Ha Hs]. by rewrite (Hsplit HT i b Hb Ha) in Hs. }
  split.
  - split; [done| | |].
    + intros p i. rewrite (sr_alloc _ _ HR3), Hnone. cbn. rewrite lookup_empty. naive_solver.
    + rewrite (sr_len _ _ HR3). cbn. rewrite (sr_len _ _ HR1). apply HW.
    + rewrite (sr_has _ _ HR3). destruct Hhas2 as [?|He]; [by left|right]. apply map_empty. intros i.
      eapply lookup_weaken_None; [|exact (sk_blocks _ _ _ _ HS)]. by rewrite He.
  - unfold in_use. by rewrite (sr_alloc _ _ HR3).
  - rewrite (sr_has _ _ HR3). apply HR1.
  - intros idx. rewrite (sr_bins _ _ HR3). apply HR1.
  - eapply others_trans; [|apply shrunk_others; [apply HC2|done]]. apply others_same. cbn. by rewrite Hrt1.
  - intros HT. split; [|by apply Hempty]. apply map_empty. intros p. destruct (ext3 !! p) as [n|] eqn:Hp; [|done].
    destruct (ho_cover _ _ (c_heap _ _ _ HC3) _ _ Hp) as (_ & i & b & Hb & _). by rewrite (Hempty HT) in Hb.
Qed.

(** ** Initialize and Finalize *)

(** Creating a bin that was missing. *)
Lemma core_new_bin ext st k r :
  core ext None st -> free_block_bins_ st !! k = Some None -> rt_live r = rt_live (rt st) ->
  core ext None (set_rt r (set_bins (<[k := Some []]> (free_block_bins_ st)) st)).
Proof.
  intros HC Hk Hr. pose proof (lookup_lt_Some _ _ _ Hk) as Hlt.
  assert (Hinv : forall idx l, <[k := Some []]> (free_block_bins_ st) !! idx = Some (Some l) ->
    (idx = k /\ l = []) \/ (idx <> k /\ free_block_bins_ st !! idx = Some (Some l))).
  { intros idx l. destruct (decide (idx = k)) as [->|]; [rewrite list_lookup_insert_eq by done; intros [= <-]; by left|].
    rewrite list_lookup_insert_ne by done. auto. }
  split; cbn.
  - apply HC.
  - rewrite Hr. apply HC.
  - apply HC.
  - intros i b base len Hi He Hrng. destruct (c_bin _ _ _ HC i b base len Hi He Hrng) as (idx & l & ? & ? & ?).
    exists idx, l. rewrite list_lookup_insert_ne by congruence. done.
  - intros idx l i [[-> ->]|[_ Hl]]%Hinv; [|by apply (c_elem _ _ _ HC)]. split; [set_solver|].
    intros (b & Hb & Hbin & _). destruct (core_bin _ _ _ _ _ HC Hb) as (? & ? & ? & ? & _). congruence.
  - intros idx l [[-> ->]|[_ Hl]]%Hinv; [constructor|by eapply (c_sorted _ _ _ HC)].
  - apply HC.
Qed.

Lemma Initialize_bins_ok ext idxs : forall st,
  core ext None st -> length (free_block_bins_ st) = kNumBins -> (forall i, i ∈ idxs -> (i < kNumBins)%nat) ->
  exists s st', Initialize_bins idxs st = Some (s, st') /\ core ext None st' /\ blocks st' = blocks st /\
    allocated_blocks_ st' = allocated_blocks_ st /\ has_allocator st' = has_allocator st /\
    rt_live (rt st') = rt_live (rt st) /\ length (free_block_bins_ st') = kNumBins /\
    (forall idx, is_Some (free_block_bins_ st !! idx ≫= id) -> is_Some (free_block_bins_ st' !! idx ≫= id)) /\
    ((s = SUCCESS /\ forall idx, idx ∈ idxs -> is_Some (free_block_bins_ st' !! idx ≫= id)) \/
     (s = ACL_ERROR_GE_MEMORY_ALLOCATION /\ exists r, (new_nothrow r).1 = false)).
Proof.
  induction idxs as [|k idxs IH]; intros st HC Hlen Hlt; cbn [Initialize_bins].
  { exists SUCCESS, st. split_and!; try done. left. split; [done|]. set_solver. }
  erewrite bind_eq by reflexivity. cbv beta.
  assert (Hk : (k < kNumBins)%nat) by (apply Hlt; set_solver). rewrite <- Hlen in Hk. apply lookup_lt_is_Some in Hk as [o Hk]. rewrite Hk.
  destruct o as [l|].
  - destruct (IH st HC Hlen) as (s & st' & Hrun & HC' & ? & ? & ? & ? & ? & Hmono & Hs); [set_solver|].
    exists s, st'. split_and!; try done. destruct Hs as [[-> Hall]|?]; [left|by right]. split; [done|].
    intros idx [->|Hi]%elem_of_cons; [|by apply Hall]. apply Hmono. by rewrite Hk.
  - destruct (new_nothrow (rt st)) as [ok r] eqn:Hnew. pose proof (new_nothrow_live _ _ _ Hnew) as Hr. destruct ok.
    + pose proof (core_new_bin ext st k r HC Hk Hr) as HC1. set (st1 := set_rt r _) in *. pose proof (lookup_lt_Some _ _ _ Hk).
      destruct (IH st1 HC1) as (s & st' & Hrun & HC' & ? & ? & ? & Hl & ? & Hmono & Hs); [by cbn; rewrite length_insert|set_solver|].
      assert (Hkk : free_block_bins_ st1 !! k = Some (Some [])) by (by apply list_lookup_insert_eq).
      exists s, st'. split_and!; try done.
      * rewrite Hl. done.
      * intros idx Hi. apply Hmono. destruct (decide (idx = k)) as [->|]; [by rewrite Hkk|]. cbn. by rewrite list_lookup_insert_ne.
      * destruct Hs as [[-> Hall]|?]; [left|by right]. split; [done|].
        intros idx [->|Hi]%elem_of_cons; [|by apply Hall]. apply Hmono. by rewrite Hkk.
    + eexists ACL_ERROR_GE_MEMORY_ALLOCATION, (set_rt r st). split_and!; try done.
      * apply core_set_rt; [done|]. rewrite Hr. apply HC.
      * right. split; [done|]. exists (rt st). by rewrite Hnew.
Qed.

Lemma Initialize_ok ext st :
  wf ext st ->
  exists s ext' st', Initialize st = Some (s, st') /\ wf ext' st' /\ in_use st' = ∅ /\
    others_kept ext st ext' st' /\
    ((s = SUCCESS /\ ready st') \/ (s = ACL_ERROR_GE_MEMORY_ALLOCATION /\ exists r, (new_nothrow r).1 = false)).
Proof.
  intros HW. unfold Initialize. destruct (FreeBlocks_ok ext st HW) as (ext1 & st1 & Hrun & [HW1 Hu1 Hh1 Hb1 Ho1 _]).
  erewrite bind_eq by exact Hrun. cbv beta. pose proof (wf_core _ _ HW1) as HC1.
  destruct (Initialize_bins_ok ext1 (seq 0 kNumBins) st1) as (s & st2 & Hrun2 & HC2 & Hbl & Hal & Hh2 & Hl2 & Hn2 & _ & Hs);
    [done|apply HW1|intros i Hi%elem_of_seq; lia|].
  erewrite bind_eq by exact Hrun2. cbv beta.
  assert (Hmap : forall p i, allocated_blocks_ st2 !! p = Some i <-> exists n, allocs (blocks st2) i = Some (p, n))
    by (intros p i; rewrite Hal, Hbl; apply (wf_map _ _ HW1)).
  destruct Hs as [[-> Hall]|[-> Hfail]].
  - rewrite bool_decide_eq_true_2 by done. cbn [negb]. erewrite bind_eq by reflexivity. eexists SUCCESS, ext1, _. split; [reflexivity|].
    split_and!; [|by rewrite <- Hu1; unfold in_use; cbn; rewrite Hbl, Hal|eapply others_trans; [done|by apply others_same]|left].
    + split; cbn; [by destruct HC2; split|done|done|by left].
    + split; [done|]. split; cbn; [done|]. intros idx Hi. apply Hall, elem_of_seq. lia.
  - rewrite bool_decide_eq_false_2 by done. cbn [negb]. exists ACL_ERROR_GE_MEMORY_ALLOCATION, ext1, st2. split; [done|].
    split_and!; [|by rewrite <- Hu1; unfold in_use; rewrite Hbl, Hal|eapply others_trans; [done|by apply others_same]|by right].
    split; [done|done|done|]. rewrite Hh2, Hbl. apply HW1.
Qed.

(** A new allocator is well formed. *)
Lemma CachingAllocator_new_wf memory_type r : wf ∅ (CachingAllocator_new memory_type r).
Proof.
  split; cbn; [split; cbn|..].
  - split; try (intros *; rewrite lookup_empty; done).
  - apply map_empty_subseteq.
  - intros i b. by rewrite lookup_empty.
  - intros i b base len. by rewrite lookup_empty.
  - intros idx l i [? _]%(lookup_replicate kNumBins). done.
  - intros idx l [? _]%(lookup_replicate kNumBins). done.
  - intros i b j b'. by rewrite lookup_empty.
  - intros p i. rewrite lookup_empty. unfold allocs. rewrite lookup_empty. naive_solver.
  - done.
  - by right.
Qed.
End Extents.
