(* ===== verification/CachingTheorems.v ===== *)
(** What the caching allocator promises its clients (graph_caching_allocator.{h,cc}).

    The abstract state is the set of regions in use.  [spec_step] says what a call may
    answer and how it changes that set; [caching_refinement] shows that every sequence of
    calls of the modelled methods is a run of that specification, never stuck.  The other
    theorems give the guarantees the specification leaves open: when a request must
    succeed, which block it gets, what the device holds before and after. *)
From S2P Require Import Prelude MemAllocator BlockHeap CachingAllocator CachingInvariant CachingContract.

(** * The specification *)
Inductive call :=
| CMalloc (size org_ptr device_id : Z)
| CFree (ptr : Z).

Inductive answer :=
| AAddr (p : Z)
| AStatus (s : Status).

(** The arguments are size_t values; the last 511 sizes are the ones the rounding wraps on. *)
Definition call_ok (c : call) : Prop :=
  match c with
  | CMalloc size _ _ => 0 <= size <= 2 ^ 64 - kRoundBlockSize
  | CFree _ => True
  end.

Inductive spec_step (u : gmap Z Z) : call -> answer -> gmap Z Z -> Prop :=
| spec_null size org dev : spec_step u (CMalloc size org dev) (AAddr 0) u
| spec_malloc size org dev p n :
    0 < p -> size <= n -> p + n < 2 ^ 64 ->
    (forall q m, u !! q = Some m -> p + n <= q \/ q + m <= p) ->
    u !! p = None ->
    spec_step u (CMalloc size org dev) (AAddr p) (<[p := n]> u)
| spec_free p n : u !! p = Some n -> spec_step u (CFree p) (AStatus SUCCESS) (delete p u)
| spec_free_unknown p : u !! p = None -> spec_step u (CFree p) (AStatus PARAM_INVALID) u.

Inductive spec_run : gmap Z Z -> list call -> list answer -> gmap Z Z -> Prop :=
| spec_run_nil u : spec_run u [] [] u
| spec_run_cons u c a u1 cs l u2 : spec_step u c a u1 -> spec_run u1 cs l u2 -> spec_run u (c :: cs) (a :: l) u2.

Section Theorems.
Context `{R : Runtime} {RO : RuntimeOk R}.

Definition do_call (c : call) : M answer :=
  match c with
  | CMalloc size org_ptr device_id => p ← Malloc size org_ptr device_id; mret (AAddr p)
  | CFree ptr => s ← Free ptr; mret (AStatus s)
  end.

Fixpoint run_calls (cs : list call) : M (list answer) :=
  match cs with
  | [] => mret []
  | c :: cs => a ← do_call c; l ← run_calls cs; mret (a :: l)
  end.

Lemma do_call_ok ext st c :
  wf ext st -> ready st -> call_ok c ->
  exists a ext' st', do_call c st = Some (a, st') /\ spec_step (in_use st) c a (in_use st') /\
    wf ext' st' /\ ready st' /\ others_kept ext st ext' st'.
Proof.
  intros HW HR Hc. destruct c as [size org dev|p]; cbn [do_call].
  - destruct (GetBlockSize_round size Hc) as (Hpos & Hle & _).
    destruct (Malloc_ok ext st size org dev HW HR Hpos) as (p & ext' & st' & Hrun & [HW' HR' _ Hoth Hreg] & _).
    exists (AAddr p), ext', st'. erewrite bind_eq by exact Hrun. split; [done|]. split; [|done].
    destruct Hreg as [[-> ->]|(n & Hn & Hf & Hu)]; [constructor|].
    assert (Hp : in_use st' !! p = Some n) by (rewrite Hu; apply lookup_insert_eq).
    destruct (in_use_extent _ _ _ _ HW' Hp) as (? & ? & ? & _). rewrite Hu. constructor; [done|lia|done| |done].
    intros q m Hq. assert (p <> q) by (intros ->; congruence).
    apply (in_use_disjoint ext' st' p n q m HW' Hp); [by rewrite Hu, lookup_insert_ne|done].
  - destruct (in_use st !! p) as [n|] eqn:Hp.
    + destruct (Free_ok ext st p n HW Hp) as (st' & Hrun & HW' & Hu & Hrt & Hh & _ & Hb). exists (AStatus SUCCESS), ext, st'.
      erewrite bind_eq by exact Hrun. split; [done|]. rewrite Hu. split; [by econstructor|]. split; [done|].
      split; [by eapply ready_bins|]. apply others_same. by rewrite Hrt.
    + exists (AStatus PARAM_INVALID), ext, st. erewrite bind_eq by (by eapply Free_unknown). split; [done|].
      split; [by constructor|]. split; [done|]. split; [done|]. by apply others_same.
Qed.

Lemma run_calls_ok cs : forall ext st,
  wf ext st -> ready st -> Forall call_ok cs ->
  exists l ext' st', run_calls cs st = Some (l, st') /\ spec_run (in_use st) cs l (in_use st') /\
    wf ext' st' /\ ready st' /\ others_kept ext st ext' st'.
Proof.
  induction cs as [|c cs IH]; intros ext st HW HR Hcs; cbn [run_calls].
  { exists [], ext, st. split; [done|]. split; [constructor|]. split; [done|]. split; [done|]. by apply others_same. }
  apply Forall_cons in Hcs as [Hc Hcs].
  destruct (do_call_ok ext st c HW HR Hc) as (a & ext1 & st1 & Hrun & Hstep & HW1 & HR1 & Hoth1).
  destruct (IH ext1 st1 HW1 HR1 Hcs) as (l & ext2 & st2 & Hrun2 & Hsteps & HW2 & HR2 & Hoth2).
  exists (a :: l), ext2, st2. erewrite bind_eq by exact Hrun. erewrite bind_eq by exact Hrun2. split; [done|].
  split; [by econstructor|]. split; [done|]. split; [done|]. by eapply others_trans.
Qed.

(** C1 Refinement: from an initialised allocator, any sequence of Malloc and Free calls runs to the
    end (no null or dangling pointer is ever dereferenced) and its answers are a run of the
    specification: Malloc answers null or a region of at least the requested size that
    overlaps no region in use, Free takes back exactly the region that starts at its argument and
    refuses any other address.  The invariant holds again at the end, and no region
    of the device that the allocator does not hold is lost. *)
Theorem caching_refinement ext st cs :
  wf ext st -> ready st -> Forall call_ok cs ->
  exists l ext' st', run_calls cs st = Some (l, st') /\ spec_run (in_use st) cs l (in_use st') /\
    wf ext' st' /\ ready st' /\ others_kept ext st ext' st'.
Proof. apply run_calls_ok. Qed.

(** C16 At every moment of the life of an initialised allocator, after any calls, the regions in use are
    pairwise disjoint, non-empty, do not wrap around the address space, and each lies inside an
    extent that is live on the device. *)
Theorem caching_regions_disjoint memory_type r cs st1 l st2 p n :
  Initialize (CachingAllocator_new memory_type r) = Some (SUCCESS, st1) -> Forall call_ok cs ->
  run_calls cs st1 = Some (l, st2) -> in_use st2 !! p = Some n ->
  0 < p /\ 0 < n /\ p + n < 2 ^ 64 /\
  (exists base len, rt_live (rt st2) !! base = Some len /\ base <= p /\ p + n <= base + len) /\
  (forall q m, in_use st2 !! q = Some m -> p <> q -> p + n <= q \/ q + m <= p).
Proof.
  intros Hinit Hcs Hrun Hp.
  destruct (Initialize_ok ∅ _ (CachingAllocator_new_wf memory_type r)) as (s & ext1 & st & Hrun1 & HW1 & _ & _ & Hs).
  rewrite Hinit in Hrun1. injection Hrun1 as <- <-. destruct Hs as [[_ HR1]|[? _]]; [|done].
  destruct (run_calls_ok cs ext1 st1 HW1 HR1 Hcs) as (l' & ext & st & Hrun2 & _ & HW & _).
  rewrite Hrun in Hrun2. injection Hrun2 as <- <-.
  destruct (in_use_extent _ _ _ _ HW Hp) as (? & ? & ? & base & len & _ & ? & ? & ?). split_and!; [done..| |].
  - by exists base, len.
  - intros q m Hq Hne. by eapply in_use_disjoint.
Qed.

(** C17 Progress: a request without address hint whose rounded size is at most 26 GB succeeds when the
    device grants an extent of the request's bin and the host heap can hold its block. *)
Theorem malloc_progress ext st size dev addr r :
  wf ext st -> ready st -> 0 <= size <= 2 ^ 64 - kRoundBlockSize -> GetBlockSize size <= 26 * kGByteSize ->
  MallocMemory (ca_type st) (GetAllocationSize (GetBlockSize size)) (rt st) = (addr, r) -> addr <> 0 ->
  (new_nothrow r).1 = true ->
  exists p n st', Malloc size 0 dev st = Some (p, st') /\ 0 < p /\ size <= n /\
    in_use st !! p = None /\ in_use st' = <[p := n]> (in_use st).
Proof.
  intros HW HR Hs Hfit Hm Haddr Hnew. destruct (GetBlockSize_round size Hs) as (Hpos & Hle & _).
  destruct (Malloc_ok ext st size 0 dev HW HR Hpos) as (p & ext' & st' & Hrun & [HW' _ _ _ Hreg] & Hok).
  assert (p <> 0) by (by eapply Hok). destruct Hreg as [[? _]|(n & Hn & Hf & Hu)]; [done|].
  assert (Hp : in_use st' !! p = Some n) by (rewrite Hu; apply lookup_insert_eq).
  destruct (in_use_extent _ _ _ _ HW' Hp) as (? & _). exists p, n, st'. split_and!; [done|done|lia|done|done].
Qed.

(** The size of a block: a request is rounded to the smallest positive multiple of 512 bytes that
    holds it, for every size up to 2^64 - 512; for the 511 sizes above, the rounding wraps around to 0. *)
Theorem GetBlockSize_least size :
  0 <= size < 2 ^ 64 ->
  (size <= 2 ^ 64 - kRoundBlockSize /\ size <= GetBlockSize size /\ (kRoundBlockSize | GetBlockSize size) /\
   forall m, 0 < m -> (kRoundBlockSize | m) -> size <= m -> GetBlockSize size <= m) \/
  (2 ^ 64 - kRoundBlockSize < size /\ GetBlockSize size = 0).
Proof.
  intros Hs. destruct (Z.le_gt_cases size (2 ^ 64 - kRoundBlockSize)) as [Hle|Hgt]; [left|right]; (split; [done|]).
  - destruct (GetBlockSize_round size) as (Hpos & ? & [u Hu] & Hlt); [lia|]. split_and!; [done|by exists u|].
    intros m Hm [v ->] Hsm. rewrite Hu in *. unfold kRoundBlockSize in *. destruct (Z.eqb_spec size 0) as [->|].
    + unfold GetBlockSize, kRoundBlockSize in Hu. cbn in Hu. lia.
    + specialize (Hlt ltac:(lia)). nia.
  - unfold GetBlockSize, kRoundBlockSize in *. destruct (Z.eqb_spec size 0); [lia|].
    assert (wrapU64 (size + 512 - 1) = size + 512 - 1 - 2 ^ 64) as ->.
    { unfold wrapU64, wrapU. symmetry. apply (Z.mod_unique _ _ 1); lia. }
    rewrite Z.div_small by lia. done.
Qed.

(** ** Which block a request gets *)

(** A free block the bin of [size] holds. *)
Definition free_in_bin (st : CachingAllocator) (size : Z) (j : nat) (b : Block) : Prop :=
  blocks st !! j = Some b /\ b_allocated b = false /\ b_bin b = Some (GetBinIndex size).

Lemma free_in_bin_elem ext st size j b :
  core ext None st -> free_in_bin st size j b ->
  exists l, free_block_bins_ st !! GetBinIndex size = Some (Some l) /\ j ∈ l /\ bin_sorted (blocks st) l /\
    forall k bk, blocks st !! k = Some bk -> k ∈ l <-> free_in_bin st size k bk.
Proof.
  intros HC (Hj & Ha & Hb). destruct (core_bin _ _ _ _ _ HC Hj) as (idx & l & Hb' & Hl & _).
  assert (idx = GetBinIndex size) as -> by congruence. exists l. split; [done|].
  split; [apply (c_elem _ _ _ HC _ _ _ Hl); by exists b|]. split; [by eapply (c_sorted _ _ _ HC)|].
  intros k bk Hk. rewrite (c_elem _ _ _ HC _ _ k Hl). split; [|by intros (? & ? & ?); exists bk].
  intros (b0 & ? & ? & ? & _). assert (b0 = bk) as -> by congruence. done.
Qed.

Lemma Malloc_hit ext st size org dev l j b :
  core ext None st -> 0 < GetBlockSize size ->
  free_block_bins_ st !! GetBinIndex (GetBlockSize size) = Some (Some l) ->
  set_lower_bound (blocks st) (find_key (GetBlockSize size) org) l = Some j -> blocks st !! j = Some b ->
  exists i n st', Malloc size org dev st = Some (b_ptr b, st') /\ taken ext st st' i (b_ptr b) n /\ GetBlockSize size <= n /\
    ((new_nothrow (rt st)).1 = true -> 3 * n < 4 * GetBlockSize size).
Proof.
  intros HC Hpos Hl Hlb Hb. unfold Malloc. destruct (FindFreeBlock_ok ext st (GetBlockSize size) org dev HC Hpos) as (o & st' & Hrun & HF).
  erewrite bind_eq by exact Hrun. cbv beta. destruct o as [i|]; [|destruct HF as [_ Hnone]; specialize (Hnone l Hl); congruence].
  destruct HF as (n & j' & l' & b' & HT & Hn & Hl' & Hlb' & Hb' & Hw). assert (l' = l) as -> by congruence.
  assert (j' = j) as -> by congruence. assert (b' = b) as -> by congruence. exists i, n, st'.
  destruct (t_block _ _ _ _ _ _ HT) as (bi & Hi & Hp & _). erewrite bind_eq by (unfold deref; by rewrite Hi).
  rewrite Hp. done.
Qed.

(** Best fit: when the bin of the rounded request holds a sufficient free block, Malloc (without hint)
    does not touch the device; it answers the start of the smallest sufficient one, the lowest address
    among equals, and hands out less than four thirds of the rounded size unless the host heap is exhausted. *)
Theorem malloc_best_fit ext st size dev k bk :
  wf ext st -> 0 <= size <= 2 ^ 64 - kRoundBlockSize ->
  free_in_bin st (GetBlockSize size) k bk -> GetBlockSize size <= b_size bk ->
  exists j b i n st', free_in_bin st (GetBlockSize size) j b /\ GetBlockSize size <= b_size b /\
    (forall x bx, free_in_bin st (GetBlockSize size) x bx -> GetBlockSize size <= b_size bx ->
       b_size b < b_size bx \/ (b_size b = b_size bx /\ b_ptr b <= b_ptr bx)) /\
    Malloc size 0 dev st = Some (b_ptr b, st') /\ allocs (blocks st') i = Some (b_ptr b, n) /\ GetBlockSize size <= n /\
    ((new_nothrow (rt st)).1 = true -> 3 * n < 4 * GetBlockSize size) /\
    rt_live (rt st') = rt_live (rt st).
Proof.
  intros HW Hs Hk Hfit. destruct (GetBlockSize_round size Hs) as (Hpos & _). set (sz := GetBlockSize size) in *.
  pose proof (wf_core _ _ HW) as HC. destruct (free_in_bin_elem ext st sz k bk HC Hk) as (l & Hl & Hin & Hsort & Hmem).
  assert (Hkey : forall x bx, blocks st !! x = Some bx -> sz <= b_size bx -> key_less (block_key (blocks st) x) (find_key sz 0) = false).
  { intros x bx Hx Hsz. unfold key_less, block_key, find_key. rewrite Hx. cbn. pose proof (ho_range _ _ (c_heap _ _ _ HC) _ _ Hx).
    destruct (Z.eqb_spec (b_size bx) sz); cbn [negb]; apply Z.ltb_ge; lia. }
  destruct (set_lower_bound (blocks st) (find_key sz 0) l) as [j|] eqn:Hlb.
  2: { pose proof (set_lower_bound_None _ _ _ Hlb k Hin). rewrite (Hkey k bk) in *; [done|apply Hk|done]. }
  destruct (set_lower_bound_Some _ _ _ _ Hlb) as (Hj & Hjk & Hmin). specialize (Hmin Hsort).
  pose proof Hj as (b & Hb & _)%(c_elem _ _ _ HC _ _ _ Hl).
  destruct (Malloc_hit ext st size 0 dev l j b HC Hpos Hl Hlb Hb) as (i & n & st' & Hrun & HT & Hn & Hw).
  exists j, b, i, n, st'. split_and!; [by apply (Hmem j)| | |done| |done|done|apply HT].
  - apply key_not_less_size in Hjk. unfold block_key in Hjk. by rewrite Hb in Hjk.
  - intros x bx Hx Hsx. destruct (Hmin x) as [->|Hless]; [by apply (Hmem x bx); [apply Hx|]|eapply Hkey; [apply Hx|done]| |].
    + destruct Hx as [Hx _]. assert (bx = b) as -> by congruence. lia.
    + unfold bin_less, key_less, block_key in Hless. destruct Hx as [Hx _]. rewrite Hb, Hx in Hless. cbn in Hless.
      destruct (Z.eqb_spec (b_size b) (b_size bx)); cbn [negb] in Hless; apply Z.ltb_lt in Hless; lia.
  - by rewrite (t_allocs _ _ _ _ _ _ HT), decide_True.
Qed.

(** Address hint: when the block that starts at [org_ptr] is free again with exactly the rounded size,
    Malloc answers [org_ptr]: a client that asks for its old address gets it back. *)
Theorem malloc_hint ext st size org dev k bk :
  wf ext st -> 0 <= size <= 2 ^ 64 - kRoundBlockSize ->
  free_in_bin st (GetBlockSize size) k bk -> b_size bk = GetBlockSize size -> b_ptr bk = org ->
  exists st', Malloc size org dev st = Some (org, st').
Proof.
  intros HW Hs Hk Hsz <-. destruct (GetBlockSize_round size Hs) as (Hpos & _ & [u Hu] & _).
  pose proof (wf_core _ _ HW) as HC. pose proof (c_heap _ _ _ HC) as HO. unfold kRoundBlockSize in Hu. set (sz := GetBlockSize size) in *.
  destruct (free_in_bin_elem ext st sz k bk HC Hk) as (l & Hl & Hin & Hsort & Hmem). destruct Hk as [Hk _].
  pose proof (ho_range _ _ HO _ _ Hk) as Hr.
  assert (Hfk : find_key sz (b_ptr bk) = (sz, b_ptr bk - 1)) by (unfold find_key; destruct (Z.eqb_spec (b_ptr bk) 0); [lia|done]).
  assert (Hkk : key_less (block_key (blocks st) k) (find_key sz (b_ptr bk)) = false).
  { rewrite Hfk. unfold key_less, block_key. rewrite Hk. cbn. rewrite Hsz, Z.eqb_refl. cbn. apply Z.ltb_ge. lia. }
  destruct (set_lower_bound (blocks st) (find_key sz (b_ptr bk)) l) as [j|] eqn:Hlb.
  2: { pose proof (set_lower_bound_None _ _ _ Hlb k Hin). congruence. }
  destruct (set_lower_bound_Some _ _ _ _ Hlb) as (Hj & Hjk & Hmin). pose proof Hj as (b & Hb & _)%(c_elem _ _ _ HC _ _ _ Hl).
  destruct (Malloc_hit ext st size (b_ptr bk) dev l j b HC Hpos Hl Hlb Hb) as (i & n & st' & Hrun & _).
  exists st'. rewrite Hrun. do 2 f_equal. destruct (Hmin Hsort k Hin Hkk) as [->|Hless]; [congruence|].
  destruct (decide (j = k)) as [->|Hjne]; [congruence|].
  pose proof (ho_disj _ _ HO _ _ _ _ Hb Hk Hjne). pose proof (ho_range _ _ HO _ _ Hb). exfalso. unfold b_end in *.
  rewrite Hfk in Hjk. unfold bin_less, key_less, block_key in Hless, Hjk. rewrite Hb, ?Hk in Hless. rewrite Hb in Hjk. cbn in Hless, Hjk.
  destruct (Z.eqb_spec (b_size b) sz), (Z.eqb_spec (b_size b) (b_size bk)); cbn [negb] in *;
    apply Z.ltb_lt in Hless; apply Z.ltb_ge in Hjk; lia.
Qed.

(** C32 A request above 26 GB and up to 2^64 - 512 bytes is always answered with the null pointer: no bin can hold it.  For
    the last 511 sizes of size_t GetBlockSize wraps around to zero ([GetBlockSize_least]); they are not covered. *)
Theorem malloc_oversize ext st size org dev :
  wf ext st -> ready st -> 26 * kGByteSize < size <= 2 ^ 64 - kRoundBlockSize ->
  exists ext' st', Malloc size org dev st = Some (0, st') /\ in_use st' = in_use st /\ wf ext' st'.
Proof.
  intros HW HR Hs. destruct (GetBlockSize_round size) as (Hpos & Hle & _); [unfold kGByteSize in *; lia|].
  destruct (Malloc_ok ext st size org dev HW HR Hpos) as (p & ext' & st' & Hrun & [HW' _ _ _ Hreg] & _).
  destruct Hreg as [[-> Hu]|(n & Hn & _ & Hu)]; [by exists ext', st'|]. exfalso.
  assert (Hp : in_use st' !! p = Some n) by (rewrite Hu; apply lookup_insert_eq).
  apply (in_use_lookup ext') in Hp as [i Hi]; [|done]. apply allocs_Some in Hi as (b & Hb & _ & _ & Hbs).
  destruct (core_bin _ _ _ _ _ (wf_core _ _ HW') Hb) as (idx & _ & _ & _ & Hbound). pose proof (bin_range_bound idx). lia.
Qed.

(** ** Finalisation and the life of an allocator *)
Lemma Finalize_ok ext st :
  wf ext st -> exists ext' st', Finalize st = Some (tt, st') /\ in_use st' = ∅ /\ others_kept ext st ext' st' /\
    free_block_bins_ st' = replicate kNumBins None /\ (rtFree_total -> ext' = ∅ /\ blocks st' = ∅).
Proof.
  intros HW. unfold Finalize. destruct (FreeBlocks_ok ext st HW) as (ext' & st1 & Hrun & [HW1 Hu _ _ Hoth Htot]).
  erewrite bind_eq by exact Hrun. eexists ext', _. split; [reflexivity|]. split; [exact Hu|]. split; [|split; [|exact Htot]].
  - eapply others_trans; [done|]. by apply others_same.
  - cbn. by rewrite (wf_len _ _ HW1).
Qed.

(** Finalize gives every extent back: when the device refuses no release, what is live on it
    afterwards is what was live before minus the extents of the allocator, whatever was still in
    use; no block object is left and all bins are gone. *)
Theorem finalize_returns_extents ext st :
  wf ext st -> rtFree_total ->
  exists st', Finalize st = Some (tt, st') /\ rt_live (rt st') = rt_live (rt st) ∖ ext /\ blocks st' = ∅ /\
    in_use st' = ∅ /\ free_block_bins_ st' = replicate kNumBins None.
Proof.
  intros HW HT. destruct (Finalize_ok ext st HW) as (ext' & st' & Hrun & Hu & [HF HB] & Hb & Htot).
  destruct (Htot HT) as [-> Hbl]. exists st'. split_and!; try done. apply map_eq. intros q. apply option_eq. intros n.
  rewrite lookup_difference_Some. split; [|intros []; by apply HF]. intros Hq. by apply (HB HT).
Qed.

(** C5 The whole life of an allocator: constructed, initialised, used by any sequence of calls
    and finalised, it runs to the end, answers as specified, and leaves the device exactly
    as it found it, provided the host heap is not exhausted and the device refuses no release. *)
Theorem caching_lifecycle memory_type r cs :
  rtFree_total -> (forall r, (new_nothrow r).1 = true) -> Forall call_ok cs ->
  exists l st1 st2 st3, Initialize (CachingAllocator_new memory_type r) = Some (SUCCESS, st1) /\
    run_calls cs st1 = Some (l, st2) /\ spec_run ∅ cs l (in_use st2) /\
    Finalize st2 = Some (tt, st3) /\ blocks st3 = ∅ /\ rt_live (rt st3) = rt_live r.
Proof.
  intros HT Hnew Hcs. pose proof (CachingAllocator_new_wf memory_type r) as HW0.
  destruct (Initialize_ok ∅ _ HW0) as (s & ext1 & st1 & Hrun1 & HW1 & Hu1 & Ho1 & Hs).
  destruct Hs as [[-> HR1]|(_ & r' & Hr')]; [|by rewrite Hnew in Hr'].
  destruct (run_calls_ok cs ext1 st1 HW1 HR1 Hcs) as (l & ext2 & st2 & Hrun2 & Hspec & HW2 & _ & Ho2).
  destruct (Finalize_ok ext2 st2 HW2) as (ext3 & st3 & Hrun3 & _ & Ho3 & _ & Htot). destruct (Htot HT) as [-> Hbl].
  exists l, st1, st2, st3. rewrite Hu1 in Hspec. split_and!; try done.
  eapply (kept_all r); [|done]. exact (others_trans _ _ _ _ _ _ Ho1 (others_trans _ _ _ _ _ _ Ho2 Ho3)).
Qed.
End Theorems.

(** * Concrete runs *)
Local Existing Instance sample_runtime.
Local Existing Instance sample_runtime_ok.

(** An initialised allocator on the sample runtime, and the same after one block was used and freed. *)
Definition ca0 : CachingAllocator :=
  match Initialize (CachingAllocator_new 2 rt0) with Some (_, st) => st | None => CachingAllocator_new 2 rt0 end.
Definition calls1 : list call := [CMalloc 1000 0 0; CMalloc 3000 0 0; CFree 4096].
Definition ca1 : CachingAllocator :=
  match run_calls calls1 ca0 with Some (_, st) => st | None => ca0 end.

Lemma sample_rtFree_total : rtFree_total.
Proof. intros p r n Hn. cbn in *. by rewrite Hn. Qed.

Lemma ca0_ok : exists ext, wf ext ca0 /\ ready ca0 /\ Initialize (CachingAllocator_new 2 rt0) = Some (SUCCESS, ca0).
Proof.
  destruct (Initialize_ok ∅ (CachingAllocator_new 2 rt0) (CachingAllocator_new_wf 2 rt0)) as (s & ext & st & Hrun & HW & _ & _ & Hs).
  exists ext. unfold ca0. rewrite Hrun. split; [exact HW|]. by destruct Hs as [[-> ?]|(_ & r & Hr)].
Qed.

Lemma calls1_ok : Forall call_ok calls1.
Proof. repeat constructor; cbn; unfold kRoundBlockSize; lia. Qed.

Lemma ca1_ok : exists ext l, wf ext ca1 /\ ready ca1 /\ run_calls calls1 ca0 = Some (l, ca1).
Proof.
  destruct ca0_ok as (ext & HW & HR & _).
  destruct (run_calls_ok calls1 ext ca0 HW HR calls1_ok) as (l & ext' & st' & Hrun & _ & HW' & HR' & _).
  exists ext', l. unfold ca1. rewrite Hrun. exact (conj HW' (conj HR' eq_refl)).
Qed.

Lemma caching_refinement_witness :
  exists l ext' st', run_calls [CMalloc 1000 0 0; CFree 4096; CFree 1] ca1 = Some (l, st') /\
    spec_run (in_use ca1) [CMalloc 1000 0 0; CFree 4096; CFree 1] l (in_use st') /\ wf ext' st'.
Proof.
  destruct ca1_ok as (ext & _ & HW & HR & _).
  destruct (caching_refinement ext ca1 [CMalloc 1000 0 0; CFree 4096; CFree 1] HW HR) as (l & ext' & st' & H1 & H2 & H3 & _).
  { repeat constructor; cbn; unfold kRoundBlockSize; lia. }
  exists l, ext', st'. exact (conj H1 (conj H2 H3)).
Defined.

Lemma caching_regions_disjoint_witness : in_use ca1 !! 5120 = Some 3072 /\ 5120 + 3072 < 2 ^ 64.
Proof.
  assert (Hin : in_use ca1 !! 5120 = Some 3072) by (vm_compute; reflexivity). split; [exact Hin|].
  destruct ca0_ok as (_ & _ & _ & Hinit). destruct ca1_ok as (_ & l & _ & _ & Hrun).
  exact (proj1 (proj2 (proj2 (caching_regions_disjoint 2 rt0 calls1 ca0 l ca1 5120 3072 Hinit calls1_ok Hrun Hin)))).
Defined.

Lemma GetBlockSize_least_witness : 1000 <= GetBlockSize 1000 /\ GetBlockSize (2 ^ 64 - 1) = 0.
Proof.
  split.
  - destruct (GetBlockSize_least 1000) as [(_ & H & _)|[H _]]; [lia|exact H|unfold kRoundBlockSize in H; lia].
  - destruct (GetBlockSize_least (2 ^ 64 - 1)) as [(H & _)|[_ H]]; [lia|unfold kRoundBlockSize in H; lia|exact H].
Defined.

Lemma malloc_progress_witness : exists p n st', Malloc 1000000 0 0 ca1 = Some (p, st') /\ 0 < p /\ 1000000 <= n.
Proof.
  destruct ca1_ok as (ext & _ & HW & HR & _).
  destruct (malloc_progress ext ca1 1000000 0 528384 (MallocMemory (ca_type ca1) (GetAllocationSize (GetBlockSize 1000000)) (rt ca1)).2)
    as (p & n & st' & H1 & H2 & H3 & _); [done|done|unfold kRoundBlockSize; lia|by vm_compute|by vm_compute|done|done|].
  exists p, n, st'. exact (conj H1 (conj H2 H3)).
Defined.

(** The freed block of [ca1]. *)
Definition bk1 : Block := set_next (Some 2%nat) (new_Block 0 1024 (Some 0%nat) 4096).

Lemma malloc_best_fit_witness : exists b st', Malloc 1000 0 0 ca1 = Some (b_ptr b, st') /\ rt_live (rt st') = rt_live (rt ca1).
Proof.
  destruct ca1_ok as (ext & _ & HW & _).
  destruct (malloc_best_fit ext ca1 1000 0 1 bk1) as (j & b & i & n & st' & _ & _ & _ & H1 & _ & _ & _ & H2);
    [done|unfold kRoundBlockSize; lia|split_and!; by vm_compute|by vm_compute|].
  exists b, st'. exact (conj H1 H2).
Defined.

Lemma malloc_hint_witness : exists st', Malloc 1000 4096 0 ca1 = Some (4096, st').
Proof.
  destruct ca1_ok as (ext & _ & HW & _).
  apply (malloc_hint ext ca1 1000 4096 0 1 bk1 HW); [unfold kRoundBlockSize; lia|split_and!; by vm_compute|by vm_compute|done].
Defined.

Lemma malloc_oversize_witness : exists st', Malloc (27 * kGByteSize) 0 0 ca1 = Some (0, st') /\ in_use st' = in_use ca1.
Proof.
  destruct ca1_ok as (ext & _ & HW & HR & _).
  destruct (malloc_oversize ext ca1 (27 * kGByteSize) 0 0 HW HR) as (_ & st' & H1 & H2 & _); [unfold kGByteSize, kRoundBlockSize; lia|].
  exists st'. exact (conj H1 H2).
Defined.

(** A request of 27 GB is refused, but only after an extent of 26 GB, which cannot serve it, was
    taken from the device and put into the cache. *)
Theorem malloc_oversize_takes_extent :
  match Malloc (27 * kGByteSize) 0 0 ca0 with
  | Some (p, st) => p = 0 /\ rt_live (rt ca0) = ∅ /\ rt_live (rt st) = {[4096 := 26 * kGByteSize]}
  | None => False
  end.
Proof. by vm_compute. Qed.

Lemma finalize_returns_extents_witness : exists st', Finalize ca1 = Some (tt, st') /\ blocks st' = ∅ /\ in_use st' = ∅.
Proof.
  destruct ca1_ok as (ext & _ & HW & _).
  destruct (finalize_returns_extents ext ca1 HW sample_rtFree_total) as (st' & H1 & _ & H2 & H3 & _).
  exists st'. exact (conj H1 (conj H2 H3)).
Defined.

Lemma caching_lifecycle_witness :
  exists l st1 st2 st3, Initialize (CachingAllocator_new 2 rt1) = Some (SUCCESS, st1) /\
    run_calls [CMalloc 1000 0 0; CMalloc 3000 0 0; CFree 8192] st1 = Some (l, st2) /\
    Finalize st2 = Some (tt, st3) /\ rt_live (rt st3) = {[4096 := 512]}.
Proof.
  destruct (caching_lifecycle 2 rt1 [CMalloc 1000 0 0; CMalloc 3000 0 0; CFree 8192] sample_rtFree_total)
    as (l & st1 & st2 & st3 & H1 & H2 & _ & H3 & _ & H4).
  { done. }
  { repeat constructor; cbn; unfold kRoundBlockSize; lia. }
  exists l, st1, st2, st3. exact (conj H1 (conj H2 (conj H3 H4))).
Defined.
