(* ===== verification/MemRanges.v ===== *)
(** The block sizes of the memory assigner (ge/graph/build/memory): how the sizes
    of all outputs and workspaces of a graph are grouped into a few ranges
    ([BinaryBlockMemAssigner.GetMemoryRanges] and its [PlanRanges],
    [MaxBlockMemAssigner.GetMemoryRanges]), and which size a request gets
    ([GetBlockSizeOf], the free function GetBlockSize).

    The number of ranges the binary assigner starts from is computed in floating
    point and the overflow test of the doubling is a function of the metadef
    submodule; both are the operations of the class [RangeEnv].  The theorems show that the
    merging loop of [PlanRanges] ends, keeps every size and leaves no small range,
    and that every size the ranges reach then finds the least of them that holds it. *)
From S2P Require Import Prelude.
From stdpp Require Export gmap strings sorting.
Open Scope Z_scope.

(** ge/graph/build/memory: inc/framework/memory/memory_assigner.h *)
Definition MEM_ALIGN_SIZE : Z := 512.

(** size_t arithmetic wraps at 2^64; rounded up to a multiple of 512. *)
Definition AlignMemOffset (mem_align_size : Z) : Z :=
  if mem_align_size <=? 0 then mem_align_size
  else wrapU64 (wrapU64 (mem_align_size + MEM_ALIGN_SIZE - 1) / MEM_ALIGN_SIZE * MEM_ALIGN_SIZE).

Definition kRangeCeilInterval : Z := 2.
Definition kLargeBlockSize : Z := 8388608.
Definition kLargeBlockRangeSize : nat := 2.

(** `std::sort` of an int64_t vector. *)
Definition sort (l : list Z) : list Z := merge_sort Z.le l.

(** What the assigner takes from outside: [range_number back min] is
    `ceil(log(back / (double)min) / log(2))`, and
    `TypeUtils::CheckUint64MulOverflow` of the metadef submodule. *)
Class RangeEnv := {
  log_range_number : Z -> Z -> nat;
  CheckUint64MulOverflow : Z -> Z -> bool;
}.

(** The overflow test is exact.  Nothing is assumed of the logarithm: how close to the real one it
    comes is up to the floating-point library of the platform. *)
Class RangeEnvOk (E : RangeEnv) : Prop := {
  CheckUint64MulOverflow_ok a b : 0 <= a < 2 ^ 64 -> 0 <= b < 2 ^ 32 ->
    CheckUint64MulOverflow a b = (2 ^ 64 <=? a * b);
}.

Module BinaryBlockMemAssigner.

(** One pass of the inner loop over the ranges from [iter] on; [temp] holds the
    sizes of the range erased last.  Returns the ranges left, what is in [temp]
    at the end and whether something was erased. *)
Fixpoint PlanRanges_pass (range_number_limit : nat) (temp : list Z) (ranges : list (list Z)) :
    list (list Z) * list Z * bool :=
  match ranges with
  | [] => ([], temp, false)
  | r :: rest =>
    let r := r ++ temp in
    match r with
    | [] => let '(ranges', temp', _) := PlanRanges_pass range_number_limit [] rest in (ranges', temp', true)
    | x :: _ =>
      if (length r <? range_number_limit)%nat && negb (bool_decide (rest = [])) &&
         negb ((kLargeBlockSize <=? x) && (kLargeBlockRangeSize <=? length r)%nat)
      then let '(ranges', temp', _) := PlanRanges_pass range_number_limit r rest in (ranges', temp', true)
      else let '(ranges', temp', changed) := PlanRanges_pass range_number_limit [] rest in (r :: ranges', temp', changed)
    end
  end.

(** The do-while loop, [fuel] passes at most. *)
Fixpoint PlanRanges_loop (fuel : nat) (range_number_limit : nat) (temp : list Z) (ranges : list (list Z)) :
    option (list (list Z)) :=
  match fuel with
  | O => None
  | S fuel =>
    let '(ranges', temp', changed) := PlanRanges_pass range_number_limit temp ranges in
    if changed : bool then PlanRanges_loop fuel range_number_limit temp' ranges' else Some ranges'
  end.

Definition PlanRanges (range_number_limit : nat) (ranges : list (list Z)) : option (list (list Z)) :=
  PlanRanges_loop (S (length ranges)) range_number_limit [] ranges.

(** The sizes at the front of the sorted vector that go into one range. *)
Fixpoint take_range (range_ceil : Z) (all_memory_size : list Z) : list Z * list Z :=
  match all_memory_size with
  | x :: rest =>
    if x <=? range_ceil then let '(r, remaining) := take_range range_ceil rest in (x :: r, remaining)
    else ([], all_memory_size)
  | [] => ([], [])
  end.

(** The doubling loop: [n] ranges still to fill, from the ceiling [range_ceil]. *)
Fixpoint fill_ranges `{RangeEnv} (n : nat) (range_ceil : Z) (all_memory_size : list Z) :
    outcome (list (list Z)) :=
  match n with
  | O => Ok []
  | S n =>
    if CheckUint64MulOverflow (wrapU64 range_ceil) kRangeCeilInterval then Err FAILED
    else
      let range_ceil := mul64 range_ceil kRangeCeilInterval in
      let '(r, remaining) := take_range range_ceil all_memory_size in
      ranges ← fill_ranges n range_ceil remaining;
      Ok (r :: ranges)
  end.

(** The last loop: sort each range and take its biggest size. *)
Definition range_ceils_of (ranges : list (list Z)) : list Z :=
  omap (fun range => last (sort range)) ranges.

(** [all_memory_size] is what GetOutAndWorkSpaceMem collects. *)
Definition GetMemoryRanges `{RangeEnv} (all_memory_size : list Z) : outcome (list Z) :=
  match head all_memory_size, last all_memory_size with
  | Some front, Some back =>
    if front <=? 0 then Err FAILED
    else
      let min_memory_size := if MEM_ALIGN_SIZE <? back then MEM_ALIGN_SIZE else front in
      let range_number := log_range_number back min_memory_size in
      let range_number := if (range_number =? 0)%nat then 1%nat else range_number in
      let range_number_limit := (length all_memory_size / range_number)%nat in
      ranges ← fill_ranges range_number min_memory_size all_memory_size;
      match PlanRanges range_number_limit ranges with
      | Some ranges => Ok (range_ceils_of ranges)
      | None => Stuck
      end
  | _, _ => Ok []
  end.

End BinaryBlockMemAssigner.

Module MaxBlockMemAssigner.
Definition GetMemoryRanges (all_memory_size : list Z) : outcome (list Z) :=
  match all_memory_size with
  | [] => Ok []
  | x :: rest => Ok [foldl Z.max x rest]
  end.
End MaxBlockMemAssigner.

(** The size vectors of the batches: the sizes without a label and those of the
    label with the largest total, sorted, without zeros.  The two maps are
    `std::map`s from labels, given as lists in key order. *)
Fixpoint max_batch (batch_total_size : list (string * Z)) (max_batch_size : Z) (max_batch_label : string) : string :=
  match batch_total_size with
  | [] => max_batch_label
  | (label, total) :: rest =>
    if bool_decide (label = ""%string) then max_batch rest max_batch_size max_batch_label
    else if max_batch_size <? total then max_batch rest total label
    else max_batch rest max_batch_size max_batch_label
  end.

Definition GetMaxBatchAllMemorySize (batch_all_memory_size : list (string * list Z))
    (batch_total_size : list (string * Z)) (all_memory_size : list Z) (max_batch_label : string) :
    list Z * string :=
  let max_batch_label := max_batch batch_total_size 0 max_batch_label in
  let all_memory_size :=
    all_memory_size ++
    concat (map snd (filter (fun it => it.1 = ""%string \/ it.1 = max_batch_label) batch_all_memory_size)) in
  let all_memory_size := if bool_decide (all_memory_size = []) then [MEM_ALIGN_SIZE] else all_memory_size in
  (filter (fun x => x <> 0) (sort all_memory_size), max_batch_label).

(** The block size for a request (`GetBlockSize` of block_mem_assigner.cc): the first range that holds it. *)
Fixpoint GetBlockSizeOf (size : Z) (ranges : list Z) : Z :=
  match ranges with
  | [] => size
  | x :: rest => let x_temp := wrapU64 x in if size <=? x_temp then x_temp else GetBlockSizeOf size rest
  end.

(** * Lemmas *)

(** Every size of [r] is at most every size of [r']. *)
Definition range_le (r r' : list Z) : Prop := forall x y, x ∈ r -> y ∈ r' -> x <= y.

(** A range the merging leaves alone: as many sizes as asked for, or two large ones. *)
Definition range_settled (limit : nat) (r : list Z) : Prop :=
  (limit <= length r)%nat \/ (kLargeBlockRangeSize <= length r)%nat /\ exists x, head r = Some x /\ kLargeBlockSize <= x.

(** No empty range, and only the last may be a small one. *)
Fixpoint ranges_settled (limit : nat) (ranges : list (list Z)) : Prop :=
  match ranges with
  | [] => True
  | r :: rest => r <> [] /\ (rest <> [] -> range_settled limit r) /\ ranges_settled limit rest
  end.

Section plan_ranges.
Import BinaryBlockMemAssigner.
Context (limit : nat).

Lemma PlanRanges_pass_spec ranges temp ranges' temp' changed :
  PlanRanges_pass limit temp ranges = (ranges', temp', changed) -> (ranges = [] -> temp = []) ->
  temp' = [] /\ concat ranges' ≡ₚ temp ++ concat ranges /\ (length ranges' <= length ranges)%nat /\
  (changed = true -> length ranges' < length ranges)%nat /\
  (changed = false -> ranges_settled limit ranges').
Proof.
  revert temp ranges' temp' changed. induction ranges as [|r rest IH]; intros temp ranges' temp' changed Hp Ht.
  { cbn in Hp. simplify_eq. rewrite Ht by done. done. }
  cbn [PlanRanges_pass] in Hp.
  assert (concat (r :: rest) = r ++ concat rest) as -> by done.
  assert (temp ++ r ++ concat rest ≡ₚ (r ++ temp) ++ concat rest) as ->
    by (rewrite app_assoc; f_equiv; apply Permutation_app_comm).
  destruct (r ++ temp) as [|x r'] eqn:Er.
  { destruct (PlanRanges_pass limit [] rest) as [[rs t] c] eqn:Erec. simplify_eq.
    destruct (IH _ _ _ _ Erec) as (-> & Hc & Hl & _ & _); [done|]. cbn [length app]. split_and!; [done|done|lia|lia|done]. }
  destruct (_ && _ && _)%bool eqn:Econd.
  - destruct (PlanRanges_pass limit (x :: r') rest) as [[rs t] c] eqn:Erec. simplify_eq.
    apply andb_true_iff in Econd as [[_ Hne]%andb_true_iff _].
    apply negb_true_iff, bool_decide_eq_false in Hne.
    destruct (IH _ _ _ _ Erec) as (-> & Hc & Hl & _ & _); [done|]. cbn [length]. split_and!; [done|done|lia|lia|done].
  - destruct (PlanRanges_pass limit [] rest) as [[rs t] c] eqn:Erec. simplify_eq.
    destruct (IH _ _ _ _ Erec) as (-> & Hc & Hl & Hs & Hd); [done|]. cbn [length concat].
    split_and!; [done|by rewrite Hc|lia|intros ->; specialize (Hs eq_refl); lia|].
    intros ->. cbn [ranges_settled]. split; [done|]. split; [|by apply Hd]. intros Hrest.
    rewrite bool_decide_eq_false_2 in Econd.
    + unfold range_settled. cbn [negb] in Econd. rewrite andb_true_r in Econd.
      apply andb_false_iff in Econd as [E|E].
      * left. apply Nat.ltb_ge in E. done.
      * apply negb_false_iff, andb_true_iff in E as [E1 E2]. right. split; [by apply Nat.leb_le|].
        exists x. split; [done|by apply Z.leb_le].
    + intros ->. cbn in Erec. simplify_eq.
Qed.

Lemma range_le_app a b r : range_le a r -> range_le b r -> range_le (a ++ b) r.
Proof. intros Ha Hb x y [Hx|Hx]%elem_of_app Hy; [by apply Ha|by apply Hb]. Qed.

Lemma PlanRanges_pass_ordered ranges temp ranges' temp' changed :
  PlanRanges_pass limit temp ranges = (ranges', temp', changed) ->
  StronglySorted range_le ranges -> Forall (range_le temp) ranges ->
  StronglySorted range_le ranges' /\
  (forall r, range_le r temp -> Forall (range_le r) ranges -> Forall (range_le r) ranges').
Proof.
  revert temp ranges' temp' changed. induction ranges as [|r rest IH]; intros temp ranges' temp' changed Hp Hs Ht.
  { cbn in Hp. simplify_eq. by split; [constructor|]. }
  apply StronglySorted_inv in Hs as [Hs Hr]. apply Forall_cons in Ht as [Htr Ht].
  assert (Forall (range_le (r ++ temp)) rest) as Hrt.
  { apply Forall_forall. intros q Hq. rewrite Forall_forall in Hr, Ht. apply range_le_app; [by apply Hr|by apply Ht]. }
  assert (forall q, range_le q temp -> range_le q r -> range_le q (r ++ temp)) as Hq.
  { intros q H1 H2 x y Hx [Hy|Hy]%elem_of_app; [by apply H2|by apply H1]. }
  assert (forall q, range_le q []) as Hnil by (intros q x y _ Hy; by apply elem_of_nil in Hy).
  assert (Forall (range_le []) rest) as Hnil' by (apply Forall_forall; intros q _ x y Hx; by apply elem_of_nil in Hx).
  cbn [PlanRanges_pass] in Hp. destruct (r ++ temp) as [|x r'] eqn:Er.
  { destruct (PlanRanges_pass limit [] rest) as [[rs t] c] eqn:Erec. simplify_eq.
    destruct (IH _ _ _ _ Erec Hs Hnil') as [H1 H2]. split; [done|].
    intros q Hqt [Hqr Hqs]%Forall_cons. by apply H2. }
  destruct (_ && _ && _)%bool.
  - destruct (PlanRanges_pass limit (x :: r') rest) as [[rs t] c] eqn:Erec. simplify_eq.
    destruct (IH _ _ _ _ Erec Hs Hrt) as [H1 H2]. split; [done|].
    intros q Hqt [Hqr Hqs]%Forall_cons. apply H2; [by apply Hq|done].
  - destruct (PlanRanges_pass limit [] rest) as [[rs t] c] eqn:Erec. simplify_eq.
    destruct (IH _ _ _ _ Erec Hs Hnil') as [H1 H2]. split.
    + constructor; [done|]. by apply H2.
    + intros q Hqt [Hqr Hqs]%Forall_cons. constructor; [by apply Hq|by apply H2].
Qed.

(** The loop ends within one pass more than there are ranges, whatever more fuel it is given. *)
Lemma PlanRanges_loop_spec fuel ranges :
  (length ranges < fuel)%nat ->
  exists result, PlanRanges_loop fuel limit [] ranges = Some result /\
    concat result ≡ₚ concat ranges /\ ranges_settled limit result /\
    (StronglySorted range_le ranges -> StronglySorted range_le result).
Proof.
  revert ranges. induction fuel as [|fuel IH]; intros ranges Hf; [lia|]. cbn [PlanRanges_loop].
  destruct (PlanRanges_pass limit [] ranges) as [[rs t] c] eqn:Ep.
  destruct (PlanRanges_pass_spec _ _ _ _ _ Ep) as (-> & Hc & Hl & Hlt & Hset); [done|].
  assert (StronglySorted range_le ranges -> StronglySorted range_le rs) as Hord.
  { intros Hs. eapply PlanRanges_pass_ordered; [exact Ep|done|].
    apply Forall_forall. intros q _ x y Hx. by apply elem_of_nil in Hx. }
  destruct c.
  - destruct (IH rs) as (result & Hr & Hc' & Hs & Ho); [specialize (Hlt eq_refl); lia|].
    exists result. split; [done|]. rewrite Hc', Hc. split_and!; [done|done|]. auto.
  - exists rs. rewrite Hc. split_and!; auto.
Qed.

Lemma PlanRanges_loop_more fuel fuel' temp ranges result :
  PlanRanges_loop fuel limit temp ranges = Some result -> (fuel <= fuel')%nat ->
  PlanRanges_loop fuel' limit temp ranges = Some result.
Proof.
  revert fuel' temp ranges. induction fuel as [|fuel IH]; intros fuel' temp ranges Hr Hle; [done|].
  destruct fuel' as [|fuel']; [lia|]. cbn [PlanRanges_loop] in *.
  destruct (PlanRanges_pass limit temp ranges) as [[rs t] c]. destruct c; [|done].
  apply IH; [done|lia].
Qed.
End plan_ranges.

Section range_ceils.
Import BinaryBlockMemAssigner.

Lemma sort_perm l : sort l ≡ₚ l.
Proof. apply merge_sort_Permutation. Qed.
Lemma sort_sorted l : StronglySorted Z.le (sort l).
Proof. apply StronglySorted_merge_sort; [apply _|intros x y; lia]. Qed.

Lemma last_elem_of {A} (l : list A) x : last l = Some x -> x ∈ l.
Proof. intros (l' & ->)%last_Some. set_solver. Qed.
Lemma sorted_last_max l m x : StronglySorted Z.le l -> last l = Some m -> x ∈ l -> x <= m.
Proof.
  intros Hs (l' & ->)%last_Some Hx. apply elem_of_app in Hx as [Hx|Hx%list_elem_of_singleton]; [|lia].
  eapply StronglySorted_app_1_elem_of; [exact Hs|done|set_solver].
Qed.

Lemma elem_of_concat {A} (x : A) ls : x ∈ concat ls <-> exists l, l ∈ ls /\ x ∈ l.
Proof. setoid_rewrite list_elem_of_In. apply in_concat. Qed.

Lemma take_range_spec c l r remaining :
  take_range c l = (r, remaining) -> StronglySorted Z.le l ->
  l = r ++ remaining /\ (forall x, x ∈ r -> x <= c) /\ (forall x, x ∈ remaining -> c < x).
Proof.
  revert r remaining. induction l as [|x l IH]; intros r remaining Ht Hs; cbn in Ht.
  { simplify_eq. split_and!; [done|set_solver..]. }
  apply StronglySorted_inv in Hs as [Hs Hx]. destruct (Z.leb_spec x c).
  - destruct (take_range c l) as [r' q] eqn:E. simplify_eq. destruct (IH _ _ eq_refl Hs) as (-> & Hr & Hq).
    split_and!; [done| |done]. intros y [->|Hy]%elem_of_cons; [done|by apply Hr].
  - simplify_eq. split_and!; [done|set_solver|]. intros y [->|Hy]%elem_of_cons; [done|].
    rewrite Forall_forall in Hx. specialize (Hx y Hy). lia.
Qed.

Lemma fill_ranges_spec `{RangeEnvOk} n c l :
  StronglySorted Z.le l -> 0 < c -> c * 2 ^ Z.of_nat n < 2 ^ 63 ->
  (n = O -> forall x, x ∈ l -> c < x) ->
  exists ranges rest, fill_ranges n c l = Ok ranges /\ l = concat ranges ++ rest /\ length ranges = n /\
    (forall x, x ∈ concat ranges -> x <= c * 2 ^ Z.of_nat n) /\ (forall x, x ∈ rest -> c * 2 ^ Z.of_nat n < x).
Proof.
  revert c l. induction n as [|n IH]; intros c l Hs Hc Hb Hn.
  { exists [], l. split_and!; [done..|set_solver|]. intros x Hx. specialize (Hn eq_refl x Hx). cbn. lia. }
  assert (c * 2 ^ Z.of_nat (S n) = c * 2 * 2 ^ Z.of_nat n) as Hp
    by (rewrite Nat2Z.inj_succ, Z.pow_succ_r by lia; ring).
  assert (1 <= 2 ^ Z.of_nat n) by (pose proof (Z.pow_pos_nonneg 2 (Z.of_nat n)); lia).
  cbn [fill_ranges]. rewrite wrapU64_id by nia.
  rewrite CheckUint64MulOverflow_ok by (unfold kRangeCeilInterval; nia).
  destruct (Z.leb_spec (2 ^ 64) (c * kRangeCeilInterval)); [unfold kRangeCeilInterval in *; nia|].
  unfold mul64. rewrite wrap64_id by (unfold kRangeCeilInterval; nia).
  unfold kRangeCeilInterval. destruct (take_range (c * 2) l) as [r q] eqn:Et.
  destruct (take_range_spec _ _ _ _ Et Hs) as (-> & Hr & Hq).
  destruct (IH (c * 2) q) as (ranges & rest & Hf & -> & Hlen & Hin & Hout).
  - by apply StronglySorted_app_1_r in Hs.
  - lia.
  - lia.
  - intros _. exact Hq.
  - exists (r :: ranges), rest. rewrite Hf, Hp. cbn [mbind outcome_bind concat length]. rewrite app_assoc. split_and!; [done|done|by rewrite Hlen| |done].
    intros x [Hx|Hx]%elem_of_app; [|by apply Hin]. specialize (Hr x Hx). nia.
Qed.

Lemma concat_sorted_ordered ranges : StronglySorted Z.le (concat ranges) -> StronglySorted range_le ranges.
Proof.
  induction ranges as [|r rest IH]; intros Hs; [constructor|]. cbn in Hs. constructor.
  - apply IH. by apply StronglySorted_app_1_r in Hs.
  - apply Forall_forall. intros q Hq x y Hx Hy.
    eapply StronglySorted_app_1_elem_of; [exact Hs|done|].
    apply elem_of_concat. by exists q.
Qed.

(** The ceilings of ordered ranges ascend, are sizes, and bound every size. *)
Lemma range_ceils_of_spec ranges :
  StronglySorted range_le ranges ->
  StronglySorted Z.le (range_ceils_of ranges) /\
  (forall c, c ∈ range_ceils_of ranges -> c ∈ concat ranges) /\
  (forall x, x ∈ concat ranges -> exists c, c ∈ range_ceils_of ranges /\ x <= c).
Proof.
  unfold range_ceils_of. induction ranges as [|r rest IH]; intros Hs.
  { repeat split; [constructor|set_solver..]. }
  apply StronglySorted_inv in Hs as [Hs Hr]. destruct (IH Hs) as (H1 & H2 & H3). cbn.
  assert (forall x y, x ∈ r -> y ∈ concat rest -> x <= y) as Hle.
  { intros x y Hx (q & Hq & Hy)%elem_of_concat.
    rewrite Forall_forall in Hr. by apply (Hr q). }
  destruct (last (sort r)) as [m|] eqn:El.
  - assert (m ∈ r) as Hm by (rewrite <- (sort_perm r); by apply last_elem_of).
    split_and!.
    + constructor; [done|]. apply Forall_forall. intros c Hc. by apply Hle, H2.
    + intros c [->|Hc]%elem_of_cons; set_solver.
    + intros x [Hx|Hx]%elem_of_app.
      * exists m. split; [set_solver|]. eapply sorted_last_max; [apply sort_sorted|done|by rewrite sort_perm].
      * destruct (H3 x Hx) as (c & ? & ?). exists c. set_solver.
  - apply last_None in El. assert (r = []) as -> by (apply Permutation_nil; by rewrite <- El, sort_perm).
    done.
Qed.

Lemma GetBlockSizeOf_least ceils s c :
  StronglySorted Z.le ceils -> (forall x, x ∈ ceils -> 0 <= x < 2 ^ 64) -> c ∈ ceils -> s <= c ->
  GetBlockSizeOf s ceils ∈ ceils /\ s <= GetBlockSizeOf s ceils /\
  forall d, d ∈ ceils -> s <= d -> GetBlockSizeOf s ceils <= d.
Proof.
  induction ceils as [|x rest IH]; intros Hs Hb Hc Hsc; [by apply elem_of_nil in Hc|].
  apply StronglySorted_inv in Hs as [Hs Hx]. cbn. rewrite wrapU64_id by (apply Hb; set_solver).
  rewrite Forall_forall in Hx. destruct (Z.leb_spec s x).
  - split_and!; [set_solver|done|]. intros d [->|Hd]%elem_of_cons _; [lia|by apply Hx].
  - apply elem_of_cons in Hc as [->|Hc]; [lia|].
    destruct IH as (H1 & H2 & H3); [done|set_solver|done|done|]. split_and!; [set_solver|done|].
    intros d [->|Hd]%elem_of_cons Hsd; [lia|by apply H3].
Qed.

(** What the ranges the binary assigner starts from reach: the smallest range doubled as often as the logarithm says. *)
Definition ranges_reach `{RangeEnv} (l : list Z) : Z :=
  match head l, last l with
  | Some front, Some back =>
    let mn := if MEM_ALIGN_SIZE <? back then MEM_ALIGN_SIZE else front in
    mn * 2 ^ Z.of_nat (Nat.max 1 (log_range_number back mn))
  | _, _ => 0
  end.

(** The ranges of a sorted vector of positive sizes. *)
Lemma GetMemoryRanges_spec `{RangeEnvOk} l :
  StronglySorted Z.le l -> (forall x, x ∈ l -> 0 < x < 2 ^ 63) -> ranges_reach l < 2 ^ 63 ->
  exists ceils, GetMemoryRanges l = Ok ceils /\ StronglySorted Z.le ceils /\
    (forall c, c ∈ ceils -> c ∈ l /\ c <= ranges_reach l) /\ (forall x, x ∈ l -> x <= ranges_reach l -> exists c, c ∈ ceils /\ x <= c).
Proof.
  intros Hs Hl. unfold GetMemoryRanges, ranges_reach. destruct (last l) as [back|] eqn:Eb.
  2:{ apply last_None in Eb as ->. exists []. split_and!; [done|constructor|set_solver..]. }
  destruct l as [|front l']; [done|]. set (l := front :: l') in *. change (head l) with (Some front). cbv beta iota.
  assert (0 < front < 2 ^ 63) as Hf by (apply Hl; set_solver).
  destruct (Z.leb_spec front 0); [lia|]. cbv zeta.
  set (mn := if MEM_ALIGN_SIZE <? back then MEM_ALIGN_SIZE else front).
  assert (0 < mn) as Hmn by (unfold mn, MEM_ALIGN_SIZE; destruct (Z.ltb_spec 512 back); lia).
  set (n := log_range_number back mn). assert ((if (n =? 0)%nat then 1%nat else n) = Nat.max 1 n) as -> by (destruct (Nat.eqb_spec n 0); lia).
  set (n' := Nat.max 1 n). intros Hreach.
  destruct (fill_ranges_spec n' mn l) as (ranges & rest & Hfill & Hcat & Hlen & Hin & Hout); [done|done|done|lia|].
  rewrite Hfill. cbn [mbind outcome_bind].
  destruct (PlanRanges_loop_spec (length l / n')%nat (S (length ranges)) ranges ltac:(lia))
    as (result & Hp & Hperm & _ & Hord).
  unfold PlanRanges. rewrite Hp. exists (range_ceils_of result). split; [done|].
  destruct (range_ceils_of_spec result) as (H1 & H2 & H3).
  { apply Hord, concat_sorted_ordered. rewrite Hcat in Hs. by apply StronglySorted_app_1_l in Hs. }
  split; [done|]. split.
  - intros c Hc. specialize (H2 c Hc). rewrite Hperm in H2. split; [rewrite Hcat; set_solver|by apply Hin].
  - intros x Hx Hr. apply H3. rewrite Hperm. rewrite Hcat in Hx. apply elem_of_app in Hx as [Hx|Hx]; [done|]. specialize (Hout x Hx). lia.
Qed.

(** A size above all ranges is its own block size. *)
Lemma GetBlockSizeOf_none ceils s : (forall c, c ∈ ceils -> 0 <= c < 2 ^ 64 /\ c < s) -> GetBlockSizeOf s ceils = s.
Proof.
  induction ceils as [|c ceils IH]; intros Hc; [done|]. cbn. destruct (Hc c ltac:(set_solver)) as [H1 H2]. rewrite wrapU64_id by done.
  destruct (Z.leb_spec s c); [lia|]. apply IH. intros d Hd. apply Hc. set_solver.
Qed.
End range_ceils.

(** ** The batch whose sizes are used *)
Lemma max_batch_spec totals m0 l0 :
  (forall l t, (l, t) ∈ totals -> l <> ""%string -> t <= m0 \/ exists t', (max_batch totals m0 l0, t') ∈ totals /\ t <= t') /\
  (max_batch totals m0 l0 = l0 \/ exists t', (max_batch totals m0 l0, t') ∈ totals /\ m0 < t').
Proof.
  revert m0 l0. induction totals as [|[l t] rest IH]; intros m0 l0; cbn [max_batch].
  { split; [set_solver|by left]. }
  case_bool_decide as Hl; [|destruct (Z.ltb_spec m0 t)].
  - destruct (IH m0 l0) as [H1 H2]. split; [|destruct H2 as [?|(t' & ? & ?)]; [by left|right; exists t'; set_solver]].
    intros l' t' [?|Hin]%elem_of_cons Hne; [simplify_eq|].
    destruct (H1 l' t' Hin Hne) as [?|(t'' & ? & ?)]; [by left|right; exists t''; set_solver].
  - destruct (IH t l) as [H1 H2].
    assert (exists t', (max_batch rest t l, t') ∈ (l, t) :: rest /\ t <= t') as (tm & Hm & Htm).
    { destruct H2 as [->|(t' & ? & ?)]; [exists t; set_solver|exists t'; split; [set_solver|lia]]. }
    split; [|right; exists tm; split; [done|lia]].
    intros l' t' [?|Hin]%elem_of_cons Hne; [simplify_eq; right; by exists tm|].
    destruct (H1 l' t' Hin Hne) as [?|(t'' & ? & ?)]; [right; exists tm; split; [done|lia]|right; exists t''; set_solver].
  - destruct (IH m0 l0) as [H1 H2]. split; [|destruct H2 as [?|(t' & ? & ?)]; [by left|right; exists t'; set_solver]].
    intros l' t' [?|Hin]%elem_of_cons Hne; [simplify_eq; by left|].
    destruct (H1 l' t' Hin Hne) as [?|(t'' & ? & ?)]; [by left|right; exists t''; set_solver].
Qed.

Lemma elem_of_all_memory_size batch totals label0 x :
  x ∈ (GetMaxBatchAllMemorySize batch totals [] label0).1 <->
  x <> 0 /\
  ((exists it, it ∈ batch /\ (it.1 = ""%string \/ it.1 = (GetMaxBatchAllMemorySize batch totals [] label0).2) /\ x ∈ it.2) \/
   (forall it, it ∈ batch -> it.1 = ""%string \/ it.1 = (GetMaxBatchAllMemorySize batch totals [] label0).2 -> it.2 = []) /\
   x = MEM_ALIGN_SIZE).
Proof.
  unfold GetMaxBatchAllMemorySize. cbn [fst snd]. rewrite app_nil_l, list_elem_of_filter, sort_perm.
  set (label := max_batch totals 0 label0). set (l := concat _).
  assert (forall y, y ∈ l <-> exists it, it ∈ batch /\ (it.1 = ""%string \/ it.1 = label) /\ y ∈ it.2) as Hl.
  { intros y. unfold l. rewrite elem_of_concat. split.
    - intros (q & (it & -> & [Hc Hit]%list_elem_of_filter)%list_elem_of_fmap & Hy). by exists it.
    - intros (it & Hit & Hc & Hy). exists it.2. split; [|done]. apply list_elem_of_fmap. exists it. split; [done|].
      by apply list_elem_of_filter. }
  f_equiv. case_bool_decide as He.
  - rewrite list_elem_of_singleton. split.
    + intros ->. right. split; [|done]. intros it Hit Hc. destruct it.2 as [|y q] eqn:E; [done|].
      assert (y ∈ l) as Hy by (apply Hl; exists it; rewrite E; set_solver). rewrite He in Hy. by apply elem_of_nil in Hy.
    + intros [Hx|[_ Hx]]; [|done]. apply Hl in Hx. rewrite He in Hx. by apply elem_of_nil in Hx.
  - rewrite Hl. split; [by left|]. intros [?|[Hall _]]; [done|]. destruct He.
    destruct l as [|y q] eqn:E; [done|]. destruct (proj1 (Hl y) ltac:(set_solver)) as (it & Hit & Hc & Hy).
    rewrite (Hall it Hit Hc) in Hy. by apply elem_of_nil in Hy.
Qed.

Lemma all_memory_size_sorted batch totals label0 :
  StronglySorted Z.le (GetMaxBatchAllMemorySize batch totals [] label0).1.
Proof.
  unfold GetMaxBatchAllMemorySize. cbn [fst].
  assert (forall l, StronglySorted Z.le l -> StronglySorted Z.le (filter (fun x => x <> 0) l)) as Hf.
  { induction 1 as [|x l Hs IH Hx]; [constructor|]. rewrite filter_cons. case_decide; [|done].
    constructor; [done|]. rewrite Forall_forall in *. intros y [_ Hy]%list_elem_of_filter. by apply Hx. }
  apply Hf, sort_sorted.
Qed.

Lemma foldl_max_spec l x : x <= foldl Z.max x l /\ forall y, y ∈ l -> y <= foldl Z.max x l.
Proof.
  revert x. induction l as [|z l IH]; intros x; cbn; [split; [lia|set_solver]|].
  destruct (IH (Z.max x z)) as [H1 H2]. split; [lia|]. intros y [->|Hy]%elem_of_cons; [lia|by apply H2].
Qed.

Lemma foldl_max_elem l x : foldl Z.max x l ∈ x :: l.
Proof.
  revert x. induction l as [|z l IH]; intros x; cbn; [set_solver|]. specialize (IH (Z.max x z)).
  apply elem_of_cons in IH as [->|?]; [destruct (Z.max_spec x z) as [[_ ->]|[_ ->]]|]; set_solver.
Qed.

(** * Theorems *)

(** C21 The do-while loop of PlanRanges, which erases ranges from the vector it walks over,
    ends: one pass more than there are ranges is always enough, and more passes change nothing.
    What it leaves has the same sizes, no empty range, and no range but the last with fewer
    sizes than the limit, unless it starts with a large size and has a second one; ranges that
    were in ascending order stay so. *)
Theorem plan_ranges_ends limit ranges :
  exists result, BinaryBlockMemAssigner.PlanRanges limit ranges = Some result /\
    (forall fuel, (length ranges < fuel)%nat ->
      BinaryBlockMemAssigner.PlanRanges_loop fuel limit [] ranges = Some result) /\
    concat result ≡ₚ concat ranges /\ ranges_settled limit result /\
    (StronglySorted range_le ranges -> StronglySorted range_le result).
Proof.
  destruct (PlanRanges_loop_spec limit (S (length ranges)) ranges ltac:(lia)) as (result & Hr & Hrest).
  exists result. split; [exact Hr|]. split; [|exact Hrest].
  intros fuel Hf. eapply PlanRanges_loop_more; [exact Hr|lia].
Qed.

(** C39 Whatever sizes the outputs and workspaces of a graph have (non-negative int64_t values), the sizes that are used
    are those without a batch label and those of a batch with the largest total.  The number of ranges the
    binary assigner starts from comes from the logarithm of the platform; whatever that answers, as long as doubling the
    smallest range so often stays below 2^63, the assigner finds ranges, which are themselves sizes of the graph in ascending
    order.  A non-zero size that the doubled range reaches is given the least of them that holds it; one beyond, which a
    logarithm that is too small leaves over, is given exactly its own size.  The other assigner gives each of them the
    largest size. *)
Theorem block_size_minimal `{RangeEnvOk} batch totals label0 all max_label :
  (forall it x, it ∈ batch -> x ∈ it.2 -> 0 <= x < 2 ^ 63) ->
  GetMaxBatchAllMemorySize batch totals [] label0 = (all, max_label) -> ranges_reach all < 2 ^ 63 ->
  (forall l t, (l, t) ∈ totals -> l <> ""%string -> 0 < t -> exists t', (max_label, t') ∈ totals /\ t <= t') /\
  exists ceils, BinaryBlockMemAssigner.GetMemoryRanges all = Ok ceils /\ StronglySorted Z.le ceils /\ ceils ⊆ all /\
    forall it s, it ∈ batch -> it.1 = ""%string \/ it.1 = max_label -> s ∈ it.2 -> s <> 0 ->
      (s <= ranges_reach all -> GetBlockSizeOf s ceils ∈ ceils /\ s <= GetBlockSizeOf s ceils /\
         forall c, c ∈ ceils -> s <= c -> GetBlockSizeOf s ceils <= c) /\
      (ranges_reach all < s -> GetBlockSizeOf s ceils = s) /\
      exists m, MaxBlockMemAssigner.GetMemoryRanges all = Ok [m] /\ m ∈ all /\ GetBlockSizeOf s [m] = m /\
        forall x, x ∈ all -> x <= m.
Proof.
  intros Hb Hall Hreach. pose proof (all_memory_size_sorted batch totals label0) as Hs.
  pose proof (elem_of_all_memory_size batch totals label0) as He. rewrite Hall in Hs, He. cbn [fst snd] in *.
  assert (forall x, x ∈ all -> 0 < x < 2 ^ 63) as Hpos.
  { intros x Hx. apply He in Hx as [Hx [(it & Hit & _ & Hin)|[_ ->]]]; [|unfold MEM_ALIGN_SIZE; lia].
    specialize (Hb it x Hit Hin). lia. }
  split.
  { unfold GetMaxBatchAllMemorySize in Hall. simplify_eq. intros l t Hin Hne Ht.
    destruct (proj1 (max_batch_spec totals 0 label0) l t Hin Hne) as [?|?]; [lia|done]. }
  destruct (GetMemoryRanges_spec all Hs Hpos Hreach) as (ceils & Hr & Hc & Hsub & Hcov).
  exists ceils. split_and!; [done|done|intros c Hcin; by apply Hsub|]. intros it s Hit Hl Hin Hne.
  assert (s ∈ all) as Hsa by (apply He; split; [done|]; left; by exists it).
  assert (forall x, x ∈ ceils -> 0 <= x < 2 ^ 64) as Hcb by (intros x Hx; pose proof (Hpos x (proj1 (Hsub x Hx))); lia).
  split_and!.
  - intros Hsr. destruct (Hcov s Hsa Hsr) as (c & Hcin & Hsc). by apply (GetBlockSizeOf_least ceils s c).
  - intros Hsr. apply GetBlockSizeOf_none. intros c Hcin. split; [by apply Hcb|]. destruct (Hsub c Hcin). lia.
  - destruct all as [|x l]; [by apply elem_of_nil in Hsa|]. exists (foldl Z.max x l).
    destruct (foldl_max_spec l x) as [H1 H2].
    assert (forall y, y ∈ x :: l -> y <= foldl Z.max x l) as Hmax by (intros y [->|Hy]%elem_of_cons; [done|by apply H2]).
    pose proof (foldl_max_elem l x) as Hm. pose proof (Hpos _ Hm). split_and!; [done|done| |done].
    cbn. rewrite wrapU64_id by lia. specialize (Hmax s Hsa). by rewrite (proj2 (Z.leb_le _ _) Hmax).
Qed.

(** ** Witnesses *)
Definition exact_ranges : RangeEnv := {|
  log_range_number back min := Z.to_nat (Z.log2_up ((back + min - 1) / min));
  CheckUint64MulOverflow a b := 2 ^ 64 <=? a * b;
|}.

#[export] Instance exact_ranges_ok : RangeEnvOk exact_ranges.
Proof. by split. Qed.

(** A logarithm that is one too small. *)
Definition short_ranges : RangeEnv := {|
  log_range_number back min := Nat.pred (@log_range_number exact_ranges back min);
  CheckUint64MulOverflow a b := 2 ^ 64 <=? a * b;
|}.
#[export] Instance short_ranges_ok : RangeEnvOk short_ranges.
Proof. by split. Qed.

Definition sample_batches : list (string * list Z) := [(""%string, [512; 1024; 0]); ("b"%string, [40000; 9000]); ("c"%string, [7])].
Definition sample_totals : list (string * Z) := [(""%string, 1536); ("b"%string, 49000); ("c"%string, 7)].

(** With the exact logarithm every size has its range; with the other one the largest size has none. *)
Lemma block_size_minimal_witness :
  (@BinaryBlockMemAssigner.GetMemoryRanges exact_ranges [512; 1024; 9000; 40000] = Ok [1024; 9000; 40000] /\
   GetBlockSizeOf 9000 [1024; 9000; 40000] <= 9000) /\
  (@BinaryBlockMemAssigner.GetMemoryRanges short_ranges [512; 1024; 9000; 40000] = Ok [1024; 9000] /\
   GetBlockSizeOf 40000 [1024; 9000] = 40000).
Proof.
  assert (forall it x, it ∈ sample_batches -> x ∈ it.2 -> 0 <= x < 2 ^ 63) as Hb.
  { assert (Forall (fun it => Forall (fun x => 0 <= x < 2 ^ 63) it.2) sample_batches) as HF by (repeat constructor; cbn; lia).
    intros it x Hit Hx. rewrite Forall_forall in HF. specialize (HF it Hit). rewrite Forall_forall in HF. by apply HF. }
  split; (split; [vm_compute; reflexivity|]).
  - destruct (@block_size_minimal exact_ranges _ sample_batches sample_totals ""%string [512; 1024; 9000; 40000] "b"%string Hb) as [_ H]; [by vm_compute..|].
    destruct H as (ceils & Hr & _ & _ & H).
    assert (ceils = [1024; 9000; 40000]) as -> by (vm_compute in Hr; congruence).
    destruct (H ("b"%string, [40000; 9000]) 9000) as (Hin & _); [by repeat constructor|by right|by repeat constructor|done|].
    apply Hin; [by vm_compute|by repeat constructor|lia].
  - destruct (@block_size_minimal short_ranges _ sample_batches sample_totals ""%string [512; 1024; 9000; 40000] "b"%string Hb) as [_ H]; [by vm_compute..|].
    destruct H as (ceils & Hr & _ & _ & H).
    assert (ceils = [1024; 9000]) as -> by (vm_compute in Hr; congruence).
    destruct (H ("b"%string, [40000; 9000]) 40000) as (_ & Hout & _); [by repeat constructor|by right|by repeat constructor|done|].
    apply Hout. by vm_compute.
Defined.
