(* ===== verification/MemoryBlock.v ===== *)
(** The memory blocks of the assigner (ge/graph/build/memory/block_mem_assigner.{h,cc}):
    the class MemoryBlock, the life times of the outputs and workspaces it holds, and
    the test that decides whether one block may live inside another.

    Blocks are objects shared by pointer (a merged block stays in `memory_blocks_` and is
    also a child of another block), so they live in a heap keyed by identity and
    `MemoryBlock *` is an option of an identity.  The compute graph is a class of the
    metadef submodule and is read through the accessors of the class [Graph].
    Dereferencing a null or dangling pointer is [None]. *)
From S2P Require Import Prelude MemRanges.
Open Scope Z_scope.

(** * The compute graph *)
Record OpDesc := mkOpDesc {
  GetId : Z;
  GetStreamId : Z;
  BatchLabel : string;  (** `AttrUtils::GetStr(op_desc, ATTR_NAME_BATCH_LABEL, _)`, empty when absent *)
}.

Class Graph := {
  Node : Type;
  Anchor : Type;
  GetOpDesc : Node -> option OpDesc;
  GetAllInAnchors : Node -> list (option Anchor);
  GetPeerAnchors : Anchor -> list (option Anchor);
  GetOwnerNode : Anchor -> option Node;
}.

(** `std::sort(begin, end, less)`: the order of equivalent elements is the library's choice. *)
Class StdSort := std_sort : forall {A : Type}, (A -> A -> bool) -> list A -> list A.
Class StdSortOk (E : StdSort) : Prop := {
  std_sort_perm {A} (less : A -> A -> bool) l : std_sort less l ≡ₚ l;
  std_sort_sorted {A} (key : A -> Z) l :
    StronglySorted (fun x y => key x <= key y) (std_sort (fun x y => key x <? key y) l);
}.

Definition kMaxLifeTime : Z := 4294967295.
Definition RT_MEMORY_HBM : Z := 2.
Definition RT_MEMORY_P2P_DDR : Z := 17.

Section memory_block.
Context `{Graph}.

(** * NodeTypeIndex: an output or workspace of a node, with its life time *)
Inductive OpMemoryType := kOutput | kWorkspace.
Record NodeTypeIndex := mkNodeTypeIndex {
  node : option Node;
  mem_type : OpMemoryType;
  index : Z;
  ref_input : bool;
  life_time_begin : Z;
  life_time_end : Z;
}.
Definition new_NodeTypeIndex (node : option Node) (mem_type : OpMemoryType) (index : Z) (ref_input : bool) (begin_ : Z) :
    NodeTypeIndex := mkNodeTypeIndex node mem_type index ref_input begin_ kMaxLifeTime.

(** `node->GetOpDesc()->GetId()` as a size_t *)
Definition life_of (d : OpDesc) : Z := wrapU64 (GetId d).

Definition GetLifeBegin (x : NodeTypeIndex) : Z :=
  match node x ≫= GetOpDesc with
  | None => 0
  | Some d => if (0 <? life_time_begin x) && (life_time_begin x <? life_of d) then life_time_begin x else life_of d
  end.

(** * MemoryBlock *)
Record MemoryBlock := mkMemoryBlock {
  ref_count_ : Z;
  stream_id_ : Z;
  deleted_block_ : bool;
  reuse_mem_ : bool;
  same_stream_ : bool;
  input_index_ : Z;
  continuous_block_ : bool;
  first_continuous_block_ : bool;
  last_continuous_block_ : bool;
  is_zero_copy_ : bool;
  depend_stream_life_ : gmap Z Z;
  memory_type_ : Z;
  batch_label_ : string;
  block_size_ : Z;
  real_size_list_ : list Z;
  no_align_size_list_ : list Z;
  head_offset_ : Z;
  tail_offset_ : Z;
  child_offset_ : Z;
  node_type_index_list_ : list NodeTypeIndex;
  symbol_list_ : list string;
  child_blocks_ : list (option nat);
}.

Definition new_MemoryBlock (block_size stream_id : Z) (reuse_mem : bool) (memory_type : Z) : MemoryBlock :=
  mkMemoryBlock 0 stream_id false reuse_mem true 0 false false false false ∅ memory_type "" block_size [] [] 0 0 0 [] [] [].

Definition set_ref_count_ (x : Z) (b : MemoryBlock) : MemoryBlock :=
  mkMemoryBlock x (stream_id_ b) (deleted_block_ b) (reuse_mem_ b) (same_stream_ b) (input_index_ b)
    (continuous_block_ b) (first_continuous_block_ b) (last_continuous_block_ b) (is_zero_copy_ b)
    (depend_stream_life_ b) (memory_type_ b) (batch_label_ b) (block_size_ b) (real_size_list_ b)
    (no_align_size_list_ b) (head_offset_ b) (tail_offset_ b) (child_offset_ b) (node_type_index_list_ b)
    (symbol_list_ b) (child_blocks_ b).
Definition set_deleted_block_ (x : bool) (b : MemoryBlock) : MemoryBlock :=
  mkMemoryBlock (ref_count_ b) (stream_id_ b) x (reuse_mem_ b) (same_stream_ b) (input_index_ b) (continuous_block_ b)
    (first_continuous_block_ b) (last_continuous_block_ b) (is_zero_copy_ b) (depend_stream_life_ b)
    (memory_type_ b) (batch_label_ b) (block_size_ b) (real_size_list_ b) (no_align_size_list_ b)
    (head_offset_ b) (tail_offset_ b) (child_offset_ b) (node_type_index_list_ b) (symbol_list_ b)
    (child_blocks_ b).
Definition set_reuse_mem_ (x : bool) (b : MemoryBlock) : MemoryBlock :=
  mkMemoryBlock (ref_count_ b) (stream_id_ b) (deleted_block_ b) x (same_stream_ b) (input_index_ b)
    (continuous_block_ b) (first_continuous_block_ b) (last_continuous_block_ b) (is_zero_copy_ b)
    (depend_stream_life_ b) (memory_type_ b) (batch_label_ b) (block_size_ b) (real_size_list_ b)
    (no_align_size_list_ b) (head_offset_ b) (tail_offset_ b) (child_offset_ b) (node_type_index_list_ b)
    (symbol_list_ b) (child_blocks_ b).
Definition set_same_stream_ (x : bool) (b : MemoryBlock) : MemoryBlock :=
  mkMemoryBlock (ref_count_ b) (stream_id_ b) (deleted_block_ b) (reuse_mem_ b) x (input_index_ b) (continuous_block_ b)
    (first_continuous_block_ b) (last_continuous_block_ b) (is_zero_copy_ b) (depend_stream_life_ b)
    (memory_type_ b) (batch_label_ b) (block_size_ b) (real_size_list_ b) (no_align_size_list_ b)
    (head_offset_ b) (tail_offset_ b) (child_offset_ b) (node_type_index_list_ b) (symbol_list_ b)
    (child_blocks_ b).
Definition set_input_index_ (x : Z) (b : MemoryBlock) : MemoryBlock :=
  mkMemoryBlock (ref_count_ b) (stream_id_ b) (deleted_block_ b) (reuse_mem_ b) (same_stream_ b) x (continuous_block_ b)
    (first_continuous_block_ b) (last_continuous_block_ b) (is_zero_copy_ b) (depend_stream_life_ b)
    (memory_type_ b) (batch_label_ b) (block_size_ b) (real_size_list_ b) (no_align_size_list_ b)
    (head_offset_ b) (tail_offset_ b) (child_offset_ b) (node_type_index_list_ b) (symbol_list_ b)
    (child_blocks_ b).
Definition set_continuous_block_ (x : bool) (b : MemoryBlock) : MemoryBlock :=
  mkMemoryBlock (ref_count_ b) (stream_id_ b) (deleted_block_ b) (reuse_mem_ b) (same_stream_ b) (input_index_ b) x
    (first_continuous_block_ b) (last_continuous_block_ b) (is_zero_copy_ b) (depend_stream_life_ b)
    (memory_type_ b) (batch_label_ b) (block_size_ b) (real_size_list_ b) (no_align_size_list_ b)
    (head_offset_ b) (tail_offset_ b) (child_offset_ b) (node_type_index_list_ b) (symbol_list_ b)
    (child_blocks_ b).
Definition set_first_continuous_block_ (x : bool) (b : MemoryBlock) : MemoryBlock :=
  mkMemoryBlock (ref_count_ b) (stream_id_ b) (deleted_block_ b) (reuse_mem_ b) (same_stream_ b) (input_index_ b)
    (continuous_block_ b) x (last_continuous_block_ b) (is_zero_copy_ b) (depend_stream_life_ b)
    (memory_type_ b) (batch_label_ b) (block_size_ b) (real_size_list_ b) (no_align_size_list_ b)
    (head_offset_ b) (tail_offset_ b) (child_offset_ b) (node_type_index_list_ b) (symbol_list_ b)
    (child_blocks_ b).
Definition set_last_continuous_block_ (x : bool) (b : MemoryBlock) : MemoryBlock :=
  mkMemoryBlock (ref_count_ b) (stream_id_ b) (deleted_block_ b) (reuse_mem_ b) (same_stream_ b) (input_index_ b)
    (continuous_block_ b) (first_continuous_block_ b) x (is_zero_copy_ b) (depend_stream_life_ b)
    (memory_type_ b) (batch_label_ b) (block_size_ b) (real_size_list_ b) (no_align_size_list_ b)
    (head_offset_ b) (tail_offset_ b) (child_offset_ b) (node_type_index_list_ b) (symbol_list_ b)
    (child_blocks_ b).
Definition set_is_zero_copy_ (x : bool) (b : MemoryBlock) : MemoryBlock :=
  mkMemoryBlock (ref_count_ b) (stream_id_ b) (deleted_block_ b) (reuse_mem_ b) (same_stream_ b) (input_index_ b)
    (continuous_block_ b) (first_continuous_block_ b) (last_continuous_block_ b) x (depend_stream_life_ b)
    (memory_type_ b) (batch_label_ b) (block_size_ b) (real_size_list_ b) (no_align_size_list_ b)
    (head_offset_ b) (tail_offset_ b) (child_offset_ b) (node_type_index_list_ b) (symbol_list_ b)
    (child_blocks_ b).
Definition set_depend_stream_life_ (x : gmap Z Z) (b : MemoryBlock) : MemoryBlock :=
  mkMemoryBlock (ref_count_ b) (stream_id_ b) (deleted_block_ b) (reuse_mem_ b) (same_stream_ b) (input_index_ b)
    (continuous_block_ b) (first_continuous_block_ b) (last_continuous_block_ b) (is_zero_copy_ b) x
    (memory_type_ b) (batch_label_ b) (block_size_ b) (real_size_list_ b) (no_align_size_list_ b)
    (head_offset_ b) (tail_offset_ b) (child_offset_ b) (node_type_index_list_ b) (symbol_list_ b)
    (child_blocks_ b).
Definition set_batch_label_ (x : string) (b : MemoryBlock) : MemoryBlock :=
  mkMemoryBlock (ref_count_ b) (stream_id_ b) (deleted_block_ b) (reuse_mem_ b) (same_stream_ b) (input_index_ b)
    (continuous_block_ b) (first_continuous_block_ b) (last_continuous_block_ b) (is_zero_copy_ b)
    (depend_stream_life_ b) (memory_type_ b) x (block_size_ b) (real_size_list_ b) (no_align_size_list_ b)
    (head_offset_ b) (tail_offset_ b) (child_offset_ b) (node_type_index_list_ b) (symbol_list_ b)
    (child_blocks_ b).
Definition set_stream_id_ (x : Z) (b : MemoryBlock) : MemoryBlock :=
  mkMemoryBlock (ref_count_ b) x (deleted_block_ b) (reuse_mem_ b) (same_stream_ b) (input_index_ b)
    (continuous_block_ b) (first_continuous_block_ b) (last_continuous_block_ b) (is_zero_copy_ b)
    (depend_stream_life_ b) (memory_type_ b) (batch_label_ b) (block_size_ b) (real_size_list_ b)
    (no_align_size_list_ b) (head_offset_ b) (tail_offset_ b) (child_offset_ b) (node_type_index_list_ b)
    (symbol_list_ b) (child_blocks_ b).
Definition set_block_size_ (x : Z) (b : MemoryBlock) : MemoryBlock :=
  mkMemoryBlock (ref_count_ b) (stream_id_ b) (deleted_block_ b) (reuse_mem_ b) (same_stream_ b) (input_index_ b)
    (continuous_block_ b) (first_continuous_block_ b) (last_continuous_block_ b) (is_zero_copy_ b)
    (depend_stream_life_ b) (memory_type_ b) (batch_label_ b) x (real_size_list_ b) (no_align_size_list_ b)
    (head_offset_ b) (tail_offset_ b) (child_offset_ b) (node_type_index_list_ b) (symbol_list_ b)
    (child_blocks_ b).
Definition set_real_size_list_ (x : list Z) (b : MemoryBlock) : MemoryBlock :=
  mkMemoryBlock (ref_count_ b) (stream_id_ b) (deleted_block_ b) (reuse_mem_ b) (same_stream_ b) (input_index_ b)
    (continuous_block_ b) (first_continuous_block_ b) (last_continuous_block_ b) (is_zero_copy_ b)
    (depend_stream_life_ b) (memory_type_ b) (batch_label_ b) (block_size_ b) x (no_align_size_list_ b)
    (head_offset_ b) (tail_offset_ b) (child_offset_ b) (node_type_index_list_ b) (symbol_list_ b)
    (child_blocks_ b).
Definition set_no_align_size_list_ (x : list Z) (b : MemoryBlock) : MemoryBlock :=
  mkMemoryBlock (ref_count_ b) (stream_id_ b) (deleted_block_ b) (reuse_mem_ b) (same_stream_ b) (input_index_ b)
    (continuous_block_ b) (first_continuous_block_ b) (last_continuous_block_ b) (is_zero_copy_ b)
    (depend_stream_life_ b) (memory_type_ b) (batch_label_ b) (block_size_ b) (real_size_list_ b) x
    (head_offset_ b) (tail_offset_ b) (child_offset_ b) (node_type_index_list_ b) (symbol_list_ b)
    (child_blocks_ b).
Definition set_head_offset_ (x : Z) (b : MemoryBlock) : MemoryBlock :=
  mkMemoryBlock (ref_count_ b) (stream_id_ b) (deleted_block_ b) (reuse_mem_ b) (same_stream_ b) (input_index_ b)
    (continuous_block_ b) (first_continuous_block_ b) (last_continuous_block_ b) (is_zero_copy_ b)
    (depend_stream_life_ b) (memory_type_ b) (batch_label_ b) (block_size_ b) (real_size_list_ b)
    (no_align_size_list_ b) x (tail_offset_ b) (child_offset_ b) (node_type_index_list_ b) (symbol_list_ b)
    (child_blocks_ b).
Definition set_tail_offset_ (x : Z) (b : MemoryBlock) : MemoryBlock :=
  mkMemoryBlock (ref_count_ b) (stream_id_ b) (deleted_block_ b) (reuse_mem_ b) (same_stream_ b) (input_index_ b)
    (continuous_block_ b) (first_continuous_block_ b) (last_continuous_block_ b) (is_zero_copy_ b)
    (depend_stream_life_ b) (memory_type_ b) (batch_label_ b) (block_size_ b) (real_size_list_ b)
    (no_align_size_list_ b) (head_offset_ b) x (child_offset_ b) (node_type_index_list_ b) (symbol_list_ b)
    (child_blocks_ b).
Definition set_child_offset_ (x : Z) (b : MemoryBlock) : MemoryBlock :=
  mkMemoryBlock (ref_count_ b) (stream_id_ b) (deleted_block_ b) (reuse_mem_ b) (same_stream_ b) (input_index_ b)
    (continuous_block_ b) (first_continuous_block_ b) (last_continuous_block_ b) (is_zero_copy_ b)
    (depend_stream_life_ b) (memory_type_ b) (batch_label_ b) (block_size_ b) (real_size_list_ b)
    (no_align_size_list_ b) (head_offset_ b) (tail_offset_ b) x (node_type_index_list_ b) (symbol_list_ b)
    (child_blocks_ b).
Definition set_node_type_index_list_ (x : list NodeTypeIndex) (b : MemoryBlock) : MemoryBlock :=
  mkMemoryBlock (ref_count_ b) (stream_id_ b) (deleted_block_ b) (reuse_mem_ b) (same_stream_ b) (input_index_ b)
    (continuous_block_ b) (first_continuous_block_ b) (last_continuous_block_ b) (is_zero_copy_ b)
    (depend_stream_life_ b) (memory_type_ b) (batch_label_ b) (block_size_ b) (real_size_list_ b)
    (no_align_size_list_ b) (head_offset_ b) (tail_offset_ b) (child_offset_ b) x (symbol_list_ b)
    (child_blocks_ b).
Definition set_symbol_list_ (x : list string) (b : MemoryBlock) : MemoryBlock :=
  mkMemoryBlock (ref_count_ b) (stream_id_ b) (deleted_block_ b) (reuse_mem_ b) (same_stream_ b) (input_index_ b)
    (continuous_block_ b) (first_continuous_block_ b) (last_continuous_block_ b) (is_zero_copy_ b)
    (depend_stream_life_ b) (memory_type_ b) (batch_label_ b) (block_size_ b) (real_size_list_ b)
    (no_align_size_list_ b) (head_offset_ b) (tail_offset_ b) (child_offset_ b) (node_type_index_list_ b) x
    (child_blocks_ b).
Definition set_child_blocks_ (x : list (option nat)) (b : MemoryBlock) : MemoryBlock :=
  mkMemoryBlock (ref_count_ b) (stream_id_ b) (deleted_block_ b) (reuse_mem_ b) (same_stream_ b) (input_index_ b)
    (continuous_block_ b) (first_continuous_block_ b) (last_continuous_block_ b) (is_zero_copy_ b)
    (depend_stream_life_ b) (memory_type_ b) (batch_label_ b) (block_size_ b) (real_size_list_ b)
    (no_align_size_list_ b) (head_offset_ b) (tail_offset_ b) (child_offset_ b) (node_type_index_list_ b)
    (symbol_list_ b) x.

Abbreviation blocks := (gmap nat MemoryBlock).

(** `p->field = ...` *)
Definition upd_block (p : nat) (f : MemoryBlock -> MemoryBlock) (h : blocks) : option blocks :=
  match h !! p with
  | Some b => Some (<[p := f b]> h)
  | None => None
  end.

Definition SetSize (size : Z) (b : MemoryBlock) : MemoryBlock :=
  if block_size_ b <? size then set_block_size_ size b else b.

Definition AddNodeTypeIndex (node_type_index : NodeTypeIndex) (real_size no_align_size : Z) (b : MemoryBlock) : MemoryBlock :=
  let b := set_node_type_index_list_ (node_type_index_list_ b ++ [node_type_index]) b in
  let b := set_real_size_list_ (real_size_list_ b ++ [real_size]) b in
  let b := set_no_align_size_list_ (no_align_size_list_ b ++ [no_align_size]) b in
  match node node_type_index ≫= GetOpDesc with
  | Some d => if bool_decide (GetStreamId d = stream_id_ b) then b else set_same_stream_ false b
  | None => b
  end.

Definition AddSymbol (symbol : string) (b : MemoryBlock) : MemoryBlock :=
  set_symbol_list_ (symbol_list_ b ++ [symbol]) b.

(** `std::max_element` of a size vector; [None] is its end. *)
Definition max_element (l : list Z) : option Z :=
  match l with
  | [] => None
  | x :: l => Some (foldl Z.max x l)
  end.

Definition align_if_needed (size : Z) : Z :=
  if (0 <? size) && negb (size mod MEM_ALIGN_SIZE =? 0) then AlignMemOffset size else size.

Definition AlignSize (b : MemoryBlock) : Z :=
  match max_element (real_size_list_ b) with
  | None => 0
  | Some m => align_if_needed m
  end.

Definition block_GetLifeBegin (b : MemoryBlock) : Z :=
  match node_type_index_list_ b with
  | [] => 0
  | x :: _ => GetLifeBegin x
  end.

Definition GetLifeEnd (b : MemoryBlock) : Z :=
  match last (node_type_index_list_ b) with
  | None => kMaxLifeTime
  | Some x => life_time_end x
  end.

Definition set_life_time_end (time : Z) (x : NodeTypeIndex) : NodeTypeIndex :=
  mkNodeTypeIndex (node x) (mem_type x) (index x) (ref_input x) (life_time_begin x) time.

Definition SetLifeTimeEnd (time : Z) (b : MemoryBlock) : MemoryBlock :=
  set_node_type_index_list_ (alter (set_life_time_end time) (length (node_type_index_list_ b) - 1)%nat (node_type_index_list_ b)) b.

(** Whether every node but the first has the label of the block. *)
Fixpoint same_labels (label : string) (l : list NodeTypeIndex) : bool :=
  match l with
  | [] => true
  | x :: l =>
    match node x ≫= GetOpDesc with
    | None => same_labels label l
    | Some d => if bool_decide (BatchLabel d = label) then same_labels label l else false
    end
  end.

Definition IsSameBatchLabel (b : MemoryBlock) : bool :=
  if bool_decide (batch_label_ b = ""%string) then false
  else match node_type_index_list_ b with
       | [] => false
       | _ :: l => same_labels (batch_label_ b) l
       end.

(** ** Sizes and offsets: recursion over the children, [fuel] levels deep *)

(** The loop of Resize over the children; [go] is the call for one child. *)
Fixpoint resize_children (go : nat -> blocks -> option blocks) (cs : list (option nat)) (size : Z) (h : blocks) :
    option (Z * blocks) :=
  match cs with
  | [] => Some (size, h)
  | None :: cs => resize_children go cs size h
  | Some c :: cs =>
    h ← go c h;
    b ← h !! c;
    resize_children go cs (wrapU64 (size + block_size_ b)) h
  end.

Fixpoint Resize (fuel : nat) (p : nat) (h : blocks) : option blocks :=
  match fuel with
  | O => None
  | S fuel =>
    b ← h !! p;
    '(child_block_size, h) ← resize_children (Resize fuel) (child_blocks_ b) 0 h;
    match max_element (real_size_list_ b) with
    | None => Some h
    | Some m =>
      let block_size := if m <? child_block_size then child_block_size else m in
      let block_size := align_if_needed block_size in
      upd_block p (fun b =>
        set_block_size_ (if last_continuous_block_ b then wrapU64 (block_size + MEM_ALIGN_SIZE) else block_size) b) h
    end
  end.

Fixpoint head_children (go : nat -> Z -> blocks -> option blocks) (cs : list (option nat)) (child_offset : Z) (h : blocks) :
    option blocks :=
  match cs with
  | [] => Some h
  | None :: cs => head_children go cs child_offset h
  | Some c :: cs =>
    h ← go c child_offset h;
    b ← h !! c;
    head_children go cs (wrapU64 (child_offset + block_size_ b)) h
  end.

Fixpoint SetHeadOffset (fuel : nat) (p : nat) (offset : Z) (h : blocks) : option blocks :=
  match fuel with
  | O => None
  | S fuel =>
    h ← upd_block p (set_head_offset_ offset) h;
    b ← h !! p;
    head_children (SetHeadOffset fuel) (child_blocks_ b) (head_offset_ b) h
  end.

Fixpoint tail_children (go : nat -> Z -> blocks -> option blocks) (cs : list (option nat)) (child_offset : Z) (h : blocks) :
    option blocks :=
  match cs with
  | [] => Some h
  | None :: cs => tail_children go cs child_offset h
  | Some c :: cs =>
    b ← h !! c;
    let child_offset := wrapU64 (child_offset + block_size_ b) in
    h ← go c (wrapU64 (child_offset - 1)) h;
    tail_children go cs child_offset h
  end.

Fixpoint SetTailOffset (fuel : nat) (p : nat) (offset : Z) (h : blocks) : option blocks :=
  match fuel with
  | O => None
  | S fuel =>
    h ← upd_block p (set_tail_offset_ offset) h;
    b ← h !! p;
    tail_children (SetTailOffset fuel) (child_blocks_ b) (head_offset_ b) h
  end.

(** ** Life times *)
Definition CompareLifeTime (left_ right_ : NodeTypeIndex) : bool := GetLifeBegin left_ <? GetLifeBegin right_.

(** The nodes of a block and, with [child], of the blocks inside it; a block on another
    stream clears the list, which is shared by the whole recursion. *)
Fixpoint life_children (go : nat -> list NodeTypeIndex -> option (list NodeTypeIndex)) (h : blocks) (block : MemoryBlock)
    (cs : list (option nat)) (life_list : list NodeTypeIndex) : option (list NodeTypeIndex) :=
  match cs with
  | [] => Some life_list
  | None :: cs => life_children go h block cs life_list
  | Some c :: cs =>
    child_block ← h !! c;
    if negb (bool_decide (stream_id_ block = stream_id_ child_block)) || negb (same_stream_ block) ||
       negb (same_stream_ child_block)
    then Some []
    else life_list ← go c life_list; life_children go h block cs life_list
  end.

Fixpoint GetLifeList (fuel : nat) (h : blocks) (p : nat) (child : bool) (life_list : list NodeTypeIndex) :
    option (list NodeTypeIndex) :=
  match fuel with
  | O => None
  | S fuel =>
    block ← h !! p;
    let life_list := life_list ++ node_type_index_list_ block in
    if child then life_children (fun c => GetLifeList fuel h c true) h block (child_blocks_ block) life_list
    else Some life_list
  end.

Definition CrossLifeTime (left_ right_ : NodeTypeIndex) : bool :=
  match node left_, node right_ with
  | Some l, Some r =>
    match GetOpDesc l, GetOpDesc r with
    | Some _, Some _ =>
      if GetLifeBegin left_ <? GetLifeBegin right_ then GetLifeBegin right_ <=? life_time_end left_
      else if GetLifeBegin left_ =? GetLifeBegin right_ then true
      else GetLifeBegin left_ <=? life_time_end right_
    | _, _ => false
    end
  | _, _ => true
  end.

(** The loop over the sorted life times. *)
Fixpoint lives_apart (pre_life_end : Z) (life_list : list NodeTypeIndex) : option bool :=
  match life_list with
  | [] => Some true
  | x :: l =>
    n ← node x;
    match GetOpDesc n with
    | Some d => if life_of d <=? pre_life_end then Some false else lives_apart (life_time_end x) l
    | None => lives_apart (life_time_end x) l
    end
  end.

Definition CanIntervalLifeReuse `{StdSort} (fuel : nat) (h : blocks) (parent child : nat) : option bool :=
  parent_block ← h !! parent;
  child_block ← h !! child;
  match node_type_index_list_ parent_block, last (node_type_index_list_ parent_block),
        node_type_index_list_ child_block, last (node_type_index_list_ child_block) with
  | pf :: _, Some pb, cf :: _, Some cb =>
    if negb (bool_decide (stream_id_ parent_block = stream_id_ child_block)) || negb (same_stream_ parent_block) ||
       negb (same_stream_ child_block) then Some false
    else if CrossLifeTime pf cf then Some false
    else if CrossLifeTime pb cb then Some false
    else
      life_list ← GetLifeList fuel h parent false [];
      life_list ← GetLifeList fuel h child true life_list;
      match life_list with
      | [] => Some false
      | _ => lives_apart 0 (std_sort CompareLifeTime life_list)
      end
  | _, _, _, _ => Some false
  end.

Definition CanNotLifeReuse (b : MemoryBlock) : bool := negb (reuse_mem_ b) || deleted_block_ b.

End memory_block.

Abbreviation blocks := (gmap nat MemoryBlock).
