(* ===== verification/BlockForest.v ===== *)
(** The blocks of the memory assigner as a forest of trees, and what the three
    recursions over it (Resize, SetHeadOffset, SetTailOffset) compute.

    A heap represents a tree ([rep]) when the pointers of its blocks form it; [need] is
    the reference size of a block, the larger of its own data and of the blocks inside it,
    rounded up, without wrap-around; [placed] says that a block and everything in it lie
    where they should: the children one after the other from the first byte of the parent. *)
From S2P Require Import Prelude MemRanges MemoryBlock.
Open Scope Z_scope.

#[local] Set Warnings "-register-all".
Inductive tree := Tree (p : nat) (cs : list tree).

Definition root (t : tree) : nat := match t with Tree p _ => p end.
Fixpoint ptrs (t : tree) : list nat := match t with Tree p cs => p :: flat_map ptrs cs end.

Lemma tree_ind' (P : tree -> Prop) (H : forall p cs, Forall P cs -> P (Tree p cs)) : forall t, P t.
Proof.
  fix IH 1. intros [p cs]. apply H. induction cs as [|c cs IHcs]; constructor; [apply IH|exact IHcs].
Qed.

Lemma root_in_ptrs t : root t ∈ ptrs t.
Proof. destruct t. cbn. set_solver. Qed.

(** The least multiple of the alignment that is at least [x]. *)
Definition round_up (x : Z) : Z := (x + (MEM_ALIGN_SIZE - 1)) / MEM_ALIGN_SIZE * MEM_ALIGN_SIZE.

Lemma round_up_spec x : x <= round_up x < x + MEM_ALIGN_SIZE /\ round_up x mod MEM_ALIGN_SIZE = 0.
Proof.
  unfold round_up, MEM_ALIGN_SIZE. rewrite Z.mod_mul by lia. split; [|done].
  pose proof (Z.div_mod (x + (512 - 1)) 512 ltac:(lia)). pose proof (Z.mod_pos_bound (x + (512 - 1)) 512). lia.
Qed.

Lemma round_up_aligned x : x mod MEM_ALIGN_SIZE = 0 -> round_up x = x.
Proof.
  unfold round_up, MEM_ALIGN_SIZE. intros Hx. pose proof (Z.div_mod x 512 ltac:(lia)).
  replace (x + (512 - 1)) with (512 - 1 + (x / 512) * 512) by lia. rewrite Z.div_add by lia.
  rewrite (Z.div_small (512 - 1)) by lia. lia.
Qed.

Lemma AlignMemOffset_eq x : 0 <= x -> round_up x < 2 ^ 64 -> AlignMemOffset x = round_up x.
Proof.
  intros Hx Hb. pose proof (round_up_spec x) as [[H1 H2] H3].
  assert (x <= 2 ^ 64 - 512).
  { unfold round_up, MEM_ALIGN_SIZE in *.
    set (q := (x + (512 - 1)) / 512) in *. assert (q <= 36028797018963967) by lia. lia. }
  unfold AlignMemOffset. destruct (Z.leb_spec x 0).
  { assert (x = 0) as -> by lia. done. }
  rewrite (wrapU64_id (x + MEM_ALIGN_SIZE - 1)) by (unfold MEM_ALIGN_SIZE; lia). unfold round_up in *.
  replace (x + MEM_ALIGN_SIZE - 1) with (x + (MEM_ALIGN_SIZE - 1)) by lia. apply wrapU64_id. lia.
Qed.

Lemma align_if_needed_eq x : 0 <= x -> round_up x < 2 ^ 64 -> align_if_needed x = round_up x.
Proof.
  intros Hx Hb. unfold align_if_needed. destruct (Z.ltb_spec 0 x); cbn [andb].
  - destruct (Z.eqb_spec (x mod MEM_ALIGN_SIZE) 0); cbn [negb]; [by rewrite round_up_aligned|by apply AlignMemOffset_eq].
  - assert (x = 0) as -> by lia. done.
Qed.

Lemma max_element_spec l m : max_element l = Some m -> m ∈ l /\ forall x, x ∈ l -> x <= m.
Proof.
  destruct l as [|x l]; intros [= <-]. split; [apply foldl_max_elem|].
  destruct (foldl_max_spec l x). intros y [->|Hy]%elem_of_cons; auto.
Qed.

Section forest.
Context `{Graph}.
Implicit Types (h : blocks) (t c : tree) (b : MemoryBlock).

(** The pointers of the blocks form the tree. *)
Inductive rep h : tree -> Prop :=
| rep_intro p cs b : h !! p = Some b -> child_blocks_ b = map (fun c => Some (root c)) cs -> Forall (rep h) cs ->
  rep h (Tree p cs).

(** A block has the sizes of what it holds. *)
Definition block_ok b : Prop :=
  real_size_list_ b <> [] /\ Forall (fun x => 0 <= x < 2 ^ 64) (real_size_list_ b).

Fixpoint need h t : Z :=
  match t with
  | Tree p cs =>
    let kids := foldr (fun c s => need h c + s) 0 cs in
    match h !! p with
    | None => 0
    | Some b => round_up (Z.max kids (default 0 (max_element (real_size_list_ b)))) +
                (if last_continuous_block_ b then MEM_ALIGN_SIZE else 0)
    end
  end.
Definition needs h (cs : list tree) : Z := foldr (fun c s => need h c + s) 0 cs.

(** What is left of a block when the results of the three recursions are forgotten. *)
Definition erase b : MemoryBlock := set_tail_offset_ 0 (set_head_offset_ 0 (set_block_size_ 0 b)).

Definition agree (ps : list nat) h h' : Prop := forall q, q ∈ ps -> h !! q = h' !! q.

Fixpoint sized h t : Prop :=
  match t with
  | Tree p cs =>
    (exists b, h !! p = Some b /\ block_size_ b = need h t) /\
    (fix all cs := match cs with [] => True | c :: cs => sized h c /\ all cs end) cs
  end.

Fixpoint headed h t (off : Z) : Prop :=
  match t with
  | Tree p cs =>
    (exists b, h !! p = Some b /\ head_offset_ b = off) /\
    (fix all cs off := match cs with [] => True | c :: cs => headed h c off /\ all cs (off + need h c) end) cs off
  end.
Fixpoint all_headed h (cs : list tree) (off : Z) : Prop :=
  match cs with [] => True | c :: cs => headed h c off /\ all_headed h cs (off + need h c) end.

Fixpoint placed h t (off : Z) : Prop :=
  match t with
  | Tree p cs =>
    (exists b, h !! p = Some b /\ head_offset_ b = off /\ tail_offset_ b = wrapU64 (off + need h t - 1) /\
               block_size_ b = need h t) /\
    (fix all cs off := match cs with [] => True | c :: cs => placed h c off /\ all cs (off + need h c) end) cs off
  end.
Fixpoint all_placed h (cs : list tree) (off : Z) : Prop :=
  match cs with [] => True | c :: cs => placed h c off /\ all_placed h cs (off + need h c) end.

Lemma sized_unfold h p cs :
  sized h (Tree p cs) <-> (exists b, h !! p = Some b /\ block_size_ b = need h (Tree p cs)) /\ Forall (sized h) cs.
Proof.
  cbn [sized]. f_equiv. induction cs as [|c cs IH]; [by split; [constructor|]|]. by rewrite Forall_cons, <- IH.
Qed.
Lemma headed_unfold h p cs off :
  headed h (Tree p cs) off <-> (exists b, h !! p = Some b /\ head_offset_ b = off) /\ all_headed h cs off.
Proof. cbn [headed]. f_equiv. revert off. induction cs as [|c cs IH]; intros off; [done|]. cbn. by rewrite <- IH. Qed.
Lemma placed_unfold h p cs off :
  placed h (Tree p cs) off <->
  (exists b, h !! p = Some b /\ head_offset_ b = off /\ tail_offset_ b = wrapU64 (off + need h (Tree p cs) - 1) /\
             block_size_ b = need h (Tree p cs)) /\ all_placed h cs off.
Proof. cbn [placed]. f_equiv. revert off. induction cs as [|c cs IH]; intros off; [done|]. cbn [all_placed]. by rewrite <- IH. Qed.

Lemma need_unfold h p cs :
  need h (Tree p cs) =
  match h !! p with
  | None => 0
  | Some b => round_up (Z.max (needs h cs) (default 0 (max_element (real_size_list_ b)))) +
              (if last_continuous_block_ b then MEM_ALIGN_SIZE else 0)
  end.
Proof. done. Qed.

(** ** The predicates only depend on the blocks of the tree *)
Lemma elem_of_flat_ptrs q cs : q ∈ flat_map ptrs cs <-> exists c, c ∈ cs /\ q ∈ ptrs c.
Proof.
  induction cs as [|c cs IH]; cbn; [set_solver|]. rewrite elem_of_app, IH. setoid_rewrite elem_of_cons.
  split; [intros [?|(c' & ? & ?)]; eauto|intros (c' & [->|?] & ?); eauto].
Qed.

Lemma erase_fields b b' : erase b = erase b' ->
  real_size_list_ b = real_size_list_ b' /\ last_continuous_block_ b = last_continuous_block_ b' /\
  child_blocks_ b = child_blocks_ b' /\ memory_type_ b = memory_type_ b' /\
  first_continuous_block_ b = first_continuous_block_ b' /\ deleted_block_ b = deleted_block_ b' /\
  is_zero_copy_ b = is_zero_copy_ b' /\ reuse_mem_ b = reuse_mem_ b' /\ batch_label_ b = batch_label_ b' /\
  node_type_index_list_ b = node_type_index_list_ b'.
Proof.
  destruct b, b'. unfold erase, set_block_size_, set_head_offset_, set_tail_offset_. cbn. intros [= -> -> -> -> -> -> -> -> -> -> -> -> -> -> -> -> -> -> ->].
  done.
Qed.

Lemma need_ext h h' t :
  (forall q, q ∈ ptrs t -> erase <$> h !! q = erase <$> h' !! q) -> need h t = need h' t.
Proof.
  induction t as [p cs IH] using tree_ind'. intros He. rewrite !need_unfold.
  assert (needs h cs = needs h' cs) as ->.
  { assert (forall c, c ∈ cs -> forall q, q ∈ ptrs c -> erase <$> h !! q = erase <$> h' !! q) as Hc.
    { intros c Hc q Hq. apply He. cbn. apply elem_of_cons. right. apply elem_of_flat_ptrs. eauto. }
    clear He. induction IH as [|c cs Hrec _ IHc]; [done|]. cbn. f_equal; [apply Hrec, Hc; set_solver|].
    apply IHc. intros c' Hc'. apply Hc. set_solver. }
  specialize (He p ltac:(cbn; set_solver)).
  destruct (h !! p) as [b|], (h' !! p) as [b'|]; [|discriminate He..|done].
  apply (inj Some), erase_fields in He as (-> & -> & _). done.
Qed.

Lemma needs_ext h h' cs :
  (forall q, q ∈ flat_map ptrs cs -> erase <$> h !! q = erase <$> h' !! q) -> needs h cs = needs h' cs.
Proof.
  induction cs as [|c cs IH]; intros He; [done|]. cbn. f_equal.
  - apply need_ext. intros q Hq. apply He. cbn. set_solver.
  - apply IH. intros q Hq. apply He. cbn. set_solver.
Qed.

Lemma agree_erase ps h h' : agree ps h h' -> forall q, q ∈ ps -> erase <$> h !! q = erase <$> h' !! q.
Proof. intros Ha q Hq. by rewrite Ha. Qed.

Lemma agree_child p cs h h' c : agree (ptrs (Tree p cs)) h h' -> c ∈ cs -> agree (ptrs c) h h'.
Proof. intros Ha Hc q Hq. apply Ha. cbn. apply elem_of_cons. right. apply elem_of_flat_ptrs. eauto. Qed.

Lemma sized_agree h h' t : agree (ptrs t) h h' -> sized h t -> sized h' t.
Proof.
  induction t as [p cs IH] using tree_ind'. intros Ha. rewrite !sized_unfold. intros [(b & Hb & Hs) Hall]. split.
  - exists b. rewrite <- (Ha p) by (cbn; set_solver). split; [done|]. rewrite Hs. apply need_ext. by apply agree_erase.
  - rewrite Forall_forall in *. intros c Hc. apply IH; [done|by eapply agree_child|by apply Hall].
Qed.

Lemma need_nonneg h t : rep h t -> (forall q b, q ∈ ptrs t -> h !! q = Some b -> block_ok b) -> 0 <= need h t.
Proof.
  destruct t as [p cs]. intros Hr Hok. inversion Hr as [? ? b Hb Hc Hall]; subst. rewrite need_unfold, Hb.
  destruct (Hok p b ltac:(cbn; set_solver) Hb) as [Hne Hre]. rewrite Forall_forall in Hre.
  destruct (max_element (real_size_list_ b)) as [m|] eqn:Em; [|by destruct (real_size_list_ b)]. cbn.
  apply max_element_spec in Em as [Hm _]. specialize (Hre m Hm).
  pose proof (round_up_spec (Z.max (needs h cs) m)). unfold MEM_ALIGN_SIZE. destruct (last_continuous_block_ b); lia.
Qed.

(** ** Well-formed trees *)
Definition tree_ok h t : Prop :=
  rep h t /\ NoDup (ptrs t) /\ forall q b, q ∈ ptrs t -> h !! q = Some b -> block_ok b.

(** A run that changes only what [f] forgets. *)
Definition keeps (f : MemoryBlock -> MemoryBlock) h h' : Prop := forall q, f <$> h' !! q = f <$> h !! q.

(** A run that changed at most the sizes and offsets of the blocks [ps]. *)
Definition modifies (ps : list nat) h h' : Prop :=
  (forall q, q ∉ ps -> h' !! q = h !! q) /\ keeps erase h h'.

Lemma modifies_refl ps h : modifies ps h h.
Proof. done. Qed.
Lemma modifies_trans ps ps' h1 h2 h3 :
  modifies ps h1 h2 -> modifies ps' h2 h3 -> modifies (ps ++ ps') h1 h3.
Proof.
  intros [Hf1 He1] [Hf2 He2]. split; [|intros q; by rewrite He2].
  intros q Hq. rewrite elem_of_app in Hq. rewrite Hf2, Hf1; tauto.
Qed.
Lemma modifies_weaken ps ps' h h' : ps ⊆ ps' -> modifies ps h h' -> modifies ps' h h'.
Proof. intros Hs [Hf He]. split; [|done]. intros q Hq. apply Hf. set_solver. Qed.

Lemma modifies_upd p f h h' :
  upd_block p f h = Some h' -> (forall b, erase (f b) = erase b) -> modifies [p] h h'.
Proof.
  unfold upd_block. destruct (h !! p) as [b|] eqn:Hb; [|done]. intros [= <-] Hf. split.
  - intros q Hq. rewrite lookup_insert_ne; [done|]. set_solver.
  - intros q. destruct (decide (q = p)) as [->|]; [|by rewrite lookup_insert_ne].
    rewrite lookup_insert_eq, Hb. cbn. by rewrite Hf.
Qed.

Lemma erase_lookup h h' q b : (forall q, erase <$> h' !! q = erase <$> h !! q) -> h !! q = Some b ->
  exists b', h' !! q = Some b' /\ erase b' = erase b.
Proof. intros He Hb. specialize (He q). rewrite Hb in He. destruct (h' !! q) as [b'|]; [|done]. exists b'. split; [done|by apply (inj Some) in He]. Qed.

Lemma rep_ext h h' t : (forall q, erase <$> h' !! q = erase <$> h !! q) -> rep h t -> rep h' t.
Proof.
  intros He. induction t as [p cs IH] using tree_ind'. intros Hr. inversion Hr as [? ? b Hb Hc Hall]; subst.
  destruct (erase_lookup h h' p b He Hb) as (b' & Hb' & Heb). apply erase_fields in Heb as (_ & _ & Hk & _).
  econstructor; [done|by rewrite Hk|]. rewrite Forall_forall in *. auto.
Qed.

Lemma tree_ok_ext h h' t : (forall q, erase <$> h' !! q = erase <$> h !! q) -> tree_ok h t -> tree_ok h' t.
Proof.
  intros He (Hr & Hn & Hok). split_and!; [by eapply rep_ext|done|]. intros q b' Hq Hb'.
  destruct (erase_lookup h' h q b') as (b & Hb & Heb); [by intros q'; rewrite He|done|].
  apply erase_fields in Heb as (Hre & _). unfold block_ok. rewrite <- Hre. by eapply Hok.
Qed.

Lemma tree_ok_inv h p cs : tree_ok h (Tree p cs) ->
  exists b, h !! p = Some b /\ child_blocks_ b = map (fun c => Some (root c)) cs /\ block_ok b /\
    Forall (tree_ok h) cs /\ NoDup (flat_map ptrs cs) /\ p ∉ flat_map ptrs cs.
Proof.
  intros (Hr & Hn & Hok). inversion Hr as [? ? b Hb Hc Hall]; subst. cbn in Hn. apply NoDup_cons in Hn as [Hp Hn].
  exists b. split_and!; [done|done|apply (Hok p b); [apply (root_in_ptrs (Tree p cs))|done]| |done|done].
  rewrite Forall_forall in *. intros c Hcin. split_and!; [by apply Hall| |].
  - clear -Hn Hcin. induction cs as [|c' cs IH]; [by apply elem_of_nil in Hcin|]. cbn in Hn.
    apply NoDup_app in Hn as (H1 & _ & H2). apply elem_of_cons in Hcin as [->|Hcin]; [done|by apply IH].
  - intros q b' Hq. apply Hok. cbn. apply elem_of_cons. right. apply elem_of_flat_ptrs. eauto.
Qed.

Lemma needs_nonneg h cs : Forall (tree_ok h) cs -> 0 <= needs h cs.
Proof.
  induction 1 as [|c cs (Hr & _ & Hok) _ IH]; [done|]. cbn. pose proof (need_nonneg h c Hr Hok). unfold needs in IH. lia.
Qed.

(** A block is at least as large as what it holds and as its children together. *)
Lemma need_bounds h p cs b : tree_ok h (Tree p cs) -> h !! p = Some b ->
  needs h cs <= need h (Tree p cs) /\ forall m, max_element (real_size_list_ b) = Some m -> m <= need h (Tree p cs).
Proof.
  intros Hok Hb. rewrite need_unfold, Hb.
  set (x := Z.max _ _). pose proof (round_up_spec x) as [[Hx _] _].
  assert (0 <= (if last_continuous_block_ b then MEM_ALIGN_SIZE else 0)) by (unfold MEM_ALIGN_SIZE; by case_match).
  split; [lia|]. intros m Hm. unfold x in *. rewrite Hm in *. cbn in *. lia.
Qed.

Lemma length_ptrs_child p cs c : c ∈ cs -> (length (ptrs c) < length (ptrs (Tree p cs)))%nat.
Proof.
  intros Hc. cbn [ptrs length]. induction cs as [|c' cs IH]; [by apply elem_of_nil in Hc|]. cbn [flat_map]. rewrite length_app.
  apply elem_of_cons in Hc as [->|Hc]; [lia|]. specialize (IH Hc). lia.
Qed.

(** ** Resize *)
Lemma NoDup_flat_cons c cs : NoDup (flat_map ptrs (c :: cs)) ->
  NoDup (ptrs c) /\ NoDup (flat_map ptrs cs) /\ forall q, q ∈ ptrs c -> q ∈ flat_map ptrs cs -> False.
Proof. cbn. intros (H1 & H2 & H3)%NoDup_app. split_and!; [done|done|]. intros q Hq Hq'. by apply (H2 q). Qed.

(** Blocks that a run does not touch keep what holds of them. *)
Lemma modifies_agree ps ps' h h' : modifies ps h h' -> (forall q, q ∈ ps' -> q ∈ ps -> False) -> agree ps' h h'.
Proof. intros [Hf _] Hd q Hq. symmetry. apply Hf. intros Hq'. by eapply Hd. Qed.

Lemma Forall_tree_ok_ext ps h h' cs : modifies ps h h' -> Forall (tree_ok h) cs -> Forall (tree_ok h') cs.
Proof. intros [_ He] Hc. eapply Forall_impl; [exact Hc|]. intros c. by apply tree_ok_ext. Qed.

Definition Resize_ok t : Prop := forall fuel h,
  (length (ptrs t) <= fuel)%nat -> tree_ok h t -> need h t < 2 ^ 64 ->
  exists h', Resize fuel (root t) h = Some h' /\ modifies (ptrs t) h h' /\ sized h' t.

Lemma resize_children_ok fuel cs h size :
  Forall Resize_ok cs -> Forall (fun c => length (ptrs c) <= fuel)%nat cs ->
  Forall (tree_ok h) cs -> NoDup (flat_map ptrs cs) -> 0 <= size -> size + needs h cs < 2 ^ 64 ->
  exists h', resize_children (Resize fuel) (map (fun c => Some (root c)) cs) size h = Some (size + needs h cs, h') /\
    modifies (flat_map ptrs cs) h h' /\ Forall (sized h') cs.
Proof.
  intros Hspec Hfuel Hok Hn Hs Hb. revert h size Hok Hn Hs Hb.
  induction cs as [|c cs IH]; intros h size Hok Hn Hs Hb.
  { exists h. cbn. rewrite Z.add_0_r. split_and!; [done|apply modifies_refl|constructor]. }
  apply Forall_cons in Hspec as [Hc Hspec]. apply Forall_cons in Hfuel as [Hf Hfuel].
  apply Forall_cons in Hok as [Hokc Hok]. apply NoDup_flat_cons in Hn as (Hnc & Hn & Hdisj).
  pose proof (needs_nonneg h cs Hok) as H0. cbn [needs foldr] in Hb. change (foldr _ 0 cs) with (needs h cs) in Hb.
  pose proof (need_nonneg h c (proj1 Hokc) (proj2 (proj2 Hokc))) as H1.
  destruct (Hc fuel h Hf Hokc ltac:(lia)) as (h1 & Hr & Hm & Hsz).
  cbn [map resize_children]. rewrite Hr. cbn [mbind option_bind].
  assert (need h1 c = need h c) as Hnd by (apply need_ext; intros q _; apply Hm).
  assert (needs h1 cs = needs h cs) as Hnds by (apply needs_ext; intros q _; apply Hm).
  destruct c as [p kids]. pose proof Hsz as [(b & Hb1 & Hbs) _]%sized_unfold. cbn [root]. rewrite Hb1. cbn [mbind option_bind].
  rewrite Hbs, Hnd, wrapU64_id by lia.
  destruct (IH Hspec Hfuel h1 (size + need h (Tree p kids))) as (h2 & Hr2 & Hm2 & Hsz2);
    [by eapply Forall_tree_ok_ext|done|lia|lia|].
  exists h2. rewrite Hr2. split_and!.
  - f_equal. f_equal. rewrite Hnds. unfold needs. cbn [foldr]. lia.
  - cbn [flat_map]. by eapply modifies_trans.
  - constructor; [|done]. eapply sized_agree; [|exact Hsz]. eapply modifies_agree; [exact Hm2|done].
Qed.

Lemma Resize_spec t : Resize_ok t.
Proof.
  induction t as [p cs IH] using tree_ind'. intros fuel h Hfuel Hok Hneed.
  destruct fuel as [|fuel]; [cbn in Hfuel; lia|]. cbn [root].
  pose proof (tree_ok_inv h p cs Hok) as (b & Hb & Hk & [Hne Hre] & Hoks & Hn & Hp).
  pose proof (need_bounds h p cs b Hok Hb) as [Hkids _].
  destruct (resize_children_ok fuel cs h 0) as (h1 & Hr & Hm & Hsz); [done| |done|done|lia|lia|].
  { apply Forall_forall. intros c Hc. pose proof (length_ptrs_child p cs c Hc). lia. }
  cbn [Resize]. rewrite Hb. cbn [mbind option_bind]. rewrite Hk, Hr. cbn [mbind option_bind]. rewrite Z.add_0_l.
  destruct (max_element (real_size_list_ b)) as [m|] eqn:Em; [|by destruct (real_size_list_ b)].
  apply max_element_spec in Em as Hmax. rewrite Forall_forall in Hre. pose proof (Hre m (proj1 Hmax)) as Hm0.
  rewrite need_unfold, Hb, Em in Hneed. cbn [default from_option id] in Hneed.
  assert ((if m <? needs h cs then needs h cs else m) = Z.max (needs h cs) m) as Hif
    by (destruct (Z.ltb_spec m (needs h cs)); lia).
  cbv beta iota zeta. rewrite Hif.
  set (x := Z.max (needs h cs) m) in *. pose proof (round_up_spec x) as [[Hx1 Hx2] _].
  assert (round_up x < 2 ^ 64) as Hru by (unfold MEM_ALIGN_SIZE in Hneed; destruct (last_continuous_block_ b); lia).
  rewrite align_if_needed_eq by lia.
  assert (h1 !! p = Some b) as Hb1 by (by rewrite (proj1 Hm)).
  unfold upd_block. rewrite Hb1. eexists. split; [reflexivity|].
  set (b' := set_block_size_ _ b).
  assert (modifies (ptrs (Tree p cs)) h (<[p := b']> h1)) as Hmod.
  { eapply (modifies_weaken (flat_map ptrs cs ++ [p])); [cbn; set_solver|].
    eapply modifies_trans; [exact Hm|]. eapply (modifies_upd p (set_block_size_ _)); [|done].
    unfold upd_block. by rewrite Hb1. }
  split; [done|]. apply sized_unfold. split.
  - exists b'. rewrite lookup_insert_eq. split; [done|].
    rewrite (need_ext _ h) by (intros q _; apply Hmod). rewrite need_unfold, Hb, Em. cbn.
    fold x. destruct (last_continuous_block_ b); [|lia]. apply wrapU64_id. unfold MEM_ALIGN_SIZE in *. lia.
  - rewrite Forall_forall in *. intros c Hc. eapply sized_agree; [|by apply Hsz]. intros q Hq.
    rewrite lookup_insert_ne; [done|]. intros ->. apply Hp, elem_of_flat_ptrs. eauto.
Qed.
(** ** SetHeadOffset and SetTailOffset *)
Lemma keeps_lookup f h h' q b : keeps f h h' -> h !! q = Some b -> exists b', h' !! q = Some b' /\ f b' = f b.
Proof. intros He Hb. specialize (He q). rewrite Hb in He. destruct (h' !! q) as [b'|]; [|done]. exists b'. split; [done|by apply (inj Some) in He]. Qed.
Lemma keeps_trans f h1 h2 h3 : keeps f h1 h2 -> keeps f h2 h3 -> keeps f h1 h3.
Proof. intros H1 H2 q. by rewrite H2. Qed.
Lemma keeps_erase f h h' : (forall b, erase (f b) = erase b) -> keeps f h h' -> keeps erase h h'.
Proof.
  intros Hf Hk q. specialize (Hk q). destruct (h' !! q) as [b'|], (h !! q) as [b|]; [|discriminate Hk..|done].
  apply (inj Some) in Hk. cbn. by rewrite <- (Hf b), <- (Hf b'), Hk.
Qed.
Lemma keeps_upd p f g h h' : upd_block p f h = Some h' -> (forall b, g (f b) = g b) -> keeps g h h'.
Proof.
  unfold upd_block. destruct (h !! p) as [b|] eqn:Hb; [|done]. intros [= <-] Hf q.
  destruct (decide (q = p)) as [->|]; [|by rewrite lookup_insert_ne]. rewrite lookup_insert_eq, Hb. cbn. by rewrite Hf.
Qed.
Lemma head_block_size b b' : set_head_offset_ 0 b = set_head_offset_ 0 b' -> block_size_ b = block_size_ b'.
Proof. by intros [=]. Qed.
Lemma tail_block_size b b' : set_tail_offset_ 0 b = set_tail_offset_ 0 b' ->
  block_size_ b = block_size_ b' /\ head_offset_ b = head_offset_ b' /\ child_blocks_ b = child_blocks_ b'.
Proof. by intros [=]. Qed.

Lemma sized_keeps f h h' t :
  (forall b, erase (f b) = erase b) -> (forall b b', f b = f b' -> block_size_ b = block_size_ b') ->
  keeps f h h' -> sized h t -> sized h' t.
Proof.
  intros Hf Hs Hk. induction t as [p cs IH] using tree_ind'. rewrite !sized_unfold. intros [(b & Hb & Hbs) Hall]. split.
  - destruct (keeps_lookup f h h' p b Hk Hb) as (b' & Hb' & Hfb). exists b'. split; [done|].
    rewrite (Hs _ _ Hfb), Hbs. apply need_ext. intros q _. symmetry. by apply (keeps_erase f).
  - rewrite Forall_forall in *. auto.
Qed.

Lemma headed_agree h h' t off : agree (ptrs t) h h' -> headed h t off -> headed h' t off.
Proof.
  revert off. induction t as [p cs IH] using tree_ind'. intros off Ha. rewrite !headed_unfold.
  intros [(b & Hb & Hs) Hall]. split; [exists b; by rewrite <- (Ha p) by apply (root_in_ptrs (Tree p cs))|].
  assert (forall c, c ∈ cs -> agree (ptrs c) h h') as Hac by (intros c Hc; by eapply agree_child).
  clear Ha Hb Hs. revert off Hall. induction IH as [|c cs Hc _ IHc]; intros off; [done|]. cbn. intros [H1 H2].
  split; [apply Hc; [apply Hac; set_solver|done]|]. rewrite <- (need_ext h h') by (apply agree_erase, Hac; set_solver).
  apply IHc; [|done]. intros c' Hc'. apply Hac. set_solver.
Qed.

Definition Head_ok t : Prop := forall fuel h off,
  (length (ptrs t) <= fuel)%nat -> tree_ok h t -> sized h t -> 0 <= off -> off + need h t < 2 ^ 64 ->
  exists h', SetHeadOffset fuel (root t) off h = Some h' /\ (forall q, q ∉ ptrs t -> h' !! q = h !! q) /\
    keeps (set_head_offset_ 0) h h' /\ headed h' t off.

Lemma head_children_ok fuel cs h off :
  Forall Head_ok cs -> Forall (fun c => length (ptrs c) <= fuel)%nat cs ->
  Forall (tree_ok h) cs -> Forall (sized h) cs -> NoDup (flat_map ptrs cs) -> 0 <= off -> off + needs h cs < 2 ^ 64 ->
  exists h', head_children (SetHeadOffset fuel) (map (fun c => Some (root c)) cs) off h = Some h' /\
    (forall q, q ∉ flat_map ptrs cs -> h' !! q = h !! q) /\ keeps (set_head_offset_ 0) h h' /\ all_headed h' cs off.
Proof.
  intros Hspec Hfuel. revert h off. induction cs as [|c cs IH]; intros h off Hok Hsz Hn Hs Hb.
  { by exists h. }
  apply Forall_cons in Hspec as [Hc Hspec]. apply Forall_cons in Hfuel as [Hf Hfuel].
  apply Forall_cons in Hok as [Hokc Hok]. apply Forall_cons in Hsz as [Hszc Hsz]. apply NoDup_flat_cons in Hn as (Hnc & Hn & Hdisj).
  pose proof (needs_nonneg h cs Hok) as H0. cbn [needs foldr] in Hb. change (foldr _ 0 cs) with (needs h cs) in Hb.
  pose proof (need_nonneg h c (proj1 Hokc) (proj2 (proj2 Hokc))) as H1.
  destruct (Hc fuel h off Hf Hokc Hszc Hs ltac:(lia)) as (h1 & Hr & Hfr & Hk & Hhd).
  assert (keeps erase h h1) as Hke by (by apply (keeps_erase (set_head_offset_ 0))).
  assert (need h1 c = need h c) as Hnd by (apply need_ext; intros q _; apply Hke).
  assert (needs h1 cs = needs h cs) as Hnds by (apply needs_ext; intros q _; apply Hke).
  cbn [map head_children]. rewrite Hr. cbn [mbind option_bind].
  destruct c as [p kids]. pose proof Hszc as [(b & Hb0 & Hbs) _]%sized_unfold.
  destruct (keeps_lookup _ h h1 p b Hk Hb0) as (b1 & Hb1 & Hbb). apply head_block_size in Hbb.
  cbn [root]. rewrite Hb1. cbn [mbind option_bind]. rewrite Hbb, Hbs, wrapU64_id by lia.
  destruct (IH Hspec Hfuel h1 (off + need h (Tree p kids))) as (h2 & Hr2 & Hfr2 & Hk2 & Hhd2).
  - eapply Forall_impl; [exact Hok|]. intros c. by apply tree_ok_ext.
  - eapply Forall_impl; [exact Hsz|]. intros c. apply (sized_keeps (set_head_offset_ 0)); [done|apply head_block_size|done].
  - done.
  - lia.
  - lia.
  - exists h2. rewrite Hr2. split_and!; [done| |by eapply keeps_trans|].
    + cbn [flat_map]. intros q Hq. rewrite elem_of_app in Hq. rewrite Hfr2, Hfr; tauto.
    + cbn [all_headed]. assert (agree (ptrs (Tree p kids)) h1 h2) as Ha
        by (intros q Hq; symmetry; apply Hfr2; intros Hq'; by eapply Hdisj).
      split; [by eapply headed_agree|]. rewrite <- (need_ext h1 h2) by (by apply agree_erase). by rewrite Hnd.
Qed.

Lemma SetHeadOffset_spec t : Head_ok t.
Proof.
  induction t as [p cs IH] using tree_ind'. intros fuel h off Hfuel Hok Hsz Hoff Hneed.
  destruct fuel as [|fuel]; [cbn in Hfuel; lia|]. cbn [root].
  pose proof (tree_ok_inv h p cs Hok) as (b & Hb & Hk & _ & Hoks & Hn & Hp).
  pose proof (need_bounds h p cs b Hok Hb) as [Hkids _].
  cbn [SetHeadOffset]. unfold upd_block at 1. rewrite Hb. cbn [mbind option_bind]. rewrite lookup_insert_eq. cbn [mbind option_bind].
  set (b1 := set_head_offset_ off b). set (h1 := <[p := b1]> h).
  assert (keeps (set_head_offset_ 0) h h1) as Hk1.
  { eapply (keeps_upd p (set_head_offset_ off)); [|done]. unfold upd_block. by rewrite Hb. }
  assert (keeps erase h h1) as Hke by (by apply (keeps_erase (set_head_offset_ 0))).
  change (child_blocks_ b1) with (child_blocks_ b). rewrite Hk. change (head_offset_ b1) with off.
  apply sized_unfold in Hsz as [_ Hszs].
  destruct (head_children_ok fuel cs h1 off) as (h2 & Hr2 & Hfr2 & Hk2 & Hhd2).
  - done.
  - apply Forall_forall. intros c Hc. pose proof (length_ptrs_child p cs c Hc). lia.
  - eapply Forall_impl; [exact Hoks|]. intros c. by apply tree_ok_ext.
  - eapply Forall_impl; [exact Hszs|]. intros c. apply (sized_keeps (set_head_offset_ 0)); [done|apply head_block_size|done].
  - done.
  - done.
  - rewrite (needs_ext h1 h) by (intros q _; apply Hke). lia.
  - exists h2. rewrite Hr2. split_and!; [done| |by eapply keeps_trans|].
    + intros q Hq. cbn in Hq. rewrite Hfr2 by set_solver. unfold h1. apply lookup_insert_ne. set_solver.
    + apply headed_unfold. split; [|done]. exists b1. rewrite Hfr2 by done. unfold h1. by rewrite lookup_insert_eq.
Qed.

Lemma placed_agree h h' t off : agree (ptrs t) h h' -> placed h t off -> placed h' t off.
Proof.
  revert off. induction t as [p cs IH] using tree_ind'. intros off Ha. rewrite !placed_unfold.
  rewrite (need_ext h' h) by (intros q Hq; symmetry; by eapply agree_erase).
  intros [(b & Hb & Hs) Hall]. split; [exists b; by rewrite <- (Ha p) by apply (root_in_ptrs (Tree p cs))|].
  assert (forall c, c ∈ cs -> agree (ptrs c) h h') as Hac by (intros c Hc; by eapply agree_child).
  clear Ha Hb Hs. revert off Hall. induction IH as [|c cs Hc _ IHc]; intros off; [done|]. cbn [all_placed]. intros [H1 H2].
  split; [apply Hc; [apply Hac; set_solver|done]|]. rewrite <- (need_ext h h') by (apply agree_erase, Hac; set_solver).
  apply IHc; [|done]. intros c' Hc'. apply Hac. set_solver.
Qed.

(** Heads are kept by a run that keeps every field but the tail. *)
Lemma headed_keeps h h' t off : keeps (set_tail_offset_ 0) h h' -> headed h t off -> headed h' t off.
Proof.
  intros Hk. assert (keeps erase h h') as Hke by (by apply (keeps_erase (set_tail_offset_ 0))).
  revert off. induction t as [p cs IH] using tree_ind'. intros off. rewrite !headed_unfold.
  intros [(b & Hb & Hs) Hall]. split.
  - destruct (keeps_lookup _ h h' p b Hk Hb) as (b' & Hb' & Hbb). exists b'. split; [done|].
    apply tail_block_size in Hbb as (_ & -> & _). done.
  - clear Hb Hs. revert off Hall. induction IH as [|c cs Hc _ IHc]; intros off; [done|]. cbn. intros [H1 H2].
    split; [by apply Hc|]. rewrite (need_ext h' h) by (intros q _; apply Hke). by apply IHc.
Qed.

Lemma all_headed_keeps h h' cs off : keeps (set_tail_offset_ 0) h h' -> all_headed h cs off -> all_headed h' cs off.
Proof.
  intros Hk. assert (keeps erase h h') as Hke by (by apply (keeps_erase (set_tail_offset_ 0))).
  revert off. induction cs as [|c cs IH]; intros off; [done|]. cbn. intros [H1 H2].
  split; [by eapply headed_keeps|]. rewrite (need_ext h' h) by (intros q _; apply Hke). by apply IH.
Qed.

Lemma sized_keeps_tail h h' t : keeps (set_tail_offset_ 0) h h' -> sized h t -> sized h' t.
Proof. apply sized_keeps; [done|]. intros b b' Hbb. by apply tail_block_size in Hbb as (? & _). Qed.

Definition Tail_ok t : Prop := forall fuel h off,
  (length (ptrs t) <= fuel)%nat -> tree_ok h t -> sized h t -> headed h t off -> 0 <= off -> off + need h t < 2 ^ 64 ->
  exists h', SetTailOffset fuel (root t) (wrapU64 (off + need h t - 1)) h = Some h' /\
    (forall q, q ∉ ptrs t -> h' !! q = h !! q) /\ keeps (set_tail_offset_ 0) h h' /\ placed h' t off.

Lemma tail_children_ok fuel cs h off :
  Forall Tail_ok cs -> Forall (fun c => length (ptrs c) <= fuel)%nat cs ->
  Forall (tree_ok h) cs -> Forall (sized h) cs -> all_headed h cs off -> NoDup (flat_map ptrs cs) ->
  0 <= off -> off + needs h cs < 2 ^ 64 ->
  exists h', tail_children (SetTailOffset fuel) (map (fun c => Some (root c)) cs) off h = Some h' /\
    (forall q, q ∉ flat_map ptrs cs -> h' !! q = h !! q) /\ keeps (set_tail_offset_ 0) h h' /\ all_placed h' cs off.
Proof.
  intros Hspec Hfuel. revert h off. induction cs as [|c cs IH]; intros h off Hok Hsz Hhd Hn Hs Hb.
  { by exists h. }
  apply Forall_cons in Hspec as [Hc Hspec]. apply Forall_cons in Hfuel as [Hf Hfuel]. destruct Hhd as [Hhdc Hhd].
  apply Forall_cons in Hok as [Hokc Hok]. apply Forall_cons in Hsz as [Hszc Hsz]. apply NoDup_flat_cons in Hn as (Hnc & Hn & Hdisj).
  pose proof (needs_nonneg h cs Hok) as H0. cbn [needs foldr] in Hb. change (foldr _ 0 cs) with (needs h cs) in Hb.
  pose proof (need_nonneg h c (proj1 Hokc) (proj2 (proj2 Hokc))) as H1.
  destruct (Hc fuel h off Hf Hokc Hszc Hhdc Hs ltac:(lia)) as (h1 & Hr & Hfr & Hk & Hpl).
  assert (keeps erase h h1) as Hke by (by apply (keeps_erase (set_tail_offset_ 0))).
  assert (need h1 c = need h c) as Hnd by (apply need_ext; intros q _; apply Hke).
  assert (needs h1 cs = needs h cs) as Hnds by (apply needs_ext; intros q _; apply Hke).
  cbn [map tail_children]. destruct c as [p kids]. pose proof Hszc as [(b & Hb0 & Hbs) _]%sized_unfold.
  cbn [root] in *. rewrite Hb0. cbn [mbind option_bind]. rewrite Hbs, (wrapU64_id (off + _)) by lia.
  rewrite Hr. cbn [mbind option_bind].
  destruct (IH Hspec Hfuel h1 (off + need h (Tree p kids))) as (h2 & Hr2 & Hfr2 & Hk2 & Hpl2).
  - eapply Forall_impl; [exact Hok|]. intros c. by apply tree_ok_ext.
  - eapply Forall_impl; [exact Hsz|]. intros c. by apply sized_keeps_tail.
  - by eapply all_headed_keeps.
  - done.
  - lia.
  - lia.
  - exists h2. rewrite Hr2. split_and!; [done| |by eapply keeps_trans|].
    + cbn [flat_map]. intros q Hq. rewrite elem_of_app in Hq. rewrite Hfr2, Hfr; tauto.
    + cbn [all_placed]. assert (agree (ptrs (Tree p kids)) h1 h2) as Ha
        by (intros q Hq; symmetry; apply Hfr2; intros Hq'; by eapply Hdisj).
      split; [by eapply placed_agree|]. rewrite <- (need_ext h1 h2) by (by apply agree_erase). by rewrite Hnd.
Qed.

Lemma SetTailOffset_spec t : Tail_ok t.
Proof.
  induction t as [p cs IH] using tree_ind'. intros fuel h off Hfuel Hok Hsz Hhd Hoff Hneed.
  destruct fuel as [|fuel]; [cbn in Hfuel; lia|]. cbn [root].
  pose proof (tree_ok_inv h p cs Hok) as (b & Hb & Hk & _ & Hoks & Hn & Hp).
  pose proof (need_bounds h p cs b Hok Hb) as [Hkids _].
  cbn [SetTailOffset]. set (tl := wrapU64 _). unfold upd_block at 1. rewrite Hb. cbn [mbind option_bind].
  rewrite lookup_insert_eq. cbn [mbind option_bind].
  set (b1 := set_tail_offset_ tl b). set (h1 := <[p := b1]> h).
  assert (keeps (set_tail_offset_ 0) h h1) as Hk1.
  { eapply (keeps_upd p (set_tail_offset_ tl)); [|done]. unfold upd_block. by rewrite Hb. }
  assert (keeps erase h h1) as Hke by (by apply (keeps_erase (set_tail_offset_ 0))).
  change (child_blocks_ b1) with (child_blocks_ b). rewrite Hk. change (head_offset_ b1) with (head_offset_ b).
  apply sized_unfold in Hsz as [(b0 & Hb0 & Hbs) Hszs]. apply headed_unfold in Hhd as [(b2 & Hb2 & Hbh) Hhds].
  assert (b0 = b) as -> by congruence. assert (b2 = b) as -> by congruence. rewrite Hbh.
  destruct (tail_children_ok fuel cs h1 off) as (h2 & Hr2 & Hfr2 & Hk2 & Hpl2).
  - done.
  - apply Forall_forall. intros c Hc. pose proof (length_ptrs_child p cs c Hc). lia.
  - eapply Forall_impl; [exact Hoks|]. intros c. by apply tree_ok_ext.
  - eapply Forall_impl; [exact Hszs|]. intros c. by apply sized_keeps_tail.
  - by eapply all_headed_keeps.
  - done.
  - done.
  - rewrite (needs_ext h1 h) by (intros q _; apply Hke). lia.
  - exists h2. rewrite Hr2. split_and!; [done| |by eapply keeps_trans|].
    + intros q Hq. cbn in Hq. rewrite Hfr2 by set_solver. unfold h1. apply lookup_insert_ne. set_solver.
    + apply placed_unfold. split; [|done]. exists b1. rewrite Hfr2 by done. unfold h1. rewrite lookup_insert_eq.
      rewrite (need_ext _ h). 2:{ intros q _. apply (keeps_erase (set_tail_offset_ 0)); [done|]. by eapply keeps_trans. }
      done.
Qed.

(** Every block of a placed tree lies inside it and holds its data. *)
Lemma placed_inside h t off : tree_ok h t -> placed h t off -> forall q, q ∈ ptrs t ->
  exists b, h !! q = Some b /\ off <= head_offset_ b /\ head_offset_ b + block_size_ b <= off + need h t /\
    forall m, m ∈ real_size_list_ b -> m <= block_size_ b.
Proof.
  revert off. induction t as [p cs IH] using tree_ind'. intros off Hok Hpl q Hq.
  pose proof (tree_ok_inv h p cs Hok) as (b & Hb & Hk & [Hne _] & Hoks & _ & _).
  pose proof (need_bounds h p cs b Hok Hb) as [Hkids Hdata].
  apply placed_unfold in Hpl as [(b' & Hb' & Hhd & _ & Hsz) Hall]. assert (b' = b) as -> by congruence.
  cbn in Hq. apply elem_of_cons in Hq as [->|Hq].
  { exists b. split_and!; [done|lia|lia|]. intros m Hm.
    destruct (max_element (real_size_list_ b)) as [x|] eqn:Em; [|by destruct (real_size_list_ b)].
    pose proof (proj2 (max_element_spec _ _ Em) m Hm). specialize (Hdata x eq_refl). lia. }
  set (hi := off + need h (Tree p cs)) in *.
  assert (forall o, off <= o -> o + needs h cs <= hi -> all_placed h cs o ->
    exists b, h !! q = Some b /\ off <= head_offset_ b /\ head_offset_ b + block_size_ b <= hi /\
    forall m, m ∈ real_size_list_ b -> m <= block_size_ b) as Hgo; [|apply (Hgo off); [lia|unfold hi; lia|done]].
  clearbody hi. clear Hall Hkids Hk Hok Hdata Hsz Hb'. revert Hq Hoks. induction IH as [|c cs Hc _ IHc]; [set_solver|].
  cbn [flat_map]. intros Hq Hoks o Ho Hfit [Hpc Hall]. apply Forall_cons in Hoks as [Hokc Hoks].
  pose proof (needs_nonneg h cs Hoks). pose proof (need_nonneg h c (proj1 Hokc) (proj2 (proj2 Hokc))).
  cbn [needs foldr] in Hfit. change (foldr _ 0 cs) with (needs h cs) in Hfit.
  apply elem_of_app in Hq as [Hq|Hq].
  - destruct (Hc o Hokc Hpc q Hq) as (b0 & ? & ? & ? & ?). exists b0. split_and!; [done|lia|lia|done].
  - apply (IHc Hq Hoks (o + need h c)); [lia|lia|done].
Qed.

Lemma ptrs_in_dom h t : rep h t -> forall q, q ∈ ptrs t -> is_Some (h !! q).
Proof.
  induction t as [p cs IH] using tree_ind'. intros Hr q Hq. inversion Hr as [? ? b Hb Hc Hall]; subst.
  cbn in Hq. apply elem_of_cons in Hq as [->|(c & Hcin & Hq)%elem_of_flat_ptrs]; [by exists b|].
  rewrite Forall_forall in IH, Hall. apply (IH c); [done|by apply Hall|done].
Qed.

(** The size of the heap bounds the depth of every tree. *)
Lemma tree_fuel h t : rep h t -> NoDup (ptrs t) -> (length (ptrs t) <= size h)%nat.
Proof.
  intros Hr Hn. rewrite <- (size_list_to_set (C := gset nat) (ptrs t)) by done. rewrite <- size_dom. apply subseteq_size.
  intros q Hq. apply elem_of_list_to_set in Hq. apply elem_of_dom. by eapply ptrs_in_dom.
Qed.

End forest.
