(* ===== verification/MemoryPlan.v ===== *)
(** The last phase of the memory assigner (BlockMemAssigner::ResizeMemoryBlocks of
    ge/graph/build/memory/block_mem_assigner.cc): every block that was not merged into another gets its size and
    its offset; the blocks of the batches of a dynamic-batch model share the region after
    the others.

    The theorem is the contract of the phase: blocks that are in use together get disjoint
    ranges below the reported memory size, each large enough for its data, with the blocks
    merged into it inside it. *)
From S2P Require Import Prelude MemRanges MemoryBlock BlockForest.
Open Scope Z_scope.

(** The order of `std::string`. *)
Definition string_le (a b : string) : Prop := String.leb a b = true.
#[export] Instance string_le_dec : RelDecision string_le.
Proof. intros a b. unfold string_le. apply _. Defined.

Section plan.
Context `{Graph}.

(** One arm of AddBlockMemOffset: the block is resized and placed at the offset. *)
Definition place_block (fuel : nat) (p : nat) (b : MemoryBlock) (mem_offset : Z) (h : blocks) : option (Z * blocks) :=
  let mem_offset := if first_continuous_block_ b then wrapU64 (mem_offset + MEM_ALIGN_SIZE) else mem_offset in
  h ← Resize fuel p h;
  h ← SetHeadOffset fuel p mem_offset h;
  b ← h !! p;
  let mem_offset := wrapU64 (mem_offset + block_size_ b) in
  h ← SetTailOffset fuel p (wrapU64 (mem_offset - 1)) h;
  Some (mem_offset, h).

Definition AddBlockMemOffset (fuel : nat) (mem_offset p2p_mem_offset : Z) (p : nat) (h : blocks) : option (Z * Z * blocks) :=
  b ← h !! p;
  if memory_type_ b =? RT_MEMORY_HBM then
    '(mem_offset, h) ← place_block fuel p b mem_offset h; Some (mem_offset, p2p_mem_offset, h)
  else if memory_type_ b =? RT_MEMORY_P2P_DDR then
    '(p2p_mem_offset, h) ← place_block fuel p b p2p_mem_offset h; Some (mem_offset, p2p_mem_offset, h)
  else Some (mem_offset, p2p_mem_offset, h).

Definition DynamicBatchBlockReuse (b : MemoryBlock) : bool := IsSameBatchLabel b && reuse_mem_ b.

(** `for (auto block : blocks) { if (block == nullptr || skip) continue; AddBlockMemOffset(...); }` *)
Fixpoint place_all (fuel : nat) (skip : MemoryBlock -> bool) (mbs : list (option nat)) (mem_offset p2p_mem_offset : Z) (h : blocks) :
    option (Z * Z * blocks) :=
  match mbs with
  | [] => Some (mem_offset, p2p_mem_offset, h)
  | None :: mbs => place_all fuel skip mbs mem_offset p2p_mem_offset h
  | Some p :: mbs =>
    b ← h !! p;
    if skip b then place_all fuel skip mbs mem_offset p2p_mem_offset h
    else
      '(mem_offset, p2p_mem_offset, h) ← AddBlockMemOffset fuel mem_offset p2p_mem_offset p h;
      place_all fuel skip mbs mem_offset p2p_mem_offset h
  end.

(** The map from batch labels to their blocks, in the order of the keys of a `std::map`. *)
Fixpoint dynamic_batch_blocks (h : blocks) (mbs : list (option nat)) : option (list (string * nat)) :=
  match mbs with
  | [] => Some []
  | None :: mbs => dynamic_batch_blocks h mbs
  | Some p :: mbs =>
    b ← h !! p;
    l ← dynamic_batch_blocks h mbs;
    Some (if DynamicBatchBlockReuse b then (batch_label_ b, p) :: l else l)
  end.
Definition batch_labels (l : list (string * nat)) : list string :=
  merge_sort string_le (remove_dups (map fst l)).
Definition blocks_of_batch (label : string) (l : list (string * nat)) : list (option nat) :=
  map (fun x => Some x.2) (filter (fun x => x.1 = label) l).

Definition skip_in_batch (b : MemoryBlock) : bool := deleted_block_ b || is_zero_copy_ b.

Fixpoint place_batches (fuel : nat) (l : list (string * nat)) (labels : list string) (mem_offset_ p2p_mem_offset_ : Z)
    (max_mem_offset max_p2p_mem_offset : Z) (h : blocks) : option (Z * Z * blocks) :=
  match labels with
  | [] => Some (max_mem_offset, max_p2p_mem_offset, h)
  | label :: labels =>
    '(mem_offset, p2p_mem_offset, h) ←
      place_all fuel skip_in_batch (blocks_of_batch label l) mem_offset_ p2p_mem_offset_ h;
    let max_mem_offset := if max_mem_offset <? mem_offset then mem_offset else max_mem_offset in
    let max_p2p_mem_offset := if max_p2p_mem_offset <? p2p_mem_offset then p2p_mem_offset else max_p2p_mem_offset in
    place_batches fuel l labels mem_offset_ p2p_mem_offset_ max_mem_offset max_p2p_mem_offset h
  end.

Definition ResizeDynamicBatchBlocks (fuel : nat) (memory_blocks_ : list (option nat)) (mem_offset_ p2p_mem_offset_ : Z)
    (h : blocks) : option (Z * Z * blocks) :=
  l ← dynamic_batch_blocks h memory_blocks_;
  place_batches fuel l (batch_labels l) mem_offset_ p2p_mem_offset_ mem_offset_ p2p_mem_offset_ h.

Definition skip_in_resize (b : MemoryBlock) : bool := deleted_block_ b || is_zero_copy_ b || DynamicBatchBlockReuse b.

(** [fuel] bounds the depth of the nesting of the blocks. *)
Definition ResizeMemoryBlocks (fuel : nat) (memory_blocks_ : list (option nat)) (mem_offset_ p2p_mem_offset_ : Z) (h : blocks) :
    option (Z * Z * blocks) :=
  '(mem_offset_, p2p_mem_offset_, h) ← place_all fuel skip_in_resize memory_blocks_ mem_offset_ p2p_mem_offset_ h;
  ResizeDynamicBatchBlocks fuel memory_blocks_ mem_offset_ p2p_mem_offset_ h.

(** * Placing one block *)
Implicit Types (h : blocks) (t : tree).

Definition pad (b : MemoryBlock) : Z := if first_continuous_block_ b then MEM_ALIGN_SIZE else 0.

Lemma place_block_ok fuel h t b off :
  tree_ok h t -> (length (ptrs t) <= fuel)%nat -> h !! root t = Some b -> 0 <= off -> off + MEM_ALIGN_SIZE + need h t < 2 ^ 64 ->
  exists h', place_block fuel (root t) b off h = Some (off + pad b + need h t, h') /\
    modifies (ptrs t) h h' /\ placed h' t (off + pad b).
Proof.
  intros Hok Hfuel Hb Hoff Hfit. unfold place_block.
  pose proof (need_nonneg h t (proj1 Hok) (proj2 (proj2 Hok))) as Hnn.
  assert ((if first_continuous_block_ b then wrapU64 (off + MEM_ALIGN_SIZE) else off) = off + pad b /\ 0 <= pad b <= MEM_ALIGN_SIZE)
    as [-> Hpad].
  { unfold pad, MEM_ALIGN_SIZE in *.
    destruct (first_continuous_block_ b); [rewrite wrapU64_id by lia|]; lia. }
  destruct (Resize_spec t fuel h Hfuel Hok ltac:(unfold MEM_ALIGN_SIZE in *; lia)) as (h1 & -> & [Hf1 He1] & Hsz1). cbn [mbind option_bind].
  assert (need h1 t = need h t) as Hn1 by (apply need_ext; intros q _; apply He1).
  assert (tree_ok h1 t) as Hok1 by (by eapply tree_ok_ext).
  destruct (SetHeadOffset_spec t fuel h1 (off + pad b) Hfuel Hok1 Hsz1) as (h2 & Hr2 & Hf2 & Hk2 & Hhd); [lia|lia|].
  rewrite Hr2. cbn [mbind option_bind].
  assert (keeps erase h1 h2) as He2 by (by apply (keeps_erase (set_head_offset_ 0))).
  assert (need h2 t = need h1 t) as Hn2 by (apply need_ext; intros q _; apply He2).
  assert (tree_ok h2 t) as Hok2 by (by eapply tree_ok_ext).
  assert (sized h2 t) as Hsz2 by (eapply (sized_keeps (set_head_offset_ 0)); [done|apply head_block_size|done|done]).
  destruct (SetTailOffset_spec t fuel h2 (off + pad b) Hfuel Hok2 Hsz2 Hhd) as (h3 & Hr3 & Hf3 & Hk3 & Hpl); [lia|lia|].
  assert (exists b2, h2 !! root t = Some b2 /\ block_size_ b2 = need h2 t) as (b2 & -> & Hbs)
    by (destruct t; by apply sized_unfold in Hsz2 as [? _]).
  cbn [mbind option_bind]. rewrite Hbs, (wrapU64_id (off + pad b + _)), Hr3 by lia. cbn [mbind option_bind].
  rewrite Hn2, Hn1. exists h3. split_and!; [done| |done]. split.
  - intros q Hq. by rewrite Hf3, Hf2, Hf1.
  - intros q. rewrite (keeps_erase (set_tail_offset_ 0) h2 h3), He2; [apply He1|done|done].
Qed.

(** * Placing a list of blocks *)

(** [us] are the trees of the blocks of [mbs] that are not skipped. *)
Inductive selects h (skip : MemoryBlock -> bool) : list (option nat) -> list tree -> Prop :=
| sel_nil : selects h skip [] []
| sel_null mbs us : selects h skip mbs us -> selects h skip (None :: mbs) us
| sel_skip p b mbs us : h !! p = Some b -> skip b = true -> selects h skip mbs us -> selects h skip (Some p :: mbs) us
| sel_take t b mbs us : h !! root t = Some b -> skip b = false -> selects h skip mbs us ->
    selects h skip (Some (root t) :: mbs) (t :: us).

Definition cost h (us : list tree) : Z := foldr (fun t s => MEM_ALIGN_SIZE + need h t + s) 0 us.

Definition has_type h (ty : Z) t : bool :=
  match h !! root t with Some b => memory_type_ b =? ty | None => false end.

(** The blocks of memory type [ty] are placed in this order between [lo] and [hi]. *)
Fixpoint laid_out h (ty : Z) (us : list tree) (lo hi : Z) : Prop :=
  match us with
  | [] => lo <= hi
  | t :: us =>
    if has_type h ty t then exists off, lo <= off /\ placed h t off /\ laid_out h ty us (off + need h t) hi
    else laid_out h ty us lo hi
  end.

Lemma has_type_ext h h' ty t : keeps erase h h' -> has_type h' ty t = has_type h ty t.
Proof.
  intros Hk. unfold has_type. specialize (Hk (root t)).
  destruct (h' !! root t) as [b'|], (h !! root t) as [b|]; [|discriminate Hk..|done].
  apply (inj Some), erase_fields in Hk as (_ & _ & _ & -> & _). done.
Qed.

Lemma has_type_lookup h h' ty t b : keeps erase h h' -> h !! root t = Some b -> has_type h' ty t = (memory_type_ b =? ty).
Proof. intros Hk Hb. rewrite (has_type_ext h h') by done. unfold has_type. by rewrite Hb. Qed.

Lemma laid_out_agree h h' ty us lo hi :
  agree (flat_map ptrs us) h h' -> laid_out h ty us lo hi -> laid_out h' ty us lo hi.
Proof.
  revert lo. induction us as [|t us IH]; intros lo Ha; [done|]. cbn [laid_out].
  assert (agree (ptrs t) h h') as Hat by (intros q Hq; apply Ha; cbn; set_solver).
  assert (agree (flat_map ptrs us) h h') as Hau by (intros q Hq; apply Ha; cbn; set_solver).
  assert (has_type h' ty t = has_type h ty t) as -> by (unfold has_type; by rewrite (Hat (root t)) by apply root_in_ptrs).
  destruct (has_type h ty t); [|by apply IH].
  intros (off & Hlo & Hpl & Hrest). exists off. split_and!; [done|by eapply placed_agree|].
  rewrite <- (need_ext h h') by (by apply agree_erase). by apply IH.
Qed.

Lemma laid_out_lo h ty us lo lo' hi : lo <= lo' -> laid_out h ty us lo' hi -> laid_out h ty us lo hi.
Proof.
  revert lo lo'. induction us as [|t us IH]; intros lo lo' Hl; cbn; [lia|].
  destruct (has_type h ty t); [|by apply IH]. intros (off & ? & ? & ?). exists off. split_and!; [lia|done|done].
Qed.

(** The skip tests only read fields that placing does not change. *)
Definition stable (skip : MemoryBlock -> bool) : Prop := forall b b', erase b = erase b' -> skip b = skip b'.

Lemma selects_ext h h' skip mbs us : stable skip -> keeps erase h h' -> selects h skip mbs us -> selects h' skip mbs us.
Proof.
  intros Hst Hk. induction 1 as [| |p b mbs us Hb Hs _ IH|t b mbs us Hb Hs _ IH]; [by constructor..| |].
  - destruct (keeps_lookup erase h h' _ b Hk Hb) as (b' & Hb' & He). eapply sel_skip; [done| |done]. by rewrite (Hst _ _ He).
  - destruct (keeps_lookup erase h h' _ b Hk Hb) as (b' & Hb' & He). eapply sel_take; [done| |done]. by rewrite (Hst _ _ He).
Qed.

Lemma cost_cons h t us : cost h (t :: us) = MEM_ALIGN_SIZE + need h t + cost h us.
Proof. done. Qed.

Lemma cost_ext h h' us : keeps erase h h' -> cost h' us = cost h us.
Proof.
  intros Hk. induction us as [|t us IH]; [done|]. rewrite !cost_cons, IH. f_equal. f_equal.
  apply need_ext. intros q _. apply Hk.
Qed.

Lemma cost_nonneg h us : Forall (tree_ok h) us -> 0 <= cost h us.
Proof.
  induction 1 as [|t us (Hr & _ & Hok) _ IH]; [done|]. rewrite cost_cons.
  pose proof (need_nonneg h t Hr Hok). unfold MEM_ALIGN_SIZE. lia.
Qed.

Lemma place_all_ok fuel skip h mbs us mem p2p :
  stable skip -> selects h skip mbs us -> Forall (tree_ok h) us -> Forall (fun t => length (ptrs t) <= fuel)%nat us ->
  NoDup (flat_map ptrs us) -> 0 <= mem -> mem + cost h us < 2 ^ 64 -> 0 <= p2p -> p2p + cost h us < 2 ^ 64 ->
  exists mem' p2p' h', place_all fuel skip mbs mem p2p h = Some (mem', p2p', h') /\
    modifies (flat_map ptrs us) h h' /\ mem <= mem' <= mem + cost h us /\ p2p <= p2p' <= p2p + cost h us /\
    laid_out h' RT_MEMORY_HBM us mem mem' /\ laid_out h' RT_MEMORY_P2P_DDR us p2p p2p'.
Proof.
  intros Hst Hsel. revert h mem p2p us Hsel.
  induction mbs as [|[p|] mbs IH]; intros h mem p2p us Hsel Hok Hfuel Hn Hm0 Hm Hp0 Hp;
    inversion Hsel as [|? ? Hsel'|? b ? ? Hb Hs Hsel'|t b ? us' Hb Hs Hsel']; subst.
  - exists mem, p2p, h. cbn. split_and!; [done|apply modifies_refl|lia..].
  - cbn [place_all]. rewrite Hb. cbn [mbind option_bind]. rewrite Hs. by apply IH.
  - apply Forall_cons in Hok as [Hokt Hok]. apply Forall_cons in Hfuel as [Hft Hfuel].
    apply NoDup_flat_cons in Hn as (Hnt & Hn & Hd). rewrite cost_cons in *.
    pose proof (need_nonneg h t (proj1 Hokt) (proj2 (proj2 Hokt))) as Hnn. pose proof (cost_nonneg h us' Hok) as Hcn.
    cbn [place_all]. rewrite Hb. cbn [mbind option_bind]. rewrite Hs.
    assert (0 <= pad b <= MEM_ALIGN_SIZE) as Hpad by (unfold pad, MEM_ALIGN_SIZE; case_match; lia).
    (* placing the rest after a run that touched only this tree *)
    assert (forall h1 mem1 p2p1, modifies (ptrs t) h h1 -> mem <= mem1 <= mem + MEM_ALIGN_SIZE + need h t ->
      p2p <= p2p1 <= p2p + MEM_ALIGN_SIZE + need h t ->
      exists mem' p2p' h', place_all fuel skip mbs mem1 p2p1 h1 = Some (mem', p2p', h') /\
        modifies (flat_map ptrs (t :: us')) h h' /\ agree (ptrs t) h1 h' /\ keeps erase h h' /\
        mem1 <= mem' <= mem + (MEM_ALIGN_SIZE + need h t + cost h us') /\
        p2p1 <= p2p' <= p2p + (MEM_ALIGN_SIZE + need h t + cost h us') /\
        laid_out h' RT_MEMORY_HBM us' mem1 mem' /\ laid_out h' RT_MEMORY_P2P_DDR us' p2p1 p2p') as Hrest.
    { intros h1 mem1 p2p1 Hmod Hm1 Hp1. pose proof (cost_ext h h1 us' (proj2 Hmod)) as Hc1.
      destruct (IH h1 mem1 p2p1 us') as (mem' & p2p' & h' & Hr & Hmod' & Hb1 & Hb2 & Hl1 & Hl2).
      - eapply (selects_ext h); [done|exact (proj2 Hmod)|done].
      - by eapply Forall_tree_ok_ext.
      - done.
      - done.
      - lia.
      - lia.
      - lia.
      - lia.
      - exists mem', p2p', h'. assert (modifies (flat_map ptrs (t :: us')) h h') as Hmm by (cbn [flat_map]; by eapply modifies_trans).
        split_and!; [done|done|by eapply modifies_agree; [exact Hmod'|]|exact (proj2 Hmm)|lia..|done|done]. }
    unfold AddBlockMemOffset. rewrite Hb. cbn [mbind option_bind].
    destruct (Z.eqb_spec (memory_type_ b) RT_MEMORY_HBM) as [Ety|Ety];
      [|destruct (Z.eqb_spec (memory_type_ b) RT_MEMORY_P2P_DDR) as [Ety2|Ety2]].
    + destruct (place_block_ok fuel h t b mem Hokt Hft Hb Hm0 ltac:(lia)) as (h1 & -> & Hmod & Hpl). cbn [mbind option_bind].
      destruct (Hrest h1 (mem + pad b + need h t) p2p Hmod ltac:(lia) ltac:(unfold MEM_ALIGN_SIZE; lia))
        as (mem' & p2p' & h' & Hr & Hmm & Ha & Hk & B1 & B2 & L1 & L2).
      exists mem', p2p', h'. split_and!; [done|done|lia..| |];
        cbn [laid_out]; rewrite (has_type_lookup h h' _ t b Hk Hb), Ety; [|done].
      exists (mem + pad b). split_and!; [lia|by eapply placed_agree|]. by rewrite (need_ext h' h) by (intros q _; apply Hk).
    + destruct (place_block_ok fuel h t b p2p Hokt Hft Hb Hp0 ltac:(lia)) as (h1 & -> & Hmod & Hpl). cbn [mbind option_bind].
      destruct (Hrest h1 mem (p2p + pad b + need h t) Hmod ltac:(unfold MEM_ALIGN_SIZE; lia) ltac:(lia))
        as (mem' & p2p' & h' & Hr & Hmm & Ha & Hk & B1 & B2 & L1 & L2).
      exists mem', p2p', h'. split_and!; [done|done|lia..| |];
        cbn [laid_out]; rewrite (has_type_lookup h h' _ t b Hk Hb), Ety2; [done|].
      exists (p2p + pad b). split_and!; [lia|by eapply placed_agree|]. by rewrite (need_ext h' h) by (intros q _; apply Hk).
    + destruct (Hrest h mem p2p) as (mem' & p2p' & h' & Hr & Hmm & Ha & Hk & B1 & B2 & L1 & L2);
        [apply modifies_refl|unfold MEM_ALIGN_SIZE; lia..|].
      exists mem', p2p', h'. split_and!; [done|done|lia..| |];
        cbn [laid_out]; rewrite (has_type_lookup h h' _ t b Hk Hb), (proj2 (Z.eqb_neq _ _)) by done; done.
  - cbn [place_all]. by apply IH.
Qed.

(** * Selecting the blocks of a loop *)
Definition forest_ok h (ts : list tree) : Prop := Forall (tree_ok h) ts /\ NoDup (flat_map ptrs ts).

Lemma forest_root_inj h ts t u q : forest_ok h ts -> t ∈ ts -> u ∈ ts -> q ∈ ptrs t -> q ∈ ptrs u -> t = u.
Proof.
  intros [_ Hn] Ht Hu Hq Hq'. induction ts as [|x ts IH]; [by apply elem_of_nil in Ht|].
  apply NoDup_flat_cons in Hn as (Hnx & Hn & Hd).
  apply elem_of_cons in Ht as [->|Ht]; apply elem_of_cons in Hu as [->|Hu]; [done| | |by apply IH].
  - destruct (Hd q Hq). apply elem_of_flat_ptrs. eauto.
  - destruct (Hd q Hq'). apply elem_of_flat_ptrs. eauto.
Qed.

Lemma forest_sub h ts us : forest_ok h ts -> NoDup us -> us ⊆ ts -> forest_ok h us.
Proof.
  intros Hf Hn Hs. split.
  - apply Forall_forall. intros t Ht. destruct Hf as [Hok _]. rewrite Forall_forall in Hok. by apply Hok, Hs.
  - induction us as [|t us IH]; [constructor|]. apply NoDup_cons in Hn as [Hni Hn]. cbn. apply NoDup_app. split_and!.
    + destruct Hf as [Hok _]. rewrite Forall_forall in Hok. apply (Hok t). set_solver.
    + intros q Hq (u & Hu & Hqu)%elem_of_flat_ptrs. apply Hni.
      by rewrite (forest_root_inj h ts t u q) by (done || set_solver).
    + apply IH; [done|set_solver].
Qed.

Lemma cost_app h us vs : cost h (us ++ vs) = cost h us + cost h vs.
Proof. induction us as [|t us IH]; [done|]. cbn [app]. rewrite !cost_cons, IH. lia. Qed.
Lemma cost_perm h us vs : us ≡ₚ vs -> cost h us = cost h vs.
Proof. induction 1; rewrite ?cost_cons; unfold cost in *; cbn in *; lia. Qed.
Lemma cost_sub h ts us : forest_ok h ts -> NoDup us -> us ⊆ ts -> cost h us <= cost h ts.
Proof.
  intros [Hok Hnt] Hn Hs. assert (us ⊆+ ts) as [k Hk]%submseteq_Permutation by (by apply NoDup_submseteq).
  rewrite (cost_perm h ts (us ++ k)), cost_app by done. assert (Forall (tree_ok h) k) as Hokk.
  { rewrite Hk in Hok. by apply Forall_app in Hok as [_ ?]. }
  pose proof (cost_nonneg h k Hokk). lia.
Qed.

(** Every block the loop takes is the root of a tree: the loop takes exactly those trees. *)
Lemma selects_exists h skip ts mbs :
  forest_ok h ts -> NoDup (omap id mbs) ->
  (forall p, Some p ∈ mbs -> exists b, h !! p = Some b /\ (skip b = false -> exists t, t ∈ ts /\ root t = p)) ->
  exists us, selects h skip mbs us /\ NoDup us /\
    forall t, t ∈ us <-> t ∈ ts /\ Some (root t) ∈ mbs /\ exists b, h !! root t = Some b /\ skip b = false.
Proof.
  intros Hf. induction mbs as [|[p|] mbs IH]; intros Hn Hall.
  - exists []. split_and!; [constructor|constructor|]. set_solver.
  - cbn in Hn. apply NoDup_cons in Hn as [Hni Hn].
    assert (Some p ∉ mbs) as Hp by (intros Hp; apply Hni, list_elem_of_omap; by exists (Some p)).
    destruct IH as (us & Hsel & Hnu & Hus); [done|intros q Hq; apply Hall; set_solver|].
    destruct (Hall p ltac:(set_solver)) as (b & Hb & Hroot). destruct (skip b) eqn:Es.
    + exists us. split_and!; [by eapply sel_skip|done|]. intros t. rewrite Hus. split.
      * intros (? & ? & ?). set_solver.
      * intros (Ht & [Heq|Hin]%elem_of_cons & Hb'); [|done]. simplify_eq. destruct Hb' as (b' & Hb' & ?). congruence.
    + destruct (Hroot eq_refl) as (t & Ht & <-). exists (t :: us). split_and!; [by eapply sel_take| |].
      * apply NoDup_cons. split; [|done]. rewrite Hus. naive_solver.
      * intros u. rewrite elem_of_cons, Hus. split.
        -- intros [->|(? & ? & ?)]; [|set_solver]. split_and!; [done|set_solver|eauto].
        -- intros (Hu & [Heq|Hin]%elem_of_cons & Hb'); [|by right]. left. simplify_eq.
           apply (forest_root_inj h ts u t (root u)); [done..|apply root_in_ptrs|rewrite Heq; apply root_in_ptrs].
  - destruct IH as (us & Hsel & Hnu & Hus); [done|intros q Hq; apply Hall; set_solver|].
    exists us. split_and!; [by constructor|done|]. intros t. rewrite Hus. set_solver.
Qed.

Lemma laid_out_hi h ty us lo hi hi' : hi <= hi' -> laid_out h ty us lo hi -> laid_out h ty us lo hi'.
Proof.
  intros Hh. revert lo. induction us as [|t us IH]; intros lo; cbn; [lia|].
  destruct (has_type h ty t); [|by apply IH]. intros (off & ? & ? & ?). exists off. split_and!; auto.
Qed.

(** Where a block starts. *)
Definition start h t : Z := match h !! root t with Some b => head_offset_ b | None => 0 end.

Lemma placed_start h t off : placed h t off -> start h t = off.
Proof. destruct t. intros [(b & Hb & <- & _) _]%placed_unfold. unfold start. cbn [root]. by rewrite Hb. Qed.

Lemma laid_out_le h ty us lo hi : Forall (tree_ok h) us -> laid_out h ty us lo hi -> lo <= hi.
Proof.
  intros Hok. revert lo. induction Hok as [|t us (Hr & _ & Ho) _ IH]; intros lo; cbn; [done|].
  destruct (has_type h ty t); [|by apply IH]. intros (off & ? & _ & Hl). specialize (IH _ Hl).
  pose proof (need_nonneg h t Hr Ho). lia.
Qed.

Lemma laid_out_elem h ty us lo hi t :
  Forall (tree_ok h) us -> laid_out h ty us lo hi -> t ∈ us -> has_type h ty t = true ->
  placed h t (start h t) /\ lo <= start h t /\ start h t + need h t <= hi.
Proof.
  intros Hok. revert lo. induction Hok as [|u us (Hr & _ & Ho) Hoks IH]; intros lo Hl Ht Hty; [by apply elem_of_nil in Ht|].
  cbn in Hl. apply elem_of_cons in Ht as [->|Ht].
  - rewrite Hty in Hl. destruct Hl as (off & Hlo & Hpl & Hl). rewrite (placed_start h u off Hpl).
    pose proof (laid_out_le h ty us _ _ Hoks Hl). done.
  - destruct (has_type h ty u); [|by apply IH]. destruct Hl as (off & Hlo & Hpl & Hl).
    destruct (IH _ Hl Ht Hty) as (? & ? & ?). pose proof (need_nonneg h u Hr Ho). split_and!; [done|lia|done].
Qed.

Definition apart h t u : Prop := start h t + need h t <= start h u \/ start h u + need h u <= start h t.

Lemma laid_out_apart h ty us lo hi t u :
  Forall (tree_ok h) us -> laid_out h ty us lo hi -> t ∈ us -> u ∈ us -> t <> u ->
  has_type h ty t = true -> has_type h ty u = true -> apart h t u.
Proof.
  intros Hok. revert lo. induction Hok as [|x us (Hr & _ & Ho) Hoks IH]; intros lo Hl Ht Hu Hne Hty Huy; [by apply elem_of_nil in Ht|].
  cbn in Hl. apply elem_of_cons in Ht as [->|Ht]; apply elem_of_cons in Hu as [->|Hu]; [done| | |].
  - rewrite Hty in Hl. destruct Hl as (off & _ & Hpl & Hl). left. rewrite (placed_start h x off Hpl).
    eapply laid_out_elem in Hl as (_ & ? & _); done.
  - rewrite Huy in Hl. destruct Hl as (off & _ & Hpl & Hl). right. rewrite (placed_start h x off Hpl).
    eapply laid_out_elem in Hl as (_ & ? & _); done.
  - destruct (has_type h ty x); [destruct Hl as (off & _ & _ & Hl)|]; by eapply IH.
Qed.

(** * The batches *)
Lemma skip_in_batch_stable : stable skip_in_batch.
Proof. intros b b' He. apply erase_fields in He as (_ & _ & _ & _ & _ & Hd & Hz & _). unfold skip_in_batch. by rewrite Hd, Hz. Qed.
Lemma Dynamic_stable : stable DynamicBatchBlockReuse.
Proof.
  intros b b' He. apply erase_fields in He as (_ & _ & _ & _ & _ & _ & _ & Hr & Hl & Hn).
  unfold DynamicBatchBlockReuse, IsSameBatchLabel. by rewrite Hr, Hl, Hn.
Qed.
Lemma skip_in_resize_stable : stable skip_in_resize.
Proof.
  intros b b' He. unfold skip_in_resize. rewrite (Dynamic_stable b b' He).
  apply erase_fields in He as (_ & _ & _ & _ & _ & Hd & Hz & _). by rewrite Hd, Hz.
Qed.

Lemma dynamic_batch_blocks_ok h mbs :
  (forall p, Some p ∈ mbs -> is_Some (h !! p)) -> NoDup (omap id mbs) ->
  exists l, dynamic_batch_blocks h mbs = Some l /\ NoDup (map snd l) /\
    forall lab p, (lab, p) ∈ l <->
      Some p ∈ mbs /\ exists b, h !! p = Some b /\ DynamicBatchBlockReuse b = true /\ batch_label_ b = lab.
Proof.
  induction mbs as [|[p|] mbs IH]; intros Hv Hn.
  - exists []. split_and!; [done|constructor|]. set_solver.
  - cbn in Hn. apply NoDup_cons in Hn as [Hni Hn].
    assert (Some p ∉ mbs) as Hp by (intros Hp; apply Hni, list_elem_of_omap; by exists (Some p)).
    destruct IH as (l & Hl & Hnl & Hel); [intros q Hq; apply Hv; set_solver|done|].
    destruct (Hv p ltac:(set_solver)) as (b & Hb). cbn [dynamic_batch_blocks]. rewrite Hb, Hl. cbn [mbind option_bind].
    eexists. split; [reflexivity|]. destruct (DynamicBatchBlockReuse b) eqn:Ed; split.
    + cbn. apply NoDup_cons. split; [|done]. intros ([lab q] & Heq & Hin)%list_elem_of_fmap. cbn in Heq. subst q.
      apply Hel in Hin as (? & _). done.
    + intros lab q. rewrite elem_of_cons, Hel. setoid_rewrite elem_of_cons. split.
      * intros [Heq|(? & ?)]; [simplify_eq; split; [by left|]; eauto|]. split; [by right|done].
      * intros ([Heq|Hin] & b' & Hb' & Hd & Hlab); [simplify_eq; by left|]. right. eauto.
    + done.
    + intros lab q. rewrite Hel. setoid_rewrite elem_of_cons. split; [naive_solver|].
      intros ([Heq|Hin] & b' & Hb' & Hd & Hlab); [simplify_eq; congruence|]. eauto.
  - destruct IH as (l & Hl & Hnl & Hel); [intros q Hq; apply Hv; set_solver|done|]. exists l. split_and!; [done|done|].
    intros lab q. rewrite Hel. set_solver.
Qed.

Lemma place_batches_ok fuel l (us : string -> list tree) mem p2p labels h m0 q0 :
  (forall lab, lab ∈ labels -> selects h skip_in_batch (blocks_of_batch lab l) (us lab) /\ Forall (tree_ok h) (us lab) /\
     Forall (fun t => length (ptrs t) <= fuel)%nat (us lab) /\ NoDup (flat_map ptrs (us lab)) /\
     mem + cost h (us lab) < 2 ^ 64 /\ p2p + cost h (us lab) < 2 ^ 64) ->
  (forall lab lab' q, lab ∈ labels -> lab' ∈ labels -> lab <> lab' ->
     q ∈ flat_map ptrs (us lab) -> q ∈ flat_map ptrs (us lab') -> False) ->
  NoDup labels -> 0 <= mem -> 0 <= p2p ->
  exists mem' p2p' h', place_batches fuel l labels mem p2p m0 q0 h = Some (mem', p2p', h') /\
    modifies (flat_map ptrs (concat (map us labels))) h h' /\ m0 <= mem' /\ q0 <= p2p' /\
    forall lab, lab ∈ labels -> laid_out h' RT_MEMORY_HBM (us lab) mem mem' /\ laid_out h' RT_MEMORY_P2P_DDR (us lab) p2p p2p'.
Proof.
  intros Hall Hdisj Hn Hm Hp. revert h m0 q0 Hall. induction labels as [|lab labels IH]; intros h m0 q0 Hall.
  { exists m0, q0, h. split_and!; [done|apply modifies_refl|lia|lia|set_solver]. }
  apply NoDup_cons in Hn as [Hni Hn]. cbn [place_batches].
  destruct (Hall lab ltac:(set_solver)) as (Hsel & Hok & Hf & Hnd & Hb1 & Hb2).
  destruct (place_all_ok fuel skip_in_batch h _ (us lab) mem p2p skip_in_batch_stable Hsel Hok Hf Hnd Hm Hb1 Hp Hb2)
    as (m1 & q1 & h1 & -> & Hmod & Hm1 & Hq1 & Hl1 & Hl2). cbn [mbind option_bind].
  set (m2 := if m0 <? m1 then m1 else m0). set (q2 := if q0 <? q1 then q1 else q0).
  assert (m0 <= m2 /\ m1 <= m2 /\ q0 <= q2 /\ q1 <= q2) as (? & ? & ? & ?)
    by (unfold m2, q2; destruct (Z.ltb_spec m0 m1), (Z.ltb_spec q0 q1); lia).
  destruct (IH (fun a b q Ha Hb => Hdisj a b q ltac:(set_solver) ltac:(set_solver)) Hn h1 m2 q2)
    as (mem' & p2p' & h' & Hr & Hmod' & Hm' & Hq' & Hrest).
  { intros lab' Hlab'. destruct (Hall lab' ltac:(set_solver)) as (Hsel' & Hok' & Hf' & Hnd' & Hb1' & Hb2').
    rewrite (cost_ext h h1) by apply Hmod. split_and!; [|by eapply Forall_tree_ok_ext|done..].
    eapply (selects_ext h); [apply skip_in_batch_stable|exact (proj2 Hmod)|done]. }
  exists mem', p2p', h'. split_and!; [exact Hr| |lia|lia|].
  { cbn [map concat]. rewrite flat_map_app. by eapply modifies_trans. }
  intros lab' [->|Hlab']%elem_of_cons; [|by apply Hrest].
  assert (agree (flat_map ptrs (us lab)) h1 h') as Ha.
  { eapply modifies_agree; [exact Hmod'|]. intros q Hq (t & Ht & Hqt)%elem_of_flat_ptrs.
    apply elem_of_concat in Ht as (ts & (lab' & -> & Hlab')%list_elem_of_fmap & Ht).
    apply (Hdisj lab lab' q); [set_solver|set_solver|by intros ->|done|]. apply elem_of_flat_ptrs. eauto. }
  split; (eapply laid_out_hi; [|by eapply laid_out_agree]); lia.
Qed.

(** The block is still in use, and takes part in the plan. *)
Definition in_use h (mbs : list (option nat)) t : Prop :=
  Some (root t) ∈ mbs /\ exists b, h !! root t = Some b /\ deleted_block_ b = false /\ is_zero_copy_ b = false.
Definition batch_of h t : option string :=
  match h !! root t with
  | Some b => if DynamicBatchBlockReuse b then Some (batch_label_ b) else None
  | None => None
  end.
(** Two blocks of different batches are never in use in the same run. *)
Definition together h t u : Prop := batch_of h t = None \/ batch_of h u = None \/ batch_of h t = batch_of h u.

(** The pointers of `memory_blocks_` are those of a forest: no null dereference, no block
    twice, and every block that is still in use is the root of a tree. *)
Record plan_input h (mbs : list (option nat)) (ts : list tree) : Prop := {
  pi_forest : forest_ok h ts;
  pi_nodup : NoDup (omap id mbs);
  pi_valid p : Some p ∈ mbs -> is_Some (h !! p);
  pi_roots p b : Some p ∈ mbs -> h !! p = Some b -> deleted_block_ b = false -> is_zero_copy_ b = false ->
    exists t, t ∈ ts /\ root t = p;
}.

Lemma forest_fuel h ts t : forest_ok h ts -> t ∈ ts -> (length (ptrs t) <= size h)%nat.
Proof. intros [Hok _] Ht. rewrite Forall_forall in Hok. destruct (Hok t Ht) as (Hr & Hn & _). by apply tree_fuel. Qed.

(** * The whole phase *)
Lemma finite_choice {A B} `{EqDecision A, Inhabited B} (P : A -> B -> Prop) (l : list A) :
  (forall x, x ∈ l -> exists y, P x y) -> exists f, forall x, x ∈ l -> P x (f x).
Proof.
  induction l as [|a l IH]; intros Hex; [exists (fun _ => inhabitant); set_solver|].
  destruct IH as [f Hf]; [intros x Hx; apply Hex; set_solver|]. destruct (Hex a ltac:(set_solver)) as [y Hy].
  exists (fun x => if decide (x = a) then y else f x). intros x Hx. case_decide as E; [by subst|]. apply Hf. set_solver.
Qed.

Lemma elem_of_blocks_of_batch lab l q : Some q ∈ blocks_of_batch lab l <-> (lab, q) ∈ l.
Proof.
  unfold blocks_of_batch. rewrite list_elem_of_fmap. split.
  - intros ([lab' q'] & [= ->] & [Hlab Hq]%list_elem_of_filter). cbn in *. by subst.
  - intros Hq. exists (lab, q). split; [done|]. by apply list_elem_of_filter.
Qed.

Lemma NoDup_blocks_of_batch lab l : NoDup (map snd l) -> NoDup (omap id (blocks_of_batch lab l)).
Proof.
  unfold blocks_of_batch. induction l as [|[a q] l IH]; intros Hn; [constructor|]. cbn in Hn. apply NoDup_cons in Hn as [Hq Hn].
  rewrite filter_cons. case_decide; [|by apply IH]. cbn. apply NoDup_cons. split; [|by apply IH].
  intros (o & Ho & [= ->])%list_elem_of_omap. apply elem_of_blocks_of_batch in Ho.
  apply Hq, list_elem_of_fmap. by exists (lab, q).
Qed.

(** The trees the loop of one batch takes. *)
Lemma batch_selects h h1 mbs ts l lab :
  plan_input h mbs ts -> keeps erase h h1 -> NoDup (map snd l) ->
  (forall lab p, (lab, p) ∈ l <->
      Some p ∈ mbs /\ exists b, h1 !! p = Some b /\ DynamicBatchBlockReuse b = true /\ batch_label_ b = lab) ->
  exists bs, selects h1 skip_in_batch (blocks_of_batch lab l) bs /\ NoDup bs /\
    forall t, t ∈ bs <-> t ∈ ts /\ in_use h mbs t /\ batch_of h t = Some lab.
Proof.
  intros [Hf _ Hv Hr] Hk Hnl Hel.
  assert (forall q b, h !! q = Some b -> (lab, q) ∈ l <-> Some q ∈ mbs /\ DynamicBatchBlockReuse b = true /\ batch_label_ b = lab) as Hdyn.
  { intros q b Hb. destruct (keeps_lookup erase h h1 q b Hk Hb) as (b' & Hb' & He). rewrite Hel.
    pose proof (Dynamic_stable _ _ He) as Hd. apply erase_fields in He as (_ & _ & _ & _ & _ & _ & _ & _ & He & _).
    rewrite <- Hd, <- He. split; [intros (? & b1 & Hb1 & ?); by assert (b1 = b') as -> by congruence|naive_solver]. }
  destruct (selects_exists h skip_in_batch ts (blocks_of_batch lab l) Hf) as (bs & Hselb & Hnb & Hbs).
  - by apply NoDup_blocks_of_batch.
  - intros q Hq%elem_of_blocks_of_batch. pose proof Hq as (Hm & _)%Hel. destruct (Hv q Hm) as [b Hb]. exists b. split; [done|].
    unfold skip_in_batch. intros [? ?]%orb_false_iff. by eapply Hr.
  - exists bs. split_and!; [by eapply (selects_ext h); [apply skip_in_batch_stable|done|]|done|].
    intros t. rewrite Hbs, elem_of_blocks_of_batch. unfold in_use, batch_of, skip_in_batch. split.
    + intros (Ht & Hlt & b & Hb & [? ?]%orb_false_iff). pose proof (proj1 (Hdyn _ b Hb) Hlt) as (? & Hd & Hlab).
      rewrite Hb, Hd, Hlab. split_and!; [done|done|by exists b|done].
    + intros (Ht & (Hm & b & Hb & Hdel & Hz) & Hlab). rewrite Hb in Hlab.
      destruct (DynamicBatchBlockReuse b) eqn:Ed; [|done]. simplify_eq. split_and!; [done| |exists b; by rewrite Hdel, Hz].
      by apply (Hdyn _ b Hb).
Qed.

(** The trees the first loop takes. *)
Lemma resize_selects h mbs ts : plan_input h mbs ts ->
  exists us, selects h skip_in_resize mbs us /\ NoDup us /\
    forall t, t ∈ us <-> t ∈ ts /\ in_use h mbs t /\ batch_of h t = None.
Proof.
  intros [Hf Hn Hv Hr]. destruct (selects_exists h skip_in_resize ts mbs Hf Hn) as (us & Hsel & Hnu & Hus).
  { intros p Hp. destruct (Hv p Hp) as [b Hb]. exists b. split; [done|]. unfold skip_in_resize.
    intros [[? ?]%orb_false_iff _]%orb_false_iff. by eapply Hr. }
  exists us. split_and!; [done|done|]. intros t. rewrite Hus. unfold in_use, batch_of, skip_in_resize. split.
  - intros (Ht & Hm & b & Hb & [[? ?]%orb_false_iff Hd]%orb_false_iff). rewrite Hb, Hd. split_and!; [done|done|by exists b|done].
  - intros (Ht & (Hm & b & Hb & Hdel & Hz) & Hlab). rewrite Hb in Hlab. split_and!; [done|done|]. exists b.
    rewrite Hdel, Hz. split; [done|]. by destruct (DynamicBatchBlockReuse b).
Qed.

(** What the plan gives the blocks of one memory type: they are placed between [lo] and
    [hi], and apart unless they belong to different batches. *)
Definition planned h h' (mbs : list (option nat)) (ts : list tree) (ty lo hi : Z) : Prop :=
  (forall t, t ∈ ts -> in_use h mbs t -> has_type h ty t = true ->
     placed h' t (start h' t) /\ lo <= start h' t /\ start h' t + need h t <= hi) /\
  (forall t u, t ∈ ts -> u ∈ ts -> t <> u -> in_use h mbs t -> in_use h mbs u ->
     has_type h ty t = true -> has_type h ty u = true -> together h t u ->
     start h' t + need h t <= start h' u \/ start h' u + need h u <= start h' t).

Lemma plan_geometry h h' mbs ts us (labels : list string) (bs : string -> list tree) ty lo mid hi :
  Forall (tree_ok h) ts -> keeps erase h h' ->
  (forall t, t ∈ us <-> t ∈ ts /\ in_use h mbs t /\ batch_of h t = None) ->
  (forall t lab, t ∈ ts -> in_use h mbs t -> batch_of h t = Some lab -> lab ∈ labels) ->
  (forall lab, lab ∈ labels -> forall t, t ∈ bs lab <-> t ∈ ts /\ in_use h mbs t /\ batch_of h t = Some lab) ->
  lo <= mid -> mid <= hi -> laid_out h' ty us lo mid -> (forall lab, lab ∈ labels -> laid_out h' ty (bs lab) mid hi) ->
  planned h h' mbs ts ty lo hi.
Proof.
  intros Hok Hk Hus Hlabs Hbs Hlm Hmh Hl1 Hl2.
  assert (forall t, need h' t = need h t) as Hneed by (intros t; apply need_ext; intros q _; apply Hk).
  assert (forall vs, (forall t, t ∈ vs -> t ∈ ts) -> Forall (tree_ok h') vs) as Hoks.
  { intros vs Hvs. apply Forall_forall. intros t Ht. rewrite Forall_forall in Hok. eapply tree_ok_ext; [exact Hk|]. by apply Hok, Hvs. }
  assert (Forall (tree_ok h') us) as Hoku by (apply Hoks; intros t Ht; by apply Hus in Ht as [? _]).
  assert (forall lab, lab ∈ labels -> Forall (tree_ok h') (bs lab)) as Hokb
    by (intros lab Hlab; apply Hoks; intros t Ht; by apply Hbs in Ht as [? _]).
  assert (forall t, t ∈ ts -> in_use h mbs t -> has_type h ty t = true -> batch_of h t = None ->
    placed h' t (start h' t) /\ lo <= start h' t /\ start h' t + need h t <= mid) as Hnone.
  { intros t Ht Hu Hty Hb. rewrite <- (has_type_ext h h' ty t Hk) in Hty. rewrite <- Hneed.
    eapply laid_out_elem; [exact Hoku|done|by apply Hus|done]. }
  assert (forall t lab, t ∈ ts -> in_use h mbs t -> has_type h ty t = true -> batch_of h t = Some lab ->
    placed h' t (start h' t) /\ mid <= start h' t /\ start h' t + need h t <= hi) as Hsome.
  { intros t lab Ht Hu Hty Hb. rewrite <- (has_type_ext h h' ty t Hk) in Hty. rewrite <- Hneed.
    assert (lab ∈ labels) as Hlab by (by eapply Hlabs). eapply laid_out_elem; [by apply Hokb|by apply Hl2|by apply Hbs|done]. }
  split.
  - intros t Ht Hu Hty. destruct (batch_of h t) as [lab|] eqn:Eb.
    + destruct (Hsome t lab) as (? & ? & ?); [done..|]. split_and!; [done|lia|done].
    + destruct (Hnone t) as (? & ? & ?); [done..|]. split_and!; [done|done|lia].
  - intros t u Ht Hu Hne Hit Hiu Hty Huy Htog. rewrite <- !Hneed.
    destruct (batch_of h t) as [lab|] eqn:Et, (batch_of h u) as [lab'|] eqn:Eu.
    + unfold together in Htog. rewrite Et, Eu in Htog. destruct Htog as [?|[?|[= <-]]]; [done..|].
      rewrite <- (has_type_ext h h' ty t Hk) in Hty. rewrite <- (has_type_ext h h' ty u Hk) in Huy. assert (lab ∈ labels) as Hlab by (by eapply (Hlabs t)).
      eapply laid_out_apart; [by apply Hokb|by apply Hl2|by apply Hbs|by apply Hbs|done..].
    + destruct (Hsome t lab) as (_ & ? & _); [done..|]. destruct (Hnone u) as (_ & _ & ?); [done..|]. rewrite (Hneed u). lia.
    + destruct (Hnone t) as (_ & _ & ?); [done..|]. destruct (Hsome u lab') as (_ & ? & _); [done..|]. rewrite (Hneed t). lia.
    + rewrite <- (has_type_ext h h' ty t Hk) in Hty. rewrite <- (has_type_ext h h' ty u Hk) in Huy.
      eapply laid_out_apart; [exact Hoku|done|by apply Hus|by apply Hus|done..].
Qed.

Lemma elem_of_batch_labels lab l : lab ∈ batch_labels l <-> exists q, (lab, q) ∈ l.
Proof.
  unfold batch_labels. rewrite merge_sort_Permutation, elem_of_remove_dups, list_elem_of_fmap. split.
  - intros ([lab' q] & -> & Hq). by exists q.
  - intros [q Hq]. by exists (lab, q).
Qed.
Lemma NoDup_batch_labels l : NoDup (batch_labels l).
Proof. unfold batch_labels. rewrite merge_sort_Permutation. apply NoDup_remove_dups. Qed.

Lemma ResizeMemoryBlocks_spec h mbs ts mem p2p fuel :
  plan_input h mbs ts -> (size h <= fuel)%nat ->
  0 <= mem -> mem + cost h ts < 2 ^ 64 -> 0 <= p2p -> p2p + cost h ts < 2 ^ 64 ->
  exists mem' p2p' h', ResizeMemoryBlocks fuel mbs mem p2p h = Some (mem', p2p', h') /\ keeps erase h h' /\
    mem <= mem' /\ p2p <= p2p' /\
    planned h h' mbs ts RT_MEMORY_HBM mem mem' /\ planned h h' mbs ts RT_MEMORY_P2P_DDR p2p p2p'.
Proof.
  intros Hpi Hfuel Hm0 Hm Hp0 Hp. pose proof (pi_forest _ _ _ Hpi) as Hf.
  assert (forall vs, vs ⊆ ts -> Forall (fun t => length (ptrs t) <= fuel)%nat vs) as Hfu.
  { intros vs Hvs. apply Forall_forall. intros t Ht. pose proof (forest_fuel h ts t Hf (Hvs t Ht)). lia. }
  destruct (resize_selects h mbs ts Hpi) as (us & Hsel & Hnu & Hus).
  assert (us ⊆ ts) as Husub by (intros t Ht; by apply Hus in Ht as [? _]).
  destruct (forest_sub h ts us Hf Hnu Husub) as [Hoku Hndu]. pose proof (cost_sub h ts us Hf Hnu Husub) as Hcu.
  destruct (place_all_ok fuel skip_in_resize h mbs us mem p2p skip_in_resize_stable Hsel Hoku (Hfu us Husub) Hndu
    Hm0 ltac:(lia) Hp0 ltac:(lia)) as (mem1 & p2p1 & h1 & Hr1 & Hmod1 & Hm1 & Hp1 & Hl1 & Hl1').
  unfold ResizeMemoryBlocks, ResizeDynamicBatchBlocks. rewrite Hr1. cbn [mbind option_bind].
  destruct (dynamic_batch_blocks_ok h1 mbs) as (l & -> & Hnl & Hel).
  { intros p Hpin. destruct (pi_valid _ _ _ Hpi p Hpin) as [b Hb]. destruct (keeps_lookup erase h h1 p b) as (b' & ? & _); [apply Hmod1|done|by exists b']. }
  { apply (pi_nodup _ _ _ Hpi). }
  cbn [mbind option_bind].
  destruct (finite_choice (fun lab bs => selects h1 skip_in_batch (blocks_of_batch lab l) bs /\ NoDup bs /\
    forall t, t ∈ bs <-> t ∈ ts /\ in_use h mbs t /\ batch_of h t = Some lab) (batch_labels l)) as [bs Hbs].
  { intros lab _. eapply batch_selects; [done|apply Hmod1|done|done]. }
  assert (forall lab, lab ∈ batch_labels l -> bs lab ⊆ ts) as Hbsub
    by (intros lab Hlab t Ht; by apply (Hbs lab Hlab) in Ht as [? _]).
  destruct (place_batches_ok fuel l bs mem1 p2p1 (batch_labels l) h1 mem1 p2p1) as (mem' & p2p' & h' & Hr & Hmod & Hm' & Hp' & Hl).
  - intros lab Hlab. destruct (Hbs lab Hlab) as (Hsb & Hnb & Hib).
    destruct (forest_sub h ts (bs lab) Hf Hnb (Hbsub lab Hlab)) as [Hokb Hndb].
    rewrite (cost_ext h h1) by apply Hmod1.
    assert (cost h us + cost h (bs lab) <= cost h ts) as Hcb.
    { rewrite <- cost_app. apply cost_sub; [done| |set_solver]. apply NoDup_app. split_and!; [done| |done].
      intros t Ht%Hus Ht'%Hib. destruct Ht as (_ & _ & Ht), Ht' as (_ & _ & Ht'). congruence. }
    split_and!; [done|by eapply Forall_tree_ok_ext|by apply Hfu, Hbsub|done|lia|lia].
  - intros lab lab' q Hlab Hlab' Hne (t & Ht & Hq)%elem_of_flat_ptrs (u & Hu & Hq')%elem_of_flat_ptrs. apply Hne.
    assert (t = u) as -> by (apply (forest_root_inj h ts t u q); [done|by eapply (Hbsub lab)|by eapply (Hbsub lab')|done|done]).
    apply (Hbs lab Hlab) in Ht as (_ & _ & Ht). apply (Hbs lab' Hlab') in Hu as (_ & _ & Hu). congruence.
  - apply NoDup_batch_labels.
  - lia.
  - lia.
  - exists mem', p2p', h'.
    assert (keeps erase h h') as Hk by (eapply keeps_trans; [apply Hmod1|apply Hmod]).
    assert (agree (flat_map ptrs us) h1 h') as Ha.
    { eapply modifies_agree; [exact Hmod|]. intros q (t & Ht & Hq)%elem_of_flat_ptrs (u & Hu & Hq')%elem_of_flat_ptrs.
      apply elem_of_concat in Hu as (vs & (lab & -> & Hlab)%list_elem_of_fmap & Hu).
      assert (t = u) as -> by (apply (forest_root_inj h ts t u q); [done|by apply Husub|by eapply (Hbsub lab)|done|done]).
      apply Hus in Ht as (_ & _ & Ht). apply (Hbs lab Hlab) in Hu as (_ & _ & Hu). congruence. }
    assert (forall t lab, t ∈ ts -> in_use h mbs t -> batch_of h t = Some lab -> lab ∈ batch_labels l) as Hlabs.
    { intros t lab Ht (Htm & b & Hb & _) Hlab. apply elem_of_batch_labels. exists (root t). apply Hel. split; [done|].
      unfold batch_of in Hlab. rewrite Hb in Hlab. destruct (DynamicBatchBlockReuse b) eqn:Ed; [|done]. simplify_eq.
      destruct (keeps_lookup erase h h1 (root t) b) as (b' & Hb' & He); [apply Hmod1|done|]. exists b'.
      rewrite (Dynamic_stable _ _ He). apply erase_fields in He as (_ & _ & _ & _ & _ & _ & _ & _ & -> & _). done. }
    assert (forall lab, lab ∈ batch_labels l -> forall t, t ∈ bs lab <-> t ∈ ts /\ in_use h mbs t /\ batch_of h t = Some lab) as Hbs'
      by (intros lab Hlab; apply (Hbs lab Hlab)).
    split_and!; [done|done|lia|lia| |].
    + eapply (plan_geometry h h' mbs ts us (batch_labels l) bs _ mem mem1 mem'); [apply Hf|done..|lia|lia|by eapply laid_out_agree|].
      intros lab Hlab. by apply Hl.
    + eapply (plan_geometry h h' mbs ts us (batch_labels l) bs _ p2p p2p1 p2p'); [apply Hf|done..|lia|lia|by eapply laid_out_agree|].
      intros lab Hlab. by apply Hl.
Qed.

End plan.
