(* ===== verification/LifeReuse.v ===== *)
(** The reuse of memory blocks by life time (ge/graph/build/memory/block_mem_assigner.cc):
    AddDependLife, which finds for a node the last node of every stream it waits for, and
    AddLifeReuseBlock, which puts a block inside another one when they are never in use at
    the same time, driven by BlockMemAssigner::ReuseBlocksByLifeTime.

    The recursion over the graph and the one over nested blocks take a fuel each: the
    number of nodes and of blocks. *)
From S2P Require Import Prelude MemRanges MemoryBlock BlockForest.
Open Scope Z_scope.

(** node id -> stream id -> life time *)
Abbreviation DependStreamLife := (gmap Z (gmap Z Z)).

Section reuse.
Context `{Graph}.

(** * The streams a node waits for *)

(** The loop over the peers of one anchor.  The null checks of the source are
    `GE_CHECK_NOTNULL_EXEC(x, continue)`, whose `continue` only leaves the `do { } while (0)` of the macro: a
    null pointer is dereferenced. *)
Fixpoint visit_peers (go : Node -> gmap Z Z -> DependStreamLife -> option (gmap Z Z * DependStreamLife))
    (peers : list (option Anchor)) (depend_stream_life : gmap Z Z) (total : DependStreamLife) :
    option (gmap Z Z * DependStreamLife) :=
  match peers with
  | [] => Some (depend_stream_life, total)
  | peer_out_anchor :: peers =>
    peer_out_anchor ← peer_out_anchor;
    peer_node ← GetOwnerNode peer_out_anchor;
    peer_node_desc ← GetOpDesc peer_node;
    let peer_node_stream_id := GetStreamId peer_node_desc in
    if peer_node_stream_id <? 0 then visit_peers go peers depend_stream_life total
    else
      let peer_node_life_time := life_of peer_node_desc in
      if (match depend_stream_life !! peer_node_stream_id with
          | None => true
          | Some life => life <? peer_node_life_time
          end)
      then
        '(depend_stream_life, total) ← go peer_node (<[peer_node_stream_id := peer_node_life_time]> depend_stream_life) total;
        visit_peers go peers depend_stream_life total
      else visit_peers go peers depend_stream_life total
  end.

Fixpoint visit_anchors (go : Node -> gmap Z Z -> DependStreamLife -> option (gmap Z Z * DependStreamLife))
    (anchors : list (option Anchor)) (depend_stream_life : gmap Z Z) (total : DependStreamLife) :
    option (gmap Z Z * DependStreamLife) :=
  match anchors with
  | [] => Some (depend_stream_life, total)
  | in_anchor :: anchors =>
    in_anchor ← in_anchor;
    '(depend_stream_life, total) ← visit_peers go (GetPeerAnchors in_anchor) depend_stream_life total;
    visit_anchors go anchors depend_stream_life total
  end.

(** `total[node_id][stream] = life` for the streams that are not there yet. *)
Definition save_depend_life (node_id : Z) (depend_stream_life : gmap Z Z) (total : DependStreamLife) : DependStreamLife :=
  if bool_decide (depend_stream_life = ∅) then total
  else <[node_id := default ∅ (total !! node_id) ∪ depend_stream_life]> total.

Fixpoint AddDependLife (nf : nat) (org_node node : option Node) (stream_id : Z) (depend_stream_life : gmap Z Z)
    (total : DependStreamLife) : option (gmap Z Z * DependStreamLife) :=
  match nf with
  | O => None
  | S nf =>
    match node, org_node with
    | Some n, Some _ =>
      match GetOpDesc n with
      | None => Some (depend_stream_life, total)
      | Some node_desc =>
        match total !! GetId node_desc with
        | Some stream_life => Some (depend_stream_life ∪ stream_life, total)
        | None =>
          '(depend_stream_life, total) ←
            visit_anchors (fun peer => AddDependLife nf org_node (Some peer) stream_id) (GetAllInAnchors n) depend_stream_life total;
          Some (depend_stream_life, save_depend_life (GetId node_desc) depend_stream_life total)
        end
      end
    | _, _ => Some (depend_stream_life, total)
    end
  end.

(** * The blocks *)
Abbreviation RS := (blocks * DependStreamLife)%type.
Definition read_block (p : nat) : SM RS MemoryBlock := fun s => match s.1 !! p with Some b => Some (b, s) | None => None end.
Definition write_block (p : nat) (f : MemoryBlock -> MemoryBlock) : SM RS unit :=
  fun s => match upd_block p f s.1 with Some h => Some (tt, (h, s.2)) | None => None end.

Definition AddDependLifeBegin (nf : nat) (p : nat) : SM RS unit :=
  b ← read_block p;
  if negb (bool_decide (depend_stream_life_ b = ∅)) then mret tt
  else
    _ ← match head (node_type_index_list_ b) with
        | None => mret tt
        | Some x =>
          match node x with
          | None => mret tt
          | Some n => fun s =>
            match AddDependLife nf (Some n) (Some n) (stream_id_ b) (depend_stream_life_ b) s.2 with
            | Some (depend, total) => write_block p (set_depend_stream_life_ depend) (s.1, total)
            | None => None
            end
          end
        end;
    write_block p (fun b => set_depend_stream_life_ (<[stream_id_ b := block_GetLifeBegin b]> (depend_stream_life_ b)) b).

Definition GetDependLifeBegin (nf : nat) (p : nat) (stream_id : Z) : SM RS Z :=
  _ ← AddDependLifeBegin nf p;
  b ← read_block p;
  mret (default 0 (depend_stream_life_ b !! stream_id)).

(** `parent->child_blocks_.emplace_back(child); parent->child_offset_ += ...; child->deleted_block_ = true;` *)
Definition put_inside (parent child : nat) : SM RS unit :=
  _ ← write_block parent (fun b => set_child_blocks_ (child_blocks_ b ++ [Some child]) b);
  c ← read_block child;
  _ ← write_block parent (fun b => set_child_offset_ (wrapU64 (child_offset_ b + AlignSize c)) b);
  write_block child (set_deleted_block_ true).

Definition AddContinuousLifeReuseBlock (nf : nat) (this block : nat) : SM RS unit :=
  t ← read_block this;
  b ← read_block block;
  let it_block := max_element (no_align_size_list_ b) in
  let it_this := max_element (no_align_size_list_ t) in
  if (match it_block, it_this with
      | Some mb, Some mt =>
        (continuous_block_ t && continuous_block_ b) || (continuous_block_ t && (mt <? mb)) || (continuous_block_ b && (mb <? mt))
      | _, _ => false
      end)
  then mret tt
  else
    begin_ ← GetDependLifeBegin nf block (stream_id_ t);
    t ← read_block this;
    b ← read_block block;
    if GetLifeEnd t <? begin_ then
      match it_block with
      | None => sm_stuck
      | Some mb =>
        if wrapU64 (child_offset_ b + AlignSize t) <=? mb then
          if bool_decide (child_blocks_ t = []) then put_inside block this else mret tt
        else mret tt
      end
    else mret tt.

(** The second half of AddLifeReuseBlock, once one of the blocks is chosen as the parent. *)
Definition reuse_pair `{StdSort} (nf bf : nat) (this block parent child : nat) : SM RS unit :=
  t ← read_block this;
  c ← read_block child;
  can_block_life_reuse ←
    (if bool_decide (child_blocks_ c = []) then
       begin_ ← GetDependLifeBegin nf block (stream_id_ t);
       mret (GetLifeEnd t <? begin_)
     else mret false);
  if (can_block_life_reuse : bool) then put_inside parent child
  else fun s =>
    match CanIntervalLifeReuse bf s.1 parent child with
    | Some true => put_inside parent child s
    | Some false => Some (tt, s)
    | None => None
    end.

Definition AddLifeReuseBlock `{StdSort} (nf bf : nat) (this : nat) (block : option nat) : SM RS unit :=
  t ← read_block this;
  match block with
  | None => mret tt
  | Some block =>
    b ← read_block block;
    if CanNotLifeReuse t || CanNotLifeReuse b || negb (bool_decide (batch_label_ t = batch_label_ b)) then mret tt
    else if continuous_block_ b then AddContinuousLifeReuseBlock nf this block
    else if wrapU64 (child_offset_ t + AlignSize b) <=? wrapU64 (AlignSize t + MEM_ALIGN_SIZE) then
      reuse_pair nf bf this block this block
    else if wrapU64 (child_offset_ b + AlignSize t) <=? wrapU64 (AlignSize b + MEM_ALIGN_SIZE) then
      reuse_pair nf bf this block block this
    else mret tt
  end.

(** Whether the memory of the block may be reused after it (the flag of each of its symbols). *)
Definition IsPostReuse (post_reuse_flag_ : gmap string bool) (b : MemoryBlock) : bool :=
  forallb (fun symbol => default true (post_reuse_flag_ !! symbol)) (symbol_list_ b).

(** The inner loop over the blocks after the parent. *)
Fixpoint reuse_with_rest `{StdSort} (nf bf : nat) (atomic_addr_clean_id_ : Z) (parent : nat) (rest : list (option nat)) : SM RS unit :=
  match rest with
  | [] => mret tt
  | None :: rest => reuse_with_rest nf bf atomic_addr_clean_id_ parent rest
  | Some child :: rest =>
    p ← read_block parent;
    c ← read_block child;
    if (match node_type_index_list_ p with
        | [] => false
        | x :: _ =>
          continuous_block_ c &&
          match node x ≫= GetOpDesc with
          | None => true
          | Some d => GetId d <? atomic_addr_clean_id_
          end
        end)
    then reuse_with_rest nf bf atomic_addr_clean_id_ parent rest
    else
      _ ← AddLifeReuseBlock nf bf parent (Some child);
      reuse_with_rest nf bf atomic_addr_clean_id_ parent rest
  end.

Fixpoint reuse_all `{StdSort} (nf bf : nat) (post_reuse_flag_ : gmap string bool) (atomic_addr_clean_id_ : Z)
    (memory_blocks_ : list (option nat)) : SM RS unit :=
  match memory_blocks_ with
  | [] => mret tt
  | None :: rest => reuse_all nf bf post_reuse_flag_ atomic_addr_clean_id_ rest
  | Some parent :: rest =>
    p ← read_block parent;
    if deleted_block_ p || continuous_block_ p then reuse_all nf bf post_reuse_flag_ atomic_addr_clean_id_ rest
    else
      _ ← (if reuse_mem_ p && negb (IsPostReuse post_reuse_flag_ p) then write_block parent (set_reuse_mem_ false) else mret tt);
      _ ← reuse_with_rest nf bf atomic_addr_clean_id_ parent rest;
      reuse_all nf bf post_reuse_flag_ atomic_addr_clean_id_ rest
  end.

Definition ReuseBlocksByLifeTime `{StdSort} (nf bf : nat) (post_reuse_flag_ : gmap string bool) (atomic_addr_clean_id_ : Z)
    (memory_blocks_ : list (option nat)) (range_size : Z) : SM RS unit :=
  if range_size <=? 1 then mret tt
  else reuse_all nf bf post_reuse_flag_ atomic_addr_clean_id_ memory_blocks_.

(** * AddDependLife ends *)

(** The pointers of the graph are not null, and [nodes] is closed under its edges. *)
Definition peer (n m : Node) : Prop :=
  exists a pa, Some a ∈ GetAllInAnchors n /\ Some pa ∈ GetPeerAnchors a /\ GetOwnerNode pa = Some m.
Definition graph_ok (nodes : list Node) : Prop :=
  forall n, n ∈ nodes -> forall in_anchor, in_anchor ∈ GetAllInAnchors n ->
    exists a, in_anchor = Some a /\ forall out_anchor, out_anchor ∈ GetPeerAnchors a ->
      exists pa m d, out_anchor = Some pa /\ GetOwnerNode pa = Some m /\ GetOpDesc m = Some d /\ m ∈ nodes.

(** Whether visiting the node would raise the life time recorded for its stream. *)
Definition raises (depend : gmap Z Z) (d : OpDesc) : bool :=
  negb (GetStreamId d <? 0) &&
  match depend !! GetStreamId d with None => true | Some life => life <? life_of d end.
Lemma raises_stream depend d : 0 <= GetStreamId d ->
  raises depend d = match depend !! GetStreamId d with None => true | Some life => life <? life_of d end.
Proof. intros Hs. unfold raises. by destruct (Z.ltb_spec (GetStreamId d) 0); [lia|]. Qed.
Definition node_raises (depend : gmap Z Z) (n : Node) : Prop :=
  exists d, GetOpDesc n = Some d /\ raises depend d = true.
#[local] Instance node_raises_dec depend n : Decision (node_raises depend n).
Proof.
  unfold node_raises. destruct (GetOpDesc n) as [d|]; [destruct (raises depend d) eqn:E|].
  - left. by exists d.
  - right. intros (d' & [= <-] & ?). congruence.
  - right. by intros (d' & ? & _).
Defined.
Definition pending (nodes : list Node) (depend : gmap Z Z) : nat := length (filter (node_raises depend) nodes).

Lemma pending_le nodes depend : (pending nodes depend <= length nodes)%nat.
Proof. apply length_filter. Qed.

(** Recorded life times only grow. *)
Definition grows (depend depend' : gmap Z Z) : Prop :=
  forall s v, depend !! s = Some v -> exists v', depend' !! s = Some v' /\ v <= v'.

Lemma grows_refl depend : grows depend depend.
Proof. intros s v ?. exists v. split; [done|lia]. Qed.
Lemma grows_trans a b c : grows a b -> grows b c -> grows a c.
Proof. intros H1 H2 s v (v' & Hv' & ?)%H1. apply H2 in Hv' as (v'' & ? & ?). exists v''. split; [done|lia]. Qed.
Lemma grows_union a b : grows a (a ∪ b).
Proof. intros s v Hv. exists v. split; [by apply lookup_union_Some_l|lia]. Qed.
Lemma grows_insert a d : raises a d = true -> grows a (<[GetStreamId d := life_of d]> a).
Proof.
  unfold raises. intros [_ Hr]%andb_true_iff s v Hv. destruct (decide (s = GetStreamId d)) as [->|Hne].
  - exists (life_of d). rewrite lookup_insert_eq, Hv in *. split; [done|lia].
  - exists v. rewrite lookup_insert_ne by done. split; [done|lia].
Qed.

Lemma raises_mono a b d : grows a b -> raises b d = true -> raises a d = true.
Proof.
  unfold raises. intros Hg [-> Hr]%andb_true_iff. cbn. destruct (a !! GetStreamId d) as [v|] eqn:E; [|done].
  destruct (Hg _ _ E) as (v' & Hv' & ?). rewrite Hv' in Hr. lia.
Qed.
Lemma filter_length_le {A} (P Q : A -> Prop) `{!forall x, Decision (P x), !forall x, Decision (Q x)} l :
  (forall x, Q x -> P x) -> (length (filter Q l) <= length (filter P l))%nat.
Proof.
  intros Hi. induction l as [|x l IH]; [done|]. rewrite !filter_cons. repeat case_decide; cbn; try lia. exfalso. auto.
Qed.
Lemma filter_length_lt {A} (P Q : A -> Prop) `{!forall x, Decision (P x), !forall x, Decision (Q x)} l x :
  (forall x, Q x -> P x) -> x ∈ l -> P x -> ~ Q x -> (length (filter Q l) < length (filter P l))%nat.
Proof.
  intros Hi Hx HP HQ. induction l as [|y l IH]; [by apply elem_of_nil in Hx|]. rewrite !filter_cons.
  pose proof (filter_length_le P Q l Hi). apply elem_of_cons in Hx as [->|Hx].
  - repeat case_decide; cbn; try lia; done.
  - specialize (IH Hx). repeat case_decide; cbn; try lia. exfalso. auto.
Qed.

Lemma pending_mono nodes a b : grows a b -> (pending nodes b <= pending nodes a)%nat.
Proof. intros Hg. apply filter_length_le. intros n (d & Hd & Hr). exists d. split; [done|by eapply raises_mono]. Qed.
Lemma pending_insert nodes a n d :
  n ∈ nodes -> GetOpDesc n = Some d -> raises a d = true ->
  (pending nodes (<[GetStreamId d := life_of d]> a) < pending nodes a)%nat.
Proof.
  intros Hn Hd Hr. apply (filter_length_lt _ _ nodes n); [|done|by exists d|].
  - intros m (dm & Hdm & Hrm). exists dm. split; [done|]. eapply raises_mono; [by apply grows_insert|done].
  - intros (d' & Hd' & Hr'). rewrite Hd in Hd'. simplify_eq. unfold raises in Hr'. rewrite lookup_insert_eq in Hr'.
    apply andb_true_iff in Hr' as [_ Hr']. lia.
Qed.

(** The visit of the peers, when the calls for the peers return. *)
Lemma visit_peers_total nodes go peers k depend total :
  (forall out_anchor, out_anchor ∈ peers ->
     exists pa m d, out_anchor = Some pa /\ GetOwnerNode pa = Some m /\ GetOpDesc m = Some d /\ m ∈ nodes) ->
  (forall m a tt', m ∈ nodes -> (pending nodes a < k)%nat -> exists r, go m a tt' = Some r /\ grows a r.1) ->
  (pending nodes depend <= k)%nat ->
  exists r, visit_peers go peers depend total = Some r /\ grows depend r.1.
Proof.
  intros Hp Hgo. revert depend total. induction peers as [|o peers IH]; intros depend total Hk.
  { exists (depend, total). split; [done|apply grows_refl]. }
  destruct (Hp o ltac:(set_solver)) as (pa & m & d & -> & Hm & Hd & Hin).
  cbn [visit_peers]. cbn [mbind option_bind]. rewrite Hm. cbn [mbind option_bind]. rewrite Hd. cbn [mbind option_bind].
  assert (forall dep, (pending nodes dep <= k)%nat -> exists r, visit_peers go peers dep total = Some r /\ grows dep r.1) as IH0
    by (intros dep Hdep; apply IH; [intros o' Ho'; apply Hp; set_solver|done]).
  destruct (Z.ltb_spec (GetStreamId d) 0) as [Hs|Hs]; [by apply IH0|].
  rewrite <- (raises_stream depend d Hs). destruct (raises depend d) eqn:Hr; [|by apply IH0].
  pose proof (pending_insert nodes depend m d Hin Hd Hr).
  destruct (Hgo m (<[GetStreamId d := life_of d]> depend) total Hin ltac:(lia)) as ([dep2 tot2] & -> & Hg). cbn [mbind option_bind].
  assert (grows depend dep2) as Hg2 by (eapply grows_trans; [by apply grows_insert|exact Hg]).
  pose proof (pending_mono nodes _ _ Hg2). destruct (IH ltac:(intros o' Ho'; apply Hp; set_solver) dep2 tot2 ltac:(lia)) as (r & Hr2 & Hg3).
  exists r. split; [done|by eapply grows_trans].
Qed.

Lemma visit_anchors_total nodes go n anchors k depend total :
  graph_ok nodes -> n ∈ nodes -> anchors ⊆ GetAllInAnchors n ->
  (forall m a tt', m ∈ nodes -> (pending nodes a < k)%nat -> exists r, go m a tt' = Some r /\ grows a r.1) ->
  (pending nodes depend <= k)%nat ->
  exists r, visit_anchors go anchors depend total = Some r /\ grows depend r.1.
Proof.
  intros Hgr Hn Hsub Hgo. revert depend total. induction anchors as [|o anchors IH]; intros depend total Hk.
  { exists (depend, total). split; [done|apply grows_refl]. }
  destruct (Hgr n Hn o ltac:(set_solver)) as (a & -> & Hpeers). cbn [visit_anchors]. cbn [mbind option_bind].
  destruct (visit_peers_total nodes go (GetPeerAnchors a) k depend total Hpeers Hgo Hk) as ([dep1 tot1] & -> & Hg1). cbn [mbind option_bind].
  pose proof (pending_mono nodes _ _ Hg1). destruct (IH ltac:(set_solver) dep1 tot1 ltac:(cbn in *; lia)) as (r & Hr & Hg2).
  exists r. split; [done|by eapply grows_trans].
Qed.

(** Each level of the recursion raises the life time of a stream to that of a node of the
    graph, so the recursion is no deeper than there are nodes; the graph may have cycles. *)
Lemma AddDependLife_total nodes nf org n stream_id depend total :
  graph_ok nodes -> n ∈ nodes -> (pending nodes depend < nf)%nat ->
  exists r, AddDependLife nf (Some org) (Some n) stream_id depend total = Some r /\ grows depend r.1.
Proof.
  intros Hgr. revert n depend total. induction nf as [|nf IH]; intros n depend total Hn Hk; [lia|]. cbn [AddDependLife].
  destruct (GetOpDesc n) as [d|]; [|exists (depend, total); split; [done|apply grows_refl]].
  destruct (total !! GetId d) as [row|]; [exists (depend ∪ row, total); split; [done|apply grows_union]|].
  destruct (visit_anchors_total nodes (fun peer => AddDependLife nf (Some org) (Some peer) stream_id) n (GetAllInAnchors n) nf depend total)
    as ([dep1 tot1] & -> & Hg); [done|done|done| |lia|].
  - intros m a tt' Hm Ha. by apply IH.
  - cbn [mbind option_bind]. eexists. split; [done|exact Hg].
Qed.

(** * What AddDependLife records *)

(** The life time [v] of stream [s] is that of a node [org] waits for. *)
Definition waits_for (org : Node) (s v : Z) : Prop :=
  exists m d, rtc peer org m /\ GetOpDesc m = Some d /\ GetStreamId d = s /\ life_of d = v.

(** Everything recorded so far that a visit from [org] can see is about nodes [org] waits for. *)
Definition recorded (org : Node) (depend : gmap Z Z) (total : DependStreamLife) : Prop :=
  (forall s v, depend !! s = Some v -> waits_for org s v) /\
  (forall m d row s v, rtc peer org m -> GetOpDesc m = Some d -> total !! GetId d = Some row -> row !! s = Some v -> waits_for org s v).

Lemma visit_peers_recorded org go n a peers depend total r :
  (forall m dep tot r, rtc peer org m -> recorded org dep tot -> go m dep tot = Some r -> recorded org r.1 r.2) ->
  rtc peer org n -> Some a ∈ GetAllInAnchors n -> peers ⊆ GetPeerAnchors a ->
  recorded org depend total -> visit_peers go peers depend total = Some r -> recorded org r.1 r.2.
Proof.
  intros Hgo Hn Ha. revert depend total. induction peers as [|[pa|] peers IH]; intros depend total Hsub Hrec Hv; [by simplify_eq/=| |done].
  cbn [visit_peers] in Hv. cbn [mbind option_bind] in Hv. destruct (GetOwnerNode pa) as [m|] eqn:Hm; [|done]. cbn [mbind option_bind] in Hv.
  destruct (GetOpDesc m) as [d|] eqn:Hd; [|done]. cbn [mbind option_bind] in Hv.
  assert (rtc peer org m) as Hreach.
  { eapply rtc_r; [exact Hn|]. exists a, pa. split_and!; [done|apply Hsub; set_solver|done]. }
  destruct (Z.ltb_spec (GetStreamId d) 0) as [Hs|Hs]; [apply (IH depend total); [set_solver|done|done]|].
  rewrite <- (raises_stream depend d Hs) in Hv. destruct (raises depend d); [|apply (IH depend total); [set_solver|done|done]].
  destruct (go m (<[GetStreamId d:=life_of d]> depend) total) as [[dep1 tot1]|] eqn:Hg; [|done]. cbn [mbind option_bind] in Hv.
  apply (IH dep1 tot1); [set_solver| |done]. apply (Hgo m (<[GetStreamId d:=life_of d]> depend) total (dep1, tot1)); [done| |done].
  destruct Hrec as [H1 H2]. split; [|done]. intros s v. destruct (decide (s = GetStreamId d)) as [->|Hne].
  - rewrite lookup_insert_eq. intros [= <-]. by exists m, d.
  - rewrite lookup_insert_ne by done. apply H1.
Qed.

Lemma visit_anchors_recorded org go n anchors depend total r :
  (forall m dep tot r, rtc peer org m -> recorded org dep tot -> go m dep tot = Some r -> recorded org r.1 r.2) ->
  rtc peer org n -> anchors ⊆ GetAllInAnchors n ->
  recorded org depend total -> visit_anchors go anchors depend total = Some r -> recorded org r.1 r.2.
Proof.
  intros Hgo Hn. revert depend total. induction anchors as [|[a|] anchors IH]; intros depend total Hsub Hrec Hv; [by simplify_eq/=| |done].
  cbn [visit_anchors] in Hv. cbn [mbind option_bind] in Hv.
  destruct (visit_peers go (GetPeerAnchors a) depend total) as [[dep1 tot1]|] eqn:Hp; [|done]. cbn [mbind option_bind] in Hv.
  apply (IH dep1 tot1); [set_solver| |done].
  apply (visit_peers_recorded org go n a (GetPeerAnchors a) depend total (dep1, tot1)); [done|done|set_solver|done|done|done].
Qed.

Lemma AddDependLife_recorded nf org n stream_id depend total r :
  rtc peer org n -> recorded org depend total ->
  AddDependLife nf (Some org) (Some n) stream_id depend total = Some r -> recorded org r.1 r.2.
Proof.
  revert n depend total r. induction nf as [|nf IH]; intros n depend total r Hn Hrec Hr; [done|]. cbn [AddDependLife] in Hr.
  destruct (GetOpDesc n) as [d|] eqn:Hd; [|by simplify_eq]. destruct Hrec as [H1 H2].
  destruct (total !! GetId d) as [row|] eqn:Hrow.
  { simplify_eq. split; [|done]. intros s v [Hv|[_ Hv]]%lookup_union_Some_raw; [by apply H1|by eapply H2]. }
  destruct (visit_anchors _ _ depend total) as [[dep1 tot1]|] eqn:Hv; [|done]. cbn [mbind option_bind] in Hr. simplify_eq.
  destruct (visit_anchors_recorded org _ n _ _ _ _ (fun m dep tot r Hm Hrec => IH m dep tot r Hm Hrec) Hn ltac:(done) (conj H1 H2) Hv)
    as [G1 G2]. cbn [fst snd] in *. split; [done|].
  intros m dm row s v Hm Hdm. unfold save_depend_life. case_bool_decide; [by apply (G2 m dm)|].
  destruct (decide (GetId dm = GetId d)) as [He|He].
  - rewrite He, lookup_insert_eq. intros [= <-] [Hv'|[_ Hv']]%lookup_union_Some_raw; [|by apply G1].
    destruct (tot1 !! GetId d) as [row1|] eqn:Hrow1; [|by cbn in Hv'; rewrite lookup_empty in Hv']. by eapply (G2 n d).
  - rewrite lookup_insert_ne by done. by apply (G2 m dm).
Qed.

(** ** The direct predecessors *)
Definition covered (depend : gmap Z Z) (m : Node) : Prop := forall d, GetOpDesc m = Some d -> 0 <= GetStreamId d ->
  exists v, depend !! GetStreamId d = Some v /\ life_of d <= v.

Lemma covered_grows a b m : grows a b -> covered a m -> covered b m.
Proof. intros Hg Hc d Hd Hs. destruct (Hc d Hd Hs) as (v & Hv & ?). destruct (Hg _ _ Hv) as (v' & ? & ?). exists v'. split; [done|lia]. Qed.

Lemma visit_peers_covers go peers depend total r pa m :
  (forall m a tt' r, go m a tt' = Some r -> grows a r.1) -> visit_peers go peers depend total = Some r ->
  grows depend r.1 /\ (Some pa ∈ peers -> GetOwnerNode pa = Some m -> covered r.1 m).
Proof.
  intros Hgo. revert depend total. induction peers as [|[qa|] peers IH]; intros depend total Hv; [simplify_eq/=; split; [apply grows_refl|set_solver]| |done].
  cbn [visit_peers] in Hv. cbn [mbind option_bind] in Hv. destruct (GetOwnerNode qa) as [n|] eqn:Hn; [|done]. cbn [mbind option_bind] in Hv.
  destruct (GetOpDesc n) as [d|] eqn:Hd; [|done]. cbn [mbind option_bind] in Hv.
  (* the rest of the loop, from a map that covers this peer *)
  assert (forall dep tot, grows depend dep -> covered dep n -> visit_peers go peers dep tot = Some r ->
    grows depend r.1 /\ (Some pa ∈ Some qa :: peers -> GetOwnerNode pa = Some m -> covered r.1 m)) as Hrest.
  { intros dep tot Hg Hc Hr. destruct (IH dep tot Hr) as [Hg2 Hp]. split; [by eapply grows_trans|].
    intros [[= ->]|Hin]%elem_of_cons Hm; [|by apply Hp]. assert (n = m) as -> by congruence. by eapply covered_grows. }
  destruct (Z.ltb_spec (GetStreamId d) 0) as [Hs|Hs].
  { apply (Hrest depend total); [apply grows_refl| |done]. intros d' Hd' Hs'. assert (d' = d) as -> by congruence. lia. }
  rewrite <- (raises_stream depend d Hs) in Hv. destruct (raises depend d) eqn:Hr.
  - destruct (go n (<[GetStreamId d:=life_of d]> depend) total) as [[dep1 tot1]|] eqn:Hg; [|done]. cbn [mbind option_bind] in Hv.
    apply Hgo in Hg. cbn in Hg. apply (Hrest dep1 tot1); [by eapply grows_trans; [apply grows_insert|]| |done].
    eapply covered_grows; [exact Hg|]. intros d' Hd' _. assert (d' = d) as -> by congruence. exists (life_of d). rewrite lookup_insert_eq. split; [done|lia].
  - apply (Hrest depend total); [apply grows_refl| |done]. intros d' Hd' _. assert (d' = d) as -> by congruence.
    rewrite (raises_stream depend d Hs) in Hr. destruct (depend !! GetStreamId d) as [v|]; [|done]. exists v. split; [done|lia].
Qed.

Lemma visit_anchors_covers go anchors depend total r a pa m :
  (forall m a tt' r, go m a tt' = Some r -> grows a r.1) -> visit_anchors go anchors depend total = Some r ->
  grows depend r.1 /\ (Some a ∈ anchors -> Some pa ∈ GetPeerAnchors a -> GetOwnerNode pa = Some m -> covered r.1 m).
Proof.
  intros Hgo. revert depend total. induction anchors as [|[b|] anchors IH]; intros depend total Hv; [simplify_eq/=; split; [apply grows_refl|set_solver]| |done].
  cbn [visit_anchors] in Hv. cbn [mbind option_bind] in Hv.
  destruct (visit_peers go (GetPeerAnchors b) depend total) as [[dep1 tot1]|] eqn:Hp; [|done]. cbn [mbind option_bind] in Hv.
  destruct (visit_peers_covers go _ depend total _ pa m Hgo Hp) as [Hg1 Hc1]. destruct (IH dep1 tot1 Hv) as [Hg2 Hc2].
  split; [by eapply grows_trans|]. intros [[= ->]|Hin]%elem_of_cons Hpa Hm; [|by apply Hc2]. eapply covered_grows; [exact Hg2|by apply Hc1].
Qed.

Lemma AddDependLife_grows nf org n stream_id depend total r :
  AddDependLife nf org n stream_id depend total = Some r -> grows depend r.1.
Proof.
  revert n depend total r. induction nf as [|nf IH]; intros n depend total r Hr; [done|]. cbn [AddDependLife] in Hr.
  destruct n as [n|]; [|simplify_eq; apply grows_refl]. destruct org as [org|]; [|simplify_eq; apply grows_refl].
  destruct (GetOpDesc n) as [d|]; [|simplify_eq; apply grows_refl].
  destruct (total !! GetId d) as [row|]; [simplify_eq; apply grows_union|].
  destruct (visit_anchors _ _ depend total) as [[dep1 tot1]|] eqn:Hv; [|done]. cbn [mbind option_bind] in Hr. simplify_eq. cbn.
  destruct (GetAllInAnchors n) as [|[a|] l] eqn:El; [by simplify_eq/=; apply grows_refl| |done]. rewrite <- El in Hv.
  eapply (visit_anchors_covers _ _ _ _ _ a a n) in Hv; [by apply Hv|]. intros m dep tot r' Hr'. by eapply IH.
Qed.

End reuse.

(** C20 For a node of a graph without null pointers, AddDependLife, started for that node with nothing recorded for its block, ends
    (the recursion is no deeper than there are nodes, even if the graph has cycles); every life time it
    records is that of a node the given one waits for, directly or not; and for the stream of every direct
    predecessor it records a life time at least as late as the predecessor's.  This holds when the table of earlier traversals
    has no row for the node and names, in the rows the traversal can meet, only life times the node waits for, as at the
    first call, when the table is empty.  The code does not keep the table that way: a traversal saves for every node it passes what
    the whole traversal has found, so that later calls can record streams a node does not wait for
    ([memo_shares_unordered] of MemoryAssign). *)
Theorem depend_life_exact `{Graph} nodes nf n d stream_id total :
  graph_ok nodes -> n ∈ nodes -> GetOpDesc n = Some d -> (length nodes < nf)%nat ->
  recorded n ∅ total -> total !! GetId d = None ->
  exists depend total', AddDependLife nf (Some n) (Some n) stream_id ∅ total = Some (depend, total') /\
    (forall s v, depend !! s = Some v -> waits_for n s v) /\
    (forall m, peer n m -> covered depend m).
Proof.
  intros Hg Hn Hd Hnf Hrec Hrow. destruct (AddDependLife_total nodes nf n n stream_id ∅ total Hg Hn) as ([depend total'] & Hr & _).
  { pose proof (pending_le nodes ∅). lia. }
  exists depend, total'. split; [done|]. split.
  - by eapply (AddDependLife_recorded nf n n stream_id ∅ total (depend, total')).
  - intros m (a & pa & Ha & Hpa & Hm). destruct nf as [|nf]; [done|]. cbn [AddDependLife] in Hr. rewrite Hd, Hrow in Hr.
    destruct (visit_anchors _ _ ∅ total) as [[dep1 tot1]|] eqn:Hv; [|done]. cbn [mbind option_bind] in Hr. simplify_eq.
    eapply (visit_anchors_covers _ _ _ _ _ a pa m) in Hv; [by apply Hv|]. intros m' dep tot r' Hr'. by eapply AddDependLife_grows.
Qed.

(** ** Witnesses *)

(** A graph given as a table: the description of each node and its predecessors. *)
Definition table_graph (t : list (OpDesc * list nat)) : Graph := {|
  Node := nat;
  Anchor := nat;
  GetOpDesc n := fst <$> t !! n;
  GetAllInAnchors n := map Some (default [] (snd <$> t !! n));
  GetPeerAnchors a := [Some a];
  GetOwnerNode a := Some a;
|}.

Definition table_ok (t : list (OpDesc * list nat)) : bool :=
  forallb (fun x => forallb (fun m => (m <? length t)%nat) x.2) t.

Lemma table_graph_ok t : table_ok t = true -> @graph_ok (table_graph t) (seq 0 (length t)).
Proof.
  intros Hok n Hn in_anchor Hin. cbn in Hin. apply list_elem_of_fmap in Hin as (m & -> & Hm). exists m. split; [done|].
  intros o Ho. cbn in Ho. apply list_elem_of_singleton in Ho as ->.
  destruct (t !! n) as [x|] eqn:Ex; cbn in Hm, Ex; rewrite Ex in Hm; cbn in Hm; [|by apply elem_of_nil in Hm].
  assert ((m < length t)%nat) as Hlt.
  { unfold table_ok in Hok. rewrite forallb_forall in Hok. specialize (Hok x). rewrite forallb_forall in Hok.
    apply Nat.ltb_lt, Hok; apply list_elem_of_In; [by eapply list_elem_of_lookup_2|done]. }
  destruct (lookup_lt_is_Some_2 t m Hlt) as [y Hy]. exists m, m, (fst y). cbn. rewrite Hy. split_and!; [done..|]. apply elem_of_seq. lia.
Qed.

(** Node 0 waits for 1 (stream 1) and 2 (stream 2); node 3 waits for 2 only; node 4 is an earlier node of stream 1. *)
Definition memo_table : list (OpDesc * list nat) :=
  [(mkOpDesc 10 0 "", [1%nat; 2%nat]); (mkOpDesc 5 1 "", []); (mkOpDesc 6 2 "", []); (mkOpDesc 11 3 "", [2%nat]);
   (mkOpDesc 2 1 "", [])].

(** The row of node 2 is there already. *)
Definition memo_total : DependStreamLife := {[6 := {[2 := 6]}]}.

Lemma memo_total_recorded : @recorded (table_graph memo_table) 0%nat ∅ memo_total.
Proof.
  split; [intros s v; by rewrite lookup_empty|]. intros m d row s v _ _ Hrow Hv. unfold memo_total in Hrow.
  apply lookup_singleton_Some in Hrow as [_ <-]. apply lookup_singleton_Some in Hv as [<- <-].
  exists 2%nat, (mkOpDesc 6 2 ""). split_and!; [|done..]. apply rtc_once. exists 2%nat, 2%nat. cbn. set_solver.
Qed.

Lemma depend_life_exact_witness :
  exists depend total, @AddDependLife (table_graph memo_table) 6 (Some 0%nat) (Some 0%nat) 0 ∅ memo_total = Some (depend, total) /\
    depend !! 2 = Some 6 /\ @waits_for (table_graph memo_table) 0%nat 2 6 /\ depend !! 1 = Some 5 /\ @waits_for (table_graph memo_table) 0%nat 1 5.
Proof.
  destruct (@depend_life_exact (table_graph memo_table) (seq 0 5) 6 0%nat (mkOpDesc 10 0 "") 0 memo_total) as (depend & total & Hr & Hs & _).
  - apply table_graph_ok. reflexivity.
  - cbn. set_solver.
  - reflexivity.
  - cbn. lia.
  - exact memo_total_recorded.
  - reflexivity.
  - exists depend, total. split; [exact Hr|]. vm_compute in Hr. injection Hr as <- _.
    split; [reflexivity|]. split; [apply Hs; reflexivity|]. split; [reflexivity|]. apply Hs. reflexivity.
Defined.
