(* ===== verification/ReuseSafety.v ===== *)
(** The reuse phase builds a forest of blocks in which a block and everything inside it are
    never in use at the same time.

    The invariant [reuse_inv] is established by blocks that hold nothing yet and kept by every
    call of AddLifeReuseBlock; it says that the pointers form a forest whose roots are the
    blocks still in use, and that each block passed a test against every block above it ([pair_safe]).  The tests read tables the
    code keeps itself; what follows from them for the execution is [pair_apart]: the life times of the blocks do not cross,
    or, on one stream, the one ends before the other begins, or, across streams and if the table recorded for the
    later block is right, its first node waits in the graph for a node after the end of the earlier one. *)
From S2P Require Import Prelude MemRanges MemoryBlock BlockForest LifeReuse.
From stdpp Require Import relations.
Open Scope Z_scope.

#[local] Set Warnings "-register-all".
Definition kids (t : tree) : list tree := match t with Tree _ cs => cs end.

Section safety.
Context `{Graph}.
Implicit Types (h : blocks) (t : tree) (b : MemoryBlock).

(** What the phase does not change, and what queries do not change. *)
Definition core b : MemoryBlock :=
  set_depend_stream_life_ ∅ (set_child_blocks_ [] (set_child_offset_ 0 (set_deleted_block_ false (set_reuse_mem_ false b)))).
Definition shape b : MemoryBlock := set_depend_stream_life_ ∅ (set_reuse_mem_ false b).
(** The table of a block: once there it stays, and for the stream of the block itself it has the begin of the block. *)
Definition own_entry b : Prop := depend_stream_life_ b = ∅ \/ depend_stream_life_ b !! stream_id_ b = Some (block_GetLifeBegin b).
Definition depend_stable h h' : Prop := forall p b b', h !! p = Some b -> h' !! p = Some b' ->
  (depend_stream_life_ b <> ∅ -> depend_stream_life_ b' = depend_stream_life_ b) /\ (depend_stream_life_ b = ∅ -> own_entry b').

(** Blocks that keep their tables. *)
Lemma depend_same h h' : (forall p b b', h !! p = Some b -> h' !! p = Some b' -> depend_stream_life_ b' = depend_stream_life_ b) -> depend_stable h h'.
Proof. intros Hs p b b' Hp Hp'. split; [by eauto|]. intros E. left. by rewrite (Hs p b b' Hp Hp'). Qed.

(** A field the equation does not touch, read off both sides. *)
Ltac same_field H := match goal with |- ?f _ = ?f _ => exact (f_equal f H) end.

Lemma core_fields b b' : core b = core b' ->
  real_size_list_ b = real_size_list_ b' /\ no_align_size_list_ b = no_align_size_list_ b' /\
  node_type_index_list_ b = node_type_index_list_ b' /\ stream_id_ b = stream_id_ b' /\ same_stream_ b = same_stream_ b' /\
  memory_type_ b = memory_type_ b' /\ is_zero_copy_ b = is_zero_copy_ b' /\ continuous_block_ b = continuous_block_ b'.
Proof. intros Heq. repeat split; same_field Heq. Qed.
Lemma shape_fields b b' : shape b = shape b' ->
  child_blocks_ b = child_blocks_ b' /\ deleted_block_ b = deleted_block_ b' /\ core b = core b' /\ child_offset_ b = child_offset_ b'.
Proof. intros Heq. repeat split; same_field Heq. Qed.
Lemma keeps_refl f h : keeps f h h.
Proof. done. Qed.
Lemma keeps_shape_core h h' : keeps shape h h' -> keeps core h h'.
Proof.
  intros Hk q. specialize (Hk q). destruct (h' !! q) as [b'|], (h !! q) as [b|]; [|discriminate Hk..|done].
  apply (inj Some), shape_fields in Hk as (_ & _ & Hk & _). cbn. by rewrite Hk.
Qed.

(** * Safety of a pair of blocks *)
Definition lives_disjoint b b' : Prop := forall x y, x ∈ node_type_index_list_ b -> y ∈ node_type_index_list_ b' ->
  life_time_end x < GetLifeBegin y \/ life_time_end y < GetLifeBegin x.
(** The life time begins with the node, as it does unless the node was given an earlier begin. *)
Definition own_begin (x : NodeTypeIndex) : Prop := forall d, node x ≫= GetOpDesc = Some d -> GetLifeBegin x = life_of d.
Definition begins h : Prop := forall p b x, h !! p = Some b -> x ∈ node_type_index_list_ b -> own_begin x.
(** The table of [b'] has a life time for the stream of [b] that comes after the end of [b]. *)
Definition waits_after b b' : Prop := exists v, depend_stream_life_ b' !! stream_id_ b = Some v /\ GetLifeEnd b < v.
Definition pair_safe h (p q : nat) : Prop := exists bp bq, h !! p = Some bp /\ h !! q = Some bq /\
  ((begins h -> lives_disjoint bp bq) \/ waits_after bp bq \/ waits_after bq bp).

(** What this means for the execution.  The first node of a block, and what the table says of other streams being true. *)
Definition first_node b (n : Node) : Prop := exists x, head (node_type_index_list_ b) = Some x /\ node x = Some n.
Definition table_right b : Prop := forall n s v, first_node b n -> s <> stream_id_ b -> depend_stream_life_ b !! s = Some v -> waits_for n s v.
(** [b'] is used after [b]: on the same stream by time, on another one because its first node waits for a node
    of that stream after the end of [b]. *)
Definition runs_after b b' : Prop :=
  if decide (stream_id_ b' = stream_id_ b) then GetLifeEnd b < block_GetLifeBegin b'
  else table_right b' -> exists n v, first_node b' n /\ waits_for n (stream_id_ b) v /\ GetLifeEnd b < v.
Definition pair_apart h (p q : nat) : Prop := exists bp bq, h !! p = Some bp /\ h !! q = Some bq /\
  (lives_disjoint bp bq \/ runs_after bp bq \/ runs_after bq bp).

(** A relation between every block of the tree and the blocks inside it. *)
Inductive tree_pairs (R : nat -> nat -> Prop) : tree -> Prop :=
| tree_pairs_intro p cs : (forall q, q ∈ flat_map ptrs cs -> R p q) -> Forall (tree_pairs R) cs -> tree_pairs R (Tree p cs).
Definition tree_safe h : tree -> Prop := tree_pairs (pair_safe h).

Lemma tree_pairs_impl (R S : nat -> nat -> Prop) t : (forall p q, R p q -> S p q) -> tree_pairs R t -> tree_pairs S t.
Proof.
  intros Hi. induction t as [p cs IH] using tree_ind'. intros Ht. inversion Ht as [? ? Hp Hc]; subst.
  constructor; [auto|]. rewrite Forall_forall in *. auto.
Qed.

(** All blocks of the tree run on one stream. *)
Definition same_stream h (p q : nat) : Prop := exists bp bq, h !! p = Some bp /\ h !! q = Some bq /\
  stream_id_ bp = stream_id_ bq /\ same_stream_ bp = true /\ same_stream_ bq = true.
Inductive uniform h : tree -> Prop :=
| uniform_intro p cs : Forall (fun c => same_stream h p (root c)) cs -> Forall (uniform h) cs -> uniform h (Tree p cs).

Context (nodes : list Node).
Definition node_ok (x : NodeTypeIndex) : Prop := exists n d, node x = Some n /\ n ∈ nodes /\ GetOpDesc n = Some d /\
  0 <= life_time_end x.
Definition blk_ok b : Prop :=
  block_ok b /\ no_align_size_list_ b <> [] /\ node_type_index_list_ b <> [] /\ Forall node_ok (node_type_index_list_ b).

Record reuse_inv h (ts : list tree) : Prop := {
  ri_rep : Forall (rep h) ts;
  ri_nodup : NoDup (flat_map ptrs ts);
  ri_roots p b : h !! p = Some b -> deleted_block_ b = false -> exists t, t ∈ ts /\ root t = p;
  ri_cover p : is_Some (h !! p) -> p ∈ flat_map ptrs ts;
  ri_blk p b : h !! p = Some b -> blk_ok b;
  ri_safe : Forall (tree_safe h) ts;
  ri_uniform : Forall (fun t => Forall (uniform h) (kids t)) ts;
  ri_table p b : h !! p = Some b -> own_entry b;
}.

(** The tests imply the order, in the execution, of the blocks that share memory. *)
Lemma waits_after_runs b b' n : own_entry b' -> first_node b' n -> waits_after b b' -> runs_after b b'.
Proof.
  intros Ho Hn (v & Hv & Hlt). unfold runs_after. case_decide as Hs.
  - destruct Ho as [He|He]; [by rewrite He, lookup_empty in Hv|]. rewrite Hs, Hv in He. by injection He as <-.
  - intros Hr. exists n, v. split; [done|]. split; [by apply Hr|done].
Qed.

Lemma blk_first_node b : blk_ok b -> exists n, first_node b n.
Proof.
  intros (_ & _ & Hne & Hok). destruct (node_type_index_list_ b) as [|x l] eqn:El; [done|].
  apply Forall_cons in Hok as [(n & d & Hn & _) _]. exists n, x. by rewrite El.
Qed.

Lemma pair_safe_apart h ts p q : reuse_inv h ts -> begins h -> pair_safe h p q -> pair_apart h p q.
Proof.
  intros Hinv Hb (bp & bq & Hp & Hq & Hs). exists bp, bq. split; [done|]. split; [done|].
  destruct (blk_first_node bp (ri_blk _ _ Hinv _ _ Hp)) as [n Hn], (blk_first_node bq (ri_blk _ _ Hinv _ _ Hq)) as [m Hm].
  destruct Hs as [Hs|[Hs|Hs]]; [left; auto|right; left|right; right].
  - by apply (waits_after_runs _ _ m); [apply (ri_table _ _ Hinv _ _ Hq)|..].
  - by apply (waits_after_runs _ _ n); [apply (ri_table _ _ Hinv _ _ Hp)|..].
Qed.

Lemma tree_safe_apart h ts t : reuse_inv h ts -> begins h -> t ∈ ts -> tree_pairs (pair_apart h) t.
Proof.
  intros Hinv Hb Ht. pose proof (ri_safe _ _ Hinv) as Hs. rewrite Forall_forall in Hs.
  eapply tree_pairs_impl; [|by apply Hs]. intros p q. by eapply pair_safe_apart.
Qed.

(** ** The invariant under changes that do not touch the pointers *)
Lemma keeps_begins h h' : keeps core h h' -> begins h' -> begins h.
Proof.
  intros Hk Hb p b x Hp Hx. destruct (keeps_lookup core h h' p b Hk Hp) as (b' & Hp' & He).
  apply core_fields in He as (_ & _ & He & _). apply (Hb p b'); [done|congruence].
Qed.

Lemma own_entry_stable h h' p b b' :
  keeps core h h' -> depend_stable h h' -> h !! p = Some b -> h' !! p = Some b' -> own_entry b -> own_entry b'.
Proof.
  intros Hk Hd Hp Hp' Ho. destruct (Hd p b b' Hp Hp') as [H1 H2]. destruct (decide (depend_stream_life_ b = ∅)) as [E|E]; [auto|].
  destruct (keeps_lookup core h h' p b Hk Hp) as (b1 & Hb1 & He). assert (b1 = b') as -> by congruence.
  apply core_fields in He as (_ & _ & Hn & Hs & _). destruct Ho as [?|Ho]; [done|]. right. unfold block_GetLifeBegin in *.
  by rewrite (H1 E), Hn, Hs.
Qed.

Lemma table_stable h h' : keeps core h h' -> depend_stable h h' ->
  (forall p b, h !! p = Some b -> own_entry b) -> forall p b, h' !! p = Some b -> own_entry b.
Proof.
  intros Hk Hd Ho p b' Hp'. destruct (keeps_lookup core h' h p b') as (b & Hp & _); [by intros q; rewrite Hk|done|].
  by eapply own_entry_stable; [..|apply (Ho p)].
Qed.

Lemma pair_safe_mono h h' p q : keeps core h h' -> depend_stable h h' -> pair_safe h p q -> pair_safe h' p q.
Proof.
  intros Hk Hd (bp & bq & Hp & Hq & Hs). pose proof (keeps_begins h h' Hk) as Hbeg.
  destruct (keeps_lookup core h h' p bp Hk Hp) as (bp' & Hp' & Ep). destruct (keeps_lookup core h h' q bq Hk Hq) as (bq' & Hq' & Eq).
  exists bp', bq'. split_and!; [done|done|].
  apply core_fields in Ep as (_ & _ & Np & Sp & _), Eq as (_ & _ & Nq & Sq & _).
  unfold lives_disjoint, waits_after, GetLifeEnd. rewrite Np, Nq, Sp, Sq.
  destruct Hs as [Hs|[(v & Hv & ?)|(v & Hv & ?)]]; [left; intros Hb; exact (Hs (Hbeg Hb))|right; left|right; right]; exists v.
  - destruct (Hd q bq bq' Hq Hq') as [-> _]; [done|]. intros E. by rewrite E, lookup_empty in Hv.
  - destruct (Hd p bp bp' Hp Hp') as [-> _]; [done|]. intros E. by rewrite E, lookup_empty in Hv.
Qed.

Lemma tree_safe_mono h h' t : keeps core h h' -> depend_stable h h' -> tree_safe h t -> tree_safe h' t.
Proof. intros Hk Hd. apply tree_pairs_impl. intros p q. by apply pair_safe_mono. Qed.

Lemma uniform_mono h h' t : keeps core h h' -> uniform h t -> uniform h' t.
Proof.
  intros Hk. induction t as [p cs IH] using tree_ind'. intros Ht. inversion Ht as [? ? Hp Hc]; subst.
  constructor; rewrite Forall_forall in *; [|by auto]. intros c Hcin. destruct (Hp c Hcin) as (bp & bq & Hbp & Hbq & Hs).
  destruct (keeps_lookup core h h' p bp Hk Hbp) as (bp' & Hp' & Ep). destruct (keeps_lookup core h h' _ bq Hk Hbq) as (bq' & Hq' & Eq).
  exists bp', bq'. apply core_fields in Ep as (_ & _ & _ & -> & -> & _), Eq as (_ & _ & _ & -> & -> & _). done.
Qed.

Lemma blk_ok_core b b' : core b' = core b -> blk_ok b -> blk_ok b'.
Proof. intros (Hr & Hn & Hl & _)%core_fields. unfold blk_ok, block_ok. by rewrite Hr, Hn, Hl. Qed.

Lemma keeps_blk h h' : keeps core h h' -> (forall p b, h !! p = Some b -> blk_ok b) -> forall p b, h' !! p = Some b -> blk_ok b.
Proof.
  intros Hk Hb p b' Hp. destruct (keeps_lookup core h' h p b') as (b & Hp' & He); [by intros q; rewrite Hk|done|].
  eapply blk_ok_core; [symmetry; exact He|by eapply Hb].
Qed.

Lemma rep_kids h h' t :
  (forall q, q ∈ ptrs t -> child_blocks_ <$> h' !! q = child_blocks_ <$> h !! q) -> rep h t -> rep h' t.
Proof.
  induction t as [p cs IH] using tree_ind'. intros He Hr. inversion Hr as [? ? b Hb Hc Hall]; subst.
  pose proof (He p (root_in_ptrs (Tree p cs))) as Hp. rewrite Hb in Hp. destruct (h' !! p) as [b'|] eqn:Hb'; [|done].
  apply (inj Some) in Hp. econstructor; [done|by rewrite Hp|]. rewrite Forall_forall in *. intros c Hcin.
  apply IH; [done| |by apply Hall]. intros q Hq. apply He. cbn. apply elem_of_cons. right. apply elem_of_flat_ptrs. eauto.
Qed.

Lemma reuse_inv_shape h h' ts : keeps shape h h' -> depend_stable h h' -> reuse_inv h ts -> reuse_inv h' ts.
Proof.
  intros Hk Hd [Hrep Hn Hroots Hcov Hblk Hsafe Hun Htab]. pose proof (keeps_shape_core h h' Hk) as Hkc.
  split; [|done| | |by eapply keeps_blk| | |by eapply table_stable].
  - eapply Forall_impl; [exact Hrep|]. intros t. apply rep_kids. intros q _. specialize (Hk q).
    destruct (h' !! q) as [b'|], (h !! q) as [b|]; [|discriminate Hk..|done].
    apply (inj Some), shape_fields in Hk as (Hk & _). cbn. by rewrite Hk.
  - intros p b' Hp Hdel. destruct (keeps_lookup shape h' h p b') as (b & Hp' & He); [by intros q; rewrite Hk|done|].
    apply shape_fields in He as (_ & He & _). apply (Hroots p b); [done|congruence].
  - intros p [b' Hb']. destruct (keeps_lookup shape h' h p b') as (b & Hb & _); [by intros q; rewrite Hk|done|]. apply Hcov. by exists b.
  - eapply Forall_impl; [exact Hsafe|]. intros t. by apply tree_safe_mono.
  - eapply Forall_impl; [exact Hun|]. intros t Ht. eapply Forall_impl; [exact Ht|]. intros c. by apply uniform_mono.
Qed.

(** * CanIntervalLifeReuse *)
Definition lives h (ps : list nat) : list NodeTypeIndex :=
  flat_map (fun q => match h !! q with Some b => node_type_index_list_ b | None => [] end) ps.

Lemma lives_app h ps qs : lives h (ps ++ qs) = lives h ps ++ lives h qs.
Proof. apply flat_map_app. Qed.

(** The list of a tree on one stream is complete. *)
Lemma life_children_uniform h block cs go l :
  Forall (fun c => exists bc, h !! root c = Some bc /\ stream_id_ block = stream_id_ bc /\ same_stream_ bc = true) cs ->
  same_stream_ block = true ->
  Forall (fun c => forall l, go (root c) l = Some (l ++ lives h (ptrs c))) cs ->
  life_children go h block (map (fun c => Some (root c)) cs) l = Some (l ++ lives h (flat_map ptrs cs)).
Proof.
  intros Hs Hb Hgo. revert l. induction cs as [|c cs IH]; intros l; [cbn; by rewrite app_nil_r|].
  apply Forall_cons in Hs as [(bc & Hbc & Hst & Hss) Hs]. apply Forall_cons in Hgo as [Hgc Hgo].
  cbn [map life_children]. rewrite Hbc. cbn [mbind option_bind].
  rewrite bool_decide_eq_true_2, Hb, Hss by done. cbn [negb orb]. rewrite Hgc. cbn [mbind option_bind].
  rewrite IH by done. cbn [flat_map]. by rewrite lives_app, app_assoc.
Qed.

Lemma GetLifeList_uniform h t bf l :
  rep h t -> uniform h t -> (length (ptrs t) <= bf)%nat -> GetLifeList bf h (root t) true l = Some (l ++ lives h (ptrs t)).
Proof.
  revert bf l. induction t as [p cs IH] using tree_ind'. intros bf l Hr Hu Hf. destruct bf as [|bf]; [cbn in Hf; lia|].
  inversion Hr as [? ? b Hb Hc Hall]; subst. inversion Hu as [? ? Hs Hun]; subst. cbn [GetLifeList root]. rewrite Hb. cbn [mbind option_bind].
  rewrite Hc.
  assert (lives h (ptrs (Tree p cs)) = node_type_index_list_ b ++ lives h (flat_map ptrs cs)) as -> by (cbn; by rewrite Hb).
  rewrite app_assoc. destruct cs as [|c0 cs0]; [cbn; by rewrite app_nil_r|]. set (cs := c0 :: cs0) in *.
  apply life_children_uniform.
  - rewrite Forall_forall in *. intros c Hcin. destruct (Hs c Hcin) as (bp & bq & Hbp & Hbq & ? & ? & ?). exists bq.
    assert (bp = b) as -> by congruence. done.
  - rewrite Forall_forall in Hs. destruct (Hs c0 ltac:(set_solver)) as (bp & bq & Hbp & _ & _ & ? & _). congruence.
  - rewrite Forall_forall in *. intros c Hcin l'. apply IH; [done|by apply Hall|by apply Hun|].
    pose proof (length_ptrs_child p cs c Hcin). lia.
Qed.

Definition same_stream_test h b (q : nat) : bool :=
  match h !! q with
  | Some bc => bool_decide (stream_id_ b = stream_id_ bc) && same_stream_ b && same_stream_ bc
  | None => false
  end.
Lemma same_stream_test_spec h p b q : h !! p = Some b -> same_stream_test h b q = true -> same_stream h p q.
Proof.
  unfold same_stream_test. intros Hb. destruct (h !! q) as [bc|] eqn:Hbc; [|done].
  intros [[E1%bool_decide_eq_true E2]%andb_true_iff E3]%andb_true_iff. by exists b, bc.
Qed.

(** The list of a tree whose subtrees each run on one stream is empty or complete. *)
Lemma GetLifeList_top h p cs bf l :
  rep h (Tree p cs) -> Forall (uniform h) cs -> (length (ptrs (Tree p cs)) <= bf)%nat ->
  exists r, GetLifeList bf h p true l = Some r /\ (r = [] \/ uniform h (Tree p cs) /\ r = l ++ lives h (ptrs (Tree p cs))).
Proof.
  intros Hr Hu Hf. destruct bf as [|bf]; [cbn in Hf; lia|]. pose proof Hr as Hr'. inversion Hr as [? ? b Hb Hc Hall]; subst.
  destruct (decide (Forall (fun c => same_stream_test h b (root c) = true) cs)) as [Hs|Hs].
  - assert (uniform h (Tree p cs)) as Hun.
    { constructor; [|done]. eapply Forall_impl; [exact Hs|]. intros c Hcs. cbn in Hcs.
      by apply (same_stream_test_spec h p b). }
    eexists. split; [|right; split; [exact Hun|reflexivity]]. by apply (GetLifeList_uniform h (Tree p cs)).
  - exists []. split; [|by left]. cbn [GetLifeList]. rewrite Hb. cbn [mbind option_bind]. rewrite Hc.
    generalize (l ++ node_type_index_list_ b) as l'. clear l.
    assert (Forall (fun c => length (ptrs c) <= bf)%nat cs) as Hfs.
    { apply Forall_forall. intros c Hcin. pose proof (length_ptrs_child p cs c Hcin). lia. }
    clear Hf Hr Hr' Hc. induction cs as [|c cs IH]; intros l'; [by destruct Hs|].
    apply Forall_cons in Hfs as [Hfc Hfs]. apply Forall_cons in Hu as [Huc Hu]. apply Forall_cons in Hall as [Hrc Hall].
    cbn [map life_children]. assert (exists bc, h !! root c = Some bc) as [bc Hbc] by (inversion Hrc; eauto).
    rewrite Hbc. cbn [mbind option_bind].
    destruct (negb (bool_decide (stream_id_ b = stream_id_ bc)) || negb (same_stream_ b) || negb (same_stream_ bc))%bool eqn:Ec; [done|].
    rewrite (GetLifeList_uniform h c bf l' Hrc Huc Hfc). cbn [mbind option_bind]. apply IH; [done|done| |done].
    intros Hs'. apply Hs. constructor; [|done]. unfold same_stream_test. rewrite Hbc.
    by destruct (bool_decide _), (same_stream_ b), (same_stream_ bc).
Qed.

(** The sorted list passes the check: every life time ends before the next ones begin. *)
Lemma lives_apart_sorted l pre :
  Forall (node_ok) l -> StronglySorted (fun x y => GetLifeBegin x <= GetLifeBegin y) l ->
  (exists r, lives_apart pre l = Some r) /\
  (lives_apart pre l = Some true -> Forall own_begin l -> StronglySorted (fun x y => life_time_end x < GetLifeBegin y) l /\
     Forall (fun x => pre < GetLifeBegin x) l).
Proof.
  intros Hok Hs. revert pre. induction Hs as [|x l Hs IH Hx]; intros pre; [split; [by exists true|by split; constructor]|].
  apply Forall_cons in Hok as [(n & d & Hn & _ & Hd & _) Hok]. specialize (IH Hok).
  cbn [lives_apart]. rewrite Hn. cbn [mbind option_bind]. rewrite Hd. destruct (Z.leb_spec (life_of d) pre).
  - split; [by exists false|done].
  - destruct (IH (life_time_end x)) as [Ht Hc]. split; [done|]. intros Ha [Hb Hbs]%Forall_cons. destruct (Hc Ha Hbs) as (H1 & H2).
    assert (Hbx : GetLifeBegin x = life_of d) by (apply Hb; by rewrite Hn). split; [by constructor|].
    constructor; [lia|]. eapply Forall_impl; [exact Hx|]. cbn. intros y Hy. lia.
Qed.

Lemma sorted_perm_pair {A} (R : A -> A -> Prop) s l1 l2 x y :
  StronglySorted R s -> s ≡ₚ l1 ++ l2 -> x ∈ l1 -> y ∈ l2 -> R x y \/ R y x.
Proof.
  intros Hs Hp (a1 & a2 & ->)%list_elem_of_split Hy.
  assert (s ≡ₚ x :: (a1 ++ a2 ++ l2)) as Hp' by (rewrite Hp; solve_Permutation).
  destruct (Permutation_vs_cons_inv Hp') as (s1 & s2 & ->).
  assert (s1 ++ s2 ≡ₚ a1 ++ a2 ++ l2) as Hp2 by (apply (Permutation_cons_inv (a := x)); rewrite <- Hp'; solve_Permutation).
  assert (y ∈ s1 ++ s2) as [Hy1|Hy2]%elem_of_app by (rewrite Hp2; set_solver).
  - right. eapply StronglySorted_app_1_elem_of; [exact Hs|done|set_solver].
  - left. apply StronglySorted_app_1_r, StronglySorted_inv in Hs as [_ Hs]. rewrite Forall_forall in Hs. by apply Hs.
Qed.

Lemma inv_fuel h ts t : reuse_inv h ts -> t ∈ ts -> (length (ptrs t) <= size h)%nat.
Proof.
  intros Hinv Ht. pose proof (ri_rep _ _ Hinv) as Hr. rewrite Forall_forall in Hr.
  apply (tree_fuel h t); [by apply Hr|]. pose proof (ri_nodup _ _ Hinv) as Hn. clear -Hn Ht.
  induction ts as [|u ts IH]; [by apply elem_of_nil in Ht|]. apply NoDup_flat_cons in Hn as (Hnu & Hn & _).
  apply elem_of_cons in Ht as [->|Ht]; [done|by apply IH].
Qed.

Lemma lives_ok h ps : (forall p b, h !! p = Some b -> blk_ok b) -> Forall node_ok (lives h ps).
Proof.
  intros Hb. induction ps as [|q ps IH]; [constructor|]. cbn. apply Forall_app. split; [|done].
  destruct (h !! q) as [b|] eqn:Hq; [|constructor]. apply (Hb q b Hq).
Qed.

Lemma lives_begin h ps : begins h -> Forall own_begin (lives h ps).
Proof.
  intros Hb. induction ps as [|q ps IH]; [constructor|]. cbn. apply Forall_app. split; [|done].
  destruct (h !! q) as [b|] eqn:Hq; [|constructor]. apply Forall_forall. intros x. by apply (Hb q b).
Qed.

Lemma elem_of_lives h ps q b x : q ∈ ps -> h !! q = Some b -> x ∈ node_type_index_list_ b -> x ∈ lives h ps.
Proof.
  intros Hq Hb Hx. unfold lives. rewrite flat_map_concat_map. apply elem_of_concat. eexists. split; [|exact Hx].
  apply list_elem_of_fmap. exists q. by rewrite Hb.
Qed.

Lemma list_ends {A} (l : list A) : l <> [] -> exists x l' y, l = x :: l' /\ last l = Some y.
Proof.
  destruct l as [|x l]; [done|]. intros _. destruct (last (x :: l)) as [y|] eqn:E; [by exists x, l, y|]. by apply last_None in E.
Qed.

Lemma CanIntervalLifeReuse_ok `{StdSortOk} h ts p ps c cs bf :
  reuse_inv h ts -> Tree p ps ∈ ts -> Tree c cs ∈ ts -> (size h <= bf)%nat ->
  exists r, CanIntervalLifeReuse bf h p c = Some r /\
    (r = true -> uniform h (Tree c cs) /\ forall q, q ∈ ptrs (Tree c cs) -> pair_safe h p q).
Proof.
  intros Hinv Hp Hc Hbf. pose proof (inv_fuel h ts _ Hinv Hc) as Hfc. pose proof (inv_fuel h ts _ Hinv Hp) as Hfp.
  pose proof (ri_rep _ _ Hinv) as Hreps. rewrite Forall_forall in Hreps. pose proof (Hreps _ Hp) as Hrp. pose proof (Hreps _ Hc) as Hrc.
  inversion Hrp as [? ? bp Hbp _ _]; subst. inversion Hrc as [? ? bc Hbc _ _]; subst.
  pose proof (ri_blk _ _ Hinv) as Hblk. destruct (Hblk _ _ Hbp) as (_ & _ & Hnp & Hokp). destruct (Hblk _ _ Hbc) as (_ & _ & Hnc & _).
  unfold CanIntervalLifeReuse. rewrite Hbp, Hbc. cbn [mbind option_bind].
  destruct (list_ends _ Hnp) as (pf & lp & pb & Elp & Epb). destruct (list_ends _ Hnc) as (cf & lc & cb & Elc & Ecb).
  rewrite Epb, Ecb, Elp, Elc.
  destruct (_ || _ || _)%bool; [by exists false|]. destruct (CrossLifeTime pf cf); [by exists false|].
  destruct (CrossLifeTime pb cb); [by exists false|].
  destruct bf as [|bf]; [cbn in Hfp; lia|]. cbn [GetLifeList]. rewrite Hbp. cbn [mbind option_bind]. rewrite app_nil_l.
  pose proof (ri_uniform _ _ Hinv) as Hun. rewrite Forall_forall in Hun. specialize (Hun _ Hc). cbn [kids] in Hun.
  destruct (GetLifeList_top h c cs (S bf) (node_type_index_list_ bp) Hrc Hun ltac:(lia)) as (r & Hr & Hrr).
  cbn [GetLifeList] in Hr. rewrite Hr. cbn [mbind option_bind]. destruct Hrr as [->|[Hu ->]]; [by exists false|].
  rewrite Elp. cbn [app].
  set (l := node_type_index_list_ bp ++ lives h (ptrs (Tree c cs))).
  assert (pf :: lp ++ lives h (ptrs (Tree c cs)) = l) as Hl by (unfold l; by rewrite Elp). rewrite Hl.
  assert (Forall node_ok (std_sort CompareLifeTime l)) as Hok.
  { rewrite std_sort_perm. apply Forall_app. split; [done|]. by apply lives_ok. }
  destruct (lives_apart_sorted (std_sort CompareLifeTime l) 0 Hok (std_sort_sorted GetLifeBegin l)) as [[r Hla] Hap].
  exists r. split; [done|]. intros ->. split; [done|].
  intros q Hq. destruct (ptrs_in_dom h _ Hrc q Hq) as [bq Hbq]. exists bp, bq. split_and!; [done|done|]. left. intros Hbeg x y Hx Hy.
  destruct (Hap Hla) as [Hsorted _].
  { rewrite std_sort_perm. apply Forall_app. split; [|by apply lives_begin]. apply Forall_forall. intros z Hz. by apply (Hbeg p bp). }
  apply (sorted_perm_pair (fun x y => life_time_end x < GetLifeBegin y) _ (node_type_index_list_ bp) (lives h (ptrs (Tree c cs))) x y Hsorted (std_sort_perm _ _) Hx).
  by eapply elem_of_lives.
Qed.

(** * Putting a block inside another *)

(** The two blocks after [put_inside]. *)
Definition as_parent (c : nat) (bc b : MemoryBlock) : MemoryBlock :=
  set_child_offset_ (wrapU64 (child_offset_ b + AlignSize bc)) (set_child_blocks_ (child_blocks_ b ++ [Some c]) b).

Lemma put_inside_run h total p c bp bc :
  p <> c -> h !! p = Some bp -> h !! c = Some bc ->
  put_inside p c (h, total) = Some (tt, (<[c := set_deleted_block_ true bc]> (<[p := as_parent c bc bp]> h), total)).
Proof.
  intros Hne Hp Hc. unfold put_inside, write_block, read_block, upd_block, mbind, SM_bind. cbn [fst snd].
  rewrite Hp. cbn [fst snd]. rewrite lookup_insert_ne, Hc by done. cbn [fst snd]. rewrite lookup_insert_eq. cbn [fst snd].
  rewrite insert_insert_eq, lookup_insert_ne, Hc by done. done.
Qed.

Lemma put_inside_ok h ts p ps c cs bp bc :
  reuse_inv h ts -> Tree p ps ∈ ts -> Tree c cs ∈ ts -> p <> c -> h !! p = Some bp -> h !! c = Some bc ->
  uniform h (Tree c cs) -> (forall q, q ∈ ptrs (Tree c cs) -> pair_safe h p q) ->
  let h' := <[c := set_deleted_block_ true bc]> (<[p := as_parent c bc bp]> h) in
  keeps core h h' /\ exists ts', reuse_inv h' ts'.
Proof.
  intros Hinv Hp Hc Hne Hbp Hbc Hu Hpair h'.
  assert (forall q, q <> p -> q <> c -> h' !! q = h !! q) as Hother by (intros q ? ?; unfold h'; by rewrite !lookup_insert_ne).
  assert (h' !! p = Some (as_parent c bc bp)) as Hp' by (unfold h'; by rewrite lookup_insert_ne, lookup_insert_eq).
  assert (h' !! c = Some (set_deleted_block_ true bc)) as Hc' by (unfold h'; by rewrite lookup_insert_eq).
  assert (keeps core h h') as Hk.
  { intros q. destruct (decide (q = p)) as [->|]; [by rewrite Hp', Hbp|]. destruct (decide (q = c)) as [->|]; [by rewrite Hc', Hbc|]. by rewrite Hother. }
  assert (depend_stable h h') as Hd.
  { apply depend_same. intros q b b' Hq Hq'. destruct (decide (q = p)) as [->|]; [by simplify_eq|]. destruct (decide (q = c)) as [->|]; [by simplify_eq|].
    rewrite Hother in Hq' by done. by simplify_eq. }
  split; [done|].
  destruct Hinv as [Hrep Hnd Hroots Hcov Hblk Hsafe Hun Htab].
  assert (exists rest, ts ≡ₚ Tree p ps :: Tree c cs :: rest) as [rest Hperm].
  { apply list_elem_of_split in Hp as (l1 & l2 & ->). rewrite elem_of_app, elem_of_cons in Hc.
    assert (Tree c cs ∈ l1 ++ l2) as (r1 & r2 & Hr)%list_elem_of_split.
    { rewrite elem_of_app. destruct Hc as [?|[?|?]]; [by left| |by right]. simplify_eq. }
    exists (r1 ++ r2). transitivity (Tree p ps :: (l1 ++ l2)); [solve_Permutation|]. rewrite Hr. solve_Permutation. }
  rewrite Hperm in Hrep, Hnd, Hsafe, Hun.
  apply Forall_cons in Hrep as [Hrp [Hrc Hrep]%Forall_cons]. apply Forall_cons in Hsafe as [Hsp [Hsc Hsafe]%Forall_cons].
  apply Forall_cons in Hun as [Hup [_ Hun]%Forall_cons]. cbn [kids] in Hup.
  assert (forall q, q ∈ flat_map ptrs ps \/ q ∈ flat_map ptrs cs \/ q ∈ flat_map ptrs rest -> q <> p /\ q <> c) as Hfresh.
  { cbn in Hnd. apply NoDup_cons in Hnd as [Hpn Hnd]. rewrite !elem_of_app, elem_of_cons in Hpn.
    apply NoDup_app in Hnd as (_ & Hd1 & Hnd). cbn in Hd1. apply NoDup_cons in Hnd as [Hcn _]. rewrite elem_of_app in Hcn.
    intros q [Hq|Hq]; split; intros ->; [by apply Hpn; left| |by apply Hpn; right; right; apply elem_of_app|by apply Hcn].
    apply (Hd1 c Hq). apply elem_of_cons. by left. }
  assert (forall t, (forall q, q ∈ ptrs t -> q <> p) -> rep h t -> rep h' t) as Hrepo.
  { intros t Ht. apply rep_kids. intros q Hq. destruct (decide (q = c)) as [->|]; [by rewrite Hc', Hbc|]. by rewrite Hother by auto. }
  exists (Tree p (ps ++ [Tree c cs]) :: rest). split.
  - constructor.
    + inversion Hrp as [? ? b Hb Hk1 Hall]; subst. assert (b = bp) as -> by congruence. econstructor; [exact Hp'| |].
      * cbn. by rewrite Hk1, map_app.
      * apply Forall_app. split; [|constructor; [|constructor]].
        -- rewrite Forall_forall in *. intros t Ht. apply Hrepo; [|by apply Hall]. intros q Hq. apply (Hfresh q). left. apply elem_of_flat_ptrs. eauto.
        -- apply Hrepo; [|done]. intros q Hq. cbn in Hq. apply elem_of_cons in Hq as [->|Hq]; [done|]. apply (Hfresh q). auto.
    + rewrite Forall_forall in *. intros t Ht. apply Hrepo; [|by apply Hrep]. intros q Hq. apply (Hfresh q). right. right. apply elem_of_flat_ptrs. eauto.
  - cbn [flat_map ptrs] in Hnd |- *. rewrite flat_map_app. cbn [flat_map ptrs]. rewrite app_nil_r, <- app_comm_cons, <- app_assoc.
    by rewrite <- !app_comm_cons in Hnd.
  - intros q b Hq Hdel. destruct (decide (q = p)) as [->|Hqp]; [exists (Tree p (ps ++ [Tree c cs])); split; [set_solver|done]|].
    destruct (decide (q = c)) as [->|Hqc]; [by simplify_eq|]. rewrite Hother in Hq by done.
    destruct (Hroots q b Hq Hdel) as (t & Ht & Hr). rewrite Hperm in Ht. exists t. split; [|done].
    apply elem_of_cons in Ht as [->|[->|Ht]%elem_of_cons]; [done|done|set_solver].
  - intros q Hq. assert (is_Some (h !! q)) as Hq0.
    { destruct (decide (q = p)) as [->|]; [by exists bp|]. destruct (decide (q = c)) as [->|]; [by exists bc|]. by rewrite <- Hother. }
    apply Hcov in Hq0. apply elem_of_flat_ptrs in Hq0 as (t & Ht & Hqt). rewrite Hperm in Ht. cbn [flat_map ptrs]. rewrite flat_map_app.
    rewrite elem_of_app, elem_of_cons, elem_of_app. cbn [flat_map]. rewrite app_nil_r.
    apply elem_of_cons in Ht as [->|[->|Ht]%elem_of_cons]; [cbn in Hqt; apply elem_of_cons in Hqt; tauto|tauto|].
    right. apply elem_of_flat_ptrs. eauto.
  - by eapply keeps_blk.
  - constructor; [|eapply Forall_impl; [exact Hsafe|]; intros t; by apply tree_safe_mono].
    apply (tree_safe_mono h); [done|done|]. inversion Hsp as [? ? Hps Hss]; subst. constructor.
    + intros q. rewrite flat_map_app, elem_of_app. intros [Hq|Hq]; [by apply Hps|]. apply Hpair. cbn in Hq. by rewrite app_nil_r in Hq.
    + apply Forall_app. split; [done|by constructor].
  - constructor; [|eapply Forall_impl; [exact Hun|]; intros t Ht; eapply Forall_impl; [exact Ht|]; intros u; by apply uniform_mono].
    cbn [kids]. apply Forall_app. split; [eapply Forall_impl; [exact Hup|]; intros u; by apply uniform_mono|].
    constructor; [by eapply uniform_mono|constructor].
  - by eapply table_stable.
Qed.

(** * GetDependLifeBegin *)
Lemma write_block_run h total p b f : h !! p = Some b -> write_block p f (h, total) = Some (tt, (<[p := f b]> h, total)).
Proof. intros Hb. unfold write_block, upd_block. cbn [fst snd]. by rewrite Hb. Qed.
Lemma read_block_run h total p b : h !! p = Some b -> read_block p (h, total) = Some (b, (h, total)).
Proof. intros Hb. unfold read_block. cbn [fst]. by rewrite Hb. Qed.

Lemma keeps_shape_insert h p b b' : h !! p = Some b -> shape b' = shape b -> keeps shape h (<[p := b']> h).
Proof.
  intros Hb Hs q. destruct (decide (q = p)) as [->|]; [|by rewrite lookup_insert_ne]. rewrite lookup_insert_eq, Hb. cbn. by rewrite Hs.
Qed.
Lemma depend_stable_insert h p b b' : h !! p = Some b -> depend_stream_life_ b = ∅ -> own_entry b' -> depend_stable h (<[p := b']> h).
Proof.
  intros Hb He Ho q c c' Hq Hq'. destruct (decide (q = p)) as [->|].
  - rewrite lookup_insert_eq in Hq'. simplify_eq. split; [done|auto].
  - rewrite lookup_insert_ne in Hq' by done. simplify_eq. split; [done|by left].
Qed.

(** Blocks that hold no other block, and for which nothing is recorded, are a forest of leaves. *)
Definition fresh_blocks h : Prop := forall p b, h !! p = Some b -> child_blocks_ b = [] /\ depend_stream_life_ b = ∅ /\ blk_ok b.
Lemma fresh_inv h : fresh_blocks h ->
  reuse_inv h (map (fun p => Tree p []) (elements (dom h))).
Proof.
  intros Hf. split.
  - apply Forall_forall. intros t (p & -> & Hp)%list_elem_of_fmap. apply elem_of_elements, elem_of_dom in Hp as [b Hb].
    econstructor; [exact Hb|by destruct (Hf p b Hb)|constructor].
  - assert (flat_map ptrs (map (fun p => Tree p []) (elements (dom h))) = elements (dom h)) as ->; [|apply NoDup_elements].
    induction (elements (dom h)) as [|p l IH]; [done|]. cbn. by rewrite IH.
  - intros p b Hb _. exists (Tree p []). split; [|done]. apply list_elem_of_fmap. exists p. split; [done|].
    apply elem_of_elements, elem_of_dom. by exists b.
  - intros p Hp. apply elem_of_flat_ptrs. exists (Tree p []). split; [|cbn; set_solver]. apply list_elem_of_fmap. exists p. split; [done|].
    by apply elem_of_elements, elem_of_dom.
  - intros p b Hb. by destruct (Hf p b Hb) as (_ & _ & ?).
  - apply Forall_forall. intros t (p & -> & Hp)%list_elem_of_fmap. constructor; [|constructor]. cbn. intros q Hq. by apply elem_of_nil in Hq.
  - apply Forall_forall. intros t (p & -> & Hp)%list_elem_of_fmap. constructor.
  - intros p b Hb. left. by destruct (Hf p b Hb) as (_ & ? & _).
Qed.

Context (Hgraph : graph_ok nodes) (nf : nat) (Hnf : (length nodes < nf)%nat).

Lemma GetLifeEnd_nonneg b : blk_ok b -> 0 <= GetLifeEnd b.
Proof.
  intros (_ & _ & _ & Hok). unfold GetLifeEnd. destruct (last (node_type_index_list_ b)) as [x|] eqn:E; [|unfold kMaxLifeTime; lia].
  apply last_elem_of in E. rewrite Forall_forall in Hok. by destruct (Hok x E) as (? & ? & _ & _ & _ & ?).
Qed.

Lemma AddDependLifeBegin_ok h total p b : h !! p = Some b -> blk_ok b ->
  exists b' total', AddDependLifeBegin nf p (h, total) = Some (tt, (<[p := b']> h, total')) /\ shape b' = shape b /\
    reuse_mem_ b' = reuse_mem_ b /\ (depend_stream_life_ b <> ∅ -> b' = b) /\ (depend_stream_life_ b = ∅ -> own_entry b').
Proof.
  intros Hb (_ & _ & Hne & Hok). unfold AddDependLifeBegin. rewrite (sm_bind_eq _ _ _ _ _ (read_block_run _ _ _ _ Hb)).
  case_bool_decide as Hd; cbn [negb].
  2:{ exists b, total. rewrite insert_id by done. by split_and!. }
  destruct (node_type_index_list_ b) as [|x l] eqn:El; [done|]. cbn [head].
  apply Forall_cons in Hok as [(n & d & Hn & Hin & _) _]. rewrite Hn.
  destruct (AddDependLife_total nodes nf n n (stream_id_ b) (depend_stream_life_ b) total Hgraph Hin) as ([dep tot] & Hrun & _).
  { pose proof (pending_le nodes (depend_stream_life_ b)). lia. }
  eexists _, tot. split.
  - unfold mbind, SM_bind. cbn [fst snd]. rewrite Hrun, (write_block_run _ _ _ _ _ Hb).
    erewrite write_block_run by apply lookup_insert_eq. rewrite insert_insert_eq. reflexivity.
  - split; [done|]. split; [done|]. split; [done|]. intros _. right. apply lookup_insert_eq.
Qed.

(** What is recorded for a block is right when the rows of the earlier traversals are, as they are when there are none. *)
Lemma AddDependLifeBegin_right h total p b n :
  h !! p = Some b -> blk_ok b -> depend_stream_life_ b = ∅ -> first_node b n -> recorded n ∅ total ->
  exists b' total', AddDependLifeBegin nf p (h, total) = Some (tt, (<[p := b']> h, total')) /\ table_right b'.
Proof.
  intros Hb (_ & _ & _ & Hok) He (x & Hx & Hn) Hrec. unfold AddDependLifeBegin. rewrite (sm_bind_eq _ _ _ _ _ (read_block_run _ _ _ _ Hb)).
  rewrite bool_decide_true, Hx by done. cbn [negb]. destruct (node_type_index_list_ b) as [|y l] eqn:El; [done|]. injection Hx as ->.
  apply Forall_cons in Hok as [(n' & d & Hn' & Hin & _) _]. assert (n' = n) as -> by congruence. rewrite Hn, He.
  destruct (AddDependLife_total nodes nf n n (stream_id_ b) ∅ total Hgraph Hin) as ([dep tot] & Hrun & _).
  { pose proof (pending_le nodes ∅). lia. }
  eexists _, tot. split.
  - unfold mbind, SM_bind. cbn [fst snd]. rewrite Hrun, (write_block_run _ _ _ _ _ Hb).
    erewrite write_block_run by apply lookup_insert_eq. rewrite insert_insert_eq. reflexivity.
  - intros m s v (z & Hz & Hm) Hs Hv. cbn in Hz, Hs, Hv. rewrite El in Hz. injection Hz as <-. rewrite Hn in Hm. injection Hm as <-.
    rewrite lookup_insert_ne in Hv by done. by apply (AddDependLife_recorded nf n n (stream_id_ b) ∅ total (dep, tot) (rtc_refl _ n) Hrec Hrun).
Qed.

Lemma GetDependLifeBegin_ok h total p b s : h !! p = Some b -> blk_ok b ->
  exists v b' total', GetDependLifeBegin nf p s (h, total) = Some (v, (<[p := b']> h, total')) /\
    shape b' = shape b /\ reuse_mem_ b' = reuse_mem_ b /\ keeps shape h (<[p := b']> h) /\ depend_stable h (<[p := b']> h) /\
    (0 < v -> depend_stream_life_ b' !! s = Some v).
Proof.
  intros Hb Hok. destruct (AddDependLifeBegin_ok h total p b Hb Hok) as (b' & total' & Hrun & Hs & Hr & Hd & Ho).
  unfold GetDependLifeBegin. rewrite (sm_bind_eq _ _ _ _ _ Hrun).
  rewrite (sm_bind_eq _ _ _ _ _ (read_block_run _ _ _ _ (lookup_insert_eq _ _ _))).
  exists (default 0 (depend_stream_life_ b' !! s)), b', total'. split_and!; [done|done|done|by eapply keeps_shape_insert| |].
  - destruct (decide (depend_stream_life_ b = ∅)) as [He|He]; [by eapply depend_stable_insert; auto|].
    rewrite (Hd He), insert_id by done. apply depend_same. intros q c c' ? ?. by simplify_eq.
  - destruct (depend_stream_life_ b' !! s) as [v|]; cbn; [done|lia].
Qed.

(** * AddLifeReuseBlock *)
Definition step_ok h (r : option (unit * (blocks * DependStreamLife))) : Prop :=
  exists h' total', r = Some (tt, (h', total')) /\ keeps core h h' /\ exists ts', reuse_inv h' ts'.

Lemma step_ok_ret h total ts : reuse_inv h ts -> step_ok h (Some (tt, (h, total))).
Proof. intros Hinv. exists h, total. split_and!; [done|apply keeps_refl|by exists ts]. Qed.
Lemma step_ok_trans h h1 r : keeps core h h1 -> step_ok h1 r -> step_ok h r.
Proof. intros Hk (h' & t' & -> & Hk' & Hinv). exists h', t'. split_and!; [done|by eapply keeps_trans|done]. Qed.

Lemma inv_tree h ts p b : reuse_inv h ts -> h !! p = Some b -> deleted_block_ b = false -> exists cs, Tree p cs ∈ ts.
Proof. intros Hinv Hp Hd. destruct (ri_roots _ _ Hinv p b Hp Hd) as ([q cs] & Ht & Hr). cbn in Hr. subst. by exists cs. Qed.

Lemma put_tree h total ts p c bp bc :
  reuse_inv h ts -> p <> c -> h !! p = Some bp -> h !! c = Some bc -> deleted_block_ bp = false -> deleted_block_ bc = false ->
  (forall cs, Tree c cs ∈ ts -> uniform h (Tree c cs) /\ forall q, q ∈ ptrs (Tree c cs) -> pair_safe h p q) ->
  step_ok h (put_inside p c (h, total)).
Proof.
  intros Hinv Hne Hp Hc Hdp Hdc Hsafe. destruct (inv_tree h ts p bp Hinv Hp Hdp) as [ps Hps]. destruct (inv_tree h ts c bc Hinv Hc Hdc) as [cs Hcs].
  destruct (Hsafe cs Hcs) as [Hu Hpair]. rewrite (put_inside_run h total p c bp bc) by done. eexists _, total. split; [done|].
  by apply (put_inside_ok h ts p ps c cs bp bc).
Qed.

(** A block without children goes inside another when one waits for the end of the other. *)
Lemma put_leaf h total ts p c bp bc :
  reuse_inv h ts -> p <> c -> h !! p = Some bp -> h !! c = Some bc -> deleted_block_ bp = false -> deleted_block_ bc = false ->
  child_blocks_ bc = [] -> waits_after bp bc \/ waits_after bc bp -> step_ok h (put_inside p c (h, total)).
Proof.
  intros Hinv Hne Hp Hc Hdp Hdc Hleaf Hw. eapply put_tree; [exact Hinv|done..|]. intros cs Hcs.
  pose proof (ri_rep _ _ Hinv) as Hrep. rewrite Forall_forall in Hrep. specialize (Hrep _ Hcs). inversion Hrep as [? ? b Hb Hk _]; subst.
  assert (b = bc) as -> by congruence. rewrite Hleaf in Hk. destruct cs; [|done]. split; [by constructor|].
  cbn. intros q ->%list_elem_of_singleton. exists bp, bc. tauto.
Qed.

(** The facts about the two blocks that a query about [block] keeps. *)
Lemma query_block h ts this block bt b b' :
  reuse_inv h ts -> this <> block -> h !! this = Some bt -> h !! block = Some b -> shape b' = shape b ->
  keeps shape h (<[block := b']> h) -> depend_stable h (<[block := b']> h) ->
  keeps core h (<[block := b']> h) /\ reuse_inv (<[block := b']> h) ts /\ (<[block := b']> h) !! this = Some bt /\
  (<[block := b']> h) !! block = Some b' /\ deleted_block_ b' = deleted_block_ b /\ child_blocks_ b' = child_blocks_ b.
Proof.
  intros Hinv Hne Ht Hb Hs Hk Hd. apply shape_fields in Hs as (Hc & Hdel & _ & _).
  rewrite lookup_insert_ne, lookup_insert_eq by done. split_and!; [by apply keeps_shape_core|by eapply reuse_inv_shape|done..].
Qed.

Lemma AddContinuousLifeReuseBlock_ok h total ts this block bt b :
  reuse_inv h ts -> this <> block -> h !! this = Some bt -> h !! block = Some b ->
  deleted_block_ bt = false -> deleted_block_ b = false ->
  step_ok h (AddContinuousLifeReuseBlock nf this block (h, total)).
Proof.
  intros Hinv Hne Ht Hb Hdt Hdb. unfold AddContinuousLifeReuseBlock.
  rewrite (sm_bind_eq _ _ _ _ _ (read_block_run _ _ _ _ Ht)), (sm_bind_eq _ _ _ _ _ (read_block_run _ _ _ _ Hb)).
  cbv zeta. match goal with |- context [if ?c then _ else _] => destruct c end; [by eapply step_ok_ret|].
  pose proof (ri_blk _ _ Hinv _ _ Hb) as Hokb. pose proof (GetLifeEnd_nonneg bt (ri_blk _ _ Hinv _ _ Ht)) as Hend.
  destruct (GetDependLifeBegin_ok h total block b (stream_id_ bt) Hb Hokb) as (v & b' & total' & Hrun & Hs & _ & Hk & Hd & Hv).
  destruct (query_block h ts this block bt b b' Hinv Hne Ht Hb Hs Hk Hd) as (Hkc & Hinv' & Ht' & Hb' & Hdel & Hch).
  rewrite (sm_bind_eq _ _ _ _ _ Hrun), (sm_bind_eq _ _ _ _ _ (read_block_run _ _ _ _ Ht')), (sm_bind_eq _ _ _ _ _ (read_block_run _ _ _ _ Hb')).
  apply (step_ok_trans _ _ _ Hkc). destruct (Z.ltb_spec (GetLifeEnd bt) v); [|by eapply step_ok_ret].
  destruct (max_element (no_align_size_list_ b)) as [mb|] eqn:Em.
  2:{ destruct Hokb as (_ & Hna & _). by destruct (no_align_size_list_ b). }
  destruct (_ <=? mb); [|by eapply step_ok_ret]. case_bool_decide as Hleaf; [|by eapply step_ok_ret].
  eapply put_leaf; [exact Hinv'|done|exact Hb'|exact Ht'|congruence|done|done|]. right. exists v. split; [apply Hv; lia|lia].
Qed.

(** A tree is the only one with its root. *)
Lemma tree_unique h ts p cs cs' : reuse_inv h ts -> Tree p cs ∈ ts -> Tree p cs' ∈ ts -> cs = cs'.
Proof.
  intros Hinv H1 H2. pose proof (ri_nodup _ _ Hinv) as Hn. clear -Hn H1 H2. induction ts as [|t ts IH]; [by apply elem_of_nil in H1|].
  apply NoDup_flat_cons in Hn as (_ & Hn & Hd). apply elem_of_cons in H1 as [<-|H1]; apply elem_of_cons in H2 as [E|H2].
  - by simplify_eq.
  - destruct (Hd p); [cbn; set_solver|]. apply elem_of_flat_ptrs. exists (Tree p cs'). split; [done|apply (root_in_ptrs (Tree p cs'))].
  - subst t. destruct (Hd p); [apply (root_in_ptrs (Tree p cs'))|]. apply elem_of_flat_ptrs. exists (Tree p cs). split; [done|apply (root_in_ptrs (Tree p cs))].
  - by apply IH.
Qed.

Lemma interval_put `{StdSortOk} bf h total ts parent child bp bc :
  reuse_inv h ts -> (size h <= bf)%nat -> parent <> child -> h !! parent = Some bp -> h !! child = Some bc ->
  deleted_block_ bp = false -> deleted_block_ bc = false ->
  step_ok h (match CanIntervalLifeReuse bf h parent child with
    | Some true => put_inside parent child (h, total) | Some false => Some (tt, (h, total)) | None => None end).
Proof.
  intros Hinv Hbf Hne Hp Hc Hdp Hdc. destruct (inv_tree h ts parent bp Hinv Hp Hdp) as [ps Hps]. destruct (inv_tree h ts child bc Hinv Hc Hdc) as [cs Hcs].
  destruct (CanIntervalLifeReuse_ok h ts parent ps child cs bf Hinv Hps Hcs Hbf) as ([] & -> & Hr); [|by eapply step_ok_ret].
  eapply put_tree; [exact Hinv|done..|]. intros cs' Hcs'. rewrite (tree_unique h ts child cs' cs Hinv Hcs' Hcs). by apply Hr.
Qed.

Lemma reuse_pair_ok `{StdSortOk} bf h total ts this block bt b parent child :
  reuse_inv h ts -> (size h <= bf)%nat -> this <> block -> h !! this = Some bt -> h !! block = Some b ->
  deleted_block_ bt = false -> deleted_block_ b = false -> (parent, child) = (this, block) \/ (parent, child) = (block, this) ->
  step_ok h (reuse_pair nf bf this block parent child (h, total)).
Proof.
  intros Hinv Hbf Hne Ht Hb Hdt Hdb Hpc. unfold reuse_pair.
  assert (exists bp bc, h !! parent = Some bp /\ h !! child = Some bc /\ deleted_block_ bp = false /\ deleted_block_ bc = false /\ parent <> child)
    as (bp & bc & Hp & Hc & Hdp & Hdc & Hne') by (destruct Hpc as [[= -> ->]|[= -> ->]]; eauto 10).
  rewrite (sm_bind_eq _ _ _ _ _ (read_block_run _ _ _ _ Ht)), (sm_bind_eq _ _ _ _ _ (read_block_run _ _ _ _ Hc)).
  case_bool_decide as Hleaf; [|by eapply interval_put].
  destruct (GetDependLifeBegin_ok h total block b (stream_id_ bt) Hb (ri_blk _ _ Hinv _ _ Hb)) as (v & b' & total' & Hrun & Hs & _ & Hk & Hd & Hv).
  destruct (query_block h ts this block bt b b' Hinv Hne Ht Hb Hs Hk Hd) as (Hkc & Hinv' & Ht' & Hb' & Hdel & Hch).
  set (h1 := <[block := b']> h) in *.
  assert (exists bp1 bc1, h1 !! parent = Some bp1 /\ h1 !! child = Some bc1 /\ deleted_block_ bp1 = false /\ deleted_block_ bc1 = false /\
    child_blocks_ bc1 = [] /\ (waits_after bt b' -> waits_after bp1 bc1 \/ waits_after bc1 bp1)) as (bp1 & bc1 & Hp1 & Hc1 & Hdp1 & Hdc1 & Hl1 & Hw).
  { destruct Hpc as [[= -> ->]|[= -> ->]].
    - exists bt, b'. assert (bc = b) as -> by congruence. split_and!; [done|done|done|congruence|congruence|tauto].
    - exists b', bt. assert (bc = bt) as -> by congruence. split_and!; [done|done|congruence|done|done|tauto]. }
  assert ((size h1 <= bf)%nat) as Hbf1 by (unfold h1; rewrite <- size_dom, dom_insert_lookup_L, size_dom; [done|by exists b]).
  assert ((GetDependLifeBegin nf block (stream_id_ bt) ≫= fun begin_ => mret (M := SM _) (GetLifeEnd bt <? begin_)) (h, total) =
    Some (GetLifeEnd bt <? v, (h1, total'))) as Hq by (by rewrite (sm_bind_eq _ _ _ _ _ Hrun)).
  rewrite (sm_bind_eq _ _ _ _ _ Hq). apply (step_ok_trans _ _ _ Hkc). destruct (Z.ltb_spec (GetLifeEnd bt) v) as [Hlt|Hge]; [|by eapply interval_put].
  eapply put_leaf; [exact Hinv'|done|exact Hp1|exact Hc1|done..|]. apply Hw. exists v. split; [|lia]. apply Hv.
  pose proof (GetLifeEnd_nonneg bt (ri_blk _ _ Hinv _ _ Ht)). lia.
Qed.

Lemma AddLifeReuseBlock_ok `{StdSortOk} bf h total ts this block bt :
  reuse_inv h ts -> (size h <= bf)%nat -> this <> block -> h !! this = Some bt -> is_Some (h !! block) ->
  step_ok h (AddLifeReuseBlock nf bf this (Some block) (h, total)).
Proof.
  intros Hinv Hbf Hne Ht [b Hb]. unfold AddLifeReuseBlock.
  rewrite (sm_bind_eq _ _ _ _ _ (read_block_run _ _ _ _ Ht)), (sm_bind_eq _ _ _ _ _ (read_block_run _ _ _ _ Hb)).
  destruct (CanNotLifeReuse bt || CanNotLifeReuse b || _)%bool eqn:Ec; [by eapply step_ok_ret|].
  apply orb_false_iff in Ec as [[[_ Hdt]%orb_false_iff [_ Hdb]%orb_false_iff]%orb_false_iff _].
  destruct (continuous_block_ b); [by eapply AddContinuousLifeReuseBlock_ok|].
  destruct (_ <=? _); [eapply reuse_pair_ok; eauto|]. destruct (_ <=? _); [eapply reuse_pair_ok; eauto|by eapply step_ok_ret].
Qed.

(** * The loops *)
Lemma keeps_valid f h h' q : keeps f h h' -> is_Some (h !! q) -> is_Some (h' !! q).
Proof. intros Hk [b Hb]. destruct (keeps_lookup f h h' q b Hk Hb) as (b' & ? & _). by exists b'. Qed.
Lemma keeps_size f h h' : keeps f h h' -> size h' = size h.
Proof.
  intros Hk. rewrite <- !size_dom. f_equal. apply set_eq. intros q. rewrite !elem_of_dom. specialize (Hk q).
  destruct (h' !! q), (h !! q); try done; by split.
Qed.

Lemma reuse_with_rest_ok `{StdSortOk} bf atomic parent rest h total ts :
  reuse_inv h ts -> (size h <= bf)%nat -> is_Some (h !! parent) ->
  (forall c, Some c ∈ rest -> c <> parent /\ is_Some (h !! c)) ->
  step_ok h (reuse_with_rest nf bf atomic parent rest (h, total)).
Proof.
  revert h total ts. induction rest as [|[c|] rest IH]; intros h total ts Hinv Hbf [bp Hp] Hall.
  - by eapply step_ok_ret.
  - destruct (Hall c ltac:(set_solver)) as [Hne [bc Hc]]. cbn [reuse_with_rest].
    rewrite (sm_bind_eq _ _ _ _ _ (read_block_run _ _ _ _ Hp)), (sm_bind_eq _ _ _ _ _ (read_block_run _ _ _ _ Hc)).
    match goal with |- context [if ?c then _ else _] => destruct c end.
    { apply (IH h total ts); [done|done|by exists bp|]. intros c' Hc'. apply Hall. set_solver. }
    destruct (AddLifeReuseBlock_ok bf h total ts parent c bp Hinv Hbf ltac:(done) Hp ltac:(by exists bc)) as (h1 & total1 & Hrun & Hk & ts1 & Hinv1).
    rewrite (sm_bind_eq _ _ _ _ _ Hrun). apply (step_ok_trans _ _ _ Hk).
    apply (IH h1 total1 ts1); [done|by rewrite (keeps_size _ _ _ Hk)|eapply keeps_valid; [done|by exists bp]|].
    intros c' Hc'. destruct (Hall c' ltac:(set_solver)) as [? ?]. split; [done|by eapply keeps_valid].
  - cbn [reuse_with_rest]. apply (IH h total ts); [done|done|by exists bp|]. intros c' Hc'. apply Hall. set_solver.
Qed.

Lemma reuse_all_ok `{StdSortOk} bf flags atomic mbs h total ts :
  reuse_inv h ts -> (size h <= bf)%nat -> NoDup (omap id mbs) -> (forall c, Some c ∈ mbs -> is_Some (h !! c)) ->
  step_ok h (reuse_all nf bf flags atomic mbs (h, total)).
Proof.
  revert h total ts. induction mbs as [|[p|] mbs IH]; intros h total ts Hinv Hbf Hn Hall.
  - by eapply step_ok_ret.
  - cbn in Hn. apply NoDup_cons in Hn as [Hni Hn]. destruct (Hall p ltac:(set_solver)) as [bp Hp]. cbn [reuse_all].
    rewrite (sm_bind_eq _ _ _ _ _ (read_block_run _ _ _ _ Hp)).
    destruct (_ || _)%bool; [apply (IH h total ts); [done|done|done|]; intros c' Hc'; apply Hall; set_solver|].
    assert (exists h1, (if reuse_mem_ bp && negb (IsPostReuse flags bp) then write_block p (set_reuse_mem_ false) else mret tt) (h, total) =
      Some (tt, (h1, total)) /\ keeps shape h h1 /\ depend_stable h h1) as (h1 & Hw & Hks & Hds).
    { destruct (_ && _)%bool.
      - exists (<[p := set_reuse_mem_ false bp]> h). split_and!; [by apply write_block_run|by eapply keeps_shape_insert|].
        apply depend_same. intros q c c' Hq Hq'. destruct (decide (q = p)) as [->|]; [rewrite lookup_insert_eq in Hq'|rewrite lookup_insert_ne in Hq' by done]; by simplify_eq.
      - exists h. split_and!; [done|apply keeps_refl|]. apply depend_same. intros q c c' ? ?. by simplify_eq. }
    rewrite (sm_bind_eq _ _ _ _ _ Hw). pose proof (keeps_shape_core _ _ Hks) as Hkc. apply (step_ok_trans _ _ _ Hkc).
    assert (forall c, Some c ∈ mbs -> c <> p /\ is_Some (h1 !! c)) as Hall1.
    { intros c Hc. split; [|eapply keeps_valid; [exact Hkc|apply Hall; set_solver]]. intros ->. apply Hni, list_elem_of_omap. by exists (Some p). }
    destruct (reuse_with_rest_ok bf atomic p mbs h1 total ts) as (h2 & total2 & Hrun & Hk2 & ts2 & Hinv2);
      [by eapply reuse_inv_shape|by rewrite (keeps_size _ _ _ Hkc)|eapply keeps_valid; [exact Hkc|by exists bp]|done|].
    rewrite (sm_bind_eq _ _ _ _ _ Hrun). apply (step_ok_trans _ _ _ Hk2).
    apply (IH h2 total2 ts2); [done|by rewrite (keeps_size _ _ _ Hk2), (keeps_size _ _ _ Hkc)|done|].
    intros c Hc. eapply keeps_valid; [exact Hk2|]. by apply Hall1.
  - cbn in Hn. cbn [reuse_all]. apply (IH h total ts); [done|done|done|]. intros c' Hc'. apply Hall. set_solver.
Qed.

Lemma ReuseBlocksByLifeTime_ok `{StdSortOk} bf flags atomic mbs range_size h total :
  fresh_blocks h -> (size h <= bf)%nat ->
  NoDup (omap id mbs) -> (forall c, Some c ∈ mbs -> is_Some (h !! c)) ->
  step_ok h (ReuseBlocksByLifeTime nf bf flags atomic mbs range_size (h, total)).
Proof.
  intros Hf Hbf Hn Hv. pose proof (fresh_inv h Hf) as Hinv. unfold ReuseBlocksByLifeTime.
  destruct (_ <=? _); [by eapply step_ok_ret|by eapply reuse_all_ok].
Qed.

End safety.
