(* ===== verification/MemoryAssign.v ===== *)
(** The end of BlockMemAssigner::AssignMemoryWithReuse (ge/graph/build/memory/block_mem_assigner.cc): blocks are merged by life
    time, the blocks of continuous inputs are moved next to each other, and every block gets its offset.

    The theorem composes the three phases: from any blocks that hold no others yet, the phases end, the
    blocks in use get disjoint ranges large enough for their data, and blocks that share memory are not in use together as far as
    the tests of the code go: two more theorems show inputs where they are too weak, and the first one says under which
    conditions they are not. *)
From S2P Require Import Prelude MemRanges MemoryBlock BlockForest MemoryPlan LifeReuse ReuseSafety.
From stdpp Require Import relations.
Open Scope Z_scope.

Section assign.
Context `{Graph} `{StdSort}.

(** * Continuous inputs *)
Definition deref (h : blocks) (p : option nat) : option MemoryBlock := p ≫= fun p => h !! p.

Definition CompareBlockIndex (h : blocks) (left_ right_ : option nat) : bool :=
  match deref h left_, deref h right_ with
  | Some l, Some r => input_index_ l <? input_index_ r
  | _, _ => false
  end.

(** The blocks that are not merged and not in the map. *)
Fixpoint other_blocks (h : blocks) (block_map : gmap nat Z) (org_blocks : list (option nat)) : option (list (option nat)) :=
  match org_blocks with
  | [] => Some []
  | None :: org_blocks => other_blocks h block_map org_blocks
  | Some p :: org_blocks =>
    b ← h !! p;
    if (deleted_block_ b : bool) then other_blocks h block_map org_blocks
    else match block_map !! p with
         | Some _ => other_blocks h block_map org_blocks
         | None => dest ← other_blocks h block_map org_blocks; Some (Some p :: dest)
         end
  end.

(** The loop that marks the first and the last of the [size] continuous blocks. *)
Fixpoint mark_continuous (size count : nat) (continuous_blocks : list (option nat)) (h : blocks) : option blocks :=
  match continuous_blocks with
  | [] => Some h
  | None :: l => mark_continuous size count l h
  | Some p :: l =>
    let count := S count in
    h ← (if (count =? 1)%nat then upd_block p (set_first_continuous_block_ true) h else Some h);
    h ← (if (count =? size)%nat then upd_block p (set_last_continuous_block_ true) h else Some h);
    mark_continuous size count l h
  end.

Definition ReAssignContinuousBlocks (org_blocks : list (option nat)) (block_map : gmap nat Z)
    (continuous_blocks : list (option nat)) (h : blocks) : option (list (option nat) * blocks) :=
  dest_blocks ← other_blocks h block_map org_blocks;
  let continuous_blocks := std_sort (CompareBlockIndex h) continuous_blocks in
  h ← mark_continuous (length continuous_blocks) 0 continuous_blocks h;
  Some (dest_blocks ++ filter is_Some continuous_blocks, h).

(** The loop over the blocks of the inputs of one node. *)
Fixpoint collect_continuous (inputs : list (Z * option nat)) (block_map : gmap nat Z) (continuous_blocks : list (option nat)) (h : blocks) :
    option (gmap nat Z * list (option nat) * blocks) :=
  match inputs with
  | [] => Some (block_map, continuous_blocks, h)
  | (_, None) :: inputs => collect_continuous inputs block_map continuous_blocks h
  | (i, Some p) :: inputs =>
    h ← upd_block p (set_input_index_ i) h;
    collect_continuous inputs (<[p := i]> block_map) (continuous_blocks ++ [Some p]) h
  end.

(** [node_continuous_input_blocks_]: the blocks of the inputs of each node, in the order the
    unordered maps are iterated; [node_continuous_input_counts_]: the number of inputs of a node. *)
Fixpoint AssignContinuousBlocks (node_continuous_input_counts_ : gmap string Z)
    (node_continuous_input_blocks_ : list (string * list (Z * option nat))) (memory_blocks_ : list (option nat)) (h : blocks) :
    option (list (option nat) * blocks) :=
  match node_continuous_input_blocks_ with
  | [] => Some (memory_blocks_, h)
  | (name, inputs) :: rest =>
    match node_continuous_input_counts_ !! name with
    | None => AssignContinuousBlocks node_continuous_input_counts_ rest memory_blocks_ h
    | Some count =>
      if negb (count =? zlen inputs) then AssignContinuousBlocks node_continuous_input_counts_ rest memory_blocks_ h
      else
        '(continuous_block_map, continuous_blocks, h) ← collect_continuous inputs ∅ [] h;
        if negb (size continuous_block_map =? length continuous_blocks)%nat then
          AssignContinuousBlocks node_continuous_input_counts_ rest memory_blocks_ h
        else
          '(memory_blocks_, h) ← ReAssignContinuousBlocks memory_blocks_ continuous_block_map continuous_blocks h;
          AssignContinuousBlocks node_continuous_input_counts_ rest memory_blocks_ h
    end
  end.

(** The last three steps of AssignMemoryWithReuse. *)
Record AssignerState := mkAssignerState {
  as_mem_offset_ : Z;
  as_p2p_mem_offset_ : Z;
  as_memory_blocks_ : list (option nat);
  as_heap : blocks;
  as_total_node_depend_stream_life_ : DependStreamLife;
}.

Definition finish_assign (nf bf : nat) (disable_reuse : bool) (post_reuse_flag_ : gmap string bool) (atomic_addr_clean_id_ : Z)
    (counts : gmap string Z) (inputs : list (string * list (Z * option nat))) (range_size : Z) (s : AssignerState) : option AssignerState :=
  '(_, (h, total)) ←
    (if disable_reuse then Some (tt, (as_heap s, as_total_node_depend_stream_life_ s))
     else ReuseBlocksByLifeTime nf bf post_reuse_flag_ atomic_addr_clean_id_ (as_memory_blocks_ s) range_size
            (as_heap s, as_total_node_depend_stream_life_ s));
  '(memory_blocks_, h) ← AssignContinuousBlocks counts inputs (as_memory_blocks_ s) h;
  '(mem_offset_, p2p_mem_offset_, h) ← ResizeMemoryBlocks bf memory_blocks_ (as_mem_offset_ s) (as_p2p_mem_offset_ s) h;
  Some (mkAssignerState mem_offset_ p2p_mem_offset_ memory_blocks_ h total).

(** * What the reordering keeps *)
Implicit Types (h : blocks).
(** Everything but the marks of continuous blocks. *)
Definition unmarked (b : MemoryBlock) : MemoryBlock :=
  set_input_index_ 0 (set_first_continuous_block_ false (set_last_continuous_block_ false b)).

Lemma unmarked_fields b b' : unmarked b = unmarked b' ->
  real_size_list_ b = real_size_list_ b' /\ child_blocks_ b = child_blocks_ b' /\ deleted_block_ b = deleted_block_ b' /\
  is_zero_copy_ b = is_zero_copy_ b' /\ memory_type_ b = memory_type_ b'.
Proof. destruct b, b'. unfold unmarked, set_input_index_, set_first_continuous_block_, set_last_continuous_block_. cbn. intros [=]. by subst. Qed.

Lemma other_blocks_ok h m org :
  (forall p, Some p ∈ org -> is_Some (h !! p)) ->
  exists dest, other_blocks h m org = Some dest /\ omap id dest `sublist_of` omap id org /\
    forall p, Some p ∈ dest <-> Some p ∈ org /\ m !! p = None /\ exists b, h !! p = Some b /\ deleted_block_ b = false.
Proof.
  induction org as [|[p|] org IH]; intros Hv.
  - exists []. split_and!; [done|done|set_solver].
  - destruct IH as (dest & Hd & Hsub & Hin); [intros q Hq; apply Hv; set_solver|].
    destruct (Hv p ltac:(set_solver)) as [b Hb]. cbn [other_blocks]. rewrite Hb. cbn [mbind option_bind].
    destruct (deleted_block_ b) eqn:Edel; [|destruct (m !! p) eqn:Em].
    + exists dest. split_and!; [done|by constructor|]. intros q. rewrite Hin, elem_of_cons. split; [naive_solver|].
      intros ([[= ->]|?] & ? & b' & ? & ?); [congruence|eauto 10].
    + exists dest. split_and!; [done|by constructor|]. intros q. rewrite Hin, elem_of_cons. split; [naive_solver|].
      intros ([[= ->]|?] & ? & b' & ? & ?); [congruence|eauto 10].
    + rewrite Hd. cbn [mbind option_bind]. exists (Some p :: dest). split_and!; [done|cbn; by constructor|].
      intros q. rewrite !elem_of_cons, Hin. split; [intros [[= ->]|?]; [eauto 10|naive_solver]|].
      intros ([[= ->]|?] & ? & ?); [by left|right; done].
  - destruct IH as (dest & Hd & Hsub & Hin); [intros q Hq; apply Hv; set_solver|]. exists dest. split_and!; [done|done|].
    intros q. rewrite Hin, elem_of_cons. naive_solver.
Qed.

Lemma upd_block_valid p f h : is_Some (h !! p) -> (forall b, unmarked (f b) = unmarked b) ->
  exists h', upd_block p f h = Some h' /\ keeps unmarked h h'.
Proof.
  intros [b Hb] Hf. unfold upd_block. rewrite Hb. eexists. split; [done|]. intros q.
  destruct (decide (q = p)) as [->|]; [|by rewrite lookup_insert_ne]. rewrite lookup_insert_eq, Hb. cbn. by rewrite Hf.
Qed.

Lemma mark_continuous_ok n count l h :
  (forall p, Some p ∈ l -> is_Some (h !! p)) -> exists h', mark_continuous n count l h = Some h' /\ keeps unmarked h h'.
Proof.
  revert count h. induction l as [|[p|] l IH]; intros count h Hv.
  - by exists h.
  - cbn [mark_continuous]. pose proof (Hv p ltac:(set_solver)) as Hp.
    assert (exists h1, (if (S count =? 1)%nat then upd_block p (set_first_continuous_block_ true) h else Some h) = Some h1 /\ keeps unmarked h h1)
      as (h1 & -> & Hk1) by (destruct (_ =? _)%nat; [by apply upd_block_valid|by exists h]).
    cbn [mbind option_bind].
    assert (exists h2, (if (S count =? n)%nat then upd_block p (set_last_continuous_block_ true) h1 else Some h1) = Some h2 /\ keeps unmarked h1 h2)
      as (h2 & -> & Hk2) by (destruct (_ =? n)%nat; [apply upd_block_valid; [by eapply keeps_valid|done]|by exists h1]).
    cbn [mbind option_bind]. pose proof (keeps_trans _ _ _ _ Hk1 Hk2) as Hk.
    destruct (IH (S count) h2) as (h' & Hr & Hk'); [intros q Hq; eapply keeps_valid; [exact Hk|apply Hv; set_solver]|].
    exists h'. split; [done|by eapply keeps_trans].
  - cbn [mark_continuous]. apply IH. intros q Hq. apply Hv. set_solver.
Qed.

Lemma collect_continuous_ok inputs m l h :
  (forall i p, (i, Some p) ∈ inputs -> is_Some (h !! p)) ->
  exists m' l' h', collect_continuous inputs m l h = Some (m', l', h') /\ keeps unmarked h h' /\
    (forall p, Some p ∈ l' <-> Some p ∈ l \/ exists i, (i, Some p) ∈ inputs) /\
    (forall p, is_Some (m' !! p) <-> is_Some (m !! p) \/ exists i, (i, Some p) ∈ inputs) /\
    (Forall is_Some l -> Forall is_Some l').
Proof.
  revert m l h. induction inputs as [|[i [p|]] inputs IH]; intros m l h Hv.
  - exists m, l, h. split_and!; [done|apply keeps_refl| | |done]; set_solver.
  - cbn [collect_continuous]. destruct (upd_block_valid p (set_input_index_ i) h) as (h1 & -> & Hk1); [apply (Hv i); set_solver|done|].
    cbn [mbind option_bind].
    destruct (IH (<[p:=i]> m) (l ++ [Some p]) h1) as (m' & l' & h' & -> & Hk & Hl & Hm & Hs).
    { intros j q Hq. eapply keeps_valid; [exact Hk1|apply (Hv j); set_solver]. }
    exists m', l', h'. split_and!; [done|by eapply keeps_trans| | |].
    + intros q. rewrite Hl, elem_of_app, list_elem_of_singleton. setoid_rewrite elem_of_cons. naive_solver.
    + intros q. rewrite Hm, lookup_insert_is_Some. setoid_rewrite elem_of_cons.
      destruct (decide (p = q)) as [->|]; naive_solver.
    + intros HF. apply Hs, Forall_app. split; [done|]. by repeat constructor.
  - cbn [collect_continuous]. destruct (IH m l h) as (m' & l' & h' & -> & Hk & Hl & Hm & Hs); [intros j q Hq; apply (Hv j); set_solver|].
    exists m', l', h'. split_and!; [done|done| | |done].
    + intros q. rewrite Hl. setoid_rewrite elem_of_cons. naive_solver.
    + intros q. rewrite Hm. setoid_rewrite elem_of_cons. naive_solver.
Qed.

Lemma length_omap_Some (l : list (option nat)) : Forall is_Some l -> length (omap id l) = length l.
Proof. induction 1 as [|o l [p ->] _ IH]; [done|]. cbn. by rewrite IH. Qed.
Lemma elem_of_omap_id p (l : list (option nat)) : p ∈ omap id l <-> Some p ∈ l.
Proof. rewrite list_elem_of_omap. split; [intros (o & Ho & E); unfold id in E; by subst|]. intros Hp. by exists (Some p). Qed.

(** As many keys as blocks: no block twice. *)
Lemma continuous_nodup (m : gmap nat Z) l :
  (forall p, is_Some (m !! p) <-> Some p ∈ l) -> Forall is_Some l -> size m = length l -> NoDup (omap id l).
Proof.
  intros Hm Hs Hsz. apply NoDup_ListNoDup. apply (NoDup_incl_NoDup (l := elements (dom m))).
  - apply NoDup_ListNoDup, NoDup_elements.
  - rewrite length_omap_Some by done. rewrite <- Hsz, <- size_dom. done.
  - intros p Hp. apply list_elem_of_In. apply list_elem_of_In, elem_of_elements, elem_of_dom, Hm in Hp. by apply elem_of_omap_id.
Qed.

(** The blocks of the plan: valid pointers, none twice. *)
Definition block_list h (mbs : list (option nat)) : Prop :=
  NoDup (omap id mbs) /\ forall p, Some p ∈ mbs -> is_Some (h !! p).

Lemma block_list_keeps f h h' mbs : keeps f h h' -> block_list h mbs -> block_list h' mbs.
Proof. intros Hk [Hn Hv]. split; [done|]. intros p Hp. by eapply keeps_valid; [exact Hk|apply Hv]. Qed.

(** Blocks that are in use and in the list stay in it. *)
Definition keeps_live h (mbs mbs' : list (option nat)) : Prop :=
  forall p b, Some p ∈ mbs -> h !! p = Some b -> deleted_block_ b = false -> Some p ∈ mbs'.

Lemma ReAssignContinuousBlocks_ok `{!StdSortOk _} m l h mbs :
  block_list h mbs -> (forall p, is_Some (m !! p) <-> Some p ∈ l) -> Forall is_Some l -> size m = length l ->
  (forall p, Some p ∈ l -> is_Some (h !! p)) ->
  exists mbs' h', ReAssignContinuousBlocks mbs m l h = Some (mbs', h') /\ keeps unmarked h h' /\ block_list h mbs' /\ keeps_live h mbs mbs'.
Proof.
  intros [Hn Hv] Hm Hs Hsz Hvl. unfold ReAssignContinuousBlocks.
  destruct (other_blocks_ok h m mbs Hv) as (dest & -> & Hsub & Hin). cbn [mbind option_bind]. cbv zeta.
  set (l' := std_sort (CompareBlockIndex h) l). assert (l' ≡ₚ l) as Hp by apply std_sort_perm.
  destruct (mark_continuous_ok (length l') 0 l' h) as (h' & -> & Hk); [intros p; rewrite Hp; apply Hvl|]. cbn [mbind option_bind].
  assert (filter is_Some l' = l') as Hfl.
  { assert (Forall is_Some l') as Hs' by (by rewrite Hp). clear -Hs'. induction Hs' as [|o k Ho _ IH]; [done|].
    rewrite filter_cons_True by done. by rewrite IH. }
  rewrite Hfl. exists (dest ++ l'), h'. split_and!; [done|done| |].
  - split; [|intros p [[? _]%Hin|Hpl]%elem_of_app; [by apply Hv|rewrite Hp in Hpl; by apply Hvl]].
    rewrite omap_app. apply NoDup_app. split_and!; [by eapply sublist_NoDup|intros p Hpd Hpl|].
    + apply elem_of_omap_id, Hin in Hpd as (_ & Hnone & _). apply elem_of_omap_id in Hpl. rewrite Hp in Hpl. apply Hm in Hpl as [? ?]. congruence.
    + rewrite Hp. by eapply continuous_nodup.
  - intros p b Hpm Hb Hdel. apply elem_of_app. destruct (m !! p) as [i|] eqn:Em; [right; rewrite Hp; apply Hm; by exists i|].
    left. apply Hin. eauto.
Qed.

Lemma AssignContinuousBlocks_ok `{!StdSortOk _} counts inputs h mbs :
  block_list h mbs -> (forall name l i p, (name, l) ∈ inputs -> (i, Some p) ∈ l -> is_Some (h !! p)) ->
  exists mbs' h', AssignContinuousBlocks counts inputs mbs h = Some (mbs', h') /\ keeps unmarked h h' /\ block_list h' mbs' /\ keeps_live h mbs mbs'.
Proof.
  revert h mbs. induction inputs as [|[name l] inputs IH]; intros h mbs Hbl Hv.
  { exists mbs, h. split_and!; [done|apply keeps_refl|done|by intros p b ?]. }
  assert (forall h1 mbs1, keeps unmarked h h1 -> block_list h1 mbs1 -> keeps_live h mbs mbs1 ->
    exists mbs' h', AssignContinuousBlocks counts inputs mbs1 h1 = Some (mbs', h') /\ keeps unmarked h h' /\ block_list h' mbs' /\ keeps_live h mbs mbs') as Hrest.
  { intros h1 mbs1 Hk Hbl1 Hkl1. destruct (IH h1 mbs1 Hbl1) as (mbs' & h' & Hr & Hk' & Hbl' & Hkl').
    - intros name' l' i p Hin Hp. eapply keeps_valid; [exact Hk|]. eapply (Hv name' l'); [set_solver|done].
    - exists mbs', h'. split_and!; [done|by eapply keeps_trans|done|]. intros p b Hp Hb Hdel.
      destruct (keeps_lookup _ _ _ _ _ Hk Hb) as (b1 & Hb1 & He). apply unmarked_fields in He as (_ & _ & Hd & _).
      apply (Hkl' p b1); [by eapply Hkl1|done|congruence]. }
  assert (keeps_live h mbs mbs) as Hkl0 by (by intros p b ?).
  cbn [AssignContinuousBlocks]. destruct (counts !! name) as [count|]; [|by apply Hrest; [apply keeps_refl|..]].
  destruct (negb (count =? zlen l)); [by apply Hrest; [apply keeps_refl|..]|].
  destruct (collect_continuous_ok l ∅ [] h) as (m' & l' & h1 & -> & Hk1 & Hl & Hm & Hs); [intros i p Hp; eapply (Hv name l); [set_solver|done]|].
  cbn [mbind option_bind]. destruct (Nat.eqb_spec (size m') (length l')) as [Hsz|]; cbn [negb]; [|apply Hrest; [done|by eapply block_list_keeps|done]].
  destruct (ReAssignContinuousBlocks_ok m' l' h1 mbs) as (mbs1 & h2 & -> & Hk2 & Hbl2 & Hkl2).
  - by eapply block_list_keeps.
  - intros p. rewrite Hm, Hl, lookup_empty. split; intros [Hx|Hx]; [by destruct Hx|by right|by apply elem_of_nil in Hx|by right].
  - apply Hs. constructor.
  - done.
  - intros p [Hp|[i Hp]]%Hl; [by apply elem_of_nil in Hp|]. eapply keeps_valid; [exact Hk1|]. eapply (Hv name l); [set_solver|done].
  - cbn [mbind option_bind]. apply Hrest; [by eapply keeps_trans|by eapply block_list_keeps|]. intros p b Hp Hb Hdel.
    destruct (keeps_lookup _ _ _ _ _ Hk1 Hb) as (b1 & Hb1 & He). apply unmarked_fields in He as (_ & _ & Hd & _).
    apply (Hkl2 p b1); [done|done|congruence].
Qed.

(** * A bound on the memory of the plan, from the sizes alone *)
Definition data_size h (q : nat) : Z :=
  match h !! q with Some b => round_up (default 0 (max_element (real_size_list_ b))) | None => 0 end.
Definition sum_data h (k : Z) (ps : list nat) : Z := foldr (fun q s => data_size h q + k + s) 0 ps.
(** The data of every block, each rounded up and with its margins. *)
Definition total_data h : Z := sum_data h (2 * MEM_ALIGN_SIZE) (elements (dom h)).

Lemma sum_data_cons h k q ps : sum_data h k (q :: ps) = data_size h q + k + sum_data h k ps.
Proof. done. Qed.
Lemma sum_data_app h k ps qs : sum_data h k (ps ++ qs) = sum_data h k ps + sum_data h k qs.
Proof. induction ps as [|p ps IH]; [done|]. cbn [app]. rewrite !sum_data_cons, IH. lia. Qed.
Lemma sum_data_perm h k ps qs : ps ≡ₚ qs -> sum_data h k ps = sum_data h k qs.
Proof. induction 1; rewrite ?sum_data_cons in *; lia. Qed.

Lemma data_size_nonneg h q : (forall p b, h !! p = Some b -> block_ok b) -> 0 <= data_size h q.
Proof.
  intros Hok. unfold data_size. destruct (h !! q) as [b|] eqn:Hb; [|done]. destruct (Hok q b Hb) as [Hne Hre]. rewrite Forall_forall in Hre.
  destruct (max_element (real_size_list_ b)) as [m|] eqn:Em; [|done]. apply max_element_spec in Em as [Hm _]. specialize (Hre m Hm).
  cbn. pose proof (round_up_spec m). lia.
Qed.
Lemma sum_data_nonneg h k ps : (forall p b, h !! p = Some b -> block_ok b) -> 0 <= k -> 0 <= sum_data h k ps.
Proof. intros Hok Hk. induction ps as [|p ps IH]; [done|]. rewrite sum_data_cons. pose proof (data_size_nonneg h p Hok). lia. Qed.

Lemma round_up_max x y : x mod MEM_ALIGN_SIZE = 0 -> 0 <= x -> 0 <= y -> round_up (Z.max x y) <= x + round_up y.
Proof.
  intros Hx Hx0 Hy0. pose proof (round_up_spec y). destruct (Z.max_spec x y) as [[_ ->]|[_ ->]]; [lia|]. rewrite round_up_aligned by done. lia.
Qed.

Lemma need_bound h t : (forall p b, h !! p = Some b -> block_ok b) -> tree_ok h t ->
  need h t mod MEM_ALIGN_SIZE = 0 /\ need h t <= sum_data h MEM_ALIGN_SIZE (ptrs t).
Proof.
  intros Hall. induction t as [p cs IH] using tree_ind'. intros Hok.
  pose proof (tree_ok_inv h p cs Hok) as (b & Hb & _ & [Hne Hre] & Hoks & _ & _).
  assert (needs h cs mod MEM_ALIGN_SIZE = 0 /\ needs h cs <= sum_data h MEM_ALIGN_SIZE (flat_map ptrs cs)) as [Hm Hle].
  { clear -IH Hoks. induction Hoks as [|c cs Hc _ IHc]; [done|]. apply Forall_cons in IH as [Hrec IH].
    destruct (Hrec Hc) as [H1 H2]. destruct (IHc IH) as [H3 H4]. cbn [flat_map]. rewrite sum_data_app.
    change (needs h (c :: cs)) with (need h c + needs h cs). split; [|lia].
    rewrite Z.add_mod, H1, H3 by (unfold MEM_ALIGN_SIZE; lia). done. }
  rewrite need_unfold, Hb. cbn [ptrs]. rewrite sum_data_cons. unfold data_size. rewrite Hb.
  set (m := default 0 (max_element (real_size_list_ b))).
  assert (0 <= m) as Hm0.
  { unfold m. rewrite Forall_forall in Hre. destruct (max_element (real_size_list_ b)) as [x|] eqn:Em; [|done].
    apply max_element_spec in Em as [Hx _]. specialize (Hre x Hx). cbn. lia. }
  pose proof (needs_nonneg h cs Hoks) as Hn0. pose proof (round_up_max (needs h cs) m Hm Hn0 Hm0) as Hmax.
  pose proof (round_up_spec (Z.max (needs h cs) m)) as [_ Hr]. split.
  - destruct (last_continuous_block_ b); [|by rewrite Z.add_0_r]. rewrite Z.add_mod, Hr by (unfold MEM_ALIGN_SIZE; lia). done.
  - unfold MEM_ALIGN_SIZE in *. destruct (last_continuous_block_ b); lia.
Qed.

Lemma cost_bound h ts : (forall p b, h !! p = Some b -> block_ok b) -> forest_ok h ts -> cost h ts <= total_data h.
Proof.
  intros Hall [Hok Hn].
  assert (cost h ts <= sum_data h (2 * MEM_ALIGN_SIZE) (flat_map ptrs ts)) as Hc.
  { clear Hn. induction Hok as [|t ts Ht _ IH]; [done|]. rewrite cost_cons. cbn [flat_map]. rewrite sum_data_app.
    destruct (need_bound h t Hall Ht) as [_ Hb]. enough (MEM_ALIGN_SIZE + sum_data h MEM_ALIGN_SIZE (ptrs t) <= sum_data h (2 * MEM_ALIGN_SIZE) (ptrs t)) by lia.
    destruct t as [p cs]. cbn [ptrs]. rewrite !sum_data_cons.
    enough (sum_data h MEM_ALIGN_SIZE (flat_map ptrs cs) <= sum_data h (2 * MEM_ALIGN_SIZE) (flat_map ptrs cs)) by (unfold MEM_ALIGN_SIZE in *; lia).
    induction (flat_map ptrs cs) as [|q l IHl]; [done|]. rewrite !sum_data_cons. unfold MEM_ALIGN_SIZE in *. lia. }
  transitivity (sum_data h (2 * MEM_ALIGN_SIZE) (flat_map ptrs ts)); [done|]. unfold total_data.
  assert (flat_map ptrs ts ⊆+ elements (dom h)) as [k Hk]%submseteq_Permutation.
  { apply NoDup_submseteq; [done|]. intros q (t & Ht & Hq)%elem_of_flat_ptrs. apply elem_of_elements, elem_of_dom.
    rewrite Forall_forall in Hok. by eapply ptrs_in_dom; [apply Hok|]. }
  rewrite (sum_data_perm h _ _ _ Hk), sum_data_app. pose proof (sum_data_nonneg h (2 * MEM_ALIGN_SIZE) k Hall ltac:(done)). lia.
Qed.

Lemma total_data_keeps f h h' : (forall b b', f b = f b' -> real_size_list_ b = real_size_list_ b') -> keeps f h h' -> total_data h' = total_data h.
Proof.
  intros Hf Hk. unfold total_data.
  assert (dom h' = dom h) as ->.
  { apply set_eq. intros q. rewrite !elem_of_dom. specialize (Hk q). destruct (h' !! q), (h !! q); try done; by split. }
  assert (forall q, data_size h' q = data_size h q) as Hd.
  { intros q. unfold data_size. specialize (Hk q). destruct (h' !! q) as [b'|], (h !! q) as [b|]; [|discriminate Hk..|done].
    apply (inj Some), Hf in Hk. by rewrite Hk. }
  induction (elements (dom h)) as [|q l IH]; [done|]. by rewrite !sum_data_cons, IH, Hd.
Qed.

(** * The theorem *)

(** A plan for the blocks of the heap [h]: they are grouped in trees [ts] (the heap [h1] after the merging);
    every block is in one of them, and a block is never in use together with a block it is inside of ([pair_apart]) if the life
    times of the blocks begin with their nodes.
    In the final heap the trees in use are placed: within the reported sizes, apart
    unless they belong to different batches, each block inside its tree and large enough for its data. *)
Record memory_plan (h h1 h2 : blocks) (s s' : AssignerState) (ts : list tree) : Prop := {
  mp_kept : keeps core h h1 /\ keeps unmarked h1 h2 /\ keeps erase h2 (as_heap s');
  mp_forest : forest_ok h2 ts;
  mp_cover p : is_Some (h !! p) -> p ∈ flat_map ptrs ts;
  mp_safe : begins h -> Forall (tree_pairs (pair_apart h1)) ts;
  mp_live p b : Some p ∈ as_memory_blocks_ s -> h1 !! p = Some b -> deleted_block_ b = false -> is_zero_copy_ b = false ->
    exists t, t ∈ ts /\ root t = p /\ in_use h2 (as_memory_blocks_ s') t;
  mp_hbm : planned h2 (as_heap s') (as_memory_blocks_ s') ts RT_MEMORY_HBM (as_mem_offset_ s) (as_mem_offset_ s');
  mp_p2p : planned h2 (as_heap s') (as_memory_blocks_ s') ts RT_MEMORY_P2P_DDR (as_p2p_mem_offset_ s) (as_p2p_mem_offset_ s');
  mp_inside t ty : t ∈ ts -> in_use h2 (as_memory_blocks_ s') t -> ty = RT_MEMORY_HBM \/ ty = RT_MEMORY_P2P_DDR -> has_type h2 ty t = true ->
    forall q, q ∈ ptrs t -> exists b, as_heap s' !! q = Some b /\
      start (as_heap s') t <= head_offset_ b /\ head_offset_ b + block_size_ b <= start (as_heap s') t + need h2 t /\
      forall m, m ∈ real_size_list_ b -> m <= block_size_ b;
}.

(** The phase that merges blocks, or its absence. *)
Lemma merge_phase `{!StdSortOk _} nodes nf bf (disable_reuse : bool) flags atomic range_size s :
  graph_ok nodes -> (length nodes < nf)%nat -> (size (as_heap s) <= bf)%nat ->
  fresh_blocks nodes (as_heap s) -> block_list (as_heap s) (as_memory_blocks_ s) ->
  exists h1 total1 ts,
    (if disable_reuse then Some (tt, (as_heap s, as_total_node_depend_stream_life_ s))
     else ReuseBlocksByLifeTime nf bf flags atomic (as_memory_blocks_ s) range_size
            (as_heap s, as_total_node_depend_stream_life_ s)) = Some (tt, (h1, total1)) /\
    keeps core (as_heap s) h1 /\ reuse_inv nodes h1 ts.
Proof.
  intros Hg Hnf Hbf Hfresh [Hn Hv]. destruct disable_reuse.
  - eexists (as_heap s), _, _. split_and!; [done|apply keeps_refl|by apply fresh_inv].
  - destruct (ReuseBlocksByLifeTime_ok nodes Hg nf Hnf bf flags atomic (as_memory_blocks_ s) range_size (as_heap s)
      (as_total_node_depend_stream_life_ s) Hfresh Hbf Hn Hv) as (h1 & total1 & Hrun & Hk & ts & Hinv).
    by exists h1, total1, ts.
Qed.

Lemma core_real b b' : core b = core b' -> real_size_list_ b = real_size_list_ b'.
Proof. by intros (? & _)%core_fields. Qed.
Lemma unmarked_real b b' : unmarked b = unmarked b' -> real_size_list_ b = real_size_list_ b'.
Proof. by intros (? & _)%unmarked_fields. Qed.

(** After the reordering the blocks are the input of the last phase. *)
Lemma plan_input_of_inv nodes h1 h2 mbs ts :
  reuse_inv nodes h1 ts -> keeps unmarked h1 h2 -> block_list h2 mbs -> plan_input h2 mbs ts.
Proof.
  intros Hinv Hk [Hn Hv].
  assert (forall p b, h2 !! p = Some b -> exists b1, h1 !! p = Some b1 /\ unmarked b1 = unmarked b) as Hback.
  { intros p b Hb. by apply (keeps_lookup unmarked h2 h1 p b); [intros q; rewrite Hk|]. }
  split; [split|done|done|].
  - apply Forall_forall. intros t Ht. pose proof (ri_rep _ _ _ Hinv) as Hr. rewrite Forall_forall in Hr. split_and!.
    + eapply rep_kids; [|by apply Hr]. intros q _. specialize (Hk q). destruct (h2 !! q) as [b'|], (h1 !! q) as [b|]; [|discriminate Hk..|done].
      apply (inj Some), unmarked_fields in Hk as (_ & Hk & _). cbn. by rewrite Hk.
    + pose proof (ri_nodup _ _ _ Hinv) as Hnd. clear -Hnd Ht. induction ts as [|u ts IH]; [by apply elem_of_nil in Ht|].
      apply NoDup_flat_cons in Hnd as (? & ? & _). apply elem_of_cons in Ht as [->|Ht]; [done|by apply IH].
    + intros q b _ Hb. destruct (Hback q b Hb) as (b1 & Hb1 & He). destruct (ri_blk _ _ _ Hinv q b1 Hb1) as [Hok _].
      apply unmarked_fields in He as (He & _). unfold block_ok in *. by rewrite <- He.
  - apply (ri_nodup _ _ _ Hinv).
  - intros p b _ Hb Hdel _. destruct (Hback p b Hb) as (b1 & Hb1 & He). apply unmarked_fields in He as (_ & _ & He & _).
    apply (ri_roots _ _ _ Hinv p b1 Hb1). congruence.
Qed.

(** C2 The last three steps of AssignMemoryWithReuse, on any blocks that hold no others yet, for which no waiting is recorded, and
    whose sizes together stay below 2^64 bytes, end without dereferencing a bad pointer and produce a memory plan:
    blocks in use at the same time get disjoint ranges below the reported sizes, each range holds the data of
    the block, and blocks merged into another lie inside it.  If the life times of the blocks begin with
    their nodes (none was given an earlier begin), a block and one it lies in are not in use together: the life
    times of their nodes do not cross; or they are on one stream and the last life time of the one ends before the
    first of the other begins; or they are on different streams and the first node of the one waits in the graph for a
    node of the other's stream after the end of the other.  The last case holds for a block whose recorded waiting is right
    of the graph: the rows AddDependLife keeps of earlier traversals can be wrong ([memo_shares_unordered]), and for a
    life time that begins before its node the test is too weak ([interval_reuse_ignores_begin]). *)
Theorem memory_assign_safe `{!StdSortOk _} nodes nf bf disable_reuse flags atomic counts inputs range_size s :
  graph_ok nodes -> (length nodes < nf)%nat -> (size (as_heap s) <= bf)%nat ->
  fresh_blocks nodes (as_heap s) -> block_list (as_heap s) (as_memory_blocks_ s) ->
  (forall name l i p, (name, l) ∈ inputs -> (i, Some p) ∈ l -> is_Some (as_heap s !! p)) ->
  0 <= as_mem_offset_ s -> as_mem_offset_ s + total_data (as_heap s) < 2 ^ 64 ->
  0 <= as_p2p_mem_offset_ s -> as_p2p_mem_offset_ s + total_data (as_heap s) < 2 ^ 64 ->
  exists s' h1 h2 ts, finish_assign nf bf disable_reuse flags atomic counts inputs range_size s = Some s' /\
    memory_plan (as_heap s) h1 h2 s s' ts.
Proof.
  intros Hg Hnf Hbf Hfresh Hbl Hin Hm0 Hm Hp0 Hp. unfold finish_assign.
  destruct (merge_phase nodes nf bf disable_reuse flags atomic range_size s Hg Hnf Hbf Hfresh Hbl) as (h1 & total1 & ts & -> & Hk1 & Hinv).
  cbn [mbind option_bind].
  destruct (AssignContinuousBlocks_ok counts inputs h1 (as_memory_blocks_ s)) as (mbs' & h2 & -> & Hk2 & Hbl2 & Hlive).
  { by eapply block_list_keeps. }
  { intros name l i p Hl Hi. eapply keeps_valid; [exact Hk1|by eapply Hin]. }
  cbn [mbind option_bind]. pose proof (plan_input_of_inv nodes h1 h2 mbs' ts Hinv Hk2 Hbl2) as Hpi. pose proof (pi_forest _ _ _ Hpi) as Hf.
  assert (cost h2 ts <= total_data (as_heap s)) as Hc.
  { rewrite <- (total_data_keeps core (as_heap s) h1), <- (total_data_keeps unmarked h1 h2) by (done || apply core_real || apply unmarked_real).
    apply cost_bound; [|done]. intros p b Hb. destruct (keeps_lookup unmarked h2 h1 p b) as (b1 & Hb1 & He); [by intros q; rewrite Hk2|done|].
    destruct (ri_blk _ _ _ Hinv p b1 Hb1) as [Hok _]. apply unmarked_real in He. unfold block_ok in *. by rewrite <- He. }
  destruct (ResizeMemoryBlocks_spec h2 mbs' ts (as_mem_offset_ s) (as_p2p_mem_offset_ s) bf Hpi) as (mem' & p2p' & h3 & -> & Hk3 & _ & _ & Hpl1 & Hpl2);
    [by rewrite (keeps_size _ _ _ Hk2), (keeps_size _ _ _ Hk1)|lia..|].
  cbn [mbind option_bind]. eexists _, h1, h2, ts. split; [done|]. split; cbn [as_heap as_memory_blocks_ as_mem_offset_ as_p2p_mem_offset_]; try done.
  - intros p Hsome. eapply (ri_cover _ _ _ Hinv), keeps_valid; [exact Hk1|done].
  - intros Hbeg. apply Forall_forall. intros t Ht. apply (tree_safe_apart nodes h1 ts); [done| |done].
    apply (keeps_begins h1 (as_heap s)); [|done]. intros q. by rewrite Hk1.
  - intros p b Hpm Hb Hdel Hz. destruct (ri_roots _ _ _ Hinv p b Hb Hdel) as (t & Ht & <-). exists t. split_and!; [done|done|].
    split; [by eapply Hlive|]. destruct (keeps_lookup unmarked h1 h2 _ b Hk2 Hb) as (b2 & Hb2 & He). exists b2.
    apply unmarked_fields in He as (_ & _ & -> & -> & _). done.
  - intros t ty Ht Hu Hty Htype q Hq.
    assert (placed h3 t (start h3 t)) as Hpl by (destruct Hty as [-> | -> ]; [by apply Hpl1|by apply Hpl2]).
    rewrite <- (need_ext h3 h2) by (intros q' _; apply Hk3).
    apply (placed_inside h3 t (start h3 t)); [|done|done]. eapply tree_ok_ext; [exact Hk3|].
    destruct Hf as [Hoks _]. rewrite Forall_forall in Hoks. by apply Hoks.
Qed.

End assign.

(** ** Concrete inputs *)
Definition not_after {A} (less : A -> A -> bool) (x y : A) : Prop := less y x = false.
#[export] Instance not_after_dec {A} (less : A -> A -> bool) : RelDecision (not_after less).
Proof. intros x y. unfold not_after. apply _. Defined.
#[export] Instance merge_std_sort : StdSort := fun A less l => merge_sort (not_after less) l.
#[export] Instance merge_std_sort_ok : StdSortOk merge_std_sort.
Proof.
  split.
  - intros A less l. apply merge_sort_Permutation.
  - intros A key l. assert (StronglySorted (not_after (fun x y => key x <? key y)) (std_sort (fun x y => key x <? key y) l)) as Hs.
    { apply StronglySorted_merge_sort; unfold not_after; [intros x y z H1 H2|intros x y].
      - apply Z.ltb_ge in H1, H2. apply Z.ltb_ge. lia.
      - rewrite !Z.ltb_ge. lia. }
    induction Hs as [|x l' Hs IH Hx]; constructor; [done|]. eapply Forall_impl; [exact Hx|]. unfold not_after. intros y Hy. by apply Z.ltb_ge.
Qed.

(** A block that holds the first output of each of the given nodes (node, begin, end). *)
Definition block_of `{Graph} (stream size : Z) (lives : list (Node * Z * Z)) : MemoryBlock :=
  let b := new_MemoryBlock size stream true RT_MEMORY_HBM in
  let b := set_node_type_index_list_ (map (fun x => mkNodeTypeIndex (Some x.1.1) kOutput 0 false x.1.2 x.2) lives) b in
  set_real_size_list_ (map (fun _ => size) lives) (set_no_align_size_list_ (map (fun _ => size) lives) b).

(** Five nodes on one stream, one after the other. *)
Definition chain_table : list (OpDesc * list nat) :=
  [(mkOpDesc 1 0 "", []); (mkOpDesc 2 0 "", [0%nat]); (mkOpDesc 3 0 "", [1%nat]); (mkOpDesc 4 0 "", [2%nat]); (mkOpDesc 5 0 "", [3%nat])].
Definition chain_graph : Graph := table_graph chain_table.
Definition chain_heap : gmap nat (@MemoryBlock chain_graph) :=
  <[0%nat := @block_of chain_graph 0 4096 [(0%nat, 0, 2)]]> (<[1%nat := @block_of chain_graph 0 2048 [(2%nat, 0, 4)]]>
  {[2%nat := @block_of chain_graph 0 1000 [(4%nat, 0, 6)]]}).
Definition chain_state : @AssignerState chain_graph := mkAssignerState 0 0 [Some 0%nat; Some 1%nat; Some 2%nat] chain_heap ∅.

Lemma chain_heap_ok : @fresh_blocks chain_graph (seq 0 5) chain_heap.
Proof.
  assert (forall n i e size stream, (n < 5)%nat -> (fst <$> chain_table !! n) = Some (mkOpDesc i 0 "") -> 0 <= e -> 0 <= size < 100000 ->
    @blk_ok chain_graph (seq 0 5) (@block_of chain_graph stream size [(n, 0, e)])) as Hb.
  { intros n i e size stream Hn Hd He Hs. split_and!; [split; [done|]|done|done|]; cbn; constructor; [lia|constructor| |constructor].
    exists n, (mkOpDesc i 0 ""). split_and!; [done|change (n ∈ seq 0 5); apply elem_of_seq; lia|exact Hd|cbn; lia]. }
  unfold chain_heap. intros p b [[_ <-]|[_ [[_ <-]|[_ [_ <-]%lookup_singleton_Some]]%lookup_insert_Some]]%lookup_insert_Some;
    (split; [done|split; [done|]]); [apply (Hb 0%nat 1)|apply (Hb 2%nat 3)|apply (Hb 4%nat 5)]; (done || lia).
Qed.

Lemma chain_begins : @begins chain_graph chain_heap.
Proof.
  unfold chain_heap. intros p b x [[_ <-]|[_ [[_ <-]|[_ [_ <-]%lookup_singleton_Some]]%lookup_insert_Some]]%lookup_insert_Some;
    intros ->%list_elem_of_singleton d Hd; unfold GetLifeBegin; cbn in *; simplify_eq/=; done.
Qed.

(** The three blocks are merged into one of 4096 bytes: the second and third lie inside the first. *)
Lemma memory_assign_safe_witness :
  exists s' h1 h2 ts, @finish_assign chain_graph merge_std_sort 6 3 false ∅ 0 ∅ [] 2 chain_state = Some s' /\
    as_mem_offset_ s' = 4096 /\ memory_plan chain_heap h1 h2 chain_state s' ts /\ Forall (tree_pairs (@pair_apart chain_graph h1)) ts.
Proof.
  destruct (@memory_assign_safe chain_graph merge_std_sort _ (seq 0 5) 6 3 false ∅ 0 ∅ [] 2 chain_state) as (s' & h1 & h2 & ts & Hr & Hp).
  - apply table_graph_ok. reflexivity.
  - cbn. lia.
  - vm_compute. lia.
  - apply chain_heap_ok.
  - split; [cbn; repeat constructor; set_solver|]. intros p Hp. cbn in Hp.
    repeat (apply elem_of_cons in Hp as [[= ->]|Hp]; [by eexists|]). by apply elem_of_nil in Hp.
  - intros name l i p Hl. by apply elem_of_nil in Hl.
  - cbn. lia.
  - vm_compute. reflexivity.
  - cbn. lia.
  - vm_compute. reflexivity.
  - exists s', h1, h2, ts. split_and!; [done| |done|by apply (mp_safe _ _ _ _ _ _ Hp), chain_begins].
    assert (as_mem_offset_ <$> @finish_assign chain_graph merge_std_sort 6 3 false ∅ 0 ∅ [] 2 chain_state = Some 4096) as Hm by (vm_compute; reflexivity).
    rewrite Hr in Hm. by injection Hm.
Defined.

(** * Where the tests are too weak *)
Definition memo_graph : Graph := table_graph memo_table.
(** The block of node 4 on stream 1 (in use from 2 to 3), the block of node 0 and the block of node 3. *)
Definition memo_heap : gmap nat (@MemoryBlock memo_graph) :=
  <[0%nat := @block_of memo_graph 1 2048 [(4%nat, 0, 3)]]> (<[1%nat := @block_of memo_graph 0 512 [(0%nat, 0, 12)]]>
  {[2%nat := @block_of memo_graph 3 512 [(3%nat, 0, 13)]]}).

Lemma memo_reach m : rtc (@peer memo_graph) 3%nat m -> m = 3%nat \/ m = 2%nat.
Proof.
  assert (forall n m, rtc (@peer memo_graph) n m -> n = 3%nat \/ n = 2%nat -> m = 3%nat \/ m = 2%nat) as Hgo; [|intros Hm; eapply Hgo; [exact Hm|by left]].
  clear m. induction 1 as [|n k m (a & pa & Ha & Hpa & Hk) _ IH]; [done|]. intros Hn. apply IH. clear IH. cbn in *.
  apply list_elem_of_singleton in Hpa as [= ->]. simplify_eq. destruct Hn as [-> | ->]; cbn in Ha; [|by apply elem_of_nil in Ha].
  apply list_elem_of_singleton in Ha as [= ->]. by right.
Qed.

(** AddDependLife saves for every node it visits the streams found so far by the whole traversal, also those
    of other branches.  Node 0 waits for node 1 (stream 1) and node 2 (stream 2); node 3 waits for node 2 only.
    After the block of node 0 has been looked at, node 3 is taken to wait for
    stream 1 as well, and its block is put inside a block of stream 1 that nothing orders before it. *)
Theorem memo_shares_unordered :
  exists (h : gmap nat (@MemoryBlock memo_graph)) total, @ReuseBlocksByLifeTime memo_graph merge_std_sort 6 3 ∅ 0 [Some 0%nat; Some 1%nat; Some 2%nat] 2 (memo_heap, ∅) = Some (tt, (h, total)) /\
    (@child_blocks_ memo_graph <$> h !! 0%nat) = Some [Some 1%nat; Some 2%nat] /\
    (forall v, ~ @waits_for memo_graph 3%nat 1 v).
Proof.
  eexists _, _. split; [vm_compute; reflexivity|]. split; [vm_compute; reflexivity|].
  intros v (m & d & Hm & Hd & Hs & _). apply memo_reach in Hm as [-> | ->]; cbn in Hd; simplify_eq/=.
Qed.

(** Two blocks of one stream; the second node of the second block (number 3) is in use from time 11 on although its own number is 14. *)
Definition early_table : list (OpDesc * list nat) :=
  [(mkOpDesc 1 0 "", []); (mkOpDesc 10 0 "", []); (mkOpDesc 4 0 "", []); (mkOpDesc 14 0 "", []); (mkOpDesc 30 0 "", [])].
Definition early_graph : Graph := table_graph early_table.
Definition early_parent : @MemoryBlock early_graph := @block_of early_graph 0 512 [(0%nat, 0, 2); (1%nat, 0, 12)].
Definition early_child : @MemoryBlock early_graph := @block_of early_graph 0 512 [(2%nat, 0, 5); (3%nat, 11, 20); (4%nat, 0, 31)].

(** CanIntervalLifeReuse sorts the life times by when they begin but compares the previous end with the
    number of the node, not with its begin: two blocks are accepted although a node of the one
    (10 to 12) and a node of the other (11 to 20) are in use at the same time, as CrossLifeTime sees. *)
Theorem interval_reuse_ignores_begin :
  @CanIntervalLifeReuse early_graph merge_std_sort 2 (<[0%nat := early_parent]> {[1%nat := early_child]}) 0 1 = Some true /\
  exists x y, x ∈ node_type_index_list_ early_parent /\ y ∈ node_type_index_list_ early_child /\ CrossLifeTime x y = true /\
    GetLifeBegin x <= GetLifeBegin y <= life_time_end x.
Proof.
  split; [vm_compute; reflexivity|].
  exists (@mkNodeTypeIndex early_graph (Some 1%nat) kOutput 0 false 0 12), (@mkNodeTypeIndex early_graph (Some 3%nat) kOutput 0 false 11 20).
  split_and!; [cbn; set_solver|cbn; set_solver|vm_compute; reflexivity|vm_compute; discriminate|vm_compute; discriminate].
Qed.
