(* ===== verification/Fp16.v ===== *)
(** Half precision numbers (ge/common/fp16_t.h, ge/common/fp16_t.cc).

    The functions of the two files: extraction, rounding, the conversions to
    float, double and the integer types (those to 64 bits, which the code leaves at 0, included), addition, subtraction, multiplication
    and division, the comparisons and the assignments from float, double and the
    integers; abs, max and min of ge/common/math/fp16_math.cc.  A [TagFp16] is its 16-bit pattern; a float or a double is
    its 32-bit or 64-bit pattern, which is what the reinterpret_casts of the code
    read and write.  Arithmetic is done in [Z] and reduced where the code
    assigns to a variable of a fixed width ([u16], [i16], ...), after the
    integer promotions; all shift counts are below the width of the shifted type. *)
From S2P Require Import Prelude.

(** * Conversions to the fixed-width types *)
Definition u8 (z : Z) : Z := wrapU 8 z.
Definition u16 (z : Z) : Z := wrapU 16 z.
Definition u32 (z : Z) : Z := wrapU 32 z.
Definition u64 (z : Z) : Z := wrapU 64 z.
Definition i8 (z : Z) : Z := wrapS 8 z.
Definition i16 (z : Z) : Z := wrapS 16 z.
Definition i32 (z : Z) : Z := wrapS 32 z.

Declare Scope bits_scope.
Delimit Scope bits_scope with bits.
Infix "&" := Z.land (at level 40, left associativity) : bits_scope.
Infix "∥" := Z.lor (at level 50, left associativity) : bits_scope.
Infix "<<" := Z.shiftl (at level 45, left associativity) : bits_scope.
Infix ">>" := Z.shiftr (at level 45, left associativity) : bits_scope.
Open Scope bits_scope.

(** `while (cond) body`, [None] when [fuel] iterations are not enough. *)
Fixpoint while {S} (fuel : nat) (cond : S -> bool) (body : S -> S) (s : S) : option S :=
  match fuel with
  | O => None
  | Datatypes.S n => if cond s then while n cond body (body s) else Some s
  end.

(** * Parameters of the formats *)
Definition kFp16ExpBias : Z := 15.
Definition kFp16ManLen : Z := 10.
Definition kFp16SignIndex : Z := 15.
Definition kFp16SignMask : Z := 0x8000.
Definition kFp16ExpMask : Z := 0x7C00.
Definition kFp16ManMask : Z := 0x03FF.
Definition kFp16ManHideBit : Z := 0x0400.
Definition kFp16Max : Z := 0x7BFF.
Definition kFp16AbsMax : Z := 0x7FFF.
Definition kFp16MaxExp : Z := 0x001F.
Definition kFp16MaxMan : Z := 0x03FF.
Definition kFp32ExpBias : Z := 127.
Definition kFp32ManLen : Z := 23.
Definition kFp32SignIndex : Z := 31.
Definition kFp32SignMask : Z := 0x80000000.
Definition kFp32ExpMask : Z := 0x7F800000.
Definition kFp32ManMask : Z := 0x007FFFFF.
Definition kFp32ManHideBit : Z := 0x00800000.
Definition kFp32AbsMax : Z := 0x7FFFFFFF.
Definition kFp32MaxMan : Z := 0x7FFFFF.
Definition kFp64ExpBias : Z := 1023.
Definition kFp64ManLen : Z := 52.
Definition kFp64SignIndex : Z := 63.
Definition kFp64SignMask : Z := 0x8000000000000000.
Definition kFp64ExpMask : Z := 0x7FF0000000000000.
Definition kFp64ManMask : Z := 0x000FFFFFFFFFFFFF.
Definition kFp64ManHideBit : Z := 0x0010000000000000.
Definition kInt8Max : Z := 0x7F.
Definition kBitLen8Max : Z := 0xFF.
Definition kInt16Max : Z := 0x7FFF.
Definition kBitLen16Max : Z := 0xFFFF.
Definition kInt32Max : Z := 0x7FFFFFFF.
Definition kBitLen32Max : Z := 0xFFFFFFFF.
Definition kManBitLength : Z := 11.

Inductive TagFp16RoundMode := kRoundToNearest | kRoundByTruncated | kRoundModeReserved.
Definition g_round_mode : TagFp16RoundMode := kRoundToNearest.
Definition is_round_to_nearest : bool := match g_round_mode with kRoundToNearest => true | _ => false end.

(** * The macros *)
Definition FP16_EXTRAC_SIGN (x : Z) : Z := (x >> 15) & 1.
Definition FP16_EXTRAC_EXP (x : Z) : Z := (x >> 10) & kFp16MaxExp.
Definition FP16_EXTRAC_MAN (x : Z) : Z := (x & 0x3FF) ∥ ((if 0 <? (x >> 10) & 0x1F then 1 else 0) * 0x400).
Definition FP16_CONSTRUCTOR (s e m : Z) : Z := (s << kFp16SignIndex) ∥ (e << kFp16ManLen) ∥ (m & kFp16MaxMan).
Definition FP16_IS_ZERO (x : Z) : bool := x & kFp16AbsMax =? 0.
Definition FP16_IS_DENORM (x : Z) : bool := x & kFp16ExpMask =? 0.
Definition FP16_IS_INVALID (x : Z) : bool := x & kFp16ExpMask =? kFp16ExpMask.
Definition FP32_CONSTRUCTOR (s e m : Z) : Z := u32 (s << kFp32SignIndex) ∥ u32 (e << kFp32ManLen) ∥ (m & kFp32MaxMan).

(** * The templates of the header, at the types the source uses *)
Definition ReverseMan (negative : bool) (man : Z) : Z := if negative then u32 (Z.lnot man + 1) else man.

Fixpoint RightShift_loop (shift : nat) (mask man : Z) : Z :=
  match shift with
  | O => man
  | S k => RightShift_loop k mask ((man & mask) ∥ (man >> 1))
  end.
Definition RightShift (man shift : Z) : Z := RightShift_loop (Z.to_nat shift) (1 << 31) man.

Definition GetManSum (e_a m_a e_b m_b : Z) : Z :=
  if negb (e_a =? e_b) then
    let e_tmp := i16 (Z.abs (e_a - e_b)) in
    if e_b <? e_a then u32 (m_a + RightShift m_b e_tmp) else u32 (RightShift m_a e_tmp + m_b)
  else u32 (m_a + m_b).

(** The caller reduces the result to the type of [man]. *)
Definition ManRoundToNearest (bit0 bit1 bitLeft : bool) (man shift : Z) : Z :=
  (man >> shift) + (if bit1 && (bitLeft || bit0) then 1 else 0).

Definition GetManBitLength (man : Z) : option Z :=
  '(_, len) ← while 65 (fun '(man, len) => negb (man =? 0)) (fun '(man, len) => (man >> 1, i16 (len + 1))) (man, 0);
  Some len.

(** * Extraction and rounding *)
Definition ExtractFp16 (val : Z) : Z * Z * Z :=
  let s := u16 (FP16_EXTRAC_SIGN val) in
  let e := i16 (FP16_EXTRAC_EXP val) in
  let m := u16 (FP16_EXTRAC_MAN val) in
  (s, if e =? 0 then 1 else e, m).

Definition IsRoundOne (man trunc_len : Z) : bool :=
  let shift_out := u16 (trunc_len - 2) in
  let mask0 := u64 (0x4 << shift_out) in
  let mask1 := u64 (0x2 << shift_out) in
  let mask2 := u64 (mask1 - 1) in
  let last_bit := 0 <? man & mask0 in
  let trunc_high := is_round_to_nearest && (0 <? man & mask1) in
  let trunc_left := is_round_to_nearest && (0 <? man & mask2) in
  trunc_high && (trunc_left || last_bit).

Definition Fp16Normalize (exp man : Z) : Z * Z :=
  if kFp16MaxExp <=? exp then (kFp16MaxExp, kFp16MaxMan)
  else if (exp =? 0) && (man =? kFp16ManHideBit) then (i16 (exp + 1), 0)
  else (exp, man).

(** * Conversions to float and double *)

(** `while (hf_man && !(hf_man & kFp16ManHideBit)) { hf_man <<= 1; hf_exp--; }` *)
Definition shift_to_hide_bit (hf_exp hf_man : Z) : option (Z * Z) :=
  while 17 (fun '(hf_exp, hf_man) => negb (hf_man =? 0) && (hf_man & kFp16ManHideBit =? 0))
    (fun '(hf_exp, hf_man) => (i16 (hf_exp - 1), u16 (hf_man << 1))) (hf_exp, hf_man).

Definition Fp16ToFloat (fp_val : Z) : option Z :=
  let '(hf_sign, hf_exp, hf_man) := ExtractFp16 fp_val in
  '(hf_exp, hf_man) ← shift_to_hide_bit hf_exp hf_man;
  let s_ret := hf_sign in
  let '(e_ret, m_ret) :=
    if hf_man =? 0 then (0, 0)
    else (u32 (hf_exp - kFp16ExpBias + kFp32ExpBias), u32 ((hf_man & kFp16ManMask) << (kFp32ManLen - kFp16ManLen))) in
  Some (FP32_CONSTRUCTOR s_ret e_ret m_ret).

Definition Fp16ToDouble (fp_val : Z) : option Z :=
  let '(hf_sign, hf_exp, hf_man) := ExtractFp16 fp_val in
  '(hf_exp, hf_man) ← shift_to_hide_bit hf_exp hf_man;
  let s_ret := hf_sign in
  let '(e_ret, m_ret) :=
    if hf_man =? 0 then (0, 0)
    else (u64 (hf_exp - kFp16ExpBias + kFp64ExpBias), u64 ((hf_man & kFp16ManMask) << (kFp64ManLen - kFp16ManLen))) in
  Some (u64 (s_ret << kFp64SignIndex) ∥ u64 (e_ret << kFp64ManLen) ∥ m_ret).

(** * Conversions to the integer types *)

(** The loop that moves the exponent to the bias, shifting the mantissa left or
    counting the bits to drop; [overflow] is the test behind the `break` (its
    branches set overflow_flag; the mantissa they store is not read again). *)
Record align := mkAlign { a_hf_e : Z; a_long_int_m : Z; a_shift_out : Z; a_overflow_flag : bool }.
Definition align_step (overflow : Z -> bool) (a : align) : align :=
  if kFp16ExpBias <? a_hf_e a then
    let long_int_m := u64 (a_long_int_m a << 1) in
    mkAlign (u16 (a_hf_e a - 1)) long_int_m (a_shift_out a) (overflow long_int_m)
  else mkAlign (u16 (a_hf_e a + 1)) (a_long_int_m a) (u16 (a_shift_out a + 1)) (a_overflow_flag a).
Definition align_to_bias (overflow : Z -> bool) (hf_e hf_m : Z) : option align :=
  while 33 (fun a => negb (a_hf_e a =? kFp16ExpBias) && negb (a_overflow_flag a)) (align_step overflow)
    (mkAlign hf_e hf_m 0 false).
Definition never (_ : Z) : bool := false.

Definition GetUint8ValByMan (s_ret long_int_m shift_out : Z) : Z :=
  let need_round := IsRoundOne long_int_m (u16 (shift_out + kFp16ManLen)) in
  let m_ret := u8 ((long_int_m >> (kFp16ManLen + shift_out)) & kBitLen8Max) in
  let need_round := need_round && (((s_ret =? 0) && (m_ret <? kInt8Max)) || ((s_ret =? 1) && (m_ret <=? kInt8Max))) in
  let m_ret := if need_round then u8 (m_ret + 1) else m_ret in
  let m_ret := if negb (s_ret =? 0) then u8 (Z.lnot m_ret + 1) else m_ret in
  let s_ret := if m_ret =? 0 then 0 else s_ret in
  u8 ((s_ret << 7) ∥ m_ret).

Definition int8_overflow (s_ret long_int_m : Z) : bool :=
  ((s_ret =? 1) && (0x20000 <=? long_int_m)) || (negb (s_ret =? 1) && (0x1FFFF <=? long_int_m)).

Definition Fp16ToInt8 (fp_val : Z) : option Z :=
  let s_ret := u8 (FP16_EXTRAC_SIGN fp_val) in
  let hf_e := u16 (FP16_EXTRAC_EXP fp_val) in
  let hf_m := u16 (FP16_EXTRAC_MAN fp_val) in
  if FP16_IS_DENORM fp_val then Some (i8 (u8 0))
  else
    a ← (if FP16_IS_INVALID fp_val then Some (mkAlign hf_e hf_m 0 true)
         else align_to_bias (int8_overflow s_ret) hf_e hf_m);
    let ret_v := if a_overflow_flag a then u8 (kInt8Max + s_ret) else GetUint8ValByMan s_ret (a_long_int_m a) (a_shift_out a) in
    Some (i8 ret_v).

Definition Fp16ToUInt8 (fp_val : Z) : option Z :=
  let s_ret := u8 (FP16_EXTRAC_SIGN fp_val) in
  let hf_e := u16 (FP16_EXTRAC_EXP fp_val) in
  let hf_m := u16 (FP16_EXTRAC_MAN fp_val) in
  if FP16_IS_DENORM fp_val then Some 0
  else
    m_ret ←
      (if FP16_IS_INVALID fp_val then Some (u8 (Z.lnot 0))
       else
         a ← align_to_bias (Z.leb 0x40000) hf_e hf_m;
         if a_overflow_flag a then Some (u8 (Z.lnot 0))
         else
           let need_round := IsRoundOne (a_long_int_m a) (u16 (a_shift_out a + kFp16ManLen)) in
           let m_ret := u8 ((a_long_int_m a >> (kFp16ManLen + a_shift_out a)) & kBitLen8Max) in
           Some (if need_round && negb (m_ret =? kBitLen8Max) then u8 (m_ret + 1) else m_ret));
    Some (if s_ret =? 1 then 0 else m_ret).

Definition GetUint16ValByMan (s_ret long_int_m shift_out : Z) : Z :=
  let need_round := IsRoundOne long_int_m (u16 (shift_out + kFp16ManLen)) in
  let m_ret := u16 ((long_int_m >> (kFp16ManLen + shift_out)) & kBitLen16Max) in
  let m_ret := if need_round && (m_ret <? kInt16Max) then u16 (m_ret + 1) else m_ret in
  let m_ret := if negb (s_ret =? 0) then u16 (Z.lnot m_ret + 1) else m_ret in
  let s_ret := if m_ret =? 0 then 0 else s_ret in
  u16 ((s_ret << 15) ∥ m_ret).

Definition int16_overflow (s_ret long_int_m : Z) : bool :=
  ((s_ret =? 1) && (0x2000000 <? long_int_m)) || (negb (s_ret =? 1) && (0x1FFFFFF <=? long_int_m)).

Definition Fp16ToInt16 (fp_val : Z) : option Z :=
  let s_ret := u16 (FP16_EXTRAC_SIGN fp_val) in
  let hf_e := u16 (FP16_EXTRAC_EXP fp_val) in
  let hf_m := u16 (FP16_EXTRAC_MAN fp_val) in
  if FP16_IS_DENORM fp_val then Some (i16 (u8 0))
  else
    a ← (if FP16_IS_INVALID fp_val then Some (mkAlign hf_e hf_m 0 true)
         else align_to_bias (int16_overflow s_ret) hf_e hf_m);
    let ret_v := if a_overflow_flag a then u16 (kInt16Max + s_ret) else GetUint16ValByMan s_ret (a_long_int_m a) (a_shift_out a) in
    Some (i16 ret_v).

Definition Fp16ToUInt16 (fp_val : Z) : option Z :=
  let s_ret := u16 (FP16_EXTRAC_SIGN fp_val) in
  let hf_e := u16 (FP16_EXTRAC_EXP fp_val) in
  let hf_m := u16 (FP16_EXTRAC_MAN fp_val) in
  if FP16_IS_DENORM fp_val then Some 0
  else
    m_ret ←
      (if FP16_IS_INVALID fp_val then Some (u16 (Z.lnot 0))
       else
         a ← align_to_bias never hf_e hf_m;
         let need_round := IsRoundOne (a_long_int_m a) (u16 (a_shift_out a + kFp16ManLen)) in
         let m_ret := u16 ((a_long_int_m a >> (kFp16ManLen + a_shift_out a)) & kBitLen16Max) in
         Some (if need_round && negb (m_ret =? kBitLen16Max) then u16 (m_ret + 1) else m_ret));
    Some (if s_ret =? 1 then 0 else m_ret).

Definition Fp16ToInt32 (fp_val : Z) : option Z :=
  let s_ret := u32 (FP16_EXTRAC_SIGN fp_val) in
  let hf_e := u16 (FP16_EXTRAC_EXP fp_val) in
  let hf_m := u16 (FP16_EXTRAC_MAN fp_val) in
  ret_v ←
    (if FP16_IS_INVALID fp_val then Some (u32 (kInt32Max + s_ret))
     else
       a ← align_to_bias never hf_e hf_m;
       let need_round := IsRoundOne (a_long_int_m a) (u16 (a_shift_out a + kFp16ManLen)) in
       let m_ret := u32 ((a_long_int_m a >> (kFp16ManLen + a_shift_out a)) & kBitLen32Max) in
       let m_ret := if need_round && (m_ret <? kInt32Max) then u32 (m_ret + 1) else m_ret in
       let m_ret := if s_ret =? 1 then u32 (Z.lnot m_ret + 1) else m_ret in
       let s_ret := if m_ret =? 0 then 0 else s_ret in
       Some (u32 (s_ret << 31) ∥ m_ret));
  Some (i32 ret_v).

Definition Fp16ToUInt32 (fp_val : Z) : option Z :=
  let s_ret := u32 (FP16_EXTRAC_SIGN fp_val) in
  let hf_e := u16 (FP16_EXTRAC_EXP fp_val) in
  let hf_m := u16 (FP16_EXTRAC_MAN fp_val) in
  if FP16_IS_DENORM fp_val then Some 0
  else
    m_ret ←
      (if FP16_IS_INVALID fp_val then Some (u32 (Z.lnot 0))
       else
         a ← align_to_bias never hf_e hf_m;
         let need_round := IsRoundOne (a_long_int_m a) (u16 (a_shift_out a + kFp16ManLen)) in
         let m_ret := u32 (a_long_int_m a >> (kFp16ManLen + a_shift_out a)) & kBitLen32Max in
         Some (if need_round && negb (m_ret =? kBitLen32Max) then u32 (m_ret + 1) else m_ret));
    Some (if s_ret =? 1 then 0 else m_ret).

(** fp16_t::operator int64_t and operator uint64_t *)
Definition op_int64 (val : Z) : Z := 0.
Definition op_uint64 (val : Z) : Z := 0.

(** * Arithmetic *)
Definition Fp16AddCalVal (s_ret e_ret m_ret m_trunc shift_out : Z) : option Z :=
  let m_min := u16 (kFp16ManHideBit << shift_out) in
  let m_max := u16 (m_min << 1) in
  '(m_ret, m_trunc, e_ret) ←
    while 64 (fun '(m_ret, m_trunc, e_ret) => (m_ret <? m_min) && (0 <? e_ret))
      (fun '(m_ret, m_trunc, e_ret) =>
         (u16 (u16 (m_ret << 1) + ((kFp32SignMask & m_trunc) >> kFp32SignIndex)), u32 (m_trunc << 1), i16 (e_ret - 1)))
      (m_ret, m_trunc, e_ret);
  '(m_ret, m_trunc, e_ret) ←
    while 17 (fun '(m_ret, m_trunc, e_ret) => m_max <=? m_ret)
      (fun '(m_ret, m_trunc, e_ret) =>
         (m_ret >> 1, (m_trunc >> 1) ∥ u32 (kFp32SignMask * (m_ret & 1)), i16 (e_ret + 1)))
      (m_ret, m_trunc, e_ret);
  let b_last_bit := 0 <? m_ret & 1 in
  let b_trunc_high := is_round_to_nearest && (0 <? m_trunc & kFp32SignMask) in
  let b_trunc_left := is_round_to_nearest && (0 <? m_trunc & kFp32AbsMax) in
  let m_ret := u16 (ManRoundToNearest b_last_bit b_trunc_high b_trunc_left m_ret shift_out) in
  '(m_ret, e_ret) ←
    while 17 (fun '(m_ret, e_ret) => m_max <=? m_ret) (fun '(m_ret, e_ret) => (m_ret >> 1, i16 (e_ret + 1))) (m_ret, e_ret);
  let m_ret := if (e_ret =? 0) && (m_ret <=? m_max) then m_ret >> 1 else m_ret in
  let '(e_ret, m_ret) := Fp16Normalize e_ret m_ret in
  Some (u16 (FP16_CONSTRUCTOR s_ret (u16 e_ret) m_ret)).

Definition Fp16Add (v_1 v_2 : Z) : option Z :=
  let '(s_a, e_a, m_a) := ExtractFp16 v_1 in
  let '(s_b, e_b, m_b) := ExtractFp16 v_2 in
  let '(sum, s_ret, m_a, m_b) :=
    if negb (s_a =? s_b) then
      let m_a := ReverseMan (0 <? s_a) m_a in
      let m_b := ReverseMan (0 <? s_b) m_b in
      let sum := u16 (GetManSum e_a m_a e_b m_b) in
      let s_ret := (sum & kFp16SignMask) >> kFp16SignIndex in
      (sum, s_ret, ReverseMan (0 <? s_ret) m_a, ReverseMan (0 <? s_ret) m_b)
    else (u16 (GetManSum e_a m_a e_b m_b), s_a, m_a, m_b) in
  let '(shift_out, m_a, m_b) :=
    if sum =? 0 then (3, u32 (m_a << 3), u32 (m_b << 3)) else (0, m_a, m_b) in
  let e_ret := Z.max e_a e_b in
  let e_tmp := i16 (Z.abs (e_a - e_b)) in
  let '(m_trunc, m_a, m_b) :=
    if e_b <? e_a then (u32 (m_b << (32 - u16 e_tmp)), m_a, RightShift m_b e_tmp)
    else if e_a <? e_b then (u32 (m_a << (32 - u16 e_tmp)), RightShift m_a e_tmp, m_b)
    else (0, m_a, m_b) in
  let m_ret := u16 (u32 (m_a + m_b)) in
  Fp16AddCalVal s_ret e_ret m_ret m_trunc shift_out.

Definition Fp16Sub (v_1 v_2 : Z) : option Z :=
  let tmp := u16 ((Z.lnot v_2 & kFp16SignMask) ∥ (v_2 & kFp16AbsMax)) in
  Fp16Add v_1 tmp.

Definition Fp16Mul (v_1 v_2 : Z) : option Z :=
  let '(s_a, e_a, m_a) := ExtractFp16 v_1 in
  let '(s_b, e_b, m_b) := ExtractFp16 v_2 in
  let e_ret := i16 (e_a + e_b - kFp16ExpBias - 10) in
  let mul_m := u32 (m_a * m_b) in
  let s_ret := Z.lxor s_a s_b in
  let m_min := kFp16ManHideBit in
  let m_max := u32 (m_min << 1) in
  '(mul_m, e_ret) ←
    while 64 (fun '(mul_m, e_ret) => (mul_m <? m_min) && (1 <? e_ret))
      (fun '(mul_m, e_ret) => (u32 (mul_m << 1), i16 (e_ret - 1))) (mul_m, e_ret);
  '(mul_m, m_trunc, e_ret) ←
    while 64 (fun '(mul_m, m_trunc, e_ret) => (m_max <=? mul_m) || (e_ret <? 1))
      (fun '(mul_m, m_trunc, e_ret) =>
         (mul_m >> 1, (m_trunc >> 1) ∥ u32 (kFp32SignMask * (mul_m & 1)), i16 (e_ret + 1)))
      (mul_m, 0, e_ret);
  let b_last_bit := 0 <? mul_m & 1 in
  let b_trunc_high := is_round_to_nearest && (0 <? m_trunc & kFp32SignMask) in
  let b_trunc_left := is_round_to_nearest && (0 <? m_trunc & kFp32AbsMax) in
  let mul_m := u32 (ManRoundToNearest b_last_bit b_trunc_high b_trunc_left mul_m 0) in
  '(mul_m, e_ret) ←
    while 64 (fun '(mul_m, e_ret) => (m_max <=? mul_m) || (e_ret <? 0))
      (fun '(mul_m, e_ret) => (mul_m >> 1, i16 (e_ret + 1))) (mul_m, e_ret);
  let e_ret := if (e_ret =? 1) && (mul_m <? kFp16ManHideBit) then 0 else e_ret in
  let m_ret := u16 mul_m in
  let '(e_ret, m_ret) := Fp16Normalize e_ret m_ret in
  Some (u16 (FP16_CONSTRUCTOR s_ret (u16 e_ret) m_ret)).

(** * Single precision arithmetic of the language

    IEEE 754 rounding to nearest, ties to even.  [rne n d] rounds n / d to an
    integer; [float_round m] is the value of `(float)m` for a uint64_t m;
    [float_ratio a b] the pattern of `a / b` for positive integral floats. *)
Definition rne (n d : Z) : Z :=
  let q := n / d in
  let r := n mod d in
  if (d <? 2 * r) || ((2 * r =? d) && Z.odd q) then q + 1 else q.
Definition float_round (m : Z) : Z :=
  let ulp := 2 ^ (Z.log2 m - 23) in
  if m <? 2 ^ 24 then m else rne m ulp * ulp.
Definition float_ratio (a b : Z) : Z :=
  let e0 := Z.log2 a - Z.log2 b in
  let num e := a * 2 ^ Z.max 0 (- e) in
  let den e := b * 2 ^ Z.max 0 e in
  let e := if num e0 <? den e0 then e0 - 1 else e0 in
  (e + 126) * 2 ^ 23 + rne (num e * 2 ^ 23) (den e).

(** * Assignments *)
Definition assign_float (ui32_v : Z) : Z :=
  let s_ret := u16 ((ui32_v & kFp32SignMask) >> kFp32SignIndex) in
  let e_f := (ui32_v & kFp32ExpMask) >> kFp32ManLen in
  let m_f := ui32_v & kFp32ManMask in
  let m_len_delta := kFp32ManLen - kFp16ManLen in
  let '(e_ret, m_ret) :=
    if 0x8F <? e_f then (kFp16MaxExp - 1, kFp16MaxMan)
    else if e_f <=? 0x70 then
      (0,
       if 0x67 <=? e_f then
         let m_f := m_f ∥ kFp32ManHideBit in
         let shift_out := kFp32ManLen in
         let m_tmp := u64 (m_f << (e_f - 0x67)) in
         let need_round := IsRoundOne m_tmp shift_out in
         let m_ret := u16 (m_tmp >> shift_out) in
         if need_round then u16 (m_ret + 1) else m_ret
       else if (e_f =? 0x66) && (0 <? m_f) then 1
       else 0)
    else
      let e_ret := i16 (e_f - 0x70) in
      let need_round := IsRoundOne m_f (u16 m_len_delta) in
      let m_ret := u16 (m_f >> m_len_delta) in
      let m_ret := if need_round then u16 (m_ret + 1) else m_ret in
      (if negb (m_ret & kFp16ManHideBit =? 0) then i16 (e_ret + 1) else e_ret, m_ret) in
  let '(e_ret, m_ret) := Fp16Normalize e_ret m_ret in
  u16 (FP16_CONSTRUCTOR s_ret (u16 e_ret) m_ret).

Definition assign_double (ui64_v : Z) : Z :=
  let s_ret := u16 ((ui64_v & kFp64SignMask) >> kFp64SignIndex) in
  let e_d := (ui64_v & kFp64ExpMask) >> kFp64ManLen in
  let m_d := ui64_v & kFp64ManMask in
  let m_len_delta := kFp64ManLen - kFp16ManLen in
  let '(e_ret, m_ret) :=
    if 0x410 <=? e_d then (kFp16MaxExp - 1, kFp16MaxMan)
    else if e_d <=? 0x3F0 then
      (0,
       if 0x3E7 <=? e_d then
         let m_d := kFp64ManHideBit ∥ m_d in
         let shift_out := kFp64ManLen in
         let m_tmp := u64 (m_d << (e_d - 0x3E7)) in
         let need_round := IsRoundOne m_tmp shift_out in
         let m_ret := u16 (m_tmp >> shift_out) in
         if need_round then u16 (m_ret + 1) else m_ret
       else if (e_d =? 0x3E6) && (0 <? m_d) then 1
       else 0)
    else
      let e_ret := i16 (e_d - 0x3F0) in
      let need_round := IsRoundOne m_d (u16 m_len_delta) in
      let m_ret := u16 (m_d >> m_len_delta) in
      let m_ret := if need_round then u16 (m_ret + 1) else m_ret in
      (if negb (m_ret & kFp16ManHideBit =? 0) then i16 (e_ret + 1) else e_ret, m_ret) in
  let '(e_ret, m_ret) := Fp16Normalize e_ret m_ret in
  u16 (FP16_CONSTRUCTOR s_ret (u16 e_ret) m_ret).

(** `while ((m_ret & kFp16ManHideBit) == 0) { m_ret = m_ret << 1; e_ret = e_ret - 1; }`,
    from e_ret = kFp16ManLen, and the bias added. *)
Definition small_to_half (m_ret : Z) : option (Z * Z) :=
  '(m_ret, e_ret) ←
    while 17 (fun '(m_ret, e_ret) => m_ret & kFp16ManHideBit =? 0)
      (fun '(m_ret, e_ret) => (u16 (m_ret << 1), u16 (e_ret - 1))) (m_ret, kFp16ManLen);
  Some (u16 (e_ret + kFp16ExpBias), m_ret).

Definition assign_int8 (i_val : Z) : option Z :=
  let s_ret := u16 ((u8 i_val & 0x80) >> 7) in
  let m_ret := u16 (u8 i_val & kInt8Max) in
  '(e_ret, m_ret) ←
    (if m_ret =? 0 then Some (0, m_ret)
     else small_to_half (if negb (s_ret =? 0) then u16 (Z.abs i_val) else m_ret));
  Some (u16 (FP16_CONSTRUCTOR s_ret e_ret m_ret)).

Definition assign_uint8 (ui_val : Z) : option Z :=
  let m_ret := ui_val in
  '(e_ret, m_ret) ← (if negb (m_ret =? 0) then small_to_half m_ret else Some (0, m_ret));
  Some (u16 (FP16_CONSTRUCTOR 0 e_ret m_ret)).

(** The part the four wider assignments share, with [red] the reduction to the
    type of the mantissa variable: a mantissa of [len] bits is cut to eleven,
    rounding to nearest, or moved up to eleven bits. *)
Fixpoint trunc_mask_loop (n : nat) (trunc_mask : Z) : Z :=
  match n with
  | O => trunc_mask
  | S n => trunc_mask_loop n (u32 (u32 (trunc_mask << 1) + 1))
  end.
Fixpoint drop_bits_loop (n : nat) (m_tmp e_ret : Z) : Z * Z :=
  match n with
  | O => (m_tmp, e_ret)
  | S n => drop_bits_loop n (m_tmp >> 1) (i16 (e_ret + 1))
  end.
Definition drop_bits (red : Z -> Z) (m_tmp len : Z) : option (Z * Z) :=
  let m_max := red (kFp16ManHideBit << 1) in
  let e_ret := kFp16ExpBias + kFp16ManLen in
  let e_tmp := u16 (len - 11) in
  let trunc_mask := trunc_mask_loop (Z.to_nat (e_tmp - 1)) 1 in
  let m_trunc := u32 ((m_tmp & trunc_mask) << (32 - e_tmp)) in
  let '(m_tmp, e_ret) := drop_bits_loop (Z.to_nat e_tmp) m_tmp e_ret in
  let b_last_bit := 0 <? m_tmp & 1 in
  let b_trunc_high := is_round_to_nearest && (0 <? m_trunc & kFp32SignMask) in
  let b_trunc_left := is_round_to_nearest && (0 <? m_trunc & kFp32AbsMax) in
  let m_tmp := red (ManRoundToNearest b_last_bit b_trunc_high b_trunc_left m_tmp 0) in
  '(m_tmp, e_ret) ←
    while 33 (fun '(m_tmp, e_ret) => (m_max <=? m_tmp) || (e_ret <? 0))
      (fun '(m_tmp, e_ret) => (m_tmp >> 1, i16 (e_ret + 1))) (m_tmp, e_ret);
  Some (e_ret, m_tmp).
Definition raise_bits (red : Z -> Z) (m_tmp len : Z) : Z * Z :=
  (i16 (kFp16ExpBias + (len - 1)), red (m_tmp << (11 - len))).

(** `if (e_ret >= kFp16MaxExp) { e_ret = kFp16MaxExp - 1; m_tmp = kFp16MaxMan; }` *)
Definition saturate (e_ret m_tmp : Z) : Z * Z :=
  if kFp16MaxExp <=? e_ret then (kFp16MaxExp - 1, kFp16MaxMan) else (e_ret, m_tmp).

Definition SetValByUint16Val (input_val sign ret_val : Z) : option Z :=
  let m_tmp := input_val & kFp32AbsMax in
  len ← GetManBitLength m_tmp;
  let len := u16 len in
  if negb (m_tmp =? 0) then
    '(e_ret, m_tmp) ← (if 11 <? len then drop_bits u32 m_tmp len else Some (raise_bits u32 m_tmp len));
    let m_ret := u16 m_tmp in
    Some (u16 (FP16_CONSTRUCTOR sign (u16 e_ret) m_ret))
  else Some ret_val.

Definition assign_int16 (val i_val : Z) : option Z :=
  if i_val =? 0 then Some 0
  else
    let ui_val := u16 i_val in
    let s_ret := u16 (ui_val >> 15) in
    let ui_val := if negb (s_ret =? 0) then u16 (i16 (- i_val)) else ui_val in
    SetValByUint16Val ui_val s_ret val.

(** The test of [val] for kFp16Max sets a [val] that the last line overwrites. *)
Definition assign_uint16 (val ui_val : Z) : option Z :=
  if ui_val =? 0 then Some 0
  else
    let m_ret := ui_val in
    len ← GetManBitLength m_ret;
    let len := u16 len in
    '(val, e_ret, m_ret) ←
      (if kManBitLength <? len then
         '(e_ret, m_ret) ← drop_bits u16 m_ret len;
         Some (if FP16_IS_INVALID val then kFp16Max else val, e_ret, m_ret)
       else let '(e_ret, m_ret) := raise_bits u16 m_ret len in Some (val, e_ret, m_ret));
    Some (u16 (FP16_CONSTRUCTOR 0 (u16 e_ret) m_ret)).

Definition SetValByUint32Val (input_val sign : Z) : option Z :=
  let m_tmp := input_val & kFp32AbsMax in
  len ← GetManBitLength m_tmp;
  let len := u16 len in
  '(e_ret, m_tmp) ←
    (if 11 <? len then
       '(e_ret, m_tmp) ← drop_bits u32 m_tmp len;
       Some (saturate e_ret m_tmp)
     else Some (raise_bits u32 m_tmp len));
  let m_ret := u16 m_tmp in
  Some (u16 (FP16_CONSTRUCTOR sign (u16 e_ret) m_ret)).

(** `-i_val` overflows for INT32_MIN: undefined behaviour. *)
Definition assign_int32 (i_val : Z) : option Z :=
  if i_val =? 0 then Some 0
  else
    let ui_val := u32 i_val in
    let s_ret := u16 (ui_val >> 31) in
    if negb (s_ret =? 0) then
      if i_val =? - 2 ^ 31 then None else SetValByUint32Val (u32 (- i_val)) s_ret
    else SetValByUint32Val ui_val s_ret.

Definition assign_uint32 (ui_val : Z) : option Z :=
  if ui_val =? 0 then Some 0
  else
    let m_tmp := ui_val in
    len ← GetManBitLength m_tmp;
    let len := u16 len in
    '(e_ret, m_tmp) ←
      (if 11 <? len then
         '(e_ret, m_tmp) ← drop_bits u32 m_tmp len;
         Some (saturate e_ret m_tmp)
       else Some (raise_bits u32 m_tmp len));
    let m_ret := u16 m_tmp in
    Some (u16 (FP16_CONSTRUCTOR 0 (u16 e_ret) m_ret)).

(** * Division *)
Fixpoint shift_left_loop (n : nat) (m_tmp : Z) : Z :=
  match n with
  | O => m_tmp
  | S n => shift_left_loop n (u64 (m_tmp << 1))
  end.
Definition Fp16Div (v_1 v_2 : Z) : Z :=
  if FP16_IS_ZERO v_2 then
    let s_ret := Z.lxor (FP16_EXTRAC_SIGN v_1) (FP16_EXTRAC_SIGN v_2) in
    u16 (FP16_CONSTRUCTOR s_ret kFp16MaxExp 0)
  else if FP16_IS_ZERO v_1 then 0
  else
    let '(s_a, e_a, m_a) := ExtractFp16 v_1 in
    let '(s_b, e_b, m_b) := ExtractFp16 v_2 in
    let '(m_a, m_b) :=
      if e_b <? e_a then (shift_left_loop (Z.to_nat (u16 (e_a - e_b))) m_a, m_b)
      else if e_a <? e_b then (m_a, shift_left_loop (Z.to_nat (u16 (e_b - e_a))) m_b)
      else (m_a, m_b) in
    let m_div := float_ratio (float_round m_a) (float_round m_b) in
    let ret := assign_float m_div in
    if negb (s_a =? s_b) then u16 (ret ∥ kFp16SignMask) else ret.

(** * Comparisons *)
Definition op_eq (val fp_val : Z) : bool :=
  if FP16_IS_ZERO val && FP16_IS_ZERO fp_val then true
  else val & kBitLen16Max =? fp_val & kBitLen16Max.
Definition op_ne (val fp_val : Z) : bool :=
  if FP16_IS_ZERO val && FP16_IS_ZERO fp_val then false
  else negb (val & kBitLen16Max =? fp_val & kBitLen16Max).
Definition op_gt (val fp_val : Z) : bool :=
  let s_a := FP16_EXTRAC_SIGN val in
  let s_b := FP16_EXTRAC_SIGN fp_val in
  let e_a := FP16_EXTRAC_EXP val in
  let e_b := FP16_EXTRAC_EXP fp_val in
  let m_a := FP16_EXTRAC_MAN val in
  let m_b := FP16_EXTRAC_MAN fp_val in
  if (s_a =? 0) && (0 <? s_b) then negb (FP16_IS_ZERO val && FP16_IS_ZERO fp_val)
  else if (s_a =? 0) && (s_b =? 0) then
    if e_b <? e_a then true else if e_a =? e_b then m_b <? m_a else false
  else if (0 <? s_a) && (0 <? s_b) then
    if e_a <? e_b then true else if e_a =? e_b then m_a <? m_b else false
  else false.
Definition op_ge (val fp_val : Z) : bool :=
  if op_gt val fp_val then true else if op_eq val fp_val then true else false.
Definition op_lt (val fp_val : Z) : bool := if op_ge val fp_val then false else true.
Definition op_le (val fp_val : Z) : bool := if op_gt val fp_val then false else true.

Definition IsInf (val : Z) : Z :=
  if val & kFp16AbsMax =? kFp16ExpMask then if negb (val & kFp16SignMask =? 0) then -1 else 1 else 0.

(** * abs, max and min (ge/common/math/fp16_math.cc) *)
Definition fp16_abs (fp : Z) : Z := fp & kFp16AbsMax.
Definition fp16_max (fp1 fp2 : Z) : Z := if op_ge fp1 fp2 then fp1 else fp2.
Definition fp16_min (fp1 fp2 : Z) : Z := if op_le fp1 fp2 then fp1 else fp2.

(** * The operators: [val] is the object's pattern, the result its new one *)
Definition op_add (val fp : Z) : option Z := Fp16Add val fp.
Definition op_sub (val fp : Z) : option Z := Fp16Sub val fp.
Definition op_mul (val fp : Z) : option Z := Fp16Mul val fp.
Definition op_div (val fp : Z) : Z := Fp16Div val fp.
Definition op_add_assign (val fp : Z) : option Z := Fp16Add val fp.
Definition op_sub_assign (val fp : Z) : option Z := Fp16Sub val fp.
Definition op_mul_assign (val fp : Z) : option Z := Fp16Mul val fp.
Definition op_div_assign (val fp : Z) : Z := Fp16Div val fp.
