(* ===== verification/Fp16Round.v ===== *)
(** Values of half precision patterns and rounding to nearest.

    The reference the functions of fp16_t.cc are compared with: the value of a
    16-bit pattern as an integer multiple of 2^-24 ([half_val]), the nearest
    pattern to a rational number with ties to even ([Nearest]), the pattern that
    IEEE 754 rounding gives ([half_round]) and the proof that it is the nearest
    one.  Then what the bit manipulations of the code compute: the fields
    of a pattern, the rounding tests, the two's complement shifts. *)
From S2P Require Import Prelude Fp16.

(** * Values *)
Definition half_exp (v : Z) : Z := v / 2 ^ 10 mod 2 ^ 5.
Definition half_frac (v : Z) : Z := v mod 2 ^ 10.
Definition half_neg (v : Z) : bool := 2 ^ 15 <=? v.
Definition half_man (v : Z) : Z := half_frac v + (if half_exp v =? 0 then 0 else 2 ^ 10).
(** The magnitude and the value in units of 2^-24, the smallest positive half
    precision number.  Patterns with the exponent 31 (Inf and NaN) are valued
    as if the exponent were an ordinary one, as the code does. *)
Definition half_abs (v : Z) : Z := half_man v * 2 ^ (Z.max 1 (half_exp v) - 1).
Definition signed (neg : bool) (z : Z) : Z := if neg then - z else z.
Definition half_val (v : Z) : Z := signed (half_neg v) (half_abs v).
Definition half_finite (v : Z) : Prop := inU 16 v /\ half_exp v <> 31.

(** [v] is a finite pattern nearest to X / D, and on a tie the one with an even
    mantissa. *)
Definition Nearest (X D v : Z) : Prop :=
  half_finite v /\
  forall u, half_finite u ->
    Z.abs (X - D * half_val v) < Z.abs (X - D * half_val u) \/
    Z.abs (X - D * half_val v) = Z.abs (X - D * half_val u) /\ (half_val u = half_val v \/ Z.even v).

(** The first magnitude that rounds beyond the largest finite number, 65504. *)
Definition half_limit : Z := 65520 * 2 ^ 24.

(** * Rounding to nearest, ties to even *)
Lemma rne_scale k n d : 0 < k -> 0 < d -> rne (k * n) (k * d) = rne n d.
Proof.
  intros Hk Hd. unfold rne. rewrite Z.div_mul_cancel_l, Z.mul_mod_distr_l by lia.
  replace (k * d <? 2 * (k * (n mod d))) with (d <? 2 * (n mod d))
    by (apply eq_true_iff_eq; rewrite !Z.ltb_lt; nia).
  replace (2 * (k * (n mod d)) =? k * d) with (2 * (n mod d) =? d); [done|].
  apply eq_true_iff_eq. rewrite !Z.eqb_eq. nia.
Qed.

Lemma rne_spec n d : 0 < d ->
  2 * (n - d * rne n d) <= d /\ - d <= 2 * (n - d * rne n d) /\
  (2 * Z.abs (n - d * rne n d) = d -> Z.even (rne n d)).
Proof.
  intros Hd. unfold rne. pose proof (Z.div_mod n d ltac:(lia)). pose proof (Z.mod_pos_bound n d Hd).
  set (q := n / d) in *. set (r := n mod d) in *.
  destruct (Z.ltb_spec d (2 * r)); cbn [orb].
  - split; [nia|]. split; [nia|]. intros Ht. exfalso. nia.
  - destruct (Z.eqb_spec (2 * r) d); cbn [andb].
    + destruct (Z.odd q) eqn:Ho.
      * split; [nia|]. split; [nia|]. intros _. rewrite Z.even_add, <- Z.negb_odd, Ho. done.
      * split; [nia|]. split; [nia|]. intros _. by rewrite <- Z.negb_odd, Ho.
    + split; [nia|]. split; [nia|]. intros Ht. exfalso. nia.
Qed.

Lemma rne_unique n d q : 0 < d ->
  2 * Z.abs (n - d * q) < d \/ 2 * Z.abs (n - d * q) = d /\ Z.even q -> rne n d = q.
Proof.
  intros Hd H. destruct (rne_spec n d Hd) as (H1 & H2 & H3).
  assert (rne n d = q \/ rne n d = q + 1 \/ rne n d = q - 1) as [?|[E|E]] by nia; [done|..]; exfalso.
  - destruct H as [H|[H Hq]]; [nia|]. rewrite E in *. specialize (H3 ltac:(nia)).
    rewrite Z.even_add in H3. rewrite Is_true_true in *. rewrite Hq in H3. done.
  - destruct H as [H|[H Hq]]; [nia|]. rewrite E in *. specialize (H3 ltac:(nia)).
    rewrite Z.even_sub in H3. rewrite Is_true_true in *. rewrite Hq in H3. done.
Qed.

Lemma rne_range n d lo hi : 0 < d -> lo * d <= n <= hi * d -> lo <= rne n d <= hi.
Proof. intros Hd Hn. destruct (rne_spec n d Hd) as (H1 & H2 & _). nia. Qed.

Lemma rne_exact q d : 0 < d -> rne (q * d) d = q.
Proof. intros Hd. apply rne_unique; [done|]. left. replace (q * d - d * q) with 0 by ring. lia. Qed.

(** * The fields of a pattern *)
Definition pack (neg : bool) (e f : Z) : Z := (if neg then 2 ^ 15 else 0) + e * 2 ^ 10 + f.

Lemma half_view v : inU 16 v ->
  v = pack (half_neg v) (half_exp v) (half_frac v) /\ 0 <= half_exp v < 32 /\ 0 <= half_frac v < 2 ^ 10.
Proof.
  intros Hv. unfold inU in Hv. unfold pack, half_neg, half_exp, half_frac.
  pose proof (Z.div_mod v (2 ^ 10) ltac:(lia)) as E. pose proof (Z.mod_pos_bound v (2 ^ 10) ltac:(lia)).
  assert (0 <= v / 2 ^ 10 < 64) by (split; [apply Z.div_pos; lia|apply Z.div_lt_upper_bound; lia]).
  pose proof (Z.div_mod (v / 2 ^ 10) (2 ^ 5) ltac:(lia)).
  pose proof (Z.mod_pos_bound (v / 2 ^ 10) (2 ^ 5) ltac:(lia)).
  destruct (Z.leb_spec (2 ^ 15) v); split; try lia.
Qed.

Section Pack.
Context (neg : bool) (e f : Z) (He : 0 <= e < 32) (Hf : 0 <= f < 2 ^ 10).

Lemma pack_range : inU 16 (pack neg e f).
Proof. unfold inU, pack. destruct neg; lia. Qed.
Lemma pack_div : pack neg e f / 2 ^ 10 = (if neg then 2 ^ 5 else 0) + e.
Proof.
  unfold pack. replace (_ + _ + f) with (f + ((if neg then 2 ^ 5 else 0) + e) * 2 ^ 10) by (destruct neg; ring).
  rewrite Z.div_add, Z.div_small; lia.
Qed.
Lemma pack_exp : half_exp (pack neg e f) = e.
Proof.
  unfold half_exp. rewrite pack_div. destruct neg; [|rewrite Z.mod_small; lia].
  rewrite Z.add_comm, <- (Z.mul_1_l (2 ^ 5)) at 1. rewrite Z.mod_add, Z.mod_small; lia.
Qed.
Lemma pack_frac : half_frac (pack neg e f) = f.
Proof.
  unfold half_frac, pack. replace (_ + _ + f) with (f + ((if neg then 2 ^ 5 else 0) + e) * 2 ^ 10) by (destruct neg; ring).
  rewrite Z.mod_add, Z.mod_small; lia.
Qed.
Lemma pack_neg : half_neg (pack neg e f) = neg.
Proof. unfold half_neg, pack. destruct neg; [apply Z.leb_le|apply Z.leb_gt]; lia. Qed.
End Pack.

(** * Encoding a rounded magnitude

    A mantissa m of at most 2^11 with the exponent e has the pattern
    (e - 1) 2^10 + m, whether m is below the hidden bit (then e = 1), has it, or
    carries into the exponent. *)
Definition encode (neg : bool) (e m : Z) : Z := (if neg then 2 ^ 15 else 0) + (e - 1) * 2 ^ 10 + m.

Definition normal_man (e m : Z) : Prop := 1 <= e /\ 0 <= m <= 2 ^ 11 /\ (e = 1 \/ 2 ^ 10 <= m).

Lemma encode_pack neg e m : normal_man e m ->
  exists e' f, encode neg e m = pack neg e' f /\ 0 <= e' /\ 0 <= f < 2 ^ 10 /\
    (f + (if e' =? 0 then 0 else 2 ^ 10)) * 2 ^ (Z.max 1 e' - 1) = m * 2 ^ (e - 1) /\
    (m < 2 ^ 10 /\ e' = 0 \/ 2 ^ 10 <= m < 2 ^ 11 /\ e' = e \/ m = 2 ^ 11 /\ e' = e + 1).
Proof.
  intros (He & Hm & Hn). unfold encode, pack.
  destruct (decide (m < 2 ^ 10)); [|destruct (decide (m = 2 ^ 11)) as [->|]].
  - assert (e = 1) as -> by lia. exists 0, m. cbn [Z.eqb]. change (Z.max 1 0) with 1. lia.
  - exists (e + 1), 0. rewrite (proj2 (Z.eqb_neq (e + 1) 0)), Z.max_r by lia.
    replace (e + 1 - 1) with (Z.succ (e - 1)) by lia. rewrite Z.pow_succ_r by lia. repeat split; [lia..|nia|lia].
  - exists e, (m - 2 ^ 10). rewrite (proj2 (Z.eqb_neq e 0)), Z.max_r by lia. repeat split; [lia..|f_equal; lia|lia].
Qed.

Lemma encode_ok neg e m : normal_man e m -> encode false e m < 31 * 2 ^ 10 ->
  half_finite (encode neg e m) /\ half_val (encode neg e m) = signed neg (m * 2 ^ (e - 1)).
Proof.
  intros Hn Hlt. destruct (encode_pack neg e m Hn) as (e' & f & E & He' & Hf & Hv & Hc).
  destruct Hn as (He & Hm & _). unfold encode in Hlt.
  assert (e' < 31) by lia. rewrite E. split.
  - split; [apply pack_range; lia|]. rewrite pack_exp; lia.
  - unfold half_val, half_abs, half_man. rewrite pack_neg, pack_exp, pack_frac by lia. by rewrite Hv.
Qed.

Lemma encode_neg neg e m : normal_man e m -> encode false e m < 31 * 2 ^ 10 -> half_neg (encode neg e m) = neg.
Proof.
  intros (He & Hm & _) Hlt. unfold half_neg, encode in *. destruct neg; [apply Z.leb_le|apply Z.leb_gt]; lia.
Qed.

(** The magnitude X / D (in units of 2^-24) lies in the binade of the exponent
    e and m is its rounded mantissa. *)
Definition Rounded (X D e m : Z) : Prop :=
  1 <= e /\ (e = 1 \/ 2 ^ 10 * (D * 2 ^ (e - 1)) <= X) /\ X < 2 ^ 11 * (D * 2 ^ (e - 1)) /\ m = rne X (D * 2 ^ (e - 1)).

Lemma Rounded_normal X D e m : 0 < D -> 0 <= X -> Rounded X D e m -> normal_man e m.
Proof.
  intros HD HX (He & Hlo & Hhi & ->). assert (0 < 2 ^ (e - 1)) by (apply Z.pow_pos_nonneg; lia).
  assert (0 < D * 2 ^ (e - 1)) by (apply Z.mul_pos_pos; lia).
  split; [done|]. set (d := D * 2 ^ (e - 1)) in *.
  split; [apply rne_range; lia|]. destruct Hlo as [->|Hlo]; [by left|right].
  pose proof (rne_range X d (2 ^ 10) (2 ^ 11) ltac:(done)). lia.
Qed.

(** A pattern's magnitude is a multiple of its exponent's unit. *)
Lemma half_abs_binade u : half_finite u ->
  exists m e, half_abs u = m * 2 ^ (e - 1) /\ 0 <= m < 2 ^ 11 /\ 1 <= e.
Proof.
  intros [Hu _]. destruct (half_view u Hu) as (_ & He & Hf).
  exists (half_man u), (Z.max 1 (half_exp u)). split; [done|]. unfold half_man. destruct (half_exp u =? 0); lia.
Qed.

Lemma nearest_multiple X d m k : 0 < d -> m = rne X d ->
  Z.abs (X - d * m) < Z.abs (X - d * k) \/ Z.abs (X - d * m) = Z.abs (X - d * k) /\ (k = m \/ Z.even m).
Proof.
  intros Hd ->. destruct (rne_spec X d Hd) as (H1 & H2 & H3). set (m := rne X d) in *.
  destruct (Z.lt_trichotomy k m) as [Hk|[->|Hk]]; [|by auto|].
  - assert (d * k <= d * m - d) by nia.
    destruct (decide (2 * Z.abs (X - d * m) = d)) as [Ht|]; [specialize (H3 Ht)|]; [|left; lia].
    destruct (decide (Z.abs (X - d * m) = Z.abs (X - d * k))); [auto|left; lia].
  - assert (d * m + d <= d * k) by nia.
    destruct (decide (2 * Z.abs (X - d * m) = d)) as [Ht|]; [specialize (H3 Ht)|]; [|left; lia].
    destruct (decide (Z.abs (X - d * m) = Z.abs (X - d * k))); [auto|left; lia].
Qed.

(** No finite magnitude is nearer than the rounded one. *)
Lemma Rounded_nearest_abs X D e m u : 0 < D -> Rounded X D e m -> half_finite u ->
  Z.abs (X - D * (m * 2 ^ (e - 1))) < Z.abs (X - D * half_abs u) \/
  Z.abs (X - D * (m * 2 ^ (e - 1))) = Z.abs (X - D * half_abs u) /\ (half_abs u = m * 2 ^ (e - 1) \/ Z.even m).
Proof.
  intros HD (He & Hlo & Hhi & Hm) Hu. destruct (half_abs_binade u Hu) as (mu & eu & -> & Hmu & Heu).
  assert (0 < 2 ^ (e - 1)) by (apply Z.pow_pos_nonneg; lia). set (d := D * 2 ^ (e - 1)) in *. assert (0 < d) by (apply Z.mul_pos_pos; lia).
  replace (D * (m * 2 ^ (e - 1))) with (d * m) by (unfold d; ring).
  destruct (decide (e <= eu)) as [Hle|Hgt].
  - replace (2 ^ (eu - 1)) with (2 ^ (eu - e) * 2 ^ (e - 1)) by (rewrite <- Z.pow_add_r by lia; f_equal; lia).
    replace (D * (mu * (2 ^ (eu - e) * 2 ^ (e - 1)))) with (d * (mu * 2 ^ (eu - e))) by (unfold d; ring).
    destruct (nearest_multiple X d m (mu * 2 ^ (eu - e)) ltac:(done) Hm) as [?|[? [Hk|?]]]; [by left|right|by auto].
    split; [done|]. left. rewrite <- Hk. ring.
  - left. destruct Hlo as [->|Hlo]; [lia|].
    assert (2 ^ (e - 1) = 2 * 2 ^ (e - 2)) as E by (rewrite <- Z.pow_succ_r by lia; f_equal; lia).
    assert (2 ^ (eu - 1) <= 2 ^ (e - 2)) by (apply Z.pow_le_mono_r; lia).
    assert (mu * 2 ^ (eu - 1) < 2 ^ 10 * 2 ^ (e - 1)) by nia.
    assert (D * (mu * 2 ^ (eu - 1)) < 2 ^ 10 * d) by (unfold d; nia).
    destruct (nearest_multiple X d m (2 ^ 10) ltac:(done) Hm) as [?|[? _]]; lia.
Qed.

Lemma even_encode neg e m : Z.even (encode neg e m) = Z.even m.
Proof.
  unfold encode. rewrite !Z.even_add, Z.even_mul. change (Z.even (2 ^ 10)) with true.
  rewrite orb_true_r. destruct neg; by destruct (Z.even m).
Qed.

(** The encoded rounding of a magnitude, with the sign, is the nearest pattern. *)
Lemma Rounded_nearest neg X D e m : 0 < D -> 0 <= X -> Rounded X D e m -> encode false e m < 31 * 2 ^ 10 ->
  Nearest (signed neg X) D (encode neg e m).
Proof.
  intros HD HX HR Hlt. destruct (encode_ok neg e m) as [Hfin Hval]; [by eapply Rounded_normal|done|].
  split; [done|]. intros u Hu. rewrite Hval, even_encode. set (r := m * 2 ^ (e - 1)).
  assert (0 <= half_abs u) by (destruct (half_abs_binade u Hu) as (? & ? & -> & ? & ?); nia).
  assert (0 <= r) by (destruct (Rounded_normal X D e m HD HX HR) as (? & ? & _); unfold r; nia).
  pose proof (Rounded_nearest_abs X D e m u HD HR Hu) as Hn. fold r in Hn.
  assert (Rounded_zero : Z.abs (X - D * r) < X \/ Z.abs (X - D * r) = X /\ (r = 0 \/ Z.even m)).
  { pose proof (Rounded_nearest_abs X D e m 0 HD HR ltac:(by vm_compute)) as Hz. fold r in Hz.
    change (half_abs 0) with 0 in Hz. destruct Hz as [H'|[H' [H''|H'']]]; [left; lia|right; split; [lia|by auto]..]. }
  unfold half_val, signed. destruct neg, (half_neg u).
  - replace (- X - D * - r) with (- (X - D * r)) by ring. replace (- X - D * - half_abs u) with (- (X - D * half_abs u)) by ring.
    rewrite !Z.abs_opp. destruct Hn as [?|[? [->|?]]]; auto.
  - replace (- X - D * - r) with (- (X - D * r)) by ring. rewrite Z.abs_opp.
    assert (X + D * half_abs u = Z.abs (- X - D * half_abs u)) as <- by nia.
    destruct (decide (half_abs u = 0)) as [->|]; [|left; nia].
    rewrite Z.mul_0_r, Z.add_0_r. destruct Rounded_zero as [?|[? [->|?]]]; auto.
  - assert (X + D * half_abs u = Z.abs (X - D * - half_abs u)) as <- by nia.
    destruct (decide (half_abs u = 0)) as [->|]; [|left; nia].
    rewrite Z.mul_0_r, Z.add_0_r. destruct Rounded_zero as [?|[? [->|?]]]; auto.
  - destruct Hn as [?|[? [->|?]]]; auto.
Qed.

(** The rounding overflows exactly from [half_limit] on. *)
Lemma Rounded_limit X D e m : 0 < D -> 0 <= X -> Rounded X D e m ->
  31 * 2 ^ 10 <= encode false e m <-> D * half_limit <= X.
Proof.
  intros HD HX HR. pose proof (Rounded_normal X D e m HD HX HR) as (_ & Hm & Hn).
  destruct HR as (He & Hlo & Hhi & Em). unfold encode, half_limit.
  assert (0 < 2 ^ (e - 1)) by (apply Z.pow_pos_nonneg; lia). set (d := D * 2 ^ (e - 1)) in *. assert (0 < d) by (apply Z.mul_pos_pos; lia).
  destruct (rne_spec X d ltac:(done)) as (H1 & H2 & H3). rewrite <- Em in *.
  destruct (Z.lt_trichotomy e 30) as [Hlt|[->|Hgt]].
  - assert (2 ^ (e - 1) <= 2 ^ 28) by (apply Z.pow_le_mono_r; lia).
    assert (d <= D * 2 ^ 28) by (unfold d; nia). split; intros; [lia|nia].
  - change (30 - 1) with 29 in *. unfold d in *. split; intros.
    + assert (m = 2 ^ 11) as -> by lia.
      destruct (decide (X < D * (65520 * 2 ^ 24))); [|lia]. exfalso. lia.
    + assert (2 ^ 11 - 1 <= m) by nia. assert (2 ^ 11 <= m); [|lia].
      destruct (decide (m = 2 ^ 11 - 1)) as [->|]; [exfalso|lia].
      assert (2 * Z.abs (X - D * 2 ^ 29 * (2 ^ 11 - 1)) = D * 2 ^ 29) as Ht by lia. by specialize (H3 Ht).
  - assert (2 ^ 30 <= 2 ^ (e - 1)) by (apply Z.pow_le_mono_r; lia).
    assert (D * 2 ^ 30 <= d) by (unfold d; nia). split; intros; lia.
Qed.

(** * Bit manipulations as arithmetic *)
Lemma pow2_pos k : 0 <= k -> 0 < 2 ^ k.
Proof. intros. apply Z.pow_pos_nonneg; lia. Qed.

Lemma land_low x k : 0 <= k -> Z.land x (2 ^ k - 1) = x mod 2 ^ k.
Proof. intros. rewrite <- Z.land_ones by lia. by rewrite Z.ones_equiv, Z.sub_1_r. Qed.

Lemma land_field x n k : 0 <= n -> 0 <= k -> Z.land x ((2 ^ n - 1) * 2 ^ k) = (x / 2 ^ k) mod 2 ^ n * 2 ^ k.
Proof.
  intros Hn Hk. rewrite <- (land_low _ n), <- !Z.shiftl_mul_pow2, <- Z.shiftr_div_pow2 by lia.
  apply Z.bits_inj'. intros i Hi. rewrite Z.land_spec, !Z.shiftl_spec, Z.land_spec by lia.
  destruct (decide (i < k)).
  - rewrite !(Z.testbit_neg_r _ (i - k)) by lia. by rewrite andb_false_r.
  - rewrite Z.shiftr_spec by lia. do 2 f_equal. lia.
Qed.

Lemma test_bit x k : 0 <= k -> (0 <? Z.land x (2 ^ k)) = Z.odd (x / 2 ^ k).
Proof.
  intros Hk. pose proof (land_field x 1 k) as E. change (2 ^ 1 - 1) with 1 in E. rewrite Z.mul_1_l in E.
  rewrite E by lia. rewrite Zmod_odd. pose proof (pow2_pos k Hk).
  destruct (Z.odd _); [apply Z.ltb_lt|apply Z.ltb_ge]; lia.
Qed.

Lemma test_no_bit x k : 0 <= k -> (Z.land x (2 ^ k) =? 0) = Z.even (x / 2 ^ k).
Proof.
  intros Hk. rewrite <- Z.negb_odd, <- test_bit by done. pose proof (pow2_pos k Hk).
  assert (0 <= Z.land x (2 ^ k)) by (apply Z.land_nonneg; lia).
  destruct (Z.eqb_spec (Z.land x (2 ^ k)) 0); destruct (Z.ltb_spec 0 (Z.land x (2 ^ k))); try done; lia.
Qed.

Lemma lor_add a b k : 0 <= k -> 0 <= b < 2 ^ k -> Z.lor (a * 2 ^ k) b = a * 2 ^ k + b.
Proof.
  intros Hk Hb. assert (Z.land (a * 2 ^ k) b = 0) as E.
  { rewrite <- (Z.mod_small b (2 ^ k)) by lia. rewrite <- land_low by lia.
    rewrite (Z.land_comm b), Z.land_assoc, land_low, Z.mod_mul by (pose proof (pow2_pos k); lia). apply Z.land_0_l. }
  pose proof (Z.add_lor_land (a * 2 ^ k) b). lia.
Qed.

(** Rounding decided by the last bit kept, the first bit dropped and the rest. *)
Lemma rne_bits q h l k : 1 <= k -> 0 <= l < 2 ^ (k - 1) ->
  rne (q * 2 ^ k + Z.b2z h * 2 ^ (k - 1) + l) (2 ^ k) = q + Z.b2z (h && ((0 <? l) || Z.odd q)).
Proof.
  intros Hk Hl. pose proof (pow2_pos (k - 1) ltac:(lia)).
  assert (2 ^ k = 2 * 2 ^ (k - 1)) as E by (rewrite <- Z.pow_succ_r by lia; f_equal; lia).
  rewrite E. set (p := 2 ^ (k - 1)) in *. apply rne_unique; [lia|].
  destruct h; cbn [Z.b2z andb]; [|left; lia].
  destruct (Z.ltb_spec 0 l); cbn [orb Z.b2z]; [left; lia|]. assert (l = 0) as -> by lia. right.
  destruct (Z.odd q) eqn:Ho; cbn [Z.b2z].
  - split; [lia|]. rewrite Z.even_add, <- Z.negb_odd, Ho. done.
  - split; [lia|]. rewrite Z.add_0_r, <- Z.negb_odd, Ho. done.
Qed.

Lemma split_bits x k : 1 <= k ->
  x = x / 2 ^ k * 2 ^ k + Z.b2z (Z.odd (x / 2 ^ (k - 1))) * 2 ^ (k - 1) + x mod 2 ^ (k - 1) /\
  0 <= x mod 2 ^ (k - 1) < 2 ^ (k - 1).
Proof.
  intros Hk. pose proof (pow2_pos (k - 1) ltac:(lia)). split; [|apply Z.mod_pos_bound; lia].
  replace (2 ^ k) with (2 ^ (k - 1) * 2) by (rewrite Z.mul_comm, <- Z.pow_succ_r by lia; f_equal; lia).
  rewrite <- Z.div_div by lia. set (p := 2 ^ (k - 1)) in *.
  pose proof (Z.div_mod x p ltac:(lia)) as E1. pose proof (Zmod_odd (x / p)) as E2.
  pose proof (Z.div_mod (x / p) 2 ltac:(lia)) as E3.
  destruct (Z.odd (x / p)); cbn [Z.b2z]; nia.
Qed.

Lemma IsRoundOne_spec man len : 2 <= len <= 61 ->
  man / 2 ^ len + Z.b2z (IsRoundOne man len) = rne man (2 ^ len).
Proof.
  intros Hlen. unfold IsRoundOne.
  assert (u16 (len - 2) = len - 2) as -> by (apply wrapU_id; unfold inU; lia).
  assert (forall k, 0 <= k <= 61 -> u64 (2 ^ k) = 2 ^ k) as Hpow.
  { intros k Hk. apply wrapU_id. split; [lia|]. apply Z.pow_lt_mono_r; lia. }
  assert (u64 (4 << (len - 2)) = 2 ^ len) as ->.
  { rewrite Z.shiftl_mul_pow2 by lia. change 4 with (2 ^ 2). rewrite <- Z.pow_add_r by lia.
    rewrite Hpow by lia. f_equal. lia. }
  assert (u64 (2 << (len - 2)) = 2 ^ (len - 1)) as ->.
  { rewrite Z.shiftl_mul_pow2 by lia. rewrite <- Z.pow_succ_r by lia. rewrite Hpow by lia. f_equal. lia. }
  assert (u64 (2 ^ (len - 1) - 1) = 2 ^ (len - 1) - 1) as ->.
  { apply wrapU_id. pose proof (pow2_pos (len - 1)). pose proof (Z.pow_lt_mono_r 2 (len - 1) 64). unfold inU. lia. }
  change is_round_to_nearest with true. cbn [andb].
  rewrite !test_bit, land_low by lia. destruct (split_bits man len ltac:(lia)) as [E Hl].
  rewrite E at 5. by rewrite rne_bits by lia.
Qed.

(** The rounding of a mantissa with its dropped bits at the top of m_trunc. *)
Lemma trunc_round m t : 0 <= m -> 0 <= t < 2 ^ 32 ->
  ManRoundToNearest (0 <? Z.land m 1) (is_round_to_nearest && (0 <? Z.land t kFp32SignMask))
    (is_round_to_nearest && (0 <? Z.land t kFp32AbsMax)) m 0 = rne (m * 2 ^ 32 + t) (2 ^ 32).
Proof.
  intros Hm Ht. unfold ManRoundToNearest. change is_round_to_nearest with true. cbn [andb]. rewrite Z.shiftr_0_r.
  change 1 with (2 ^ 0) at 1. change kFp32SignMask with (2 ^ 31). change kFp32AbsMax with (2 ^ 31 - 1).
  rewrite !test_bit, land_low, Z.div_1_r by lia.
  destruct (split_bits t 32 ltac:(lia)) as [E Hl]. change (32 - 1) with 31 in *.
  rewrite (Z.div_small t) in E by lia. rewrite E at 3.
  replace (m * 2 ^ 32 + _) with (m * 2 ^ 32 + Z.b2z (Z.odd (t / 2 ^ 31)) * 2 ^ (32 - 1) + t mod 2 ^ 31) by (change (32 - 1) with 31; ring).
  rewrite rne_bits by (change (32 - 1) with 31; lia). by destruct (_ && _).
Qed.

(** * The macros on a 16-bit pattern *)
Lemma man_range v : 0 <= half_man v < 2 ^ 11.
Proof.
  unfold half_man, half_frac. pose proof (Z.mod_pos_bound v (2 ^ 10) ltac:(lia)). destruct (half_exp v =? 0); lia.
Qed.

Lemma exp_range v : 0 <= half_exp v < 32.
Proof. apply Z.mod_pos_bound. lia. Qed.

Section Pattern.
Context (v : Z) (Hv : inU 16 v).

Lemma extract_sign : FP16_EXTRAC_SIGN v = Z.b2z (half_neg v).
Proof.
  unfold FP16_EXTRAC_SIGN, half_neg, inU in *. change 1 with (2 ^ 1 - 1). rewrite land_low, Z.shiftr_div_pow2 by lia.
  assert (v / 2 ^ 15 = Z.b2z (2 ^ 15 <=? v)) as ->; [|by destruct (2 ^ 15 <=? v)].
  destruct (Z.leb_spec (2 ^ 15) v); cbn [Z.b2z].
  - symmetry. apply (Z.div_unique _ _ _ (v - 2 ^ 15)); lia.
  - apply Z.div_small. lia.
Qed.

Lemma extract_exp : FP16_EXTRAC_EXP v = half_exp v.
Proof. unfold FP16_EXTRAC_EXP. change kFp16MaxExp with (2 ^ 5 - 1). by rewrite land_low, Z.shiftr_div_pow2 by lia. Qed.

Lemma extract_man : FP16_EXTRAC_MAN v = half_man v.
Proof.
  unfold FP16_EXTRAC_MAN. pose proof extract_exp as E. unfold FP16_EXTRAC_EXP, kFp16MaxExp in E. rewrite E.
  change 0x3FF with (2 ^ 10 - 1). rewrite land_low by lia. unfold half_man, half_frac. pose proof (exp_range v).
  assert (half_exp v = 0 \/ 0 < half_exp v) as [-> | Hp] by lia; [by rewrite Z.mul_0_l, Z.lor_0_r, Z.add_0_r|].
  rewrite (proj2 (Z.ltb_lt _ _) Hp), (proj2 (Z.eqb_neq _ _)) by lia. rewrite Z.lor_comm, Z.add_comm.
  change (1 * 0x400) with (1 * 2 ^ 10). rewrite lor_add; [lia..|apply Z.mod_pos_bound; lia].
Qed.

Lemma ExtractFp16_eq : ExtractFp16 v = (Z.b2z (half_neg v), Z.max 1 (half_exp v), half_man v).
Proof.
  unfold ExtractFp16. rewrite extract_sign, extract_exp, extract_man.
  pose proof (man_range v). pose proof (exp_range v).
  assert (i16 (half_exp v) = half_exp v) as -> by (apply wrapS_id; unfold inS; lia).
  assert (u16 (half_man v) = half_man v) as -> by (apply wrapU_id; unfold inU; lia).
  assert (u16 (Z.b2z (half_neg v)) = Z.b2z (half_neg v)) as -> by (by destruct (half_neg v)).
  f_equal. f_equal. destruct (Z.eqb_spec (half_exp v) 0); lia.
Qed.

Lemma is_denorm : FP16_IS_DENORM v = (half_exp v =? 0).
Proof.
  unfold FP16_IS_DENORM. change kFp16ExpMask with ((2 ^ 5 - 1) * 2 ^ 10). rewrite land_field by lia. fold (half_exp v).
  apply eq_true_iff_eq. rewrite !Z.eqb_eq. lia.
Qed.

Lemma is_invalid : FP16_IS_INVALID v = (half_exp v =? 31).
Proof.
  unfold FP16_IS_INVALID. change kFp16ExpMask with ((2 ^ 5 - 1) * 2 ^ 10) at 1. rewrite land_field by lia. fold (half_exp v).
  apply eq_true_iff_eq. rewrite !Z.eqb_eq. unfold kFp16ExpMask. lia.
Qed.

Lemma is_zero : FP16_IS_ZERO v = (half_abs v =? 0).
Proof.
  unfold FP16_IS_ZERO. change kFp16AbsMax with (2 ^ 15 - 1). rewrite land_low by lia.
  destruct (half_view v Hv) as (E & He & Hf). unfold half_abs, half_man. revert E He Hf.
  generalize (half_neg v), (half_exp v), (half_frac v). intros neg e f -> He Hf. unfold pack.
  assert (((if neg then 2 ^ 15 else 0) + e * 2 ^ 10 + f) mod 2 ^ 15 = e * 2 ^ 10 + f) as ->.
  { destruct neg; [|rewrite Z.mod_small; lia].
    replace (2 ^ 15 + e * 2 ^ 10 + f) with (e * 2 ^ 10 + f + 1 * 2 ^ 15) by ring. rewrite Z.mod_add, Z.mod_small; lia. }
  pose proof (pow2_pos (Z.max 1 e - 1) ltac:(lia)). apply eq_true_iff_eq. rewrite !Z.eqb_eq.
  destruct (Z.eqb_spec e 0); split; intros; nia.
Qed.
End Pattern.

Lemma constructor_pack neg e m : 0 <= e < 32 -> FP16_CONSTRUCTOR (Z.b2z neg) e m = pack neg e (m mod 2 ^ 10).
Proof.
  intros He. unfold FP16_CONSTRUCTOR, pack. change kFp16MaxMan with (2 ^ 10 - 1). change kFp16ManLen with 10. change kFp16SignIndex with 15.
  pose proof (Z.mod_pos_bound m (2 ^ 10) ltac:(lia)).
  rewrite land_low, !Z.shiftl_mul_pow2 by lia. rewrite (lor_add (Z.b2z neg) (e * 2 ^ 10) 15) by lia.
  replace (Z.b2z neg * 2 ^ 15 + e * 2 ^ 10) with ((Z.b2z neg * 2 ^ 5 + e) * 2 ^ 10) by ring.
  rewrite lor_add by lia. destruct neg; cbn [Z.b2z]; lia.
Qed.

Lemma u16_pack neg e f : 0 <= e < 32 -> 0 <= f < 2 ^ 10 -> u16 (pack neg e f) = pack neg e f.
Proof. intros. by apply wrapU_id, pack_range. Qed.

(** The last steps of the arithmetic: the exponent field of a mantissa with the
    hidden bit is its exponent, of a smaller one it is 0, and an exponent beyond
    30 becomes the pattern 0x7FFF with the sign. *)
Definition half_over (neg : bool) : Z := pack neg 31 (2 ^ 10 - 1).

Lemma normalize_pack neg e m : 1 <= e < 100 ->
  (let '(e_ret, m_ret) := Fp16Normalize e m in u16 (FP16_CONSTRUCTOR (Z.b2z neg) (u16 e_ret) m_ret)) =
  if 31 <=? e then half_over neg else pack neg e (m mod 2 ^ 10).
Proof.
  intros He. unfold Fp16Normalize. change kFp16MaxExp with 31. destruct (Z.leb_spec 31 e).
  - change (u16 31) with 31. rewrite constructor_pack, u16_pack by (try apply Z.mod_pos_bound; lia). done.
  - rewrite (proj2 (Z.eqb_neq e 0)) by lia. cbn [andb].
    assert (u16 e = e) as -> by (apply wrapU_id; unfold inU; lia).
    by rewrite constructor_pack, u16_pack by (try apply Z.mod_pos_bound; lia).
Qed.

Lemma pack_encode neg e m : 2 ^ 10 <= m < 2 ^ 11 -> pack neg e (m mod 2 ^ 10) = encode neg e m.
Proof.
  intros Hm. unfold pack, encode. assert (m mod 2 ^ 10 = m - 2 ^ 10) as ->; [|lia].
  symmetry. apply (Z.mod_unique _ _ 1); lia.
Qed.

Lemma normalize_encode neg e m : 1 <= e < 100 -> 2 ^ 10 <= m < 2 ^ 11 ->
  (let '(e_ret, m_ret) := Fp16Normalize e m in u16 (FP16_CONSTRUCTOR (Z.b2z neg) (u16 e_ret) m_ret)) =
  if 31 <=? e then half_over neg else encode neg e m.
Proof. intros He Hm. by rewrite normalize_pack, pack_encode. Qed.

Lemma normalize_denormal neg m : 0 <= m <= 2 ^ 10 ->
  (let '(e_ret, m_ret) := Fp16Normalize 0 m in u16 (FP16_CONSTRUCTOR (Z.b2z neg) (u16 e_ret) m_ret)) = encode neg 1 m.
Proof.
  intros Hm. unfold Fp16Normalize. change (kFp16MaxExp <=? 0) with false. change (0 =? 0) with true. cbn [andb].
  change kFp16ManHideBit with (2 ^ 10). destruct (Z.eqb_spec m (2 ^ 10)) as [->|]; [by destruct neg|].
  change (u16 0) with 0. rewrite constructor_pack, u16_pack by (try apply Z.mod_pos_bound; lia).
  rewrite Z.mod_small by lia. unfold pack, encode. lia.
Qed.

(** * Loops *)
Lemma while_stop {S} fuel cond body (s : S) : (0 < fuel)%nat -> cond s = false -> while fuel cond body s = Some s.
Proof. intros Hf Hc. destruct fuel; [lia|]. cbn [while]. by rewrite Hc. Qed.

Lemma while_rule {S} (I : S -> Prop) (measure : S -> nat) fuel cond body s :
  I s -> (measure s < fuel)%nat ->
  (forall s, I s -> cond s = true -> I (body s) /\ (measure (body s) < measure s)%nat) ->
  exists s', while fuel cond body s = Some s' /\ I s' /\ cond s' = false.
Proof.
  intros HI Hf Hstep. revert s HI Hf. induction fuel as [|fuel IH]; intros s HI Hf; [lia|]. cbn [while].
  destruct (cond s) eqn:Hc; [|by eauto]. destruct (Hstep s HI Hc) as [HI' Hm]. apply IH; [done|lia].
Qed.

(** * Carries

    A rounded mantissa and its exponent as the loops leave them. *)
Definition carry (e r : Z) : Z * Z := if r =? 2 ^ 11 then (e + 1, 2 ^ 10) else (e, r).

Lemma carry_pack neg e r : 2 ^ 10 <= r <= 2 ^ 11 -> pack neg (carry e r).1 ((carry e r).2 mod 2 ^ 10) = encode neg e r.
Proof.
  intros Hr. unfold carry. destruct (Z.eqb_spec r (2 ^ 11)) as [->|]; cbn [fst snd]; [|apply pack_encode; lia].
  unfold pack, encode. change (2 ^ 10 mod 2 ^ 10) with 0. lia.
Qed.

Lemma carry_loop fuel r e : (2 <= fuel)%nat -> 0 <= r <= 2 ^ 11 -> 0 <= e < 100 ->
  while fuel (fun '(m, e) => (2 ^ 11 <=? m) || (e <? 0)) (fun '(m, e) => (m >> 1, i16 (e + 1))) (r, e) =
  Some ((carry e r).2, (carry e r).1).
Proof.
  intros Hf Hr He. destruct fuel as [|[|fuel]]; [lia..|]. cbn [while]. unfold carry.
  rewrite (proj2 (Z.ltb_ge e 0)), orb_false_r by lia. destruct (Z.eqb_spec r (2 ^ 11)) as [->|].
  - assert (i16 (e + 1) = e + 1) as -> by (apply wrapS_id; unfold inS; lia). cbn -[Z.add Z.ltb].
    rewrite (proj2 (Z.ltb_ge (e + 1) 0)) by lia. done.
  - by rewrite (proj2 (Z.leb_gt (2 ^ 11) r)) by lia.
Qed.

Lemma carry_over neg e r : 1 <= e < 99 -> 2 ^ 10 <= r <= 2 ^ 11 ->
  (let '(e_ret, m_ret) := Fp16Normalize (carry e r).1 (carry e r).2 in u16 (FP16_CONSTRUCTOR (Z.b2z neg) (u16 e_ret) m_ret)) =
  if 31 * 2 ^ 10 <=? encode false e r then half_over neg else encode neg e r.
Proof.
  intros He Hr. rewrite normalize_pack by (unfold carry; destruct (r =? 2 ^ 11); cbn [fst]; lia). rewrite carry_pack by done.
  assert (31 <= (carry e r).1 <-> 31 * 2 ^ 10 <= encode false e r) as Hiff.
  { unfold carry, encode. destruct (Z.eqb_spec r (2 ^ 11)); cbn [fst]; lia. }
  destruct (Z.leb_spec 31 (carry e r).1), (Z.leb_spec (31 * 2 ^ 10) (encode false e r)); try done; lia.
Qed.

(** * The order of the patterns is the order of the values *)
Lemma half_abs_lt u v :
  half_exp u < half_exp v \/ half_exp u = half_exp v /\ half_man u < half_man v -> half_abs u < half_abs v.
Proof.
  intros Hlt. pose proof (man_range u). pose proof (exp_range u). unfold half_abs.
  destruct Hlt as [Hlt|[-> Hlt]]; [|pose proof (pow2_pos (Z.max 1 (half_exp v) - 1) ltac:(lia)); nia].
  assert (2 ^ 10 <= half_man v).
  { unfold half_man, half_frac. pose proof (Z.mod_pos_bound v (2 ^ 10)). rewrite (proj2 (Z.eqb_neq (half_exp v) 0)); lia. }
  rewrite (Z.max_r 1 (half_exp v)) by lia. pose proof (pow2_pos (half_exp v - 1) ltac:(lia)).
  destruct (decide (half_exp u = 0)) as [E|].
  - assert (half_man u < 2 ^ 10).
    { unfold half_man, half_frac. pose proof (Z.mod_pos_bound u (2 ^ 10)). rewrite E. cbn [Z.eqb]. lia. }
    rewrite E. change (2 ^ (Z.max 1 0 - 1)) with 1. nia.
  - rewrite Z.max_r by lia.
    assert (2 ^ (half_exp v - 1) = 2 * 2 ^ (half_exp v - 2)) as E by (rewrite <- Z.pow_succ_r by lia; f_equal; lia).
    assert (2 ^ (half_exp u - 1) <= 2 ^ (half_exp v - 2)) by (apply Z.pow_le_mono_r; lia).
    pose proof (pow2_pos (half_exp u - 1) ltac:(lia)). nia.
Qed.

Lemma half_abs_eq u v : half_abs u = half_abs v -> half_exp u = half_exp v /\ half_man u = half_man v.
Proof.
  intros E. pose proof (half_abs_lt u v) as H1. pose proof (half_abs_lt v u) as H2.
  destruct (Z.lt_trichotomy (half_exp u) (half_exp v)) as [?|[?|?]]; [lia| |lia].
  destruct (Z.lt_trichotomy (half_man u) (half_man v)) as [?|[?|?]]; lia.
Qed.

Lemma half_val_inj u v : inU 16 u -> inU 16 v -> half_neg u = half_neg v -> half_val u = half_val v -> u = v.
Proof.
  intros Hu Hv Hn E. destruct (half_view u Hu) as (-> & _ & _), (half_view v Hv) as (-> & _ & _). rewrite Hn.
  unfold half_val in E. rewrite Hn in E. destruct (half_abs_eq u v) as [Ee Em]; [unfold signed in E; destruct (half_neg v); lia|].
  unfold half_man in Em. rewrite Ee in Em. rewrite Ee. f_equal. destruct (half_exp v =? 0); lia.
Qed.

Lemma half_finite_limit v : half_finite v -> 0 <= half_abs v < half_limit.
Proof.
  intros [Hv He]. pose proof (man_range v). pose proof (exp_range v). unfold half_abs, half_limit.
  assert (2 ^ (Z.max 1 (half_exp v) - 1) <= 2 ^ 29) by (apply Z.pow_le_mono_r; lia).
  pose proof (pow2_pos (Z.max 1 (half_exp v) - 1) ltac:(lia)). nia.
Qed.

(** A representable number is its own nearest pattern. *)
Lemma Nearest_exact v D r : 0 < D -> half_finite v -> Nearest (half_val v * D) D r -> half_neg r = half_neg v -> r = v.
Proof.
  intros HD Hv [Hr Hn] Hneg. apply half_val_inj; [apply Hr|apply Hv|done|].
  specialize (Hn v Hv). replace (half_val v * D - D * half_val v) with 0 in Hn by ring. nia.
Qed.
