(* ===== verification/Fp16Convert.v ===== *)
(** Conversions between half precision, the wider formats and the integers.

    fp16_t to float and double is exact, float and double to fp16_t is rounding to
    nearest with the code's own treatment of large values, fp16_t to an integer
    type is rounding with saturation, an integer to fp16_t is rounding to nearest. *)
From S2P Require Import Prelude Fp16 Fp16Round.

(** * IEEE formats with p mantissa bits and w exponent bits *)
Definition ieee_exp (p w x : Z) : Z := x / 2 ^ p mod 2 ^ w.
Definition ieee_frac (p x : Z) : Z := x mod 2 ^ p.
Definition ieee_neg (p w x : Z) : bool := Z.odd (x / 2 ^ (p + w)).
Definition ieee_man (p w x : Z) : Z := ieee_frac p x + (if ieee_exp p w x =? 0 then 0 else 2 ^ p).
(** The magnitude in units of the smallest positive number of the format. *)
Definition ieee_abs (p w x : Z) : Z := ieee_man p w x * 2 ^ (Z.max 1 (ieee_exp p w x) - 1).
Definition ieee_val (p w x : Z) : Z := signed (ieee_neg p w x) (ieee_abs p w x).

(** Units of 2^-24 in units of 2^-149 (float) and 2^-1074 (double). *)
Definition float_unit : Z := 2 ^ 125.
Definition double_unit : Z := 2 ^ 1050.
Definition float_val (x : Z) : Z := ieee_val 23 8 x.
Definition double_val (x : Z) : Z := ieee_val 52 11 x.

(** The pattern [r] that the assignments give a number of the value X / D and
    the sign [neg]: the nearest one below [half_limit], 0x7FFF from there to 2^17,
    the largest finite number beyond. *)
Inductive Narrows (X D : Z) (neg : bool) : Z -> Prop :=
| narrows_nearest r : Z.abs X < D * half_limit -> Nearest X D r -> half_neg r = neg -> Narrows X D neg r
| narrows_over : D * half_limit <= Z.abs X < D * 2 ^ 41 -> Narrows X D neg (half_over neg)
| narrows_max : D * 2 ^ 41 <= Z.abs X -> Narrows X D neg (encode neg 30 (2 ^ 11 - 1)).

(** * Rounding from a wider format

    The common body of the two assignments, with [b] the difference of the biases. *)
Section Narrow.
Context (p w b : Z) (Hp : 20 <= p <= 52) (Hw : 1 <= w) (Hb : 20 <= b).

Definition narrow_fields (e f : Z) : Z * Z :=
  if b + 31 <? e then (kFp16MaxExp - 1, kFp16MaxMan)
  else if e <=? b then
    (0, if b - 9 <=? e then rne ((2 ^ p + f) * 2 ^ (e - (b - 9))) (2 ^ p)
        else if (e =? b - 10) && (0 <? f) then 1 else 0)
  else let m := rne f (2 ^ (p - 10)) in (if m =? 2 ^ 10 then e - b + 1 else e - b, m).

Lemma rne_top f : 0 <= f -> rne (2 ^ p + f) (2 ^ (p - 10)) = 2 ^ 10 + rne f (2 ^ (p - 10)).
Proof.
  intros Hf. pose proof (pow2_pos (p - 10) ltac:(lia)). apply rne_unique; [done|].
  replace (2 ^ p) with (2 ^ 10 * 2 ^ (p - 10)) by (rewrite <- Z.pow_add_r by lia; f_equal; lia).
  destruct (rne_spec f (2 ^ (p - 10)) ltac:(done)) as (H1 & H2 & H3). set (d := 2 ^ (p - 10)) in *. set (q := rne f d) in *.
  replace (2 ^ 10 * d + f - d * (2 ^ 10 + q)) with (f - d * q) by ring.
  destruct (decide (2 * Z.abs (f - d * q) = d)) as [Ht|]; [right|left; lia].
  split; [done|]. rewrite Z.even_add. specialize (H3 Ht). rewrite Is_true_true in *. by rewrite H3.
Qed.

Lemma narrow_regular neg e f : b < e <= b + 31 -> 0 <= f < 2 ^ p ->
  exists m, Rounded ((f + 2 ^ p) * 2 ^ (e - 1)) (2 ^ (b + p - 10)) (e - b) m /\
    (let '(e_ret, m_ret) := narrow_fields e f in
     let '(e_ret, m_ret) := Fp16Normalize e_ret m_ret in u16 (FP16_CONSTRUCTOR (Z.b2z neg) (u16 e_ret) m_ret)) =
    if 31 * 2 ^ 10 <=? encode false (e - b) m then half_over neg else encode neg (e - b) m.
Proof.
  intros He Hf. exists (2 ^ 10 + rne f (2 ^ (p - 10))).
  assert (2 ^ (b + p - 10) * 2 ^ (e - b - 1) = 2 ^ (e - 1) * 2 ^ (p - 10)) as ED by (rewrite <- !Z.pow_add_r by lia; f_equal; lia).
  assert (2 ^ p = 2 ^ 10 * 2 ^ (p - 10)) as EP by (rewrite <- Z.pow_add_r by lia; f_equal; lia).
  pose proof (pow2_pos (p - 10) ltac:(lia)). pose proof (pow2_pos (e - 1) ltac:(lia)).
  split.
  { split; [lia|]. rewrite ED. split; [right; nia|]. split; [nia|].
    rewrite <- rne_top, (Z.mul_comm (f + _)), rne_scale by lia. f_equal. ring. }
  unfold narrow_fields. rewrite (proj2 (Z.ltb_ge _ _)), (proj2 (Z.leb_gt _ _)) by lia.
  pose proof (rne_range f (2 ^ (p - 10)) 0 (2 ^ 10) ltac:(done) ltac:(lia)) as Hr. set (r := rne f _) in *.
  destruct (Z.eqb_spec r (2 ^ 10)) as [->|Hr'].
  - rewrite normalize_pack by lia. unfold encode. change (2 ^ 10 mod 2 ^ 10) with 0.
    destruct (Z.leb_spec 31 (e - b + 1)), (Z.leb_spec (31 * 2 ^ 10) (0 + (e - b - 1) * 2 ^ 10 + (2 ^ 10 + 2 ^ 10)));
      [done|lia..|]. unfold pack. lia.
  - rewrite normalize_pack by lia. rewrite Z.mod_small by lia. unfold encode.
    destruct (Z.leb_spec 31 (e - b)), (Z.leb_spec (31 * 2 ^ 10) (0 + (e - b - 1) * 2 ^ 10 + (2 ^ 10 + r)));
      [done|lia..|]. unfold pack. lia.
Qed.

Lemma narrow_denormal neg e f : 0 <= e <= b -> 0 <= f < 2 ^ p ->
  exists m, Rounded ((f + (if e =? 0 then 0 else 2 ^ p)) * 2 ^ (Z.max 1 e - 1)) (2 ^ (b + p - 10)) 1 m /\
    (let '(e_ret, m_ret) := narrow_fields e f in
     let '(e_ret, m_ret) := Fp16Normalize e_ret m_ret in u16 (FP16_CONSTRUCTOR (Z.b2z neg) (u16 e_ret) m_ret)) =
    encode neg 1 m /\ m <= 2 ^ 10.
Proof.
  intros He Hf. unfold narrow_fields. rewrite (proj2 (Z.ltb_ge _ _)), (proj2 (Z.leb_le e b)) by lia.
  unfold Rounded. change (1 - 1) with 0. rewrite Z.pow_0_r, Z.mul_1_r.
  pose proof (pow2_pos p ltac:(lia)).
  destruct (Z.leb_spec (b - 9) e) as [Hge|Hlt].
  - rewrite (proj2 (Z.eqb_neq e 0)), Z.max_r by lia. set (k := e - (b - 9)).
    assert (2 ^ (e - 1) = 2 ^ (b - 10) * 2 ^ k) as E1 by (unfold k; rewrite <- Z.pow_add_r by lia; f_equal; lia).
    assert (2 ^ (b + p - 10) = 2 ^ (b - 10) * 2 ^ p) as E2 by (rewrite <- Z.pow_add_r by lia; f_equal; lia).
    pose proof (pow2_pos (b - 10) ltac:(lia)). pose proof (pow2_pos k ltac:(lia)).
    assert (2 ^ k <= 2 ^ 9) by (apply Z.pow_le_mono_r; lia).
    pose proof (rne_range ((2 ^ p + f) * 2 ^ k) (2 ^ p) 0 (2 ^ 10) ltac:(done) ltac:(nia)).
    exists (rne ((2 ^ p + f) * 2 ^ k) (2 ^ p)). rewrite normalize_denormal by lia.
    rewrite E1, E2. repeat split; [lia|by left|nia| |lia].
    rewrite <- (rne_scale (2 ^ (b - 10))) by lia. f_equal. ring.
  - assert (Hhalf : e = b - 10 \/ e < b - 10) by lia.
    assert (2 ^ (b + p - 10) = 2 ^ (b - 11) * (2 * 2 ^ p)) as E2.
    { rewrite <- Z.pow_succ_r, <- Z.pow_add_r by lia. f_equal. lia. }
    pose proof (pow2_pos (b - 11) ltac:(lia)).
    destruct Hhalf as [-> | Hsmall].
    + rewrite (proj2 (Z.eqb_neq (b - 10) 0)), Z.max_r, Z.eqb_refl by lia. cbn [andb].
      replace (b - 10 - 1) with (b - 11) by lia. rewrite E2.
      exists (if 0 <? f then 1 else 0). rewrite normalize_denormal by (destruct (0 <? f); lia).
      repeat split; [lia|by left|nia| |destruct (0 <? f); lia].
      rewrite (Z.mul_comm (f + _)), rne_scale by lia. symmetry. apply rne_unique; [lia|].
      destruct (Z.ltb_spec 0 f); [left; lia|right]. split; [lia|done].
    + rewrite (proj2 (Z.eqb_neq e (b - 10))) by lia. cbn [andb]. exists 0. rewrite normalize_denormal by lia.
      assert (2 ^ (Z.max 1 e - 1) <= 2 ^ (b - 12)) by (apply Z.pow_le_mono_r; lia).
      assert (2 ^ (b - 11) = 2 * 2 ^ (b - 12)) as E3 by (rewrite <- Z.pow_succ_r by lia; f_equal; lia).
      pose proof (pow2_pos (Z.max 1 e - 1) ltac:(lia)).
      assert (0 <= f + (if e =? 0 then 0 else 2 ^ p) < 2 * 2 ^ p) by (destruct (e =? 0); lia).
      set (X := (f + _) * _). assert (0 <= X < 2 ^ (b - 11) * 2 ^ p) by (unfold X; nia).
      rewrite E2. repeat split; [lia|by left|nia| |lia].
      symmetry. apply rne_unique; [nia|]. left. lia.
Qed.

Lemma narrow_large neg e f : b + 31 < e ->
  (let '(e_ret, m_ret) := narrow_fields e f in
   let '(e_ret, m_ret) := Fp16Normalize e_ret m_ret in u16 (FP16_CONSTRUCTOR (Z.b2z neg) (u16 e_ret) m_ret)) =
  encode neg 30 (2 ^ 11 - 1).
Proof. intros He. unfold narrow_fields. rewrite (proj2 (Z.ltb_lt _ _)) by lia. by destruct neg. Qed.

Definition narrow (x : Z) : Z :=
  let '(e_ret, m_ret) := narrow_fields (ieee_exp p w x) (ieee_frac p x) in
  let '(e_ret, m_ret) := Fp16Normalize e_ret m_ret in
  u16 (FP16_CONSTRUCTOR (Z.b2z (ieee_neg p w x)) (u16 e_ret) m_ret).

Lemma narrow_cases x :
  let D := 2 ^ (b + p - 10) in
  let X := ieee_abs p w x in
  let neg := ieee_neg p w x in
  0 <= X /\
  ((X < D * 2 ^ 41 /\ exists e m, Rounded X D e m /\
      narrow x = if 31 * 2 ^ 10 <=? encode false e m then half_over neg else encode neg e m) \/
   (D * 2 ^ 41 <= X /\ narrow x = encode neg 30 (2 ^ 11 - 1))).
Proof.
  cbv zeta. unfold narrow, ieee_abs, ieee_man. set (neg := ieee_neg p w x).
  assert (0 <= ieee_frac p x < 2 ^ p) as Hf by (apply Z.mod_pos_bound, pow2_pos; lia).
  assert (0 <= ieee_exp p w x) as He by (apply Z.mod_pos_bound, pow2_pos; lia).
  set (D := 2 ^ (b + p - 10)). set (f := ieee_frac p x) in *. set (e := ieee_exp p w x) in *.
  assert (ED : forall k, 0 <= k -> D * 2 ^ k = 2 ^ p * 2 ^ (b - 10 + k)).
  { intros k Hk. unfold D. rewrite <- !Z.pow_add_r by lia. f_equal. lia. }
  pose proof (pow2_pos (Z.max 1 e - 1) ltac:(lia)).
  split; [destruct (e =? 0); nia|]. assert (f + (if e =? 0 then 0 else 2 ^ p) < 2 * 2 ^ p) by (destruct (e =? 0); lia).
  destruct (decide (e <= b + 31)); [left|right].
  - split.
    + rewrite ED by lia. assert (2 ^ (Z.max 1 e - 1) <= 2 ^ (b - 10 + 40)) by (apply Z.pow_le_mono_r; lia).
      assert (2 ^ (b - 10 + 41) = 2 * 2 ^ (b - 10 + 40)) by (rewrite <- Z.pow_succ_r by lia; f_equal; lia). nia.
    + destruct (decide (e <= b)) as [Hle|].
      * destruct (narrow_denormal neg e f ltac:(lia) Hf) as (m & HR & -> & Hm). exists 1, m. split; [done|].
        by rewrite (proj2 (Z.leb_gt _ _)) by (unfold encode; lia).
      * destruct (narrow_regular neg e f ltac:(lia) Hf) as (m & HR & ->). exists (e - b), m.
        by rewrite (proj2 (Z.eqb_neq e 0)), Z.max_r by lia.
  - split; [|by rewrite narrow_large by lia]. rewrite ED, (proj2 (Z.eqb_neq e 0)), Z.max_r in * by lia.
    assert (2 ^ (b - 10 + 41) <= 2 ^ (e - 1)) by (apply Z.pow_le_mono_r; lia). nia.
Qed.

Lemma narrow_spec x : Narrows (ieee_val p w x) (2 ^ (b + p - 10)) (ieee_neg p w x) (narrow x).
Proof.
  destruct (narrow_cases x) as [HX Hc]. unfold ieee_val. set (neg := ieee_neg p w x) in *. set (X := ieee_abs p w x) in *.
  set (D := 2 ^ (b + p - 10)) in *. assert (0 < D) as HD by (apply pow2_pos; lia).
  assert (Z.abs (signed neg X) = X) as Eabs by (unfold signed; destruct neg; lia).
  destruct Hc as [[Hlt (e & m & HR & ->)]|[Hge ->]]; [|apply narrows_max; by rewrite Eabs].
  pose proof (Rounded_limit X D e m HD HX HR) as Hl. destruct (Z.leb_spec (31 * 2 ^ 10) (encode false e m)).
  - apply narrows_over. rewrite Eabs. lia.
  - apply narrows_nearest; [rewrite Eabs; lia|by apply Rounded_nearest|]. apply encode_neg; [|done]. by apply (Rounded_normal X D).
Qed.
End Narrow.

(** * The assignments are this rounding *)
Lemma round_step m len : 0 <= m -> 2 <= len <= 61 -> m / 2 ^ len < 2 ^ 12 ->
  (if IsRoundOne m len then u16 (u16 (m >> len) + 1) else u16 (m >> len)) = rne m (2 ^ len).
Proof.
  intros Hm Hl Hlt. rewrite <- IsRoundOne_spec by done. rewrite Z.shiftr_div_pow2 by lia.
  assert (0 <= m / 2 ^ len) by (apply Z.div_pos, pow2_pos; lia).
  assert (u16 (m / 2 ^ len) = m / 2 ^ len) as -> by (apply wrapU_id; unfold inU; lia).
  destruct (IsRoundOne m len); cbn [Z.b2z]; [apply wrapU_id; unfold inU; lia|lia].
Qed.

Lemma field_of x n k : 0 <= n -> 0 <= k -> Z.land x ((2 ^ n - 1) * 2 ^ k) >> k = (x / 2 ^ k) mod 2 ^ n.
Proof. intros. rewrite land_field, Z.shiftr_div_pow2, Z.div_mul by (pose proof (pow2_pos k); lia). done. Qed.

Lemma sign_of x k : 0 <= k -> u16 (Z.land x (2 ^ k) >> k) = Z.b2z (Z.odd (x / 2 ^ k)).
Proof.
  intros Hk. pose proof (field_of x 1 k) as E. change (2 ^ 1 - 1) with 1 in E. rewrite Z.mul_1_l in E.
  rewrite E, Zmod_odd by lia. by destruct (Z.odd _).
Qed.

Lemma hidden_bit m : 0 <= m <= 2 ^ 10 -> negb (Z.land m kFp16ManHideBit =? 0) = (m =? 2 ^ 10).
Proof.
  intros Hm. change kFp16ManHideBit with (2 ^ 10). rewrite test_no_bit by lia.
  destruct (Z.eqb_spec m (2 ^ 10)) as [->|]; [done|]. by rewrite Z.div_small by lia.
Qed.

(** The two branches of an assignment that round. *)
Lemma denormal_man p hide e e0 f : 20 <= p <= 52 -> 0 <= f < 2 ^ p -> 0 <= e - e0 <= 9 -> hide = 2 ^ p ->
  (let m_tmp := u64 (Z.lor hide f << (e - e0)) in
   if IsRoundOne m_tmp p then u16 (u16 (m_tmp >> p) + 1) else u16 (m_tmp >> p)) =
  rne ((2 ^ p + f) * 2 ^ (e - e0)) (2 ^ p).
Proof.
  intros Hp Hf Hk ->. cbv zeta. pose proof (lor_add 1 f p ltac:(lia) Hf) as E. rewrite !Z.mul_1_l in E. rewrite E.
  rewrite Z.shiftl_mul_pow2 by lia. pose proof (pow2_pos (e - e0) ltac:(lia)).
  assert (2 ^ (e - e0) <= 2 ^ 9) by (apply Z.pow_le_mono_r; lia).
  assert (2 ^ p <= 2 ^ 52) by (apply Z.pow_le_mono_r; lia).
  assert (u64 ((2 ^ p + f) * 2 ^ (e - e0)) = (2 ^ p + f) * 2 ^ (e - e0)) as -> by (apply wrapU_id; unfold inU; nia).
  apply round_step; [nia|lia|]. apply Z.div_lt_upper_bound; [lia|nia].
Qed.

Lemma regular_man p e b f : 20 <= p <= 52 -> 0 <= f < 2 ^ p -> 0 <= e - b <= 31 ->
  (let e_ret := i16 (e - b) in
   let need_round := IsRoundOne f (u16 (p - 10)) in
   let m_ret := u16 (f >> (p - 10)) in
   let m_ret := if need_round then u16 (m_ret + 1) else m_ret in
   (if negb (Z.land m_ret kFp16ManHideBit =? 0) then i16 (e_ret + 1) else e_ret, m_ret)) =
  (let m := rne f (2 ^ (p - 10)) in (if m =? 2 ^ 10 then e - b + 1 else e - b, m)).
Proof.
  intros Hp Hf He. cbv zeta. assert (u16 (p - 10) = p - 10) as -> by (apply wrapU_id; unfold inU; lia).
  assert (i16 (e - b) = e - b) as -> by (apply wrapS_id; unfold inS; lia).
  assert (2 ^ p = 2 ^ 10 * 2 ^ (p - 10)) as EP by (rewrite <- Z.pow_add_r by lia; f_equal; lia).
  pose proof (pow2_pos (p - 10) ltac:(lia)).
  rewrite round_step; [|lia|lia|apply Z.div_lt_upper_bound; lia].
  rewrite hidden_bit by (apply rne_range; lia).
  assert (i16 (e - b + 1) = e - b + 1) as -> by (apply wrapS_id; unfold inS; lia). done.
Qed.

Ltac same_fields :=
  match goal with |- (let '(_, _) := ?P in _) = (let '(_, _) := ?Q in _) => enough (P = Q) as -> by done end.

Lemma assign_float_eq x : assign_float x = narrow 23 8 112 x.
Proof.
  unfold assign_float, narrow, narrow_fields, ieee_neg.
  change (23 + 8) with 31. change kFp32SignMask with (2 ^ 31). change kFp32SignIndex with 31. rewrite sign_of by lia.
  change kFp32ExpMask with ((2 ^ 8 - 1) * 2 ^ 23). change kFp32ManLen with 23. rewrite field_of by lia.
  change kFp32ManMask with (2 ^ 23 - 1). rewrite land_low by lia. fold (ieee_exp 23 8 x) (ieee_frac 23 x).
  assert (0 <= ieee_frac 23 x < 2 ^ 23) as Hf by (apply Z.mod_pos_bound; lia).
  set (f := ieee_frac 23 x) in *. set (e := ieee_exp 23 8 x) in *. same_fields.
  change (112 + 31) with 0x8F. change (112 - 9) with 0x67. change (112 - 10) with 0x66.
  destruct (Z.ltb_spec 0x8F e); [done|]. destruct (Z.leb_spec e 0x70); [|apply (regular_man 23 e 112); lia].
  destruct (Z.leb_spec 0x67 e); [|done]. f_equal. rewrite (Z.lor_comm f). apply (denormal_man 23); [lia..|done].
Qed.

Lemma assign_double_eq x : assign_double x = narrow 52 11 1008 x.
Proof.
  unfold assign_double, narrow, narrow_fields, ieee_neg.
  change (52 + 11) with 63. change kFp64SignMask with (2 ^ 63). change kFp64SignIndex with 63. rewrite sign_of by lia.
  change kFp64ExpMask with ((2 ^ 11 - 1) * 2 ^ 52). change kFp64ManLen with 52. rewrite field_of by lia.
  change kFp64ManMask with (2 ^ 52 - 1). rewrite land_low by lia. fold (ieee_exp 52 11 x) (ieee_frac 52 x).
  assert (0 <= ieee_frac 52 x < 2 ^ 52) as Hf by (apply Z.mod_pos_bound; lia).
  set (f := ieee_frac 52 x) in *. set (e := ieee_exp 52 11 x) in *. same_fields.
  change (1008 + 31) with 1039. change (1008 - 9) with 0x3E7. change (1008 - 10) with 0x3E6.
  replace (0x410 <=? e) with (1039 <? e) by (apply eq_true_iff_eq; rewrite Z.ltb_lt, Z.leb_le; lia).
  destruct (Z.ltb_spec 1039 e); [done|]. destruct (Z.leb_spec e 0x3F0); [|apply (regular_man 52 e 1008); lia].
  destruct (Z.leb_spec 0x3E7 e); [|done]. f_equal. apply (denormal_man 52); [lia..|done].
Qed.

(** A half precision number comes back as itself. *)
Lemma Narrows_exact v D r : 0 < D -> half_finite v -> Narrows (half_val v * D) D (half_neg v) r -> r = v.
Proof.
  intros HD Hf HN. pose proof (half_finite_limit v Hf) as Hl.
  assert (Z.abs (half_val v * D) < D * half_limit).
  { assert (Z.abs (half_val v) = half_abs v) as E by (unfold half_val, signed; destruct (half_neg v); lia).
    rewrite Z.abs_mul, E, (Z.abs_eq D) by lia. nia. }
  assert (half_limit < 2 ^ 41) by done.
  destruct HN as [r ? Hn Hneg|?|?]; [by apply (Nearest_exact v D)|nia..].
Qed.

(** * Widening *)
Lemma hide_bit_test m : 0 <= m < 2 ^ 11 -> (Z.land m kFp16ManHideBit =? 0) = (m <? 2 ^ 10).
Proof.
  intros Hm. change kFp16ManHideBit with (2 ^ 10). rewrite test_no_bit by lia. destruct (Z.ltb_spec m (2 ^ 10)).
  - by rewrite Z.div_small by lia.
  - by rewrite <- (Z.div_unique m (2 ^ 10) 1 (m - 2 ^ 10)) by lia.
Qed.

(** The loop that moves the highest bit of a denormal mantissa to the hidden bit. *)
Lemma shift_to_hide_bit_ok e m : 1 <= e < 32 -> 0 < m < 2 ^ 11 -> e = 1 \/ 2 ^ 10 <= m ->
  exists e' m', shift_to_hide_bit e m = Some (e', m') /\ e - 10 <= e' <= e /\ 2 ^ 10 <= m' < 2 ^ 11 /\ m' = m * 2 ^ (e - e').
Proof.
  intros He Hm Hn. unfold shift_to_hide_bit.
  destruct (while_rule (fun '(e', m') => e - 10 <= e' <= e /\ 0 < m' < 2 ^ 11 /\ m' = m * 2 ^ (e - e'))
    (fun '(e', m') => Z.to_nat (e' - (e - 10))) 17
    (fun '(hf_exp, hf_man) => negb (hf_man =? 0) && (Z.land hf_man kFp16ManHideBit =? 0))
    (fun '(hf_exp, hf_man) => (i16 (hf_exp - 1), u16 (hf_man << 1))) (e, m)) as ([e' m'] & Hrun & (He' & Hm' & E) & Hc).
  - rewrite Z.sub_diag. lia.
  - lia.
  - intros [e1 m1] (He1 & Hm1 & E1). rewrite hide_bit_test by lia. intros [_ Hlt%Z.ltb_lt]%andb_true_iff.
    assert (u16 (m1 << 1) = 2 * m1) as -> by (rewrite Z.shiftl_mul_pow2 by lia; rewrite Z.mul_comm; apply wrapU_id; unfold inU; lia).
    assert (i16 (e1 - 1) = e1 - 1) as -> by (apply wrapS_id; unfold inS; lia).
    assert (e - 10 < e1).
    { destruct (decide (e1 = e - 10)) as [->|]; [exfalso|lia]. replace (e - (e - 10)) with 10 in E1 by lia. lia. }
    split; [|lia]. split; [lia|]. split; [lia|].
    replace (e - (e1 - 1)) with (Z.succ (e - e1)) by lia. rewrite Z.pow_succ_r by lia. lia.
  - exists e', m'. rewrite hide_bit_test in Hc by lia. rewrite (proj2 (Z.eqb_neq m' 0)) in Hc by lia.
    cbn [negb andb] in Hc. apply Z.ltb_ge in Hc. repeat split; [done|lia..|done].
Qed.

Lemma ieee_pack p w neg e f : 0 < p -> 0 < w -> 0 <= e < 2 ^ w -> 0 <= f < 2 ^ p ->
  let x := Z.b2z neg * 2 ^ (p + w) + e * 2 ^ p + f in
  ieee_exp p w x = e /\ ieee_frac p x = f /\ ieee_neg p w x = neg.
Proof.
  intros Hp Hw He Hf. cbv zeta. unfold ieee_exp, ieee_frac, ieee_neg. rewrite Z.pow_add_r by lia.
  set (P := 2 ^ p) in *. set (W := 2 ^ w) in *.
  replace (Z.b2z neg * (P * W) + e * P + f) with (f + (Z.b2z neg * W + e) * P) by ring.
  rewrite Z.div_add, Z.mod_add, (Z.div_small f), (Z.mod_small f), Z.add_0_l by lia.
  rewrite <- Z.div_div, Z.div_add, (Z.div_small f), Z.add_0_l by lia.
  replace (Z.b2z neg * W + e) with (e + Z.b2z neg * W) by ring.
  rewrite Z.mod_add, Z.div_add, (Z.mod_small e), (Z.div_small e) by lia. by destruct neg.
Qed.

(** A half precision number written in a wider format. *)
Lemma widen_val p w b neg e m e' m' : 20 <= p -> 5 < w -> 15 < b -> b + 40 < 2 ^ w ->
  1 <= e < 32 -> e - 10 <= e' <= e -> 2 ^ 10 <= m' < 2 ^ 11 -> m' = m * 2 ^ (e - e') ->
  ieee_val p w (Z.b2z neg * 2 ^ (p + w) + (e' + b) * 2 ^ p + (m' - 2 ^ 10) * 2 ^ (p - 10)) =
  signed neg (m * 2 ^ (e - 1)) * 2 ^ (b + p - 10).
Proof.
  intros Hp Hw Hb HB He He' Hm' E.
  assert (2 ^ p = 2 ^ 10 * 2 ^ (p - 10)) as EP by (rewrite <- Z.pow_add_r by lia; f_equal; lia).
  pose proof (pow2_pos (p - 10) ltac:(lia)).
  destruct (ieee_pack p w neg (e' + b) ((m' - 2 ^ 10) * 2 ^ (p - 10))) as (E1 & E2 & E3); [lia..|nia|].
  unfold ieee_val, ieee_abs, ieee_man. rewrite E1, E2, E3, (proj2 (Z.eqb_neq _ 0)), Z.max_r by lia.
  replace ((m' - 2 ^ 10) * 2 ^ (p - 10) + 2 ^ p) with (m' * 2 ^ (p - 10)) by lia. rewrite E.
  assert (m * 2 ^ (e - e') * 2 ^ (p - 10) * 2 ^ (e' + b - 1) = m * 2 ^ (e - 1) * 2 ^ (b + p - 10)) as ->.
  { rewrite <- !Z.mul_assoc, <- !Z.pow_add_r by lia. do 2 f_equal. lia. }
  unfold signed. destruct neg; lia.
Qed.

Lemma clear_hide_bit m : 2 ^ 10 <= m < 2 ^ 11 -> Z.land m kFp16ManMask = m - 2 ^ 10.
Proof.
  intros Hm. change kFp16ManMask with (2 ^ 10 - 1). rewrite land_low by lia.
  symmetry. apply (Z.mod_unique _ _ 1); lia.
Qed.

(** The three fields put together. *)
Lemma lor_fields p w neg e f : 0 < p -> 0 < w -> 0 <= e < 2 ^ w -> 0 <= f < 2 ^ p ->
  Z.lor (Z.lor (Z.b2z neg * 2 ^ (p + w)) (e * 2 ^ p)) f = Z.b2z neg * 2 ^ (p + w) + e * 2 ^ p + f.
Proof.
  intros Hp Hw He Hf. pose proof (pow2_pos p ltac:(lia)). rewrite (lor_add (Z.b2z neg)) by (rewrite ?Z.pow_add_r by lia; nia).
  rewrite Z.pow_add_r by lia.
  replace (Z.b2z neg * (2 ^ p * 2 ^ w) + e * 2 ^ p) with ((Z.b2z neg * 2 ^ w + e) * 2 ^ p) by ring.
  rewrite lor_add by lia. ring.
Qed.

(** The normalised exponent and mantissa of a pattern that is not zero. *)
Lemma half_normal v : inU 16 v -> half_man v <> 0 ->
  let e := Z.max 1 (half_exp v) in
  1 <= e < 32 /\ exists e' m', shift_to_hide_bit e (half_man v) = Some (e', m') /\ e - 10 <= e' <= e /\
    2 ^ 10 <= m' < 2 ^ 11 /\ m' = half_man v * 2 ^ (e - e').
Proof.
  intros Hv Hz. cbv zeta. pose proof (man_range v). pose proof (exp_range v). split; [lia|].
  apply shift_to_hide_bit_ok; [lia..|].
  unfold half_man, half_frac. pose proof (Z.mod_pos_bound v (2 ^ 10)). destruct (Z.eqb_spec (half_exp v) 0); lia.
Qed.

Lemma Fp16ToFloat_ok v : inU 16 v ->
  exists x, Fp16ToFloat v = Some x /\ float_val x = half_val v * float_unit /\ ieee_neg 23 8 x = half_neg v /\ inU 32 x.
Proof.
  intros Hv. unfold Fp16ToFloat. rewrite ExtractFp16_eq by done. unfold half_val, half_abs.
  destruct (decide (half_man v = 0)) as [->|Hz]; [cbn; destruct (half_neg v); by eexists|].
  destruct (half_normal v Hv Hz) as (He & e' & m' & -> & He' & Hm' & E). cbn [mbind option_bind].
  generalize dependent (Z.max 1 (half_exp v)). intros e He He' E. generalize (half_neg v). intros neg.
  rewrite (proj2 (Z.eqb_neq m' 0)), clear_hide_bit by lia. eexists. split; [done|]. unfold FP32_CONSTRUCTOR.
  change kFp16ExpBias with 15. change kFp32ExpBias with 127. change (kFp32ManLen - kFp16ManLen) with 13.
  change kFp32SignIndex with (23 + 8). change kFp32ManLen with 23. change kFp32MaxMan with (2 ^ 23 - 1).
  rewrite !Z.shiftl_mul_pow2 by lia.
  assert (u32 (e' - 15 + 127) = e' + 112) as -> by (unfold u32; rewrite wrapU_id; unfold inU; lia).
  rewrite land_low by lia. unfold u32. rewrite !wrapU_id by (unfold inU; destruct neg; cbn [Z.b2z]; lia).
  rewrite Z.mod_small, lor_fields by lia. split; [|split].
  - apply (widen_val 23 8 112 neg e (half_man v) e' m'); lia.
  - apply (ieee_pack 23 8 neg (e' + 112) ((m' - 2 ^ 10) * 2 ^ 13)); lia.
  - unfold inU. destruct neg; cbn [Z.b2z]; lia.
Qed.

Lemma Fp16ToDouble_ok v : inU 16 v ->
  exists x, Fp16ToDouble v = Some x /\ double_val x = half_val v * double_unit /\ ieee_neg 52 11 x = half_neg v /\ inU 64 x.
Proof.
  intros Hv. unfold Fp16ToDouble. rewrite ExtractFp16_eq by done. unfold half_val, half_abs.
  destruct (decide (half_man v = 0)) as [->|Hz]; [cbn; destruct (half_neg v); by eexists|].
  destruct (half_normal v Hv Hz) as (He & e' & m' & -> & He' & Hm' & E). cbn [mbind option_bind].
  generalize dependent (Z.max 1 (half_exp v)). intros e He He' E. generalize (half_neg v). intros neg.
  rewrite (proj2 (Z.eqb_neq m' 0)), clear_hide_bit by lia. eexists. split; [done|].
  change kFp16ExpBias with 15. change kFp64ExpBias with 1023. change (kFp64ManLen - kFp16ManLen) with 42.
  change kFp64SignIndex with (52 + 11). change kFp64ManLen with 52.
  rewrite !Z.shiftl_mul_pow2 by lia.
  assert (u64 (e' - 15 + 1023) = e' + 1008) as -> by (unfold u64; rewrite wrapU_id; unfold inU; lia).
  unfold u64. rewrite !wrapU_id by (unfold inU; destruct neg; cbn [Z.b2z]; lia).
  rewrite lor_fields by lia. split; [|split].
  - apply (widen_val 52 11 1008 neg e (half_man v) e' m'); lia.
  - apply (ieee_pack 52 11 neg (e' + 1008) ((m' - 2 ^ 10) * 2 ^ 42)); lia.
  - unfold inU. destruct neg; cbn [Z.b2z]; lia.
Qed.
