(* ===== verification/Fp16Integers.v ===== *)
(** Conversions of half precision numbers to the integer types and back.

    Every conversion to an integer type rounds to nearest, ties to even, and
    saturates; every assignment from an integer rounds to nearest, with the
    exceptions the theorems name. *)
From S2P Require Import Prelude Fp16 Fp16Round.

(** * The reference *)
Definition clamp (lo hi z : Z) : Z := Z.max lo (Z.min hi z).
Definition half_round_int (v : Z) : Z := rne (half_abs v) (2 ^ 24).
(** Inf and NaN go to the end of the range their sign points to. *)
Definition half_to_int (lo hi v : Z) : Z :=
  if half_exp v =? 31 then (if half_neg v then lo else hi) else clamp lo hi (signed (half_neg v) (half_round_int v)).

(** * The loop that moves the exponent to the bias *)
Definition upward (overflow : Z -> bool) : Prop := forall a b, a <= b -> overflow a = true -> overflow b = true.

Definition align_inv (overflow : Z -> bool) (e m : Z) (a : align) : Prop :=
  (15 < e /\ 15 <= a_hf_e a <= e /\ a_long_int_m a = m * 2 ^ (e - a_hf_e a) /\ a_shift_out a = 0 /\
   a_overflow_flag a = (a_hf_e a <? e) && overflow (m * 2 ^ (e - a_hf_e a))) \/
  (e <= 15 /\ e <= a_hf_e a <= 15 /\ a_long_int_m a = m /\ a_shift_out a = a_hf_e a - e /\ a_overflow_flag a = false).

Lemma align_step_inv overflow e m a : 0 <= e <= 31 -> 0 <= m < 2 ^ 11 -> align_inv overflow e m a ->
  a_hf_e a <> 15 -> a_overflow_flag a = false ->
  align_inv overflow e m (align_step overflow a) /\ Z.abs (a_hf_e (align_step overflow a) - 15) < Z.abs (a_hf_e a - 15).
Proof.
  intros He Hm HI Hne Hf. unfold align_step. change kFp16ExpBias with 15.
  destruct HI as [(H15 & Hr & Hl & Hs & _)|(H15 & Hr & Hl & Hs & _)].
  - rewrite (proj2 (Z.ltb_lt 15 _)) by lia. set (h := a_hf_e a) in *.
    assert (u16 (h - 1) = h - 1) as -> by (apply wrapU_id; unfold inU; lia).
    assert (2 ^ (e - h + 1) = 2 * 2 ^ (e - h)) as E2 by (rewrite <- Z.pow_succ_r by lia; f_equal; lia).
    assert (0 < 2 ^ (e - h) <= 2 ^ 16) by (split; [apply pow2_pos; lia|apply Z.pow_le_mono_r; lia]).
    assert (u64 (a_long_int_m a << 1) = m * 2 ^ (e - (h - 1))) as ->.
    { rewrite Hl, Z.shiftl_mul_pow2 by lia. replace (e - (h - 1)) with (e - h + 1) by lia. rewrite E2.
      unfold u64. rewrite wrapU_id; [ring|unfold inU; nia]. }
    split; [left|cbn; lia]. cbn. rewrite (proj2 (Z.ltb_lt (h - 1) e)) by lia. repeat split; lia.
  - rewrite (proj2 (Z.ltb_ge 15 _)) by lia. set (h := a_hf_e a) in *.
    assert (u16 (h + 1) = h + 1) as -> by (apply wrapU_id; unfold inU; lia).
    assert (u16 (a_shift_out a + 1) = h - e + 1) as -> by (rewrite Hs; apply wrapU_id; unfold inU; lia).
    split; [right|cbn; lia]. cbn. repeat split; try lia. done.
Qed.

Lemma align_ok overflow e m : upward overflow -> 0 <= e < 31 -> 0 <= m < 2 ^ 11 ->
  exists a, align_to_bias overflow e m = Some a /\
    a_overflow_flag a = (15 <? e) && overflow (m * 2 ^ (e - 15)) /\
    (a_overflow_flag a = false -> a_long_int_m a = m * 2 ^ Z.max 0 (e - 15) /\ a_shift_out a = Z.max 0 (15 - e)).
Proof.
  intros Hup He Hm. unfold align_to_bias.
  destruct (while_rule (align_inv overflow e m) (fun a => Z.to_nat (Z.abs (a_hf_e a - 15))) 33
    (fun a => negb (a_hf_e a =? kFp16ExpBias) && negb (a_overflow_flag a)) (align_step overflow) (mkAlign e m 0 false))
    as (a & Hrun & HI & Hc).
  - destruct (decide (15 < e)); [left|right]; cbn; [|lia].
    rewrite Z.sub_diag, Z.ltb_irrefl, Z.mul_1_r. repeat split; lia.
  - cbn. lia.
  - intros a HI [Hne Hf]%andb_true_iff. apply negb_true_iff in Hne, Hf. apply Z.eqb_neq in Hne.
    destruct (align_step_inv overflow e m a ltac:(lia) Hm HI Hne Hf). split; [done|lia].
  - exists a. split; [done|]. change kFp16ExpBias with 15 in Hc.
    destruct HI as [(H15 & Hr & Hl & Hs & Hf)|(H15 & Hr & Hl & Hs & Hf)].
    + rewrite (proj2 (Z.ltb_lt 15 e)) by lia. cbn [andb].
      destruct (Z.eqb_spec (a_hf_e a) 15) as [E|Hne].
      * rewrite E in *. rewrite (proj2 (Z.ltb_lt 15 e)) in Hf by lia. rewrite !Z.max_r, Z.max_l by lia. by auto.
      * apply negb_false_iff in Hc. rewrite Hc in Hf. symmetry in Hf. apply andb_true_iff in Hf as [_ Hf].
        rewrite Hc. split; [|done]. symmetry. eapply Hup; [|exact Hf].
        assert (2 ^ (e - a_hf_e a) <= 2 ^ (e - 15)) by (apply Z.pow_le_mono_r; lia). nia.
    + rewrite Hf in *. cbn [negb] in Hc. rewrite andb_true_r in Hc. apply negb_false_iff, Z.eqb_eq in Hc.
      rewrite (proj2 (Z.ltb_ge 15 e)) by lia. split; [done|]. intros _. rewrite Z.max_l, Z.max_r by lia. lia.
Qed.

(** The rounded magnitude from the aligned mantissa. *)
Lemma align_round e m : 0 <= e < 31 -> 0 <= m < 2 ^ 11 -> e <> 0 \/ m < 2 ^ 10 ->
  let long := m * 2 ^ Z.max 0 (e - 15) in
  let shift := Z.max 0 (15 - e) in
  rne (m * 2 ^ (Z.max 1 e - 1)) (2 ^ 24) = long / 2 ^ (10 + shift) + Z.b2z (IsRoundOne long (u16 (shift + 10))).
Proof.
  intros He Hm Hz. cbv zeta. set (shift := Z.max 0 (15 - e)).
  assert (u16 (shift + 10) = 10 + shift) as -> by (unfold u16; rewrite wrapU_id; unfold inU; lia).
  rewrite IsRoundOne_spec by lia. destruct (decide (e = 0)) as [->|].
  - change shift with 15. change (2 ^ (Z.max 1 0 - 1)) with 1. change (2 ^ Z.max 0 (0 - 15)) with 1.
    rewrite Z.mul_1_r. change (10 + 15) with 25. rewrite (rne_unique m (2 ^ 24) 0), (rne_unique m (2 ^ 25) 0) by lia. done.
  - rewrite Z.max_r by lia. destruct (decide (15 < e)).
    + replace shift with 0 by lia. rewrite Z.max_r by lia. rewrite <- (rne_scale (2 ^ 14) (m * 2 ^ (e - 15))) by lia.
      f_equal. replace (e - 1) with (14 + (e - 15)) by lia. rewrite Z.pow_add_r by lia. ring.
    + rewrite Z.max_l by lia. rewrite Z.mul_1_r. pose proof (pow2_pos (e - 1) ltac:(lia)).
      rewrite <- (rne_scale (2 ^ (e - 1)) m) by (try apply pow2_pos; lia). f_equal; [ring|].
      rewrite <- Z.pow_add_r by lia. f_equal. lia.
Qed.

(** A mantissa shifted far to the left has nothing to round. *)
Lemma align_rounds_small e m : 0 <= e < 31 -> 0 <= m < 2 ^ 11 ->
  IsRoundOne (m * 2 ^ Z.max 0 (e - 15)) (u16 (Z.max 0 (15 - e) + 10)) = true -> m * 2 ^ Z.max 0 (e - 15) < 2 ^ 20.
Proof.
  intros He Hm Hr. destruct (decide (e < 25)).
  - assert (2 ^ Z.max 0 (e - 15) <= 2 ^ 9) by (apply Z.pow_le_mono_r; lia). nia.
  - rewrite (Z.max_r 0 (e - 15)), (Z.max_l 0 (15 - e)) in * by lia. change (u16 (0 + 10)) with 10 in Hr.
    pose proof (IsRoundOne_spec (m * 2 ^ (e - 15)) 10 ltac:(lia)) as E. rewrite Hr in E. cbn [Z.b2z] in E.
    replace (m * 2 ^ (e - 15)) with (m * 2 ^ (e - 25) * 2 ^ 10) in E
      by (rewrite <- Z.mul_assoc, <- Z.pow_add_r by lia; do 2 f_equal; lia).
    rewrite rne_exact, Z.div_mul in E by lia. lia.
Qed.

(** What the loop leaves for a finite pattern. *)
Lemma half_align overflow v : upward overflow -> half_finite v ->
  exists a, align_to_bias overflow (half_exp v) (half_man v) = Some a /\
    ((15 < half_exp v /\ overflow (half_man v * 2 ^ (half_exp v - 15)) = true /\ a_overflow_flag a = true /\
      half_round_int v = rne (half_man v * 2 ^ (half_exp v - 15)) (2 ^ 10)) \/
     (a_overflow_flag a = false /\
      (half_exp v <= 15 /\ a_long_int_m a < 2 ^ 11 \/ overflow (a_long_int_m a) = false) /\
      (0 <= a_long_int_m a < 2 ^ 26 /\
       (IsRoundOne (a_long_int_m a) (u16 (a_shift_out a + 10)) = true -> a_long_int_m a < 2 ^ 20)) /\
      0 <= a_shift_out a <= 15 /\
      half_round_int v = a_long_int_m a / 2 ^ (10 + a_shift_out a) +
                         Z.b2z (IsRoundOne (a_long_int_m a) (u16 (a_shift_out a + 10))))).
Proof.
  intros Hup [Hv H31]. pose proof (exp_range v) as He. pose proof (man_range v) as Hm.
  assert (half_exp v <> 0 \/ half_man v < 2 ^ 10) as Hz.
  { unfold half_man, half_frac. pose proof (Z.mod_pos_bound v (2 ^ 10)). destruct (Z.eqb_spec (half_exp v) 0); lia. }
  pose proof (align_round (half_exp v) (half_man v) ltac:(lia) Hm Hz) as ER. fold (half_abs v) (half_round_int v) in ER.
  destruct (align_ok overflow (half_exp v) (half_man v) Hup ltac:(lia) Hm) as (a & Ha & Hf & Hl). exists a. split; [done|].
  destruct (a_overflow_flag a).
  - symmetry in Hf. apply andb_true_iff in Hf as [H15%Z.ltb_lt Ho]. left. repeat split; try done.
    unfold half_round_int, half_abs. rewrite Z.max_r by lia.
    rewrite <- (rne_scale (2 ^ 14) _ (2 ^ 10)) by lia.
    replace (half_exp v - 1) with (14 + (half_exp v - 15)) by lia. rewrite Z.pow_add_r by lia. f_equal. ring.
  - destruct (Hl eq_refl) as [E1 E2]. rewrite E1, E2. right. split; [done|].
    split; [|split; [split; [|by apply align_rounds_small; [lia|]]|split; [lia|done]]].
    + symmetry in Hf. destruct (Z.ltb_spec 15 (half_exp v)); [right|left].
      * by rewrite Z.max_r by lia.
      * split; [done|]. rewrite Z.max_l by lia. lia.
    + assert (0 < 2 ^ Z.max 0 (half_exp v - 15) <= 2 ^ 15) by (split; [apply pow2_pos; lia|apply Z.pow_le_mono_r; lia]). nia.
Qed.

(** The sign bit and the two's complement of a magnitude of w bits. *)
Lemma sign_result w (neg : bool) m : 2 <= w -> 0 <= m <= 2 ^ (w - 1) - (if neg then 0 else 1) ->
  let m_ret := if neg then wrapU w (Z.lnot m + 1) else m in
  wrapS w (Z.lor ((if m_ret =? 0 then 0 else Z.b2z neg) << (w - 1)) m_ret) = signed neg m /\
  0 <= Z.lor ((if m_ret =? 0 then 0 else Z.b2z neg) << (w - 1)) m_ret < 2 ^ w.
Proof.
  intros Hw Hm. cbv zeta.
  assert (2 ^ w = 2 * 2 ^ (w - 1)) as E by (rewrite <- Z.pow_succ_r by lia; f_equal; lia).
  pose proof (pow2_pos (w - 1) ltac:(lia)). destruct neg; cbn [signed].
  - replace (Z.lnot m + 1) with (- m) by (unfold Z.lnot; lia). destruct (decide (m = 0)) as [->|].
    + rewrite Z.opp_0. change (wrapU w 0) with (0 mod 2 ^ w). rewrite Z.mod_0_l by lia. cbn [Z.eqb]. rewrite Z.shiftl_0_l, Z.lor_0_l.
      split; [|lia]. apply wrapS_id; unfold inS; lia.
    + assert (wrapU w (- m) = 2 ^ w - m) as ->.
      { unfold wrapU. symmetry. apply (Z.mod_unique _ _ (-1)); lia. }
      rewrite (proj2 (Z.eqb_neq _ 0)) by lia. rewrite Z.shiftl_mul_pow2 by lia. cbn [Z.b2z].
      replace (2 ^ w - m) with (1 * 2 ^ (w - 1) + (2 ^ (w - 1) - m)) by lia.
      destruct (decide (m = 2 ^ (w - 1))) as [-> |].
      * rewrite Z.sub_diag, Z.add_0_r, Z.lor_diag. split; [|lia]. unfold wrapS. rewrite Z.mul_1_l, <- Z.add_diag in *.
        replace (2 ^ (w - 1) + 2 ^ (w - 1)) with (1 * 2 ^ w) by lia. rewrite Z.mod_mul; lia.
      * rewrite <- (lor_add 1) by lia. rewrite Z.lor_assoc, Z.lor_diag, lor_add by lia. split; [|lia].
        unfold wrapS. replace (1 * 2 ^ (w - 1) + (2 ^ (w - 1) - m) + 2 ^ (w - 1)) with (2 ^ (w - 1) - m + 1 * 2 ^ w) by lia.
        rewrite Z.mod_add, Z.mod_small; lia.
  - cbn [Z.b2z]. assert ((if m =? 0 then 0 else 0) = 0) as -> by (by destruct (m =? 0)). rewrite Z.shiftl_0_l, Z.lor_0_l.
    split; [|lia]. apply wrapS_id; unfold inS; lia.
Qed.

(** * The conversions *)
Lemma upward_int8 s : upward (int8_overflow s).
Proof. intros a b Hab. unfold int8_overflow. destruct (s =? 1); cbn [andb orb negb]; rewrite ?orb_false_r, ?Z.leb_le; lia. Qed.
Lemma upward_int16 s : upward (int16_overflow s).
Proof.
  intros a b Hab. unfold int16_overflow. destruct (s =? 1); cbn [andb orb negb]; rewrite ?orb_false_r, ?Z.leb_le, ?Z.ltb_lt; lia.
Qed.
Lemma int8_overflow_eq (neg : bool) l : int8_overflow (Z.b2z neg) l = ((if neg then 0x20000 else 0x1FFFF) <=? l).
Proof. unfold int8_overflow. destruct neg; [apply orb_false_r|done]. Qed.
Lemma int16_overflow_eq (neg : bool) l : int16_overflow (Z.b2z neg) l = ((if neg then 0x2000001 else 0x1FFFFFF) <=? l).
Proof.
  unfold int16_overflow. destruct neg; [|done]. cbn [Z.b2z]. change (1 =? 1) with true. cbn [andb negb orb]. rewrite orb_false_r.
  apply eq_true_iff_eq. rewrite Z.ltb_lt, Z.leb_le. lia.
Qed.
Lemma upward_leb c : upward (Z.leb c).
Proof. intros a b Hab. rewrite !Z.leb_le. lia. Qed.
Lemma upward_never : upward never.
Proof. done. Qed.

Lemma wrap_fields v : inU 16 v ->
  u8 (FP16_EXTRAC_SIGN v) = Z.b2z (half_neg v) /\ u16 (FP16_EXTRAC_SIGN v) = Z.b2z (half_neg v) /\
  u32 (FP16_EXTRAC_SIGN v) = Z.b2z (half_neg v) /\
  u16 (FP16_EXTRAC_EXP v) = half_exp v /\ u16 (FP16_EXTRAC_MAN v) = half_man v.
Proof.
  intros Hv. rewrite extract_sign, extract_exp, extract_man by done.
  pose proof (exp_range v). pose proof (man_range v).
  repeat split; try (by destruct (half_neg v)); apply wrapU_id; unfold inU; lia.
Qed.

(** A denormal number rounds to zero. *)
Lemma denormal_round v : half_exp v = 0 -> half_round_int v = 0.
Proof.
  intros E. unfold half_round_int, half_abs, half_man, half_frac. rewrite E. cbn [Z.eqb].
  change (2 ^ (Z.max 1 0 - 1)) with 1. pose proof (Z.mod_pos_bound v (2 ^ 10)). apply rne_unique; lia.
Qed.
Lemma denormal_to_int lo hi v : half_exp v = 0 -> lo <= 0 <= hi -> half_to_int lo hi v = 0.
Proof.
  intros E Hr. unfold half_to_int. rewrite denormal_round, E by done. change (0 =? 31) with false. cbn iota.
  unfold clamp, signed. destruct (half_neg v); lia.
Qed.

Lemma finite_to_int lo hi v : half_exp v <> 31 -> half_to_int lo hi v = clamp lo hi (signed (half_neg v) (half_round_int v)).
Proof. intros H. unfold half_to_int. by rewrite (proj2 (Z.eqb_neq _ _)) by done. Qed.
Lemma invalid_to_int lo hi v : half_exp v = 31 -> half_to_int lo hi v = if half_neg v then lo else hi.
Proof. intros H. unfold half_to_int. by rewrite H. Qed.

(** The dropped bits shifted out, reduced to a type that holds the result. *)
Lemma shifted_out w mask long shift :
  mask = 2 ^ w - 1 -> 0 <= w -> 0 <= shift <= 15 -> 0 <= long < 2 ^ (w + 10) ->
  wrapU w (Z.land (long >> (kFp16ManLen + shift)) mask) = long / 2 ^ (10 + shift) /\
  0 <= long / 2 ^ (10 + shift) < 2 ^ w.
Proof.
  intros -> Hw Hs Hl. change kFp16ManLen with 10. rewrite land_low, Z.shiftr_div_pow2 by lia.
  assert (0 <= long / 2 ^ (10 + shift) < 2 ^ w).
  { split; [apply Z.div_pos; [lia|apply pow2_pos; lia]|]. apply Z.div_lt_upper_bound; [apply pow2_pos; lia|].
    rewrite <- Z.pow_add_r by lia. pose proof (Z.pow_le_mono_r 2 (w + 10) (10 + shift + w)). lia. }
  split; [|done]. by rewrite Z.mod_small, wrapU_id.
Qed.

Lemma GetUint8ValByMan_ok (neg : bool) long shift : 0 <= shift <= 15 -> 0 <= long < 2 ^ 17 ->
  i8 (GetUint8ValByMan (Z.b2z neg) long shift) =
  clamp (- 2 ^ 7) (2 ^ 7 - 1) (signed neg (long / 2 ^ (10 + shift) + Z.b2z (IsRoundOne long (u16 (shift + 10))))).
Proof.
  intros Hs Hl. unfold GetUint8ValByMan. change (shift + kFp16ManLen) with (shift + 10).
  destruct (shifted_out 8 kBitLen8Max long shift) as [E _]; [done|lia..|]. unfold u8. rewrite E. clear E.
  assert (0 <= long / 2 ^ (10 + shift) < 2 ^ 7) as Hq.
  { destruct (shifted_out 7 (2 ^ 7 - 1) long shift) as [_ ?]; [done|lia..|done]. }
  set (q := long / 2 ^ (10 + shift)) in *. set (r := IsRoundOne long (u16 (shift + 10))).
  set (m := if r && _ then wrapU 8 (q + 1) else q).
  assert (m = if neg then q + Z.b2z r else Z.min (2 ^ 7 - 1) (q + Z.b2z r)) as Em.
  { unfold m. rewrite wrapU_id by (unfold inU; lia). change kInt8Max with 127.
    destruct neg, r; cbn [Z.b2z andb orb Z.eqb]; try lia.
    - rewrite (proj2 (Z.leb_le q 127)) by lia. done.
    - rewrite orb_false_r. destruct (Z.ltb_spec q 127); lia. }
  assert (0 <= m <= 2 ^ 7 - (if neg then 0 else 1)) as Hm by (rewrite Em; destruct neg, r; cbn [Z.b2z]; lia).
  clearbody m. destruct (sign_result 8 neg m ltac:(lia) Hm) as [Hr Hb]. cbv zeta in *.
  assert (negb (Z.b2z neg =? 0) = neg) as -> by (by destruct neg).
  change (8 - 1) with 7 in *. rewrite (wrapU_id 8 (Z.lor _ _)) by done. unfold i8. rewrite Hr, Em.
  unfold clamp, signed. destruct neg, r; cbn [Z.b2z]; lia.
Qed.

Lemma Fp16ToInt8_ok v : inU 16 v -> Fp16ToInt8 v = Some (half_to_int (- 2 ^ 7) (2 ^ 7 - 1) v).
Proof.
  intros Hv. unfold Fp16ToInt8. destruct (wrap_fields v Hv) as (-> & _ & _ & -> & ->). rewrite is_denorm, is_invalid by done.
  destruct (Z.eqb_spec (half_exp v) 0); [by rewrite denormal_to_int|].
  destruct (Z.eqb_spec (half_exp v) 31) as [E|].
  { cbn. rewrite invalid_to_int by done. by destruct (half_neg v). }
  destruct (half_align (int8_overflow (Z.b2z (half_neg v))) v (upward_int8 _) (conj Hv ltac:(done)))
    as (a & -> & [(H15 & Ho & Hf & ER)|(Hf & Ho & [Hl Hrs] & Hs & ER)]); cbn [mbind option_bind]; rewrite Hf, finite_to_int, ER by done; f_equal.
  - rewrite int8_overflow_eq, Z.leb_le in Ho.
    destruct (rne_spec (half_man v * 2 ^ (half_exp v - 15)) (2 ^ 10) ltac:(lia)) as (H1 & H2 & _).
    unfold clamp, signed. destruct (half_neg v); cbn [Z.b2z];
      [change (i8 (u8 (kInt8Max + 1))) with (- 2 ^ 7)|change (i8 (u8 (kInt8Max + 0))) with (2 ^ 7 - 1)]; lia.
  - apply GetUint8ValByMan_ok; [done|]. rewrite int8_overflow_eq, Z.leb_gt in Ho. destruct (half_neg v); lia.
Qed.

Lemma round_capped w q (r : bool) : 0 < w -> 0 <= q < 2 ^ w ->
  (if r && negb (q =? 2 ^ w - 1) then wrapU w (q + 1) else q) = Z.min (2 ^ w - 1) (q + Z.b2z r).
Proof.
  intros Hw Hq. destruct r; cbn [andb Z.b2z]; [|lia].
  destruct (Z.eqb_spec q (2 ^ w - 1)) as [->|]; cbn [negb]; [lia|]. rewrite wrapU_id; unfold inU; lia.
Qed.

Lemma Fp16ToUInt8_ok v : inU 16 v -> Fp16ToUInt8 v = Some (half_to_int 0 (2 ^ 8 - 1) v).
Proof.
  intros Hv. unfold Fp16ToUInt8. destruct (wrap_fields v Hv) as (-> & _ & _ & -> & ->). rewrite is_denorm, is_invalid by done.
  destruct (Z.eqb_spec (half_exp v) 0); [by rewrite denormal_to_int|].
  destruct (Z.eqb_spec (half_exp v) 31) as [E|].
  { cbn. rewrite invalid_to_int by done. by destruct (half_neg v). }
  destruct (half_align (Z.leb 0x40000) v (upward_leb _) (conj Hv ltac:(done)))
    as (a & -> & [(H15 & Ho & Hf & ER)|(Hf & Ho & [Hl Hrs] & Hs & ER)]); cbn [mbind option_bind]; rewrite Hf, finite_to_int, ER by done.
  - destruct (rne_spec (half_man v * 2 ^ (half_exp v - 15)) (2 ^ 10) ltac:(lia)) as (H1 & H2 & _).
    rewrite Z.leb_le in Ho. cbn [mbind option_bind]. f_equal. change (u8 (Z.lnot 0)) with (2 ^ 8 - 1).
    unfold clamp, signed. destruct (half_neg v); cbn [Z.b2z Z.eqb Pos.eqb]; lia.
  - change (a_shift_out a + kFp16ManLen) with (a_shift_out a + 10).
    rewrite Z.leb_gt in Ho. destruct (shifted_out 8 kBitLen8Max (a_long_int_m a) (a_shift_out a)) as [E Hq]; [done|lia..|].
    unfold u8. rewrite E. cbn [mbind option_bind]. f_equal. change kBitLen8Max with (2 ^ 8 - 1). rewrite round_capped by (done || lia).
    unfold clamp, signed. set (r := IsRoundOne _ _). destruct (half_neg v), r; cbn [Z.b2z Z.eqb Pos.eqb]; lia.
Qed.

Lemma GetUint16ValByMan_ok (neg : bool) long shift : 0 <= shift <= 15 -> 0 <= long < 2 ^ 25 + (if neg then 1 else 0) ->
  (IsRoundOne long (u16 (shift + 10)) = true -> long < 2 ^ 20) ->
  i16 (GetUint16ValByMan (Z.b2z neg) long shift) =
  clamp (- 2 ^ 15) (2 ^ 15 - 1) (signed neg (long / 2 ^ (10 + shift) + Z.b2z (IsRoundOne long (u16 (shift + 10))))).
Proof.
  intros Hs Hl Hsmall. unfold GetUint16ValByMan. change (shift + kFp16ManLen) with (shift + 10).
  destruct (shifted_out 16 kBitLen16Max long shift) as [E Hq]; [done|destruct neg; lia..|].
  assert (long / 2 ^ (10 + shift) <= 2 ^ 15 - (if neg then 0 else 1)) as Hq'.
  { apply Z.lt_succ_r, Z.div_lt_upper_bound; [apply pow2_pos; lia|]. rewrite Z.pow_add_r by lia.
    pose proof (pow2_pos shift ltac:(lia)). destruct neg; nia. }
  assert (IsRoundOne long (u16 (shift + 10)) = true -> long / 2 ^ (10 + shift) < 2 ^ 10) as Hr'.
  { intros Hr. specialize (Hsmall Hr). apply Z.div_lt_upper_bound; [apply pow2_pos; lia|].
    rewrite Z.pow_add_r by lia. pose proof (pow2_pos shift ltac:(lia)). nia. }
  fold u16 in *. change (wrapU 16) with u16 in E. rewrite E. clear E. set (q := long / 2 ^ (10 + shift)) in *.
  set (r := IsRoundOne long (u16 (shift + 10))) in *.
  set (m := if r && _ then u16 (q + 1) else q).
  assert (m = q + Z.b2z r) as Em.
  { unfold m. destruct r; cbn [andb Z.b2z]; [|lia]. change kInt16Max with (2 ^ 15 - 1).
    specialize (Hr' eq_refl). rewrite (proj2 (Z.ltb_lt _ _)) by lia. apply wrapU_id. unfold inU. lia. }
  assert (0 <= m <= 2 ^ 15 - (if neg then 0 else 1)) as Hm by (rewrite Em; destruct r; cbn [Z.b2z]; [specialize (Hr' eq_refl)|]; destruct neg; lia).
  clearbody m. destruct (sign_result 16 neg m ltac:(lia) Hm) as [Hr Hb]. cbv zeta in *.
  assert (negb (Z.b2z neg =? 0) = neg) as -> by (by destruct neg).
  change (16 - 1) with 15 in *. unfold u16. rewrite (wrapU_id 16 (Z.lor _ _)) by done. unfold i16. rewrite Hr, Em.
  unfold clamp, signed. rewrite Em in Hm. destruct neg; lia.
Qed.

Lemma Fp16ToInt16_ok v : inU 16 v -> Fp16ToInt16 v = Some (half_to_int (- 2 ^ 15) (2 ^ 15 - 1) v).
Proof.
  intros Hv. unfold Fp16ToInt16. destruct (wrap_fields v Hv) as (_ & -> & _ & -> & ->). rewrite is_denorm, is_invalid by done.
  destruct (Z.eqb_spec (half_exp v) 0); [by rewrite denormal_to_int|].
  destruct (Z.eqb_spec (half_exp v) 31) as [E|].
  { cbn. rewrite invalid_to_int by done. by destruct (half_neg v). }
  destruct (half_align (int16_overflow (Z.b2z (half_neg v))) v (upward_int16 _) (conj Hv ltac:(done)))
    as (a & -> & [(H15 & Ho & Hf & ER)|(Hf & Ho & [Hl Hrs] & Hs & ER)]); cbn [mbind option_bind]; rewrite Hf, finite_to_int, ER by done; f_equal.
  - rewrite int16_overflow_eq, Z.leb_le in Ho.
    destruct (rne_spec (half_man v * 2 ^ (half_exp v - 15)) (2 ^ 10) ltac:(lia)) as (H1 & H2 & _).
    unfold clamp, signed. destruct (half_neg v); cbn [Z.b2z];
      [change (i16 (u16 (kInt16Max + 1))) with (- 2 ^ 15)|change (i16 (u16 (kInt16Max + 0))) with (2 ^ 15 - 1)]; lia.
  - apply GetUint16ValByMan_ok; [done| |done]. rewrite int16_overflow_eq, Z.leb_gt in Ho. destruct (half_neg v); lia.
Qed.

Lemma Fp16ToUInt16_ok v : inU 16 v -> Fp16ToUInt16 v = Some (half_to_int 0 (2 ^ 16 - 1) v).
Proof.
  intros Hv. unfold Fp16ToUInt16. destruct (wrap_fields v Hv) as (_ & -> & _ & -> & ->). rewrite is_denorm, is_invalid by done.
  destruct (Z.eqb_spec (half_exp v) 0); [by rewrite denormal_to_int|].
  destruct (Z.eqb_spec (half_exp v) 31) as [E|].
  { cbn. rewrite invalid_to_int by done. by destruct (half_neg v). }
  destruct (half_align never v upward_never (conj Hv ltac:(done)))
    as (a & -> & [(_ & Ho & _ & _)|(_ & _ & [Hl _] & Hs & ER)]); [done|]; cbn [mbind option_bind]; rewrite finite_to_int, ER by done.
  change (a_shift_out a + kFp16ManLen) with (a_shift_out a + 10).
  destruct (shifted_out 16 kBitLen16Max (a_long_int_m a) (a_shift_out a)) as [E Hq]; [done|lia..|].
  change (wrapU 16) with u16 in E. rewrite E. f_equal. change kBitLen16Max with (2 ^ 16 - 1).
  set (r := IsRoundOne _ _). unfold u16. rewrite round_capped by (done || lia).
  unfold clamp, signed. destruct (half_neg v), r; cbn [Z.b2z Z.eqb Pos.eqb]; lia.
Qed.

Lemma Fp16ToUInt32_ok v : inU 16 v -> Fp16ToUInt32 v = Some (half_to_int 0 (2 ^ 32 - 1) v).
Proof.
  intros Hv. unfold Fp16ToUInt32. destruct (wrap_fields v Hv) as (_ & _ & -> & -> & ->). rewrite is_denorm, is_invalid by done.
  destruct (Z.eqb_spec (half_exp v) 0); [by rewrite denormal_to_int|].
  destruct (Z.eqb_spec (half_exp v) 31) as [E|].
  { cbn. rewrite invalid_to_int by done. by destruct (half_neg v). }
  destruct (half_align never v upward_never (conj Hv ltac:(done)))
    as (a & -> & [(_ & Ho & _ & _)|(_ & _ & [Hl _] & Hs & ER)]); [done|]; cbn [mbind option_bind]; rewrite finite_to_int, ER by done.
  change (a_shift_out a + kFp16ManLen) with (a_shift_out a + 10).
  destruct (shifted_out 32 kBitLen32Max (a_long_int_m a) (a_shift_out a)) as [_ Hq]; [done|lia..|].
  change kFp16ManLen with 10. change kBitLen32Max with (2 ^ 32 - 1). rewrite land_low, Z.shiftr_div_pow2 by lia.
  unfold u32. rewrite (wrapU_id 32 (_ / _)), Z.mod_small by done. f_equal. set (r := IsRoundOne _ _).
  rewrite round_capped by (done || lia). unfold clamp, signed. destruct (half_neg v), r; cbn [Z.b2z Z.eqb Pos.eqb]; lia.
Qed.

Lemma Fp16ToInt32_ok v : inU 16 v -> Fp16ToInt32 v = Some (half_to_int (- 2 ^ 31) (2 ^ 31 - 1) v).
Proof.
  intros Hv. unfold Fp16ToInt32. destruct (wrap_fields v Hv) as (_ & _ & -> & -> & ->). rewrite is_invalid by done.
  destruct (Z.eqb_spec (half_exp v) 31) as [E|].
  { cbn. rewrite invalid_to_int by done. by destruct (half_neg v). }
  destruct (half_align never v upward_never (conj Hv ltac:(done)))
    as (a & -> & [(_ & Ho & _ & _)|(_ & _ & [Hl _] & Hs & ER)]); [done|]; cbn [mbind option_bind]; rewrite finite_to_int, ER by done.
  change (a_shift_out a + kFp16ManLen) with (a_shift_out a + 10).
  destruct (shifted_out 32 kBitLen32Max (a_long_int_m a) (a_shift_out a)) as [E _]; [done|lia..|].
  destruct (shifted_out 16 kBitLen16Max (a_long_int_m a) (a_shift_out a)) as [_ Hq]; [done|lia..|].
  change (wrapU 32) with u32 in E. rewrite E. clear E. set (q := _ / _) in *. set (r := IsRoundOne _ _).
  set (m := if r && _ then u32 (q + 1) else q). set (neg := half_neg v).
  assert (m = q + Z.b2z r) as Em.
  { unfold m. destruct r; cbn [andb Z.b2z]; [|lia]. change kInt32Max with (2 ^ 31 - 1).
    rewrite (proj2 (Z.ltb_lt _ _)) by lia. apply wrapU_id. unfold inU. lia. }
  assert (0 <= m <= 2 ^ 31 - (if neg then 0 else 1)) as Hm by (rewrite Em; destruct r, neg; cbn [Z.b2z]; lia).
  assert (m = q + Z.b2z r /\ m <= 2 ^ 16) as [Em' Hm'] by (split; [done|]; rewrite Em; destruct r; cbn [Z.b2z]; lia).
  clearbody m. f_equal.
  destruct (sign_result 32 neg m ltac:(lia) Hm) as [Hr Hb]. cbv zeta in *.
  assert ((Z.b2z neg =? 1) = neg) as -> by (by destruct neg).
  change (32 - 1) with 31 in *. assert (forall c : bool, u32 ((if c then 0 else Z.b2z neg) << 31) = (if c then 0 else Z.b2z neg) << 31) as ->
    by (intros []; by destruct neg).
  unfold i32, u32. rewrite Hr, Em. unfold clamp, signed. rewrite Em in Hm'. destruct neg, r; cbn [Z.b2z] in *; lia.
Qed.

(** * Assignments from integers *)
Lemma GetManBitLength_ok m : 0 < m < 2 ^ 64 -> GetManBitLength m = Some (Z.log2 m + 1).
Proof.
  intros Hm. unfold GetManBitLength. pose proof (Z.log2_nonneg m). pose proof (Z.log2_spec m ltac:(lia)) as [Hlo Hhi].
  assert (Z.log2 m < 64) by (apply Z.log2_lt_pow2; lia).
  destruct (while_rule (fun '(m', l) => m' = m / 2 ^ l /\ 0 <= l <= Z.log2 m + 1) (fun '(m', l) => Z.to_nat (Z.log2 m + 1 - l)) 65
    (fun '(man, len) => negb (man =? 0)) (fun '(man, len) => (man >> 1, i16 (len + 1))) (m, 0)) as ([m' l] & -> & [E Hl] & Hc).
  - rewrite Z.div_1_r. lia.
  - lia.
  - intros [m1 l1] [-> Hl1] Hc. apply negb_true_iff, Z.eqb_neq in Hc.
    assert (l1 <> Z.log2 m + 1) by (intros ->; apply Hc, Z.div_small; rewrite Z.add_1_r; lia).
    assert (i16 (l1 + 1) = l1 + 1) as -> by (apply wrapS_id; unfold inS; lia).
    split; [|lia]. split; [|lia]. rewrite Z.shiftr_div_pow2, Z.div_div, <- Z.pow_add_r by (try apply pow2_pos; lia). done.
  - cbn. f_equal. apply negb_false_iff, Z.eqb_eq in Hc.
    destruct (decide (l = Z.log2 m + 1)); [done|exfalso].
    assert (2 ^ l <= m) by (pose proof (Z.pow_le_mono_r 2 l (Z.log2 m)); lia).
    pose proof (Z.div_le_lower_bound m (2 ^ l) 1 (pow2_pos l ltac:(lia))). lia.
Qed.

Lemma trunc_mask_ok n k : 0 < k -> k + Z.of_nat n <= 32 -> trunc_mask_loop n (2 ^ k - 1) = 2 ^ (k + Z.of_nat n) - 1.
Proof.
  revert k. induction n as [|n IH]; intros k Hk Hn; [by rewrite Z.add_0_r|]. cbn [trunc_mask_loop].
  assert (2 ^ (k + 1) = 2 * 2 ^ k) as E by (rewrite <- Z.pow_succ_r by lia; f_equal; lia).
  pose proof (pow2_pos k ltac:(lia)). assert (2 ^ (k + 1) <= 2 ^ 32) by (apply Z.pow_le_mono_r; lia).
  rewrite Z.shiftl_mul_pow2 by lia. unfold u32. rewrite !wrapU_id by (unfold inU; rewrite ?wrapU_id; unfold inU; lia).
  replace ((2 ^ k - 1) * 2 ^ 1 + 1) with (2 ^ (k + 1) - 1) by lia. rewrite IH by lia. f_equal. f_equal. lia.
Qed.

Lemma drop_bits_loop_ok n m e : 0 <= e -> e + Z.of_nat n < 2 ^ 15 -> drop_bits_loop n m e = (m / 2 ^ Z.of_nat n, e + Z.of_nat n).
Proof.
  revert m e. induction n as [|n IH]; intros m e He Hn; [by rewrite Z.div_1_r, Z.add_0_r|]. cbn [drop_bits_loop].
  assert (i16 (e + 1) = e + 1) as -> by (apply wrapS_id; unfold inS; lia).
  rewrite IH, Z.shiftr_div_pow2, Z.div_div by (try apply pow2_pos; lia).
  f_equal; [|lia]. rewrite <- Z.pow_add_r by lia. do 2 f_equal. lia.
Qed.

Lemma drop_bits_ok red m len : red = u16 \/ red = u32 -> 11 < len <= 32 -> 2 ^ (len - 1) <= m < 2 ^ len ->
  drop_bits red m len = Some (carry (len + 14) (rne m (2 ^ (len - 11)))).
Proof.
  intros Hred Hlen Hm. unfold drop_bits. set (k := len - 11).
  assert (u16 k = k) as -> by (apply wrapU_id; unfold inU; lia).
  assert (E1 : 2 ^ len = 2 ^ 11 * 2 ^ k) by (rewrite <- Z.pow_add_r by lia; f_equal; lia).
  assert (E0 : 2 ^ (len - 1) = 2 ^ 10 * 2 ^ k) by (rewrite <- Z.pow_add_r by lia; f_equal; lia).
  assert (E2 : 2 ^ 32 = 2 ^ k * 2 ^ (32 - k)) by (rewrite <- Z.pow_add_r by lia; f_equal; lia).
  pose proof (pow2_pos k ltac:(lia)). pose proof (pow2_pos (32 - k) ltac:(lia)).
  pose proof (Z.mod_pos_bound m (2 ^ k) ltac:(lia)). pose proof (Z.div_mod m (2 ^ k) ltac:(lia)) as ED.
  pose proof (trunc_mask_ok (Z.to_nat (k - 1)) 1 ltac:(lia) ltac:(lia)) as ET. change (2 ^ 1 - 1) with 1 in ET.
  rewrite Z2Nat.id in ET by lia. replace (1 + (k - 1)) with k in ET by lia. rewrite ET.
  rewrite land_low by lia.
  assert (u32 (m mod 2 ^ k << (32 - k)) = m mod 2 ^ k * 2 ^ (32 - k)) as ->
    by (rewrite Z.shiftl_mul_pow2 by lia; apply wrapU_id; unfold inU; nia).
  change (kFp16ExpBias + kFp16ManLen) with 25. rewrite drop_bits_loop_ok by lia. rewrite Z2Nat.id by lia.
  rewrite trunc_round by (try apply Z.div_pos; nia).
  assert (rne (m / 2 ^ k * 2 ^ 32 + m mod 2 ^ k * 2 ^ (32 - k)) (2 ^ 32) = rne m (2 ^ k)) as ->.
  { rewrite <- (rne_scale (2 ^ (32 - k)) m) by lia. rewrite E2. f_equal; [|ring]. rewrite ED at 3. ring. }
  pose proof (rne_range m (2 ^ k) (2 ^ 10) (2 ^ 11) ltac:(done) ltac:(lia)) as Hr. set (r := rne m _) in *.
  assert (red r = r) as -> by (destruct Hred as [-> | ->]; apply wrapU_id; unfold inU; lia).
  assert (red (kFp16ManHideBit << 1) = 2 ^ 11) as -> by (by destruct Hred as [-> | ->]).
  rewrite carry_loop by lia. cbn [mbind option_bind]. replace (25 + k) with (len + 14) by lia. by destruct (carry _ _).
Qed.

Lemma raise_bits_ok red m len : red = u16 \/ red = u32 -> 1 <= len <= 11 -> 2 ^ (len - 1) <= m < 2 ^ len ->
  raise_bits red m len = (len + 14, m * 2 ^ (11 - len)) /\ 2 ^ 10 <= m * 2 ^ (11 - len) < 2 ^ 11.
Proof.
  intros Hred Hlen Hm. unfold raise_bits. rewrite Z.shiftl_mul_pow2 by lia.
  assert (2 ^ 11 = 2 ^ len * 2 ^ (11 - len)) by (rewrite <- Z.pow_add_r by lia; f_equal; lia).
  assert (2 ^ 10 = 2 ^ (len - 1) * 2 ^ (11 - len)) by (rewrite <- Z.pow_add_r by lia; f_equal; lia).
  pose proof (pow2_pos (11 - len) ltac:(lia)). assert (2 ^ 10 <= m * 2 ^ (11 - len) < 2 ^ 11) by nia. split; [|done].
  assert (red (m * 2 ^ (11 - len)) = m * 2 ^ (11 - len)) as -> by (destruct Hred as [-> | ->]; apply wrapU_id; unfold inU; lia).
  f_equal. change kFp16ExpBias with 15. unfold i16. rewrite wrapS_id; unfold inS; lia.
Qed.

(** Both branches together: the mantissa and the exponent are the rounded ones. *)
Lemma to_eleven_bits red m : red = u16 \/ red = u32 -> 0 < m < 2 ^ 32 ->
  let len := Z.log2 m + 1 in
  exists r, (if 11 <? len then drop_bits red m len else Some (raise_bits red m len)) = Some (carry (len + 14) r) /\
    Rounded (m * 2 ^ 24) 1 (len + 14) r /\ 2 ^ 10 <= r <= 2 ^ 11 /\ 1 <= len <= 32.
Proof.
  intros Hred Hm. cbv zeta. pose proof (Z.log2_nonneg m). pose proof (Z.log2_spec m ltac:(lia)) as Hs.
  assert (Z.log2 m < 32) by (apply Z.log2_lt_pow2; lia). set (len := Z.log2 m + 1) in *.
  assert (2 ^ (len - 1) <= m < 2 ^ len) as Hlen by (unfold len; rewrite Z.add_simpl_r, Z.add_1_r; lia).
  assert (1 <= len <= 32) as Hl by lia. clearbody len.
  assert (2 ^ (len + 14 - 1) = 2 ^ 13 * 2 ^ len) as E by (rewrite <- Z.pow_add_r by lia; f_equal; lia).
  assert (2 ^ len = 2 * 2 ^ (len - 1)) as E' by (rewrite <- Z.pow_succ_r by lia; f_equal; lia).
  assert (HR : forall r, r = rne (m * 2 ^ 24) (1 * (2 ^ 13 * 2 ^ len)) -> Rounded (m * 2 ^ 24) 1 (len + 14) r).
  { intros r ->. split; [lia|]. rewrite E. split; [right; lia|]. split; [lia|done]. }
  destruct (Z.ltb_spec 11 len).
  - exists (rne m (2 ^ (len - 11))). rewrite drop_bits_ok by (done || lia). split; [done|].
    assert (2 ^ len = 2 ^ 11 * 2 ^ (len - 11)) as E1 by (rewrite <- Z.pow_add_r by lia; f_equal; lia).
    pose proof (pow2_pos (len - 11) ltac:(lia)).
    split; [|split; [apply rne_range; lia|done]]. apply HR. rewrite <- (rne_scale (2 ^ 24) m) by lia. f_equal; lia.
  - destruct (raise_bits_ok red m len) as [-> Hr]; [done|lia..|]. exists (m * 2 ^ (11 - len)).
    unfold carry. rewrite (proj2 (Z.eqb_neq _ _)) by lia. split; [done|]. split; [|lia]. apply HR. symmetry.
    assert (m * 2 ^ 24 = m * 2 ^ (11 - len) * (1 * (2 ^ 13 * 2 ^ len))) as ->.
    { replace (2 ^ 24) with (2 ^ (11 - len) * (2 ^ 13 * 2 ^ len)); [ring|]. rewrite <- !Z.pow_add_r by lia. f_equal. lia. }
    apply rne_exact. pose proof (pow2_pos len ltac:(lia)). lia.
Qed.

Lemma carry_constructor neg e r : 1 <= e -> 2 ^ 10 <= r <= 2 ^ 11 -> (carry e r).1 < 32 ->
  u16 (FP16_CONSTRUCTOR (Z.b2z neg) (u16 (carry e r).1) (u16 (carry e r).2)) = encode neg e r.
Proof.
  intros He Hr Hlt.
  assert (1 <= (carry e r).1 /\ 0 <= (carry e r).2 <= 2 ^ 11) as [H1 H2] by (unfold carry; destruct (r =? 2 ^ 11); cbn; lia).
  rewrite <- carry_pack by done. unfold u16 at 2 3. rewrite !wrapU_id by (unfold inU; lia).
  rewrite constructor_pack by lia. apply u16_pack; [lia|]. apply Z.mod_pos_bound. lia.
Qed.

Lemma saturate_constructor neg e r : 1 <= e -> 2 ^ 10 <= r <= 2 ^ 11 ->
  (let '(e_ret, m_tmp) := saturate (carry e r).1 (carry e r).2 in
   u16 (FP16_CONSTRUCTOR (Z.b2z neg) (u16 e_ret) (u16 m_tmp))) =
  if 31 * 2 ^ 10 <=? encode false e r then encode neg 30 (2 ^ 11 - 1) else encode neg e r.
Proof.
  intros He Hr. unfold saturate. change kFp16MaxExp with 31.
  assert (31 <= (carry e r).1 <-> 31 * 2 ^ 10 <= encode false e r) as Hiff.
  { unfold carry, encode. destruct (Z.eqb_spec r (2 ^ 11)); cbn [fst]; lia. }
  destruct (Z.leb_spec 31 (carry e r).1), (Z.leb_spec (31 * 2 ^ 10) (encode false e r)); try lia.
  - by destruct neg.
  - apply carry_constructor; lia.
Qed.

Lemma len_u16 m : 0 < m < 2 ^ 32 -> u16 (Z.log2 m + 1) = Z.log2 m + 1.
Proof.
  intros Hm. pose proof (Z.log2_nonneg m). assert (Z.log2 m < 32) by (apply Z.log2_lt_pow2; lia).
  apply wrapU_id. unfold inU. lia.
Qed.

(** The result of the 32-bit assignments: nearest, saturating at the largest
    finite number. *)
Definition nearest_or_max (neg : bool) (m r : Z) : Prop :=
  (m < 65520 -> Nearest (signed neg (m * 2 ^ 24)) 1 r) /\ (65520 <= m -> r = encode neg 30 (2 ^ 11 - 1)).

Lemma saturated_nearest neg m e r : 0 < m -> Rounded (m * 2 ^ 24) 1 e r ->
  nearest_or_max neg m (if 31 * 2 ^ 10 <=? encode false e r then encode neg 30 (2 ^ 11 - 1) else encode neg e r).
Proof.
  intros Hm HR. pose proof (Rounded_limit (m * 2 ^ 24) 1 e r ltac:(lia) ltac:(lia) HR) as Hlim. unfold half_limit in Hlim.
  destruct (Z.leb_spec (31 * 2 ^ 10) (encode false e r)); split; intros; [lia|done| |lia].
  apply Rounded_nearest; [lia..|done|done].
Qed.

Lemma set_uint32_ok neg m : 0 < m < 2 ^ 32 ->
  exists r, (len ← GetManBitLength m;
    let len := u16 len in
    '(e_ret, m_tmp) ←
      (if 11 <? len then '(e_ret, m_tmp) ← drop_bits u32 m len; Some (saturate e_ret m_tmp)
       else Some (raise_bits u32 m len));
    Some (u16 (FP16_CONSTRUCTOR (Z.b2z neg) (u16 e_ret) (u16 m_tmp)))) = Some r /\ nearest_or_max neg m r.
Proof.
  intros Hm. rewrite GetManBitLength_ok by lia. cbn [mbind option_bind]. rewrite len_u16 by done.
  destruct (to_eleven_bits u32 m ltac:(by right) Hm) as (r & E & HR & Hr & Hl). cbv zeta in *.
  eexists. split; [|eapply saturated_nearest; [lia|exact HR]].
  rewrite <- saturate_constructor by lia.
  destruct (11 <? Z.log2 m + 1) eqn:Hc.
  - rewrite E. cbn [mbind option_bind]. destruct (carry _ r); cbn [fst snd]. by destruct (saturate _ _).
  - injection E as ->. cbn [mbind option_bind]. apply Z.ltb_ge in Hc.
    assert (saturate (carry (Z.log2 m + 1 + 14) r).1 (carry (Z.log2 m + 1 + 14) r).2 = carry (Z.log2 m + 1 + 14) r) as ->.
    { unfold saturate. change kFp16MaxExp with 31.
      assert ((carry (Z.log2 m + 1 + 14) r).1 < 31) by (unfold carry; destruct (r =? 2 ^ 11); cbn [fst]; lia).
      rewrite (proj2 (Z.leb_gt _ _)) by done. by destruct (carry _ _). }
    by destruct (carry _ _).
Qed.

Lemma assign_uint32_ok n : 0 < n < 2 ^ 32 -> exists r, assign_uint32 n = Some r /\ nearest_or_max false n r.
Proof. intros Hn. unfold assign_uint32. rewrite (proj2 (Z.eqb_neq n 0)) by lia. exact (set_uint32_ok false n Hn). Qed.

Lemma SetValByUint32Val_ok neg m : 0 < m < 2 ^ 31 -> exists r, SetValByUint32Val m (Z.b2z neg) = Some r /\ nearest_or_max neg m r.
Proof.
  intros Hm. unfold SetValByUint32Val. change kFp32AbsMax with (2 ^ 31 - 1). rewrite land_low, Z.mod_small by lia.
  apply set_uint32_ok. lia.
Qed.

Lemma assign_int32_ok n : n <> 0 -> - 2 ^ 31 < n < 2 ^ 31 -> exists r, assign_int32 n = Some r /\ nearest_or_max (n <? 0) (Z.abs n) r.
Proof.
  intros Hz Hn. unfold assign_int32. rewrite (proj2 (Z.eqb_neq n 0)) by lia.
  destruct (Z.ltb_spec n 0).
  - assert (u32 n = 2 ^ 32 + n) as -> by (unfold u32, wrapU; symmetry; apply (Z.mod_unique _ _ (-1)); lia).
    assert (u16 ((2 ^ 32 + n) >> 31) = 1) as ->.
    { rewrite Z.shiftr_div_pow2 by lia. rewrite <- (Z.div_unique (2 ^ 32 + n) (2 ^ 31) 1 (2 ^ 31 + n)) by lia. done. }
    change (negb (1 =? 0)) with true. cbn iota. rewrite (proj2 (Z.eqb_neq n _)) by lia.
    assert (u32 (- n) = Z.abs n) as -> by (unfold u32; rewrite wrapU_id; unfold inU; lia).
    apply (SetValByUint32Val_ok true). lia.
  - assert (u32 n = Z.abs n) as -> by (unfold u32; rewrite wrapU_id; unfold inU; lia).
    assert (u16 (Z.abs n >> 31) = 0) as -> by (rewrite Z.shiftr_div_pow2, Z.div_small by lia; done).
    apply (SetValByUint32Val_ok false). lia.
Qed.

(** The 16-bit assignments: the exponent field is at most 31. *)
Lemma carry_16 m r : 0 < m < 2 ^ 16 -> (carry (Z.log2 m + 1 + 14) r).1 < 32.
Proof.
  intros Hm. assert (Z.log2 m < 16) by (apply Z.log2_lt_pow2; lia).
  unfold carry. destruct (r =? 2 ^ 11); cbn [fst]; lia.
Qed.

Lemma assign_uint16_ok val n : 0 < n < 2 ^ 16 ->
  exists r, assign_uint16 val n = Some r /\ (n < 65520 -> Nearest (n * 2 ^ 24) 1 r) /\ (65520 <= n -> r = kFp16ExpMask).
Proof.
  intros Hn. unfold assign_uint16. rewrite (proj2 (Z.eqb_neq n 0)) by lia.
  rewrite GetManBitLength_ok by lia. cbn [mbind option_bind]. rewrite len_u16 by lia.
  destruct (to_eleven_bits u16 n ltac:(by left) ltac:(lia)) as (r & E & HR & Hr & Hl). cbv zeta in *.
  exists (encode false (Z.log2 n + 1 + 14) r). split.
  - pose proof (carry_constructor false (Z.log2 n + 1 + 14) r ltac:(lia) Hr (carry_16 n r Hn)) as Ec.
    assert (0 <= (carry (Z.log2 n + 1 + 14) r).2 < 2 ^ 16) by (unfold carry; destruct (r =? 2 ^ 11); cbn; lia).
    unfold u16 at 3 in Ec. rewrite wrapU_id in Ec by done.
    change kManBitLength with 11. destruct (11 <? Z.log2 n + 1).
    + rewrite E. cbn [mbind option_bind]. destruct (carry _ r). cbn [mbind option_bind]. by rewrite <- Ec.
    + injection E as ->. destruct (carry _ r). cbn [mbind option_bind]. by rewrite <- Ec.
  - pose proof (Rounded_limit (n * 2 ^ 24) 1 _ r ltac:(lia) ltac:(lia) HR) as Hlim. unfold half_limit in Hlim. split; intros Hc.
    + apply (Rounded_nearest false (n * 2 ^ 24)); [lia..|done|lia].
    + assert (Z.log2 n < 16) by (apply Z.log2_lt_pow2; lia). unfold encode in *. change kFp16ExpMask with (31 * 2 ^ 10). lia.
Qed.

Lemma assign_int16_ok val n : n <> 0 -> - 2 ^ 15 <= n < 2 ^ 15 ->
  exists r, assign_int16 val n = Some r /\ Nearest (n * 2 ^ 24) 1 r.
Proof.
  intros Hz Hn. unfold assign_int16. rewrite (proj2 (Z.eqb_neq n 0)) by lia.
  assert (exists neg, u16 (u16 n >> 15) = Z.b2z neg /\ n = signed neg (Z.abs n) /\
    (if negb (Z.b2z neg =? 0) then u16 (i16 (- n)) else u16 n) = Z.abs n) as (neg & -> & Esign & ->).
  { destruct (Z.ltb_spec n 0).
    - exists true. assert (u16 n = 2 ^ 16 + n) as -> by (unfold u16, wrapU; symmetry; apply (Z.mod_unique _ _ (-1)); lia).
      rewrite Z.shiftr_div_pow2 by lia. rewrite <- (Z.div_unique (2 ^ 16 + n) (2 ^ 15) 1 (2 ^ 15 + n)) by lia.
      split; [done|]. split; [cbn; lia|]. cbn [Z.b2z]. change (negb (1 =? 0)) with true. cbn iota.
      destruct (decide (n = - 2 ^ 15)) as [->|]; [done|]. unfold i16. rewrite wrapS_id by (unfold inS; lia).
      unfold u16. rewrite wrapU_id; unfold inU; lia.
    - exists false. assert (u16 n = n) as -> by (apply wrapU_id; unfold inU; lia).
      rewrite Z.shiftr_div_pow2, Z.div_small by lia. cbn. split; [done|lia]. }
  assert (n * 2 ^ 24 = signed neg (Z.abs n * 2 ^ 24)) as -> by (rewrite Esign at 1; unfold signed; destruct neg; lia).
  assert (0 < Z.abs n <= 2 ^ 15) as Hm by lia. clear Esign. generalize dependent (Z.abs n). intros m Hm.
  unfold SetValByUint16Val. change kFp32AbsMax with (2 ^ 31 - 1). rewrite land_low, Z.mod_small by lia.
  rewrite GetManBitLength_ok by lia. cbn [mbind option_bind]. rewrite len_u16, (proj2 (Z.eqb_neq m 0)) by lia. cbn [negb].
  destruct (to_eleven_bits u32 m ltac:(by right) ltac:(lia)) as (r & E & HR & Hr & Hl). cbv zeta in *. rewrite E. cbn [mbind option_bind].
  exists (encode neg (Z.log2 m + 1 + 14) r). split.
  - rewrite <- carry_constructor by (try apply carry_16; lia). by destruct (carry _ _).
  - pose proof (Rounded_limit (m * 2 ^ 24) 1 _ r ltac:(lia) ltac:(lia) HR) as Hlim. unfold half_limit in Hlim.
    apply Rounded_nearest; [lia..|done|lia].
Qed.

(** The 8-bit assignments are exact. *)
Lemma small_to_half_ok m : 0 < m < 2 ^ 11 ->
  exists e r, small_to_half m = Some (e, r) /\ 15 <= e <= 25 /\ 2 ^ 10 <= r < 2 ^ 11 /\ r * 2 ^ (e - 1) = m * 2 ^ 24.
Proof.
  intros Hm. unfold small_to_half.
  destruct (while_rule (fun '(m', e') => 0 <= e' <= 10 /\ 0 < m' < 2 ^ 11 /\ m' * 2 ^ e' = m * 2 ^ 10) (fun '(m', e') => Z.to_nat e') 17
    (fun '(m_ret, e_ret) => Z.land m_ret kFp16ManHideBit =? 0) (fun '(m_ret, e_ret) => (u16 (m_ret << 1), u16 (e_ret - 1)))
    (m, kFp16ManLen)) as ([m' e'] & Hrun & (He & Hm' & E) & Hc).
  - change kFp16ManLen with 10. lia.
  - change kFp16ManLen with 10. lia.
  - intros [m1 e1] (He1 & Hm1 & E1). change kFp16ManHideBit with (2 ^ 10). rewrite test_no_bit by lia. intros Hev.
    assert (m1 < 2 ^ 10) as Hlt.
    { destruct (decide (m1 < 2 ^ 10)); [done|]. rewrite <- (Z.div_unique m1 (2 ^ 10) 1 (m1 - 2 ^ 10)) in Hev by lia. done. }
    assert (e1 <> 0) by (intros ->; lia).
    assert (2 ^ e1 = 2 * 2 ^ (e1 - 1)) as E2 by (rewrite <- Z.pow_succ_r by lia; f_equal; lia).
    rewrite Z.shiftl_mul_pow2 by lia. unfold u16. rewrite !wrapU_id by (unfold inU; lia). split; [|lia]. repeat split; lia.
  - rewrite Hrun. cbn [mbind option_bind]. exists (e' + 15), m'.
    assert (u16 (e' + kFp16ExpBias) = e' + 15) as -> by (apply wrapU_id; unfold inU, kFp16ExpBias; lia).
    change kFp16ManHideBit with (2 ^ 10) in Hc. rewrite test_no_bit in Hc by lia.
    assert (2 ^ 10 <= m').
    { destruct (decide (m' < 2 ^ 10)); [|lia]. by rewrite Z.div_small in Hc by lia. }
    split; [done|]. split; [lia|]. split; [lia|].
    replace (e' + 15 - 1) with (e' + 14) by lia. rewrite Z.pow_add_r, Z.mul_assoc, E by lia. ring.
Qed.

Lemma exact_constructor neg e r : 1 <= e < 31 -> 2 ^ 10 <= r < 2 ^ 11 ->
  half_val (u16 (FP16_CONSTRUCTOR (Z.b2z neg) e r)) = signed neg (r * 2 ^ (e - 1)) /\ half_finite (u16 (FP16_CONSTRUCTOR (Z.b2z neg) e r)).
Proof.
  intros He Hr. rewrite constructor_pack, u16_pack by (try apply Z.mod_pos_bound; lia). rewrite pack_encode by lia.
  destruct (encode_ok neg e r) as [? ?]; [split; lia|unfold encode; lia|done].
Qed.

Lemma assign_uint8_ok n : 0 <= n < 2 ^ 8 -> exists r, assign_uint8 n = Some r /\ half_finite r /\ half_val r = n * 2 ^ 24.
Proof.
  intros Hn. unfold assign_uint8. destruct (Z.eqb_spec n 0) as [->|]; cbn [negb]; [by eexists|].
  destruct (small_to_half_ok n ltac:(lia)) as (e & r & -> & He & Hr & E). cbn [mbind option_bind].
  eexists. split; [done|]. destruct (exact_constructor false e r) as [Hv Hf]; [lia..|]. cbn [Z.b2z] in *.
  split; [done|]. by rewrite Hv.
Qed.

Lemma assign_int8_ok n : - 2 ^ 7 < n < 2 ^ 7 -> exists r, assign_int8 n = Some r /\ half_finite r /\ half_val r = n * 2 ^ 24.
Proof.
  intros Hn. unfold assign_int8. destruct (Z.eq_dec n 0) as [->|Hz]; [by eexists|].
  assert (exists neg, u16 (Z.land (u8 n) 0x80 >> 7) = Z.b2z neg /\ n = signed neg (Z.abs n) /\
    0 < u16 (Z.land (u8 n) kInt8Max) /\ (if neg then u16 (Z.abs n) else u16 (Z.land (u8 n) kInt8Max)) = Z.abs n)
    as (neg & -> & Esign & Hm & Em).
  { change 0x80 with ((2 ^ 1 - 1) * 2 ^ 7). change kInt8Max with (2 ^ 7 - 1). rewrite land_field, land_low, Z.shiftr_div_pow2, Z.div_mul by lia.
    destruct (Z.ltb_spec n 0).
    - exists true. assert (u8 n = 2 ^ 8 + n) as -> by (unfold u8, wrapU; symmetry; apply (Z.mod_unique _ _ (-1)); lia).
      rewrite <- (Z.div_unique (2 ^ 8 + n) (2 ^ 7) 1 (2 ^ 7 + n)) by lia.
      rewrite <- (Z.mod_unique (2 ^ 8 + n) (2 ^ 7) 1 (2 ^ 7 + n)) by lia.
      split; [done|]. split; [cbn; lia|]. unfold u16. rewrite !wrapU_id; unfold inU; lia.
    - exists false. assert (u8 n = n) as -> by (apply wrapU_id; unfold inU; lia).
      rewrite Z.div_small, (Z.mod_small n) by lia. split; [done|]. split; [cbn; lia|]. cbn iota. unfold u16. rewrite !wrapU_id; unfold inU; lia. }
  rewrite (proj2 (Z.eqb_neq _ 0)) by lia. assert (negb (Z.b2z neg =? 0) = neg) as -> by (by destruct neg). rewrite Em.
  destruct (small_to_half_ok (Z.abs n) ltac:(lia)) as (e & r & -> & He & Hr & E). cbn [mbind option_bind].
  eexists. split; [done|]. destruct (exact_constructor neg e r) as [Hv Hf]; [lia..|]. split; [done|].
  rewrite Hv, E. rewrite Esign at 2. unfold signed. destruct neg; lia.
Qed.
