(* ===== verification/Fp16Arith.v ===== *)
(** Addition, subtraction, multiplication and division of half precision numbers.

    The loops of Fp16AddCalVal and Fp16Mul keep the exact value in a mantissa
    and a 32-bit word of dropped bits; the result is the exact sum or product
    rounded to nearest. *)
From S2P Require Import Prelude Fp16 Fp16Round.

(** The pattern an operation returns for the exact magnitude X / D. *)
Definition Delivers (neg : bool) (X D r : Z) : Prop :=
  exists e m, Rounded X D e m /\ r = if 31 * 2 ^ 10 <=? encode false e m then half_over neg else encode neg e m.

Lemma Delivers_spec neg X D r : 0 < D -> 0 <= X -> Delivers neg X D r ->
  (X < D * half_limit -> Nearest (signed neg X) D r) /\ (D * half_limit <= X -> r = half_over neg).
Proof.
  intros HD HX (e & m & HR & ->). pose proof (Rounded_limit X D e m HD HX HR).
  destruct (Z.leb_spec (31 * 2 ^ 10) (encode false e m)); split; intros; [lia|done| |lia].
  by apply Rounded_nearest.
Qed.

(** * Two's complement words *)
Lemma u32_add a b : u32 (u32 a + u32 b) = u32 (a + b).
Proof. unfold u32, wrapU. symmetry. apply Z.add_mod. lia. Qed.

Lemma u16_u32 a : u16 (u32 a) = u16 a.
Proof. unfold u16, u32, wrapU. apply Z.mod_mod_divide. by exists (2 ^ 16). Qed.

Lemma ReverseMan_eq b x : ReverseMan b (u32 x) = u32 (signed b x).
Proof.
  unfold ReverseMan, signed. destruct b; [|done]. replace (Z.lnot (u32 x) + 1) with (0 - u32 x) by (unfold Z.lnot; lia).
  unfold u32, wrapU. rewrite Zminus_mod_idemp_r. f_equal.
Qed.

Lemma shift_step x : - 2 ^ 31 <= x < 2 ^ 31 -> Z.lor (Z.land (u32 x) (1 << 31)) (u32 x >> 1) = u32 (x / 2).
Proof.
  intros Hx. change (1 << 31) with ((2 ^ 1 - 1) * 2 ^ 31). rewrite land_field, Z.shiftr_div_pow2 by lia. change (2 ^ 1) with 2.
  pose proof (Z.div_mod x 2 ltac:(lia)). pose proof (Z.mod_pos_bound x 2 ltac:(lia)).
  destruct (Z.ltb_spec x 0).
  - assert (u32 x = 2 ^ 32 + x) as -> by (unfold u32, wrapU; symmetry; apply (Z.mod_unique _ _ (-1)); lia).
    rewrite <- (Z.div_unique (2 ^ 32 + x) (2 ^ 31) 1 (2 ^ 31 + x)) by lia. change (1 mod 2) with 1.
    rewrite <- (Z.div_unique (2 ^ 32 + x) 2 (2 ^ 31 + x / 2) (x mod 2)) by lia. rewrite lor_add by lia.
    unfold u32, wrapU. apply (Z.mod_unique _ _ (-1)); lia.
  - assert (u32 x = x) as -> by (apply wrapU_id; unfold inU; lia). rewrite Z.div_small by lia.
    change (0 mod 2 * 2 ^ 31) with 0. rewrite Z.lor_0_l. symmetry. apply wrapU_id. unfold inU. lia.
Qed.

Lemma RightShift_eq x k : - 2 ^ 31 <= x < 2 ^ 31 -> 0 <= k -> RightShift (u32 x) k = u32 (x / 2 ^ k).
Proof.
  intros Hx Hk. unfold RightShift. rewrite <- (Z2Nat.id k) at 2 by done. generalize (Z.to_nat k). intros n. clear k Hk.
  revert x Hx. induction n as [|n IH]; intros x Hx; [by rewrite Z.div_1_r|]. cbn [RightShift_loop].
  rewrite shift_step by done. pose proof (Z.div_mod x 2 ltac:(lia)). pose proof (Z.mod_pos_bound x 2 ltac:(lia)).
  rewrite IH by lia. f_equal. rewrite Z.div_div by (try apply pow2_pos; lia). f_equal.
  rewrite <- (Z.pow_1_r 2) at 1. rewrite <- Z.pow_add_r by lia. f_equal. lia.
Qed.

(** The bits shifted out, at the top of a word. *)
Lemma dropped_bits x k : 0 < k <= 30 -> u32 (u32 x << (32 - k)) = x mod 2 ^ k * 2 ^ (32 - k).
Proof.
  intros Hk. rewrite Z.shiftl_mul_pow2 by lia. unfold u32, wrapU. rewrite Z.mul_mod_idemp_l by lia.
  replace (2 ^ 32) with (2 ^ k * 2 ^ (32 - k)) by (rewrite <- Z.pow_add_r by lia; f_equal; lia).
  pose proof (pow2_pos k). pose proof (pow2_pos (32 - k)). rewrite Z.mul_mod_distr_r by lia. done.
Qed.

(** * Fp16AddCalVal *)

(** The state of the loops: the exact magnitude T is (m 2^32 + t) 2^(e - 1) / 2^32. *)
Definition held (T m t e : Z) : Prop :=
  (m * 2 ^ 32 + t) * 2 ^ e = 2 * T * 2 ^ 32 /\ 0 <= t < 2 ^ 32 /\ (4 | t).

Lemma held_double T m t e : held T m t e -> 0 <= m < 2 ^ 10 -> 0 < e <= 31 ->
  let m' := u16 (u16 (m << 1) + ((kFp32SignMask & t) >> kFp32SignIndex)) in
  let t' := u32 (t << 1) in
  held T m' t' (e - 1) /\ 0 <= m' < 2 ^ 11.
Proof.
  intros (HT & Ht & [q Hq]) Hm He. cbv zeta. change kFp32SignIndex with 31. change kFp32SignMask with ((2 ^ 1 - 1) * 2 ^ 31).
  rewrite Z.land_comm, land_field, !Z.shiftl_mul_pow2, Z.shiftr_div_pow2, Z.div_mul by lia. change (2 ^ 1) with 2.
  assert (0 <= t / 2 ^ 31 < 2) as Hb by (split; [apply Z.div_pos; lia|apply Z.div_lt_upper_bound; lia]).
  rewrite (Z.mod_small (t / 2 ^ 31)) by done.
  assert (u16 (m * 2) = m * 2) as -> by (apply wrapU_id; unfold inU; lia).
  assert (u16 (m * 2 + t / 2 ^ 31) = m * 2 + t / 2 ^ 31) as -> by (apply wrapU_id; unfold inU; lia).
  assert (u32 (t * 2) = 2 * t - t / 2 ^ 31 * 2 ^ 32) as ->.
  { unfold u32, wrapU. symmetry. apply (Z.mod_unique _ _ (t / 2 ^ 31)); [|lia].
    pose proof (Z.div_mod t (2 ^ 31) ltac:(lia)). pose proof (Z.mod_pos_bound t (2 ^ 31) ltac:(lia)). lia. }
  pose proof (Z.div_mod t (2 ^ 31) ltac:(lia)). pose proof (Z.mod_pos_bound t (2 ^ 31) ltac:(lia)).
  split; [|lia]. split; [|split; [lia|]].
  - assert (2 ^ e = 2 * 2 ^ (e - 1)) as E by (rewrite <- Z.pow_succ_r by lia; f_equal; lia). rewrite <- HT, E. ring.
  - exists (2 * q - t / 2 ^ 31 * 2 ^ 30). lia.
Qed.

Lemma held_halve T m t e : held T m t e -> 0 <= m < 2 ^ 12 -> 0 <= e ->
  let m' := m >> 1 in
  let t' := Z.lor (t >> 1) (u32 (kFp32SignMask * (m & 1))) in
  (m' * 2 ^ 32 + t') * 2 ^ (e + 1) = 2 * T * 2 ^ 32 /\ 0 <= t' < 2 ^ 32 /\ m' = m / 2.
Proof.
  intros (HT & Ht & [q Hq]) Hm He. cbv zeta. change kFp32SignMask with (2 ^ 31).
  assert (Z.land m 1 = m mod 2) as -> by (apply (land_low m 1); lia). rewrite !Z.shiftr_div_pow2 by lia. change (2 ^ 1) with 2.
  pose proof (Z.div_mod m 2 ltac:(lia)). pose proof (Z.mod_pos_bound m 2 ltac:(lia)).
  assert (t / 2 = 2 * q) as E2 by (symmetry; apply (Z.div_unique _ _ _ 0); lia).
  assert (u32 (2 ^ 31 * (m mod 2)) = m mod 2 * 2 ^ 31) as -> by (unfold u32; rewrite wrapU_id; unfold inU; lia).
  rewrite E2, Z.lor_comm, lor_add by lia. split; [|split; [lia|done]].
  rewrite <- HT, Z.pow_add_r by lia. change (2 ^ 1) with 2. nia.
Qed.

(** A mantissa with the hidden bit is ready to be rounded. *)
Lemma held_rounded T D m t e : 0 < D -> 1 <= e -> (m * 2 ^ 32 + t) * (D * 2 ^ (e - 1)) = T * 2 ^ 32 -> 0 <= t < 2 ^ 32 ->
  0 <= m < 2 ^ 11 -> e = 1 \/ 2 ^ 10 <= m ->
  let r := rne (m * 2 ^ 32 + t) (2 ^ 32) in
  Rounded T D e r /\ 0 <= r <= 2 ^ 11 /\ (2 ^ 10 <= m -> 2 ^ 10 <= r).
Proof.
  intros HD He HT Ht Hm Hn. cbv zeta. pose proof (pow2_pos (e - 1) ltac:(lia)).
  set (V := m * 2 ^ 32 + t) in *. assert (0 < D * 2 ^ (e - 1)) by nia. set (d := D * 2 ^ (e - 1)) in *.
  assert (2 ^ 10 <= m -> 2 ^ 42 <= V) by (unfold V; lia). assert (0 <= V < 2 ^ 43) by (unfold V; lia).
  split; [|split; [apply rne_range; lia|]].
  - split; [done|]. fold d. split; [destruct Hn as [|Hn]; [by left|right; nia]|]. split; [nia|].
    rewrite <- (rne_scale (2 ^ 32) T), <- (rne_scale d V) by lia. f_equal; lia.
  - intros Hh. apply (rne_range V (2 ^ 32) (2 ^ 10) (2 ^ 11)); lia.
Qed.

Lemma carry_loop_add fuel r e : (2 <= fuel)%nat -> 0 <= r <= 2 ^ 11 -> 0 <= e < 100 ->
  while fuel (fun '(m, e) => 2 ^ 11 <=? m) (fun '(m, e) => (m >> 1, i16 (e + 1))) (r, e) = Some ((carry e r).2, (carry e r).1).
Proof.
  intros Hf Hr He. destruct fuel as [|[|fuel]]; [lia..|]. cbn [while]. unfold carry.
  destruct (Z.eqb_spec r (2 ^ 11)) as [->|].
  - by assert (i16 (e + 1) = e + 1) as -> by (apply wrapS_id; unfold inS; lia).
  - by rewrite (proj2 (Z.leb_gt (2 ^ 11) r)) by lia.
Qed.

Lemma add_left_loop T m t e : held T m t e -> 0 <= m < 2 ^ 12 -> 1 <= e <= 31 ->
  exists m' t' e', while 64 (fun '(m_ret, m_trunc, e_ret) => (m_ret <? 2 ^ 10) && (0 <? e_ret))
      (fun '(m_ret, m_trunc, e_ret) =>
         (u16 (u16 (m_ret << 1) + ((kFp32SignMask & m_trunc) >> kFp32SignIndex)), u32 (m_trunc << 1), i16 (e_ret - 1)))
      (m, t, e) = Some (m', t', e') /\ held T m' t' e' /\ 0 <= m' < 2 ^ 12 /\ 0 <= e' <= 31 /\
    (2 ^ 10 <= m' \/ e' = 0) /\ (e' = 0 -> m' < 2 ^ 11).
Proof.
  intros HT Hm He.
  destruct (while_rule (fun '(m', t', e') => held T m' t' e' /\ 0 <= m' < 2 ^ 12 /\ 0 <= e' <= 31 /\ (e' = 0 -> m' < 2 ^ 11))
    (fun '(m', t', e') => Z.to_nat e') 64
    (fun '(m_ret, m_trunc, e_ret) => (m_ret <? 2 ^ 10) && (0 <? e_ret))
    (fun '(m_ret, m_trunc, e_ret) =>
         (u16 (u16 (m_ret << 1) + ((kFp32SignMask & m_trunc) >> kFp32SignIndex)), u32 (m_trunc << 1), i16 (e_ret - 1)))
    (m, t, e)) as ([[m' t'] e'] & Hrun & (HT' & Hm' & He' & Hz) & Hc).
  - split; [done|lia].
  - lia.
  - intros [[m1 t1] e1] (HT1 & Hm1 & He1 & _) [Hlt%Z.ltb_lt Hpos%Z.ltb_lt]%andb_true_iff.
    assert (i16 (e1 - 1) = e1 - 1) as -> by (apply wrapS_id; unfold inS; lia).
    destruct (held_double T m1 t1 e1 HT1 ltac:(lia) ltac:(lia)) as [H1 H2]. cbv zeta in *. split; [|lia]. split; [done|lia].
  - exists m', t', e'. split; [done|]. split; [done|]. split; [done|]. split; [done|]. split; [|done].
    apply andb_false_iff in Hc as [Hc%Z.ltb_ge|Hc%Z.ltb_ge]; [by left|right; lia].
Qed.

Lemma add_right_loop T m t e : held T m t e -> 2 ^ 10 <= m < 2 ^ 12 -> 1 <= e <= 31 ->
  exists m' t' e', while 17 (fun '(m_ret, m_trunc, e_ret) => 2 ^ 11 <=? m_ret)
      (fun '(m_ret, m_trunc, e_ret) =>
         (m_ret >> 1, Z.lor (m_trunc >> 1) (u32 (kFp32SignMask * (m_ret & 1))), i16 (e_ret + 1)))
      (m, t, e) = Some (m', t', e') /\ (m' * 2 ^ 32 + t') * (1 * 2 ^ (e' - 1)) = T * 2 ^ 32 /\ 0 <= t' < 2 ^ 32 /\
      2 ^ 10 <= m' < 2 ^ 11 /\ 1 <= e' <= 32.
Proof.
  intros HT Hm He. assert (forall k, 1 <= k -> 2 ^ k = 2 * 2 ^ (k - 1)) as Hpow
    by (intros; rewrite <- Z.pow_succ_r by lia; f_equal; lia).
  cbn [while]. destruct (Z.leb_spec (2 ^ 11) m).
  - destruct (held_halve T m t e HT ltac:(lia) ltac:(lia)) as (HV & Ht & Em). cbv zeta in *.
    assert (i16 (e + 1) = e + 1) as -> by (apply wrapS_id; unfold inS; lia). set (t' := Z.lor _ _) in *. rewrite Em in *.
    assert (2 ^ 10 <= m / 2 < 2 ^ 11) by (split; [apply Z.div_le_lower_bound|apply Z.div_lt_upper_bound]; lia).
    rewrite (proj2 (Z.leb_gt _ _)) by lia. do 3 eexists. split; [done|]. split; [|lia].
    rewrite (Hpow (e + 1)) in HV by lia. lia.
  - do 3 eexists. split; [done|]. destruct HT as (HV & Ht & _). split; [|lia]. rewrite (Hpow e) in HV by lia. lia.
Qed.

Lemma Fp16AddCalVal_ok neg T e m t : 0 <= T -> held T m t e -> 0 <= m < 2 ^ 12 -> 1 <= e <= 31 ->
  exists r, Fp16AddCalVal (Z.b2z neg) e m t 0 = Some r /\ Delivers neg T 1 r.
Proof.
  intros HT0 HT Hm He. unfold Fp16AddCalVal.
  change (u16 (kFp16ManHideBit << 0)) with (2 ^ 10). change (u16 (2 ^ 10 << 1)) with (2 ^ 11).
  destruct (add_left_loop T m t e HT Hm He) as (m1 & t1 & e1 & -> & HT1 & Hm1 & He1 & Hc & Hz). cbn [mbind option_bind].
  destruct (decide (e1 = 0)) as [->|].
  - specialize (Hz eq_refl). destruct HT1 as (HV & Ht & _). rewrite Z.mul_1_r in HV.
    assert (t1 = 0 /\ m1 = 2 * T) as [-> ->] by lia.
    rewrite while_stop by (try apply Z.leb_gt; lia). cbn [mbind option_bind]. rewrite trunc_round by lia.
    rewrite Z.add_0_r, rne_exact by lia. assert (u16 (2 * T) = 2 * T) as -> by (apply wrapU_id; unfold inU; lia).
    rewrite (carry_loop_add _ (2 * T) 0) by lia. unfold carry. rewrite (proj2 (Z.eqb_neq _ _)) by lia. cbn [mbind option_bind fst snd].
    rewrite (proj2 (Z.leb_le _ _)) by lia. change (0 =? 0) with true. cbn [andb]. rewrite Z.shiftr_div_pow2 by lia.
    change (2 ^ 1) with 2. rewrite (Z.mul_comm 2), Z.div_mul by lia.
    exists (encode neg 1 T). split.
    + pose proof (normalize_denormal neg T ltac:(lia)) as E. destruct (Fp16Normalize 0 T). by rewrite E.
    + exists 1, T. split; [|by rewrite (proj2 (Z.leb_gt _ _)) by (unfold encode; lia)].
      split; [lia|]. split; [by left|]. split; [lia|]. change (1 * 2 ^ (1 - 1)) with 1. pose proof (rne_exact T 1 ltac:(lia)) as E. by rewrite Z.mul_1_r in E.
  - destruct (add_right_loop T m1 t1 e1 HT1 ltac:(lia) ltac:(lia)) as (m2 & t2 & e2 & -> & HV & Ht & Hm2 & He2). cbn [mbind option_bind].
    rewrite trunc_round by lia.
    destruct (held_rounded T 1 m2 t2 e2 ltac:(lia) ltac:(lia) HV Ht ltac:(lia) ltac:(lia)) as (HR & Hr & Hr'). cbv zeta in *.
    specialize (Hr' ltac:(lia)). set (r := rne _ _) in *.
    assert (u16 r = r) as -> by (apply wrapU_id; unfold inU; lia). rewrite carry_loop_add by lia. cbn [mbind option_bind].
    assert (1 <= (carry e2 r).1) by (unfold carry; destruct (r =? 2 ^ 11); cbn [fst]; lia).
    rewrite (proj2 (Z.eqb_neq _ 0)) by lia. cbn [andb]. eexists. split; [|by exists e2, r].
    pose proof (carry_over neg e2 r ltac:(lia) ltac:(lia)) as E. destruct (Fp16Normalize _ _). by rewrite E.
Qed.

(** * Fp16Add *)
Definition man_ok (x : Z) : Prop := - 2 ^ 14 < x < 2 ^ 14.
Definition exp_ok (e : Z) : Prop := 1 <= e <= 31.

(** The sum of x 2^(e - 1) over the two operands. *)
Definition exact (e_a x_a e_b x_b : Z) : Z := x_a * 2 ^ (e_a - 1) + x_b * 2 ^ (e_b - 1).

Lemma exact_comm e_a x_a e_b x_b : exact e_a x_a e_b x_b = exact e_b x_b e_a x_a.
Proof. unfold exact. ring. Qed.

Lemma exact_div e_a x_a e_b x_b : 1 <= e_b <= e_a ->
  exact e_a x_a e_b x_b / 2 ^ (e_a - 1) = x_a + x_b / 2 ^ (e_a - e_b).
Proof.
  intros He. unfold exact. replace (e_a - 1) with (e_a - e_b + (e_b - 1)) by lia. rewrite Z.pow_add_r by lia.
  pose proof (pow2_pos (e_a - e_b) ltac:(lia)). pose proof (pow2_pos (e_b - 1) ltac:(lia)).
  rewrite Z.mul_assoc, <- Z.mul_add_distr_r, Z.div_mul_cancel_r by lia. rewrite Z.add_comm, Z.div_add by lia. ring.
Qed.

Section Sum.
Context (e_a x_a e_b x_b : Z) (Ha : man_ok x_a) (Hb : man_ok x_b) (Hea : exp_ok e_a) (Heb : exp_ok e_b).

Lemma shift_width : i16 (Z.abs (e_a - e_b)) = Z.abs (e_a - e_b) /\ u16 (Z.abs (e_a - e_b)) = Z.abs (e_a - e_b).
Proof. unfold exp_ok in *. split; [apply wrapS_id; unfold inS|apply wrapU_id; unfold inU]; lia. Qed.

Lemma GetManSum_eq :
  u16 (GetManSum e_a (u32 x_a) e_b (u32 x_b)) = u16 (exact e_a x_a e_b x_b / 2 ^ (Z.max e_a e_b - 1)).
Proof.
  unfold GetManSum, man_ok, exp_ok in *. destruct shift_width as [-> _].
  destruct (Z.eqb_spec e_a e_b) as [E|]; cbn [negb].
  - rewrite E, Z.max_id, exact_div, Z.sub_diag, Z.div_1_r, u32_add by lia. apply u16_u32.
  - destruct (Z.ltb_spec e_b e_a).
    + by rewrite Z.abs_eq, RightShift_eq, u32_add, u16_u32, Z.max_l, exact_div by lia.
    + rewrite Z.abs_neq, RightShift_eq, u32_add, u16_u32, Z.max_r, exact_comm, exact_div by lia.
      rewrite Z.add_comm. by replace (- (e_a - e_b)) with (e_b - e_a) by lia.
Qed.

(** The aligned sum and the bits that alignment dropped. *)
Definition aligned : Z * Z :=
  let e_tmp := i16 (Z.abs (e_a - e_b)) in
  let '(m_trunc, m_a, m_b) :=
    if e_b <? e_a then (u32 (u32 x_b << (32 - u16 e_tmp)), u32 x_a, RightShift (u32 x_b) e_tmp)
    else if e_a <? e_b then (u32 (u32 x_a << (32 - u16 e_tmp)), RightShift (u32 x_a) e_tmp, u32 x_b)
    else (0, u32 x_a, u32 x_b) in
  (u16 (u32 (m_a + m_b)), m_trunc).

Lemma aligned_bits e x e' x' : exp_ok e -> exp_ok e' -> e' < e ->
  held (exact e x e' x') (x + x' / 2 ^ (e - e')) (x' mod 2 ^ (e - e') * 2 ^ (32 - (e - e'))) e.
Proof.
  unfold exp_ok. intros He He' Hlt. set (k := e - e').
  assert (2 ^ 32 = 2 ^ k * 2 ^ (32 - k)) as E by (rewrite <- Z.pow_add_r by lia; f_equal; lia).
  pose proof (pow2_pos k ltac:(lia)) as Hk. pose proof (pow2_pos (32 - k) ltac:(lia)).
  pose proof (Z.mod_pos_bound x' (2 ^ k) Hk). pose proof (Z.div_mod x' (2 ^ k) ltac:(lia)) as ED.
  split; [|split; [nia|]].
  - assert ((x + x' / 2 ^ k) * 2 ^ 32 + x' mod 2 ^ k * 2 ^ (32 - k) = (x * 2 ^ k + x') * 2 ^ (32 - k)) as ->.
    { rewrite E. rewrite ED at 3. ring. }
    unfold exact. assert (2 ^ (32 - k) * 2 ^ e = 2 * 2 ^ (e' - 1) * 2 ^ 32) as E2.
    { rewrite <- (Z.pow_succ_r 2 (e' - 1)), <- !Z.pow_add_r by lia. f_equal. lia. }
    rewrite <- Z.mul_assoc, E2. replace (2 ^ (e - 1)) with (2 ^ k * 2 ^ (e' - 1)); [ring|].
    rewrite <- Z.pow_add_r by lia. f_equal. lia.
  - apply Z.divide_mul_r. exists (2 ^ (30 - k)). change 4 with (2 ^ 2). rewrite <- Z.pow_add_r by lia. f_equal. lia.
Qed.

Lemma aligned_held : 0 <= exact e_a x_a e_b x_b < 2 ^ 12 * 2 ^ (Z.max e_a e_b - 1) ->
  held (exact e_a x_a e_b x_b) aligned.1 aligned.2 (Z.max e_a e_b) /\ 0 <= aligned.1 < 2 ^ 12.
Proof.
  intros HT. set (E := Z.max e_a e_b) in *. pose proof (pow2_pos (E - 1) ltac:(unfold exp_ok in *; lia)).
  assert (0 <= exact e_a x_a e_b x_b / 2 ^ (E - 1) < 2 ^ 12) as Hm.
  { split; [apply Z.div_pos; lia|apply Z.div_lt_upper_bound; lia]. }
  assert (Hu : forall z, 0 <= z < 2 ^ 12 -> u16 z = z) by (intros; apply wrapU_id; unfold inU; lia).
  unfold aligned, E in *. unfold exp_ok, man_ok in *. destruct shift_width as [-> ->].
  destruct (Z.ltb_spec e_b e_a); [|destruct (Z.ltb_spec e_a e_b)]; cbn [fst snd].
  - rewrite Z.abs_eq, Z.max_l, exact_div in * by lia.
    rewrite RightShift_eq, dropped_bits, u32_add, u16_u32, Hu by lia. split; [by apply aligned_bits|done].
  - rewrite Z.abs_neq, Z.max_r, exact_comm, exact_div in * by lia. replace (- (e_a - e_b)) with (e_b - e_a) by lia.
    rewrite RightShift_eq, dropped_bits, Z.add_comm, u32_add, u16_u32, Hu by lia. split; [by apply aligned_bits|done].
  - assert (e_a = e_b) as E1 by lia. rewrite E1, Z.max_id, exact_div, Z.sub_diag, Z.div_1_r in * by lia.
    rewrite u32_add, u16_u32, Hu by lia. split; [|done]. split; [|split; [lia|by exists 0]].
    unfold exact. replace (2 ^ e_b) with (2 * 2 ^ (e_b - 1)); [ring|].
    rewrite <- Z.pow_succ_r by lia. f_equal. lia.
Qed.
End Sum.

(** Operands of nearly equal magnitude cancel to nothing or to one half of the
    larger one's unit. *)
Definition half_operand (e x : Z) : Prop := exp_ok e /\ - 2 ^ 11 < x < 2 ^ 11 /\ (e = 1 \/ 2 ^ 10 <= Z.abs x).

Lemma exact_bound e_a x_a e_b x_b : half_operand e_a x_a -> half_operand e_b x_b ->
  Z.abs (exact e_a x_a e_b x_b) < 2 ^ 12 * 2 ^ (Z.max e_a e_b - 1).
Proof.
  unfold half_operand, exp_ok, exact. intros (Ha & Hxa & _) (Hb & Hxb & _).
  assert (2 ^ (e_a - 1) <= 2 ^ (Z.max e_a e_b - 1)) by (apply Z.pow_le_mono_r; lia).
  assert (2 ^ (e_b - 1) <= 2 ^ (Z.max e_a e_b - 1)) by (apply Z.pow_le_mono_r; lia).
  pose proof (pow2_pos (e_a - 1) ltac:(lia)). pose proof (pow2_pos (e_b - 1) ltac:(lia)). nia.
Qed.

Lemma cancel_cases_le e_a x_a e_b x_b : half_operand e_a x_a -> half_operand e_b x_b -> e_b <= e_a ->
  0 <= exact e_a x_a e_b x_b < 2 ^ (e_a - 1) ->
  exact e_a x_a e_b x_b = 0 \/ 2 * exact e_a x_a e_b x_b = 2 ^ (e_a - 1) /\ 2 <= e_a.
Proof.
  unfold half_operand, exp_ok, exact. intros (Ha & Hxa & Hna) (Hb & Hxb & Hnb) Hle.
  replace (e_a - 1) with (e_a - e_b + (e_b - 1)) by lia. rewrite Z.pow_add_r by lia.
  set (P := 2 ^ (e_b - 1)). assert (0 < P) by (apply pow2_pos; lia). set (k := e_a - e_b) in *.
  destruct (decide (k = 0)) as [Hk|]; [|destruct (decide (k = 1)) as [Hk|]]; intros HT.
  - rewrite Hk, Z.pow_0_r in *. left. assert (x_a + x_b = 0) by nia. nia.
  - rewrite Hk, Z.pow_1_r in *. assert (2 * x_a + x_b = 0 \/ 2 * x_a + x_b = 1) as [E|E] by nia; [left; nia|right; split; [nia|lia]].
  - exfalso. assert (2 ^ 2 <= 2 ^ k) by (apply Z.pow_le_mono_r; lia).
    assert (2 ^ 10 <= Z.abs x_a) by lia. assert (0 <= (x_a * 2 ^ k + x_b) * P < 2 ^ k * P) by nia.
    assert (0 <= x_a * 2 ^ k + x_b < 2 ^ k) by nia. nia.
Qed.

Lemma cancel_cases e_a x_a e_b x_b : half_operand e_a x_a -> half_operand e_b x_b ->
  let T := exact e_a x_a e_b x_b in
  let E := Z.max e_a e_b in
  0 <= T < 2 ^ (E - 1) -> T = 0 \/ 2 * T = 2 ^ (E - 1) /\ 2 <= E.
Proof.
  intros Ha Hb. cbv zeta. destruct (Z.le_ge_cases e_b e_a).
  - rewrite Z.max_l by done. by apply cancel_cases_le.
  - rewrite Z.max_r, exact_comm by done. by apply cancel_cases_le.
Qed.

(** What Fp16AddCalVal makes of these, for every exponent. *)
Definition cancel_result (neg : bool) (E : Z) : Z := if E <=? 11 then encode neg 1 (2 ^ (E - 2)) else encode neg (E - 11) (2 ^ 10).

Definition cancel_check (E : Z) : bool :=
  forallb (fun neg : bool =>
    match Fp16AddCalVal (Z.b2z neg) E 0 0 3 with Some r => r =? encode neg 1 0 | None => false end &&
    match Fp16AddCalVal (Z.b2z neg) E 4 0 3 with Some r => (E <=? 1) || (r =? cancel_result neg E) | None => false end) [true; false].

Lemma cancel_table : forallb cancel_check (seqZ 1 31) = true.
Proof. by vm_compute. Qed.

Lemma cancel_computes (neg : bool) E : 1 <= E <= 31 ->
  Fp16AddCalVal (Z.b2z neg) E 0 0 3 = Some (encode neg 1 0) /\
  (2 <= E -> Fp16AddCalVal (Z.b2z neg) E 4 0 3 = Some (cancel_result neg E)).
Proof.
  intros HE. pose proof cancel_table as Ht. rewrite forallb_forall in Ht.
  specialize (Ht E). rewrite <- list_elem_of_In, elem_of_seqZ in Ht. specialize (Ht ltac:(lia)).
  unfold cancel_check in Ht. rewrite forallb_forall in Ht. specialize (Ht neg). cbn beta in Ht.
  destruct neg; (specialize (Ht ltac:(by repeat first [left; reflexivity|right]))); apply andb_true_iff in Ht as [H1 H2].
  all: destruct (Fp16AddCalVal _ E 0 0 3); [|done]; apply Z.eqb_eq in H1 as ->; split; [done|]; intros.
  all: destruct (Fp16AddCalVal _ E 4 0 3); [|done]; rewrite (proj2 (Z.leb_gt E 1)) in H2 by lia; by apply Z.eqb_eq in H2 as ->.
Qed.

Lemma cancel_delivers neg E T : 2 <= E <= 31 -> 2 * T = 2 ^ (E - 1) -> Delivers neg T 1 (cancel_result neg E).
Proof.
  intros HE HT. assert (T = 2 ^ (E - 2)) as -> by (replace (E - 1) with (Z.succ (E - 2)) in HT by lia; rewrite Z.pow_succ_r in HT by lia; lia).
  unfold cancel_result. destruct (Z.leb_spec E 11).
  - assert (2 ^ (E - 2) <= 2 ^ 9) by (apply Z.pow_le_mono_r; lia). pose proof (pow2_pos (E - 2) ltac:(lia)).
    exists 1, (2 ^ (E - 2)). split; [|by rewrite (proj2 (Z.leb_gt _ _)) by (unfold encode; lia)].
    split; [lia|]. split; [by left|]. split; [lia|]. change (1 * 2 ^ (1 - 1)) with 1.
    pose proof (rne_exact (2 ^ (E - 2)) 1 ltac:(lia)) as Ex. by rewrite Z.mul_1_r in Ex.
  - exists (E - 11), (2 ^ 10). split; [|by rewrite (proj2 (Z.leb_gt _ _)) by (unfold encode; lia)].
    assert (2 ^ (E - 2) = 2 ^ 10 * (1 * 2 ^ (E - 11 - 1))) as -> by (rewrite Z.mul_1_l, <- Z.pow_add_r by lia; f_equal; lia).
    pose proof (pow2_pos (E - 11 - 1) ltac:(lia)). split; [lia|]. split; [right; lia|]. split; [lia|]. by rewrite rne_exact by lia.
Qed.

(** Fp16Add after the sign of the result is known. *)
Definition add_tail (s_ret : Z) (is_zero : bool) (e_a m_a e_b m_b : Z) : option Z :=
  let '(shift_out, m_a, m_b) := if is_zero then (3, u32 (m_a << 3), u32 (m_b << 3)) else (0, m_a, m_b) in
  let e_tmp := i16 (Z.abs (e_a - e_b)) in
  let '(m_trunc, m_a, m_b) :=
    if e_b <? e_a then (u32 (m_b << (32 - u16 e_tmp)), m_a, RightShift m_b e_tmp)
    else if e_a <? e_b then (u32 (m_a << (32 - u16 e_tmp)), RightShift m_a e_tmp, m_b)
    else (0, m_a, m_b) in
  Fp16AddCalVal s_ret (Z.max e_a e_b) (u16 (u32 (m_a + m_b))) m_trunc shift_out.

Lemma add_tail_aligned s_ret is_zero e_a x_a e_b x_b :
  add_tail s_ret is_zero e_a (u32 x_a) e_b (u32 x_b) =
  let k := if is_zero then 8 else 1 in
  let '(m, t) := aligned e_a (k * x_a) e_b (k * x_b) in
  Fp16AddCalVal s_ret (Z.max e_a e_b) m t (if is_zero then 3 else 0).
Proof.
  assert (forall x, u32 (u32 x << 3) = u32 (8 * x)) as E8.
  { intros x. rewrite Z.shiftl_mul_pow2 by lia. unfold u32, wrapU. rewrite Z.mul_mod_idemp_l by lia. f_equal. ring. }
  unfold add_tail, aligned. destruct is_zero; cbv zeta.
  - rewrite !E8. destruct (e_b <? e_a); [done|]. by destruct (e_a <? e_b).
  - rewrite !Z.mul_1_l. destruct (e_b <? e_a); [done|]. by destruct (e_a <? e_b).
Qed.

Lemma add_tail_ok neg (is_zero : bool) e_a x_a e_b x_b : half_operand e_a x_a -> half_operand e_b x_b ->
  let T := exact e_a x_a e_b x_b in
  0 <= T -> (is_zero = true -> T < 2 ^ (Z.max e_a e_b - 1)) ->
  exists r, add_tail (Z.b2z neg) is_zero e_a (u32 x_a) e_b (u32 x_b) = Some r /\ Delivers neg T 1 r.
Proof.
  intros Ha Hb T HT Hz. rewrite add_tail_aligned. cbv zeta. pose proof (exact_bound _ _ _ _ Ha Hb) as Hbound. fold T in Hbound.
  pose proof (cancel_cases _ _ _ _ Ha Hb) as Hcancel. cbv zeta in Hcancel. fold T in Hcancel.
  destruct Ha as (Hea & Hxa & _), Hb as (Heb & Hxb & _). set (k := if is_zero then 8 else 1) in *.
  assert (man_ok (k * x_a) /\ man_ok (k * x_b)) as [Hka Hkb] by (unfold man_ok, k; destruct is_zero; lia).
  assert (exact e_a (k * x_a) e_b (k * x_b) = k * T) as EkT by (unfold T, exact; ring).
  set (E := Z.max e_a e_b) in *. assert (exp_ok E) as HE by (unfold exp_ok, E in *; lia).
  pose proof (pow2_pos (E - 1) ltac:(unfold exp_ok in *; lia)) as HP.
  destruct (aligned_held e_a (k * x_a) e_b (k * x_b) Hka Hkb Hea Heb) as [Hheld Hm].
  { rewrite EkT. fold E. unfold k. destruct is_zero; [specialize (Hz eq_refl)|]; lia. }
  rewrite EkT in Hheld. fold E in Hheld. destruct (aligned _ _ _ _) as [m t]. cbn [fst snd] in *.
  destruct is_zero.
  - specialize (Hcancel (conj HT (Hz eq_refl))). destruct Hheld as (HV & Ht & _). change k with 8 in HV.
    assert (2 ^ E = 2 * 2 ^ (E - 1)) as E2 by (rewrite <- Z.pow_succ_r by (unfold exp_ok in *; lia); f_equal; lia). rewrite E2 in HV.
    destruct (cancel_computes neg E HE) as [C0 C4].
    destruct Hcancel as [HT0|[HT2 HE2]].
    + rewrite HT0 in *. assert (m * 2 ^ 32 + t = 0) by nia. assert (m = 0 /\ t = 0) as [-> ->] by lia.
      exists (encode neg 1 0). split; [done|]. exists 1, 0. split; [|done]. split; [lia|]. split; [by left|]. by split.
    + assert ((m * 2 ^ 32 + t) * 2 ^ (E - 1) = 4 * 2 ^ 32 * 2 ^ (E - 1)) as EV by lia.
      apply Z.mul_reg_r in EV; [|lia]. assert (m = 4 /\ t = 0) as [-> ->] by lia.
      exists (cancel_result neg E). split; [by apply C4|]. apply cancel_delivers; [unfold exp_ok in *; lia|done].
  - unfold k in Hheld. rewrite Z.mul_1_l in Hheld. by apply Fp16AddCalVal_ok.
Qed.

Lemma half_operand_of v : inU 16 v -> forall neg, half_operand (Z.max 1 (half_exp v)) (signed neg (half_man v)).
Proof.
  intros Hv neg. pose proof (man_range v). pose proof (exp_range v). split; [unfold exp_ok; lia|].
  split; [unfold signed; destruct neg; lia|].
  unfold half_man, half_frac in *. pose proof (Z.mod_pos_bound v (2 ^ 10)). destruct (Z.eqb_spec (half_exp v) 0); [lia|right].
  unfold signed. destruct neg; lia.
Qed.

Lemma Fp16Add_eq v_1 v_2 :
  Fp16Add v_1 v_2 =
  let '(s_a, e_a, m_a) := ExtractFp16 v_1 in
  let '(s_b, e_b, m_b) := ExtractFp16 v_2 in
  if negb (s_a =? s_b) then
    let m_a := ReverseMan (0 <? s_a) m_a in
    let m_b := ReverseMan (0 <? s_b) m_b in
    let sum := u16 (GetManSum e_a m_a e_b m_b) in
    let s_ret := (sum & kFp16SignMask) >> kFp16SignIndex in
    add_tail s_ret (sum =? 0) e_a (ReverseMan (0 <? s_ret) m_a) e_b (ReverseMan (0 <? s_ret) m_b)
  else add_tail s_a (u16 (GetManSum e_a m_a e_b m_b) =? 0) e_a m_a e_b m_b.
Proof.
  unfold Fp16Add, add_tail. destruct (ExtractFp16 v_1) as [[s_a e_a] m_a], (ExtractFp16 v_2) as [[s_b e_b] m_b].
  destruct (s_a =? s_b); cbn [negb].
  all: destruct (_ =? 0), (e_b <? e_a); [done| |done|]; by destruct (e_a <? e_b).
Qed.

(** The sum in sixteen bits shows the sign of the exact one and whether it is
    below the unit. *)
Lemma sum_sign T P : 0 < P -> Z.abs T < 2 ^ 12 * P ->
  (u16 (T / P) & kFp16SignMask) >> kFp16SignIndex = Z.b2z (T <? 0) /\
  ((u16 (T / P) =? 0) = true -> 0 <= T < P).
Proof.
  intros HP HT. change kFp16SignMask with ((2 ^ 1 - 1) * 2 ^ 15). change kFp16SignIndex with 15.
  rewrite land_field, Z.shiftr_div_pow2, Z.div_mul by lia. change (2 ^ 1) with 2.
  pose proof (Z.div_mod T P ltac:(lia)). pose proof (Z.mod_pos_bound T P HP).
  assert (- 2 ^ 12 <= T / P < 2 ^ 12) as Hq by nia.
  destruct (Z.ltb_spec T 0).
  - assert (T / P < 0) by nia.
    assert (u16 (T / P) = 2 ^ 16 + T / P) as -> by (unfold u16, wrapU; symmetry; apply (Z.mod_unique _ _ (-1)); lia).
    split; [|intros ?%Z.eqb_eq; lia]. by rewrite <- (Z.div_unique (2 ^ 16 + T / P) (2 ^ 15) 1 (2 ^ 15 + T / P)) by lia.
  - assert (0 <= T / P) by nia. assert (u16 (T / P) = T / P) as -> by (apply wrapU_id; unfold inU; lia).
    split; [by rewrite Z.div_small by lia|]. intros ?%Z.eqb_eq. nia.
Qed.

Lemma signed_signed a b x : signed a (signed b x) = signed (xorb a b) x.
Proof. destruct a, b; cbn; lia. Qed.

Lemma Fp16Add_ok v_1 v_2 : inU 16 v_1 -> inU 16 v_2 ->
  let S := half_val v_1 + half_val v_2 in
  exists r neg, Fp16Add v_1 v_2 = Some r /\ S = signed neg (Z.abs S) /\ Delivers neg (Z.abs S) 1 r.
Proof.
  intros H1 H2 S. rewrite Fp16Add_eq, !ExtractFp16_eq by done.
  pose proof (half_operand_of v_1 H1) as Ho1. pose proof (half_operand_of v_2 H2) as Ho2.
  assert (S = signed (half_neg v_1) (half_man v_1) * 2 ^ (Z.max 1 (half_exp v_1) - 1) +
              signed (half_neg v_2) (half_man v_2) * 2 ^ (Z.max 1 (half_exp v_2) - 1)) as ES.
  { unfold S, half_val, half_abs, signed. destruct (half_neg v_1), (half_neg v_2); ring. }
  clearbody S. pose proof (man_range v_1) as Hm1. pose proof (man_range v_2) as Hm2.
  remember (half_man v_1) as m_a. remember (half_man v_2) as m_b. remember (Z.max 1 (half_exp v_1)) as e_a. remember (Z.max 1 (half_exp v_2)) as e_b.
  remember (half_neg v_1) as na. remember (half_neg v_2) as nb. clear Heqm_a Heqm_b Heqe_a Heqe_b Heqna Heqnb.
  assert (u32 m_a = m_a /\ u32 m_b = m_b) as [Ua Ub] by (split; apply wrapU_id; unfold inU; lia). rewrite <- Ua, <- Ub.
  assert (HE : forall x y, half_operand e_a x -> half_operand e_b y -> 0 < 2 ^ (Z.max e_a e_b - 1) /\
    u16 (GetManSum e_a (u32 x) e_b (u32 y)) = u16 (exact e_a x e_b y / 2 ^ (Z.max e_a e_b - 1))).
  { intros x y (Hx & Hx' & _) (Hy & Hy' & _). split; [apply pow2_pos; unfold exp_ok in *; lia|].
    apply GetManSum_eq; [unfold man_ok; lia..|done|done]. }
  assert ((Z.b2z na =? Z.b2z nb) = eqb na nb) as -> by (by destruct na, nb). destruct (eqb na nb) eqn:Hs; cbn [negb].
  - apply eqb_prop in Hs as <-. pose proof (Ho1 false) as Ha. pose proof (Ho2 false) as Hb. cbn [signed] in Ha, Hb.
    destruct (HE _ _ Ha Hb) as [HP ->]. pose proof (exact_bound _ _ _ _ Ha Hb) as Hbd.
    assert (0 <= exact e_a m_a e_b m_b) as HT.
    { unfold exact. destruct Ha as ([? ?] & _), Hb as ([? ?] & _).
      pose proof (pow2_pos (e_a - 1)). pose proof (pow2_pos (e_b - 1)). nia. }
    destruct (add_tail_ok na (u16 (exact e_a m_a e_b m_b / 2 ^ (Z.max e_a e_b - 1)) =? 0) _ _ _ _ Ha Hb HT) as (r & -> & HD).
    { intros Hz. destruct (sum_sign _ _ HP Hbd) as [_ Hz']. specialize (Hz' Hz). lia. }
    exists r, na. split; [done|]. assert (S = signed na (exact e_a m_a e_b m_b)) as ->.
    { rewrite ES. unfold exact, signed. destruct na; ring. }
    assert (Z.abs (signed na (exact e_a m_a e_b m_b)) = exact e_a m_a e_b m_b) as -> by (unfold signed; destruct na; lia). done.
  - assert (forall b : bool, (0 <? Z.b2z b) = b) as Eb by (by intros []). rewrite !Eb, !ReverseMan_eq.
    pose proof (Ho1 na) as Ha. pose proof (Ho2 nb) as Hb. fold (exact e_a (signed na m_a) e_b (signed nb m_b)) in ES.
    destruct (HE _ _ Ha Hb) as [HP ->]. pose proof (exact_bound _ _ _ _ Ha Hb) as Hbd. rewrite <- ES in *.
    destruct (sum_sign _ _ HP Hbd) as [-> Hz]. rewrite Eb, !signed_signed.
    assert (exact e_a (signed (xorb (S <? 0) na) m_a) e_b (signed (xorb (S <? 0) nb) m_b) = Z.abs S) as Eabs.
    { rewrite <- !signed_signed. rewrite ES at 3. unfold exact in *. destruct (Z.ltb_spec S 0); cbn [signed]; lia. }
    destruct (add_tail_ok (S <? 0) (u16 (S / 2 ^ (Z.max e_a e_b - 1)) =? 0) _ _ _ _ (Ho1 (xorb (S <? 0) na)) (Ho2 (xorb (S <? 0) nb)))
      as (r & -> & HD); rewrite ?Eabs; [lia|intros Hzz; specialize (Hz Hzz); lia|].
    exists r, (S <? 0). rewrite Eabs in HD. split; [done|]. split; [|done]. destruct (Z.ltb_spec S 0); cbn [signed]; lia.
Qed.

(** * Fp16Sub *)
Lemma flip_sign v : inU 16 v ->
  let w := u16 (Z.lor (Z.land (Z.lnot v) kFp16SignMask) (Z.land v kFp16AbsMax)) in
  inU 16 w /\ half_val w = - half_val v.
Proof.
  intros Hv. cbv zeta. change kFp16SignMask with ((2 ^ 1 - 1) * 2 ^ 15). change kFp16AbsMax with (2 ^ 15 - 1).
  rewrite land_field, land_low by lia. change (2 ^ 1) with 2.
  destruct (half_view v Hv) as (E & He & Hf). set (neg := half_neg v) in *. set (e := half_exp v) in *. set (f := half_frac v) in *.
  assert (v mod 2 ^ 15 = e * 2 ^ 10 + f /\ (Z.lnot v / 2 ^ 15) mod 2 = Z.b2z (negb neg)) as [-> ->].
  { rewrite E. unfold pack, Z.lnot. destruct neg.
    - split; [symmetry; apply (Z.mod_unique _ _ 1); lia|].
      by rewrite <- (Z.div_unique (Z.pred (- (2 ^ 15 + e * 2 ^ 10 + f))) (2 ^ 15) (-2) (2 ^ 15 - 1 - e * 2 ^ 10 - f)) by lia.
    - split; [rewrite Z.mod_small; lia|].
      by rewrite <- (Z.div_unique (Z.pred (- (0 + e * 2 ^ 10 + f))) (2 ^ 15) (-1) (2 ^ 15 - 1 - e * 2 ^ 10 - f)) by lia. }
  rewrite lor_add by lia.
  replace (Z.b2z (negb neg) * 2 ^ 15 + (e * 2 ^ 10 + f)) with (pack (negb neg) e f) by (unfold pack; destruct neg; cbn [negb Z.b2z]; lia).
  rewrite u16_pack by lia. split; [apply pack_range; lia|]. rewrite E.
  unfold half_val, half_abs, half_man. rewrite !pack_neg, !pack_exp, !pack_frac by lia. destruct neg; cbn [negb signed]; lia.
Qed.

Lemma Fp16Sub_ok v_1 v_2 : inU 16 v_1 -> inU 16 v_2 ->
  let S := half_val v_1 - half_val v_2 in
  exists r neg, Fp16Sub v_1 v_2 = Some r /\ S = signed neg (Z.abs S) /\ Delivers neg (Z.abs S) 1 r.
Proof.
  intros H1 H2. cbv zeta. unfold Fp16Sub. destruct (flip_sign v_2 H2) as [Hw Ew]. cbv zeta in *.
  destruct (Fp16Add_ok v_1 _ H1 Hw) as (r & neg & Hr). cbv zeta in Hr. rewrite Ew, Z.add_opp_r in Hr. by exists r, neg.
Qed.

(** * Fp16Mul *)
Definition mul_inv (M e1 m t e : Z) : Prop :=
  0 <= e - e1 <= 24 /\ m = M / 2 ^ (e - e1) /\ t = M mod 2 ^ (e - e1) * 2 ^ (32 - (e - e1)) /\ (e <= 1 \/ 2 ^ 10 <= m).

Lemma mul_step M e1 m t e : 0 <= M < 2 ^ 22 -> -23 <= e1 -> mul_inv M e1 m t e -> 2 ^ 11 <= m \/ e < 1 ->
  mul_inv M e1 (m >> 1) (Z.lor (t >> 1) (u32 (kFp32SignMask * (m & 1)))) (e + 1).
Proof.
  intros HM He1 (Hn & Em & Et & Hlow) Hc. set (n := e - e1) in *.
  pose proof (pow2_pos n ltac:(lia)) as Hp. pose proof (pow2_pos (31 - n) ltac:(lia)).
  assert (n < 24) as Hn'.
  { destruct (decide (n = 24)) as [E|]; [exfalso|lia]. destruct Hc as [Hc|Hc]; [|lia].
    rewrite E, Z.div_small in Em by lia. lia. }
  assert (2 ^ (n + 1) = 2 ^ n * 2) as E1 by (rewrite Z.pow_add_r by lia; done).
  assert (2 ^ (32 - n) = 2 * 2 ^ (31 - n)) as E2 by (rewrite <- Z.pow_succ_r by lia; f_equal; lia).
  assert (2 ^ n * 2 ^ (31 - n) = 2 ^ 31) as E3 by (rewrite <- Z.pow_add_r by lia; f_equal; lia).
  pose proof (Z.mod_pos_bound M (2 ^ n) Hp).
  unfold mul_inv. replace (e + 1 - e1) with (n + 1) by lia. rewrite Z.shiftr_div_pow2 by lia. change (2 ^ 1) with 2.
  split; [lia|]. split; [by rewrite E1, <- Z.div_div, Em by lia|]. split.
  - assert (Z.land m 1 = m mod 2) as -> by (apply (land_low m 1); lia). change kFp32SignMask with (2 ^ 31).
    rewrite Z.shiftr_div_pow2 by lia. change (2 ^ 1) with 2. pose proof (Z.mod_pos_bound m 2 ltac:(lia)).
    assert (u32 (2 ^ 31 * (m mod 2)) = m mod 2 * 2 ^ 31) as -> by (unfold u32; rewrite wrapU_id; unfold inU; lia).
    assert (t / 2 = M mod 2 ^ n * 2 ^ (31 - n)) as -> by (rewrite Et, E2; symmetry; apply (Z.div_unique _ _ _ 0); lia).
    rewrite Z.lor_comm, lor_add by nia. replace (32 - (n + 1)) with (31 - n) by lia.
    assert (M mod 2 ^ (n + 1) = m mod 2 * 2 ^ n + M mod 2 ^ n) as ->; [|nia].
    rewrite E1, Em, Z.rem_mul_r by lia. ring.
  - destruct Hc as [Hc|Hc]; [right|left; lia]. apply Z.div_le_lower_bound; lia.
Qed.

Lemma mul_loops X M e : 0 <= M < 2 ^ 22 -> -23 <= e <= 37 -> M * 2 ^ (e + 23) = X ->
  exists m t e',
    ('(mul_m, e_ret) ←
       while 64 (fun '(mul_m, e_ret) => (mul_m <? 2 ^ 10) && (1 <? e_ret))
         (fun '(mul_m, e_ret) => (u32 (mul_m << 1), i16 (e_ret - 1))) (M, e);
     while 64 (fun '(mul_m, m_trunc, e_ret) => (2 ^ 11 <=? mul_m) || (e_ret <? 1))
       (fun '(mul_m, m_trunc, e_ret) =>
          (mul_m >> 1, Z.lor (m_trunc >> 1) (u32 (kFp32SignMask * (mul_m & 1))), i16 (e_ret + 1)))
       (mul_m, 0, e_ret)) = Some (m, t, e') /\
    (m * 2 ^ 32 + t) * (2 ^ 24 * 2 ^ (e' - 1)) = X * 2 ^ 32 /\ 0 <= t < 2 ^ 32 /\ 0 <= m < 2 ^ 11 /\ 1 <= e' <= 90 /\
    (e' = 1 \/ 2 ^ 10 <= m).
Proof.
  intros HM He HX.
  destruct (while_rule (fun '(m, e') => 0 <= m < 2 ^ 22 /\ -23 <= e' <= 37 /\ m * 2 ^ (e' + 23) = X) (fun '(m, e') => Z.to_nat e') 64
    (fun '(mul_m, e_ret) => (mul_m <? 2 ^ 10) && (1 <? e_ret))
    (fun '(mul_m, e_ret) => (u32 (mul_m << 1), i16 (e_ret - 1))) (M, e)) as ([M1 e1] & -> & (HM1 & He1 & HX1) & Hc1).
  - done.
  - lia.
  - intros [m1 e1] (Hm1 & He1 & E1) [Hlt%Z.ltb_lt Hgt%Z.ltb_lt]%andb_true_iff.
    assert (i16 (e1 - 1) = e1 - 1) as -> by (apply wrapS_id; unfold inS; lia).
    assert (u32 (m1 << 1) = m1 * 2) as -> by (rewrite Z.shiftl_mul_pow2 by lia; apply wrapU_id; unfold inU; lia).
    split; [|lia]. split; [lia|]. split; [lia|].
    replace (e1 + 23) with (Z.succ (e1 - 1 + 23)) in E1 by lia. rewrite Z.pow_succ_r in E1 by lia. lia.
  - cbn [mbind option_bind]. apply andb_false_iff in Hc1. rewrite !Z.ltb_ge in Hc1.
    destruct (while_rule (fun '(m, t, e') => mul_inv M1 e1 m t e') (fun '(m, t, e') => Z.to_nat (24 - (e' - e1))) 64
      (fun '(mul_m, m_trunc, e_ret) => (2 ^ 11 <=? mul_m) || (e_ret <? 1))
      (fun '(mul_m, m_trunc, e_ret) =>
          (mul_m >> 1, Z.lor (m_trunc >> 1) (u32 (kFp32SignMask * (mul_m & 1))), i16 (e_ret + 1)))
      (M1, 0, e1)) as ([[m t] e'] & -> & (Hn & Em & Et & Hlow) & Hc).
    + unfold mul_inv. rewrite Z.sub_diag, Z.pow_0_r, Z.div_1_r, Z.mod_1_r. lia.
    + lia.
    + intros [[m2 t2] e2] HI Hc2. apply orb_true_iff in Hc2. rewrite Z.leb_le, Z.ltb_lt in Hc2.
      pose proof HI as (Hn & _). assert (i16 (e2 + 1) = e2 + 1) as -> by (apply wrapS_id; unfold inS; lia).
      pose proof (mul_step M1 e1 m2 t2 e2 ltac:(lia) ltac:(lia) HI Hc2) as HI'. split; [done|]. destruct HI' as (Hn' & _). lia.
    + apply orb_false_iff in Hc as [Hc%Z.leb_gt Hc'%Z.ltb_ge]. exists m, t, e'. split; [done|].
      set (n := e' - e1) in *. pose proof (pow2_pos n ltac:(lia)) as Hp. pose proof (pow2_pos (32 - n) ltac:(lia)).
      pose proof (Z.mod_pos_bound M1 (2 ^ n) Hp). pose proof (Z.div_mod M1 (2 ^ n) ltac:(lia)) as ED.
      assert (2 ^ 32 = 2 ^ n * 2 ^ (32 - n)) as E32 by (rewrite <- Z.pow_add_r by lia; f_equal; lia).
      assert (0 <= m) by (rewrite Em; apply Z.div_pos; lia).
      split; [|split; [nia|split; [lia|split; lia]]].
      assert (m * 2 ^ 32 + t = M1 * 2 ^ (32 - n)) as -> by (rewrite Em, Et, E32; rewrite ED at 3; ring).
      rewrite <- HX1, <- !Z.mul_assoc, <- !Z.pow_add_r by lia. do 2 f_equal. lia.
Qed.

(** The steps of Fp16Mul after the loops. *)
Lemma mul_finish neg e r : 1 <= e <= 90 -> 0 <= r <= 2 ^ 11 -> e = 1 \/ 2 ^ 10 <= r ->
  let e_ret := if ((carry e r).1 =? 1) && ((carry e r).2 <? kFp16ManHideBit) then 0 else (carry e r).1 in
  (let '(e_ret, m_ret) := Fp16Normalize e_ret (u16 (carry e r).2) in u16 (FP16_CONSTRUCTOR (Z.b2z neg) (u16 e_ret) m_ret)) =
  if 31 * 2 ^ 10 <=? encode false e r then half_over neg else encode neg e r.
Proof.
  intros He Hr Hn. cbv zeta. change kFp16ManHideBit with (2 ^ 10).
  assert (u16 (carry e r).2 = (carry e r).2) as ->.
  { apply wrapU_id. unfold inU, carry. destruct (Z.eqb_spec r (2 ^ 11)); cbn [snd]; lia. }
  destruct (decide (r < 2 ^ 10)).
  - assert (e = 1) as -> by lia. assert (carry 1 r = (1, r)) as ->
      by (unfold carry; by rewrite (proj2 (Z.eqb_neq _ _)) by lia).
    cbn [fst snd]. change (1 =? 1) with true. rewrite (proj2 (Z.ltb_lt _ _)) by lia. cbn [andb].
    rewrite (normalize_denormal neg r) by lia. by rewrite (proj2 (Z.leb_gt _ _)) by (unfold encode; lia).
  - assert (2 ^ 10 <= (carry e r).2) by (unfold carry; destruct (r =? 2 ^ 11); cbn [snd]; lia).
    rewrite (proj2 (Z.ltb_ge (carry e r).2 _)), andb_false_r by lia. apply (carry_over neg e r); lia.
Qed.

Lemma Fp16Mul_ok v_1 v_2 : inU 16 v_1 -> inU 16 v_2 ->
  exists r, Fp16Mul v_1 v_2 = Some r /\
    Delivers (xorb (half_neg v_1) (half_neg v_2)) (half_abs v_1 * half_abs v_2) (2 ^ 24) r.
Proof.
  intros H1 H2. unfold Fp16Mul. rewrite !ExtractFp16_eq by done. unfold half_abs.
  pose proof (man_range v_1) as Hm1. pose proof (man_range v_2) as Hm2. pose proof (exp_range v_1). pose proof (exp_range v_2).
  set (m_a := half_man v_1) in *. set (m_b := half_man v_2) in *.
  remember (Z.max 1 (half_exp v_1)) as e_a. remember (Z.max 1 (half_exp v_2)) as e_b.
  assert (i16 (e_a + e_b - kFp16ExpBias - 10) = e_a + e_b - 25) as ->.
  { change kFp16ExpBias with 15. unfold i16. rewrite wrapS_id; unfold inS; lia. }
  assert (0 <= m_a * m_b < 2 ^ 22) as HM by nia.
  assert (u32 (m_a * m_b) = m_a * m_b) as -> by (apply wrapU_id; unfold inU; lia).
  change (u32 (kFp16ManHideBit << 1)) with (2 ^ 11). change kFp16ManHideBit with (2 ^ 10).
  assert (Z.lxor (Z.b2z (half_neg v_1)) (Z.b2z (half_neg v_2)) = Z.b2z (xorb (half_neg v_1) (half_neg v_2))) as ->
    by (by destruct (half_neg v_1), (half_neg v_2)).
  set (neg := xorb _ _). set (X := m_a * 2 ^ (e_a - 1) * (m_b * 2 ^ (e_b - 1))).
  destruct (mul_loops X (m_a * m_b) (e_a + e_b - 25) HM ltac:(lia)) as (m & t & e & Hrun & HV & Ht & Hm & He & Hn).
  { unfold X. replace (e_a + e_b - 25 + 23) with ((e_a - 1) + (e_b - 1)) by lia. rewrite Z.pow_add_r by lia. ring. }
  destruct (while 64 _ _ (m_a * m_b, _)) as [[M1 e1]|]; [|done]. cbn [mbind option_bind] in *. rewrite Hrun. cbn [mbind option_bind].
  rewrite trunc_round by lia.
  destruct (held_rounded X (2 ^ 24) m t e ltac:(lia) ltac:(lia) HV Ht Hm Hn) as (HR & Hr & Hr'). cbv zeta in *. set (r := rne _ _) in *.
  assert (u32 r = r) as -> by (apply wrapU_id; unfold inU; lia). rewrite carry_loop by lia. cbn [mbind option_bind].
  pose proof (mul_finish neg e r He Hr ltac:(lia)) as Ef. cbv zeta in Ef. change kFp16ManHideBit with (2 ^ 10) in Ef.
  eexists. split; [|by exists e, r]. destruct (Fp16Normalize _ _). by rewrite Ef.
Qed.
