(* ===== verification/Fp16Div.v ===== *)
(** Division of half precision numbers.

    Fp16Div divides the aligned mantissas in single precision and assigns the
    float: two roundings.  The quotient of two mantissas of eleven bits is too far
    from any midpoint of half precision for the first rounding to matter, so the
    result is the exact quotient rounded once. *)
From S2P Require Import Prelude Fp16 Fp16Round Fp16Convert.

(** * Ratios *)
Lemma rne_ratio n d n' d' : 0 < d -> 0 < d' -> n * d' = n' * d -> rne n d = rne n' d'.
Proof.
  intros Hd Hd' E. rewrite <- (rne_scale d' n d), <- (rne_scale d n' d') by done. f_equal; lia.
Qed.

(** Rounding to integers first does no harm to a later rounding to a multiple of
    2^g when the numerator is a multiple of 2^13 and the denominator small. *)
Lemma rne_rne K d g : 0 < d < 2 ^ 13 -> 13 <= g -> (2 ^ 13 | K) -> rne (rne K d) (2 ^ g) = rne K (d * 2 ^ g).
Proof.
  intros Hd Hg [k HK]. pose proof (pow2_pos g ltac:(lia)) as HG.
  assert (2 ^ g = 2 ^ 13 * 2 ^ (g - 13)) as Eg by (rewrite <- Z.pow_add_r by lia; f_equal; lia).
  assert (2 ^ g = 2 * 2 ^ (g - 1)) as Eg1 by (rewrite <- Z.pow_succ_r by lia; f_equal; lia).
  set (G := 2 ^ g) in *. set (G' := 2 ^ (g - 13)) in *. set (G1 := 2 ^ (g - 1)) in *.
  destruct (rne_spec K (d * G) ltac:(nia)) as (H1 & H2 & H3). set (n := rne K (d * G)) in *.
  destruct (rne_spec K d ltac:(lia)) as (M1 & M2 & _).
  apply rne_unique; [done|].
  destruct (decide (2 * Z.abs (K - d * G * n) = d * G)) as [Ht|Hnt].
  - right. split; [|by apply H3].
    assert (exists q, K = q * d /\ 2 * Z.abs (q - G * n) = G) as (q & EK & Hq).
    { destruct (Z.le_ge_cases 0 (K - d * G * n)).
      - exists (G * n + G1). split; [nia|]. rewrite Eg1. lia.
      - exists (G * n - G1). split; [nia|]. rewrite Eg1. lia. }
    by rewrite EK, rne_exact by lia.
  - left. set (M := rne K d) in *.
    assert (2 * Z.abs (K - d * G * n) + 2 ^ 13 <= d * G) as Hgap.
    { assert (exists j, d * G - 2 * Z.abs (K - d * G * n) = 2 ^ 13 * j) as [j Hj].
      { destruct (Z.le_ge_cases 0 (K - d * G * n)).
        - exists (d * G' - 2 * (k - d * G' * n)). rewrite Z.abs_eq, HK, Eg by done. ring.
        - exists (d * G' + 2 * (k - d * G' * n)). rewrite Z.abs_neq, HK, Eg by done. ring. }
      lia. }
    assert (2 * Z.abs (d * (M - G * n)) < d * G) as Hfin by lia. rewrite Z.abs_mul, (Z.abs_eq d) in Hfin by lia.
    apply (Z.mul_lt_mono_pos_l d); [lia|]. lia.
Qed.

(** Inequalities between numbers times powers of two depend on the difference of
    the exponents only. *)
Lemma pow_shift_le u w x y x' y' : 0 <= u -> 0 <= x -> 0 <= y -> 0 <= x' -> 0 <= y' -> x' - y' <= x - y ->
  u * 2 ^ x <= w * 2 ^ y -> u * 2 ^ x' <= w * 2 ^ y'.
Proof.
  intros Hu Hx Hy Hx' Hy' Hd H. pose proof (pow2_pos y Hy). pose proof (pow2_pos y' Hy').
  assert (2 ^ x' * 2 ^ y <= 2 ^ x * 2 ^ y') by (rewrite <- !Z.pow_add_r by lia; apply Z.pow_le_mono_r; lia).
  apply (Z.mul_le_mono_pos_r _ _ (2 ^ y)); [lia|]. nia.
Qed.
Lemma pow_shift_lt u w x y x' y' : 0 <= u -> 0 <= x -> 0 <= y -> 0 <= x' -> 0 <= y' -> x' - y' <= x - y ->
  u * 2 ^ x < w * 2 ^ y -> u * 2 ^ x' < w * 2 ^ y'.
Proof.
  intros Hu Hx Hy Hx' Hy' Hd H. pose proof (pow2_pos y Hy). pose proof (pow2_pos y' Hy').
  assert (2 ^ x' * 2 ^ y <= 2 ^ x * 2 ^ y') by (rewrite <- !Z.pow_add_r by lia; apply Z.pow_le_mono_r; lia).
  apply (Z.mul_lt_mono_pos_r (2 ^ y)); [lia|]. nia.
Qed.

(** * The float quotient *)
Definition scaled_num (a e : Z) : Z := a * 2 ^ Z.max 0 (- e).
Definition scaled_den (b e : Z) : Z := b * 2 ^ Z.max 0 e.

Lemma float_ratio_exp a b : 0 < a -> 0 < b ->
  exists e, float_ratio a b = (e + 126) * 2 ^ 23 + rne (scaled_num a e * 2 ^ 23) (scaled_den b e) /\
    scaled_den b e <= scaled_num a e < 2 * scaled_den b e /\ Z.abs (e - (Z.log2 a - Z.log2 b)) <= 1.
Proof.
  intros Ha Hb. pose proof (Z.log2_spec a Ha) as [La Ha']. pose proof (Z.log2_spec b Hb) as [Lb Hb'].
  pose proof (Z.log2_nonneg a). pose proof (Z.log2_nonneg b). set (e0 := Z.log2 a - Z.log2 b) in *.
  assert (float_ratio a b = let e := if scaled_num a e0 <? scaled_den b e0 then e0 - 1 else e0 in
    (e + 126) * 2 ^ 23 + rne (scaled_num a e * 2 ^ 23) (scaled_den b e)) as -> by reflexivity. cbv zeta.
  rewrite Z.pow_succ_r in Ha', Hb' by lia.
  assert (scaled_num a e0 < 2 * scaled_den b e0 /\ scaled_den b e0 < 2 * scaled_num a e0) as [Hup Hlo].
  { unfold scaled_num, scaled_den. set (x := Z.max 0 (- e0)). set (y := Z.max 0 e0).
    assert (2 ^ Z.log2 a * 2 ^ x = 2 ^ Z.log2 b * 2 ^ y) as E by (rewrite <- !Z.pow_add_r by lia; f_equal; lia).
    pose proof (pow2_pos x ltac:(lia)). pose proof (pow2_pos y ltac:(lia)). split; nia. }
  destruct (Z.ltb_spec (scaled_num a e0) (scaled_den b e0)) as [Hlt|Hge].
  - exists (e0 - 1). split; [done|]. split; [|lia].
    assert (scaled_num a (e0 - 1) = scaled_num a e0 /\ 2 * scaled_den b (e0 - 1) = scaled_den b e0 \/
            scaled_num a (e0 - 1) = 2 * scaled_num a e0 /\ scaled_den b (e0 - 1) = scaled_den b e0) as [[E1 E2]|[E1 E2]]; [|lia..].
    unfold scaled_num, scaled_den. destruct (decide (1 <= e0)); [left|right].
    + rewrite !(Z.max_l 0 (- _)), !(Z.max_r 0 _) by lia. split; [done|].
      replace (2 ^ e0) with (2 * 2 ^ (e0 - 1)); [ring|]. rewrite <- Z.pow_succ_r by lia. f_equal. lia.
    + rewrite !(Z.max_r 0 (- _)), !(Z.max_l 0 _) by lia. split; [|done].
      replace (2 ^ (- (e0 - 1))) with (2 * 2 ^ (- e0)); [ring|]. rewrite <- Z.pow_succ_r by lia. f_equal. lia.
  - exists e0. split; [done|]. lia.
Qed.

Lemma float_abs_encode e M : -126 <= e <= 126 -> 2 ^ 23 <= M < 2 ^ 24 ->
  ieee_abs 23 8 ((e + 126) * 2 ^ 23 + M) = M * 2 ^ (e + 126) /\ ieee_neg 23 8 ((e + 126) * 2 ^ 23 + M) = false.
Proof.
  intros He HM. destruct (ieee_pack 23 8 false (e + 127) (M - 2 ^ 23)) as (E1 & E2 & E3); [lia..|]. cbv zeta in *. cbn [Z.b2z] in *.
  replace (0 * 2 ^ (23 + 8) + (e + 127) * 2 ^ 23 + (M - 2 ^ 23)) with ((e + 126) * 2 ^ 23 + M) in * by lia.
  unfold ieee_abs, ieee_man. rewrite E1, E2, E3, (proj2 (Z.eqb_neq _ 0)), Z.max_r by lia. split; [|done].
  replace (e + 127 - 1) with (e + 126) by lia. f_equal. lia.
Qed.

(** * The aligned operands *)
Section Quotient.
Context (m_a e_a m_b e_b : Z).
Context (Hma : 0 < m_a < 2 ^ 11) (Hmb : 0 < m_b < 2 ^ 11) (Hea : 1 <= e_a <= 31) (Heb : 1 <= e_b <= 31).

Definition op_num : Z := m_a * 2 ^ Z.max 0 (e_a - e_b).
Definition op_den : Z := m_b * 2 ^ Z.max 0 (e_b - e_a).

(** The quotient as the float holds it: a mantissa of 24 bits that does not carry. *)
Lemma quotient_float :
  exists e M, float_ratio op_num op_den = (e + 126) * 2 ^ 23 + M /\ -60 <= e <= 60 /\ 2 ^ 23 <= M < 2 ^ 24 /\
    scaled_den op_den e <= scaled_num op_num e < 2 * scaled_den op_den e /\
    (forall g, 13 <= g -> rne M (2 ^ g) = rne (scaled_num op_num e * 2 ^ 23) (scaled_den op_den e * 2 ^ g)).
Proof.
  assert (0 < op_num < 2 ^ 42 /\ 0 < op_den < 2 ^ 42) as [Hn Hd].
  { unfold op_num, op_den. assert (0 < 2 ^ Z.max 0 (e_a - e_b) <= 2 ^ 30) by (split; [apply pow2_pos; lia|apply Z.pow_le_mono_r; lia]).
    assert (0 < 2 ^ Z.max 0 (e_b - e_a) <= 2 ^ 30) by (split; [apply pow2_pos; lia|apply Z.pow_le_mono_r; lia]). nia. }
  destruct (float_ratio_exp op_num op_den ltac:(lia) ltac:(lia)) as (e & -> & [Hlo Hup] & He).
  assert (Z.log2 op_num < 42) by (apply Z.log2_lt_pow2; lia). assert (Z.log2 op_den < 42) by (apply Z.log2_lt_pow2; lia).
  pose proof (Z.log2_nonneg op_num). pose proof (Z.log2_nonneg op_den).
  exists e, (rne (scaled_num op_num e * 2 ^ 23) (scaled_den op_den e)). split; [done|]. split; [lia|].
  set (s := e_a - e_b - e). set (N := m_a * 2 ^ Z.max 0 s). set (D := m_b * 2 ^ Z.max 0 (- s)).
  set (x := Z.max 0 (e_a - e_b) + Z.max 0 (- e)). set (y := Z.max 0 (e_b - e_a) + Z.max 0 e).
  assert (scaled_num op_num e = m_a * 2 ^ x) as En by (unfold scaled_num, op_num, x; rewrite Z.pow_add_r by lia; ring).
  assert (scaled_den op_den e = m_b * 2 ^ y) as Ed by (unfold scaled_den, op_den, y; rewrite Z.pow_add_r by lia; ring).
  assert (D <= N) as HDN by (apply (pow_shift_le m_b m_a y x); lia).
  assert (N < 2 * D) as HND.
  { unfold D. rewrite Z.mul_assoc. apply (pow_shift_lt m_a (2 * m_b) x y); lia. }
  assert (0 < D < 2 ^ 11) as HD.
  { unfold D in *. pose proof (pow2_pos (Z.max 0 (- s)) ltac:(lia)). split; [nia|]. destruct (Z.le_ge_cases 0 s).
    - rewrite Z.max_l by lia. lia.
    - unfold N in HDN. rewrite (Z.max_l 0 s) in HDN by lia. lia. }
  assert (0 < scaled_den op_den e) as Hden by (rewrite Ed; pose proof (pow2_pos y ltac:(lia)); nia).
  assert (scaled_num op_num e * D = N * scaled_den op_den e) as ER.
  { rewrite En, Ed. unfold N, D.
    replace (m_a * 2 ^ x * (m_b * 2 ^ Z.max 0 (- s))) with (m_a * m_b * (2 ^ x * 2 ^ Z.max 0 (- s))) by ring.
    replace (m_a * 2 ^ Z.max 0 s * (m_b * 2 ^ y)) with (m_a * m_b * (2 ^ Z.max 0 s * 2 ^ y)) by ring.
    rewrite <- !Z.pow_add_r by lia. do 2 f_equal. lia. }
  rewrite (rne_ratio _ (scaled_den op_den e) (N * 2 ^ 23) D) by lia.
  pose proof (rne_range (N * 2 ^ 23) D (2 ^ 23) (2 ^ 24 - 1) ltac:(lia) ltac:(lia)).
  split; [lia|]. split; [lia|]. intros g Hg. pose proof (pow2_pos g ltac:(lia)).
  rewrite rne_rne; [|lia|lia|exists (N * 2 ^ 10); lia]. apply rne_ratio; [apply Z.mul_pos_pos; lia..|].
  replace (N * 2 ^ 23 * (scaled_den op_den e * 2 ^ g)) with (N * scaled_den op_den e * (2 ^ 23 * 2 ^ g)) by ring. rewrite <- ER. ring.
Qed.

(** It rounds to half precision like the exact quotient. *)
Lemma quotient_rounded e M : -60 <= e <= 60 -> 2 ^ 23 <= M < 2 ^ 24 ->
  scaled_den op_den e <= scaled_num op_num e < 2 * scaled_den op_den e ->
  (forall g, 13 <= g -> rne M (2 ^ g) = rne (scaled_num op_num e * 2 ^ 23) (scaled_den op_den e * 2 ^ g)) ->
  exists E r, Rounded (op_num * 2 ^ 24) op_den E r /\ Rounded (M * 2 ^ (e + 126)) (2 ^ 125) E r.
Proof.
  intros He HM [Hlo Hup] Hr. set (E := Z.max 1 (e + 15)). set (g := E - e - 2). specialize (Hr g ltac:(lia)).
  exists E, (rne M (2 ^ g)).
  assert (0 < op_den) as Hd by (unfold op_den; pose proof (pow2_pos (Z.max 0 (e_b - e_a)) ltac:(lia)); nia).
  pose proof (pow2_pos (E - 1) ltac:(lia)) as HE1. pose proof (pow2_pos g ltac:(lia)) as Hg.
  unfold scaled_num, scaled_den in *. pose proof (pow2_pos (Z.max 0 e) ltac:(lia)).
  assert (0 <= op_num) as Hn by (unfold op_num; pose proof (pow2_pos (Z.max 0 (e_a - e_b)) ltac:(lia)); nia).
  split; (split; [lia|]).
  - assert (op_den * 2 ^ (E - 1) * 2 ^ 10 = op_den * 2 ^ (E + 9)) as E10.
    { rewrite <- Z.mul_assoc, <- Z.pow_add_r by lia. do 2 f_equal. lia. }
    split; [|split].
    + destruct (decide (e + 15 <= 1)); [left; lia|right]. rewrite Z.mul_comm, E10.
      apply (pow_shift_le op_den op_num (Z.max 0 e) (Z.max 0 (- e))); lia.
    + replace (2 ^ 11 * (op_den * 2 ^ (E - 1))) with (2 * op_den * 2 ^ (E + 9)) by lia.
      apply (pow_shift_lt op_num (2 * op_den) (Z.max 0 (- e)) (Z.max 0 e)); lia.
    + rewrite Hr. apply rne_ratio; [repeat apply Z.mul_pos_pos; lia..|].
      replace (op_num * 2 ^ Z.max 0 (- e) * 2 ^ 23 * (op_den * 2 ^ (E - 1)))
        with (op_num * op_den * (2 ^ Z.max 0 (- e) * 2 ^ 23 * 2 ^ (E - 1))) by ring.
      replace (op_num * 2 ^ 24 * (op_den * 2 ^ Z.max 0 e * 2 ^ g)) with (op_num * op_den * (2 ^ 24 * 2 ^ Z.max 0 e * 2 ^ g)) by ring.
      rewrite <- !Z.pow_add_r by lia. do 2 f_equal. lia.
  - rewrite <- Z.pow_add_r by lia. split; [|split].
    + destruct (decide (e + 15 <= 1)); [left; lia|right]. rewrite <- Z.pow_add_r by lia.
      replace (10 + (125 + (E - 1))) with (23 + (e + 126)) by lia. rewrite Z.pow_add_r by lia.
      pose proof (pow2_pos (e + 126) ltac:(lia)). nia.
    + rewrite <- Z.pow_add_r by lia. apply Z.lt_le_trans with (2 ^ 24 * 2 ^ (e + 126)).
      * pose proof (pow2_pos (e + 126) ltac:(lia)). nia.
      * rewrite <- Z.pow_add_r by lia. apply Z.pow_le_mono_r; lia.
    + apply rne_ratio; [done|apply pow2_pos; lia|]. rewrite <- Z.mul_assoc, <- Z.pow_add_r by lia. do 2 f_equal. lia.
Qed.
End Quotient.

Lemma Rounded_unique X D e m e' m' : 0 < D -> Rounded X D e m -> Rounded X D e' m' -> e = e' /\ m = m'.
Proof.
  intros HD. assert (Hle : forall e m e' m', Rounded X D e m -> Rounded X D e' m' -> e' <= e).
  { clear e m e' m'. intros e m e' m' (He & _ & Hhi & _) (He' & Hlo & _ & _).
    destruct (decide (e' <= e)); [done|exfalso]. destruct Hlo as [->|Hlo]; [lia|].
    pose proof (pow2_pos (e - 1) ltac:(lia)).
    assert (2 ^ (e' - 1) = 2 * 2 ^ (e - 1) * 2 ^ (e' - e - 1)) as E.
    { rewrite <- Z.pow_succ_r, <- Z.pow_add_r by lia. f_equal. lia. }
    pose proof (pow2_pos (e' - e - 1) ltac:(lia)). rewrite E in Hlo. assert (0 < D * 2 ^ (e - 1)) by nia. nia. }
  intros H1 H2. pose proof (Hle _ _ _ _ H1 H2). pose proof (Hle _ _ _ _ H2 H1). assert (e = e') as -> by lia.
  destruct H1 as (_ & _ & _ & ->), H2 as (_ & _ & _ & ->). done.
Qed.

(** The sign is set on a positive pattern. *)
Definition with_sign (neg : bool) (r : Z) : Z := if neg then u16 (Z.lor r kFp16SignMask) else r.

Lemma with_sign_eq neg r : 0 <= r < 2 ^ 15 -> with_sign neg r = (if neg then 2 ^ 15 else 0) + r.
Proof.
  intros Hr. unfold with_sign. destruct neg; [|lia]. change kFp16SignMask with (1 * 2 ^ 15). rewrite Z.lor_comm, lor_add by lia.
  unfold u16. rewrite wrapU_id; unfold inU; lia.
Qed.

Lemma shift_left_loop_eq n m : 0 <= m -> m * 2 ^ Z.of_nat n < 2 ^ 64 -> shift_left_loop n m = m * 2 ^ Z.of_nat n.
Proof.
  revert m. induction n as [|n IH]; intros m Hm Hb; [cbn; lia|]. cbn [shift_left_loop].
  rewrite Nat2Z.inj_succ, Z.pow_succ_r in * by lia. pose proof (pow2_pos (Z.of_nat n) ltac:(lia)).
  rewrite Z.shiftl_mul_pow2 by lia. change (2 ^ 1) with 2. unfold u64. rewrite wrapU_id by (unfold inU; nia). rewrite IH by nia. ring.
Qed.

Lemma float_round_eq m k : 0 < m < 2 ^ 11 -> 0 <= k <= 30 -> float_round (m * 2 ^ k) = m * 2 ^ k.
Proof.
  intros Hm Hk. unfold float_round. destruct (Z.ltb_spec (m * 2 ^ k) (2 ^ 24)) as [|Hge]; [done|].
  pose proof (pow2_pos k ltac:(lia)) as Hp.
  assert (24 <= Z.log2 (m * 2 ^ k)) by (apply Z.log2_le_pow2; lia).
  assert (Z.log2 (m * 2 ^ k) < 11 + k) by (apply Z.log2_lt_pow2; [lia|rewrite Z.pow_add_r by lia; nia]).
  set (l := Z.log2 (m * 2 ^ k) - 23) in *. pose proof (pow2_pos l ltac:(lia)).
  assert (m * 2 ^ k = m * 2 ^ (k - l) * 2 ^ l) as -> by (rewrite <- Z.mul_assoc, <- Z.pow_add_r by lia; do 2 f_equal; lia).
  by rewrite rne_exact by lia.
Qed.

(** The quotient of the aligned operands, with the sign. *)
Lemma divide_aligned neg m_a e_a m_b e_b : 0 < m_a < 2 ^ 11 -> 0 < m_b < 2 ^ 11 -> 1 <= e_a <= 31 -> 1 <= e_b <= 31 ->
  let A := op_num m_a e_a e_b in
  let B := op_den e_a m_b e_b in
  Narrows (signed neg (A * 2 ^ 24)) B neg (with_sign neg (assign_float (float_ratio A B))).
Proof.
  intros Hma Hmb Hea Heb A B.
  destruct (quotient_float m_a e_a m_b e_b Hma Hmb Hea Heb) as (e & M & Ex & He & HM & Hq & Hr). fold A B in Ex, Hq, Hr.
  rewrite Ex.
  destruct (quotient_rounded m_a e_a m_b e_b Hma Hmb e M He HM Hq Hr) as (E & r & HR & HRF). fold A B in HR.
  assert (0 < A) as HA by (unfold A, op_num; pose proof (pow2_pos (Z.max 0 (e_a - e_b)) ltac:(lia)); nia).
  assert (0 < B) as HB by (unfold B, op_den; pose proof (pow2_pos (Z.max 0 (e_b - e_a)) ltac:(lia)); nia).
  set (x := (e + 126) * 2 ^ 23 + M). destruct (float_abs_encode e M ltac:(lia) HM) as [EX EN]. fold x in EX, EN.
  rewrite assign_float_eq. destruct (narrow_cases 23 8 112 ltac:(lia) ltac:(lia) ltac:(lia) x) as [_ Hc]. rewrite EX, EN in Hc.
  change (2 ^ (112 + 23 - 10)) with (2 ^ 125) in Hc. pose proof (pow2_pos (e + 126) ltac:(lia)).
  assert (Z.abs (signed neg (A * 2 ^ 24)) = A * 2 ^ 24) as Eabs by (unfold signed; destruct neg; lia).
  assert (0 <= A * 2 ^ 24) as HX by lia.
  pose proof (Rounded_normal _ _ _ _ HB HX HR) as Hn. pose proof (Rounded_limit _ _ _ _ HB HX HR) as Hlim.
  unfold scaled_num, scaled_den in Hq.
  destruct Hc as [[Hlt (E' & r' & HR' & ->)]|[Hge ->]].
  - destruct (Rounded_unique _ (2 ^ 125) _ _ _ _ ltac:(lia) HR' HRF) as [-> ->].
    assert (e <= 16) as He16.
    { apply Z.nlt_ge. intros Hc. assert (2 ^ 143 <= 2 ^ (e + 126)) by (apply Z.pow_le_mono_r; lia). nia. }
    destruct (Z.leb_spec (31 * 2 ^ 10) (encode false E r)).
    + rewrite with_sign_eq by done. replace (_ + half_over false) with (half_over neg) by (by destruct neg).
      apply narrows_over. rewrite Eabs. split; [lia|].
      replace (B * 2 ^ 41) with (2 * B * 2 ^ 40) by lia.
      apply (pow_shift_lt A (2 * B) (Z.max 0 (- e)) (Z.max 0 e)); lia.
    + assert (0 <= encode false E r) by (destruct Hn as (? & ? & _); unfold encode; lia).
      rewrite with_sign_eq by lia. replace (_ + encode false E r) with (encode neg E r) by (unfold encode; lia).
      apply narrows_nearest; [rewrite Eabs; lia|apply Rounded_nearest; [lia..|done|done]|by apply encode_neg].
  - assert (17 <= e) as He17.
    { apply Z.nlt_ge. intros Hc. assert (2 ^ (e + 126) <= 2 ^ 142) by (apply Z.pow_le_mono_r; lia). nia. }
    rewrite with_sign_eq by done. replace (_ + encode false 30 (2 ^ 11 - 1)) with (encode neg 30 (2 ^ 11 - 1)) by (unfold encode; lia).
    apply narrows_max. rewrite Eabs. apply (pow_shift_le B A (Z.max 0 e) (Z.max 0 (- e))); lia.
Qed.

(** * Fp16Div *)
Lemma Nearest_ratio X D X' D' r : 0 < D -> 0 < D' -> X * D' = X' * D -> Nearest X D r -> Nearest X' D' r.
Proof.
  intros HD HD' E [Hf Hn]. split; [done|]. intros u Hu.
  assert (forall v, D' * Z.abs (X - D * half_val v) = D * Z.abs (X' - D' * half_val v)) as Hs.
  { intros v. rewrite <- (Z.abs_eq D') at 1 by lia. rewrite <- (Z.abs_eq D) at 2 by lia. rewrite <- !Z.abs_mul. f_equal. lia. }
  pose proof (Hs r) as Hr. pose proof (Hs u) as Hu'. destruct (Hn u Hu) as [?|[? ?]]; [left; nia|right; split; [nia|done]].
Qed.

Lemma Narrows_ratio X D X' D' neg r : 0 < D -> 0 < D' -> X * D' = X' * D -> Narrows X D neg r -> Narrows X' D' neg r.
Proof.
  intros HD HD' E HN.
  assert (Z.abs X * D' = Z.abs X' * D) as Ea by (rewrite <- (Z.abs_eq D), <- (Z.abs_eq D'), <- !Z.abs_mul by lia; by f_equal).
  destruct HN as [r Hl Hn Hs|Hl|Hl]; [apply narrows_nearest|apply narrows_over|apply narrows_max].
  - nia.
  - by apply (Nearest_ratio X D).
  - done.
  - split; nia.
  - nia.
Qed.

(** The shifted mantissas are exact floats. *)
Lemma shifted_float m k : 0 < m < 2 ^ 11 -> 0 <= k <= 30 -> float_round (shift_left_loop (Z.to_nat (u16 k)) m) = m * 2 ^ k.
Proof.
  intros Hm Hk. assert (u16 k = k) as -> by (apply wrapU_id; unfold inU; lia).
  assert (0 < 2 ^ k <= 2 ^ 30) by (split; [apply pow2_pos; lia|apply Z.pow_le_mono_r; lia]).
  rewrite shift_left_loop_eq by (rewrite ?Z2Nat.id by lia; nia). rewrite Z2Nat.id by lia. by apply float_round_eq.
Qed.

Lemma unshifted_float m : 0 < m < 2 ^ 11 -> float_round m = m.
Proof. intros Hm. pose proof (float_round_eq m 0 Hm ltac:(lia)) as E. by rewrite Z.mul_1_r in E. Qed.

Lemma Fp16Div_aligned v_1 v_2 : inU 16 v_1 -> inU 16 v_2 -> half_abs v_1 <> 0 -> half_abs v_2 <> 0 ->
  let e_a := Z.max 1 (half_exp v_1) in
  let e_b := Z.max 1 (half_exp v_2) in
  0 < half_man v_1 /\ 0 < half_man v_2 /\
  Fp16Div v_1 v_2 = with_sign (xorb (half_neg v_1) (half_neg v_2))
    (assign_float (float_ratio (op_num (half_man v_1) e_a e_b) (op_den e_a (half_man v_2) e_b))).
Proof.
  intros H1 H2 Hz1 Hz2. cbv zeta. unfold Fp16Div. rewrite !is_zero by done.
  rewrite (proj2 (Z.eqb_neq _ _) Hz1), (proj2 (Z.eqb_neq _ _) Hz2), !ExtractFp16_eq by done. unfold half_abs in *.
  pose proof (man_range v_1). pose proof (man_range v_2). pose proof (exp_range v_1). pose proof (exp_range v_2).
  set (m_a := half_man v_1) in *. set (m_b := half_man v_2) in *.
  remember (Z.max 1 (half_exp v_1)) as e_a. remember (Z.max 1 (half_exp v_2)) as e_b.
  assert (0 < m_a < 2 ^ 11 /\ 0 < m_b < 2 ^ 11) as [Hma Hmb] by (split; lia). split; [lia|]. split; [lia|].
  assert (negb (Z.b2z (half_neg v_1) =? Z.b2z (half_neg v_2)) = xorb (half_neg v_1) (half_neg v_2)) as -> by (by destruct (half_neg v_1), (half_neg v_2)).
  unfold with_sign, op_num, op_den. destruct (Z.ltb_spec e_b e_a); [|destruct (Z.ltb_spec e_a e_b)].
  - rewrite shifted_float, unshifted_float, Z.max_r, Z.max_l, Z.mul_1_r by lia. done.
  - rewrite shifted_float, unshifted_float, Z.max_l, Z.max_r, Z.mul_1_r by lia. done.
  - rewrite !unshifted_float, !Z.max_l, !Z.mul_1_r by lia. done.
Qed.

Lemma Fp16Div_ok v_1 v_2 : inU 16 v_1 -> inU 16 v_2 ->
  let neg := xorb (half_neg v_1) (half_neg v_2) in
  if half_abs v_2 =? 0 then Fp16Div v_1 v_2 = pack neg 31 0
  else if half_abs v_1 =? 0 then Fp16Div v_1 v_2 = 0
  else Narrows (signed neg (half_abs v_1 * 2 ^ 24)) (half_abs v_2) neg (Fp16Div v_1 v_2).
Proof.
  intros H1 H2 neg. destruct (Z.eqb_spec (half_abs v_2) 0) as [Hz2|Hz2]; [|destruct (Z.eqb_spec (half_abs v_1) 0) as [Hz1|Hz1]].
  - unfold Fp16Div. rewrite is_zero, Hz2, !extract_sign by done.
    assert (Z.lxor (Z.b2z (half_neg v_1)) (Z.b2z (half_neg v_2)) = Z.b2z neg) as -> by (unfold neg; by destruct (half_neg v_1), (half_neg v_2)).
    change kFp16MaxExp with 31. cbn [Z.eqb]. rewrite constructor_pack by lia. by apply u16_pack.
  - unfold Fp16Div. by rewrite !is_zero, Hz1, (proj2 (Z.eqb_neq _ _) Hz2) by done.
  - destruct (Fp16Div_aligned v_1 v_2 H1 H2 Hz1 Hz2) as (Pa & Pb & ->). fold neg. unfold half_abs.
    pose proof (man_range v_1). pose proof (man_range v_2). pose proof (exp_range v_1). pose proof (exp_range v_2).
    set (m_a := half_man v_1) in *. set (m_b := half_man v_2) in *.
    remember (Z.max 1 (half_exp v_1)) as e_a. remember (Z.max 1 (half_exp v_2)) as e_b.
    set (A := op_num m_a e_a e_b). set (B := op_den e_a m_b e_b).
    pose proof (pow2_pos (Z.max 0 (e_b - e_a)) ltac:(lia)). pose proof (pow2_pos (e_b - 1) ltac:(lia)).
    apply (Narrows_ratio (signed neg (A * 2 ^ 24)) B); [unfold B, op_den; nia|nia| |apply divide_aligned; lia].
    assert (A * (m_b * 2 ^ (e_b - 1)) = m_a * 2 ^ (e_a - 1) * B) as E.
    { unfold A, B, op_num, op_den.
      replace (m_a * 2 ^ Z.max 0 (e_a - e_b) * (m_b * 2 ^ (e_b - 1))) with (m_a * m_b * (2 ^ Z.max 0 (e_a - e_b) * 2 ^ (e_b - 1))) by ring.
      replace (m_a * 2 ^ (e_a - 1) * (m_b * 2 ^ Z.max 0 (e_b - e_a))) with (m_a * m_b * (2 ^ (e_a - 1) * 2 ^ Z.max 0 (e_b - e_a))) by ring.
      rewrite <- !Z.pow_add_r by lia. do 2 f_equal. lia. }
    clearbody A B. unfold signed. destruct neg; lia.
Qed.
