(* ===== verification/Fp16Theorems.v ===== *)
(** Half precision numbers: the theorems.

    Every arithmetic operation and conversion of fp16_t.cc against the exact
    result: rounding to nearest with ties to even where the result is in range,
    what the code does where it is not, and the inputs it gets wrong. *)
From S2P Require Import Prelude Fp16 Fp16Round Fp16Convert Fp16Integers Fp16Arith Fp16Div.

(** The pattern an operation returns for the exact result X / D. *)
Inductive Rounds (X D : Z) : Z -> Prop :=
| rounds_nearest r : Z.abs X < D * half_limit -> Nearest X D r -> Rounds X D r
| rounds_over : D * half_limit <= Z.abs X -> Rounds X D (half_over (X <? 0)).

Lemma Delivers_rounds X D neg r : 0 < D -> X = signed neg (Z.abs X) -> Delivers neg (Z.abs X) D r -> Rounds X D r.
Proof.
  intros HD Hs Hd. destruct (Delivers_spec neg (Z.abs X) D r HD ltac:(lia) Hd) as [Hn Ho]. rewrite <- Hs in Hn.
  destruct (decide (Z.abs X < D * half_limit)); [by apply rounds_nearest; auto|].
  rewrite Ho by lia. assert (neg = (X <? 0)) as ->; [|apply rounds_over; lia].
  unfold half_limit in *. destruct neg; cbn in Hs; symmetry; [apply Z.ltb_lt|apply Z.ltb_ge]; lia.
Qed.

(** * Order *)
Lemma half_abs_nonneg v : 0 <= half_abs v.
Proof. unfold half_abs. pose proof (man_range v). pose proof (pow2_pos (Z.max 1 (half_exp v) - 1) ltac:(lia)). nia. Qed.

(** The comparison of exponents, then of mantissas, is that of the magnitudes. *)
Lemma compare_abs v w :
  (if half_exp w <? half_exp v then true else if half_exp v =? half_exp w then half_man w <? half_man v else false) =
  (half_abs w <? half_abs v).
Proof.
  pose proof (half_abs_lt v w) as H1. pose proof (half_abs_lt w v) as H2.
  destruct (Z.ltb_spec (half_exp w) (half_exp v)); [symmetry; apply Z.ltb_lt; auto|].
  destruct (Z.eqb_spec (half_exp v) (half_exp w)) as [E|]; [|symmetry; apply Z.ltb_ge; specialize (H1 ltac:(lia)); lia].
  destruct (Z.ltb_spec (half_man w) (half_man v)); symmetry; [apply Z.ltb_lt; auto|apply Z.ltb_ge].
  destruct (decide (half_man v = half_man w)) as [Em|]; [|specialize (H1 ltac:(lia)); lia].
  unfold half_abs. rewrite E, Em. lia.
Qed.

Lemma op_gt_val v w : inU 16 v -> inU 16 w -> op_gt v w = (half_val w <? half_val v).
Proof.
  intros Hv Hw. unfold op_gt. rewrite !extract_sign, !extract_exp, !extract_man, !is_zero by done.
  pose proof (compare_abs v w) as C1. pose proof (compare_abs w v) as C2. rewrite (Z.eqb_sym (half_exp w)) in C2.
  pose proof (half_abs_nonneg v). pose proof (half_abs_nonneg w). unfold half_val.
  destruct (half_neg v), (half_neg w); cbn [Z.b2z Z.eqb Z.ltb Z.compare andb signed].
  - rewrite C2. apply eq_true_iff_eq. rewrite !Z.ltb_lt. lia.
  - symmetry. apply Z.ltb_ge. lia.
  - apply eq_true_iff_eq. rewrite negb_true_iff, andb_false_iff, !Z.eqb_neq, Z.ltb_lt. lia.
  - by rewrite C1.
Qed.

Lemma op_eq_val v w : inU 16 v -> inU 16 w -> op_eq v w = (half_val v =? half_val w).
Proof.
  intros Hv Hw. unfold op_eq. rewrite !is_zero by done. change kBitLen16Max with (2 ^ 16 - 1).
  rewrite !land_low, !Z.mod_small by (done || lia). pose proof (half_abs_nonneg v). pose proof (half_abs_nonneg w).
  assert (half_val v = 0 <-> half_abs v = 0) as Zv by (unfold half_val, signed; destruct (half_neg v); lia).
  assert (half_val w = 0 <-> half_abs w = 0) as Zw by (unfold half_val, signed; destruct (half_neg w); lia).
  destruct (Z.eqb_spec (half_abs v) 0), (Z.eqb_spec (half_abs w) 0); cbn [andb];
    [symmetry; apply Z.eqb_eq; lia|..]; apply eq_true_iff_eq; rewrite !Z.eqb_eq; (split; [by intros ->|]); intros E; try lia.
  apply half_val_inj; [done..| |done]. unfold half_val, signed in E. destruct (half_neg v), (half_neg w); try done; lia.
Qed.

(** * The theorems *)

(** C11 Addition, subtraction and multiplication of finite half precision
    numbers return the exact sum, difference or product rounded to the nearest
    half precision number, ties to even, and the pattern 0x7FFF with the sign of
    the result when it rounds beyond 65504.  The loops of the code end on every pair
    of operands. *)
Theorem fp16_arithmetic_nearest v_1 v_2 : half_finite v_1 -> half_finite v_2 ->
  exists sum difference product,
    Fp16Add v_1 v_2 = Some sum /\ Rounds (half_val v_1 + half_val v_2) 1 sum /\
    Fp16Sub v_1 v_2 = Some difference /\ Rounds (half_val v_1 - half_val v_2) 1 difference /\
    Fp16Mul v_1 v_2 = Some product /\ Rounds (half_val v_1 * half_val v_2) (2 ^ 24) product.
Proof.
  intros [H1 _] [H2 _].
  destruct (Fp16Add_ok v_1 v_2 H1 H2) as (a & na & Ha & Sa & Da). destruct (Fp16Sub_ok v_1 v_2 H1 H2) as (s & ns & Hs & Ss & Ds).
  destruct (Fp16Mul_ok v_1 v_2 H1 H2) as (m & Hm & Dm). exists a, s, m.
  split; [done|]. split; [by apply (Delivers_rounds _ _ na)|]. split; [done|]. split; [by apply (Delivers_rounds _ _ ns)|]. split; [done|].
  pose proof (half_abs_nonneg v_1). pose proof (half_abs_nonneg v_2).
  assert (half_abs v_1 * half_abs v_2 = Z.abs (half_val v_1 * half_val v_2)) as E.
  { unfold half_val, signed. destruct (half_neg v_1), (half_neg v_2); lia. }
  apply (Delivers_rounds _ _ (xorb (half_neg v_1) (half_neg v_2))); [lia| |by rewrite <- E].
  rewrite <- E. unfold half_val, signed. destruct (half_neg v_1), (half_neg v_2); cbn [xorb]; ring.
Qed.

(** C34 Division, which divides the mantissas in single precision and rounds
    the float a second time, returns the exact quotient rounded once: the nearest half
    precision number below 65520, then as the assignment of a float does.  A zero divisor
    gives Inf with the sign of the quotient, a zero dividend gives +0. *)
Theorem fp16_division_nearest v_1 v_2 : inU 16 v_1 -> inU 16 v_2 ->
  let neg := xorb (half_neg v_1) (half_neg v_2) in
  if half_abs v_2 =? 0 then Fp16Div v_1 v_2 = pack neg 31 0
  else if half_abs v_1 =? 0 then Fp16Div v_1 v_2 = 0
  else Narrows (signed neg (half_abs v_1 * 2 ^ 24)) (half_abs v_2) neg (Fp16Div v_1 v_2).
Proof. apply Fp16Div_ok. Qed.

(** Assigning a float or a double, whatever its bits, gives the nearest half
    precision number with its sign when the value is below 65520 in magnitude,
    the pattern 0x7FFF with the sign from there up to 2^17, and the largest finite
    number with the sign from 2^17 on, infinities and NaN included. *)
Theorem fp16_assign_float x d :
  Narrows (float_val x) float_unit (ieee_neg 23 8 x) (assign_float x) /\
  Narrows (double_val d) double_unit (ieee_neg 52 11 d) (assign_double d).
Proof.
  rewrite assign_float_eq, assign_double_eq. split; [apply (narrow_spec 23 8 112)|apply (narrow_spec 52 11 1008)]; lia.
Qed.

(** C33 A finite half precision number converted to float or to double has the
    same value and the same sign there, and assigning it back gives the same pattern. *)
Theorem fp16_float_roundtrip v : half_finite v ->
  exists x d,
    Fp16ToFloat v = Some x /\ float_val x = half_val v * float_unit /\ assign_float x = v /\
    Fp16ToDouble v = Some d /\ double_val d = half_val v * double_unit /\ assign_double d = v.
Proof.
  intros Hf. pose proof Hf as [Hv _].
  destruct (Fp16ToFloat_ok v Hv) as (x & Hx & Vx & Nx & _). destruct (Fp16ToDouble_ok v Hv) as (d & Hd & Vd & Nd & _).
  exists x, d. split; [done|]. split; [done|].
  pose proof (narrow_spec 23 8 112 ltac:(lia) ltac:(lia) ltac:(lia) x) as N1. fold (float_val x) in N1. rewrite Vx, Nx in N1.
  pose proof (narrow_spec 52 11 1008 ltac:(lia) ltac:(lia) ltac:(lia) d) as N2. fold (double_val d) in N2. rewrite Vd, Nd in N2.
  rewrite assign_float_eq, assign_double_eq.
  split; [by apply (Narrows_exact v float_unit)|]. split; [done|]. split; [done|by apply (Narrows_exact v double_unit)].
Qed.

(** C40 The conversions to the integer types of 8, 16 and 32 bits round to the nearest integer, ties
    to even, and saturate at the ends of the type; Inf and NaN go to the end
    their sign points to.  So none of these wraps, and all of them end.  The two conversions to
    64 bits are not implemented: they answer 0 for every number. *)
Theorem fp16_to_integers v : inU 16 v ->
  Fp16ToInt8 v = Some (half_to_int (- 2 ^ 7) (2 ^ 7 - 1) v) /\ Fp16ToUInt8 v = Some (half_to_int 0 (2 ^ 8 - 1) v) /\
  Fp16ToInt16 v = Some (half_to_int (- 2 ^ 15) (2 ^ 15 - 1) v) /\ Fp16ToUInt16 v = Some (half_to_int 0 (2 ^ 16 - 1) v) /\
  Fp16ToInt32 v = Some (half_to_int (- 2 ^ 31) (2 ^ 31 - 1) v) /\ Fp16ToUInt32 v = Some (half_to_int 0 (2 ^ 32 - 1) v) /\
  op_int64 v = 0 /\ op_uint64 v = 0.
Proof.
  intros Hv. rewrite Fp16ToInt8_ok, Fp16ToUInt8_ok, Fp16ToInt16_ok, Fp16ToUInt16_ok, Fp16ToInt32_ok, Fp16ToUInt32_ok by done. done.
Qed.

(** Assigning an integer: the 8-bit types are exact (the lowest int8_t
    apart), int16_t gives the nearest half precision number, uint16_t the nearest
    one below 65520 and Inf from there on, the 32-bit types the nearest one
    below 65520 and the largest finite number from there on (the lowest int32_t
    apart, whose negation overflows). *)
Theorem integers_to_fp16 n val :
  (- 2 ^ 7 < n < 2 ^ 7 -> exists r, assign_int8 n = Some r /\ half_val r = n * 2 ^ 24) /\
  (0 <= n < 2 ^ 8 -> exists r, assign_uint8 n = Some r /\ half_val r = n * 2 ^ 24) /\
  (n <> 0 -> - 2 ^ 15 <= n < 2 ^ 15 -> exists r, assign_int16 val n = Some r /\ Nearest (n * 2 ^ 24) 1 r) /\
  (0 < n < 2 ^ 16 -> exists r, assign_uint16 val n = Some r /\
     (n < 65520 -> Nearest (n * 2 ^ 24) 1 r) /\ (65520 <= n -> r = kFp16ExpMask)) /\
  (n <> 0 -> - 2 ^ 31 < n < 2 ^ 31 -> exists r, assign_int32 n = Some r /\ nearest_or_max (n <? 0) (Z.abs n) r) /\
  (0 < n < 2 ^ 32 -> exists r, assign_uint32 n = Some r /\ nearest_or_max false n r).
Proof.
  split; [intros H; destruct (assign_int8_ok n H) as (r & ? & _ & ?); by exists r|].
  split; [intros H; destruct (assign_uint8_ok n H) as (r & ? & _ & ?); by exists r|].
  split; [apply assign_int16_ok|]. split; [apply assign_uint16_ok|]. split; [apply assign_int32_ok|apply assign_uint32_ok].
Qed.

(** The six comparisons are those of the values (Inf and NaN valued as the
    numbers their bits would be), so they form one total order in which the two
    zeros are equal; abs, max and min agree with it. *)
Theorem fp16_total_order v w : inU 16 v -> inU 16 w ->
  op_eq v w = (half_val v =? half_val w) /\ op_ne v w = negb (half_val v =? half_val w) /\
  op_gt v w = (half_val w <? half_val v) /\ op_ge v w = (half_val w <=? half_val v) /\
  op_lt v w = (half_val v <? half_val w) /\ op_le v w = (half_val v <=? half_val w) /\
  half_val (fp16_max v w) = Z.max (half_val v) (half_val w) /\
  half_val (fp16_min v w) = Z.min (half_val v) (half_val w) /\ half_val (fp16_abs v) = Z.abs (half_val v).
Proof.
  intros Hv Hw. pose proof (op_eq_val v w Hv Hw) as Eeq. pose proof (op_gt_val v w Hv Hw) as Egt.
  assert (op_ne v w = negb (op_eq v w)) as -> by (unfold op_ne, op_eq; by destruct (_ && _)).
  assert (op_ge v w = (half_val w <=? half_val v)) as Ege.
  { unfold op_ge. rewrite Eeq, Egt. destruct (Z.ltb_spec (half_val w) (half_val v)), (Z.eqb_spec (half_val v) (half_val w)),
      (Z.leb_spec (half_val w) (half_val v)); try done; lia. }
  assert (op_le v w = (half_val v <=? half_val w)) as Ele.
  { unfold op_le. rewrite Egt. destruct (Z.ltb_spec (half_val w) (half_val v)), (Z.leb_spec (half_val v) (half_val w)); try done; lia. }
  assert (op_lt v w = (half_val v <? half_val w)) as Elt.
  { unfold op_lt. rewrite Ege. destruct (Z.leb_spec (half_val w) (half_val v)), (Z.ltb_spec (half_val v) (half_val w)); try done; lia. }
  unfold fp16_max, fp16_min. rewrite Eeq, Egt, Ege, Ele, Elt. do 6 (split; [done|]).
  split; [destruct (Z.leb_spec (half_val w) (half_val v)); lia|]. split; [destruct (Z.leb_spec (half_val v) (half_val w)); lia|].
  unfold fp16_abs. change kFp16AbsMax with (2 ^ 15 - 1). rewrite land_low by lia. destruct (half_view v Hv) as (E & He & Hf).
  rewrite E at 1. assert (pack (half_neg v) (half_exp v) (half_frac v) mod 2 ^ 15 = pack false (half_exp v) (half_frac v)) as ->.
  { unfold pack. destruct (half_neg v); [symmetry; apply (Z.mod_unique _ _ 1)|rewrite Z.mod_small]; lia. }
  pose proof (half_abs_nonneg v). unfold half_val, half_abs, half_man in *. rewrite pack_neg, pack_exp, pack_frac by lia.
  unfold signed. destruct (half_neg v); lia.
Qed.

(** The largest finite number is not the limit the code keeps: a float of
    65519 becomes 65504, 65520 and 65536 become the NaN pattern 0x7FFF, 131072 becomes 65504
    again; +Inf converts to the float 65536 and comes back as a NaN pattern. *)
Theorem fp16_overflow_not_monotone :
  assign_float 0x477FEF00 = 0x7BFF /\ assign_float 0x477FF000 = 0x7FFF /\ assign_float 0x47800000 = 0x7FFF /\
  assign_float 0x48000000 = 0x7BFF /\ assign_float 0x7F800000 = 0x7BFF /\ Fp16ToFloat 0x7C00 = Some 0x47800000.
Proof. by vm_compute. Qed.

(** The lowest int8_t, -128, is assigned as -0, although -128 is a half
    precision number: the sign bit is taken off before the magnitude is computed. *)
Theorem fp16_int8_min_lost :
  assign_int8 (- 128) = Some 0x8000 /\ half_val 0x8000 = 0 /\ half_finite 0xD800 /\ half_val 0xD800 = - 128 * 2 ^ 24.
Proof. by vm_compute. Qed.

(** * Witnesses *)
Lemma fp16_arithmetic_nearest_witness :
  half_finite 0x3C00 /\ half_finite 0x3555 /\
  exists sum difference product,
    Fp16Add 0x3C00 0x3555 = Some sum /\ Rounds (half_val 0x3C00 + half_val 0x3555) 1 sum /\
    Fp16Sub 0x3C00 0x3555 = Some difference /\ Rounds (half_val 0x3C00 - half_val 0x3555) 1 difference /\
    Fp16Mul 0x3C00 0x3555 = Some product /\ Rounds (half_val 0x3C00 * half_val 0x3555) (2 ^ 24) product.
Proof. split; [by vm_compute|]. split; [by vm_compute|]. apply fp16_arithmetic_nearest; by vm_compute. Defined.

Lemma fp16_division_nearest_witness :
  inU 16 0x3C00 /\ inU 16 0x4200 /\
  Narrows (signed false (half_abs 0x3C00 * 2 ^ 24)) (half_abs 0x4200) false (Fp16Div 0x3C00 0x4200) /\ Fp16Div 0x3C00 0x4200 = 0x3555.
Proof.
  split; [done|]. split; [done|]. split; [|by vm_compute]. exact (fp16_division_nearest 0x3C00 0x4200 ltac:(done) ltac:(done)).
Defined.

Lemma fp16_float_roundtrip_witness :
  half_finite 0x83FF /\ exists x d,
    Fp16ToFloat 0x83FF = Some x /\ float_val x = half_val 0x83FF * float_unit /\ assign_float x = 0x83FF /\
    Fp16ToDouble 0x83FF = Some d /\ double_val d = half_val 0x83FF * double_unit /\ assign_double d = 0x83FF.
Proof. split; [by vm_compute|]. apply fp16_float_roundtrip. by vm_compute. Defined.

Lemma fp16_to_integers_witness : inU 16 0xD840 /\ Fp16ToInt8 0xD840 = Some (half_to_int (- 2 ^ 7) (2 ^ 7 - 1) 0xD840).
Proof. split; [done|]. apply fp16_to_integers. done. Defined.

Lemma integers_to_fp16_witness : 65519 < 2 ^ 32 /\ exists r, assign_uint32 65519 = Some r /\ nearest_or_max false 65519 r.
Proof. split; [done|]. apply (integers_to_fp16 65519 0). done. Defined.

Lemma fp16_total_order_witness : inU 16 0x8001 /\ inU 16 0x0000 /\ op_lt 0x8001 0x0000 = (half_val 0x8001 <? half_val 0x0000).
Proof. split; [done|]. split; [done|]. apply fp16_total_order; done. Defined.
