(* ===== verification/DataTypeTransfer.v ===== *)
(** Data type transfers (ge/common/formats/format_transfers/datatype_transfer).

    TransDataType casts a tensor element by element between the C++ arithmetic
    types and fp16_t.  An element is its little-endian bytes; `static_cast` is
    modelled on bit patterns, with the conversions of the language (truncation towards zero,
    undefined outside the target range; rounding to nearest; two's complement
    wrapping) and the operators of fp16_t. *)
From S2P Require Import Prelude Buffer FormatsUtils Bytes Fp16 Fp16Round Fp16Convert Fp16Integers.

(** * Elements in memory *)
Fixpoint le_bytes (n : nat) (z : Z) : list Z :=
  match n with
  | O => []
  | S n => z mod 2 ^ 8 :: le_bytes n (z / 2 ^ 8)
  end.
Fixpoint le_value (l : list Z) : Z :=
  match l with
  | [] => 0
  | b :: l => b + 2 ^ 8 * le_value l
  end.

(** * The element types and static_cast *)
Inductive CType := C_float | C_double | C_fp16 | C_int8 | C_uint8 | C_int32 | C_int64.
Definition sizeof (t : CType) : Z :=
  match t with
  | C_int8 | C_uint8 => 1
  | C_fp16 => 2
  | C_float | C_int32 => 4
  | C_double | C_int64 => 8
  end.

(** An integer as a float or a double: rounded to nearest, ties to even. *)
Definition int_to_ieee (p w n : Z) : Z :=
  if n =? 0 then 0
  else
    let m := Z.abs n in
    let e := Z.log2 m in
    let man := if e <=? p then m * 2 ^ (p - e) else rne m (2 ^ (e - p)) in
    (if n <? 0 then 2 ^ (p + w) else 0) + (e + 2 ^ (w - 1) - 2) * 2 ^ p + man.

(** A float or a double as an int32_t: truncated; undefined for Inf, NaN and
    values outside the range. *)
Definition ieee_to_int32 (p w x : Z) : option Z :=
  if ieee_exp p w x =? 2 ^ w - 1 then None
  else
    let n := signed (ieee_neg p w x) (ieee_abs p w x / 2 ^ (2 ^ (w - 1) - 2 + p)) in
    if (- 2 ^ 31 <=? n) && (n <? 2 ^ 31) then Some (u32 n) else None.

Definition static_cast (SrcT DstT : CType) (x : Z) : option Z :=
  match SrcT, DstT with
  | C_float, C_int32 => ieee_to_int32 23 8 x
  | C_double, C_int32 => ieee_to_int32 52 11 x
  | C_fp16, C_float => Fp16ToFloat x
  | C_fp16, C_int32 => u32 <$> Fp16ToInt32 x
  | C_int32, C_float => Some (int_to_ieee 23 8 (i32 x))
  | C_int32, C_double => Some (int_to_ieee 52 11 (i32 x))
  | C_uint8, C_float => Some (int_to_ieee 23 8 x)
  | C_int8, C_float => Some (int_to_ieee 23 8 (i8 x))
  | C_int32, C_uint8 => Some (u8 (i32 x))
  | C_int32, C_int8 => Some (u8 (i32 x))
  | C_uint8, C_int32 => Some (u32 x)
  | C_int8, C_int32 => Some (u32 (i8 x))
  | C_int64, C_int32 => Some (u32 (wrapS 64 x))
  | C_int32, C_int64 => Some (u64 (i32 x))
  | _, _ => None
  end.

(** `fp16_t src_data; src_data = x;` *)
Definition assign_fp16 (SrcT : CType) (x : Z) : option Z :=
  match SrcT with
  | C_float => Some (assign_float x)
  | C_int32 => assign_int32 (i32 x)
  | _ => None
  end.

(** * The transfer *)
Inductive DataTypeTransMode :=
| kTransferWithDatatypeFloatToFloat16
| kTransferWithDatatypeFloatToInt32
| kTransferWithDatatypeFloat16ToFloat
| kTransferWithDatatypeFloat16ToInt32
| kTransferWithDatatypeInt32ToFloat
| kTransferWithDatatypeInt32ToFloat16
| kTransferWithDatatypeInt32ToUint8
| kTransferWithDatatypeInt32ToInt8
| kTransferWithDatatypeUint8ToFloat
| kTransferWithDatatypeUint8ToInt32
| kTransferWithDatatypeInt8ToFloat
| kTransferWithDatatypeInt8ToInt32
| kTransferWithDatatypeInt64ToInt32
| kTransferWithDatatypeInt32ToInt64
| kTransferWithDatatypeInt32ToDouble
| kTransferWithDatatypeDoubleToInt32.

Definition trans_mode_map (src dst : DataType) : option DataTypeTransMode :=
  match src, dst with
  | DT_FLOAT, DT_FLOAT16 => Some kTransferWithDatatypeFloatToFloat16
  | DT_FLOAT, DT_INT32 => Some kTransferWithDatatypeFloatToInt32
  | DT_FLOAT16, DT_FLOAT => Some kTransferWithDatatypeFloat16ToFloat
  | DT_FLOAT16, DT_INT32 => Some kTransferWithDatatypeFloat16ToInt32
  | DT_INT32, DT_FLOAT => Some kTransferWithDatatypeInt32ToFloat
  | DT_INT32, DT_FLOAT16 => Some kTransferWithDatatypeInt32ToFloat16
  | DT_INT32, DT_UINT8 => Some kTransferWithDatatypeInt32ToUint8
  | DT_INT32, DT_INT8 => Some kTransferWithDatatypeInt32ToInt8
  | DT_UINT8, DT_FLOAT => Some kTransferWithDatatypeUint8ToFloat
  | DT_UINT8, DT_INT32 => Some kTransferWithDatatypeUint8ToInt32
  | DT_INT8, DT_FLOAT => Some kTransferWithDatatypeInt8ToFloat
  | DT_INT8, DT_INT32 => Some kTransferWithDatatypeInt8ToInt32
  | DT_INT64, DT_INT32 => Some kTransferWithDatatypeInt64ToInt32
  | DT_INT32, DT_INT64 => Some kTransferWithDatatypeInt32ToInt64
  | DT_INT32, DT_DOUBLE => Some kTransferWithDatatypeInt32ToDouble
  | DT_DOUBLE, DT_INT32 => Some kTransferWithDatatypeDoubleToInt32
  | _, _ => None
  end.

Record CastArgs := {
  c_data : option (list Z);
  c_src_data_size : Z;
  c_src_data_type : DataType;
  c_dst_data_type : DataType;
}.

(** `reinterpret_cast<const SrcT *>(data)[idx]` and the store through a DstT pointer. *)
Definition load_elem (data : option (list Z)) (size idx : Z) : outcome Z :=
  match data with
  | Some b => l ← read_bytes b (idx * size) size; Ok (le_value l)
  | None => Stuck
  end.
Definition store_elem (dst : list Z) (size idx v : Z) : outcome (list Z) :=
  if (0 <=? idx * size) && (idx * size + size <=? zlen dst)
  then Ok (splice (idx * size) (le_bytes (Z.to_nat size) v) dst) else Stuck.
Definition or_stuck {A} (o : option A) : outcome A := match o with Some a => Ok a | None => Stuck end.

Definition TransDataSrc2Dst (SrcT DstT : CType) (args : CastArgs) (dst : list Z) (data_size : Z) : outcome (list Z) :=
  for_range data_size (fun idx dst =>
    src_data ← load_elem (c_data args) (sizeof SrcT) idx;
    v ← or_stuck (static_cast SrcT DstT src_data);
    store_elem dst (sizeof DstT) idx v) dst.

Definition TransDataSrc2Fp16 (SrcT : CType) (args : CastArgs) (dst : list Z) (data_size : Z) : outcome (list Z) :=
  for_range data_size (fun idx dst =>
    x ← load_elem (c_data args) (sizeof SrcT) idx;
    src_data ← or_stuck (assign_fp16 SrcT x);
    store_elem dst (sizeof C_fp16) idx src_data) dst.

(** The map of handlers has every mode. *)
Definition CastKernel (args : CastArgs) (dst : list Z) (data_size : Z) (trans_mode : DataTypeTransMode) : outcome (list Z) :=
  match trans_mode with
  | kTransferWithDatatypeFloatToFloat16 => TransDataSrc2Fp16 C_float args dst data_size
  | kTransferWithDatatypeFloatToInt32 => TransDataSrc2Dst C_float C_int32 args dst data_size
  | kTransferWithDatatypeFloat16ToFloat => TransDataSrc2Dst C_fp16 C_float args dst data_size
  | kTransferWithDatatypeFloat16ToInt32 => TransDataSrc2Dst C_fp16 C_int32 args dst data_size
  | kTransferWithDatatypeInt32ToFloat => TransDataSrc2Dst C_int32 C_float args dst data_size
  | kTransferWithDatatypeInt32ToFloat16 => TransDataSrc2Fp16 C_int32 args dst data_size
  | kTransferWithDatatypeInt32ToUint8 => TransDataSrc2Dst C_int32 C_uint8 args dst data_size
  | kTransferWithDatatypeInt32ToInt8 => TransDataSrc2Dst C_int32 C_int8 args dst data_size
  | kTransferWithDatatypeUint8ToFloat => TransDataSrc2Dst C_uint8 C_float args dst data_size
  | kTransferWithDatatypeUint8ToInt32 => TransDataSrc2Dst C_uint8 C_int32 args dst data_size
  | kTransferWithDatatypeInt8ToFloat => TransDataSrc2Dst C_int8 C_float args dst data_size
  | kTransferWithDatatypeInt8ToInt32 => TransDataSrc2Dst C_int8 C_int32 args dst data_size
  | kTransferWithDatatypeInt64ToInt32 => TransDataSrc2Dst C_int64 C_int32 args dst data_size
  | kTransferWithDatatypeInt32ToInt64 => TransDataSrc2Dst C_int32 C_int64 args dst data_size
  | kTransferWithDatatypeInt32ToDouble => TransDataSrc2Dst C_int32 C_double args dst data_size
  | kTransferWithDatatypeDoubleToInt32 => TransDataSrc2Dst C_double C_int32 args dst data_size
  end.

Section Transfer.
Context `{E : Env}.

Definition SIZE_MAX : Z := 2 ^ 64 - 1.

Definition TransDataType (args : CastArgs) (result : TransResult) : outcome TransResult :=
  match trans_mode_map (c_src_data_type args) (c_dst_data_type args) with
  | None => Err UNSUPPORTED
  | Some trans_mode =>
      let size := GetSizeByDataType (c_dst_data_type args) in
      if size <=? 0 then Err PARAM_INVALID
      else if SIZE_MAX / size <? c_src_data_size args then Err PARAM_INVALID
      else
        let total_size := wrapU64 (c_src_data_size args * size) in
        if total_size =? 0 then Ok {| res_data := res_data result; res_length := total_size |}
        else
          match new_uint8 total_size with
          | None => Err OUT_OF_MEMORY
          | Some dst =>
              dst ← or_else INTERNAL_ERROR (CastKernel args dst (c_src_data_size args) trans_mode);
              Ok {| res_data := Some dst; res_length := total_size |}
          end
  end.

Definition DataTypeTransferExists (args : CastArgs) : bool :=
  match trans_mode_map (c_src_data_type args) (c_dst_data_type args) with Some _ => true | None => false end.
End Transfer.

(** * The specification: a cast of every element *)
Definition elem_type (d : DataType) : option CType :=
  match d with
  | DT_FLOAT => Some C_float
  | DT_DOUBLE => Some C_double
  | DT_FLOAT16 => Some C_fp16
  | DT_INT8 => Some C_int8
  | DT_UINT8 => Some C_uint8
  | DT_INT32 => Some C_int32
  | DT_INT64 => Some C_int64
  | _ => None
  end.
Definition cast (SrcT DstT : CType) (x : Z) : option Z :=
  match DstT with C_fp16 => assign_fp16 SrcT x | _ => static_cast SrcT DstT x end.

(** The element sizes of the graph library are those of the C++ types. *)
Class ElementSizes (E : Env) : Prop := element_size d t : elem_type d = Some t -> GetSizeByDataType d = sizeof t.
#[export] Instance sample_sizes : ElementSizes sample_env.
Proof. intros [] t [= <-]; done. Qed.

Definition cast_loop (SrcT DstT : CType) (data : option (list Z)) (n : Z) : list Z -> outcome (list Z) :=
  for_range n (fun idx dst =>
    x ← load_elem data (sizeof SrcT) idx;
    v ← or_stuck (cast SrcT DstT x);
    store_elem dst (sizeof DstT) idx v).

Lemma CastKernel_eq args mode : trans_mode_map (c_src_data_type args) (c_dst_data_type args) = Some mode ->
  exists S D, elem_type (c_src_data_type args) = Some S /\ elem_type (c_dst_data_type args) = Some D /\
    forall n dst, CastKernel args dst n mode = cast_loop S D (c_data args) n dst.
Proof.
  intros Hm. destruct (c_src_data_type args), (c_dst_data_type args); try discriminate Hm; injection Hm as <-; by do 2 eexists.
Qed.

Lemma sizeof_pos t : 0 < sizeof t <= 8.
Proof. destruct t; cbn; lia. Qed.

Lemma zlen_le_bytes n z : zlen (le_bytes n z) = Z.of_nat n.
Proof. revert z. induction n as [|n IH]; intros z; [done|]. cbn [le_bytes]. rewrite zlen_cons, IH. lia. Qed.

Lemma le_value_bytes n z : 0 <= z < 2 ^ (8 * Z.of_nat n) -> le_value (le_bytes n z) = z.
Proof.
  revert z. induction n as [|n IH]; intros z Hz; [cbn in *; lia|]. cbn [le_bytes le_value].
  replace (8 * Z.of_nat (S n)) with (8 + 8 * Z.of_nat n) in Hz by lia. rewrite Z.pow_add_r in Hz by lia.
  pose proof (Z.div_mod z (2 ^ 8) ltac:(lia)). rewrite IH; [lia|].
  split; [apply Z.div_pos; lia|apply Z.div_lt_upper_bound; lia].
Qed.

Lemma le_bytes_value l : Forall is_byte l -> le_bytes (length l) (le_value l) = l /\ 0 <= le_value l < 2 ^ (8 * zlen l).
Proof.
  induction 1 as [|b l Hb Hl [IH1 IH2]]; [done|]. unfold is_byte in Hb. cbn [length le_bytes le_value].
  replace (b + 2 ^ 8 * le_value l) with (b + le_value l * 2 ^ 8) by ring.
  rewrite Z.mod_add, Z.div_add, Z.mod_small, Z.div_small, Z.add_0_l, IH1 by lia. split; [done|].
  rewrite zlen_cons. replace (8 * (zlen l + 1)) with (8 + 8 * zlen l) by lia. rewrite Z.pow_add_r by (pose proof (zlen_nonneg l); lia). lia.
Qed.

Section Correct.
Context `{E : Env} {HE : EnvOk E} {HS : ElementSizes E}.

(** One pass of the loop writes the cast of its element. *)
Lemma cast_loop_fills S D b n : 0 <= n -> zlen b = n * sizeof S ->
  (forall k, 0 <= k < n -> is_Some (cast S D (le_value (elem (sizeof S) b k)))) ->
  Fills (sizeof D) n (fun k => le_bytes (Z.to_nat (sizeof D)) (default 0 (cast S D (le_value (elem (sizeof S) b k)))))
    (cast_loop S D (Some b) n) (fun _ => True).
Proof.
  intros Hn Hb Hc. pose proof (sizeof_pos S). pose proof (sizeof_pos D). unfold cast_loop.
  eapply Fills_mono; [apply (Fills_for (sizeof D) n _ n _ (fun i k => k = i))|].
  - intros i Hi. apply Fills_elem; [lia| |done|].
    + intros k Hk. rewrite zlen_le_bytes. lia.
    + intros dst Hdst. cbn [load_elem]. rewrite read_bytes_in by nia. cbn [mbind outcome_bind].
      fold (elem (sizeof S) b i). destruct (Hc i Hi) as [v Hv]. rewrite Hv. cbn [or_stuck mbind outcome_bind default].
      unfold store_elem. rewrite (proj2 (Z.leb_le _ _)), (proj2 (Z.leb_le _ _)) by nia. done.
  - intros k Hk _. by exists k.
Qed.

Lemma TransDataType_ok args result S D b :
  let n := c_src_data_size args in
  trans_mode_map (c_src_data_type args) (c_dst_data_type args) <> None ->
  elem_type (c_src_data_type args) = Some S -> elem_type (c_dst_data_type args) = Some D ->
  c_data args = Some b -> 0 < n -> n * sizeof D < 2 ^ 64 -> zlen b = n * sizeof S ->
  (forall k, 0 <= k < n -> is_Some (cast S D (le_value (elem (sizeof S) b k)))) ->
  delivers (TransDataType args result) OUT_OF_MEMORY (sizeof D) n (fun out =>
    forall k, 0 <= k < n -> exists v, cast S D (le_value (elem (sizeof S) b k)) = Some v /\
      elem (sizeof D) out k = le_bytes (Z.to_nat (sizeof D)) v).
Proof.
  intros n Hm HS1 HD1 Hb Hn Hbig Hlen Hc. unfold delivers, TransDataType. fold n.
  destruct (trans_mode_map _ _) as [mode|] eqn:Emode; [|done].
  destruct (CastKernel_eq args mode Emode) as (S' & D' & ES & ED & Hk). rewrite HS1 in ES. rewrite HD1 in ED. injection ES as <-. injection ED as <-.
  rewrite (element_size _ D HD1). pose proof (sizeof_pos D). rewrite (proj2 (Z.leb_gt (sizeof D) 0)) by lia.
  assert ((SIZE_MAX / sizeof D <? n) = false) as ->.
  { apply Z.ltb_ge, Z.div_le_lower_bound; [lia|]. unfold SIZE_MAX. lia. }
  rewrite wrapU64_id, (proj2 (Z.eqb_neq _ 0)) by nia. destruct (new_uint8 (n * sizeof D)) as [dst|] eqn:Edst; [|done].
  pose proof (new_uint8_len _ _ Edst) as Hdst. rewrite Z.max_r in Hdst by nia.
  rewrite Hk, Hb. destruct (Fills_all (sizeof D) n _ _ dst (cast_loop_fills S D b n ltac:(lia) Hlen Hc) Hdst) as (out & -> & Hout & Hel).
  exists out. cbn [or_else mbind outcome_bind]. split; [done|]. split; [done|].
  intros k Hk'. rewrite Hel by done. destruct (Hc k Hk') as [v ->]. by exists v.
Qed.
End Correct.

(** * Casts that lose nothing *)
Definition lossless : list (DataType * DataType) :=
  [(DT_FLOAT16, DT_FLOAT); (DT_INT32, DT_INT64); (DT_INT32, DT_DOUBLE); (DT_UINT8, DT_INT32); (DT_INT8, DT_INT32)].

Lemma wrap_signed w v x : 0 < w <= v -> inU w x -> wrapU w (wrapS v (wrapU v (wrapS w x))) = x.
Proof.
  intros Hw Hx. unfold inU in Hx. pose proof (wrapS_in w x ltac:(lia)) as Hs. unfold inS in Hs.
  assert (2 ^ (w - 1) <= 2 ^ (v - 1)) by (apply Z.pow_le_mono_r; lia).
  assert (2 ^ v = 2 * 2 ^ (v - 1)) as Ev by (rewrite <- Z.pow_succ_r by lia; f_equal; lia).
  assert (2 ^ w = 2 * 2 ^ (w - 1)) as Ew by (rewrite <- Z.pow_succ_r by lia; f_equal; lia).
  assert (wrapS v (wrapU v (wrapS w x)) = wrapS w x) as ->.
  { unfold wrapS at 1, wrapU. rewrite Z.add_mod_idemp_l by lia. rewrite Z.mod_small; lia. }
  unfold wrapS, wrapU. rewrite Zminus_mod_idemp_l. replace (x + 2 ^ (w - 1) - 2 ^ (w - 1)) with x by ring. by apply Z.mod_small.
Qed.

Lemma int_double_back n : - 2 ^ 31 <= n < 2 ^ 31 ->
  inU 64 (int_to_ieee 52 11 n) /\ ieee_to_int32 52 11 (int_to_ieee 52 11 n) = Some (u32 n).
Proof.
  intros Hn. unfold int_to_ieee. destruct (Z.eqb_spec n 0) as [->|Hz]; [by vm_compute|].
  assert (0 < Z.abs n) as Hm by lia. pose proof (Z.log2_spec _ Hm) as [Hlo Hhi]. pose proof (Z.log2_nonneg (Z.abs n)).
  assert (Z.log2 (Z.abs n) < 32) by (apply Z.log2_lt_pow2; lia). set (e := Z.log2 (Z.abs n)) in *.
  rewrite (proj2 (Z.leb_le e 52)) by lia. set (man := Z.abs n * 2 ^ (52 - e)).
  rewrite Z.pow_succ_r in Hhi by lia. pose proof (pow2_pos (52 - e) ltac:(lia)).
  assert (2 ^ e * 2 ^ (52 - e) = 2 ^ 52) as Ee by (rewrite <- Z.pow_add_r by lia; f_equal; lia).
  assert (2 ^ 52 <= man < 2 ^ 53) as Hman by (unfold man; nia). change (2 ^ (11 - 1)) with 1024.
  destruct (ieee_pack 52 11 (n <? 0) (e + 1023) (man - 2 ^ 52)) as (E1 & E2 & E3); [lia..|]. cbv zeta in *.
  replace ((if n <? 0 then 2 ^ (52 + 11) else 0) + (e + 1024 - 2) * 2 ^ 52 + man) with
    (Z.b2z (n <? 0) * 2 ^ (52 + 11) + (e + 1023) * 2 ^ 52 + (man - 2 ^ 52)) by (destruct (n <? 0); cbn [Z.b2z]; lia).
  set (x := Z.b2z _ * _ + _ + _) in *.
  split; [unfold inU, x; change (52 + 11) with 63; destruct (n <? 0); cbn [Z.b2z]; lia|].
  unfold ieee_to_int32, ieee_abs, ieee_man. rewrite E1, E2, E3. change (2 ^ 11 - 1) with 2047.
  rewrite (proj2 (Z.eqb_neq (e + 1023) 2047)), (proj2 (Z.eqb_neq _ 0)), Z.max_r by lia.
  replace (man - 2 ^ 52 + 2 ^ 52) with man by ring. change (2 ^ (11 - 1) - 2 + 52) with 1074.
  assert (man * 2 ^ (e + 1023 - 1) = Z.abs n * 2 ^ 1074) as ->.
  { unfold man. rewrite <- Z.mul_assoc, <- Z.pow_add_r by lia. do 2 f_equal. lia. }
  rewrite Z.div_mul by (pose proof (pow2_pos 1074); lia).
  assert (signed (n <? 0) (Z.abs n) = n) as -> by (destruct (Z.ltb_spec n 0); cbn; lia).
  by rewrite (proj2 (Z.leb_le _ _)), (proj2 (Z.ltb_lt _ _)) by lia.
Qed.

Lemma cast_back s d S D x : (s, d) ∈ lossless -> elem_type s = Some S -> elem_type d = Some D ->
  inU (8 * sizeof S) x -> (S = C_fp16 -> half_exp x <> 31) ->
  exists y, cast S D x = Some y /\ inU (8 * sizeof D) y /\ cast D S y = Some x.
Proof.
  intros Hin HS HD Hx Hf.
  repeat (apply elem_of_cons in Hin as [[= -> ->]|Hin]); [..|by apply elem_of_nil in Hin]; injection HS as <-; injection HD as <-.
  - cbn in Hx. specialize (Hf eq_refl). destruct (Fp16ToFloat_ok x Hx) as (y & Hy & Vy & Ny & Ry).
    exists y. split; [done|]. split; [done|]. cbn [cast assign_fp16]. f_equal. rewrite assign_float_eq.
    pose proof (narrow_spec 23 8 112 ltac:(lia) ltac:(lia) ltac:(lia) y) as N. fold (float_val y) in N. rewrite Vy, Ny in N.
    by apply (Narrows_exact x float_unit).
  - exists (u64 (i32 x)). split; [done|]. split; [apply (Z.mod_pos_bound _ (2 ^ 64)); done|]. cbn. f_equal. by apply (wrap_signed 32 64).
  - destruct (int_double_back (i32 x)) as [Hr Hb]; [exact (wrapS_in 32 x ltac:(lia))|].
    exists (int_to_ieee 52 11 (i32 x)). split; [done|]. split; [done|]. cbn [cast static_cast]. rewrite Hb. f_equal.
    pose proof (wrap_signed 32 32 x ltac:(lia) Hx) as E. unfold u32, i32.
    rewrite <- E at 2. unfold wrapU, wrapS. rewrite Zminus_mod_idemp_l, Z.add_mod_idemp_l, Zminus_mod_idemp_l by lia. f_equal. lia.
  - exists (u32 x). cbn in Hx. unfold inU in Hx. split; [done|]. split; [apply (Z.mod_pos_bound _ (2 ^ 32)); done|]. cbn. f_equal.
    unfold u32. rewrite (wrapU_id 32) by (unfold inU; lia). unfold i32. rewrite (wrapS_id 32) by (unfold inS; lia).
    apply wrapU_id. unfold inU. lia.
  - exists (u32 (i8 x)). split; [done|]. split; [apply (Z.mod_pos_bound _ (2 ^ 32)); done|]. cbn. f_equal. by apply (wrap_signed 8 32).
Qed.

(** * The properties *)
Definition cast_args (data : option (list Z)) (n : Z) (s d : DataType) : CastArgs :=
  {| c_data := data; c_src_data_size := n; c_src_data_type := s; c_dst_data_type := d |}.

Section Properties.
Context `{E : Env} {HE : EnvOk E} {HS : ElementSizes E}.

(** A tensor of [n] elements whose values can be cast is cast element by element: the
    output has [n] elements of the destination type, and element [k] holds the bytes of the cast of
    input element [k]. *)
Theorem transdatatype_correct s d S D b n result :
  DataTypeTransferExists (cast_args (Some b) n s d) = true ->
  elem_type s = Some S -> elem_type d = Some D -> 0 < n -> n * sizeof D < 2 ^ 64 -> zlen b = n * sizeof S ->
  (forall k, 0 <= k < n -> is_Some (cast S D (le_value (elem (sizeof S) b k)))) ->
  delivers (TransDataType (cast_args (Some b) n s d) result) OUT_OF_MEMORY (sizeof D) n (fun out =>
    forall k, 0 <= k < n -> exists v, cast S D (le_value (elem (sizeof S) b k)) = Some v /\
      elem (sizeof D) out k = le_bytes (Z.to_nat (sizeof D)) v).
Proof.
  intros Hex ES ED Hn Hbig Hlen Hc. apply TransDataType_ok; try done.
  unfold DataTypeTransferExists in Hex. by destruct (trans_mode_map _ _).
Qed.

Lemma lossless_modes s d : (s, d) ∈ lossless -> trans_mode_map s d <> None /\ trans_mode_map d s <> None.
Proof. intros Hin. repeat (apply elem_of_cons in Hin as [[= -> ->]|Hin]; [done|]). by apply elem_of_nil in Hin. Qed.

Lemma elem_bytes t b n k : Forall is_byte b -> zlen b = n * sizeof t -> 0 <= k < n ->
  le_bytes (Z.to_nat (sizeof t)) (le_value (elem (sizeof t) b k)) = elem (sizeof t) b k /\
  inU (8 * sizeof t) (le_value (elem (sizeof t) b k)).
Proof.
  intros Hb Hl Hk. pose proof (sizeof_pos t).
  assert (zlen (elem (sizeof t) b k) = sizeof t) as Hz by (apply (zlen_elem _ n); lia).
  destruct (le_bytes_value (elem (sizeof t) b k)) as [E1 E2].
  { unfold elem. by apply Forall_take, Forall_drop. }
  rewrite Hz in E2. split; [|exact E2]. rewrite <- E1 at 2. f_equal. unfold zlen in Hz. lia.
Qed.

(** C35 A cast to a type that holds every value of the source loses nothing: casting
    the result back gives the original bytes.  Half precision elements must be finite. *)
Theorem lossless_cast_roundtrip s d S D b n result result' r :
  (s, d) ∈ lossless -> elem_type s = Some S -> elem_type d = Some D ->
  0 < n < 2 ^ 60 -> zlen b = n * sizeof S -> Forall is_byte b ->
  (S = C_fp16 -> forall k, 0 <= k < n -> half_exp (le_value (elem (sizeof S) b k)) <> 31) ->
  TransDataType (cast_args (Some b) n s d) result = Ok r ->
  delivers (TransDataType (cast_args (res_data r) n d s) result') OUT_OF_MEMORY (sizeof S) n (fun out => out = b).
Proof.
  intros Hin ES ED Hn Hlen Hb Hf Hr. destruct (lossless_modes s d Hin) as [Hm Hm']. pose proof (sizeof_pos S). pose proof (sizeof_pos D).
  assert (forall k, 0 <= k < n -> exists y, cast S D (le_value (elem (sizeof S) b k)) = Some y /\ inU (8 * sizeof D) y /\
    cast D S y = Some (le_value (elem (sizeof S) b k))) as Hback.
  { intros k Hk. eapply cast_back; eauto. by apply (elem_bytes S b n k). }
  pose proof (TransDataType_ok (cast_args (Some b) n s d) result S D b Hm ES ED eq_refl ltac:(cbn; lia) ltac:(cbn; nia) Hlen) as Hfw.
  destruct (delivers_ok _ _ _ _ _ _ (Hfw ltac:(intros k Hk; destruct (Hback k Hk) as (y & -> & _); eauto)) Hr) as (out & -> & _ & Hl & Hout).
  cbn [c_src_data_size cast_args] in *.
  assert (forall k, 0 <= k < n -> cast D S (le_value (elem (sizeof D) out k)) = Some (le_value (elem (sizeof S) b k))) as Hcast.
  { intros k Hk. destruct (Hout k Hk) as (v & Hv & ->). destruct (Hback k Hk) as (y & Hy & Hry & Hby).
    assert (v = y) as -> by congruence. rewrite le_value_bytes; [done|]. rewrite Z2Nat.id by lia. exact Hry. }
  eapply delivers_mono; [apply (TransDataType_ok (cast_args (Some out) n d s) result' D S out); try done; cbn; try lia; [nia|]|].
  - intros k Hk. rewrite Hcast by done. eauto.
  - cbn. intros back Hlb Hel. apply (elem_ext (sizeof S) n); [lia|done|done|]. intros k Hk.
    destruct (Hel k Hk) as (v & Hv & ->). rewrite Hcast in Hv by done. injection Hv as <-. by apply (elem_bytes S b n k).
Qed.
End Properties.

(** * Runs on concrete tensors *)
Definition sample_result : TransResult := {| res_data := None; res_length := 0 |}.

Lemma below_2 (P : Z -> Prop) : P 0 -> P 1 -> forall k, 0 <= k < 2 -> P k.
Proof. intros H0 H1 k Hk. assert (k = 0 \/ k = 1) as [-> | ->] by lia; done. Qed.

(** 1.0f and 100000.0f as halves: the second is beyond the range and gives 0x7fff. *)
Lemma transdatatype_correct_witness :
  delivers (E := sample_env) (TransDataType (E := sample_env) (cast_args (Some [0; 0; 128; 63; 0; 80; 195; 71]) 2 DT_FLOAT DT_FLOAT16) sample_result)
    OUT_OF_MEMORY 2 2 (fun out => forall k, 0 <= k < 2 -> exists v,
      cast C_float C_fp16 (le_value (elem 4 [0; 0; 128; 63; 0; 80; 195; 71] k)) = Some v /\ elem 2 out k = le_bytes 2 v).
Proof.
  apply (transdatatype_correct (E := sample_env) DT_FLOAT DT_FLOAT16 C_float C_fp16); try reflexivity.
  apply below_2; eexists; reflexivity.
Defined.

Lemma lossless_cast_roundtrip_witness :
  delivers (E := sample_env) (TransDataType (E := sample_env) (cast_args (Some [0; 0; 128; 63; 0; 0; 0; 192]) 2 DT_FLOAT DT_FLOAT16) sample_result)
    OUT_OF_MEMORY 2 2 (fun out => out = [0; 60; 0; 192]).
Proof.
  apply (lossless_cast_roundtrip (E := sample_env) DT_FLOAT16 DT_FLOAT C_fp16 C_float [0; 60; 0; 192] 2 sample_result sample_result
    {| res_data := Some [0; 0; 128; 63; 0; 0; 0; 192]; res_length := 8 |}); try reflexivity.
  - unfold lossless. left.
  - split; reflexivity.
  - repeat constructor; vm_compute; congruence.
  - intros _. apply below_2; vm_compute; congruence.
Defined.
