(* ===== verification/Formats.v ===== *)
(** The entry points of the format and data type transfers (ge/common/formats/formats.cc).

    Each transfer registers itself for the pairs of formats it handles (the REGISTER_FORMAT_TRANSFER lines at the end of the
    transfer files); TransFormat, TransShape and TransDataType look a transfer up and run it.  The
    registry is in the metadef library: [Transfers] is what the entry points call, [TransfersOk] says that it
    finds what was registered. *)
From S2P Require Import Prelude Buffer FormatsUtils FormatNc1hwc0 FormatC1hwncoc0 FormatFracz3D FormatFractalNz FormatFractalZz FormatTranspose FormatFractalZ FormatFzC04 DataTypeTransfer.

(** class FormatTransfer: its two virtual methods. *)
Record FormatTransfer := {
  tf_TransFormat : TransArgs -> TransResult -> outcome TransResult;
  tf_TransShape : Format -> list Z -> DataType -> Format -> outcome (list Z);
}.

Section Registrations.
Context `{E : Env}.

Definition FormatTransferNchwNc1hwc0 := {| tf_TransFormat := NchwNc1hwc0.TransFormat; tf_TransShape := NchwNc1hwc0.TransShape |}.
Definition FormatTransferNhwcNc1hwc0 := {| tf_TransFormat := NhwcNc1hwc0.TransFormat; tf_TransShape := NhwcNc1hwc0.TransShape |}.
Definition FormatTransferNc1hwc0Nchw := {| tf_TransFormat := Nc1hwc0Nchw.TransFormat; tf_TransShape := Nc1hwc0Nchw.TransShape |}.
Definition FormatTransferNc1hwc0Nhwc := {| tf_TransFormat := Nc1hwc0Nhwc.TransFormat; tf_TransShape := Nc1hwc0Nhwc.TransShape |}.
Definition FormatTransferHwcnC1hwncoc0 := {| tf_TransFormat := HwcnC1hwncoc0.TransFormat; tf_TransShape := HwcnC1hwncoc0.TransShape |}.
Definition FormatTransferC1hwncoc0Hwcn := {| tf_TransFormat := C1hwncoc0Hwcn.TransFormat; tf_TransShape := C1hwncoc0Hwcn.TransShape |}.
Definition FormatTransferDhwcnFractalZ3D := {| tf_TransFormat := DhwcnFracZ3D.TransFormat; tf_TransShape := DhwcnFracZ3D.TransShape |}.
Definition FormatTransferDhwncFractalZ3DTranspose :=
  {| tf_TransFormat := DhwncFracZ3DTranspose.TransFormat; tf_TransShape := DhwncFracZ3DTranspose.TransShape |}.
Definition FormatTransferFractalNz := {| tf_TransFormat := FractalNz.TransFormat; tf_TransShape := FractalNz.TransShape |}.
Definition FormatTransferFractalNzND := {| tf_TransFormat := FractalNz.TransFormatND; tf_TransShape := FractalNz.TransShapeND |}.
Definition FormatTransferFractalZz := {| tf_TransFormat := FractalZz.TransFormat; tf_TransShape := FractalZz.TransShape |}.
Definition FormatTransferFractalZzND := {| tf_TransFormat := FractalZz.TransFormatND; tf_TransShape := FractalZz.TransShapeND |}.
Definition FormatTransferFractalZ := {| tf_TransFormat := FractalZ.TransFormat; tf_TransShape := FractalZ.TransShape |}.
Definition FormatTransferFracZNchw := {| tf_TransFormat := FracZNchw.TransFormat; tf_TransShape := FracZNchw.TransShape |}.
Definition FormatTransferFracZHwcn := {| tf_TransFormat := FracZHwcn.TransFormat; tf_TransShape := FracZHwcn.TransShape |}.
Definition FormatTransferFracZNhwc := {| tf_TransFormat := FracZNhwc.TransFormat; tf_TransShape := FracZNhwc.TransShape |}.
Definition FormatTransferTranspose := {| tf_TransFormat := Transpose.TransFormat; tf_TransShape := Transpose.TransShape |}.
Definition FormatTransferNchwToFZC04 := {| tf_TransFormat := NchwFzC04.TransFormat; tf_TransShape := NchwFzC04.TransShape |}.

(** The REGISTER_FORMAT_TRANSFER lines. *)
Definition registrations : list ((Format * Format) * FormatTransfer) :=
  [((FORMAT_C1HWNCoC0, FORMAT_HWCN), FormatTransferC1hwncoc0Hwcn);
   ((FORMAT_DHWCN, FORMAT_FRACTAL_Z_3D), FormatTransferDhwcnFractalZ3D);
   ((FORMAT_DHWNC, FORMAT_FRACTAL_Z_3D_TRANSPOSE), FormatTransferDhwncFractalZ3DTranspose);
   ((FORMAT_ND, FORMAT_FRACTAL_NZ), FormatTransferFractalNz);
   ((FORMAT_NCHW, FORMAT_FRACTAL_NZ), FormatTransferFractalNz);
   ((FORMAT_NHWC, FORMAT_FRACTAL_NZ), FormatTransferFractalNz);
   ((FORMAT_FRACTAL_NZ, FORMAT_ND), FormatTransferFractalNzND);
   ((FORMAT_FRACTAL_NZ, FORMAT_NCHW), FormatTransferFractalNzND);
   ((FORMAT_FRACTAL_NZ, FORMAT_NHWC), FormatTransferFractalNzND);
   ((FORMAT_NCHW, FORMAT_FRACTAL_Z), FormatTransferFractalZ);
   ((FORMAT_HWCN, FORMAT_FRACTAL_Z), FormatTransferFractalZ);
   ((FORMAT_NHWC, FORMAT_FRACTAL_Z), FormatTransferFractalZ);
   ((FORMAT_ND, FORMAT_FRACTAL_ZZ), FormatTransferFractalZz);
   ((FORMAT_NCHW, FORMAT_FRACTAL_ZZ), FormatTransferFractalZz);
   ((FORMAT_NHWC, FORMAT_FRACTAL_ZZ), FormatTransferFractalZz);
   ((FORMAT_FRACTAL_ZZ, FORMAT_ND), FormatTransferFractalZzND);
   ((FORMAT_FRACTAL_ZZ, FORMAT_NCHW), FormatTransferFractalZzND);
   ((FORMAT_FRACTAL_ZZ, FORMAT_NHWC), FormatTransferFractalZzND);
   ((FORMAT_FRACTAL_Z, FORMAT_HWCN), FormatTransferFracZHwcn);
   ((FORMAT_FRACTAL_Z, FORMAT_NCHW), FormatTransferFracZNchw);
   ((FORMAT_FRACTAL_Z, FORMAT_NHWC), FormatTransferFracZNhwc);
   ((FORMAT_HWCN, FORMAT_C1HWNCoC0), FormatTransferHwcnC1hwncoc0);
   ((FORMAT_NC1HWC0, FORMAT_NCHW), FormatTransferNc1hwc0Nchw);
   ((FORMAT_NC1HWC0, FORMAT_NHWC), FormatTransferNc1hwc0Nhwc);
   ((FORMAT_NCHW, FORMAT_FRACTAL_Z_C04), FormatTransferNchwToFZC04);
   ((FORMAT_NCHW, FORMAT_NC1HWC0), FormatTransferNchwNc1hwc0);
   ((FORMAT_NHWC, FORMAT_NC1HWC0), FormatTransferNhwcNc1hwc0);
   ((FORMAT_NCHW, FORMAT_NHWC), FormatTransferTranspose);
   ((FORMAT_NCHW, FORMAT_HWCN), FormatTransferTranspose);
   ((FORMAT_NCHW, FORMAT_CHWN), FormatTransferTranspose);
   ((FORMAT_NHWC, FORMAT_NCHW), FormatTransferTranspose);
   ((FORMAT_NHWC, FORMAT_CHWN), FormatTransferTranspose);
   ((FORMAT_NHWC, FORMAT_HWCN), FormatTransferTranspose);
   ((FORMAT_HWCN, FORMAT_NCHW), FormatTransferTranspose);
   ((FORMAT_HWCN, FORMAT_NHWC), FormatTransferTranspose);
   ((FORMAT_HWCN, FORMAT_CHWN), FormatTransferTranspose);
   ((FORMAT_CHWN, FORMAT_NCHW), FormatTransferTranspose);
   ((FORMAT_CHWN, FORMAT_NHWC), FormatTransferTranspose);
   ((FORMAT_CHWN, FORMAT_HWCN), FormatTransferTranspose)].
End Registrations.

(** * The registry *)
Class Transfers := {
  BuildFormatTransfer : TransArgs -> option FormatTransfer;
  FormatTransferExists : TransArgs -> bool;
  (** Whether MakeShared<DataTypeTransfer>() gets its memory. *)
  make_DataTypeTransfer : bool;
}.

(** A registered transfer is found by its pair of formats, no other pair has one. *)
Class TransfersOk `(E : Env) (R : Transfers) : Prop := {
  build_registered args t :
    ((src_format args, dst_format args), t) ∈ registrations -> BuildFormatTransfer args = Some t;
  build_unregistered args :
    (src_format args, dst_format args) ∉ registrations.*1 -> BuildFormatTransfer args = None;
  exists_registered args :
    FormatTransferExists args = true <-> (src_format args, dst_format args) ∈ registrations.*1;
}.

Section EntryPoints.
Context `{E : Env} `{R : Transfers}.

Definition TransFormat (args : TransArgs) (result : TransResult) : outcome TransResult :=
  match BuildFormatTransfer args with
  | None => Err UNSUPPORTED
  | Some transfer =>
      let src_shape_size := GetItemNumByShape (src_shape args) in
      if bool_decide (data args = None) && negb (src_shape_size =? 0) then Err PARAM_INVALID
      else tf_TransFormat transfer args result
  end.

(** The arguments of the lookup have their formats set and nothing else. *)
Definition TransShape (src_format : Format) (src_shape : list Z) (data_type : DataType) (dst_format : Format) :
    outcome (list Z) :=
  let args := mk_args None src_format dst_format [] [] (DT_OTHER 0) in
  match BuildFormatTransfer args with
  | None => Err ACL_ERROR_GE_TRANSSHAPE_FORMAT_INVALID
  | Some transfer => tf_TransShape transfer src_format src_shape data_type dst_format
  end.

Definition BuildDataTypeTransfer (args : CastArgs) : bool := DataTypeTransferExists args && make_DataTypeTransfer.

Definition TransDataType (args : CastArgs) (result : TransResult) : outcome TransResult :=
  if negb (BuildDataTypeTransfer args) then Err UNSUPPORTED
  else if bool_decide (c_data args = None) && negb (c_src_data_size args =? 0) then Err PARAM_INVALID
  else DataTypeTransfer.TransDataType args result.

Definition IsTransFormatSupport (args : TransArgs) : bool := FormatTransferExists args.
Definition IsTransDataTypeSupport (args : CastArgs) : bool := DataTypeTransferExists args.
End EntryPoints.

(** * The lookup *)
Fixpoint assoc {A} (k : Format * Format) (l : list ((Format * Format) * A)) : option A :=
  match l with
  | [] => None
  | (k', x) :: l => if decide (k = k') then Some x else assoc k l
  end.

Lemma assoc_in {A} k (l : list ((Format * Format) * A)) x : assoc k l = Some x -> (k, x) ∈ l.
Proof. induction l as [|[k' y] l IH]; cbn; [done|]. destruct (decide (k = k')) as [->|]; [intros [= ->]; left|right; auto]. Qed.

Lemma assoc_out {A} k (l : list ((Format * Format) * A)) : assoc k l = None -> k ∉ l.*1.
Proof.
  induction l as [|[k' y] l IH]; cbn; [intros _ []%elem_of_nil|]. destruct (decide (k = k')); [done|].
  intros Ha [?|?]%elem_of_cons; [done|]. by apply IH.
Qed.

(** No pair of formats is registered twice: the order in which the registrations run does not matter. *)
Lemma registrations_unique `{E : Env} : NoDup registrations.*1.
Proof. apply (bool_decide_unpack _). vm_compute. exact I. Qed.

Section Lookup.
Context `{E : Env} {HE : EnvOk E} `{R : Transfers} {HR : TransfersOk E R}.

Lemma Build_eq args : BuildFormatTransfer args = assoc (src_format args, dst_format args) registrations.
Proof.
  destruct (assoc _ _) as [t|] eqn:Ha; [by apply build_registered, assoc_in|by apply build_unregistered, assoc_out].
Qed.

(** The transfers of a pair and of the pair back bring a tensor back. *)
Definition comes_back (fw bw : FormatTransfer) (f g : Format) (dt : DataType) (shape ds d : list Z) : Prop :=
  forall result result' r, tf_TransFormat fw (mk_args (Some d) f g shape ds dt) result = Ok r ->
  (exists out, res_data r = Some out /\ res_length r = zlen out) /\
  exists st, delivers (tf_TransFormat bw (mk_args (res_data r) g f ds shape dt) result') st (GetSizeByDataType dt) (prodZ shape)
    (fun out => out = d).

Lemma delivers_some r st oom size T spec :
  delivers r oom size T spec -> r = Ok st -> exists out, res_data st = Some out /\ res_length st = zlen out.
Proof. intros Hd Hr. destruct (delivers_ok _ _ _ _ _ _ Hd Hr) as (out & ? & ? & ? & _). exists out. split; [done|lia]. Qed.

Context (dt : DataType) (shape ds d : list Z).
Local Abbreviation size := (GetSizeByDataType dt).
Hypothesis Hint : Forall (fun x => x < 2 ^ 63) shape.
Hypothesis HT : 0 < prodZ shape <= 2 ^ 40.
Hypothesis Hsize : 0 < size.
Hypothesis Hd : zlen d = prodZ shape * size.

(** A shape of rank four without an empty dimension. *)
Lemma rank4 : CheckShapeValid shape 4 = true ->
  exists a b c e, shape = [a; b; c; e] /\ 0 < a /\ 0 < b /\ 0 < c /\ 0 < e /\ prodZ shape = a * b * c * e.
Proof.
  intros Hv. apply (CheckShapeValid_facts _ 4) in Hv as [Hl Hv]; [|done|lia|lia].
  apply IsShapeValid_facts in Hv as (HF & _); [|done]. apply prodZ_pos in HF; [|lia].
  destruct shape as [|a [|b [|c [|e [|]]]]]; try done. rewrite !Forall_cons in HF. destruct HF as (? & ? & ? & ? & _).
  exists a, b, c, e. split_and!; try done. cbn. ring.
Qed.

Lemma transpose_comes_back f g : Transpose.TransShape f shape dt g = Ok ds ->
  comes_back FormatTransferTranspose FormatTransferTranspose f g dt shape ds d.
Proof.
  intros Hts result result' r Hr. split.
  - destruct (TransShape_ok f g dt shape ds Hts) as (p & Hp & _).
    eapply delivers_some; [|exact Hr]. apply (TransFormat_delivers f g dt shape ds d Hsize HT Hts Hd p ds result Hp). by left.
  - exists INTERNAL_ERROR. exact (transpose_roundtrip f g dt shape ds d result result' r Hsize HT Hd Hts Hr).
Qed.

Lemma nz_comes_back f : FractalNz.TransShape f shape dt FORMAT_FRACTAL_NZ = Ok ds ->
  comes_back FormatTransferFractalNz FormatTransferFractalNzND f FORMAT_FRACTAL_NZ dt shape ds d.
Proof.
  intros Hts result result' r Hr. assert (shape <> []) as Hne by (intros ->; cbn in HT; unfold FractalNz.TransShape in Hts;
    destruct (FractalNz.IsDataTypeSupport dt); [|done]; cbn in Hts; by destruct (FractalNz.CheckShape f [])).
  destruct (nd_view_exists shape Hne) as (lead & H & W & Hview). split.
  - eapply delivers_some; [|exact Hr]. by eapply (nd_to_nz_run dt f shape lead H W); try done; lia.
  - exists OUT_OF_MEMORY. exact (nz_roundtrip dt f shape lead H W ds d Hview Hint (proj1 HT) Hts result result' r Hd Hr).
Qed.

Lemma zz_comes_back f : FractalZz.TransShape f shape dt FORMAT_FRACTAL_ZZ = Ok ds ->
  comes_back FormatTransferFractalZz FormatTransferFractalZzND f FORMAT_FRACTAL_ZZ dt shape ds d.
Proof.
  intros Hts result result' r Hr. assert (shape <> []) as Hne by (intros ->; cbn in HT; unfold FractalZz.TransShape in Hts;
    destruct (FractalZz.IsDataTypeSupport dt); [|done]; cbn in Hts; by destruct (FractalZz.CheckShape f [])).
  destruct (nd_view_exists shape Hne) as (lead & H & W & Hview). split.
  - eapply delivers_some; [|exact Hr]. by eapply (nd_to_zz_run dt f shape lead H W); try done; lia.
  - exists OUT_OF_MEMORY. exact (zz_roundtrip dt f shape lead H W ds d Hview Hint (proj1 HT) Hts result result' r Hd Hr).
Qed.

(** The shape of a weight in the format [f]. *)
Lemma fz_shape f : FractalZ.TransShape f shape dt FORMAT_FRACTAL_Z = Ok ds ->
  exists N C H W, shape = shape4 f N C H W /\ (0 < N /\ 0 < C /\ 0 < H /\ 0 < W) /\ Forall (fun x => x < 2 ^ 63) [N; C; H; W] /\
    prodZ shape = N * C * H * W.
Proof.
  unfold FractalZ.TransShape. destruct (negb _); [done|]. intros Hts.
  assert (CheckShapeValid shape 4 = true /\ (f = FORMAT_NCHW \/ f = FORMAT_NHWC \/ f = FORMAT_HWCN)) as [Hv Hf].
  { revert Hts. destruct f; eval_formats; try done;
      unfold FractalZ.TransShapeNchwToFz, FractalZ.TransShapeNhwcToFz, FractalZ.TransShapeHwcnToFz,
        kNchwDimsNum, kNhwcDimsNum, kHwcnDimsNum; destruct (CheckShapeValid shape 4); try done; auto. }
  destruct (rank4 Hv) as (a & b & c & e & Hs & ? & ? & ? & ? & Hp). rewrite Hs, !Forall_cons in Hint.
  destruct Hint as (? & ? & ? & ? & _). rewrite Hs in Hp |- *.
  destruct Hf as [-> | [-> | ->]]; [exists a, b, c, e|exists a, e, b, c|exists e, c, a, b];
    (split; [done|]); (split; [lia|]); (split; [by repeat constructor|]); rewrite Hp; ring.
Qed.

Lemma fz_comes_back f bw : FractalZ.TransShape f shape dt FORMAT_FRACTAL_Z = Ok ds -> tf_TransFormat bw = from_fz f ->
  comes_back FormatTransferFractalZ bw f FORMAT_FRACTAL_Z dt shape ds d.
Proof.
  intros Hts Hbw result result' r Hr. destruct (fz_shape f Hts) as (N & C & H & W & Hs & Hpos & Hi & Hp).
  rewrite Hp in *. rewrite Hs in *. split.
  - eapply delivers_some; [|exact Hr]. exact (to_fz_run f dt N C H W ds d Hpos Hi Hts result Hd).
  - exists INTERNAL_ERROR. rewrite Hbw. exact (fz_roundtrip f dt N C H W ds d Hpos Hi Hts result result' r Hd Hr).
Qed.

Lemma nchw_comes_back : NchwNc1hwc0.TransShape FORMAT_NCHW shape dt FORMAT_NC1HWC0 = Ok ds ->
  comes_back FormatTransferNchwNc1hwc0 FormatTransferNc1hwc0Nchw FORMAT_NCHW FORMAT_NC1HWC0 dt shape ds d.
Proof.
  intros Hts result result' r Hr. assert (CheckShapeValid shape 4 = true) as Hv.
  { unfold NchwNc1hwc0.TransShape, NchwNc1hwc0.TransShapeNchwToNc1hwc0, kNchwDimsNum in Hts. eval_formats.
    rewrite bool_decide_eq_true_2 in Hts by done. destruct (_ <=? _); [done|]. by destruct (CheckShapeValid shape 4). }
  destruct (rank4 Hv) as (N & C & H & W & Hs & ? & ? & ? & ? & Hp). rewrite Hp in *. rewrite Hs in *. split.
  - eapply delivers_some; [|exact Hr]. apply (nchw_to_nc1hwc0_run dt N C H W ds d); [lia|done..].
  - exists INTERNAL_ERROR. refine (nchw_nc1hwc0_roundtrip dt N C H W ds d _ result result' r Hint Hts Hd Hr). lia.
Qed.

Lemma nhwc_comes_back : NhwcNc1hwc0.TransShape FORMAT_NHWC shape dt FORMAT_NC1HWC0 = Ok ds ->
  comes_back FormatTransferNhwcNc1hwc0 FormatTransferNc1hwc0Nhwc FORMAT_NHWC FORMAT_NC1HWC0 dt shape ds d.
Proof.
  intros Hts result result' r Hr. assert (CheckShapeValid shape 4 = true) as Hv.
  { unfold NhwcNc1hwc0.TransShape, kNhwcDimsNum in Hts. rewrite bool_decide_eq_true_2 in Hts by done. cbn [andb negb] in Hts.
    destruct (NhwcNc1hwc0.CheckDataTypeSupported dt); [|done]. by destruct (CheckShapeValid shape 4). }
  destruct (rank4 Hv) as (N & H & W & C & Hs & ? & ? & ? & ? & Hp). rewrite Hp in *. rewrite Hs in *. split.
  - eapply delivers_some; [|exact Hr]. apply (nhwc_to_nc1hwc0_run dt N C H W ds d); [lia|done..].
  - exists INTERNAL_ERROR. refine (nhwc_nc1hwc0_roundtrip dt N C H W ds d _ result result' r Hint Hts Hd Hr). lia.
Qed.

Lemma hwcn_comes_back : HwcnC1hwncoc0.TransShape FORMAT_HWCN shape dt FORMAT_C1HWNCoC0 = Ok ds ->
  comes_back FormatTransferHwcnC1hwncoc0 FormatTransferC1hwncoc0Hwcn FORMAT_HWCN FORMAT_C1HWNCoC0 dt shape ds d.
Proof.
  intros Hts result result' r Hr. assert (CheckShapeValid shape 4 = true) as Hv.
  { unfold HwcnC1hwncoc0.TransShape, kHwcnDimsNum in Hts. rewrite bool_decide_eq_true_2 in Hts by done. cbn [andb negb] in Hts.
    destruct (HwcnC1hwncoc0.CheckDataTypeSupported dt); [|done]. by destruct (CheckShapeValid shape 4). }
  destruct (rank4 Hv) as (H & W & C & N & Hs & ? & ? & ? & ? & Hp). rewrite Hp in *. rewrite Hs in *. split.
  - eapply delivers_some; [|exact Hr]. apply (hwcn_to_c1hwncoc0_run dt H W C N ds d); [lia|done..].
  - exists INTERNAL_ERROR. refine (hwcn_c1hwncoc0_roundtrip dt H W C N ds d _ result result' r Hint Hts Hd Hr). lia.
Qed.

(** Every pair that is registered both ways. *)
Lemma pair_comes_back f g fw bw :
  assoc (f, g) registrations = Some fw -> assoc (g, f) registrations = Some bw ->
  tf_TransShape fw f shape dt g = Ok ds -> comes_back fw bw f g dt shape ds d.
Proof.
  intros Hfw%assoc_in Hbw Hts.
  repeat (apply elem_of_cons in Hfw as [[= -> -> ->]|Hfw];
    [cbn in Hbw; first [discriminate Hbw | injection Hbw as <-]; cbn [tf_TransShape] in Hts;
     first [discriminate Hts | by apply transpose_comes_back | by apply nz_comes_back | by apply zz_comes_back
       | by apply fz_comes_back | by apply nchw_comes_back | by apply nhwc_comes_back | by apply hwcn_comes_back]|]).
  by apply elem_of_nil in Hfw.
Qed.
End Lookup.

(** C8 For every pair of formats that has a transfer in both directions, a non-empty tensor whose shape TransShape
    accepts is brought back by TransFormat: whatever buffer the first call returned, the second one returns the
    original bytes, or the failure of its allocation.  The pairs are the transpositions between NCHW, NHWC, HWCN and CHWN, and the
    layouts NC1HWC0, C1HWNCoC0, FRACTAL_Z, FRACTAL_NZ and FRACTAL_ZZ with each of the formats they are built from. *)
Theorem formats_roundtrip `{E : Env} {HE : EnvOk E} `{R : Transfers} {HR : TransfersOk E R} f g dt shape ds d result result' r :
  Forall (fun x => x < 2 ^ 63) shape -> 0 < prodZ shape <= 2 ^ 40 -> 0 < GetSizeByDataType dt ->
  zlen d = prodZ shape * GetSizeByDataType dt ->
  TransShape f shape dt g = Ok ds -> IsTransFormatSupport (mk_args (Some d) g f ds shape dt) = true ->
  TransFormat (mk_args (Some d) f g shape ds dt) result = Ok r ->
  exists st, delivers (TransFormat (mk_args (res_data r) g f ds shape dt) result') st (GetSizeByDataType dt) (prodZ shape)
    (fun out => out = d).
Proof.
  intros Hint HT Hs Hd Hts Hsup Hr. unfold TransShape in Hts. rewrite Build_eq in Hts.
  unfold TransFormat in Hr |- *. rewrite Build_eq in Hr |- *. cbn [mk_args src_format dst_format data src_shape] in *.
  destruct (assoc (f, g) registrations) as [fw|] eqn:Hfw; [|done]. rewrite bool_decide_eq_false_2 in Hr by done. cbn [andb] in Hr.
  destruct (assoc (g, f) registrations) as [bw|] eqn:Hbw.
  - destruct (pair_comes_back dt shape ds d Hint HT Hs Hd f g fw bw Hfw Hbw Hts result result' r Hr) as [(x & Hx & _) Hback].
    rewrite Hx in *. by rewrite bool_decide_eq_false_2.
  - apply assoc_out in Hbw. by apply exists_registered in Hsup.
Qed.

(** * Runs on concrete tensors *)
#[local] Instance sample_transfers : Transfers := {|
  BuildFormatTransfer := fun args => assoc (src_format args, dst_format args) (registrations (E := sample_env));
  FormatTransferExists := fun args => bool_decide (is_Some (assoc (src_format args, dst_format args) (registrations (E := sample_env))));
  make_DataTypeTransfer := true;
|}.

#[local] Instance sample_transfers_ok : TransfersOk sample_env sample_transfers.
Proof.
  split.
  - intros args t Hin. cbn [BuildFormatTransfer sample_transfers]. generalize dependent (src_format args, dst_format args).
    intros k Hin. repeat (apply elem_of_cons in Hin as [[= -> ->]|Hin]; [reflexivity|]). by apply elem_of_nil in Hin.
  - intros args Hout. cbn [BuildFormatTransfer sample_transfers]. destruct (assoc _ _) eqn:Ha; [|done].
    apply assoc_in in Ha. destruct Hout. by apply (list_elem_of_fmap_2 fst) in Ha.
  - intros args. cbn [FormatTransferExists sample_transfers]. rewrite bool_decide_eq_true. split.
    + intros [t Ha]. apply assoc_in in Ha. by apply (list_elem_of_fmap_2 fst) in Ha.
    + intros Hin. destruct (assoc _ _) eqn:Ha; [done|]. by apply assoc_out in Ha.
Qed.

(** Three float16 values to FRACTAL_NZ and back. *)
Lemma formats_roundtrip_witness : exists st,
  delivers (E := sample_env) (TransFormat (mk_args (Some ([1; 2; 3; 4; 5; 6] ++ repeat 0 506)) FORMAT_FRACTAL_NZ FORMAT_ND [1; 1; 16; 16] [3] DT_FLOAT16)
    sample_out) st 2 3 (fun out => out = [1; 2; 3; 4; 5; 6]).
Proof.
  apply (formats_roundtrip (E := sample_env) (R := sample_transfers) FORMAT_ND FORMAT_FRACTAL_NZ DT_FLOAT16 [3] [1; 1; 16; 16] [1; 2; 3; 4; 5; 6]
    sample_out sample_out {| res_data := Some ([1; 2; 3; 4; 5; 6] ++ repeat 0 506); res_length := 512 |}).
  - by repeat constructor.
  - split; vm_compute; congruence.
  - reflexivity.
  - reflexivity.
  - vm_compute. reflexivity.
  - reflexivity.
  - vm_compute. reflexivity.
Defined.
