(* ===== verification/BCast.v ===== *)
(** Broadcasting of two shapes (ge/graph/common/bcast).

    GenerateBcastInfo derives the shape two tensors broadcast to; BCastIndexes lists, for
    every element of the result in row-major order, the elements of the two tensors it
    is computed from.  Both work on reversed shapes.  The reference definition of
    broadcasting pads the shorter shape with ones at the front and lets a dimension of
    size one stand for every index. *)
From S2P Require Import Prelude Buffer FormatsUtils FormatTranspose.

(** * The object *)
Record BCast := mkBCast {
  x_reshape_ : list Z; x_bcast_ : list Z; y_reshape_ : list Z; y_bcast_ : list Z;
  result_ : list Z; output_ : list Z; grad_x_reduce_idx_ : list Z; grad_y_reduce_idx_ : list Z }.
Definition new_BCast : BCast := mkBCast [] [] [] [] [] [] [] [].

Definition Reverse (shape : list Z) : list Z := rev shape.

Definition ReverseAllIntermediateShapes (b : BCast) : BCast :=
  mkBCast (Reverse (x_reshape_ b)) (Reverse (x_bcast_ b)) (Reverse (y_reshape_ b)) (Reverse (y_bcast_ b))
    (Reverse (result_ b)) (Reverse (output_ b)) (Reverse (grad_x_reduce_idx_ b)) (Reverse (grad_y_reduce_idx_ b)).

(** `v.resize(n, 1)` *)
Definition ExtendTensorDim (v_x v_y : list Z) : list Z * list Z :=
  if (length v_y <? length v_x)%nat then (v_x, resize (length v_x) 1 v_y) else (resize (length v_y) 1 v_x, v_y).

(** The pushes of one round of the loop. *)
Definition push_dim (x_i y_i output_i x_bcast_i y_bcast_i : Z) (gx gy : list Z) (b : BCast) : BCast :=
  mkBCast (x_reshape_ b ++ [x_i]) (x_bcast_ b ++ [x_bcast_i]) (y_reshape_ b ++ [y_i]) (y_bcast_ b ++ [y_bcast_i])
    (result_ b ++ [output_i]) (output_ b ++ [output_i]) (grad_x_reduce_idx_ b ++ gx) (grad_y_reduce_idx_ b ++ gy).

Fixpoint SetShapeDifferentInfo_loop (n i : Z) (x y : list Z) (b : BCast) : outcome (Status * BCast) :=
  match x with
  | [] => Ok (SUCCESS, b)
  | x_i :: x =>
      if x_i <? 0 then Ok (PARAM_INVALID, b) else
      match y with
      | [] => Stuck
      | y_i :: y =>
          if y_i <? 0 then Ok (PARAM_INVALID, b)
          else if x_i =? y_i then
            let g := if x_i =? 1 then [n - 1 - i] else [] in
            SetShapeDifferentInfo_loop n (i + 1) x y (push_dim x_i y_i x_i 1 1 g g b)
          else if x_i =? 1 then SetShapeDifferentInfo_loop n (i + 1) x y (push_dim x_i y_i y_i y_i 1 [n - 1 - i] [] b)
          else if y_i =? 1 then SetShapeDifferentInfo_loop n (i + 1) x y (push_dim x_i y_i x_i 1 x_i [] [n - 1 - i] b)
          else Ok (PARAM_INVALID, b)
      end
  end.
Definition SetShapeDifferentInfo (x y : list Z) (b : BCast) : outcome (Status * BCast) :=
  SetShapeDifferentInfo_loop (zlen x) 0 x y b.

Definition GenerateBcastInfo (sx sy : list Z) (b : BCast) : outcome (Status * BCast) :=
  match sx, sy with
  | [], [] =>
      let b := mkBCast (x_reshape_ b ++ [1]) (x_bcast_ b ++ [1]) (y_reshape_ b ++ [1]) (y_bcast_ b ++ [1])
                 (result_ b ++ [1]) (output_ b) (grad_x_reduce_idx_ b) (grad_y_reduce_idx_ b) in
      Ok (SUCCESS, ReverseAllIntermediateShapes b)
  | _, _ =>
      let '(x, y) := ExtendTensorDim (Reverse sx) (Reverse sy) in
      '(st, b) ← SetShapeDifferentInfo x y b;
      if bool_decide (st = SUCCESS) then Ok (SUCCESS, ReverseAllIntermediateShapes b) else Ok (st, b)
  end.

(** * The indexes *)

(** `for (k = 0; k < stride; k++)`: one copy of the block of indexes. *)
Definition push_block (x_dim y_dim x_bias y_bias stride j : Z) : list Z * list Z -> outcome (list Z * list Z) :=
  for_range stride (fun k '(x_indexes, y_indexes) =>
    x ← vget x_indexes k;
    y ← vget y_indexes k;
    Ok (x_indexes ++ [(x + (if x_dim =? 1 then 0 else (j * x_bias)%i64))%i64],
        y_indexes ++ [(y + (if y_dim =? 1 then 0 else (j * y_bias)%i64))%i64])).

(** `for (size_t i = 1; i < output_.size(); i++)`, the reversed shapes from index 1 on. *)
Fixpoint BCastIndexes_loop (x_reshape y_reshape output : list Z) (x_bias y_bias : Z) (ind : list Z * list Z) :
    outcome (list Z * list Z) :=
  match output with
  | [] => Ok ind
  | out_dim :: output =>
      match x_reshape, y_reshape with
      | x_dim :: x_reshape, y_dim :: y_reshape =>
          let stride := zlen (fst ind) in
          ind ← for_loop (Z.to_nat (out_dim - 1)) 1 (push_block x_dim y_dim x_bias y_bias stride) ind;
          BCastIndexes_loop x_reshape y_reshape output (x_bias * x_dim)%i64 (y_bias * y_dim)%i64 ind
      | _, _ => Stuck
      end
  end.

(** The body, on the reversed shapes. *)
Definition BCastIndexes_rev (x_reshape y_reshape output : list Z) (ind : list Z * list Z) : outcome (list Z * list Z) :=
  '(x_dim, y_dim, out_dim) ←
    (match output with
     | [] => Ok (1, 1, 1)
     | out_dim :: _ => x_dim ← at_ x_reshape 0; y_dim ← at_ y_reshape 0; Ok (x_dim, y_dim, out_dim)
     end);
  ind ← for_range out_dim (fun i '(x_indexes, y_indexes) =>
          Ok (x_indexes ++ [if x_dim =? 1 then 0 else i], y_indexes ++ [if y_dim =? 1 then 0 else i])) ind;
  BCastIndexes_loop (tail x_reshape) (tail y_reshape) (tail output) x_dim y_dim ind.

(** The shapes are reversed on entry and reversed back on return. *)
Definition BCastIndexes (b : BCast) (ind : list Z * list Z) : outcome (list Z * list Z) :=
  BCastIndexes_rev (Reverse (x_reshape_ b)) (Reverse (y_reshape_ b)) (Reverse (output_ b)) ind.

(** * Broadcasting, as a definition *)

(** Two dimensions fit when they are equal or one of them is one. *)
Definition bdim (a b : Z) : option Z :=
  if (a <? 0) || (b <? 0) then None
  else if a =? b then Some a else if a =? 1 then Some b else if b =? 1 then Some a else None.
Definition pad (n : nat) (s : list Z) : list Z := replicate (n - length s) 1 ++ s.
Definition rank (sx sy : list Z) : nat := Nat.max (length sx) (length sy).
Fixpoint bdims (x y : list Z) : option (list Z) :=
  match x, y with
  | a :: x, b :: y => d ← bdim a b; l ← bdims x y; Some (d :: l)
  | _, _ => Some []
  end.
Definition broadcast (sx sy : list Z) : option (list Z) := bdims (pad (rank sx sy) sx) (pad (rank sx sy) sy).

(** The index in a (padded) tensor that an index of the result reads. *)
Fixpoint project (shape idx : list Z) : list Z :=
  match shape, idx with
  | d :: shape, i :: idx => (if d =? 1 then 0 else i) :: project shape idx
  | _, _ => []
  end.

(** The dimensions of size one, counted from [k]. *)
Fixpoint ones (k : Z) (shape : list Z) : list Z :=
  match shape with
  | [] => []
  | d :: shape => (if d =? 1 then [k] else []) ++ ones (k + 1) shape
  end.

(** * The shapes *)
Lemma length_pad n s : (length s <= n)%nat -> length (pad n s) = n.
Proof. intros. unfold pad. rewrite length_app, length_replicate. lia. Qed.

Lemma replicate_rev n (x : Z) : rev (replicate n x) = replicate n x.
Proof. induction n as [|n IH]; [done|]. cbn. rewrite IH. change [x] with (replicate 1 x). by rewrite <- replicate_add, Nat.add_comm. Qed.

Lemma resize_rev n s : (length s <= n)%nat -> resize n 1 (rev s) = rev (pad n s).
Proof.
  intros Hn. unfold pad. rewrite rev_app_distr, replicate_rev, resize_ge by (rewrite length_rev; lia). by rewrite length_rev.
Qed.

Lemma ExtendTensorDim_eq sx sy :
  ExtendTensorDim (Reverse sx) (Reverse sy) = (rev (pad (rank sx sy) sx), rev (pad (rank sx sy) sy)).
Proof.
  unfold ExtendTensorDim, Reverse, rank. rewrite !length_rev.
  destruct (Nat.ltb_spec (length sy) (length sx)).
  - rewrite Nat.max_l, resize_rev by lia. unfold pad. by rewrite Nat.sub_diag.
  - rewrite Nat.max_r, resize_rev by lia. unfold pad. by rewrite Nat.sub_diag.
Qed.

(** The dimensions of size one, counted down from [top]: the order of the pushes. *)
Fixpoint down_ones (top : Z) (shape : list Z) : list Z :=
  match shape with
  | [] => []
  | d :: shape => (if d =? 1 then [top] else []) ++ down_ones (top - 1) shape
  end.

Lemma ones_app k s t : ones k (s ++ t) = ones k s ++ ones (k + zlen s) t.
Proof.
  revert k. induction s as [|d s IH]; intros k; cbn [ones app]; [by rewrite Z.add_0_r|].
  rewrite IH, app_assoc. do 2 f_equal. unfold zlen. cbn [length]. lia.
Qed.

Lemma rev_down_ones top s : rev (down_ones top s) = ones (top + 1 - zlen s) (rev s).
Proof.
  revert top. induction s as [|d s IH]; intros top; [done|]. cbn [down_ones rev].
  rewrite rev_app_distr, IH, ones_app. unfold zlen. rewrite length_rev. cbn [length ones]. rewrite app_nil_r.
  f_equal; [f_equal; lia|]. replace (top + 1 - Z.of_nat (S (length s)) + Z.of_nat (length s)) with top by lia. by destruct (d =? 1).
Qed.

Lemma bdims_rev x y : length x = length y -> bdims (rev x) (rev y) = (fun l => rev l) <$> bdims x y.
Proof.
  assert (forall a b c d, length a = length b -> bdims (a ++ c) (b ++ d) = l ← bdims a b; k ← bdims c d; Some (l ++ k)) as Happ.
  { induction a as [|u a IH]; intros [|v b] c d Hl; try done; cbn [app bdims].
    - cbn. by destruct (bdims c d).
    - cbn in Hl. rewrite IH by lia. destruct (bdim u v); [cbn|done]. destruct (bdims a b); [cbn|done]. by destruct (bdims c d). }
  revert y. induction x as [|u x IH]; intros [|v y] Hl; try done. cbn in Hl. cbn [rev bdims].
  rewrite Happ, IH by (rewrite ?length_rev; lia). cbn. destruct (bdim u v), (bdims x y); done.
Qed.

(** The object after the loop: what is pushed for the shapes [x] and [y]. *)
Definition pushed (top : Z) (x y out xb yb : list Z) (b : BCast) : BCast :=
  mkBCast (x_reshape_ b ++ x) (x_bcast_ b ++ xb) (y_reshape_ b ++ y) (y_bcast_ b ++ yb) (result_ b ++ out) (output_ b ++ out)
    (grad_x_reduce_idx_ b ++ down_ones top x) (grad_y_reduce_idx_ b ++ down_ones top y).

Lemma pushed_push top a b d xa xb gx gy x y out xl yl o :
  gx = (if a =? 1 then [top] else []) -> gy = (if b =? 1 then [top] else []) ->
  pushed (top - 1) x y out xl yl (push_dim a b d xa xb gx gy o) = pushed top (a :: x) (b :: y) (d :: out) (xa :: xl) (xb :: yl) o.
Proof. intros -> ->. unfold pushed, push_dim. cbn. by rewrite <- !app_assoc. Qed.

Lemma SetShape_ok n i x y b : length x = length y ->
  match bdims x y with
  | Some out => exists xb yb, SetShapeDifferentInfo_loop n i x y b = Ok (SUCCESS, pushed (n - 1 - i) x y out xb yb b) /\
      length xb = length x /\ length yb = length x /\ zip_with Z.mul x xb = out /\ zip_with Z.mul y yb = out
  | None => exists b', SetShapeDifferentInfo_loop n i x y b = Ok (PARAM_INVALID, b')
  end.
Proof.
  revert i y b. induction x as [|a x IH]; intros i [|c y] b Hl; try done.
  { exists [], []. unfold pushed. cbn. rewrite !app_nil_r. by destruct b. }
  cbn in Hl. cbn [bdims SetShapeDifferentInfo_loop]. unfold bdim.
  destruct (Z.ltb_spec a 0); [by eexists|]. destruct (Z.ltb_spec c 0); [by eexists|]. cbn [orb].
  assert (n - 1 - (i + 1) = n - 1 - i - 1) as Etop by lia.
  assert (forall d xa xb gx gy, (a * xa = d /\ c * xb = d) -> gx = (if a =? 1 then [n - 1 - i] else []) ->
    gy = (if c =? 1 then [n - 1 - i] else []) ->
    match (l ← bdims x y; Some (d :: l)) with
    | Some out => exists xl yl, SetShapeDifferentInfo_loop n (i + 1) x y (push_dim a c d xa xb gx gy b) =
          Ok (SUCCESS, pushed (n - 1 - i) (a :: x) (c :: y) out xl yl b) /\
        length xl = length (a :: x) /\ length yl = length (a :: x) /\ zip_with Z.mul (a :: x) xl = out /\ zip_with Z.mul (c :: y) yl = out
    | None => exists b', SetShapeDifferentInfo_loop n (i + 1) x y (push_dim a c d xa xb gx gy b) = Ok (PARAM_INVALID, b')
    end) as Hpush.
  { intros d xa xb gx gy [E1 E2] Egx Egy. specialize (IH (i + 1) y (push_dim a c d xa xb gx gy b) ltac:(lia)).
    destruct (bdims x y) as [out|]; [|exact IH]. cbn. destruct IH as (xl & yl & -> & L1 & L2 & Z1 & Z2).
    exists (xa :: xl), (xb :: yl). rewrite Etop, (pushed_push _ _ _ _ _ _ _ _ _ _ _ _ _ _ Egx Egy). cbn. by rewrite E1, E2, L1, L2, Z1, Z2. }
  destruct (Z.eqb_spec a c) as [->|Hac].
  - apply Hpush; [lia|done..].
  - destruct (Z.eqb_spec a 1) as [->|Ha]; [apply Hpush; [lia| |]; try done; by rewrite (proj2 (Z.eqb_neq c 1)) by lia|].
    destruct (Z.eqb_spec c 1) as [->|Hc]; [apply Hpush; [lia| |]; try done|by eexists].
Qed.

(** Two scalars are treated as tensors of one element, but for the output shape. *)
Definition or_scalar (out l : list Z) : list Z := match out with [] => [1] | _ => l end.

(** What the object holds for two shapes that broadcast to [out]. *)
Definition Bcasts (sx sy out : list Z) (b : BCast) : Prop :=
  output_ b = out /\ result_ b = or_scalar out out /\
  x_reshape_ b = or_scalar out (pad (rank sx sy) sx) /\ y_reshape_ b = or_scalar out (pad (rank sx sy) sy) /\
  zip_with Z.mul (x_reshape_ b) (x_bcast_ b) = result_ b /\ zip_with Z.mul (y_reshape_ b) (y_bcast_ b) = result_ b /\
  grad_x_reduce_idx_ b = ones 0 (pad (rank sx sy) sx) /\ grad_y_reduce_idx_ b = ones 0 (pad (rank sx sy) sy).

Lemma length_padx sx sy : length (pad (rank sx sy) sx) = rank sx sy.
Proof. apply length_pad. unfold rank. lia. Qed.
Lemma length_pady sx sy : length (pad (rank sx sy) sy) = rank sx sy.
Proof. apply length_pad. unfold rank. lia. Qed.

Lemma length_bdims x y out : length x = length y -> bdims x y = Some out -> length out = length x.
Proof.
  revert y out. induction x as [|a x IH]; intros [|c y] out Hl; cbn [bdims]; try done; [by intros [= <-]|].
  cbn in Hl. intros (d & _ & Hd)%bind_Some. apply bind_Some in Hd as (l & Hb & [= <-]). cbn. by rewrite (IH y l ltac:(lia) Hb).
Qed.

Lemma zip_mul_rev x y : length x = length y -> zip_with Z.mul (rev x) (rev y) = rev (zip_with Z.mul x y).
Proof.
  revert y. induction x as [|a x IH]; intros [|c y] Hl; try done. cbn in Hl. cbn [rev zip_with].
  rewrite zip_with_app by (rewrite !length_rev; lia). rewrite IH by lia. done.
Qed.

Lemma SetShapeDifferentInfo_rev px py out : length px = length py -> bdims px py = Some out -> px <> [] ->
  exists b, SetShapeDifferentInfo (rev px) (rev py) new_BCast = Ok (SUCCESS, b) /\
    let r := ReverseAllIntermediateShapes b in
    output_ r = out /\ result_ r = out /\ x_reshape_ r = px /\ y_reshape_ r = py /\
    zip_with Z.mul px (x_bcast_ r) = out /\ zip_with Z.mul py (y_bcast_ r) = out /\
    grad_x_reduce_idx_ r = ones 0 px /\ grad_y_reduce_idx_ r = ones 0 py.
Proof.
  intros Hl Hb Hne. unfold SetShapeDifferentInfo.
  pose proof (SetShape_ok (zlen (rev px)) 0 (rev px) (rev py) new_BCast ltac:(rewrite !length_rev; done)) as H.
  rewrite bdims_rev, Hb in H by done. destruct H as (xb & yb & -> & Lx & Ly & Z1 & Z2). rewrite length_rev in Lx, Ly. eexists. split; [done|].
  cbn -[Reverse rev down_ones]. unfold Reverse. rewrite !rev_down_ones, !rev_involutive.
  pose proof (length_bdims _ _ _ Hl Hb) as Hlo.
  assert (zip_with Z.mul px (rev xb) = out) as -> by (rewrite <- (rev_involutive px), zip_mul_rev, Z1, rev_involutive by (rewrite length_rev; lia); done).
  assert (zip_with Z.mul py (rev yb) = out) as -> by (rewrite <- (rev_involutive py), zip_mul_rev, Z2, rev_involutive by (rewrite length_rev; lia); done).
  unfold zlen. rewrite !length_rev. rewrite Hl. do 6 (split; [done|]). split; f_equal; lia.
Qed.

Lemma GenerateBcastInfo_ok sx sy :
  match broadcast sx sy with
  | Some out => exists b, GenerateBcastInfo sx sy new_BCast = Ok (SUCCESS, b) /\ Bcasts sx sy out b
  | None => exists b, GenerateBcastInfo sx sy new_BCast = Ok (PARAM_INVALID, b)
  end.
Proof.
  destruct (decide (sx = [] /\ sy = [])) as [[-> ->]|Hne].
  { cbn. eexists. split; [done|]. repeat split. }
  assert (GenerateBcastInfo sx sy new_BCast =
    '(st, b) ← SetShapeDifferentInfo (rev (pad (rank sx sy) sx)) (rev (pad (rank sx sy) sy)) new_BCast;
    if bool_decide (st = SUCCESS) then Ok (SUCCESS, ReverseAllIntermediateShapes b) else Ok (st, b)) as ->.
  { unfold GenerateBcastInfo. rewrite ExtendTensorDim_eq. destruct sx, sy; [by destruct Hne|done..]. }
  pose proof (length_padx sx sy) as Hx. pose proof (length_pady sx sy) as Hy.
  assert (rank sx sy <> 0%nat) as Hr by (unfold rank; destruct sx, sy; [by destruct Hne|cbn; lia..]).
  assert (length (pad (rank sx sy) sx) = length (pad (rank sx sy) sy)) as Hl by lia.
  unfold broadcast. destruct (bdims _ _) as [out|] eqn:Hb.
  - destruct (SetShapeDifferentInfo_rev _ _ out Hl Hb) as (b & -> & R); [by intros E; rewrite E in Hx|].
    pose proof (length_bdims _ _ _ Hl Hb). cbn [mbind outcome_bind].
    eexists. split; [done|]. cbv zeta in R. destruct R as (R1 & R2 & R3 & R4 & R5 & R6 & R7 & R8).
    unfold Bcasts. rewrite R1, R2, R3, R4, R5, R6, R7, R8. destruct out; [cbn in *; lia|done].
  - pose proof (SetShape_ok (zlen (rev (pad (rank sx sy) sx))) 0 (rev (pad (rank sx sy) sx)) (rev (pad (rank sx sy) sy)) new_BCast
      ltac:(rewrite !length_rev; exact Hl)) as H.
    rewrite bdims_rev, Hb in H by lia. cbn in H. destruct H as (b & Hb'). unfold SetShapeDifferentInfo. rewrite Hb'. by exists b.
Qed.

(** * The indexes *)

(** The element of a tensor of the shape [s] that element [k] of the result reads. *)
Definition src_index (s out : list Z) (k : Z) : Z := linear s (project s (digits out k)).

(** A dimension that broadcasts to [d]. *)
Definition Fit (a d : Z) : Prop := a = 1 \/ a = d.

Lemma bdims_fit x y out : length x = length y -> bdims x y = Some out -> Forall2 Fit x out /\ Forall2 Fit y out /\ Forall (Z.le 0) out.
Proof.
  revert y out. induction x as [|a x IH]; intros [|c y] out Hl; cbn [bdims]; try done; [by intros [= <-]|].
  cbn in Hl. intros (d & Hd & H)%bind_Some. apply bind_Some in H as (l & Hb & [= <-]).
  destruct (IH y l ltac:(lia) Hb) as (F1 & F2 & F3). unfold bdim in Hd. unfold Fit.
  destruct (Z.ltb_spec a 0), (Z.ltb_spec c 0); try done. cbn in Hd.
  destruct (Z.eqb_spec a c), (Z.eqb_spec a 1), (Z.eqb_spec c 1); simplify_eq; (split; [|split]); constructor; auto; lia.
Qed.

Lemma fit_prod s out : Forall2 Fit s out -> Forall (Z.lt 0) out -> 0 < prodZ s <= prodZ out.
Proof.
  induction 1 as [|a d s out Ha HF IH]; [done|]. intros [Hd Ho]%Forall_cons. specialize (IH Ho). rewrite !prodZ_cons.
  destruct Ha as [-> | ->]; nia.
Qed.

Lemma project_in s out idx : Forall2 Fit s out -> in_shape out idx -> in_shape s (project s idx).
Proof.
  intros HF. revert idx. induction HF as [|a d s out Ha HF IH]; intros idx Hi; inversion Hi as [|i ? idx' ? Hid Hi']; subst; [constructor|].
  cbn [project]. constructor; [|by apply IH]. destruct (Z.eqb_spec a 1); destruct Ha; lia.
Qed.

Lemma src_index_range s out k : Forall2 Fit s out -> Forall (Z.lt 0) out -> 0 <= k < prodZ out -> 0 <= src_index s out k < prodZ s.
Proof. intros HF Hp Hk. apply linear_range. eapply project_in; [done|]. by apply digits_in_shape. Qed.

Lemma src_index_cons a s d out j k : 0 <= k < prodZ out ->
  src_index (a :: s) (d :: out) (j * prodZ out + k) = (if a =? 1 then 0 else j) * prodZ s + src_index s out k.
Proof. intros Hk. unfold src_index. cbn [digits project linear]. by rewrite radix_div, radix_mod. Qed.

(** The first [t] indexes. *)
Definition upto (fx fy : Z -> Z) (t : Z) : list Z * list Z := (fx <$> seqZ 0 t, fy <$> seqZ 0 t).

Lemma seqZ_snoc t : 0 <= t -> seqZ 0 (t + 1) = seqZ 0 t ++ [t].
Proof. intros. rewrite seqZ_app by lia. done. Qed.

Lemma upto_snoc fx fy t : 0 <= t -> upto fx fy (t + 1) = ((upto fx fy t).1 ++ [fx t], (upto fx fy t).2 ++ [fy t]).
Proof. intros. unfold upto. by rewrite seqZ_snoc, !fmap_app by done. Qed.

Lemma vget_seqZ (f : Z -> Z) t k : 0 <= k < t -> vget (f <$> seqZ 0 t) k = Ok (f k).
Proof.
  intros Hk. unfold vget, at_. destruct (Z.ltb_spec k 0); [lia|]. rewrite list_lookup_fmap, lookup_seqZ_lt by lia. cbn. do 2 f_equal. lia.
Qed.

Section Blocks.
Context (fx fy : Z -> Z) (x_dim y_dim x_bias y_bias P d : Z).
Hypothesis HP : 0 < P.
Hypothesis Hx : forall j k, 1 <= j < d -> 0 <= k < P -> (fx k + (if x_dim =? 1 then 0 else (j * x_bias)%i64))%i64 = fx (j * P + k).
Hypothesis Hy : forall j k, 1 <= j < d -> 0 <= k < P -> (fy k + (if y_dim =? 1 then 0 else (j * y_bias)%i64))%i64 = fy (j * P + k).

Lemma push_block_ok j : 1 <= j < d ->
  push_block x_dim y_dim x_bias y_bias P j (upto fx fy (j * P)) = Ok (upto fx fy ((j + 1) * P)).
Proof.
  intros Hj. unfold push_block.
  edestruct (for_range_inv (fun k s => s = upto fx fy (j * P + k)) P) as (s & -> & ->);
    [by rewrite Z.add_0_r| |f_equal; f_equal; lia].
  intros k s Hk ->. unfold upto at 1. cbn iota beta. rewrite !vget_seqZ by nia. cbn [mbind outcome_bind].
  eexists. split; [reflexivity|]. rewrite Z.add_assoc, upto_snoc, Hx, Hy by nia. done.
Qed.

Lemma blocks_ok : 1 <= d ->
  for_loop (Z.to_nat (d - 1)) 1 (push_block x_dim y_dim x_bias y_bias P) (upto fx fy P) = Ok (upto fx fy (d * P)).
Proof.
  intros Hd. destruct (for_loop_inv (fun j s => 1 <= j /\ s = upto fx fy (j * P)) d (push_block x_dim y_dim x_bias y_bias P)
    (Z.to_nat (d - 1)) 1 (upto fx fy P)) as (s & -> & _ & ->); [lia|lia|by rewrite Z.mul_1_l| |by replace (1 + Z.of_nat (Z.to_nat (d - 1))) with d by lia].
  intros j s Hj [Hj1 ->]. rewrite push_block_ok by lia. eexists. split; [done|]. split; [lia|done].
Qed.
End Blocks.

Definition indexes (cx cy co : list Z) : list Z * list Z := upto (src_index cx co) (src_index cy co) (prodZ co).

(** One more dimension in front, as the sums of the code compute it. *)
Lemma src_index_step a s d out j k : Forall2 Fit (a :: s) (d :: out) -> Forall (Z.lt 0) (d :: out) -> prodZ (d :: out) < 2 ^ 63 ->
  0 <= j < d -> 0 <= k < prodZ out ->
  (src_index (a :: s) (d :: out) k + (if a =? 1 then 0 else (j * prodZ s)%i64))%i64 = src_index (a :: s) (d :: out) (j * prodZ out + k).
Proof.
  intros HF Hp Hb Hj Hk. pose proof (fit_prod _ _ HF Hp) as Hs. apply Forall2_cons in HF as [Ha HF]. apply Forall_cons in Hp as [Hd Hp].
  pose proof (src_index_range s out k HF Hp Hk). pose proof (fit_prod _ _ HF Hp). rewrite !prodZ_cons in *.
  replace k with (0 * prodZ out + k) at 1 by ring. rewrite !src_index_cons by done.
  destruct (Z.eqb_spec a 1) as [->|Ha1]; [apply add64_is; [apply eqm_eq; ring|lia]|]. destruct Ha as [->| ->]; [done|].
  rewrite (mul64_is j (prodZ s) (j * prodZ s) eq_refl) by nia. apply add64_is; [apply eqm_eq; ring|nia].
Qed.

Lemma BCastIndexes_loop_ok xs ys outs : forall cx cy co,
  Forall2 Fit xs outs -> Forall2 Fit ys outs -> Forall (Z.lt 0) outs ->
  Forall2 Fit cx co -> Forall2 Fit cy co -> Forall (Z.lt 0) co -> prodZ (rev outs ++ co) < 2 ^ 63 ->
  BCastIndexes_loop xs ys outs (prodZ cx) (prodZ cy) (indexes cx cy co) = Ok (indexes (rev xs ++ cx) (rev ys ++ cy) (rev outs ++ co)).
Proof.
  revert xs ys. induction outs as [|d outs IH]; intros xs ys cx cy co HX HY HO HCX HCY HCO Hb.
  { inversion HX. inversion HY. subst. done. }
  inversion HX as [|a ? xs' ? Ha HX']; inversion HY as [|c ? ys' ? Hc HY']; subst. apply Forall_cons in HO as [Hd HO].
  cbn [BCastIndexes_loop rev] in *. rewrite <- !app_assoc in *. cbn [app] in *.
  assert (Forall2 Fit (a :: cx) (d :: co)) as FX by (by constructor). assert (Forall2 Fit (c :: cy) (d :: co)) as FY by (by constructor).
  assert (Forall (Z.lt 0) (d :: co)) as FO by (by constructor).
  assert (prodZ (d :: co) < 2 ^ 63) as Hb'.
  { rewrite prodZ_app in Hb. pose proof (prodZ_gt0 _ FO). assert (Forall (Z.lt 0) (rev outs)) as Hr by (by apply Forall_rev).
    pose proof (prodZ_gt0 _ Hr). nia. }
  pose proof (fit_prod _ _ FX FO). pose proof (fit_prod _ _ FY FO). pose proof (prodZ_gt0 _ HCO).
  assert (indexes cx cy co = upto (src_index (a :: cx) (d :: co)) (src_index (c :: cy) (d :: co)) (prodZ co)) as ->.
  { unfold indexes, upto. f_equal; apply list_fmap_ext; intros i k Hk%list_elem_of_lookup_2%elem_of_seqZ;
      replace k with (0 * prodZ co + k) at 2 by ring; rewrite src_index_cons by lia; by destruct (_ =? 1). }
  assert (zlen (fst (upto (src_index (a :: cx) (d :: co)) (src_index (c :: cy) (d :: co)) (prodZ co))) = prodZ co) as ->.
  { unfold upto, zlen. cbn. rewrite length_fmap, length_seqZ. lia. }
  rewrite (blocks_ok _ _ a c _ _ _ d); [|lia| | |lia].
  - cbn [mbind outcome_bind]. rewrite (mul64_is _ _ (prodZ (a :: cx))), (mul64_is _ _ (prodZ (c :: cy))); try (rewrite prodZ_cons; apply eqm_eq; ring); [|lia..].
    change (upto _ _ (d * prodZ co)) with (indexes (a :: cx) (c :: cy) (d :: co)). by rewrite (IH xs' ys' (a :: cx) (c :: cy) (d :: co)).
  - intros j k Hj Hk. apply src_index_step; done || lia.
  - intros j k Hj Hk. apply src_index_step; done || lia.
Qed.

(** The indexes along the last dimension. *)
Lemma first_indexes a c d : Fit a d -> Fit c d -> 0 < d ->
  for_range d (fun i '(x_indexes, y_indexes) =>
    Ok (x_indexes ++ [if a =? 1 then 0 else i], y_indexes ++ [if c =? 1 then 0 else i])) ([], []) = Ok (indexes [a] [c] [d]).
Proof.
  intros Ha Hc Hd. unfold indexes. change (prodZ [d]) with (d * 1). rewrite Z.mul_1_r.
  edestruct (for_range_inv (fun i s => s = upto (src_index [a] [d]) (src_index [c] [d]) i) d) as (s & -> & ->);
    [done| |by rewrite Z.max_r by lia].
  intros i s Hi ->. eexists. split; [reflexivity|]. rewrite upto_snoc by lia.
  unfold src_index. cbn. rewrite Z.div_1_r. destruct (a =? 1), (c =? 1); by rewrite ?Z.mul_1_r, ?Z.add_0_r.
Qed.

Lemma BCastIndexes_rev_ok xs ys outs : Forall2 Fit xs outs -> Forall2 Fit ys outs -> Forall (Z.lt 0) outs -> prodZ (rev outs) < 2 ^ 63 ->
  BCastIndexes_rev xs ys outs ([], []) = Ok (indexes (rev xs) (rev ys) (rev outs)).
Proof.
  intros FX FY FO Hb. unfold BCastIndexes_rev. destruct outs as [|d outs].
  { inversion FX. inversion FY. done. }
  inversion FX as [|a ? xs' ? Ha FX']; inversion FY as [|c ? ys' ? Hc FY']; subst. apply Forall_cons in FO as [Hd FO].
  cbn [at_ lookup list_lookup mbind outcome_bind tail]. rewrite (first_indexes a c d Ha Hc Hd). cbn [mbind outcome_bind].
  replace a with (prodZ [a]) at 1 by (cbn; lia). replace c with (prodZ [c]) at 1 by (cbn; lia).
  rewrite (BCastIndexes_loop_ok xs' ys' outs [a] [c] [d]); [done..|by constructor; [|constructor]|by constructor; [|constructor]|by constructor; [|constructor]|exact Hb].
Qed.

Lemma Forall2_rev (R : Z -> Z -> Prop) l k : Forall2 R l k -> Forall2 R (rev l) (rev k).
Proof. induction 1; [constructor|]. cbn. apply Forall2_app; [done|]. constructor; [done|constructor]. Qed.

Lemma BCastIndexes_ok sx sy out b : broadcast sx sy = Some out -> Bcasts sx sy out b -> Forall (Z.lt 0) out -> prodZ out < 2 ^ 63 ->
  BCastIndexes b ([], []) = Ok (indexes (pad (rank sx sy) sx) (pad (rank sx sy) sy) out).
Proof.
  intros Hb (Ho & _ & Hx & Hy & _) Hp Hbig. unfold BCastIndexes, Reverse. rewrite Ho.
  pose proof (length_padx sx sy) as Lx. pose proof (length_pady sx sy) as Ly.
  destruct (bdims_fit _ _ _ (eq_trans Lx (eq_sym Ly)) Hb) as (FX & FY & _).
  destruct out as [|o out].
  { apply Forall2_nil_inv_r in FX, FY. by rewrite Hx, Hy, FX, FY. }
  unfold or_scalar in Hx, Hy. rewrite Hx, Hy, BCastIndexes_rev_ok, !rev_involutive;
    [done|by apply Forall2_rev..|by apply Forall_rev|by rewrite rev_involutive].
Qed.

(** Padding does not move an element. *)
Lemma src_index_pad n s out k :
  src_index (pad n s) out k = linear s (project s (drop (n - length s) (digits out k))).
Proof.
  unfold src_index, pad. generalize (digits out k) as idx. induction (n - length s)%nat as [|m IH]; intros idx; [done|].
  destruct idx as [|i idx]; [|cbn; by rewrite IH]. cbn. by destruct s.
Qed.

(** * The properties *)

(** GenerateBcastInfo accepts exactly the pairs of shapes that broadcast, dimensions below
    zero excluded.  Of such a pair it reports the shape of the result, how often each dimension is
    repeated, and in ascending order the dimensions a gradient is summed over, those of
    size one in the padded shape. *)
Theorem bcast_info_exact sx sy :
  let px := pad (rank sx sy) sx in
  let py := pad (rank sx sy) sy in
  match broadcast sx sy with
  | None => exists b, GenerateBcastInfo sx sy new_BCast = Ok (PARAM_INVALID, b)
  | Some out => exists b, GenerateBcastInfo sx sy new_BCast = Ok (SUCCESS, b) /\ output_ b = out /\
      zip_with Z.mul (x_reshape_ b) (x_bcast_ b) = result_ b /\ zip_with Z.mul (y_reshape_ b) (y_bcast_ b) = result_ b /\
      (out <> [] -> result_ b = out /\ x_reshape_ b = px /\ y_reshape_ b = py) /\
      grad_x_reduce_idx_ b = ones 0 px /\ grad_y_reduce_idx_ b = ones 0 py
  end.
Proof.
  cbv zeta. pose proof (GenerateBcastInfo_ok sx sy) as H. destruct (broadcast sx sy) as [out|]; [|exact H].
  destruct H as (b & Hg & Ho & Hr & Hx & Hy & H1 & H2 & H3 & H4). exists b. do 4 (split; [done|]).
  split; [|done]. intros Hne. unfold or_scalar in *. destruct out; [done|]. done.
Qed.

(** C22 The two lists of BCastIndexes have one entry per element of the result, and entry [k] is
    the element of the tensor that broadcasting reads for it: the multi-index of [k], without the
    leading dimensions the tensor does not have and with index zero in its dimensions of size one. *)
Theorem bcast_indexes_exact sx sy out b :
  broadcast sx sy = Some out -> Forall (Z.lt 0) out -> prodZ out < 2 ^ 63 ->
  GenerateBcastInfo sx sy new_BCast = Ok (SUCCESS, b) ->
  exists x_indexes y_indexes, BCastIndexes b ([], []) = Ok (x_indexes, y_indexes) /\
    zlen x_indexes = prodZ out /\ zlen y_indexes = prodZ out /\
    forall k, 0 <= k < prodZ out ->
      vget x_indexes k = Ok (linear sx (project sx (drop (length out - length sx) (digits out k)))) /\
      vget y_indexes k = Ok (linear sy (project sy (drop (length out - length sy) (digits out k)))).
Proof.
  intros Hb Hp Hbig Hg. pose proof (GenerateBcastInfo_ok sx sy) as H. rewrite Hb in H. destruct H as (b' & Hg' & HB).
  rewrite Hg' in Hg. injection Hg as ->. eexists _, _. split; [exact (BCastIndexes_ok sx sy out b Hb HB Hp Hbig)|].
  unfold zlen. rewrite !length_fmap, length_seqZ. pose proof (prodZ_gt0 _ Hp). split; [lia|]. split; [lia|].
  pose proof (length_padx sx sy) as Lx. pose proof (length_pady sx sy) as Ly.
  rewrite (length_bdims _ _ _ (eq_trans Lx (eq_sym Ly)) Hb), Lx.
  intros k Hk. by rewrite !vget_seqZ, !src_index_pad.
Qed.

Lemma bcast_indexes_exact_witness :
  broadcast [2; 1] [3] = Some [2; 3] /\ exists b x_indexes y_indexes,
    GenerateBcastInfo [2; 1] [3] new_BCast = Ok (SUCCESS, b) /\ BCastIndexes b ([], []) = Ok (x_indexes, y_indexes) /\
    vget x_indexes 4 = Ok (linear [2; 1] (project [2; 1] (drop 0 (digits [2; 3] 4)))).
Proof.
  split; [reflexivity|]. eexists.
  destruct (bcast_indexes_exact [2; 1] [3] [2; 3] (mkBCast [2; 1] [1; 3] [1; 3] [2; 1] [2; 3] [2; 3] [1] [0])) as (xi & yi & H1 & _ & _ & H2).
  - reflexivity.
  - repeat constructor.
  - reflexivity.
  - reflexivity.
  - exists xi, yi. split; [reflexivity|]. split; [exact H1|]. apply (H2 4). vm_compute. split; [discriminate|reflexivity].
Defined.

(** A dimension of size zero that is not the last one is not seen: the two lists keep the
    indexes of the other dimensions although the result has no element. *)
Theorem bcast_indexes_zero_dim :
  exists b, GenerateBcastInfo [0; 3] [3] new_BCast = Ok (SUCCESS, b) /\ output_ b = [0; 3] /\
    BCastIndexes b ([], []) = Ok ([0; 1; 2], [0; 1; 2]).
Proof. by eexists. Qed.
