(* ===== verification/FloatMath.v ===== *)
(** Floating-point arithmetic and its overflow checks (ge/common/math/math_util.h).

    The checks of fp16_t, float and double in math_util.h compute the result and test
    whether it is finite.  The operations on float and double are those of the language,
    IEEE 754 with rounding to nearest, on bit patterns: [p] fraction bits and [w]
    exponent bits (23 and 8 for float, 52 and 11 for double).  Which NaN an operation
    returns is left open by the language; here it is the quiet NaN without sign. *)
From S2P Require Import Prelude MathUtil Buffer Fp16 Fp16Round Fp16Convert Fp16Arith DataTypeTransfer.

(** * The arithmetic of the language *)
Definition ieee_isfinite (p w x : Z) : bool := negb (ieee_exp p w x =? 2 ^ w - 1).
Definition ieee_isnan (p w x : Z) : bool := negb (ieee_isfinite p w x) && negb (ieee_frac p x =? 0).
Definition ieee_inf (p w : Z) (neg : bool) : Z := (if neg then 2 ^ (p + w) else 0) + (2 ^ w - 1) * 2 ^ p.
Definition ieee_nan (p w : Z) : Z := (2 ^ w - 1) * 2 ^ p + 2 ^ (p - 1).
(** Halves of the exponent range: the smallest positive number is 2 ^ - [ieee_unit]. *)
Definition ieee_unit (p w : Z) : Z := 2 ^ (w - 1) - 2 + p.

(** The number nearest to n / d units, Inf when it rounds beyond the range. *)
Definition ieee_round (p w : Z) (neg : bool) (n d : Z) : Z :=
  let s := Z.max 0 (Z.log2 (n / d) - p) in
  let m := s * 2 ^ p + rne n (d * 2 ^ s) in
  if m <? (2 ^ w - 1) * 2 ^ p then (if neg then 2 ^ (p + w) else 0) + m else ieee_inf p w neg.

Definition ieee_opp (p w x : Z) : Z := if ieee_neg p w x then x - 2 ^ (p + w) else x + 2 ^ (p + w).
Definition ieee_add (p w x y : Z) : Z :=
  if ieee_isnan p w x || ieee_isnan p w y then ieee_nan p w
  else if negb (ieee_isfinite p w x) then
    if negb (ieee_isfinite p w y) && xorb (ieee_neg p w x) (ieee_neg p w y) then ieee_nan p w else x
  else if negb (ieee_isfinite p w y) then y
  else
    let v := ieee_val p w x + ieee_val p w y in
    ieee_round p w ((v <? 0) || ((v =? 0) && ieee_neg p w x && ieee_neg p w y)) (Z.abs v) 1.
Definition ieee_sub (p w x y : Z) : Z := if ieee_isnan p w y then ieee_nan p w else ieee_add p w x (ieee_opp p w y).
Definition ieee_mul (p w x y : Z) : Z :=
  let neg := xorb (ieee_neg p w x) (ieee_neg p w y) in
  if ieee_isnan p w x || ieee_isnan p w y then ieee_nan p w
  else if negb (ieee_isfinite p w x) || negb (ieee_isfinite p w y) then
    if (ieee_abs p w x =? 0) || (ieee_abs p w y =? 0) then ieee_nan p w else ieee_inf p w neg
  else ieee_round p w neg (ieee_abs p w x * ieee_abs p w y) (2 ^ ieee_unit p w).
Definition ieee_div (p w x y : Z) : Z :=
  let neg := xorb (ieee_neg p w x) (ieee_neg p w y) in
  if ieee_isnan p w x || ieee_isnan p w y then ieee_nan p w
  else if negb (ieee_isfinite p w x) then if ieee_isfinite p w y then ieee_inf p w neg else ieee_nan p w
  else if negb (ieee_isfinite p w y) then ieee_round p w neg 0 1
  else if ieee_abs p w y =? 0 then if ieee_abs p w x =? 0 then ieee_nan p w else ieee_inf p w neg
  else ieee_round p w neg (ieee_abs p w x * 2 ^ ieee_unit p w) (ieee_abs p w y).
(** `x < y`; infinities are valued beyond every number. *)
Definition ieee_lt (p w x y : Z) : bool :=
  negb (ieee_isnan p w x) && negb (ieee_isnan p w y) && (ieee_val p w x <? ieee_val p w y).

(** * The checks *)
Definition fp16_status (r : option Z) : option Status :=
  r ← r; Some (if FP16_IS_INVALID r then FAILED else SUCCESS).
Definition CheckFp16AddOverflow (a b : Z) : option Status := fp16_status (op_add a b).
Definition CheckFp16SubOverflow (a b : Z) : option Status := fp16_status (op_sub a b).
Definition CheckFp16MulOverflow (a b : Z) : option Status := fp16_status (op_mul a b).

Definition CheckFloatAddOverflow (a b : Z) : Status := if negb (ieee_isfinite 23 8 (ieee_add 23 8 a b)) then FAILED else SUCCESS.
Definition CheckFloatSubOverflow (a b : Z) : Status := if negb (ieee_isfinite 23 8 (ieee_sub 23 8 a b)) then FAILED else SUCCESS.
Definition CheckFloatMulOverflow (a b : Z) : Status := if negb (ieee_isfinite 23 8 (ieee_mul 23 8 a b)) then FAILED else SUCCESS.
Definition CheckDoubleAddOverflow (a b : Z) : Status := if negb (ieee_isfinite 52 11 (ieee_add 52 11 a b)) then FAILED else SUCCESS.
Definition CheckDoubleSubOverflow (a b : Z) : Status := if negb (ieee_isfinite 52 11 (ieee_sub 52 11 a b)) then FAILED else SUCCESS.
Definition CheckDoubleMulOverflow (a b : Z) : Status := if negb (ieee_isfinite 52 11 (ieee_mul 52 11 a b)) then FAILED else SUCCESS.

(** * The macros *)
Definition fmk_check_fp16 (st : option Status) : outcome unit := st ← or_stuck st; fmk_check st.
Definition FMK_FP16_ADDCHECK (a b : Z) : outcome unit := fmk_check_fp16 (CheckFp16AddOverflow a b).
Definition FMK_FP16_SUBCHECK (a b : Z) : outcome unit := fmk_check_fp16 (CheckFp16SubOverflow a b).
Definition FMK_FP16_MULCHECK (a b : Z) : outcome unit := fmk_check_fp16 (CheckFp16MulOverflow a b).
Definition FMK_FLOAT_ADDCHECK (a b : Z) : outcome unit := fmk_check (CheckFloatAddOverflow a b).
Definition FMK_FLOAT_SUBCHECK (a b : Z) : outcome unit := fmk_check (CheckFloatSubOverflow a b).
Definition FMK_FLOAT_MULCHECK (a b : Z) : outcome unit := fmk_check (CheckFloatMulOverflow a b).
Definition FMK_DOUBLE_ADDCHECK (a b : Z) : outcome unit := fmk_check (CheckDoubleAddOverflow a b).
Definition FMK_DOUBLE_SUBCHECK (a b : Z) : outcome unit := fmk_check (CheckDoubleSubOverflow a b).
Definition FMK_DOUBLE_MULCHECK (a b : Z) : outcome unit := fmk_check (CheckDoubleMulOverflow a b).

(** fabs(a) < 2 ^ - [e] || a < 0; FLT_EPSILON is 2^-23 and DBL_EPSILON 2^-52. *)
Definition small_or_negative (p w e a : Z) : bool :=
  negb (ieee_isnan p w a) && ((ieee_abs p w a <? 2 ^ (ieee_unit p w - e)) || (ieee_val p w a <? 0)).
Definition FMK_FLOAT_ZEROCHECK (a : Z) : outcome unit := require (negb (small_or_negative 23 8 23 a)) INTERNAL_ERROR.
Definition FMK_DOUBLE_ZEROCHECK (a : Z) : outcome unit := require (negb (small_or_negative 52 11 52 a)) INTERNAL_ERROR.

(** 0.1f + 0.2f, 1.0f / 3.0f, the largest float doubled, and 1 - 2^-53 of two doubles. *)
Example ieee_examples :
  ieee_add 23 8 0x3DCCCCCD 0x3E4CCCCD = 0x3E99999A /\ ieee_div 23 8 0x3F800000 0x40400000 = 0x3EAAAAAB /\
  ieee_add 23 8 0x7F7FFFFF 0x7F7FFFFF = 0x7F800000 /\ ieee_mul 23 8 0x00000001 0x3F000000 = 0 /\
  ieee_sub 52 11 0x3FF0000000000000 0x3CA0000000000000 = 0x3FEFFFFFFFFFFFFF.
Proof. by vm_compute. Qed.

(** * The fp16_t checks *)
Lemma invalid_over neg : FP16_IS_INVALID (half_over neg) = true.
Proof. by destruct neg. Qed.

Lemma fp16_status_exact X D r neg : 0 < D -> X = signed neg (Z.abs X) -> Delivers neg (Z.abs X) D r ->
  fp16_status (Some r) = Some (if Z.abs X <? D * half_limit then SUCCESS else FAILED).
Proof.
  intros HD HX Hd. destruct (Delivers_spec neg (Z.abs X) D r HD ltac:(lia) Hd) as [Hn Ho]. cbn.
  destruct (Z.ltb_spec (Z.abs X) (D * half_limit)) as [Hlt|Hge]; [|by rewrite (Ho Hge), invalid_over].
  destruct (Hn Hlt) as [[Hu Hf] _]. by rewrite is_invalid, (proj2 (Z.eqb_neq _ _) Hf) by done.
Qed.

(** The overflow checks of half precision arithmetic accept exactly the operands whose
    exact result is below 65520 in magnitude, the values that round to a finite number. *)
Theorem fp16_checks_exact a b : inU 16 a -> inU 16 b ->
  CheckFp16AddOverflow a b = Some (if Z.abs (half_val a + half_val b) <? half_limit then SUCCESS else FAILED) /\
  CheckFp16SubOverflow a b = Some (if Z.abs (half_val a - half_val b) <? half_limit then SUCCESS else FAILED) /\
  CheckFp16MulOverflow a b = Some (if Z.abs (half_val a * half_val b) <? 2 ^ 24 * half_limit then SUCCESS else FAILED).
Proof.
  intros Ha Hb. unfold CheckFp16AddOverflow, CheckFp16SubOverflow, CheckFp16MulOverflow, op_add, op_sub, op_mul.
  destruct (Fp16Add_ok a b Ha Hb) as (ra & na & -> & Sa & Da). destruct (Fp16Sub_ok a b Ha Hb) as (rs & ns & -> & Ss & Ds).
  destruct (Fp16Mul_ok a b Ha Hb) as (rm & -> & Dm).
  split; [rewrite <- (Z.mul_1_l half_limit); by apply (fp16_status_exact _ 1 _ na)|].
  split; [rewrite <- (Z.mul_1_l half_limit); by apply (fp16_status_exact _ 1 _ ns)|].
  assert (half_abs a * half_abs b = Z.abs (half_val a * half_val b)) as E.
  { unfold half_val, signed, half_abs. pose proof (man_range a). pose proof (man_range b).
    pose proof (pow2_pos (Z.max 1 (half_exp a) - 1) ltac:(lia)). pose proof (pow2_pos (Z.max 1 (half_exp b) - 1) ltac:(lia)).
    rewrite Z.abs_mul. destruct (half_neg a), (half_neg b); rewrite ?Z.abs_opp; rewrite !Z.abs_eq by nia; done. }
  apply (fp16_status_exact _ (2 ^ 24) _ (xorb (half_neg a) (half_neg b))); [lia| |by rewrite <- E].
  rewrite <- E. unfold half_val, signed. destruct (half_neg a), (half_neg b); cbn [xorb]; ring.
Qed.

Lemma fp16_checks_exact_witness :
  inU 16 0x7BFF /\ inU 16 0x4C00 /\
  CheckFp16AddOverflow 0x7BFF 0x4C00 = Some (if Z.abs (half_val 0x7BFF + half_val 0x4C00) <? half_limit then SUCCESS else FAILED).
Proof. split; [done|]. split; [done|]. exact (proj1 (fp16_checks_exact 0x7BFF 0x4C00 ltac:(done) ltac:(done))). Defined.
