(* ===== verification/HostKernels.v ===== *)
(** Element-wise host kernels (ge/host_kernels): Add, Sub, Mul, Maximum, Greater, FloorMod, FloorDiv.

    Constant folding evaluates an operator on constant tensors with one of these kernels; a kernel
    that cannot do it answers NOT_CHANGED and the operator stays in the graph.  Six of
    them broadcast their operands with [BCast]; FloorDiv has its own rule.  The tensors
    and operator descriptions of the metadef library are seen through the class
    [TensorLib]; a tensor's data are the little-endian bytes of its elements. *)
From S2P Require Import Prelude MathUtil Buffer FormatsUtils Bytes Fp16 Fp16Convert DataTypeTransfer FloatMath BCast.

(** * The element types of the kernels *)
Inductive NumT := T_int (sgn : bool) (w : Z) | T_half | T_float | T_double | T_bool.

Definition num_size (t : NumT) : Z :=
  match t with T_int _ w => w / 8 | T_half => 2 | T_float => 4 | T_double => 8 | T_bool => 1 end.
Definition wrap_int (sgn : bool) (w z : Z) : Z := if sgn then wrapS w z else wrapU w z.

(** A value from its bits and back; floating-point values are their bits. *)
Definition num_value (t : NumT) (bits : Z) : Z := match t with T_int sgn w => wrap_int sgn w bits | _ => bits end.
Definition num_bytes (t : NumT) (v : Z) : list Z := le_bytes (Z.to_nat (num_size t)) (v mod 2 ^ (8 * num_size t)).

(** `reinterpret_cast<const T *>(data)[i]` *)
Definition load_num (t : NumT) (data : list Z) (i : Z) : outcome Z :=
  l ← read_bytes data (i * num_size t) (num_size t); Ok (num_value t (le_value l)).

Definition num_add (t : NumT) (x y : Z) : outcome Z :=
  match t with
  | T_int sgn w => Ok (wrap_int sgn w (x + y))
  | T_half => or_stuck (op_add x y)
  | T_float => Ok (ieee_add 23 8 x y)
  | T_double => Ok (ieee_add 52 11 x y)
  | T_bool => Stuck
  end.
Definition num_sub (t : NumT) (x y : Z) : outcome Z :=
  match t with
  | T_int sgn w => Ok (wrap_int sgn w (x - y))
  | T_half => or_stuck (op_sub x y)
  | T_float => Ok (ieee_sub 23 8 x y)
  | T_double => Ok (ieee_sub 52 11 x y)
  | T_bool => Stuck
  end.
Definition num_mul (t : NumT) (x y : Z) : outcome Z :=
  match t with
  | T_int sgn w => Ok (wrap_int sgn w (x * y))
  | T_half => or_stuck (op_mul x y)
  | T_float => Ok (ieee_mul 23 8 x y)
  | T_double => Ok (ieee_mul 52 11 x y)
  | T_bool => Stuck
  end.
Definition num_gt (t : NumT) (x y : Z) : bool :=
  match t with
  | T_int _ _ | T_bool => y <? x
  | T_half => op_gt x y
  | T_float => ieee_lt 23 8 y x
  | T_double => ieee_lt 52 11 y x
  end.

(** The cases of the switch statements: DT_X stands for the C++ type X. *)
Definition num_type (d : DataType) : option NumT :=
  match d with
  | DT_INT8 => Some (T_int true 8)
  | DT_INT16 => Some (T_int true 16)
  | DT_INT32 => Some (T_int true 32)
  | DT_INT64 => Some (T_int true 64)
  | DT_UINT8 => Some (T_int false 8)
  | DT_UINT16 => Some (T_int false 16)
  | DT_UINT32 => Some (T_int false 32)
  | DT_UINT64 => Some (T_int false 64)
  | DT_FLOAT16 => Some T_half
  | DT_FLOAT => Some T_float
  | DT_DOUBLE => Some T_double
  | _ => None
  end.

(** * Tensors *)
Class TensorLib := {
  GeTensor : Type;
  OpDesc : Type;
  GetDims : GeTensor -> list Z;
  GetDataType : GeTensor -> DataType;
  GetData : GeTensor -> list Z;
  GetOutputsSize : OpDesc -> Z;
  (** MakeShared<GeTensor>(op_desc_ptr->GetOutputDesc(i)): no tensor when memory is short. *)
  MakeShared : OpDesc -> Z -> option GeTensor;
  SetData : list Z -> GeTensor -> GeTensor;
  SetDataType : DataType -> GeTensor -> GeTensor;
  SetShape : list Z -> GeTensor -> GeTensor;
  (** TypeUtils::GetDataTypeLength *)
  GetDataTypeLength : DataType -> option Z;
}.

(** The attributes of a tensor are independent, and the lengths are those of the C++ types. *)
Class TensorLibOk (T : TensorLib) : Prop := {
  get_dims_shape s t : GetDims (SetShape s t) = s;
  get_dims_data d t : GetDims (SetData d t) = GetDims t;
  get_dims_type d t : GetDims (SetDataType d t) = GetDims t;
  get_data_data d t : GetData (SetData d t) = d;
  get_data_shape s t : GetData (SetShape s t) = GetData t;
  get_data_type d t : GetData (SetDataType d t) = GetData t;
  get_type_type d t : GetDataType (SetDataType d t) = d;
  get_type_data d t : GetDataType (SetData d t) = GetDataType t;
  get_type_shape s t : GetDataType (SetShape s t) = GetDataType t;
  length_of_type d t : num_type d = Some t -> GetDataTypeLength d = Some (num_size t);
}.

Section Kernels.
Context `{E : Env} `{T : TensorLib}.

(** A ConstGeTensorPtr. *)
Definition TensorPtr := option GeTensor.

(** `input[i]->...`: a null pointer or a missing entry is not survived. *)
Definition input_at (input : list TensorPtr) (i : nat) : outcome GeTensor :=
  p ← at_ input i; or_stuck p.

(** * BCast::BCastCompute and BCast::BCastComputeCheck *)

(** The loop over the indexes; [func] returns its status and its value. *)
Fixpoint compute_loop (t : NumT) (func : Z -> Z -> outcome (Status * Z)) (x1_data x2_data x_indexes y_indexes v_output : list Z) :
    outcome (Status * list Z) :=
  match x_indexes with
  | [] => Ok (SUCCESS, v_output)
  | x_index :: x_indexes =>
      match y_indexes with
      | [] => Stuck
      | y_index :: y_indexes =>
          x ← load_num t x1_data x_index;
          y ← load_num t x2_data y_index;
          '(ret, value) ← func x y;
          if bool_decide (ret = SUCCESS)
          then compute_loop t func x1_data x2_data x_indexes y_indexes (v_output ++ [value])
          else Ok (ret, v_output)
      end
  end.

Definition BCastComputeCheck (t : NumT) (func : DataType -> Z -> Z -> outcome (Status * Z)) (input : list TensorPtr)
    (v_output : list Z) (bcast : BCast) : outcome (Status * list Z * BCast) :=
  if (length input <? 2)%nat then Ok (PARAM_INVALID, v_output, bcast)
  else
    i0 ← input_at input 0;
    i1 ← input_at input 1;
    '(ret, bcast) ← GenerateBcastInfo (GetDims i0) (GetDims i1) bcast;
    if negb (bool_decide (ret = SUCCESS)) then Ok (ret, v_output, bcast)
    else
      let data_type := GetDataType i0 in
      '(x_indexes, y_indexes) ← BCastIndexes bcast ([], []);
      '(ret, v_output) ← compute_loop t (func data_type) (GetData i0) (GetData i1) x_indexes y_indexes v_output;
      Ok (ret, v_output, bcast).

Definition BCastCompute (t : NumT) (func : Z -> Z -> Z) (input : list TensorPtr) (v_output : list Z) (bcast : BCast) :
    outcome (Status * list Z * BCast) :=
  BCastComputeCheck t (fun _ x y => Ok (SUCCESS, func x y)) input v_output bcast.

(** The bytes of the elements of a vector. *)
Definition vector_bytes (t : NumT) (v : list Z) : list Z := v ≫= num_bytes t.

(** The status a checking macro leaves a function with, and the value otherwise. *)
Definition checked (check : outcome unit) (value : outcome Z) : outcome (Status * Z) :=
  match check with
  | Ok _ => v ← value; Ok (SUCCESS, v)
  | Err st => Ok (st, 0)
  | Stuck => Stuck
  end.

(** `set.find(type) == set.end()` *)
Definition supports (types : list DataType) (d : DataType) : bool := bool_decide (d ∈ types).

Definition emit (v_output : list GeTensor) (t : GeTensor) : outcome (list GeTensor) := Ok (v_output ++ [t]).
End Kernels.

(** The tail Sub, Mul, Maximum and FloorMod share: `SetShape; SetData(v.data(), v.size() * length); SetDataType`. *)
Definition set_output `{T : TensorLib} (t : NumT) (data_type : DataType) (length : Z) (dims y_data : list Z) (output : GeTensor) :
    outcome GeTensor :=
  bytes ← read_bytes (vector_bytes t y_data) 0 (zlen y_data * length);
  Ok (SetDataType data_type (SetData bytes (SetShape dims output))).

(** * AddKernel *)
Module AddKernel.
Section Add.
Context `{E : Env} `{T : TensorLib}.

Definition OverflowCheck (data_type : DataType) (x y : Z) : outcome unit :=
  match data_type with
  | DT_INT8 => FMK_INT8_ADDCHECK x y
  | DT_INT16 => FMK_INT16_ADDCHECK x y
  | DT_INT32 => FMK_INT32_ADDCHECK x y
  | DT_INT64 => FMK_INT64_ADDCHECK x y
  | DT_UINT8 => FMK_UINT8_ADDCHECK x y
  | DT_UINT16 => FMK_UINT16_ADDCHECK x y
  | DT_UINT32 => FMK_UINT32_ADDCHECK x y
  | DT_UINT64 => FMK_UINT64_ADDCHECK x y
  | DT_FLOAT16 => FMK_FP16_ADDCHECK x y
  | DT_FLOAT => FMK_FLOAT_ADDCHECK x y
  | DT_DOUBLE => FMK_DOUBLE_ADDCHECK x y
  | _ => Ok tt
  end.

Definition BCastAdd (t : NumT) (op_desc : OpDesc) (input : list TensorPtr) (v_output : list GeTensor) : outcome (list GeTensor) :=
  i0 ← input_at input 0;
  i1 ← input_at input 1;
  '(ret, bcast) ← GenerateBcastInfo (GetDims i0) (GetDims i1) new_BCast;
  if negb (bool_decide (ret = SUCCESS)) then Err ret
  else
    '(x_indexes, y_indexes) ← BCastIndexes bcast ([], []);
    match new_uint8 (zlen x_indexes * num_size t) with
    | None => Err MEMALLOC_FAILED
    | Some _ =>
        let data_type := GetDataType i0 in
        '(ret, buf) ← compute_loop t (fun x y => checked (OverflowCheck data_type x y) (num_add t x y))
                        (GetData i0) (GetData i1) x_indexes y_indexes [];
        if negb (bool_decide (ret = SUCCESS)) then Err PARAM_INVALID
        else
          match MakeShared op_desc 0 with
          | None => Err MEMALLOC_FAILED
          | Some output => emit v_output (SetShape (output_ bcast) (SetDataType data_type (SetData (vector_bytes t buf) output)))
          end
    end.

Definition AddCheck (op_desc_ptr : option OpDesc) (input : list TensorPtr) : Status :=
  match op_desc_ptr with
  | None => PARAM_INVALID
  | Some op_desc =>
      if negb (length input =? 2)%nat || negb (GetOutputsSize op_desc =? 1) then PARAM_INVALID
      else
        match input with
        | [Some i0; Some i1] =>
            if negb (bool_decide (GetDataType i0 = GetDataType i1)) then PARAM_INVALID
            else if (zlen (GetData i0) =? 0) || (zlen (GetData i1) =? 0) then PARAM_INVALID
            else SUCCESS
        | _ => PARAM_INVALID
        end
  end.

Definition Compute (op_desc_ptr : option OpDesc) (input : list TensorPtr) (v_output : list GeTensor) : outcome (list GeTensor) :=
  if negb (bool_decide (AddCheck op_desc_ptr input = SUCCESS)) then Err NOT_CHANGED
  else
    i0 ← input_at input 0;
    op_desc ← or_stuck op_desc_ptr;
    match num_type (GetDataType i0) with
    | Some t => or_else NOT_CHANGED (BCastAdd t op_desc input v_output)
    | None => Err NOT_CHANGED
    end.
End Add.
End AddKernel.

(** * SubKernel and MulKernel

    Their result vectors, one per type, are members of the kernel object, so an object that
    is used again still holds the elements of the earlier calls. *)
Definition YData : Type := DataType -> list Z.
Definition set_y_data (d : DataType) (v : list Z) (y : YData) : YData := fun d' => if bool_decide (d' = d) then v else y d'.
Definition new_y_data : YData := fun _ => [].

Module SubKernel.
Section Sub.
Context `{T : TensorLib}.

Definition OverflowCheck (data_type : DataType) (x y : Z) : outcome unit :=
  match data_type with
  | DT_INT8 => FMK_INT8_SUBCHECK x y
  | DT_INT16 => FMK_INT16_SUBCHECK x y
  | DT_INT32 => FMK_INT32_SUBCHECK x y
  | DT_INT64 => FMK_INT64_SUBCHECK x y
  | DT_UINT8 => FMK_UINT8_SUBCHECK x y
  | DT_UINT16 => FMK_UINT16_SUBCHECK x y
  | DT_UINT32 => FMK_UINT32_SUBCHECK x y
  | DT_UINT64 => FMK_UINT64_SUBCHECK x y
  | DT_FLOAT16 => FMK_FP16_SUBCHECK x y
  | DT_FLOAT => FMK_FLOAT_SUBCHECK x y
  | DT_DOUBLE => FMK_DOUBLE_SUBCHECK x y
  | _ => Ok tt
  end.
Definition func (t : NumT) (type : DataType) (x y : Z) : outcome (Status * Z) := checked (OverflowCheck type x y) (num_sub t x y).

Definition Compute (y_data : YData) (op_desc_ptr : option OpDesc) (input : list TensorPtr) (v_output : list GeTensor) :
    outcome (Status * list GeTensor * YData) :=
  match op_desc_ptr with
  | None => Ok (PARAM_INVALID, v_output, y_data)
  | Some op_desc =>
      if negb (length input =? 2)%nat || negb (GetOutputsSize op_desc =? 1) then Ok (NOT_CHANGED, v_output, y_data)
      else
        match input with
        | [Some i0; Some i1] =>
            let data_type := GetDataType i0 in
            match num_type data_type with
            | None => Ok (NOT_CHANGED, v_output, y_data)
            | Some t =>
                '(ret, v, bcast) ← BCastComputeCheck t (func t) input (y_data data_type) new_BCast;
                let y_data := set_y_data data_type v y_data in
                if negb (bool_decide (ret = SUCCESS)) then Ok (NOT_CHANGED, v_output, y_data)
                else
                  match GetDataTypeLength data_type, MakeShared op_desc 0 with
                  | Some length, Some output =>
                      output ← set_output t data_type length (output_ bcast) v output;
                      Ok (SUCCESS, v_output ++ [output], y_data)
                  | _, _ => Ok (NOT_CHANGED, v_output, y_data)
                  end
            end
        | _ => Ok (PARAM_INVALID, v_output, y_data)
        end
  end.
End Sub.
End SubKernel.

(** The checks of Mul, Maximum, Greater and FloorMod differ in their supported types only. *)
Definition binary_check `{T : TensorLib} (supported : list DataType) (input : list TensorPtr) : Status :=
  match input with
  | [i0; i1] =>
      match i0, i1 with
      | Some i0, Some i1 =>
          if (zlen (GetData i0) =? 0) || (zlen (GetData i1) =? 0) then NOT_CHANGED
          else if negb (bool_decide (GetDataType i0 = GetDataType i1)) then NOT_CHANGED
          else if negb (supports supported (GetDataType i0)) then NOT_CHANGED
          else SUCCESS
      | _, _ => PARAM_INVALID
      end
  | _ => NOT_CHANGED
  end.

Module MulKernel.
Section Mul.
Context `{T : TensorLib}.

Definition kMulSupportedType : list DataType :=
  [DT_INT8; DT_INT16; DT_INT32; DT_INT64; DT_UINT8; DT_UINT16; DT_UINT32; DT_UINT64; DT_FLOAT16; DT_FLOAT; DT_DOUBLE].
Definition MulCheck : list TensorPtr -> Status := binary_check kMulSupportedType.

Definition OverflowCheck (type : DataType) (x y : Z) : outcome unit :=
  match type with
  | DT_INT8 => FMK_INT8_MULCHECK x y
  | DT_INT16 => FMK_INT16_MULCHECK x y
  | DT_INT32 => FMK_INT32_MULCHECK x y
  | DT_INT64 => FMK_INT64_MULCHECK x y
  | DT_UINT8 => FMK_UINT8_MULCHECK x y
  | DT_UINT16 => FMK_UINT16_MULCHECK x y
  | DT_UINT32 => FMK_UINT32_MULCHECK x y
  | DT_UINT64 => FMK_UINT64_MULCHECK x y
  | DT_FLOAT16 => FMK_FP16_MULCHECK x y
  | DT_FLOAT => FMK_FLOAT_MULCHECK x y
  | DT_DOUBLE => FMK_DOUBLE_MULCHECK x y
  | _ => Ok tt
  end.
Definition func (t : NumT) (type : DataType) (a b : Z) : outcome (Status * Z) := checked (OverflowCheck type a b) (num_mul t a b).

Definition Compute (y_data : YData) (op_desc_ptr : option OpDesc) (input : list TensorPtr) (v_output : list GeTensor) :
    outcome (Status * list GeTensor * YData) :=
  match op_desc_ptr with
  | None => Ok (PARAM_INVALID, v_output, y_data)
  | Some op_desc =>
      let ret := MulCheck input in
      if negb (bool_decide (ret = SUCCESS)) then Ok (ret, v_output, y_data)
      else
        i0 ← input_at input 0;
        let data_type := GetDataType i0 in
        match num_type data_type with
        | None => Ok (NOT_CHANGED, v_output, y_data)
        | Some t =>
            '(ret, v, bcast) ← BCastComputeCheck t (func t) input (y_data data_type) new_BCast;
            let y_data := set_y_data data_type v y_data in
            if negb (bool_decide (ret = SUCCESS)) then Ok (NOT_CHANGED, v_output, y_data)
            else
              match GetDataTypeLength data_type with
              | None => Ok (NOT_CHANGED, v_output, y_data)
              | Some length =>
                  match MakeShared op_desc 0 with
                  | None => Ok (MEMALLOC_FAILED, v_output, y_data)
                  | Some output =>
                      output ← set_output t data_type length (output_ bcast) v output;
                      Ok (SUCCESS, v_output ++ [output], y_data)
                  end
              end
        end
  end.
End Mul.
End MulKernel.

(** * MaximumKernel and GreaterKernel *)
Module MaximumKernel.
Section Maximum.
Context `{T : TensorLib}.

Definition kMaximumSupportedType : list DataType :=
  [DT_FLOAT; DT_FLOAT16; DT_INT8; DT_INT16; DT_UINT16; DT_UINT8; DT_INT32; DT_INT64; DT_UINT32; DT_UINT64; DT_DOUBLE].
Definition MaximumCheck : list TensorPtr -> Status := binary_check kMaximumSupportedType.
Definition func (t : NumT) (a b : Z) : Z := if num_gt t a b then a else b.

Definition Compute (op_desc_ptr : option OpDesc) (input : list TensorPtr) (v_output : list GeTensor) : outcome (list GeTensor) :=
  match op_desc_ptr with
  | None => Err PARAM_INVALID
  | Some op_desc =>
      let ret := MaximumCheck input in
      if negb (bool_decide (ret = SUCCESS)) then Err ret
      else
        i0 ← input_at input 0;
        let data_type := GetDataType i0 in
        match num_type data_type with
        | None => Err NOT_CHANGED
        | Some t =>
            '(ret, y_data, bcast) ← BCastCompute t (func t) input [] new_BCast;
            if negb (bool_decide (ret = SUCCESS)) then Err NOT_CHANGED
            else
              match GetDataTypeLength data_type with
              | None => Err NOT_CHANGED
              | Some length =>
                  match MakeShared op_desc 0 with
                  | None => Err MEMALLOC_FAILED
                  | Some output => output ← set_output t data_type length (output_ bcast) y_data output; emit v_output output
                  end
              end
        end
  end.
End Maximum.
End MaximumKernel.

Module GreaterKernel.
Section Greater.
Context `{T : TensorLib}.

Definition greater_supported_type : list DataType :=
  [DT_FLOAT; DT_FLOAT16; DT_INT8; DT_INT16; DT_UINT16; DT_UINT8; DT_INT32; DT_INT64; DT_UINT32; DT_UINT64; DT_BOOL; DT_DOUBLE].
Definition GreaterCheck : list TensorPtr -> Status := binary_check greater_supported_type.
Definition func (t : NumT) (a b : Z) : Z := Z.b2z (num_gt t a b).
Definition greater_type (d : DataType) : option NumT := match d with DT_BOOL => Some T_bool | _ => num_type d end.

Definition Compute (op_desc_ptr : option OpDesc) (input : list TensorPtr) (v_output : list GeTensor) : outcome (list GeTensor) :=
  match op_desc_ptr with
  | None => Err PARAM_INVALID
  | Some op_desc =>
      let ret := GreaterCheck input in
      if negb (bool_decide (ret = SUCCESS)) then Err ret
      else
        i0 ← input_at input 0;
        match greater_type (GetDataType i0) with
        | None => Err NOT_CHANGED
        | Some t =>
            '(ret, y_data, bcast) ← BCastCompute t (func t) input [] new_BCast;
            if negb (bool_decide (ret = SUCCESS)) then Err NOT_CHANGED
            else
              match MakeShared op_desc 0 with
              | None => Err MEMALLOC_FAILED
              | Some output => emit v_output (SetDataType DT_BOOL (SetData y_data (SetShape (output_ bcast) output)))
              end
        end
  end.
End Greater.
End GreaterKernel.

(** * FloorModKernel *)
Module FloorModKernel.
Section FloorMod.
Context `{T : TensorLib}.

Definition kFloorModSupportedType : list DataType := [DT_INT32].
Definition FloorModCheck : list TensorPtr -> Status := binary_check kFloorModSupportedType.

(** On int32_t; a zero divisor is excluded by the caller. *)
Definition FloorDiv (x y : Z) : Z :=
  if negb (Bool.eqb (x <? 0) (y <? 0)) then
    let abs_x := wrapS 32 (Z.abs x) in
    let abs_y := wrapS 32 (Z.abs y) in
    wrapS 32 (wrapS 32 (Z.quot (wrapS 32 (1 - abs_x)) abs_y) - 1)
  else wrapS 32 (Z.quot x y).

Definition CheckYIsZero (y : Z) (type : DataType) : Status :=
  match type with
  | DT_INT32 => if y =? 0 then INTERNAL_ERROR else SUCCESS
  | _ => INTERNAL_ERROR
  end.

Definition func (type : DataType) (a b : Z) : outcome (Status * Z) :=
  let ret := CheckYIsZero b type in
  if negb (bool_decide (ret = SUCCESS)) then Ok (ret, 0)
  else Ok (ret, wrapS 32 (a - wrapS 32 (b * FloorDiv a b))).

Definition Compute (op_desc_ptr : option OpDesc) (input : list TensorPtr) (v_output : list GeTensor) : outcome (list GeTensor) :=
  match op_desc_ptr with
  | None => Err PARAM_INVALID
  | Some op_desc =>
      let ret := FloorModCheck input in
      if negb (bool_decide (ret = SUCCESS)) then Err ret
      else
        i0 ← input_at input 0;
        let data_type := GetDataType i0 in
        match data_type with
        | DT_INT32 =>
            let t := T_int true 32 in
            '(ret, y_data, bcast) ← BCastComputeCheck t func input [] new_BCast;
            if negb (bool_decide (ret = SUCCESS)) then Err NOT_CHANGED
            else
              match GetDataTypeLength data_type, MakeShared op_desc 0 with
              | Some length, Some output => output ← set_output t data_type length (output_ bcast) y_data output; emit v_output output
              | _, _ => Err NOT_CHANGED
              end
        | _ => Err NOT_CHANGED
        end
  end.
End FloorMod.
End FloorModKernel.

(** * FloorDivKernel *)
Module FloorDivKernel.
Section FloorDiv.
Context `{E : Env} `{T : TensorLib}.

Definition kFloorDivSupportedType : list DataType := [DT_FLOAT; DT_DOUBLE; DT_UINT8; DT_INT8; DT_UINT16; DT_INT16; DT_INT32; DT_INT64].

Definition FloorDivCheck (op_desc_ptr : option OpDesc) (input : list TensorPtr) : Status :=
  match op_desc_ptr, input with
  | Some op_desc, [Some x_tensor; Some y_tensor] =>
      let x_dims := GetDims x_tensor in
      let y_dims := GetDims y_tensor in
      if negb (zlen x_dims =? 0) && negb (zlen y_dims =? 0) && negb (bool_decide (x_dims = y_dims)) then PARAM_INVALID
      else if negb (bool_decide (GetDataType x_tensor = GetDataType y_tensor)) then PARAM_INVALID
      else if negb (supports kFloorDivSupportedType (GetDataType x_tensor)) then PARAM_INVALID
      else if (zlen (GetData x_tensor) =? 0) || (zlen (GetData y_tensor) =? 0) then PARAM_INVALID
      else SUCCESS
  | _, _ => PARAM_INVALID
  end.

Definition ShapeCal (x_tensor y_tensor output : GeTensor) : GeTensor :=
  SetShape (if zlen (GetDims y_tensor) <=? zlen (GetDims x_tensor) then GetDims x_tensor else GetDims y_tensor) output.

(** The integer types; narrow ones are promoted to int.  The quotient passes through int32_t. *)
Definition DivCal_int (sgn : bool) (w x_i y_i : Z) : Z :=
  let pw := Z.max 32 w in
  if negb (Bool.eqb (x_i <? 0) (y_i <? 0)) then
    let abs_x_i := wrap_int sgn w (if x_i <? 0 then - x_i else x_i) in
    let abs_y_i := wrap_int sgn w (if y_i <? 0 then - y_i else y_i) in
    let sum := wrapS pw (wrapS pw (abs_x_i + abs_y_i) - 1) in
    wrap_int sgn w (wrapS 32 (wrapS pw (Z.quot (wrapS pw (- sum)) abs_y_i)))
  else wrap_int sgn w (wrapS 32 (wrapS pw (Z.quot x_i y_i))).

(** float and double; the conversion to int32_t is undefined outside its range. *)
Definition DivCal_ieee (p w x_i y_i : Z) : outcome Z :=
  let one := (2 ^ (w - 1) - 1) * 2 ^ p in
  let quotient :=
    if negb (Bool.eqb (ieee_lt p w x_i 0) (ieee_lt p w y_i 0)) then
      let abs_x_i := if ieee_lt p w x_i 0 then ieee_opp p w x_i else x_i in
      let abs_y_i := if ieee_lt p w y_i 0 then ieee_opp p w y_i else y_i in
      ieee_div p w (ieee_opp p w (ieee_sub p w (ieee_add p w abs_x_i abs_y_i) one)) abs_y_i
    else ieee_div p w x_i y_i in
  n ← or_stuck (ieee_to_int32 p w quotient);
  Ok (int_to_ieee p w (i32 n)).

Definition DivCal (t : NumT) (x_i y_i : Z) : outcome Z :=
  match t with
  | T_int sgn w => if y_i =? 0 then Stuck else Ok (DivCal_int sgn w x_i y_i)
  | T_float => DivCal_ieee 23 8 x_i y_i
  | T_double => DivCal_ieee 52 11 x_i y_i
  | _ => Stuck
  end.

(** FLT_EPSILON is 2^-23 and DBL_EPSILON 2^-52. *)
Definition ZeroCheck (t : NumT) (element : Z) : bool :=
  match t with
  | T_int _ _ => element =? 0
  | T_float => negb (ieee_isnan 23 8 element) && (ieee_abs 23 8 element <? 2 ^ (ieee_unit 23 8 - 23))
  | T_double => negb (ieee_isnan 52 11 element) && (ieee_abs 52 11 element <? 2 ^ (ieee_unit 52 11 - 52))
  | _ => false
  end.

(** `for (i = 0; i < n; ++i) { if (check && ZeroCheck(y)) return PARAM_INVALID; buf[i] = DivCal(x, y); }` with
    the operands at the places [ix i] and [iy i]. *)
Definition div_loop (t : NumT) (check : bool) (n : Z) (ix iy : Z -> Z) (x y : list Z) : outcome (list Z) :=
  for_range n (fun i buf =>
    y_i ← load_num t y (iy i);
    if check && ZeroCheck t y_i then Err PARAM_INVALID
    else
      x_i ← load_num t x (ix i);
      q ← DivCal t x_i y_i;
      Ok (buf ++ [q])) [].

Definition DataCalBroadcast (t : NumT) (x y : list Z) (num_x num_y : Z) : outcome (list Z) :=
  let data_num := if num_y <? num_x then num_x else num_y in
  match new_uint8 (data_num * num_size t) with
  | None => Err INTERNAL_ERROR
  | Some _ =>
      if num_y <? num_x then
        y_0 ← load_num t y 0;
        if ZeroCheck t y_0 then Err PARAM_INVALID else div_loop t false num_x (fun i => i) (fun _ => 0) x y
      else div_loop t true num_y (fun _ => 0) (fun i => i) x y
  end.

Definition DataCal (t : NumT) (x_tensor y_tensor output : GeTensor) : outcome GeTensor :=
  let x := GetData x_tensor in
  let y := GetData y_tensor in
  let data_num_x := zlen x / num_size t in
  let data_num_y := zlen y / num_size t in
  buf ←
    (if zlen (GetDims x_tensor) =? zlen (GetDims y_tensor) then
       match new_uint8 (data_num_x * num_size t) with
       | None => Err INTERNAL_ERROR
       | Some _ => div_loop t true data_num_x (fun i => i) (fun i => i) x y
       end
     else or_else PARAM_INVALID (DataCalBroadcast t x y data_num_x data_num_y));
  Ok (SetData (vector_bytes t buf) output).

Definition ComputeByDataType (data_type : DataType) (x_tensor y_tensor output : GeTensor) : outcome GeTensor :=
  match data_type with
  | DT_FLOAT => DataCal T_float x_tensor y_tensor output
  | DT_DOUBLE => DataCal T_double x_tensor y_tensor output
  | DT_UINT8 => DataCal (T_int false 8) x_tensor y_tensor output
  | DT_INT8 => DataCal (T_int true 8) x_tensor y_tensor output
  | DT_UINT16 => DataCal (T_int false 16) x_tensor y_tensor output
  | DT_INT16 => DataCal (T_int true 16) x_tensor y_tensor output
  | DT_INT32 => DataCal (T_int true 32) x_tensor y_tensor output
  | DT_INT64 => DataCal (T_int true 64) x_tensor y_tensor output
  | _ => Err NOT_CHANGED
  end.

Definition Compute (op_desc_ptr : option OpDesc) (input : list TensorPtr) (v_output : list GeTensor) : outcome (list GeTensor) :=
  if negb (bool_decide (FloorDivCheck op_desc_ptr input = SUCCESS)) then Err NOT_CHANGED
  else
    op_desc ← or_stuck op_desc_ptr;
    x_tensor ← input_at input 0;
    y_tensor ← input_at input 1;
    match MakeShared op_desc 0 with
    | None => Err NOT_CHANGED
    | Some output =>
        let output := ShapeCal x_tensor y_tensor output in
        let x_data_dtype := GetDataType x_tensor in
        output ← or_else NOT_CHANGED (ComputeByDataType x_data_dtype x_tensor y_tensor (SetDataType x_data_dtype output));
        emit v_output output
    end.
End FloorDiv.
End FloorDivKernel.
