(* ===== verification/KernelTheorems.v ===== *)
(** The host kernels: what they compute.

    Tensors that hold values in their byte buffers ([holds]); the loops of the kernels on such
    tensors; the theorems about the kernels of HostKernels. *)
From S2P Require Import Prelude MathUtil Buffer FormatsUtils Bytes FormatTranspose Fp16 DataTypeTransfer FloatMath BCast HostKernels.

(** * Values in buffers *)
Definition num_ok (t : NumT) : Prop := match t with T_int _ w => w ∈ [8; 16; 32; 64] | _ => True end.
Definition num_in (t : NumT) (v : Z) : Prop :=
  match t with T_int true w => inS w v | T_int false w => inU w v | _ => inU (8 * num_size t) v end.

Lemma num_type_ok d t : num_type d = Some t -> num_ok t.
Proof. destruct d; intros [= <-]; cbn; by repeat constructor. Qed.

Lemma num_size_pos t : num_ok t -> 0 < num_size t <= 8.
Proof. destruct t; cbn; [|lia..]. intros H. repeat (apply elem_of_cons in H as [-> |H]; [done|]). by apply elem_of_nil in H. Qed.

Lemma num_width t sgn w : num_ok t -> t = T_int sgn w -> 8 * num_size t = w /\ 0 < w.
Proof. intros H ->. cbn in *. repeat (apply elem_of_cons in H as [-> |H]; [done|]). by apply elem_of_nil in H. Qed.

Lemma zlen_num_bytes t v : num_ok t -> zlen (num_bytes t v) = num_size t.
Proof. intros H. pose proof (num_size_pos t H). unfold num_bytes. rewrite zlen_le_bytes. lia. Qed.

Lemma num_value_bytes t v : num_ok t -> num_in t v -> num_value t (le_value (num_bytes t v)) = v.
Proof.
  intros H Hv. pose proof (num_size_pos t H). unfold num_bytes.
  rewrite le_value_bytes by (rewrite Z2Nat.id by lia; apply Z.mod_pos_bound, Z.pow_pos_nonneg; lia).
  destruct t as [sgn w| | | |]; try (apply Z.mod_small; exact Hv).
  destruct (num_width _ sgn w H eq_refl) as [Hw Hw0]. rewrite Hw. cbn. destruct sgn; cbn in Hv |- *.
  - unfold wrapS. rewrite Z.add_mod_idemp_l by (apply Z.pow_nonzero; lia). by apply wrapS_id.
  - unfold wrapU. rewrite Z.mod_mod by (apply Z.pow_nonzero; lia). by apply wrapU_id.
Qed.

Lemma zlen_vector t vs : num_ok t -> zlen (vector_bytes t vs) = zlen vs * num_size t.
Proof.
  intros H. induction vs as [|v vs IH]; [done|]. unfold vector_bytes in *. cbn [mbind list_bind].
  rewrite zlen_app, zlen_cons, IH, zlen_num_bytes by done. ring.
Qed.

Lemma vector_app t vs ws : vector_bytes t (vs ++ ws) = vector_bytes t vs ++ vector_bytes t ws.
Proof. apply bind_app. Qed.

Lemma load_vector t vs i v : num_ok t -> Forall (num_in t) vs -> vget vs i = Ok v -> load_num t (vector_bytes t vs) i = Ok v.
Proof.
  intros H HF Hv. unfold vget in Hv. destruct (Z.ltb_spec i 0); [done|]. unfold at_ in Hv.
  destruct (vs !! Z.to_nat i) as [v'|] eqn:E; [|done]. injection Hv as ->.
  pose proof (lookup_lt_Some _ _ _ E). apply list_elem_of_split_length in E as (pre & suf & -> & Hi).
  unfold load_num. rewrite vector_app. change (vector_bytes t (v :: suf)) with (num_bytes t v ++ vector_bytes t suf).
  assert (i = zlen pre) as -> by (unfold zlen; lia). rewrite <- zlen_vector by done.
  rewrite <- (zlen_num_bytes t v H), read_bytes_app. cbn [mbind outcome_bind]. rewrite num_value_bytes; [done..|].
  apply Forall_app in HF as [_ HF]. by apply Forall_cons in HF as [? _].
Qed.

(** * The loop of the broadcasting kernels *)

(** [func] computes [g], and reports an error where [g] has no value. *)
Definition Computes (t : NumT) (func : Z -> Z -> outcome (Status * Z)) (g : Z -> Z -> option Z) : Prop :=
  forall x y, num_in t x -> num_in t y ->
    match g x y with
    | Some v => func x y = Ok (SUCCESS, v)
    | None => exists st v, func x y = Ok (st, v) /\ st <> SUCCESS
    end.

Lemma compute_loop_ok t func g xs ys (fx fy : Z -> Z) (ks : list Z) : num_ok t -> Computes t func g -> Forall (num_in t) xs -> Forall (num_in t) ys ->
  (forall k, k ∈ ks -> 0 <= fx k < zlen xs /\ 0 <= fy k < zlen ys) ->
  forall acc, match mapM (fun k => g (xs !!! Z.to_nat (fx k)) (ys !!! Z.to_nat (fy k))) ks with
  | Some vs => compute_loop t func (vector_bytes t xs) (vector_bytes t ys) (fx <$> ks) (fy <$> ks) acc = Ok (SUCCESS, acc ++ vs)
  | None => exists st acc', compute_loop t func (vector_bytes t xs) (vector_bytes t ys) (fx <$> ks) (fy <$> ks) acc = Ok (st, acc') /\ st <> SUCCESS
  end.
Proof.
  intros H HC HX HY. induction ks as [|k ks IH]; intros Hk acc; [cbn; by rewrite app_nil_r|]. rewrite !fmap_cons. cbn [mapM compute_loop].
  destruct (Hk k) as [Hx Hy]; [by left|]. assert (forall (l : list Z) i, 0 <= i < zlen l -> vget l i = Ok (l !!! Z.to_nat i)) as Hget.
  { intros l i Hi. unfold vget, at_, zlen in *. destruct (Z.ltb_spec i 0); [lia|].
    destruct (lookup_lt_is_Some_2 l (Z.to_nat i)) as [z Hz]; [lia|]. by rewrite Hz, (list_lookup_total_correct _ _ _ Hz). }
  rewrite (load_vector t xs (fx k) _ H HX (Hget xs _ Hx)), (load_vector t ys (fy k) _ H HY (Hget ys _ Hy)).
  cbn [mbind outcome_bind].
  assert (forall (l : list Z) i, Forall (num_in t) l -> 0 <= i < zlen l -> num_in t (l !!! Z.to_nat i)) as Hin.
  { intros l i HF Hi. unfold zlen in Hi. apply Forall_lookup_total_1; [done|lia]. }
  specialize (HC _ _ (Hin xs _ HX Hx) (Hin ys _ HY Hy)). destruct (g _ _) as [v|].
  - rewrite HC. cbn [mbind outcome_bind option_bind]. rewrite bool_decide_eq_true_2 by done.
    specialize (IH (fun k' Hk' => Hk k' (list_elem_of_further _ _ _ Hk')) (acc ++ [v])).
    destruct (mapM _ ks) as [vs|]; [|exact IH]. cbn. rewrite IH. by rewrite <- app_assoc.
  - destruct HC as (st & v & -> & Hst). cbn [mbind outcome_bind option_bind]. rewrite bool_decide_eq_false_2 by done. by exists st, acc.
Qed.

(** The element of a tensor of the shape [s] that element [k] of the result reads. *)
Definition bcast_src (s out : list Z) (k : Z) : Z := linear s (project s (drop (length out - length s) (digits out k))).

(** The elements of the result of [g], if all of them exist. *)
Definition bcast_map (g : Z -> Z -> option Z) (sx sy out xs ys : list Z) : option (list Z) :=
  mapM (fun k => g (xs !!! Z.to_nat (bcast_src sx out k)) (ys !!! Z.to_nat (bcast_src sy out k))) (seqZ 0 (prodZ out)).

Lemma prodZ_pad n s : prodZ (pad n s) = prodZ s.
Proof.
  unfold pad. rewrite prodZ_app. assert (forall m, prodZ (replicate m 1) = 1) as ->; [|lia].
  induction m as [|m IH]; [done|]. cbn [replicate]. by rewrite prodZ_cons, IH.
Qed.

Lemma bcast_src_range sx sy out k : broadcast sx sy = Some out -> Forall (Z.lt 0) out -> 0 <= k < prodZ out ->
  0 <= bcast_src sx out k < prodZ sx /\ 0 <= bcast_src sy out k < prodZ sy.
Proof.
  intros Hb Hp Hk. pose proof (length_padx sx sy) as Lx. pose proof (length_pady sx sy) as Ly.
  destruct (bdims_fit _ _ _ (eq_trans Lx (eq_sym Ly)) Hb) as (FX & FY & _).
  pose proof (src_index_range _ out k FX Hp Hk) as Rx. pose proof (src_index_range _ out k FY Hp Hk) as Ry.
  rewrite src_index_pad, prodZ_pad in Rx, Ry.
  rewrite <- Lx, <- (length_bdims _ _ _ (eq_trans Lx (eq_sym Ly)) Hb) in Rx, Ry. done.
Qed.

Section Tensors.
Context `{E : Env} `{HT : TensorLibOk}.

(** A tensor of the shape [s] that holds the values [vs]. *)
Definition holds (x : GeTensor) (d : DataType) (t : NumT) (s vs : list Z) : Prop :=
  GetDims x = s /\ GetDataType x = d /\ GetData x = vector_bytes t vs /\ Forall (num_in t) vs /\ zlen vs = prodZ s.

Section Compute.
Context (x y : GeTensor) (d : DataType) (t : NumT) (sx sy out xs ys : list Z).
Hypothesis Ht : num_ok t.
Hypothesis Hx : holds x d t sx xs.
Hypothesis Hy : holds y d t sy ys.
Hypothesis Hb : broadcast sx sy = Some out.
Hypothesis Hp : Forall (Z.lt 0) out.
Hypothesis Hbig : prodZ out < 2 ^ 63.

Lemma indexes_src : exists b, GenerateBcastInfo sx sy new_BCast = Ok (SUCCESS, b) /\ output_ b = out /\
  BCastIndexes b ([], []) = Ok (bcast_src sx out <$> seqZ 0 (prodZ out), bcast_src sy out <$> seqZ 0 (prodZ out)).
Proof.
  pose proof (GenerateBcastInfo_ok sx sy) as H. rewrite Hb in H. destruct H as (b & Hg & HB). exists b.
  split; [done|]. split; [apply HB|]. rewrite (BCastIndexes_ok sx sy out b Hb HB Hp Hbig). unfold indexes, upto.
  pose proof (length_padx sx sy) as Lx. pose proof (length_pady sx sy) as Ly.
  pose proof (length_bdims _ _ _ (eq_trans Lx (eq_sym Ly)) Hb) as Hl. rewrite Lx in Hl.
  do 2 f_equal; apply list_fmap_ext; intros i k _; unfold bcast_src; by rewrite src_index_pad, Hl.
Qed.

Lemma compute_src func g acc : Computes t func g ->
  match bcast_map g sx sy out xs ys with
  | Some vs => compute_loop t func (GetData x) (GetData y) (bcast_src sx out <$> seqZ 0 (prodZ out)) (bcast_src sy out <$> seqZ 0 (prodZ out)) acc =
      Ok (SUCCESS, acc ++ vs)
  | None => exists st acc', compute_loop t func (GetData x) (GetData y) (bcast_src sx out <$> seqZ 0 (prodZ out))
      (bcast_src sy out <$> seqZ 0 (prodZ out)) acc = Ok (st, acc') /\ st <> SUCCESS
  end.
Proof.
  intros HC. destruct Hx as (_ & _ & -> & FX & LX). destruct Hy as (_ & _ & -> & FY & LY).
  apply (compute_loop_ok t func g xs ys _ _ _ Ht HC FX FY). intros k Hk%elem_of_seqZ. rewrite LX, LY.
  apply (bcast_src_range sx sy out); [done..|lia].
Qed.

Lemma BCastComputeCheck_ok func g acc : Computes t (func d) g ->
  exists b, output_ b = out /\
  match bcast_map g sx sy out xs ys with
  | Some vs => BCastComputeCheck t func [Some x; Some y] acc new_BCast = Ok (SUCCESS, acc ++ vs, b)
  | None => exists st acc', BCastComputeCheck t func [Some x; Some y] acc new_BCast = Ok (st, acc', b) /\ st <> SUCCESS
  end.
Proof.
  intros HC. destruct indexes_src as (b & Hg & Ho & Hi). exists b. split; [done|].
  pose proof (compute_src _ _ acc HC) as Hl. unfold BCastComputeCheck. cbn [length Nat.ltb Nat.leb input_at at_ lookup list_lookup or_stuck mbind outcome_bind].
  destruct Hx as (-> & -> & _), Hy as (-> & _). rewrite Hg. cbn [mbind outcome_bind]. rewrite bool_decide_eq_true_2 by done. cbn [negb].
  rewrite Hi. cbn [mbind outcome_bind]. destruct (bcast_map g sx sy out xs ys) as [vs|]; [by rewrite Hl|].
  destruct Hl as (st & acc' & -> & Hst). by exists st, acc'.
Qed.
End Compute.

(** Shapes that do not broadcast. *)
Lemma BCastComputeCheck_bad x y d t sx sy xs ys func acc : holds x d t sx xs -> holds y d t sy ys -> broadcast sx sy = None ->
  exists b, BCastComputeCheck t func [Some x; Some y] acc new_BCast = Ok (PARAM_INVALID, acc, b).
Proof.
  intros (Hx & _) (Hy & _) Hb. pose proof (GenerateBcastInfo_ok sx sy) as H. rewrite Hb in H. destruct H as (b & Hg). exists b.
  unfold BCastComputeCheck. cbn [length Nat.ltb Nat.leb input_at at_ lookup list_lookup or_stuck mbind outcome_bind]. by rewrite Hx, Hy, Hg.
Qed.

Lemma vector_nonempty t vs : num_ok t -> vs <> [] -> (zlen (vector_bytes t vs) =? 0) = false.
Proof. intros H Hv. rewrite zlen_vector by done. pose proof (num_size_pos t H). apply Z.eqb_neq. destruct vs; [done|]. rewrite zlen_cons. pose proof (zlen_nonneg vs). nia. Qed.

Lemma set_output_ok t d dims vs o : num_ok t ->
  set_output t d (num_size t) dims vs o = Ok (SetDataType d (SetData (vector_bytes t vs) (SetShape dims o))).
Proof.
  intros H. unfold set_output. rewrite <- zlen_vector by done. rewrite <- (app_nil_r (vector_bytes t vs)) at 1.
  rewrite <- (app_nil_l (vector_bytes t vs ++ [])). change 0 with (zlen (@nil Z)). by rewrite read_bytes_app.
Qed.
End Tensors.

(** * Integer arithmetic *)
Inductive arith := A_add | A_sub | A_mul.
Definition exact_op (a : arith) : Z -> Z -> Z := match a with A_add => Z.add | A_sub => Z.sub | A_mul => Z.mul end.

Definition int_lo (sgn : bool) (w : Z) : Z := if sgn then - 2 ^ (w - 1) else 0.
Definition int_hi (sgn : bool) (w : Z) : Z := if sgn then 2 ^ (w - 1) - 1 else 2 ^ w - 1.
Definition fits (sgn : bool) (w v : Z) : bool := (int_lo sgn w <=? v) && (v <=? int_hi sgn w).
(** The exact result, where the type can hold it. *)
Definition exact_int (sgn : bool) (w : Z) (op : Z -> Z -> Z) (x y : Z) : option Z := if fits sgn w (op x y) then Some (op x y) else None.

Lemma num_in_int sgn w v : num_in (T_int sgn w) v <-> int_lo sgn w <= v <= int_hi sgn w.
Proof. destruct sgn; cbn; unfold inS, inU; lia. Qed.

Lemma wrap_int_id sgn w v : 0 < w -> num_in (T_int sgn w) v -> wrap_int sgn w v = v.
Proof. intros Hw. destruct sgn; cbn; [by apply wrapS_id|apply wrapU_id]. Qed.

Lemma checked_computes sgn w check op lo hi `{!OverflowCheck check op lo hi lo hi} : 0 < w -> lo = int_lo sgn w -> hi = int_hi sgn w ->
  Computes (T_int sgn w) (fun x y => checked (fmk_check (check x y)) (Ok (wrap_int sgn w (op x y)))) (exact_int sgn w op).
Proof.
  intros Hw Hlo Hhi x y Hx Hy. apply num_in_int in Hx, Hy. rewrite <- Hlo, <- Hhi in *. unfold exact_int, fits. rewrite <- Hlo, <- Hhi.
  destruct (fmk_check_cases check op lo hi lo hi x y Hx Hy) as [[-> Hr]|[-> Hr]].
  - rewrite (proj2 (Z.leb_le lo _)), (proj2 (Z.leb_le _ hi)) by lia. cbn. rewrite wrap_int_id; [done..|]. apply num_in_int. lia.
  - assert ((lo <=? op x y) && (op x y <=? hi) = false) as ->; [|by exists INTERNAL_ERROR, 0].
    apply andb_false_iff. rewrite !Z.leb_gt. lia.
Qed.

(** The function a kernel passes to the loop, for the data type and its element type. *)
Definition kernel_func (a : arith) (d : DataType) (t : NumT) (x y : Z) : outcome (Status * Z) :=
  match a with
  | A_add => checked (AddKernel.OverflowCheck d x y) (num_add t x y)
  | A_sub => SubKernel.func t d x y
  | A_mul => MulKernel.func t d x y
  end.

Lemma kernel_func_exact a d sgn w : num_type d = Some (T_int sgn w) ->
  Computes (T_int sgn w) (kernel_func a d (T_int sgn w)) (exact_int sgn w (exact_op a)).
Proof.
  intros Hd. destruct d; try discriminate Hd; injection Hd as <- <-; destruct a;
    (eapply checked_computes; [|done|reflexivity|reflexivity]; cbv [int_lo int_hi];
     first [exact CheckUint8SubOverflow_exact | exact CheckUint16SubOverflow_exact | exact CheckUint32SubOverflow_exact
           | exact CheckUint64SubOverflow_exact | apply _]).
Qed.

Section Kernels.
Context `{E : Env} `{HT : TensorLibOk}.

(** The tensors a call returns, for the kernels that also return their new state. *)
Definition tensors_of (r : outcome (Status * list GeTensor * YData)) : outcome (list GeTensor) :=
  '(st, v, _) ← r; if bool_decide (st = SUCCESS) then Ok v else Err st.
Definition run_kernel (a : arith) (op : OpDesc) (input : list TensorPtr) (v_output : list GeTensor) : outcome (list GeTensor) :=
  match a with
  | A_add => AddKernel.Compute (Some op) input v_output
  | A_sub => tensors_of (SubKernel.Compute new_y_data (Some op) input v_output)
  | A_mul => tensors_of (MulKernel.Compute new_y_data (Some op) input v_output)
  end.

(** What the kernels find on two tensors of one type whose shapes broadcast. *)
Lemma broadcast_nonempty x y d t sx sy out xs ys : num_ok t -> holds x d t sx xs -> holds y d t sy ys ->
  broadcast sx sy = Some out -> Forall (Z.lt 0) out ->
  (zlen (GetData x) =? 0) = false /\ (zlen (GetData y) =? 0) = false.
Proof.
  intros Ht (_ & _ & -> & _ & LX) (_ & _ & -> & _ & LY) Hb Hp.
  pose proof (length_padx sx sy) as Lx. pose proof (length_pady sx sy) as Ly.
  destruct (bdims_fit _ _ _ (eq_trans Lx (eq_sym Ly)) Hb) as (FX & FY & _).
  pose proof (fit_prod _ _ FX Hp) as Px. pose proof (fit_prod _ _ FY Hp) as Py. rewrite prodZ_pad in Px, Py.
  split; apply vector_nonempty; [done| |done|]; intros ->; rewrite zlen_nil in *; lia.
Qed.

Lemma mapM_length {A B} (f : A -> option B) l k : mapM f l = Some k -> length k = length l.
Proof. intros H%mapM_Some_1. by apply Forall2_length in H. Qed.

(** A tensor with the computed values. *)
Lemma holds_output d t out vs z : GetDims z = out -> GetDataType z = d -> GetData z = vector_bytes t vs -> Forall (num_in t) vs ->
  Forall (Z.lt 0) out -> length vs = length (seqZ 0 (prodZ out)) -> holds z d t out vs.
Proof.
  intros H1 H2 H3 H4 Hp H5. repeat split; try done. rewrite length_seqZ in H5. pose proof (prodZ_gt0 _ Hp). unfold zlen. lia.
Qed.

Lemma bcast_map_in g x y d sx sy out xs ys t vs : holds x d t sx xs -> holds y d t sy ys ->
  broadcast sx sy = Some out -> Forall (Z.lt 0) out -> (forall a b v, num_in t a -> num_in t b -> g a b = Some v -> num_in t v) ->
  bcast_map g sx sy out xs ys = Some vs -> Forall (num_in t) vs /\ length vs = length (seqZ 0 (prodZ out)).
Proof.
  intros (_ & _ & _ & FX & LX) (_ & _ & _ & FY & LY) Hb Hp Hg Hm. split; [|by apply (mapM_length _ _ _ Hm)].
  apply Forall_lookup_2. intros i v Hv. apply mapM_Some_1 in Hm. destruct (Forall2_lookup_r _ _ _ _ _ Hm Hv) as (k & Hk & Hgk).
  apply list_elem_of_lookup_2, elem_of_seqZ in Hk. destruct (bcast_src_range sx sy out k Hb Hp ltac:(lia)) as [Rx Ry].
  unfold zlen in *. eapply Hg; [| |exact Hgk]; apply Forall_lookup_total_1; try done; lia.
Qed.

Lemma exact_int_in sgn w op x y v : exact_int sgn w op x y = Some v -> num_in (T_int sgn w) v.
Proof.
  unfold exact_int, fits. destruct ((_ <=? _) && _) eqn:Hf; [|done]. intros [= <-]. apply num_in_int.
  apply andb_true_iff in Hf as [?%Z.leb_le ?%Z.leb_le]. lia.
Qed.
End Kernels.

(** * The kernels on two tensors of one type whose shapes broadcast *)
Section Folding.
Context `{E : Env} `{HT : TensorLibOk}.
Context (x y o : GeTensor) (op : OpDesc) (d : DataType) (t : NumT) (sx sy out xs ys : list Z).
Hypothesis Hd : num_type d = Some t.
Hypothesis Hx : holds x d t sx xs.
Hypothesis Hy : holds y d t sy ys.
Hypothesis Hb : broadcast sx sy = Some out.
Hypothesis Hp : Forall (Z.lt 0) out.
Hypothesis Hbig : prodZ out < 2 ^ 63.
Hypothesis Ho : MakeShared op 0 = Some o.

(** The answer of a kernel that computes [g]: the tensor of the values, or NOT_CHANGED. *)
Definition answers (g : Z -> Z -> option Z) (v_output : list GeTensor) (r : outcome (list GeTensor)) : Prop :=
  match bcast_map g sx sy out xs ys with
  | Some vs => exists z, r = Ok (v_output ++ [z]) /\ holds z d t out vs
  | None => r = Err NOT_CHANGED
  end.

Lemma get_simpl : (GetDims x = sx /\ GetDims y = sy) /\ GetDataType x = d /\ GetDataType y = d.
Proof. destruct Hx as (? & ? & _), Hy as (? & ? & _). done. Qed.

Lemma AddKernel_answers g v_output :
  Computes t (fun a b => checked (AddKernel.OverflowCheck d a b) (num_add t a b)) g -> (forall a b v, num_in t a -> num_in t b -> g a b = Some v -> num_in t v) ->
  GetOutputsSize op = 1 -> is_Some (new_uint8 (prodZ out * num_size t)) ->
  answers g v_output (AddKernel.Compute (Some op) [Some x; Some y] v_output).
Proof.
  intros HC Hg Hs [buf Hn]. pose proof (num_type_ok d t Hd) as Ht. destruct get_simpl as ([Ex Ey] & Tx & Ty).
  destruct (broadcast_nonempty x y d t sx sy out xs ys Ht Hx Hy Hb Hp) as [Nx Ny].
  assert (AddKernel.AddCheck (Some op) [Some x; Some y] = SUCCESS) as Hcheck.
  { unfold AddKernel.AddCheck. cbn [length Nat.eqb negb orb]. by rewrite Hs, Nx, Ny, Tx, Ty, bool_decide_eq_true_2. }
  unfold AddKernel.Compute. rewrite Hcheck, bool_decide_eq_true_2 by done. cbn [negb input_at at_ lookup list_lookup or_stuck mbind outcome_bind].
  rewrite Tx, Hd. unfold AddKernel.BCastAdd. cbn [input_at at_ lookup list_lookup or_stuck mbind outcome_bind]. rewrite Ex, Ey, Tx.
  destruct (indexes_src sx sy out Hb Hp Hbig) as (b & -> & Hout & Hi). cbn [mbind outcome_bind]. rewrite bool_decide_eq_true_2 by done. cbn [negb].
  rewrite Hi. cbn [mbind outcome_bind]. unfold zlen. rewrite length_fmap, length_seqZ, Z2Nat.id, Hn by (pose proof (prodZ_gt0 _ Hp); lia).
  pose proof (compute_src x y d t sx sy out xs ys Ht Hx Hy Hb Hp _ g [] HC) as Hl. unfold answers.
  destruct (bcast_map g sx sy out xs ys) as [vs|] eqn:Em.
  - rewrite Hl. cbn [app mbind outcome_bind]. rewrite bool_decide_eq_true_2, Ho by done. cbn [negb or_else emit]. eexists. split; [done|].
    destruct (bcast_map_in g x y d sx sy out xs ys t vs Hx Hy Hb Hp Hg Em) as [Hin Hlen].
    apply holds_output; try done; by rewrite ?get_dims_shape, ?get_type_shape, ?get_type_type, ?get_data_shape, ?get_data_type, ?get_data_data.
  - destruct Hl as (st & acc & -> & Hst). cbn [mbind outcome_bind]. by rewrite bool_decide_eq_false_2.
Qed.

Lemma set_output_holds g vs : (forall a b v, num_in t a -> num_in t b -> g a b = Some v -> num_in t v) -> bcast_map g sx sy out xs ys = Some vs ->
  exists z, set_output t d (num_size t) out vs o = Ok z /\ holds z d t out vs.
Proof.
  intros Hg Em. pose proof (num_type_ok d t Hd) as Ht. rewrite set_output_ok by done. eexists. split; [done|].
  destruct (bcast_map_in g x y d sx sy out xs ys t vs Hx Hy Hb Hp Hg Em) as [Hin Hlen].
  apply holds_output; try done; by rewrite ?get_dims_type, ?get_dims_data, ?get_dims_shape, ?get_type_type, ?get_data_type, ?get_data_data.
Qed.

Lemma SubKernel_answers g v_output :
  Computes t (SubKernel.func t d) g -> (forall a b v, num_in t a -> num_in t b -> g a b = Some v -> num_in t v) -> GetOutputsSize op = 1 ->
  answers g v_output (tensors_of (SubKernel.Compute new_y_data (Some op) [Some x; Some y] v_output)).
Proof.
  intros HC Hg Hs. pose proof (num_type_ok d t Hd) as Ht. destruct get_simpl as ([Ex Ey] & Tx & Ty).
  unfold SubKernel.Compute. cbn [length Nat.eqb negb orb]. rewrite Hs, Tx, Hd. cbn [Z.eqb Pos.eqb negb].
  destruct (BCastComputeCheck_ok x y d t sx sy out xs ys Ht Hx Hy Hb Hp Hbig (SubKernel.func t) g (new_y_data d) HC) as (b & Hout & Hr).
  unfold answers. destruct (bcast_map g sx sy out xs ys) as [vs|] eqn:Em.
  - rewrite Hr. cbn [mbind outcome_bind app new_y_data]. rewrite bool_decide_eq_true_2 by done. cbn [negb].
    rewrite (length_of_type d t Hd), Ho, Hout. destruct (set_output_holds g vs Hg Em) as (z & -> & Hz).
    exists z. split; [done|done].
  - destruct Hr as (st & acc & -> & Hst). cbn [mbind outcome_bind]. rewrite bool_decide_eq_false_2 by done. done.
Qed.

Lemma binary_check_ok types : d ∈ types -> binary_check types [Some x; Some y] = SUCCESS.
Proof.
  intros Hin. destruct get_simpl as (_ & Tx & Ty). pose proof (num_type_ok d t Hd) as Ht.
  destruct (broadcast_nonempty x y d t sx sy out xs ys Ht Hx Hy Hb Hp) as [Nx Ny].
  unfold binary_check, supports. by rewrite Nx, Ny, Tx, Ty, !bool_decide_eq_true_2.
Qed.

Lemma MulKernel_answers g v_output :
  Computes t (MulKernel.func t d) g -> (forall a b v, num_in t a -> num_in t b -> g a b = Some v -> num_in t v) ->
  answers g v_output (tensors_of (MulKernel.Compute new_y_data (Some op) [Some x; Some y] v_output)).
Proof.
  intros HC Hg. pose proof (num_type_ok d t Hd) as Ht. destruct get_simpl as ([Ex Ey] & Tx & Ty).
  unfold MulKernel.Compute, MulKernel.MulCheck. rewrite binary_check_ok by (destruct d; try discriminate Hd; by repeat constructor).
  rewrite bool_decide_eq_true_2 by done. cbn [negb input_at at_ lookup list_lookup or_stuck mbind outcome_bind]. rewrite Tx, Hd.
  destruct (BCastComputeCheck_ok x y d t sx sy out xs ys Ht Hx Hy Hb Hp Hbig (MulKernel.func t) g (new_y_data d) HC) as (b & Hout & Hr).
  unfold answers. destruct (bcast_map g sx sy out xs ys) as [vs|] eqn:Em.
  - rewrite Hr. cbn [mbind outcome_bind app new_y_data]. rewrite bool_decide_eq_true_2 by done. cbn [negb].
    rewrite (length_of_type d t Hd), Ho, Hout. destruct (set_output_holds g vs Hg Em) as (z & -> & Hz).
    exists z. split; [done|done].
  - destruct Hr as (st & acc & -> & Hst). cbn [mbind outcome_bind]. rewrite bool_decide_eq_false_2 by done. done.
Qed.

(** Kernels without a check: their function has a value everywhere. *)
Definition bcast_values (f : Z -> Z -> Z) : list Z :=
  (fun k => f (xs !!! Z.to_nat (bcast_src sx out k)) (ys !!! Z.to_nat (bcast_src sy out k))) <$> seqZ 0 (prodZ out).

Lemma bcast_map_total f : bcast_map (fun a b => Some (f a b)) sx sy out xs ys = Some (bcast_values f).
Proof. unfold bcast_map, bcast_values. induction (seqZ 0 (prodZ out)) as [|k ks IH]; [done|]. cbn. by rewrite IH. Qed.

Lemma BCastCompute_ok f : exists b, output_ b = out /\
  BCastCompute t f [Some x; Some y] [] new_BCast = Ok (SUCCESS, bcast_values f, b).
Proof.
  destruct (BCastComputeCheck_ok x y d t sx sy out xs ys (num_type_ok d t Hd) Hx Hy Hb Hp Hbig (fun _ a b => Ok (SUCCESS, f a b))
    (fun a b => Some (f a b)) []) as (b & Hout & Hr); [by intros ? ? _ _|].
  rewrite bcast_map_total in Hr. by exists b.
Qed.

Lemma MaximumKernel_ok v_output : exists z,
  MaximumKernel.Compute (Some op) [Some x; Some y] v_output = Ok (v_output ++ [z]) /\ holds z d t out (bcast_values (MaximumKernel.func t)).
Proof.
  destruct get_simpl as (_ & Tx & Ty).
  unfold MaximumKernel.Compute, MaximumKernel.MaximumCheck. rewrite binary_check_ok by (destruct d; try discriminate Hd; by repeat constructor).
  rewrite bool_decide_eq_true_2 by done. cbn [negb input_at at_ lookup list_lookup or_stuck mbind outcome_bind]. rewrite Tx, Hd.
  destruct (BCastCompute_ok (MaximumKernel.func t)) as (b & Hout & ->). cbn [mbind outcome_bind]. rewrite bool_decide_eq_true_2 by done. cbn [negb].
  rewrite (length_of_type d t Hd), Ho, Hout.
  destruct (set_output_holds (fun a b => Some (MaximumKernel.func t a b)) (bcast_values (MaximumKernel.func t))) as (z & -> & Hz);
    [|apply bcast_map_total|by exists z].
  intros a b' v Ha Hb' [= <-]. unfold MaximumKernel.func. by destruct (num_gt t a b').
Qed.

Lemma GreaterKernel_ok v_output : exists z,
  GreaterKernel.Compute (Some op) [Some x; Some y] v_output = Ok (v_output ++ [z]) /\
  GetDims z = out /\ GetDataType z = DT_BOOL /\ GetData z = bcast_values (GreaterKernel.func t).
Proof.
  destruct get_simpl as (_ & Tx & Ty).
  unfold GreaterKernel.Compute, GreaterKernel.GreaterCheck. rewrite binary_check_ok by (destruct d; try discriminate Hd; by repeat constructor).
  rewrite bool_decide_eq_true_2 by done. cbn [negb input_at at_ lookup list_lookup or_stuck mbind outcome_bind]. rewrite Tx.
  assert (GreaterKernel.greater_type d = Some t) as -> by (destruct d; try discriminate Hd; exact Hd).
  destruct (BCastCompute_ok (GreaterKernel.func t)) as (b & Hout & ->). cbn [mbind outcome_bind]. rewrite bool_decide_eq_true_2 by done. cbn [negb].
  rewrite Ho, Hout. unfold emit. eexists. split; [done|].
  by rewrite get_dims_type, get_dims_data, get_dims_shape, get_type_type, get_data_type, get_data_data.
Qed.
End Folding.

(** * Floor division and modulus of integers *)

(** Quotients that truncate, corrected to the floor, as the kernels do. *)
Lemma floor_signs_differ a b : 0 < a -> 0 < b -> Z.quot (- (a + b - 1)) b = - a / b /\ Z.quot (1 - a) b - 1 = - a / b.
Proof.
  intros Ha Hb. rewrite Z.quot_opp_l, Z.quot_div_nonneg by lia. replace (1 - a) with (- (a - 1)) by ring.
  rewrite Z.quot_opp_l, Z.quot_div_nonneg by lia.
  assert ((a + b - 1) / b = (a - 1) / b + 1) as E by (replace (a + b - 1) with (a - 1 + 1 * b) by ring; apply Z.div_add; lia).
  assert (- a / b = - ((a - 1) / b) - 1) as ->; [|lia].
  symmetry. pose proof (Z.div_mod (a - 1) b ltac:(lia)). pose proof (Z.mod_pos_bound (a - 1) b Hb).
  apply (Z.div_unique _ _ _ (b - 1 - (a - 1) mod b)); [lia|]. lia.
Qed.

Lemma FloorDiv_floor a b : - 2 ^ 31 < a < 2 ^ 31 -> - 2 ^ 31 < b < 2 ^ 31 -> b <> 0 -> (a = 0 -> 0 < b) ->
  FloorModKernel.FloorDiv a b = a / b.
Proof.
  intros Ha Hb Hb0 H0. unfold FloorModKernel.FloorDiv.
  assert (forall z, - 2 ^ 31 <= z < 2 ^ 31 -> wrapS 32 z = z) as W by (intros z Hz; apply wrapS_id; [lia|exact Hz]).
  assert (forall c e, 0 < c < 2 ^ 31 -> 0 < e < 2 ^ 31 ->
    wrapS 32 (wrapS 32 (Z.quot (wrapS 32 (1 - wrapS 32 c)) (wrapS 32 e)) - 1) = - c / e) as D.
  { intros c e Hc He. rewrite (W c), (W e), (W (1 - c)) by lia. destruct (floor_signs_differ c e ltac:(lia) ltac:(lia)) as [_ E].
    assert (- c <= - c / e < 0) by (split; [apply Z.div_le_lower_bound; nia|apply Z.div_lt_upper_bound; lia]).
    rewrite (W (Z.quot (1 - c) e)) by lia. rewrite E. apply W. lia. }
  destruct (Z.ltb_spec a 0), (Z.ltb_spec b 0); cbn [Bool.eqb negb].
  - rewrite <- Z.quot_opp_opp, Z.quot_div_nonneg, Z.div_opp_opp by lia. apply W.
    rewrite <- Z.div_opp_opp by lia. split; [apply (Z.le_trans _ 0); [lia|apply Z.div_pos; lia]|].
    apply (Z.le_lt_trans _ (- a)); [apply Z.div_le_upper_bound; nia|lia].
  - rewrite !(Z.abs_eq b), (Z.abs_neq a), D by lia. f_equal. lia.
  - rewrite (Z.abs_eq a), (Z.abs_neq b), D by lia. by rewrite <- (Z.div_opp_opp a b) by lia.
  - rewrite Z.quot_div_nonneg by lia. apply W. split; [apply (Z.le_trans _ 0); [lia|apply Z.div_pos; lia]|].
    apply (Z.le_lt_trans _ a); [apply Z.div_le_upper_bound; nia|lia].
Qed.

(** `a - b * FloorDiv(a, b)`; the product may wrap, the difference does not. *)
Lemma floormod_value a b : - 2 ^ 31 < a < 2 ^ 31 -> - 2 ^ 31 < b < 2 ^ 31 -> b <> 0 -> (a = 0 -> 0 < b) ->
  wrapS 32 (a - wrapS 32 (b * FloorModKernel.FloorDiv a b)) = a mod b.
Proof.
  intros Ha Hb Hb0 H0. rewrite FloorDiv_floor by done.
  assert (wrapS 32 (a - wrapS 32 (b * (a / b))) = wrapS 32 (a - b * (a / b))) as ->.
  { unfold wrapS. f_equal. set (q := b * (a / b)). replace (a - ((q + 2 ^ (32 - 1)) mod 2 ^ 32 - 2 ^ (32 - 1)) + 2 ^ (32 - 1))
      with (a + 2 ^ 32 - (q + 2 ^ (32 - 1)) mod 2 ^ 32) by (change (2 ^ 32) with (2 ^ (32 - 1) + 2 ^ (32 - 1)); ring).
    rewrite Zminus_mod_idemp_r. replace (a + 2 ^ 32 - (q + 2 ^ (32 - 1))) with (a - q + 2 ^ (32 - 1)) by (change (2 ^ 32) with (2 ^ (32 - 1) + 2 ^ (32 - 1)); ring). done. }
  assert (a - b * (a / b) = a mod b) as -> by (pose proof (Z.div_mod a b Hb0); lia).
  apply wrapS_id; [lia|]. unfold inS. destruct (Z.lt_trichotomy b 0) as [Hn|[?|Hpos]]; [|lia|].
  - pose proof (Z.mod_neg_bound a b Hn). lia.
  - pose proof (Z.mod_pos_bound a b Hpos). lia.
Qed.

(** The division kernel, where the magnitudes and the quotient fit. *)
Lemma DivCal_floor sgn w x y : num_ok (T_int sgn w) -> num_in (T_int sgn w) x -> num_in (T_int sgn w) y -> y <> 0 ->
  - 2 ^ 31 <= x / y < 2 ^ 31 -> num_in (T_int sgn w) (x / y) ->
  (sgn = true -> - 2 ^ (w - 1) < x /\ - 2 ^ (w - 1) < y /\ Z.abs x + Z.abs y < 2 ^ (Z.max 32 w - 1)) ->
  (sgn = false -> w < 32) ->
  FloorDivKernel.DivCal_int sgn w x y = x / y.
Proof.
  intros Hw Hx Hy Hy0 Hq Hr Hs Hu. destruct (num_width _ sgn w Hw eq_refl) as [_ Hw0].
  set (pw := Z.max 32 w) in *. assert (2 ^ 31 <= 2 ^ (pw - 1)) by (apply Z.pow_le_mono_r; lia).
  assert (2 ^ (w - 1) <= 2 ^ (pw - 1)) by (apply Z.pow_le_mono_r; lia).
  assert (forall z, - 2 ^ (pw - 1) <= z < 2 ^ (pw - 1) -> wrapS pw z = z) as W by (intros z Hz; apply wrapS_id; [lia|exact Hz]).
  assert (forall z, z = x / y -> wrap_int sgn w (wrapS 32 (wrapS pw z)) = x / y) as Fin.
  { intros z ->. rewrite W by lia. rewrite (wrapS_id 32) by (unfold inS; lia). by apply wrap_int_id. }
  unfold FloorDivKernel.DivCal_int. fold pw. destruct sgn; cbn in Hx, Hy.
  - destruct (Hs eq_refl) as (Hx1 & Hy1 & Hxy). unfold inS in Hx, Hy.
    assert (forall c e, 0 <= c < 2 ^ (w - 1) -> 0 < e < 2 ^ (w - 1) -> c + e < 2 ^ (pw - 1) -> - c / e = x / y ->
      let s := wrapS pw (wrapS pw (wrap_int true w c + wrap_int true w e) - 1) in
      wrap_int true w (wrapS 32 (wrapS pw (Z.quot (wrapS pw (- s)) (wrap_int true w e)))) = x / y) as D.
    { intros c e Hc He Hce Hce2. cbv zeta. rewrite (wrap_int_id true w c), (wrap_int_id true w e) by (cbn; unfold inS; lia).
      rewrite (W (c + e)), (W (c + e - 1)), (W (- (c + e - 1))) by lia.
      assert (Z.quot (- (c + e - 1)) e = x / y) as ->; [|by apply Fin].
      rewrite <- Hce2. destruct (decide (c = 0)) as [->|]; [|by apply floor_signs_differ; lia].
      rewrite Z.quot_opp_l, Z.quot_div_nonneg, Z.div_small by lia. done. }
    destruct (Z.ltb_spec x 0), (Z.ltb_spec y 0); cbn [Bool.eqb negb].
    + apply Fin. by rewrite <- Z.quot_opp_opp, Z.quot_div_nonneg, Z.div_opp_opp by lia.
    + apply D; [lia..|]. f_equal. lia.
    + apply D; [lia..|]. by rewrite <- (Z.div_opp_opp x y) by lia.
    + apply Fin. by rewrite Z.quot_div_nonneg by lia.
  - unfold inU in Hx, Hy. rewrite (proj2 (Z.ltb_ge x 0)), (proj2 (Z.ltb_ge y 0)) by lia. cbn [Bool.eqb negb].
    apply Fin. by rewrite Z.quot_div_nonneg by lia.
Qed.

(** * FloorMod *)
Lemma mapM_ext_in {A B} (f g : A -> option B) l : (forall a, a ∈ l -> f a = g a) -> mapM f l = mapM g l.
Proof.
  intros H. induction l as [|a l IH]; [done|]. cbn. rewrite (H a), IH; [done| |by left]. intros b Hb. apply H. by right.
Qed.

Lemma bcast_map_all g f sx sy out xs ys :
  (forall k, 0 <= k < prodZ out -> g (xs !!! Z.to_nat (bcast_src sx out k)) (ys !!! Z.to_nat (bcast_src sy out k)) =
    Some (f (xs !!! Z.to_nat (bcast_src sx out k)) (ys !!! Z.to_nat (bcast_src sy out k)))) ->
  bcast_map g sx sy out xs ys = Some (bcast_values sx sy out xs ys f).
Proof.
  intros H. rewrite <- bcast_map_total. unfold bcast_map. apply mapM_ext_in. intros k Hk%elem_of_seqZ. apply H. lia.
Qed.

Lemma bcast_map_none g sx sy out xs ys k : 0 <= k < prodZ out ->
  g (xs !!! Z.to_nat (bcast_src sx out k)) (ys !!! Z.to_nat (bcast_src sy out k)) = None -> bcast_map g sx sy out xs ys = None.
Proof.
  intros Hk Hg. apply mapM_None_2, Exists_exists. exists k. split; [apply elem_of_seqZ; lia|done].
Qed.

Definition floormod_value_of (a b : Z) : option Z :=
  if b =? 0 then None else Some (wrapS 32 (a - wrapS 32 (b * FloorModKernel.FloorDiv a b))).

Lemma floormod_computes : Computes (T_int true 32) (FloorModKernel.func DT_INT32) floormod_value_of.
Proof. intros a b _ _. unfold floormod_value_of, FloorModKernel.func, FloorModKernel.CheckYIsZero. destruct (b =? 0); [by exists INTERNAL_ERROR, 0|done]. Qed.

Lemma FloorModKernel_answers `{E : Env} `{HT : TensorLibOk} x y o op sx sy out xs ys v_output :
  holds x DT_INT32 (T_int true 32) sx xs -> holds y DT_INT32 (T_int true 32) sy ys -> broadcast sx sy = Some out ->
  Forall (Z.lt 0) out -> prodZ out < 2 ^ 63 -> MakeShared op 0 = Some o ->
  answers DT_INT32 (T_int true 32) sx sy out xs ys floormod_value_of v_output (FloorModKernel.Compute (Some op) [Some x; Some y] v_output).
Proof.
  intros Hx Hy Hb Hp Hbig Ho. pose proof (num_type_ok DT_INT32 _ eq_refl) as Ht.
  unfold FloorModKernel.Compute, FloorModKernel.FloorModCheck.
  rewrite (binary_check_ok x y DT_INT32 (T_int true 32) sx sy out xs ys) by (done || by repeat constructor).
  rewrite bool_decide_eq_true_2 by done. cbn [negb input_at at_ lookup list_lookup or_stuck mbind outcome_bind].
  assert (GetDataType x = DT_INT32) as -> by apply Hx.
  destruct (BCastComputeCheck_ok x y DT_INT32 _ sx sy out xs ys Ht Hx Hy Hb Hp Hbig FloorModKernel.func _ [] floormod_computes) as (b & Hout & Hr).
  unfold answers. destruct (bcast_map _ sx sy out xs ys) as [vs|] eqn:Em.
  - rewrite Hr. cbn [mbind outcome_bind app]. rewrite bool_decide_eq_true_2 by done. cbn [negb].
    rewrite (length_of_type DT_INT32 _ eq_refl), Ho, Hout.
    destruct (set_output_holds x y o DT_INT32 (T_int true 32) sx sy out xs ys eq_refl Hx Hy Hb Hp floormod_value_of vs) as (z & -> & Hz); [|exact Em|by exists z].
    intros a b' v _ _. unfold floormod_value_of. destruct (b' =? 0); [done|]. intros [= <-]. apply (wrapS_in 32). lia.
  - destruct Hr as (st & acc & -> & Hst). cbn [mbind outcome_bind]. by rewrite bool_decide_eq_false_2.
Qed.

(** * FloorDiv *)
Definition floordiv_value_of (sgn : bool) (w x y : Z) : option Z := if y =? 0 then None else Some (FloorDivKernel.DivCal_int sgn w x y).

Lemma div_for_ok sgn w check ix iy xs ys m : num_ok (T_int sgn w) ->
  Forall (num_in (T_int sgn w)) xs -> Forall (num_in (T_int sgn w)) ys -> forall i acc, 0 <= i ->
  (forall k, i <= k < i + Z.of_nat m -> 0 <= ix k < zlen xs /\ 0 <= iy k < zlen ys /\ (check = true \/ ys !!! Z.to_nat (iy k) <> 0)) ->
  for_loop m i (fun i buf =>
      y_i ← load_num (T_int sgn w) (vector_bytes (T_int sgn w) ys) (iy i);
      if check && FloorDivKernel.ZeroCheck (T_int sgn w) y_i then Err PARAM_INVALID
      else
        x_i ← load_num (T_int sgn w) (vector_bytes (T_int sgn w) xs) (ix i);
        q ← FloorDivKernel.DivCal (T_int sgn w) x_i y_i;
        Ok (buf ++ [q])) acc =
  match mapM (fun k => floordiv_value_of sgn w (xs !!! Z.to_nat (ix k)) (ys !!! Z.to_nat (iy k))) (seqZ i (Z.of_nat m)) with
  | Some vs => Ok (acc ++ vs)
  | None => Err PARAM_INVALID
  end.
Proof.
  intros Ht FX FY. induction m as [|m IH]; intros i acc Hi Hk; cbn [for_loop];
    [change (seqZ i (Z.of_nat 0)) with (@nil Z); cbn; by rewrite app_nil_r|].
  rewrite seqZ_cons by lia. replace (Z.pred (Z.of_nat (S m))) with (Z.of_nat m) by lia. cbn [mapM].
  destruct (Hk i ltac:(lia)) as (Rx & Ry & Hc).
  assert (forall (l : list Z) k, 0 <= k < zlen l -> vget l k = Ok (l !!! Z.to_nat k)) as Hget.
  { intros l k Hl. unfold vget, at_, zlen in *. destruct (Z.ltb_spec k 0); [lia|].
    destruct (lookup_lt_is_Some_2 l (Z.to_nat k)) as [z Hz]; [lia|]. by rewrite Hz, (list_lookup_total_correct _ _ _ Hz). }
  rewrite (load_vector _ ys (iy i) _ Ht FY (Hget ys _ Ry)), (load_vector _ xs (ix i) _ Ht FX (Hget xs _ Rx)). cbn [mbind outcome_bind].
  set (a := xs !!! Z.to_nat (ix i)). set (b := ys !!! Z.to_nat (iy i)) in *.
  change (floordiv_value_of sgn w a b) with (if b =? 0 then None else Some (FloorDivKernel.DivCal_int sgn w a b)).
  change (FloorDivKernel.ZeroCheck (T_int sgn w) b) with (b =? 0).
  change (FloorDivKernel.DivCal (T_int sgn w) a b) with (if b =? 0 then Stuck else Ok (FloorDivKernel.DivCal_int sgn w a b)).
  destruct (Z.eqb_spec b 0) as [E0|E0].
  - destruct Hc as [-> |Hc]; [reflexivity|by destruct Hc].
  - rewrite andb_false_r. cbn [mbind outcome_bind option_bind]. rewrite IH; [|lia|intros k Hk'; apply Hk; lia]. unfold Z.succ.
    destruct (mapM _ (seqZ (i + 1) (Z.of_nat m))) as [vs|]; [|done]. cbn. by rewrite <- app_assoc.
Qed.

Lemma div_loop_ok sgn w check n ix iy xs ys : num_ok (T_int sgn w) -> 0 <= n ->
  Forall (num_in (T_int sgn w)) xs -> Forall (num_in (T_int sgn w)) ys ->
  (forall k, 0 <= k < n -> 0 <= ix k < zlen xs /\ 0 <= iy k < zlen ys /\ (check = true \/ ys !!! Z.to_nat (iy k) <> 0)) ->
  FloorDivKernel.div_loop (T_int sgn w) check n ix iy (vector_bytes (T_int sgn w) xs) (vector_bytes (T_int sgn w) ys) =
  match mapM (fun k => floordiv_value_of sgn w (xs !!! Z.to_nat (ix k)) (ys !!! Z.to_nat (iy k))) (seqZ 0 n) with
  | Some vs => Ok vs
  | None => Err PARAM_INVALID
  end.
Proof.
  intros Ht Hn FX FY Hk. unfold FloorDivKernel.div_loop, for_range.
  rewrite (div_for_ok sgn w check ix iy xs ys (Z.to_nat n) Ht FX FY 0 []) by (lia || (intros k Hk'; apply Hk; lia)).
  rewrite Z2Nat.id by lia. by destruct (mapM _ _).
Qed.

(** A tensor with its own shape, and a scalar with any shape. *)
Lemma bcast_src_self s k : Forall (Z.lt 0) s -> 0 <= k < prodZ s -> bcast_src s s k = k.
Proof.
  intros Hp Hk. unfold bcast_src. rewrite Nat.sub_diag, drop_0. rewrite <- (linear_digits s k Hp Hk) at 2. f_equal.
  pose proof (digits_in_shape s k Hp Hk) as Hin. revert Hin. generalize (digits s k). clear. intros idx Hin.
  induction Hin as [|i d idx s Hi Hin IH]; [done|]. cbn [project]. rewrite IH. f_equal. destruct (Z.eqb_spec d 1); lia.
Qed.

Lemma bcast_src_scalar out k : bcast_src [] out k = 0.
Proof. unfold bcast_src. by destruct (drop _ _). Qed.

Lemma bdims_self x out : bdims x x = Some out -> out = x.
Proof.
  revert out. induction x as [|a x IH]; intros out; cbn [bdims]; [by intros [= <-]|].
  intros (e & He & H)%bind_Some. apply bind_Some in H as (l & Hl & [= <-]). rewrite (IH l Hl). unfold bdim in He.
  rewrite Z.eqb_refl in He. destruct (_ || _); by simplify_eq.
Qed.

Lemma bdim_one a e : bdim a 1 = Some e \/ bdim 1 a = Some e -> e = a.
Proof.
  unfold bdim. rewrite (Z.eqb_sym 1 a). destruct (Z.ltb_spec a 0), (Z.eqb_spec a 1); cbn; intros [?|?]; simplify_eq; done.
Qed.

Lemma bdims_ones x out : bdims x (replicate (length x) 1) = Some out \/ bdims (replicate (length x) 1) x = Some out -> out = x.
Proof.
  revert out. induction x as [|a x IH]; intros out; cbn [bdims length replicate]; [by intros [[= <-]|[= <-]]|].
  intros [H|H]; apply bind_Some in H as (e & He & H); apply bind_Some in H as (l & Hl & [= <-]).
  - by rewrite (IH l (or_introl Hl)), (bdim_one a e (or_introl He)).
  - by rewrite (IH l (or_intror Hl)), (bdim_one a e (or_intror He)).
Qed.

(** The three cases of FloorDivCheck, and the shape ShapeCal chooses. *)
Lemma floordiv_shape sx sy out : sx = sy \/ sx = [] \/ sy = [] -> broadcast sx sy = Some out ->
  out = (if zlen sy <=? zlen sx then sx else sy).
Proof.
  unfold broadcast, rank. intros [-> |[-> | ->]] Hb.
  - rewrite Nat.max_id, Z.leb_refl in *. unfold pad in Hb. rewrite Nat.sub_diag in Hb. by apply bdims_self in Hb.
  - cbn [length] in Hb. rewrite Nat.max_r in Hb by lia. unfold pad in Hb. rewrite Nat.sub_diag, Nat.sub_0_r, app_nil_r in Hb.
    rewrite (bdims_ones sy out) by auto. destruct sy as [|a sy]; [done|]. by rewrite zlen_nil, (proj2 (Z.leb_gt _ _)) by (rewrite zlen_cons; pose proof (zlen_nonneg sy); lia).
  - cbn [length] in Hb. rewrite Nat.max_l in Hb by lia. unfold pad in Hb. rewrite Nat.sub_diag, Nat.sub_0_r, app_nil_r in Hb.
    rewrite (bdims_ones sx out) by auto. by rewrite zlen_nil, (proj2 (Z.leb_le _ _)) by apply zlen_nonneg.
Qed.

Section FloorDiv.
Context `{E : Env} `{HT : TensorLibOk}.
Context (x y o : GeTensor) (op : OpDesc) (d : DataType) (sgn : bool) (w : Z) (sx sy out xs ys : list Z).
Let t := T_int sgn w.
Hypothesis Hd : num_type d = Some t.
Hypothesis Hsup : d ∈ FloorDivKernel.kFloorDivSupportedType.
Hypothesis Hx : holds x d t sx xs.
Hypothesis Hy : holds y d t sy ys.
Hypothesis Hs : sx = sy \/ sx = [] \/ sy = [].
Hypothesis Hb : broadcast sx sy = Some out.
Hypothesis Hp : Forall (Z.lt 0) out.
Hypothesis Hmem : is_Some (new_uint8 (prodZ out * num_size t)).

(** The loops of the kernel, at the indexes of broadcasting. *)
Definition divided : outcome (list Z) :=
  match bcast_map (floordiv_value_of sgn w) sx sy out xs ys with Some vs => Ok vs | None => Err PARAM_INVALID end.

Lemma div_loop_bcast check n ix iy : n = prodZ out ->
  (forall k, 0 <= k < prodZ out -> ix k = bcast_src sx out k /\ iy k = bcast_src sy out k) ->
  check = true \/ (forall k, 0 <= k < prodZ out -> ys !!! Z.to_nat (iy k) <> 0) ->
  FloorDivKernel.div_loop t check n ix iy (vector_bytes t xs) (vector_bytes t ys) = divided.
Proof.
  intros -> Hi Hc. pose proof (num_type_ok d t Hd) as Ht. pose proof (prodZ_gt0 _ Hp).
  destruct Hx as (_ & _ & _ & FX & LX), Hy as (_ & _ & _ & FY & LY). unfold divided, bcast_map.
  unfold t. rewrite (div_loop_ok sgn w check (prodZ out) ix iy xs ys Ht ltac:(lia) FX FY).
  - erewrite mapM_ext_in; [reflexivity|]. intros k Hk%elem_of_seqZ. destruct (Hi k ltac:(lia)) as [-> ->]. done.
  - intros k Hk. destruct (Hi k Hk) as [E1 E2]. destruct (bcast_src_range sx sy out k Hb Hp Hk) as [R1 R2]. rewrite E1, LX, LY.
    split; [done|]. split; [by rewrite E2|]. destruct Hc as [->|Hc]; [by left|right; by apply Hc].
Qed.

Lemma out_self s : out = s -> forall k, 0 <= k < prodZ out -> k = bcast_src s out k.
Proof. intros <- k Hk. by rewrite bcast_src_self. Qed.

(** A scalar divisor: the loop without checks runs when it is not zero. *)
Lemma div_by_scalar : sy = [] -> out = sx -> 1 < prodZ out ->
  (y_0 ← load_num t (vector_bytes t ys) 0;
   if FloorDivKernel.ZeroCheck t y_0 then Err PARAM_INVALID
   else FloorDivKernel.div_loop t false (prodZ out) (fun i => i) (fun _ => 0) (vector_bytes t xs) (vector_bytes t ys)) = divided.
Proof.
  intros Ey Eo Hn. pose proof (num_type_ok d t Hd) as Ht. destruct Hy as (_ & _ & _ & FY & LY). rewrite Ey in LY. cbn in LY.
  assert (exists y_0, ys = [y_0]) as (y_0 & Eys).
  { destruct ys as [|a [|b l]]; [done|by exists a|]. rewrite !zlen_cons in LY. pose proof (zlen_nonneg l). lia. }
  rewrite (load_vector t ys 0 y_0 Ht FY ltac:(by rewrite Eys)). cbn [mbind outcome_bind].
  change (FloorDivKernel.ZeroCheck t y_0) with (y_0 =? 0). destruct (Z.eqb_spec y_0 0) as [E0|E0].
  - unfold divided. rewrite (bcast_map_none _ _ _ _ _ _ 0); [done|lia|]. rewrite Ey, bcast_src_scalar, Eys, E0. done.
  - apply div_loop_bcast; [done| |].
    + intros k Hk. rewrite Ey, bcast_src_scalar, <- (out_self sx) by done. done.
    + right. intros k _. by rewrite Eys.
Qed.

Lemma DataCal_ok z : FloorDivKernel.DataCal t x y z = (buf ← divided; Ok (SetData (vector_bytes t buf) z)).
Proof.
  pose proof (num_type_ok d t Hd) as Ht. pose proof (num_size_pos t Ht) as Hsz. pose proof Hx as (Dx & _ & Bx & _ & LX). pose proof Hy as (Dy & _ & By & _ & LY).
  pose proof (floordiv_shape sx sy out Hs Hb) as Hout. destruct Hmem as [buf Hn]. pose proof (prodZ_gt0 _ Hp) as Hpos.
  unfold FloorDivKernel.DataCal. rewrite Dx, Dy, Bx, By, !zlen_vector, !Z.div_mul, LX, LY by (done || lia).
  destruct (Z.eqb_spec (zlen sx) (zlen sy)) as [El|El].
  - assert (sx = sy) as Es.
    { destruct Hs as [?|[Es|Es]]; [done|rewrite Es in El|rewrite Es in El]; [destruct sy|destruct sx]; try congruence;
        rewrite zlen_nil, zlen_cons in El; [pose proof (zlen_nonneg sy)|pose proof (zlen_nonneg sx)]; unfold zlen in *; lia. }
    rewrite Es, Z.leb_refl in Hout. rewrite Es, <- Hout, Hn.
    rewrite div_loop_bcast; [done|done| |by left]. intros k Hk. rewrite Es, <- !(out_self sy) by done. done.
  - f_equal. destruct Hs as [Es|[Es|Es]]; [by rewrite Es in El| |].
    + assert (out = sy) as Eo.
      { rewrite Hout, Es. destruct (Z.leb_spec (zlen sy) (zlen (@nil Z))) as [Hle|]; [|done].
        destruct sy; [by rewrite Es in El|]. rewrite zlen_cons, zlen_nil in Hle. unfold zlen in Hle. lia. }
      unfold FloorDivKernel.DataCalBroadcast. rewrite Es, <- Eo. cbn [prodZ foldr]. rewrite (proj2 (Z.ltb_ge (prodZ out) 1)), Hn by lia.
      rewrite div_loop_bcast; [unfold divided; by destruct (bcast_map _ _ _ _ _ _)|done| |by left].
      intros k Hk. rewrite Es, bcast_src_scalar, <- (out_self sy) by done. done.
    + assert (out = sx) as Eo by (rewrite Hout, Es, zlen_nil, (proj2 (Z.leb_le _ _)) by apply zlen_nonneg; done).
      unfold FloorDivKernel.DataCalBroadcast. rewrite Es, <- Eo. cbn [prodZ foldr]. destruct (Z.ltb_spec 1 (prodZ out)) as [H1|H1].
      * rewrite Hn, div_by_scalar by done. unfold divided. by destruct (bcast_map _ _ _ _ _ _).
      * assert (prodZ out = 1) as E1 by lia. replace 1 with (prodZ out) at 1. rewrite Hn.
        rewrite div_loop_bcast; [unfold divided; by destruct (bcast_map _ _ _ _ _ _)|done| |by left].
        intros k Hk. rewrite Es, bcast_src_scalar, <- (out_self sx) by done. lia.
Qed.

Lemma FloorDivKernel_answers v_output : MakeShared op 0 = Some o ->
  answers d t sx sy out xs ys (floordiv_value_of sgn w) v_output (FloorDivKernel.Compute (Some op) [Some x; Some y] v_output).
Proof.
  intros Ho. pose proof (num_type_ok d t Hd) as Ht. destruct (broadcast_nonempty x y d t sx sy out xs ys Ht Hx Hy Hb Hp) as [Nx Ny].
  pose proof Hx as (Dx & Tx & _). pose proof Hy as (Dy & Ty & _). pose proof (floordiv_shape sx sy out Hs Hb) as Hout.
  assert (FloorDivKernel.FloorDivCheck (Some op) [Some x; Some y] = SUCCESS) as Hcheck.
  { unfold FloorDivKernel.FloorDivCheck, supports. rewrite Dx, Dy, Tx, Ty, Nx, Ny.
    assert (negb (zlen sx =? 0) && negb (zlen sy =? 0) && negb (bool_decide (sx = sy)) = false) as ->.
    { destruct Hs as [-> |[-> | ->]]; [by rewrite (bool_decide_eq_true_2 (sy = sy)), andb_false_r|done|by rewrite andb_false_r]. }
    by rewrite !bool_decide_eq_true_2. }
  unfold FloorDivKernel.Compute. rewrite Hcheck, bool_decide_eq_true_2 by done. cbn [negb input_at at_ lookup list_lookup or_stuck mbind outcome_bind].
  rewrite Ho, Tx.
  assert (forall z, FloorDivKernel.ComputeByDataType d x y z = FloorDivKernel.DataCal t x y z) as ->.
  { intros z. unfold t in *. clear - Hd Hsup. destruct d; try discriminate Hd; injection Hd as <- <-; try reflexivity; exfalso;
      repeat (apply elem_of_cons in Hsup as [[=]|Hsup]); by apply elem_of_nil in Hsup. }
  rewrite DataCal_ok. unfold divided, answers. destruct (bcast_map _ sx sy out xs ys) as [vs|] eqn:Em; [|done].
  cbn [mbind outcome_bind or_else emit]. eexists. split; [done|].
  destruct (bcast_map_in (floordiv_value_of sgn w) x y d sx sy out xs ys t vs Hx Hy Hb Hp) as [Hin Hlen]; [|exact Em|].
  - intros a b v _ _. unfold floordiv_value_of. destruct (b =? 0); [done|]. intros [= <-]. destruct (num_width _ sgn w Ht eq_refl) as [_ Hw].
    unfold FloorDivKernel.DivCal_int. destruct (negb _); cbn; destruct sgn; (by apply wrapS_in) || (by apply Z.mod_pos_bound, Z.pow_pos_nonneg; lia).
  - apply holds_output; try done; unfold FloorDivKernel.ShapeCal;
      by rewrite ?get_dims_data, ?get_dims_type, ?get_dims_shape, ?get_type_data, ?get_type_type, ?get_data_data, ?Dx, ?Dy.
Qed.
End FloorDiv.

(** * The theorems *)
Section Theorems.
Context `{E : Env} `{HT : TensorLibOk}.

(** C12 Add, Sub and Mul on integer tensors whose shapes broadcast: when every exact result fits the
    type the kernel returns the tensor of the exact results, of the broadcast shape and the
    type of the operands; when one does not, the operator is left in the graph. *)
Theorem arithmetic_kernels_exact a x y o op d sgn w sx sy out xs ys v_output :
  num_type d = Some (T_int sgn w) -> holds x d (T_int sgn w) sx xs -> holds y d (T_int sgn w) sy ys ->
  broadcast sx sy = Some out -> Forall (Z.lt 0) out -> prodZ out < 2 ^ 63 ->
  GetOutputsSize op = 1 -> MakeShared op 0 = Some o -> is_Some (new_uint8 (prodZ out * (w / 8))) ->
  match bcast_map (exact_int sgn w (exact_op a)) sx sy out xs ys with
  | Some vs => exists z, run_kernel a op [Some x; Some y] v_output = Ok (v_output ++ [z]) /\ holds z d (T_int sgn w) out vs
  | None => run_kernel a op [Some x; Some y] v_output = Err NOT_CHANGED
  end.
Proof.
  intros Hd Hx Hy Hb Hp Hbig Hs Ho Hn. pose proof (kernel_func_exact a d sgn w Hd) as HC.
  assert (forall u v r, num_in (T_int sgn w) u -> num_in (T_int sgn w) v -> exact_int sgn w (exact_op a) u v = Some r -> num_in (T_int sgn w) r)
    as Hin by (intros u v r _ _; apply exact_int_in).
  destruct a.
  - by apply (AddKernel_answers x y o op d _ sx sy out xs ys Hd Hx Hy Hb Hp Hbig Ho).
  - by apply (SubKernel_answers x y o op d _ sx sy out xs ys Hd Hx Hy Hb Hp Hbig Ho).
  - by apply (MulKernel_answers x y o op d _ sx sy out xs ys Hd Hx Hy Hb Hp Hbig Ho).
Qed.

(** Greater and Maximum on tensors of an integer type whose shapes broadcast: Greater returns the
    truth values of x > y as bytes with the type DT_BOOL, Maximum the larger values. *)
Theorem comparison_kernels_exact x y o op d sgn w sx sy out xs ys v_output :
  num_type d = Some (T_int sgn w) -> holds x d (T_int sgn w) sx xs -> holds y d (T_int sgn w) sy ys ->
  broadcast sx sy = Some out -> Forall (Z.lt 0) out -> prodZ out < 2 ^ 63 -> MakeShared op 0 = Some o ->
  (exists z, MaximumKernel.Compute (Some op) [Some x; Some y] v_output = Ok (v_output ++ [z]) /\
    holds z d (T_int sgn w) out (bcast_values sx sy out xs ys Z.max)) /\
  (exists z, GreaterKernel.Compute (Some op) [Some x; Some y] v_output = Ok (v_output ++ [z]) /\ GetDims z = out /\
    GetDataType z = DT_BOOL /\ GetData z = bcast_values sx sy out xs ys (fun a b => Z.b2z (b <? a))).
Proof.
  intros Hd Hx Hy Hb Hp Hbig Ho. split; [|exact (GreaterKernel_ok x y o op d _ sx sy out xs ys Hd Hx Hy Hb Hp Hbig Ho v_output)].
  destruct (MaximumKernel_ok x y o op d _ sx sy out xs ys Hd Hx Hy Hb Hp Hbig Ho v_output) as (z & Hr & Hz). exists z. split; [done|].
  assert (bcast_values sx sy out xs ys Z.max = bcast_values sx sy out xs ys (MaximumKernel.func (T_int sgn w))) as ->; [|done].
  apply list_fmap_ext. intros i k _. unfold MaximumKernel.func. cbn. destruct (Z.ltb_spec (ys !!! Z.to_nat (bcast_src sy out k)) (xs !!! Z.to_nat (bcast_src sx out k))); lia.
Qed.

(** FloorMod on int32 tensors returns the remainders of floor division, with the sign of the
    divisor, except for dividend zero with a negative divisor and for the lowest int32_t; a zero
    divisor leaves the operator in the graph. *)
Theorem floormod_kernel_exact x y o op sx sy out xs ys v_output :
  holds x DT_INT32 (T_int true 32) sx xs -> holds y DT_INT32 (T_int true 32) sy ys ->
  broadcast sx sy = Some out -> Forall (Z.lt 0) out -> prodZ out < 2 ^ 63 -> MakeShared op 0 = Some o ->
  let a k := xs !!! Z.to_nat (bcast_src sx out k) in
  let b k := ys !!! Z.to_nat (bcast_src sy out k) in
  ((forall k, 0 <= k < prodZ out -> b k <> 0 /\ - 2 ^ 31 < a k < 2 ^ 31 /\ - 2 ^ 31 < b k < 2 ^ 31 /\ (a k = 0 -> 0 < b k)) ->
   exists z, FloorModKernel.Compute (Some op) [Some x; Some y] v_output = Ok (v_output ++ [z]) /\
     holds z DT_INT32 (T_int true 32) out (bcast_values sx sy out xs ys Z.modulo)) /\
  ((exists k, 0 <= k < prodZ out /\ b k = 0) -> FloorModKernel.Compute (Some op) [Some x; Some y] v_output = Err NOT_CHANGED).
Proof.
  intros Hx Hy Hb Hp Hbig Ho a b. pose proof (FloorModKernel_answers x y o op sx sy out xs ys v_output Hx Hy Hb Hp Hbig Ho) as HA.
  unfold answers in HA. split.
  - intros Hk. rewrite (bcast_map_all _ Z.modulo) in HA; [exact HA|]. intros k Hr. destruct (Hk k Hr) as (Hb0 & Ha & Hbb & H0). fold (a k) (b k).
    unfold floormod_value_of. rewrite (proj2 (Z.eqb_neq _ _) Hb0). by rewrite floormod_value.
  - intros (k & Hr & H0). rewrite (bcast_map_none _ _ _ _ _ _ k Hr) in HA; [exact HA|]. fold (a k) (b k). by rewrite H0.
Qed.

(** FloorDiv on integer tensors of equal shape, or with a scalar, returns the quotients
    rounded towards minus infinity where the magnitudes and the quotients are in range (the
    quotient must fit int32_t for every type); a zero divisor leaves the operator in the graph. *)
Theorem floordiv_kernel_exact x y o op d sgn w sx sy out xs ys v_output :
  num_type d = Some (T_int sgn w) -> d ∈ FloorDivKernel.kFloorDivSupportedType ->
  holds x d (T_int sgn w) sx xs -> holds y d (T_int sgn w) sy ys -> sx = sy \/ sx = [] \/ sy = [] ->
  broadcast sx sy = Some out -> Forall (Z.lt 0) out -> is_Some (new_uint8 (prodZ out * (w / 8))) -> MakeShared op 0 = Some o ->
  let a k := xs !!! Z.to_nat (bcast_src sx out k) in
  let b k := ys !!! Z.to_nat (bcast_src sy out k) in
  ((forall k, 0 <= k < prodZ out -> b k <> 0 /\ - 2 ^ 31 <= a k / b k < 2 ^ 31 /\ num_in (T_int sgn w) (a k / b k) /\
      (sgn = true -> - 2 ^ (w - 1) < a k /\ - 2 ^ (w - 1) < b k /\ Z.abs (a k) + Z.abs (b k) < 2 ^ (Z.max 32 w - 1))) ->
   exists z, FloorDivKernel.Compute (Some op) [Some x; Some y] v_output = Ok (v_output ++ [z]) /\
     holds z d (T_int sgn w) out (bcast_values sx sy out xs ys Z.div)) /\
  ((exists k, 0 <= k < prodZ out /\ b k = 0) -> FloorDivKernel.Compute (Some op) [Some x; Some y] v_output = Err NOT_CHANGED).
Proof.
  intros Hd Hsup Hx Hy Hs Hb Hp Hn Ho a b.
  pose proof (FloorDivKernel_answers x y o op d sgn w sx sy out xs ys Hd Hsup Hx Hy Hs Hb Hp Hn v_output Ho) as HA.
  pose proof (num_type_ok d _ Hd) as Ht. pose proof Hx as (_ & _ & _ & FX & LX). pose proof Hy as (_ & _ & _ & FY & LY).
  unfold answers in HA. split.
  - intros Hk. rewrite (bcast_map_all _ Z.div) in HA; [exact HA|]. intros k Hr. destruct (Hk k Hr) as (Hb0 & Hq & Hin & Hsg).
    destruct (bcast_src_range sx sy out k Hb Hp Hr) as [Rx Ry]. unfold zlen in *.
    unfold floordiv_value_of. fold (a k) (b k). rewrite (proj2 (Z.eqb_neq _ _) Hb0), DivCal_floor; try done.
    + apply Forall_lookup_total_1; [done|lia].
    + apply Forall_lookup_total_1; [done|lia].
    + intros ->. clear - Hd Hsup. destruct d; try discriminate Hd; injection Hd as <-; try lia; exfalso;
        repeat (apply elem_of_cons in Hsup as [[=]|Hsup]); by apply elem_of_nil in Hsup.
  - intros (k & Hr & H0). rewrite (bcast_map_none _ _ _ _ _ _ k Hr) in HA; [exact HA|]. fold (a k) (b k). by rewrite H0.
Qed.
End Theorems.

(** * A tensor library, and runs on it *)
Record SampleTensor := mkSample { s_dims : list Z; s_type : DataType; s_data : list Z }.
#[local] Instance sample_lib : TensorLib := {
  GeTensor := SampleTensor;
  OpDesc := Z;
  GetDims := s_dims;
  GetDataType := s_type;
  GetData := s_data;
  GetOutputsSize := fun n => n;
  MakeShared := fun _ _ => Some (mkSample [] DT_FLOAT []);
  SetData := fun b t => mkSample (s_dims t) (s_type t) b;
  SetDataType := fun d t => mkSample (s_dims t) d (s_data t);
  SetShape := fun s t => mkSample s (s_type t) (s_data t);
  GetDataTypeLength := fun d => num_size <$> num_type d;
}.
#[export] Instance sample_lib_ok : TensorLibOk sample_lib.
Proof. split; try done. intros d t H. cbn. by rewrite H. Qed.

Definition tensor (d : DataType) (t : NumT) (s vs : list Z) : SampleTensor := mkSample s d (vector_bytes t vs).

(** [300, -7] as a column plus [1, 2, 3] as a row, and a sum that does not fit. *)
Lemma arithmetic_kernels_exact_witness :
  exists z, run_kernel (E := sample_env) A_add 1
    [Some (tensor DT_INT16 (T_int true 16) [2; 1] [300; -7]); Some (tensor DT_INT16 (T_int true 16) [3] [1; 2; 3])] [] = Ok [z] /\
  holds z DT_INT16 (T_int true 16) [2; 3] [301; 302; 303; -6; -5; -4].
Proof.
  apply (arithmetic_kernels_exact (E := sample_env) (T := sample_lib) A_add (tensor DT_INT16 (T_int true 16) [2; 1] [300; -7]) (tensor DT_INT16 (T_int true 16) [3] [1; 2; 3])
    (mkSample [] DT_FLOAT []) 1 DT_INT16 true 16 [2; 1] [3] [2; 3] [300; -7] [1; 2; 3] []); try reflexivity.
  - repeat split; repeat constructor; discriminate.
  - repeat split; repeat constructor; discriminate.
  - repeat constructor.
  - eexists. reflexivity.
Defined.

Lemma comparison_kernels_exact_witness :
  exists z, MaximumKernel.Compute (Some 1) [Some (tensor DT_UINT8 (T_int false 8) [2] [9; 200]); Some (tensor DT_UINT8 (T_int false 8) [] [100])] [] = Ok [z] /\
    holds z DT_UINT8 (T_int false 8) [2] [100; 200].
Proof.
  apply (comparison_kernels_exact (T := sample_lib) (tensor DT_UINT8 (T_int false 8) [2] [9; 200]) (tensor DT_UINT8 (T_int false 8) [] [100])
    (mkSample [] DT_FLOAT []) 1 DT_UINT8 false 8 [2] [] [2] [9; 200] [100] []); try reflexivity.
  - repeat split; repeat constructor; discriminate.
  - repeat split; repeat constructor; discriminate.
  - repeat constructor.
Defined.

Lemma floormod_kernel_exact_witness :
  exists z, FloorModKernel.Compute (Some 1) [Some (tensor DT_INT32 (T_int true 32) [2] [-7; 7]); Some (tensor DT_INT32 (T_int true 32) [] [3])] [] = Ok [z] /\
    holds z DT_INT32 (T_int true 32) [2] [2; 1].
Proof.
  apply (floormod_kernel_exact (E := sample_env) (T := sample_lib) (tensor DT_INT32 (T_int true 32) [2] [-7; 7]) (tensor DT_INT32 (T_int true 32) [] [3])
    (mkSample [] DT_FLOAT []) 1 [2] [] [2] [-7; 7] [3] []); try reflexivity.
  - repeat split; repeat constructor; discriminate.
  - repeat split; repeat constructor; discriminate.
  - repeat constructor.
  - apply below_2; vm_compute; repeat split; discriminate.
Defined.

Lemma floordiv_kernel_exact_witness :
  exists z, FloorDivKernel.Compute (E := sample_env) (Some 1)
      [Some (tensor DT_INT32 (T_int true 32) [2] [-7; 7]); Some (tensor DT_INT32 (T_int true 32) [] [3])] [] = Ok [z] /\
    holds z DT_INT32 (T_int true 32) [2] [-3; 2].
Proof.
  apply (floordiv_kernel_exact (E := sample_env) (T := sample_lib) (tensor DT_INT32 (T_int true 32) [2] [-7; 7]) (tensor DT_INT32 (T_int true 32) [] [3])
    (mkSample [] DT_FLOAT []) 1 DT_INT32 true 32 [2] [] [2] [-7; 7] [3] []); try reflexivity.
  - by repeat constructor.
  - repeat split; repeat constructor; discriminate.
  - repeat split; repeat constructor; discriminate.
  - by right; right.
  - repeat constructor.
  - eexists. reflexivity.
  - apply below_2; vm_compute; repeat split; discriminate.
Defined.

(** * Where the kernels deviate *)

(** FloorMod of zero by a negative divisor is the divisor itself instead of zero: FloorDiv
    takes the signs of 0 and -3 to differ and rounds their quotient down to -1. *)
Theorem floormod_zero_negative :
  FloorModKernel.Compute (Some 1) [Some (tensor DT_INT32 (T_int true 32) [] [0]); Some (tensor DT_INT32 (T_int true 32) [] [-3])] [] =
    Ok [tensor DT_INT32 (T_int true 32) [] [-3]] /\ 0 mod -3 = 0.
Proof. by vm_compute. Qed.

(** FloorDiv passes every quotient through int32_t and keeps magnitudes in the operand type: the
    int64 quotient 2^40 / 1 becomes 0, the int8 quotient -128 / 3 becomes 42; the float quotient
    -0.5 / 2, which should round down to -1, becomes 0. *)
Theorem floordiv_deviates :
  FloorDivKernel.DivCal_int true 64 (2 ^ 40) 1 = 0 /\ FloorDivKernel.DivCal_int true 8 (-128) 3 = 42 /\ -128 / 3 = -43 /\
  FloorDivKernel.DivCal_ieee 23 8 0xBF000000 0x40000000 = Ok 0.
Proof. by vm_compute. Qed.

(** SubKernel keeps its result vectors between calls and does not look at the size of the data:
    a second call on one object returns the elements of the first call too, and a tensor
    with a dimension of size zero is read beyond its empty buffer. *)
Theorem sub_kernel_deviates :
  let one := [Some (tensor DT_INT8 (T_int true 8) [] [5]); Some (tensor DT_INT8 (T_int true 8) [] [2])] in
  (exists y_data, SubKernel.Compute new_y_data (Some 1) one [] = Ok (SUCCESS, [tensor DT_INT8 (T_int true 8) [] [3]], y_data) /\
    tensors_of (SubKernel.Compute y_data (Some 1) one []) = Ok [tensor DT_INT8 (T_int true 8) [] [3; 3]]) /\
  SubKernel.Compute new_y_data (Some 1)
    [Some (tensor DT_INT8 (T_int true 8) [0; 3] []); Some (tensor DT_INT8 (T_int true 8) [3] [1; 2; 3])] [] = Stuck.
Proof. split; [|by vm_compute]. eexists. split; reflexivity. Qed.
