(* ===== verification/RdmaTheorems.v ===== *)
(** What the RDMA pool promises (rdma_pool_allocator.{h,cc}): its invariant, its preservation by
    every method, and the theorems about sequences of calls. *)
From S2P Require Import Prelude MemAllocator BlockHeap RdmaPool.
Import RdmaPoolAllocator.

(** * The invariant of the blocks and the bin

    [ext] is the region of the pool; [fl] is a free block that is momentarily not in the bin. *)
Record pool (ext : gmap Z Z) (fl : option nat) (h : heap) (l : list nat) : Prop := {
  p_heap : heap_ok h ext;
  p_bin i b : h !! i = Some b -> b_bin b = None;
  p_elem i : i ∈ l <-> exists b, h !! i = Some b /\ b_allocated b = false /\ Some i <> fl;
  p_sorted : bin_sorted h l;
  p_coal i b j b' : h !! i = Some b -> b_next b = Some j -> h !! j = Some b' ->
    b_allocated b = true \/ b_allocated b' = true \/ Some i = fl \/ Some j = fl;
}.

Lemma pool_empty : pool ∅ None ∅ [].
Proof.
  split.
  - split; intros *; rewrite ?lookup_empty; done.
  - intros i b. by rewrite lookup_empty.
  - intros i. split; [set_solver|]. intros (b & Hb & _). by rewrite lookup_empty in Hb.
  - constructor.
  - intros i b j b'. by rewrite lookup_empty.
Qed.

(** The neighbours of a free block are in use. *)
Lemma pool_nb ext h l i b :
  pool ext None h l -> h !! i = Some b -> b_allocated b = false -> nb_alloc h (b_prev b) /\ nb_alloc h (b_next b).
Proof.
  intros HP Hi Ha. pose proof (p_heap _ _ _ _ HP) as HO. split.
  - destruct (b_prev b) as [j|] eqn:Hj; [|done]. destruct (heap_ok_prev _ _ HO _ _ _ Hi Hj) as (bj & Hbj & Hn & _).
    exists bj. split; [done|]. destruct (p_coal _ _ _ _ HP j bj i b) as [?|[?|[?|?]]]; congruence.
  - destruct (b_next b) as [j|] eqn:Hj; [|done]. destruct (heap_ok_next _ _ HO _ _ _ Hi Hj) as (bj & Hbj & _).
    exists bj. split; [done|]. destruct (p_coal _ _ _ _ HP i b j bj) as [?|[?|[?|?]]]; congruence.
Qed.

Lemma bin_sorted_remove h i l : bin_sorted h l -> bin_sorted h (List.remove Nat.eq_dec i l).
Proof.
  induction 1 as [|j l Hs IH HF]; cbn; [constructor|]. destruct (Nat.eq_dec i j); [done|]. constructor; [done|].
  rewrite Forall_forall in *. intros x Hx. apply HF. apply list_elem_of_In in Hx. apply list_elem_of_In.
  by apply List.in_remove in Hx as [? _].
Qed.

Lemma elem_of_remove_nat (i x : nat) l : x ∈ List.remove Nat.eq_dec i l <-> x ∈ l /\ x <> i.
Proof.
  rewrite !list_elem_of_In. split; [apply List.in_remove|]. intros [? ?]. by apply List.in_in_remove.
Qed.

Lemma block_key_flag h i b x j : h !! i = Some b -> block_key (<[i := set_allocated x b]> h) j = block_key h j.
Proof.
  intros Hi. unfold block_key. destruct (decide (j = i)) as [->|]; [by rewrite lookup_insert_eq, Hi|by rewrite lookup_insert_ne].
Qed.

Lemma flag_bin ext fl h l i b x :
  pool ext fl h l -> h !! i = Some b -> forall j bj, <[i := set_allocated x b]> h !! j = Some bj -> b_bin bj = None.
Proof.
  intros HP Hi j bj [[<- <-]|[_ Hj]]%lookup_insert_Some; [exact (p_bin _ _ _ _ HP i b Hi)|exact (p_bin _ _ _ _ HP j bj Hj)].
Qed.

(** Taking a free block out of the bin, for use. *)
Lemma pool_take ext h l i b :
  pool ext None h l -> h !! i = Some b -> b_allocated b = false ->
  pool ext None (<[i := set_allocated true b]> h) (List.remove Nat.eq_dec i l).
Proof.
  intros HP Hi Ha. split.
  - by apply heap_ok_set_allocated; [apply HP|].
  - by apply (flag_bin ext None h l).
  - intros j. rewrite elem_of_remove_nat, (p_elem _ _ _ _ HP). destruct (decide (j = i)) as [->|Hji].
    + rewrite lookup_insert_eq. split; [by intros []|]. intros (bj & [= <-] & ? & _). done.
    + rewrite lookup_insert_ne by done. naive_solver.
  - apply bin_sorted_remove. eapply bin_sorted_frame; [|apply HP]. intros j _. by apply block_key_flag.
  - intros j bj k bk Hj Hn Hk. destruct (decide (j = i)) as [->|Hji]; [rewrite lookup_insert_eq in Hj; simplify_eq; by left|].
    destruct (decide (k = i)) as [->|Hki]; [rewrite lookup_insert_eq in Hk; simplify_eq; by right; left|].
    rewrite lookup_insert_ne in Hj, Hk by done. by apply (p_coal _ _ _ _ HP j bj k bk).
Qed.

(** A block that is released floats until it is put into the bin. *)
Lemma pool_release ext h l i b :
  pool ext None h l -> h !! i = Some b -> b_allocated b = true -> pool ext (Some i) (<[i := set_allocated false b]> h) l.
Proof.
  intros HP Hi Ha. split.
  - by apply heap_ok_set_allocated; [apply HP|].
  - by apply (flag_bin ext None h l).
  - intros j. rewrite (p_elem _ _ _ _ HP). destruct (decide (j = i)) as [->|Hji].
    + rewrite lookup_insert_eq. split; [intros (bj & ? & ? & _); congruence|by intros (? & _ & _ & ?)].
    + rewrite lookup_insert_ne by done. split; intros (bj & ? & ? & ?); exists bj; split_and!; congruence.
  - eapply bin_sorted_frame; [|apply HP]. intros j _. by apply block_key_flag.
  - intros j bj k bk Hj Hn Hk. destruct (decide (j = i)) as [->|Hji]; [auto|]. destruct (decide (k = i)) as [->|Hki]; [auto|].
    rewrite lookup_insert_ne in Hj, Hk by done. destruct (p_coal _ _ _ _ HP j bj k bk) as [?|[?|[?|?]]]; auto; done.
Qed.

(** Putting the floating block into the bin. *)
Lemma pool_insert ext h l d bd :
  pool ext (Some d) h l -> h !! d = Some bd -> b_allocated bd = false ->
  nb_alloc h (b_prev bd) -> nb_alloc h (b_next bd) -> pool ext None h (set_insert h d l).
Proof.
  intros HP Hd Ha Hp Hn. pose proof (p_heap _ _ _ _ HP) as HO. split; [done|apply HP| | |].
  - intros i. rewrite elem_of_set_insert.
    + rewrite (p_elem _ _ _ _ HP). split.
      * intros [->|(b & ? & ? & ?)]; [by exists bd|by exists b].
      * intros (b & ? & ? & _). destruct (decide (i = d)) as [->|]; [by left|]. right. exists b. split_and!; congruence.
    + intros j Hj. apply (p_elem _ _ _ _ HP) in Hj as (bj & Hbj & _ & Hjd). unfold block_key. rewrite Hbj, Hd.
      intros [= _ Hptr]. apply Hjd. f_equal. by eapply (heap_ok_ptr_inj _ _ HO).
  - apply set_insert_sorted, HP.
  - intros i b j b' Hi Hj Hbj. destruct (p_coal _ _ _ _ HP i b j b') as [?|[?|[?|?]]]; [done..|auto|auto| |]; simplify_eq.
    + rewrite Hj in Hn. destruct Hn as (b0 & ? & ?). simplify_eq. auto.
    + destruct (ho_next _ _ HO _ _ _ Hi Hj) as (b0 & ? & Hpr & _). simplify_eq. rewrite Hpr in Hp.
      destruct Hp as (b1 & ? & ?). simplify_eq. auto.
Qed.

(** Every address of an extent lies in a block. *)
Lemma heap_ok_covers h ext base len a :
  heap_ok h ext -> ext !! base = Some len -> base <= a < base + len -> exists i b, h !! i = Some b /\ b_ptr b <= a < b_end b.
Proof.
  intros HO He Ha. destruct (ho_cover _ _ HO _ _ He) as (_ & i & b & Hi & Hp).
  assert (Hle : b_ptr b <= a) by lia. assert (Hge : base <= b_ptr b) by lia. clear Hp.
  remember (Z.to_nat (a - b_ptr b)) as n eqn:Hn. revert i b Hi Hle Hge Hn.
  induction (lt_wf n) as [n _ IH]. intros i b Hi Hle Hge Hn.
  destruct (Z.lt_ge_cases a (b_end b)) as [|Hend]; [by exists i, b|].
  destruct (ho_ext _ _ HO _ _ Hi) as (base' & len' & He' & Hlo & Hhi & _ & Hnx). pose proof (ho_range _ _ HO _ _ Hi) as Hr.
  destruct (decide (base' = base)) as [->|Hne]; [|pose proof (ho_ext_disj _ _ HO _ _ _ _ He He' ltac:(done)); unfold b_end in *; lia].
  assert (len' = len) as -> by congruence.
  destruct (b_next b) as [j|] eqn:Hj; [|pose proof (proj1 Hnx eq_refl); lia].
  destruct (ho_next _ _ HO _ _ _ Hi Hj) as (bj & Hbj & _ & Hpj & _).
  apply (IH (Z.to_nat (a - b_ptr bj))) with (i := j) (b := bj); [unfold b_end in *; lia|done|lia|unfold b_end in *; lia|done].
Qed.

(** * Merging *)
Section Merge.
Context (ext : gmap Z Z) (h h1 : heap) (l : list nat) (d s : nat) (bd bs bd' : Block).
Hypothesis HP : pool ext (Some d) h l.
Hypothesis Hd : h !! d = Some bd.
Hypothesis Hs : h !! s = Some bs.
Hypothesis Had : b_allocated bd = false.
Hypothesis Has : b_allocated bs = false.
Hypothesis Hsd : s <> d.
Hypothesis HO : heap_ok (delete s h1) ext.
Hypothesis Hdata : forall i, i <> d -> bdata <$> h1 !! i = bdata <$> h !! i.
Hypothesis Hd' : h1 !! d = Some bd'.
Hypothesis Had' : b_allocated bd' = false.
Hypothesis Hbd' : b_bin bd' = None.
Hypothesis Hadj : forall i b' j, delete s h1 !! i = Some b' -> b_next b' = Some j -> i = d \/ j = d \/
  exists b, h !! i = Some b /\ b_next b = Some j.

Lemma pmerge_back i b' :
  delete s h1 !! i = Some b' -> i <> d -> i <> s /\ exists b, h !! i = Some b /\ bdata b = bdata b'.
Proof. intros [Hsi Hi]%lookup_delete_Some Hid. split; [done|]. apply (bdata_Some h1); [by rewrite Hdata|done]. Qed.

Lemma pmerge_fw i b :
  h !! i = Some b -> i <> d -> i <> s -> exists b', delete s h1 !! i = Some b' /\ bdata b' = bdata b.
Proof. intros Hi Hid His. rewrite lookup_delete_ne by done. apply (bdata_Some h); [by rewrite Hdata|done]. Qed.

Lemma pmerge_key i : i <> d -> block_key h1 i = block_key h i.
Proof. intros. apply bdata_key. by rewrite Hdata. Qed.

Lemma pmerge_elem i :
  i ∈ set_erase h1 s l <-> exists b, delete s h1 !! i = Some b /\ b_allocated b = false /\ Some i <> Some d.
Proof.
  rewrite elem_of_set_erase. split.
  - intros [Hin Hk]. apply (p_elem _ _ _ _ HP) in Hin as (b & Hb & Ha & Hid).
    assert (i <> d) by congruence. assert (i <> s) by (intros ->; done).
    destruct (pmerge_fw i b) as (b' & Hb' & [= ? ? ? ?]); [done..|]. exists b'. split_and!; congruence.
  - intros (b' & Hb' & Ha & Hid). assert (i <> d) as Hid' by congruence.
    destruct (pmerge_back i b' Hb' Hid') as (His & b & Hb & [= ? ? ? ?]). split.
    + apply (p_elem _ _ _ _ HP). exists b. split_and!; congruence.
    + rewrite !pmerge_key by done. unfold block_key. rewrite Hb, Hs. intros [= _ Hpe]. apply His.
      by eapply (heap_ok_ptr_inj _ _ (p_heap _ _ _ _ HP)).
Qed.

Lemma pool_merge : pool ext (Some d) (delete s h1) (set_erase h1 s l).
Proof.
  split; [done| |exact pmerge_elem| |].
  - intros i b Hi. destruct (decide (i = d)) as [->|Hid]; [rewrite lookup_delete_ne in Hi by done; congruence|].
    destruct (pmerge_back i b Hi Hid) as (_ & b0 & Hb0 & [= _ _ _ Hbn]). rewrite <- Hbn. by apply (p_bin _ _ _ _ HP i).
  - eapply bin_sorted_frame; [|apply set_erase_sorted; eapply bin_sorted_frame; [|apply HP]].
    + intros x Hx. unfold block_key. rewrite lookup_delete_ne; [done|].
      intros <-. apply pmerge_elem in Hx as (b & Hb & _). by rewrite lookup_delete_eq in Hb.
    + intros x Hx. apply pmerge_key. intros ->. apply (p_elem _ _ _ _ HP) in Hx as (? & _ & _ & ?). done.
  - intros i b j b' Hi Hn Hj. destruct (Hadj _ _ _ Hi Hn) as [->|[->|(b0 & Hb0 & Hn0)]]; [auto..|].
    destruct (decide (i = d)) as [->|Hid]; [auto|]. destruct (decide (j = d)) as [->|Hjd]; [auto|].
    destruct (pmerge_back i b Hi Hid) as (_ & b1 & ? & [= _ _ ? _]).
    destruct (pmerge_back j b' Hj Hjd) as (_ & b2 & ? & [= _ _ ? _]). simplify_eq.
    destruct (p_coal _ _ _ _ HP i b0 j b2) as [?|[?|[?|?]]]; [done..| | | |]; [left; congruence|right; left; congruence|auto|auto].
Qed.

Lemma pmerge_allocs j : allocs (delete s h1) j = allocs h j.
Proof.
  destruct (decide (j = s)) as [->|Hjs]; [unfold allocs; by rewrite lookup_delete_eq, Hs, Has|].
  destruct (decide (j = d)) as [->|Hjd].
  - unfold allocs. by rewrite lookup_delete_ne, Hd', Hd, Had, Had' by done.
  - apply allocs_bdata. rewrite lookup_delete_ne by done. by apply Hdata.
Qed.

Lemma pmerge_dom j : is_Some (delete s h1 !! j) -> is_Some (h !! j).
Proof.
  intros [b Hb]. destruct (decide (j = d)) as [->|Hjd]; [by eexists|].
  destruct (pmerge_back j b Hb Hjd) as (_ & b0 & ? & _). by eexists.
Qed.
End Merge.

(** * Cutting off the end of a block in use *)
Section Split.
Context (ext : gmap Z Z) (h : heap) (l : list nat) (i n : nat) (b : Block) (dev sz : Z).
Hypothesis HP : pool ext None h l.
Hypothesis Hi : h !! i = Some b.
Hypothesis Ha : b_allocated b = true.
Hypothesis Hnb : nb_alloc h (b_next b).
Hypothesis Hn : h !! n = None.
Hypothesis Hsz : 0 < sz < b_size b.
Local Abbreviation h' := (heap_split_back h i n b dev sz).

Lemma split_cases j b' : h' !! j = Some b' ->
  (j = n /\ b' = back_rest i b dev sz) \/ (j = i /\ b' = back_front n b sz) \/
  (j <> i /\ j <> n /\ exists bj, h !! j = Some bj /\ bdata b' = bdata bj /\ b_next b' = b_next bj).
Proof.
  intros Hj. destruct (decide (j = n)) as [->|Hjn]; [left; rewrite split_back_n in Hj; by simplify_eq|]. right.
  destruct (decide (j = i)) as [->|Hji]; [left; rewrite (split_back_i h i n b dev sz Hi Hn) in Hj; by simplify_eq|]. right.
  split; [done|]. split; [done|]. rewrite split_back_old in Hj by done. apply fmap_Some in Hj as (bj & Hbj & ->).
  exists bj. split; [done|]. by destruct (decide _).
Qed.

Lemma rdma_split_old j bj : h !! j = Some bj -> j <> i -> exists b', h' !! j = Some b' /\ bdata b' = bdata bj.
Proof.
  intros Hj Hji. rewrite split_back_old; [|done|congruence]. rewrite Hj. cbn. eexists. split; [reflexivity|]. by destruct (decide _).
Qed.

Lemma split_floating : pool ext (Some n) h' l.
Proof.
  pose proof (p_heap _ _ _ _ HP) as HO. pose proof (p_bin _ _ _ _ HP i b Hi) as Hbin. split.
  - by apply heap_split_back_ok.
  - intros j b' [[-> ->]|[[-> ->]|(_ & _ & bj & Hj & [= _ _ _ Hb] & _)]]%split_cases; [done..|]. rewrite Hb. by apply (p_bin _ _ _ _ HP j).
  - intros j. rewrite (p_elem _ _ _ _ HP). split.
    + intros (bj & Hj & Haj & _). assert (j <> i) by congruence. destruct (rdma_split_old j bj) as (b' & ? & [= _ _ ? _]); [done..|].
      exists b'. split_and!; congruence.
    + intros (b' & [[-> ->]|[[-> ->]|(_ & _ & bj & Hj & [= _ _ Hb _] & _)]]%split_cases & Haj & Hne); [done|cbn in Haj; congruence|].
      exists bj. split_and!; congruence.
  - eapply bin_sorted_frame; [|apply HP]. intros j (bj & Hj & Haj & _)%(p_elem _ _ _ _ HP). assert (j <> i) by congruence.
    destruct (rdma_split_old j bj) as (b' & Hb' & Hd); [done..|]. apply bdata_key. rewrite Hb', Hj. cbn. by rewrite Hd.
  - intros j bj k bk Hj Hk Hbk. apply split_cases in Hj as [[-> _]|[[-> ->]|(Hji & Hjn & b0 & H0 & [= _ _ Hb _] & Hnx)]]; [auto|by left|].
    apply split_cases in Hbk as [[-> _]|[[-> ->]|(Hki & Hkn & b1 & H1 & [= _ _ Hb1 _] & _)]]; [auto|by right; left|].
    rewrite Hnx in Hk. rewrite Hb, Hb1. destruct (p_coal _ _ _ _ HP j b0 k b1) as [?|[?|[?|?]]]; auto; done.
Qed.

Lemma pool_split : pool ext None h' (set_insert h' n l).
Proof.
  eapply pool_insert; [exact split_floating|apply split_back_n|done| |]; cbn.
  - exists (back_front n b sz). split; [by apply split_back_i|done].
  - destruct (b_next b) as [q|] eqn:Hq; [|done]. destruct Hnb as (bq & Hbq & Haq).
    destruct (heap_ok_next _ _ (p_heap _ _ _ _ HP) _ _ _ Hi Hq) as (_ & _ & _ & _ & _ & Hqi).
    destruct (rdma_split_old q bq) as (b' & ? & [= _ _ ? _]); [done..|]. exists b'. split; [done|congruence].
Qed.

Lemma rdma_split_allocs j : allocs h' j = if decide (j = i) then Some (b_ptr b, sz) else allocs h j.
Proof.
  destruct (decide (j = i)) as [->|Hji]; [unfold allocs; rewrite split_back_i by done; cbn; by rewrite Ha|].
  destruct (decide (j = n)) as [->|Hjn]; [unfold allocs; by rewrite split_back_n, Hn|].
  apply allocs_bdata. rewrite split_back_old by done. destruct (h !! j); [|done]. cbn. by destruct (decide _).
Qed.

(** The assignments of Malloc, in the order of the source, build that heap. *)
Lemma split_links :
  exists h1 h2 h3 h4, upd n (set_next (b_next b)) (<[n := new_Block dev (b_size b - sz) None (b_ptr b + sz)]> h) = Some h1 /\
    upd_opt (b_next b) (set_prev (Some n)) h1 = Some h2 /\ upd n (set_prev (Some i)) h2 = Some h3 /\
    upd i (set_next (Some n)) h3 = Some h4 /\ upd i (set_size sz) h4 = Some h'.
Proof.
  assert (n <> i) as Hni by congruence. pose proof (p_bin _ _ _ _ HP i b Hi) as Hbin.
  assert (Hlast : forall h0, h0 !! i = Some b -> h0 !! n = Some (set_next (b_next b) (new_Block dev (b_size b - sz) None (b_ptr b + sz))) ->
    exists h3 h4, upd n (set_prev (Some i)) h0 = Some h3 /\ upd i (set_next (Some n)) h3 = Some h4 /\
      upd i (set_size sz) h4 = Some (<[n := back_rest i b dev sz]> (<[i := back_front n b sz]> h0))).
  { intros h0 H0i H0n. do 2 eexists. unfold upd at 1. rewrite H0n. split; [reflexivity|]. unfold upd at 1.
    rewrite lookup_insert_ne, H0i by done. split; [reflexivity|]. unfold upd. rewrite lookup_insert_eq. f_equal.
    apply map_eq. intros j. destruct (decide (j = i)) as [->|]; [by simplify_map_eq|].
    destruct (decide (j = n)) as [->|]; simplify_map_eq; [unfold back_rest; by rewrite Hbin|done]. }
  set (nb := new_Block dev (b_size b - sz) None (b_ptr b + sz)) in *.
  assert (exists h2, upd_opt (b_next b) (set_prev (Some n)) (<[n := set_next (b_next b) nb]> (<[n := nb]> h)) = Some h2 /\
    h2 !! i = Some b /\ h2 !! n = Some (set_next (b_next b) nb) /\ <[n := back_rest i b dev sz]> (<[i := back_front n b sz]> h2) = h')
    as (h2 & H2 & H2i & H2n & H2').
  { unfold heap_split_back. destruct (b_next b) as [q|] eqn:Hq; cbn [upd_opt].
    - destruct (heap_ok_next _ _ (p_heap _ _ _ _ HP) _ _ _ Hi Hq) as (bq & Hbq & _ & _ & _ & Hqi).
      assert (q <> n) by congruence.
      assert (<[n := set_next (Some q) nb]> (<[n := nb]> h) !! q = Some bq) as Hq' by (by rewrite !lookup_insert_ne).
      unfold upd. rewrite Hq'. eexists. split; [reflexivity|].
      split; [by rewrite !lookup_insert_ne|]. split; [by rewrite lookup_insert_ne, lookup_insert_eq|].
      apply map_eq. intros j. destruct (decide (j = n)) as [->|]; [by rewrite !lookup_insert_eq|]. rewrite !(lookup_insert_ne _ n) by done.
      destruct (decide (j = i)) as [->|]; [by rewrite !lookup_insert_eq|]. rewrite !(lookup_insert_ne _ i) by done.
      destruct (decide (j = q)) as [->|]; [by rewrite lookup_insert_eq, lookup_alter_eq, Hbq|].
      by rewrite lookup_alter_ne, !lookup_insert_ne.
    - eexists. split; [reflexivity|]. split; [by rewrite !lookup_insert_ne|]. split; [by rewrite lookup_insert_eq|].
      apply map_eq. intros j. destruct (decide (j = n)) as [->|]; [by rewrite !lookup_insert_eq|]. rewrite !(lookup_insert_ne _ n) by done.
      destruct (decide (j = i)) as [->|]; [by rewrite !lookup_insert_eq|]. by rewrite !lookup_insert_ne. }
  destruct (Hlast h2 H2i H2n) as (h3 & h4 & H3 & H4 & H5). exists (<[n := set_next (b_next b) nb]> (<[n := nb]> h)), h2, h3, h4.
  split; [unfold upd; by rewrite lookup_insert_eq|]. rewrite <- H2'. done.
Qed.
End Split.

Section Methods.
Context `{R : Runtime} {RO : RuntimeOk R} {D : DeviceApi R} {DO : DeviceApiOk R RO D}.

Lemma rdma_bind_eq {A B} (m : M A) (f : A -> M B) st a st1 : m st = Some (a, st1) -> (m ≫= f) st = f a st1.
Proof. intros Hm. unfold mbind, M_bind. by rewrite Hm. Qed.

Lemma set_pool_id st : set_pool (block_bin_ st) (blocks st) st = st.
Proof. by destruct st. Qed.

(** What one call of MergeBlocks guarantees for the floating block [d]. *)
Record merged (ext : gmap Z Z) (st : RdmaPool) (d : nat) (h : heap) (l : list nat) (bd' : Block) : Prop := {
  m_pool : pool ext (Some d) h l;
  m_d : h !! d = Some bd';
  m_free : b_allocated bd' = false;
  m_allocs j : allocs h j = allocs (blocks st) j;
  m_dom j : is_Some (h !! j) -> is_Some (blocks st !! j);
}.

Lemma rdma_MergeBlocks_skip st d bd src :
  blocks st !! d = Some bd -> nb_alloc (blocks st) src -> MergeBlocks d src st = Some (tt, st).
Proof.
  intros Hd Hnb. unfold MergeBlocks, CanMerge, deref, mbind, M_bind. cbn. rewrite Hd.
  destruct src as [s|]; [|by destruct (negb _)]. destruct Hnb as (bs & Hs & Ha).
  destruct (negb _); cbn; [|done]. rewrite Hs. cbn. by rewrite Ha.
Qed.

Lemma rdma_MergeBlocks_run st d s bd bs h1 :
  blocks st !! d = Some bd -> blocks st !! s = Some bs -> b_allocated bd = false -> b_allocated bs = false ->
  merge_links (blocks st) d s = Some h1 -> is_Some (h1 !! s) ->
  MergeBlocks d (Some s) st = Some (tt, set_pool (set_erase h1 s (block_bin_ st)) (delete s h1) st).
Proof.
  intros Hd Hs Had Has Hm [b Hb]. unfold MergeBlocks, CanMerge, update_heap, update_bin, delete_block, deref, modify, mbind, M_bind.
  cbn. rewrite Hd. cbn. rewrite Had. cbn. rewrite Hs. cbn. rewrite Has. cbn. rewrite Hm. cbn. by rewrite Hb.
Qed.

Lemma rdma_MergeBlocks_prev ext st d bd :
  pool ext (Some d) (blocks st) (block_bin_ st) -> blocks st !! d = Some bd -> b_allocated bd = false ->
  exists h l bd', MergeBlocks d (b_prev bd) st = Some (tt, set_pool l h st) /\ merged ext st d h l bd' /\
    b_next bd' = b_next bd /\ nb_alloc h (b_prev bd').
Proof.
  intros HP Hd Had. pose proof (p_heap _ _ _ _ HP) as HO.
  assert (Hskip : nb_alloc (blocks st) (b_prev bd) -> exists h l bd', MergeBlocks d (b_prev bd) st = Some (tt, set_pool l h st) /\
    merged ext st d h l bd' /\ b_next bd' = b_next bd /\ nb_alloc h (b_prev bd')).
  { intros Hnb. exists (blocks st), (block_bin_ st), bd. rewrite (rdma_MergeBlocks_skip _ _ bd), set_pool_id by done. by split_and!. }
  destruct (b_prev bd) as [s|] eqn:Hp; [|by apply Hskip].
  destruct (heap_ok_prev _ _ HO _ _ _ Hd Hp) as (bs & Hs & Hsn & Hptr & Hbin & Hsd).
  destruct (b_allocated bs) eqn:Has; [apply Hskip; by exists bs|]. clear Hskip.
  pose proof (merge_links_prev _ _ HO d s bd bs Hd Hp Hs) as Hm. pose proof (heap_merge_prev_data (blocks st) d bd bs) as Hdata.
  assert (Hd' : heap_merge_prev (blocks st) d bd bs !! d = Some (merged_prev bd bs)) by apply lookup_insert_eq.
  assert (Hs' : is_Some (heap_merge_prev (blocks st) d bd bs !! s)).
  { destruct (bdata_Some (blocks st) (heap_merge_prev (blocks st) d bd bs) s bs) as (b' & ? & _); [by apply Hdata|done|by eexists]. }
  eexists _, _, (merged_prev bd bs). rewrite (rdma_MergeBlocks_run st d s bd bs _ Hd Hs Had Has Hm Hs'). split; [done|]. split; [split|].
  - eapply pool_merge with (bd' := merged_prev bd bs); try done; [by eapply heap_merge_prev_ok|exact (p_bin _ _ _ _ HP d bd Hd)|].
    intros i b' j Hi Hj. apply (heap_merge_prev_lookup (blocks st) d s bd bs) in Hi as [_ [[-> _]|(_ & b0 & Hb0 & _ & _ & Hn)]]; [by left|].
    right. rewrite Hn in Hj. destruct (decide _); [left; congruence|right; by exists b0].
  - by rewrite lookup_delete_ne.
  - done.
  - intros j. by eapply pmerge_allocs with (bd := bd) (bs := bs) (bd' := merged_prev bd bs).
  - intros j. by eapply pmerge_dom with (bd := bd).
  - split; [done|]. cbn. destruct (b_prev bs) as [p|] eqn:Hpp; [|done].
    destruct (heap_ok_prev _ _ HO _ _ _ Hs Hpp) as (bp & Hbp & Hpn & Hpptr & _ & Hps).
    pose proof (ho_range _ _ HO _ _ Hd). pose proof (ho_range _ _ HO _ _ Hs).
    assert (p <> d) by (intros ->; simplify_eq; unfold b_end in *; lia).
    apply nb_alloc_delete; [congruence|]. eapply nb_alloc_merge; [exact Hdata|congruence|]. exists bp. split; [done|].
    destruct (p_coal _ _ _ _ HP p bp s bs) as [?|[?|[?|?]]]; congruence.
Qed.

Lemma rdma_MergeBlocks_next ext st d bd :
  pool ext (Some d) (blocks st) (block_bin_ st) -> blocks st !! d = Some bd -> b_allocated bd = false ->
  nb_alloc (blocks st) (b_prev bd) ->
  exists h l bd', MergeBlocks d (b_next bd) st = Some (tt, set_pool l h st) /\ merged ext st d h l bd' /\
    nb_alloc h (b_prev bd') /\ nb_alloc h (b_next bd').
Proof.
  intros HP Hd Had Hnb. pose proof (p_heap _ _ _ _ HP) as HO.
  assert (Hskip : nb_alloc (blocks st) (b_next bd) -> exists h l bd', MergeBlocks d (b_next bd) st = Some (tt, set_pool l h st) /\
    merged ext st d h l bd' /\ nb_alloc h (b_prev bd') /\ nb_alloc h (b_next bd')).
  { intros Hn. exists (blocks st), (block_bin_ st), bd. rewrite (rdma_MergeBlocks_skip _ _ bd), set_pool_id by done. by split_and!. }
  destruct (b_next bd) as [s|] eqn:Hn; [|by apply Hskip].
  destruct (heap_ok_next _ _ HO _ _ _ Hd Hn) as (bs & Hs & Hsp & Hptr & Hbin & Hsd).
  destruct (b_allocated bs) eqn:Has; [apply Hskip; by exists bs|]. clear Hskip.
  pose proof (merge_links_next _ _ HO d s bd bs Hd Hn Hs) as Hm. pose proof (heap_merge_next_data (blocks st) d bd bs) as Hdata.
  pose proof (ho_range _ _ HO _ _ Hd). pose proof (ho_range _ _ HO _ _ Hs).
  assert (Hd' : heap_merge_next (blocks st) d bd bs !! d = Some (merged_next bd bs)) by apply lookup_insert_eq.
  assert (Hs' : is_Some (heap_merge_next (blocks st) d bd bs !! s)).
  { destruct (bdata_Some (blocks st) (heap_merge_next (blocks st) d bd bs) s bs) as (b' & ? & _); [by apply Hdata|done|by eexists]. }
  eexists _, _, (merged_next bd bs). rewrite (rdma_MergeBlocks_run st d s bd bs _ Hd Hs Had Has Hm Hs'). split; [done|]. split; [split|].
  - eapply pool_merge with (bd' := merged_next bd bs); try done; [by eapply heap_merge_next_ok|exact (p_bin _ _ _ _ HP d bd Hd)|].
    intros i b' j Hi Hj. apply (heap_merge_next_lookup (blocks st) d s bd bs) in Hi as [_ [[-> _]|(_ & b0 & Hb0 & _ & Hn0 & _)]]; [by left|].
    right; right. rewrite Hn0 in Hj. by exists b0.
  - by rewrite lookup_delete_ne.
  - done.
  - intros j. by eapply pmerge_allocs with (bd := bd) (bs := bs) (bd' := merged_next bd bs).
  - intros j. by eapply pmerge_dom with (bd := bd).
  - cbn. split.
    + destruct (b_prev bd) as [p|] eqn:Hpp; [|done].
      destruct (heap_ok_prev _ _ HO _ _ _ Hd Hpp) as (bp & Hbp & _ & Hpptr & _ & Hpd).
      assert (p <> s) by (intros ->; simplify_eq; unfold b_end in *; lia).
      apply nb_alloc_delete; [congruence|]. eapply nb_alloc_merge; [exact Hdata|congruence|done].
    + destruct (b_next bs) as [q|] eqn:Hq; [|done].
      destruct (heap_ok_next _ _ HO _ _ _ Hs Hq) as (bq & Hbq & Hqp & Hqptr & _ & Hqs).
      assert (q <> d) by (intros ->; simplify_eq; unfold b_end in *; lia).
      apply nb_alloc_delete; [congruence|]. eapply nb_alloc_merge; [exact Hdata|congruence|]. exists bq. split; [done|].
      destruct (p_coal _ _ _ _ HP s bs q bq) as [?|[?|[?|?]]]; congruence.
Qed.

(** * The invariant of the allocator *)
Record wf (ext : gmap Z Z) (st : RdmaPool) : Prop := {
  w_pool : pool ext None (blocks st) (block_bin_ st);
  w_ids i : is_Some (blocks st !! i) -> (i < next_id st)%nat;
  w_map p i : allocated_blocks_ st !! p = Some i <-> exists n, allocs (blocks st) i = Some (p, n);
  w_ext : ext = ∅ \/ (rdma_base_addr_ st <> 0 /\ ext = {[rdma_base_addr_ st := rdma_mem_size_ st]});
  w_alloc : rdma_base_addr_ st <> 0 -> is_Some (memory_allocator_ st);
}.

(** The abstract state: the regions in use, address and size. *)
Definition in_use (st : RdmaPool) : gmap Z Z := omap (fun i => snd <$> allocs (blocks st) i) (allocated_blocks_ st).

Lemma rdma_in_use_lookup ext st p n : wf ext st -> in_use st !! p = Some n <-> exists i, allocs (blocks st) i = Some (p, n).
Proof.
  intros HW. unfold in_use. rewrite lookup_omap_Some. split.
  - intros (i & Hf & Hi). exists i. apply (w_map _ _ HW) in Hi as [m Hm]. rewrite Hm in *. cbn in Hf. congruence.
  - intros [i Hi]. exists i. rewrite Hi. split; [done|]. apply (w_map _ _ HW). by exists n.
Qed.

(** An address belongs to one block in use. *)
Lemma allocs_inj ext st p i j n m :
  wf ext st -> allocs (blocks st) i = Some (p, n) -> allocs (blocks st) j = Some (p, m) -> i = j.
Proof.
  intros HW Hi Hj. pose proof (proj2 (w_map _ _ HW p i) (ex_intro _ n Hi)).
  pose proof (proj2 (w_map _ _ HW p j) (ex_intro _ m Hj)). congruence.
Qed.

(** What the pool holds of the device. *)
Definition held (st : RdmaPool) : gmap Z Z :=
  if rdma_base_addr_ st =? 0 then ∅ else {[rdma_base_addr_ st := rdma_mem_size_ st]}.

(** The region of the pool is live on the device. *)
Definition backed (st : RdmaPool) : Prop := held st ⊆ rt_live (rt st).

Lemma backed_idle st : rdma_base_addr_ st = 0 -> backed st.
Proof. unfold backed, held. intros H0. rewrite (proj2 (Z.eqb_eq _ _) H0). apply map_empty_subseteq. Qed.

Lemma backed_live st : rdma_base_addr_ st <> 0 -> backed st <-> rt_live (rt st) !! rdma_base_addr_ st = Some (rdma_mem_size_ st).
Proof. intros H0. unfold backed, held. destruct (Z.eqb_spec (rdma_base_addr_ st) 0); [done|]. apply map_singleton_subseteq_l. Qed.

(** What Malloc and Free leave alone. *)
Record same_pool (st st' : RdmaPool) : Prop := {
  sp_base : rdma_base_addr_ st' = rdma_base_addr_ st;
  sp_size : rdma_mem_size_ st' = rdma_mem_size_ st;
  sp_alloc : memory_allocator_ st' = memory_allocator_ st;
  sp_live : rt_live (rt st') = rt_live (rt st);
}.

Lemma wf_same ext st st' :
  wf ext st -> same_pool st st' -> pool ext None (blocks st') (block_bin_ st') ->
  (forall i, is_Some (blocks st' !! i) -> (i < next_id st')%nat) ->
  (forall p i, allocated_blocks_ st' !! p = Some i <-> exists n, allocs (blocks st') i = Some (p, n)) -> wf ext st'.
Proof. intros HW [Hb Hs Ha Hl] HP Hi Hm. split; [done..| |]; rewrite Hb, ?Hs, ?Ha; apply HW. Qed.

(** ** Free *)
Lemma rdma_Free_ok ext st p n :
  wf ext st -> in_use st !! p = Some n ->
  exists st', Free p st = Some (SUCCESS, st') /\ wf ext st' /\ same_pool st st' /\ in_use st' = delete p (in_use st).
Proof.
  intros HW Hp. pose proof Hp as [i Hi]%(rdma_in_use_lookup ext); [|done].
  pose proof (allocs_Some _ _ _ _ Hi) as (b & Hb & Ha & Hbp & Hbn). pose proof (w_pool _ _ HW) as HP.
  pose proof (ho_range _ _ (p_heap _ _ _ _ HP) _ _ Hb) as Hr. unfold Free. destruct (Z.eqb_spec p 0) as [|_]; [lia|].
  erewrite rdma_bind_eq by reflexivity. cbv beta. rewrite (proj2 (w_map _ _ HW p i)) by (by exists n).
  pose proof (pool_release _ _ _ _ _ HP Hb Ha) as HP1.
  erewrite rdma_bind_eq by (unfold update_heap, upd; rewrite Hb; reflexivity). erewrite rdma_bind_eq by reflexivity.
  set (st1 := set_allocated_blocks _ _). assert (H1 : blocks st1 !! i = Some (set_allocated false b)) by apply lookup_insert_eq.
  erewrite rdma_bind_eq by (unfold deref; rewrite H1; reflexivity). cbv zeta.
  destruct (rdma_MergeBlocks_prev ext st1 i _ HP1 H1 eq_refl) as (h2 & l2 & b2 & Hm2 & [HP2 H2 Hf2 Ha2 Hd2] & Hn2 & Hp2).
  erewrite rdma_bind_eq by exact Hm2. rewrite <- Hn2.
  destruct (rdma_MergeBlocks_next ext (set_pool l2 h2 st1) i b2 HP2 H2 Hf2 Hp2) as (h3 & l3 & b3 & Hm3 & [HP3 H3 Hf3 Ha3 Hd3] & Hp3 & Hn3).
  erewrite rdma_bind_eq by exact Hm3. erewrite rdma_bind_eq by reflexivity. cbn in Ha3, Hd3.
  assert (Hal : forall j, allocs h3 j = if decide (j = i) then None else allocs (blocks st) j).
  { intros j. rewrite Ha3, Ha2. unfold allocs. cbn. destruct (decide (j = i)) as [->|]; [by rewrite lookup_insert_eq|by rewrite lookup_insert_ne]. }
  eexists. split; [reflexivity|]. set (st' := set_pool _ _ _).
  assert (HW' : wf ext st').
  { eapply wf_same; [done|by split|cbn; by eapply pool_insert| |].
    - cbn. intros j [b' Hj]%Hd3%Hd2. cbn in Hj. apply (w_ids _ _ HW). destruct (decide (j = i)) as [->|]; [by eexists|].
      rewrite lookup_insert_ne in Hj by done. by eexists.
    - cbn. intros q j. rewrite Hal. destruct (decide (q = p)) as [->|Hqp].
      + rewrite lookup_delete_eq. split; [done|]. intros [m Hm]. destruct (decide (j = i)) as [|Hji]; [done|]. by destruct (Hji (allocs_inj _ _ _ _ _ _ _ HW Hm Hi)).
      + rewrite lookup_delete_ne by done. rewrite (w_map _ _ HW). destruct (decide (j = i)) as [->|]; [|done].
        split; [intros [m Hm]; congruence|by intros []]. }
  split; [done|]. split; [by split|]. apply map_eq. intros q. apply option_eq. intros m.
  rewrite (rdma_in_use_lookup ext st') by done. cbn. rewrite lookup_delete_Some, (rdma_in_use_lookup ext st) by done. split.
  - intros [j Hj]. rewrite Hal in Hj. destruct (decide (j = i)) as [|Hji]; [done|]. split; [|by exists j]. intros ->.
    by destruct (Hji (allocs_inj _ _ _ _ _ _ _ HW Hj Hi)).
  - intros [Hne [j Hj]]. exists j. rewrite Hal. destruct (decide (j = i)) as [->|]; [congruence|done].
Qed.

Lemma rdma_Free_unknown ext st p :
  wf ext st -> in_use st !! p = None -> Free p st = Some (if p =? 0 then GE_GRAPH_FREE_FAILED else PARAM_INVALID, st).
Proof.
  intros HW Hp. unfold Free. destruct (Z.eqb_spec p 0) as [|_]; [done|]. erewrite rdma_bind_eq by reflexivity. cbv beta.
  destruct (allocated_blocks_ st !! p) as [i|] eqn:Hi; [|done]. apply (w_map _ _ HW) in Hi as [n Hn].
  assert (in_use st !! p = Some n) by (apply (rdma_in_use_lookup ext); [done|by exists i]). congruence.
Qed.

(** ** Malloc *)
Lemma round_split b size : 0 < size <= b_size b -> ShouldSplit b size = true -> size < b_size b.
Proof.
  intros Hs. unfold ShouldSplit. rewrite Z.leb_le. pose proof (round53_pos (b_size b)).
  destruct (Z.eq_dec size (b_size b)) as [->|]; lia.
Qed.

Lemma bind_heap {A} f (k : unit -> M A) st h : f (blocks st) = Some h -> (update_heap f ≫= k) st = k tt (set_pool (block_bin_ st) h st).
Proof. intros Hf. apply rdma_bind_eq. unfold update_heap. by rewrite Hf. Qed.

(** [block] is a block in use, the last one handed out. *)
Lemma split_block_ok ext st i b sz dev :
  wf ext st -> blocks st !! i = Some b -> b_allocated b = true -> nb_alloc (blocks st) (b_next b) -> 0 < sz <= b_size b ->
  exists st' n, split_block i b sz dev st = Some (tt, st') /\ wf ext st' /\ same_pool st st' /\ sz <= n /\
    in_use st' = <[b_ptr b := n]> (in_use st).
Proof.
  intros HW Hi Ha Hnb Hsz. pose proof (w_pool _ _ HW) as HP. pose proof (ho_range _ _ (p_heap _ _ _ _ HP) _ _ Hi) as Hr.
  assert (Hal : allocs (blocks st) i = Some (b_ptr b, b_size b)) by (unfold allocs; by rewrite Hi, Ha).
  assert (Hin : in_use st !! b_ptr b = Some (b_size b)) by (apply (rdma_in_use_lookup ext); [done|by exists i]).
  unfold split_block. destruct (ShouldSplit b sz) eqn:Hss.
  2: { exists st, (b_size b). split; [done|]. split; [done|]. split; [done|]. split; [lia|]. by rewrite insert_id. }
  apply round_split in Hss; [|done]. unfold new_block at 1, mbind at 1, M_bind.
  destruct (new_nothrow (rt st)) as [[] r] eqn:Hnew; pose proof (new_nothrow_live _ _ _ Hnew) as Hlive.
  2: { exists (set_rt r st), (b_size b). split; [done|]. split; [by eapply wf_same; [done|by split|apply HW..]|].
       split; [by split|]. split; [lia|]. by rewrite insert_id. }
  rewrite wrapU64_id by (unfold b_end in *; lia).
  assert (Hn : blocks st !! next_id st = None).
  { destruct (blocks st !! next_id st) eqn:Hn; [|done]. pose proof (w_ids _ _ HW (next_id st) (ex_intro _ _ Hn)). lia. }
  assert (Hsz' : 0 < sz < b_size b) by lia.
  destruct (split_links ext (blocks st) (block_bin_ st) i (next_id st) b dev sz) as (h1 & h2 & h3 & h4 & E1 & E2 & E3 & E4 & E5); [done..|].
  erewrite bind_heap by exact E1. erewrite bind_heap by exact E2. erewrite bind_heap by exact E3. erewrite bind_heap by exact E4.
  erewrite bind_heap by exact E5. eexists _, sz. split; [reflexivity|]. set (st' := set_pool _ _ _).
  pose proof (rdma_split_allocs (blocks st) i (next_id st) b dev sz Hi Ha Hn) as Hall.
  assert (HW' : wf ext st').
  { eapply wf_same; [done|by split|cbn; by apply pool_split| |]; cbn.
    - intros j [b' [[-> _]|[[-> _]|(_ & _ & bj & Hj & _)]]%(split_cases _ _ _ _ _ _ Hi Hn)]; [lia|apply Nat.lt_lt_succ_r, (w_ids _ _ HW); by eexists..].
    - intros p j. rewrite Hall, (w_map _ _ HW). destruct (decide (j = i)) as [->|]; [|done]. rewrite Hal. naive_solver. }
  split; [done|]. split; [by split|]. split; [lia|]. apply map_eq. intros q. apply option_eq. intros m.
  rewrite (rdma_in_use_lookup ext st') by done. cbn. rewrite lookup_insert_Some, (rdma_in_use_lookup ext st) by done. split.
  - intros [j Hj]. rewrite Hall in Hj. destruct (decide (j = i)) as [->|Hji]; [left; naive_solver|]. right. split; [|by exists j].
    intros <-. by destruct (Hji (allocs_inj _ _ _ _ _ _ _ HW Hj Hal)).
  - intros [[<- <-]|[Hne [j Hj]]]; [exists i|exists j]; rewrite Hall; [by rewrite decide_True|]. by rewrite decide_False by congruence.
Qed.

(** Marking a free block as used, entering it into the map. *)
Lemma wf_take ext st i b :
  wf ext st -> blocks st !! i = Some b -> b_allocated b = false ->
  allocated_blocks_ st !! b_ptr b = None /\ in_use st !! b_ptr b = None /\
  let st' := set_allocated_blocks (<[b_ptr b := i]> (allocated_blocks_ st))
    (set_pool (List.remove Nat.eq_dec i (block_bin_ st)) (<[i := set_allocated true b]> (blocks st)) st) in
  wf ext st' /\ same_pool st st' /\ in_use st' = <[b_ptr b := b_size b]> (in_use st).
Proof.
  intros HW Hi Ha. pose proof (w_pool _ _ HW) as HP.
  assert (Hnone : forall j n, allocs (blocks st) j <> Some (b_ptr b, n)).
  { intros j n (bj & Hj & Haj & Hp & _)%allocs_Some. assert (j = i) as -> by (by eapply (heap_ok_ptr_inj _ _ (p_heap _ _ _ _ HP))). congruence. }
  assert (Hal : forall j, allocs (<[i := set_allocated true b]> (blocks st)) j = if decide (j = i) then Some (b_ptr b, b_size b) else allocs (blocks st) j).
  { intros j. unfold allocs. destruct (decide (j = i)) as [->|]; [by rewrite lookup_insert_eq|by rewrite lookup_insert_ne]. }
  split. { destruct (allocated_blocks_ st !! b_ptr b) as [j|] eqn:Hj; [|done]. apply (w_map _ _ HW) in Hj as [n Hn]. by destruct (Hnone j n). }
  split. { destruct (in_use st !! b_ptr b) as [n|] eqn:Hn; [|done]. apply (rdma_in_use_lookup ext) in Hn as [j Hj]; [|done]. by destruct (Hnone j n). }
  cbv zeta. set (st' := set_allocated_blocks _ _).
  assert (HW' : wf ext st').
  { eapply wf_same; [done|by split|cbn; by apply pool_take| |]; cbn.
    - intros j Hj. apply (w_ids _ _ HW). destruct (decide (j = i)) as [->|]; [by eexists|by rewrite lookup_insert_ne in Hj].
    - intros p j. rewrite Hal. destruct (decide (p = b_ptr b)) as [->|Hp].
      + rewrite lookup_insert_eq. destruct (decide (j = i)) as [->|Hji]; [by split; [exists (b_size b)|]|].
        split; [intros [= ->]; done|]. intros [n Hn]. by destruct (Hnone j n).
      + rewrite lookup_insert_ne by done. rewrite (w_map _ _ HW). destruct (decide (j = i)) as [->|]; [|done].
        split; [|by intros [n [= ?]]]. intros [n (b' & ? & ? & _)%allocs_Some]. congruence. }
  split; [done|]. split; [by split|]. apply map_eq. intros q. apply option_eq. intros m.
  rewrite (rdma_in_use_lookup ext st') by done. cbn. rewrite lookup_insert_Some, (rdma_in_use_lookup ext st) by done. split.
  - intros [j Hj]. rewrite Hal in Hj. destruct (decide (j = i)) as [->|Hji]; [left; naive_solver|]. right. split; [|by exists j].
    intros <-. by destruct (Hnone j m).
  - intros [[<- <-]|[Hne [j Hj]]]; [exists i|exists j]; rewrite Hal; [by rewrite decide_True|]. rewrite decide_False; [done|].
    intros ->. apply allocs_Some in Hj as (b' & ? & ? & _). congruence.
Qed.

Lemma rdma_Malloc_ok ext st size dev :
  wf ext st -> 0 < GetAlignedBlockSize size ->
  exists p st', Malloc size dev st = Some (p, st') /\ wf ext st' /\ same_pool st st' /\
    ((p = 0 /\ st' = st /\ forall i b, blocks st !! i = Some b -> b_allocated b = false -> b_size b < GetAlignedBlockSize size) \/
     (exists n, 0 < p /\ GetAlignedBlockSize size <= n /\ in_use st !! p = None /\ in_use st' = <[p := n]> (in_use st))).
Proof.
  intros HW Hpos. pose proof (w_pool _ _ HW) as HP. unfold Malloc. set (sz := GetAlignedBlockSize size) in *.
  erewrite rdma_bind_eq by reflexivity. cbv beta. erewrite rdma_bind_eq by reflexivity. cbv beta.
  destruct (set_lower_bound (blocks st) (sz, 0) (block_bin_ st)) as [i|] eqn:Hlb.
  2: { exists 0, st. split; [done|]. split; [done|]. split; [done|]. left. split_and!; [done..|]. intros i b Hi Ha.
       pose proof (set_lower_bound_None _ _ _ Hlb i) as Hless. unfold block_key in Hless. rewrite Hi in Hless.
       pose proof (ho_range _ _ (p_heap _ _ _ _ HP) _ _ Hi) as Hr. unfold key_less in Hless. cbn in Hless.
       specialize (Hless (proj2 (p_elem _ _ _ _ HP i) (ex_intro _ b (conj Hi (conj Ha (fun H : Some i = None => ltac:(discriminate H))))))).
       destruct (Z.eqb_spec (b_size b) sz); cbn [negb] in Hless; apply Z.ltb_lt in Hless; lia. }
  destruct (set_lower_bound_Some _ _ _ _ Hlb) as (Hin & Hkey & _). apply key_not_less_size in Hkey. cbn in Hkey.
  apply (p_elem _ _ _ _ HP) in Hin as (b & Hi & Ha & _). unfold block_key in Hkey. rewrite Hi in Hkey. cbn in Hkey.
  pose proof (ho_range _ _ (p_heap _ _ _ _ HP) _ _ Hi) as Hr. destruct (pool_nb _ _ _ _ _ HP Hi Ha) as [_ Hnb].
  destruct (wf_take ext st i b HW Hi Ha) as (Hm & Hu & HW2 & HS2 & Hu2). set (st2 := set_allocated_blocks _ _) in *.
  erewrite rdma_bind_eq by reflexivity. erewrite bind_heap by (unfold upd; cbn; rewrite Hi; reflexivity).
  assert (H2 : blocks st2 !! i = Some (set_allocated true b)) by apply lookup_insert_eq.
  erewrite rdma_bind_eq by (unfold deref; cbn [blocks set_pool]; rewrite lookup_insert_eq; reflexivity).
  cbn [b_ptr set_allocated]. destruct (Z.eqb_spec (b_ptr b) 0) as [|_]; [lia|].
  erewrite rdma_bind_eq by reflexivity. cbn [allocated_blocks_ set_pool]. rewrite Hm. fold st2.
  destruct (split_block_ok ext st2 i (set_allocated true b) sz dev HW2 H2 eq_refl) as (st' & n & Hrun & HW' & HS' & Hn & Hu').
  - cbn. destruct (b_next b) as [q|] eqn:Hq; [|done]. destruct Hnb as (bq & Hbq & Haq).
    destruct (heap_ok_next _ _ (p_heap _ _ _ _ HP) _ _ _ Hi Hq) as (_ & _ & _ & _ & _ & Hqi).
    exists bq. by rewrite lookup_insert_ne.
  - cbn. lia.
  - erewrite rdma_bind_eq by exact Hrun. exists (b_ptr b), st'. split; [done|]. split; [done|]. split.
    { destruct HS2, HS'. split; congruence. }
    right. exists n. split; [lia|]. split; [done|]. split; [done|]. rewrite Hu', Hu2. cbn. by rewrite insert_insert_eq.
Qed.

(** ** The regions in use, and the gaps between them *)
Lemma in_use_inside ext st p n :
  wf ext st -> in_use st !! p = Some n ->
  0 < p /\ 0 < n /\ rdma_base_addr_ st <= p /\ p + n <= rdma_base_addr_ st + rdma_mem_size_ st /\ p + n < 2 ^ 64.
Proof.
  intros HW Hp. apply (rdma_in_use_lookup ext) in Hp as [i Hi]; [|done]. apply allocs_Some in Hi as (b & Hi & _ & <- & <-).
  pose proof (p_heap _ _ _ _ (w_pool _ _ HW)) as HO. pose proof (ho_range _ _ HO _ _ Hi).
  destruct (ho_ext _ _ HO _ _ Hi) as (base & len & He & ? & ? & _). unfold b_end in *.
  destruct (w_ext _ _ HW) as [->|[_ ->]]; [done|]. apply lookup_singleton_Some in He as [<- <-]. lia.
Qed.

Lemma in_use_apart ext st p n q m :
  wf ext st -> in_use st !! p = Some n -> in_use st !! q = Some m -> p <> q -> p + n <= q \/ q + m <= p.
Proof.
  intros HW Hp Hq Hne. apply (rdma_in_use_lookup ext) in Hp as [i Hi]; [|done]. apply (rdma_in_use_lookup ext) in Hq as [j Hj]; [|done].
  apply allocs_Some in Hi as (bi & Hi & _ & <- & <-), Hj as (bj & Hj & _ & <- & <-).
  apply (ho_disj _ _ (p_heap _ _ _ _ (w_pool _ _ HW)) i bi j bj Hi Hj). congruence.
Qed.

(** A gap between the regions in use lies inside one free block. *)
Lemma gap_in_block ext st a k :
  wf ext st -> ext = {[rdma_base_addr_ st := rdma_mem_size_ st]} -> 0 < k ->
  rdma_base_addr_ st <= a -> a + k <= rdma_base_addr_ st + rdma_mem_size_ st ->
  (forall q m, in_use st !! q = Some m -> a + k <= q \/ q + m <= a) ->
  exists i b, blocks st !! i = Some b /\ b_allocated b = false /\ k <= b_size b.
Proof.
  intros HW Hext Hk Hlo Hhi Hgap. pose proof (w_pool _ _ HW) as HP. pose proof (p_heap _ _ _ _ HP) as HO.
  assert (He : ext !! rdma_base_addr_ st = Some (rdma_mem_size_ st)) by (rewrite Hext; apply lookup_singleton_eq).
  destruct (heap_ok_covers _ _ _ _ a HO He) as (i & b & Hi & Ha1 & Ha2); [lia|].
  assert (Hused : forall j bj, blocks st !! j = Some bj -> b_allocated bj = true -> a + k <= b_ptr bj \/ b_end bj <= a).
  { intros j bj Hj Haj. apply Hgap. apply (rdma_in_use_lookup ext); [done|]. exists j. unfold allocs. by rewrite Hj, Haj. }
  pose proof (ho_range _ _ HO _ _ Hi) as Hr. unfold b_end in *. destruct (b_allocated b) eqn:Hab; [specialize (Hused _ _ Hi Hab); lia|].
  exists i, b. split; [done|]. split; [done|]. destruct (Z.le_gt_cases k (b_size b)); [done|]. exfalso.
  destruct (ho_ext _ _ HO _ _ Hi) as (base & len & Hb & ? & ? & _ & Hnx). rewrite Hext in Hb. apply lookup_singleton_Some in Hb as [<- <-].
  destruct (b_next b) as [j|] eqn:Hn; [|pose proof (proj1 Hnx eq_refl); unfold b_end in *; lia].
  destruct (pool_nb _ _ _ _ _ HP Hi Hab) as [_ Hnb]. rewrite Hn in Hnb. destruct Hnb as (bj & Hj & Haj).
  destruct (ho_next _ _ HO _ _ _ Hi Hn) as (bj' & Hj' & _ & Hp & _). simplify_eq.
  pose proof (ho_range _ _ HO _ _ Hj). specialize (Hused _ _ Hj Haj). unfold b_end in *. lia.
Qed.

(** ** InitMemory *)
Lemma heap_ok_no_extent h : heap_ok h ∅ -> h = ∅.
Proof.
  intros HO. apply map_eq. intros i. rewrite lookup_empty. destruct (h !! i) as [b|] eqn:Hi; [|done].
  by destruct (ho_ext _ _ HO _ _ Hi) as (? & ? & ? & _).
Qed.

Lemma wf_no_extent st : wf ∅ st -> blocks st = ∅ /\ block_bin_ st = [] /\ allocated_blocks_ st = ∅ /\ in_use st = ∅.
Proof.
  intros HW. pose proof (w_pool _ _ HW) as HP. pose proof (heap_ok_no_extent _ (p_heap _ _ _ _ HP)) as Hb.
  assert (Hm : allocated_blocks_ st = ∅).
  { apply map_eq. intros p. rewrite lookup_empty. destruct (allocated_blocks_ st !! p) as [i|] eqn:Hi; [|done].
    apply (w_map _ _ HW) in Hi as [n Hn]. unfold allocs in Hn. by rewrite Hb in Hn. }
  split_and!; [done| |done|unfold in_use; rewrite Hm; apply omap_empty].
  destruct (block_bin_ st) as [|i l]; [done|]. assert (Hi : i ∈ i :: l) by left.
  apply (p_elem _ _ _ _ HP) in Hi as (b & Hi & _). by rewrite Hb in Hi.
Qed.

Lemma wf_idle base size t r n : (base <> 0 -> is_Some t) -> wf ∅ (mkRdma size base t [] ∅ ∅ n r).
Proof.
  intros Hb. split; cbn; [apply pool_empty| | |by left|done].
  - intros i [b Hi]. by rewrite lookup_empty in Hi.
  - intros p i. rewrite lookup_empty. split; [done|]. intros [m Hm]. unfold allocs in Hm. by rewrite lookup_empty in Hm.
Qed.

(** A pool of one free block. *)
Lemma wf_base_block addr size t n dev r :
  0 < addr -> 0 < size -> addr + size < 2 ^ 64 ->
  let st := mkRdma size addr (Some t) [n] ∅ {[n := new_Block dev size None addr]} (S n) r in
  wf {[addr := size]} st /\ in_use st = ∅.
Proof.
  intros Hp Hs Hw st. split; [|apply omap_empty].
  assert (Hone : forall j b, blocks st !! j = Some b -> j = n /\ b = new_Block dev size None addr) by (cbn; by intros j b [<- <-]%lookup_singleton_Some).
  split; cbn.
  - split.
    + by apply (heap_ok_add ∅ ∅).
    + by intros j b [-> ->]%Hone.
    + intros j. rewrite list_elem_of_singleton. split; [|by intros (b & [-> _]%Hone & _)]. intros ->. eexists. by rewrite lookup_singleton_eq.
    + by repeat constructor.
    + by intros j b k b' [-> ->]%Hone.
  - intros j [b [-> _]%Hone]. lia.
  - intros p j. rewrite lookup_empty. split; [done|]. intros [m (b & [-> ->]%Hone & ? & _)%allocs_Some]. done.
  - right. split; [lia|done].
  - intros _. by eexists.
Qed.

Lemma InitMemory_ok ext st dev size t :
  wf ext st -> memory_allocator_ st = Some t -> rdma_base_addr_ st = 0 -> 0 < size ->
  exists s ext' st', InitMemory dev size st = Some (s, st') /\ wf ext' st' /\ memory_allocator_ st' = Some t /\
    (s = SUCCESS -> rdma_base_addr_ st' <> 0 /\ rdma_mem_size_ st' = size /\ ext' = {[rdma_base_addr_ st' := size]}) /\ in_use st' = ∅ /\
    (reset_keeps dev -> backed st' /\ kept (held st) (rt st) (held st') (rt st')).
Proof.
  intros HW Ht Hbase Hsize. destruct (w_ext _ _ HW) as [->|[? _]]; [|done]. destruct (wf_no_extent st HW) as (Hb & Hl & Hm & _).
  destruct st as [sz0 base0 t0 l0 m0 h0 n0 r0]. cbn in *. subst base0 t0 l0 m0 h0. unfold InitMemory, InitMemory_body.
  erewrite rdma_bind_eq by reflexivity. cbn. pose proof (set_device_live dev r0) as Hr1.
  assert (Hidle : forall sz base n r, in_use (mkRdma sz base (Some t) [] ∅ ∅ n r) = ∅ /\ wf ∅ (mkRdma sz base (Some t) [] ∅ ∅ n r)).
  { intros sz base n r. assert (Hw : wf ∅ (mkRdma sz base (Some t) [] ∅ ∅ n r)) by (apply wf_idle; eauto). by destruct (wf_no_extent _ Hw) as (_ & _ & _ & ?). }
  destruct (rtSetDevice dev r0) as [err r1]. cbn in Hr1. destruct (Z.eqb_spec err RT_ERROR_NONE) as [->|_]; cbn [negb].
  2: { destruct (Hidle sz0 0 n0 r1) as [? ?]. eexists _, ∅, _. split; [reflexivity|]. split; [done|]. split; [done|]. split; [done|].
       split; [done|]. split; [by apply backed_idle|by apply kept_same]. }
  destruct (MallocMemory t size r1) as [addr r2] eqn:Hmm. destruct (MallocMemory_spec _ _ _ _ _ Hmm Hsize) as [[-> Hr2]|(Hp & Hwrap & Hfresh & Hr2 & Hd)].
  { cbn. destruct (Hidle sz0 0 n0 (rtDeviceReset dev r2).2) as [? ?]. eexists _, ∅, _. split; [reflexivity|]. split; [done|]. split; [done|].
    split; [done|]. split; [done|]. intros Hreset. split; [by apply backed_idle|]. apply kept_same. cbn. by rewrite Hreset, Hr2. }
  destruct (Z.eqb_spec addr 0) as [|_]; [lia|]. unfold new_block, mbind, M_bind, set_base, set_rt. cbn. rewrite Hr1 in *.
  assert (Hgrow : forall l h n r3, rt_live r3 = rt_live r2 -> reset_keeps dev ->
    let st' := mkRdma size addr (Some t) l ∅ h n (rtDeviceReset dev r3).2 in backed st' /\ kept ∅ r0 (held st') (rt st')).
  { intros l h n r3 Hr3 Hreset st'. unfold backed, held. cbn. destruct (Z.eqb_spec addr 0) as [|_]; [lia|].
    rewrite Hreset, Hr3, Hr2. split; [apply insert_mono, map_empty_subseteq|].
    by apply (kept_grow ∅); rewrite ?Hreset, ?Hr3. }
  destruct (new_nothrow r2) as [[] r3] eqn:Hnew; pose proof (new_nothrow_live _ _ _ Hnew) as Hr3; cbn.
  2: { destruct (Hidle size addr n0 (rtDeviceReset dev r3).2) as [? ?].
       eexists _, ∅, _. split; [reflexivity|]. split; [done|]. split; [done|]. split; [done|]. split; [done|]. by apply Hgrow. }
  destruct (wf_base_block addr size t n0 dev (rtDeviceReset dev r3).2 Hp Hsize Hwrap) as [HW' Hu].
  eexists _, {[addr := size]}, _. split; [reflexivity|]. split; [exact HW'|]. split; [done|]. split; [intros _; cbn; split_and!; [lia|done|done]|].
  split; [exact Hu|]. by apply Hgrow.
Qed.

(** ** Finalize *)
Lemma delete_blocks_ok l : forall st, NoDup l -> (forall i, i ∈ l -> is_Some (blocks st !! i)) ->
  exists h, delete_blocks l st = Some (tt, set_pool (block_bin_ st) h st) /\ forall j, h !! j = if decide (j ∈ l) then None else blocks st !! j.
Proof.
  induction l as [|i l IH]; intros st Hnd Hl; cbn [delete_blocks].
  { exists (blocks st). rewrite set_pool_id. split; [done|]. intros j. by rewrite decide_False by set_solver. }
  apply NoDup_cons in Hnd as [Hi Hnd]. destruct (Hl i ltac:(left)) as [b Hb].
  erewrite rdma_bind_eq by (unfold delete_block, deref, mbind, M_bind; rewrite Hb; reflexivity).
  destruct (IH (set_pool (block_bin_ st) (delete i (blocks st)) st) Hnd) as (h & Hrun & Hh).
  { intros j Hj. cbn. rewrite lookup_delete_ne by (intros ->; done). apply Hl. by right. }
  exists h. split; [exact Hrun|]. intros j. rewrite Hh. cbn. destruct (decide (j ∈ l)) as [Hj|Hj].
  - by rewrite decide_True by (by right).
  - destruct (decide (j = i)) as [->|Hji]; [rewrite lookup_delete_eq, decide_True by left; done|].
    rewrite lookup_delete_ne by done. by rewrite decide_False by (intros [->|?]%elem_of_cons; done).
Qed.

Lemma map_order_blocks ext st : wf ext st ->
  NoDup ((map_order (allocated_blocks_ st)).*2) /\ forall i, i ∈ (map_order (allocated_blocks_ st)).*2 <-> is_Some (allocs (blocks st) i).
Proof.
  intros HW. split.
  - rewrite map_order_perm. apply NoDup_fmap_2_strong; [|apply NoDup_map_to_list].
    intros [p i] [q j] Hp%elem_of_map_to_list Hq%elem_of_map_to_list. cbn. intros <-.
    apply (w_map _ _ HW) in Hp as [n Hn], Hq as [m Hm]. congruence.
  - intros i. rewrite map_order_perm, list_elem_of_fmap. split.
    + intros ([p j] & -> & Hp%elem_of_map_to_list). apply (w_map _ _ HW) in Hp as [n Hn]. by exists (p, n).
    + intros [[p n] Hp]. exists (p, i). split; [done|]. apply elem_of_map_to_list, (w_map _ _ HW). by exists n.
Qed.

(** Finalize deletes every block object and gives the pool back. *)
Lemma rdma_Finalize_ok ext st :
  wf ext st -> exists st', Finalize st = Some (tt, st') /\ wf ∅ st' /\ rdma_base_addr_ st' = 0 /\ memory_allocator_ st' = memory_allocator_ st /\
    (backed st -> kept (held st) (rt st) ∅ (rt st')).
Proof.
  intros HW. pose proof (w_pool _ _ HW) as HP. destruct (map_order_blocks ext st HW) as [Hnd Hel]. unfold Finalize.
  erewrite rdma_bind_eq by reflexivity. cbv beta. erewrite rdma_bind_eq by reflexivity.
  destruct (delete_blocks_ok (map_order (allocated_blocks_ st)).*2 (set_allocated_blocks ∅ st) Hnd) as (h1 & Hrun1 & Hh1).
  { intros i Hi%Hel. destruct Hi as [[p n] (b & Hb & _)%allocs_Some]. by exists b. }
  erewrite rdma_bind_eq by exact Hrun1. erewrite rdma_bind_eq by reflexivity. cbv beta. erewrite rdma_bind_eq by reflexivity. cbn [block_bin_ set_pool set_allocated_blocks].
  destruct (delete_blocks_ok (block_bin_ st) (set_pool [] h1 (set_allocated_blocks ∅ st)) (bin_sorted_NoDup _ _ (p_sorted _ _ _ _ HP))) as (h2 & Hrun2 & Hh2).
  { intros i (b & Hb & Ha & _)%(p_elem _ _ _ _ HP). cbn. rewrite Hh1. cbn. rewrite decide_False; [by exists b|].
    intros [[p n] (b' & ? & ? & _)%allocs_Some]%Hel. congruence. }
  erewrite rdma_bind_eq by exact Hrun2. erewrite rdma_bind_eq by reflexivity. cbv beta. cbn [rdma_base_addr_ set_pool set_allocated_blocks].
  assert (h2 = ∅) as ->.
  { apply map_eq. intros i. rewrite lookup_empty, Hh2. cbn. rewrite Hh1. cbn. destruct (decide (i ∈ block_bin_ st)) as [|Hin]; [done|].
    destruct (decide (i ∈ _)) as [|Hout]; [done|]. destruct (blocks st !! i) as [b|] eqn:Hb; [|done]. exfalso. destruct (b_allocated b) eqn:Ha.
    - apply Hout, Hel. unfold allocs. rewrite Hb, Ha. by eexists.
    - apply Hin, (p_elem _ _ _ _ HP). by exists b. }
  destruct (Z.eqb_spec (rdma_base_addr_ st) 0) as [H0|H0].
  - eexists. split; [reflexivity|]. cbn. split; [by apply wf_idle|]. split; [done|]. split; [done|]. intros _. unfold held. rewrite H0. cbn. by apply kept_same.
  - destruct (w_alloc _ _ HW H0) as [t Ht]. cbn. rewrite Ht. destruct (FreeMemory (rdma_base_addr_ st) (rt st)) as [s r] eqn:Hf.
    eexists. split; [reflexivity|]. cbn. split; [by apply wf_idle|]. split; [done|]. split; [done|].
    intros Hlive%backed_live; [|done]. unfold held. destruct (Z.eqb_spec (rdma_base_addr_ st) 0) as [|_]; [done|].
    rewrite <- (delete_singleton_eq (rdma_base_addr_ st) (rdma_mem_size_ st)). eapply kept_free; [done|done|apply lookup_singleton_eq].
Qed.
End Methods.

(** * The specification

    The abstract state is the set of regions in use; [base] and [len] are the pool. *)
Inductive rdma_call :=
| RMalloc (size device_id : Z)
| RFree (memory_addr : Z).

Inductive rdma_answer :=
| RAddr (p : Z)
| RStatus (s : Status).

(** The arguments are size_t values; the rounding wraps on the last 511. *)
Definition rdma_call_ok (c : rdma_call) : Prop :=
  match c with
  | RMalloc size _ => 0 <= size <= 2 ^ 64 - kAlignedSize
  | RFree _ => True
  end.

(** [size] bytes are free at [a]. *)
Definition gap (base len : Z) (u : gmap Z Z) (a size : Z) : Prop :=
  base <= a /\ a + size <= base + len /\ forall q m, u !! q = Some m -> a + size <= q \/ q + m <= a.

Inductive rdma_step (base len : Z) (u : gmap Z Z) : rdma_call -> rdma_answer -> gmap Z Z -> Prop :=
| rdma_null size dev : rdma_step base len u (RMalloc size dev) (RAddr 0) u
| rdma_malloc size dev p n :
    0 < p -> size <= n -> gap base len u p n -> u !! p = None ->
    rdma_step base len u (RMalloc size dev) (RAddr p) (<[p := n]> u)
| rdma_free p n : u !! p = Some n -> rdma_step base len u (RFree p) (RStatus SUCCESS) (delete p u)
| rdma_free_null : rdma_step base len u (RFree 0) (RStatus GE_GRAPH_FREE_FAILED) u
| rdma_free_unknown p : p <> 0 -> u !! p = None -> rdma_step base len u (RFree p) (RStatus PARAM_INVALID) u.

Inductive rdma_run (base len : Z) : gmap Z Z -> list rdma_call -> list rdma_answer -> gmap Z Z -> Prop :=
| rdma_run_nil u : rdma_run base len u [] [] u
| rdma_run_cons u c a u1 cs l u2 :
    rdma_step base len u c a u1 -> rdma_run base len u1 cs l u2 -> rdma_run base len u (c :: cs) (a :: l) u2.

Lemma GetAlignedBlockSize_round size :
  0 <= size <= 2 ^ 64 - kAlignedSize ->
  0 < GetAlignedBlockSize size /\ size <= GetAlignedBlockSize size /\ (kAlignedSize | GetAlignedBlockSize size).
Proof.
  unfold GetAlignedBlockSize, kAlignedSize. intros Hs. destruct (Z.eqb_spec size 0) as [->|Hne]; [split_and!; [lia|lia|by exists 1]|].
  rewrite (wrapU64_id (size + 512 - 1)) by lia. pose proof (Z.div_mod (size + 512 - 1) 512). pose proof (Z.mod_pos_bound (size + 512 - 1) 512).
  rewrite wrapU64_id by lia. split_and!; [lia|lia|]. exists ((size + 512 - 1) / 512). lia.
Qed.

Section Theorems.
Context `{R : Runtime} {RO : RuntimeOk R} {D : DeviceApi R} {DO : DeviceApiOk R RO D}.

Definition rdma_do (c : rdma_call) : M rdma_answer :=
  match c with
  | RMalloc size device_id => p ← Malloc size device_id; mret (RAddr p)
  | RFree memory_addr => s ← Free memory_addr; mret (RStatus s)
  end.

Fixpoint rdma_calls (cs : list rdma_call) : M (list rdma_answer) :=
  match cs with
  | [] => mret []
  | c :: cs => a ← rdma_do c; l ← rdma_calls cs; mret (a :: l)
  end.

Lemma rdma_do_ok ext st c :
  wf ext st -> rdma_call_ok c ->
  exists a st', rdma_do c st = Some (a, st') /\ wf ext st' /\ same_pool st st' /\
    rdma_step (rdma_base_addr_ st) (rdma_mem_size_ st) (in_use st) c a (in_use st').
Proof.
  intros HW Hc. destruct c as [size dev|p]; cbn [rdma_do].
  - destruct (GetAlignedBlockSize_round size Hc) as (Hpos & Hle & _).
    destruct (rdma_Malloc_ok ext st size dev HW Hpos) as (p & st' & Hrun & HW' & HS & Hres).
    exists (RAddr p), st'. erewrite rdma_bind_eq by exact Hrun. split; [done|]. split; [done|]. split; [done|].
    destruct Hres as [(-> & -> & _)|(n & Hp & Hn & Hnone & Hu)]; [constructor|].
    assert (Hin : in_use st' !! p = Some n) by (rewrite Hu; apply lookup_insert_eq).
    destruct (in_use_inside ext st' p n HW' Hin) as (_ & _ & Hlo & Hhi & _). rewrite (sp_base _ _ HS), (sp_size _ _ HS) in *.
    rewrite Hu. constructor; [done|lia| |done]. split; [done|]. split; [done|]. intros q m Hq. assert (p <> q) by congruence.
    apply (in_use_apart ext st' p n q m HW' Hin); [by rewrite Hu, lookup_insert_ne|done].
  - destruct (in_use st !! p) as [n|] eqn:Hp.
    + destruct (rdma_Free_ok ext st p n HW Hp) as (st' & Hrun & HW' & HS & Hu). exists (RStatus SUCCESS), st'.
      erewrite rdma_bind_eq by exact Hrun. split; [done|]. split; [done|]. split; [done|]. rewrite Hu. by econstructor.
    + eexists _, st. erewrite rdma_bind_eq by (by eapply rdma_Free_unknown). split; [reflexivity|]. split; [done|]. split; [done|].
      destruct (Z.eqb_spec p 0) as [->|]; by constructor.
Qed.

Lemma rdma_calls_ok cs : forall ext st, wf ext st -> Forall rdma_call_ok cs ->
  exists l st', rdma_calls cs st = Some (l, st') /\ wf ext st' /\ same_pool st st' /\
    rdma_run (rdma_base_addr_ st) (rdma_mem_size_ st) (in_use st) cs l (in_use st').
Proof.
  induction cs as [|c cs IH]; intros ext st HW Hcs; cbn [rdma_calls].
  { exists [], st. split; [done|]. split; [done|]. split; [done|]. constructor. }
  apply Forall_cons in Hcs as [Hc Hcs]. destruct (rdma_do_ok ext st c HW Hc) as (a & st1 & Hrun & HW1 & HS1 & Hstep).
  destruct (IH ext st1 HW1 Hcs) as (l & st2 & Hrun2 & HW2 & HS2 & Hsteps). destruct HS1 as [B1 S1 A1 L1], HS2 as [B2 S2 A2 L2].
  rewrite B1, S1 in Hsteps. exists (a :: l), st2. erewrite rdma_bind_eq by exact Hrun. erewrite rdma_bind_eq by exact Hrun2.
  split; [done|]. split; [done|]. split; [split; congruence|]. by econstructor.
Qed.

(** C6 The whole life of an RDMA pool: constructed, initialised, given a pool of [len] bytes, used by any
    sequence of Malloc and Free calls and finalised, it never dereferences or deletes a bad
    pointer.  The answers are a run of the specification: every region handed out holds the
    request, lies inside the pool and overlaps no region in use; Free takes back exactly the
    region that starts at its argument and refuses all others.  At the end no block object and no
    base address is left.  All this holds whatever rtDeviceReset does.  On a device that refuses no
    release, Finalize gives back exactly the region of the pool if the reset at the end of
    InitMemory left it live; and if that reset leaves the memory of the device in place, which
    InitMemory relies on and the header of the runtime does not say, the device has at the end the memory it had
    before, whether or not the pool could be set up. *)
Theorem rdma_lifecycle t r dev len cs :
  0 < len -> Forall rdma_call_ok cs ->
  exists s st1 l st2 st3, (_ ← Initialize (Some t); InitMemory dev len) (RdmaPool_new r) = Some (s, st1) /\
    rdma_calls cs st1 = Some (l, st2) /\ rdma_run (rdma_base_addr_ st1) (rdma_mem_size_ st1) ∅ cs l (in_use st2) /\
    Finalize st2 = Some (tt, st3) /\ blocks st3 = ∅ /\ rdma_base_addr_ st3 = 0 /\
    (rtFree_total -> backed st1 -> rt_live (rt st3) = rt_live (rt st1) ∖ held st1) /\
    (rtFree_total -> reset_keeps dev -> rt_live (rt st3) = rt_live r).
Proof.
  intros Hlen Hcs. erewrite rdma_bind_eq by reflexivity.
  destruct (InitMemory_ok ∅ (mkRdma 0 0 (Some t) [] ∅ ∅ 0 r) dev len t) as (s & ext & st1 & Hrun1 & HW1 & _ & _ & Hu1 & Hlive);
    [by apply wf_idle|done..|].
  destruct (rdma_calls_ok cs ext st1 HW1 Hcs) as (l & st2 & Hrun2 & HW2 & HS & Hspec).
  destruct (rdma_Finalize_ok ext st2 HW2) as (st3 & Hrun3 & HW3 & H0 & _ & Hfree).
  assert (Hmid : held st2 = held st1 /\ rt_live (rt st2) = rt_live (rt st1)).
  { destruct HS as [Hb Hs _ Hl]. unfold held. by rewrite Hb, Hs. }
  destruct Hmid as [Hh Hl]. exists s, st1, l, st2, st3. rewrite Hu1 in Hspec. split_and!; [done..|by apply wf_no_extent|done| |].
  - intros HT HB. rewrite <- Hh, <- Hl. unfold backed in *. rewrite Hh, Hl in Hfree. rewrite Hh. by apply kept_gives_back, Hfree.
  - intros HT [HB HK]%Hlive. eapply (kept_all r); [|done]. eapply kept_trans; [exact HK|]. rewrite <- Hh.
    eapply kept_trans; [by apply kept_same|]. apply Hfree. unfold backed. by rewrite Hh, Hl.
Qed.

(** C36 The pool wastes nothing: on an initialised pool Malloc succeeds exactly when somewhere between the
    regions in use there is room for the request, rounded up to 512 bytes.  In particular an
    empty pool can be handed out as a whole again, however it was cut before. *)
Theorem rdma_malloc_exact ext st size dev :
  wf ext st -> ext = {[rdma_base_addr_ st := rdma_mem_size_ st]} -> 0 <= size <= 2 ^ 64 - kAlignedSize ->
  exists p st', Malloc size dev st = Some (p, st') /\
    (p <> 0 <-> exists a, gap (rdma_base_addr_ st) (rdma_mem_size_ st) (in_use st) a (GetAlignedBlockSize size)) /\
    (p = 0 -> st' = st).
Proof.
  intros HW Hext Hs. destruct (GetAlignedBlockSize_round size Hs) as (Hpos & _).
  destruct (rdma_Malloc_ok ext st size dev HW Hpos) as (p & st' & Hrun & HW' & HS & Hres). exists p, st'. split; [done|].
  destruct Hres as [(-> & -> & Hsmall)|(n & Hp & Hn & Hnone & Hu)].
  - split; [|done]. split; [done|]. intros (a & Hlo & Hhi & Hgap).
    destruct (gap_in_block ext st a _ HW Hext Hpos Hlo Hhi Hgap) as (i & b & Hi & Ha & Hk). specialize (Hsmall i b Hi Ha). lia.
  - split; [|lia]. split; [|lia]. intros _. exists p.
    assert (Hin : in_use st' !! p = Some n) by (rewrite Hu; apply lookup_insert_eq).
    destruct (in_use_inside ext st' p n HW' Hin) as (_ & _ & Hlo & Hhi & _). rewrite (sp_base _ _ HS), (sp_size _ _ HS) in *.
    split; [done|]. split; [lia|]. intros q m Hq. assert (p <> q) by congruence.
    destruct (in_use_apart ext st' p n q m HW' Hin); [by rewrite Hu, lookup_insert_ne|done|lia|lia].
Qed.
End Theorems.

(** * Concrete runs *)
#[export] Instance sample_device : DeviceApi sample_runtime := {| rtSetDevice := fun _ r => (0, r); rtDeviceReset := fun _ r => (0, r) |}.
#[export] Instance sample_device_ok : DeviceApiOk sample_runtime sample_runtime_ok sample_device.
Proof. by split. Qed.

Definition pool_rt : @RT sample_runtime := {| srt_live := ∅; srt_top := 0 |}.
Definition pool_calls : list rdma_call := [RMalloc 1000 0; RMalloc 100 0; RFree 4096; RMalloc 8000 0; RFree 7].

Lemma rdma_lifecycle_witness :
  exists s st1 l st2 st3, (_ ← Initialize (Some 2); InitMemory 0 8192) (RdmaPool_new pool_rt) = Some (s, st1) /\
    rdma_calls pool_calls st1 = Some (l, st2) /\ rdma_run (rdma_base_addr_ st1) (rdma_mem_size_ st1) ∅ pool_calls l (in_use st2) /\
    Finalize st2 = Some (tt, st3) /\ rt_live (rt st3) = rt_live pool_rt.
Proof.
  destruct (rdma_lifecycle 2 pool_rt 0 8192 pool_calls) as (s & st1 & l & st2 & st3 & H1 & H2 & H3 & H4 & _ & _ & _ & H5).
  - lia.
  - repeat constructor; cbn; unfold kAlignedSize; lia.
  - exists s, st1, l, st2, st3. refine (conj H1 (conj H2 (conj H3 (conj H4 (H5 _ _))))).
    + intros p r n Hn. cbn in *. by rewrite Hn.
    + by intros r.
Defined.

(** A runtime whose reset releases the memory of the device, which its header does not rule out: InitMemory succeeds
    and Malloc hands out an address in a region that is gone. *)
Definition wipe (r : sample_rt) : Z * sample_rt := (0, {| srt_live := ∅; srt_top := srt_top r |}).
Definition wiping_device : DeviceApi sample_runtime :=
  Build_DeviceApi sample_runtime (fun _ r => (0, r)) (fun _ => wipe).

Theorem reset_loses_pool :
  match (_ ← Initialize (Some 2); s ← InitMemory (D := wiping_device) 0 8192; p ← Malloc 1000 0; mret (s, p)) (RdmaPool_new pool_rt) with
  | Some ((s, p), st) => s = SUCCESS /\ p = rdma_base_addr_ st /\ p <> 0 /\ in_use st = {[p := 1024]} /\ rt_live (rt st) = ∅
  | None => False
  end.
Proof. vm_compute. repeat split; done. Qed.

(** A pool of 8192 bytes at 4096, and the same with bytes 5120 to 5631 in use. *)
Definition idle_pool : RdmaPool :=
  mkRdma 8192 4096 (Some 2) [0%nat] ∅ {[0%nat := new_Block 0 8192 None 4096]} 1
    ({| srt_live := {[4096 := 8192]}; srt_top := 12288 |} : @RT sample_runtime).
Definition busy_calls : list rdma_call := [RMalloc 1000 0; RMalloc 100 0; RFree 4096].
Definition busy_pool : RdmaPool := match rdma_calls busy_calls idle_pool with Some (_, st) => st | None => idle_pool end.

Lemma busy_pool_wf : wf {[4096 := 8192]} busy_pool.
Proof.
  destruct (wf_base_block (R := sample_runtime) 4096 8192 2 0 0 {| srt_live := {[4096 := 8192]}; srt_top := 12288 |}) as [HW _]; [done..|].
  destruct (rdma_calls_ok busy_calls _ idle_pool HW) as (l & st' & Hrun & HW' & _).
  { repeat constructor; cbn; unfold kAlignedSize; lia. }
  unfold busy_pool. rewrite Hrun. exact HW'.
Qed.

Lemma busy_pool_in_use : in_use busy_pool = {[5120 := 512]}.
Proof. by vm_compute. Qed.

Lemma rdma_malloc_exact_witness : exists p st', Malloc 6000 0 busy_pool = Some (p, st') /\ p <> 0.
Proof.
  destruct (rdma_malloc_exact _ busy_pool 6000 0 busy_pool_wf) as (p & st' & Hrun & Hiff & _).
  - reflexivity.
  - unfold kAlignedSize. lia.
  - exists p, st'. split; [exact Hrun|]. apply Hiff. exists 5632. unfold gap. rewrite busy_pool_in_use.
    change (rdma_base_addr_ busy_pool) with 4096. change (rdma_mem_size_ busy_pool) with 8192. change (GetAlignedBlockSize 6000) with 6144.
    split; [lia|]. split; [lia|]. intros q m [<- <-]%lookup_singleton_Some. lia.
Defined.

(** For the last 511 sizes of size_t the rounding wraps around to zero: Malloc answers an address
    although it can hold nothing, and a second call answers the same address. *)
Theorem rdma_malloc_wraps :
  match Malloc (2 ^ 64 - 1) 0 idle_pool with
  | Some (p, st) => p = 4096 /\ in_use st = {[4096 := 0]} /\ fst <$> Malloc (2 ^ 64 - 1) 0 st = Some 4096
  | None => False
  end.
Proof. by vm_compute. Qed.
