(* ===== verification/MemManager.v ===== *)
(** The memory manager and the host memory allocator
    (ge/graph/manager/graph_mem_allocator.{h,cc}: MemManager; host_mem_allocator.{h,cc}).

    One MemManager owns, per memory type, a [MemoryAllocator], a caching allocator, an RDMA pool and a
    host memory allocator; all of them draw on the same device.  The class [Allocator] is what
    the templates InitAllocator, GetAllocator and FinalizeAllocatorMap use of an allocator;
    [AllocatorOk] is what every allocator promises to the others: it holds a set of
    device regions, every operation ends, and it neither takes nor loses a region it does not
    hold ([kept]).  The theorems about the manager are proved against this interface, which the
    lemmas of the four allocators implement. *)
From S2P Require Import Prelude MemAllocator BlockHeap CachingAllocator CachingInvariant CachingContract CachingTheorems.
From S2P Require Import RdmaPool RdmaTheorems.
From stdpp Require Import strings sorting.
Open Scope Z_scope.

Definition RT_MEMORY_RESERVED : Z := 0x100.

(** * Allocators, as the templates see them *)
Class Allocator (R : Runtime) (T : Type) := {
  (** `new T(memory_type)` *)
  al_new : Z -> RT -> T;
  (** The first argument is the memory type of the allocator MemManager::Instance answers. *)
  al_Initialize : Z -> T -> RT -> option (Status * T * RT);
  al_Finalize : T -> RT -> option (T * RT);
  (** The other operations. *)
  al_call : Type;
  al_answer : Type;
  al_do : al_call -> T -> RT -> option (al_answer * T * RT);
}.
Arguments al_call {R} T {_}.
Arguments al_answer {R} T {_}.

Class AllocatorOk (R : Runtime) (RO : RuntimeOk R) (T : Type) (A : Allocator R T) := {
  (** [own ext a r]: in the device state [r] the allocator [a] is sound and holds [ext]. *)
  own : gmap Z Z -> T -> RT -> Prop;
  (** The device regions its users have. *)
  handed : T -> gmap Z Z;
  (** It has been initialised; the arguments of the call are in range. *)
  al_ready : T -> Prop;
  al_call_ok : al_call T -> Prop;
  own_live ext a r : own ext a r -> ext ⊆ rt_live r;
  own_frame ext a r r' : own ext a r -> ext ⊆ rt_live r' -> own ext a r';
  own_new t r r' : own ∅ (al_new t r) r';
  own_Initialize t ext a r : own ext a r -> exists s ext' a' r', al_Initialize t a r = Some (s, a', r') /\
    own ext' a' r' /\ kept ext r ext' r' /\ (s = SUCCESS -> al_ready a');
  own_do c ext a r : own ext a r -> al_ready a -> al_call_ok c -> exists x ext' a' r', al_do c a r = Some (x, a', r') /\
    own ext' a' r' /\ kept ext r ext' r' /\ al_ready a';
  own_Finalize ext a r : own ext a r -> exists a' r', al_Finalize a r = Some (a', r') /\ kept ext r ∅ r';
  own_handed ext a r p n : own ext a r -> handed a !! p = Some n ->
    exists base len, ext !! base = Some len /\ base <= p /\ p + n <= base + len;
  own_handed_disj ext a r : own ext a r -> live_disj (rt_live r) -> live_disj (handed a);
}.

(** * The host memory allocator *)

(** MakeShared<AlignedPtr>(size) of the graph library: the aligned address, or null. *)
Class HostHeap (R : Runtime) := { make_aligned : Z -> RT -> option Z * RT }.
Class HostHeapOk (R : Runtime) (RO : RuntimeOk R) (H : HostHeap R) : Prop :=
  { make_aligned_live size r : rt_live (make_aligned size r).2 = rt_live r }.

Module HostMemAllocator.
(** allocated_blocks_: size and owning pointer by address; the pointer is [None] when it is null. *)
Definition HostMem : Type := gmap Z (Z * option Z).
Section Model.
Context {R : Runtime} {H : HostHeap R}.

(** Malloc(aligned_ptr, size): memory that exists already. *)
Definition MallocAligned (aligned_ptr : option Z) (size : Z) (m : HostMem) : Z * HostMem :=
  match aligned_ptr with
  | None => (0, m)
  | Some p => (p, <[p := (size, aligned_ptr)]> m)
  end.

Definition Malloc (size : Z) (m : HostMem) (r : RT) : Z * HostMem * RT :=
  let '(aligned_ptr, r) := make_aligned size r in
  match aligned_ptr with
  | None => (0, m, r)
  | Some p => (p, <[p := (size, aligned_ptr)]> m, r)
  end.

Definition Free (memory_addr : Z) (m : HostMem) : Status * HostMem :=
  if memory_addr =? 0 then (GE_GRAPH_FREE_FAILED, m) else
  match m !! memory_addr with
  | None => (PARAM_INVALID, m)
  | Some _ => (SUCCESS, delete memory_addr m)
  end.

Definition Clear (m : HostMem) : HostMem := ∅.
Definition Initialize (m : HostMem) : Status * HostMem := (SUCCESS, Clear m).
Definition Finalize (m : HostMem) : HostMem := Clear m.

(** `return allocated_blocks_[addr]`: operator[] enters a default pair for an unknown address. *)
Definition GetAlignedPtr (addr : Z) (m : HostMem) : (Z * option Z) * HostMem :=
  match m !! addr with
  | Some x => (x, m)
  | None => ((0, None), <[addr := (0, None)]> m)
  end.
End Model.
End HostMemAllocator.
Import HostMemAllocator (HostMem).

Inductive memory_call := KMalloc (key : string) (size : Z) | KFree (key : string) | KGet (key : string).
Inductive memory_answer := KAddr (p : Z) | KStatus (s : Status).
Inductive pool_call := PInit (device_id size : Z) | PCall (c : rdma_call).
Inductive host_call := HMallocAligned (p : option Z) (size : Z) | HMalloc (size : Z) | HFree (p : Z) | HGet (p : Z).
Inductive host_answer := HAddr (p : Z) | HStatus (s : Status) | HPair (x : Z * option Z).

(** * The four kinds of allocators *)
Section Instances.
Context {R : Runtime} {D : DeviceApi R} {H : HostHeap R}.

#[export] Instance memory_allocator : Allocator R MemoryAllocator := {
  al_new t _ := mkMemoryAllocator t false ∅;
  al_Initialize _ ma r := let '(ma, r) := MemAllocator.Initialize ma r in Some (SUCCESS, ma, r);
  al_Finalize ma r := Some (MemAllocator.Finalize ma r);
  al_call := memory_call;
  al_answer := memory_answer;
  al_do c ma r :=
    match c with
    | KMalloc key size => let '(p, ma, r) := MallocMemoryKey key size ma r in Some (KAddr p, ma, r)
    | KFree key => let '(s, ma, r) := FreeMemoryKey key ma r in Some (KStatus s, ma, r)
    | KGet key => Some (KAddr (GetMemoryAddr key ma), ma, r)
    end;
}.

#[export] Instance caching_allocator : Allocator R CachingAllocator := {
  al_new := CachingAllocator_new;
  al_Initialize _ ca r :=
    match CachingAllocator.Initialize (CachingAllocator.set_rt r ca) with
    | Some (s, ca) => Some (s, ca, CachingAllocator.rt ca)
    | None => None
    end;
  al_Finalize ca r :=
    match CachingAllocator.Finalize (CachingAllocator.set_rt r ca) with Some (_, ca) => Some (ca, CachingAllocator.rt ca) | None => None end;
  al_call := call;
  al_answer := answer;
  al_do c ca r :=
    match do_call c (CachingAllocator.set_rt r ca) with Some (x, ca) => Some (x, ca, CachingAllocator.rt ca) | None => None end;
}.

#[export] Instance rdma_allocator : Allocator R RdmaPoolAllocator.RdmaPool := {
  al_new _ := RdmaPoolAllocator.RdmaPool_new;
  al_Initialize instance st r :=
    match RdmaPoolAllocator.Initialize (Some instance) (RdmaPoolAllocator.set_rt r st) with
    | Some (s, st) => Some (s, st, RdmaPoolAllocator.rt st)
    | None => None
    end;
  al_Finalize st r :=
    match RdmaPoolAllocator.Finalize (RdmaPoolAllocator.set_rt r st) with Some (_, st) => Some (st, RdmaPoolAllocator.rt st) | None => None end;
  al_call := pool_call;
  al_answer := rdma_answer;
  al_do c st r :=
    let m := match c with
             | PInit device_id size => s ← RdmaPoolAllocator.InitMemory device_id size; mret (RStatus s)
             | PCall c => rdma_do c
             end in
    match m (RdmaPoolAllocator.set_rt r st) with Some (x, st) => Some (x, st, RdmaPoolAllocator.rt st) | None => None end;
}.

#[export] Instance host_allocator : Allocator R HostMem := {
  al_new _ _ := ∅;
  al_Initialize _ m r := let '(s, m) := HostMemAllocator.Initialize m in Some (s, m, r);
  al_Finalize m r := Some (HostMemAllocator.Finalize m, r);
  al_call := host_call;
  al_answer := host_answer;
  al_do c m r :=
    match c with
    | HMallocAligned p size => let '(p, m) := HostMemAllocator.MallocAligned p size m in Some (HAddr p, m, r)
    | HMalloc size => let '(p, m, r) := HostMemAllocator.Malloc size m r in Some (HAddr p, m, r)
    | HFree p => let '(s, m) := HostMemAllocator.Free p m in Some (HStatus s, m, r)
    | HGet p => let '(x, m) := HostMemAllocator.GetAlignedPtr p m in Some (HPair x, m, r)
    end;
}.
End Instances.

(** * MemManager *)
Module MemManager.
Section Model.
Context {R : Runtime} {D : DeviceApi R} {H : HostHeap R}.

(** ** The templates *)
Section Templates.
Context {T : Type} {A : Allocator R T}.

(** [instance index] is the memory type of MemManager::Instance(index). *)
Fixpoint InitAllocator (instance : Z -> Z) (memory_type : list Z) (allocate_map : gmap Z T) (r : RT) :
    option (Status * gmap Z T * RT) :=
  match memory_type with
  | [] => Some (SUCCESS, allocate_map, r)
  | index :: memory_type =>
      let initialize (allocator : T) (r : RT) :=
        match al_Initialize (instance index) allocator r with
        | None => None
        | Some (s, allocator, r) =>
            let allocate_map := <[index := allocator]> allocate_map in
            if bool_decide (s = SUCCESS) then InitAllocator instance memory_type allocate_map r
            else Some (ACL_ERROR_GE_INTERNAL_ERROR, allocate_map, r)
        end in
      match allocate_map !! index with
      | Some allocator => initialize allocator r
      | None =>
          let '(ok, r') := new_nothrow r in
          if ok then initialize (al_new index r) r' else Some (ACL_ERROR_GE_MEMORY_ALLOCATION, allocate_map, r')
      end
  end.

(** The loop over the entries. *)
Fixpoint FinalizeAllocators (entries : list (Z * T)) (r : RT) : option RT :=
  match entries with
  | [] => Some r
  | it :: entries => match al_Finalize it.2 r with None => None | Some (_, r) => FinalizeAllocators entries r end
  end.

(** std::map iterates by key. *)
Definition key_le (a b : Z * T) : Prop := a.1 <= b.1.
#[local] Instance key_le_dec : RelDecision key_le.
Proof. intros a b. apply Z_le_dec. Defined.
Definition in_key_order (m : gmap Z T) : list (Z * T) := merge_sort key_le (map_to_list m).

Definition FinalizeAllocatorMap (allocate_map : gmap Z T) (r : RT) : option (gmap Z T * RT) :=
  match FinalizeAllocators (in_key_order allocate_map) r with None => None | Some r => Some (∅, r) end.

(** An unknown type gets the static default_allocator. *)
Definition GetAllocator (memory_type : Z) (allocate_map : gmap Z T) (default_allocator : T) : T :=
  match allocate_map !! memory_type with Some allocator => allocator | None => default_allocator end.

(** An operation on the allocator GetAllocator returns a reference to. *)
Definition call_on (memory_type : Z) (c : al_call T) (allocate_map : gmap Z T) (default_allocator : T) (r : RT) :
    option (al_answer T * gmap Z T * T * RT) :=
  match al_do c (GetAllocator memory_type allocate_map default_allocator) r with
  | None => None
  | Some (x, a, r) =>
      match allocate_map !! memory_type with
      | Some _ => Some (x, <[memory_type := a]> allocate_map, default_allocator, r)
      | None => Some (x, allocate_map, a, r)
      end
  end.
End Templates.

(** ** The manager; the defaults are the static objects of GetMemoryAllocator and GetAllocator. *)
Record MemManager := mkMM {
  memory_allocator_map_ : gmap Z MemoryAllocator;
  caching_allocator_map_ : gmap Z CachingAllocator;
  rdma_allocator_map_ : gmap Z RdmaPoolAllocator.RdmaPool;
  host_allocator_map_ : gmap Z HostMem;
  default_memory : MemoryAllocator;
  default_caching : CachingAllocator;
  default_rdma : RdmaPoolAllocator.RdmaPool;
  default_host : HostMem;
  device : RT;
}.

Definition MemManager_new (r : RT) : MemManager :=
  mkMM ∅ ∅ ∅ ∅ (al_new RT_MEMORY_RESERVED r) (al_new RT_MEMORY_RESERVED r) (al_new RT_MEMORY_RESERVED r) (al_new RT_MEMORY_RESERVED r) r.

Definition put_memory (x : gmap Z MemoryAllocator) (r : RT) (m : MemManager) : MemManager :=
  mkMM x (caching_allocator_map_ m) (rdma_allocator_map_ m) (host_allocator_map_ m) (default_memory m) (default_caching m)
    (default_rdma m) (default_host m) r.
Definition put_caching (x : gmap Z CachingAllocator) (r : RT) (m : MemManager) : MemManager :=
  mkMM (memory_allocator_map_ m) x (rdma_allocator_map_ m) (host_allocator_map_ m) (default_memory m) (default_caching m)
    (default_rdma m) (default_host m) r.
Definition put_rdma (x : gmap Z RdmaPoolAllocator.RdmaPool) (r : RT) (m : MemManager) : MemManager :=
  mkMM (memory_allocator_map_ m) (caching_allocator_map_ m) x (host_allocator_map_ m) (default_memory m) (default_caching m)
    (default_rdma m) (default_host m) r.
Definition put_host (x : gmap Z HostMem) (r : RT) (m : MemManager) : MemManager :=
  mkMM (memory_allocator_map_ m) (caching_allocator_map_ m) (rdma_allocator_map_ m) x (default_memory m) (default_caching m)
    (default_rdma m) (default_host m) r.

(** The first loop of Initialize; the Initialize of a MemoryAllocator returns nothing. *)
Fixpoint InitMemoryAllocators (memory_type : list Z) (memory_allocator_map : gmap Z MemoryAllocator) (r : RT) :
    Status * gmap Z MemoryAllocator * RT :=
  match memory_type with
  | [] => (SUCCESS, memory_allocator_map, r)
  | index :: memory_type =>
      let initialize (memory_allocator : MemoryAllocator) (r : RT) :=
        let '(memory_allocator, r) := MemAllocator.Initialize memory_allocator r in
        InitMemoryAllocators memory_type (<[index := memory_allocator]> memory_allocator_map) r in
      match memory_allocator_map !! index with
      | Some memory_allocator => initialize memory_allocator r
      | None =>
          let '(ok, r') := new_nothrow r in
          if ok then initialize (al_new index r) r' else (ACL_ERROR_GE_MEMORY_ALLOCATION, memory_allocator_map, r')
      end
  end.

Definition GetMemoryAllocator (memory_type : Z) (m : MemManager) : MemoryAllocator :=
  GetAllocator memory_type (memory_allocator_map_ m) (default_memory m).

(** MemManager::Instance(memory_type), by the memory type of the allocator. *)
Definition Instance_type (m : MemManager) (memory_type : Z) : Z := memory_type_ (GetMemoryAllocator memory_type m).

Definition Initialize (memory_type : list Z) (m : MemManager) : option (Status * MemManager) :=
  let '(ret, x, r) := InitMemoryAllocators memory_type (memory_allocator_map_ m) (device m) in
  let m := put_memory x r m in
  if negb (bool_decide (ret = SUCCESS)) then Some (ret, m) else
  match InitAllocator (Instance_type m) memory_type (caching_allocator_map_ m) (device m) with
  | None => None
  | Some (ret, x, r) =>
      let m := put_caching x r m in
      if negb (bool_decide (ret = SUCCESS)) then Some (ret, m) else
      match InitAllocator (Instance_type m) memory_type (rdma_allocator_map_ m) (device m) with
      | None => None
      | Some (ret, x, r) =>
          let m := put_rdma x r m in
          if negb (bool_decide (ret = SUCCESS)) then Some (ret, m) else
          match InitAllocator (Instance_type m) memory_type (host_allocator_map_ m) (device m) with
          | None => None
          | Some (ret, x, r) => Some (ret, put_host x r m)
          end
      end
  end.

(** "caching and rdma allocator use memory allocator, so finalize them first" *)
Definition Finalize (m : MemManager) : option MemManager :=
  '(x, r) ← FinalizeAllocatorMap (caching_allocator_map_ m) (device m);
  let m := put_caching x r m in
  '(x, r) ← FinalizeAllocatorMap (rdma_allocator_map_ m) (device m);
  let m := put_rdma x r m in
  '(x, r) ← FinalizeAllocatorMap (host_allocator_map_ m) (device m);
  let m := put_host x r m in
  '(x, r) ← FinalizeAllocatorMap (memory_allocator_map_ m) (device m);
  Some (put_memory x r m).

(** ** What clients call: Instance(type), CachingInstance(type), RdmaPoolInstance(type) and HostMemInstance(type).

    Instance(type) has two more public operations than those on its keys: MallocMemory(purpose, size) hands out
    a region the allocator keeps no record of, and FreeMemory(addr) gives such a region back. *)
Inductive mm_call :=
| CallMallocMemory (t size : Z)
| CallFreeMemory (t memory_addr : Z)
| CallMemory (t : Z) (c : memory_call)
| CallCaching (t : Z) (c : call)
| CallRdma (t : Z) (c : pool_call)
| CallHost (t : Z) (c : host_call).
Inductive mm_answer :=
| AnswerMemory (x : memory_answer)
| AnswerCaching (x : answer)
| AnswerRdma (x : rdma_answer)
| AnswerHost (x : host_answer).

Definition mm_do (c : mm_call) (m : MemManager) : option (mm_answer * MemManager) :=
  match c with
  | CallMallocMemory t size =>
      let '(p, r) := MallocMemory (Instance_type m t) size (device m) in
      Some (AnswerMemory (KAddr p), put_memory (memory_allocator_map_ m) r m)
  | CallFreeMemory t memory_addr =>
      let '(s, r) := FreeMemory memory_addr (device m) in
      Some (AnswerMemory (KStatus s), put_memory (memory_allocator_map_ m) r m)
  | CallMemory t c =>
      '(x, y, d, r) ← call_on (T := MemoryAllocator) t c (memory_allocator_map_ m) (default_memory m) (device m);
      Some (AnswerMemory x, mkMM y (caching_allocator_map_ m) (rdma_allocator_map_ m) (host_allocator_map_ m)
        d (default_caching m) (default_rdma m) (default_host m) r)
  | CallCaching t c =>
      '(x, y, d, r) ← call_on (T := CachingAllocator) t c (caching_allocator_map_ m) (default_caching m) (device m);
      Some (AnswerCaching x, mkMM (memory_allocator_map_ m) y (rdma_allocator_map_ m) (host_allocator_map_ m)
        (default_memory m) d (default_rdma m) (default_host m) r)
  | CallRdma t c =>
      '(x, y, d, r) ← call_on (T := RdmaPoolAllocator.RdmaPool) t c (rdma_allocator_map_ m) (default_rdma m) (device m);
      Some (AnswerRdma x, mkMM (memory_allocator_map_ m) (caching_allocator_map_ m) y (host_allocator_map_ m)
        (default_memory m) (default_caching m) d (default_host m) r)
  | CallHost t c =>
      '(x, y, d, r) ← call_on (T := HostMem) t c (host_allocator_map_ m) (default_host m) (device m);
      Some (AnswerHost x, mkMM (memory_allocator_map_ m) (caching_allocator_map_ m) (rdma_allocator_map_ m) y
        (default_memory m) (default_caching m) (default_rdma m) d r)
  end.

Fixpoint mm_calls (cs : list mm_call) (m : MemManager) : option (list mm_answer * MemManager) :=
  match cs with
  | [] => Some ([], m)
  | c :: cs => '(x, m) ← mm_do c m; '(l, m) ← mm_calls cs m; Some (x :: l, m)
  end.

(** *** What the callers of MallocMemory and FreeMemory hold: address and size *)
Definition raw_after (c : mm_call) (x : mm_answer) (raw : gmap Z Z) : gmap Z Z :=
  match c, x with
  | CallMallocMemory _ size, AnswerMemory (KAddr p) => if p =? 0 then raw else <[p := size]> raw
  | CallFreeMemory _ p, AnswerMemory (KStatus s) => if bool_decide (s = SUCCESS) then delete p raw else raw
  | _, _ => raw
  end.

Fixpoint raw_held (cs : list mm_call) (l : list mm_answer) (raw : gmap Z Z) : gmap Z Z :=
  match cs, l with
  | c :: cs, x :: l => raw_held cs l (raw_after c x raw)
  | _, _ => raw
  end.

(** FreeMemory is called only on regions MallocMemory handed out and that were not given back: the device takes any address. *)
Fixpoint frees_own (cs : list mm_call) (raw : gmap Z Z) (m : MemManager) : bool :=
  match cs with
  | [] => true
  | c :: cs =>
      match c with CallFreeMemory _ p => bool_decide (is_Some (raw !! p)) | _ => true end &&
      match mm_do c m with Some (x, m) => frees_own cs (raw_after c x raw) m | None => true end
  end.
End Model.
End MemManager.
