(* ===== verification/ManagerTheorems.v ===== *)
(** Theorems about the memory manager: the allocators it owns share one device and never touch each other's memory.

    The four allocators implement [AllocatorOk]; the proofs about the manager use nothing else.  Its state is
    split into cells, one per kind and memory type, and [mm_ok] says that every cell holds its own regions.  The callers of
    MallocMemory, of whose regions no allocator has a record, are one more holder ([with_raw]). *)
From S2P Require Import Prelude MemAllocator BlockHeap CachingAllocator CachingInvariant CachingContract CachingTheorems.
From S2P Require Import RdmaPool RdmaTheorems MemManager.
From stdpp Require Import strings sorting.
Import HostMemAllocator (HostMem).
Open Scope Z_scope.

(** * The four kinds of allocators keep the contract *)
Section Instances.
Context {R : Runtime} {RO : RuntimeOk R} {D : DeviceApi R} {DO : DeviceApiOk R RO D} {H : HostHeap R} {HO : HostHeapOk R RO H}.

(** ** MemoryAllocator *)
Definition key_regions (ma : MemoryAllocator) : gmap Z Z :=
  list_to_map ((fun it => (memory_addr_ it.2, memory_size_ it.2)) <$> map_to_list (memory_base_map_ ma)).

Lemma key_regions_Some ext ma r p n : ma_owns ext ma r -> key_regions ma !! p = Some n -> ext !! p = Some n.
Proof.
  intros HO' Hp%elem_of_list_to_map_2. apply list_elem_of_fmap in Hp as ([k i] & [= -> ->] & Hi%elem_of_map_to_list).
  by destruct (mo_region _ _ _ HO' _ _ Hi).
Qed.

#[export] Instance memory_allocator_ok : AllocatorOk R RO MemoryAllocator _.
Proof.
  refine {| own := ma_owns; handed := key_regions; al_ready _ := True;
            al_call_ok (c : al_call MemoryAllocator) := match c with KMalloc _ size => 0 < size | _ => True end |}; cbn.
  - apply mo_live.
  - apply ma_owns_frame.
  - intros. split; cbn; [apply map_empty_subseteq|..]; intros *; by rewrite lookup_empty.
  - intros _ ext a r HM. destruct (Finalize_owns ext a r HM) as [HM' HK]. eexists _, ∅, _, _. split; [reflexivity|]. done.
  - intros c ext a r HM _ Hc. destruct c as [k size|k|k].
    + destruct (MallocMemoryKey k size a r) as [[p a'] r'] eqn:Hrun.
      destruct (MallocMemoryKey_owns _ _ _ _ _ _ _ _ HM Hc Hrun) as (ext' & ? & ?). eexists _, ext', _, _. split; [reflexivity|]. done.
    + destruct (FreeMemoryKey k a r) as [[s a'] r'] eqn:Hrun.
      destruct (FreeMemoryKey_owns _ _ _ _ _ _ _ HM Hrun) as (ext' & ? & ?). eexists _, ext', _, _. split; [reflexivity|]. done.
    + eexists _, ext, _, _. split; [reflexivity|]. split; [done|]. split; [by apply kept_same|done].
  - intros ext a r HM. destruct (Finalize_owns ext a r HM) as [HM' HK]. eexists _, _. split; [reflexivity|done].
  - intros ext a r p n HM Hp%(key_regions_Some _ _ _ _ _ HM). exists p, n. split; [done|lia].
  - intros ext a r HM HD p n q k Hp%(key_regions_Some _ _ _ _ _ HM) Hq%(key_regions_Some _ _ _ _ _ HM).
    apply HD; eapply lookup_weaken; try done; apply HM.
Defined.

(** ** CachingAllocator *)
Lemma caching_set_rt ext ca r r' :
  CachingContract.wf ext (CachingAllocator.set_rt r ca) -> ext ⊆ rt_live r' -> CachingContract.wf ext (CachingAllocator.set_rt r' ca).
Proof. intros [[] Hm Hl Hh] Hs. split; [|done..]. by split. Qed.

Lemma caching_rt ca : CachingAllocator.set_rt (CachingAllocator.rt ca) ca = ca.
Proof. by destruct ca. Qed.

#[export] Instance caching_allocator_ok : AllocatorOk R RO CachingAllocator _.
Proof.
  refine {| own ext ca r := CachingContract.wf ext (CachingAllocator.set_rt r ca); handed := CachingContract.in_use;
            al_ready := ready; al_call_ok := call_ok |}; cbn.
  - intros ext a r HW. apply (c_live _ _ _ (wf_core _ _ HW)).
  - intros ext a r r' HW. by apply (caching_set_rt ext a r).
  - intros t r r'. apply (CachingAllocator_new_wf t r').
  - intros _ ext a r HW. destruct (CachingContract.Initialize_ok ext _ HW) as (s & ext' & st' & Hrun & HW' & _ & HK & Hs).
    rewrite Hrun. exists s, ext', st', (CachingAllocator.rt st'). rewrite caching_rt. split; [done|]. split; [done|]. split; [done|].
    intros ->. by destruct Hs as [[_ ?]|[? _]].
  - intros c ext a r HW HR Hc. assert (HR' : ready (CachingAllocator.set_rt r a)) by (by destruct HR; split).
    destruct (do_call_ok ext _ c HW HR' Hc) as (x & ext' & st' & Hrun & _ & HW' & HR2 & HK).
    rewrite Hrun. exists x, ext', st', (CachingAllocator.rt st'). by rewrite caching_rt.
  - intros ext a r HW. destruct (CachingTheorems.Finalize_ok ext _ HW) as (ext' & st' & Hrun & _ & HK & _ & Htot). rewrite Hrun.
    eexists _, _. split; [reflexivity|]. eapply kept_forget; [exact HK|]. intros HT. by apply Htot.
  - intros ext a r p n HW Hp. destruct (CachingContract.in_use_extent ext _ p n HW Hp) as (_ & _ & _ & base & len & ? & _ & ?). by exists base, len.
  - intros ext a r HW _ p n q k. apply (CachingContract.in_use_disjoint ext (CachingAllocator.set_rt r a) p n q k HW).
Defined.

(** ** RdmaPoolAllocator *)
Lemma rdma_set_rt e st r r' : RdmaTheorems.wf e (RdmaPoolAllocator.set_rt r st) -> RdmaTheorems.wf e (RdmaPoolAllocator.set_rt r' st).
Proof. by intros []. Qed.

Lemma rdma_rt st : RdmaPoolAllocator.set_rt (RdmaPoolAllocator.rt st) st = st.
Proof. by destruct st. Qed.

Lemma rdma_held e st : RdmaTheorems.wf e st -> e ⊆ held st.
Proof.
  intros HW. unfold held. destruct (w_ext _ _ HW) as [->|[H0 ->]]; [apply map_empty_subseteq|].
  by destruct (Z.eqb_spec (RdmaPoolAllocator.rdma_base_addr_ st) 0).
Qed.

Lemma rdma_initialize e t st r : RdmaTheorems.wf e (RdmaPoolAllocator.set_rt r st) ->
  exists st', RdmaPoolAllocator.Initialize (Some t) (RdmaPoolAllocator.set_rt r st) = Some (SUCCESS, st') /\
    RdmaTheorems.wf e st' /\ held st' = held st /\ RdmaPoolAllocator.rt st' = r /\ RdmaPoolAllocator.memory_allocator_ st' = Some t.
Proof. intros [HP Hi Hm He Hh]. eexists. split; [reflexivity|]. split; [|done]. split; [done..|]. by eexists. Qed.

Lemma rdma_init_memory e st dev size : RdmaTheorems.wf e st -> is_Some (RdmaPoolAllocator.memory_allocator_ st) -> backed st ->
  0 < size -> reset_keeps dev ->
  exists s e' st', RdmaPoolAllocator.InitMemory dev size st = Some (s, st') /\ RdmaTheorems.wf e' st' /\ backed st' /\
    is_Some (RdmaPoolAllocator.memory_allocator_ st') /\ kept (held st) (RdmaPoolAllocator.rt st) (held st') (RdmaPoolAllocator.rt st').
Proof.
  intros HW [t Ht] HB Hs Hreset. destruct (Z.eqb_spec (RdmaPoolAllocator.rdma_base_addr_ st) 0) as [H0|H0].
  - destruct (InitMemory_ok e st dev size t HW Ht H0 Hs) as (s & e' & st' & Hrun & HW' & Ht' & _ & _ & HK). exists s, e', st'. rewrite Ht'.
    by destruct (HK Hreset).
  - exists GE_MULTI_INIT, e, st. unfold RdmaPoolAllocator.InitMemory, mbind, RdmaPoolAllocator.M_bind, RdmaPoolAllocator.gets.
    destruct (Z.eqb_spec (RdmaPoolAllocator.rdma_base_addr_ st) 0); [done|]. cbn. split; [done|]. split; [done|]. split; [done|]. rewrite Ht.
    split; [done|by apply kept_same].
Qed.

(** InitMemory is called for a device whose reset releases no memory. *)
#[export] Instance rdma_allocator_ok : AllocatorOk R RO RdmaPoolAllocator.RdmaPool _.
Proof.
  refine {| own ext st r := ext = held st /\ backed (RdmaPoolAllocator.set_rt r st) /\ exists e, RdmaTheorems.wf e (RdmaPoolAllocator.set_rt r st);
            handed := RdmaTheorems.in_use; al_ready st := is_Some (RdmaPoolAllocator.memory_allocator_ st);
            al_call_ok (c : al_call RdmaPoolAllocator.RdmaPool) :=
              match c with PInit dev size => 0 < size /\ reset_keeps dev | PCall c => rdma_call_ok c end |}; cbn.
  - by intros ext a r (-> & HB & _).
  - intros ext a r r' (-> & _ & e & HW) Hs. split; [done|]. split; [done|]. exists e. by eapply rdma_set_rt.
  - intros t r r'. split; [done|]. split; [by apply backed_idle|]. exists ∅. by apply wf_idle.
  - intros t ext a r (-> & HB & e & HW). destruct (rdma_initialize e t a r HW) as (st' & Hrun & HW' & Hh & <- & Ht). cbn in Hrun. rewrite Hrun.
    eexists _, (held a), st', _. split; [reflexivity|]. rewrite rdma_rt. split; [|split; [by apply kept_same|by rewrite Ht]].
    split; [done|]. split; [|by eauto]. unfold backed in *. by rewrite Hh.
  - intros c ext a r (-> & HB & e & HW) Hr Hc. destruct c as [dev size|c].
    + destruct Hc as [Hc Hreset]. destruct (rdma_init_memory e _ dev size HW Hr HB Hc Hreset) as (s & e' & st' & Hrun & HW' & HB' & Hr' & HK).
      rewrite (rdma_bind_eq _ _ _ _ _ Hrun). eexists _, (held st'), st', _. split; [reflexivity|]. rewrite rdma_rt. by eauto 6.
    + destruct (rdma_do_ok e _ c HW Hc) as (x & st' & Hrun & HW' & [Hb Hs Ha Hl] & _). rewrite Hrun.
      assert (Hh : held st' = held a) by (unfold held; by rewrite Hb, Hs).
      eexists _, (held st'), st', _. split; [reflexivity|]. rewrite rdma_rt, Ha, Hh. split; [|split; [by apply kept_same|done]].
      split; [done|]. split; [|by eauto]. unfold backed in *. by rewrite Hh, Hl.
  - intros ext a r (-> & HB & e & HW). destruct (rdma_Finalize_ok e _ HW) as (st' & Hrun & _ & _ & _ & HK). rewrite Hrun.
    eexists _, _. split; [reflexivity|by apply HK].
  - intros ext a r p n (-> & _ & e & HW) Hp. pose proof (rdma_held _ _ HW) as Hsub.
    destruct (RdmaTheorems.in_use_inside e _ p n HW Hp) as (_ & _ & Hlo & Hhi & _).
    destruct (w_ext _ _ HW) as [->|[H0 _]].
    { destruct (wf_no_extent _ HW) as (_ & _ & _ & Hu). change (in_use (RdmaPoolAllocator.set_rt r a) !! p = Some n) in Hp. by rewrite Hu in Hp. }
    unfold held. cbn in *. destruct (Z.eqb_spec (RdmaPoolAllocator.rdma_base_addr_ a) 0); [done|].
    eexists _, _. split; [apply lookup_singleton_eq|done].
  - intros ext a r (-> & _ & e & HW) _ p n q k Hp Hq Hne. by apply (RdmaTheorems.in_use_apart e _ p n q k HW).
Defined.

(** ** HostMemAllocator

    Its memory is host memory, which the statements about device regions leave out: what is proved of it here is that
    its operations end and leave the device alone. *)
#[export] Instance host_allocator_ok : AllocatorOk R RO HostMem _.
Proof.
  refine {| own ext m r := ext = ∅; handed _ := ∅; al_ready _ := True; al_call_ok _ := True |}; cbn.
  - intros ext a r ->. apply map_empty_subseteq.
  - done.
  - done.
  - intros _ ext a r ->. eexists _, ∅, _, _. split; [reflexivity|]. split; [done|]. split; [by apply kept_same|done].
  - intros c ext a r -> _ _. destruct c as [p size|size|p|p]; cbn.
    + destruct (HostMemAllocator.MallocAligned p size a) as [x m]. eexists _, ∅, _, _. split; [reflexivity|]. split; [done|]. by split; [apply kept_same|].
    + destruct (HostMemAllocator.Malloc size a r) as [[x m] r'] eqn:Hrun. eexists _, ∅, _, _. split; [reflexivity|]. split; [done|]. split; [|done].
      apply kept_same. revert Hrun. unfold HostMemAllocator.Malloc. pose proof (make_aligned_live size r) as Hl.
      destruct (make_aligned size r) as [[q|] r1]; by intros [= <- <- <-].
    + destruct (HostMemAllocator.Free p a) as [x m]. eexists _, ∅, _, _. split; [reflexivity|]. split; [done|]. by split; [apply kept_same|].
    + destruct (HostMemAllocator.GetAlignedPtr p a) as [x m]. eexists _, ∅, _, _. split; [reflexivity|]. split; [done|]. by split; [apply kept_same|].
  - intros ext a r ->. eexists _, _. split; [reflexivity|]. by apply kept_same.
  - intros ext a r p n _ Hp. by rewrite lookup_empty in Hp.
  - intros ext a r _ _ p n q k Hp. by rewrite lookup_empty in Hp.
Defined.
End Instances.

(** * The manager *)
Import MemManager.
Inductive kind := KMemory | KCaching | KRdma | KHost.
#[export] Instance kind_eq_dec : EqDecision kind.
Proof. solve_decision. Defined.
Definition cell : Type := kind * Z.

Section Manager.
Context {R : Runtime} {RO : RuntimeOk R} {D : DeviceApi R} {DO : DeviceApiOk R RO D} {H : HostHeap R} {HO : HostHeapOk R RO H}.

(** A cell without an allocator holds nothing. *)
Definition slot_own {T} {A : Allocator R T} {AO : AllocatorOk R RO T A} (x : gmap Z T) (t : Z) (ext : gmap Z Z) (r : RT) : Prop :=
  match x !! t with Some a => own ext a r | None => ext = ∅ end.

Definition cell_own (m : MemManager) (c : cell) : gmap Z Z -> RT -> Prop :=
  match c.1 with
  | KMemory => slot_own (memory_allocator_map_ m) c.2
  | KCaching => slot_own (caching_allocator_map_ m) c.2
  | KRdma => slot_own (rdma_allocator_map_ m) c.2
  | KHost => slot_own (host_allocator_map_ m) c.2
  end.

(** What every cell holds, without overlap. *)
Record mm_ok (own_of : cell -> gmap Z Z) (m : MemManager) : Prop := {
  mm_cell c : cell_own m c (own_of c) (device m);
  mm_sep c c' q : c <> c' -> is_Some (own_of c !! q) -> own_of c' !! q = None;
}.

(** [kept], for a family of holders. *)
Definition gforeign {I} (G : I -> gmap Z Z) (r : RT) (G' : I -> gmap Z Z) (r' : RT) : Prop :=
  forall q n, rt_live r !! q = Some n -> (forall c, G c !! q = None) -> rt_live r' !! q = Some n /\ forall c, G' c !! q = None.
Record gkept {I} (G : I -> gmap Z Z) (r : RT) (G' : I -> gmap Z Z) (r' : RT) : Prop := {
  gk_foreign : gforeign G r G' r';
  gk_back : rtFree_total -> gforeign G' r' G r;
  gk_disj : live_disj (rt_live r) -> live_disj (rt_live r');
}.

Lemma gkept_same {I} (G : I -> gmap Z Z) r r' : rt_live r' = rt_live r -> gkept G r G r'.
Proof. intros Hr. split; [|intros _|by rewrite Hr]; intros q n; by rewrite Hr. Qed.

Lemma gkept_trans {I} (G1 : I -> gmap Z Z) r1 G2 r2 G3 r3 : gkept G1 r1 G2 r2 -> gkept G2 r2 G3 r3 -> gkept G1 r1 G3 r3.
Proof.
  intros [F1 B1 D1] [F2 B2 D2]. split; [| |auto].
  - intros q n Hq He. destruct (F1 q n Hq He). by apply F2.
  - intros HT q n Hq He. destruct (B2 HT q n Hq He). by apply (B1 HT).
Qed.

Lemma slot_own_live {T} {A : Allocator R T} {AO : AllocatorOk R RO T A} (x : gmap Z T) t ext r : slot_own x t ext r -> ext ⊆ rt_live r.
Proof. unfold slot_own. destruct (x !! t); [apply own_live|intros ->; apply map_empty_subseteq]. Qed.

Lemma slot_own_frame {T} {A : Allocator R T} {AO : AllocatorOk R RO T A} (x : gmap Z T) t ext r r' :
  slot_own x t ext r -> ext ⊆ rt_live r' -> slot_own x t ext r'.
Proof. unfold slot_own. destruct (x !! t); [apply own_frame|done]. Qed.

Lemma cell_own_live m c ext r : cell_own m c ext r -> ext ⊆ rt_live r.
Proof. destruct c as [[] t]; apply slot_own_live. Qed.

Lemma cell_own_frame m c ext r r' : cell_own m c ext r -> ext ⊆ rt_live r' -> cell_own m c ext r'.
Proof. destruct c as [[] t]; apply slot_own_frame. Qed.

Definition upd_cell (c : cell) (ext : gmap Z Z) (G : cell -> gmap Z Z) : cell -> gmap Z Z := fun c' => if decide (c' = c) then ext else G c'.

(** One cell moves from [G c] to [ext]. *)
Lemma mm_step G m c ext m' :
  mm_ok G m -> cell_own m' c ext (device m') -> kept (G c) (device m) ext (device m') ->
  (forall c' e r, c' <> c -> cell_own m c' e r -> cell_own m' c' e r) ->
  mm_ok (upd_cell c ext G) m' /\ gkept G (device m) (upd_cell c ext G) (device m').
Proof.
  intros [Hc Hs] Hnew [HF HB HD] Hother. unfold upd_cell.
  assert (Hsub : forall c', c' <> c -> forall q n, G c' !! q = Some n -> rt_live (device m') !! q = Some n /\ ext !! q = None).
  { intros c' Hne q n Hq. pose proof (lookup_weaken _ _ _ _ Hq (cell_own_live _ _ _ _ (Hc c'))) as Hl.
    apply HF; [done|]. apply (Hs c' c); [done|by eexists]. }
  split; split.
  - intros c'. destruct (decide (c' = c)) as [->|Hne]; [done|]. eapply cell_own_frame; [by apply Hother|].
    apply map_subseteq_spec. intros q n Hq. by destruct (Hsub c' Hne q n Hq).
  - intros c1 c2 q Hne Hq. destruct (decide (c1 = c)) as [->|H1], (decide (c2 = c)) as [->|H2]; [done|..].
    + destruct (G c2 !! q) as [n|] eqn:Hn; [|done]. destruct (Hsub c2 H2 q n Hn) as [_ He]. rewrite He in Hq. by destruct Hq.
    + destruct Hq as [n Hn]. by destruct (Hsub c1 H1 q n Hn).
    + by apply (Hs c1 c2).
  - intros q n Hq Hall. destruct (HF q n Hq (Hall c)) as [? He]. split; [done|]. intros c'. by destruct (decide _).
  - intros HT q n Hq Hall. pose proof (Hall c) as Hcc. rewrite decide_True in Hcc by done. destruct (HB HT q n Hq Hcc) as [? He].
    split; [done|]. intros c'. destruct (decide (c' = c)) as [->|Hne]; [done|]. specialize (Hall c'). by rewrite decide_False in Hall.
  - done.
Qed.

(** ** The templates, for any of the four maps *)
Class Slot {T : Type} {A : Allocator R T} {AO : AllocatorOk R RO T A} (K : kind) (get : MemManager -> gmap Z T)
    (put : gmap Z T -> RT -> MemManager -> MemManager) : Prop := {
  get_put x r m : get (put x r m) = x;
  device_put x r m : device (put x r m) = r;
  put_put x r y r' m : put x r (put y r' m) = put x r m;
  put_get m : put (get m) (device m) m = m;
  cell_get m t : cell_own m (K, t) = slot_own (get m) t;
  cell_put x r m c : c.1 <> K -> cell_own (put x r m) c = cell_own m c;
}.
#[export] Instance memory_slot : Slot KMemory memory_allocator_map_ put_memory.
Proof. split; try done; [by intros []|by intros x r m [[] t]]. Qed.
#[export] Instance caching_slot : Slot KCaching caching_allocator_map_ put_caching.
Proof. split; try done; [by intros []|by intros x r m [[] t]]. Qed.
#[export] Instance rdma_slot : Slot KRdma rdma_allocator_map_ put_rdma.
Proof. split; try done; [by intros []|by intros x r m [[] t]]. Qed.
#[export] Instance host_slot : Slot KHost host_allocator_map_ put_host.
Proof. split; try done; [by intros []|by intros x r m [[] t]]. Qed.

Definition slot_ready {T} {A : Allocator R T} {AO : AllocatorOk R RO T A} (x : gmap Z T) (t : Z) : Prop :=
  exists a, x !! t = Some a /\ al_ready a.

Lemma slot_ready_insert {T} {A : Allocator R T} {AO : AllocatorOk R RO T A} (x : gmap Z T) t a t' :
  al_ready a -> slot_ready x t' -> slot_ready (<[t := a]> x) t'.
Proof.
  intros Ha (b & Hb & Hr). destruct (decide (t' = t)) as [->|]; [exists a|exists b]; by rewrite ?lookup_insert_eq, ?lookup_insert_ne.
Qed.

Section Slot.
Context {T : Type} {A : Allocator R T} {AO : AllocatorOk R RO T A} (K : kind) (get : MemManager -> gmap Z T)
        (put : gmap Z T -> RT -> MemManager -> MemManager) {SL : Slot K get put}.

Lemma slot_step G m t ext x r :
  mm_ok G m -> slot_own x t ext r -> kept (G (K, t)) (device m) ext r -> (forall t', t' <> t -> x !! t' = get m !! t') ->
  mm_ok (upd_cell (K, t) ext G) (put x r m) /\ gkept G (device m) (upd_cell (K, t) ext G) r.
Proof.
  intros HM Hx HK Hsame. rewrite <- (device_put x r m) at 2. apply mm_step; [done| |by rewrite device_put|].
  - by rewrite cell_get, get_put, device_put.
  - intros [k t'] e r0 Hne. destruct (decide (k = K)) as [->|Hk]; [|by rewrite cell_put].
    rewrite !cell_get, get_put. unfold slot_own. rewrite Hsame; [done|]. congruence.
Qed.

Lemma slot_insert G m t a ext r :
  mm_ok G m -> own ext a r -> kept (G (K, t)) (device m) ext r ->
  mm_ok (upd_cell (K, t) ext G) (put (<[t := a]> (get m)) r m) /\ gkept G (device m) (upd_cell (K, t) ext G) r.
Proof.
  intros HM Ho HK. apply slot_step; [done| |done|intros t' Hne; by rewrite lookup_insert_ne].
  unfold slot_own. by rewrite lookup_insert_eq.
Qed.

Lemma slot_lookup G m t a : mm_ok G m -> get m !! t = Some a -> own (G (K, t)) a (device m).
Proof. intros HM Ha. pose proof (mm_cell _ _ HM (K, t)) as Hc. rewrite cell_get in Hc. unfold slot_own in Hc. by rewrite Ha in Hc. Qed.

Lemma InitAllocator_ok inst types : forall G m, mm_ok G m ->
  exists s x r G', InitAllocator inst types (get m) (device m) = Some (s, x, r) /\ mm_ok G' (put x r m) /\ gkept G (device m) G' r /\
    (s = SUCCESS -> forall t, t ∈ types \/ slot_ready (get m) t -> slot_ready x t).
Proof.
  induction types as [|t types IH]; intros G m HM; cbn [InitAllocator].
  { exists SUCCESS, (get m), (device m), G. rewrite put_get. split; [done|]. split; [done|]. split; [by apply gkept_same|].
    intros _ t [Ht|?]; [by apply elem_of_nil in Ht|done]. }
  (* the allocator [a], which is there or new, is initialised *)
  assert (Hinit : forall ext a r, own ext a r -> kept (G (K, t)) (device m) ext r ->
    exists s x r' G',
      match al_Initialize (inst t) a r with
      | None => None
      | Some (s, a, r) => if bool_decide (s = SUCCESS) then InitAllocator inst types (<[t := a]> (get m)) r
                          else Some (ACL_ERROR_GE_INTERNAL_ERROR, <[t := a]> (get m), r)
      end = Some (s, x, r') /\ mm_ok G' (put x r' m) /\ gkept G (device m) G' r' /\
      (s = SUCCESS -> forall t', t' ∈ t :: types \/ slot_ready (get m) t' -> slot_ready x t')).
  { intros ext a r Ho HK. destruct (own_Initialize (inst t) ext a r Ho) as (s & ext' & a' & r' & -> & Ho' & HK' & Hr).
    destruct (slot_insert G m t a' ext' r' HM Ho') as [HM1 HG1]; [by eapply kept_trans|]. case_bool_decide as Hs.
    - destruct (IH _ _ HM1) as (s2 & x & r2 & G' & Hrun & HM2 & HG2 & Hready). rewrite get_put, device_put in *.
      exists s2, x, r2, G'. rewrite put_put in HM2. split; [done|]. split; [done|]. split; [by eapply gkept_trans|].
      intros Hs2 t' Ht'. apply Hready; [done|]. destruct (decide (t' = t)) as [->|Hne].
      + right. exists a'. rewrite lookup_insert_eq. split; [done|]. by apply Hr.
      + destruct Ht' as [[->|?]%elem_of_cons|(b & Hb & ?)]; [done|by left|]. right. exists b. by rewrite lookup_insert_ne.
    - exists ACL_ERROR_GE_INTERNAL_ERROR, (<[t := a']> (get m)), r', (upd_cell (K, t) ext' G). done. }
  destruct (get m !! t) as [a|] eqn:Ha.
  - apply (Hinit (G (K, t)) a (device m)); [by apply slot_lookup|by apply kept_same].
  - assert (He : G (K, t) = ∅) by (pose proof (mm_cell _ _ HM (K, t)) as Hc; rewrite cell_get in Hc; unfold slot_own in Hc; by rewrite Ha in Hc).
    destruct (new_nothrow (device m)) as [ok r] eqn:Hnew. pose proof (new_nothrow_live _ _ _ Hnew) as Hl. destruct ok.
    + apply (Hinit ∅); [apply own_new|]. rewrite He. by apply kept_same.
    + exists ACL_ERROR_GE_MEMORY_ALLOCATION, (get m), r, (upd_cell (K, t) ∅ G). split; [done|].
      destruct (slot_step G m t ∅ (get m) r HM) as [? ?]; [unfold slot_own; by rewrite Ha|rewrite He; by apply kept_same|done|]. done.
Qed.

Lemma FinalizeAllocators_ok entries : forall G m, mm_ok G m -> NoDup entries.*1 -> (forall t a, get m !! t = Some a <-> (t, a) ∈ entries) ->
  exists r G', FinalizeAllocators entries (device m) = Some r /\ mm_ok G' (put ∅ r m) /\ gkept G (device m) G' r.
Proof.
  induction entries as [|[t a] entries IH]; intros G m HM Hnd Hel; cbn [FinalizeAllocators].
  { assert (Hx : get m = ∅).
    { apply map_eq. intros t. rewrite lookup_empty. destruct (get m !! t) as [a|] eqn:Ha; [|done].
      apply Hel in Ha. by apply elem_of_nil in Ha. }
    exists (device m), G. split; [done|]. split; [|by apply gkept_same]. by rewrite <- Hx, put_get. }
  apply NoDup_cons in Hnd as [Ht Hnd]. assert (Ha : get m !! t = Some a) by (apply Hel; left).
  destruct (own_Finalize _ a _ (slot_lookup G m t a HM Ha)) as (a' & r1 & Hrun & HK). cbn. rewrite Hrun.
  destruct (slot_step G m t ∅ (delete t (get m)) r1 HM) as [HM1 HG1];
    [unfold slot_own; by rewrite lookup_delete_eq|done|intros t' Hne; by rewrite lookup_delete_ne|].
  destruct (IH _ _ HM1 Hnd) as (r2 & G' & Hrun2 & HM2 & HG2).
  { intros t' b. rewrite get_put, lookup_delete_Some, Hel, elem_of_cons. split.
    - intros [Hne [[= -> ->]|?]]; done.
    - intros Hb. split; [|by right]. intros <-. apply Ht, list_elem_of_fmap. by exists (t, b). }
  rewrite device_put in *. rewrite put_put in HM2. exists r2, G'. split; [done|]. split; [done|]. by eapply gkept_trans.
Qed.

Lemma FinalizeAllocatorMap_ok G m : mm_ok G m ->
  exists r G', FinalizeAllocatorMap (get m) (device m) = Some (∅, r) /\ mm_ok G' (put ∅ r m) /\ gkept G (device m) G' r.
Proof.
  intros HM. unfold FinalizeAllocatorMap. destruct (FinalizeAllocators_ok (in_key_order (get m)) G m HM) as (r & G' & Hrun & ?).
  - unfold in_key_order. rewrite merge_sort_Permutation. apply NoDup_fst_map_to_list.
  - intros t a. unfold in_key_order. rewrite merge_sort_Permutation. symmetry. apply elem_of_map_to_list.
  - exists r, G'. by rewrite Hrun.
Qed.

(** A call on an allocator that exists and is ready. *)
Lemma call_on_ok G m t c d : mm_ok G m -> slot_ready (get m) t -> al_call_ok c ->
  exists x a r G', call_on t c (get m) d (device m) = Some (x, <[t := a]> (get m), d, r) /\ mm_ok G' (put (<[t := a]> (get m)) r m) /\
    gkept G (device m) G' r /\ al_ready a.
Proof.
  intros HM (a & Ha & Hr) Hc. unfold call_on, GetAllocator. rewrite Ha.
  destruct (own_do c _ a _ (slot_lookup G m t a HM Ha) Hr Hc) as (x & ext' & a' & r' & -> & Ho & HK & Hr').
  destruct (slot_insert G m t a' ext' r' HM Ho HK). exists x, a', r', (upd_cell (K, t) ext' G). done.
Qed.
End Slot.

(** ** The methods *)
Lemma InitMemoryAllocators_eq inst types : forall x r, InitAllocator inst types x r = Some (InitMemoryAllocators types x r).
Proof.
  induction types as [|t types IH]; intros x r; cbn; [done|].
  destruct (x !! t); [apply IH|]. destruct (new_nothrow r) as [[] r']; [apply IH|done].
Qed.

Definition mm_ready (m : MemManager) (t : Z) : Prop :=
  slot_ready (memory_allocator_map_ m) t /\ slot_ready (caching_allocator_map_ m) t /\ slot_ready (rdma_allocator_map_ m) t /\
  slot_ready (host_allocator_map_ m) t.

Lemma manager_Initialize_ok types G m : mm_ok G m ->
  exists s m' G', Initialize types m = Some (s, m') /\ mm_ok G' m' /\ gkept G (device m) G' (device m') /\
    (s = SUCCESS -> forall t, t ∈ types -> mm_ready m' t).
Proof.
  intros HM. unfold Initialize.
  destruct (InitAllocator_ok KMemory memory_allocator_map_ put_memory id types G m HM) as (s1 & x1 & r1 & G1 & Hr1 & HM1 & HG1 & HR1).
  rewrite InitMemoryAllocators_eq in Hr1. injection Hr1 as ->. case_bool_decide as Hs1; cbn [negb]; [|by exists s1, (put_memory x1 r1 m), G1].
  set (m1 := put_memory x1 r1 m) in *.
  destruct (InitAllocator_ok KCaching caching_allocator_map_ put_caching (Instance_type m1) types G1 m1 HM1) as (s2 & x2 & r2 & G2 & -> & HM2 & HG2 & HR2).
  pose proof (gkept_trans _ _ _ _ _ _ HG1 HG2) as HK2. case_bool_decide as Hs2; cbn [negb]; [|by exists s2, (put_caching x2 r2 m1), G2].
  set (m2 := put_caching x2 r2 m1) in *.
  destruct (InitAllocator_ok KRdma rdma_allocator_map_ put_rdma (Instance_type m2) types G2 m2 HM2) as (s3 & x3 & r3 & G3 & -> & HM3 & HG3 & HR3).
  pose proof (gkept_trans _ _ _ _ _ _ HK2 HG3) as HK3. case_bool_decide as Hs3; cbn [negb]; [|by exists s3, (put_rdma x3 r3 m2), G3].
  set (m3 := put_rdma x3 r3 m2) in *.
  destruct (InitAllocator_ok KHost host_allocator_map_ put_host (Instance_type m3) types G3 m3 HM3) as (s4 & x4 & r4 & G4 & -> & HM4 & HG4 & HR4).
  exists s4, (put_host x4 r4 m3), G4. split; [done|]. split; [done|]. split; [exact (gkept_trans _ _ _ _ _ _ HK3 HG4)|].
  intros Hs4 t Ht. unfold mm_ready. split_and!; [apply HR1|apply HR2|apply HR3|apply HR4]; auto.
Qed.

Lemma manager_Finalize_ok G m : mm_ok G m ->
  exists m', Finalize m = Some m' /\ gkept G (device m) (fun _ => ∅) (device m') /\
    memory_allocator_map_ m' = ∅ /\ caching_allocator_map_ m' = ∅ /\ rdma_allocator_map_ m' = ∅ /\ host_allocator_map_ m' = ∅.
Proof.
  intros HM. unfold Finalize.
  destruct (FinalizeAllocatorMap_ok KCaching caching_allocator_map_ put_caching G m HM) as (r1 & G1 & -> & HM1 & HG1). cbn.
  destruct (FinalizeAllocatorMap_ok KRdma rdma_allocator_map_ put_rdma G1 _ HM1) as (r2 & G2 & Hrun2 & HM2 & HG2). cbn in Hrun2. rewrite Hrun2. cbn.
  destruct (FinalizeAllocatorMap_ok KHost host_allocator_map_ put_host G2 _ HM2) as (r3 & G3 & Hrun3 & HM3 & HG3). cbn in Hrun3. rewrite Hrun3. cbn.
  destruct (FinalizeAllocatorMap_ok KMemory memory_allocator_map_ put_memory G3 _ HM3) as (r4 & G4 & Hrun4 & HM4 & HG4). cbn in Hrun4. rewrite Hrun4. cbn.
  eexists. split; [reflexivity|]. split; [|done].
  assert (Hnone : forall c, G4 c = ∅).
  { intros c. pose proof (mm_cell _ _ HM4 c) as Hc. destruct c as [[] t]; exact Hc. }
  pose proof (gkept_trans _ _ _ _ _ _ (gkept_trans _ _ _ _ _ _ (gkept_trans _ _ _ _ _ _ HG1 HG2) HG3) HG4) as [HF HB HD]. cbn.
  split; [| |done].
  - intros q n Hq He. destruct (HF q n Hq He). done.
  - intros HT q n Hq _. apply (HB HT); [done|]. intros c. by rewrite Hnone.
Qed.

(** The memory type is one of those initialised, which MallocMemory and FreeMemory do not need, and the arguments are
    in range. *)
Definition mm_call_ok (types : list Z) (c : mm_call) : Prop :=
  match c with
  | CallMallocMemory _ size => 0 < size
  | CallFreeMemory _ _ => True
  | CallMemory t c => t ∈ types /\ al_call_ok (T := MemoryAllocator) c
  | CallCaching t c => t ∈ types /\ al_call_ok (T := CachingAllocator) c
  | CallRdma t c => t ∈ types /\ al_call_ok (T := RdmaPoolAllocator.RdmaPool) c
  | CallHost t c => t ∈ types /\ al_call_ok (T := HostMem) c
  end.

(** A call on an allocator, not on the device behind it. *)
Definition allocator_call (c : mm_call) : Prop :=
  match c with CallMallocMemory _ _ | CallFreeMemory _ _ => False | _ => True end.

Ltac one_call lem Hready :=
  let x := fresh in let a := fresh in let r := fresh in let G' := fresh in let Ha := fresh in
  edestruct lem as (x & a & r & G' & -> & ? & ? & Ha); [eassumption|exact Hready|eassumption|];
  eexists _, _, G'; split; [reflexivity|]; split; [eassumption|]; split; [eassumption|];
  let t' := fresh in let Ht' := fresh in
  intros t' Ht'; match goal with HR : forall t, t ∈ _ -> mm_ready _ t |- _ => destruct (HR t' Ht') as (? & ? & ? & ?) end;
  split_and!; try done; by apply slot_ready_insert.

Lemma mm_allocator_do_ok types G m c :
  mm_ok G m -> (forall t, t ∈ types -> mm_ready m t) -> mm_call_ok types c -> allocator_call c ->
  exists x m' G', mm_do c m = Some (x, m') /\ mm_ok G' m' /\ gkept G (device m) G' (device m') /\ forall t, t ∈ types -> mm_ready m' t.
Proof.
  intros HM HR Hc Hal. destruct c as [t size|t p|t c|t c|t c|t c]; [done|done|..]; destruct Hc as [Ht Hc]; cbn [mm_do]; destruct (HR t Ht) as (H1 & H2 & H3 & H4).
  - one_call (call_on_ok (A := memory_allocator) KMemory memory_allocator_map_ put_memory G m t c (default_memory m)) H1.
  - one_call (call_on_ok (A := caching_allocator) KCaching caching_allocator_map_ put_caching G m t c (default_caching m)) H2.
  - one_call (call_on_ok (A := rdma_allocator) KRdma rdma_allocator_map_ put_rdma G m t c (default_rdma m)) H3.
  - one_call (call_on_ok (A := host_allocator) KHost host_allocator_map_ put_host G m t c (default_host m)) H4.
Qed.

(** *** With the regions of MallocMemory

    [raw] is what its callers hold: live, and held by no allocator. *)
Definition raw_ok (raw : gmap Z Z) (G : cell -> gmap Z Z) (m : MemManager) : Prop :=
  forall q n, raw !! q = Some n -> rt_live (device m) !! q = Some n /\ forall c, G c !! q = None.

(** The allocators and the callers of MallocMemory. *)
Definition with_raw (raw : gmap Z Z) (G : cell -> gmap Z Z) (o : option cell) : gmap Z Z := match o with Some c => G c | None => raw end.

Lemma with_raw_none raw G q : (forall o, with_raw raw G o !! q = None) <-> raw !! q = None /\ forall c, G c !! q = None.
Proof. split; [intros Ho; split; [exact (Ho None)|intros c; exact (Ho (Some c))]|by intros [??] [c|]; cbn]. Qed.

Lemma gkept_allocators raw G r G' r' : gkept G r G' r' -> gkept (with_raw raw G) r (with_raw raw G') r'.
Proof.
  intros [HF HB HD]. split; [| |done].
  - intros q n Hq [Hraw Hc]%with_raw_none. destruct (HF q n Hq Hc). by rewrite with_raw_none.
  - intros HT q n Hq [Hraw Hc]%with_raw_none. destruct (HB HT q n Hq Hc). by rewrite with_raw_none.
Qed.

Lemma gkept_raw raw r raw' r' G : kept raw r raw' r' -> gkept (with_raw raw G) r (with_raw raw' G) r'.
Proof.
  intros [HF HB HD]. split; [| |done].
  - intros q n Hq [Hraw Hc]%with_raw_none. destruct (HF q n Hq Hraw). by rewrite with_raw_none.
  - intros HT q n Hq [Hraw Hc]%with_raw_none. destruct (HB HT q n Hq Hraw). by rewrite with_raw_none.
Qed.

Lemma raw_ok_kept raw G m G' m' : raw_ok raw G m -> gkept G (device m) G' (device m') -> raw_ok raw G' m'.
Proof. intros Hraw [HF _ _] q n [Hl Hn]%Hraw. by apply HF. Qed.

(** The device changes outside of what the allocators hold. *)
Lemma mm_ok_device G m r : mm_ok G m -> (forall c, G c ⊆ rt_live r) -> mm_ok G (put_memory (memory_allocator_map_ m) r m).
Proof.
  intros [Hc Hs] Hl. split; [|done]. intros c. apply (cell_own_frame _ c _ (device m)); [|done].
  specialize (Hc c). by destruct c as [[] t].
Qed.

Definition frees_held (raw : gmap Z Z) (c : mm_call) : Prop :=
  match c with CallFreeMemory _ p => is_Some (raw !! p) | _ => True end.

(** MallocMemory and FreeMemory leave the allocators alone. *)
Lemma mm_raw_do_ok types raw G m c :
  mm_ok G m -> raw_ok raw G m -> mm_call_ok types c -> frees_held raw c -> ~ allocator_call c ->
  exists x r, mm_do c m = Some (x, put_memory (memory_allocator_map_ m) r m) /\ kept raw (device m) (raw_after c x raw) r /\
    raw_ok (raw_after c x raw) G (put_memory (memory_allocator_map_ m) r m) /\ forall c, G c ⊆ rt_live r.
Proof.
  intros HM Hraw Hc Hf Hnot. destruct c as [t size|t p|t c|t c|t c|t c]; try by destruct Hnot.
  - cbn [mm_do]. destruct (MallocMemory (Instance_type m t) size (device m)) as [p r] eqn:Hm. eexists _, r. split; [reflexivity|].
    assert (Hlive : forall c, G c ⊆ rt_live (device m)) by (intros c; eapply cell_own_live, (mm_cell _ _ HM)). cbn [raw_after].
    destruct (MallocMemory_spec _ _ _ _ _ Hm Hc) as [[-> Hr]|(Hp & _ & Hfresh & Hr & Hd)].
    + cbn. split; [by apply kept_same|]. rewrite Hr. split; [|done]. intros q n Hq. cbn. rewrite Hr. by apply Hraw.
    + destruct (Z.eqb_spec p 0) as [|_]; [lia|]. split; [by apply kept_grow|]. split.
      * intros q n. cbn. rewrite Hr, !lookup_insert_Some. intros [[<- <-]|[Hne [Hq Hn]%Hraw]]; [|by auto]. split; [by left|].
        intros c. destruct (G c !! p) as [k|] eqn:Hk; [|done]. pose proof (lookup_weaken _ _ _ _ Hk (Hlive c)). congruence.
      * intros c. rewrite Hr. etrans; [apply Hlive|]. by apply insert_subseteq.
  - cbn [mm_do]. destruct Hf as [n Hn]. destruct (Hraw p n Hn) as [Hl Hnone]. destruct (FreeMemory p (device m)) as [s r] eqn:Hfree.
    eexists _, r. split; [reflexivity|]. pose proof (kept_free raw _ _ _ _ _ Hl Hfree Hn) as HK. cbn [raw_after].
    assert (Hlive : forall c, G c ⊆ rt_live (device m)) by (intros c; eapply cell_own_live, (mm_cell _ _ HM)).
    destruct (FreeMemory_spec _ _ _ _ _ Hfree Hl) as [[-> Hr]|[Hs Hr]].
    + cbn. split; [done|]. rewrite Hr. split.
      * intros q k [Hne Hq]%lookup_delete_Some. destruct (Hraw q k Hq). cbn. by rewrite Hr, lookup_delete_ne.
      * intros c. apply map_subseteq_spec. intros q k Hq. rewrite lookup_delete_Some. split; [intros <-; by rewrite Hnone in Hq|].
        by eapply lookup_weaken.
    + rewrite bool_decide_false by done. split; [by apply kept_same|]. rewrite Hr. split; [|done]. intros q k Hq. cbn. rewrite Hr. by apply Hraw.
Qed.

Lemma raw_after_allocator c x raw : allocator_call c -> raw_after c x raw = raw.
Proof. by destruct c. Qed.

Lemma mm_do_ok types raw G m c :
  mm_ok G m -> raw_ok raw G m -> (forall t, t ∈ types -> mm_ready m t) -> mm_call_ok types c -> frees_held raw c ->
  exists x m' G', mm_do c m = Some (x, m') /\ mm_ok G' m' /\ raw_ok (raw_after c x raw) G' m' /\
    gkept (with_raw raw G) (device m) (with_raw (raw_after c x raw) G') (device m') /\ forall t, t ∈ types -> mm_ready m' t.
Proof.
  intros HM Hraw HR Hc Hf. assert (Hkind : allocator_call c \/ ~ allocator_call c) by (destruct c; cbn; auto). destruct Hkind as [Hal|Hal].
  - destruct (mm_allocator_do_ok types G m c HM HR Hc Hal) as (x & m' & G' & Hrun & HM' & HG & HR'). exists x, m', G'.
    rewrite raw_after_allocator by done. split; [done|]. split; [done|]. split; [by eapply raw_ok_kept|]. split; [by apply gkept_allocators|done].
  - destruct (mm_raw_do_ok types raw G m c HM Hraw Hc Hf Hal) as (x & r & Hrun & HK & Hraw' & Hl). eexists x, _, G. split; [exact Hrun|].
    split; [by apply mm_ok_device|]. split; [done|]. split; [by apply gkept_raw|done].
Qed.

Lemma frees_own_cons c cs raw m :
  frees_own (c :: cs) raw m = true -> frees_held raw c /\ forall x m', mm_do c m = Some (x, m') -> frees_own cs (raw_after c x raw) m' = true.
Proof.
  cbn. intros [Hc Hcs]%andb_true_iff. split; [|intros x m' Hrun; by rewrite Hrun in Hcs]. destruct c; try done. by apply bool_decide_eq_true in Hc.
Qed.

Lemma mm_calls_ok types cs : forall raw G m,
  mm_ok G m -> raw_ok raw G m -> (forall t, t ∈ types -> mm_ready m t) -> Forall (mm_call_ok types) cs -> frees_own cs raw m = true ->
  exists l m' G', mm_calls cs m = Some (l, m') /\ mm_ok G' m' /\ raw_ok (raw_held cs l raw) G' m' /\
    gkept (with_raw raw G) (device m) (with_raw (raw_held cs l raw) G') (device m').
Proof.
  induction cs as [|c cs IH]; intros raw G m HM Hraw HR Hcs Hf; cbn [mm_calls].
  { exists [], m, G. split; [done|]. split; [done|]. split; [done|by apply gkept_same]. }
  apply Forall_cons in Hcs as [Hc Hcs]. apply frees_own_cons in Hf as [Hfc Hf].
  destruct (mm_do_ok types raw G m c HM Hraw HR Hc Hfc) as (x & m1 & G1 & Hrun & HM1 & Hraw1 & HG1 & HR1). rewrite Hrun. cbn.
  destruct (IH _ G1 m1 HM1 Hraw1 HR1 Hcs (Hf x m1 Hrun)) as (l & m2 & G2 & -> & HM2 & Hraw2 & HG2). cbn. eexists _, _, G2.
  split; [reflexivity|]. split; [done|]. split; [done|]. by eapply gkept_trans.
Qed.

Lemma mm_new_ok r : mm_ok (fun _ => ∅) (MemManager_new r).
Proof. split; [by intros [[] t]|done]. Qed.
(** ** What the users have of the device *)
Definition slot_handed {T} {A : Allocator R T} {AO : AllocatorOk R RO T A} (x : gmap Z T) (t : Z) : gmap Z Z :=
  match x !! t with Some a => handed a | None => ∅ end.

Definition handed_by (m : MemManager) (c : cell) : gmap Z Z :=
  match c.1 with
  | KMemory => slot_handed (memory_allocator_map_ m) c.2
  | KCaching => slot_handed (caching_allocator_map_ m) c.2
  | KRdma => slot_handed (rdma_allocator_map_ m) c.2
  | KHost => slot_handed (host_allocator_map_ m) c.2
  end.

Lemma slot_handed_inside {T} {A : Allocator R T} {AO : AllocatorOk R RO T A} (x : gmap Z T) t ext r p n :
  slot_own x t ext r -> slot_handed x t !! p = Some n -> exists base len, ext !! base = Some len /\ base <= p /\ p + n <= base + len.
Proof. unfold slot_own, slot_handed. destruct (x !! t); [by eapply own_handed|]. intros _. by rewrite lookup_empty. Qed.

Lemma slot_handed_disj {T} {A : Allocator R T} {AO : AllocatorOk R RO T A} (x : gmap Z T) t ext r :
  slot_own x t ext r -> live_disj (rt_live r) -> live_disj (slot_handed x t).
Proof. unfold slot_own, slot_handed. destruct (x !! t); [by eapply own_handed_disj|]. intros _ _ p n q k. by rewrite lookup_empty. Qed.

Lemma handed_inside m c ext r p n :
  cell_own m c ext r -> handed_by m c !! p = Some n -> exists base len, ext !! base = Some len /\ base <= p /\ p + n <= base + len.
Proof. destruct c as [[] t]; apply slot_handed_inside. Qed.

Lemma handed_disj m c ext r : cell_own m c ext r -> live_disj (rt_live r) -> live_disj (handed_by m c).
Proof. destruct c as [[] t]; apply slot_handed_disj. Qed.

(** Regions held by different cells do not overlap, nor do a held region and one of somebody else. *)
Lemma held_apart G m c base len b l :
  mm_ok G m -> live_disj (rt_live (device m)) -> G c !! base = Some len -> rt_live (device m) !! b = Some l -> G c !! b = None ->
  base + len <= b \/ b + l <= base.
Proof.
  intros HM HD Hb Hl Hn. apply HD; [|done|congruence]. by eapply lookup_weaken, cell_own_live, (mm_cell _ _ HM).
Qed.

(** The regions of the device its users have: those of the allocators, and those of MallocMemory. *)
Definition user_regions (raw : gmap Z Z) (m : MemManager) : option cell -> gmap Z Z := with_raw raw (handed_by m).

(** Each lies in a region its holder has on the device. *)
Lemma user_inside raw G m o p n : mm_ok G m -> user_regions raw m o !! p = Some n ->
  exists base len, with_raw raw G o !! base = Some len /\ base <= p /\ p + n <= base + len.
Proof. intros HM Hp. destruct o as [c|]; [eapply handed_inside, Hp; apply (mm_cell _ _ HM)|exists p, n; split; [done|lia]]. Qed.

Lemma with_raw_live raw G m o : mm_ok G m -> raw_ok raw G m -> with_raw raw G o ⊆ rt_live (device m).
Proof. intros HM Hraw. destruct o as [c|]; [eapply cell_own_live, (mm_cell _ _ HM)|]. apply map_subseteq_spec. intros q n Hq. by apply Hraw. Qed.

Lemma with_raw_sep raw G m o o' q : mm_ok G m -> raw_ok raw G m -> o <> o' -> is_Some (with_raw raw G o !! q) -> with_raw raw G o' !! q = None.
Proof.
  intros HM Hraw Hne [n Hq]. destruct o as [c|], o' as [c'|]; cbn in *; [apply (mm_sep _ _ HM c c'); [congruence|by eexists]| |by apply Hraw in Hq as [_ ?]|done].
  destruct (raw !! q) as [k|] eqn:Hk; [|done]. apply Hraw in Hk as [_ Hn]. congruence.
Qed.

Lemma user_apart raw G m o p n o' q k :
  mm_ok G m -> raw_ok raw G m -> live_disj (rt_live (device m)) ->
  user_regions raw m o !! p = Some n -> user_regions raw m o' !! q = Some k -> (o, p) <> (o', q) -> p + n <= q \/ q + k <= p.
Proof.
  intros HM Hraw HD Hp Hq Hne. destruct (decide (o = o')) as [<-|Ho].
  - assert (Hpq : p <> q) by congruence. destruct o as [c|]; [by apply (handed_disj m c _ _ (mm_cell _ _ HM c) HD p n q k)|].
    apply HD; [by apply Hraw..|done].
  - destruct (user_inside _ _ _ _ _ _ HM Hp) as (b1 & l1 & He1 & ? & ?), (user_inside _ _ _ _ _ _ HM Hq) as (b2 & l2 & He2 & ? & ?).
    destruct (HD b1 l1 b2 l2); [by eapply lookup_weaken, with_raw_live..| |lia|lia].
    intros <-. pose proof (with_raw_sep _ _ _ _ _ b1 HM Hraw Ho (ex_intro _ _ He1)). congruence.
Qed.

Lemma raw_ok_empty G m : raw_ok ∅ G m.
Proof. intros q n. by rewrite lookup_empty. Qed.

(** C3 The allocators of a MemManager and the callers of MallocMemory share one device without disturbing each other.
    After Initialize, any calls on the memory, caching, RDMA and host allocators of the initialised memory types, with
    MallocMemory and FreeMemory of MemManager::Instance among them, run to the end without touching a bad
    pointer; then no two regions of device memory their users hold overlap, whichever allocators they come
    from; and the regions that were in use on the device before the manager existed are
    untouched and overlap none of them.  Conditions on the calls: sizes of keyed and unkeyed memory are positive and
    those of caching and RDMA requests at most 2^64 - 512; FreeMemory gets an address MallocMemory handed out and
    that was not given back, since it releases whatever it is told to; and an RDMA pool is set up on a device
    whose reset releases no memory ([reset_keeps]), which InitMemory relies on.  Host memory is no part of the
    statement: of the host allocators it says that their calls end and leave the device alone. *)
Theorem mem_manager_apart types r cs m1 :
  live_disj (rt_live r) -> Initialize types (MemManager_new r) = Some (SUCCESS, m1) -> Forall (mm_call_ok types) cs ->
  frees_own cs ∅ m1 = true ->
  exists l m2, mm_calls cs m1 = Some (l, m2) /\
    (forall o p n o' q k, user_regions (raw_held cs l ∅) m2 o !! p = Some n -> user_regions (raw_held cs l ∅) m2 o' !! q = Some k ->
       (o, p) <> (o', q) -> p + n <= q \/ q + k <= p) /\
    rt_live r ⊆ rt_live (device m2) /\
    (forall o p n q k, user_regions (raw_held cs l ∅) m2 o !! p = Some n -> rt_live r !! q = Some k -> p + n <= q \/ q + k <= p).
Proof.
  intros HD Hinit Hcs Hf. destruct (manager_Initialize_ok types _ _ (mm_new_ok r)) as (s & m' & G1 & Hrun & HM1 & HG1 & HR1).
  rewrite Hrun in Hinit. injection Hinit as -> ->.
  destruct (mm_calls_ok types cs ∅ G1 m1 HM1 (raw_ok_empty _ _) (HR1 eq_refl) Hcs Hf) as (l & m2 & G2 & Hrun2 & HM2 & Hraw & HG2).
  pose proof (gkept_trans _ _ _ _ _ _ (gkept_allocators ∅ _ _ _ _ HG1) HG2) as [HF _ HDD]. specialize (HDD HD).
  assert (Hold : forall q k, rt_live r !! q = Some k -> rt_live (device m2) !! q = Some k /\ forall o, with_raw (raw_held cs l ∅) G2 o !! q = None).
  { intros q k Hq. apply HF; [done|]. by apply with_raw_none. }
  exists l, m2. split; [done|]. split; [|split].
  - intros o p n o' q k. by apply (user_apart _ G2).
  - apply map_subseteq_spec. intros q k Hq. by apply Hold.
  - intros o p n q k Hp Hq. destruct (user_inside _ _ _ _ _ _ HM2 Hp) as (b1 & l1 & He1 & ? & ?). destruct (Hold q k Hq) as [Hl Hn].
    destruct (HDD b1 l1 q k); [by eapply lookup_weaken, with_raw_live|done|specialize (Hn o); congruence|lia|lia].
Qed.

(** C15 The whole life of a MemManager: Initialize, which may fail when the host heap is exhausted, any calls if it
    succeeded, MallocMemory and FreeMemory of MemManager::Instance included, and Finalize always run to the end; afterwards
    no allocator is left and, when the device refuses no release, the device has exactly the regions it had before and
    those MallocMemory handed out and FreeMemory did not give back, which Finalize does not know of: what
    was still in use of the memory, caching and RDMA allocators is given back.  The conditions on the calls are those of
    the previous theorem. *)
Theorem mem_manager_lifecycle types r cs :
  Forall (mm_call_ok types) cs -> (forall m1, Initialize types (MemManager_new r) = Some (SUCCESS, m1) -> frees_own cs ∅ m1 = true) ->
  exists s m1 l m2 m3, Initialize types (MemManager_new r) = Some (s, m1) /\
    (if bool_decide (s = SUCCESS) then mm_calls cs m1 else Some ([], m1)) = Some (l, m2) /\ Finalize m2 = Some m3 /\
    memory_allocator_map_ m3 = ∅ /\ caching_allocator_map_ m3 = ∅ /\ rdma_allocator_map_ m3 = ∅ /\ host_allocator_map_ m3 = ∅ /\
    (rtFree_total -> rt_live (device m3) = rt_live r ∪ raw_held cs l ∅).
Proof.
  intros Hcs Hf. destruct (manager_Initialize_ok types _ _ (mm_new_ok r)) as (s & m1 & G1 & Hrun & HM1 & HG1 & HR1).
  assert (Hmid : exists l m2 G2, (if bool_decide (s = SUCCESS) then mm_calls cs m1 else Some ([], m1)) = Some (l, m2) /\
    mm_ok G2 m2 /\ raw_ok (raw_held cs l ∅) G2 m2 /\ gkept (with_raw ∅ G1) (device m1) (with_raw (raw_held cs l ∅) G2) (device m2)).
  { case_bool_decide as Hs; [subst s; apply (mm_calls_ok types); auto using raw_ok_empty|]. exists [], m1, G1.
    assert (raw_held cs [] ∅ = ∅) as -> by (by destruct cs). split; [done|]. split; [done|]. split; [apply raw_ok_empty|]. by apply gkept_same. }
  destruct Hmid as (l & m2 & G2 & Hrun2 & HM2 & Hraw & HG2). destruct (manager_Finalize_ok G2 m2 HM2) as (m3 & Hrun3 & HG3 & He).
  exists s, m1, l, m2, m3. destruct He as (? & ? & ? & ?). split_and!; try done. intros HT. set (raw := raw_held cs l ∅) in *.
  pose proof (gkept_trans _ _ _ _ _ _ (gkept_allocators ∅ _ _ _ _ HG1) (gkept_trans _ _ _ _ _ _ HG2 (gkept_allocators raw _ _ _ _ HG3))) as [HF HB _].
  assert (Hleft : raw_ok raw (fun _ => ∅) m3) by (by eapply raw_ok_kept).
  apply map_eq. intros q. apply option_eq. intros n. rewrite lookup_union_Some_raw. split.
  - intros Hq. destruct (raw !! q) as [k|] eqn:Hk.
    + destruct (Hleft q k Hk) as [Hq' _]. right. split; [|congruence]. destruct (rt_live r !! q) as [j|] eqn:Hj; [|done].
      destruct (HF q j Hj) as [_ Hno]; [by apply with_raw_none|]. apply with_raw_none in Hno as [Hno _]. congruence.
    + left. apply (HB HT); [done|]. by apply with_raw_none.
  - intros [Hq|[_ Hq]]; [|by apply Hleft]. apply HF; [done|by apply with_raw_none].
Qed.
End Manager.

(** * Concrete runs *)
Local Existing Instance sample_runtime.
Local Existing Instance sample_runtime_ok.
#[export] Instance sample_host : HostHeap sample_runtime := {| make_aligned := fun size r => (Some 4096, r) |}.
#[export] Instance sample_host_ok : HostHeapOk sample_runtime sample_runtime_ok sample_host.
Proof. by split. Qed.

Definition mm_rt : @RT sample_runtime := {| srt_live := {[100 := 50]}; srt_top := 150 |}.
Definition mm_sample_calls : list mm_call :=
  [CallCaching 2 (CMalloc 1000 0 0); CallMallocMemory 2 64; CallRdma 2 (PInit 0 8192); CallMemory 2 (KMalloc "session" 4096);
   CallMallocMemory 2 128; CallRdma 2 (PCall (RMalloc 100 0)); CallHost 2 (HMalloc 64); CallCaching 2 (CFree 4096);
   CallFreeMemory 2 528384].

Lemma mm_sample_calls_ok : Forall (mm_call_ok [2]) mm_sample_calls.
Proof. repeat constructor; cbn; unfold kRoundBlockSize, RdmaPoolAllocator.kAlignedSize; try lia; by intros r. Qed.

Definition mm_started : MemManager := match Initialize [2] (MemManager_new mm_rt) with Some (_, m) => m | None => MemManager_new mm_rt end.

Lemma mm_started_ok : Initialize [2] (MemManager_new mm_rt) = Some (SUCCESS, mm_started).
Proof.
  assert (Hs : fst <$> Initialize [2] (MemManager_new mm_rt) = Some SUCCESS) by (vm_compute; reflexivity).
  unfold mm_started. destruct (Initialize [2] (MemManager_new mm_rt)) as [[s m]|]; [|discriminate]. by injection Hs as ->.
Qed.

Lemma mm_sample_frees : frees_own mm_sample_calls ∅ mm_started = true.
Proof. vm_compute. reflexivity. Qed.

(** At the end a region of MallocMemory and one of the RDMA pool are in use. *)
Lemma mm_sample_regions : match mm_calls mm_sample_calls mm_started with
  | Some (l, m) => raw_held mm_sample_calls l ∅ = {[540736 := 128]} /\ handed_by m (KRdma, 2) = {[528448 := 512]}
  | None => False
  end.
Proof. vm_compute. split; reflexivity. Qed.

Lemma mem_manager_apart_witness :
  exists l m2, mm_calls mm_sample_calls mm_started = Some (l, m2) /\
    user_regions (raw_held mm_sample_calls l ∅) m2 None !! 540736 = Some 128 /\
    user_regions (raw_held mm_sample_calls l ∅) m2 (Some (KRdma, 2)) !! 528448 = Some 512 /\
    (540736 + 128 <= 528448 \/ 528448 + 512 <= 540736) /\ rt_live mm_rt ⊆ rt_live (device m2).
Proof.
  destruct (mem_manager_apart [2] mm_rt mm_sample_calls mm_started) as (l & m2 & Hrun & Hapart & Hl & _).
  - cbn. intros p n q k [<- <-]%lookup_singleton_Some [<- <-]%lookup_singleton_Some Hne. by destruct Hne.
  - exact mm_started_ok.
  - exact mm_sample_calls_ok.
  - exact mm_sample_frees.
  - pose proof mm_sample_regions as Hreg. rewrite Hrun in Hreg. destruct Hreg as [Hraw Hrdma].
    assert (H1 : user_regions (raw_held mm_sample_calls l ∅) m2 None !! 540736 = Some 128) 
      by (unfold user_regions, with_raw; rewrite Hraw; apply lookup_singleton_eq).
    assert (H2 : user_regions (raw_held mm_sample_calls l ∅) m2 (Some (KRdma, 2)) !! 528448 = Some 512)
      by (unfold user_regions, with_raw; rewrite Hrdma; apply lookup_singleton_eq).
    exists l, m2. split; [exact Hrun|]. split; [exact H1|]. split; [exact H2|]. split; [|exact Hl].
    apply (Hapart None 540736 128 (Some (KRdma, 2)) 528448 512 H1 H2). discriminate.
Defined.

Lemma some_pair_inj {A B} (a c : A) (b d : B) : Some (a, b) = Some (c, d) -> c = a /\ d = b.
Proof. by intros [= -> ->]. Qed.

Lemma mem_manager_lifecycle_witness :
  exists l m2 m3, mm_calls mm_sample_calls mm_started = Some (l, m2) /\ Finalize m2 = Some m3 /\
    rt_live (device m3) = rt_live mm_rt ∪ {[540736 := 128]}.
Proof.
  destruct (mem_manager_lifecycle [2] mm_rt mm_sample_calls mm_sample_calls_ok) as (s & m1 & l & m2 & m3 & H1 & H2 & H3 & _ & _ & _ & _ & H4).
  - intros m1 H1. rewrite mm_started_ok in H1. apply some_pair_inj in H1 as [_ ->]. exact mm_sample_frees.
  - rewrite mm_started_ok in H1. apply some_pair_inj in H1 as [-> ->]. change (mm_calls mm_sample_calls mm_started = Some (l, m2)) in H2.
    exists l, m2, m3. split; [exact H2|]. split; [exact H3|].
    pose proof mm_sample_regions as Hreg. rewrite H2 in Hreg. destruct Hreg as [<- _]. apply H4. exact sample_rtFree_total.
Defined.

(** GetAlignedPtr of an address that was never allocated enters it into the table, so that a later
    Free of this address succeeds. *)
Theorem host_lookup_inserts m p :
  p <> 0 -> m !! p = None ->
  (HostMemAllocator.Free p m).1 = PARAM_INVALID /\
  let m' := (HostMemAllocator.GetAlignedPtr p m).2 in (HostMemAllocator.Free p m').1 = SUCCESS.
Proof.
  intros Hp Hm. unfold HostMemAllocator.Free, HostMemAllocator.GetAlignedPtr, HostMem in *. destruct (Z.eqb_spec p 0); [done|]. rewrite Hm. cbn. by rewrite lookup_insert_eq.
Qed.

Lemma host_lookup_inserts_witness : (HostMemAllocator.Free 64 (HostMemAllocator.GetAlignedPtr 64 ∅).2).1 = SUCCESS.
Proof. apply (host_lookup_inserts ∅ 64); [discriminate|reflexivity]. Defined.
