(* ===== verification/VarManager.v ===== *)
(** The variable manager (ge/graph/manager/graph_var_manager.{h,cc}).

    A session has one VarManager, found by its id in the VarManagerPool.  It gives every variable of the session
    (a name with a format and a data type) an address: an offset into the variable memory of the
    session, handed out by HbmMemResource in steps of 512 bytes and shifted by the logic base, or a region of
    the RDMA pool.  The offsets become device addresses when the memory of the session has been taken
    from the MemoryAllocator of the memory manager.

    [World] is what the methods reach: the pool with its managers and the memory manager.  A method
    runs on a [ref] in the state monad [SM World]; [None] is undefined behaviour.
    The tensor descriptors of the metadef submodule are the parameter [TensorDescLib]. *)
From S2P Require Import Prelude MemAllocator CachingAllocator CachingTheorems RdmaPool RdmaTheorems MemManager MemRanges.
From stdpp Require Import strings pretty.
From Stdlib Require Import Ascii.
Open Scope Z_scope.

Definition RT_MEMORY_HBM : Z := 2.
Definition RT_MEMORY_RDMA_HBM : Z := 3.

(** * Constants *)
Definition GByte : Z := 1024 * 1024 * 1024.
Definition kGraphMemoryManagerMallocMaxSize : Z := 26 * GByte.
Definition kMemoryVarManagerMallocSize : Z := 5 * GByte.
Definition kMemoryVarLogicBase : Z := 32 * GByte.
Definition kUseMaxMemorySize : Z := kGraphMemoryManagerMallocMaxSize + kMemoryVarManagerMallocSize.
Definition kGraphMemoryBuffer : Z := 4 * GByte.
Definition kMaxMemorySize : Z := 256 * GByte.
Definition kSessionMemAlignSize : Z := 512.
Definition kSessionMemAlignUnit : Z := 2.
Definition OTHER_VERSION : Z := 2.

(** * Tensor descriptors *)
Class TensorDescLib := {
  GeTensorDesc : Type;
  td_GetFormat : GeTensorDesc -> Z;
  td_GetOriginFormat : GeTensorDesc -> Z;
  td_GetDataType : GeTensorDesc -> Z;
  td_GetDims : GeTensorDesc -> list Z;
  td_SetFormat : Z -> GeTensorDesc -> GeTensorDesc;
  td_SetOriginFormat : Z -> GeTensorDesc -> GeTensorDesc;
  (** TensorUtils::GetSize: the status and the size, an int64_t. *)
  td_GetSize : GeTensorDesc -> Status * Z;
}.

(** The attributes are independent. *)
Class TensorDescLibOk (L : TensorDescLib) : Prop := {
  td_format_set f d : td_GetFormat (td_SetFormat f d) = f;
  td_format_origin f d : td_GetFormat (td_SetOriginFormat f d) = td_GetFormat d;
  td_type_set f d : td_GetDataType (td_SetFormat f d) = td_GetDataType d;
  td_type_origin f d : td_GetDataType (td_SetOriginFormat f d) = td_GetDataType d;
  td_size_set f d : td_GetSize (td_SetFormat f d) = td_GetSize d;
  td_size_origin f d : td_GetSize (td_SetOriginFormat f d) = td_GetSize d;
}.

(** * Sizes given as text: VarManager::ParseMemoryMallocSize *)
Module ParseSize.
(** The tokens of `while (getline(str, str_split, '*'))`: no token after a last delimiter. *)
Fixpoint getlines (cur s : list ascii) : list (list ascii) :=
  match s with
  | [] => if bool_decide (cur = []) then [] else [cur]
  | c :: s => if Ascii.eqb c "*" then cur :: getlines [] s else getlines (cur ++ [c]) s
  end.

Definition is_space (c : ascii) : bool := Ascii.eqb c " ".
Definition isdigit (c : ascii) : bool := (48 <=? Z.of_N (N_of_ascii c)) && (Z.of_N (N_of_ascii c) <=? 57).
Definition digit (c : ascii) : Z := Z.of_N (N_of_ascii c) - 48.

Fixpoint skip_spaces (s : list ascii) : list ascii :=
  match s with
  | c :: s' => if is_space c then skip_spaces s' else s
  | [] => []
  end.
(** `it = find_first_not_of(" "); if (it != npos) erase(0, it)`, then the same from the end. *)
Definition trim_front (s : list ascii) : list ascii := if forallb is_space s then s else skip_spaces s.
Definition trim_back (s : list ascii) : list ascii := if forallb is_space s then s else rev (skip_spaces (rev s)).

(** std::strtoul with base 0 on a string of digits: a leading zero means octal, the number ends at the
    first digit that is not of the base, and a value out of range becomes ULONG_MAX. *)
Fixpoint strtoul_digits (base acc : Z) (s : list ascii) : Z :=
  match s with
  | [] => acc
  | c :: s => if digit c <? base then strtoul_digits base (acc * base + digit c) s else acc
  end.
Definition strtoul (s : list ascii) : Z :=
  let base := match s with c :: _ => if Ascii.eqb c "0" then 8 else 10 | [] => 10 end in
  Z.min (2 ^ 64 - 1) (strtoul_digits base 0 s).

Section Parse.
Context {E : RangeEnv}.

(** The loop over the factors; [result] is the out parameter. *)
Fixpoint parse_splits (splits : list (list ascii)) (result : Z) : Status * Z :=
  match splits with
  | [] => (SUCCESS, result)
  | split :: splits =>
      let split := trim_back (trim_front split) in
      if negb (forallb isdigit split) then (GE_GRAPH_OPTIONS_INVALID, result) else
      let num := strtoul split in
      if CheckUint64MulOverflow result (wrapU 32 num) then (FAILED, result) else
      if (kMaxMemorySize <? num) || (kMaxMemorySize <? wrapU64 (result * num)) then (FAILED, result) else
      parse_splits splits (wrapU64 (result * num))
  end.

Definition ParseMemoryMallocSize (memory_size : string) (result : Z) : Status * Z :=
  let s := String.list_ascii_of_string memory_size in
  if bool_decide (s = []) then (GE_GRAPH_OPTIONS_INVALID, result) else parse_splits (getlines [] s) 1.
End Parse.
End ParseSize.

Section Model.
Context {R : Runtime} {D : DeviceApi R} {H : HostHeap R} {E : RangeEnv} {L : TensorDescLib}.

(** * Data *)
Record VarAddrMgr := mkVarAddrMgr { va_tensor_desc : GeTensorDesc; va_address : Z; va_offset : Z; va_memory_type : Z }.
Record VarBroadCastInfo := mkBroadCast {
  bc_var_name : string; bc_broadcast_name : string; bc_idx : Z;
  bc_input_offset : Z; bc_input_size : Z; bc_output_offset : Z; bc_output_size : Z;
}.
Record TransNodeInfo := mkTransNode { tn_node_type : string; tn_input : GeTensorDesc; tn_output : GeTensorDesc }.
Definition VarTransRoad : Type := list TransNodeInfo.

Record VarResource := mkVarResource {
  vr_session_id_ : Z;
  var_offset_map_ : gmap Z Z;
  var_addr_mgr_map_ : gmap string VarAddrMgr;
  cur_var_tensor_desc_map_ : gmap string GeTensorDesc;
  var_to_trans_road_ : gmap string VarTransRoad;
  var_names_to_changed_graph_id_ : gmap string Z;
  var_names_to_allocated_graph_id_ : gmap string Z;
  var_broad_cast_info_ : gmap Z (gmap string VarBroadCastInfo);
}.

(** HbmMemResource or RdmaMemResource. *)
Inductive mem_resource_class := HbmMemResource | RdmaMemResource.
Record MemResource := mkMemResource { mr_class : mem_resource_class; total_size_ : Z; var_mem_size_ : Z }.

Record VarManager := mkVarManager {
  version_ : Z;
  session_id_ : Z;
  device_id_ : Z;
  job_id_ : Z;
  graph_mem_max_size_ : Z;
  var_mem_max_size_ : Z;
  var_mem_logic_base_ : Z;
  use_max_mem_size_ : Z;
  var_resource_ : option VarResource;
  mem_resource_map_ : gmap Z MemResource;
}.

Definition VarManager_new (session_id : Z) : VarManager :=
  mkVarManager OTHER_VERSION session_id 0 0 kGraphMemoryManagerMallocMaxSize kMemoryVarManagerMallocSize kMemoryVarLogicBase
    kUseMaxMemorySize None ∅.
Definition VarResource_new (session_id : Z) : VarResource := mkVarResource session_id ∅ ∅ ∅ ∅ ∅ ∅ ∅.

(** * VarResource *)
Definition set_addr_mgr_map (m : gmap string VarAddrMgr) (vr : VarResource) : VarResource :=
  mkVarResource (vr_session_id_ vr) (var_offset_map_ vr) m (cur_var_tensor_desc_map_ vr) (var_to_trans_road_ vr)
    (var_names_to_changed_graph_id_ vr) (var_names_to_allocated_graph_id_ vr) (var_broad_cast_info_ vr).
Definition set_offset_map (m : gmap Z Z) (vr : VarResource) : VarResource :=
  mkVarResource (vr_session_id_ vr) m (var_addr_mgr_map_ vr) (cur_var_tensor_desc_map_ vr) (var_to_trans_road_ vr)
    (var_names_to_changed_graph_id_ vr) (var_names_to_allocated_graph_id_ vr) (var_broad_cast_info_ vr).
Definition set_cur_desc_map (m : gmap string GeTensorDesc) (vr : VarResource) : VarResource :=
  mkVarResource (vr_session_id_ vr) (var_offset_map_ vr) (var_addr_mgr_map_ vr) m (var_to_trans_road_ vr)
    (var_names_to_changed_graph_id_ vr) (var_names_to_allocated_graph_id_ vr) (var_broad_cast_info_ vr).
Definition set_trans_road (m : gmap string VarTransRoad) (vr : VarResource) : VarResource :=
  mkVarResource (vr_session_id_ vr) (var_offset_map_ vr) (var_addr_mgr_map_ vr) (cur_var_tensor_desc_map_ vr) m
    (var_names_to_changed_graph_id_ vr) (var_names_to_allocated_graph_id_ vr) (var_broad_cast_info_ vr).
Definition set_changed (m : gmap string Z) (vr : VarResource) : VarResource :=
  mkVarResource (vr_session_id_ vr) (var_offset_map_ vr) (var_addr_mgr_map_ vr) (cur_var_tensor_desc_map_ vr) (var_to_trans_road_ vr)
    m (var_names_to_allocated_graph_id_ vr) (var_broad_cast_info_ vr).
Definition set_allocated_ids (m : gmap string Z) (vr : VarResource) : VarResource :=
  mkVarResource (vr_session_id_ vr) (var_offset_map_ vr) (var_addr_mgr_map_ vr) (cur_var_tensor_desc_map_ vr) (var_to_trans_road_ vr)
    (var_names_to_changed_graph_id_ vr) m (var_broad_cast_info_ vr).
Definition set_broad_cast (m : gmap Z (gmap string VarBroadCastInfo)) (vr : VarResource) : VarResource :=
  mkVarResource (vr_session_id_ vr) (var_offset_map_ vr) (var_addr_mgr_map_ vr) (cur_var_tensor_desc_map_ vr) (var_to_trans_road_ vr)
    (var_names_to_changed_graph_id_ vr) (var_names_to_allocated_graph_id_ vr) m.

(** std::to_string prints the decimal digits, with a minus sign for negative numbers. *)
Definition VarKey (var_name : string) (tensor_desc : GeTensorDesc) : string :=
  (var_name +:+ pretty (wrapS 32 (td_GetFormat tensor_desc)) +:+ "_" +:+ pretty (wrapS 32 (td_GetDataType tensor_desc)))%string.

(** [dev_ptr]: the out pointer is not null. *)
Definition VarResource_GetVarAddr (var_name : string) (tensor_desc : GeTensorDesc) (dev_ptr : bool) (vr : VarResource) : outcome (Z * Z) :=
  if negb dev_ptr then Err FAILED else
  match var_addr_mgr_map_ vr !! VarKey var_name tensor_desc with
  | None => Err FAILED
  | Some e => Ok (va_address e, va_memory_type e)
  end.

(** The entry of SetVarAddr has the memory type of the default constructor; [memory_type] is only printed. *)
Definition VarResource_SetVarAddr (var_name : string) (tensor_desc : GeTensorDesc) (dev_ptr memory_type : Z) (vr : VarResource) : VarResource :=
  let var_key := VarKey var_name tensor_desc in
  let vr := match var_addr_mgr_map_ vr !! var_key with
            | None => set_addr_mgr_map (<[var_key := mkVarAddrMgr tensor_desc dev_ptr 0 RT_MEMORY_HBM]> (var_addr_mgr_map_ vr)) vr
            | Some _ => vr
            end in
  set_cur_desc_map (<[var_name := tensor_desc]> (cur_var_tensor_desc_map_ vr)) vr.

(** [logic_base] is VarManager::Instance(session_id_)->GetVarMemLogicBase(). *)
Definition VarResource_SaveVarAddr (logic_base : Z) (var_name : string) (tensor_desc : GeTensorDesc) (address memory_type : Z) (vr : VarResource) :
    Status * VarResource :=
  let var_key := VarKey var_name tensor_desc in
  match var_addr_mgr_map_ vr !! var_key with
  | None =>
      let logic_address := if negb (memory_type =? RT_MEMORY_RDMA_HBM) then wrapU64 (address + logic_base) else address in
      let vr := set_addr_mgr_map (<[var_key := mkVarAddrMgr tensor_desc logic_address address memory_type]> (var_addr_mgr_map_ vr)) vr in
      (SUCCESS, set_offset_map (<[logic_address := memory_type]> (var_offset_map_ vr)) vr)
  | Some _ => (FAILED, vr)
  end.

Definition VarResource_IsVarExist (var_name : string) (tensor_desc : GeTensorDesc) (vr : VarResource) : bool :=
  bool_decide (is_Some (var_addr_mgr_map_ vr !! VarKey var_name tensor_desc)).
Definition VarResource_IsVarExistName (var_name : string) (vr : VarResource) : bool :=
  bool_decide (is_Some (cur_var_tensor_desc_map_ vr !! var_name)).

Definition VarResource_GetCurVarDesc (var_name : string) (vr : VarResource) : outcome GeTensorDesc :=
  match cur_var_tensor_desc_map_ vr !! var_name with
  | None => Err FAILED
  | Some d => Ok d
  end.

(** [op_desc]: the first output descriptor of the operator, [None] for a null pointer. *)
Definition renew_desc (out d : GeTensorDesc) : GeTensorDesc := td_SetFormat (td_GetFormat out) (td_SetOriginFormat (td_GetOriginFormat out) d).
Definition VarResource_RenewCurVarDesc (var_name : string) (op_desc : option GeTensorDesc) (vr : VarResource) : Status * VarResource :=
  match cur_var_tensor_desc_map_ vr !! var_name, op_desc with
  | None, _ => (SUCCESS, vr)
  | Some _, None => (FAILED, vr)
  | Some curr_desc, Some out =>
      let key := VarKey var_name curr_desc in
      let curr_desc := renew_desc out curr_desc in
      let vr := set_cur_desc_map (<[var_name := curr_desc]> (cur_var_tensor_desc_map_ vr)) vr in
      match var_addr_mgr_map_ vr !! key with
      | None => (FAILED, vr)
      | Some e =>
          let val := mkVarAddrMgr (renew_desc out (va_tensor_desc e)) (va_address e) (va_offset e) (va_memory_type e) in
          (SUCCESS, set_addr_mgr_map (<[VarKey var_name curr_desc := val]> (delete key (var_addr_mgr_map_ vr))) vr)
      end
  end.

Definition VarResource_SaveBroadCastInfo (graph_id : Z) (info : VarBroadCastInfo) (vr : VarResource) : VarResource :=
  set_broad_cast (<[graph_id := <[bc_var_name info := info]> (default ∅ (var_broad_cast_info_ vr !! graph_id))]> (var_broad_cast_info_ vr)) vr.
Definition VarResource_GetBroadCastInfo (graph_id : Z) (var_name : string) (vr : VarResource) : outcome VarBroadCastInfo :=
  match var_broad_cast_info_ vr !! graph_id ≫= lookup var_name with
  | None => Err FAILED
  | Some info => Ok info
  end.

(** `count(offset)`: the int64_t becomes a uint64_t key. *)
Definition VarResource_IsVarAddr (offset : Z) (vr : VarResource) : bool := bool_decide (is_Some (var_offset_map_ vr !! wrapU64 offset)).
Definition VarResource_GetVarMemType (offset : Z) (vr : VarResource) : Z :=
  match var_offset_map_ vr !! wrapU64 offset with Some t => t | None => RT_MEMORY_RESERVED end.

Definition VarResource_SetTransRoad (var_name : string) (trans_road : VarTransRoad) (vr : VarResource) : Status * VarResource :=
  match var_to_trans_road_ vr !! var_name with
  | Some _ => (SUCCESS, vr)
  | None => (SUCCESS, set_trans_road (<[var_name := trans_road]> (var_to_trans_road_ vr)) vr)
  end.
Definition VarResource_GetTransRoad (var_name : string) (vr : VarResource) : option VarTransRoad := var_to_trans_road_ vr !! var_name.

Definition VarResource_SetChangedGraphId (var_name : string) (graph_id : Z) (vr : VarResource) : Status * VarResource :=
  (SUCCESS, set_changed (<[var_name := graph_id]> (var_names_to_changed_graph_id_ vr)) vr).
Definition VarResource_GetChangedGraphId (var_name : string) (vr : VarResource) : outcome Z :=
  match var_names_to_changed_graph_id_ vr !! var_name with None => Err FAILED | Some i => Ok i end.
Definition VarResource_RemoveChangedGraphId (var_name : string) (vr : VarResource) : VarResource :=
  set_changed (delete var_name (var_names_to_changed_graph_id_ vr)) vr.
Definition VarResource_GetAllocatedGraphId (var_name : string) (vr : VarResource) : outcome Z :=
  match var_names_to_allocated_graph_id_ vr !! var_name with None => Err FAILED | Some i => Ok i end.
Definition VarResource_SetAllocatedGraphId (var_name : string) (graph_id : Z) (vr : VarResource) : Status * VarResource :=
  match VarResource_GetAllocatedGraphId var_name vr with
  | Ok _ => (SUCCESS, vr)
  | _ => (SUCCESS, set_allocated_ids (<[var_name := graph_id]> (var_names_to_allocated_graph_id_ vr)) vr)
  end.
Definition VarResource_RemoveAllocatedGraphId (var_name : string) (vr : VarResource) : VarResource :=
  set_allocated_ids (delete var_name (var_names_to_allocated_graph_id_ vr)) vr.

(** * The pool and the managers it holds *)
Record World := mkWorld {
  var_manager_map_ : gmap Z VarManager;
  (** The static object GetVarManager falls back to. *)
  new_var_manager : VarManager;
  mem_manager : MemManager.MemManager;
}.

(** A VarManager pointer. *)
Inductive ref := InPool (session_id : Z) | Fallback.

Definition set_managers (m : gmap Z VarManager) (w : World) : World := mkWorld m (new_var_manager w) (mem_manager w).
Definition set_mem_manager (mm : MemManager.MemManager) (w : World) : World := mkWorld (var_manager_map_ w) (new_var_manager w) mm.

(** `new (std::nothrow)` draws on the host heap of the device state. *)
Definition nothrow : SM World bool := fun w =>
  let mm := mem_manager w in
  let '(ok, r) := new_nothrow (MemManager.device mm) in
  Some (ok, set_mem_manager (MemManager.put_host (MemManager.host_allocator_map_ mm) r mm) w).

(** Dereferencing a pointer to a manager that is gone is undefined. *)
Definition deref (this : ref) : SM World VarManager := fun w =>
  match this with
  | InPool s => match var_manager_map_ w !! s with Some vm => Some (vm, w) | None => None end
  | Fallback => Some (new_var_manager w, w)
  end.
Definition store (this : ref) (vm : VarManager) : SM World unit := sm_modify (fun w =>
  match this with
  | InPool s => set_managers (<[s := vm]> (var_manager_map_ w)) w
  | Fallback => mkWorld (var_manager_map_ w) vm (mem_manager w)
  end).

Definition GetVarManager (session_id : Z) : SM World ref :=
  w ← sm_get;
  match var_manager_map_ w !! session_id with
  | Some _ => mret (InPool session_id)
  | None =>
      ok ← nothrow;
      if ok : bool then
        _ ← sm_modify (fun w => set_managers (<[session_id := VarManager_new session_id]> (var_manager_map_ w)) w);
        mret (InPool session_id)
      else mret Fallback
  end.

(** VarManager::Destory *)
Definition Destory (vm : VarManager) : VarManager :=
  mkVarManager OTHER_VERSION 0 0 (job_id_ vm) (graph_mem_max_size_ vm) (var_mem_max_size_ vm) (var_mem_logic_base_ vm)
    (use_max_mem_size_ vm) (var_resource_ vm) ∅.
(** The manager is destroyed and deleted. *)
Definition RemoveVarManager (session_id : Z) : SM World unit :=
  sm_modify (fun w => set_managers (delete session_id (var_manager_map_ w)) w).
Definition Pool_Destory : SM World unit := sm_modify (set_managers ∅).
(** VarManager::Instance *)
Definition Instance_ (session_id : Z) : SM World ref := GetVarManager session_id.

(** A call on one of the allocators of the memory manager. *)
Definition call_memory (c : MemManager.mm_call) : SM World MemManager.mm_answer := fun w =>
  match MemManager.mm_do c (mem_manager w) with
  | Some (x, mm) => Some (x, set_mem_manager mm w)
  | None => None
  end.

(** * Memory resources *)
Definition BuildMemResourceFromType (mem_type : Z) : SM World (option MemResource) :=
  if mem_type =? RT_MEMORY_HBM then ok ← nothrow; mret (if ok : bool then Some (mkMemResource HbmMemResource 0 0) else None)
  else if mem_type =? RT_MEMORY_RDMA_HBM then ok ← nothrow; mret (if ok : bool then Some (mkMemResource RdmaMemResource 0 0) else None)
  else mret None.

(** The offset, when the request fits, and the resource. *)
Definition Hbm_AssignVarMem (size session_id : Z) (mr : MemResource) : SM World (outcome Z * MemResource) :=
  let size := wrapU64 (wrapU64 (size + kSessionMemAlignSize - 1) / kSessionMemAlignSize * kSessionMemAlignSize) in
  p ← Instance_ session_id;
  vm ← deref p;
  let mr := mkMemResource (mr_class mr) (var_mem_max_size_ vm) (var_mem_size_ mr) in
  if total_size_ mr <? var_mem_size_ mr then mret (Err PARAM_INVALID, mr) else
  let free_size := total_size_ mr - var_mem_size_ mr in
  if free_size <? wrapU64 (size + kSessionMemAlignSize * kSessionMemAlignUnit) then mret (Err PARAM_INVALID, mr) else
  let mem_offset := var_mem_size_ mr in
  let size := wrapU64 (size + kSessionMemAlignSize) in
  mret (Ok mem_offset, mkMemResource (mr_class mr) (total_size_ mr)
                         (wrapU64 (wrapU64 (var_mem_size_ mr + size) + kSessionMemAlignSize))).

Definition Rdma_AssignVarMem (size : Z) (mr : MemResource) : SM World (outcome Z * MemResource) :=
  x ← call_memory (MemManager.CallRdma RT_MEMORY_HBM (PCall (RMalloc size 0)));
  match x with
  | MemManager.AnswerRdma (RAddr buffer) =>
      if buffer =? 0 then mret (Err MEMALLOC_FAILED, mr)
      else mret (Ok buffer, mkMemResource (mr_class mr) (total_size_ mr) (wrapU64 (var_mem_size_ mr + size)))
  | _ => sm_stuck
  end.

Definition MemResource_AssignVarMem (size session_id : Z) (mr : MemResource) : SM World (outcome Z * MemResource) :=
  match mr_class mr with
  | HbmMemResource => Hbm_AssignVarMem size session_id mr
  | RdmaMemResource => Rdma_AssignVarMem size mr
  end.

(** * VarManager *)
Definition set_var_resource (vr : option VarResource) (vm : VarManager) : VarManager :=
  mkVarManager (version_ vm) (session_id_ vm) (device_id_ vm) (job_id_ vm) (graph_mem_max_size_ vm) (var_mem_max_size_ vm)
    (var_mem_logic_base_ vm) (use_max_mem_size_ vm) vr (mem_resource_map_ vm).
Definition set_mem_resource_map (m : gmap Z MemResource) (vm : VarManager) : VarManager :=
  mkVarManager (version_ vm) (session_id_ vm) (device_id_ vm) (job_id_ vm) (graph_mem_max_size_ vm) (var_mem_max_size_ vm)
    (var_mem_logic_base_ vm) (use_max_mem_size_ vm) (var_resource_ vm) m.

Definition Init (this : ref) (version session_id device_id job_id : Z) : SM World Status :=
  vm ← deref this;
  ok ← nothrow;
  let vr := if ok : bool then Some (VarResource_new session_id) else None in
  _ ← store this (mkVarManager version session_id device_id job_id (graph_mem_max_size_ vm) (var_mem_max_size_ vm)
                    (var_mem_logic_base_ vm) (use_max_mem_size_ vm) vr (mem_resource_map_ vm));
  mret (if ok then SUCCESS else INTERNAL_ERROR).

(** A method that forwards to the VarResource, with the answer of a manager that is not initialised. *)
Definition forward {A} (this : ref) (not_init : A) (f : VarResource -> A * VarResource) : SM World A :=
  vm ← deref this;
  match var_resource_ vm with
  | None => mret not_init
  | Some vr => let '(a, vr) := f vr in _ ← store this (set_var_resource (Some vr) vm); mret a
  end.
Definition query {A} (this : ref) (not_init : A) (f : VarResource -> A) : SM World A :=
  vm ← deref this; mret (match var_resource_ vm with None => not_init | Some vr => f vr end).

Definition SetVarAddr (this : ref) var_name tensor_desc (dev_ptr memory_type : Z) : SM World Status :=
  forward this INTERNAL_ERROR (fun vr => (SUCCESS, VarResource_SetVarAddr var_name tensor_desc dev_ptr memory_type vr)).

(** The logic base VarResource::SaveVarAddr asks for, only when it enters a new HBM key. *)
Definition logic_base_for (var_name : string) (tensor_desc : GeTensorDesc) (memory_type : Z) (vr : VarResource) : SM World Z :=
  match var_addr_mgr_map_ vr !! VarKey var_name tensor_desc with
  | None => if negb (memory_type =? RT_MEMORY_RDMA_HBM) then p ← Instance_ (vr_session_id_ vr); vm ← deref p; mret (var_mem_logic_base_ vm)
            else mret 0
  | Some _ => mret 0
  end.

(** The status of VarResource::SaveVarAddr is dropped. *)
Definition SaveVarAddr (this : ref) var_name tensor_desc (address memory_type : Z) : SM World Status :=
  vm ← deref this;
  match var_resource_ vm with
  | None => mret INTERNAL_ERROR
  | Some vr =>
      base ← logic_base_for var_name tensor_desc memory_type vr;
      let '(_, vr) := VarResource_SaveVarAddr base var_name tensor_desc address memory_type vr in
      _ ← store this (set_var_resource (Some vr) vm); mret SUCCESS
  end.

Definition GetVarAddr (this : ref) var_name tensor_desc (dev_ptr : bool) : SM World (outcome (Z * Z)) :=
  query this (Err INTERNAL_ERROR) (fun vr => or_else INTERNAL_ERROR (VarResource_GetVarAddr var_name tensor_desc dev_ptr vr)).

Definition GetVarMemSize (this : ref) (memory_type : Z) : SM World Z :=
  vm ← deref this;
  mret (match mem_resource_map_ vm !! memory_type with None => 0 | Some mr => wrap64 (var_mem_size_ mr) end).

(** The resource of [memory_type], made when it is missing. *)
Definition find_resource (this : ref) (memory_type : Z) : SM World (option MemResource) :=
  vm ← deref this;
  match mem_resource_map_ vm !! memory_type with
  | Some mr => mret (Some mr)
  | None =>
      o ← BuildMemResourceFromType memory_type;
      match o with
      | None => mret None
      | Some mr => vm ← deref this; _ ← store this (set_mem_resource_map (<[memory_type := mr]> (mem_resource_map_ vm)) vm); mret (Some mr)
      end
  end.

Definition UpdateVarMemSize (this : ref) (memory_type mem_size : Z) : SM World Status :=
  o ← find_resource this memory_type;
  match o with
  | None => mret INTERNAL_ERROR
  | Some mr =>
      vm ← deref this;
      _ ← store this (set_mem_resource_map (<[memory_type := mkMemResource (mr_class mr) (total_size_ mr) (wrapU64 mem_size)]> (mem_resource_map_ vm)) vm);
      mret SUCCESS
  end.

(** The end of AssignVarMem: the entry has been saved; the current descriptor is renewed. *)
Definition update_cur_desc (var_name : string) (tensor_desc : GeTensorDesc) (mem_offset memory_type : Z) (vr : VarResource) : VarResource :=
  match VarResource_GetCurVarDesc var_name vr with
  | Ok cur =>
      if negb (td_GetFormat cur =? td_GetFormat tensor_desc) || negb (td_GetDataType cur =? td_GetDataType tensor_desc) ||
         negb (bool_decide (td_GetDims cur = td_GetDims tensor_desc))
      then VarResource_SetVarAddr var_name tensor_desc mem_offset memory_type vr else vr
  | _ => VarResource_SetVarAddr var_name tensor_desc mem_offset memory_type vr
  end.

Definition AssignVarMem (this : ref) (var_name : string) (tensor_desc : GeTensorDesc) (memory_type : Z) : SM World Status :=
  let '(result, tensor_desc_size) := td_GetSize tensor_desc in
  if negb (bool_decide (result = SUCCESS)) then mret result else
  o ← find_resource this memory_type;
  match o with
  | None => mret INTERNAL_ERROR
  | Some mr =>
      vm ← deref this;
      '(res, mr) ← MemResource_AssignVarMem (wrapU64 tensor_desc_size) (session_id_ vm) mr;
      vm ← deref this;
      let vm := set_mem_resource_map (<[memory_type := mr]> (mem_resource_map_ vm)) vm in
      _ ← store this vm;
      match res with
      | Ok mem_offset =>
          match var_resource_ vm with
          | None => mret INTERNAL_ERROR
          | Some vr =>
              base ← logic_base_for var_name tensor_desc memory_type vr;
              let '(result, vr) := VarResource_SaveVarAddr base var_name tensor_desc mem_offset memory_type vr in
              if negb (bool_decide (result = SUCCESS)) then mret INTERNAL_ERROR else
              match VarResource_GetVarAddr var_name tensor_desc true vr with
              | Ok (mem_offset, memory_type) =>
                  _ ← store this (set_var_resource (Some (update_cur_desc var_name tensor_desc mem_offset memory_type vr)) vm);
                  mret SUCCESS
              | _ => _ ← store this (set_var_resource (Some vr) vm); mret INTERNAL_ERROR
              end
          end
      | _ => mret INTERNAL_ERROR
      end
  end.

Definition IsVarExist (this : ref) var_name tensor_desc : SM World bool := query this false (VarResource_IsVarExist var_name tensor_desc).
Definition IsVarExistName (this : ref) var_name : SM World bool := query this false (VarResource_IsVarExistName var_name).
Definition GetCurVarDesc (this : ref) var_name : SM World (outcome GeTensorDesc) := query this (Err INTERNAL_ERROR) (VarResource_GetCurVarDesc var_name).
Definition SaveBroadCastInfo (this : ref) graph_id info : SM World Status :=
  forward this INTERNAL_ERROR (fun vr => (SUCCESS, VarResource_SaveBroadCastInfo graph_id info vr)).
Definition GetBroadCastInfo (this : ref) graph_id var_name : SM World (outcome VarBroadCastInfo) :=
  query this (Err INTERNAL_ERROR) (VarResource_GetBroadCastInfo graph_id var_name).
Definition RenewCurVarDesc (this : ref) var_name op_desc : SM World Status :=
  forward this INTERNAL_ERROR (VarResource_RenewCurVarDesc var_name op_desc).
Definition IsVarAddr (this : ref) offset : SM World bool := query this false (VarResource_IsVarAddr offset).
Definition GetVarMemType (this : ref) offset : SM World Z := query this RT_MEMORY_RESERVED (VarResource_GetVarMemType offset).
Definition SetTransRoad (this : ref) var_name road : SM World Status := forward this INTERNAL_ERROR (VarResource_SetTransRoad var_name road).
Definition GetTransRoad (this : ref) var_name : SM World (option VarTransRoad) := query this None (VarResource_GetTransRoad var_name).
Definition SetChangedGraphId (this : ref) var_name graph_id : SM World Status :=
  forward this INTERNAL_ERROR (VarResource_SetChangedGraphId var_name graph_id).
Definition GetChangedGraphId (this : ref) var_name : SM World (outcome Z) := query this (Err INTERNAL_ERROR) (VarResource_GetChangedGraphId var_name).
Definition RemoveChangedGraphId (this : ref) var_name : SM World unit := forward this tt (fun vr => (tt, VarResource_RemoveChangedGraphId var_name vr)).
Definition SetAllocatedGraphId (this : ref) var_name graph_id : SM World Status :=
  forward this INTERNAL_ERROR (VarResource_SetAllocatedGraphId var_name graph_id).
Definition GetAllocatedGraphId (this : ref) var_name : SM World (outcome Z) := query this (Err INTERNAL_ERROR) (VarResource_GetAllocatedGraphId var_name).
Definition RemoveAllocatedGraphId (this : ref) var_name : SM World unit :=
  forward this tt (fun vr => (tt, VarResource_RemoveAllocatedGraphId var_name vr)).

(** The first descriptor of the transformation road of a variable, or its current one. *)
Definition origin_desc (vr : VarResource) (var_name : string) (d : GeTensorDesc) : GeTensorDesc :=
  match VarResource_GetTransRoad var_name vr with
  | Some (info :: _) => tn_input info
  | _ => d
  end.
Definition GetAllVariables (this : ref) (all_variables : gmap string GeTensorDesc) : SM World (outcome (gmap string GeTensorDesc)) :=
  query this (Err INTERNAL_ERROR) (fun vr =>
    if bool_decide (cur_var_tensor_desc_map_ vr = ∅) then Err INTERNAL_ERROR
    else Ok (map_imap (fun name d => Some (origin_desc vr name d)) (cur_var_tensor_desc_map_ vr) ∪ all_variables)).

(** ** The memory of the session *)
Definition session_key (vm : VarManager) : string := pretty (session_id_ vm).

Definition MallocVarMemory (this : ref) (memory_size : Z) : SM World Status :=
  vm ← deref this;
  let var_memory_size := wrapU64 (wrapU64 (memory_size + kSessionMemAlignSize - 1) / kSessionMemAlignSize * kSessionMemAlignSize) in
  x ← call_memory (MemManager.CallMemory RT_MEMORY_HBM (KMalloc (session_key vm) var_memory_size));
  match x with
  | MemManager.AnswerMemory (KAddr p) => mret (if p =? 0 then INTERNAL_ERROR else SUCCESS)
  | _ => sm_stuck
  end.

Definition FreeVarMemory (this : ref) : SM World Status :=
  vm ← deref this;
  x ← call_memory (MemManager.CallMemory RT_MEMORY_HBM (KFree (session_key vm)));
  match x with
  | MemManager.AnswerMemory (KStatus s) => mret s
  | _ => sm_stuck
  end.

Definition GetVarMemoryBase (this : ref) (memory_type : Z) : SM World Z :=
  vm ← deref this;
  w ← sm_get;
  let mm := mem_manager w in
  if memory_type =? RT_MEMORY_RDMA_HBM then
    mret (RdmaPoolAllocator.rdma_base_addr_ (MemManager.GetAllocator RT_MEMORY_HBM (MemManager.rdma_allocator_map_ mm) (MemManager.default_rdma mm)))
  else mret (GetMemoryAddr (session_key vm) (MemManager.GetMemoryAllocator memory_type mm)).

Definition GetVarMemoryAddr (this : ref) (logic_addr memory_type : Z) : SM World Z :=
  if memory_type =? RT_MEMORY_RDMA_HBM then mret logic_addr else
  vm ← deref this;
  w ← sm_get;
  let mem_base := GetMemoryAddr (session_key vm) (MemManager.GetMemoryAllocator memory_type (mem_manager w)) in
  if mem_base =? 0 then mret 0 else
  p ← Instance_ (session_id_ vm);
  vm ← deref p;
  mret (wrapU64 (logic_addr + mem_base - var_mem_logic_base_ vm)).

(** ** Options *)
Definition set_sizes (graph var logic use : Z) (vm : VarManager) : VarManager :=
  mkVarManager (version_ vm) (session_id_ vm) (device_id_ vm) (job_id_ vm) graph var logic use (var_resource_ vm) (mem_resource_map_ vm).

(** The members keep what was assigned before an error is found. *)
Definition SetMemoryMallocSize_ (options : gmap string string) (vm : VarManager) : Status * VarManager :=
  let '(ret, graph) :=
    match options !! "ge.graphMemoryMaxSize"%string with
    | None => (SUCCESS, kGraphMemoryManagerMallocMaxSize)
    | Some s => ParseSize.ParseMemoryMallocSize s (graph_mem_max_size_ vm)
    end in
  let vm := set_sizes graph (var_mem_max_size_ vm) (var_mem_logic_base_ vm) (use_max_mem_size_ vm) vm in
  if negb (bool_decide (ret = SUCCESS)) then (GE_GRAPH_OPTIONS_INVALID, vm) else
  let '(ret, var) :=
    match options !! "ge.variableMemoryMaxSize"%string with
    | None => (SUCCESS, kMemoryVarManagerMallocSize)
    | Some s => ParseSize.ParseMemoryMallocSize s (var_mem_max_size_ vm)
    end in
  let vm := set_sizes graph var (var_mem_logic_base_ vm) (use_max_mem_size_ vm) vm in
  if negb (bool_decide (ret = SUCCESS)) then (GE_GRAPH_OPTIONS_INVALID, vm) else
  let logic := wrapU64 (graph + kGraphMemoryBuffer) in
  let vm := set_sizes graph var logic (use_max_mem_size_ vm) vm in
  if kMaxMemorySize <? logic then (GE_GRAPH_OPTIONS_INVALID, vm) else
  let use := wrapU64 (graph + var) in
  let vm := set_sizes graph var logic use vm in
  if kMaxMemorySize <? use then (GE_GRAPH_OPTIONS_INVALID, vm) else (SUCCESS, vm).

Definition SetMemoryMallocSize (this : ref) (options : gmap string string) : SM World Status :=
  vm ← deref this;
  let '(s, vm) := SetMemoryMallocSize_ options vm in
  _ ← store this vm; mret s.

(** What InnerSession::Initialize does with the variable manager; a failure of Init is only reported. *)
Definition session_start (session_id : Z) (options : gmap string string) : SM World Status :=
  p ← Instance_ session_id;
  ret ← SetMemoryMallocSize p options;
  if negb (bool_decide (ret = SUCCESS)) then mret ret else
  p ← Instance_ session_id;
  _ ← Init p 0 session_id 0 0;
  mret SUCCESS.
End Model.
