(* ===== verification/VarSizes.v ===== *)
(** Sizes and keys of the variable manager: the text of a memory size, the layout of the address
    space a session derives from its options, and the keys of the variables. *)
From S2P Require Import Prelude MemAllocator RdmaPool MemManager MemRanges VarManager.
From stdpp Require Import strings pretty.
From Stdlib Require Import Ascii.
Import ParseSize.
Open Scope Z_scope.

(** * Decimal digits *)
Definition chars (s : string) : list ascii := String.list_ascii_of_string s.

Lemma chars_app a b : chars (a +:+ b) = chars a ++ chars b.
Proof. induction a as [|c a IH]; [done|]. change (c :: chars (a +:+ b) = c :: (chars a ++ chars b)). by rewrite IH. Qed.

Lemma chars_inj a b : chars a = chars b -> a = b.
Proof.
  intros Heq. rewrite <- (String.string_of_list_ascii_of_string a), <- (String.string_of_list_ascii_of_string b).
  f_equal. exact Heq.
Qed.

Lemma isdigit_spec c : isdigit c = true <-> 0 <= digit c <= 9.
Proof. unfold isdigit, digit. rewrite andb_true_iff, !Z.leb_le. lia. Qed.

Lemma pretty_N_char_digit x : (x < 10)%N -> digit (pretty_N_char x) = Z.of_N x.
Proof.
  intros Hx. assert (Hc : x ∈ ([0; 1; 2; 3; 4; 5; 6; 7; 8; 9]%N : list N)).
  { rewrite !elem_of_cons. lia. }
  rewrite !elem_of_cons in Hc. destruct Hc as [->|[->|[->|[->|[->|[->|[->|[->|[->|[->|Hc]]]]]]]]]]; try reflexivity.
  by apply elem_of_nil in Hc.
Qed.

(** The value of a string of decimal digits. *)
Definition value (l : list ascii) : Z := fold_left (fun a c => a * 10 + digit c) l 0.

Lemma value_app l c : value (l ++ [c]) = value l * 10 + digit c.
Proof. unfold value. by rewrite fold_left_app. Qed.

Lemma pretty_N_go_chars x : forall s, exists ds, chars (pretty_N_go x s) = ds ++ chars s /\ Forall (fun c => isdigit c = true) ds /\
  value ds = Z.of_N x /\ (x = 0%N -> ds = []) /\ ((0 < x)%N -> exists c ds', ds = c :: ds' /\ digit c <> 0).
Proof.
  induction (N.lt_wf_0 x) as [x _ IH]; intros s. destruct (decide (x = 0%N)) as [->|Hx].
  { exists []. rewrite pretty_N_go_0. split; [done|]. split; [done|]. split; [done|]. split; [done|lia]. }
  rewrite pretty_N_go_step by lia. set (c := pretty_N_char (x `mod` 10)).
  assert (Hc : digit c = Z.of_N (x `mod` 10)) by (apply pretty_N_char_digit, N.mod_lt; lia).
  pose proof (N.mod_lt x 10 ltac:(lia)) as Hm. pose proof (N.div_mod x 10 ltac:(lia)) as Hdm.
  assert (Hd9 : 0 <= digit c <= 9) by (rewrite Hc; clear -Hm; revert Hm; generalize (x `mod` 10)%N; lia).
  assert (Hval : Z.of_N (x `div` 10) * 10 + digit c = Z.of_N x).
  { rewrite Hc. clear -Hdm. revert Hdm. generalize (x `mod` 10)%N (x `div` 10)%N. lia. }
  destruct (IH (x `div` 10)%N ltac:(apply N.div_lt; lia) (String c s)) as (ds & Hds & Hall & Hv & H0 & Hpos).
  exists (ds ++ [c]). rewrite Hds. cbn [chars String.list_ascii_of_string]. rewrite <- app_assoc. split; [done|].
  split; [apply Forall_app; split; [done|]; constructor; [by apply isdigit_spec|done]|].
  split; [rewrite value_app, Hv; exact Hval|]. split; [done|]. intros _. destruct (decide (x `div` 10 = 0)%N) as [Hz|Hz].
  - rewrite (H0 Hz). exists c, []. split; [done|]. rewrite Hz in Hval. cbn in Hval. lia.
  - destruct Hpos as (c' & ds' & -> & ?); [by apply N.neq_0_lt_0|]. by exists c', (ds' ++ [c]).
Qed.

Lemma strtoul_value acc l : Forall (fun c => isdigit c = true) l -> strtoul_digits 10 acc l = fold_left (fun a c => a * 10 + digit c) l acc.
Proof.
  intros Hl. revert acc. induction Hl as [|c l Hc Hl IH]; intros acc; cbn; [done|].
  apply isdigit_spec in Hc. destruct (Z.ltb_spec (digit c) 10); [apply IH|lia].
Qed.

Lemma zero_digit c : Ascii.eqb c "0" = true -> digit c = 0.
Proof. by intros ->%Ascii.eqb_eq. Qed.

(** std::to_string of an unsigned number. *)
Definition decimal (n : Z) : list ascii := chars (pretty (Z.to_N n)).

Lemma decimal_spec n : 1 <= n -> Forall (fun c => isdigit c = true) (decimal n) /\ decimal n <> [] /\ (n < 2 ^ 64 -> strtoul (decimal n) = n).
Proof.
  intros Hn. unfold decimal, pretty, pretty_N. rewrite decide_False by lia.
  destruct (pretty_N_go_chars (Z.to_N n) "") as (ds & -> & Hall & Hv & _ & Hpos). cbn. rewrite app_nil_r.
  destruct Hpos as (c & ds' & -> & Hc); [lia|]. split; [done|]. split; [done|]. intros Hb. unfold strtoul.
  destruct (Ascii.eqb c "0") eqn:He; [apply zero_digit in He; done|]. rewrite strtoul_value by done. fold (value (c :: ds')). rewrite Hv. lia.
Qed.

(** * Memory sizes *)

(** A factor with [a] spaces before and [b] after it, and a product of factors as text. *)
Definition factor : Type := nat * Z * nat.
Definition factor_text (f : factor) : list ascii := replicate f.1.1 " "%char ++ decimal f.1.2 ++ replicate f.2 " "%char.
Fixpoint size_text (fs : list factor) : list ascii :=
  match fs with
  | [] => []
  | [f] => factor_text f
  | f :: fs => factor_text f ++ "*"%char :: size_text fs
  end.
Definition product (fs : list factor) : Z := foldr (fun f p => f.1.2 * p) 1 fs.
Definition factor_ok (f : factor) : Prop := 1 <= f.1.2 < 2 ^ 32.

Lemma digit_not_special c : isdigit c = true -> is_space c = false /\ Ascii.eqb c "*" = false.
Proof.
  intros Hd. split.
  - destruct (is_space c) eqn:Hs; [|done]. apply Ascii.eqb_eq in Hs as ->. done.
  - destruct (Ascii.eqb c "*") eqn:Hs; [|done]. apply Ascii.eqb_eq in Hs as ->. done.
Qed.

Lemma getlines_token t : forall cur rest, Forall (fun c => Ascii.eqb c "*" = false) t -> getlines cur (t ++ rest) = getlines (cur ++ t) rest.
Proof.
  induction t as [|c t IH]; intros cur rest Ht; cbn; [by rewrite app_nil_r|]. apply Forall_cons in Ht as [Hc Ht]. rewrite Hc, IH by done.
  by rewrite <- app_assoc.
Qed.

Lemma factor_text_ok f : factor_ok f -> Forall (fun c => Ascii.eqb c "*" = false) (factor_text f) /\ factor_text f <> [].
Proof.
  intros [Hf _]. destruct (decimal_spec _ Hf) as (Hd & Hne & _). unfold factor_text. split.
  - rewrite !Forall_app. split; [by apply Forall_replicate|]. split; [|by apply Forall_replicate].
    eapply Forall_impl; [exact Hd|]. intros c Hc. by apply digit_not_special.
  - intros He. apply app_eq_nil in He as [_ He]. apply app_eq_nil in He as [He _]. done.
Qed.

Lemma getlines_size fs : Forall factor_ok fs -> getlines [] (size_text fs) = factor_text <$> fs.
Proof.
  induction fs as [|f fs IH]; intros Hfs; [done|]. apply Forall_cons in Hfs as [Hf Hfs]. destruct (factor_text_ok f Hf) as [Ht Hne].
  destruct fs as [|g fs].
  - cbn. rewrite <- (app_nil_r (factor_text f)), getlines_token by done. cbn. rewrite app_nil_r. by rewrite bool_decide_eq_false_2.
  - change (size_text (f :: g :: fs)) with (factor_text f ++ "*"%char :: size_text (g :: fs)). rewrite getlines_token by done. cbn [getlines].
    rewrite Ascii.eqb_refl. cbn [app]. rewrite IH by done. done.
Qed.

Lemma skip_spaces_replicate n l c : is_space c = false -> skip_spaces (replicate n " "%char ++ c :: l) = c :: l.
Proof. intros Hc. induction n as [|n IH]; cbn; [by rewrite Hc|exact IH]. Qed.

Lemma not_all_spaces n l m : (exists c, c ∈ l /\ is_space c = false) -> forallb is_space (replicate n " "%char ++ l ++ m) = false.
Proof.
  intros (c & Hc & Hs). apply not_true_iff_false. rewrite forallb_forall. intros Hall. specialize (Hall c). rewrite Hall in Hs; [done|].
  apply list_elem_of_In. set_solver.
Qed.

Lemma rev_reverse {A} (l : list A) : rev l = reverse l.
Proof. apply rev_alt. Qed.

Lemma trim_factor a l b : Forall (fun c => isdigit c = true) l -> l <> [] ->
  trim_back (trim_front (replicate a " "%char ++ l ++ replicate b " "%char)) = l.
Proof.
  intros Hl Hne. assert (Hsp : forall c, c ∈ l -> is_space c = false) by (intros c Hc; rewrite Forall_forall in Hl; by apply digit_not_special, Hl).
  assert (Hex : exists c, c ∈ l /\ is_space c = false) by (destruct l as [|c l]; [done|]; exists c; split; [left|apply Hsp; left]).
  unfold trim_front. rewrite not_all_spaces by done. destruct l as [|c l]; [done|]. cbn [app].
  rewrite skip_spaces_replicate by (apply Hsp; left). unfold trim_back.
  pose proof (not_all_spaces 0 (c :: l) (replicate b " "%char) Hex) as Hn. cbn [replicate app] in Hn. rewrite Hn.
  change (c :: l ++ replicate b " "%char) with ((c :: l) ++ replicate b " "%char).
  rewrite rev_app_distr, !rev_reverse, reverse_replicate.
  destruct (reverse (c :: l)) as [|c' l'] eqn:Hr; [by apply (f_equal length) in Hr; rewrite length_reverse in Hr|].
  rewrite skip_spaces_replicate; [by rewrite <- Hr, reverse_involutive|]. apply Hsp. rewrite <- elem_of_reverse, Hr. left.
Qed.

Section Parse.
Context {E : RangeEnv} {EO : RangeEnvOk E}.

Lemma product_pos fs : Forall factor_ok fs -> 1 <= product fs.
Proof. induction 1 as [|f fs [Hf _] _ IH]; cbn; [lia|]. fold (product fs). nia. Qed.

Lemma parse_splits_exact fs : forall acc, Forall factor_ok fs -> 1 <= acc <= kMaxMemorySize ->
  exists r, parse_splits (factor_text <$> fs) acc = (if acc * product fs <=? kMaxMemorySize then SUCCESS else FAILED, r) /\
    (acc * product fs <= kMaxMemorySize -> r = acc * product fs).
Proof.
  induction fs as [|f fs IH]; intros acc Hfs Hacc; cbn [fmap list_fmap parse_splits].
  { exists acc. cbn. rewrite Z.mul_1_r. destruct (Z.leb_spec acc kMaxMemorySize); [done|lia]. }
  apply Forall_cons in Hfs as [Hf Hfs]. pose proof Hf as [Hlo Hhi]. destruct (decimal_spec _ Hlo) as (Hd & Hne & Hv). pose proof (product_pos fs Hfs) as Hp.
  unfold factor_text. rewrite trim_factor by done.
  assert (Hdd : forallb isdigit (decimal f.1.2) = true) by (apply forallb_forall; intros c Hc; rewrite Forall_forall in Hd; apply Hd; by apply list_elem_of_In).
  rewrite Hdd. cbn [negb]. rewrite Hv by lia. rewrite (wrapU_id 32) by (unfold inU; lia). unfold kMaxMemorySize, GByte in *.
  rewrite CheckUint64MulOverflow_ok by lia. change (product (f :: fs)) with (f.1.2 * product fs).
  assert (Hbig : ~ acc * f.1.2 <= 256 * (1024 * 1024 * 1024) -> ~ acc * (f.1.2 * product fs) <= 256 * (1024 * 1024 * 1024)) by nia.
  destruct (Z.leb_spec (2 ^ 64) (acc * f.1.2)).
  { exists acc. destruct (Z.leb_spec (acc * (f.1.2 * product fs)) (256 * (1024 * 1024 * 1024))); [exfalso; apply Hbig; lia|]. split; [done|lia]. }
  rewrite (wrapU64_id (acc * f.1.2)) by nia.
  destruct (Z.ltb_spec (256 * (1024 * 1024 * 1024)) f.1.2) as [|_]; [exfalso; lia|]. cbn [orb].
  destruct (Z.ltb_spec (256 * (1024 * 1024 * 1024)) (acc * f.1.2)).
  { exists acc. destruct (Z.leb_spec (acc * (f.1.2 * product fs)) (256 * (1024 * 1024 * 1024))); [exfalso; apply Hbig; lia|]. split; [done|lia]. }
  destruct (IH (acc * f.1.2) Hfs) as (r & Hrun & Hr); [nia|]. exists r. rewrite Z.mul_assoc. exact (conj Hrun Hr).
Qed.

(** C37 A memory size is written as a product: for a text of decimal factors from 1 to 2^32 - 1 without leading
    zeros, separated by `*` and padded with any spaces, ParseMemoryMallocSize returns exactly their product when it is at most 256 GB and
    FAILED when it is more, however large the product gets. *)
Theorem parse_size_exact fs old :
  fs <> [] -> Forall factor_ok fs ->
  exists r, ParseMemoryMallocSize (String.string_of_list_ascii (size_text fs)) old
            = (if product fs <=? kMaxMemorySize then SUCCESS else FAILED, r) /\ (product fs <= kMaxMemorySize -> r = product fs).
Proof.
  intros Hne Hfs. unfold ParseMemoryMallocSize. rewrite String.list_ascii_of_string_of_list_ascii. rewrite bool_decide_eq_false_2.
  - rewrite getlines_size by done. destruct (parse_splits_exact fs 1 Hfs) as (r & Hrun & Hr); [unfold kMaxMemorySize, GByte; lia|].
    rewrite Z.mul_1_l in *. by exists r.
  - destruct fs as [|f [|g fs]]; [done|..]; apply Forall_cons in Hfs as [Hf _]; destruct (factor_text_ok f Hf) as [_ Ht]; [done|].
    cbn. intros He. by apply app_eq_nil in He as [? _].
Qed.

(** Whatever the text is, an accepted size is at most 256 GB. *)
Lemma parse_splits_range l : forall acc r, 0 <= acc <= kMaxMemorySize -> parse_splits l acc = (SUCCESS, r) -> 0 <= r <= kMaxMemorySize.
Proof.
  induction l as [|t l IH]; intros acc r Hacc; cbn; [by intros [= <-]|]. destruct (negb _); [done|]. destruct (CheckUint64MulOverflow _ _); [done|].
  destruct (Z.ltb_spec kMaxMemorySize (strtoul (trim_back (trim_front t)))); [done|]. cbn [orb]. set (n := strtoul _) in *.
  destruct (Z.ltb_spec kMaxMemorySize (wrapU64 (acc * n))); [done|]. apply IH. split; [|done]. unfold wrapU64, wrapU. apply Z.mod_pos_bound. lia.
Qed.

Lemma ParseMemoryMallocSize_range s old r : ParseMemoryMallocSize s old = (SUCCESS, r) -> 0 <= r <= kMaxMemorySize.
Proof.
  unfold ParseMemoryMallocSize. case_bool_decide; [done|]. apply parse_splits_range. unfold kMaxMemorySize, GByte. lia.
Qed.
End Parse.

(** * The layout of the address space *)
Section Layout.
Context {E : RangeEnv} {EO : RangeEnvOk E} {L : TensorDescLib}.

Lemma memory_layout options vm vm' :
  SetMemoryMallocSize_ options vm = (SUCCESS, vm') ->
  0 <= graph_mem_max_size_ vm' /\ 0 <= var_mem_max_size_ vm' /\
  var_mem_logic_base_ vm' = graph_mem_max_size_ vm' + kGraphMemoryBuffer /\ var_mem_logic_base_ vm' <= kMaxMemorySize /\
  use_max_mem_size_ vm' = graph_mem_max_size_ vm' + var_mem_max_size_ vm' /\ use_max_mem_size_ vm' <= kMaxMemorySize /\
  var_mem_logic_base_ vm' + var_mem_max_size_ vm' <= kMaxMemorySize + kGraphMemoryBuffer < 2 ^ 64.
Proof.
  unfold SetMemoryMallocSize_.
  assert (Hval : forall (o : option string) dflt old r, 0 <= dflt <= kMaxMemorySize ->
    match o with None => (SUCCESS, dflt) | Some s => ParseMemoryMallocSize s old end = (SUCCESS, r) -> 0 <= r <= kMaxMemorySize).
  { intros [s|] dflt old r Hd; [apply ParseMemoryMallocSize_range|by intros [= <-]]. }
  destruct (match options !! "ge.graphMemoryMaxSize"%string with None => _ | Some s => _ end) as [ret1 graph] eqn:H1.
  case_bool_decide as Hr1; cbn [negb]; [|done]. subst ret1. apply Hval in H1; [|unfold kMaxMemorySize, kGraphMemoryManagerMallocMaxSize, GByte; lia].
  cbn [var_mem_max_size_ set_sizes].
  destruct (match options !! "ge.variableMemoryMaxSize"%string with None => _ | Some s => _ end) as [ret2 var] eqn:H2.
  case_bool_decide as Hr2; cbn [negb]; [|done]. subst ret2. apply Hval in H2; [|unfold kMaxMemorySize, kMemoryVarManagerMallocSize, GByte; lia].
  unfold kMaxMemorySize, kGraphMemoryBuffer, GByte in *. rewrite !wrapU64_id by lia.
  destruct (Z.ltb_spec (256 * (1024 * 1024 * 1024)) (graph + 4 * (1024 * 1024 * 1024))); [done|].
  destruct (Z.ltb_spec (256 * (1024 * 1024 * 1024)) (graph + var)); [done|]. intros [= <-]. cbn. lia.
Qed.

(** C38 Options that are accepted give a sound layout: graph memory, at least 4 GB of distance and then the
    variables, all within the limits and far from the end of the 64-bit address space, so that no logic
    address of a variable can wrap around or fall into the graph memory. *)
Theorem memory_layout_sound options vm vm' :
  SetMemoryMallocSize_ options vm = (SUCCESS, vm') ->
  0 <= graph_mem_max_size_ vm' /\ 0 <= var_mem_max_size_ vm' /\
  var_mem_logic_base_ vm' = graph_mem_max_size_ vm' + kGraphMemoryBuffer /\ var_mem_logic_base_ vm' <= kMaxMemorySize /\
  use_max_mem_size_ vm' = graph_mem_max_size_ vm' + var_mem_max_size_ vm' /\ use_max_mem_size_ vm' <= kMaxMemorySize /\
  var_mem_logic_base_ vm' + var_mem_max_size_ vm' <= kMaxMemorySize + kGraphMemoryBuffer < 2 ^ 64.
Proof. apply memory_layout. Qed.

(** * Keys *)
Lemma no_underscore_N (n : N) : Forall (fun c => c <> "_"%char) (chars (pretty n)).
Proof.
  unfold pretty, pretty_N. case_decide as Hn; [by repeat constructor|].
  destruct (pretty_N_go_chars n "") as (ds & -> & Hall & _). cbn. rewrite app_nil_r. eapply Forall_impl; [exact Hall|].
  intros c Hc ->. done.
Qed.

Lemma no_underscore (z : Z) : Forall (fun c => c <> "_"%char) (chars (pretty z)).
Proof.
  destruct z as [|p|p]; [by repeat constructor|apply (no_underscore_N (Npos p))|].
  change (pretty (Zneg p)) with (String "-" (pretty (Npos p))). constructor; [done|apply no_underscore_N].
Qed.

Lemma split_at {A} (c : A) l1 l2 m1 m2 :
  Forall (fun x => x <> c) l1 -> Forall (fun x => x <> c) m1 -> l1 ++ c :: l2 = m1 ++ c :: m2 -> l1 = m1 /\ l2 = m2.
Proof.
  intros Hl. revert m1. induction Hl as [|x l1 Hx Hl IH]; intros m1 Hm Heq; destruct Hm as [|y m1 Hy Hm]; cbn in Heq; try (injection Heq as; congruence).
  - by injection Heq as ->.
  - injection Heq as -> Heq. by destruct (IH m1 Hm Heq) as [-> ->].
Qed.

(** Within one variable name the key is exact: two descriptors of the same variable have the same key
    exactly when they agree in format and data type. *)
Theorem var_key_exact var_name d d' :
  VarKey var_name d = VarKey var_name d' <->
  wrapS 32 (td_GetFormat d) = wrapS 32 (td_GetFormat d') /\ wrapS 32 (td_GetDataType d) = wrapS 32 (td_GetDataType d').
Proof.
  unfold VarKey. split; [|by intros [-> ->]]. intros Heq%(f_equal chars). rewrite !chars_app in Heq. apply app_inv_head in Heq.
  apply split_at in Heq as [Hf Ht]; [|apply no_underscore..]. split; by apply (inj pretty), chars_inj.
Qed.
End Layout.

(** * Concrete sizes and keys *)
Local Existing Instance exact_ranges.

Definition sample_factors : list factor := [(1%nat, 4, 1%nat); (0%nat, 1024, 0%nat); (0%nat, 1024, 2%nat)].

Lemma parse_size_exact_witness :
  String.string_of_list_ascii (size_text sample_factors) = " 4 *1024*1024  "%string /\
  ParseMemoryMallocSize " 4 *1024*1024  " 0 = (SUCCESS, 4194304).
Proof.
  split; [vm_compute; reflexivity|]. destruct (parse_size_exact sample_factors 0) as (r & Hrun & Hr).
  - discriminate.
  - repeat constructor; cbn; lia.
  - rewrite Hr in Hrun by (vm_compute; discriminate). exact Hrun.
Defined.

Definition sample_desc : TensorDescLib := {|
  GeTensorDesc := Z * Z * Z;
  td_GetFormat d := d.1.1;
  td_GetOriginFormat d := d.1.1;
  td_GetDataType d := d.1.2;
  td_GetDims d := [d.2];
  td_SetFormat f d := (f, d.1.2, d.2);
  td_SetOriginFormat f d := d;
  td_GetSize d := (SUCCESS, d.2);
|}.
Definition sample_td (format data_type size : Z) : @GeTensorDesc sample_desc := (format, data_type, size).
#[export] Instance sample_desc_ok : TensorDescLibOk sample_desc.
Proof. by split. Qed.

Lemma memory_layout_sound_witness :
  exists vm', SetMemoryMallocSize_ (L := sample_desc) {["ge.graphMemoryMaxSize"%string := "16*1024*1024*1024"%string]} (VarManager_new 7) = (SUCCESS, vm') /\
    var_mem_logic_base_ vm' = graph_mem_max_size_ vm' + kGraphMemoryBuffer.
Proof.
  assert (Hs : (SetMemoryMallocSize_ (L := sample_desc) {["ge.graphMemoryMaxSize"%string := "16*1024*1024*1024"%string]} (VarManager_new 7)).1 = SUCCESS)
    by (vm_compute; reflexivity).
  destruct (SetMemoryMallocSize_ _ _) as [s vm'] eqn:Hrun. cbn in Hs. subst s. exists vm'. split; [reflexivity|].
  apply (memory_layout_sound (L := sample_desc) _ _ _ Hrun).
Defined.

(** The limits of the parser: it checks the overflow of the product with the factor cut to 32 bits, so
    2^33 * 2^32 is accepted as 0; an empty factor counts as 0; and a leading zero makes a factor octal. *)
Theorem parse_size_deviates :
  ParseMemoryMallocSize "8589934592*4294967296" 1 = (SUCCESS, 0) /\ ParseMemoryMallocSize "4**2" 1 = (SUCCESS, 0) /\
  ParseMemoryMallocSize "010" 1 = (SUCCESS, 8) /\ ParseMemoryMallocSize "4*" 1 = (SUCCESS, 4).
Proof. by vm_compute. Qed.
