(* ===== verification/VarTheorems.v ===== *)
(** Theorems about the variable manager: the regions it assigns to the variables of a session.

    [mem_inv] is what it needs of the memory manager (ManagerTheorems), [entries_ok] the invariant of the
    table of addresses and [sess] that of a session.  Every operation of a session keeps them. *)
From S2P Require Import Prelude MemAllocator BlockHeap CachingAllocator CachingContract CachingTheorems.
From S2P Require Import RdmaPool RdmaTheorems MemManager ManagerTheorems MemRanges VarManager VarSizes.
From stdpp Require Import strings pretty.
Open Scope Z_scope.

Section Session.
Context {R : Runtime} {RO : RuntimeOk R} {D : DeviceApi R} {DO : DeviceApiOk R RO D} {H : HostHeap R} {HO : HostHeapOk R RO H}.
Context {E : RangeEnv} {EO : RangeEnvOk E} {L : TensorDescLib} {LO : TensorDescLibOk L}.
Abbreviation mmgr := MemManager.MemManager.

(** * What is needed of the memory manager *)
Definition mem_inv (mm : mmgr) : Prop :=
  exists G, mm_ok G mm /\ live_disj (rt_live (MemManager.device mm)) /\ mm_ready mm RT_MEMORY_HBM.

(** The regions of the RDMA pool in use. *)
Definition rdma_regions (mm : mmgr) : gmap Z Z := handed_by mm (KRdma, RT_MEMORY_HBM).

Lemma mem_inv_rdma_disj mm : mem_inv mm -> live_disj (rdma_regions mm).
Proof. intros (G & HM & HD & _). by eapply handed_disj, HD; apply (mm_cell _ _ HM). Qed.

Lemma mem_inv_do mm c : mem_inv mm -> mm_call_ok [RT_MEMORY_HBM] c -> allocator_call c ->
  exists x mm', MemManager.mm_do c mm = Some (x, mm') /\ mem_inv mm'.
Proof.
  intros (G & HM & HD & HR) Hc Hal. destruct (mm_allocator_do_ok [RT_MEMORY_HBM] G mm c) as (x & mm' & G' & Hrun & HM' & HG & HR'); [done| |done..|].
  - intros t ->%list_elem_of_singleton. done.
  - exists x, mm'. split; [done|]. exists G'. split; [done|]. split; [by apply HG|]. apply HR'. set_solver.
Qed.

(** The host heap is asked for an object. *)
Lemma mem_inv_nothrow mm b r : mem_inv mm -> new_nothrow (MemManager.device mm) = (b, r) ->
  mem_inv (MemManager.put_host (MemManager.host_allocator_map_ mm) r mm).
Proof.
  intros (G & HM & HD & HR) Hn. pose proof (new_nothrow_live _ _ _ Hn) as Hl. exists G. split; [|split; [cbn; by rewrite Hl|done]].
  destruct HM as [Hc Hs]. split; [|done]. intros c. specialize (Hc c).
  apply (cell_own_frame (MemManager.put_host (MemManager.host_allocator_map_ mm) r mm) c _ (MemManager.device mm)).
  - by destruct c as [[] t].
  - cbn. rewrite Hl. by eapply cell_own_live.
Qed.

(** Malloc on the RDMA pool. *)
Lemma mem_inv_rdma_malloc mm size : mem_inv mm -> 0 <= size <= 2 ^ 64 - RdmaPoolAllocator.kAlignedSize ->
  exists p mm', MemManager.mm_do (MemManager.CallRdma RT_MEMORY_HBM (PCall (RMalloc size 0))) mm = Some (MemManager.AnswerRdma (RAddr p), mm') /\
    mem_inv mm' /\ ((p = 0 /\ rdma_regions mm' = rdma_regions mm) \/
      (exists n, 0 < p /\ size <= n /\ rdma_regions mm !! p = None /\ rdma_regions mm' = <[p := n]> (rdma_regions mm))).
Proof.
  intros HI Hs. destruct (mem_inv_do mm (MemManager.CallRdma RT_MEMORY_HBM (PCall (RMalloc size 0))) HI) as (x & mm' & Hrun & HI'); [split; [set_solver|exact Hs]|done|].
  destruct HI as (G & HM & _ & HR). destruct HR as (_ & _ & (pool & Hpool & Hready) & _).
  pose proof (slot_lookup KRdma MemManager.rdma_allocator_map_ MemManager.put_rdma G mm RT_MEMORY_HBM pool HM Hpool) as (_ & _ & e & HW).
  destruct (rdma_do_ok e _ (RMalloc size 0) HW Hs) as (a & st' & Hdo & _ & _ & Hstep).
  change (RdmaTheorems.in_use (RdmaPoolAllocator.set_rt (MemManager.device mm) pool)) with (RdmaTheorems.in_use pool) in Hstep.
  assert (Hrd : rdma_regions mm = RdmaTheorems.in_use pool) by (unfold rdma_regions, handed_by, slot_handed; cbn; by rewrite Hpool).
  assert (Hrd' : x = MemManager.AnswerRdma a /\ rdma_regions mm' = RdmaTheorems.in_use st').
  { revert Hrun. cbn [MemManager.mm_do]. unfold MemManager.call_on, MemManager.GetAllocator. rewrite Hpool. cbn [al_do rdma_allocator]. rewrite Hdo.
    cbn. intros [= <- <-]. split; [done|]. unfold rdma_regions, handed_by, slot_handed. cbn. by rewrite lookup_insert_eq. }
  destruct Hrd' as [-> Hrd']. rewrite Hrd.
  remember (RdmaTheorems.in_use st') as u' eqn:Hu'. remember (RMalloc size 0) as c eqn:Hc.
  destruct Hstep as [sz dev|sz dev p n Hp Hn Hg Hnone|p n| |p]; simplify_eq.
  - exists 0, mm'. split; [done|]. split; [done|]. by left.
  - exists p, mm'. split; [done|]. split; [done|]. right. by exists n.
Qed.

(** * The table of addresses *)
Definition size_of (e : VarAddrMgr) : Z := (td_GetSize (va_tensor_desc e)).2.

(** The distance HbmMemResource keeps between two variables. *)
Definition gap_size : Z := kSessionMemAlignSize * kSessionMemAlignUnit.

Record entries_ok (base used : Z) (rd : gmap Z Z) (m : gmap string VarAddrMgr) : Prop := {
  en_type k e : m !! k = Some e -> va_memory_type e = RT_MEMORY_HBM \/ va_memory_type e = RT_MEMORY_RDMA_HBM;
  en_size k e : m !! k = Some e -> 0 <= size_of e;
  en_hbm k e : m !! k = Some e -> va_memory_type e = RT_MEMORY_HBM ->
    0 <= va_offset e /\ (kSessionMemAlignSize | va_offset e) /\ va_address e = base + va_offset e /\ va_offset e + size_of e + gap_size <= used;
  en_hbm_disj k e k' e' : m !! k = Some e -> m !! k' = Some e' -> k <> k' -> va_memory_type e = RT_MEMORY_HBM -> va_memory_type e' = RT_MEMORY_HBM ->
    va_offset e + size_of e + gap_size <= va_offset e' \/ va_offset e' + size_of e' + gap_size <= va_offset e;
  en_rdma k e : m !! k = Some e -> va_memory_type e = RT_MEMORY_RDMA_HBM -> exists n, rd !! va_address e = Some n /\ size_of e <= n;
  en_rdma_inj k e k' e' : m !! k = Some e -> m !! k' = Some e' -> k <> k' -> va_memory_type e = RT_MEMORY_RDMA_HBM ->
    va_memory_type e' = RT_MEMORY_RDMA_HBM -> va_address e <> va_address e';
}.

Lemma entries_empty base used rd : entries_ok base used rd ∅.
Proof. split; intros *; by rewrite lookup_empty. Qed.

Lemma entries_mono base used rd m used' rd' :
  entries_ok base used rd m -> used <= used' -> rd ⊆ rd' -> entries_ok base used' rd' m.
Proof.
  intros [Ht Hs Hh Hd Hr Hi] Hu Hsub. split; [done|done| |done| |done].
  - intros k e Hk He. destruct (Hh k e Hk He) as (? & ? & ? & ?). split_and!; [done..|lia].
  - intros k e Hk He. destruct (Hr k e Hk He) as (n & ? & ?). exists n. split; [by eapply lookup_weaken|done].
Qed.

(** An entry moves to another key. *)
Lemma entries_move base used rd m k0 e0 k1 v :
  entries_ok base used rd m -> m !! k0 = Some e0 -> va_address v = va_address e0 -> va_offset v = va_offset e0 ->
  va_memory_type v = va_memory_type e0 -> size_of v = size_of e0 -> entries_ok base used rd (<[k1 := v]> (delete k0 m)).
Proof.
  intros [Ht Hs Hh Hd Hr Hi] H0 Ha Ho Hm Hz.
  (* every entry of the new table is one of the old table, and different keys stay different *)
  assert (Hback : forall k e, <[k1 := v]> (delete k0 m) !! k = Some e -> exists k' e', m !! k' = Some e' /\ va_address e = va_address e' /\
    va_offset e = va_offset e' /\ va_memory_type e = va_memory_type e' /\ size_of e = size_of e' /\ k' = (if decide (k = k1) then k0 else k) /\ (k <> k1 -> k <> k0)).
  { intros k e [[<- <-]|[Hne [Hk0 Hk]%lookup_delete_Some]]%lookup_insert_Some.
    - exists k0, e0. rewrite decide_True by done. done.
    - exists k, e. rewrite decide_False by done. done. }
  split.
  - intros k e (k' & e' & Hk & _ & _ & -> & _)%Hback. by eapply Ht.
  - intros k e (k' & e' & Hk & _ & _ & _ & -> & _)%Hback. by eapply Hs.
  - intros k e (k' & e' & Hk & -> & -> & -> & -> & _)%Hback. by eapply Hh.
  - intros k e q f (k' & e' & Hk & _ & -> & -> & -> & -> & Hkk)%Hback (q' & f' & Hq & _ & -> & -> & -> & -> & Hqq)%Hback Hne.
    apply (Hd _ _ _ _ Hk Hq). repeat case_decide; naive_solver.
  - intros k e (k' & e' & Hk & -> & _ & -> & -> & _)%Hback. by eapply Hr.
  - intros k e q f (k' & e' & Hk & -> & _ & -> & _ & -> & Hkk)%Hback (q' & f' & Hq & -> & _ & -> & _ & -> & Hqq)%Hback Hne.
    apply (Hi _ _ _ _ Hk Hq). repeat case_decide; naive_solver.
Qed.

(** A new variable in the memory of the session. *)
Lemma entries_hbm base used rd m k e used' :
  entries_ok base used rd m -> va_memory_type e = RT_MEMORY_HBM -> 0 <= size_of e -> 0 <= used -> (kSessionMemAlignSize | used) ->
  va_offset e = used -> va_address e = base + used -> used + size_of e + gap_size <= used' -> entries_ok base used' rd (<[k := e]> m).
Proof.
  intros [Ht Hs Hh Hd Hr Hi] He Hz H0 Hal Ho Ha Hu. assert (Hgap : gap_size = 1024) by done. split.
  - intros k' e' [[<- <-]|[_ ?]]%lookup_insert_Some; [by left|by eapply Ht].
  - intros k' e' [[<- <-]|[_ ?]]%lookup_insert_Some; [done|by eapply Hs].
  - intros k' e' [[<- <-]|[_ Hk]]%lookup_insert_Some Ht'; [rewrite Ho; split_and!; [lia|done|done|lia]|].
    destruct (Hh _ _ Hk Ht') as (? & ? & ? & ?). split_and!; [done..|lia].
  - intros k1 e1 k2 e2 [[<- <-]|[_ H1]]%lookup_insert_Some [[<- <-]|[_ H2]]%lookup_insert_Some Hne T1 T2; [done|..].
    + destruct (Hh _ _ H2 T2) as (_ & _ & _ & ?). right. lia.
    + destruct (Hh _ _ H1 T1) as (_ & _ & _ & ?). left. lia.
    + by apply (Hd _ _ _ _ H1 H2).
  - intros k' e' [[<- <-]|[_ ?]]%lookup_insert_Some T1; [by rewrite He in T1|by eapply Hr].
  - intros k1 e1 k2 e2 [[<- <-]|[_ H1]]%lookup_insert_Some [[<- <-]|[_ H2]]%lookup_insert_Some Hne T1 T2; try (by rewrite He in *).
    by apply (Hi _ _ _ _ H1 H2).
Qed.

(** A new variable in the RDMA pool. *)
Lemma entries_rdma base used rd m k e n :
  entries_ok base used rd m -> va_memory_type e = RT_MEMORY_RDMA_HBM -> 0 <= size_of e <= n -> rd !! va_address e = None ->
  entries_ok base used (<[va_address e := n]> rd) (<[k := e]> m).
Proof.
  intros HE He Hz Hf. destruct (entries_mono _ _ _ _ used (<[va_address e := n]> rd) HE) as [Ht Hs Hh Hd Hr Hi]; [lia|by apply insert_subseteq|].
  assert (Hold : forall k' e', m !! k' = Some e' -> va_memory_type e' = RT_MEMORY_RDMA_HBM -> va_address e' <> va_address e).
  { intros k' e' Hk T Heq. destruct (en_rdma _ _ _ _ HE _ _ Hk T) as (x & Hx & _). congruence. }
  split.
  - intros k' e' [[<- <-]|[_ ?]]%lookup_insert_Some; [by right|by eapply Ht].
  - intros k' e' [[<- <-]|[_ ?]]%lookup_insert_Some; [lia|by eapply Hs].
  - intros k' e' [[<- <-]|[_ ?]]%lookup_insert_Some T1; [by rewrite He in T1|by eapply Hh].
  - intros k1 e1 k2 e2 [[<- <-]|[_ H1]]%lookup_insert_Some [[<- <-]|[_ H2]]%lookup_insert_Some Hne T1 T2; try (by rewrite He in *).
    by apply (Hd _ _ _ _ H1 H2).
  - intros k' e' [[<- <-]|[_ ?]]%lookup_insert_Some T1; [exists n; rewrite lookup_insert_eq; split; [done|lia]|by eapply Hr].
  - intros k1 e1 k2 e2 [[<- <-]|[_ H1]]%lookup_insert_Some [[<- <-]|[_ H2]]%lookup_insert_Some Hne T1 T2; [done|..].
    + apply not_eq_sym. by eapply Hold.
    + by eapply Hold.
    + by apply (Hi _ _ _ _ H1 H2).
Qed.

(** * A session *)
Definition hbm_used (vm : VarManager) : Z :=
  match mem_resource_map_ vm !! RT_MEMORY_HBM with Some mr => var_mem_size_ mr | None => 0 end.

Definition resource_ok (t : Z) (mr : MemResource) : Prop :=
  (t = RT_MEMORY_HBM /\ mr_class mr = HbmMemResource) \/ (t = RT_MEMORY_RDMA_HBM /\ mr_class mr = RdmaMemResource).

(** The manager of session [s] in the pool, initialised, with its table. *)
Record sess (s : Z) (w : World) (vm : VarManager) (vr : VarResource) : Prop := {
  se_pool : var_manager_map_ w !! s = Some vm;
  se_id : session_id_ vm = s;
  se_vr : var_resource_ vm = Some vr;
  se_vr_id : vr_session_id_ vr = s;
  se_range : 0 <= var_mem_logic_base_ vm /\ 0 <= var_mem_max_size_ vm /\ var_mem_logic_base_ vm + var_mem_max_size_ vm < 2 ^ 63;
  se_res t mr : mem_resource_map_ vm !! t = Some mr -> resource_ok t mr;
  se_used : 0 <= hbm_used vm <= var_mem_max_size_ vm /\ (kSessionMemAlignSize | hbm_used vm);
  se_mem : mem_inv (mem_manager w);
  se_entries : entries_ok (var_mem_logic_base_ vm) (hbm_used vm) (rdma_regions (mem_manager w)) (var_addr_mgr_map_ vr);
}.

(** The members no operation of the session changes. *)
Definition same_layout (vm vm' : VarManager) : Prop :=
  var_mem_logic_base_ vm' = var_mem_logic_base_ vm /\ var_mem_max_size_ vm' = var_mem_max_size_ vm.

Lemma deref_sess s w vm vr : sess s w vm vr -> deref (InPool s) w = Some (vm, w).
Proof. intros HS. unfold deref. by rewrite (se_pool _ _ _ _ HS). Qed.

Lemma Instance_sess s w vm vr : sess s w vm vr -> Instance_ s w = Some (InPool s, w).
Proof.
  intros HS. unfold Instance_, GetVarManager. erewrite sm_bind_eq by reflexivity. by rewrite (se_pool _ _ _ _ HS).
Qed.

Definition put_manager (s : Z) (vm : VarManager) (w : World) : World := set_managers (<[s := vm]> (var_manager_map_ w)) w.

Lemma store_eq s vm w : store (InPool s) vm w = Some (tt, put_manager s vm w).
Proof. done. Qed.

(** Only the table of the session changes. *)
Lemma sess_set_vr s w vm vr vr' :
  sess s w vm vr -> vr_session_id_ vr' = s ->
  entries_ok (var_mem_logic_base_ vm) (hbm_used vm) (rdma_regions (mem_manager w)) (var_addr_mgr_map_ vr') ->
  sess s (put_manager s (set_var_resource (Some vr') vm) w) (set_var_resource (Some vr') vm) vr'.
Proof.
  intros [Hp Hi Hv Hvi Hr Hre Hu Hm He] Hid HE. split; try done. cbn. apply lookup_insert_eq.
Qed.

Lemma forward_ok {A} s w vm vr (not_init : A) f :
  sess s w vm vr -> (forall a vr', f vr = (a, vr') -> vr_session_id_ vr' = s /\
    entries_ok (var_mem_logic_base_ vm) (hbm_used vm) (rdma_regions (mem_manager w)) (var_addr_mgr_map_ vr')) ->
  exists w' vm', forward (InPool s) not_init f w = Some ((f vr).1, w') /\ sess s w' vm' (f vr).2 /\ same_layout vm vm'.
Proof.
  intros HS Hf. unfold forward. erewrite sm_bind_eq by (by eapply deref_sess). rewrite (se_vr _ _ _ _ HS). destruct (f vr) as [a vr'] eqn:Hfv.
  erewrite sm_bind_eq by apply store_eq. destruct (Hf a vr' eq_refl). eexists _, _. split; [reflexivity|]. split; [by eapply sess_set_vr|done].
Qed.

Lemma VarResource_RenewCurVarDesc_ok name od vr st vr' base used rd :
  entries_ok base used rd (var_addr_mgr_map_ vr) -> VarResource_RenewCurVarDesc name od vr = (st, vr') ->
  vr_session_id_ vr' = vr_session_id_ vr /\ entries_ok base used rd (var_addr_mgr_map_ vr').
Proof.
  intros HE. unfold VarResource_RenewCurVarDesc. destruct (cur_var_tensor_desc_map_ vr !! name) as [cur|]; [|by intros [= <- <-]].
  destruct od as [out|]; [|by intros [= <- <-]]. cbn. destruct (var_addr_mgr_map_ vr !! VarKey name cur) as [e|] eqn:Hk; intros [= <- <-]; [|done].
  cbn. split; [done|]. eapply entries_move; [done|exact Hk|done|done|done|]. unfold size_of, renew_desc. cbn. by rewrite td_size_set, td_size_origin.
Qed.

(** ** AssignVarMem *)
Lemma nothrow_ok w : mem_inv (mem_manager w) -> exists b w', nothrow w = Some (b, w') /\ var_manager_map_ w' = var_manager_map_ w /\
  mem_inv (mem_manager w') /\ rdma_regions (mem_manager w') = rdma_regions (mem_manager w).
Proof.
  intros HI. unfold nothrow. destruct (new_nothrow (MemManager.device (mem_manager w))) as [b r] eqn:Hn. eexists b, _. split; [reflexivity|].
  split; [done|]. split; [|done]. by eapply mem_inv_nothrow.
Qed.

Lemma sess_set_mem s w vm vr w' :
  sess s w vm vr -> var_manager_map_ w' = var_manager_map_ w -> mem_inv (mem_manager w') -> rdma_regions (mem_manager w) ⊆ rdma_regions (mem_manager w') ->
  sess s w' vm vr.
Proof.
  intros [Hp Hi Hv Hvi Hr Hre Hu Hm He] Hw HI Hrd. split; try done; [by rewrite Hw|]. by eapply entries_mono.
Qed.

(** A resource is entered or updated; the memory of the session may grow. *)
Lemma sess_set_res s w vm vr t mr :
  sess s w vm vr -> resource_ok t mr ->
  (t = RT_MEMORY_HBM -> hbm_used vm <= var_mem_size_ mr <= var_mem_max_size_ vm /\ (kSessionMemAlignSize | var_mem_size_ mr)) ->
  let vm' := set_mem_resource_map (<[t := mr]> (mem_resource_map_ vm)) vm in
  sess s (put_manager s vm' w) vm' vr /\ hbm_used vm' = (if decide (t = RT_MEMORY_HBM) then var_mem_size_ mr else hbm_used vm).
Proof.
  intros [Hp Hi Hv Hvi Hr Hre Hu Hm He] Hmr Hgrow vm'.
  assert (Hus : hbm_used vm' = (if decide (t = RT_MEMORY_HBM) then var_mem_size_ mr else hbm_used vm)).
  { unfold hbm_used. cbn. case_decide as Ht; [subst t; by rewrite lookup_insert_eq|by rewrite lookup_insert_ne]. }
  split; [|done]. split; try done.
  - cbn. apply lookup_insert_eq.
  - cbn. intros t' mr' [[<- <-]|[_ ?]]%lookup_insert_Some; [done|by apply Hre].
  - rewrite Hus. case_decide as Ht; [destruct (Hgrow Ht); split; [cbn; lia|done]|done].
  - rewrite Hus. case_decide as Ht; [|done]. eapply entries_mono; [exact He| |done]. by destruct (Hgrow Ht) as [[? _] _].
Qed.

Lemma find_resource_ok s w vm vr t : sess s w vm vr ->
  exists o w' vm', find_resource (InPool s) t w = Some (o, w') /\ sess s w' vm' vr /\ same_layout vm vm' /\
    match o with Some mr => mem_resource_map_ vm' !! t = Some mr | None => True end.
Proof.
  intros HS. unfold find_resource. erewrite sm_bind_eq by (by eapply deref_sess).
  destruct (mem_resource_map_ vm !! t) as [mr|] eqn:Hmr; [by exists (Some mr), w, vm|].
  assert (Hbuild : exists o w1, BuildMemResourceFromType t w = Some (o, w1) /\ sess s w1 vm vr /\
    match o with Some mr => resource_ok t mr /\ var_mem_size_ mr = 0 | None => True end).
  { unfold BuildMemResourceFromType. destruct (nothrow_ok w (se_mem _ _ _ _ HS)) as (b & w1 & Hrun & Hw & HI & Hrd).
    assert (HS1 : sess s w1 vm vr) by (eapply sess_set_mem; [done..|by rewrite Hrd]). unfold resource_ok.
    destruct (Z.eqb_spec t RT_MEMORY_HBM) as [->|]; [|destruct (Z.eqb_spec t RT_MEMORY_RDMA_HBM) as [->|]; [|by exists None, w]];
      erewrite sm_bind_eq by exact Hrun; eexists _, w1; (split; [reflexivity|]); (split; [done|]); destruct b; cbn; auto. }
  destruct Hbuild as (o & w1 & Hrun & HS1 & Ho). erewrite sm_bind_eq by exact Hrun. destruct o as [mr|]; [|by exists None, w1, vm].
  destruct Ho as [Hok Hz]. erewrite sm_bind_eq by (by eapply deref_sess). erewrite sm_bind_eq by apply store_eq.
  destruct (sess_set_res s w1 vm vr t mr HS1 Hok) as [HS2 _].
  { intros ->. unfold hbm_used. rewrite Hmr, Hz. destruct (se_range _ _ _ _ HS) as (? & ? & ?). split; [lia|]. exists 0. lia. }
  eexists (Some mr), _, _. split; [reflexivity|]. split; [exact HS2|]. split; [done|]. cbn. apply lookup_insert_eq.
Qed.

Lemma round512 size : 0 <= size < 2 ^ 63 ->
  let r := wrapU64 (wrapU64 (size + kSessionMemAlignSize - 1) / kSessionMemAlignSize * kSessionMemAlignSize) in
  size <= r < size + kSessionMemAlignSize /\ (kSessionMemAlignSize | r).
Proof.
  intros Hs. unfold kSessionMemAlignSize. cbn zeta. rewrite (wrapU64_id (size + 512 - 1)) by lia.
  pose proof (Z.div_mod (size + 512 - 1) 512 ltac:(lia)). pose proof (Z.mod_pos_bound (size + 512 - 1) 512 ltac:(lia)).
  rewrite wrapU64_id by lia. split; [lia|]. by exists ((size + 512 - 1) / 512).
Qed.

Lemma Hbm_AssignVarMem_ok s w vm vr mr size :
  sess s w vm vr -> mem_resource_map_ vm !! RT_MEMORY_HBM = Some mr -> 0 <= size < 2 ^ 63 ->
  exists res mr', Hbm_AssignVarMem size s mr w = Some ((res, mr'), w) /\ mr_class mr' = mr_class mr /\
    ((exists st, res = Err st /\ var_mem_size_ mr' = var_mem_size_ mr) \/
     (res = Ok (var_mem_size_ mr) /\ var_mem_size_ mr + size + gap_size <= var_mem_size_ mr' <= var_mem_max_size_ vm /\
      (kSessionMemAlignSize | var_mem_size_ mr'))).
Proof.
  intros HS Hmr Hsize. destruct (se_range _ _ _ _ HS) as (_ & _ & Hmax). pose proof (proj1 (se_range _ _ _ _ HS)). unfold Hbm_AssignVarMem. destruct (round512 size Hsize) as [Hr Hal].
  set (r := wrapU64 (wrapU64 (size + kSessionMemAlignSize - 1) / kSessionMemAlignSize * kSessionMemAlignSize)) in *.
  erewrite sm_bind_eq by (by eapply Instance_sess). erewrite sm_bind_eq by (by eapply deref_sess). cbn [total_size_ var_mem_size_ mr_class].
  pose proof (se_used _ _ _ _ HS) as [Hu Hua]. unfold hbm_used in Hu, Hua. rewrite Hmr in Hu, Hua. unfold gap_size, kSessionMemAlignSize, kSessionMemAlignUnit in *.
  destruct (Z.ltb_spec (var_mem_max_size_ vm) (var_mem_size_ mr)); [eexists _, _; split; [reflexivity|]; split; [done|]; left; by eexists|].
  rewrite (wrapU64_id (r + 512 * 2)), (wrapU64_id (r + 512)) by lia. destruct (Z.ltb_spec (var_mem_max_size_ vm - var_mem_size_ mr) (r + 512 * 2)).
  { eexists _, _. split; [reflexivity|]. split; [done|]. left. by eexists. }
  eexists _, _. split; [reflexivity|]. split; [done|]. right. split; [done|]. cbn [var_mem_size_].
  rewrite (wrapU64_id (var_mem_size_ mr + (r + 512))), wrapU64_id by lia. split; [lia|].
  destruct Hal as [a Ha], Hua as [b Hb]. exists (b + a + 2). lia.
Qed.

(** What a successful AssignVarMem leaves: a new entry, and a current descriptor of the same kind. *)
Definition same_kind (c d : GeTensorDesc) : Prop :=
  td_GetFormat c = td_GetFormat d /\ td_GetDataType c = td_GetDataType d /\ td_GetDims c = td_GetDims d.
Record assigned (name : string) (desc : GeTensorDesc) (t : Z) (vr vr' : VarResource) : Prop := {
  as_entry : exists e, va_tensor_desc e = desc /\ va_memory_type e = t /\ var_addr_mgr_map_ vr !! VarKey name desc = None /\
    var_addr_mgr_map_ vr' = <[VarKey name desc := e]> (var_addr_mgr_map_ vr);
  as_cur : exists c, cur_var_tensor_desc_map_ vr' !! name = Some c /\ same_kind c desc;
  as_others name' : name' <> name -> cur_var_tensor_desc_map_ vr' !! name' = cur_var_tensor_desc_map_ vr !! name';
}.

Lemma update_cur_desc_ok name desc off t vr :
  is_Some (var_addr_mgr_map_ vr !! VarKey name desc) ->
  let vr' := update_cur_desc name desc off t vr in
  vr_session_id_ vr' = vr_session_id_ vr /\ var_addr_mgr_map_ vr' = var_addr_mgr_map_ vr /\
  (exists c, cur_var_tensor_desc_map_ vr' !! name = Some c /\ same_kind c desc) /\
  (forall name', name' <> name -> cur_var_tensor_desc_map_ vr' !! name' = cur_var_tensor_desc_map_ vr !! name').
Proof.
  intros [e He] vr'.
  assert (Hset : let v := VarResource_SetVarAddr name desc off t vr in vr_session_id_ v = vr_session_id_ vr /\ var_addr_mgr_map_ v = var_addr_mgr_map_ vr /\
    (exists c, cur_var_tensor_desc_map_ v !! name = Some c /\ same_kind c desc) /\
    (forall name', name' <> name -> cur_var_tensor_desc_map_ v !! name' = cur_var_tensor_desc_map_ vr !! name')).
  { unfold VarResource_SetVarAddr. rewrite He. cbn. split; [done|]. split; [done|]. split; [exists desc; by rewrite lookup_insert_eq|].
    intros name' Hne. by rewrite lookup_insert_ne. }
  subst vr'. unfold update_cur_desc, VarResource_GetCurVarDesc. destruct (cur_var_tensor_desc_map_ vr !! name) as [cur|] eqn:Hc; [|exact Hset].
  destruct (Z.eqb_spec (td_GetFormat cur) (td_GetFormat desc)) as [Hf|]; [|exact Hset].
  destruct (Z.eqb_spec (td_GetDataType cur) (td_GetDataType desc)) as [Hd|]; [|exact Hset]. cbn.
  case_bool_decide as Hdim; [|exact Hset]. cbn. split; [done|]. split; [done|]. split; [by exists cur|done].
Qed.

(** The second half of AssignVarMem, once the memory has been found. *)
Definition assign_tail (this : ref) (vm : VarManager) (name : string) (desc : GeTensorDesc) (off t : Z) : SM World Status :=
  match var_resource_ vm with
  | None => mret INTERNAL_ERROR
  | Some vr =>
      base ← logic_base_for name desc t vr;
      let '(result, vr) := VarResource_SaveVarAddr base name desc off t vr in
      if negb (bool_decide (result = SUCCESS)) then mret INTERNAL_ERROR else
      match VarResource_GetVarAddr name desc true vr with
      | Ok (off, t) =>
          _ ← store this (set_var_resource (Some (update_cur_desc name desc off t vr)) vm); mret SUCCESS
      | _ => _ ← store this (set_var_resource (Some vr) vm); mret INTERNAL_ERROR
      end
  end.

Lemma assign_tail_ok s w vm vr name desc off t :
  sess s w vm vr -> 
  (let a := if t =? RT_MEMORY_RDMA_HBM then off else wrapU64 (off + var_mem_logic_base_ vm) in
   var_addr_mgr_map_ vr !! VarKey name desc = None ->
   entries_ok (var_mem_logic_base_ vm) (hbm_used vm) (rdma_regions (mem_manager w))
     (<[VarKey name desc := mkVarAddrMgr desc a off t]> (var_addr_mgr_map_ vr))) ->
  exists st w' vm' vr', assign_tail (InPool s) vm name desc off t w = Some (st, w') /\ sess s w' vm' vr' /\ same_layout vm vm' /\
    ((st <> SUCCESS /\ vr' = vr) \/ (st = SUCCESS /\ assigned name desc t vr vr')).
Proof.
  intros HS HE. unfold assign_tail. rewrite (se_vr _ _ _ _ HS). unfold logic_base_for, VarResource_SaveVarAddr.
  destruct (var_addr_mgr_map_ vr !! VarKey name desc) as [e|] eqn:Hk.
  { erewrite sm_bind_eq by reflexivity. cbn. exists INTERNAL_ERROR, w, vm, vr. split; [done|]. split; [done|]. split; [done|]. by left. }
  set (a := if t =? RT_MEMORY_RDMA_HBM then off else wrapU64 (off + var_mem_logic_base_ vm)) in *. specialize (HE eq_refl).
  set (e := mkVarAddrMgr desc a off t) in *.
  set (vr1 := set_offset_map (<[a := t]> (var_offset_map_ vr)) (set_addr_mgr_map (<[VarKey name desc := e]> (var_addr_mgr_map_ vr)) vr)).
  assert (Hstep : forall b, (if t =? RT_MEMORY_RDMA_HBM then True else b = var_mem_logic_base_ vm) ->
    (if negb (t =? RT_MEMORY_RDMA_HBM) then wrapU64 (off + b) else off) = a).
  { intros b. unfold a. destruct (t =? RT_MEMORY_RDMA_HBM); cbn; [done|]. by intros ->. }
  destruct (update_cur_desc_ok name desc a t vr1) as (Hid & Hmap & Hcur & Hoth); [cbn; rewrite lookup_insert_eq; by eexists|].
  assert (Hend : exists st w' vm' vr', (if negb (bool_decide (SUCCESS = SUCCESS)) then mret INTERNAL_ERROR else
      match VarResource_GetVarAddr name desc true vr1 with
      | Ok (off, t) => _ ← store (InPool s) (set_var_resource (Some (update_cur_desc name desc off t vr1)) vm); mret SUCCESS
      | _ => _ ← store (InPool s) (set_var_resource (Some vr1) vm); mret INTERNAL_ERROR
      end) w = Some (st, w') /\ sess s w' vm' vr' /\ same_layout vm vm' /\
      ((st <> SUCCESS /\ vr' = vr) \/ (st = SUCCESS /\ assigned name desc t vr vr'))).
  { cbn [bool_decide]. rewrite bool_decide_eq_true_2 by done. cbn [negb]. unfold VarResource_GetVarAddr. cbn [negb vr1 var_addr_mgr_map_ set_offset_map set_addr_mgr_map].
    rewrite lookup_insert_eq. cbn [va_address va_memory_type e]. erewrite sm_bind_eq by apply store_eq.
    eexists SUCCESS, _, _, _. split; [reflexivity|]. split; [apply (sess_set_vr s w vm vr); [done|rewrite Hid; apply HS|by rewrite Hmap]|].
    split; [done|]. right. split; [done|]. split; [|done|done]. exists e. split; [done|]. split; [done|]. split; [done|]. by rewrite Hmap. }
  destruct (Z.eqb_spec t RT_MEMORY_RDMA_HBM) as [Ht|Ht]; cbn [negb].
  - erewrite sm_bind_eq by reflexivity. exact Hend.
  - rewrite (se_vr_id _ _ _ _ HS). erewrite sm_bind_eq.
    2: { erewrite sm_bind_eq by (by eapply Instance_sess). erewrite sm_bind_eq by (by eapply deref_sess). reflexivity. }
    exact Hend.
Qed.

Lemma AssignVarMem_ok s w vm vr name desc t :
  sess s w vm vr -> 0 <= (td_GetSize desc).2 < 2 ^ 63 ->
  exists st w' vm' vr', AssignVarMem (InPool s) name desc t w = Some (st, w') /\ sess s w' vm' vr' /\ same_layout vm vm' /\
    ((st <> SUCCESS /\ vr' = vr) \/ (st = SUCCESS /\ assigned name desc t vr vr')).
Proof.
  intros HS Hsz. unfold AssignVarMem. destruct (td_GetSize desc) as [result sz] eqn:Hgs. cbn in Hsz.
  case_bool_decide as Hres; cbn [negb]; [|exists result, w, vm, vr; split; [done|]; split; [done|]; split; [done|]; left; done].
  destruct (find_resource_ok s w vm vr t HS) as (o & w1 & vm1 & Hrun1 & HS1 & HL1 & Ho). erewrite sm_bind_eq by exact Hrun1.
  destruct o as [mr|]; [|exists INTERNAL_ERROR, w1, vm1, vr; split; [done|]; split; [done|]; split; [done|]; by left].
  erewrite sm_bind_eq by (by eapply deref_sess). rewrite (se_id _ _ _ _ HS1), (wrapU64_id sz) by lia.
  pose proof (se_res _ _ _ _ HS1 t mr Ho) as Hok. pose proof (se_entries _ _ _ _ HS1) as HE1. destruct (se_range _ _ _ _ HS1) as (Hb0 & Hm0 & Hw0).
  (* the memory is assigned: the state [w2], in which the table may get an entry at [off] *)
  assert (Hmem : exists res mr' w2, MemResource_AssignVarMem sz s mr w1 = Some ((res, mr'), w2) /\
    sess s w2 vm1 vr /\ resource_ok t mr' /\
    (t = RT_MEMORY_HBM -> hbm_used vm1 <= var_mem_size_ mr' <= var_mem_max_size_ vm1 /\ (kSessionMemAlignSize | var_mem_size_ mr')) /\
    forall off, res = Ok off ->
      let a := if t =? RT_MEMORY_RDMA_HBM then off else wrapU64 (off + var_mem_logic_base_ vm1) in
      entries_ok (var_mem_logic_base_ vm1) (if decide (t = RT_MEMORY_HBM) then var_mem_size_ mr' else hbm_used vm1) (rdma_regions (mem_manager w2))
        (<[VarKey name desc := mkVarAddrMgr desc a off t]> (var_addr_mgr_map_ vr))).
  { unfold MemResource_AssignVarMem. destruct Hok as [[-> Hcl]|[-> Hcl]]; rewrite Hcl.
    - destruct (Hbm_AssignVarMem_ok s w1 vm1 vr mr sz HS1 Ho Hsz) as (res & mr' & Hrun & Hcl' & Hr). exists res, mr', w1. split; [done|]. split; [done|].
      split; [left; split; [done|congruence]|]. assert (Hu1 : hbm_used vm1 = var_mem_size_ mr) by (unfold hbm_used; by rewrite Ho).
      pose proof (se_used _ _ _ _ HS1) as [Hu Hua]. assert (Hgap : gap_size = 1024) by done. rewrite Hu1 in Hu, Hua, HE1 |- *. split.
      + intros _. destruct Hr as [(st & _ & ->)|(_ & ? & ?)]; (split; [lia|done]).
      + intros off ->. destruct Hr as [(st & ? & _)|([= ->] & Hle & _)]; [done|]. cbn.
        rewrite wrapU64_id, decide_True by (done || lia). apply (entries_hbm _ (var_mem_size_ mr)); try done; unfold size_of; cbn; rewrite ?Hgs; cbn; lia.
    - unfold Rdma_AssignVarMem. destruct (mem_inv_rdma_malloc _ sz (se_mem _ _ _ _ HS1)) as (p & mm' & Hrun & HI & Hp);
        [unfold RdmaPoolAllocator.kAlignedSize; lia|].
      assert (Hcall : call_memory (MemManager.CallRdma RT_MEMORY_HBM (PCall (RMalloc sz 0))) w1 = Some (MemManager.AnswerRdma (RAddr p), set_mem_manager mm' w1))
        by (unfold call_memory; by rewrite Hrun).
      erewrite sm_bind_eq by exact Hcall. cbv beta iota.
      assert (HS2 : sess s (set_mem_manager mm' w1) vm1 vr).
      { eapply sess_set_mem; [done|done|done|]. change (rdma_regions (mem_manager w1) ⊆ rdma_regions mm'). destruct Hp as [[_ ->]|(n & _ & _ & Hn & ->)]; [done|by apply insert_subseteq]. }
      destruct (Z.eqb_spec p 0) as [Hz|Hz].
      + eexists _, mr, _. split; [reflexivity|]. split; [exact HS2|]. split; [by right|]. split; [done|done].
      + eexists _, _, _. split; [reflexivity|]. split; [exact HS2|]. split; [by right|]. split; [done|]. intros off [= <-]. cbn [Z.eqb].
        destruct Hp as [[-> _]|(n & Hp & Hn & Hnone & Hrd)]; [done|]. change (mem_manager (set_mem_manager mm' w1)) with mm'. rewrite Hrd.
        apply (entries_rdma _ _ _ _ _ (mkVarAddrMgr desc p p RT_MEMORY_RDMA_HBM)); try done. unfold size_of. cbn. rewrite Hgs. cbn. lia. }
  destruct Hmem as (res & mr' & w2 & Hrun2 & HS2 & Hok' & Hgrow & Hent). erewrite sm_bind_eq by exact Hrun2. cbv beta iota.
  erewrite sm_bind_eq by (by eapply deref_sess). erewrite sm_bind_eq by apply store_eq.
  destruct (sess_set_res s w2 vm1 vr t mr' HS2 Hok' Hgrow) as [HS3 Hus]. set (vm2 := set_mem_resource_map (<[t := mr']> (mem_resource_map_ vm1)) vm1) in *.
  assert (Hfail : exists st w' vm' vr', (mret INTERNAL_ERROR : SM World Status) (put_manager s vm2 w2) = Some (st, w') /\ sess s w' vm' vr' /\ same_layout vm vm' /\
    ((st <> SUCCESS /\ vr' = vr) \/ (st = SUCCESS /\ assigned name desc t vr vr'))).
  { exists INTERNAL_ERROR, (put_manager s vm2 w2), vm2, vr. split; [done|]. split; [done|]. split; [exact HL1|]. by left. }
  destruct res as [off|st|]; [|exact Hfail..].
  destruct (assign_tail_ok s (put_manager s vm2 w2) vm2 vr name desc off t HS3) as (st & w' & vm' & vr' & Hrun & HS' & HL' & Hres').
  { intros a _. rewrite Hus. by apply Hent. }
  exists st, w', vm', vr'. split; [exact Hrun|]. split; [done|]. split; [|done].
  unfold same_layout in *. destruct HL1 as [<- <-]. exact HL'.
Qed.

(** ** The other operations of a session

    Those that assign memory and those that describe it.  SetVarAddr, SaveVarAddr and UpdateVarMemSize are not among them:
    they enter an address or an offset that the caller brings along, VarMemAssignUtil::AssignData2Fp32Var to let
    two variables share memory on purpose and ModelCacheHelper to restore a table it saved. *)
Inductive var_call :=
| VAssign (name : string) (desc : GeTensorDesc) (memory_type : Z)
| VRenew (name : string) (op_desc : option GeTensorDesc)
| VTransRoad (name : string) (road : VarTransRoad)
| VChanged (name : string) (graph_id : Z)
| VAllocated (name : string) (graph_id : Z)
| VBroadCast (graph_id : Z) (info : VarBroadCastInfo)
| VMalloc (size : Z)
| VFree.

Definition var_do (this : ref) (c : var_call) : SM World Status :=
  match c with
  | VAssign name desc t => AssignVarMem this name desc t
  | VRenew name od => RenewCurVarDesc this name od
  | VTransRoad name road => SetTransRoad this name road
  | VChanged name i => SetChangedGraphId this name i
  | VAllocated name i => SetAllocatedGraphId this name i
  | VBroadCast g info => SaveBroadCastInfo this g info
  | VMalloc size => MallocVarMemory this size
  | VFree => FreeVarMemory this
  end.

Fixpoint var_calls (this : ref) (cs : list var_call) : SM World (list Status) :=
  match cs with
  | [] => mret []
  | c :: cs => a ← var_do this c; l ← var_calls this cs; mret (a :: l)
  end.

(** The sizes of the tensors are not negative; the memory asked for is not empty. *)
Definition var_call_ok (c : var_call) : Prop :=
  match c with
  | VAssign _ desc _ => 0 <= (td_GetSize desc).2 < 2 ^ 63
  | VMalloc size => 0 < size < 2 ^ 63
  | _ => True
  end.

Lemma call_memory_ok s w vm vr c : sess s w vm vr -> al_call_ok (T := MemoryAllocator) c ->
  exists x w', call_memory (MemManager.CallMemory RT_MEMORY_HBM c) w = Some (MemManager.AnswerMemory x, w') /\ sess s w' vm vr /\
    match c, x with KFree _, KStatus _ => True | KFree _, _ => False | _, KAddr _ => True | _, _ => False end.
Proof.
  intros HS Hc. destruct (mem_inv_do (mem_manager w) (MemManager.CallMemory RT_MEMORY_HBM c) (se_mem _ _ _ _ HS)) as (x & mm' & Hrun & HI'); [split; [set_solver|done]|done|].
  unfold call_memory. rewrite Hrun. revert Hrun. cbn [MemManager.mm_do].
  destruct (MemManager.call_on RT_MEMORY_HBM c _ _ _) as [[[[y ?] ?] ?]|] eqn:Hon; [|done]. cbn. intros [= <- <-].
  eexists y, _. split; [reflexivity|]. split; [by eapply sess_set_mem|].
  revert Hon. unfold MemManager.call_on. destruct c as [k size|k|k]; cbn [al_do memory_allocator].
  - destruct (MallocMemoryKey _ _ _ _) as [[? ?] ?]. destruct (MemManager.memory_allocator_map_ _ !! _); by intros [= <- _ _ _].
  - destruct (FreeMemoryKey _ _ _) as [[? ?] ?]. destruct (MemManager.memory_allocator_map_ _ !! _); by intros [= <- _ _ _].
  - destruct (MemManager.memory_allocator_map_ _ !! _); by intros [= <- _ _ _].
Qed.

Lemma var_do_ok s w vm vr c : sess s w vm vr -> var_call_ok c ->
  exists st w' vm' vr', var_do (InPool s) c w = Some (st, w') /\ sess s w' vm' vr' /\ same_layout vm vm'.
Proof.
  intros HS Hc.
  assert (Hfw : forall f : VarResource -> Status * VarResource, (forall a v, f vr = (a, v) -> vr_session_id_ v = s /\
      entries_ok (var_mem_logic_base_ vm) (hbm_used vm) (rdma_regions (mem_manager w)) (var_addr_mgr_map_ v)) ->
    exists st w' vm' vr', forward (InPool s) INTERNAL_ERROR f w = Some (st, w') /\ sess s w' vm' vr' /\ same_layout vm vm').
  { intros f Hf. destruct (forward_ok s w vm vr INTERNAL_ERROR f HS Hf) as (w' & vm' & Hrun & HS' & HL'). eexists _, w', vm', _. by split. }
  pose proof (se_vr_id _ _ _ _ HS) as Hid. pose proof (se_entries _ _ _ _ HS) as HE.
  destruct c as [name desc t|name od|name road|name i|name i|g info|size|]; cbn [var_do].
  - destruct (AssignVarMem_ok s w vm vr name desc t HS Hc) as (st & w' & vm' & vr' & ? & ? & ? & _). by exists st, w', vm', vr'.
  - apply Hfw. intros a v Hv. rewrite <- Hid. by eapply VarResource_RenewCurVarDesc_ok.
  - apply Hfw. intros a v. unfold VarResource_SetTransRoad. destruct (_ !! name); intros [= <- <-]; done.
  - apply Hfw. intros a v [= <- <-]. done.
  - apply Hfw. intros a v. unfold VarResource_SetAllocatedGraphId. destruct (VarResource_GetAllocatedGraphId name vr); intros [= <- <-]; done.
  - apply Hfw. intros a v [= <- <-]. done.
  - unfold MallocVarMemory. erewrite sm_bind_eq by (by eapply deref_sess). destruct (round512 size) as [Hr _]; [cbn in Hc; lia|].
    destruct (call_memory_ok s w vm vr (KMalloc (session_key vm) (wrapU64 (wrapU64 (size + kSessionMemAlignSize - 1) / kSessionMemAlignSize * kSessionMemAlignSize))) HS)
      as (x & w' & Hrun & HS' & Hx); [cbn in *; lia|].
    erewrite sm_bind_eq by exact Hrun. cbv beta iota. destruct x as [p|]; [|done]. by eexists _, w', vm, vr.
  - unfold FreeVarMemory. erewrite sm_bind_eq by (by eapply deref_sess). destruct (call_memory_ok s w vm vr (KFree (session_key vm)) HS I) as (x & w' & Hrun & HS' & Hx).
    erewrite sm_bind_eq by exact Hrun. cbv beta iota. destruct x as [|st]; [done|]. by eexists _, w', vm, vr.
Qed.

Lemma var_calls_ok s cs : forall w vm vr, sess s w vm vr -> Forall var_call_ok cs ->
  exists l w' vm' vr', var_calls (InPool s) cs w = Some (l, w') /\ sess s w' vm' vr' /\ same_layout vm vm'.
Proof.
  induction cs as [|c cs IH]; intros w vm vr HS Hcs; cbn [var_calls]; [by exists [], w, vm, vr|].
  apply Forall_cons in Hcs as [Hc Hcs]. destruct (var_do_ok s w vm vr c HS Hc) as (st & w1 & vm1 & vr1 & Hrun & HS1 & HL1).
  destruct (IH w1 vm1 vr1 HS1 Hcs) as (l & w2 & vm2 & vr2 & Hrun2 & HS2 & HL2). erewrite sm_bind_eq by exact Hrun. erewrite sm_bind_eq by exact Hrun2.
  exists (st :: l), w2, vm2, vr2. split; [done|]. split; [done|]. unfold same_layout in *. destruct HL1 as [<- <-]. exact HL2.
Qed.

(** ** The start of a session *)
Definition layout_ok (vm : VarManager) : Prop :=
  0 <= var_mem_logic_base_ vm /\ 0 <= var_mem_max_size_ vm /\ var_mem_logic_base_ vm + var_mem_max_size_ vm < 2 ^ 63.

Lemma new_layout s : layout_ok (VarManager_new s).
Proof. unfold layout_ok, VarManager_new. cbn. unfold kMemoryVarLogicBase, kMemoryVarManagerMallocSize, GByte. lia. Qed.

Lemma set_layout options vm vm' : SetMemoryMallocSize_ options vm = (SUCCESS, vm') -> layout_ok vm'.
Proof.
  intros Hs. destruct (memory_layout options vm vm' Hs) as (? & ? & ? & _ & _ & _ & ?). unfold layout_ok, kMaxMemorySize, kGraphMemoryBuffer, GByte in *. lia.
Qed.

(** A manager that has just been initialised. *)
Lemma sess_fresh s w vm :
  var_manager_map_ w !! s = Some vm -> session_id_ vm = s -> var_resource_ vm = Some (VarResource_new s) -> mem_resource_map_ vm = ∅ ->
  layout_ok vm -> mem_inv (mem_manager w) -> sess s w vm (VarResource_new s).
Proof.
  intros Hp Hi Hv Hr Hl HI. assert (Hu : hbm_used vm = 0) by (unfold hbm_used; by rewrite Hr).
  split; try done.
  - intros t mr. by rewrite Hr, lookup_empty.
  - rewrite Hu. destruct Hl as (_ & ? & _). split; [lia|by exists 0].
Qed.

Lemma Instance_new s w : mem_inv (mem_manager w) -> var_manager_map_ w !! s = None ->
  exists p w', Instance_ s w = Some (p, w') /\ mem_inv (mem_manager w') /\
    ((p = InPool s /\ var_manager_map_ w' = <[s := VarManager_new s]> (var_manager_map_ w)) \/ (p = Fallback /\ var_manager_map_ w' = var_manager_map_ w)).
Proof.
  intros HI Hn. unfold Instance_, GetVarManager. erewrite sm_bind_eq by reflexivity. cbv beta. rewrite Hn.
  destruct (nothrow_ok w HI) as (b & w1 & Hrun & Hw & HI1 & _). erewrite sm_bind_eq by exact Hrun. destruct b.
  - erewrite sm_bind_eq by reflexivity. eexists _, _. split; [reflexivity|]. split; [done|]. left. cbn. by rewrite Hw.
  - eexists _, _. split; [reflexivity|]. split; [done|]. by right.
Qed.

(** Init on a manager of the pool. *)
Lemma Init_pool s w vm v d j : mem_inv (mem_manager w) -> var_manager_map_ w !! s = Some vm ->
  exists st w' vm', Init (InPool s) v s d j w = Some (st, w') /\ mem_inv (mem_manager w') /\ var_manager_map_ w' !! s = Some vm' /\
    session_id_ vm' = s /\ (var_resource_ vm' = None \/ var_resource_ vm' = Some (VarResource_new s)) /\
    mem_resource_map_ vm' = mem_resource_map_ vm /\ same_layout vm vm'.
Proof.
  intros HI Hp. unfold Init. erewrite sm_bind_eq by (unfold deref; by rewrite Hp). cbv beta.
  destruct (nothrow_ok w HI) as (b & w1 & Hrun & Hw & HI1 & _). erewrite sm_bind_eq by exact Hrun. cbv beta. erewrite sm_bind_eq by apply store_eq.
  eexists _, _, _. split; [reflexivity|]. split; [done|]. split; [cbn; apply lookup_insert_eq|]. split; [done|]. split; [|done]. destruct b; [by right|by left].
Qed.

Lemma session_start_ok s options w w1 vm :
  mem_inv (mem_manager w) -> var_manager_map_ w !! s = None -> session_start s options w = Some (SUCCESS, w1) ->
  var_manager_map_ w1 !! s = Some vm -> is_Some (var_resource_ vm) -> sess s w1 vm (VarResource_new s).
Proof.
  intros HI Hn Hrun Hvm Hvr. unfold session_start in Hrun.
  destruct (Instance_new s w HI Hn) as (p & wa & Ha & HIa & Hpa). erewrite sm_bind_eq in Hrun by exact Ha.
  (* a manager with a sound layout is in the pool when Init is called *)
  assert (Hinit : forall wb vmb, mem_inv (mem_manager wb) -> var_manager_map_ wb !! s = Some vmb -> mem_resource_map_ vmb = ∅ -> layout_ok vmb ->
    (_ ← Init (InPool s) 0 s 0 0; mret SUCCESS) wb = Some (SUCCESS, w1) -> sess s w1 vm (VarResource_new s)).
  { intros wb vmb HIb Hpb Hrb Hlb Hr. destruct (Init_pool s wb vmb 0 0 0 HIb Hpb) as (st & wc & vmc & Hrc & HIc & Hpc & Hic & Hvc & Hrc' & HLc).
    erewrite sm_bind_eq in Hr by exact Hrc. injection Hr as <-. rewrite Hpc in Hvm. injection Hvm as <-.
    destruct Hvc as [Hvc|Hvc]; [rewrite Hvc in Hvr; by destruct Hvr|]. apply sess_fresh; try done; [congruence|].
    unfold layout_ok, same_layout in *. destruct HLc as [-> ->]. done. }
  destruct Hpa as [[-> Hma]|[-> Hma]].
  - assert (Hsa : var_manager_map_ wa !! s = Some (VarManager_new s)) by (rewrite Hma; apply lookup_insert_eq).
    destruct (SetMemoryMallocSize_ options (VarManager_new s)) as [st vmb] eqn:Hset. erewrite sm_bind_eq in Hrun.
    2: { unfold SetMemoryMallocSize. erewrite sm_bind_eq by (unfold deref; by rewrite Hsa). cbv beta. rewrite Hset.
         erewrite sm_bind_eq by apply store_eq. reflexivity. }
    case_bool_decide as Hst; cbn [negb] in Hrun; [|unfold mret, SM_ret in Hrun; congruence]. subst st.
    assert (Hsb : var_manager_map_ (put_manager s vmb wa) !! s = Some vmb) by (cbn; apply lookup_insert_eq).
    erewrite sm_bind_eq in Hrun. 2: { unfold Instance_, GetVarManager. erewrite sm_bind_eq by reflexivity. cbv beta. rewrite Hsb. reflexivity. }
    eapply (Hinit (put_manager s vmb wa) vmb); [exact HIa|exact Hsb| |by eapply set_layout|exact Hrun].
    clear -Hset. unfold SetMemoryMallocSize_ in Hset. repeat (case_match; simplify_eq; try done).
  - destruct (SetMemoryMallocSize_ options (new_var_manager wa)) as [st vmb] eqn:Hset. erewrite sm_bind_eq in Hrun.
    2: { unfold SetMemoryMallocSize. erewrite sm_bind_eq by reflexivity. cbv beta. rewrite Hset. erewrite sm_bind_eq by reflexivity. reflexivity. }
    case_bool_decide as Hst; cbn [negb] in Hrun; [|unfold mret, SM_ret in Hrun; congruence]. subst st.
    destruct (Instance_new s (mkWorld (var_manager_map_ wa) vmb (mem_manager wa)) HIa) as (p & wb & Hb & HIb & Hpb); [cbn; by rewrite Hma|].
    erewrite sm_bind_eq in Hrun by exact Hb. cbn in Hpb. destruct Hpb as [[-> Hmb]|[-> Hmb]].
    + eapply (Hinit wb (VarManager_new s)); [exact HIb|rewrite Hmb; apply lookup_insert_eq|done|apply new_layout|exact Hrun].
    + exfalso. unfold Init in Hrun. rewrite Hma in Hmb. destruct (nothrow_ok wb HIb) as (b & wc & Hc & Hwc & _).
      erewrite sm_bind_eq in Hrun. 2: { erewrite sm_bind_eq by reflexivity. cbv beta. erewrite sm_bind_eq by exact Hc. cbv beta. erewrite sm_bind_eq by reflexivity. reflexivity. }
      cbn in Hrun. injection Hrun as <-. cbn in Hvm. rewrite Hwc, Hmb, Hn in Hvm. done.
Qed.

(** * The theorems *)

(** C4 AssignVarMem never makes two variables of a session share memory.  Start a session as InnerSession does and let it
    assign (AssignVarMem), renew, describe and allocate variables in any order: everything runs to the end, the
    variables in the memory of the session lie at multiples of 512 bytes inside the range the options gave it, those
    in RDMA memory each have a region of the pool that is large enough, and the regions of two different keys of
    one kind of memory never overlap.  The sizes of the tensors are not negative: for a negative one it is false
    ([negative_size_shares]).  The runs have no SetVarAddr, SaveVarAddr or UpdateVarMemSize in them, whose
    callers bring the address along, to share it on purpose or to restore a saved table. *)
Theorem var_regions_disjoint s options w w1 vm cs :
  mem_inv (mem_manager w) -> var_manager_map_ w !! s = None -> session_start s options w = Some (SUCCESS, w1) ->
  var_manager_map_ w1 !! s = Some vm -> is_Some (var_resource_ vm) -> Forall var_call_ok cs ->
  exists l w2 vm2 vr2, var_calls (InPool s) cs w1 = Some (l, w2) /\ var_manager_map_ w2 !! s = Some vm2 /\ var_resource_ vm2 = Some vr2 /\
    forall k e, var_addr_mgr_map_ vr2 !! k = Some e ->
      (va_memory_type e = RT_MEMORY_HBM -> var_mem_logic_base_ vm <= va_address e /\
         va_address e + size_of e <= var_mem_logic_base_ vm + var_mem_max_size_ vm /\ (kSessionMemAlignSize | va_address e - var_mem_logic_base_ vm)) /\
      (va_memory_type e = RT_MEMORY_RDMA_HBM -> exists n, rdma_regions (mem_manager w2) !! va_address e = Some n /\ size_of e <= n) /\
      (forall k' e', var_addr_mgr_map_ vr2 !! k' = Some e' -> k' <> k -> va_memory_type e' = va_memory_type e ->
         va_address e + size_of e <= va_address e' \/ va_address e' + size_of e' <= va_address e).
Proof.
  intros HI Hn Hstart Hvm Hvr Hcs. pose proof (session_start_ok s options w w1 vm HI Hn Hstart Hvm Hvr) as HS.
  destruct (var_calls_ok s cs w1 vm _ HS Hcs) as (l & w2 & vm2 & vr2 & Hrun & HS2 & [Hb Hm]). exists l, w2, vm2, vr2.
  split; [done|]. split; [apply HS2|]. split; [apply HS2|]. pose proof (se_entries _ _ _ _ HS2) as HE. rewrite Hb in HE.
  pose proof (se_used _ _ _ _ HS2) as [Hu _]. rewrite Hm in Hu. assert (Hgap : gap_size = 1024) by done. intros k e Hk. split; [|split].
  - intros Ht. destruct (en_hbm _ _ _ _ HE k e Hk Ht) as (? & ? & -> & ?). split; [lia|]. split; [lia|].
    by replace (var_mem_logic_base_ vm + va_offset e - var_mem_logic_base_ vm) with (va_offset e) by lia.
  - intros Ht. by apply (en_rdma _ _ _ _ HE k e).
  - intros k' e' Hk' Hne Hty. destruct (en_type _ _ _ _ HE k e Hk) as [Ht|Ht].
    + destruct (en_hbm _ _ _ _ HE k e Hk Ht) as (_ & _ & -> & _). rewrite Ht in Hty.
      destruct (en_hbm _ _ _ _ HE k' e' Hk' Hty) as (_ & _ & -> & _). destruct (en_hbm_disj _ _ _ _ HE k e k' e'); [by auto..|lia|lia].
    + rewrite Ht in Hty. destruct (en_rdma _ _ _ _ HE k e Hk Ht) as (n & Hn1 & ?), (en_rdma _ _ _ _ HE k' e' Hk' Hty) as (n' & Hn2 & ?).
      destruct (mem_inv_rdma_disj _ (se_mem _ _ _ _ HS2) _ _ _ _ Hn1 Hn2); [|lia|lia]. apply (en_rdma_inj _ _ _ _ HE k e k' e'); by auto.
Qed.

(** Queries read the table of the session and change nothing. *)
Lemma query_ok {A} s w vm vr (d : A) f : sess s w vm vr -> query (InPool s) d f w = Some (f vr, w).
Proof. intros HS. unfold query. erewrite sm_bind_eq by (by eapply deref_sess). by rewrite (se_vr _ _ _ _ HS). Qed.

(** C13 AssignVarMem gives a variable an address once: after a success the variable exists, GetVarAddr
    returns its address and memory type and GetCurVarDesc a descriptor of its format, data type and dimensions, while every other
    key keeps its address and every other variable its descriptor; a variable that exists already is
    refused; and after any failure all addresses and descriptors are as before. *)
Theorem assign_lookup s w vm vr name desc t :
  sess s w vm vr -> 0 <= (td_GetSize desc).2 < 2 ^ 63 ->
  exists st w', AssignVarMem (InPool s) name desc t w = Some (st, w') /\
    (st = SUCCESS -> IsVarExist (InPool s) name desc w = Some (false, w) /\ IsVarExist (InPool s) name desc w' = Some (true, w') /\
       (exists a, GetVarAddr (InPool s) name desc true w' = Some (Ok (a, t), w')) /\
       (exists c, GetCurVarDesc (InPool s) name w' = Some (Ok c, w') /\ same_kind c desc)) /\
    (forall name' desc', st <> SUCCESS \/ VarKey name' desc' <> VarKey name desc ->
       fst <$> GetVarAddr (InPool s) name' desc' true w' = fst <$> GetVarAddr (InPool s) name' desc' true w) /\
    (forall name', st <> SUCCESS \/ name' <> name -> fst <$> GetCurVarDesc (InPool s) name' w' = fst <$> GetCurVarDesc (InPool s) name' w).
Proof.
  intros HS Hsz. destruct (AssignVarMem_ok s w vm vr name desc t HS Hsz) as (st & w' & vm' & vr' & Hrun & HS' & _ & Hres). exists st, w'. split; [done|].
  unfold IsVarExist, GetVarAddr, GetCurVarDesc. destruct Hres as [[Hst ->]|[-> [(e & He1 & He2 & Hnone & Hmap) (c & Hc & Hk) Hoth]]].
  - split; [done|]. split; [intros name' desc' _|intros name' _]; erewrite !query_ok by done; done.
  - split; [intros _|split].
    + erewrite !query_ok by done. unfold VarResource_IsVarExist, VarResource_GetVarAddr, VarResource_GetCurVarDesc. rewrite Hnone, Hmap, lookup_insert_eq, Hc. cbn.
      split; [done|]. split; [done|].
      split; [exists (va_address e); by rewrite He2|by exists c].
    + intros name' desc' [?|Hne]; [done|]. erewrite !query_ok by done. unfold VarResource_GetVarAddr. rewrite Hmap, lookup_insert_ne; [done|congruence].
    + intros name' [?|Hne]; [done|]. erewrite !query_ok by done. unfold VarResource_GetCurVarDesc. by rewrite Hoth.
Qed.

(** Malloc by key on the allocator of HBM, when the key is new. *)
Lemma MallocVarMemory_new s w vm vr a w' :
  sess s w vm vr -> 0 < var_mem_max_size_ vm -> MemManager.memory_allocator_map_ (mem_manager w) !! RT_MEMORY_HBM = Some a ->
  memory_base_map_ a !! session_key vm = None -> MallocVarMemory (InPool s) (var_mem_max_size_ vm) w = Some (SUCCESS, w') ->
  sess s w' vm vr /\ exists a' info, MemManager.memory_allocator_map_ (mem_manager w') !! RT_MEMORY_HBM = Some a' /\
    memory_base_map_ a' !! session_key vm = Some info /\ var_mem_max_size_ vm <= memory_size_ info /\
    memory_addr_ info + memory_size_ info < 2 ^ 64.
Proof.
  intros HS Hpos Ha Hk. unfold MallocVarMemory. erewrite sm_bind_eq by (by eapply deref_sess). destruct (se_range _ _ _ _ HS) as (Hb0 & _ & Hmax).
  destruct (round512 (var_mem_max_size_ vm)) as [Hr _]; [lia|]. set (sz := wrapU64 (wrapU64 (var_mem_max_size_ vm + kSessionMemAlignSize - 1) / kSessionMemAlignSize * kSessionMemAlignSize)) in *.
  destruct (call_memory_ok s w vm vr (KMalloc (session_key vm) sz) HS) as (x & w1 & Hrun & HS1 & Hx); [cbn; lia|].
  erewrite sm_bind_eq by exact Hrun. cbv beta iota. destruct x as [p|]; [|done]. unfold mret, SM_ret.
  destruct (Z.eqb_spec p 0) as [|Hp]; [done|]. intros [= <-]. split; [done|].
  revert Hrun. unfold call_memory, MemManager.mm_do, MemManager.call_on, MemManager.GetAllocator. rewrite Ha. cbn [al_do memory_allocator].
  unfold MallocMemoryKey. rewrite Hk. destruct (MallocMemory _ _ _) as [addr r] eqn:Hmm.
  destruct (MallocMemory_spec _ _ _ _ _ Hmm) as [[-> _]|(Hp0 & Hend & _)]; [lia|..].
  - cbn. intros [= <- _]. done.
  - destruct (Z.eqb_spec addr 0); [lia|]. cbn. intros [= _ <-]. cbn. rewrite lookup_insert_eq. eexists _, _. split; [reflexivity|]. cbn. rewrite lookup_insert_eq.
    split; [reflexivity|]. cbn. lia.
Qed.

(** C14 From logic addresses to the device: when the memory of a session has been taken from the device with the size of the
    session (MallocVarMemory), GetVarMemoryAddr maps the address of every variable of memory type RT_MEMORY_HBM to a device
    address such that the whole variable lies inside one live region of the device, at the offset it was assigned.  The
    variables in RDMA memory have a device address from the start and are not part of it. *)
Theorem var_device_memory s w vm vr a w' :
  sess s w vm vr -> 0 < var_mem_max_size_ vm -> MemManager.memory_allocator_map_ (mem_manager w) !! RT_MEMORY_HBM = Some a ->
  memory_base_map_ a !! session_key vm = None -> MallocVarMemory (InPool s) (var_mem_max_size_ vm) w = Some (SUCCESS, w') ->
  exists base len, rt_live (MemManager.device (mem_manager w')) !! base = Some len /\
    forall k e, var_addr_mgr_map_ vr !! k = Some e -> va_memory_type e = RT_MEMORY_HBM ->
      GetVarMemoryAddr (InPool s) (va_address e) RT_MEMORY_HBM w' = Some (base + va_offset e, w') /\
      base <= base + va_offset e /\ base + va_offset e + size_of e <= base + len.
Proof.
  intros HS Hpos Ha Hk Hrun. destruct (MallocVarMemory_new s w vm vr a w' HS Hpos Ha Hk Hrun) as (HS' & a' & info & Ha' & Hinfo & Hlen & Hw).
  destruct (se_mem _ _ _ _ HS') as (G & HM & _ & _).
  pose proof (slot_lookup KMemory MemManager.memory_allocator_map_ MemManager.put_memory G _ RT_MEMORY_HBM a' HM Ha') as HO'. cbn in HO'.
  destruct (mo_region _ _ _ HO' _ _ Hinfo) as [Hpa Hext]. exists (memory_addr_ info), (memory_size_ info).
  split; [by eapply lookup_weaken, (mo_live _ _ _ HO')|]. intros k e Hke Ht.
  destruct (en_hbm _ _ _ _ (se_entries _ _ _ _ HS') k e Hke Ht) as (H0 & _ & Hadr & Hend). pose proof (se_used _ _ _ _ HS') as [Hu _].
  pose proof (en_size _ _ _ _ (se_entries _ _ _ _ HS') k e Hke) as Hsz. assert (Hgap : gap_size = 1024) by done.
  split; [|lia]. unfold GetVarMemoryAddr. change (RT_MEMORY_HBM =? RT_MEMORY_RDMA_HBM) with false. cbv iota.
  erewrite sm_bind_eq by (by eapply deref_sess). erewrite sm_bind_eq by reflexivity. cbv beta zeta.
  unfold MemManager.GetMemoryAllocator, MemManager.GetAllocator, GetMemoryAddr. rewrite Ha', Hinfo. destruct (Z.eqb_spec (memory_addr_ info) 0); [lia|].
  rewrite (se_id _ _ _ _ HS'). erewrite sm_bind_eq by (by eapply Instance_sess). erewrite sm_bind_eq by (by eapply deref_sess). unfold mret, SM_ret.
  do 2 f_equal. rewrite Hadr. replace (var_mem_logic_base_ vm + va_offset e + memory_addr_ info - var_mem_logic_base_ vm) with (memory_addr_ info + va_offset e) by lia.
  apply wrapU64_id. lia.
Qed.
End Session.

(** The key of a variable joins its name and the digits of its format without a separator: a variable `v1` in format 2 has the
    key of `v` in format 12, so that one of them exists for the manager as soon as the other does. *)
Theorem var_key_collides {L : TensorDescLib} name d1 d2 vr :
  td_GetFormat d1 = 12 -> td_GetFormat d2 = 2 -> td_GetDataType d1 = td_GetDataType d2 ->
  VarKey (name +:+ "1") d2 = VarKey name d1 /\
  VarResource_IsVarExist (name +:+ "1") d2 vr = VarResource_IsVarExist name d1 vr /\
  VarResource_GetVarAddr (name +:+ "1") d2 true vr = VarResource_GetVarAddr name d1 true vr.
Proof.
  intros H1 H2 Ht.
  assert (Hk : VarKey (name +:+ "1") d2 = VarKey name d1).
  { apply chars_inj. unfold VarKey. rewrite H1, H2, Ht, !chars_app. change (pretty (wrapS 32 12)) with "12"%string. change (pretty (wrapS 32 2)) with "2"%string.
    rewrite <- app_assoc. done. }
  unfold VarResource_IsVarExist, VarResource_GetVarAddr. by rewrite Hk.
Qed.

(** * Concrete sessions *)
Local Existing Instance sample_runtime.
Local Existing Instance sample_runtime_ok.
Local Existing Instance exact_ranges.
Local Existing Instance sample_desc.

Lemma var_key_collides_witness : VarKey ("v" +:+ "1") (sample_td 2 0 64) = VarKey "v" (sample_td 12 0 64).
Proof. apply (var_key_collides "v" (sample_td 12 0 64) (sample_td 2 0 64) (VarResource_new 7)); reflexivity. Defined.

Lemma mem_inv_started types r m :
  live_disj (rt_live r) -> MemManager.Initialize types (MemManager.MemManager_new r) = Some (SUCCESS, m) -> RT_MEMORY_HBM ∈ types -> mem_inv m.
Proof.
  intros HD Hrun Ht. destruct (manager_Initialize_ok types _ _ (mm_new_ok r)) as (s & m' & G & Hrun' & HM & HG & HR).
  rewrite Hrun in Hrun'. apply some_pair_inj in Hrun' as [-> ->]. exists G. split; [done|]. split; [by apply HG|by apply HR].
Qed.

Lemma mm_started_inv : mem_inv mm_started.
Proof.
  apply (mem_inv_started [2] mm_rt); [|exact mm_started_ok|set_solver].
  cbn. intros p n q k [<- <-]%lookup_singleton_Some [<- <-]%lookup_singleton_Some Hne. by destruct Hne.
Qed.

Definition world0 : World := mkWorld ∅ (VarManager_new 0) mm_started.
Definition run_world {A} (m : SM World A) (w : World) : World := match m w with Some (_, w) => w | None => w end.
Definition world1 : World := run_world (session_start 7 ∅) world0.
Definition vm7 (w : World) : VarManager := default (VarManager_new 0) (var_manager_map_ w !! 7).

Lemma run_eq {A} (m : SM World A) w a : fst <$> m w = Some a -> m w = Some (a, run_world m w).
Proof. unfold run_world. destruct (m w) as [[x w']|]; cbn; [|done]. by intros [= ->]. Qed.

Lemma world1_start : session_start 7 ∅ world0 = Some (SUCCESS, world1).
Proof. apply run_eq. vm_compute. reflexivity. Qed.

Lemma world1_vm : var_manager_map_ world1 !! 7 = Some (vm7 world1) /\ is_Some (var_resource_ (vm7 world1)).
Proof.
  assert (H1 : bool_decide (is_Some (var_manager_map_ world1 !! 7)) = true) by (vm_compute; reflexivity).
  assert (H2 : bool_decide (is_Some (var_resource_ (vm7 world1))) = true) by (vm_compute; reflexivity).
  apply bool_decide_eq_true in H1, H2. split; [|done]. unfold vm7. by destruct H1 as [x ->].
Qed.

Lemma world1_sess : sess 7 world1 (vm7 world1) (VarResource_new 7).
Proof. destruct world1_vm. by apply (session_start_ok 7 ∅ world0); [exact mm_started_inv|reflexivity|exact world1_start|..]. Qed.

Definition sample_vars : list var_call :=
  [VAssign "a" (sample_td 0 1 1000) RT_MEMORY_HBM; VAssign "b" (sample_td 0 1 64) RT_MEMORY_HBM; VRenew "a" (Some (sample_td 3 1 0)); VAssign "a" (sample_td 0 1 2000) RT_MEMORY_HBM].

Lemma sample_vars_ok : Forall var_call_ok sample_vars.
Proof. repeat constructor; cbn; lia. Qed.

Lemma var_regions_disjoint_witness :
  exists l w2, var_calls (InPool 7) sample_vars world1 = Some (l, w2) /\ l = [SUCCESS; SUCCESS; SUCCESS; SUCCESS].
Proof.
  destruct world1_vm as [Hvm Hvr].
  destruct (var_regions_disjoint 7 ∅ world0 world1 (vm7 world1) sample_vars) as (l & w2 & vm2 & vr2 & Hrun & _).
  - exact mm_started_inv.
  - reflexivity.
  - exact world1_start.
  - exact Hvm.
  - exact Hvr.
  - exact sample_vars_ok.
  - exists l, w2. split; [exact Hrun|].
    assert (Hl : fst <$> var_calls (InPool 7) sample_vars world1 = Some [SUCCESS; SUCCESS; SUCCESS; SUCCESS]) by (vm_compute; reflexivity).
    rewrite Hrun in Hl. cbn in Hl. congruence.
Defined.

Lemma assign_lookup_witness :
  exists w', AssignVarMem (InPool 7) "a" (sample_td 0 1 1000) RT_MEMORY_HBM world1 = Some (SUCCESS, w') /\
    exists a, GetVarAddr (InPool 7) "a" (sample_td 0 1 1000) true w' = Some (Ok (a, RT_MEMORY_HBM), w').
Proof.
  destruct (assign_lookup 7 world1 (vm7 world1) (VarResource_new 7) "a" (sample_td 0 1 1000) RT_MEMORY_HBM world1_sess) as (st & w' & Hrun & Hok & _).
  - cbn. lia.
  - assert (Hst : fst <$> AssignVarMem (InPool 7) "a" (sample_td 0 1 1000) RT_MEMORY_HBM world1 = Some SUCCESS) by (vm_compute; reflexivity).
    rewrite Hrun in Hst. cbn in Hst. injection Hst as ->. exists w'. split; [exact Hrun|]. apply (Hok eq_refl).
Defined.

(** The session after three variables have been assigned. *)
Definition world2 : World := run_world (var_calls (InPool 7) sample_vars) world1.
Definition vr7 (w : World) : VarResource := default (VarResource_new 0) (var_resource_ (vm7 w)).

Lemma world2_sess : sess 7 world2 (vm7 world2) (vr7 world2).
Proof.
  destruct (var_calls_ok 7 sample_vars _ _ _ world1_sess sample_vars_ok) as (l & w' & vm' & vr' & Hrun & HS & _).
  assert (Hw : world2 = w') by (unfold world2, run_world; by rewrite Hrun). rewrite Hw. unfold vr7, vm7.
  rewrite (se_pool _ _ _ _ HS). cbn [default from_option id]. by rewrite (se_vr _ _ _ _ HS).
Qed.

Definition entry_b : VarAddrMgr := mkVarAddrMgr (sample_td 0 1 64) (30 * GByte + 2048) 2048 RT_MEMORY_HBM.

Lemma world2_entry : var_addr_mgr_map_ (vr7 world2) !! VarKey "b" (sample_td 0 1 64) = Some entry_b.
Proof. vm_compute. reflexivity. Qed.

Lemma world2_allocator : exists a, MemManager.memory_allocator_map_ (mem_manager world2) !! RT_MEMORY_HBM = Some a /\
  memory_base_map_ a !! session_key (vm7 world2) = None.
Proof.
  assert (Hb : (MemManager.memory_allocator_map_ (mem_manager world2) !! RT_MEMORY_HBM) ≫= (fun a => Some (memory_base_map_ a !! session_key (vm7 world2))) = Some None)
    by (vm_compute; reflexivity).
  destruct (MemManager.memory_allocator_map_ (mem_manager world2) !! RT_MEMORY_HBM) as [a|]; [|discriminate]. exists a. split; [reflexivity|].
  cbn in Hb. by injection Hb.
Qed.

(** The variable b, 64 bytes at the logic address 30 GB + 2048, gets 64 bytes of the device. *)
Lemma var_device_memory_witness :
  exists w' base len, MallocVarMemory (InPool 7) (var_mem_max_size_ (vm7 world2)) world2 = Some (SUCCESS, w') /\
    rt_live (MemManager.device (mem_manager w')) !! base = Some len /\
    GetVarMemoryAddr (InPool 7) (30 * GByte + 2048) RT_MEMORY_HBM w' = Some (base + 2048, w') /\ base + 2048 + 64 <= base + len.
Proof.
  destruct world2_allocator as (a & Ha & Hk).
  destruct (var_device_memory 7 world2 (vm7 world2) (vr7 world2) a (run_world (MallocVarMemory (InPool 7) (var_mem_max_size_ (vm7 world2))) world2)
              world2_sess) as (base & len & Hlive & Hall).
  - vm_compute. reflexivity.
  - exact Ha.
  - exact Hk.
  - apply run_eq. vm_compute. reflexivity.
  - destruct (Hall _ entry_b world2_entry eq_refl) as (Hget & _ & Hend). eexists _, base, len.
    split; [apply run_eq; vm_compute; reflexivity|]. split; [exact Hlive|]. split; [exact Hget|exact Hend].
Defined.

(** A size of -1024 bytes, as an unset size may be, passes the checks of HbmMemResource after the conversion to uint64_t and
    does not advance the offset: the next variable gets the same address. *)
Theorem negative_size_shares :
  let w := run_world (var_calls (InPool 7) [VAssign "a" (sample_td 0 1 1000) 2; VAssign "b" (sample_td 0 1 (-1024)) 2; VAssign "c" (sample_td 0 1 64) 2]) world1 in
  fst <$> GetVarAddr (InPool 7) "b" (sample_td 0 1 (-1024)) true w = Some (Ok (30 * GByte + 2048, 2)) /\
  fst <$> GetVarAddr (InPool 7) "c" (sample_td 0 1 64) true w = Some (Ok (30 * GByte + 2048, 2)).
Proof. by vm_compute. Qed.
