(* ===== verification/SliceKernels.v ===== *)
(** The host kernels that cut a tensor: Slice, SliceD and StridedSlice (ge/host_kernels), over
    OpUtils::SetOutputSliceData (ge/common/op/ge_op_utils.cc).

    A `char *` into the data of a tensor is its offset, computed modulo 2^64 as the pointer
    arithmetic is; a load outside the data is [Stuck].  What these kernels use of the
    metadef library beyond [TensorLib] is the class [ShapeLib]. *)
From stdpp Require Import strings.
From S2P Require Import Prelude MathUtil Buffer FormatsUtils Bytes Fp16 DataTypeTransfer FloatMath BCast HostKernels.

(** * Shapes and attributes *)
Class ShapeLib `{T : TensorLib} := {
  (** GeShape::GetShapeSize *)
  GetShapeSize : list Z -> Z;
  (** GeShape::GetDim *)
  GetDim : list Z -> Z -> Z;
  (** `tensor->GetData().data() != nullptr` *)
  has_data : GeTensor -> bool;
  GetInputsSize : OpDesc -> Z;
  (** The shape and the type of `op_desc->GetInputDesc(0)`; no shape when MutableInputDesc(0) is null. *)
  InputDims : OpDesc -> option (list Z);
  InputDataType : OpDesc -> DataType;
  (** The shape of `op_desc->GetOutputDesc(0)` *)
  OutputDims : OpDesc -> list Z;
  (** AttrUtils::GetInt into a variable of the width, GetListInt and GetBool *)
  GetInt_u32 : OpDesc -> string -> option Z;
  GetInt_i32 : OpDesc -> string -> option Z;
  GetInt_i64 : OpDesc -> string -> option Z;
  GetListInt : OpDesc -> string -> option (list Z);
  GetBool : OpDesc -> string -> option bool;
  (** The names of attributes *)
  STRIDE_SLICE_ATTR_BEGIN_MASK : string;
  STRIDE_SLICE_ATTR_END_MASK : string;
  STRIDE_SLICE_ATTR_ELLIPSIS_MASK : string;
  STRIDE_SLICE_ATTR_NEW_AXIS_MASK : string;
  STRIDE_SLICE_ATTR_SHRINK_AXIS_MASK : string;
  PACK_ATTR_NAME_NUM : string;
  ATTR_NAME_AXIS : string;
  ATTR_NAME_N : string;
}.

(** The size of a shape is its number of elements, and 0 for the shape of a scalar; a
    dimension the shape does not have is 0; a tensor with data has an address. *)
Class ShapeLibOk `(S : ShapeLib) : Prop := {
  shape_size_prod s : s <> [] -> Forall (Z.le 0) s -> prodZ s < 2 ^ 63 -> GetShapeSize s = prodZ s;
  shape_size_scalar : GetShapeSize [] = 0;
  get_dim_in s i d : vget s i = Ok d -> GetDim s i = d;
  get_dim_out s i : zlen s <= i -> GetDim s i = 0;
  has_data_bytes x : GetData x <> [] -> has_data x = true;
}.

(** * OpUtils *)
Module OpUtils.
Section Slices.
Context `{E : Env} `{T : TensorLib}.

Definition SliceData (size : Z) (input : list Z) (chunk_size : Z) (output : list Z) (begin out_dim stride : Z) : list Z :=
  output ++ (input ≫= fun p =>
    let slice := wrapU64 (p + size * begin * chunk_size) in
    (fun i => wrapU64 (slice + size * i * chunk_size * stride)) <$> seqZ 0 out_dim).

(** `value[0]` of every pointer in [chunks]. *)
Fixpoint load_chunks (t : NumT) (data : list Z) (chunks : list Z) : outcome (list Z) :=
  match chunks with
  | [] => Ok []
  | p :: chunks =>
      l ← read_bytes data p (num_size t);
      rest ← load_chunks t data chunks;
      Ok (num_value t (le_value l) :: rest)
  end.

Definition SetDataByDataType (t : NumT) (data : list Z) (out_size : Z) (chunk_input chunk_output : list Z) (output : GeTensor) :
    outcome GeTensor :=
  match new_uint8 (out_size * num_size t) with
  | None => Err INTERNAL_ERROR
  | Some _ =>
      output_data ← (if negb (length chunk_input =? 0)%nat
                     then load_chunks t data (take (Z.to_nat out_size) chunk_input)
                     else load_chunks t data (take (Z.to_nat out_size) chunk_output));
      Ok (SetData (vector_bytes t output_data) output)
  end.

Definition kSliceDataNum : Z := 2.

(** One round of the loop over the dimensions. *)
Definition slice_dim (size : Z) (begin output_dims input_dims stride : list Z) (i : Z) (st : list Z * list Z * Z) :
    outcome (list Z * list Z * Z) :=
  let '(chunk_input, chunk_output, chunk_size) := st in
  begin_i ← vget begin i;
  size_i ← vget output_dims i;
  dim_i ← vget input_dims i;
  stride_i ← vget stride i;
  if dim_i =? 0 then Err PARAM_INVALID
  else
    let chunk_size := (chunk_size / dim_i)%i64 in
    if i mod kSliceDataNum =? 0
    then Ok ([], SliceData size chunk_input chunk_size chunk_output begin_i size_i stride_i, chunk_size)
    else Ok (SliceData size chunk_output chunk_size chunk_input begin_i size_i stride_i, [], chunk_size).

Definition SetOutputSliceDataByDataType (t : NumT) (data : list Z) (data_size : Z) (input_dims begin output_dims : list Z)
    (output : GeTensor) (stride : list Z) : outcome GeTensor :=
  '(chunk_input, chunk_output, _) ←
    for_range (zlen input_dims) (slice_dim (num_size t) begin output_dims input_dims stride) ([0], [], data_size);
  let out_size := zlen chunk_input + zlen chunk_output in
  if negb (0 <? out_size) then Err FAILED
  else SetDataByDataType t data out_size chunk_input chunk_output output.

(** [data] is null when the tensor has no data. *)
Definition SetOutputSliceData (data : option (list Z)) (data_size : Z) (data_type : DataType) (input_dims begin output_dims : list Z)
    (output : GeTensor) (stride : list Z) : outcome GeTensor :=
  match data with
  | None => Err PARAM_INVALID
  | Some data =>
      match num_type data_type with
      | Some t => SetOutputSliceDataByDataType t data data_size input_dims begin output_dims output stride
      | None => Err PARAM_INVALID
      end
  end.
End Slices.
End OpUtils.

Section Data.
Context `{S : ShapeLib}.

(** `x->GetData().data()` *)
Definition data_ptr (x : GeTensor) : option (list Z) := if has_data x then Some (GetData x) else None.

(** `SliceKernel::CheckOutputDims` and `SliceDKernel::CheckOutputDims` *)
Fixpoint CheckOutputDims (output_dims : list Z) : Status :=
  match output_dims with
  | [] => NOT_CHANGED
  | dim :: output_dims => if 0 <? dim then SUCCESS else CheckOutputDims output_dims
  end.
End Data.

(** * SliceKernel *)
Module SliceKernel.
Section Slice.
Context `{E : Env} `{S : ShapeLib}.

(** One round of the loop that collects the parameters: input_dims, begin_vec, output_dims, stride_vec. *)
Definition slice_param (begin_data size_data : list Z) (x_shape : list Z) (i : Z) (st : list Z * list Z * list Z * list Z) :
    outcome (list Z * list Z * list Z * list Z) :=
  let '(input_dims, begin_vec, output_dims, stride_vec) := st in
  begin_i ← load_num (T_int true 32) begin_data i;
  size_i ← load_num (T_int true 32) size_data i;
  let dim_i := GetDim x_shape i in
  size_i ← (if size_i <? 0 then
              if (INT32_MAX <? (dim_i - begin_i)%i64) || ((dim_i - begin_i)%i64 <? INT32_MIN) then Err INTERNAL_ERROR
              else Ok (wrapS 32 (dim_i - begin_i)%i64)
            else Ok size_i);
  Ok (input_dims ++ [dim_i], begin_vec ++ [begin_i], output_dims ++ [size_i], stride_vec ++ [1]).

Definition Compute (attr : option OpDesc) (input : list TensorPtr) (v_output : list GeTensor) : outcome (list GeTensor) :=
  match attr with
  | None => Err NOT_CHANGED
  | Some attr =>
      match input with
      | [x_; begin; size] =>
          match x_, begin, size with
          | Some x_, Some begin, Some size =>
              let data_type := GetDataType x_ in
              if negb (bool_decide (GetDataType begin = DT_INT32)) || negb (bool_decide (GetDataType size = DT_INT32))
              then Err NOT_CHANGED
              else if negb (has_data x_) || negb (has_data begin) || negb (has_data size) then Err PARAM_INVALID
              else
                let data_size := zlen (GetData x_) / 4 in
                let begin_size := zlen (GetData begin) / 4 in
                let size_size := zlen (GetData size) / 4 in
                let x_shape := GetDims x_ in
                let dim_size := zlen x_shape in
                if negb (dim_size =? begin_size) || negb (dim_size =? size_size) then Err NOT_CHANGED
                else
                  '(input_dims, begin_vec, output_dims, stride_vec) ←
                    for_range dim_size (slice_param (GetData begin) (GetData size) x_shape) ([], [], [], []);
                  match MakeShared attr 0 with
                  | None => Err NOT_CHANGED
                  | Some output =>
                      let output_ptr := SetShape output_dims output in
                      if negb (bool_decide (CheckOutputDims output_dims = SUCCESS)) then Err NOT_CHANGED
                      else
                        output_ptr ← or_else NOT_CHANGED
                          (OpUtils.SetOutputSliceData (data_ptr x_) data_size data_type input_dims begin_vec output_dims output_ptr stride_vec);
                        emit v_output output_ptr
                  end
          | _, _, _ => Err NOT_CHANGED
          end
      | _ => Err NOT_CHANGED
      end
  end.
End Slice.
End SliceKernel.

(** * SliceDKernel *)
Module SliceDKernel.
Section SliceD.
Context `{E : Env} `{S : ShapeLib}.

Definition kSliceDAttrBegin : string := "offsets".
Definition kSliceDAttrSize : string := "size".

(** The loop of SliceDCheck over the dimensions. *)
Fixpoint ranges_ok (x_dims begin_list size_list : list Z) : bool :=
  match x_dims, begin_list, size_list with
  | x_dim_i :: x_dims, begin_i :: begin_list, size_i :: size_list =>
      if (begin_i <? 0) || (x_dim_i <? begin_i) || (size_i <? -1) || (x_dim_i <? size_i) then false
      else ranges_ok x_dims begin_list size_list
  | _, _, _ => true
  end.

Definition SliceDCheck (op_desc_ptr : OpDesc) (input : list TensorPtr) : outcome (list Z * list Z) :=
  if negb (length input =? 1)%nat || negb (GetInputsSize op_desc_ptr =? 1) || negb (GetOutputsSize op_desc_ptr =? 1)
  then Err PARAM_INVALID
  else
    x ← at_ input 0;
    match x with
    | None => Err PARAM_INVALID
    | Some x_tensor =>
        if zlen (GetData x_tensor) =? 0 then Err PARAM_INVALID
        else
          match GetListInt op_desc_ptr kSliceDAttrBegin with
          | None => Err PARAM_INVALID
          | Some begin_list =>
              match GetListInt op_desc_ptr kSliceDAttrSize with
              | None => Err PARAM_INVALID
              | Some size_list =>
                  let x_dims := GetDims x_tensor in
                  if negb (length x_dims =? length begin_list)%nat || negb (length x_dims =? length size_list)%nat
                  then Err PARAM_INVALID
                  else if negb (ranges_ok x_dims begin_list size_list) then Err PARAM_INVALID
                  else Ok (begin_list, size_list)
              end
          end
    end.

(** The loop of Compute over the dimensions: size_list, stride_list and has_zero_dim. *)
Definition size_dim (x_dims begin_list : list Z) (i : Z) (st : list Z * list Z * bool) : outcome (list Z * list Z * bool) :=
  let '(size_list, stride_list, has_zero_dim) := st in
  x_dim_i ← vget x_dims i;
  begin_i ← vget begin_list i;
  size_i ← vget size_list i;
  '(size_i, size_list) ←
    (if size_i =? -1 then
       let size_i := (x_dim_i - begin_i)%i64 in
       size_list ← vset size_list i size_i; Ok (size_i, size_list)
     else if x_dim_i <? (begin_i + size_i)%i64 then Err NOT_CHANGED
     else Ok (size_i, size_list));
  Ok (size_list, stride_list ++ [1], has_zero_dim || (size_i =? 0) || (x_dim_i =? 0)).

Definition Compute (op_desc_ptr : option OpDesc) (input : list TensorPtr) (v_output : list GeTensor) : outcome (list GeTensor) :=
  match op_desc_ptr with
  | None => Err NOT_CHANGED
  | Some op_desc =>
      '(begin_list, size_list) ← or_else NOT_CHANGED (SliceDCheck op_desc input);
      x_tensor ← input_at input 0;
      let x_dims := GetDims x_tensor in
      '(size_list, stride_list, has_zero_dim) ← for_range (zlen x_dims) (size_dim x_dims begin_list) (size_list, [], false);
      let x_data_type := GetDataType x_tensor in
      match MakeShared op_desc 0 with
      | None => Err NOT_CHANGED
      | Some output =>
          let output_ptr := SetDataType x_data_type (SetShape size_list output) in
          if has_zero_dim : bool then emit v_output output_ptr
          else
            let x_data_size := GetShapeSize (GetDims x_tensor) in
            if negb (bool_decide (CheckOutputDims size_list = SUCCESS)) then Err NOT_CHANGED
            else
              output_ptr ← or_else NOT_CHANGED
                (OpUtils.SetOutputSliceData (data_ptr x_tensor) x_data_size x_data_type x_dims begin_list size_list output_ptr stride_list);
              emit v_output output_ptr
      end
  end.
End SliceD.
End SliceDKernel.

(** * StridedSliceKernel *)
Module StridedSliceKernel.
Section StridedSlice.
Context `{E : Env} `{S : ShapeLib}.

(** A size_t divided by an int. *)
Definition size_div (a b : Z) : outcome Z := if b =? 0 then Stuck else Ok (a / wrapU64 b).

(** attr_value_map_: every call of Compute sets all of them before it uses one. *)
Record Masks := mkMasks { begin_mask : Z; end_mask : Z; ellipsis_mask : Z; new_axis_mask : Z; shrink_axis_mask : Z }.
Definition set_begin_mask (v : Z) (m : Masks) : Masks :=
  mkMasks v (end_mask m) (ellipsis_mask m) (new_axis_mask m) (shrink_axis_mask m).
Definition set_end_mask (v : Z) (m : Masks) : Masks :=
  mkMasks (begin_mask m) v (ellipsis_mask m) (new_axis_mask m) (shrink_axis_mask m).

(** `mask & (kMaskBitLeftUnit << i)`: a shift by the width or more is undefined. *)
Definition mask_flag (mask i : Z) : outcome bool :=
  if (0 <=? i) && (i <? 32) then Ok (Z.testbit mask i) else Stuck.

(** The loop counts the bits set below the rank. *)
Definition IsEllipsisMaskValid (input_shape : list Z) (ellipsis_mask : Z) : outcome bool :=
  if negb (ellipsis_mask =? 0) then
    '(_, valid) ← for_range (zlen input_shape) (fun i '(ellipsis_num, valid) =>
      if negb valid then Ok (ellipsis_num, valid)
      else
        flag ← mask_flag ellipsis_mask i;
        let ellipsis_num := if flag : bool then ellipsis_num + 1 else ellipsis_num in
        Ok (ellipsis_num, negb (1 <? ellipsis_num))) (0, true);
    Ok valid
  else Ok true.

Definition CheckAndGetAttr (attr : option OpDesc) : outcome Masks :=
  match attr with
  | None => Err PARAM_INVALID
  | Some attr =>
      match GetInt_u32 attr STRIDE_SLICE_ATTR_BEGIN_MASK, GetInt_u32 attr STRIDE_SLICE_ATTR_END_MASK, GetInt_u32 attr STRIDE_SLICE_ATTR_ELLIPSIS_MASK,
            GetInt_u32 attr STRIDE_SLICE_ATTR_NEW_AXIS_MASK, GetInt_u32 attr STRIDE_SLICE_ATTR_SHRINK_AXIS_MASK with
      | Some b, Some e, Some l, Some n, Some s =>
          match InputDims attr with
          | None => Err PARAM_INVALID
          | Some input_shape =>
              valid ← IsEllipsisMaskValid input_shape l;
              if negb valid then Err PARAM_INVALID else Ok (mkMasks b e l n s)
          end
      | _, _, _, _, _ => Err PARAM_INVALID
      end
  end.

Definition kIndexNumberType : list DataType := [DT_INT32; DT_INT64].

(** The three descriptions that are compared are all the one of [begin]. *)
Definition CheckInputParam (input : list TensorPtr) : outcome unit :=
  match input with
  | [Some weight0; Some begin_tensor; Some end_tensor; Some stride_tensor] =>
      let begin_type := GetDataType begin_tensor in
      let end_type := GetDataType begin_tensor in
      let stride_type := GetDataType begin_tensor in
      if negb (bool_decide (begin_type = end_type)) || negb (bool_decide (end_type = stride_type)) then Err PARAM_INVALID
      else if negb (supports kIndexNumberType begin_type) then Err PARAM_INVALID
      else
        let x_data_size := GetSizeByDataType (GetDataType weight0) in
        if x_data_size <? 0 then Err PARAM_INVALID
        else
          weight0_size ← size_div (zlen (GetData weight0)) x_data_size;
          let begin_data_size := zlen (GetData begin_tensor) in
          let end_data_size := zlen (GetData end_tensor) in
          let stride_data_size := zlen (GetData stride_tensor) in
          if (weight0_size =? 0) || (begin_data_size =? 0) || (end_data_size =? 0) || (stride_data_size =? 0) then Err PARAM_INVALID
          else if negb ((begin_data_size =? end_data_size) && (end_data_size =? stride_data_size)) then Err PARAM_INVALID
          else Ok tt
  | _ => Err PARAM_INVALID
  end.

(** `x_dims.insert(x_dims.begin() + i, v)` *)
Definition vinsert (l : list Z) (i v : Z) : outcome (list Z) :=
  if (0 <=? i) && (i <=? zlen l) then Ok (take (Z.to_nat i) l ++ v :: drop (Z.to_nat i) l) else Stuck.

(** `begin_tensor->GetData().size() / GetSizeByDataType(type)` *)
Definition index_count (begin_tensor : GeTensor) : outcome Z :=
  size_div (zlen (GetData begin_tensor)) (GetSizeByDataType (GetDataType begin_tensor)).

Definition ExpandDimsWithNewAxis (m : Masks) (begin_tensor : GeTensor) (x_dims_num : Z) (x_dims : list Z) : outcome (list Z) :=
  if GetSizeByDataType (GetDataType begin_tensor) =? 0 then Ok x_dims
  else
    begin_vec_size ← index_count begin_tensor;
    for_range (if x_dims_num <? begin_vec_size then begin_vec_size else x_dims_num) (fun i x_dims =>
      flag ← mask_flag (new_axis_mask m) i;
      if flag : bool then vinsert x_dims i 1 else Ok x_dims) x_dims.

(** The elements are read with the type of [begin], int32_t or int64_t. *)
Definition GetOriginStrideVec (begin_tensor end_tensor stride_tensor : GeTensor) : outcome (list Z * list Z * list Z) :=
  vec_size ← index_count begin_tensor;
  let t := if bool_decide (GetDataType begin_tensor = DT_INT32) then T_int true 32 else T_int true 64 in
  for_range vec_size (fun i '(b, e, s) =>
    begin_i ← load_num t (GetData begin_tensor) i;
    end_i ← load_num t (GetData end_tensor) i;
    stride_i ← load_num t (GetData stride_tensor) i;
    Ok (b ++ [begin_i], e ++ [end_i], s ++ [stride_i])) ([], [], []).

(** The insertion loop: its bound is evaluated again on every round, while the vector
    grows; [fuel] is the number of dimensions missing at the start, and every round adds one. *)
Fixpoint insert_ellipsis (fuel : nat) (x_dims_num : Z) (x_dims : list Z) (ellipsis_dim j : Z) (v : list Z * list Z * list Z) :
    outcome (list Z * list Z * list Z) :=
  match fuel with
  | O => Ok v
  | Datatypes.S fuel =>
      let '(b, e, s) := v in
      if j <? x_dims_num - zlen b + 1 then
        b ← vinsert b (ellipsis_dim + j) 0;
        x ← vget x_dims (ellipsis_dim + j);
        e ← vinsert e (ellipsis_dim + j) x;
        s ← vinsert s (ellipsis_dim + j) 1;
        insert_ellipsis fuel x_dims_num x_dims ellipsis_dim (j + 1) (b, e, s)
      else Ok v
  end.

(** `mask *= mask * (kMaskBitLeftUnit << (x_dims_num - size - 1))` *)
Definition widen_mask (mask x_dims_num size : Z) : outcome Z :=
  if negb (mask =? 0) && negb (x_dims_num =? size) then
    let shift := wrapU64 (x_dims_num - size - 1) in
    if shift <? 32 then Ok (wrapU 32 (mask * wrapU 32 (mask * 2 ^ shift))) else Stuck
  else Ok mask.

Definition ExpandStrideWithEllipsisMask (m : Masks) (x_dims_num : Z) (x_dims : list Z) (v : list Z * list Z * list Z) :
    outcome (Masks * (list Z * list Z * list Z)) :=
  if negb (ellipsis_mask m =? 0) then
    bm ← widen_mask (begin_mask m) x_dims_num (zlen v.1.1);
    em ← widen_mask (end_mask m) x_dims_num (zlen v.1.2);
    v ← for_range x_dims_num (fun i '(b, e, s) =>
      flag ← mask_flag (ellipsis_mask m) i;
      if flag : bool then
        b ← vset b i 0;
        x ← vget x_dims i;
        e ← vset e i x;
        s ← vset s i 1;
        if zlen b <? x_dims_num
        then insert_ellipsis (Z.to_nat (x_dims_num - zlen b)) x_dims_num x_dims i 1 (b, e, s)
        else Ok (b, e, s)
      else Ok (b, e, s)) v;
    Ok (set_end_mask em (set_begin_mask bm m), v)
  else Ok (m, v).

(** The overflow check takes int32_t, so its argument is truncated. *)
Definition MaskCal (m : Masks) (i begin_i end_i dim_i : Z) : outcome (Z * Z) :=
  begin_mask_flag ← mask_flag (begin_mask m) i;
  end_mask_flag ← mask_flag (end_mask m) i;
  shrink_mask_flag ← mask_flag (shrink_axis_mask m) i;
  if shrink_mask_flag : bool then
    let begin_i := if begin_i <? 0 then (dim_i + begin_i)%i64 else begin_i in
    _ ← FMK_INT32_ADDCHECK (wrapS 32 begin_i) 1;
    Ok (begin_i, (begin_i + 1)%i64)
  else
    let begin_i := if begin_mask_flag : bool then 0 else if begin_i <? 0 then (dim_i + begin_i)%i64 else begin_i in
    let end_i := if end_mask_flag : bool then dim_i else if end_i <? 0 then (dim_i + end_i)%i64 else end_i in
    Ok (begin_i, end_i).

(** begin_i, stride_i and dim_final. *)
Definition StrideCal (x_dims_i begin_i end_i stride_i : Z) : Z * Z * Z :=
  let '(begin_i, end_i, stride_i) :=
    if stride_i =? 0 then (begin_i, end_i, 1)
    else if stride_i <? 0 then
      let stride_i := (0 - stride_i)%i64 in
      if (begin_i <? 0) && (end_i <? 0)
      then ((x_dims_i - begin_i - 1)%i64, (x_dims_i - end_i - 1)%i64, stride_i)
      else (begin_i, end_i, stride_i)
    else (begin_i, end_i, stride_i) in
  let end_i := if x_dims_i <? end_i then x_dims_i else end_i in
  (begin_i, stride_i, if (begin_i =? 0) && (end_i =? 0) then x_dims_i else (wrap64 (Z.abs (end_i - begin_i)%i64) / stride_i)%i64).

(** One round of the loop: input_dims, begin_vec, output_dims, stride_vec. *)
Definition init_dim (m : Masks) (x_dims orig_begin_vec orig_end_vec orig_stride_vec : list Z) (min_dim i : Z)
    (st : list Z * list Z * list Z * list Z) : outcome (list Z * list Z * list Z * list Z) :=
  let '(input_dims, begin_vec, output_dims, stride_vec) := st in
  new_axis_mask_flag ← mask_flag (new_axis_mask m) i;
  if new_axis_mask_flag : bool then Ok (input_dims ++ [1], begin_vec ++ [0], output_dims ++ [1], stride_vec ++ [1])
  else
    x_dim ← vget x_dims i;
    '(begin_i, end_i, stride_i) ←
      (if i <? min_dim then
         b ← vget orig_begin_vec i; e ← vget orig_end_vec i; s ← vget orig_stride_vec i; Ok (b, e, s)
       else Ok (0, x_dim, 1));
    '(begin_i, end_i) ← or_else NOT_CHANGED (MaskCal m i begin_i end_i x_dim);
    let '(begin_i, stride_i, dim_final) := StrideCal x_dim begin_i end_i stride_i in
    Ok (input_dims ++ [x_dim], begin_vec ++ [begin_i], output_dims ++ [dim_final], stride_vec ++ [stride_i]).

Definition InitParamWithAttrs (m : Masks) (weight0 begin_tensor end_tensor stride_tensor : GeTensor) :
    outcome (Masks * (list Z * list Z * list Z * list Z)) :=
  let x_dims_num := zlen (GetDims weight0) in
  x_dims ← ExpandDimsWithNewAxis m begin_tensor x_dims_num (GetDims weight0);
  v ← GetOriginStrideVec begin_tensor end_tensor stride_tensor;
  '(m, (orig_begin_vec, orig_end_vec, orig_stride_vec)) ← ExpandStrideWithEllipsisMask m x_dims_num x_dims v;
  let begin_dim_num := zlen orig_begin_vec in
  let min_dim := if begin_dim_num <? x_dims_num then begin_dim_num else x_dims_num in
  r ← for_range (zlen x_dims) (init_dim m x_dims orig_begin_vec orig_end_vec orig_stride_vec min_dim) ([], [], [], []);
  Ok (m, r).

Definition GetOutputDims (m : Masks) (output_dims : list Z) : outcome (list Z) :=
  for_range (zlen output_dims) (fun k v_dims =>
    shrink_mask_i ← mask_flag (shrink_axis_mask m) k;
    if shrink_mask_i : bool then Ok v_dims else d ← vget output_dims k; Ok (v_dims ++ [d])) [].

Definition Compute (attr : option OpDesc) (input : list TensorPtr) (v_output : list GeTensor) : outcome (list GeTensor) :=
  m ← or_else NOT_CHANGED (CheckAndGetAttr attr);
  _ ← or_else NOT_CHANGED (CheckInputParam input);
  weight0 ← input_at input 0;
  begin_tensor ← input_at input 1;
  end_tensor ← input_at input 2;
  stride_tensor ← input_at input 3;
  '(m, (input_dims, begin_vec, output_dims, stride_vec)) ←
    or_else NOT_CHANGED (InitParamWithAttrs m weight0 begin_tensor end_tensor stride_tensor);
  let data_type := GetDataType weight0 in
  data_size ← size_div (zlen (GetData weight0)) (GetSizeByDataType data_type);
  if negb (has_data weight0) then Err PARAM_INVALID
  else
    attr ← or_stuck attr;
    match MakeShared attr 0 with
    | None => Err NOT_CHANGED
    | Some output =>
        output_ptr ← or_else NOT_CHANGED
          (OpUtils.SetOutputSliceData (data_ptr weight0) data_size data_type input_dims begin_vec output_dims output stride_vec);
        v_dims ← GetOutputDims m output_dims;
        emit v_output (SetShape v_dims (SetDataType data_type output_ptr))
    end.
End StridedSlice.
End StridedSliceKernel.
