(* ===== verification/SliceTheorems.v ===== *)
(** What the slicing kernels compute.

    A cut is given by the first index, the step and the number of elements taken in each
    dimension.  The pointer lists of OpUtils::SetOutputSliceData are the elements of
    the cut in row-major order; the kernels reduce their parameters to such a cut. *)
From stdpp Require Import strings.
From S2P Require Import Prelude MathUtil Buffer FormatsUtils Bytes FormatTranspose Fp16 DataTypeTransfer FloatMath BCast HostKernels KernelTheorems SliceKernels.

(** * Cuts *)

(** The index in the tensor of an index in the cut. *)
Fixpoint strided (begin stride idx : list Z) : list Z :=
  match begin, stride, idx with
  | b :: begin, s :: stride, i :: idx => b + i * s :: strided begin stride idx
  | _, _, _ => []
  end.

(** The cut lies in the tensor and takes something in every dimension. *)
Inductive Cut : list Z -> list Z -> list Z -> list Z -> Prop :=
| Cut_nil : Cut [] [] [] []
| Cut_cons d b o s dims begin outs stride :
    0 <= b -> 0 < o -> 0 <= s -> b + (o - 1) * s < d -> Cut dims begin outs stride ->
    Cut (d :: dims) (b :: begin) (o :: outs) (s :: stride).

(** The values of the cut, in row-major order. *)
Definition cut_values (vs dims begin outs stride : list Z) : list Z :=
  (fun k => vs !!! Z.to_nat (linear dims (strided begin stride (digits outs k)))) <$> seqZ 0 (prodZ outs).

(** The offsets of the elements of the cut, dimension by dimension. *)
Fixpoint offsets (dims begin outs stride : list Z) : list Z :=
  match dims, begin, outs, stride with
  | _ :: dims, b :: begin, o :: outs, s :: stride =>
      seqZ 0 o ≫= fun i => (fun r => (b + i * s) * prodZ dims + r) <$> offsets dims begin outs stride
  | _, _, _, _ => [0]
  end.

Lemma seqZ_mul a b : 0 <= a -> 0 < b -> seqZ 0 (a * b) = seqZ 0 a ≫= fun i => (fun r => i * b + r) <$> seqZ 0 b.
Proof.
  intros Ha Hb. revert a Ha. apply natlike_ind; [done|]. intros a Ha IH. unfold Z.succ. rewrite seqZ_snoc, bind_app by done.
  rewrite <- IH. replace ((a + 1) * b) with (a * b + b) by ring. rewrite seqZ_app by nia. f_equal. cbn. rewrite app_nil_r.
  apply list_eq. intros i. rewrite list_lookup_fmap. destruct (decide (Z.of_nat i < b)) as [Hi|Hi].
  - rewrite !lookup_seqZ_lt by lia. cbn. by f_equal; lia.
  - by rewrite !lookup_seqZ_ge by lia.
Qed.

Lemma Cut_outs dims begin outs stride : Cut dims begin outs stride -> Forall (Z.lt 0) outs.
Proof. induction 1; by constructor. Qed.

Lemma Cut_dims dims begin outs stride : Cut dims begin outs stride -> Forall (Z.lt 0) dims.
Proof. induction 1; constructor; [nia|done]. Qed.

Lemma offsets_digits dims begin outs stride : Cut dims begin outs stride ->
  offsets dims begin outs stride = (fun k => linear dims (strided begin stride (digits outs k))) <$> seqZ 0 (prodZ outs).
Proof.
  induction 1 as [|d b o s dims begin outs stride Hb Ho Hs Hd H IH]; [done|]. pose proof (prodZ_gt0 _ (Cut_outs _ _ _ _ H)) as Hp.
  rewrite prodZ_cons, seqZ_mul by lia. cbn [offsets]. rewrite IH. clear IH.
  induction (seqZ 0 o) as [|i l IH]; [done|]. cbn [mbind list_bind]. rewrite fmap_app, IH. f_equal. rewrite <- !list_fmap_compose.
  apply list_fmap_ext. intros j r Hr. apply lookup_seqZ in Hr. cbn [digits strided linear compose].
  by rewrite radix_div, radix_mod by lia.
Qed.

Lemma strided_in dims begin outs stride idx : Cut dims begin outs stride -> in_shape outs idx -> in_shape dims (strided begin stride idx).
Proof.
  intros H. revert idx. induction H as [|d b o s dims begin outs stride Hb Ho Hs Hd H IH]; intros idx Hi; inversion Hi; subst; cbn; [constructor|].
  constructor; [nia|]. by apply IH.
Qed.

Lemma offsets_range dims begin outs stride : Cut dims begin outs stride -> Forall (fun r => 0 <= r < prodZ dims) (offsets dims begin outs stride).
Proof.
  intros H. rewrite offsets_digits by done. apply Forall_fmap, Forall_forall. intros k Hk. apply elem_of_seqZ in Hk. cbn.
  eapply linear_range, strided_in; [done|]. apply digits_in_shape; [by eapply Cut_outs|lia].
Qed.

(** * The loop over the dimensions *)
Section Loop.
Context `{E : Env} `{T : TensorLib}.

(** The list the round [i] reads from; the other one is empty. *)
Definition chunks_at (i : Z) (cur : list Z) (chunk_size : Z) : list Z * list Z * Z :=
  if i mod OpUtils.kSliceDataNum =? 0 then (cur, [], chunk_size) else ([], cur, chunk_size).

Lemma chunks_step i size begin outs dims stride cur (c : Z) b o d s :
  vget begin i = Ok b -> vget outs i = Ok o -> vget dims i = Ok d -> vget stride i = Ok s -> d <> 0 ->
  OpUtils.slice_dim size begin outs dims stride i (chunks_at i cur c) =
  Ok (chunks_at (i + 1) (OpUtils.SliceData size cur (c / d)%i64 [] b o s) (c / d)%i64).
Proof.
  intros Hb Ho Hd Hs H0. unfold chunks_at, OpUtils.slice_dim, OpUtils.kSliceDataNum.
  pose proof (Z.mod_pos_bound i 2 ltac:(lia)). rewrite (Z.add_mod i 1 2) by lia.
  destruct (Z.eqb_spec (i mod 2) 0) as [Hi|Hi].
  - rewrite Hb, Ho, Hd, Hs. cbn [mbind outcome_bind]. rewrite (proj2 (Z.eqb_neq _ _) H0). by rewrite Hi.
  - assert (i mod 2 = 1) as -> by lia. rewrite Hb, Ho, Hd, Hs. cbn [mbind outcome_bind]. by rewrite (proj2 (Z.eqb_neq _ _) H0).
Qed.

Definition pointers (size : Z) (cur offs : list Z) : list Z := cur ≫= fun p => (fun r => wrapU64 (p + size * r)) <$> offs.

Lemma pointers_nil size cur : Forall (inU 64) cur -> pointers size cur [0] = cur.
Proof.
  induction 1 as [|p cur Hp HF IH]; [done|]. unfold pointers in *. cbn [mbind list_bind fmap list_fmap] in *. rewrite IH.
  rewrite Z.mul_0_r, Z.add_0_r. by rewrite wrapU64_id by done.
Qed.

Lemma wrapU64_add_l a b : wrapU64 (wrapU64 a + b) = wrapU64 (a + b).
Proof. apply Zplus_mod_idemp_l. Qed.

Lemma SliceData_pointers size cur c b o s offs :
  pointers size (OpUtils.SliceData size cur c [] b o s) offs =
  pointers size cur (seqZ 0 o ≫= fun i => (fun r => (b + i * s) * c + r) <$> offs).
Proof.
  unfold pointers, OpUtils.SliceData. cbn [app]. induction cur as [|p cur IH]; [done|]. cbn [mbind list_bind] in *.
  rewrite bind_app, IH. f_equal. clear IH. induction (seqZ 0 o) as [|i l IH]; [done|]. cbn [fmap list_fmap mbind list_bind] in *.
  rewrite fmap_app, <- IH. f_equal. rewrite <- list_fmap_compose. apply list_fmap_ext. intros _ r _. cbn. rewrite wrapU64_add_l, <- Z.add_assoc, wrapU64_add_l. f_equal. ring.
Qed.

Lemma SliceData_in size cur c b o s : Forall (inU 64) (OpUtils.SliceData size cur c [] b o s).
Proof.
  unfold OpUtils.SliceData. cbn [app]. apply Forall_bind, Forall_forall. intros p _. apply Forall_fmap, Forall_forall. intros i _.
  by apply Z.mod_pos_bound.
Qed.

Lemma drop_vget {A} (l : list A) i x r : drop i l = x :: r -> vget l (Z.of_nat i) = Ok x /\ drop (S i) l = r.
Proof.
  intros H. unfold vget, at_. destruct (Z.ltb_spec (Z.of_nat i) 0); [lia|]. rewrite Nat2Z.id.
  pose proof (lookup_drop l i 0) as Hl. rewrite H, Nat.add_0_r in Hl. rewrite <- Hl. split; [done|].
  replace (S i) with (i + 1)%nat by lia. by rewrite <- drop_drop, H.
Qed.

Lemma quot_factor d p : 0 < d -> 0 < p -> d * p < 2 ^ 63 -> quot64 (d * p)%Z d = p.
Proof.
  intros Hd Hp Hb. unfold quot64. rewrite Z.mul_comm, Z.quot_mul by lia. apply wrap64_id. nia.
Qed.

Lemma slice_loop size B O D S i cur dims begin outs stride : Cut dims begin outs stride ->
  drop i B = begin -> drop i O = outs -> drop i D = dims -> drop i S = stride -> prodZ dims < 2 ^ 63 -> Forall (inU 64) cur ->
  for_loop (length dims) (Z.of_nat i) (OpUtils.slice_dim size B O D S) (chunks_at (Z.of_nat i) cur (prodZ dims)) =
  Ok (chunks_at (Z.of_nat (i + length dims)) (pointers size cur (offsets dims begin outs stride)) 1).
Proof.
  intros H. revert i cur. induction H as [|d b o s dims begin outs stride Hb Ho Hs Hd H IH]; intros i cur EB EO ED ES Hp Hc.
  - cbn [length for_loop offsets]. by rewrite pointers_nil, Nat.add_0_r.
  - apply drop_vget in EB as [GB EB], EO as [GO EO], ED as [GD ED], ES as [GS ES]. cbn [length for_loop].
    pose proof (prodZ_gt0 _ (Cut_dims _ _ _ _ H)). rewrite prodZ_cons in *.
    assert (0 < d) by nia. rewrite (chunks_step _ _ _ _ _ _ _ _ b o d s) by (done || lia). rewrite quot_factor by lia. cbn [mbind outcome_bind].
    replace (Z.of_nat i + 1) with (Z.of_nat (Datatypes.S i)) by lia. rewrite IH; [|done..|nia|apply SliceData_in].
    rewrite SliceData_pointers. by replace (Datatypes.S i + length dims)%nat with (i + Datatypes.S (length dims))%nat by lia.
Qed.

Lemma load_chunks_ok t vs offs : num_ok t -> Forall (num_in t) vs -> zlen vs * num_size t < 2 ^ 64 ->
  Forall (fun r => 0 <= r < zlen vs) offs ->
  OpUtils.load_chunks t (vector_bytes t vs) (pointers (num_size t) [0] offs) = Ok ((fun r => vs !!! Z.to_nat r) <$> offs).
Proof.
  intros Ht HF Hb. pose proof (num_size_pos t Ht). induction 1 as [|r offs Hr Ho IH]; [done|]. unfold pointers in *.
  cbn [mbind list_bind fmap list_fmap app OpUtils.load_chunks] in *. rewrite wrapU64_id by nia.
  assert (vget vs r = Ok (vs !!! Z.to_nat r)) as Hv.
  { unfold vget, at_. destruct (Z.ltb_spec r 0); [lia|]. unfold zlen in Hr. by rewrite (list_lookup_lookup_total_lt vs (Z.to_nat r)) by lia. }
  pose proof (load_vector t vs r _ Ht HF Hv) as Hl. unfold load_num in Hl. rewrite Z.add_0_l, (Z.mul_comm (num_size t)).
  destruct (read_bytes (vector_bytes t vs) (r * num_size t) (num_size t)) as [l| |]; try done. cbn [mbind outcome_bind] in *.
  injection Hl as ->. by rewrite IH.
Qed.

Lemma slice_data_ok t vs dims begin outs stride output : num_ok t -> Cut dims begin outs stride ->
  Forall (num_in t) vs -> zlen vs = prodZ dims -> prodZ dims < 2 ^ 60 -> is_Some (new_uint8 (prodZ outs * num_size t)) ->
  OpUtils.SetOutputSliceDataByDataType t (vector_bytes t vs) (prodZ dims) dims begin outs output stride =
  Ok (SetData (vector_bytes t (cut_values vs dims begin outs stride)) output).
Proof.
  intros Ht HC HF Hl Hb [buf Hn]. pose proof (num_size_pos t Ht). unfold OpUtils.SetOutputSliceDataByDataType, for_range.
  replace (Z.to_nat (zlen dims)) with (length dims) by (unfold zlen; lia). change ([0], [], prodZ dims) with (chunks_at (Z.of_nat 0) [0] (prodZ dims)).
  rewrite (slice_loop _ begin outs dims stride 0 [0] dims begin outs stride HC) by (done || lia || by repeat constructor).
  cbn [mbind outcome_bind]. pose proof (prodZ_gt0 _ (Cut_outs _ _ _ _ HC)).
  set (ps := pointers _ _ _).
  assert (zlen ps = prodZ outs) as Hz.
  { unfold ps, pointers, zlen. cbn [mbind list_bind]. rewrite app_nil_r, length_fmap, (offsets_digits _ _ _ _ HC), length_fmap, length_seqZ. lia. }
  assert (OpUtils.load_chunks t (vector_bytes t vs) ps = Ok (cut_values vs dims begin outs stride)) as HL.
  { unfold ps. rewrite load_chunks_ok; [|done..|nia|rewrite Hl; by apply offsets_range].
    rewrite (offsets_digits _ _ _ _ HC), <- list_fmap_compose. done. }
  unfold chunks_at. destruct (_ =? 0).
  - replace (zlen ps + zlen []) with (prodZ outs) by (change (zlen []) with 0; lia). destruct (Z.ltb_spec 0 (prodZ outs)); [|lia]. cbn [negb]. unfold OpUtils.SetDataByDataType. rewrite Hn.
    destruct (Nat.eqb_spec (length ps) 0) as [E0|_]; [unfold zlen in Hz; lia|]. cbn [negb]. rewrite <- Hz, take_zlen, HL. done.
  - replace (zlen [] + zlen ps) with (prodZ outs) by (change (zlen []) with 0; lia). destruct (Z.ltb_spec 0 (prodZ outs)); [|lia]. cbn [negb]. unfold OpUtils.SetDataByDataType. rewrite Hn.
    cbn [length Nat.eqb negb]. rewrite <- Hz, take_zlen, HL. done.
Qed.
End Loop.

(** * SliceD *)

(** The size of a dimension; -1 asks for the rest of it. *)
Definition resolve (d b s : Z) : Z := if s =? -1 then d - b else s.
Fixpoint resolved (dims begins sizes : list Z) : list Z :=
  match dims, begins, sizes with
  | d :: dims, b :: begins, s :: sizes => resolve d b s :: resolved dims begins sizes
  | _, _, _ => []
  end.

(** One offset and one size for every dimension, inside it. *)
Fixpoint cut_ok (dims begins sizes : list Z) : bool :=
  match dims, begins, sizes with
  | [], [], [] => true
  | d :: dims, b :: begins, s :: sizes =>
      (0 <=? b) && (b <=? d) && (-1 <=? s) && (b + resolve d b s <=? d) && cut_ok dims begins sizes
  | _, _, _ => false
  end.

Definition ones {A} (l : list A) : list Z := replicate (length l) 1.

Section SliceD.
Context `{E : Env} `{HT : TensorLibOk} {S : ShapeLib (T := T)} {HS : ShapeLibOk S}.

Lemma cut_ok_lengths dims begins sizes : cut_ok dims begins sizes = true -> length begins = length dims /\ length sizes = length dims.
Proof.
  revert begins sizes. induction dims as [|d dims IH]; intros [|b begins] [|s sizes] H; try done. cbn [cut_ok] in H.
  apply andb_true_iff in H as [_ H]. cbn. destruct (IH _ _ H). by split; f_equal.
Qed.

Lemma cut_ok_ranges dims begins sizes : Forall (Z.lt 0) dims -> cut_ok dims begins sizes = true -> SliceDKernel.ranges_ok dims begins sizes = true.
Proof.
  intros HF. revert begins sizes. induction HF as [|d dims Hd HF IH]; intros [|b begins] [|s sizes] H; try done. cbn [cut_ok SliceDKernel.ranges_ok] in *.
  apply andb_true_iff in H as [H1 H2]. rewrite (IH _ _ H2). unfold resolve in H1.
  destruct (Z.ltb_spec b 0); [lia|]. destruct (Z.ltb_spec d b); [lia|]. destruct (Z.ltb_spec s (-1)); [lia|]. destruct (Z.ltb_spec d s); [|done].
  exfalso. destruct (Z.eqb_spec s (-1)); lia.
Qed.

(** The loop of Compute, from the dimension [length pre] on. *)
Lemma size_loop X B pre dims begins sizes strides z : drop (length pre) X = dims -> drop (length pre) B = begins ->
  length begins = length dims -> length sizes = length dims -> Forall (fun d => 0 < d < 2 ^ 60) dims -> SliceDKernel.ranges_ok dims begins sizes = true ->
  for_loop (length dims) (Z.of_nat (length pre)) (SliceDKernel.size_dim X B) (pre ++ sizes, strides, z) =
  if cut_ok dims begins sizes
  then Ok (pre ++ resolved dims begins sizes, strides ++ ones dims, z || existsb (fun o => o =? 0) (resolved dims begins sizes))
  else Err NOT_CHANGED.
Proof.
  intros EX EB Lb Ls HF. revert pre begins sizes strides z EX EB Lb Ls.
  induction HF as [|d dims Hd HF IH]; intros pre begins sizes strides z EX EB Lb Ls HR.
  { destruct begins, sizes; try done. cbn. by rewrite !app_nil_r, orb_false_r. }
  destruct begins as [|b begins], sizes as [|s sizes]; try done. apply drop_vget in EX as [GX EX], EB as [GB EB].
  injection Lb as Lb. injection Ls as Ls. cbn [SliceDKernel.ranges_ok] in HR.
  destruct ((b <? 0) || (d <? b) || (s <? -1) || (d <? s)) eqn:HC; [done|]. cbn [length for_loop cut_ok resolved existsb]. unfold ones. cbn [length replicate].
  assert (vget (pre ++ s :: sizes) (Z.of_nat (length pre)) = Ok s) as Gs.
  { change (Z.of_nat (length pre)) with (zlen pre). rewrite <- (Z.add_0_r (zlen pre)), vget_app_r by lia. done. }
  unfold SliceDKernel.size_dim at 2. rewrite GX, GB, Gs. cbn [mbind outcome_bind].
  assert (forall o, o = resolve d b s -> forall z', 
      for_loop (length dims) (Z.of_nat (length pre) + 1) (SliceDKernel.size_dim X B) (pre ++ o :: sizes, strides ++ [1], z') =
      if cut_ok dims begins sizes
      then Ok (pre ++ o :: resolved dims begins sizes, strides ++ 1 :: replicate (length dims) 1, z' || existsb (fun o => o =? 0) (resolved dims begins sizes))
      else Err NOT_CHANGED) as Hrest.
  { intros o Eo z'. replace (pre ++ o :: sizes) with ((pre ++ [o]) ++ sizes) by by rewrite <- app_assoc.
    replace (Z.of_nat (length pre) + 1) with (Z.of_nat (length (pre ++ [o]))) by (rewrite length_app; cbn; lia).
    rewrite (IH (pre ++ [o]) begins sizes); try done; [|by rewrite length_app, Nat.add_1_r..]. unfold ones. by rewrite <- !app_assoc. }
  unfold resolve in *. destruct (Z.eqb_spec s (-1)) as [->|Hs].
  - unfold vset. destruct (Z.ltb_spec (Z.of_nat (length pre)) 0); [lia|]. rewrite length_app. cbn [length].
    destruct (Z.leb_spec (Z.of_nat (length pre + Datatypes.S (length sizes))) (Z.of_nat (length pre))); [lia|]. cbn [orb mbind outcome_bind].
    rewrite Nat2Z.id. rewrite insert_app_r_alt, Nat.sub_diag by lia. cbn [list_insert]. unfold sub64. rewrite wrap64_id by lia.
    cbn [insert list_insert]. rewrite Hrest by done.
    assert ((0 <=? b) && (b <=? d) && (-1 <=? -1) && (b + (d - b) <=? d) = true) as -> by lia. cbn [andb].
    destruct (Z.eqb_spec d 0); [lia|]. by rewrite orb_false_r, orb_assoc.
  - unfold add64. rewrite wrap64_id by lia. destruct (Z.ltb_spec d (b + s)).
    + assert ((0 <=? b) && (b <=? d) && (-1 <=? s) && (b + s <=? d) = false) as -> by lia. done.
    + cbn [mbind outcome_bind] in *. rewrite Hrest by done.
      assert ((0 <=? b) && (b <=? d) && (-1 <=? s) && (b + s <=? d) = true) as -> by lia. cbn [andb].
      destruct (Z.eqb_spec d 0); [lia|]. by rewrite orb_false_r, orb_assoc.
Qed.

Lemma cut_ok_Cut dims begins sizes : cut_ok dims begins sizes = true ->
  existsb (fun o => o =? 0) (resolved dims begins sizes) = false -> Cut dims begins (resolved dims begins sizes) (ones dims).
Proof.
  revert begins sizes. induction dims as [|d dims IH]; intros [|b begins] [|s sizes] H Hz; try done; [constructor|].
  cbn [cut_ok resolved existsb] in *. apply andb_true_iff in H as [H1 H2]. apply orb_false_iff in Hz as [Hz1 Hz2].
  unfold ones. cbn [length replicate]. constructor; [| | | |by apply IH]; unfold resolve in *; destruct (Z.eqb_spec s (-1)); lia.
Qed.

Lemma resolved_nonneg dims begins sizes : cut_ok dims begins sizes = true -> Forall (Z.le 0) (resolved dims begins sizes).
Proof.
  revert begins sizes. induction dims as [|d dims IH]; intros [|b begins] [|s sizes] H; try done. cbn [cut_ok resolved] in *.
  apply andb_true_iff in H as [H1 H2]. constructor; [|by apply IH]. unfold resolve in *. destruct (Z.eqb_spec s (-1)); lia.
Qed.

Lemma dims_bound dims B : Forall (Z.lt 0) dims -> prodZ dims < B -> Forall (fun d => 0 < d < B) dims.
Proof.
  induction 1 as [|d dims Hd HF IH]; intros Hp; [constructor|]. rewrite prodZ_cons in Hp. pose proof (prodZ_gt0 _ HF).
  constructor; [nia|]. apply IH. nia.
Qed.

Lemma CheckOutputDims_pos outs : outs <> [] -> Forall (Z.lt 0) outs -> CheckOutputDims outs = SUCCESS.
Proof. intros Hn HF. destruct HF as [|o outs Ho HF]; [done|]. cbn. by rewrite (proj2 (Z.ltb_lt _ _)). Qed.

Lemma Cut_values_in t vs dims begin outs stride : Forall (num_in t) vs -> zlen vs = prodZ dims -> Cut dims begin outs stride ->
  Forall (num_in t) (cut_values vs dims begin outs stride).
Proof.
  intros HF Hl HC. apply Forall_fmap, Forall_forall. intros k Hk. apply elem_of_seqZ in Hk. cbn. apply Forall_lookup_total_1; [done|].
  pose proof (linear_range dims (strided begin stride (digits outs k))) as Hr. unfold zlen in Hl. apply Nat2Z.inj_lt. rewrite Z2Nat.id, Hl; apply Hr;
    (eapply strided_in; [done|]; apply digits_in_shape; [by eapply Cut_outs|lia]).
Qed.

Lemma Cut_prod dims begin outs stride : Cut dims begin outs stride -> Forall (Z.le 1) stride -> prodZ outs <= prodZ dims.
Proof.
  induction 1 as [|d b o s dims begin outs stride Hb Ho Hs Hd H IH]; intros Hge; [done|]. inversion Hge; subst. rewrite !prodZ_cons.
  specialize (IH ltac:(done)). pose proof (prodZ_gt0 _ (Cut_outs _ _ _ _ H)). assert (o <= d) by nia. nia.
Qed.

Lemma ones_ge {A} (l : list A) : Forall (Z.le 1) (ones l).
Proof. unfold ones. induction l; constructor; [lia|done]. Qed.

Lemma existsb_zero_false l : existsb (fun o => o =? 0) l = false -> Forall (Z.le 0) l -> Forall (Z.lt 0) l.
Proof.
  intros H HF. induction HF as [|o l Ho HF IH]; [constructor|]. cbn in H. apply orb_false_iff in H as [H1 H2]. constructor; [lia|auto].
Qed.

Lemma existsb_zero_true l : existsb (fun o => o =? 0) l = true -> ~ Forall (Z.lt 0) l.
Proof. intros H HF. apply existsb_exists in H as (o & Hi & H0). rewrite List.Forall_forall in HF. specialize (HF o Hi). lia. Qed.

Section Compute.
Context (x o : GeTensor) (op : OpDesc) (d : DataType) (t : NumT) (dims begins sizes vs : list Z).
Hypothesis Ht : num_type d = Some t.
Hypothesis Hx : holds x d t dims vs.
Hypothesis Hne : dims <> [].
Hypothesis Hpos : Forall (Z.lt 0) dims.
Hypothesis Hbig : prodZ dims < 2 ^ 60.
Hypothesis Hin : GetInputsSize op = 1.
Hypothesis Hout : GetOutputsSize op = 1.
Hypothesis Ho : MakeShared op 0 = Some o.
Hypothesis Hb : GetListInt op SliceDKernel.kSliceDAttrBegin = Some begins.
Hypothesis Hs : GetListInt op SliceDKernel.kSliceDAttrSize = Some sizes.
Hypothesis Hn : forall n, 0 < n <= prodZ dims -> is_Some (new_uint8 (n * num_size t)).

Lemma data_nonempty : GetData x <> [] /\ (zlen (GetData x) =? 0) = false.
Proof.
  destruct Hx as (_ & _ & Dx & _ & Lx). pose proof (num_type_ok _ _ Ht) as Hok. pose proof (prodZ_gt0 _ Hpos).
  assert (zlen (GetData x) <> 0) as H0.
  { rewrite Dx, zlen_vector, Lx by done. pose proof (num_size_pos t Hok). nia. }
  split; [intros E0; by rewrite E0 in H0|by apply Z.eqb_neq].
Qed.

Lemma SliceDCheck_ok : SliceDKernel.SliceDCheck op [Some x] =
  if (length dims =? length begins)%nat && (length dims =? length sizes)%nat && SliceDKernel.ranges_ok dims begins sizes
  then Ok (begins, sizes) else Err PARAM_INVALID.
Proof.
  pose proof Hx as (Sx & _). unfold SliceDKernel.SliceDCheck. rewrite Hin, Hout. cbn [length Nat.eqb negb orb Z.eqb Pos.eqb at_ lookup list_lookup mbind outcome_bind].
  rewrite (proj2 data_nonempty), Hb, Hs, Sx. destruct (length dims =? length begins)%nat; [|done].
  destruct (length dims =? length sizes)%nat; [|done]. cbn. by destruct (SliceDKernel.ranges_ok _ _ _).
Qed.

Lemma SliceD_answers v_output :
  if cut_ok dims begins sizes then exists z, SliceDKernel.Compute (Some op) [Some x] v_output = Ok (v_output ++ [z]) /\
    GetDims z = resolved dims begins sizes /\ GetDataType z = d /\
    (Forall (Z.lt 0) (resolved dims begins sizes) ->
     holds z d t (resolved dims begins sizes) (cut_values vs dims begins (resolved dims begins sizes) (ones dims)))
  else SliceDKernel.Compute (Some op) [Some x] v_output = Err NOT_CHANGED.
Proof.
  pose proof Hx as (Sx & Tx & Dx & Fx & Lx). unfold SliceDKernel.Compute. rewrite SliceDCheck_ok.
  destruct ((length dims =? length begins)%nat && (length dims =? length sizes)%nat && SliceDKernel.ranges_ok dims begins sizes) eqn:HR.
  2:{ destruct (cut_ok dims begins sizes) eqn:HC; [|done]. exfalso. pose proof (cut_ok_lengths _ _ _ HC) as [L1 L2].
      rewrite L1, L2, Nat.eqb_refl, (cut_ok_ranges _ _ _ Hpos HC) in HR. done. }
  apply andb_true_iff in HR as [HR1 HR]. apply andb_true_iff in HR1 as [HR1 HR2]. apply Nat.eqb_eq in HR1, HR2.
  cbn [or_else mbind outcome_bind input_at at_ lookup list_lookup or_stuck]. rewrite Sx, Tx. unfold for_range.
  replace (Z.to_nat (zlen dims)) with (length dims) by (unfold zlen; lia).
  pose proof (size_loop dims begins [] dims begins sizes [] false eq_refl eq_refl ltac:(done) ltac:(done) (dims_bound _ _ Hpos Hbig) HR) as HL.
  cbn [length app orb] in HL. change (Z.of_nat 0) with 0 in HL. rewrite HL. clear HL.
  destruct (cut_ok dims begins sizes) eqn:HC; [|done]. cbn [mbind outcome_bind]. rewrite Ho.
  destruct (existsb _ _) eqn:Hz.
  - eexists. split; [done|]. rewrite get_dims_type, get_dims_shape, get_type_type. repeat (split; [done|]). intros HF. by destruct (existsb_zero_true _ Hz).
  - pose proof (cut_ok_Cut _ _ _ HC Hz) as HCut. pose proof (Cut_outs _ _ _ _ HCut) as Hop. pose proof (num_type_ok _ _ Ht) as Hok.
    assert (resolved dims begins sizes <> []) as Hr by (destruct HCut; done).
    rewrite (CheckOutputDims_pos _ Hr Hop). cbn [negb bool_decide decide]. unfold data_ptr. rewrite (has_data_bytes _ (proj1 data_nonempty)).
    unfold OpUtils.SetOutputSliceData. rewrite Ht, Dx, shape_size_prod; [|done|by eapply Forall_impl; [apply Hpos|]; cbn; lia|lia].
    rewrite slice_data_ok; try done; [|by apply Hn; split; [apply prodZ_gt0|apply (Cut_prod _ _ _ _ HCut), ones_ge]].
    eexists. split; [done|]. rewrite get_dims_data, get_dims_type, get_dims_shape, get_type_data, get_type_type. repeat (split; [done|]). intros _.
    apply holds_output; rewrite ?get_dims_data, ?get_dims_type, ?get_dims_shape, ?get_type_data, ?get_type_type, ?get_data_data; try done.
    + by apply Cut_values_in.
    + unfold cut_values. by rewrite length_fmap.
Qed.
End Compute.
End SliceD.

(** * StridedSlice *)

(** A loop whose state after each round is known. *)
Lemma for_range_states {A} (st : Z -> A) n body : 0 <= n ->
  (forall i, 0 <= i < n -> body i (st i) = Ok (st (i + 1))) -> for_range n body (st 0) = Ok (st n).
Proof.
  intros Hn H. destruct (for_range_inv (fun i s => s = st i) n body (st 0)) as (s' & Hr & ->); [done| |by rewrite Hr, Z.max_r].
  intros i s Hi ->. eexists. split; [by apply H|done].
Qed.

(** A negative index counts from the end. *)
Definition norm (d v : Z) : Z := if v <? 0 then d + v else v.

Section StridedSpec.
Context (m : StridedSliceKernel.Masks) (dims bs es ss : list Z).

(** The first index of dimension [i] and the one after the last, clipped to the dimension; a dimension that
    has no entry in the index vectors is taken whole, a shrunk one has one element. *)
Definition first (i : Z) : Z :=
  let d := dims !!! Z.to_nat i in
  if Z.testbit (StridedSliceKernel.shrink_axis_mask m) i then norm d (default 0 (bs !! Z.to_nat i))
  else if Z.testbit (StridedSliceKernel.begin_mask m) i then 0 else norm d (default 0 (bs !! Z.to_nat i)).
Definition past (i : Z) : Z :=
  let d := dims !!! Z.to_nat i in
  if Z.testbit (StridedSliceKernel.shrink_axis_mask m) i then first i + 1
  else Z.min d (if Z.testbit (StridedSliceKernel.end_mask m) i then d else norm d (default d (es !! Z.to_nat i))).
Definition step (i : Z) : Z := default 1 (ss !! Z.to_nat i).
Definition count (i : Z) : Z := (past i - first i) / step i.

Definition over_dims (f : Z -> Z) : list Z := f <$> seqZ 0 (zlen dims).

(** A proper range with a positive step that divides it, in dimension [i]. *)
Definition divides_range (i : Z) : Prop :=
  0 <= first i < past i /\ past i <= dims !!! Z.to_nat i /\ 0 < step i /\ (past i - first i) mod step i = 0.

(** The shape without the shrunk dimensions. *)
Definition kept_dims : list Z :=
  count <$> filter (fun i => Z.testbit (StridedSliceKernel.shrink_axis_mask m) i = false) (seqZ 0 (zlen dims)).

Lemma over_dims_cut k : (forall i, 0 <= i < zlen dims -> divides_range i) -> (k <= length dims)%nat ->
  Cut (drop k dims) (first <$> seqZ (Z.of_nat k) (zlen dims - Z.of_nat k)) (count <$> seqZ (Z.of_nat k) (zlen dims - Z.of_nat k))
    (step <$> seqZ (Z.of_nat k) (zlen dims - Z.of_nat k)).
Proof.
  intros H Hk. remember (length dims - k)%nat as n eqn:En. revert k Hk En. induction n as [|n IH]; intros k Hk En.
  - rewrite drop_ge by lia. unfold zlen. replace (Z.of_nat (length dims) - Z.of_nat k) with 0 by lia. constructor.
  - destruct (lookup_lt_is_Some_2 dims k ltac:(lia)) as [d Hd]. rewrite (drop_S _ _ _ Hd).
    unfold zlen in *. rewrite seqZ_cons by lia. cbn [fmap list_fmap].
    destruct (H (Z.of_nat k) ltac:(lia)) as ([H1 H1'] & H2 & H3 & H4). rewrite Nat2Z.id, (list_lookup_total_correct _ _ _ Hd) in H2.
    apply Z_div_exact_full_2 in H4; [|lia]. fold (count (Z.of_nat k)) in H4.
    constructor; [lia|nia|lia|nia|]. replace (Z.succ (Z.of_nat k)) with (Z.of_nat (S k)) by lia.
    replace (Z.pred (Z.of_nat (length dims) - Z.of_nat k)) with (Z.of_nat (length dims) - Z.of_nat (S k)) by lia. apply IH; lia.
Qed.

Lemma strided_cut : (forall i, 0 <= i < zlen dims -> divides_range i) -> Cut dims (over_dims first) (over_dims count) (over_dims step).
Proof. intros H. pose proof (over_dims_cut 0 H ltac:(lia)) as HC. cbn [drop] in HC. by rewrite Z.sub_0_r in HC. Qed.

Lemma kept_prod n : 0 <= n -> (forall i, 0 <= i < n -> Z.testbit (StridedSliceKernel.shrink_axis_mask m) i = true -> count i = 1) ->
  prodZ (count <$> filter (fun i => Z.testbit (StridedSliceKernel.shrink_axis_mask m) i = false) (seqZ 0 n)) = prodZ (count <$> seqZ 0 n).
Proof.
  revert n. apply (natlike_ind (fun n => _ -> _)); [done|]. intros n Hn IH H. unfold Z.succ in *. rewrite seqZ_snoc, filter_app, !fmap_app, !prodZ_app by done.
  rewrite IH by (intros i Hi; apply H; lia). f_equal. rewrite filter_cons, filter_nil. destruct (decide _) as [Hd|Hd]; [done|].
  cbn. rewrite H; [done|lia|by apply not_false_iff_true].
Qed.

Lemma shrunk_one i : divides_range i -> Z.testbit (StridedSliceKernel.shrink_axis_mask m) i = true -> count i = 1.
Proof.
  intros (_ & _ & H3 & H4) Hs. unfold count, past in *. rewrite Hs in *. replace (first i + 1 - first i) with 1 in * by lia.
  destruct (Z.eq_dec (step i) 1) as [->|]; [done|]. rewrite Z.mod_small in H4 by lia. done.
Qed.
End StridedSpec.

Section Strided.
Context `{E : Env} `{HT : TensorLibOk} {S : ShapeLib (T := T)} {HS : ShapeLibOk S}.
Import StridedSliceKernel.

Lemma mask_flag_ok mask i : 0 <= i < 32 -> mask_flag mask i = Ok (Z.testbit mask i).
Proof. intros Hi. unfold mask_flag. destruct (Z.leb_spec 0 i), (Z.ltb_spec i 32); (done || lia). Qed.

Lemma no_mask m n A (body : Z -> A -> outcome A) (s : A) : 0 <= n <= 32 -> new_axis_mask m = 0 ->
  for_range n (fun i s => flag ← mask_flag (new_axis_mask m) i; if flag : bool then body i s else Ok s) s = Ok s.
Proof.
  intros Hn H0. apply (for_range_states (fun _ => s)); [lia|]. intros i Hi. rewrite mask_flag_ok, H0, Z.testbit_0_l by lia. done.
Qed.

Lemma vget_lookup {A} (l : list A) i x : l !! Z.to_nat i = Some x -> 0 <= i -> vget l i = Ok x.
Proof. intros H Hi. unfold vget, at_. destruct (Z.ltb_spec i 0); [lia|]. by rewrite H. Qed.

Lemma take_snoc_lookup {A} (l : list A) i x : 0 <= i -> l !! Z.to_nat i = Some x -> take (Z.to_nat (i + 1)) l = take (Z.to_nat i) l ++ [x].
Proof. intros Hi H. replace (Z.to_nat (i + 1)) with (Datatypes.S (Z.to_nat i)) by lia. by apply take_S_r. Qed.

(** An index vector: a tensor of the type of the indices with one entry per dimension. *)
Context (m : Masks) (weight0 bt et st : GeTensor) (d dix : DataType) (t tix : NumT) (dims bs es ss vs : list Z).
Hypothesis Ht : num_type d = Some t.
Hypothesis Htix : (dix, tix) = (DT_INT32, T_int true 32) \/ (dix, tix) = (DT_INT64, T_int true 64).
Hypothesis Hx : holds weight0 d t dims vs.
Hypothesis Hbt : holds bt dix tix [zlen bs] bs.
Hypothesis Het : holds et dix tix [zlen bs] es.
Hypothesis Hst : holds st dix tix [zlen bs] ss.
Hypothesis Hrank : 1 <= zlen bs <= zlen dims /\ zlen dims <= 32.
Hypothesis Hsize : GetSizeByDataType d = num_size t.
Hypothesis Hsix : GetSizeByDataType dix = num_size tix.
Hypothesis Hnew : new_axis_mask m = 0.
Hypothesis Hell : ellipsis_mask m = 0.
Hypothesis Hpos : Forall (Z.lt 0) dims.
Hypothesis Hbig : prodZ dims < 2 ^ 31.
Hypothesis Hdiv : forall i, 0 <= i < zlen dims -> divides_range m dims bs es ss i.

Lemma index_ok : num_ok tix /\ num_type dix = Some tix /\ (forall v, num_in tix v -> - 2 ^ 63 <= v < 2 ^ 63) /\
  (if bool_decide (dix = DT_INT32) then T_int true 32 else T_int true 64) = tix /\ supports kIndexNumberType dix = true /\
  num_size tix > 0.
Proof.
  destruct Htix as [[= -> ->]|[= -> ->]]; (split; [by apply (bool_decide_eq_true_1 _)|split; [done|split; [intros v Hv; unfold num_in, inS, inU in Hv; lia|split; [done|split; [|done]]]]]); done.
Qed.

Lemma index_lengths : length es = length bs /\ length ss = length bs.
Proof. destruct Het as (_ & _ & _ & _ & L1), Hst as (_ & _ & _ & _ & L2). rewrite prodZ_cons in L1, L2. cbn in L1, L2. unfold zlen in *. lia. Qed.

Lemma index_count_ok : index_count bt = Ok (zlen bs).
Proof.
  destruct Hbt as (_ & T1 & D1 & _ & L1). unfold index_count, size_div. rewrite T1, D1, Hsix, zlen_vector by apply index_ok.
  pose proof (num_size_pos tix (proj1 index_ok)). destruct (Z.eqb_spec (num_size tix) 0); [lia|]. rewrite wrapU64_id by lia.
  by rewrite Z.div_mul by lia.
Qed.

Lemma GetOriginStrideVec_ok : GetOriginStrideVec bt et st = Ok (bs, es, ss).
Proof.
  unfold GetOriginStrideVec. rewrite index_count_ok. cbn [mbind outcome_bind]. pose proof index_ok as (Hok & _ & _ & Hif & _). pose proof index_lengths as [L1 L2].
  destruct Hbt as (_ & T1 & D1 & F1 & _), Het as (_ & _ & D2 & F2 & _), Hst as (_ & _ & D3 & F3 & _). rewrite T1, Hif, D1, D2, D3.
  rewrite (for_range_states (fun i => (take (Z.to_nat i) bs, take (Z.to_nat i) es, take (Z.to_nat i) ss))); [|apply zlen_nonneg|].
  - rewrite !take_ge by (unfold zlen; lia). done.
  - intros i Hi. unfold zlen in Hi. destruct (lookup_lt_is_Some_2 bs (Z.to_nat i) ltac:(lia)) as [b Gb], (lookup_lt_is_Some_2 es (Z.to_nat i) ltac:(lia)) as [e Ge],
      (lookup_lt_is_Some_2 ss (Z.to_nat i) ltac:(lia)) as [s Gs].
    rewrite (load_vector tix bs i b), (load_vector tix es i e), (load_vector tix ss i s) by (done || by apply vget_lookup; [|lia]).
    cbn [mbind outcome_bind]. by rewrite !(take_snoc_lookup _ i _ (proj1 Hi) Gb), !(take_snoc_lookup _ i _ (proj1 Hi) Ge), !(take_snoc_lookup _ i _ (proj1 Hi) Gs).
Qed.

Lemma wrapped_norm x v : 0 < x < 2 ^ 31 -> - 2 ^ 63 <= v < 2 ^ 63 -> (if v <? 0 then (x + v)%i64 else v) = norm x v.
Proof. intros Hd Hv. unfold norm. destruct (Z.ltb_spec v 0); [|done]. unfold add64. by rewrite wrap64_id by lia. Qed.

Lemma dim_facts i : 0 <= i < zlen dims -> dims !! Z.to_nat i = Some (dims !!! Z.to_nat i) /\ 0 < dims !!! Z.to_nat i < 2 ^ 31.
Proof.
  intros Hi. unfold zlen in Hi. split; [apply list_lookup_lookup_total_lt; lia|].
  pose proof (dims_bound dims _ Hpos Hbig) as HF. apply (Forall_lookup_total_1 (fun x => 0 < x < 2 ^ 31)); [done|lia].
Qed.

(** The range of dimension [i] before it is clipped. *)
Definition raw_past (i : Z) : Z :=
  let x := dims !!! Z.to_nat i in
  if Z.testbit (shrink_axis_mask m) i then first m dims bs i + 1
  else if Z.testbit (end_mask m) i then x else norm x (default x (es !! Z.to_nat i)).

Lemma MaskCal_ok i b e : 0 <= i < zlen dims -> b = default 0 (bs !! Z.to_nat i) -> e = default (dims !!! Z.to_nat i) (es !! Z.to_nat i) ->
  - 2 ^ 63 <= b < 2 ^ 63 -> - 2 ^ 63 <= e < 2 ^ 63 ->
  MaskCal m i b e (dims !!! Z.to_nat i) = Ok (first m dims bs i, raw_past i).
Proof.
  intros Hi -> -> Hb He. destruct (dim_facts i Hi) as [_ Hd]. pose proof (Hdiv i Hi) as (H1 & H2 & _). unfold MaskCal.
  rewrite !mask_flag_ok by lia. cbn [mbind outcome_bind]. rewrite !wrapped_norm by done. unfold raw_past, first in *.
  destruct (Z.testbit (shrink_axis_mask m) i); [|by destruct (Z.testbit (begin_mask m) i), (Z.testbit (end_mask m) i)].
  set (f := norm _ _) in *. unfold FMK_INT32_ADDCHECK, fmk_check, CheckInt32AddOverflow, signed_add_check.
  rewrite (wrapS_id 32 f) by (done || unfold inS; lia). change (wrapS 32 (INT32_MAX - 1)) with (INT32_MAX - 1). unfold INT32_MAX.
  assert (f < 2 ^ 31 - 1) by lia. destruct (Z.ltb_spec (2 ^ 31 - 1 - 1) f); [lia|]. cbn [Z.ltb Z.compare andb orb bool_decide decide mbind outcome_bind].
  unfold add64. rewrite wrap64_id by lia. done.
Qed.

Lemma StrideCal_ok i : 0 <= i < zlen dims ->
  StrideCal (dims !!! Z.to_nat i) (first m dims bs i) (raw_past i) (step ss i) = (first m dims bs i, step ss i, count m dims bs es ss i).
Proof.
  intros Hi. destruct (dim_facts i Hi) as [_ Hd]. pose proof (Hdiv i Hi) as ([H1 H1'] & H2 & H3 & _). unfold StrideCal.
  destruct (Z.eqb_spec (step ss i) 0); [lia|]. destruct (Z.ltb_spec (step ss i) 0); [lia|].
  assert ((if dims !!! Z.to_nat i <? raw_past i then dims !!! Z.to_nat i else raw_past i) = past m dims bs es i) as ->.
  { unfold past, raw_past in *. destruct (Z.testbit (shrink_axis_mask m) i); [destruct (Z.ltb_spec (dims !!! Z.to_nat i) (first m dims bs i + 1)); lia|].
    destruct (Z.testbit (end_mask m) i); match goal with |- context [?a <? ?b] => destruct (Z.ltb_spec a b) end; lia. }
  destruct (Z.eqb_spec (past m dims bs es i) 0); [lia|]. rewrite andb_false_r. unfold count, sub64, quot64.
  rewrite (wrap64_id (past _ _ _ _ _ - _)) by lia. rewrite Z.abs_eq, (wrap64_id (past _ _ _ _ _ - _)) by lia.
  rewrite Z.quot_div_nonneg by lia. pose proof (Z.div_le_upper_bound (past m dims bs es i - first m dims bs i) (step ss i) (past m dims bs es i - first m dims bs i) H3 ltac:(nia)).
  rewrite wrap64_id; [done|]. pose proof (Z.div_pos (past m dims bs es i - first m dims bs i) (step ss i) ltac:(lia) H3). lia.
Qed.

Definition upto (f : Z -> Z) (i : Z) : list Z := f <$> seqZ 0 i.

Lemma slice_upto_snoc f i : 0 <= i -> upto f (i + 1) = upto f i ++ [f i].
Proof. intros Hi. unfold upto. by rewrite seqZ_snoc, fmap_app. Qed.

Lemma vget_or {A} (l : list A) i x : 0 <= i < zlen l -> vget l i = Ok (default x (l !! Z.to_nat i)).
Proof. intros Hi. unfold zlen in Hi. destruct (lookup_lt_is_Some_2 l (Z.to_nat i) ltac:(lia)) as [y Hy]. rewrite Hy. by apply vget_lookup; [|lia]. Qed.

Lemma init_dim_ok i : 0 <= i < zlen dims ->
  init_dim m dims bs es ss (zlen bs) i (take (Z.to_nat i) dims, upto (first m dims bs) i, upto (count m dims bs es ss) i, upto (step ss) i) =
  Ok (take (Z.to_nat (i + 1)) dims, upto (first m dims bs) (i + 1), upto (count m dims bs es ss) (i + 1), upto (step ss) (i + 1)).
Proof.
  intros Hi. destruct (dim_facts i Hi) as [Gd Hd]. pose proof index_lengths as [L1 L2]. unfold init_dim. rewrite mask_flag_ok, Hnew, Z.testbit_0_l by lia.
  cbn [mbind outcome_bind]. rewrite (vget_lookup dims i _ Gd) by lia. cbn [mbind outcome_bind].
  destruct Hbt as (_ & _ & _ & F1 & _), Het as (_ & _ & _ & F2 & _). pose proof index_ok as (_ & _ & Hr & _).
  assert (- 2 ^ 63 <= default 0 (bs !! Z.to_nat i) < 2 ^ 63 /\ - 2 ^ 63 <= default (dims !!! Z.to_nat i) (es !! Z.to_nat i) < 2 ^ 63) as [Rb Re].
  { split; [destruct (bs !! Z.to_nat i) eqn:Eb; cbn; [apply Hr; by eapply (Forall_lookup_1 _ _ _ _ F1)|lia]|].
    destruct (es !! Z.to_nat i) eqn:Ee; cbn; [apply Hr; by eapply (Forall_lookup_1 _ _ _ _ F2)|lia]. }
  match goal with |- context [if i <? zlen bs then ?a else ?b] =>
    assert ((if i <? zlen bs then a else b) = Ok (default 0 (bs !! Z.to_nat i), default (dims !!! Z.to_nat i) (es !! Z.to_nat i), step ss i)) as -> end.
  { destruct (Z.ltb_spec i (zlen bs)).
    - rewrite (vget_or bs i 0), (vget_or es i (dims !!! Z.to_nat i)), (vget_or ss i 1) by (unfold zlen in *; lia). done.
    - unfold step. rewrite !(lookup_ge_None_2 _ (Z.to_nat i)) by (unfold zlen in *; lia). done. }
  cbn [mbind outcome_bind]. rewrite MaskCal_ok by done. cbn [or_else mbind outcome_bind]. rewrite StrideCal_ok by done.
  by rewrite !slice_upto_snoc, (take_snoc_lookup _ i _ (proj1 Hi) Gd) by lia.
Qed.

Lemma InitParamWithAttrs_ok : InitParamWithAttrs m weight0 bt et st =
  Ok (m, (dims, over_dims dims (first m dims bs), over_dims dims (count m dims bs es ss), over_dims dims (step ss))).
Proof.
  destruct Hx as (Sx & _), Hbt as (_ & T1 & _). unfold InitParamWithAttrs. rewrite Sx. unfold ExpandDimsWithNewAxis. rewrite T1, Hsix.
  pose proof index_ok as (_ & _ & _ & _ & _ & Hp). destruct (Z.eqb_spec (num_size tix) 0); [lia|]. rewrite index_count_ok. cbn [mbind outcome_bind].
  pose proof (zlen_nonneg dims). destruct (Z.ltb_spec (zlen dims) (zlen bs)); [lia|]. rewrite (no_mask m (zlen dims) (list Z) (fun i x => vinsert x i 1)) by lia || done.
  cbn [mbind outcome_bind]. rewrite GetOriginStrideVec_ok. cbn [mbind outcome_bind]. unfold ExpandStrideWithEllipsisMask. rewrite Hell. cbn [Z.eqb negb mbind outcome_bind].
  replace (if zlen bs <? zlen dims then zlen bs else zlen dims) with (zlen bs) by (destruct (Z.ltb_spec (zlen bs) (zlen dims)); lia).
  assert (for_range (zlen dims) (init_dim m dims bs es ss (zlen bs)) ([], [], [], []) = Ok (take (Z.to_nat (zlen dims)) dims,
    upto (first m dims bs) (zlen dims), upto (count m dims bs es ss) (zlen dims), upto (step ss) (zlen dims))) as ->.
  { exact (for_range_states (fun i => (take (Z.to_nat i) dims, upto (first m dims bs) i, upto (count m dims bs es ss) i, upto (step ss) i)) (zlen dims)
      (init_dim m dims bs es ss (zlen bs)) ltac:(lia) init_dim_ok). }
  cbn [mbind outcome_bind]. by rewrite take_zlen.
Qed.

Lemma GetOutputDims_ok : GetOutputDims m (over_dims dims (count m dims bs es ss)) = Ok (kept_dims m dims bs es ss).
Proof.
  unfold GetOutputDims. assert (zlen (over_dims dims (count m dims bs es ss)) = zlen dims) as ->.
  { unfold over_dims, zlen. rewrite length_fmap, length_seqZ. lia. }
  pose proof (zlen_nonneg dims).
  refine (for_range_states (fun i => count m dims bs es ss <$> filter (fun k => Z.testbit (shrink_axis_mask m) k = false) (seqZ 0 i)) (zlen dims) _ ltac:(lia) _).
  intros i Hi. rewrite mask_flag_ok by lia. cbn [mbind outcome_bind]. rewrite seqZ_snoc, filter_app, fmap_app, filter_cons, filter_nil by lia.
  destruct (Z.testbit (shrink_axis_mask m) i) eqn:Eb.
  - rewrite decide_False by done. cbn. by rewrite app_nil_r.
  - rewrite decide_True by done. unfold over_dims. by rewrite vget_seqZ by lia.
Qed.

(** The attributes of the operator are the masks. *)
Definition has_masks (op : OpDesc) : Prop :=
  GetInt_u32 op STRIDE_SLICE_ATTR_BEGIN_MASK = Some (begin_mask m) /\ GetInt_u32 op STRIDE_SLICE_ATTR_END_MASK = Some (end_mask m) /\
  GetInt_u32 op STRIDE_SLICE_ATTR_ELLIPSIS_MASK = Some (ellipsis_mask m) /\ GetInt_u32 op STRIDE_SLICE_ATTR_NEW_AXIS_MASK = Some (new_axis_mask m) /\
  GetInt_u32 op STRIDE_SLICE_ATTR_SHRINK_AXIS_MASK = Some (shrink_axis_mask m) /\ is_Some (InputDims op).

Lemma CheckAndGetAttr_ok op : has_masks op -> CheckAndGetAttr (Some op) = Ok m.
Proof.
  intros (H1 & H2 & H3 & H4 & H5 & [s H6]). unfold CheckAndGetAttr. rewrite H1, H2, H3, H4, H5, H6. unfold IsEllipsisMaskValid. rewrite Hell. cbn.
  rewrite <- Hell. by destruct m.
Qed.

Lemma weight_size : size_div (zlen (GetData weight0)) (GetSizeByDataType d) = Ok (prodZ dims) /\ 0 < prodZ dims /\ GetData weight0 <> [].
Proof.
  destruct Hx as (_ & _ & Dx & _ & Lx). pose proof (num_size_pos t (num_type_ok _ _ Ht)). pose proof (prodZ_gt0 _ Hpos).
  assert (zlen (GetData weight0) = prodZ dims * num_size t) as Hz by by rewrite Dx, zlen_vector, Lx by by apply (num_type_ok d).
  split; [|split; [done|intros E0; rewrite E0 in Hz; change (zlen []) with 0 in Hz; nia]]. unfold size_div. rewrite Hz, Hsize.
  destruct (Z.eqb_spec (num_size t) 0); [lia|]. rewrite wrapU64_id by lia. by rewrite Z.div_mul by lia.
Qed.

Lemma CheckInputParam_ok : CheckInputParam [Some weight0; Some bt; Some et; Some st] = Ok tt.
Proof.
  destruct Hx as (_ & Tx & _), Hbt as (_ & T1 & D1 & _), Het as (_ & _ & D2 & _), Hst as (_ & _ & D3 & _). pose proof weight_size as (Hw & Hp & _).
  pose proof index_ok as (Hok & _ & _ & _ & Hsup & Hsz). pose proof index_lengths as [L1 L2]. unfold CheckInputParam. rewrite Tx, T1, Hsup.
  rewrite !bool_decide_eq_true_2 by done. cbn [negb orb]. destruct (Z.ltb_spec (GetSizeByDataType d) 0).
  { pose proof (num_size_pos t (num_type_ok _ _ Ht)). lia. }
  rewrite Hw. cbn [mbind outcome_bind]. rewrite D1, D2, D3, !zlen_vector by done.
  assert (zlen es = zlen bs /\ zlen ss = zlen bs) as [-> ->] by (unfold zlen; lia).
  destruct (Z.eqb_spec (prodZ dims) 0); [lia|]. destruct (Z.eqb_spec (zlen bs * num_size tix) 0); [nia|]. cbn [orb]. by rewrite Z.eqb_refl.
Qed.

Lemma step_ge : Forall (Z.le 1) (over_dims dims (step ss)).
Proof. apply Forall_fmap, Forall_forall. intros i Hi. apply elem_of_seqZ in Hi. cbn. destruct (Hdiv i ltac:(lia)) as (_ & _ & H3 & _). lia. Qed.

Lemma StridedSlice_answers op o v_output : has_masks op -> MakeShared op 0 = Some o ->
  (forall n, 0 < n <= prodZ dims -> is_Some (new_uint8 (n * num_size t))) ->
  exists z, Compute (Some op) [Some weight0; Some bt; Some et; Some st] v_output = Ok (v_output ++ [z]) /\
    holds z d t (kept_dims m dims bs es ss)
      (cut_values vs dims (over_dims dims (first m dims bs)) (over_dims dims (count m dims bs es ss)) (over_dims dims (step ss))).
Proof.
  intros Hop Ho Hn. pose proof weight_size as (Hw & Hp & Hne). pose proof (num_type_ok _ _ Ht) as Hok. pose proof Hx as (Sx & Tx & Dx & Fx & Lx).
  unfold Compute. rewrite (CheckAndGetAttr_ok op Hop), CheckInputParam_ok. cbn [or_else mbind outcome_bind input_at at_ lookup list_lookup or_stuck].
  rewrite InitParamWithAttrs_ok. cbn [or_else mbind outcome_bind]. rewrite Tx, Hw. cbn [mbind outcome_bind]. unfold data_ptr. rewrite (has_data_bytes _ Hne). cbn [negb].
  rewrite Ho. unfold OpUtils.SetOutputSliceData. rewrite Ht, Dx. pose proof (strided_cut m dims bs es ss Hdiv) as HC. pose proof (Cut_outs _ _ _ _ HC) as Hco.
  rewrite slice_data_ok; try done; [|lia|apply Hn; split; [by apply prodZ_gt0|apply (Cut_prod _ _ _ _ HC), step_ge]].
  cbn [or_else mbind outcome_bind]. rewrite GetOutputDims_ok. cbn [mbind outcome_bind]. eexists. split; [done|].
  assert (prodZ (kept_dims m dims bs es ss) = prodZ (over_dims dims (count m dims bs es ss))) as Hk.
  { apply kept_prod; [apply zlen_nonneg|]. intros i Hi. by apply shrunk_one, Hdiv. }
  apply holds_output; rewrite ?get_dims_shape, ?get_type_shape, ?get_data_shape, ?get_type_type, ?get_data_type, ?get_data_data; try done.
  - by apply Cut_values_in.
  - unfold kept_dims. apply Forall_fmap, Forall_forall. intros i Hi. apply list_elem_of_filter in Hi as [_ Hi]. cbn.
    eapply (Forall_forall (Z.lt 0)); [exact Hco|]. unfold over_dims. by apply list_elem_of_fmap_2.
  - unfold cut_values. rewrite length_fmap. by rewrite Hk.
Qed.
End Strided.

(** * The theorems *)
Section Theorems.
Context `{E : Env} `{HT : TensorLibOk} {S : ShapeLib (T := T)} {HS : ShapeLibOk S}.

(** C26 SliceD with one offset and one size per dimension, each inside the dimension: the output has the
    sizes (the rest of the dimension for -1) as its shape and the type of the input, and
    holds, when no size is zero, the elements of the input at the indices shifted by the offsets.
    With any other offsets or sizes the operator is left in the graph. *)
Theorem sliced_exact x o op d t dims begins sizes vs v_output :
  num_type d = Some t -> holds x d t dims vs -> dims <> [] -> Forall (Z.lt 0) dims -> prodZ dims < 2 ^ 60 ->
  GetInputsSize op = 1 -> GetOutputsSize op = 1 -> MakeShared op 0 = Some o ->
  GetListInt op SliceDKernel.kSliceDAttrBegin = Some begins -> GetListInt op SliceDKernel.kSliceDAttrSize = Some sizes ->
  (forall n, 0 < n <= prodZ dims -> is_Some (new_uint8 (n * num_size t))) ->
  let outs := resolved dims begins sizes in
  if cut_ok dims begins sizes then exists z, SliceDKernel.Compute (Some op) [Some x] v_output = Ok (v_output ++ [z]) /\
    GetDims z = outs /\ GetDataType z = d /\ (Forall (Z.lt 0) outs -> holds z d t outs (cut_values vs dims begins outs (ones dims)))
  else SliceDKernel.Compute (Some op) [Some x] v_output = Err NOT_CHANGED.
Proof. intros. by apply (SliceD_answers x o op d t dims begins sizes vs). Qed.

(** C27 StridedSlice without new axes and ellipsis, with index vectors of int32_t or int64_t for the leading
    dimensions: when in every dimension the begin, end and shrink masks and the indices, counted
    from the end when negative, give a range that is not empty, inside the dimension (an end past it is
    clipped) and a multiple of the positive stride, the output holds every stride-th element of the
    ranges, in order, and its shape leaves the shrunk dimensions out. *)
Theorem strided_slice_exact m x bt et st o op d dix t tix dims bs es ss vs v_output :
  num_type d = Some t -> (dix, tix) = (DT_INT32, T_int true 32) \/ (dix, tix) = (DT_INT64, T_int true 64) ->
  holds x d t dims vs -> holds bt dix tix [zlen bs] bs -> holds et dix tix [zlen bs] es -> holds st dix tix [zlen bs] ss ->
  1 <= zlen bs <= zlen dims /\ zlen dims <= 32 -> GetSizeByDataType d = num_size t -> GetSizeByDataType dix = num_size tix ->
  StridedSliceKernel.new_axis_mask m = 0 -> StridedSliceKernel.ellipsis_mask m = 0 -> has_masks m op ->
  Forall (Z.lt 0) dims -> prodZ dims < 2 ^ 31 -> (forall i, 0 <= i < zlen dims -> divides_range m dims bs es ss i) ->
  MakeShared op 0 = Some o -> (forall n, 0 < n <= prodZ dims -> is_Some (new_uint8 (n * num_size t))) ->
  exists z, StridedSliceKernel.Compute (Some op) [Some x; Some bt; Some et; Some st] v_output = Ok (v_output ++ [z]) /\
    holds z d t (kept_dims m dims bs es ss)
      (cut_values vs dims (over_dims dims (first m dims bs)) (over_dims dims (count m dims bs es ss)) (over_dims dims (step ss))).
Proof. intros. by eapply (StridedSlice_answers m x bt et st d dix t tix dims bs es ss vs). Qed.
End Theorems.

(** * A library with attributes, and runs on it *)
Record SampleOp := mkOp { op_lists : string -> option (list Z); op_ints : string -> option Z; op_bools : string -> option bool;
  op_input : option (list Z); op_input_type : DataType; op_output : list Z }.
#[local] Instance op_lib : TensorLib := {|
  GeTensor := SampleTensor;
  OpDesc := SampleOp;
  GetDims := s_dims;
  GetDataType := s_type;
  GetData := s_data;
  GetOutputsSize := fun _ => 1;
  MakeShared := fun _ _ => Some (mkSample [] DT_FLOAT []);
  SetData := fun b t => mkSample (s_dims t) (s_type t) b;
  SetDataType := fun d t => mkSample (s_dims t) d (s_data t);
  SetShape := fun s t => mkSample s (s_type t) (s_data t);
  GetDataTypeLength := fun d => num_size <$> num_type d;
|}.
#[local] Instance shape_lib : ShapeLib (T := op_lib) := {|
  GetShapeSize := fun s => match s with [] => 0 | _ => prodZ s end;
  GetDim := fun s i => if i <? 0 then 0 else default 0 (s !! Z.to_nat i);
  has_data := fun x => negb (zlen (s_data x) =? 0);
  GetInputsSize := fun _ => 1;
  InputDims := op_input;
  InputDataType := op_input_type;
  OutputDims := op_output;
  GetInt_u32 := op_ints;
  GetInt_i32 := op_ints;
  GetInt_i64 := op_ints;
  GetListInt := op_lists;
  GetBool := op_bools;
  STRIDE_SLICE_ATTR_BEGIN_MASK := "begin_mask";
  STRIDE_SLICE_ATTR_END_MASK := "end_mask";
  STRIDE_SLICE_ATTR_ELLIPSIS_MASK := "ellipsis_mask";
  STRIDE_SLICE_ATTR_NEW_AXIS_MASK := "new_axis_mask";
  STRIDE_SLICE_ATTR_SHRINK_AXIS_MASK := "shrink_axis_mask";
  PACK_ATTR_NAME_NUM := "N";
  ATTR_NAME_AXIS := "axis";
  ATTR_NAME_N := "N";
|}.
#[export] Instance op_lib_ok : TensorLibOk op_lib.
Proof. split; try done. intros d t H. cbn. by rewrite H. Qed.
#[export] Instance shape_lib_ok : ShapeLibOk shape_lib.
Proof.
  split; try done.
  - by intros [].
  - intros s i d H. cbn. unfold vget, at_ in H. destruct (i <? 0); [done|]. by destruct (s !! Z.to_nat i); simplify_eq.
  - intros s i H. cbn. destruct (Z.ltb_spec i 0); [done|]. rewrite lookup_ge_None_2; [done|]. unfold zlen in H. lia.
  - intros x H. cbn. destruct (s_data x) eqn:Ex; [by rewrite <- Ex in H|]. rewrite zlen_cons. pose proof (zlen_nonneg l).
    destruct (Z.eqb_spec (zlen l + 1) 0); [lia|done].
Qed.

(** An operator with the list attributes of SliceD, and one with the masks of StridedSlice. *)
Definition sliced_op (begins sizes : list Z) : SampleOp :=
  mkOp (fun n => if (n =? "offsets")%string then Some begins else if (n =? "size")%string then Some sizes else None) (fun _ => None) (fun _ => None) None DT_FLOAT [].
Definition strided_op (m : StridedSliceKernel.Masks) (dims : list Z) : SampleOp :=
  mkOp (fun _ => None) (fun n => if (n =? "begin_mask")%string then Some (StridedSliceKernel.begin_mask m)
    else if (n =? "end_mask")%string then Some (StridedSliceKernel.end_mask m) else if (n =? "ellipsis_mask")%string then Some (StridedSliceKernel.ellipsis_mask m)
    else if (n =? "new_axis_mask")%string then Some (StridedSliceKernel.new_axis_mask m) else Some (StridedSliceKernel.shrink_axis_mask m)) (fun _ => None) (Some dims) DT_FLOAT [].

(** The last two columns of the second row of a 2 x 3 matrix of int16_t. *)
Lemma sliced_exact_witness : exists z,
  SliceDKernel.Compute (E := sample_env) (S := shape_lib) (Some (sliced_op [1; 1] [1; -1])) [Some (tensor DT_INT16 (T_int true 16) [2; 3] [1; 2; 3; 4; 5; 6])] [] = Ok [z] /\
  s_dims z = [1; 2] /\ s_type z = DT_INT16 /\ (Forall (Z.lt 0) [1; 2] -> holds (T := op_lib) z DT_INT16 (T_int true 16) [1; 2] [5; 6]).
Proof.
  apply (sliced_exact (E := sample_env) (T := op_lib) (S := shape_lib) (tensor DT_INT16 (T_int true 16) [2; 3] [1; 2; 3; 4; 5; 6]) (mkSample [] DT_FLOAT [])
    (sliced_op [1; 1] [1; -1]) DT_INT16 (T_int true 16) [2; 3] [1; 1] [1; -1] [1; 2; 3; 4; 5; 6] []); try reflexivity.
  - repeat split; repeat constructor; discriminate.
  - discriminate.
  - repeat constructor.
  - intros n _. eexists. reflexivity.
Defined.

(** The even columns of the last row of a 2 x 6 matrix: x[-1, ::2]. *)
Lemma strided_slice_exact_witness : exists z,
  StridedSliceKernel.Compute (E := sample_env) (T := op_lib) (Some (strided_op (StridedSliceKernel.mkMasks 0 2 0 0 1) [2; 6]))
    [Some (tensor DT_UINT8 (T_int false 8) [2; 6] [10; 11; 12; 13; 14; 15; 20; 21; 22; 23; 24; 25]); Some (tensor DT_INT32 (T_int true 32) [2] [-1; 0]);
     Some (tensor DT_INT32 (T_int true 32) [2] [0; 0]); Some (tensor DT_INT32 (T_int true 32) [2] [1; 2])] [] = Ok [z] /\
  holds z DT_UINT8 (T_int false 8) [3] [20; 22; 24].
Proof.
  apply (strided_slice_exact (E := sample_env) (T := op_lib) (S := shape_lib) (StridedSliceKernel.mkMasks 0 2 0 0 1)
    (tensor DT_UINT8 (T_int false 8) [2; 6] [10; 11; 12; 13; 14; 15; 20; 21; 22; 23; 24; 25]) (tensor DT_INT32 (T_int true 32) [2] [-1; 0])
    (tensor DT_INT32 (T_int true 32) [2] [0; 0]) (tensor DT_INT32 (T_int true 32) [2] [1; 2]) (mkSample [] DT_FLOAT [])
    (strided_op (StridedSliceKernel.mkMasks 0 2 0 0 1) [2; 6]) DT_UINT8 DT_INT32 (T_int false 8) (T_int true 32) [2; 6] [-1; 0] [0; 0] [1; 2]
    [10; 11; 12; 13; 14; 15; 20; 21; 22; 23; 24; 25] []); try reflexivity.
  - by left.
  - repeat split; repeat constructor; discriminate.
  - repeat split; repeat constructor; discriminate.
  - repeat split; repeat constructor; discriminate.
  - repeat split; repeat constructor; discriminate.
  - repeat split; vm_compute; discriminate.
  - repeat split. eexists. reflexivity.
  - repeat constructor.
  - intros i Hi. assert (i = 0 \/ i = 1) as [-> | ->] by (change (zlen [2; 6]) with 2 in Hi; lia); repeat split; vm_compute; done.
  - intros n _. eexists. reflexivity.
Defined.

(** Where the slicing kernels depart from the operators.  Slice counts elements of four bytes whatever the
    type: it repeats the first of four half-precision numbers, and reads past the end of four 64-bit
    ones.  StridedSlice rounds the number of elements down, so it drops the last element of
    x[0:5:2]; takes the whole dimension for the empty range x[0:0]; and puts too few dimensions
    in place of an ellipsis, so the index after it cuts the wrong dimension of a tensor of rank four. *)
Theorem slice_kernels_deviate :
  (let run d t vs := SliceKernel.Compute (E := sample_env) (T := op_lib) (Some (sliced_op [] []))
     [Some (tensor d t [4] vs); Some (tensor DT_INT32 (T_int true 32) [1] [1]); Some (tensor DT_INT32 (T_int true 32) [1] [2])] [] in
   (exists z, run DT_FLOAT16 T_half [21; 22; 23; 24] = Ok [z] /\ s_data z = vector_bytes T_half [21; 21]) /\
   run DT_INT64 (T_int true 64) [21; 22; 23; 24] = Stuck) /\
  (let run m dims vs b e s := StridedSliceKernel.Compute (E := sample_env) (T := op_lib) (Some (strided_op m dims))
     [Some (tensor DT_UINT8 (T_int false 8) dims vs); Some (tensor DT_INT32 (T_int true 32) [zlen b] b);
      Some (tensor DT_INT32 (T_int true 32) [zlen e] e); Some (tensor DT_INT32 (T_int true 32) [zlen s] s)] [] in
   run (StridedSliceKernel.mkMasks 0 0 0 0 0) [5] [1; 2; 3; 4; 5] [0] [5] [2] = Ok [mkSample [2] DT_UINT8 [1; 3]] /\
   run (StridedSliceKernel.mkMasks 0 0 0 0 0) [3] [1; 2; 3] [0] [0] [1] = Ok [mkSample [3] DT_UINT8 [1; 2; 3]] /\
   run (StridedSliceKernel.mkMasks 0 0 1 0 0) [1; 1; 2; 2] [1; 2; 3; 4] [0; 1] [0; 2] [1; 1] = Ok [mkSample [1; 1; 1; 2] DT_UINT8 [3; 4]]).
Proof. split; [split; [eexists; split|]|split; [|split]]; vm_compute; reflexivity. Qed.
