(* ===== verification/TransKernels.v ===== *)
(** The host kernels that hand a tensor to a transfer: Transpose, Permute, TransData and Cast (ge/host_kernels), with
    KernelUtils::CheckSizeForTransOp.

    What they use of the metadef library beyond [ShapeLib] is the class [DescLib]: the formats and types in the
    descriptors of the operator, the memory size of a tensor, and whether a tensor takes its data.  The
    theorems compose the checks of the kernels with what the transfers deliver. *)
From stdpp Require Import strings.
From S2P Require Import Prelude MathUtil Buffer FormatsUtils Bytes FormatIndex FormatTranspose Fp16 Fp16Convert DataTypeTransfer Formats FloatMath BCast HostKernels KernelTheorems SliceKernels SliceTheorems.

(** * Descriptors *)
Class DescLib `{S : ShapeLib} := {
  (** The formats of `op_desc->GetInputDesc(0)` and `GetOutputDesc(0)`, and the type of the latter. *)
  InputFormat : OpDesc -> Format;
  OutputFormat : OpDesc -> Format;
  OutputDataType : OpDesc -> DataType;
  (** `op_desc->MutableOutputDesc(0) != nullptr` *)
  HasOutputDesc : OpDesc -> bool;
  (** TensorUtils::CalcTensorMemSize *)
  CalcTensorMemSize : list Z -> Format -> DataType -> option Z;
  (** The status of GeTensor::SetData *)
  SetDataStatus : list Z -> GeTensor -> Status;
}.

Section Kernels.
Context `{E : Env} `{D : DescLib} `{R : Transfers}.

(** KernelUtils::CheckSizeForTransOp *)
Definition CheckSizeForTransOp (const_weight_ptr : TensorPtr) (op_desc_ptr : option OpDesc) : bool :=
  match const_weight_ptr, op_desc_ptr with
  | Some x, Some op =>
      let data_size := zlen (GetData x) in
      match InputDims op with
      | None => false
      | Some data_shape =>
          let data_type := InputDataType op in
          let shape_size := GetShapeSize data_shape in
          match CalcTensorMemSize data_shape (InputFormat op) data_type with
          | None => false
          | Some cal_size =>
              match GetDataTypeLength data_type with
              | None => false
              | Some length =>
                  if negb (shape_size =? 0) then negb (negb (data_size =? wrapU64 cal_size) || (data_size =? 0))
                  else if negb (zlen data_shape =? 0) then data_size =? 0
                  else negb (negb (length =? 0) && negb (data_size / length =? 1))
              end
          end
      end
  | _, _ => false
  end.

(** The data of a transfer's result, as SetData takes it. *)
Definition result_bytes (r : TransResult) : list Z := take (Z.to_nat (res_length r)) (default [] (res_data r)).

(** SetData whose failure is only logged. *)
Definition set_data (r : TransResult) (output : GeTensor) : GeTensor :=
  if bool_decide (SetDataStatus (result_bytes r) output = SUCCESS) then SetData (result_bytes r) output else output.
End Kernels.

(** * TransposeKernel *)
Module TransposeKernel.
Section Kernel.
Context `{E : Env} `{D : DescLib}.

Definition ValidateInput (op_desc_ptr : option OpDesc) (input : list TensorPtr) : Status :=
  match op_desc_ptr with
  | None => PARAM_INVALID
  | Some op =>
      if negb (GetInputsSize op =? 2) || negb (GetOutputsSize op =? 1) then PARAM_INVALID
      else
        match input with
        | [tensor_x_ptr; tensor_perm_ptr] =>
            match tensor_x_ptr, tensor_perm_ptr with Some _, Some _ => SUCCESS | _, _ => PARAM_INVALID end
        | _ => PARAM_INVALID
        end
  end.

(** The loop that reads the permutation. *)
Definition read_perm (t : NumT) (input_perm : list Z) (output_size : Z) : outcome (list Z) :=
  for_range output_size (fun i perm_list => p ← load_num t input_perm i; Ok (perm_list ++ [p])) [].

Definition Compute (op_desc_ptr : option OpDesc) (input : list TensorPtr) (v_output : list GeTensor) : outcome (list GeTensor) :=
  if negb (bool_decide (ValidateInput op_desc_ptr input = SUCCESS)) then Err NOT_CHANGED
  else
    op ← or_stuck op_desc_ptr;
    const_weight ← input_at input 0;
    let src_shape := default [] (InputDims op) in
    let src_data_type := InputDataType op in
    let data_shape := OutputDims op in
    let data_type := OutputDataType op in
    tensor_perm ← input_at input 1;
    let data_dtype := GetDataType tensor_perm in
    let output_size := GetShapeSize (GetDims tensor_perm) in
    let data_size := wrapU 32 (GetSizeByDataType data_dtype) in
    if negb (wrapU64 (output_size * data_size)%i64 =? zlen (GetData tensor_perm)) then Err NOT_CHANGED
    else
      perm_list ← (if bool_decide (data_dtype = DT_INT32) then read_perm (T_int true 32) (GetData tensor_perm) output_size
                   else if bool_decide (data_dtype = DT_INT64) then read_perm (T_int true 64) (GetData tensor_perm) output_size
                   else Err NOT_CHANGED);
      if bool_decide (data_shape = []) || negb (bool_decide (src_data_type = data_type)) then Err NOT_CHANGED
      else if negb (CheckSizeForTransOp (Some const_weight) op_desc_ptr) then Err NOT_CHANGED
      else
        trans_result ← or_else NOT_CHANGED (Transpose.TransposeWithShapeCheck (data_ptr const_weight) src_shape data_shape src_data_type perm_list
          {| res_data := None; res_length := 0 |});
        match MakeShared op 0 with
        | None => Err PARAM_INVALID
        | Some output => emit v_output (set_data trans_result output)
        end.
End Kernel.
End TransposeKernel.

(** * PermuteKernel *)
Module PermuteKernel.
Section Kernel.
Context `{E : Env} `{D : DescLib}.

Definition kAttrOrder : string := "order".
Definition kAttrPerm : string := "perm".
Definition kTbePermuteInputSize : Z := 2.

Definition ValidateInput (op_desc_ptr : option OpDesc) (input : list TensorPtr) : Status :=
  match input with
  | [] | None :: _ => PARAM_INVALID
  | Some const_weight :: _ =>
      match op_desc_ptr, data_ptr const_weight with
      | Some op, Some _ => if kTbePermuteInputSize <=? GetInputsSize op then NOT_CHANGED else SUCCESS
      | _, _ => PARAM_INVALID
      end
  end.

Definition Compute (op_desc_ptr : option OpDesc) (input : list TensorPtr) (v_output : list GeTensor) : outcome (list GeTensor) :=
  let status := ValidateInput op_desc_ptr input in
  if negb (bool_decide (status = SUCCESS)) then Err status
  else
    const_weight ← input_at input 0;
    op ← or_stuck op_desc_ptr;
    let src_shape := default [] (InputDims op) in
    let src_data_type := InputDataType op in
    let data_shape := OutputDims op in
    let data_type := OutputDataType op in
    match (match GetListInt op kAttrOrder with Some l => Some l | None => GetListInt op kAttrPerm end) with
    | None => Err NOT_CHANGED
    | Some perm_list =>
        if bool_decide (data_shape = []) || negb (bool_decide (src_data_type = data_type)) then Err NOT_CHANGED
        else if negb (CheckSizeForTransOp (Some const_weight) op_desc_ptr) then Err NOT_CHANGED
        else
          trans_result ← or_else NOT_CHANGED (Transpose.TransposeWithShapeCheck (data_ptr const_weight) src_shape data_shape src_data_type perm_list
            {| res_data := None; res_length := 0 |});
          match MakeShared op 0 with
          | None => Err PARAM_INVALID
          | Some output =>
              let st := SetDataStatus (result_bytes trans_result) output in
              if negb (bool_decide (st = SUCCESS)) then Err st else emit v_output (SetData (result_bytes trans_result) output)
          end
    end.
End Kernel.
End PermuteKernel.

(** * TransdataKernel *)
Module TransdataKernel.
Section Kernel.
Context `{E : Env} `{D : DescLib} `{R : Transfers}.

Definition kTransdataInputSize : Z := 1.

Definition ValidateInput (op_desc_ptr : option OpDesc) (input : list TensorPtr) : Status :=
  match input with
  | [] | None :: _ => PARAM_INVALID
  | Some _ :: _ =>
      match op_desc_ptr with
      | None => PARAM_INVALID
      | Some op => if negb (GetInputsSize op =? kTransdataInputSize) then NOT_CHANGED else SUCCESS
      end
  end.

Definition Compute (op_desc_ptr : option OpDesc) (input : list TensorPtr) (v_output : list GeTensor) : outcome (list GeTensor) :=
  match op_desc_ptr with
  | None => Err PARAM_INVALID
  | Some op =>
      let status := ValidateInput op_desc_ptr input in
      if negb (bool_decide (status = SUCCESS)) then Err status
      else
        const_weight ← input_at input 0;
        if negb (HasOutputDesc op) then Err PARAM_INVALID
        else
          match InputDims op with
          | None => Err PARAM_INVALID
          | Some src_shape =>
              let src_data_type := InputDataType op in
              let data_shape := OutputDims op in
              let data_type := OutputDataType op in
              let trans_args := mk_args (data_ptr const_weight) (InputFormat op) (OutputFormat op) src_shape data_shape src_data_type in
              if negb (bool_decide (src_data_type = data_type)) || bool_decide (data_shape = []) || negb (IsTransFormatSupport trans_args)
              then Err NOT_CHANGED
              else if negb (CheckSizeForTransOp (Some const_weight) op_desc_ptr) then Err NOT_CHANGED
              else
                trans_result ← or_else NOT_CHANGED (TransFormat trans_args {| res_data := None; res_length := 0 |});
                match MakeShared op 0 with
                | None => Err PARAM_INVALID
                | Some output => emit v_output (set_data trans_result output)
                end
          end
  end.
End Kernel.
End TransdataKernel.

(** * CastKernel *)
Module CastKernel.
Section Kernel.
Context `{E : Env} `{D : DescLib} `{R : Transfers}.

Definition Compute (op_desc_ptr : option OpDesc) (input : list TensorPtr) (v_output : list GeTensor) : outcome (list GeTensor) :=
  match input with
  | [const_weight_ptr] =>
      match const_weight_ptr, op_desc_ptr with
      | Some const_weight, Some op =>
          let src_data_type := InputDataType op in
          let src_shape := default [] (InputDims op) in
          let data_type := OutputDataType op in
          let data_shape := OutputDims op in
          let src_data_size := GetShapeSize src_shape in
          let src_data_size :=
            if (src_data_size =? 0) && (wrapS 32 (zlen (GetData const_weight)) =? GetSizeByDataType src_data_type) then 1 else src_data_size in
          let cast_args := cast_args (data_ptr const_weight) (wrapU64 src_data_size) src_data_type data_type in
          if negb (bool_decide (InputFormat op = OutputFormat op)) || negb (bool_decide (src_shape = data_shape)) ||
             negb (IsTransDataTypeSupport cast_args)
          then Err NOT_CHANGED
          else if negb (CheckSizeForTransOp const_weight_ptr op_desc_ptr) then Err NOT_CHANGED
          else
            trans_result ← or_else NOT_CHANGED (TransDataType cast_args {| res_data := None; res_length := 0 |});
            match MakeShared op 0 with
            | None => Err FAILED
            | Some output => emit v_output (set_data trans_result output)
            end
      | _, _ => Err PARAM_INVALID
      end
  | _ => Err PARAM_INVALID
  end.
End Kernel.
End CastKernel.

(** * What the kernels return *)
Section Theorems.
Context `{E : Env} {HE : EnvOk E} {HS : ElementSizes E} `{HO : ShapeLibOk} {D : DescLib} `{R : Transfers} {HR : TransfersOk E R}.

(** A kernel that folds its operator: the output tensor [o] with data of [M] elements that meet [spec], or no change when the
    buffer of the transfer cannot be allocated. *)
Definition folds (r : outcome (list GeTensor)) (v_output : list GeTensor) (o : GeTensor) (size M : Z) (spec : list Z -> Prop) : Prop :=
  match new_uint8 (M * size) with
  | None => r = Err NOT_CHANGED
  | Some _ => exists out, r = Ok (v_output ++ [SetData out o]) /\ zlen out = M * size /\ spec out
  end.

(** The folded tensor has the shape of the output tensor. *)
Lemma folds_shaped {HT : TensorLibOk _} (b : bool) (shape : list Z) r v_output o size M (P : list Z -> Prop) (Q : Prop) :
  (b = true -> GetDims o = shape) -> (if b then folds r v_output o size M P else Q) ->
  if b then folds r v_output o size M (fun out => GetDims (SetData out o) = shape /\ P out) else Q.
Proof.
  intros Hd Hf. destruct b; [|done]. unfold folds in *. destruct (new_uint8 (M * size)); [|done].
  destruct Hf as (out & Hr & Hl & HP). exists out. split_and!; [done..|rewrite get_dims_data; by apply Hd|done].
Qed.

Lemma result_bytes_all out n : zlen out = n -> result_bytes {| res_data := Some out; res_length := n |} = out.
Proof. intros <-. unfold result_bytes. cbn. apply take_ge. unfold zlen. lia. Qed.

(** What a transfer delivers, the kernels turn into the output. *)
Lemma folds_delivers (tr : outcome TransResult) oom size M spec v_output o (k : TransResult -> outcome (list GeTensor)) :
  delivers tr oom size M spec ->
  (forall out, zlen out = M * size -> k {| res_data := Some out; res_length := M * size |} = Ok (v_output ++ [SetData out o])) ->
  folds (or_else NOT_CHANGED tr ≫= k) v_output o size M spec.
Proof.
  unfold delivers, folds. intros Hd Hk. destruct (new_uint8 (M * size)); [|by rewrite Hd].
  destruct Hd as (out & -> & Hl & Hs). exists out. cbn [or_else mbind outcome_bind]. by rewrite Hk.
Qed.

Lemma read_perm_ok t p : num_ok t -> Forall (num_in t) p -> TransposeKernel.read_perm t (vector_bytes t p) (zlen p) = Ok p.
Proof.
  intros Ht Hp. unfold TransposeKernel.read_perm.
  destruct (for_range_inv (fun i l => l = take (Z.to_nat i) p) (zlen p)
    (fun i perm_list => q ← load_num t (vector_bytes t p) i; Ok (perm_list ++ [q])) []) as (l & -> & ->); [done| |].
  - intros i l Hi ->. destruct (vget_in p i Hi) as (q & Hq & _). rewrite (load_vector t p i q) by done. cbn [mbind outcome_bind].
    eexists. split; [done|].
    assert (p !! Z.to_nat i = Some q) as Hl.
    { unfold vget, at_ in Hq. destruct (i <? 0); [done|]. destruct (p !! Z.to_nat i); congruence. }
    replace (Z.to_nat (i + 1)) with (S (Z.to_nat i)) by lia. by rewrite (take_S_r p (Z.to_nat i) q).
  - f_equal. apply take_ge. unfold zlen. lia.
Qed.

Section Kernels.
Context (op : OpDesc) (x o : GeTensor) (v_output : list GeTensor) (dims : list Z) (dt : DataType).
Local Abbreviation size := (GetSizeByDataType dt).
Local Abbreviation M := (prodZ dims).
Hypothesis Hdims : InputDims op = Some dims.
Hypothesis Hdt : InputDataType op = dt.
Hypothesis Hsize : 0 < size.
Hypothesis Hlen : is_Some (GetDataTypeLength dt).
Hypothesis Hpos : dims <> [] /\ Forall (Z.lt 0) dims /\ M <= 2 ^ 40.
Hypothesis Hmem : CalcTensorMemSize dims (InputFormat op) dt = Some (M * size).
Hypothesis Hx : zlen (GetData x) = M * size.
Hypothesis Ho : MakeShared op 0 = Some o.
Hypothesis Hset : forall b, SetDataStatus b o = SUCCESS.

Lemma trans_size : 0 < M /\ 0 < M * size < 2 ^ 63 /\ GetShapeSize dims = M.
Proof.
  destruct Hpos as (Hne & HF & HT). pose proof (prodZ_gt0 _ HF). pose proof (GetSizeByDataType_small dt).
  split_and!; [done|nia|nia|]. apply shape_size_prod; [done| |lia]. eapply Forall_impl; [exact HF|]. intros; lia.
Qed.

Lemma CheckSize_ok : CheckSizeForTransOp (Some x) (Some op) = true.
Proof.
  destruct trans_size as (? & ? & Hs). destruct Hlen as [len Hlen']. unfold CheckSizeForTransOp.
  rewrite Hdims, Hdt, Hmem, Hlen', Hs, Hx, wrapU64_id by lia.
  destruct (Z.eqb_spec M 0); [lia|]. cbn [negb]. rewrite Z.eqb_refl. by destruct (Z.eqb_spec (M * size) 0); [lia|].
Qed.

Lemma data_ptr_ok : data_ptr x = Some (GetData x).
Proof.
  unfold data_ptr. rewrite has_data_bytes; [done|]. intros H0. destruct trans_size as (_ & ? & _).
  rewrite H0 in Hx. unfold zlen in Hx. cbn [length] in Hx. lia.
Qed.

Lemma set_data_ok out n : zlen out = n -> set_data {| res_data := Some out; res_length := n |} o = SetData out o.
Proof. intros Hl. unfold set_data. rewrite result_bytes_all by done. by rewrite bool_decide_eq_true_2. Qed.

(** The transposition of the tensor, or no change for a list that is no permutation. *)
Lemma Transpose_folds p ds (k : TransResult -> outcome (list GeTensor)) :
  Forall (fun q => q < 2 ^ 63) p ->
  (forall out, zlen out = M * size -> k {| res_data := Some out; res_length := M * size |} = Ok (v_output ++ [SetData out o])) ->
  let r := or_else NOT_CHANGED (Transpose.TransposeWithShapeCheck (Some (GetData x)) dims ds dt p {| res_data := None; res_length := 0 |}) ≫= k in
  if Transpose.IsShapeArgValid dims p then folds r v_output o size M (transposed dt dims p (GetData x)) else r = Err NOT_CHANGED.
Proof.
  intros Hp Hk r. destruct trans_size as (? & ? & _). destruct Hpos as (_ & _ & ?). subst r.
  rewrite (transpose_shape_check_ignored (Some (GetData x)) dims ds dt p _ Hp).
  destruct (Transpose.IsShapeArgValid dims p) eqn:Hv.
  - eapply folds_delivers; [|exact Hk]. by apply (Transpose_delivers dt dims p (GetData x) Hsize Hp Hv).
  - unfold Transpose.Transpose, Transpose.IsTransposeArgValid. rewrite bool_decide_eq_false_2, Hv by done.
    by destruct (size <? 0).
Qed.

Lemma TransposeKernel_ok q d t p :
  (d, t) ∈ [(DT_INT32, T_int true 32); (DT_INT64, T_int true 64)] -> holds q d t [zlen p] p -> zlen p < 2 ^ 32 ->
  GetInputsSize op = 2 -> GetOutputsSize op = 1 -> OutputDims op <> [] -> OutputDataType op = dt ->
  let r := TransposeKernel.Compute (Some op) [Some x; Some q] v_output in
  if Transpose.IsShapeArgValid dims p then folds r v_output o size M (transposed dt dims p (GetData x)) else r = Err NOT_CHANGED.
Proof.
  intros Hd (Hqs & Hqd & Hqb & Hqv & _) Hpl Hin Hout Hod Hot r. subst r. unfold TransposeKernel.Compute, TransposeKernel.ValidateInput.
  rewrite Hin, Hout. cbn [Z.eqb Pos.eqb negb orb]. rewrite (bool_decide_eq_true_2 (SUCCESS = SUCCESS)) by done.
  cbn [negb or_stuck input_at at_ lookup list_lookup mbind outcome_bind]. rewrite Hdims, Hdt, Hqs, Hqd, Hqb. cbn [default].
  assert (0 <= zlen p) by (unfold zlen; lia).
  assert (GetShapeSize [zlen p] = zlen p) as -> by (rewrite shape_size_prod; [cbn; lia|done|by repeat constructor|cbn; lia]).
  assert (num_ok t /\ wrapU 32 (GetSizeByDataType d) = num_size t /\
    (if bool_decide (d = DT_INT32) then TransposeKernel.read_perm (T_int true 32) (vector_bytes t p) (zlen p)
     else if bool_decide (d = DT_INT64) then TransposeKernel.read_perm (T_int true 64) (vector_bytes t p) (zlen p) else Err NOT_CHANGED) = Ok p /\
    Forall (fun q => q < 2 ^ 63) p) as (Ht & -> & -> & Hp).
  { assert (Forall (fun q => q < 2 ^ 63) p) as Hp63.
    { eapply Forall_impl; [exact Hqv|]. intros z Hz.
      repeat (apply elem_of_cons in Hd as [[= -> ->]|Hd]; [unfold num_in, inS in Hz; cbn in Hz; lia|]). by apply elem_of_nil in Hd. }
    apply elem_of_cons in Hd as [[= -> ->]|Hd]; [|apply list_elem_of_singleton in Hd as [= -> ->]].
    - rewrite (element_size DT_INT32 C_int32) by done. split_and!; [by right; right; left|done| |done].
      rewrite bool_decide_eq_true_2 by done. apply read_perm_ok; [by right; right; left|done].
    - rewrite (element_size DT_INT64 C_int64) by done. split_and!; [by right; right; right; left|done| |done].
      rewrite bool_decide_eq_false_2, bool_decide_eq_true_2 by done. apply read_perm_ok; [by right; right; right; left|done]. }
  pose proof (num_size_pos t Ht). assert ((zlen p * num_size t)%i64 = zlen p * num_size t) as -> by (apply wrap64_id; nia).
  rewrite wrapU64_id by nia. rewrite zlen_vector by done. rewrite Z.eqb_refl. cbn [negb mbind outcome_bind].
  rewrite (bool_decide_eq_false_2 (OutputDims op = [])), (bool_decide_eq_true_2 (dt = OutputDataType op)) by done. cbn [negb orb].
  rewrite CheckSize_ok, data_ptr_ok. cbn [negb]. rewrite Ho. apply Transpose_folds; [done|].
  intros out Hl. unfold emit. by rewrite set_data_ok.
Qed.

Lemma PermuteKernel_ok p :
  (GetListInt op PermuteKernel.kAttrOrder = Some p \/
   GetListInt op PermuteKernel.kAttrOrder = None /\ GetListInt op PermuteKernel.kAttrPerm = Some p) ->
  Forall (fun q => q < 2 ^ 63) p -> GetInputsSize op < 2 -> OutputDims op <> [] -> OutputDataType op = dt ->
  let r := PermuteKernel.Compute (Some op) [Some x] v_output in
  if Transpose.IsShapeArgValid dims p then folds r v_output o size M (transposed dt dims p (GetData x)) else r = Err NOT_CHANGED.
Proof.
  intros Hattr Hp Hin Hod Hot r. subst r. unfold PermuteKernel.Compute, PermuteKernel.ValidateInput, PermuteKernel.kTbePermuteInputSize.
  rewrite data_ptr_ok. destruct (Z.leb_spec 2 (GetInputsSize op)); [lia|]. rewrite (bool_decide_eq_true_2 (SUCCESS = SUCCESS)) by done.
  cbn [negb or_stuck input_at at_ lookup list_lookup mbind outcome_bind]. rewrite Hdims, Hdt. cbn [default].
  assert (match GetListInt op PermuteKernel.kAttrOrder with Some l => Some l | None => GetListInt op PermuteKernel.kAttrPerm end = Some p) as ->
    by (destruct Hattr as [-> | [-> ->]]; done).
  rewrite (bool_decide_eq_false_2 (OutputDims op = [])), (bool_decide_eq_true_2 (dt = OutputDataType op)) by done. cbn [negb orb].
  rewrite CheckSize_ok, data_ptr_ok. cbn [negb]. rewrite Ho. apply Transpose_folds; [done|].
  intros out Hl. rewrite result_bytes_all by done. rewrite Hset. by rewrite bool_decide_eq_true_2.
Qed.

(** TransData runs the transfer registered for its pair of formats. *)
Lemma TransdataKernel_run ds fw :
  GetInputsSize op = 1 -> HasOutputDesc op = true -> OutputDims op = ds -> ds <> [] -> OutputDataType op = dt ->
  assoc (InputFormat op, OutputFormat op) registrations = Some fw -> CheckSizeForTransOp (Some x) (Some op) = true ->
  is_Some (data_ptr x) ->
  TransdataKernel.Compute (Some op) [Some x] v_output =
    (r ← or_else NOT_CHANGED (tf_TransFormat fw (mk_args (data_ptr x) (InputFormat op) (OutputFormat op) dims ds dt) {| res_data := None; res_length := 0 |});
     Ok (v_output ++ [set_data r o])).
Proof.
  intros Hin Hod <- Hne Hot Hfw Hck [b Hb]. unfold TransdataKernel.Compute, TransdataKernel.ValidateInput, TransdataKernel.kTransdataInputSize.
  rewrite Hin. cbn [Z.eqb Pos.eqb negb]. rewrite (bool_decide_eq_true_2 (SUCCESS = SUCCESS)) by done.
  cbn [negb input_at at_ lookup list_lookup mbind outcome_bind or_stuck]. rewrite Hod, Hdims, Hdt, Hot, Hck. cbn [negb].
  rewrite (bool_decide_eq_true_2 (dt = dt)), (bool_decide_eq_false_2 (OutputDims op = [])) by done. cbn [negb orb].
  assert (IsTransFormatSupport (mk_args (data_ptr x) (InputFormat op) (OutputFormat op) dims (OutputDims op) dt) = true) as ->.
  { apply exists_registered. cbn. apply assoc_in in Hfw. by apply (list_elem_of_fmap_2 fst) in Hfw. }
  cbn [negb]. unfold TransFormat. rewrite Build_eq. cbn [mk_args src_format dst_format data src_shape]. rewrite Hfw, Hb.
  rewrite bool_decide_eq_false_2 by done. cbn [andb]. by rewrite Ho.
Qed.

(** Cast of every element. *)
Lemma CastKernel_ok d S C :
  OutputDims op = dims -> OutputFormat op = InputFormat op -> OutputDataType op = d ->
  trans_mode_map dt d <> None -> make_DataTypeTransfer = true -> elem_type dt = Some S -> elem_type d = Some C ->
  (forall k, 0 <= k < M -> is_Some (cast S C (le_value (elem (sizeof S) (GetData x) k)))) ->
  folds (CastKernel.Compute (Some op) [Some x] v_output) v_output o (sizeof C) M (fun out =>
    forall k, 0 <= k < M -> exists v, cast S C (le_value (elem (sizeof S) (GetData x) k)) = Some v /\
      elem (sizeof C) out k = le_bytes (Z.to_nat (sizeof C)) v).
Proof.
  intros Hod Hof Hot Hmode Hmk HS1 HC1 Hc. destruct trans_size as (? & ? & Hs). destruct Hpos as (_ & _ & ?).
  unfold CastKernel.Compute. rewrite Hdims, Hdt, Hot, Hod, Hof. change (default [] (Some dims)) with dims. rewrite Hs.
  destruct (Z.eqb_spec M 0); [lia|]. cbn [andb]. rewrite wrapU64_id by lia.
  rewrite !bool_decide_eq_true_2 by done. cbn [negb orb].
  assert (Hsup : DataTypeTransferExists (cast_args (data_ptr x) M dt d) = true)
    by (unfold DataTypeTransferExists; cbn; by destruct (trans_mode_map dt d)).
  unfold IsTransDataTypeSupport. rewrite Hsup. cbn [negb]. rewrite CheckSize_ok. cbn [negb]. rewrite Ho.
  unfold TransDataType, BuildDataTypeTransfer. rewrite Hsup, Hmk. cbn [andb negb]. rewrite data_ptr_ok. cbn [cast_args c_data].
  rewrite bool_decide_eq_false_2 by done. cbn [andb].
  eapply folds_delivers; [apply (TransDataType_ok (cast_args (Some (GetData x)) M dt d) _ S C (GetData x)); try done|].
  - cbn. destruct C; cbn; lia.
  - cbn. rewrite Hx. by rewrite (element_size dt S).
  - intros out Hl. cbn [cast_args c_src_data_size] in Hl |- *. unfold emit. by rewrite set_data_ok.
Qed.
End Kernels.
End Theorems.

(** C23 Transpose with a permutation tensor of either integer type and Permute with its attribute return the transposed
    constant, when the output of the operator has the transposed shape: the result has that shape, and the element at each
    multi-index of the input stands at the permuted multi-index of the output.  A list that is no permutation of the
    axes, and a buffer that cannot be allocated, leave the operator in the graph.  For another output shape
    TransposeWithShapeCheck only logs the mismatch and transposes as well ([transpose_shape_check_ignored]). *)
Theorem transpose_kernels_exact `{E : Env} {HE : EnvOk E} {HS : ElementSizes E} `{HT : TensorLibOk} {S : ShapeLib} {HO : ShapeLibOk S} {D : DescLib}
    op x o v_output dims dt p :
  InputDims op = Some dims -> InputDataType op = dt -> OutputDataType op = dt -> OutputDims op <> [] ->
  0 < GetSizeByDataType dt -> is_Some (GetDataTypeLength dt) -> dims <> [] /\ Forall (Z.lt 0) dims /\ prodZ dims <= 2 ^ 40 ->
  CalcTensorMemSize dims (InputFormat op) dt = Some (prodZ dims * GetSizeByDataType dt) ->
  zlen (GetData x) = prodZ dims * GetSizeByDataType dt ->
  MakeShared op 0 = Some o -> (forall b, SetDataStatus b o = SUCCESS) -> GetDims o = OutputDims op ->
  (Transpose.IsShapeArgValid dims p = true -> OutputDims op = permute p dims) ->
  let exact r :=
    if Transpose.IsShapeArgValid dims p
    then folds r v_output o (GetSizeByDataType dt) (prodZ dims) (fun out => GetDims (SetData out o) = permute p dims /\
      forall idx, in_shape dims idx ->
        elem (GetSizeByDataType dt) out (linear (permute p dims) (permute p idx)) = elem (GetSizeByDataType dt) (GetData x) (linear dims idx))
    else r = Err NOT_CHANGED in
  (forall q d t, (d, t) ∈ [(DT_INT32, T_int true 32); (DT_INT64, T_int true 64)] -> holds q d t [zlen p] p -> zlen p < 2 ^ 32 ->
     GetInputsSize op = 2 -> GetOutputsSize op = 1 -> exact (TransposeKernel.Compute (Some op) [Some x; Some q] v_output)) /\
  (GetListInt op PermuteKernel.kAttrOrder = Some p \/
   GetListInt op PermuteKernel.kAttrOrder = None /\ GetListInt op PermuteKernel.kAttrPerm = Some p ->
   Forall (fun q => q < 2 ^ 63) p -> GetInputsSize op < 2 -> exact (PermuteKernel.Compute (Some op) [Some x] v_output)).
Proof.
  intros. assert (Hshape : Transpose.IsShapeArgValid dims p = true -> GetDims o = permute p dims) by (etrans; eauto).
  split; intros; (apply folds_shaped; [exact Hshape|]); [by eapply TransposeKernel_ok|by eapply PermuteKernel_ok].
Qed.

(** Two TransData operators that undo each other fold to the constant they start from, for every pair of formats with a
    transfer in both directions: the second kernel returns the data of the first one's input, or leaves its operator in the
    graph when the buffer cannot be allocated. *)
Theorem transdata_kernels_roundtrip `{E : Env} {HE : EnvOk E} `{HT : TensorLibOk} {S : ShapeLib} {HO : ShapeLibOk S} {D : DescLib}
    `{R : Transfers} {HR : TransfersOk E R} op op' x o o' z v_output dims ds dt f g :
  Forall (fun n => n < 2 ^ 63) dims -> dims <> [] -> 0 < prodZ dims <= 2 ^ 40 -> 0 < GetSizeByDataType dt ->
  zlen (GetData x) = prodZ dims * GetSizeByDataType dt ->
  (InputDims op = Some dims /\ OutputDims op = ds /\ InputFormat op = f /\ OutputFormat op = g /\ InputDataType op = dt /\ OutputDataType op = dt) ->
  (InputDims op' = Some ds /\ OutputDims op' = dims /\ InputFormat op' = g /\ OutputFormat op' = f /\ InputDataType op' = dt /\ OutputDataType op' = dt) ->
  (GetInputsSize op = 1 /\ HasOutputDesc op = true /\ MakeShared op 0 = Some o /\ forall b, SetDataStatus b o = SUCCESS) ->
  (GetInputsSize op' = 1 /\ HasOutputDesc op' = true /\ MakeShared op' 0 = Some o' /\ forall b, SetDataStatus b o' = SUCCESS) ->
  ds <> [] -> TransShape f dims dt g = Ok ds -> IsTransFormatSupport (mk_args None g f ds dims dt) = true ->
  CheckSizeForTransOp (Some x) (Some op) = true -> CheckSizeForTransOp (Some z) (Some op') = true -> has_data z = true ->
  TransdataKernel.Compute (Some op) [Some x] [] = Ok [z] ->
  folds (TransdataKernel.Compute (Some op') [Some z] v_output) v_output o' (GetSizeByDataType dt) (prodZ dims) (fun out => out = GetData x).
Proof.
  intros Hint Hne HT2 Hs Hx (Hi & Ho1 & Hf & Hg & Hdi & Hdo) (Hi' & Ho1' & Hf' & Hg' & Hdi' & Hdo') (Hn & Hod & Hm & Hset) (Hn' & Hod' & Hm' & Hset')
    Hds Hts Hsup Hck Hck' Hz Hrun.
  unfold TransShape in Hts. rewrite Build_eq in Hts. cbn [mk_args src_format dst_format] in Hts.
  destruct (assoc (f, g) registrations) as [fw|] eqn:Hfw; [|done].
  destruct (assoc (g, f) registrations) as [bw|] eqn:Hbw; [|apply assoc_out in Hbw; by apply exists_registered in Hsup].
  assert (data_ptr x = Some (GetData x)) as Hdx.
  { unfold data_ptr. rewrite has_data_bytes; [done|]. intros H0. rewrite H0 in Hx. unfold zlen in Hx. cbn [length] in Hx. nia. }
  assert (data_ptr z = Some (GetData z)) as Hdz by (unfold data_ptr; by rewrite Hz).
  rewrite (TransdataKernel_run op x o [] dims dt Hi Hdi Hm ds fw) in Hrun by (subst; eauto). rewrite Hdx, Hf, Hg in Hrun.
  destruct (tf_TransFormat fw _ _) as [r| |] eqn:Hr; [|done..]. cbn [or_else mbind outcome_bind app] in Hrun. injection Hrun as Hzr.
  destruct (pair_comes_back dt dims ds (GetData x) Hint HT2 Hs Hx f g fw bw Hfw Hbw Hts _ {| res_data := None; res_length := 0 |} r Hr)
    as [(out & Hro & Hrl) [st Hback]].
  assert (GetData z = out) as Hzd.
  { rewrite <- Hzr. unfold set_data. rewrite Hset, bool_decide_eq_true_2, get_data_data by done. destruct r as [rd rl]. cbn in Hro, Hrl.
    subst. by apply result_bytes_all. }
  rewrite (TransdataKernel_run op' z o' v_output ds dt Hi' Hdi' Hm' dims bw) by (rewrite ?Hf', ?Hg', ?Hdz; eauto).
  rewrite Hdz, Hzd, <- Hro, Hf', Hg'. eapply folds_delivers; [exact Hback|].
  intros back Hl. cbn. by rewrite set_data_ok.
Qed.

(** Cast between element types returns every element cast, in a tensor of the same shape, when the language
    defines the casts; a buffer that cannot be allocated leaves the operator in the graph. *)
Theorem cast_kernel_exact `{E : Env} {HE : EnvOk E} {HS : ElementSizes E} `{HO : ShapeLibOk} {D : DescLib} `{R : Transfers}
    op x o v_output dims s d S C :
  InputDims op = Some dims -> OutputDims op = dims -> OutputFormat op = InputFormat op -> InputDataType op = s -> OutputDataType op = d ->
  0 < GetSizeByDataType s -> is_Some (GetDataTypeLength s) -> dims <> [] /\ Forall (Z.lt 0) dims /\ prodZ dims <= 2 ^ 40 ->
  CalcTensorMemSize dims (InputFormat op) s = Some (prodZ dims * GetSizeByDataType s) ->
  zlen (GetData x) = prodZ dims * GetSizeByDataType s -> MakeShared op 0 = Some o -> (forall b, SetDataStatus b o = SUCCESS) ->
  trans_mode_map s d <> None -> make_DataTypeTransfer = true -> elem_type s = Some S -> elem_type d = Some C ->
  (forall k, 0 <= k < prodZ dims -> is_Some (cast S C (le_value (elem (sizeof S) (GetData x) k)))) ->
  folds (CastKernel.Compute (Some op) [Some x] v_output) v_output o (sizeof C) (prodZ dims) (fun out =>
    forall k, 0 <= k < prodZ dims -> exists v, cast S C (le_value (elem (sizeof S) (GetData x) k)) = Some v /\
      elem (sizeof C) out k = le_bytes (Z.to_nat (sizeof C)) v).
Proof. intros. apply (CastKernel_ok op x o v_output dims s) with (d := d); done. Qed.

(** * Runs on concrete tensors *)
Record TransOp := mkTrans { to_inputs : Z; to_order : option (list Z); to_in : list Z; to_out : list Z; to_in_format : Format; to_out_format : Format;
  to_in_type : DataType; to_out_type : DataType }.
#[local] Instance trans_lib : TensorLib := {|
  GeTensor := SampleTensor;
  OpDesc := TransOp;
  GetDims := s_dims;
  GetDataType := s_type;
  GetData := s_data;
  GetOutputsSize := fun _ => 1;
  MakeShared := fun op _ => Some (mkSample (to_out op) (to_out_type op) []);
  SetData := fun b t => mkSample (s_dims t) (s_type t) b;
  SetDataType := fun d t => mkSample (s_dims t) d (s_data t);
  SetShape := fun s t => mkSample s (s_type t) (s_data t);
  GetDataTypeLength := fun d => num_size <$> num_type d;
|}.
#[local] Instance trans_shapes : ShapeLib (T := trans_lib) := {|
  GetShapeSize := fun s => match s with [] => 0 | _ => prodZ s end;
  GetDim := fun s i => if i <? 0 then 0 else default 0 (s !! Z.to_nat i);
  has_data := fun x => negb (zlen (s_data x) =? 0);
  GetInputsSize := to_inputs;
  InputDims := fun op => Some (to_in op);
  InputDataType := to_in_type;
  OutputDims := to_out;
  GetInt_u32 := fun _ _ => None;
  GetInt_i32 := fun _ _ => None;
  GetInt_i64 := fun _ _ => None;
  GetListInt := fun op name => if (name =? "order")%string then to_order op else None;
  GetBool := fun _ _ => None;
  STRIDE_SLICE_ATTR_BEGIN_MASK := "begin_mask";
  STRIDE_SLICE_ATTR_END_MASK := "end_mask";
  STRIDE_SLICE_ATTR_ELLIPSIS_MASK := "ellipsis_mask";
  STRIDE_SLICE_ATTR_NEW_AXIS_MASK := "new_axis_mask";
  STRIDE_SLICE_ATTR_SHRINK_AXIS_MASK := "shrink_axis_mask";
  PACK_ATTR_NAME_NUM := "N";
  ATTR_NAME_AXIS := "axis";
  ATTR_NAME_N := "N";
|}.
#[local] Instance trans_desc : DescLib (S := trans_shapes) := {|
  InputFormat := to_in_format;
  OutputFormat := to_out_format;
  OutputDataType := to_out_type;
  HasOutputDesc := fun _ => true;
  CalcTensorMemSize := fun s _ d => Some (prodZ s * GetSizeByDataType (Env := sample_env) d);
  SetDataStatus := fun _ _ => SUCCESS;
|}.

#[local] Instance trans_lib_ok : TensorLibOk trans_lib.
Proof. split; try done. intros d t H. cbn. by rewrite H. Qed.
#[local] Instance trans_shapes_ok : ShapeLibOk trans_shapes.
Proof.
  split; try done.
  - by intros [].
  - intros s i d H. cbn. unfold vget, at_ in H. destruct (i <? 0); [done|]. by destruct (s !! Z.to_nat i); simplify_eq.
  - intros s i H. cbn. destruct (Z.ltb_spec i 0); [done|]. rewrite lookup_ge_None_2; [done|]. unfold zlen in H. lia.
  - intros x H. cbn. destruct (s_data x) eqn:Ex; [by rewrite <- Ex in H|]. rewrite zlen_cons. pose proof (zlen_nonneg l).
    by destruct (Z.eqb_spec (zlen l + 1) 0); [lia|].
Qed.

(** A 2 x 3 matrix of bytes and its transposition, by a tensor and by an attribute. *)
Lemma transpose_kernels_exact_witness :
  let op i := mkTrans i (Some [1; 0]) [2; 3] [3; 2] FORMAT_ND FORMAT_ND DT_INT8 DT_INT8 in
  let x := tensor DT_INT8 (T_int true 8) [2; 3] [1; 2; 3; 4; 5; 6] in
  let spec out := s_dims (mkSample [3; 2] DT_INT8 out) = permute [1; 0] [2; 3] /\ forall idx, in_shape [2; 3] idx -> elem 1 out (linear (permute [1; 0] [2; 3]) (permute [1; 0] idx)) = elem 1 [1; 2; 3; 4; 5; 6] (linear [2; 3] idx) in
  (exists out, TransposeKernel.Compute (E := sample_env) (Some (op 2)) [Some x; Some (tensor DT_INT32 (T_int true 32) [2] [1; 0])] []
     = Ok [mkSample [3; 2] DT_INT8 out] /\ zlen out = 6 /\ spec out) /\
  (exists out, PermuteKernel.Compute (E := sample_env) (Some (op 1)) [Some x] [] = Ok [mkSample [3; 2] DT_INT8 out] /\ zlen out = 6 /\ spec out).
Proof.
  intros op x spec. split.
  - refine (proj1 (transpose_kernels_exact (E := sample_env) (op 2) x (mkSample [3; 2] DT_INT8 []) [] [2; 3] DT_INT8 [1; 0]
      eq_refl eq_refl eq_refl _ eq_refl _ _ eq_refl eq_refl eq_refl (fun _ => eq_refl) eq_refl (fun _ => eq_refl)) (tensor DT_INT32 (T_int true 32) [2] [1; 0])
      DT_INT32 (T_int true 32) _ _ eq_refl eq_refl eq_refl); [discriminate|by eexists|by repeat constructor|left|].
    repeat split; repeat constructor; discriminate.
  - refine (proj2 (transpose_kernels_exact (E := sample_env) (op 1) x (mkSample [3; 2] DT_INT8 []) [] [2; 3] DT_INT8 [1; 0]
      eq_refl eq_refl eq_refl _ eq_refl _ _ eq_refl eq_refl eq_refl (fun _ => eq_refl) eq_refl (fun _ => eq_refl)) (or_introl eq_refl) _ eq_refl);
      [discriminate|by eexists|by repeat constructor|by repeat constructor].
Defined.

(** Two halves from ND to FRACTAL_NZ and back. *)
Lemma transdata_kernels_roundtrip_witness :
  let op := mkTrans 1 None [2] [1; 1; 16; 16] FORMAT_ND FORMAT_FRACTAL_NZ DT_FLOAT16 DT_FLOAT16 in
  let op' := mkTrans 1 None [1; 1; 16; 16] [2] FORMAT_FRACTAL_NZ FORMAT_ND DT_FLOAT16 DT_FLOAT16 in
  folds (E := sample_env) (TransdataKernel.Compute (R := sample_transfers) (Some op')
    [Some (mkSample [1; 1; 16; 16] DT_FLOAT16 ([1; 2; 3; 4] ++ repeat 0 508))] []) [] (mkSample [2] DT_FLOAT16 []) 2 2 (fun out => out = [1; 2; 3; 4]).
Proof.
  cbv zeta.
  apply (transdata_kernels_roundtrip (E := sample_env) (T := trans_lib) (S := trans_shapes) (D := trans_desc) (R := sample_transfers) (HR := sample_transfers_ok)
    (mkTrans 1 None [2] [1; 1; 16; 16] FORMAT_ND FORMAT_FRACTAL_NZ DT_FLOAT16 DT_FLOAT16)
    (mkTrans 1 None [1; 1; 16; 16] [2] FORMAT_FRACTAL_NZ FORMAT_ND DT_FLOAT16 DT_FLOAT16) (mkSample [2] DT_FLOAT16 [1; 2; 3; 4])
    (mkSample [1; 1; 16; 16] DT_FLOAT16 []) (mkSample [2] DT_FLOAT16 []) (mkSample [1; 1; 16; 16] DT_FLOAT16 ([1; 2; 3; 4] ++ repeat 0 508)) []
    [2] [1; 1; 16; 16] DT_FLOAT16 FORMAT_ND FORMAT_FRACTAL_NZ).
  - by repeat constructor.
  - discriminate.
  - split; vm_compute; congruence.
  - reflexivity.
  - reflexivity.
  - by split_and!.
  - by split_and!.
  - by split_and!.
  - by split_and!.
  - discriminate.
  - vm_compute. reflexivity.
  - reflexivity.
  - vm_compute. reflexivity.
  - vm_compute. reflexivity.
  - vm_compute. reflexivity.
  - vm_compute. reflexivity.
Defined.

(** 1.0f and 2.5f as halves. *)
Lemma cast_kernel_exact_witness :
  folds (E := sample_env) (CastKernel.Compute (E := sample_env) (R := sample_transfers)
      (Some (mkTrans 1 None [2] [2] FORMAT_ND FORMAT_ND DT_FLOAT DT_FLOAT16)) [Some (mkSample [2] DT_FLOAT [0; 0; 128; 63; 0; 0; 32; 64])] [])
    [] (mkSample [2] DT_FLOAT16 []) 2 2 (fun out => forall k, 0 <= k < 2 -> exists v,
      cast C_float C_fp16 (le_value (elem 4 [0; 0; 128; 63; 0; 0; 32; 64] k)) = Some v /\ elem 2 out k = le_bytes 2 v).
Proof.
  apply (cast_kernel_exact (E := sample_env) (T := trans_lib) (S0 := trans_shapes) (D := trans_desc) (R := sample_transfers) (mkTrans 1 None [2] [2] FORMAT_ND FORMAT_ND DT_FLOAT DT_FLOAT16)
    (mkSample [2] DT_FLOAT [0; 0; 128; 63; 0; 0; 32; 64]) (mkSample [2] DT_FLOAT16 []) [] [2] DT_FLOAT DT_FLOAT16 C_float C_fp16); try reflexivity; try discriminate.
  - by eexists.
  - by repeat constructor.
  - apply below_2; eexists; reflexivity.
Defined.
