(* ===== verification/GatherKernels.v ===== *)
(** The host kernels that join tensors and pick from them: GatherV2, Pack, ConcatV2 and ConcatOffset
    (ge/host_kernels).

    A pointer into the data of a tensor is an offset, in elements or in bytes as the code has it; the
    copies are memcpy_s calls on the buffers.  GatherV2 keeps the indices in its object, so
    its result carries them. *)
From stdpp Require Import strings.
From S2P Require Import Prelude MathUtil Buffer FormatsUtils Bytes Fp16 DataTypeTransfer FloatMath BCast HostKernels SliceKernels.

(** * GatherV2Kernel *)
Module GatherV2Kernel.
Section Gather.
Context `{E : Env} `{S : ShapeLib}.

(** The part of the four routines that copies one run of [n] elements of [size] bytes. *)
Definition copy_run (size : Z) (x : list Z) (output_size x_off y_off n : Z) (y : list Z) : outcome (list Z) :=
  if y_off <? 0 then Err PARAM_INVALID
  else
    let offset_size := wrapU64 (y_off * size) in
    let '(ret_mem, y) := memcpy_s y (y_off * size) (wrapU64 (output_size - offset_size)) (Some x) (x_off * size) (wrapU64 (size * n)) in
    if ret_mem =? 0 then Ok y else Err MEMALLOC_FAILED.

(** [x] and [y] are the data of the input and of the output, [dims] the shape of the output. *)
Definition ProcessAxis0 (size : Z) (x dims indicates_ xstride_ ystride_ y : list Z) : outcome (list Z) :=
  let output_size := zlen y in
  for_range (GetDim dims 0) (fun i y =>
    ind ← vget indicates_ i; xs0 ← vget xstride_ 0; ys0 ← vget ystride_ 0;
    copy_run size x output_size (ind * xs0)%i64 (i * ys0)%i64 xs0 y) y.

Definition ProcessAxis1 (size : Z) (x dims indicates_ xstride_ ystride_ y : list Z) : outcome (list Z) :=
  let output_size := zlen y in
  for_range (GetDim dims 0) (fun i y =>
    xs0 ← vget xstride_ 0; ys0 ← vget ystride_ 0;
    for_range (GetDim dims 1) (fun j y =>
      ind ← vget indicates_ j; xs1 ← vget xstride_ 1; ys1 ← vget ystride_ 1;
      copy_run size x output_size (i * xs0 + ind * xs1)%i64 (i * ys0 + j * ys1)%i64 xs1 y) y) y.

Definition ProcessAxis2 (size : Z) (x dims indicates_ xstride_ ystride_ y : list Z) : outcome (list Z) :=
  let output_size := zlen y in
  for_range (GetDim dims 0) (fun i y =>
    xs0 ← vget xstride_ 0; ys0 ← vget ystride_ 0;
    for_range (GetDim dims 1) (fun j y =>
      xs1 ← vget xstride_ 1; ys1 ← vget ystride_ 1;
      for_range (GetDim dims 2) (fun m y =>
        ind ← vget indicates_ m; xs2 ← vget xstride_ 2; ys2 ← vget ystride_ 2;
        copy_run size x output_size (i * xs0 + j * xs1 + ind * xs2)%i64 (i * ys0 + j * ys1 + m * ys2)%i64 xs2 y) y) y) y.

Definition ProcessAxis3 (size : Z) (x dims indicates_ xstride_ ystride_ y : list Z) : outcome (list Z) :=
  let output_size := zlen y in
  for_range (GetDim dims 0) (fun i y =>
    xs0 ← vget xstride_ 0; ys0 ← vget ystride_ 0;
    for_range (GetDim dims 1) (fun j y =>
      xs1 ← vget xstride_ 1; ys1 ← vget ystride_ 1;
      for_range (GetDim dims 2) (fun m y =>
        xs2 ← vget xstride_ 2; ys2 ← vget ystride_ 2;
        for_range (GetDim dims 3) (fun n y =>
          ind ← vget indicates_ n; xs3 ← vget xstride_ 3; ys3 ← vget ystride_ 3;
          copy_run size x output_size (i * xs0 + j * xs1 + m * xs2 + ind * xs3)%i64 (i * ys0 + j * ys1 + m * ys2 + n * ys3)%i64 xs3 y) y) y) y) y.

(** SetData is taken to succeed; on a failure, which it reports when memory is short, the code answers INTERNAL_ERROR. *)
Definition GenData (t : NumT) (data_num : Z) (x : GeTensor) (axis : Z) (indicates_ xstride_ ystride_ : list Z) (output : GeTensor) :
    outcome GeTensor :=
  let size := num_size t in
  if data_num <=? 0 then Err PARAM_INVALID
  else if negb (CheckInt64MulOverflow data_num size) then Err PARAM_INVALID
  else
    match new_uint8_zero (data_num * size) with
    | None => Err MEMALLOC_FAILED
    | Some buf =>
        y ← (if axis =? 0 then ProcessAxis0 size (GetData x) (GetDims output) indicates_ xstride_ ystride_ buf
             else if axis =? 1 then ProcessAxis1 size (GetData x) (GetDims output) indicates_ xstride_ ystride_ buf
             else if axis =? 2 then ProcessAxis2 size (GetData x) (GetDims output) indicates_ xstride_ ystride_ buf
             else if axis =? 3 then ProcessAxis3 size (GetData x) (GetDims output) indicates_ xstride_ ystride_ buf
             else Err NOT_CHANGED);
        Ok (SetData y output)
    end.

(** [stride] has its size already; the last stride is 1, the others are filled from the back. *)
Definition CalcStride (stride dims : list Z) : outcome (list Z) :=
  if negb (length stride =? length dims)%nat || (length dims =? 0)%nat then Err PARAM_INVALID
  else
    stride ← vset stride (zlen dims - 1) 1;
    for_range (zlen dims - 1) (fun k stride =>
      let index := zlen dims - 1 - k in
      s ← vget stride index;
      d ← vget dims index;
      if negb (CheckInt64MulOverflow s d) then Err PARAM_INVALID else vset stride (index - 1) (s * d)%i64) stride.

Definition gather_type (d : DataType) : option NumT :=
  match d with
  | DT_FLOAT16 => Some T_half
  | DT_DOUBLE => Some T_double
  | DT_INT8 => Some (T_int true 8)
  | DT_INT16 => Some (T_int true 16)
  | DT_INT32 => Some (T_int true 32)
  | DT_INT64 => Some (T_int true 64)
  | DT_UINT8 => Some (T_int false 8)
  | DT_UINT16 => Some (T_int false 16)
  | DT_UINT32 => Some (T_int false 32)
  | DT_UINT64 => Some (T_int false 64)
  | _ => None
  end.

Definition Process (axis : Z) (data_type : DataType) (x : GeTensor) (indicates_ xstride_ ystride_ : list Z) (output : GeTensor) : outcome GeTensor :=
  let data_num := GetShapeSize (GetDims output) in
  match gather_type data_type with
  | Some t => GenData t data_num x axis indicates_ xstride_ ystride_ output
  | None => Err NOT_CHANGED
  end.

(** The loop over the indices; the ones before an invalid one stay in the object. *)
Fixpoint save_indices (t : NumT) (data : list Z) (bound : Z) (n : nat) (i : Z) (indicates_ : list Z) : outcome (Status * list Z) :=
  match n with
  | O => Ok (SUCCESS, indicates_)
  | Datatypes.S n =>
      v ← load_num t data i;
      if (v <? 0) || (bound <=? v) then Ok (NOT_CHANGED, indicates_)
      else save_indices t data bound n (i + 1) (indicates_ ++ [v])
  end.

Definition SaveIndicesByDataType (indices : GeTensor) (x_shape indices_shape : list Z) (indices_data_type : DataType) (axis : Z)
    (indicates_ : list Z) : outcome (Status * list Z) :=
  let t := if bool_decide (indices_data_type = DT_INT32) then T_int true 32 else T_int true 64 in
  save_indices t (GetData indices) (GetDim x_shape axis) (Z.to_nat (GetShapeSize indices_shape)) 0 indicates_.

Definition kMaxIndicatesDims : Z := 1.
Definition index_type (d : DataType) : bool := bool_decide (d = DT_INT32) || bool_decide (d = DT_INT64).

Definition Check (op_desc_ptr : option OpDesc) (input : list TensorPtr) : Status :=
  match op_desc_ptr, input with
  | Some _, [Some tensor0; Some tensor1; Some tensor2] =>
      if (zlen (GetData tensor0) =? 0) || (zlen (GetData tensor1) =? 0) || (zlen (GetData tensor2) =? 0) then NOT_CHANGED
      else if negb (length (GetDims tensor2) =? 0)%nat then NOT_CHANGED
      else if negb (index_type (GetDataType tensor2)) then NOT_CHANGED
      else if negb (index_type (GetDataType tensor1)) then NOT_CHANGED
      else if kMaxIndicatesDims <? zlen (GetDims tensor1) then NOT_CHANGED
      else SUCCESS
  | _, _ => NOT_CHANGED
  end.

Definition supported_type : list DataType :=
  [DT_FLOAT16; DT_DOUBLE; DT_INT8; DT_INT16; DT_INT16; DT_INT32; DT_INT64; DT_UINT8; DT_UINT16; DT_UINT32; DT_UINT64].

(** `x_shape[0 .. axis) ++ indices_shape ++ x_shape[axis + 1 ..)` *)
Definition y_shape_of (x_shape indices_shape : list Z) (axis : Z) : list Z :=
  (GetDim x_shape <$> seqZ 0 axis) ++ (GetDim indices_shape <$> seqZ 0 (zlen indices_shape)) ++
  (GetDim x_shape <$> seqZ (axis + 1) (zlen x_shape - (axis + 1))).

(** The status, the outputs, and the indices the object is left with. *)
Definition Compute (indicates_ : list Z) (op_desc_ptr : option OpDesc) (input : list TensorPtr) (v_output : list GeTensor) :
    outcome (Status * list GeTensor * list Z) :=
  if negb (bool_decide (Check op_desc_ptr input = SUCCESS)) then Ok (NOT_CHANGED, v_output, indicates_)
  else
    op_desc ← or_stuck op_desc_ptr;
    tensor0 ← input_at input 0;
    tensor1 ← input_at input 1;
    tensor2 ← input_at input 2;
    let x_shape := GetDims tensor0 in
    let indices_shape := GetDims tensor1 in
    axis ← load_num (if bool_decide (GetDataType tensor2 = DT_INT32) then T_int true 32 else T_int true 64) (GetData tensor2) 0;
    let axis := if 0 <=? axis then axis else (axis + zlen x_shape)%i64 in
    if (axis <? 0) || (zlen x_shape <? (axis + 1)%i64) then Ok (NOT_CHANGED, v_output, indicates_)
    else
      '(ret, indicates_) ← SaveIndicesByDataType tensor1 x_shape indices_shape (GetDataType tensor1) axis indicates_;
      if negb (bool_decide (ret = SUCCESS)) then Ok (ret, v_output, indicates_)
      else
        let x_data_type := GetDataType tensor0 in
        if negb (supports supported_type x_data_type) then Ok (NOT_CHANGED, v_output, indicates_)
        else
          let y_shape := y_shape_of x_shape indices_shape axis in
          match MakeShared op_desc 0 with
          | None => Ok (NOT_CHANGED, v_output, indicates_)
          | Some output =>
              let output_ptr := SetDataType x_data_type (SetShape y_shape output) in
              match CalcStride (repeat 0 (length x_shape)) x_shape, CalcStride (repeat 0 (length y_shape)) y_shape with
              | Stuck, _ | _, Stuck => Stuck
              | Ok xstride_, Ok ystride_ =>
                  match Process axis x_data_type tensor0 indicates_ xstride_ ystride_ output_ptr with
                  | Ok output_ptr => Ok (SUCCESS, v_output ++ [output_ptr], indicates_)
                  | Err ret => Ok (ret, v_output, indicates_)
                  | Stuck => Stuck
                  end
              | _, _ => Ok (NOT_CHANGED, v_output, indicates_)
              end
          end.
End Gather.
End GatherV2Kernel.

(** * PackKernel *)
Module PackKernel.
Section Pack.
Context `{E : Env} `{S : ShapeLib}.

Definition kShapeItemNumMAX : Z := 2000000000.

(** The loop over the dimensions of one input: the number of elements, with the limit tested after each product. *)
Fixpoint count_items (num : Z) (dims : list Z) : option Z :=
  match dims with
  | [] => Some num
  | dim :: dims =>
      if dim <? 0 then None
      else let num := (num * dim)%i64 in if kShapeItemNumMAX <? num then None else count_items num dims
  end.

(** The loop over the inputs; [shape] is the shape of the first one. *)
Fixpoint validate_inputs (data_type_ : DataType) (shape : list Z) (input : list TensorPtr) : Status :=
  match input with
  | [] => SUCCESS
  | None :: _ => PARAM_INVALID
  | Some x :: input =>
      if negb (bool_decide (GetDataType x = data_type_)) then NOT_CHANGED
      else
        match count_items 1 (GetDims x) with
        | None => NOT_CHANGED
        | Some num =>
            if negb (IsShapeEqual shape (GetDims x)) then NOT_CHANGED
            else if (zlen (GetData x) =? 0) && negb (num =? 0) then NOT_CHANGED
            else validate_inputs data_type_ shape input
        end
  end.

Definition ValidateInputs (data_type_ : DataType) (input : list TensorPtr) : Status :=
  match input with
  | Some x :: _ => validate_inputs data_type_ (GetDims x) input
  | _ => validate_inputs data_type_ [] input
  end.

(** The members n_, axis_ and data_type_. *)
Definition ValidateKernelParams (op_desc_ptr : option OpDesc) (input : list TensorPtr) : outcome (Z * Z * DataType) :=
  match op_desc_ptr with
  | None => Err PARAM_INVALID
  | Some op_desc =>
      let n_ := default 0 (GetInt_i64 op_desc PACK_ATTR_NAME_NUM) in
      match GetInt_i64 op_desc ATTR_NAME_AXIS with
      | None => Err PARAM_INVALID
      | Some axis_ =>
          if (length input =? 0)%nat then Err NOT_CHANGED
          else if negb (zlen input =? wrapU64 n_) then Err PARAM_INVALID
          else
            let data_type_ := InputDataType op_desc in
            let shape := default [] (InputDims op_desc) in
            if (axis_ <? 0) || (zlen shape + 1 <? axis_) then Err NOT_CHANGED
            else if negb (bool_decide (ValidateInputs data_type_ input = SUCCESS)) then Err NOT_CHANGED
            else Ok (n_, axis_, data_type_)
      end
  end.

Definition ExpandDims (n_ axis : Z) (current_dims : list Z) : list Z :=
  if zlen current_dims <=? axis then current_dims ++ [n_]
  else take (Z.to_nat axis) current_dims ++ n_ :: drop (Z.to_nat axis) current_dims.

(** `for (i = from; i < to; i++) unit *= final_shape.GetDim(i)` *)
Definition dim_product (final_shape : list Z) (from to : Z) : Z :=
  foldl (fun unit i => (unit * GetDim final_shape i)%i64) 1 (seqZ from (to - from)).

(** The copies: for every one of [times] blocks a run of [unit] elements from each input. *)
Definition copy_inputs (input : list TensorPtr) (n_ times unit data_size total : Z) (buf : list Z) : outcome (list Z * Z * Z) :=
  for_range times (fun _ '(buf, dst_offset, src_offset) =>
    '(buf, dst_offset) ← for_range n_ (fun j '(buf, dst_offset) =>
      p ← vget input j;
      x ← or_stuck p;
      let '(ret, buf) := memcpy_s buf dst_offset (wrapU64 (total - dst_offset)) (data_ptr x) src_offset (wrapU64 (data_size * unit)) in
      if ret =? EOK then Ok (buf, wrapU64 (dst_offset + data_size * unit)) else Err NOT_CHANGED) (buf, dst_offset);
    Ok (buf, dst_offset, wrapU64 (src_offset + unit * data_size))) (buf, 0, 0).

Definition CopyOutputData (n_ axis_ : Z) (data_type_ : DataType) (final_shape : list Z) (input : list TensorPtr) (output_ptr : GeTensor) :
    outcome GeTensor :=
  let output_ptr := SetDataType data_type_ (SetShape final_shape output_ptr) in
  if (GetShapeSize final_shape =? 0) && negb (length final_shape =? 0)%nat then Ok output_ptr
  else
    let unit := dim_product final_shape (axis_ + 1) (zlen final_shape) in
    let times := dim_product final_shape 0 axis_ in
    let data_size := wrapU 32 (GetSizeByDataType data_type_) in
    let output_size := GetShapeSize final_shape in
    match new_uint8 (output_size * data_size)%i64 with
    | None => Err NOT_CHANGED
    | Some buf =>
        '(buf, _, _) ← copy_inputs input n_ times unit data_size (output_size * data_size)%i64 buf;
        Ok (SetData (take (Z.to_nat (output_size * data_size)%i64) buf) output_ptr)
    end.

Definition Compute (op_desc_ptr : option OpDesc) (input : list TensorPtr) (v_output : list GeTensor) : outcome (list GeTensor) :=
  '(n_, axis_, data_type_) ← or_else NOT_CHANGED (ValidateKernelParams op_desc_ptr input);
  x0 ← input_at input 0;
  let final_shape := ExpandDims n_ axis_ (GetDims x0) in
  op_desc ← or_stuck op_desc_ptr;
  match MakeShared op_desc 0 with
  | None => Err OUT_OF_MEMORY
  | Some output_ptr =>
      output_ptr ← or_else NOT_CHANGED (CopyOutputData n_ axis_ data_type_ final_shape input output_ptr);
      emit v_output output_ptr
  end.
End Pack.
End PackKernel.

(** * ConcatV2Kernel *)
Module ConcatV2Kernel.
Section Concat.
Context `{E : Env} `{S : ShapeLib}.

Definition concatv2_supported_type : list DataType := [DT_INT32; DT_FLOAT].

(** `for (j = 0; j < n; j++) y_data.push_back(datak[from + j])` *)
Definition push_run (t : NumT) (datak : list Z) (from n : Z) (y_data : list Z) : outcome (list Z) :=
  for_range n (fun j y_data => v ← load_num t datak (j + from)%i64; Ok (y_data ++ [v])) y_data.

(** [input] without the axis. *)
Definition GetOutputData (t : NumT) (loop : Z) (input : list TensorPtr) (y_data : list Z) : outcome (list Z) :=
  for_range loop (fun i y_data =>
    foldl (fun y p =>
      y_data ← y;
      x ← or_stuck p;
      if negb (has_data x) || (zlen (GetData x) =? 0) then Ok y_data
      else
        gapk ← div_ (GetShapeSize (GetDims x)) loop;
        push_run t (GetData x) (gapk * i)%i64 gapk y_data) (Ok y_data) input) y_data.

(** The first tensor with data, and whether one has none. *)
Fixpoint first_with_data (input : list TensorPtr) (tensor : option GeTensor) (has_empty_tensor : bool) : outcome (option GeTensor * bool) :=
  match input with
  | [] => Ok (tensor, has_empty_tensor)
  | None :: _ => Err NOT_CHANGED
  | Some x :: input =>
      if zlen (GetData x) =? 0 then first_with_data input tensor true
      else first_with_data input (match tensor with None => Some x | _ => tensor end) has_empty_tensor
  end.

Fixpoint same_types (data_type : DataType) (input : list TensorPtr) : outcome bool :=
  match input with
  | [] => Ok true
  | p :: input =>
      x ← or_stuck p;
      if bool_decide (data_type = GetDataType x) then same_types data_type input else Ok false
  end.

(** tidx and the first tensor with data. *)
Definition ConcatV2PreCompute (input : list TensorPtr) : outcome (Z * GeTensor) :=
  if (length input <? 3)%nat then Err NOT_CHANGED
  else
    let values := take (length input - 1) input in
    '(tensor, has_empty_tensor) ← first_with_data values None false;
    match tensor with
    | None => Err PARAM_INVALID
    | Some tensor =>
        let data_type := GetDataType tensor in
        same ← same_types data_type (drop 1 values);
        if negb same then Err NOT_CHANGED
        else if negb (supports concatv2_supported_type data_type) then Err NOT_CHANGED
        else
          tensor_axis ← at_ input (length input - 1);
          match tensor_axis with
          | None => Err PARAM_INVALID
          | Some tensor_axis =>
              if negb (has_data tensor_axis) then Err PARAM_INVALID
              else
                tidx ← load_num (T_int true 32) (GetData tensor_axis) 0;
                let rank := wrapS 32 (zlen (GetDims tensor)) in
                let tidx := if tidx <? 0 then wrapS 32 (tidx + rank) else tidx in
                if (tidx <? 0) || (rank <=? tidx) || (has_empty_tensor && (1 <? rank)) then Err NOT_CHANGED
                else Ok (tidx, tensor)
          end
    end.

Definition Compute (op_desc_ptr : option OpDesc) (input : list TensorPtr) (v_output : list GeTensor) : outcome (list GeTensor) :=
  match op_desc_ptr with
  | None => Err PARAM_INVALID
  | Some op_desc =>
      '(tidx, tensor) ← ConcatV2PreCompute input;
      let data_type := GetDataType tensor in
      match GetDataTypeLength data_type with
      | None => Err NOT_CHANGED
      | Some length_ =>
          match MakeShared op_desc 0 with
          | None => Err MEMALLOC_FAILED
          | Some output_ptr =>
              let loop := foldl (fun loop i => (loop * GetDim (GetDims tensor) i)%i64) 1 (seqZ 0 tidx) in
              output_ptr ←
                match (if bool_decide (data_type = DT_INT32) then Some (T_int true 32)
                       else if bool_decide (data_type = DT_FLOAT) then Some T_float else None) with
                | Some t =>
                    y_data ← GetOutputData t loop (take (length input - 1) input) [];
                    bytes ← read_bytes (vector_bytes t y_data) 0 (zlen y_data * length_);
                    Ok (SetData bytes output_ptr)
                | None => Ok output_ptr
                end;
              emit v_output (SetShape (OutputDims op_desc) (SetDataType data_type output_ptr))
          end
      end
  end.
End Concat.
End ConcatV2Kernel.

(** * ConcatOffsetKernel *)
Module ConcatOffsetKernel.
Section ConcatOffset.
Context `{E : Env} `{S : ShapeLib}.

(** One round: the output with the offset so far, then the offset of the next input. *)
Definition offset_output (op_desc : OpDesc) (input : list TensorPtr) (concat_dim : Z) (output_shape : list Z) (output_size i : Z)
    (st : list Z * Z * list GeTensor) : outcome (list Z * Z * list GeTensor) :=
  let '(buf, offset, v_output) := st in
  buf ← vset buf concat_dim offset;
  match MakeShared op_desc 0 with
  | None => Err NOT_CHANGED
  | Some output_ptr =>
      bytes ← read_bytes (vector_bytes (T_int true 32) buf) 0 (wrapU64 (4 * output_size));
      let output_ptr := SetData bytes (SetShape output_shape (SetDataType DT_INT32 output_ptr)) in
      p ← vget input (i + 1);
      x ← or_stuck p;
      input_dim ← load_num (T_int true 32) (GetData x) concat_dim;
      if (INT64_MAX - offset)%i64 <? input_dim then Err INTERNAL_ERROR
      else Ok (buf, wrapS 32 (offset + input_dim), v_output ++ [output_ptr])
  end.

Definition Compute (op_desc_ptr : option OpDesc) (input : list TensorPtr) (v_output : list GeTensor) : outcome (list GeTensor) :=
  match op_desc_ptr with
  | None => Err PARAM_INVALID
  | Some op_desc =>
      match GetInt_i32 op_desc "N" with
      | None => Err NOT_CHANGED
      | Some N =>
          p ← at_ input 0;
          match p with
          | None => Err PARAM_INVALID
          | Some input_0 =>
              concat_dim ← load_num (T_int true 32) (GetData input_0) 0;
              if negb (wrapS 32 (zlen input) =? wrapS 32 (N + 1)) || (length input <=? 1)%nat then Err NOT_CHANGED
              else
                x1 ← input_at input 1;
                let output_shape := GetDims x1 in
                let output_size := GetShapeSize output_shape in
                if output_size <=? concat_dim then Err NOT_CHANGED
                else if output_size <? 0 then Err FAILED
                else
                  match new_uint8 (output_size * 4) with
                  | None => Err INTERNAL_ERROR
                  | Some _ =>
                      '(_, _, v_output) ←
                        for_range (wrapU64 N) (offset_output op_desc input concat_dim output_shape output_size)
                          (repeat 0 (Z.to_nat output_size), 0, v_output);
                      Ok v_output
                  end
          end
      end
  end.
End ConcatOffset.
End ConcatOffsetKernel.
