(* ===== verification/GatherTheorems.v ===== *)
(** What the gathering and packing kernels compute.

    The copies of GatherV2 and Pack write runs of elements into a fresh buffer; each is shown to fill
    the buffer ([Fills]) with the elements the operator prescribes, in the three-part index of
    a tensor around an axis: the dimensions before it, the axis, the dimensions behind it. *)
From stdpp Require Import strings.
From S2P Require Import Prelude MathUtil Buffer FormatsUtils Bytes FormatIndex FormatTranspose Fp16 DataTypeTransfer FloatMath BCast HostKernels KernelTheorems SliceKernels SliceTheorems GatherKernels.

(** * Elements of value buffers *)
Lemma elem_vector t vs i : num_ok t -> 0 <= i < zlen vs -> elem (num_size t) (vector_bytes t vs) i = num_bytes t (vs !!! Z.to_nat i).
Proof.
  intros Ht Hi. unfold zlen in Hi. destruct (lookup_lt_is_Some_2 vs (Z.to_nat i) ltac:(lia)) as [v Hv].
  rewrite (list_lookup_total_correct _ _ _ Hv). apply list_elem_of_split_length in Hv as (pre & suf & -> & Hl).
  assert (i = zlen pre) as -> by (unfold zlen; lia). unfold elem. rewrite vector_app. rewrite <- zlen_vector by done.
  change (vector_bytes t (v :: suf)) with (num_bytes t v ++ vector_bytes t suf). rewrite <- (zlen_num_bytes t v Ht). apply slice_app_mid.
Qed.

(** A buffer whose elements are those of values is the buffer of the values. *)
Lemma values_buffer t ws N b : num_ok t -> zlen ws = N -> zlen b = N * num_size t ->
  (forall k, 0 <= k < N -> elem (num_size t) b k = num_bytes t (ws !!! Z.to_nat k)) -> b = vector_bytes t ws.
Proof.
  intros Ht Hw Hb H. pose proof (num_size_pos t Ht). apply (elem_ext (num_size t) N); [lia|done|by rewrite zlen_vector, Hw|].
  intros k Hk. rewrite H by done. symmetry. apply elem_vector; [done|lia].
Qed.

Lemma lookup_total_seqZ (f : Z -> Z) n k : 0 <= k < n -> (f <$> seqZ 0 n) !!! Z.to_nat k = f k.
Proof.
  intros Hk. apply list_lookup_total_correct. rewrite list_lookup_fmap, lookup_seqZ_lt by lia. cbn. by rewrite Z2Nat.id by lia.
Qed.

Lemma zlen_over (f : Z -> Z) n : 0 <= n -> zlen (f <$> seqZ 0 n) = n.
Proof. intros Hn. unfold zlen. rewrite length_fmap, length_seqZ. lia. Qed.

(** * The strides *)
(** The row-major strides of a shape. *)
Definition strides (dims : list Z) : list Z := (fun i => prodZ (drop (S (Z.to_nat i)) dims)) <$> seqZ 0 (zlen dims).

Lemma vget_strides dims i : 0 <= i < zlen dims -> vget (strides dims) i = Ok (prodZ (drop (S (Z.to_nat i)) dims)).
Proof. intros Hi. unfold strides. by rewrite vget_seqZ. Qed.

Lemma prodZ_drop_le l n : Forall (Z.lt 0) l -> 0 < prodZ (drop n l) <= prodZ l.
Proof.
  intros HF. pose proof (prodZ_gt0 _ (Forall_drop _ n _ HF)). pose proof (prodZ_gt0 _ (Forall_take _ n _ HF)).
  assert (prodZ l = prodZ (take n l) * prodZ (drop n l)) by (rewrite <- prodZ_app, take_drop; done). nia.
Qed.

(** The strides from index [j] on, zeros before. *)
Definition strides_from (dims : list Z) (j : Z) : list Z :=
  (fun i => if i <? j then 0 else prodZ (drop (S (Z.to_nat i)) dims)) <$> seqZ 0 (zlen dims).

Lemma strides_from_step dims j : 0 <= j < zlen dims ->
  vset (strides_from dims (j + 1)) j (prodZ (drop (S (Z.to_nat j)) dims)) = Ok (strides_from dims j).
Proof.
  intros Hj. unfold vset, strides_from. rewrite length_fmap, length_seqZ. destruct (Z.ltb_spec j 0); [lia|].
  destruct (Z.leb_spec (Z.of_nat (Z.to_nat (zlen dims))) j); [lia|]. cbn [orb]. f_equal. apply list_eq. intros i.
  destruct (decide (i = Z.to_nat j)) as [->|Hne].
  - rewrite list_lookup_insert_eq by (rewrite length_fmap, length_seqZ; lia). rewrite list_lookup_fmap, lookup_seqZ_lt by lia. cbn.
    rewrite Z2Nat.id by lia. by rewrite Z.ltb_irrefl.
  - rewrite list_lookup_insert_ne by done. rewrite !list_lookup_fmap. destruct (decide (Z.of_nat i < zlen dims)) as [Hi|Hi].
    + rewrite lookup_seqZ_lt, Z.add_0_l by lia. cbn [fmap option_fmap option_map]. apply f_equal. destruct (Z.ltb_spec (Z.of_nat i) (j + 1)), (Z.ltb_spec (Z.of_nat i) j); (done || lia).
    + by rewrite lookup_seqZ_ge by lia.
Qed.

Lemma vget_strides_from dims j : 0 <= j < zlen dims -> vget (strides_from dims j) j = Ok (prodZ (drop (S (Z.to_nat j)) dims)).
Proof. intros Hj. unfold strides_from. by rewrite vget_seqZ, Z.ltb_irrefl. Qed.

Lemma CalcStride_ok dims : dims <> [] -> Forall (Z.lt 0) dims -> prodZ dims < 2 ^ 63 ->
  GatherV2Kernel.CalcStride (repeat 0 (length dims)) dims = Ok (strides dims).
Proof.
  intros Hne HF Hb. assert (0 < zlen dims) as Hl by (destruct dims; [done|rewrite zlen_cons; pose proof (zlen_nonneg dims); lia]).
  unfold GatherV2Kernel.CalcStride. rewrite repeat_length, Nat.eqb_refl. destruct (Nat.eqb_spec (length dims) 0); [unfold zlen in Hl; lia|]. cbn [negb orb].
  assert (repeat 0 (length dims) = strides_from dims (zlen dims - 1 + 1)) as ->.
  { unfold strides_from. apply list_eq. intros i. rewrite list_lookup_fmap. destruct (decide (i < length dims)%nat).
    - rewrite lookup_seqZ_lt by (unfold zlen; lia). cbn. rewrite (proj2 (Z.ltb_lt _ _)) by (unfold zlen; lia).
      by apply lookup_repeat.
    - rewrite lookup_seqZ_ge by (unfold zlen; lia). apply lookup_ge_None_2. rewrite repeat_length. lia. }
  pose proof (strides_from_step dims (zlen dims - 1) ltac:(lia)) as H1. rewrite drop_ge in H1 by (unfold zlen in *; lia). cbn [prodZ foldr] in H1. rewrite H1.
  cbn [mbind outcome_bind]. pose proof (for_range_states (fun k => strides_from dims (zlen dims - 1 - k)) (zlen dims - 1)) as HL.
  cbv beta in HL. rewrite Z.sub_0_r in HL. rewrite HL; [|lia|].
  - f_equal. unfold strides_from, strides. apply list_fmap_ext. intros i x Hx. apply lookup_seqZ in Hx. destruct (Z.ltb_spec x (zlen dims - 1 - (zlen dims - 1))); (done || lia).
  - intros k Hk. set (index := zlen dims - 1 - k). assert (0 < index < zlen dims) as Hi by lia.
    rewrite vget_strides_from by lia. cbn [mbind outcome_bind].
    destruct (lookup_lt_is_Some_2 dims (Z.to_nat index)) as [d Hd]; [unfold zlen in *; lia|]. rewrite (vget_lookup dims index d) by (done || lia).
    cbn [mbind outcome_bind]. pose proof (prodZ_drop_le dims (S (Z.to_nat index)) HF). pose proof (prodZ_drop_le dims (Z.to_nat index) HF) as Hp.
    rewrite (drop_S _ _ _ Hd), prodZ_cons in Hp. pose proof (Forall_lookup_1 _ _ _ _ HF Hd).
    rewrite CheckInt64MulOverflow_small by lia. cbn [negb]. unfold mul64. rewrite wrap64_id by lia.
    assert (prodZ (drop (S (Z.to_nat index)) dims) * d = prodZ (drop (S (Z.to_nat (index - 1))) dims)) as ->.
    { replace (S (Z.to_nat (index - 1))) with (Z.to_nat index) by lia. rewrite (drop_S _ _ _ Hd), prodZ_cons. ring. }
    replace (zlen dims - 1 - (k + 1)) with (index - 1) by lia. rewrite <- (strides_from_step dims (index - 1)) by lia.
    by replace (index - 1 + 1) with index by lia.
Qed.

(** * The copies of GatherV2 *)
Lemma Fills_ext size N V body body' D : (forall b, zlen b = N * size -> body b = body' b) -> Fills size N V body' D -> Fills size N V body D.
Proof. intros He HF b Hb. rewrite He by done. by apply HF. Qed.

Section Gather.
Context `{E : Env} {HE : EnvOk E} `{HT : TensorLibOk} {S : ShapeLib (T := T)} {HS : ShapeLibOk S}.
Context (t : NumT) (vs ids : list Z).
Hypothesis Ht : num_ok t.
Abbreviation size := (num_size t).
Abbreviation M := (zlen ids).

(** The element of the input at element [k] of the output; the axis has [D] elements, and [U] elements are behind it. *)
Definition gather_src (D U k : Z) : Z := (k / U / M * D + ids !!! Z.to_nat (k / U mod M)) * U + k mod U.
Definition gather_elem (D U k : Z) : list Z := num_bytes t (vs !!! Z.to_nat (gather_src D U k)).

Lemma gather_src_at D U A m u : 0 < M -> 0 <= m < M -> 0 <= u < U ->
  gather_src D U ((A * M + m) * U + u) = (A * D + ids !!! Z.to_nat m) * U + u.
Proof. intros HM Hm Hu. unfold gather_src. by rewrite !radix_div, !radix_mod. Qed.

Section Runs.
Context (P D U : Z).
Hypothesis HP : 0 < P.
Hypothesis HU : 0 < U.
Hypothesis HM : 0 < M.
Hypothesis Hids : Forall (fun i => 0 <= i < D) ids.
Hypothesis Hvs : zlen vs = P * D * U.
Hypothesis Hvb : P * D * U < 2 ^ 60.
Abbreviation N := (P * M * U).
Hypothesis HN : N * size < 2 ^ 31.

Lemma id_range m : 0 <= m < M -> 0 <= ids !!! Z.to_nat m < D.
Proof. intros Hm. unfold zlen in Hm. apply (Forall_lookup_total_1 (fun i => 0 <= i < D)); [done|lia]. Qed.

(** One copy fills the run of the output it is for. *)
Lemma run_fills A m xo yo : 0 <= A < P -> 0 <= m < M -> xo = (A * D + ids !!! Z.to_nat m) * U -> yo = (A * M + m) * U ->
  Fills size N (gather_elem D U) (GatherV2Kernel.copy_run size (vector_bytes t vs) (N * size) xo yo U)
    (fun k => (A * M + m) * U <= k < (A * M + m) * U + U).
Proof.
  intros HA Hm -> ->. pose proof (num_size_pos t Ht). pose proof (id_range m Hm). pose proof SECUREC_MEM_MAX_LEN_2G.
  assert (0 <= A * M + m < P * M) by (by apply radix_range). assert (0 <= A * D + ids !!! Z.to_nat m < P * D) by (by apply radix_range).
  assert (0 <= (A * M + m) * U /\ (A * M + m) * U + U <= N) as [Hy1 Hy2] by nia.
  assert (0 <= (A * D + ids !!! Z.to_nat m) * U /\ (A * D + ids !!! Z.to_nat m) * U + U <= P * D * U) as [Hx1 Hx2] by nia.
  set (y := (A * M + m) * U) in *. set (x := (A * D + ids !!! Z.to_nat m) * U) in *.
  apply Fills_elems; [lia|lia|lia|lia|]. intros b Hb.
  exists (slice (x * size) (U * size) (vector_bytes t vs)). pose proof (zlen_vector t vs Ht) as Hz. rewrite Hvs in Hz.
  split; [|split].
  - unfold GatherV2Kernel.copy_run. destruct (Z.ltb_spec y 0); [lia|]. assert (0 < size * U < 2 ^ 31) by nia.
    rewrite (wrapU64_id (y * size)), (wrapU64_id (N * size - y * size)), (wrapU64_id (size * U)) by nia.
    rewrite memcpy_s_ok by nia. rewrite EOK_zero, Z.eqb_refl. by rewrite (Z.mul_comm U size).
  - apply zlen_slice; nia.
  - intros j Hj. rewrite elem_slice by lia. rewrite elem_vector by (done || lia). unfold gather_elem, y. by rewrite gather_src_at.
Qed.

Lemma x_range A m : 0 <= A < P -> 0 <= m < M -> - 2 ^ 63 <= (A * D + ids !!! Z.to_nat m) * U < 2 ^ 63.
Proof. intros HA Hm. pose proof (radix_range A _ P D HA (id_range m Hm)). nia. Qed.

Lemma y_range A m : 0 <= A < P -> 0 <= m < M -> - 2 ^ 63 <= (A * M + m) * U < 2 ^ 63.
Proof. intros HA Hm. pose proof (radix_range A m P M HA Hm). pose proof (num_size_pos t Ht). assert (P * M * U < 2 ^ 31) by nia. nia. Qed.

Lemma row_index k : 0 <= k < N -> exists A m, 0 <= A < P /\ 0 <= m < M /\ (A * M + m) * U <= k < (A * M + m) * U + U.
Proof.
  intros Hk. destruct (radix_surj k (P * M) U HU Hk) as (r & u & Hr & Hu & ->). destruct (radix_surj r P M HM Hr) as (A & m & HA & Hm & ->).
  exists A, m. split_and!; lia.
Qed.
End Runs.

(** * The four routines *)
Lemma vget_id i : 0 <= i < M -> vget ids i = Ok (ids !!! Z.to_nat i).
Proof. intros Hi. unfold zlen in Hi. apply vget_lookup; [|lia]. apply list_lookup_lookup_total_lt. lia. Qed.

Lemma get_dim_at i (s : list Z) d : s !! i = Some d -> GetDim s (Z.of_nat i) = d.
Proof. intros H. apply get_dim_in, vget_lookup; [by rewrite Nat2Z.id|lia]. Qed.

Lemma stride_at i (s : list Z) : (i < length s)%nat -> vget (strides s) (Z.of_nat i) = Ok (prodZ (drop (Datatypes.S i) s)).
Proof. intros H. rewrite vget_strides by (unfold zlen; lia). by rewrite Nat2Z.id. Qed.

Lemma get_dims4 a b c d l : (GetDim (a :: l) 0 = a) /\ (GetDim (a :: b :: l) 1 = b) /\ (GetDim (a :: b :: c :: l) 2 = c) /\ (GetDim (a :: b :: c :: d :: l) 3 = d).
Proof. split_and!; [apply (get_dim_at 0)|apply (get_dim_at 1)|apply (get_dim_at 2)|apply (get_dim_at 3)]; done. Qed.

Lemma strides4 a b c d l : vget (strides (a :: l)) 0 = Ok (prodZ l) /\ vget (strides (a :: b :: l)) 1 = Ok (prodZ l) /\
  vget (strides (a :: b :: c :: l)) 2 = Ok (prodZ l) /\ vget (strides (a :: b :: c :: d :: l)) 3 = Ok (prodZ l).
Proof. split_and!; [apply (stride_at 0)|apply (stride_at 1)|apply (stride_at 2)|apply (stride_at 3)]; cbn; lia. Qed.

Context (D : Z) (suf : list Z).
Hypothesis Hsuf : Forall (Z.lt 0) suf.
Hypothesis HM : 0 < M.
Hypothesis Hids : Forall (fun i => 0 <= i < D) ids.
Abbreviation U := (prodZ suf).

(** What a routine has to do for the dimensions [pre] before the axis. *)
Definition routine_ok (pre : list Z) (routine : Z -> list Z -> list Z -> list Z -> list Z -> list Z -> list Z -> outcome (list Z)) : Prop :=
  Forall (Z.lt 0) pre -> zlen vs = prodZ pre * D * U -> prodZ pre * D * U < 2 ^ 60 -> prodZ pre * M * U * size < 2 ^ 31 ->
  Fills size (prodZ pre * M * U) (gather_elem D U)
    (routine size (vector_bytes t vs) (pre ++ M :: suf) ids (strides (pre ++ D :: suf)) (strides (pre ++ M :: suf))) (fun _ => True).

(** The loop of one dimension: fix its index and evaluate the dimension and the strides. *)
Ltac dim_loop i Hi :=
  rewrite ?(proj1 (get_dims4 _ 0 0 0 _)), ?(proj1 (proj2 (get_dims4 _ _ 0 0 _))), ?(proj1 (proj2 (proj2 (get_dims4 _ _ _ 0 _)))),
    ?(proj2 (proj2 (proj2 (get_dims4 _ _ _ _ _))));
  eapply Fills_for; intros i Hi; eapply Fills_ext;
  [intros ? _; rewrite ?vget_id by exact Hi;
   rewrite ?(proj1 (strides4 _ 0 0 0 _)), ?(proj1 (proj2 (strides4 _ _ 0 0 _))), ?(proj1 (proj2 (proj2 (strides4 _ _ _ 0 _)))),
     ?(proj2 (proj2 (proj2 (strides4 _ _ _ _ _)))); cbn [mbind outcome_bind]; reflexivity|].

(** The innermost loop, for the row [A] of the dimensions before the axis. *)
Ltac run_loop P row i Hi :=
  dim_loop i Hi; apply (run_fills P D U) with (A := row) (m := i); try done; try lia;
  [wrap_eq; by eapply (x_range P)|wrap_eq; by eapply (y_range P)].
Tactic Notation "enter" reference(routine) := eapply Fills_ext; [intros b Hb; unfold routine; cbv zeta; rewrite Hb; reflexivity|].

Lemma ProcessAxis0_ok : routine_ok [] GatherV2Kernel.ProcessAxis0.
Proof.
  intros _ Hvs Hvb HN. pose proof (prodZ_gt0 _ Hsuf). cbn [app prodZ foldr] in *. enter GatherV2Kernel.ProcessAxis0.
  eapply Fills_mono; [run_loop 1 0 i Hi|].
  intros k Hk _. destruct (row_index 1 U) with (k := k) as (A & m & HA & Hm & Hr); try done. exists m. split; [done|]. assert (A = 0) as -> by lia. done.
Qed.

Lemma ProcessAxis1_ok d0 : routine_ok [d0] GatherV2Kernel.ProcessAxis1.
Proof.
  intros Hpre Hvs Hvb HN. pose proof (prodZ_gt0 _ Hsuf). pose proof (prodZ_gt0 _ Hpre). set (P := prodZ [d0]) in *.
  cbn [app] in *. enter GatherV2Kernel.ProcessAxis1.
  eapply Fills_mono; [dim_loop i Hi; assert (0 <= i < P) by (unfold P; cbn; lia); rewrite ?prodZ_cons; run_loop P i j Hj|].
  intros k Hk _. destruct (row_index P U) with (k := k) as (A & m & HA & Hm & Hr); try done. exists A. split; [unfold P in HA; cbn in HA; lia|]. by exists m.
Qed.

Lemma ProcessAxis2_ok d0 d1 : routine_ok [d0; d1] GatherV2Kernel.ProcessAxis2.
Proof.
  intros Hpre Hvs Hvb HN. pose proof (prodZ_gt0 _ Hsuf). pose proof (prodZ_gt0 _ Hpre).
  assert (prodZ [d0; d1] = d0 * d1) as EP by (rewrite !prodZ_cons; cbn; ring). set (P := prodZ [d0; d1]) in *.
  cbn [app] in *. enter GatherV2Kernel.ProcessAxis2.
  eapply Fills_mono; [dim_loop i Hi; dim_loop j Hj; assert (0 <= i * d1 + j < P) by (rewrite EP; by apply radix_range); rewrite ?prodZ_cons; run_loop P (i * d1 + j) m Hm|].
  apply Forall_inv_tail, Forall_inv in Hpre.
  intros k Hk _. destruct (row_index P U) with (k := k) as (A & m & HA & Hm & Hr); try done. rewrite EP in HA.
  destruct (radix_surj A d0 d1 Hpre HA) as (i & j & Hi & Hj & ->). exists i. split; [done|]. exists j. split; [done|]. by exists m.
Qed.

Lemma ProcessAxis3_ok d0 d1 d2 : routine_ok [d0; d1; d2] GatherV2Kernel.ProcessAxis3.
Proof.
  intros Hpre Hvs Hvb HN. pose proof (prodZ_gt0 _ Hsuf). pose proof (prodZ_gt0 _ Hpre).
  assert (prodZ [d0; d1; d2] = d0 * d1 * d2) as EP by (rewrite !prodZ_cons; cbn; ring). set (P := prodZ [d0; d1; d2]) in *.
  cbn [app] in *. enter GatherV2Kernel.ProcessAxis3.
  eapply Fills_mono; [dim_loop i Hi; dim_loop j Hj; dim_loop l Hl;
    assert (0 <= (i * d1 + j) * d2 + l < P) by (rewrite EP; apply radix_range; [by apply radix_range|done]); rewrite ?prodZ_cons;
    run_loop P ((i * d1 + j) * d2 + l) m Hm|].
  pose proof (Forall_inv (Forall_inv_tail Hpre)) as H1. pose proof (Forall_inv (Forall_inv_tail (Forall_inv_tail Hpre))) as H2.
  intros k Hk _. destruct (row_index P U) with (k := k) as (A & m & HA & Hm & Hr); try done. rewrite EP in HA.
  destruct (radix_surj A (d0 * d1) d2 H2 HA) as (r & l & Hr' & Hl & ->). destruct (radix_surj r d0 d1 H1 Hr') as (i & j & Hi & Hj & ->).
  exists i. split; [done|]. exists j. split; [done|]. exists l. split; [done|]. by exists m.
Qed.
End Gather.

(** * Indices around an axis *)
Lemma linear_app l1 l2 i1 i2 : length i1 = length l1 -> linear (l1 ++ l2) (i1 ++ i2) = linear l1 i1 * prodZ l2 + linear l2 i2.
Proof.
  revert i1. induction l1 as [|d l1 IH]; intros [|i i1] H; try done.
  cbn [linear app]. rewrite (IH i1) by (by injection H). rewrite prodZ_app. ring.
Qed.

Lemma digits_app l1 l2 A r : Forall (Z.lt 0) l1 -> Forall (Z.lt 0) l2 -> 0 <= A < prodZ l1 -> 0 <= r < prodZ l2 ->
  digits (l1 ++ l2) (A * prodZ l2 + r) = digits l1 A ++ digits l2 r.
Proof.
  intros H1 H2 HA Hr. pose proof (digits_in_shape l1 A H1 HA) as D1. pose proof (digits_in_shape l2 r H2 Hr) as D2.
  rewrite <- (linear_digits l1 A H1 HA) at 1. rewrite <- (linear_digits l2 r H2 Hr) at 1. rewrite <- linear_app by (by apply Forall2_length in D1).
  apply digits_linear. by apply Forall2_app.
Qed.

(** The output of GatherV2 at the multi-index [idx] is the input at [idx] with the index on the axis looked up. *)
Definition gather_values (dims ids vs : list Z) (axis : nat) : list Z :=
  let out := take axis dims ++ zlen ids :: drop (S axis) dims in
  (fun k => let idx := digits out k in vs !!! Z.to_nat (linear dims (<[axis := ids !!! Z.to_nat (idx !!! axis)]> idx))) <$> seqZ 0 (prodZ out).

Lemma gather_src_index ids pre D suf k : Forall (Z.lt 0) pre -> Forall (Z.lt 0) suf -> 0 < zlen ids -> 0 <= k < prodZ (pre ++ zlen ids :: suf) ->
  let idx := digits (pre ++ zlen ids :: suf) k in
  gather_src ids D (prodZ suf) k = linear (pre ++ D :: suf) (<[length pre := ids !!! Z.to_nat (idx !!! length pre)]> idx).
Proof.
  intros Hp Hs HM Hk. rewrite prodZ_app, prodZ_cons, Z.mul_assoc in Hk. pose proof (prodZ_gt0 _ Hs) as HU.
  destruct (row_index ids (prodZ pre) (prodZ suf) HU HM k Hk) as (A & m & HA & Hm & Hr). set (u := k - (A * zlen ids + m) * prodZ suf).
  assert (k = A * prodZ (zlen ids :: suf) + (m * prodZ suf + u)) as Ek by (rewrite prodZ_cons; unfold u; ring).
  assert (0 <= u < prodZ suf) as Hu by (unfold u; lia). cbv zeta.
  assert (digits (pre ++ zlen ids :: suf) k = digits pre A ++ m :: digits suf u) as ->.
  { rewrite Ek, digits_app; [|done|by constructor|done|rewrite prodZ_cons; by apply radix_range]. f_equal. cbn [digits]. by rewrite radix_div, radix_mod. }
  pose proof (Forall2_length _ _ _ (digits_in_shape pre A Hp HA)) as Hl. rewrite <- Hl. rewrite list_lookup_total_middle by done.
  rewrite insert_app_r_alt, Nat.sub_diag by lia. cbn [insert list_insert]. rewrite linear_app by done. cbn [linear].
  rewrite !linear_digits, prodZ_cons by done. replace k with ((A * zlen ids + m) * prodZ suf + u) by (unfold u; ring).
  rewrite gather_src_at by done. ring.
Qed.

(** * The other steps of GatherV2 *)
Section GatherCompute.
Context `{E : Env} {HE : EnvOk E} `{HT : TensorLibOk} {S : ShapeLib (T := T)} {HS : ShapeLibOk S}.
Import GatherV2Kernel.

Lemma gather_type_ok d t : gather_type d = Some t -> num_type d = Some t /\ supports supported_type d = true.
Proof. destruct d; intros [=]; subst; done. Qed.

Lemma load_at t vs i : num_ok t -> Forall (num_in t) vs -> (i < length vs)%nat -> load_num t (vector_bytes t vs) (Z.of_nat i) = Ok (vs !!! i).
Proof.
  intros Ht HF Hi. apply load_vector; [done..|]. apply vget_lookup; [|lia]. rewrite Nat2Z.id. by apply list_lookup_lookup_total_lt.
Qed.

Lemma save_indices_ok t ids bound n i acc : num_ok t -> Forall (num_in t) ids -> (i + n = length ids)%nat ->
  (Forall (fun v => 0 <= v < bound) (drop i ids) ->
    save_indices t (vector_bytes t ids) bound n (Z.of_nat i) acc = Ok (SUCCESS, acc ++ drop i ids)) /\
  (~ Forall (fun v => 0 <= v < bound) (drop i ids) ->
    exists kept, save_indices t (vector_bytes t ids) bound n (Z.of_nat i) acc = Ok (NOT_CHANGED, kept)).
Proof.
  intros Ht HF. revert i acc. induction n as [|n IH]; intros i acc Hl; cbn [save_indices].
  - rewrite drop_ge by lia. split; [by rewrite app_nil_r|]. intros H. by destruct H.
  - rewrite load_at by (done || lia). cbn [mbind outcome_bind]. destruct (lookup_lt_is_Some_2 ids i ltac:(lia)) as [v Hv].
    rewrite (list_lookup_total_correct _ _ _ Hv), (drop_S _ _ _ Hv). destruct (IH (Datatypes.S i) (acc ++ [v]) ltac:(lia)) as [IH1 IH2].
    replace (Z.of_nat i + 1) with (Z.of_nat (Datatypes.S i)) by lia.
    destruct (Z.ltb_spec v 0); cbn [orb]; [|destruct (Z.leb_spec bound v)].
    + split; [intros HA; apply Forall_cons in HA as [? _]; lia|]. by eexists.
    + split; [intros HA; apply Forall_cons in HA as [? _]; lia|]. by eexists.
    + split.
      * intros HA. apply Forall_cons in HA as [_ HA]. rewrite IH1 by done. by rewrite <- app_assoc.
      * intros HA. apply IH2. intros HB. apply HA. constructor; [lia|done].
Qed.

Lemma get_dims_range (s : list Z) (i n : nat) : (i + n <= length s)%nat -> GetDim s <$> seqZ (Z.of_nat i) (Z.of_nat n) = take n (drop i s).
Proof.
  intros H. apply list_eq. intros k. rewrite list_lookup_fmap. destruct (decide (k < n)%nat).
  - rewrite lookup_seqZ_lt, lookup_take_lt, lookup_drop by lia. destruct (lookup_lt_is_Some_2 s (i + k) ltac:(lia)) as [d Hd]. rewrite Hd. cbn. f_equal.
    rewrite <- Nat2Z.inj_add. by apply get_dim_at.
  - rewrite lookup_seqZ_ge, lookup_take_ge by lia. done.
Qed.

Lemma y_shape_ok dims M (a : nat) : (a < length dims)%nat -> y_shape_of dims [M] (Z.of_nat a) = take a dims ++ M :: drop (Datatypes.S a) dims.
Proof.
  intros Ha. unfold y_shape_of. pose proof (get_dims_range dims 0 a ltac:(lia)) as H1. cbn [drop] in H1. change (Z.of_nat 0) with 0 in H1. rewrite H1.
  pose proof (get_dims_range [M] 0 1 ltac:(cbn; lia)) as H2. change (zlen [M]) with 1. change (GetDim [M] <$> seqZ 0 1 = [M]) in H2. rewrite H2.
  replace (Z.of_nat a + 1) with (Z.of_nat (Datatypes.S a)) by lia.
  replace (zlen dims - Z.of_nat (Datatypes.S a)) with (Z.of_nat (length dims - Datatypes.S a)) by (unfold zlen; lia).
  rewrite get_dims_range, drop_0, (take_ge (drop (Datatypes.S a) dims)) by (rewrite ?length_drop; lia). done.
Qed.

(** The routine of an axis. *)
Definition process (axis : Z) (size : Z) (x dims ids xs ys y : list Z) : outcome (list Z) :=
  if axis =? 0 then ProcessAxis0 size x dims ids xs ys y
  else if axis =? 1 then ProcessAxis1 size x dims ids xs ys y
  else if axis =? 2 then ProcessAxis2 size x dims ids xs ys y
  else if axis =? 3 then ProcessAxis3 size x dims ids xs ys y
  else Err NOT_CHANGED.

Lemma process_ok t vs ids D pre suf : num_ok t -> Forall (Z.lt 0) suf -> 0 < zlen ids -> Forall (fun i => 0 <= i < D) ids ->
  (length pre <= 3)%nat -> routine_ok t vs ids D suf pre (process (zlen pre)).
Proof.
  intros Ht Hs HM HF Hl. destruct pre as [|d0 [|d1 [|d2 [|d3 pre]]]]; [..|cbn in Hl; lia]; unfold process; cbn [zlen length Z.of_nat Pos.of_succ_nat Pos.succ Z.eqb Pos.eqb].
  - by apply ProcessAxis0_ok.
  - by apply ProcessAxis1_ok.
  - by apply ProcessAxis2_ok.
  - by apply ProcessAxis3_ok.
Qed.

Context (x : GeTensor) (d : DataType) (t : NumT) (pre suf ids vs : list Z) (D : Z).
Abbreviation dims := (pre ++ D :: suf).
Abbreviation out := (pre ++ zlen ids :: suf).
Hypothesis Hd : gather_type d = Some t.
Hypothesis Hx : holds x d t dims vs.
Hypothesis Hpos : Forall (Z.lt 0) dims.
Hypothesis Hbig : prodZ dims < 2 ^ 60.
Hypothesis HM : 0 < zlen ids.
Hypothesis Hpre : (length pre <= 3)%nat.
Hypothesis Hout : prodZ out * num_size t < 2 ^ 31.
Hypothesis Hnew : is_Some (new_uint8 (prodZ out * num_size t)).

Lemma gather_parts : num_ok t /\ Forall (Z.lt 0) pre /\ Forall (Z.lt 0) suf /\ Forall (Z.lt 0) out /\ out <> [] /\ 0 < prodZ out.
Proof.
  apply Forall_app in Hpos as [H1 H2]. apply Forall_cons in H2 as [_ H2]. assert (Forall (Z.lt 0) out) as Ho by (apply Forall_app; split; [done|by constructor]).
  split; [by apply (num_type_ok d), gather_type_ok|]. split_and!; try done; [by destruct pre|by apply prodZ_gt0].
Qed.

Lemma gather_values_split : take (length pre) dims ++ zlen ids :: drop (Datatypes.S (length pre)) dims = out.
Proof. rewrite take_app_length. f_equal. f_equal. replace (Datatypes.S (length pre)) with (length pre + 1)%nat by lia. by rewrite <- drop_drop, drop_app_length. Qed.

Lemma GenData_ok output : Forall (fun i => 0 <= i < D) ids -> GetDims output = out ->
  GenData t (prodZ out) x (zlen pre) ids (strides dims) (strides out) output = Ok (SetData (vector_bytes t (gather_values dims ids vs (length pre))) output).
Proof.
  intros HF Eo. destruct gather_parts as (Hok & Hp & Hs & Hof & _ & HN). pose proof (num_size_pos t Hok). destruct Hx as (_ & _ & Dx & _ & Lx). destruct Hnew as [b Hb].
  unfold GenData. destruct (Z.leb_spec (prodZ out) 0); [lia|]. rewrite CheckInt64MulOverflow_small by nia. cbn [negb].
  unfold new_uint8_zero. rewrite Hb. cbn [fmap option_fmap option_map]. rewrite Dx, Eo. fold (process (zlen pre)).
  assert (prodZ dims = prodZ pre * D * prodZ suf /\ prodZ out = prodZ pre * zlen ids * prodZ suf) as [E1 E2] by (rewrite !prodZ_app, !prodZ_cons; split; ring).
  pose proof (process_ok t vs ids D pre suf Hok Hs HM HF Hpre Hp) as HR. rewrite <- E1, <- E2 in HR. specialize (HR Lx Hbig Hout).
  assert (zlen (repeat 0 (length b)) = prodZ out * num_size t) as Hz.
  { rewrite zlen_repeat_nat. change (Z.of_nat (length b)) with (zlen b). apply zlen_new; (done || lia). }
  destruct (Fills_all _ _ _ _ _ HR Hz) as (y & Hy & Hl & Hel). unfold process in Hy. rewrite Hy. cbn [mbind outcome_bind]. do 2 f_equal.
  unfold gather_values. rewrite gather_values_split. apply (values_buffer t _ (prodZ out)); [done|by apply zlen_over; lia|done|].
  intros k Hk. rewrite Hel by done. unfold gather_elem. rewrite lookup_total_seqZ by done. cbv zeta. by rewrite <- gather_src_index.
Qed.

Context (it axt o : GeTensor) (op : OpDesc) (dix dax : DataType) (tix tax : NumT) (ax : Z).
Hypothesis Hix : (dix, tix) = (DT_INT32, T_int true 32) \/ (dix, tix) = (DT_INT64, T_int true 64).
Hypothesis Hax : (dax, tax) = (DT_INT32, T_int true 32) \/ (dax, tax) = (DT_INT64, T_int true 64).
Hypothesis Hit : holds it dix tix [zlen ids] ids.
Hypothesis Haxt : holds axt dax tax [] [ax].
Hypothesis Haxis : norm (zlen dims) ax = zlen pre.
Hypothesis Ho : MakeShared op 0 = Some o.

Lemma index_type_ok dt tt : (dt, tt) = (DT_INT32, T_int true 32) \/ (dt, tt) = (DT_INT64, T_int true 64) ->
  num_ok tt /\ index_type dt = true /\ (if bool_decide (dt = DT_INT32) then T_int true 32 else T_int true 64) = tt.
Proof. intros [[= -> ->]|[= -> ->]]; (split; [by apply (bool_decide_eq_true_1 _)|done]). Qed.

Lemma vector_size_nonzero tt ws : num_ok tt -> 0 < zlen ws -> (zlen (vector_bytes tt ws) =? 0) = false.
Proof. clear. intros H Hw. rewrite zlen_vector by done. pose proof (num_size_pos tt H). apply Z.eqb_neq. nia. Qed.

Lemma gather_Check : Check (Some op) [Some x; Some it; Some axt] = SUCCESS.
Proof.
  destruct gather_parts as (Hok & _). destruct (index_type_ok _ _ Hix) as (Hi & Ii & _), (index_type_ok _ _ Hax) as (Ha & Ia & _).
  destruct Hx as (_ & _ & Dx & _ & Lx), Hit as (Si & Ti & Di & _), Haxt as (Sa & Ta & Da & _). pose proof (prodZ_gt0 _ Hpos).
  unfold Check. rewrite Dx, Di, Da, Ti, Ta, Si, Sa, Ii, Ia, !vector_size_nonzero by (done || lia). done.
Qed.

Lemma gather_values_in : Forall (fun i => 0 <= i < D) ids -> Forall (num_in t) (gather_values dims ids vs (length pre)).
Proof.
  intros HF. destruct gather_parts as (Hok & Hp & Hs & _). destruct Hx as (_ & _ & _ & Fx & Lx). unfold gather_values. rewrite gather_values_split.
  apply Forall_fmap, Forall_forall. intros k Hk. apply elem_of_seqZ in Hk. cbn -[linear digits]. rewrite <- gather_src_index by (done || lia).
  assert (0 <= k < prodZ pre * zlen ids * prodZ suf) as Hk' by (rewrite prodZ_app, prodZ_cons in Hk; lia).
  destruct (row_index ids (prodZ pre) (prodZ suf) (prodZ_gt0 _ Hs) HM k Hk') as (A & m & HA & Hm & Hr).
  replace k with ((A * zlen ids + m) * prodZ suf + (k - (A * zlen ids + m) * prodZ suf)) by ring. rewrite gather_src_at by (done || lia).
  pose proof (radix_range A _ (prodZ pre) D HA (id_range ids D HF m Hm)) as H1.
  pose proof (radix_range _ (k - (A * zlen ids + m) * prodZ suf) _ (prodZ suf) H1 ltac:(lia)) as H2.
  apply Forall_lookup_total_1; [done|]. rewrite prodZ_app, prodZ_cons in Lx. unfold zlen in Lx at 1. lia.
Qed.

Lemma GatherV2_answers v_output :
  (Forall (fun i => 0 <= i < D) ids -> exists z,
    Compute [] (Some op) [Some x; Some it; Some axt] v_output = Ok (SUCCESS, v_output ++ [z], ids) /\ holds z d t out (gather_values dims ids vs (length pre))) /\
  (~ Forall (fun i => 0 <= i < D) ids -> exists kept, Compute [] (Some op) [Some x; Some it; Some axt] v_output = Ok (NOT_CHANGED, v_output, kept)).
Proof.
  destruct gather_parts as (Hok & Hp & Hs & Hof & Hne & HN). destruct (index_type_ok _ _ Hix) as (Hi & _ & Ei), (index_type_ok _ _ Hax) as (Ha & _ & Ea).
  destruct (gather_type_ok d t Hd) as [Hnt Hsup]. pose proof Hx as (Sx & Tx & Dx & Fx & Lx). pose proof Hit as (Si & Ti & Di & Fi & Li). pose proof Haxt as (Sa & Ta & Da & Fa & _).
  unfold Compute. rewrite gather_Check. cbn [bool_decide decide negb]. rewrite bool_decide_eq_true_2 by done. cbn [negb or_stuck mbind outcome_bind input_at at_ lookup list_lookup].
  rewrite Sx, Si, Tx, Ta, Da, Ti, Ea. pose proof (load_at tax [ax] 0 Ha Fa ltac:(cbn; lia)) as Hl. change (Z.of_nat 0) with 0 in Hl. rewrite Hl. cbn [mbind outcome_bind lookup_total list_lookup_total].
  assert (zlen dims = zlen pre + 1 + zlen suf) as Hlen by (rewrite zlen_app, zlen_cons; lia). pose proof (zlen_nonneg suf). pose proof (zlen_nonneg pre).
  assert (zlen pre <= 3) by (unfold zlen; lia).
  assert ((if 0 <=? ax then ax else (ax + zlen dims)%i64) = zlen pre) as ->.
  { unfold norm in Haxis. destruct (Z.leb_spec 0 ax), (Z.ltb_spec ax 0); try lia. apply add64_is; [|lia]. apply eqm_eq. lia. }
  destruct (Z.ltb_spec (zlen pre) 0); [lia|]. cbn [orb]. assert ((zlen pre + 1)%i64 = zlen pre + 1) as -> by (apply wrap64_id; lia).
  destruct (Z.ltb_spec (zlen dims) (zlen pre + 1)); [lia|]. unfold SaveIndicesByDataType. rewrite Ei, Di.
  rewrite (shape_size_prod [zlen ids]); [|done|repeat constructor; lia|cbn [prodZ foldr]; rewrite prodZ_app, prodZ_cons in Hout; pose proof (prodZ_gt0 _ Hp); pose proof (prodZ_gt0 _ Hs); pose proof (num_size_pos t Hok); nia].
  assert (GetDim dims (zlen pre) = D) as -> by (apply (get_dim_at (length pre)); by rewrite lookup_app_r, Nat.sub_diag by lia).
  replace (Z.to_nat (prodZ [zlen ids])) with (length ids) by (cbn; unfold zlen; lia).
  destruct (save_indices_ok tix ids D (length ids) 0 [] Hi Fi eq_refl) as [SI1 SI2]. cbn [drop app] in SI1, SI2. change (Z.of_nat 0) with 0 in SI1, SI2. split.
  2:{ intros HF. rewrite drop_0 in SI2. destruct (SI2 HF) as [kept ->]. cbn [mbind outcome_bind]. exists kept. by rewrite bool_decide_eq_false_2. }
  intros HF. rewrite drop_0 in SI1. rewrite (SI1 HF). cbn [mbind outcome_bind]. rewrite bool_decide_eq_true_2, Hsup, Ho by done. cbn [negb].
  assert (y_shape_of dims [zlen ids] (zlen pre) = out) as ->.
  { change (zlen pre) with (Z.of_nat (length pre)). rewrite y_shape_ok by (rewrite length_app; cbn; lia). apply gather_values_split. }
  rewrite !CalcStride_ok; try done; [|pose proof (num_size_pos t Hok); nia|by destruct pre|lia].
  unfold Process. rewrite Hd, get_dims_type, get_dims_shape, shape_size_prod; [|done|by eapply Forall_impl; [apply Hof|]; cbn; lia|pose proof (num_size_pos t Hok); nia].
  rewrite GenData_ok by (done || by rewrite get_dims_type, get_dims_shape). eexists. split; [done|].
  apply holds_output; rewrite ?get_dims_data, ?get_dims_type, ?get_dims_shape, ?get_type_data, ?get_type_type, ?get_data_data; try done.
  - by apply gather_values_in.
  - unfold gather_values. by rewrite gather_values_split, length_fmap.
Qed.
End GatherCompute.

(** * Pack *)

(** A loop that carries values determined by its counter along with the buffer it works on. *)
Lemma for_loop_view {A C} (st : Z -> A -> C) (n : Z) body g k i b :
  (forall i b, 0 <= i < n -> body i (st i b) = (b' ← g i b; Ok (st (i + 1) b'))) -> 0 <= i -> i + Z.of_nat k <= n ->
  for_loop k i body (st i b) = (b' ← for_loop k i g b; Ok (st (i + Z.of_nat k) b')).
Proof.
  intros H. revert i b. induction k as [|k IH]; intros i b Hi Hk; cbn [for_loop]; [cbn; by rewrite Z.add_0_r|].
  rewrite H by lia. destruct (g i b) as [b'| |]; cbn [mbind outcome_bind]; try done. rewrite IH by lia.
  by replace (i + Z.of_nat (S k)) with (i + 1 + Z.of_nat k) by lia.
Qed.

Lemma for_range_view {A C} (st : Z -> A -> C) n body g b :
  (forall i b, 0 <= i < n -> body i (st i b) = (b' ← g i b; Ok (st (i + 1) b'))) -> 0 <= n ->
  for_range n body (st 0 b) = (b' ← for_range n g b; Ok (st n b')).
Proof. intros H Hn. unfold for_range. rewrite (for_loop_view st n body g) by (done || lia). by rewrite Z2Nat.id. Qed.

(** The output of Pack at a multi-index: the input named by the index on the axis, at the rest of the multi-index. *)
Definition pack_values (dims : list Z) (vss : list (list Z)) (axis : nat) : list Z :=
  let out := take axis dims ++ zlen vss :: drop axis dims in
  (fun k => let idx := digits out k in (vss !!! Z.to_nat (idx !!! axis)) !!! Z.to_nat (linear dims (delete axis idx))) <$> seqZ 0 (prodZ out).

Section Pack.
Context `{E : Env} {HE : EnvOk E} `{HT : TensorLibOk} {S : ShapeLib (T := T)} {HS : ShapeLibOk S}.
Import PackKernel.
Context (d : DataType) (t : NumT) (xs : list GeTensor) (vss : list (list Z)) (dims : list Z) (a : nat).
Hypothesis Hd : num_type d = Some t.
Hypothesis Hxs : Forall2 (fun x vs => holds x d t dims vs) xs vss.
Hypothesis Hpos : Forall (Z.lt 0) dims.
Hypothesis Ha : (a <= length dims)%nat.
Hypothesis Hn : 0 < zlen vss.
Hypothesis Hsize : GetSizeByDataType d = num_size t.
Abbreviation n := (zlen vss).
Abbreviation out := (take a dims ++ n :: drop a dims).
Abbreviation P := (prodZ (take a dims)).
Abbreviation U := (prodZ (drop a dims)).
Abbreviation size := (num_size t).
Hypothesis Hbig : prodZ dims <= kShapeItemNumMAX.
Hypothesis Hout : prodZ out * size < 2 ^ 31.
Hypothesis Hnew : is_Some (new_uint8 (prodZ out * size)).

(** The element of input [k / U mod n] that goes to element [k]. *)
Definition pack_elem (k : Z) : list Z := num_bytes t ((vss !!! Z.to_nat (k / U mod n)) !!! Z.to_nat (k / U / n * U + k mod U)).

Lemma pack_facts : num_ok t /\ 0 < P /\ 0 < U /\ 0 < size <= 8 /\ prodZ dims = P * U /\ prodZ out = P * n * U /\ Forall (Z.lt 0) out.
Proof.
  pose proof (num_type_ok d t Hd) as Ht. pose proof (Forall_take _ a _ Hpos). pose proof (Forall_drop _ a _ Hpos).
  split_and!; try done; try by apply prodZ_gt0.
  - by apply (num_size_pos t).
  - by apply (num_size_pos t).
  - by rewrite <- prodZ_app, take_drop.
  - rewrite prodZ_app, prodZ_cons. ring.
  - apply Forall_app. split; [done|by constructor].
Qed.

Lemma input_at_ok j : 0 <= j < n -> exists x, vget (Some <$> xs) j = Ok (Some x) /\ GetData x = vector_bytes t (vss !!! Z.to_nat j) /\
  zlen (vss !!! Z.to_nat j) = P * U /\ Forall (num_in t) (vss !!! Z.to_nat j).
Proof.
  intros Hj. destruct pack_facts as (_ & _ & _ & _ & Ed & _). unfold zlen in Hj. destruct (lookup_lt_is_Some_2 vss (Z.to_nat j) ltac:(lia)) as [vs Hv].
  destruct (Forall2_lookup_r _ _ _ _ _ Hxs Hv) as (x & Hx & (_ & _ & Dx & Fx & Lx)). rewrite (list_lookup_total_correct _ _ _ Hv). exists x.
  split; [apply vget_lookup; [|lia]; by rewrite list_lookup_fmap, Hx|]. rewrite <- Ed. done.
Qed.

(** The copy of one run, with the offsets of its block [i] and input [j]. *)
Definition copy_one (i j : Z) (buf : list Z) : outcome (list Z) :=
  p ← vget (Some <$> xs) j;
  x ← or_stuck p;
  let '(ret, buf) := memcpy_s buf ((i * n + j) * U * size) (prodZ out * size - (i * n + j) * U * size) (data_ptr x) (i * U * size) (size * U) in
  if ret =? EOK then Ok buf else Err NOT_CHANGED.

Lemma copy_one_fills i j : 0 <= i < P -> 0 <= j < n ->
  Fills size (prodZ out) pack_elem (copy_one i j) (fun k => (i * n + j) * U <= k < (i * n + j) * U + U).
Proof.
  intros Hi Hj. destruct pack_facts as (Ht & HP & HU & Hs & Ed & Eo & _). destruct (input_at_ok j Hj) as (x & Hx & Dx & Lx & _). pose proof SECUREC_MEM_MAX_LEN_2G.
  assert (0 <= i * n + j < P * n) by by apply radix_range. assert (0 <= (i * n + j) * U /\ (i * n + j) * U + U <= prodZ out) as [Hy1 Hy2] by (rewrite Eo; nia).
  assert (0 <= i * U /\ i * U + U <= P * U) as [Hx1 Hx2] by nia. set (y := (i * n + j) * U) in *.
  apply Fills_elems; [lia..|]. intros b Hb. exists (slice (i * U * size) (U * size) (GetData x)). pose proof (zlen_vector t (vss !!! Z.to_nat j) Ht) as Hz. rewrite Lx, <- Dx in Hz.
  assert (GetData x <> []) as Hne by (intros E0; rewrite E0 in Hz; change (zlen []) with 0 in Hz; nia).
  split; [|split].
  - unfold copy_one. rewrite Hx. cbn [mbind outcome_bind or_stuck]. unfold data_ptr. rewrite (has_data_bytes _ Hne).
    rewrite memcpy_s_ok by nia. rewrite Z.eqb_refl. by rewrite (Z.mul_comm U size).
  - apply zlen_slice; nia.
  - intros k Hk. rewrite elem_slice by lia. rewrite Dx, elem_vector by (done || lia). unfold pack_elem, y. rewrite !radix_div, !radix_mod by lia. done.
Qed.

Lemma copy_inputs_ok buf : copy_inputs (Some <$> xs) n P U size (prodZ out * size) buf =
  (b ← for_range P (fun i => for_range n (copy_one i)) buf; Ok (b, (P * n + 0) * U * size, P * U * size)).
Proof.
  destruct pack_facts as (Ht & HP & HU & Hs & Ed & Eo & _). unfold copy_inputs.
  rewrite <- (for_range_view (fun i b => (b, (i * n + 0) * U * size, i * U * size)) P
    (fun _ '(buf, dst_offset, src_offset) =>
      '(buf, dst_offset) ← for_range n (fun j '(buf, dst_offset) =>
        p ← vget (Some <$> xs) j;
        x ← or_stuck p;
        let '(ret, buf) := memcpy_s buf dst_offset (wrapU64 (prodZ out * size - dst_offset)) (data_ptr x) src_offset (wrapU64 (size * U)) in
        if ret =? EOK then Ok (buf, wrapU64 (dst_offset + size * U)) else Err NOT_CHANGED) (buf, dst_offset);
      Ok (buf, dst_offset, wrapU64 (src_offset + U * size)))); [done| |lia].
  intros i b Hi. cbv beta iota.
  rewrite (for_range_view (fun j b => (b, (i * n + j) * U * size)) n _ (copy_one i)).
  - destruct (for_range n (copy_one i) b) as [b'| |]; cbn [mbind outcome_bind]; try done. rewrite wrapU64_id by nia.
    replace ((i * n + n) * U * size) with (((i + 1) * n + 0) * U * size) by ring. by replace (i * U * size + U * size) with ((i + 1) * U * size) by ring.
  - intros j b1 Hj. unfold copy_one. destruct (input_at_ok j Hj) as (x & Hx & _). rewrite Hx. cbn [mbind outcome_bind or_stuck].
    assert (0 <= i * n + j < P * n) by by apply radix_range. assert (0 <= (i * n + j) * U /\ (i * n + j) * U + U <= prodZ out) as [Hy1 Hy2] by (rewrite Eo; nia).
    rewrite (wrapU64_id (prodZ out * size - _)), (wrapU64_id (size * U)) by nia. destruct (memcpy_s _ _ _ _ _ _) as [ret b2]. destruct (ret =? EOK); [|done].
    cbn [mbind outcome_bind]. rewrite wrapU64_id by nia. by replace ((i * n + j) * U * size + size * U) with ((i * n + (j + 1)) * U * size) by ring.
  - lia.
Qed.

Lemma dim_fold (s : list Z) m i acc : Forall (Z.lt 0) s -> (i + m <= length s)%nat -> 0 < acc -> acc * prodZ (take m (drop i s)) < 2 ^ 63 ->
  foldl (fun unit k => (unit * GetDim s k)%i64) acc (seqZ (Z.of_nat i) (Z.of_nat m)) = acc * prodZ (take m (drop i s)).
Proof.
  intros HF. revert i acc. induction m as [|m IH]; intros i acc Hi Hacc Hb; [by rewrite prodZ_take_0, Z.mul_1_r|].
  rewrite seqZ_cons by lia. cbn [foldl]. destruct (lookup_lt_is_Some_2 s i ltac:(lia)) as [x Hx]. rewrite (get_dim_at i s x Hx).
  rewrite (drop_S _ _ _ Hx) in *. cbn [take] in *. rewrite prodZ_cons in *. pose proof (Forall_lookup_1 _ _ _ _ HF Hx) as Hx0. cbv beta in Hx0.
  pose proof (prodZ_gt0 _ (Forall_take _ m _ (Forall_drop _ (Datatypes.S i) _ HF))).
  unfold mul64. rewrite wrap64_id by nia. replace (Z.succ (Z.of_nat i)) with (Z.of_nat (Datatypes.S i)) by lia.
  replace (Z.pred (Z.of_nat (Datatypes.S m))) with (Z.of_nat m) by lia. rewrite IH; [ring|lia|nia|nia].
Qed.

Lemma out_length : length out = Datatypes.S (length dims).
Proof. rewrite length_app, length_take. cbn [length]. rewrite length_drop. lia. Qed.

Lemma out_bound : prodZ out < 2 ^ 31.
Proof. destruct pack_facts as (_ & HP & HU & Hs & _ & Eo & Ho). pose proof (prodZ_gt0 _ Ho). nia. Qed.

Lemma unit_ok : dim_product out (Z.of_nat a + 1) (zlen out) = U.
Proof.
  destruct pack_facts as (_ & _ & HU & _ & _ & _ & Hof). pose proof out_length as Hl. unfold dim_product. replace (Z.of_nat a + 1) with (Z.of_nat (Datatypes.S a)) by lia.
  replace (zlen out - Z.of_nat (Datatypes.S a)) with (Z.of_nat (length dims - a)) by (unfold zlen in *; lia).
  assert (take (length dims - a) (drop (Datatypes.S a) out) = drop a dims) as Ed.
  { replace (Datatypes.S a) with (length (take a dims) + 1)%nat by (rewrite length_take; lia). rewrite <- drop_drop, drop_app_length. cbn [drop].
    apply take_ge. rewrite length_drop. lia. }
  pose proof (prodZ_drop_le out (Datatypes.S a) Hof). pose proof out_bound. rewrite dim_fold; rewrite ?Ed; [ring|done|lia|lia|].
  pose proof (prodZ_drop_le dims a Hpos). unfold kShapeItemNumMAX in Hbig. lia.
Qed.

Lemma times_ok : dim_product out 0 (Z.of_nat a) = P.
Proof.
  destruct pack_facts as (_ & HP & HU & _ & Ed & _ & Hof). pose proof out_length as Hl. unfold dim_product. rewrite Z.sub_0_r. change 0 with (Z.of_nat 0).
  assert (take a (drop 0 out) = take a dims) as E0.
  { rewrite drop_0, take_app_le by (rewrite length_take; lia). apply take_ge. rewrite length_take. lia. }
  unfold kShapeItemNumMAX in Hbig. rewrite dim_fold; rewrite ?E0; [ring|done|lia|lia|nia].
Qed.

Lemma pack_src_index k : 0 <= k < prodZ out -> let idx := digits out k in
  k / U mod n = idx !!! a /\ k / U / n * U + k mod U = linear dims (delete a idx).
Proof.
  destruct pack_facts as (_ & HP & HU & _ & _ & Eo & _). intros Hk. cbv zeta. rewrite Eo in Hk. pose proof (Forall_take _ a _ Hpos) as F1. pose proof (Forall_drop _ a _ Hpos) as F2.
  destruct (radix_surj k (P * n) U HU Hk) as (r & u & Hr & Hu & ->). destruct (radix_surj r P n Hn Hr) as (A & m & HA & Hm & ->).
  assert (digits out ((A * n + m) * U + u) = digits (take a dims) A ++ m :: digits (drop a dims) u) as ->.
  { replace ((A * n + m) * U + u) with (A * prodZ (n :: drop a dims) + (m * U + u)) by (rewrite prodZ_cons; ring).
    rewrite digits_app; [|done|by constructor|done|rewrite prodZ_cons; by apply radix_range]. f_equal. cbn [digits]. by rewrite radix_div, radix_mod. }
  pose proof (Forall2_length _ _ _ (digits_in_shape _ A F1 HA)) as Hl.
  assert (length (digits (take a dims) A) = a) as Hla by (rewrite Hl, length_take; lia).
  rewrite !radix_div, !radix_mod by lia. rewrite list_lookup_total_middle by done. split; [done|].
  pose proof (delete_middle (digits (take a dims) A) (digits (drop a dims) u) m) as Hdm. rewrite Hla in Hdm. rewrite Hdm. clear Hdm.
  pose proof (linear_app (take a dims) (drop a dims) (digits (take a dims) A) (digits (drop a dims) u) Hl) as Hla'. rewrite take_drop in Hla'.
  rewrite Hla'. by rewrite !linear_digits.
Qed.

Lemma pack_buffer buf : zlen buf = prodZ out * size -> for_range P (fun i => for_range n (copy_one i)) buf = Ok (vector_bytes t (pack_values dims vss a)).
Proof.
  destruct pack_facts as (Ht & HP & HU & Hs & _ & Eo & Hof). pose proof (prodZ_gt0 _ Hof). intros Hb.
  assert (Fills size (prodZ out) pack_elem (for_range P (fun i => for_range n (copy_one i))) (fun _ => True)) as HF.
  { eapply Fills_mono; [apply Fills_for; intros i Hi; apply Fills_for; intros j Hj; by apply copy_one_fills|].
    intros k Hk _. rewrite Eo in Hk. destruct (radix_surj k (P * n) U HU Hk) as (r & u & Hr & Hu & ->). destruct (radix_surj r P n Hn Hr) as (A & m & HA & Hm & ->).
    exists A. split; [done|]. exists m. split; [done|]. lia. }
  destruct (Fills_all _ _ _ _ _ HF Hb) as (y & -> & Hl & Hel). f_equal. apply (values_buffer t _ (prodZ out)); [done|apply zlen_over; lia|done|].
  intros k Hk. rewrite Hel by done. unfold pack_elem, pack_values. cbv zeta. rewrite lookup_total_seqZ by done.
  destruct (pack_src_index k Hk) as [E1 E2]. by rewrite E1, E2.
Qed.

Lemma count_items_ok num l : 0 < num -> Forall (Z.lt 0) l -> num * prodZ l <= kShapeItemNumMAX -> count_items num l = Some (num * prodZ l).
Proof.
  intros H0 HF. revert num H0. induction HF as [|x l Hx HF IH]; intros num H0 Hb; cbn [count_items]; [f_equal; change (prodZ []) with 1; ring|].
  rewrite prodZ_cons in *. pose proof (prodZ_gt0 _ HF). destruct (Z.ltb_spec x 0); [lia|]. unfold kShapeItemNumMAX in Hb.
  assert (num * x <= 2000000000) by nia. unfold mul64. rewrite wrap64_id by nia. unfold kShapeItemNumMAX in *. destruct (Z.ltb_spec 2000000000 (num * x)); [lia|].
  rewrite IH; [f_equal; ring|nia|nia].
Qed.

Lemma ValidateInputs_ok : ValidateInputs d (Some <$> xs) = SUCCESS.
Proof.
  destruct pack_facts as (Ht & HP & HU & Hs & Ed & _).
  assert (forall l vl, Forall2 (fun x vs => holds x d t dims vs) l vl -> validate_inputs d dims (Some <$> l) = SUCCESS) as HV.
  { induction 1 as [|x vs l vl (Sx & Tx & Dx & _ & Lx) HF IH]; [done|]. cbn [fmap list_fmap validate_inputs]. rewrite Tx, Sx, bool_decide_eq_true_2 by done.
    rewrite (count_items_ok 1 dims) by (done || lia). rewrite (proj2 (IsShapeEqual_spec dims dims)) by done. cbn [negb].
    rewrite Dx, zlen_vector, Lx, Ed by done. destruct (Z.eqb_spec (P * U * size) 0); [nia|]. done. }
  pose proof Hxs as HF. pose proof Hn as Hnn. unfold ValidateInputs. destruct HF as [|x vs l vl Hx HF]; [by change (0 < 0) in Hnn|]. cbn [fmap list_fmap].
  rewrite (proj1 Hx). apply (HV (x :: l) (vs :: vl)). by constructor.
Qed.

Lemma ExpandDims_ok : ExpandDims n (Z.of_nat a) dims = out.
Proof.
  unfold ExpandDims. rewrite Nat2Z.id. destruct (Z.leb_spec (zlen dims) (Z.of_nat a)) as [H|]; [|done].
  rewrite take_ge, drop_ge by (unfold zlen in H; lia). done.
Qed.

Lemma CopyOutputData_ok o : CopyOutputData n (Z.of_nat a) d out (Some <$> xs) o =
  Ok (SetData (vector_bytes t (pack_values dims vss a)) (SetDataType d (SetShape out o))).
Proof.
  destruct pack_facts as (Ht & HP & HU & Hs & Ed & Eo & Hof). pose proof (prodZ_gt0 _ Hof) as Ho. destruct Hnew as [buf Hb]. pose proof out_bound.
  unfold CopyOutputData. rewrite unit_ok, times_ok, Hsize.
  rewrite shape_size_prod; [|by destruct (take a dims)|by eapply Forall_impl; [apply Hof|]; cbn; lia|lia].
  destruct (Z.eqb_spec (prodZ out) 0); [lia|]. cbn [andb].
  assert (wrapU 32 size = size) as -> by (apply wrapU_id; unfold inU; lia). unfold mul64. rewrite wrap64_id by lia. rewrite Hb.
  rewrite copy_inputs_ok, pack_buffer by (apply zlen_new; (done || lia)). cbn [mbind outcome_bind]. do 2 f_equal. apply take_ge.
  apply Nat2Z.inj_le. rewrite Z2Nat.id by nia. change (zlen (vector_bytes t (pack_values dims vss a)) <= prodZ out * size).
  rewrite zlen_vector by done. unfold pack_values. rewrite zlen_over; lia.
Qed.

Lemma pack_values_in : Forall (num_in t) (pack_values dims vss a).
Proof.
  destruct pack_facts as (Ht & HP & HU & Hs & Ed & Eo & Hof). unfold pack_values. apply Forall_fmap, Forall_forall. intros k Hk. apply elem_of_seqZ in Hk.
  cbn -[linear digits]. destruct (pack_src_index k ltac:(lia)) as [<- <-]. rewrite Z.add_0_l in Hk. rewrite Eo in Hk.
  destruct (input_at_ok (k / U mod n)) as (x & _ & _ & Lx & Fx); [by apply Z.mod_pos_bound|]. apply Forall_lookup_total_1; [done|].
  match type of Lx with zlen ?l = _ => change (Z.of_nat (length l) = P * U) in Lx end. pose proof (div_range k (P * n) U ltac:(lia) HU) as H1. pose proof (div_range (k / U) P n H1 Hn) as H2.
  pose proof (radix_range _ (k mod U) _ U H2 ltac:(by apply Z.mod_pos_bound)). lia.
Qed.

Lemma Pack_answers op o v_output : GetInt_i64 op PACK_ATTR_NAME_NUM = Some n -> GetInt_i64 op ATTR_NAME_AXIS = Some (Z.of_nat a) ->
  InputDataType op = d -> InputDims op = Some dims -> MakeShared op 0 = Some o -> n < 2 ^ 64 ->
  exists z, Compute (Some op) (Some <$> xs) v_output = Ok (v_output ++ [z]) /\ holds z d t out (pack_values dims vss a).
Proof.
  intros H1 H2 H3 H4 H5 H6. destruct pack_facts as (Ht & HP & HU & Hs & Ed & Eo & Hof). pose proof (Forall2_length _ _ _ Hxs) as Hl.
  unfold Compute, ValidateKernelParams. rewrite H1, H2, H3, H4. cbn [from_option id]. rewrite length_fmap.
  destruct (Nat.eqb_spec (length xs) 0) as [E0|_]; [unfold zlen in Hn; lia|]. rewrite (wrapU64_id n) by lia.
  change TensorPtr with (option GeTensor). assert (zlen (Some <$> xs) = n) as -> by (unfold zlen; rewrite length_fmap; lia). rewrite Z.eqb_refl. cbn [negb].
  destruct (Z.ltb_spec (Z.of_nat a) 0); [lia|]. destruct (Z.ltb_spec (zlen dims + 1) (Z.of_nat a)); [unfold zlen in *; lia|]. cbn [orb].
  rewrite ValidateInputs_ok, bool_decide_eq_true_2 by done. cbn [negb or_else mbind outcome_bind].
  destruct (input_at_ok 0 ltac:(lia)) as (x & Hx & _). unfold vget in Hx. change (at_ (Some <$> xs) 0 = Ok (Some x)) in Hx. unfold input_at. change TensorPtr with (option GeTensor). rewrite Hx. cbn [mbind outcome_bind or_stuck].
  assert (GetDims x = dims) as ->.
  { unfold at_ in Hx. rewrite list_lookup_fmap in Hx. destruct (xs !! 0%nat) as [x'|] eqn:E0; [|done]. injection Hx as ->.
    destruct (Forall2_lookup_l _ _ _ _ _ Hxs E0) as (vs & _ & (Sx & _)). done. }
  rewrite H5, ExpandDims_ok, CopyOutputData_ok. eexists. split; [done|].
  apply holds_output; rewrite ?get_dims_data, ?get_dims_type, ?get_dims_shape, ?get_type_data, ?get_type_type, ?get_data_data; try done.
  - apply pack_values_in.
  - unfold pack_values. by rewrite length_fmap.
Qed.
End Pack.

(** * The theorems *)
Section Theorems.
Context `{E : Env} {HE : EnvOk E} `{HT : TensorLibOk} {S : ShapeLib (T := T)} {HS : ShapeLibOk S}.

(** C25 GatherV2 along an axis with at most three dimensions before it, with a vector of indices of int32_t or
    int64_t: when every index is inside the axis the output is the tensor that has at each
    multi-index the input's element with the index on the axis looked up in the vector; when one is not, the
    operator is left in the graph. *)
Theorem gather_exact x it axt o op d dix dax t tix tax pre D suf ids vs ax v_output :
  GatherV2Kernel.gather_type d = Some t -> holds x d t (pre ++ D :: suf) vs -> Forall (Z.lt 0) (pre ++ D :: suf) -> prodZ (pre ++ D :: suf) < 2 ^ 60 ->
  0 < zlen ids -> (length pre <= 3)%nat -> prodZ (pre ++ zlen ids :: suf) * num_size t < 2 ^ 31 -> is_Some (new_uint8 (prodZ (pre ++ zlen ids :: suf) * num_size t)) ->
  (dix, tix) = (DT_INT32, T_int true 32) \/ (dix, tix) = (DT_INT64, T_int true 64) ->
  (dax, tax) = (DT_INT32, T_int true 32) \/ (dax, tax) = (DT_INT64, T_int true 64) ->
  holds it dix tix [zlen ids] ids -> holds axt dax tax [] [ax] -> norm (zlen (pre ++ D :: suf)) ax = zlen pre -> MakeShared op 0 = Some o ->
  let run := GatherV2Kernel.Compute [] (Some op) [Some x; Some it; Some axt] v_output in
  (Forall (fun i => 0 <= i < D) ids ->
   exists z, run = Ok (SUCCESS, v_output ++ [z], ids) /\ holds z d t (pre ++ zlen ids :: suf) (gather_values (pre ++ D :: suf) ids vs (length pre))) /\
  (~ Forall (fun i => 0 <= i < D) ids -> exists kept, run = Ok (NOT_CHANGED, v_output, kept)).
Proof. intros. subst run. by apply (GatherV2_answers x d t pre suf ids vs D) with (dix := dix) (tix := tix) (dax := dax) (tax := tax) (ax := ax) (o := o). Qed.

(** C28 Pack of tensors of one type and shape along any axis: the output's shape has the number of inputs on the
    axis, and its element at a multi-index is the element of the input the index on the axis
    names at the rest of the multi-index. *)
Theorem pack_exact d t xs vss dims (a : nat) op o v_output :
  num_type d = Some t -> Forall2 (fun x vs => holds x d t dims vs) xs vss -> Forall (Z.lt 0) dims -> (a <= length dims)%nat -> 0 < zlen vss < 2 ^ 64 ->
  GetSizeByDataType d = num_size t -> prodZ dims <= PackKernel.kShapeItemNumMAX ->
  prodZ (take a dims ++ zlen vss :: drop a dims) * num_size t < 2 ^ 31 -> is_Some (new_uint8 (prodZ (take a dims ++ zlen vss :: drop a dims) * num_size t)) ->
  GetInt_i64 op PACK_ATTR_NAME_NUM = Some (zlen vss) -> GetInt_i64 op ATTR_NAME_AXIS = Some (Z.of_nat a) ->
  InputDataType op = d -> InputDims op = Some dims -> MakeShared op 0 = Some o ->
  exists z, PackKernel.Compute (Some op) (Some <$> xs) v_output = Ok (v_output ++ [z]) /\
    holds z d t (take a dims ++ zlen vss :: drop a dims) (pack_values dims vss a).
Proof. intros Hd Hxs Hp Ha [Hn Hn'] **. by eapply (Pack_answers d t xs vss dims a). Qed.
End Theorems.

(** * Runs *)
Definition plain_op : SampleOp := mkOp (fun _ => None) (fun _ => None) (fun _ => None) None DT_FLOAT [].
Definition pack_op (n axis : Z) (d : DataType) (dims : list Z) : SampleOp :=
  mkOp (fun _ => None) (fun s => if (s =? "N")%string then Some n else Some axis) (fun _ => None) (Some dims) d [].

(** Columns 2, 0 and 2 of a 2 x 3 matrix, with the axis counted from the end. *)
Lemma gather_exact_witness : exists z,
  GatherV2Kernel.Compute (E := sample_env) (T := op_lib) (S := shape_lib) [] (Some plain_op)
    [Some (tensor DT_INT16 (T_int true 16) [2; 3] [1; 2; 3; 4; 5; 6]); Some (tensor DT_INT32 (T_int true 32) [3] [2; 0; 2]); Some (tensor DT_INT64 (T_int true 64) [] [-1])] [] =
    Ok (SUCCESS, [z], [2; 0; 2]) /\
  holds (T := op_lib) z DT_INT16 (T_int true 16) [2; 3] [3; 1; 3; 6; 4; 6].
Proof.
  apply (gather_exact (E := sample_env) (HE := sample_env_ok) (T := op_lib) (S := shape_lib) (tensor DT_INT16 (T_int true 16) [2; 3] [1; 2; 3; 4; 5; 6])
    (tensor DT_INT32 (T_int true 32) [3] [2; 0; 2]) (tensor DT_INT64 (T_int true 64) [] [-1]) (mkSample [] DT_FLOAT []) plain_op DT_INT16 DT_INT32 DT_INT64
    (T_int true 16) (T_int true 32) (T_int true 64) [2] 3 [] [2; 0; 2] [1; 2; 3; 4; 5; 6] (-1) []); try reflexivity.
  - repeat split; repeat constructor; discriminate.
  - repeat constructor.
  - cbn. lia.
  - eexists. reflexivity.
  - by left.
  - by right.
  - repeat split; repeat constructor; discriminate.
  - repeat split; repeat constructor; discriminate.
  - repeat constructor; discriminate.
Defined.

(** Two vectors packed along the second axis: their elements interleave. *)
Lemma pack_exact_witness : exists z,
  PackKernel.Compute (E := sample_env) (T := op_lib) (S := shape_lib) (Some (pack_op 2 1 DT_UINT8 [3]))
    [Some (tensor DT_UINT8 (T_int false 8) [3] [1; 2; 3]); Some (tensor DT_UINT8 (T_int false 8) [3] [7; 8; 9])] [] = Ok [z] /\
  holds (T := op_lib) z DT_UINT8 (T_int false 8) [3; 2] [1; 7; 2; 8; 3; 9].
Proof.
  apply (pack_exact (E := sample_env) (HE := sample_env_ok) (T := op_lib) (S := shape_lib) DT_UINT8 (T_int false 8)
    [tensor DT_UINT8 (T_int false 8) [3] [1; 2; 3]; tensor DT_UINT8 (T_int false 8) [3] [7; 8; 9]] [[1; 2; 3]; [7; 8; 9]] [3] 1 (pack_op 2 1 DT_UINT8 [3])
    (mkSample [] DT_FLOAT []) []); try reflexivity.
  - constructor; [|constructor; [|constructor]]; repeat split; repeat constructor; discriminate.
  - repeat constructor.
  - split; reflexivity.
  - discriminate.
  
  - eexists. reflexivity.
Defined.

(** GatherV2 accepts a scalar index but saves none for it: along the last axis it folds the operator to a
    tensor of zeros, along the first it reads an index that is not there.  An object that is used
    again picks with the indices of its first call. *)
Theorem gather_scalar_deviates :
  let run indicates_ idx ids axis := GatherV2Kernel.Compute (E := sample_env) (T := op_lib) (S := shape_lib) indicates_ (Some plain_op)
    [Some (tensor DT_UINT8 (T_int false 8) [2; 2] [1; 2; 3; 4]); Some (tensor DT_INT32 (T_int true 32) idx ids); Some (tensor DT_INT32 (T_int true 32) [] [axis])] [] in
  run [] [] [1] 1 = Ok (SUCCESS, [mkSample [2] DT_UINT8 [0; 0]], []) /\
  run [] [] [1] 0 = Stuck /\
  run [0] [1] [1] 0 = Ok (SUCCESS, [mkSample [1; 2] DT_UINT8 [1; 2]], [0; 1]).
Proof. split; [|split]; vm_compute; reflexivity. Qed.
