(* ===== verification/NumericKernels.v ===== *)
(** The host kernels that compute numbers: Range, Fill and ReduceProd (ge/host_kernels), with the helpers of
    KernelUtils (kernel_utils.h). *)
From stdpp Require Import strings.
From S2P Require Import Prelude MathUtil Buffer FormatsUtils Bytes Fp16 Fp16Convert DataTypeTransfer FloatMath BCast HostKernels SliceKernels GatherKernels.

(** * KernelUtils *)
Module KernelUtils.
Section Utils.
Context `{E : Env} `{S : ShapeLib}.

Definition IsUnknownShape (dims : list Z) : bool := existsb (fun dim => dim <? 0) dims.

Definition GenData (t : NumT) (data_num value : Z) (output : GeTensor) : outcome GeTensor :=
  if 0 <? data_num then
    if negb (CheckInt64MulOverflow data_num (num_size t)) then Err PARAM_INVALID
    else
      match new_uint8 (data_num * num_size t) with
      | None => Err MEMALLOC_FAILED
      | Some _ => Ok (SetData (vector_bytes t (repeat value (Z.to_nat data_num))) output)
      end
  else Ok output.

(** The loop over the [n] dimensions from [i] on: vec_dim and data_num. *)
Fixpoint calc_dims (t : NumT) (data : list Z) (n : nat) (i : Z) (vec_dim : list Z) (data_num : Z) : outcome (list Z * Z) :=
  match n with
  | O => Ok (vec_dim, data_num)
  | Datatypes.S n =>
      dim ← load_num t data i;
      if dim <? 0 then Err PARAM_INVALID
      else if dim =? 0 then Ok ([], 0)
      else if negb (CheckInt64MulOverflow data_num dim) then Err PARAM_INVALID
      else calc_dims t data n (i + 1) (vec_dim ++ [dim]) (data_num * dim)%i64
  end.

Definition CalcDims (t : NumT) (dims : GeTensor) : outcome (list Z * Z) :=
  calc_dims t (GetData dims) (Z.to_nat (wrapS 32 (zlen (GetData dims) / num_size t))) 0 [] 1.
End Utils.
End KernelUtils.

(** * FillKernel *)
Module FillKernel.
Section Fill.
Context `{E : Env} `{S : ShapeLib}.

(** The cases of the switch. *)
Definition fill_type (d : DataType) : option NumT := match d with DT_BOOL => Some T_bool | _ => num_type d end.

Definition Compute (op_desc_ptr : option OpDesc) (input : list TensorPtr) (v_output : list GeTensor) : outcome (list GeTensor) :=
  if negb (length input =? 2)%nat then Err NOT_CHANGED
  else
    match op_desc_ptr with
    | None => Err PARAM_INVALID
    | Some op_desc =>
        dims ← at_ input 0;
        value ← at_ input 1;
        match dims, value with
        | Some dims, Some value =>
            if negb (length (GetDims value) =? 0)%nat then Err NOT_CHANGED
            else
              match MakeShared op_desc 0 with
              | None => Err MEMALLOC_FAILED
              | Some output_ptr =>
                  let dim_type := GetDataType dims in
                  '(vec_dim, fill_size) ←
                    (if bool_decide (dim_type = DT_INT32) then KernelUtils.CalcDims (T_int true 32) dims
                     else if bool_decide (dim_type = DT_INT64) then KernelUtils.CalcDims (T_int true 64) dims
                     else Err PARAM_INVALID);
                  let data_type := GetDataType value in
                  match fill_type data_type with
                  | None => Err NOT_CHANGED
                  | Some t =>
                      v ← load_num t (GetData value) 0;
                      output_ptr ← KernelUtils.GenData t fill_size v output_ptr;
                      emit v_output (SetDataType data_type (SetShape vec_dim output_ptr))
                  end
              end
        | _, _ => Err PARAM_INVALID
        end
    end.
End Fill.
End FillKernel.

(** * RangeKernel *)
Module RangeKernel.
Section Range.
Context `{E : Env} `{S : ShapeLib}.

Definition kRangeSupportedType : list DataType := [DT_INT32; DT_FLOAT].

Definition RangeCheck (input : list TensorPtr) : Status :=
  match input with
  | [start; limit; delta] =>
      match start, limit, delta with
      | Some start, Some limit, Some delta =>
          if (zlen (GetData start) =? 0) || (zlen (GetData limit) =? 0) || (zlen (GetData delta) =? 0) then NOT_CHANGED
          else
            let type := GetDataType start in
            if negb (bool_decide (type = GetDataType limit)) || negb (bool_decide (type = GetDataType delta)) then NOT_CHANGED
            else if negb ((length (GetDims start) =? 0)%nat && (length (GetDims limit) =? 0)%nat && (length (GetDims delta) =? 0)%nat) then NOT_CHANGED
            else if negb (supports kRangeSupportedType type) then NOT_CHANGED
            else SUCCESS
      | _, _, _ => PARAM_INVALID
      end
  | _ => NOT_CHANGED
  end.

(** `val += delta` [n] times, and the values before each. *)
Fixpoint sequence (add : Z -> Z -> Z) (n : nat) (val delta : Z) : list Z :=
  match n with
  | O => []
  | Datatypes.S n => val :: sequence add n (add val delta) delta
  end.

(** The part after the number of elements is known. *)
Definition fill_range (t : NumT) (add : Z -> Z -> Z) (size start delta : Z) (output : GeTensor) : outcome GeTensor :=
  let output := SetShape [] output in
  if 0 <? size then
    match new_uint8 (size * num_size t) with
    | None => Err MEMALLOC_FAILED
    | Some _ => Ok (SetShape [size] (SetData (vector_bytes t (sequence add (Z.to_nat size) start delta)) output))
    end
  else Ok output.

(** std::abs on int32_t *)
Definition abs32 (z : Z) : Z := wrapS 32 (Z.abs z).

(** GetRange<int32_t>; the number of elements passes through a double, which holds it exactly. *)
Definition GetRange_int32 (start limit delta : Z) (output : GeTensor) : outcome GeTensor :=
  if delta =? 0 then Err PARAM_INVALID
  else if (limit <? start) && (0 <? delta) then Err PARAM_INVALID
  else if (start <? limit) && (delta <? 0) then Err PARAM_INVALID
  else
    let size := wrapS 32 (Z.quot (wrapS 32 (wrapS 32 (abs32 (wrapS 32 (limit - start)) + abs32 delta) - 1)) (abs32 delta)) in
    fill_range (T_int true 32) (fun a b => wrapS 32 (a + b)) size start delta output.

(** std::ceil(std::abs(q)) converted to int64_t: undefined when it does not fit. *)
Definition ceil_abs (q : Z) : outcome Z :=
  let n := - (- ieee_abs 23 8 q / 2 ^ ieee_unit 23 8) in
  if ieee_isfinite 23 8 q && (n <? 2 ^ 63) then Ok n else Stuck.

(** GetRange<float>; +0 has the bits 0. *)
Definition GetRange_float (start limit delta : Z) (output : GeTensor) : outcome GeTensor :=
  if ieee_isfinite 23 8 delta && (ieee_abs 23 8 delta =? 0) then Err PARAM_INVALID
  else if ieee_lt 23 8 limit start && ieee_lt 23 8 0 delta then Err PARAM_INVALID
  else if ieee_lt 23 8 start limit && ieee_lt 23 8 delta 0 then Err PARAM_INVALID
  else
    size ← ceil_abs (ieee_div 23 8 (ieee_sub 23 8 limit start) delta);
    fill_range T_float (ieee_add 23 8) size start delta output.

Definition Compute (op_desc_ptr : option OpDesc) (input : list TensorPtr) (v_output : list GeTensor) : outcome (list GeTensor) :=
  match op_desc_ptr with
  | None => Err PARAM_INVALID
  | Some op_desc =>
      if negb (bool_decide (RangeCheck input = SUCCESS)) then Err (RangeCheck input)
      else
        match MakeShared op_desc 0 with
        | None => Err MEMALLOC_FAILED
        | Some output_ptr =>
            start ← input_at input 0;
            limit ← input_at input 1;
            delta ← input_at input 2;
            let data_type := GetDataType delta in
            output_ptr ←
              (if bool_decide (data_type = DT_FLOAT) then
                 s ← load_num T_float (GetData start) 0;
                 l ← load_num T_float (GetData limit) 0;
                 d ← load_num T_float (GetData delta) 0;
                 or_else PARAM_INVALID (GetRange_float s l d output_ptr)
               else if bool_decide (data_type = DT_INT32) then
                 s ← load_num (T_int true 32) (GetData start) 0;
                 l ← load_num (T_int true 32) (GetData limit) 0;
                 d ← load_num (T_int true 32) (GetData delta) 0;
                 or_else PARAM_INVALID (GetRange_int32 s l d output_ptr)
               else Ok output_ptr);
            emit v_output (SetDataType data_type output_ptr)
        end
  end.
End Range.
End RangeKernel.

(** * ReduceProdKernel *)
Module ReduceProdKernel.
Section ReduceProd.
Context `{E : Env} `{S : ShapeLib}.

Definition kReduceProdSupportedType : list DataType := [DT_INT32].

Definition ReduceProdCheck (op_desc_ptr : option OpDesc) (input : list TensorPtr) : Status :=
  match op_desc_ptr with
  | None => PARAM_INVALID
  | Some _ =>
      match input with
      | [data_tensor; axis_tensor] =>
          match data_tensor, axis_tensor with
          | Some data_tensor, Some axis_tensor =>
              if (1 <? length (GetDims axis_tensor))%nat then PARAM_INVALID
              else if negb (supports kReduceProdSupportedType (GetDataType data_tensor)) then PARAM_INVALID
              else SUCCESS
          | _, _ => PARAM_INVALID
          end
      | [_] => NOT_CHANGED
      | _ => PARAM_INVALID
      end
  end.

(** `if (dim != 0 && total > INT64_MAX / dim) return INTERNAL_ERROR; total *= dim;` over the dimensions. *)
Fixpoint dim_total (total : Z) (dims : list Z) : outcome Z :=
  match dims with
  | [] => Ok total
  | dim :: dims =>
      if negb (dim =? 0) && (quot64 INT64_MAX dim <? total) then Err INTERNAL_ERROR
      else dim_total (total * dim)%i64 dims
  end.

(** axis_dim_, head_dim_ and end_dim_; the axis is compared as a size_t, so a negative one is out of range. *)
Definition AxisCal (data_dims : list Z) (axis : Z) : outcome (Z * Z * Z) :=
  if zlen data_dims <=? wrapU64 axis then Err PARAM_INVALID
  else
    axis_dim_ ← vget data_dims axis;
    head_dim_ ← dim_total 1 (take (Z.to_nat axis) data_dims);
    end_dim_ ← dim_total 1 (drop (Datatypes.S (Z.to_nat axis)) data_dims);
    Ok (axis_dim_, head_dim_, end_dim_).

(** The product of [x] with the elements at [off], [off + step], ...; [n] of them. *)
Fixpoint product (data : list Z) (off step : Z) (n : nat) (tmp_x : Z) : outcome Z :=
  match n with
  | O => Ok tmp_x
  | Datatypes.S n =>
      tmp_y ← load_num (T_int true 32) data off;
      if negb (bool_decide (CheckInt32MulOverflow tmp_x tmp_y = SUCCESS)) then Err INTERNAL_ERROR
      else product data (off + step) step n (wrapS 32 (tmp_x * tmp_y))
  end.

(** The loop nest of DataCal; [buf] is the vector of results. *)
Definition reduce_loop (data : list Z) (axis_dim_ head_dim_ end_dim_ : Z) (buf : list Z) : outcome (list Z) :=
  for_range head_dim_ (fun i buf =>
    for_range end_dim_ (fun j buf =>
      let off := (i * end_dim_ * axis_dim_ + j)%i64 in
      tmp_x ← load_num (T_int true 32) data off;
      tmp_x ← product data (off + end_dim_) end_dim_ (Z.to_nat (axis_dim_ - 1)) tmp_x;
      vset buf (i * end_dim_ + j)%i64 tmp_x) buf) buf.

Definition DataCal (data_tensor : GeTensor) (axis_dim_ head_dim_ end_dim_ : Z) (output_ptr : GeTensor) : outcome GeTensor :=
  if bool_decide (GetDataType data_tensor = DT_INT32) then
    if negb (has_data data_tensor) then Err PARAM_INVALID
    else
      let data_num := zlen (GetData data_tensor) / 4 in
      match new_uint8 (data_num * 4) with
      | None => Err INTERNAL_ERROR
      | Some _ =>
          buf ← reduce_loop (GetData data_tensor) axis_dim_ head_dim_ end_dim_ (repeat 0 (Z.to_nat data_num));
          bytes ← read_bytes (vector_bytes (T_int true 32) buf) 0 (wrapU64 (head_dim_ * end_dim_ * 4));
          Ok (SetData bytes output_ptr)
      end
  else Ok output_ptr.

Definition ShapeCal (op_desc : OpDesc) (data_dims : list Z) (axis : Z) (output_ptr : GeTensor) : GeTensor :=
  let keep_dims := default false (GetBool op_desc "keep_dims") in
  let dims :=
    if keep_dims then imap (fun i x => if Z.of_nat i =? axis then 1 else x) data_dims
    else omap (fun '(i, x) => if Z.of_nat i =? axis then None else Some x) (imap pair data_dims) in
  SetShape dims output_ptr.

Definition ComputeNoAxis (input : list TensorPtr) (output_ptr : GeTensor) : outcome GeTensor :=
  p ← at_ input 0;
  match p with
  | None => Err PARAM_INVALID
  | Some data_tensor =>
      if zlen (GetData data_tensor) =? 0 then Err PARAM_INVALID
      else
        let data_type := GetDataType data_tensor in
        if negb (supports kReduceProdSupportedType data_type) then Err PARAM_INVALID
        else if negb (has_data data_tensor) then Err PARAM_INVALID
        else
          let data_num := zlen (GetData data_tensor) / 4 in
          match new_uint8 (data_num * 4) with
          | None => Err INTERNAL_ERROR
          | Some _ =>
              tmp_x ← load_num (T_int true 32) (GetData data_tensor) 0;
              tmp_x ← product (GetData data_tensor) 1 1 (Z.to_nat (data_num - 1)) tmp_x;
              Ok (SetShape [] (SetDataType data_type (SetData (num_bytes (T_int true 32) tmp_x) output_ptr)))
          end
  end.

Definition Compute (op_desc_ptr : option OpDesc) (input : list TensorPtr) (v_output : list GeTensor) : outcome (list GeTensor) :=
  let ret := ReduceProdCheck op_desc_ptr input in
  if negb (bool_decide (ret = SUCCESS)) && negb (bool_decide (ret = NOT_CHANGED)) then Err NOT_CHANGED
  else
    op_desc ← or_stuck op_desc_ptr;
    match MakeShared op_desc 0 with
    | None => Err NOT_CHANGED
    | Some output_ptr =>
        output_ptr ←
          (if bool_decide (ret = NOT_CHANGED) then or_else NOT_CHANGED (ComputeNoAxis input output_ptr)
           else
             data_tensor ← input_at input 0;
             axis_tensor ← input_at input 1;
             if zlen (GetData axis_tensor) =? 0 then
               Ok (SetData (GetData data_tensor) (SetDataType (GetDataType data_tensor) (SetShape (GetDims data_tensor) output_ptr)))
             else if negb (has_data axis_tensor) then Err NOT_CHANGED
             else
               axis ← load_num (T_int true 32) (GetData axis_tensor) 0;
               '(axis_dim_, head_dim_, end_dim_) ← or_else NOT_CHANGED (AxisCal (GetDims data_tensor) axis);
               let output_ptr := SetDataType (GetDataType data_tensor) (ShapeCal op_desc (GetDims data_tensor) axis output_ptr) in
               if negb (zlen (GetData data_tensor) =? 0)
               then or_else NOT_CHANGED (DataCal data_tensor axis_dim_ head_dim_ end_dim_ output_ptr)
               else Ok output_ptr);
        emit v_output output_ptr
    end.
End ReduceProd.
End ReduceProdKernel.
