(* ===== verification/NumericTheorems.v ===== *)
(** What Range, Fill and ReduceProd compute. *)
From stdpp Require Import strings.
From S2P Require Import Prelude MathUtil Buffer FormatsUtils Bytes FormatIndex FormatTranspose Fp16 DataTypeTransfer FloatMath BCast HostKernels KernelTheorems SliceKernels SliceTheorems GatherKernels GatherTheorems NumericKernels.

Abbreviation t32 := (T_int true 32).

Lemma t32_ok : num_ok t32.
Proof. by apply (bool_decide_eq_true_1 _). Qed.

Lemma load_scalar `{T : TensorLib} x d t v : num_ok t -> holds x d t [] [v] -> load_num t (GetData x) 0 = Ok v.
Proof. intros Ht (_ & _ & D & F & _). rewrite D. apply (load_at t [v] 0); [done..|cbn; lia]. Qed.

Lemma scalar_data `{T : TensorLib} x d t v : num_ok t -> holds x d t [] [v] -> (zlen (GetData x) =? 0) = false.
Proof. intros Ht (_ & _ & D & _). rewrite D. by apply vector_size_nonzero. Qed.

(** * Range *)
Section Range.
Context `{E : Env} `{HT : TensorLibOk} {S : ShapeLib (T := T)} {HS : ShapeLibOk S}.
Import RangeKernel.

(** The number of elements from [s] to [l] in steps of [dl]. *)
Definition range_size (s l dl : Z) : Z := (Z.abs (l - s) + Z.abs dl - 1) / Z.abs dl.
Definition range_values (s l dl : Z) : list Z := (fun i => s + i * dl) <$> seqZ 0 (range_size s l dl).
(** The step leads from [s] to [l]. *)
Definition range_ok (s l dl : Z) : bool := negb ((dl =? 0) || ((l <? s) && (0 <? dl)) || ((s <? l) && (dl <? 0))).

Lemma sequence_ok n s dl : (forall i, 0 <= i < Z.of_nat n -> inS 32 (s + i * dl)) ->
  sequence (fun a b => wrapS 32 (a + b)) n s dl = (fun i => s + i * dl) <$> seqZ 0 (Z.of_nat n).
Proof.
  revert s. induction n as [|n IH]; intros s H; [done|]. cbn [sequence]. rewrite seqZ_cons by lia. cbn [fmap list_fmap].
  rewrite Z.mul_0_l, Z.add_0_r. f_equal. replace (Z.pred (Z.of_nat (Datatypes.S n))) with (Z.of_nat n) by lia. change (Z.succ 0) with 1.
  destruct n as [|n]; [done|]. rewrite wrapS_id by (lia || (replace (s + dl) with (s + 1 * dl) by ring; apply H; lia)).
  rewrite IH. 2:{ intros i Hi. replace (s + dl + i * dl) with (s + (i + 1) * dl) by ring. apply H. lia. }
  apply list_eq. intros k. rewrite !list_lookup_fmap. destruct (decide (k < Datatypes.S n)%nat).
  - rewrite !lookup_seqZ_lt by lia. cbn. f_equal. ring.
  - by rewrite !lookup_seqZ_ge by lia.
Qed.

Lemma range_bounds s l dl : inS 32 s -> inS 32 l -> range_ok s l dl = true -> forall i, 0 <= i < range_size s l dl -> inS 32 (s + i * dl).
Proof.
  intros Hs Hl Hok i Hi. unfold range_ok, range_size in *. assert (dl <> 0 /\ (l < s -> dl < 0) /\ (s < l -> 0 < dl)) as (H0 & H1 & H2) by lia.
  assert (i * Z.abs dl < Z.abs (l - s)).
  { pose proof (Z.mul_div_le (Z.abs (l - s) + Z.abs dl - 1) (Z.abs dl) ltac:(lia)). nia. }
  unfold inS in *. destruct (Z.lt_trichotomy s l) as [|[|]]; [pose proof (H2 ltac:(lia))|subst|pose proof (H1 ltac:(lia))]; nia.
Qed.

Lemma GetRange_ok s l dl o : inS 32 s -> inS 32 l -> Z.abs (l - s) + Z.abs dl < 2 ^ 31 -> range_ok s l dl = true ->
  is_Some (new_uint8 (range_size s l dl * 4)) ->
  GetRange_int32 s l dl o = Ok (if 0 <? range_size s l dl
    then SetShape [range_size s l dl] (SetData (vector_bytes t32 (range_values s l dl)) (SetShape [] o)) else SetShape [] o).
Proof.
  intros Hs Hl Hb Hok [buf Hn]. pose proof (range_bounds s l dl Hs Hl Hok) as Hin. unfold range_ok in Hok. unfold GetRange_int32.
  destruct (Z.eqb_spec dl 0); [done|]. destruct ((l <? s) && (0 <? dl)); [done|]. destruct ((s <? l) && (dl <? 0)); [done|].
  unfold abs32. rewrite (wrapS_id 32 (l - s)), !(wrapS_id 32 (Z.abs _)), (wrapS_id 32 (_ + _)), (wrapS_id 32 (_ - 1)) by (unfold inS; lia).
  rewrite Z.quot_div_nonneg by lia. fold (range_size s l dl).
  assert (0 <= range_size s l dl < 2 ^ 31) as Hr.
  { unfold range_size. split; [apply Z.div_pos; lia|]. apply Z.div_lt_upper_bound; nia. }
  rewrite wrapS_id by (unfold inS; lia). unfold fill_range. destruct (Z.ltb_spec 0 (range_size s l dl)); [|done].
  change (num_size t32) with 4. rewrite Hn. rewrite sequence_ok by (rewrite Z2Nat.id by lia; exact Hin). by rewrite Z2Nat.id by lia.
Qed.

(** C30 Range on int32_t scalars: the output holds start, start + delta, ... up to the limit, which it does not
    reach; a delta of zero or of the wrong sign is an error.  An empty range keeps the
    description's data with an empty shape.  The sizes must not overflow int32_t. *)
Theorem range_exact st li de op o s l dl v_output :
  holds st DT_INT32 t32 [] [s] -> holds li DT_INT32 t32 [] [l] -> holds de DT_INT32 t32 [] [dl] -> MakeShared op 0 = Some o ->
  is_Some (new_uint8 (range_size s l dl * 4)) ->
  let run := Compute (Some op) [Some st; Some li; Some de] v_output in
  (range_ok s l dl = false -> run = Err PARAM_INVALID) /\
  (range_ok s l dl = true -> Z.abs (l - s) + Z.abs dl < 2 ^ 31 -> exists z, run = Ok (v_output ++ [z]) /\
    if 0 <? range_size s l dl then holds z DT_INT32 t32 [range_size s l dl] (range_values s l dl)
    else GetDims z = [] /\ GetDataType z = DT_INT32 /\ GetData z = GetData o).
Proof.
  intros Hst Hli Hde Ho Hn run. pose proof t32_ok as Ht.
  assert (run = (z ← or_else PARAM_INVALID (GetRange_int32 s l dl o); emit v_output (SetDataType DT_INT32 z))) as ->.
  { unfold run, Compute. assert (RangeCheck [Some st; Some li; Some de] = SUCCESS) as ->.
    { pose proof Hst as (S1 & T1 & _). pose proof Hli as (S2 & T2 & _). pose proof Hde as (S3 & T3 & _). unfold RangeCheck.
      rewrite (scalar_data st DT_INT32 t32 s), (scalar_data li DT_INT32 t32 l), (scalar_data de DT_INT32 t32 dl), S1, S2, S3, T1, T2, T3 by done. done. }
    rewrite bool_decide_eq_true_2, Ho by done. cbn [negb mbind outcome_bind input_at at_ lookup list_lookup or_stuck].
    rewrite (proj1 (proj2 Hde)). rewrite bool_decide_eq_false_2, bool_decide_eq_true_2 by done.
    rewrite (load_scalar st DT_INT32 t32 s), (load_scalar li DT_INT32 t32 l), (load_scalar de DT_INT32 t32 dl) by done. done. }
  split.
  - intros Hok. unfold GetRange_int32, range_ok in *. apply negb_false_iff in Hok.
    destruct (dl =? 0); [done|]. destruct ((l <? s) && (0 <? dl)); [done|]. by destruct ((s <? l) && (dl <? 0)).
  - intros Hok Hb. destruct Hst as (_ & _ & _ & F1 & _), Hli as (_ & _ & _ & F2 & _). apply Forall_inv in F1, F2.
    rewrite GetRange_ok by done. eexists. split; [done|]. pose proof (range_bounds s l dl F1 F2 Hok) as Hin.
    destruct (Z.ltb_spec 0 (range_size s l dl)) as [Hp|_].
    + apply holds_output; rewrite ?get_dims_type, ?get_dims_shape, ?get_type_type, ?get_data_type, ?get_data_shape, ?get_data_data; try done.
      * apply Forall_fmap, Forall_forall. intros i Hi. apply elem_of_seqZ in Hi. apply Hin. lia.
      * by repeat constructor.
      * unfold range_values. rewrite length_fmap, !length_seqZ. cbn. lia.
    + by rewrite get_dims_type, get_dims_shape, get_type_type, get_data_type, get_data_shape.
Qed.
End Range.

(** * Fill *)
Section Fill.
Context `{E : Env} `{HT : TensorLibOk} {S : ShapeLib (T := T)} {HS : ShapeLibOk S}.
Import KernelUtils FillKernel.

(** The dimensions [pre] before the first that is not positive. *)
Lemma calc_dims_ok t ds pre rest n i acc num : num_ok t -> Forall (num_in t) ds -> (i + n = length ds)%nat -> drop i ds = pre ++ rest ->
  Forall (Z.lt 0) pre -> 0 < num -> num * prodZ pre < 2 ^ 63 ->
  calc_dims t (vector_bytes t ds) n (Z.of_nat i) acc num =
  match rest with
  | [] => Ok (acc ++ pre, num * prodZ pre)
  | r :: _ => calc_dims t (vector_bytes t ds) (length rest) (Z.of_nat (i + length pre)) (acc ++ pre) (num * prodZ pre)
  end.
Proof.
  intros Ht HF. revert pre i acc num. induction n as [|n IH]; intros pre i acc num Hl Hd Hp Hn Hb.
  - rewrite drop_ge in Hd by lia. symmetry in Hd. apply app_eq_nil in Hd as [-> ->]. cbn [calc_dims]. change (prodZ []) with 1. by rewrite app_nil_r, Z.mul_1_r.
  - destruct pre as [|x pre].
    + cbn [app] in Hd. change (prodZ []) with 1. rewrite app_nil_r, Z.mul_1_r, Nat.add_0_r. assert (length rest = Datatypes.S n) as Hr by (rewrite <- Hd, length_drop; lia).
      destruct rest as [|r rest]; [done|]. by rewrite Hr.
    + destruct (drop_vget ds i x (pre ++ rest) Hd) as [Gx Hd']. cbn [calc_dims]. rewrite (load_vector t ds _ x) by done. cbn [mbind outcome_bind].
      apply Forall_cons in Hp as [Hx Hp]. pose proof (prodZ_gt0 _ Hp). rewrite prodZ_cons in *.
      destruct (Z.ltb_spec x 0); [lia|]. destruct (Z.eqb_spec x 0); [lia|]. rewrite CheckInt64MulOverflow_small by nia. cbn [negb].
      unfold mul64. rewrite wrap64_id by nia. replace (Z.of_nat i + 1) with (Z.of_nat (Datatypes.S i)) by lia.
      rewrite (IH pre (Datatypes.S i)) by (done || lia || nia). rewrite <- !app_assoc, <- Z.mul_assoc. cbn [app length].
      by replace (Datatypes.S i + length pre)%nat with (i + Datatypes.S (length pre))%nat by lia.
Qed.

Lemma CalcDims_ok x dix t ds pre rest : num_ok t -> holds x dix t [zlen ds] ds -> zlen ds < 2 ^ 31 -> ds = pre ++ rest -> Forall (Z.lt 0) pre -> prodZ pre < 2 ^ 63 ->
  match rest with
  | [] => CalcDims t x = Ok (pre, prodZ pre)
  | r :: _ => (r = 0 -> CalcDims t x = Ok ([], 0)) /\ (r < 0 -> CalcDims t x = Err PARAM_INVALID)
  end.
Proof.
  intros Ht (_ & _ & D & F & _) Hz Hd Hp Hb. pose proof (num_size_pos t Ht). unfold CalcDims. rewrite D, zlen_vector, Z.div_mul by (done || lia).
  pose proof (zlen_nonneg ds). rewrite wrapS_id by (lia || unfold inS; lia). replace (Z.to_nat (zlen ds)) with (length ds) by (unfold zlen; lia).
  pose proof (calc_dims_ok t ds pre rest (length ds) 0 [] 1 Ht F eq_refl ltac:(by rewrite drop_0) Hp ltac:(lia) ltac:(lia)) as HC.
  change (Z.of_nat 0) with 0 in HC. rewrite HC. cbn [app Nat.add]. rewrite Z.mul_1_l. destruct rest as [|r rest]; [done|]. cbn [length calc_dims].
  assert (load_num t (vector_bytes t ds) (Z.of_nat (length pre)) = Ok r) as ->.
  { apply load_vector; [done..|]. apply vget_lookup; [|lia]. rewrite Nat2Z.id, Hd. by rewrite lookup_app_r, Nat.sub_diag by lia. }
  cbn [mbind outcome_bind]. split; intros Hr; destruct (Z.ltb_spec r 0), (Z.eqb_spec r 0); (done || lia).
Qed.

(** C31 Fill with a scalar of one of twelve types and dimensions of int32_t or int64_t: with positive dimensions
    every element of the output is the scalar and the shape is the dimensions; a negative dimension is an
    error; a zero one gives a tensor of the empty shape without new data. *)
Theorem fill_exact dt vt op o dix d tix t ds pre rest v v_output :
  (dix, tix) = (DT_INT32, t32) \/ (dix, tix) = (DT_INT64, T_int true 64) -> holds dt dix tix [zlen ds] ds -> zlen ds < 2 ^ 31 ->
  fill_type d = Some t -> holds vt d t [] [v] -> MakeShared op 0 = Some o ->
  ds = pre ++ rest -> Forall (Z.lt 0) pre -> prodZ pre * num_size t < 2 ^ 63 -> is_Some (new_uint8 (prodZ pre * num_size t)) ->
  let run := Compute (Some op) [Some dt; Some vt] v_output in
  match rest with
  | [] => exists z, run = Ok (v_output ++ [z]) /\ holds z d t ds (repeat v (Z.to_nat (prodZ ds)))
  | r :: _ => (r < 0 -> run = Err PARAM_INVALID) /\
      (r = 0 -> exists z, run = Ok (v_output ++ [z]) /\ GetDims z = [] /\ GetDataType z = d /\ GetData z = GetData o)
  end.
Proof.
  intros Hix Hdt Hz Hft Hvt Ho Hd Hp Hb [buf Hn] run. assert (num_ok t) as Ht by (destruct d; cbn in Hft; simplify_eq; try done; by apply (bool_decide_eq_true_1 _)).
  destruct (index_type_ok dix tix Hix) as (Htix & _ & _). pose proof (num_size_pos t Ht). pose proof (prodZ_gt0 _ Hp).
  assert (run = ('(vec_dim, fill_size) ← CalcDims tix dt; z ← GenData t fill_size v o; emit v_output (SetDataType d (SetShape vec_dim z)))) as ->.
  { unfold run, Compute. cbn [length Nat.eqb negb at_ lookup list_lookup mbind outcome_bind]. pose proof Hvt as (Sv & Tv & _). pose proof Hdt as (_ & Td & _).
    rewrite Sv, Tv, Td, Hft, Ho. cbn [length Nat.eqb negb]. rewrite (load_scalar vt d t v) by done.
    destruct Hix as [[= -> ->]|[= -> ->]]; cbn [bool_decide decide]; destruct (CalcDims _ dt) as [[]| |]; done. }
  pose proof (CalcDims_ok dt dix tix ds pre rest Htix Hdt Hz Hd Hp ltac:(nia)) as HC. destruct rest as [|r rest].
  - rewrite app_nil_r in Hd. subst pre. rewrite HC. cbn [mbind outcome_bind]. unfold GenData. rewrite (proj2 (Z.ltb_lt _ _)) by done.
    rewrite CheckInt64MulOverflow_small, Hn by nia. cbn [negb mbind outcome_bind]. eexists. split; [done|].
    apply holds_output; rewrite ?get_dims_type, ?get_dims_shape, ?get_type_type, ?get_data_type, ?get_data_shape, ?get_data_data; try done.
    + destruct Hvt as (_ & _ & _ & F & _). apply Forall_inv in F. apply Forall_forall. intros y Hy. apply list_elem_of_In, repeat_spec in Hy. by subst.
    + by rewrite repeat_length, length_seqZ.
  - destruct HC as [HC0 HCn]. split; intros Hr.
    + by rewrite HCn.
    + rewrite HC0 by done. eexists. split; [done|]. by rewrite get_dims_type, get_dims_shape, get_type_type, get_data_type, get_data_shape.
Qed.
End Fill.

(** * ReduceProd *)

(** Loops over two indices, seen as one loop over the row-major index. *)
Lemma for_loop_ext {A} (f g : Z -> A -> outcome A) k i s : (forall j s, i <= j < i + Z.of_nat k -> f j s = g j s) -> for_loop k i f s = for_loop k i g s.
Proof.
  revert i s. induction k as [|k IH]; intros i s H; [done|]. cbn [for_loop]. rewrite H by lia. destruct (g i s); cbn [mbind outcome_bind]; try done.
  apply IH. intros j s' Hj. apply H. lia.
Qed.

Lemma for_range_ext {A} (f g : Z -> A -> outcome A) n s : (forall j s, 0 <= j < n -> f j s = g j s) -> for_range n f s = for_range n g s.
Proof. intros H. apply for_loop_ext. intros j s' Hj. apply H. lia. Qed.

Lemma for_loop_app {A} (f : Z -> A -> outcome A) m n i s : for_loop (m + n) i f s = for_loop m i f s ≫= for_loop n (i + Z.of_nat m) f.
Proof.
  revert i s. induction m as [|m IH]; intros i s; cbn [for_loop Nat.add]; [cbn; by rewrite Z.add_0_r|].
  destruct (f i s); cbn [mbind outcome_bind]; try done. rewrite IH. by replace (i + 1 + Z.of_nat m) with (i + Z.of_nat (S m)) by lia.
Qed.

Lemma for_loop_shift {A} (f : Z -> A -> outcome A) n i off s : for_loop n i (fun j => f (off + j)) s = for_loop n (off + i) f s.
Proof. revert i s. induction n as [|n IH]; intros i s; [done|]. cbn [for_loop]. destruct (f (off + i) s); cbn [mbind outcome_bind]; try done. by rewrite IH, Z.add_assoc. Qed.

Lemma for_loop_flat {A} (f : Z -> A -> outcome A) (n m i : nat) s :
  for_loop m (Z.of_nat i) (fun i => for_loop n 0 (fun j => f (i * Z.of_nat n + j))) s = for_loop (m * n) (Z.of_nat i * Z.of_nat n) f s.
Proof.
  revert i s. induction m as [|m IH]; intros i s; [done|]. cbn [for_loop Nat.mul]. rewrite for_loop_app.
  rewrite (for_loop_shift f n 0 (Z.of_nat i * Z.of_nat n)), Z.add_0_r. destruct (for_loop n _ f s) as [s'| |]; cbn [mbind outcome_bind]; try done.
  replace (Z.of_nat i + 1) with (Z.of_nat (S i)) by lia. rewrite IH. f_equal. lia.
Qed.

Lemma for_range_flat {A} (f : Z -> A -> outcome A) a b s : 0 <= a -> 0 <= b -> for_range a (fun i => for_range b (fun j => f (i * b + j))) s = for_range (a * b) f s.
Proof.
  intros Ha Hb. unfold for_range. rewrite Z2Nat.inj_mul by done. pose proof (for_loop_flat f (Z.to_nat b) (Z.to_nat a) 0 s) as H.
  rewrite Z2Nat.id in H by done. exact H.
Qed.

(** A loop that stores a value that may be missing at each place. *)
Lemma store_loop (g : Z -> option Z) st n i b : (i + n <= length b)%nat ->
  for_loop n (Z.of_nat i) (fun r b => v ← match g r with Some v => Ok v | None => Err st end; vset b r v) b =
  match mapM g (seqZ (Z.of_nat i) (Z.of_nat n)) with Some ws => Ok (take i b ++ ws ++ drop (i + n) b) | None => Err st end.
Proof.
  revert i b. induction n as [|n IH]; intros i b Hl; [change (Z.of_nat 0) with 0; rewrite seqZ_nil, Nat.add_0_r by lia; change (Ok b = Ok (take i b ++ drop i b)); by rewrite take_drop|].
  rewrite seqZ_cons by lia. set (body := fun r b => _) in *. cbn [for_loop mapM].
  destruct (g (Z.of_nat i)) as [v|] eqn:Hg; [|assert (body (Z.of_nat i) b = Err st) as -> by (unfold body; by rewrite Hg); done].
  assert (body (Z.of_nat i) b = Ok (<[i := v]> b)) as ->.
  { unfold body, vset. rewrite Hg. cbn [mbind outcome_bind]. destruct (Z.ltb_spec (Z.of_nat i) 0); [lia|].
    destruct (Z.leb_spec (Z.of_nat (length b)) (Z.of_nat i)); [lia|]. cbn [orb]. by rewrite Nat2Z.id. }
  cbn [mbind outcome_bind option_bind]. replace (Z.of_nat i + 1) with (Z.of_nat (S i)) by lia. replace (Z.succ (Z.of_nat i)) with (Z.of_nat (S i)) by lia.
  replace (Z.pred (Z.of_nat (S n))) with (Z.of_nat n) by lia. rewrite IH by (rewrite length_insert; lia). destruct (mapM g _) as [ws|]; [|done]. cbn [mret option_ret].
  f_equal. rewrite (take_S_r _ _ v) by (rewrite list_lookup_insert_eq by lia; done). rewrite take_insert_ge, drop_insert_lt by lia.
  rewrite <- app_assoc. cbn [app]. by replace (S i + n)%nat with (i + S n)%nat by lia.
Qed.

(** The product of the elements of a list, with every partial product in range. *)
Fixpoint exact_prod (x : Z) (l : list Z) : option Z :=
  match l with
  | [] => Some x
  | y :: l => match exact_int true 32 Z.mul x y with Some p => exact_prod p l | None => None end
  end.

(** The elements of a tensor along the axis, at row [h] before it and place [e] behind it. *)
Definition axis_line (A U : Z) (vs : list Z) (h e : Z) : list Z := (fun k => vs !!! Z.to_nat ((h * A + k) * U + e)) <$> seqZ 0 A.
Definition reduced (A U : Z) (vs : list Z) (r : Z) : option Z :=
  match axis_line A U vs (r / U) (r mod U) with x :: l => exact_prod x l | [] => None end.

Section ReduceProd.
Context `{E : Env} `{HT : TensorLibOk} {S : ShapeLib (T := T)} {HS : ShapeLibOk S}.
Import ReduceProdKernel.

Lemma exact_mul x y : num_in t32 x -> num_in t32 y ->
  (if negb (bool_decide (CheckInt32MulOverflow x y = SUCCESS)) then None else Some (wrapS 32 (x * y))) = exact_int true 32 Z.mul x y.
Proof.
  intros Hx Hy. apply num_in_int in Hx, Hy. pose proof (check_exact (check := CheckInt32MulOverflow) (op := Z.mul) x y Hx Hy) as HC. unfold exact_int, fits.
  change (int_lo true 32) with INT32_MIN in *. change (int_hi true 32) with INT32_MAX in *. case_bool_decide as Hc.
  - apply HC in Hc. rewrite wrapS_id by (unfold INT32_MIN, INT32_MAX, inS in *; lia). cbn [negb]. destruct (Z.leb_spec INT32_MIN (x * y)), (Z.leb_spec (x * y) INT32_MAX); (done || lia).
  - cbn [negb]. destruct (Z.leb_spec INT32_MIN (x * y)), (Z.leb_spec (x * y) INT32_MAX); try done. destruct Hc. apply HC. lia.
Qed.

Lemma product_ok vs off step (n : nat) x : Forall (num_in t32) vs -> num_in t32 x -> 0 <= off -> 0 <= step -> (off + (Z.of_nat n - 1) * step < zlen vs \/ n = O) ->
  product (vector_bytes t32 vs) off step n x =
  match exact_prod x ((fun k => vs !!! Z.to_nat (off + k * step)) <$> seqZ 0 (Z.of_nat n)) with Some p => Ok p | None => Err INTERNAL_ERROR end.
Proof.
  intros HF. revert off x. induction n as [|n IH]; intros off x Hx Ho Hs Hb; [done|]. rewrite seqZ_cons by lia. cbn [product fmap list_fmap exact_prod].
  rewrite Z.mul_0_l, Z.add_0_r. assert (off < zlen vs) as Hlt by nia. unfold zlen in Hlt.
  assert (load_num t32 (vector_bytes t32 vs) off = Ok (vs !!! Z.to_nat off)) as ->.
  { pose proof (load_at t32 vs (Z.to_nat off) t32_ok HF ltac:(lia)) as Hl. by rewrite Z2Nat.id in Hl by lia. }
  cbn [mbind outcome_bind]. assert (num_in t32 (vs !!! Z.to_nat off)) as Hy by (apply Forall_lookup_total_1; [done|lia]).
  rewrite <- exact_mul by done. destruct (negb _) eqn:Hc; [done|]. pose proof (exact_mul x _ Hx Hy) as He. rewrite Hc in He. symmetry in He. apply exact_int_in in He.
  rewrite IH; [|done|lia|lia|destruct n; [by right|left; unfold zlen in *; nia]]. change (Z.succ 0) with 1. replace (Z.pred (Z.of_nat (Datatypes.S n))) with (Z.of_nat n) by lia.
  assert (((fun k => vs !!! Z.to_nat (off + step + k * step)) <$> seqZ 0 (Z.of_nat n)) = ((fun k => vs !!! Z.to_nat (off + k * step)) <$> seqZ 1 (Z.of_nat n))) as ->; [|done].
  apply list_eq. intros k. rewrite !list_lookup_fmap. destruct (decide (k < n)%nat); [|by rewrite !lookup_seqZ_ge by lia].
  rewrite !lookup_seqZ_lt by lia. cbn. do 2 f_equal. lia.
Qed.

Lemma dim_total_ok l total : Forall (Z.lt 0) l -> 0 < total -> total * prodZ l < 2 ^ 63 -> dim_total total l = Ok (total * prodZ l).
Proof.
  intros HF. revert total. induction HF as [|d l Hd HF IH]; intros total H0 Hb; cbn [dim_total]; [change (prodZ []) with 1; by rewrite Z.mul_1_r|].
  rewrite prodZ_cons in *. pose proof (prodZ_gt0 _ HF). assert (total * d < 2 ^ 63) by nia.
  assert (quot64 INT64_MAX d = (2 ^ 63 - 1) / d) as ->.
  { unfold quot64, INT64_MAX. rewrite Z.quot_div_nonneg by lia. apply wrap64_id. pose proof (Z.div_pos (2 ^ 63 - 1) d ltac:(lia) Hd).
    pose proof (Z.div_le_upper_bound (2 ^ 63 - 1) d (2 ^ 63 - 1) Hd ltac:(nia)). lia. }
  destruct (Z.eqb_spec d 0); [lia|]. cbn [negb andb]. pose proof (Z.div_le_lower_bound (2 ^ 63 - 1) d total Hd ltac:(lia)).
  destruct (Z.ltb_spec ((2 ^ 63 - 1) / d) total); [lia|]. unfold mul64. rewrite wrap64_id by nia. rewrite IH by nia. f_equal. ring.
Qed.

Context (pre suf vs : list Z) (A : Z).
Abbreviation dims := (pre ++ A :: suf).
Abbreviation R := (prodZ pre).
Abbreviation U := (prodZ suf).
Hypothesis Hpos : Forall (Z.lt 0) dims.
Hypothesis Hbig : prodZ dims < 2 ^ 60.
Hypothesis Fvs : Forall (num_in t32) vs.
Hypothesis Lvs : zlen vs = prodZ dims.

Lemma reduce_parts : Forall (Z.lt 0) pre /\ Forall (Z.lt 0) suf /\ 0 < A /\ 0 < R /\ 0 < U /\ prodZ dims = R * A * U.
Proof.
  pose proof Hpos as HF. apply Forall_app in HF as [H1 H2]. apply Forall_cons in H2 as [H2 H3]. split_and!; try done; try by apply prodZ_gt0. rewrite prodZ_app, prodZ_cons. ring.
Qed.

Lemma AxisCal_ok : AxisCal dims (zlen pre) = Ok (A, R, U).
Proof.
  destruct reduce_parts as (H1 & H2 & HA & HH & HU & Ed). assert (1 <= R * A /\ 1 <= A * U) as [HHA HAU] by nia.
  assert (U <= R * A * U /\ R <= R * (A * U)) as [BU BH] by nia. rewrite Ed in Hbig. unfold AxisCal. pose proof (zlen_nonneg pre). pose proof (zlen_nonneg suf).
  assert (zlen dims = zlen pre + 1 + zlen suf) as Hl by (rewrite zlen_app, zlen_cons; lia).
  assert (wrapU64 (zlen pre) <= zlen pre) by (apply Z.mod_le; lia). destruct (Z.leb_spec (zlen dims) (wrapU64 (zlen pre))); [lia|].
  rewrite (vget_lookup dims (zlen pre) A); [|by unfold zlen; rewrite Nat2Z.id, lookup_app_r, Nat.sub_diag by lia|lia]. cbn [mbind outcome_bind].
  unfold zlen. rewrite Nat2Z.id, take_app_length. rewrite (dim_total_ok pre 1) by (done || lia). cbn [mbind outcome_bind].
  replace (Datatypes.S (length pre)) with (length pre + 1)%nat by lia. rewrite <- drop_drop, drop_app_length. change (drop 1 (A :: suf)) with suf. rewrite (dim_total_ok suf 1) by (done || lia).
  cbn [mbind outcome_bind]. by rewrite !Z.mul_1_l.
Qed.

(** One element of the result. *)
Lemma reduce_one h e buf : 0 <= h < R -> 0 <= e < U ->
  (let off := (h * U * A + e)%i64 in
   tmp_x ← load_num t32 (vector_bytes t32 vs) off;
   tmp_x ← product (vector_bytes t32 vs) (off + U) U (Z.to_nat (A - 1)) tmp_x;
   vset buf (h * U + e)%i64 tmp_x) =
  (v ← match reduced A U vs (h * U + e) with Some v => Ok v | None => Err INTERNAL_ERROR end; vset buf (h * U + e) v).
Proof.
  destruct reduce_parts as (_ & _ & HA & HH & HU & Ed). intros Hh He. cbv zeta. assert (0 <= h * A < R * A) by nia.
  assert (h * A + A <= R * A) by nia.
  assert (h * A * U + A * U <= R * A * U) by (rewrite <- Z.mul_add_distr_r; apply Z.mul_le_mono_nonneg_r; lia). assert (0 <= h * U + e < R * U) by by apply radix_range. assert (R * U <= R * A * U) by nia.
  assert (e < A * U) by nia. assert (R * A * U < 2 ^ 60) by (rewrite <- Ed; exact Hbig). assert (0 <= h * A * U) by nia.
  assert ((h * U * A + e)%i64 = h * A * U + e) as -> by (wrap_eq; lia). assert ((h * U + e)%i64 = h * U + e) as -> by (wrap_eq; lia).
  unfold reduced. rewrite radix_div, radix_mod by done. unfold axis_line. rewrite seqZ_cons by lia. cbn [fmap list_fmap]. rewrite Z.add_0_r.
  assert (0 <= h * A * U + e < zlen vs) as Hx by (rewrite Lvs, Ed; nia). unfold zlen in Hx.
  assert (load_num t32 (vector_bytes t32 vs) (h * A * U + e) = Ok (vs !!! Z.to_nat (h * A * U + e))) as ->.
  { pose proof (load_at t32 vs (Z.to_nat (h * A * U + e)) t32_ok Fvs ltac:(lia)) as Hl. by rewrite Z2Nat.id in Hl by lia. }
  cbn [mbind outcome_bind]. rewrite product_ok; [|done|apply Forall_lookup_total_1; [done|lia]|nia|lia|].
  2:{ destruct (Z.eq_dec A 1); [right; lia|left]. rewrite Lvs, Ed, Z2Nat.id by lia. nia. }
  rewrite Z2Nat.id by lia. change (Z.succ 0) with 1. rewrite <- Z.sub_1_r.
  assert (((fun k => vs !!! Z.to_nat (h * A * U + e + U + k * U)) <$> seqZ 0 (A - 1)) = ((fun k => vs !!! Z.to_nat ((h * A + k) * U + e)) <$> seqZ 1 (A - 1))) as ->; [|done].
  apply list_eq. intros k. rewrite !list_lookup_fmap. destruct (decide (Z.of_nat k < A - 1)); [|by rewrite !lookup_seqZ_ge by lia].
  rewrite !lookup_seqZ_lt by lia. cbn -[Z.mul]. do 2 f_equal. apply (f_equal Z.to_nat). ring.
Qed.

Lemma reduce_loop_ok buf : zlen buf = prodZ dims -> reduce_loop (vector_bytes t32 vs) A R U buf =
  match mapM (reduced A U vs) (seqZ 0 (R * U)) with Some ws => Ok (ws ++ drop (Z.to_nat (R * U)) buf) | None => Err INTERNAL_ERROR end.
Proof.
  destruct reduce_parts as (_ & _ & HA & HH & HU & Ed). intros Hl. unfold reduce_loop. rewrite <- Lvs, Lvs, Ed in Hl.
  erewrite for_range_ext.
  2:{ intros h b Hh. apply for_range_ext. intros e b' He. apply reduce_one; done. }
  rewrite (for_range_flat (fun r buf => v ← match reduced A U vs r with Some v => Ok v | None => Err INTERNAL_ERROR end; vset buf r v)) by lia.
  unfold for_range. pose proof (store_loop (reduced A U vs) INTERNAL_ERROR (Z.to_nat (R * U)) 0 buf) as HS'. change (Z.of_nat 0) with 0 in HS'.
  rewrite HS' by (unfold zlen in Hl; nia). rewrite Z2Nat.id by nia. cbn [Nat.add]. destruct (mapM _ _) as [ws|]; done.
Qed.

Lemma omap_imap_all (f : nat -> bool) (l : list Z) off : (forall i, (i < length l)%nat -> f (off + i)%nat = false) ->
  omap (fun '(i, x) => if f i then None else Some x) (imap (fun i x => ((off + i)%nat, x)) l) = l.
Proof.
  revert off. induction l as [|x l IH]; intros off Hf; [done|]. cbn [imap omap list_omap]. pose proof (Hf 0%nat ltac:(cbn; lia)) as H0. rewrite H0. f_equal.
  rewrite (imap_ext _ (fun i x => ((Datatypes.S off + i)%nat, x))) by (intros; cbn; f_equal; lia). apply IH. intros j Hj.
  replace (Datatypes.S off + j)%nat with (off + Datatypes.S j)%nat by lia. apply Hf. cbn. lia.
Qed.

Lemma ShapeCal_ok op o : ShapeCal op dims (zlen pre) o =
  SetShape (if default false (GetBool op "keep_dims") then pre ++ 1 :: suf else pre ++ suf) o.
Proof.
  clear. unfold ShapeCal. destruct (default false (GetBool op "keep_dims")); f_equal.
  - apply list_eq. intros i. rewrite list_lookup_imap. destruct (lt_eq_lt_dec i (length pre)) as [[Hi| ->]|Hi].
    + rewrite !lookup_app_l by lia. destruct (pre !! i) as [x|]; [|done]. cbn. destruct (Z.eqb_spec (Z.of_nat i) (zlen pre)); [unfold zlen in *; lia|done].
    + rewrite !lookup_app_r, Nat.sub_diag by lia. cbn. unfold zlen. by rewrite Z.eqb_refl.
    + rewrite !lookup_app_r by lia. replace (i - length pre)%nat with (Datatypes.S (i - length pre - 1)) by lia. cbn [lookup list_lookup].
      destruct (suf !! _) as [x|]; [|done]. cbn. destruct (Z.eqb_spec (Z.of_nat i) (zlen pre)); [unfold zlen in *; lia|done].
  - rewrite imap_app, omap_app. cbn [imap omap list_omap compose]. rewrite Nat.add_0_r. unfold zlen. rewrite Z.eqb_refl.
    pose proof (omap_imap_all (fun i => Z.of_nat i =? Z.of_nat (length pre)) pre 0) as H1. change (imap (fun i x => ((0 + i)%nat, x)) pre) with (imap pair pre) in H1. rewrite H1 by (intros j Hj; apply Z.eqb_neq; lia). f_equal.
    rewrite (imap_ext _ (fun i x => ((Datatypes.S (length pre) + i)%nat, x))) by (intros; cbn; f_equal; lia).
    apply (omap_imap_all (fun i => Z.of_nat i =? Z.of_nat (length pre))). intros j Hj. apply Z.eqb_neq. lia.
Qed.

Lemma exact_prod_in x l p : num_in t32 x -> exact_prod x l = Some p -> num_in t32 p.
Proof.
  revert x. induction l as [|y l IH]; intros x Hx Hp; cbn [exact_prod] in Hp; [by injection Hp as <-|].
  destruct (exact_int true 32 Z.mul x y) as [q|] eqn:Hq; [|done]. apply (IH q); [|done]. by apply exact_int_in in Hq.
Qed.

Lemma reduced_in r p : 0 <= r < R * U -> reduced A U vs r = Some p -> num_in t32 p.
Proof.
  destruct reduce_parts as (_ & _ & HA & HH & HU & Ed). intros Hr Hp. unfold reduced, axis_line in Hp. rewrite seqZ_cons in Hp by lia. cbn [fmap list_fmap] in Hp.
  eapply exact_prod_in; [|exact Hp]. apply Forall_lookup_total_1; [done|]. rewrite Z.add_0_r. pose proof (div_range r R U Hr HU) as H1. pose proof (Z.mod_pos_bound r U HU).
  pose proof Lvs as HL. rewrite Ed in HL. match type of HL with zlen ?l = _ => change (Z.of_nat (length l) = R * A * U) in HL end.
  assert (0 <= r / U * A) by nia. assert (r / U * A + A <= R * A) by nia. assert ((r / U * A + A) * U <= R * A * U) by nia. nia.
Qed.

Lemma ReduceDataCal_ok x o : holds x DT_INT32 t32 dims vs -> is_Some (new_uint8 (prodZ dims * 4)) ->
  DataCal x A R U o = match mapM (reduced A U vs) (seqZ 0 (R * U)) with Some ws => Ok (SetData (vector_bytes t32 ws) o) | None => Err INTERNAL_ERROR end.
Proof.
  intros (_ & Tx & Dx & _) [buf Hn]. destruct reduce_parts as (_ & _ & HA & HH & HU & Ed). pose proof t32_ok as Ht. pose proof (zlen_vector t32 vs Ht) as Hz. change (num_size t32) with 4 in Hz.
  assert (0 < prodZ dims) by by apply prodZ_gt0. assert (R * U <= R * A * U) by nia.
  unfold DataCal. rewrite Tx, bool_decide_eq_true_2 by done.
  rewrite has_data_bytes by (rewrite Dx; intros E0; rewrite E0 in Hz; change (zlen []) with 0 in Hz; lia). cbn [negb]. rewrite Dx, Hz, Z.div_mul, Lvs, Hn by lia.
  rewrite reduce_loop_ok by (by rewrite zlen_repeat by lia). destruct (mapM _ _) as [ws|] eqn:Hm; [|done]. cbn [mbind outcome_bind].
  assert (zlen ws = R * U) as Hw by (apply mapM_length in Hm; rewrite length_seqZ in Hm; unfold zlen; nia).
  rewrite wrapU64_id by lia. rewrite vector_app. replace (R * U * 4) with (zlen (vector_bytes t32 ws)) by (rewrite zlen_vector, Hw by done; done).
  rewrite <- (app_nil_l (vector_bytes t32 ws ++ _)). change 0 with (zlen (@nil Z)) at 1. by rewrite read_bytes_app.
Qed.
End ReduceProd.

Section Reduced.
Context `{E : Env} `{HT : TensorLibOk} {S : ShapeLib (T := T)} {HS : ShapeLibOk S}.

(** C29 ReduceProd of an int32_t tensor along one axis: when every partial product fits int32_t the output
    holds the product of the elements along the axis, with the axis dropped from the shape or kept with
    one element as keep_dims says; when one does not fit, the operator is left in the graph. *)
Theorem reduce_prod_exact x axt op o pre A suf sx vs v_output :
  holds x DT_INT32 t32 (pre ++ A :: suf) vs -> Forall (Z.lt 0) (pre ++ A :: suf) -> prodZ (pre ++ A :: suf) < 2 ^ 60 ->
  holds axt DT_INT32 t32 sx [zlen pre] -> (length sx <= 1)%nat -> MakeShared op 0 = Some o -> is_Some (new_uint8 (prodZ (pre ++ A :: suf) * 4)) ->
  match mapM (reduced A (prodZ suf) vs) (seqZ 0 (prodZ pre * prodZ suf)) with
  | Some ws => exists z, ReduceProdKernel.Compute (Some op) [Some x; Some axt] v_output = Ok (v_output ++ [z]) /\
      holds z DT_INT32 t32 (if default false (GetBool op "keep_dims") then pre ++ 1 :: suf else pre ++ suf) ws
  | None => ReduceProdKernel.Compute (Some op) [Some x; Some axt] v_output = Err NOT_CHANGED
  end.
Proof.
  intros Hx Hpos Hbig Hax Hsx Ho Hn. pose proof Hx as (Sx & Tx & Dx & Fx & Lx). pose proof Hax as (Sa & Ta & Da & Fa & _). pose proof t32_ok as Ht.
  destruct (reduce_parts pre suf A Hpos) as (Hp & Hs & HA & HH & HU & Ed).
  unfold ReduceProdKernel.Compute, ReduceProdKernel.ReduceProdCheck. rewrite Tx, Sa. destruct (Nat.ltb_spec 1 (length sx)); [lia|]. cbn [negb andb].
  change (supports ReduceProdKernel.kReduceProdSupportedType DT_INT32) with true. cbn [negb]. rewrite bool_decide_eq_true_2, bool_decide_eq_false_2 by done.
  cbn [negb andb or_stuck mbind outcome_bind]. rewrite Ho. cbn [input_at at_ lookup list_lookup mbind outcome_bind or_stuck].
  assert ((zlen (GetData axt) =? 0) = false) as Hza by (rewrite Da; by apply vector_size_nonzero). rewrite Hza.
  rewrite has_data_bytes by (intros E0; rewrite E0 in Hza; done). cbn [negb]. rewrite Da.
  pose proof (load_at t32 [zlen pre] 0 Ht Fa ltac:(cbn; lia)) as Hl. change (Z.of_nat 0) with 0 in Hl. rewrite Hl. cbn [mbind outcome_bind lookup_total list_lookup_total].
  rewrite Sx, AxisCal_ok by done. cbn [or_else mbind outcome_bind]. rewrite ShapeCal_ok.
  assert ((zlen (GetData x) =? 0) = false) as -> by (rewrite Dx; apply vector_size_nonzero; [done|rewrite Lx; by apply prodZ_gt0]). cbn [negb].
  rewrite (ReduceDataCal_ok pre suf vs A) by done. destruct (mapM _ _) as [ws|] eqn:Hm; [|done]. cbn [or_else mbind outcome_bind]. eexists. split; [done|].
  set (out := if default false _ then _ else _).
  assert (Forall (Z.lt 0) out /\ prodZ out = prodZ pre * prodZ suf) as [Hof Hop].
  { unfold out. destruct (default false _); rewrite ?prodZ_app, ?prodZ_cons; (split; [apply Forall_app; split; [done|]; try constructor; done || lia|lia]). }
  apply holds_output; rewrite ?get_dims_data, ?get_dims_type, ?get_dims_shape, ?get_type_data, ?get_type_type, ?get_data_data; try done.
  - apply mapM_Some_1 in Hm. apply Forall_forall. intros p Hp'. apply list_elem_of_lookup in Hp' as [i Hi]. destruct (Forall2_lookup_r _ _ _ _ _ Hm Hi) as (r & Hr & Hg).
    apply lookup_seqZ in Hr. eapply (reduced_in pre suf vs A); [done..| |exact Hg]. lia.
  - rewrite Hop. by apply mapM_length in Hm.
Qed.
End Reduced.

(** * Runs *)
Definition scalar (d : DataType) (t : NumT) (v : Z) : SampleTensor := tensor d t [] [v].

(** 10, 7, 4: down to 1, which is not reached. *)
Lemma range_exact_witness : exists z,
  RangeKernel.Compute (E := sample_env) (T := op_lib) (Some plain_op) [Some (scalar DT_INT32 t32 10); Some (scalar DT_INT32 t32 1); Some (scalar DT_INT32 t32 (-3))] [] = Ok [z] /\
  holds (T := op_lib) z DT_INT32 t32 [3] [10; 7; 4].
Proof.
  apply (range_exact (E := sample_env) (T := op_lib) (scalar DT_INT32 t32 10) (scalar DT_INT32 t32 1) (scalar DT_INT32 t32 (-3)) plain_op (mkSample [] DT_FLOAT [])
    10 1 (-3) []); try reflexivity.
  - repeat split; repeat constructor; discriminate.
  - repeat split; repeat constructor; discriminate.
  - repeat split; repeat constructor; discriminate.
  - eexists. reflexivity.
Defined.

Lemma fill_exact_witness : exists z,
  FillKernel.Compute (E := sample_env) (T := op_lib) (Some plain_op) [Some (tensor DT_INT32 t32 [2] [2; 3]); Some (scalar DT_UINT8 (T_int false 8) 7)] [] = Ok [z] /\
  holds (T := op_lib) z DT_UINT8 (T_int false 8) [2; 3] [7; 7; 7; 7; 7; 7].
Proof.
  apply (fill_exact (E := sample_env) (T := op_lib) (tensor DT_INT32 t32 [2] [2; 3]) (scalar DT_UINT8 (T_int false 8) 7) plain_op (mkSample [] DT_FLOAT [])
    DT_INT32 DT_UINT8 t32 (T_int false 8) [2; 3] [2; 3] [] 7 []); try reflexivity.
  - by left.
  - repeat split; repeat constructor; discriminate.
  - repeat split; repeat constructor; discriminate.
  - repeat constructor.
  - eexists. reflexivity.
Defined.

(** The products of the rows of a 2 x 3 matrix. *)
Lemma reduce_prod_exact_witness : exists z,
  ReduceProdKernel.Compute (E := sample_env) (T := op_lib) (S := shape_lib) (Some plain_op) [Some (tensor DT_INT32 t32 [2; 3] [1; 2; 3; 4; 5; 6]); Some (scalar DT_INT32 t32 1)] [] = Ok [z] /\
  holds (T := op_lib) z DT_INT32 t32 [2] [6; 120].
Proof.
  apply (reduce_prod_exact (E := sample_env) (T := op_lib) (S := shape_lib) (tensor DT_INT32 t32 [2; 3] [1; 2; 3; 4; 5; 6]) (scalar DT_INT32 t32 1) plain_op
    (mkSample [] DT_FLOAT []) [2] 3 [] [] [1; 2; 3; 4; 5; 6] []); try reflexivity.
  - repeat split; repeat constructor; discriminate.
  - repeat constructor.
  - repeat split; repeat constructor; discriminate.
  - cbn. lia.
  - eexists. reflexivity.
Defined.

(** Where the kernels depart from the operators.  Range computes the length in int32_t: from the lowest to the
    highest int32_t in steps of one it returns one element.  ReduceProd reduces the first of
    several axes only.  Fill with a zero dimension drops the whole shape. *)
Theorem numeric_kernels_deviate :
  RangeKernel.Compute (E := sample_env) (T := op_lib) (Some plain_op)
    [Some (scalar DT_INT32 t32 (- 2 ^ 31)); Some (scalar DT_INT32 t32 (2 ^ 31 - 1)); Some (scalar DT_INT32 t32 1)] [] = Ok [tensor DT_INT32 t32 [1] [- 2 ^ 31]] /\
  ReduceProdKernel.Compute (E := sample_env) (T := op_lib) (S := shape_lib) (Some plain_op)
    [Some (tensor DT_INT32 t32 [2; 2] [1; 2; 3; 4]); Some (tensor DT_INT32 t32 [2] [0; 1])] [] = Ok [tensor DT_INT32 t32 [2] [3; 8]] /\
  FillKernel.Compute (E := sample_env) (T := op_lib) (Some plain_op)
    [Some (tensor DT_INT32 t32 [2] [2; 0]); Some (scalar DT_UINT8 (T_int false 8) 7)] [] = Ok [mkSample [] DT_UINT8 []].
Proof. split; [|split]; vm_compute; reflexivity. Qed.
