(* ===== verification/ShapeKernels.v ===== *)
(** The host kernels about shapes: Shape, ShapeN, Size, Rank, BroadcastArgs, BroadcastGradientArgs, Empty, DynamicStitch and Unpack, and
    those that hand their tensor on, Reshape, ExpandDims, Squeeze, Unsqueeze, Identity and ReFormat (ge/host_kernels); with
    PassUtils::ConstructTensorDescWithData (ge/graph/passes/pass_utils.cc) and the helpers of KernelUtils and OpUtils they use.

    What they use of the metadef library beyond [DescLib] is the class [NodeLib]: nodes, all descriptors of an
    operator and a few attributes. *)
From stdpp Require Import strings gmap.
From S2P Require Import Prelude MathUtil Buffer FormatsUtils Bytes Fp16 Fp16Convert DataTypeTransfer Formats FloatMath BCast HostKernels SliceKernels GatherKernels NumericKernels TransKernels.
Open Scope Z_scope.

(** * Nodes and descriptors *)
Class NodeLib `{D : DescLib} := {
  Node : Type;
  GetOpDesc : Node -> option OpDesc;
  (** The nodes behind the data inputs, null pointers included, and OpDescUtils::GetWeights. *)
  GetInDataNodes : Node -> list (option Node);
  GetWeights : Node -> list GeTensor;
  (** The sizes of GetAllInputsDesc and GetAllOutputsDesc. *)
  AllInputs : OpDesc -> Z;
  AllOutputs : OpDesc -> Z;
  (** The shape of `MutableInputDesc(i)`, if it is not null, and the types of the descriptors [i]. *)
  InputDimsAt : OpDesc -> Z -> option (list Z);
  InputTypeAt : OpDesc -> Z -> DataType;
  OutputTypeAt : OpDesc -> Z -> DataType;
  (** The value of UNKNOWN_RANK *)
  UNKNOWN_RANK : list Z;
  GetDataTypeAttr : OpDesc -> string -> option DataType;
  ATTR_NAME_T : string;
  UNPACK_ATTR_NAME_NUM : string;
  (** MakeShared<GeTensor>() *)
  MakeTensor : option GeTensor;
}.

(** * PassUtils::ConstructTensorDescWithData *)
Section PassUtils.
Context `{E : Env} `{N : NodeLib}.

(** The template: a tensor with the description of output [i], the shape of a vector or of a scalar, and the values. *)
Definition construct (t : NumT) (op : OpDesc) (i : Z) (buf : list Z) (v_output : list GeTensor) (scalar_output : bool) : outcome (list GeTensor) :=
  match MakeShared op i with
  | None => Err MEMALLOC_FAILED
  | Some output => emit v_output (SetData (vector_bytes t buf) (SetShape (if scalar_output then [] else [zlen buf]) output))
  end.

(** The loop over the int32_t values: one that reaches INT_MAX is refused. *)
Definition fits_int32 (data : list Z) : bool := forallb (fun d => negb (INT32_MAX <=? d)) data.

Definition ConstructTensorDescWithData (op : OpDesc) (i : Z) (data : list Z) (v_output : list GeTensor) (scalar_output : bool) :
    outcome (list GeTensor) :=
  let data_type := OutputTypeAt op i in
  if bool_decide (data_type = DT_INT32) then
    match new_uint8 (zlen data * 4) with
    | None => Err MEMALLOC_FAILED
    | Some _ => if fits_int32 data then construct (T_int true 32) op i data v_output scalar_output else Err PARAM_INVALID
    end
  else if bool_decide (data_type = DT_INT64) then
    match new_uint8 (zlen data * 8) with
    | None => Err MEMALLOC_FAILED
    | Some _ => construct (T_int true 64) op i data v_output scalar_output
    end
  else Err PARAM_INVALID.
End PassUtils.

(** * ShapeKernel, ShapeNKernel, SizeKernel, RankKernel *)
Module ShapeKernel.
Section Kernel.
Context `{E : Env} `{N : NodeLib}.
Definition Compute (node : option Node) (v_output : list GeTensor) : outcome (list GeTensor) :=
  match node with
  | None => Err FAILED
  | Some node =>
      match GetOpDesc node with
      | None => Err PARAM_INVALID
      | Some op =>
          if negb (GetInputsSize op =? 1) || negb (GetOutputsSize op =? 1) then Err NOT_CHANGED
          else
            match InputDimsAt op 0 with
            | None => Err PARAM_INVALID
            | Some dims => if KernelUtils.IsUnknownShape dims then Err NOT_CHANGED else ConstructTensorDescWithData op 0 dims v_output false
            end
      end
  end.
End Kernel.
End ShapeKernel.

Module ShapeNKernel.
Section Kernel.
Context `{E : Env} `{N : NodeLib}.
Definition Compute (node : option Node) (v_output : list GeTensor) : outcome (list GeTensor) :=
  match node with
  | None => Err FAILED
  | Some node =>
      match GetOpDesc node with
      | None => Err PARAM_INVALID
      | Some op =>
          if negb (AllInputs op =? AllOutputs op) then Err NOT_CHANGED
          else
            for_range (AllInputs op) (fun i v_output =>
              match InputDimsAt op i with
              | None => Err PARAM_INVALID
              | Some dims => if KernelUtils.IsUnknownShape dims then Err NOT_CHANGED else ConstructTensorDescWithData op i dims v_output false
              end) v_output
      end
  end.
End Kernel.
End ShapeNKernel.

Module SizeKernel.
Section Kernel.
Context `{E : Env} `{N : NodeLib}.

(** The product of the dimensions, with the overflow check. *)
Fixpoint count (size : Z) (dims : list Z) : outcome Z :=
  match dims with
  | [] => Ok size
  | dim :: dims => if negb (CheckInt64MulOverflow size dim) then Err INTERNAL_ERROR else count (size * dim)%i64 dims
  end.

Definition Compute (node : option Node) (v_output : list GeTensor) : outcome (list GeTensor) :=
  match node with
  | None => Err FAILED
  | Some node =>
      match GetOpDesc node with
      | None => Err PARAM_INVALID
      | Some op =>
          if negb (GetInputsSize op =? 1) || negb (GetOutputsSize op =? 1) then Err NOT_CHANGED
          else
            let dims := default [] (InputDimsAt op 0) in
            if KernelUtils.IsUnknownShape dims then Err NOT_CHANGED
            else size ← count 1 dims; ConstructTensorDescWithData op 0 [size] v_output true
      end
  end.
End Kernel.
End SizeKernel.

Module RankKernel.
Section Kernel.
Context `{E : Env} `{N : NodeLib}.

(** The first GetSizeByDataType(DT_INT32) bytes of the size_t [ndims]. *)
Definition Compute (node : option Node) (v_output : list GeTensor) : outcome (list GeTensor) :=
  match node with
  | None => Err FAILED
  | Some node =>
      match GetOpDesc node with
      | None => Err PARAM_INVALID
      | Some op =>
          if negb (GetInputsSize op =? 1) then Err NOT_CHANGED
          else
            match InputDimsAt op 0 with
            | None => Err PARAM_INVALID
            | Some dims =>
                if bool_decide (dims = UNKNOWN_RANK) then Err NOT_CHANGED
                else
                  match MakeShared op 0 with
                  | None => Err MEMALLOC_FAILED
                  | Some output => emit v_output (SetData (take (Z.to_nat (GetSizeByDataType DT_INT32)) (le_bytes 8 (zlen dims))) output)
                  end
            end
      end
  end.
End Kernel.
End RankKernel.

(** * The arguments of a broadcast *)
Section ShapeData.
Context `{E : Env} `{N : NodeLib}.

(** OpUtils::GetShapeDataFromConstTensor *)
Definition GetShapeDataFromConstTensor (tensor : TensorPtr) (type : DataType) : outcome (list Z) :=
  match tensor with
  | None => Err PARAM_INVALID
  | Some x =>
      if 1 <? zlen (GetDims x) then Err PARAM_INVALID
      else
        let read t := match data_ptr x with
                      | None => Err PARAM_INVALID
                      | Some data => for_range (zlen data / num_size t) (fun i dims => d ← load_num t data i; Ok (dims ++ [d])) []
                      end in
        if bool_decide (type = DT_INT32) then read (T_int true 32)
        else if bool_decide (type = DT_INT64) then read (T_int true 64) else Err PARAM_INVALID
  end.
End ShapeData.

Module BroadcastArgsKernel.
Section Kernel.
Context `{E : Env} `{N : NodeLib}.
Definition Compute (op_desc_ptr : option OpDesc) (input : list TensorPtr) (v_output : list GeTensor) : outcome (list GeTensor) :=
  match op_desc_ptr with
  | None => Err PARAM_INVALID
  | Some op =>
      if negb (AllInputs op =? 2) || negb (zlen input =? 2) || negb (AllOutputs op =? 1) then Err NOT_CHANGED
      else
        match InputDimsAt op 0 with
        | None => Err PARAM_INVALID
        | Some _ =>
            let data_type := InputTypeAt op 0 in
            i0 ← at_ input 0;
            i1 ← at_ input 1;
            x1_dims ← or_else PARAM_INVALID (GetShapeDataFromConstTensor i0 data_type);
            x2_dims ← or_else PARAM_INVALID (GetShapeDataFromConstTensor i1 data_type);
            '(ret, bcast) ← GenerateBcastInfo x1_dims x2_dims new_BCast;
            if negb (bool_decide (ret = SUCCESS)) then Err ret else ConstructTensorDescWithData op 0 (output_ bcast) v_output false
        end
  end.
End Kernel.
End BroadcastArgsKernel.

Module BroadcastGradientArgsKernel.
Section Kernel.
Context `{E : Env} `{N : NodeLib}.
Definition Compute (op_desc_ptr : option OpDesc) (input : list TensorPtr) (v_output : list GeTensor) : outcome (list GeTensor) :=
  match op_desc_ptr with
  | None => Err PARAM_INVALID
  | Some op =>
      if negb (AllInputs op =? 2) || negb (zlen input =? 2) || negb (AllOutputs op =? 2) then Err NOT_CHANGED
      else
        i0 ← at_ input 0;
        i1 ← at_ input 1;
        x1_dims ← or_else PARAM_INVALID (GetShapeDataFromConstTensor i0 (InputTypeAt op 0));
        x2_dims ← or_else PARAM_INVALID (GetShapeDataFromConstTensor i1 (InputTypeAt op 1));
        '(ret, bcast) ← GenerateBcastInfo x1_dims x2_dims new_BCast;
        if negb (bool_decide (ret = SUCCESS)) then Err ret
        else
          let grad_reduce_idx := [grad_x_reduce_idx_ bcast; grad_y_reduce_idx_ bcast] in
          for_range 2 (fun i v_output => idx ← vget grad_reduce_idx i; ConstructTensorDescWithData op i idx v_output false) v_output
  end.
End Kernel.
End BroadcastGradientArgsKernel.

(** * EmptyKernel *)
Module EmptyKernel.
Section Kernel.
Context `{E : Env} `{N : NodeLib}.

Definition EmptyCheck (op_desc_ptr : option OpDesc) (input : list TensorPtr) : Status :=
  match op_desc_ptr with
  | None => PARAM_INVALID
  | Some op =>
      if negb (AllInputs op =? 1) || negb (zlen input =? 1) || negb (AllOutputs op =? 1) then PARAM_INVALID
      else
        match input with
        | Some shape :: _ => if 1 <? zlen (GetDims shape) then PARAM_INVALID else SUCCESS
        | _ => PARAM_INVALID
        end
  end.

(** The format set on the output is not part of the tensors modelled. *)
Definition Compute (op_desc_ptr : option OpDesc) (input : list TensorPtr) (v_output : list GeTensor) : outcome (list GeTensor) :=
  if negb (bool_decide (EmptyCheck op_desc_ptr input = SUCCESS)) then Err NOT_CHANGED
  else
    op ← or_stuck op_desc_ptr;
    shape ← input_at input 0;
    let shape_type := GetDataType shape in
    '(shape_vec, total_data_size) ←
      (if bool_decide (shape_type = DT_INT32) then KernelUtils.CalcDims (T_int true 32) shape
       else if bool_decide (shape_type = DT_INT64) then KernelUtils.CalcDims (T_int true 64) shape
       else Err NOT_CHANGED);
    match MakeShared op 0 with
    | None => Err MEMALLOC_FAILED
    | Some output =>
        let data_type := OutputTypeAt op 0 in
        match FillKernel.fill_type data_type with
        | None => Err NOT_CHANGED
        | Some t =>
            output ← KernelUtils.GenData t total_data_size 0 output;
            emit v_output (SetDataType data_type (SetShape shape_vec output))
        end
    end.
End Kernel.
End EmptyKernel.

(** * Kernels that hand their tensor on *)
Section HandOn.
Context `{E : Env} `{N : NodeLib}.

(** SetData of the input's data whose failure is only logged. *)
Definition copy_data (x output : GeTensor) : GeTensor :=
  if bool_decide (SetDataStatus (GetData x) output = SUCCESS) then SetData (GetData x) output else output.

(** KernelUtils::CheckFormatSupported *)
Definition CheckFormatSupported (node : option Node) : bool :=
  match node with
  | None => false
  | Some node =>
      match GetOpDesc node with
      | None => false
      | Some op =>
          match InputDimsAt op 0 with
          | None => false
          | Some _ => negb (bool_decide (InputFormat op = FORMAT_NC1HWC0) || bool_decide (InputFormat op = FORMAT_FRACTAL_Z))
          end
      end
  end.

(** KernelUtils::CheckDimensionNodeInfo *)
Definition CheckDimensionNodeInfo (node : option Node) : Status :=
  match node with
  | None => FAILED
  | Some node =>
      match GetInDataNodes node with
      | [_; dim_node] =>
          match dim_node with
          | None => PARAM_INVALID
          | Some dim_node =>
              match GetWeights dim_node with
              | [] => PARAM_INVALID
              | input_dim :: _ => if zlen (GetData input_dim) =? 0 then PARAM_INVALID else SUCCESS
              end
          end
      | _ => NOT_CHANGED
      end
  end.
End HandOn.

Module ReshapeKernel.
Section Kernel.
Context `{E : Env} `{N : NodeLib}.
Definition ComputeNode (node : option Node) : Status :=
  match node with
  | None => PARAM_INVALID
  | Some _ =>
      let ret := CheckDimensionNodeInfo node in
      if negb (bool_decide (ret = SUCCESS)) then ret else if negb (CheckFormatSupported node) then NOT_CHANGED else SUCCESS
  end.
Definition Compute (op_desc_ptr : option OpDesc) (input : list TensorPtr) (v_output : list GeTensor) : outcome (list GeTensor) :=
  match op_desc_ptr with
  | None => Err PARAM_INVALID
  | Some op =>
      if negb (zlen input =? 2) || negb (GetOutputsSize op =? 1) then Err NOT_CHANGED
      else
        match MakeShared op 0 with
        | None => Err NOT_CHANGED
        | Some output => x ← input_at input 0; emit v_output (copy_data x output)
        end
  end.
End Kernel.
End ReshapeKernel.

Module ExpanddimsKernel.
Section Kernel.
Context `{E : Env} `{N : NodeLib}.
Definition ComputeNode (node : option Node) : Status :=
  match node with
  | None => PARAM_INVALID
  | Some _ =>
      let ret := CheckDimensionNodeInfo node in
      if negb (bool_decide (ret = SUCCESS)) then ret else if negb (CheckFormatSupported node) then NOT_CHANGED else SUCCESS
  end.
Definition Compute (op_desc_ptr : option OpDesc) (input : list TensorPtr) (v_output : list GeTensor) : outcome (list GeTensor) :=
  match op_desc_ptr with
  | None => Err PARAM_INVALID
  | Some op =>
      if negb (zlen input =? 2) || negb (GetOutputsSize op =? 1) then Err NOT_CHANGED
      else
        match MakeShared op 0 with
        | None => Err NOT_CHANGED
        | Some output => x ← input_at input 0; emit v_output (copy_data x output)
        end
  end.
End Kernel.
End ExpanddimsKernel.

Module SqueezeKernel.
Section Kernel.
Context `{E : Env} `{N : NodeLib}.
Definition ComputeNode (node : option Node) : Status :=
  match node with
  | None => PARAM_INVALID
  | Some _ => if negb (CheckFormatSupported node) then NOT_CHANGED else SUCCESS
  end.
Definition Compute (op_desc : option OpDesc) (input : list TensorPtr) (v_output : list GeTensor) : outcome (list GeTensor) :=
  match op_desc with
  | None => Err PARAM_INVALID
  | Some op =>
      if negb (GetInputsSize op =? 1) || negb (GetOutputsSize op =? 1) || negb (zlen input =? 1) then Err NOT_CHANGED
      else
        match MakeShared op 0 with
        | None => Err PARAM_INVALID
        | Some output =>
            ge_tensor ← at_ input 0;
            match ge_tensor with None => Err PARAM_INVALID | Some x => emit v_output (copy_data x output) end
        end
  end.
End Kernel.
End SqueezeKernel.

Module UnsqueezeKernel.
Section Kernel.
Context `{E : Env} `{N : NodeLib}.
Definition ComputeNode (node : option Node) : Status :=
  match node with
  | None => PARAM_INVALID
  | Some _ => if negb (CheckFormatSupported node) then NOT_CHANGED else SUCCESS
  end.
Definition Compute (op_desc_ptr : option OpDesc) (input : list TensorPtr) (v_output : list GeTensor) : outcome (list GeTensor) :=
  match op_desc_ptr with
  | None => Err PARAM_INVALID
  | Some op =>
      if negb (GetInputsSize op =? 1) || negb (GetOutputsSize op =? 1) || negb (zlen input =? 1) then Err NOT_CHANGED
      else
        match MakeShared op 0 with
        | None => Err PARAM_INVALID
        | Some output =>
            input_tensor ← at_ input 0;
            match input_tensor with None => Err PARAM_INVALID | Some x => emit v_output (copy_data x output) end
        end
  end.
End Kernel.
End UnsqueezeKernel.

Module IdentityKernel.
Section Kernel.
Context `{E : Env} `{N : NodeLib}.
Definition Compute (op_desc : option OpDesc) (input : list TensorPtr) (v_output : list GeTensor) : outcome (list GeTensor) :=
  match op_desc with
  | None => Err NOT_CHANGED
  | Some op =>
      match input with
      | [] => Err NOT_CHANGED
      | input_tensor_ptr :: _ =>
          if GetOutputsSize op <? 1 then Err NOT_CHANGED
          else
            match MakeShared op 0 with
            | None => Err OUT_OF_MEMORY
            | Some output =>
                match input_tensor_ptr with
                | None => Err NOT_CHANGED
                | Some x =>
                    if negb (bool_decide (SetDataStatus (GetData x) output = SUCCESS)) then Err NOT_CHANGED
                    else emit v_output (SetData (GetData x) output)
                end
            end
      end
  end.
End Kernel.
End IdentityKernel.

Module ReFormatKernel.
Section Kernel.
Context `{E : Env} `{N : NodeLib}.
Definition ValidateInput (op_desc_ptr : option OpDesc) (input : list TensorPtr) : Status :=
  match op_desc_ptr with
  | None => PARAM_INVALID
  | Some op => if negb (GetInputsSize op =? 1) then PARAM_INVALID else match input with [] => PARAM_INVALID | _ => SUCCESS end
  end.
Definition Compute (op_desc_ptr : option OpDesc) (input : list TensorPtr) (v_output : list GeTensor) : outcome (list GeTensor) :=
  let status := ValidateInput op_desc_ptr input in
  if negb (bool_decide (status = SUCCESS)) then Err status
  else
    op ← or_stuck op_desc_ptr;
    const_weight_ptr ← at_ input 0;
    match const_weight_ptr with
    | None => Err NOT_CHANGED
    | Some x =>
        if negb (HasOutputDesc op) then Err PARAM_INVALID
        else
          match InputDims op with
          | None => Err PARAM_INVALID
          | Some src_shape =>
              if negb (bool_decide (InputDataType op = OutputDataType op)) || negb (bool_decide (src_shape = OutputDims op)) then Err NOT_CHANGED
              else if negb (CheckSizeForTransOp const_weight_ptr op_desc_ptr) then Err NOT_CHANGED
              else
                match MakeShared op 0 with
                | None => Err NOT_CHANGED
                | Some output =>
                    if negb (bool_decide (SetDataStatus (GetData x) output = SUCCESS)) then Err NOT_CHANGED
                    else emit v_output (SetData (GetData x) output)
                end
          end
    end.
End Kernel.
End ReFormatKernel.

(** * UnpackKernel *)
Module UnpackKernel.
Section Kernel.
Context `{E : Env} `{N : NodeLib}.

(** Element [i] of the input becomes output [i]. *)
Definition CalcUpack (t : NumT) (num : Z) (data_type : DataType) (value : option (list Z)) (v_output : list GeTensor) : outcome (list GeTensor) :=
  match value with
  | None => Err PARAM_INVALID
  | Some value =>
      if 0 <? num then
        match new_uint8 (num * num_size t) with
        | None => Err PARAM_INVALID
        | Some _ =>
            for_range num (fun i v_output =>
              match MakeTensor with
              | None => Err PARAM_INVALID
              | Some output =>
                  v ← load_num t value i;
                  let st := SetDataStatus (num_bytes t v) output in
                  if negb (bool_decide (st = SUCCESS)) then Err st
                  else emit v_output (SetDataType data_type (SetData (num_bytes t v) output))
              end) v_output
        end
      else Err NOT_CHANGED
  end.

Definition Compute (attr : option OpDesc) (input : list TensorPtr) (v_output : list GeTensor) : outcome (list GeTensor) :=
  match attr with
  | None => Err PARAM_INVALID
  | Some attr =>
      match input with
      | [Some dims] =>
          if negb (zlen (GetDims dims) =? 1) then Err NOT_CHANGED
          else
            match GetDataTypeAttr attr ATTR_NAME_T with
            | None => Err PARAM_INVALID
            | Some data_type =>
                if negb (bool_decide (data_type = DT_FLOAT) || bool_decide (data_type = DT_INT32)) then Err PARAM_INVALID
                else
                  match GetInt_i64 attr UNPACK_ATTR_NAME_NUM with
                  | None => Err PARAM_INVALID
                  | Some num =>
                      let data_count := zlen (GetData dims) / 4 in
                      if negb (data_count =? wrapU64 num) then Err PARAM_INVALID
                      else CalcUpack (if bool_decide (data_type = DT_FLOAT) then T_float else T_int true 32) (wrapS 32 num) data_type (data_ptr dims) v_output
                  end
            end
      | _ => Err PARAM_INVALID
      end
  end.
End Kernel.
End UnpackKernel.

(** * DynamicStitchKernel

    input[0] ... input[n - 1] are the indices, input[n] ... input[2n - 1] the data. *)
Module DynamicStitchKernel.
Section Kernel.
Context `{E : Env} `{N : NodeLib}.

Definition kSupportedTypeSet : list DataType :=
  [DT_INT8; DT_UINT8; DT_INT16; DT_UINT16; DT_INT32; DT_INT64; DT_BOOL; DT_FLOAT16; DT_FLOAT; DT_DOUBLE].

(** `input[i]` at an integer index, dereferenced. *)
Definition input_z (input : list TensorPtr) (i : Z) : outcome GeTensor := p ← vget input i; or_stuck p.

(** The value of the member n_. *)
Definition ValidateParams (op_desc_ptr : option OpDesc) (input : list TensorPtr) : outcome Z :=
  match op_desc_ptr with
  | None => Err PARAM_INVALID
  | Some op =>
      if GetOutputsSize op =? 0 then Err PARAM_INVALID
      else if zlen input =? 0 then Err NOT_CHANGED
      else if existsb (fun p : TensorPtr => match p with None => true | Some _ => false end) input then Err PARAM_INVALID
      else
        match GetInt_i32 op ATTR_NAME_N with
        | None => Err NOT_CHANGED
        | Some n_ =>
            if wrapS 32 (zlen input) <? wrapS 32 (2 * n_) then Err NOT_CHANGED
            else
              x ← input_z input n_;
              if bool_decide (GetDataType x ∈ kSupportedTypeSet) then Ok n_ else Err NOT_CHANGED
        end
  end.

(** The number of indices in a tensor; a scalar counts as a vector of one element. *)
Definition indices_size (shape : list Z) : Z := let size := GetShapeSize shape in if size =? 0 then 1 else size.

(** The greatest index of the first [n_] tensors. *)
Definition max_index (n_ : Z) (input : list TensorPtr) : outcome Z :=
  for_range n_ (fun i merged_first_dim =>
    x ← input_z input i;
    for_range (indices_size (GetDims x)) (fun j merged_first_dim =>
      k ← load_num (T_int true 32) (GetData x) j;
      Ok (Z.max merged_first_dim k)) merged_first_dim) 0.

Definition ComputeMergedShape (n_ : Z) (input : list TensorPtr) : outcome (list Z) :=
  merged_first_dim ← max_index n_ input;
  i0 ← input_z input 0;
  let indices_dim_num := zlen (GetDims i0) in
  d0 ← input_z input n_;
  let data_shape := GetDims d0 in
  let step := if zlen data_shape =? indices_dim_num then 0 else GetDim data_shape indices_dim_num in
  let first := wrapS 32 (merged_first_dim + 1) in
  Ok (if 0 <? step then [first; step] else [first]).

(** One copy: the state is the buffer, the allowance and the set of indices seen. *)
Definition stitch_one (data_unit : Z) (indices : list Z) (input_data : option (list Z)) (j : Z) (st : list Z * Z * gset Z) :
    outcome (list Z * Z * gset Z) :=
  let '(buf, allowance, indices_set) := st in
  k ← load_num (T_int true 32) indices j;
  allowance ← (if bool_decide (k ∈ indices_set)
               then if bool_decide (CheckInt64AddOverflow k data_unit = SUCCESS) then Ok (allowance + data_unit)%i64 else Err NOT_CHANGED
               else Ok allowance);
  let indices_set := {[k]} ∪ indices_set in
  if negb (CheckInt64MulOverflow k data_unit) then Err NOT_CHANGED
  else
    let dst_offset := (k * data_unit)%i64 in
    let src_offset := (j * data_unit)%i64 in
    let protected_size := if allowance <? SECUREC_MEM_MAX_LEN then allowance else SECUREC_MEM_MAX_LEN in
    let '(ret, buf) := memcpy_s buf dst_offset (wrapU64 protected_size) input_data src_offset (wrapU64 data_unit) in
    if ret =? EOK then Ok (buf, (allowance - data_unit)%i64, indices_set) else Err NOT_CHANGED.

Definition StitchDataFollowIndices (n_ data_unit : Z) (input : list TensorPtr) (allowance : Z) (buf : list Z) : outcome (list Z) :=
  '(buf, _, _) ← for_range n_ (fun i st =>
    x ← input_z input i;
    let indices_shape := GetDims x in
    if (zlen indices_shape =? 1) && (GetDim indices_shape 0 =? 0) then Ok st
    else
      d ← input_z input (wrapS 32 (i + n_));
      for_range (indices_size indices_shape) (stitch_one data_unit (GetData x) (data_ptr d)) st) (buf, allowance, ∅);
  Ok buf.

Definition GenData (n_ : Z) (input : list TensorPtr) (output : GeTensor) : outcome GeTensor :=
  merged_shape ← ComputeMergedShape n_ input;
  d ← input_z input n_;
  let data_type := GetDataType d in
  let output_size := GetShapeSize merged_shape in
  let data_size := GetSizeByDataType data_type in
  let step := GetDim merged_shape 1 in
  if negb (CheckInt64MulOverflow output_size data_size) || negb (CheckInt64MulOverflow step data_size) then Err NOT_CHANGED
  else
    let allowance := (output_size * data_size)%i64 in
    let data_unit := if 0 <? step then (step * data_size)%i64 else data_size in
    match new_uint8 allowance with
    | None => Err INTERNAL_ERROR
    | Some buf =>
        buf ← or_else NOT_CHANGED (StitchDataFollowIndices n_ data_unit input allowance buf);
        let output := SetShape merged_shape (SetDataType data_type output) in
        let bytes := take (Z.to_nat allowance) buf in
        if negb (bool_decide (SetDataStatus bytes output = SUCCESS)) then Err NOT_CHANGED else Ok (SetData bytes output)
    end.

Definition Compute (op_desc_ptr : option OpDesc) (input : list TensorPtr) (v_output : list GeTensor) : outcome (list GeTensor) :=
  n_ ← or_else NOT_CHANGED (ValidateParams op_desc_ptr input);
  op ← or_stuck op_desc_ptr;
  match MakeShared op 0 with
  | None => Err NOT_CHANGED
  | Some output => output ← or_else NOT_CHANGED (GenData n_ input output); emit v_output output
  end.
End Kernel.
End DynamicStitchKernel.
