(* ===== verification/ShapeTheorems.v ===== *)
(** What the kernels about shapes compute.

    DynamicStitch is compared with a map from rows to data that later inputs overwrite; the kernels that return
    shapes with the shapes they were given or derive from two shapes. *)
From stdpp Require Import strings gmap.
From S2P Require Import Prelude MathUtil Buffer FormatsUtils Bytes FormatIndex FormatTranspose Fp16 Fp16Convert DataTypeTransfer Formats FloatMath BCast HostKernels KernelTheorems SliceKernels SliceTheorems GatherKernels GatherTheorems NumericKernels TransKernels ShapeKernels.
Open Scope Z_scope.
Import DynamicStitchKernel.

(** * DynamicStitch *)

(** The writes of one pair of tensors: index [j] gets row [j] of the data. *)
Definition writes (unit : Z) (ks dd : list Z) : list (Z * list Z) := zip ks (elem unit dd <$> seqZ 0 (zlen ks)).
(** A write replaces an earlier one to the same row. *)
Definition stitch (m : gmap Z (list Z)) (w : list (Z * list Z)) : gmap Z (list Z) := foldl (fun m kr => <[kr.1 := kr.2]> m) m w.

Lemma stitch_snoc m w kr : stitch m (w ++ [kr]) = <[kr.1 := kr.2]> (stitch m w).
Proof. unfold stitch. by rewrite foldl_app. Qed.

Lemma lookup_writes unit ks dd (j : nat) : (j < length ks)%nat -> writes unit ks dd !! j = Some (ks !!! j, elem unit dd (Z.of_nat j)).
Proof.
  intros Hj. unfold writes. destruct (lookup_lt_is_Some_2 ks j Hj) as [k Hk].
  apply lookup_zip_Some. split; [|].
  - cbn. by rewrite (list_lookup_total_correct _ _ _ Hk).
  - cbn. rewrite list_lookup_fmap, lookup_seqZ_lt by (unfold zlen; lia). done.
Qed.

Section Stitch.
Context `{E : Env} {HE : EnvOk E} `{N : NodeLib}.
Context (unit rows : Z).
Hypothesis Hunit : 0 < unit <= SECUREC_MEM_MAX_LEN.
Hypothesis Hrows : 0 < rows < 2 ^ 31.
Hypothesis Hbytes : rows * unit < 2 ^ 62.

(** The state of the copies when the rows in [m] are written. *)
Definition stitched (m : gmap Z (list Z)) (st : list Z * Z * gset Z) : Prop :=
  let '(buf, allowance, indices_set) := st in
  indices_set = dom m /\ (forall k, k ∈ dom m -> 0 <= k < rows) /\ zlen buf = rows * unit /\
  allowance = (rows - Z.of_nat (size m)) * unit /\ forall k r, m !! k = Some r -> elem unit buf k = r.

Lemma dom_size (m : gmap Z (list Z)) : (forall k, k ∈ dom m -> 0 <= k < rows) -> Z.of_nat (size m) <= rows.
Proof.
  intros Hd. rewrite <- size_dom.
  assert (dom m ⊆ list_to_set (seqZ 0 rows)) as Hs.
  { intros k Hk. apply elem_of_list_to_set, elem_of_seqZ. specialize (Hd k Hk). lia. }
  apply subseteq_size in Hs. rewrite size_list_to_set, length_seqZ in Hs by apply NoDup_seqZ. lia.
Qed.

Lemma stitch_one_ok m ks dd j st :
  Forall (fun k => 0 <= k < rows) ks -> zlen dd = zlen ks * unit -> zlen dd < 2 ^ 63 -> 0 <= j < zlen ks -> stitched m st ->
  exists st', stitch_one unit (vector_bytes (T_int true 32) ks) (Some dd) j st = Ok st' /\
    stitched (<[ks !!! Z.to_nat j := elem unit dd j]> m) st'.
Proof.
  intros Hks Hdd Hdb Hj. destruct st as [[buf allowance] set]. intros (-> & Hdom & Hl & -> & Hrow).
  destruct (lookup_lt_is_Some_2 ks (Z.to_nat j)) as [k Hk]; [unfold zlen in Hj; lia|].
  rewrite (list_lookup_total_correct _ _ _ Hk). pose proof (Forall_lookup_1 _ _ _ _ Hks Hk) as Hkr. cbn in Hkr.
  unfold stitch_one. rewrite (load_vector (T_int true 32) ks j k);
    [|by right; right; left| |unfold vget, at_; destruct (Z.ltb_spec j 0); [lia|by rewrite Hk]].
  2: { eapply Forall_impl; [exact Hks|]. intros z Hz. unfold num_in, inS. cbn in Hz |- *. lia. }
  cbn [mbind outcome_bind]. pose proof (dom_size m Hdom) as Hsz. pose proof SECUREC_MEM_MAX_LEN_2G.
  set (A := (rows - Z.of_nat (size m)) * unit). assert (0 <= Z.of_nat (size m) * unit) by (apply Z.mul_nonneg_nonneg; lia).
  assert (0 <= A) by (apply Z.mul_nonneg_nonneg; lia). assert (A <= rows * unit) by (unfold A; lia).
  assert (unit <= rows * unit) by nia.
  set (m' := <[k := elem unit dd j]> m).
  assert (exists A', (if bool_decide (k ∈ dom m) then if bool_decide (CheckInt64AddOverflow k unit = SUCCESS) then Ok (A + unit)%i64 else Err NOT_CHANGED
    else Ok A) = Ok A' /\ unit <= A' <= rows * unit + unit /\ A' - unit = (rows - Z.of_nat (size m')) * unit) as (A' & -> & HA' & HA).
  { case_bool_decide as Hin.
    - rewrite bool_decide_eq_true_2 by (apply check_exact; unfold_limits; nia).
      exists (A + unit). unfold add64. rewrite wrap64_id by lia. split; [done|]. split; [lia|].
      apply elem_of_dom in Hin. unfold m'. rewrite map_size_insert_Some by done. unfold A. ring.
    - exists A. split; [done|]. unfold m'. rewrite map_size_insert_None by (by apply not_elem_of_dom).
      assert (Z.of_nat (size m) < rows) as Hlt.
      { pose proof (dom_size m') as Hs'. unfold m' in Hs'. rewrite map_size_insert_None in Hs' by (by apply not_elem_of_dom).
        specialize (Hs'). assert (forall k0, k0 ∈ dom (<[k:=elem unit dd j]> m) -> 0 <= k0 < rows) as Hd'.
        { intros k0. rewrite dom_insert. intros [->%elem_of_singleton|?]%elem_of_union; [lia|auto]. }
        specialize (Hs' Hd'). lia. }
      unfold A. split; [nia|]. rewrite Nat2Z.inj_succ. ring. }
  cbn [mbind outcome_bind]. rewrite CheckInt64MulOverflow_small by nia. cbn [negb].
  assert (mul64 k unit = k * unit) as -> by (apply wrap64_id; nia). assert (mul64 j unit = j * unit) as -> by (apply wrap64_id; nia).
  set (ps := if A' <? SECUREC_MEM_MAX_LEN then A' else SECUREC_MEM_MAX_LEN).
  assert (unit <= ps <= SECUREC_MEM_MAX_LEN) by (unfold ps; destruct (Z.ltb_spec A' SECUREC_MEM_MAX_LEN); lia).
  rewrite !wrapU64_id by lia. rewrite memcpy_s_ok by nia. rewrite Z.eqb_refl. eexists. split; [done|].
  assert (zlen (slice (j * unit) unit dd) = unit) as Hls by (apply zlen_slice; nia).
  unfold stitched. split_and!.
  - unfold m'. by rewrite dom_insert_L.
  - intros k0. unfold m'. rewrite dom_insert. intros [->%elem_of_singleton|?]%elem_of_union; [lia|auto].
  - rewrite zlen_splice by nia. done.
  - unfold sub64. rewrite wrap64_id by lia. exact HA.
  - intros k0 r Hr. unfold m' in Hr. destruct (decide (k0 = k)) as [->|Hne].
    + rewrite lookup_insert_eq in Hr. injection Hr as <-. apply (elem_splice_eq unit rows); try done; lia.
    + rewrite lookup_insert_ne in Hr by done. assert (0 <= k0 < rows) by (apply Hdom, elem_of_dom; eauto).
      rewrite (elem_splice_ne unit rows) by (done || lia). by apply Hrow.
Qed.

Lemma stitch_loop m ks dd st :
  Forall (fun k => 0 <= k < rows) ks -> zlen dd = zlen ks * unit -> zlen dd < 2 ^ 63 -> stitched m st ->
  exists st', for_range (zlen ks) (stitch_one unit (vector_bytes (T_int true 32) ks) (Some dd)) st = Ok st' /\
    stitched (stitch m (writes unit ks dd)) st'.
Proof.
  intros Hks Hdd Hdb Hst.
  destruct (for_range_inv (fun j st => stitched (stitch m (take (Z.to_nat j) (writes unit ks dd))) st) (zlen ks)
    (stitch_one unit (vector_bytes (T_int true 32) ks) (Some dd)) st) as (st' & Hr & Hst'); [done| |].
  - intros j st1 Hj Hst1. destruct (stitch_one_ok _ ks dd j st1 Hks Hdd Hdb Hj Hst1) as (st2 & Hr & Hst2).
    exists st2. split; [done|]. replace (Z.to_nat (j + 1)) with (Datatypes.S (Z.to_nat j)) by lia.
    rewrite (take_S_r _ _ (ks !!! Z.to_nat j, elem unit dd j)); [by rewrite stitch_snoc|].
    rewrite lookup_writes by (unfold zlen in Hj; lia). by rewrite Z2Nat.id by lia.
  - exists st'. split; [done|]. rewrite take_ge in Hst'; [done|].
    unfold writes. rewrite length_zip_with, length_fmap, length_seqZ. unfold zlen. lia.
Qed.
End Stitch.

(** * The inputs: indices with their data *)
Section Inputs.
Context `{E : Env} {HE : EnvOk E} `{HT : TensorLibOk} {S : ShapeLib} {HO : ShapeLibOk S} {D : DescLib} {N : NodeLib}.

(** An index tensor with its shape and its values, and a data tensor. *)
Record Pair := mkPair { p_x : GeTensor; p_shape : list Z; p_ks : list Z; p_d : GeTensor }.

(** The indices are int32_t and not negative, there is at least one, and the data have a row of [unit] bytes for each. *)
Definition pair_ok (unit : Z) (p : Pair) : Prop :=
  holds (p_x p) DT_INT32 (T_int true 32) (p_shape p) (p_ks p) /\ Forall (Z.lt 0) (p_shape p) /\
  Forall (fun k => 0 <= k < 2 ^ 31 - 1) (p_ks p) /\ zlen (GetData (p_d p)) = zlen (p_ks p) * unit /\ zlen (GetData (p_d p)) < 2 ^ 62.

Definition inputs (ps : list Pair) : list TensorPtr := ((fun p => Some (p_x p)) <$> ps) ++ ((fun p => Some (p_d p)) <$> ps).
Definition all_indices (ps : list Pair) : list Z := concat (p_ks <$> ps).
Definition all_writes (unit : Z) (ps : list Pair) : list (Z * list Z) := concat ((fun p => writes unit (p_ks p) (GetData (p_d p))) <$> ps).

Lemma input_index ps i p : ps !! Z.to_nat i = Some p -> 0 <= i -> input_z (inputs ps) i = Ok (p_x p).
Proof.
  intros Hp Hi. unfold input_z, inputs, vget, at_. destruct (Z.ltb_spec i 0); [lia|].
  rewrite lookup_app_l by (rewrite length_fmap; by eapply lookup_lt_Some). by rewrite list_lookup_fmap, Hp.
Qed.

Lemma input_data ps i p : ps !! Z.to_nat i = Some p -> 0 <= i -> input_z (inputs ps) (i + zlen ps) = Ok (p_d p).
Proof.
  intros Hp Hi. unfold input_z, inputs, vget, at_, zlen. destruct (Z.ltb_spec (i + Z.of_nat (length ps)) 0); [lia|].
  rewrite lookup_app_r by (rewrite length_fmap; lia). rewrite length_fmap.
  replace (Z.to_nat (i + Z.of_nat (length ps)) - length ps)%nat with (Z.to_nat i) by lia. by rewrite list_lookup_fmap, Hp.
Qed.

Lemma pair_size unit p : 0 < unit -> pair_ok unit p -> indices_size (GetDims (p_x p)) = zlen (p_ks p) /\ 0 < zlen (p_ks p) /\
  (zlen (GetDims (p_x p)) =? 1) && (GetDim (GetDims (p_x p)) 0 =? 0) = false /\ data_ptr (p_d p) = Some (GetData (p_d p)).
Proof.
  intros Hu ((Hs & _ & _ & _ & Hn) & Hpos & _ & Hd & Hb). rewrite Hs. pose proof (prodZ_gt0 _ Hpos).
  split_and!; [| lia| |].
  - unfold indices_size. destruct (p_shape p) as [|a s] eqn:Hsh.
    + rewrite shape_size_scalar. cbn in *. lia.
    + rewrite shape_size_prod; [|done|eapply Forall_impl; [exact Hpos|intros; lia]|nia]. destruct (Z.eqb_spec (prodZ (a :: s)) 0); lia.
  - destruct (p_shape p) as [|a [|z l]]; [done| |destruct (Z.eqb_spec (zlen (a :: z :: l)) 1) as [H1|]; [unfold zlen in H1; cbn [length] in H1; lia|done]].
    rewrite (get_dim_in [a] 0 a) by done.
    apply Forall_cons in Hpos as [? _]. destruct (Z.eqb_spec a 0); [lia|]. by rewrite andb_false_r.
  - unfold data_ptr. rewrite has_data_bytes; [done|]. intros H0. rewrite H0 in Hd. unfold zlen at 1 in Hd. cbn [length] in Hd. nia.
Qed.

Lemma max_loop t ks acc : num_ok t -> Forall (num_in t) ks ->
  for_range (zlen ks) (fun j m => k ← load_num t (vector_bytes t ks) j; Ok (Z.max m k)) acc = Ok (foldl Z.max acc ks).
Proof.
  intros Ht Hks.
  destruct (for_range_inv (fun j m => m = foldl Z.max acc (take (Z.to_nat j) ks)) (zlen ks)
    (fun j m => k ← load_num t (vector_bytes t ks) j; Ok (Z.max m k)) acc) as (m & -> & ->); [done| |].
  - intros j m Hj ->. destruct (lookup_lt_is_Some_2 ks (Z.to_nat j)) as [k Hk]; [unfold zlen in Hj; lia|].
    rewrite (load_vector t ks j k); [|done|done|unfold vget, at_; destruct (Z.ltb_spec j 0); [lia|by rewrite Hk]].
    cbn [mbind outcome_bind]. eexists. split; [done|]. replace (Z.to_nat (j + 1)) with (Datatypes.S (Z.to_nat j)) by lia.
    by rewrite (take_S_r _ _ k Hk), foldl_app.
  - f_equal. rewrite take_ge; [done|]. unfold zlen. lia.
Qed.

Lemma max_index_ok unit ps : 0 < unit -> Forall (pair_ok unit) ps -> max_index (zlen ps) (inputs ps) = Ok (foldl Z.max 0 (all_indices ps)).
Proof.
  intros Hu Hps. unfold max_index.
  destruct (for_range_inv (fun i m => m = foldl Z.max 0 (all_indices (take (Z.to_nat i) ps))) (zlen ps)
    (fun i m => x ← input_z (inputs ps) i;
      for_range (indices_size (GetDims x)) (fun j m => k ← load_num (T_int true 32) (GetData x) j; Ok (Z.max m k)) m) 0)
    as (m & -> & ->); [done| |].
  - intros i m Hi ->. destruct (lookup_lt_is_Some_2 ps (Z.to_nat i)) as [p Hp]; [unfold zlen in Hi; lia|].
    rewrite (input_index ps i p Hp) by lia. cbn [mbind outcome_bind]. pose proof (Forall_lookup_1 _ _ _ _ Hps Hp) as Hok.
    destruct (pair_size unit p Hu Hok) as (-> & _). destruct Hok as ((_ & _ & -> & Hin & _) & _).
    rewrite max_loop; [|by right; right; left|done]. eexists. split; [done|].
    replace (Z.to_nat (i + 1)) with (Datatypes.S (Z.to_nat i)) by lia. unfold all_indices.
    rewrite (take_S_r _ _ p Hp), fmap_app, concat_app, foldl_app. cbn. by rewrite app_nil_r.
  - f_equal. rewrite take_ge; [done|]. unfold zlen. lia.
Qed.

Lemma max_bound l acc : acc <= foldl Z.max acc l /\ Forall (fun k => k <= foldl Z.max acc l) l.
Proof.
  revert acc. induction l as [|k l IH]; intros acc; cbn; [split; [lia|constructor]|].
  destruct (IH (Z.max acc k)) as [? ?]. split; [lia|]. constructor; [lia|done].
Qed.

Lemma max_below l acc b : acc < b -> Forall (fun k => k < b) l -> foldl Z.max acc l < b.
Proof. intros Ha HF. revert acc Ha. induction HF as [|k l Hk HF IH]; intros acc Ha; cbn; [done|]. apply IH. lia. Qed.

Lemma all_indices_in unit ps : Forall (pair_ok unit) ps -> Forall (fun k => 0 <= k < 2 ^ 31 - 1) (all_indices ps).
Proof. intros H. unfold all_indices. apply Forall_concat, Forall_fmap. eapply Forall_impl; [exact H|]. intros p Hp. apply Hp. Qed.

Lemma stitch_inputs unit rows ps buf :
  0 < unit <= SECUREC_MEM_MAX_LEN -> 0 < rows < 2 ^ 31 -> rows * unit < 2 ^ 62 -> Forall (pair_ok unit) ps ->
  Forall (fun k => 0 <= k < rows) (all_indices ps) -> zlen ps < 2 ^ 30 -> zlen buf = rows * unit ->
  exists out, StitchDataFollowIndices (zlen ps) unit (inputs ps) (rows * unit) buf = Ok out /\ zlen out = rows * unit /\
    forall k r, stitch ∅ (all_writes unit ps) !! k = Some r -> elem unit out k = r.
Proof.
  intros Hu Hr Hb Hps Hin Hn Hbuf. unfold StitchDataFollowIndices.
  match goal with |- context [for_range (zlen ps) ?f ?s] =>
    destruct (for_range_inv (fun i st => stitched unit rows (stitch ∅ (all_writes unit (take (Z.to_nat i) ps))) st) (zlen ps) f s) as (st & -> & Hst) end.
  - change (stitch ∅ (all_writes unit (take (Z.to_nat 0) ps))) with (∅ : gmap Z (list Z)). unfold stitched.
    split_and!; [by rewrite dom_empty_L|set_solver|done|rewrite map_size_empty; cbn; ring|done].
  - intros i st Hi Hst. destruct (lookup_lt_is_Some_2 ps (Z.to_nat i)) as [p Hp]; [unfold zlen in Hi; lia|].
    pose proof (Forall_lookup_1 _ _ _ _ Hps Hp) as Hok. destruct (pair_size unit p (proj1 Hu) Hok) as (Hsz & Hk0 & Hz & Hd).
    assert (Forall (fun k => 0 <= k < rows) (p_ks p)) as Hks.
    { apply Forall_forall. intros k Hk. rewrite Forall_forall in Hin. apply Hin. unfold all_indices. apply list_elem_of_In, in_concat.
      exists (p_ks p). split; apply list_elem_of_In; [|done]. apply list_elem_of_fmap. exists p. split; [done|]. by eapply list_elem_of_lookup_2. }
    rewrite (input_index ps i p Hp) by lia. cbn [mbind outcome_bind]. rewrite Hz. cbv iota.
    rewrite wrapS_id by (unfold inS; cbn; pose proof (zlen_nonneg ps); lia). rewrite (input_data ps i p Hp) by lia. cbn [mbind outcome_bind].
    rewrite Hsz, Hd. destruct Hok as ((_ & _ & -> & _ & _) & _ & _ & Hl & Hl2).
    destruct (stitch_loop unit rows Hu Hr Hb _ (p_ks p) (GetData (p_d p)) st Hks Hl ltac:(lia) Hst) as (st' & Hrun & Hst').
    exists st'. split; [done|]. replace (Z.to_nat (i + 1)) with (Datatypes.S (Z.to_nat i)) by lia. unfold all_writes.
    rewrite (take_S_r _ _ p Hp), fmap_app, concat_app. cbn [fmap list_fmap concat]. rewrite app_nil_r. unfold stitch in *. by rewrite foldl_app.
  - destruct st as [[out A] set]. cbn [mbind outcome_bind]. exists out. split; [done|]. cbn in Hst.
    rewrite take_ge in Hst by (unfold zlen; lia). split; apply Hst.
Qed.

Section Compute.
Context (p : Pair) (ps : list Pair) (tail : list Z) (dt : DataType).
Let all := p :: ps.
Let size := GetSizeByDataType dt.
Let unit := prodZ tail * size.
Let rows := foldl Z.max 0 (all_indices all) + 1.
Hypothesis Hdt : GetDataType (p_d p) = dt.
Hypothesis Hsup : dt ∈ kSupportedTypeSet.
Hypothesis Hsize : 0 < size.
Hypothesis Htail : (length tail <= 1)%nat.
Hypothesis Hpos : Forall (Z.lt 0) tail.
Hypothesis Hshape : GetDims (p_d p) = p_shape p ++ tail.
Hypothesis Hps : Forall (pair_ok unit) all.
Hypothesis Hn : zlen all < 2 ^ 30.
Hypothesis Hunit : unit <= SECUREC_MEM_MAX_LEN.
Hypothesis Hbytes : rows * unit < 2 ^ 62.

Lemma rows_range : 0 < rows < 2 ^ 31 /\ 0 < unit /\ Forall (fun k => 0 <= k < rows) (all_indices all).
Proof.
  pose proof (all_indices_in unit all Hps) as Hi. destruct (max_bound (all_indices all) 0) as [? HF]. split_and!.
  - unfold rows. lia.
  - unfold rows. assert (foldl Z.max 0 (all_indices all) < 2 ^ 31 - 1); [|lia].
    apply max_below; [lia|]. eapply Forall_impl; [exact Hi|]. cbn. intros. lia.
  - unfold unit. pose proof (prodZ_gt0 _ Hpos). nia.
  - eapply Forall_impl; [exact (proj2 (Forall_and _ _) (conj Hi HF))|]. cbv beta. intros k [Hk Hm]. subst rows. lia.
Qed.

Lemma merged_shape : ComputeMergedShape (zlen all) (inputs all) = Ok (rows :: tail).
Proof.
  destruct rows_range as (Hr & Hu & _). unfold ComputeMergedShape. rewrite (max_index_ok unit all Hu Hps). cbn [mbind outcome_bind].
  rewrite (input_index all 0 p) by done. cbn [mbind outcome_bind]. change (zlen all) with (0 + zlen all).
  rewrite (input_data all 0 p) by done. cbn [mbind outcome_bind].
  pose proof (Forall_inv Hps) as ((Hs & _) & _). rewrite Hshape, Hs, zlen_app. fold rows.
  rewrite wrapS_id by (unfold inS; cbn; lia).
  destruct tail as [|step [|]]; [|apply Forall_inv in Hpos|by cbn in Htail; lia].
  - change (zlen []) with 0. by rewrite Z.add_0_r, Z.eqb_refl.
  - change (zlen [step]) with 1. destruct (Z.eqb_spec (zlen (p_shape p) + 1) (zlen (p_shape p))); [lia|].
    rewrite (get_dim_in _ _ step); [destruct (Z.ltb_spec 0 step); [done|lia]|].
    unfold vget, at_, zlen. destruct (Z.ltb_spec (Z.of_nat (length (p_shape p))) 0); [lia|].
    by rewrite Nat2Z.id, lookup_app_r, Nat.sub_diag by lia.
Qed.

Lemma StitchGenData_ok o buf : new_uint8 (rows * unit) = Some buf -> (forall b x, SetDataStatus b x = SUCCESS) ->
  exists out, GenData (zlen all) (inputs all) o = Ok (SetData out (SetShape (rows :: tail) (SetDataType dt o))) /\ zlen out = rows * unit /\
    forall k r, stitch ∅ (all_writes unit all) !! k = Some r -> elem unit out k = r.
Proof.
  intros Hbuf Hset. destruct rows_range as (Hr & Hu & Hin). pose proof (prodZ_gt0 _ Hpos) as Hp. pose proof (GetSizeByDataType_small dt).
  unfold GenData. rewrite merged_shape. cbn [mbind outcome_bind]. change (input_z (inputs all) (zlen all)) with (input_z (inputs all) (0 + zlen all)).
  rewrite (input_data all 0 p) by done. cbn [mbind outcome_bind]. rewrite Hdt. fold size.
  assert (rows * prodZ tail * size = rows * unit) as Hmul by (unfold unit; ring).
  assert (0 < rows * prodZ tail) by nia.
  rewrite shape_size_prod; [|done|constructor; [lia|eapply Forall_impl; [exact Hpos|intros; lia]]|rewrite prodZ_cons; nia]. rewrite prodZ_cons.
  assert (exists step, GetDim (rows :: tail) 1 = step /\ 0 <= step <= prodZ tail /\ (if 0 <? step then (step * size)%i64 else size) = unit) as (step & -> & Hstep & ->).
  { unfold unit in *. destruct tail as [|step [|]]; [|apply Forall_inv in Hpos|by cbn in Htail; lia].
    - rewrite get_dim_out by done. exists 0. cbn. split; [done|]. split; [lia|]. by destruct size.
    - rewrite (get_dim_in _ _ step) by done. exists step. cbn [prodZ foldr] in *. rewrite Z.mul_1_r in *. split; [done|]. split; [lia|].
      destruct (Z.ltb_spec 0 step); [|lia]. unfold mul64. by rewrite wrap64_id by nia. }
  rewrite !CheckInt64MulOverflow_small by nia. cbn [negb orb]. unfold mul64. rewrite wrap64_id, Hmul, Hbuf by nia.
  assert (zlen buf = rows * unit) as Hl by (by apply zlen_new; lia || done).
  destruct (stitch_inputs unit rows all buf (conj Hu Hunit) Hr Hbytes Hps Hin Hn Hl) as (out & -> & Hlo & Hrow).
  cbn [or_else mbind outcome_bind]. rewrite take_ge by (unfold zlen in Hlo; lia). rewrite Hset, bool_decide_eq_true_2 by done. by exists out.
Qed.

Lemma Stitch_answers op o v_output : GetOutputsSize op <> 0 -> GetInt_i32 op ATTR_NAME_N = Some (zlen all) -> MakeShared op 0 = Some o ->
  is_Some (new_uint8 (rows * unit)) -> (forall b x, SetDataStatus b x = SUCCESS) ->
  exists z, Compute (Some op) (inputs all) v_output = Ok (v_output ++ [z]) /\ GetDims z = rows :: tail /\ GetDataType z = dt /\
    zlen (GetData z) = rows * unit /\ forall k r, stitch ∅ (all_writes unit all) !! k = Some r -> elem unit (GetData z) k = r.
Proof.
  intros Ho Ha Hm [buf Hb] Hset. destruct (StitchGenData_ok o buf Hb Hset) as (out & Hg & Hl & Hrow).
  assert (ValidateParams (Some op) (inputs all) = Ok (zlen all)) as Hv.
  { unfold ValidateParams. destruct (Z.eqb_spec (GetOutputsSize op) 0); [done|].
    assert (zlen (inputs all) = 2 * zlen all) as Hli by (unfold zlen, inputs; rewrite length_app, !length_fmap; lia).
    assert (0 < zlen all) by (unfold all; rewrite zlen_cons; pose proof (zlen_nonneg ps); lia).
    destruct (Z.eqb_spec (zlen (inputs all)) 0); [lia|].
    assert (existsb (fun p : TensorPtr => match p with None => true | Some _ => false end) (inputs all) = false) as ->.
    { apply not_true_is_false. intros (x & Hx & Hnone)%existsb_exists. unfold inputs in Hx.
      apply in_app_iff in Hx as [Hx|Hx]; apply in_map_iff in Hx as (? & <- & _); done. }
    rewrite Ha, Hli, !wrapS_id by (unfold inS; cbn; lia). rewrite Z.ltb_irrefl.
    change (input_z (inputs all) (zlen all)) with (input_z (inputs all) (0 + zlen all)). rewrite (input_data all 0 p) by done.
    cbn [mbind outcome_bind]. by rewrite Hdt, bool_decide_eq_true_2 by done. }
  unfold Compute. rewrite Hv. cbn [or_else mbind outcome_bind or_stuck]. rewrite Hm, Hg. cbn [or_else mbind outcome_bind].
  eexists. split; [done|]. rewrite get_dims_data, get_dims_shape, get_type_data, get_type_shape, get_type_type, get_data_data. done.
Qed.
End Compute.
End Inputs.

(** * Shapes returned as tensors *)
Section Shapes.
Context `{E : Env} {HE : EnvOk E} `{HT : TensorLibOk} {S : ShapeLib} {HO : ShapeLibOk S} {D : DescLib} {N : NodeLib}.

(** The two types a tensor of shapes may have. *)
Definition index_type (d : DataType) (t : NumT) : Prop := (d, t) = (DT_INT32, T_int true 32) \/ (d, t) = (DT_INT64, T_int true 64).
Lemma index_num d t : index_type d t -> num_ok t.
Proof. intros [[= -> ->]|[= -> ->]]; by apply (bool_decide_eq_true_1 _). Qed.

(** Output [i] of the operator can be made, with values of the type [t]. *)
Definition can_make (op : OpDesc) (i : Z) (t : NumT) (o : GeTensor) (data : list Z) : Prop :=
  index_type (OutputTypeAt op i) t /\ GetDataType o = OutputTypeAt op i /\ MakeShared op i = Some o /\ is_Some (new_uint8 (zlen data * num_size t)) /\
  Forall (fun z => num_in t z /\ z <> INT32_MAX) data.

Lemma construct_ok op i t o data v_output (scalar : bool) : can_make op i t o data -> zlen data = prodZ (if scalar then [] else [zlen data]) ->
  exists z, ConstructTensorDescWithData op i data v_output scalar = Ok (v_output ++ [z]) /\
    holds z (OutputTypeAt op i) t (if scalar then [] else [zlen data]) data.
Proof.
  intros (Ht & Hd & Hm & [b Hn] & Hin) Hp. assert (Forall (num_in t) data) as Hnum by (eapply Forall_impl; [exact Hin|by intros ? []]).
  unfold ConstructTensorDescWithData, construct.
  assert (t = T_int true 32 -> fits_int32 data = true) as Hf.
  { intros ->. unfold fits_int32. apply forallb_forall. intros z Hz. rewrite Forall_forall in Hin. apply list_elem_of_In, Hin in Hz as [Hz Hne].
    unfold num_in, inS in Hz. unfold INT32_MAX in *. cbn in Hz. destruct (Z.leb_spec (2 ^ 31 - 1) z); [lia|done]. }
  destruct Ht as [[= Ho ->]|[= Ho ->]]; rewrite Ho; cbn [bool_decide decide decide_rel].
  all: repeat (first [rewrite bool_decide_eq_true_2 by done | rewrite bool_decide_eq_false_2 by done]).
  all: change (num_size _) with 4 in Hn || change (num_size _) with 8 in Hn; rewrite Hn, ?Hf, Hm by done.
  all: eexists; split; [done|]; unfold holds; rewrite get_dims_data, get_dims_shape, get_type_data, get_type_shape, get_data_data; by rewrite Hd, Ho.
Qed.

Lemma known_shape dims : Forall (Z.le 0) dims -> KernelUtils.IsUnknownShape dims = false.
Proof.
  intros HF. unfold KernelUtils.IsUnknownShape. apply not_true_is_false. intros (d & Hd & Hlt)%existsb_exists.
  rewrite Forall_forall in HF. apply list_elem_of_In, HF in Hd. apply Z.ltb_lt in Hlt. lia.
Qed.

Lemma count_ok acc dims : 0 <= acc -> Forall (Z.lt 0) dims -> acc * prodZ dims < 2 ^ 63 -> SizeKernel.count acc dims = Ok (acc * prodZ dims).
Proof.
  intros Ha HF. revert acc Ha. induction HF as [|d dims Hd HF IH]; intros acc Ha Hb; cbn [SizeKernel.count].
  - change (prodZ []) with 1. by rewrite Z.mul_1_r.
  - rewrite prodZ_cons in *. pose proof (prodZ_gt0 _ HF). assert (acc * d < 2 ^ 63) by nia.
    rewrite CheckInt64MulOverflow_small by nia. cbn [negb]. unfold mul64. rewrite wrap64_id by nia. rewrite IH by nia. f_equal. ring.
Qed.

Lemma shape_data_ok x d t s : index_type d t -> holds x d t [zlen s] s -> s <> [] -> GetShapeDataFromConstTensor (Some x) d = Ok s.
Proof.
  intros Ht (Hs & _ & Hd & Hin & _) Hne. pose proof (index_num d t Ht) as Hok. pose proof (num_size_pos t Hok).
  unfold GetShapeDataFromConstTensor. rewrite Hs. change (1 <? zlen [zlen s]) with false. cbv iota.
  assert (zlen (vector_bytes t s) = zlen s * num_size t) as Hl by (by apply zlen_vector).
  assert (data_ptr x = Some (vector_bytes t s)) as ->.
  { unfold data_ptr. rewrite has_data_bytes, Hd; [done|]. rewrite Hd. intros H0. rewrite H0 in Hl. change (zlen []) with 0 in Hl.
    destruct s; [done|]. rewrite zlen_cons in Hl. pose proof (zlen_nonneg s). nia. }
  pose proof (read_perm_ok t s Hok Hin) as Hr. unfold TransposeKernel.read_perm in Hr.
  destruct Ht as [[= -> ->]|[= -> ->]]; repeat (first [rewrite bool_decide_eq_true_2 by done | rewrite bool_decide_eq_false_2 by done]);
    rewrite Hl, Z.div_mul by lia; exact Hr.
Qed.

Lemma broadcast_args_ok op x y d t s1 s2 v_output : index_type d t -> holds x d t [zlen s1] s1 -> holds y d t [zlen s2] s2 -> s1 <> [] -> s2 <> [] ->
  AllInputs op = 2 -> AllOutputs op = 1 -> InputTypeAt op 0 = d -> is_Some (InputDimsAt op 0) ->
  BroadcastArgsKernel.Compute (Some op) [Some x; Some y] v_output =
    match broadcast s1 s2 with None => Err PARAM_INVALID | Some out => ConstructTensorDescWithData op 0 out v_output false end.
Proof.
  intros Ht Hx Hy H1 H2 Hi Ho Hd [dims Hs]. unfold BroadcastArgsKernel.Compute. rewrite Hi, Ho, Hs, Hd. cbn [zlen length Z.of_nat].
  cbn [Z.eqb Pos.eqb negb orb at_ lookup list_lookup mbind outcome_bind Z.of_nat Pos.of_succ_nat Pos.succ].
  rewrite (shape_data_ok x d t s1), (shape_data_ok y d t s2) by done. cbn [or_else mbind outcome_bind].
  pose proof (GenerateBcastInfo_ok s1 s2) as H. destruct (broadcast s1 s2) as [out|].
  - destruct H as (b & -> & <- & _). by cbn.
  - destruct H as (b & ->). by cbn.
Qed.

Lemma broadcast_gradient_ok op x y d t s1 s2 v_output : index_type d t -> holds x d t [zlen s1] s1 -> holds y d t [zlen s2] s2 -> s1 <> [] -> s2 <> [] ->
  AllInputs op = 2 -> AllOutputs op = 2 -> InputTypeAt op 0 = d -> InputTypeAt op 1 = d ->
  BroadcastGradientArgsKernel.Compute (Some op) [Some x; Some y] v_output =
    match broadcast s1 s2 with
    | None => Err PARAM_INVALID
    | Some _ => v ← ConstructTensorDescWithData op 0 (BCast.ones 0 (pad (rank s1 s2) s1)) v_output false;
        ConstructTensorDescWithData op 1 (BCast.ones 0 (pad (rank s1 s2) s2)) v false
    end.
Proof.
  intros Ht Hx Hy H1 H2 Hi Ho Hd Hd2. unfold BroadcastGradientArgsKernel.Compute. rewrite Hi, Ho, Hd, Hd2. cbn [zlen length Z.of_nat].
  cbn [Z.eqb Pos.eqb negb orb at_ lookup list_lookup mbind outcome_bind Z.of_nat Pos.of_succ_nat Pos.succ].
  rewrite (shape_data_ok x d t s1), (shape_data_ok y d t s2) by done. cbn [or_else mbind outcome_bind].
  pose proof (GenerateBcastInfo_ok s1 s2) as H. destruct (broadcast s1 s2) as [out|].
  - destruct H as (b & -> & _ & _ & _ & _ & _ & _ & <- & <-). cbn [mbind outcome_bind negb]. rewrite bool_decide_eq_true_2 by done. cbn [negb].
    change (for_range 2 ?f ?s) with (s1 ← f 0 s; s2 ← f 1 s1; Ok s2).
    cbv beta. change (vget [?a; ?b] 0) with (Ok a). change (vget [?a; ?b] 1) with (Ok b). cbn [mbind outcome_bind].
    destruct (ConstructTensorDescWithData op 0 _ _ _) as [v| |]; [|done..]. cbn [mbind outcome_bind].
    by destruct (ConstructTensorDescWithData op 1 _ _ _).
  - destruct H as (b & ->). by cbn.
Qed.

Lemma ShapeN_ok op ds os ts node v_output : GetOpDesc node = Some op -> AllOutputs op = AllInputs op ->
  (forall i, 0 <= i < AllInputs op -> InputDimsAt op i = Some (ds i) /\ Forall (Z.le 0) (ds i) /\ can_make op i (ts i) (os i) (ds i)) -> 0 <= AllInputs op ->
  exists zs, ShapeNKernel.Compute (Some node) v_output = Ok (v_output ++ zs) /\ zlen zs = AllInputs op /\
    forall i z, 0 <= i -> vget zs i = Ok z -> holds z (OutputTypeAt op i) (ts i) [zlen (ds i)] (ds i).
Proof.
  intros Hop Ho Hall Hpos. unfold ShapeNKernel.Compute. rewrite Hop, Ho, Z.eqb_refl. cbn [negb].
  match goal with |- context [for_range (AllInputs op) ?f ?s] =>
    destruct (for_range_inv (fun i v => exists zs, v = v_output ++ zs /\ zlen zs = i /\
      forall j z, 0 <= j -> vget zs j = Ok z -> holds z (OutputTypeAt op j) (ts j) [zlen (ds j)] (ds j)) (AllInputs op) f s) as (v & -> & zs & -> & Hl & Hz) end.
  - exists []. rewrite app_nil_r. split_and!; [done..|]. intros j z Hj Hg. unfold vget, at_ in Hg. destruct (j <? 0); [done|]. by rewrite lookup_nil in Hg.
  - intros i v Hi (zs & -> & Hl & Hz). destruct (Hall i Hi) as (-> & HF & Hm). rewrite known_shape by done.
    destruct (construct_ok op i (ts i) (os i) (ds i) (v_output ++ zs) false Hm) as (z & -> & Hh); [cbn; lia|].
    eexists. split; [done|]. exists (zs ++ [z]). rewrite app_assoc. split_and!; [done|unfold zlen in *; rewrite length_app; cbn [length]; lia|].
    intros j z' Hj Hg. unfold vget, at_ in *. destruct (Z.ltb_spec j 0); [done|].
    destruct ((zs ++ [z]) !! Z.to_nat j) as [w|] eqn:Hw; [|done]. injection Hg as ->.
    apply lookup_snoc_Some in Hw as [[Hlt Hw]|[Heq ->]].
    + apply Hz; [done|]. unfold vget, at_. destruct (Z.ltb_spec j 0); [lia|]. by rewrite Hw.
    + assert (j = i) as -> by (unfold zlen in Hl; lia). exact Hh.
  - exists zs. split_and!; [done|lia|exact Hz].
Qed.
End Shapes.

(** * The properties *)
Section Theorems.
Context `{E : Env} {HE : EnvOk E} `{HT : TensorLibOk} {S : ShapeLib} {HO : ShapeLibOk S} {D : DescLib} {N : NodeLib}.

(** C24 DynamicStitch merges its data by its indices: the output has a row for every index up to the greatest, of the shape the data
    have behind the shape of the indices, and each row that is indexed holds the data of the last input and position that
    name it.  Conditions on the inputs: the data have at most one dimension behind the shape of their indices, no index tensor
    is empty, and the indices are not negative and below the greatest int32; outside of them the kernel is wrong. *)
Theorem dynamic_stitch_exact p ps tail dt op o v_output :
  let all := p :: ps in
  let unit := prodZ tail * GetSizeByDataType dt in
  let rows := foldl Z.max 0 (all_indices all) + 1 in
  GetDataType (p_d p) = dt -> dt ∈ kSupportedTypeSet -> 0 < GetSizeByDataType dt -> (length tail <= 1)%nat -> Forall (Z.lt 0) tail ->
  GetDims (p_d p) = p_shape p ++ tail -> Forall (pair_ok unit) all -> zlen all < 2 ^ 30 -> unit <= SECUREC_MEM_MAX_LEN -> rows * unit < 2 ^ 62 ->
  GetOutputsSize op <> 0 -> GetInt_i32 op ATTR_NAME_N = Some (zlen all) -> MakeShared op 0 = Some o -> is_Some (new_uint8 (rows * unit)) ->
  (forall b x, SetDataStatus b x = SUCCESS) ->
  exists z, Compute (Some op) (inputs all) v_output = Ok (v_output ++ [z]) /\ GetDims z = rows :: tail /\ GetDataType z = dt /\
    zlen (GetData z) = rows * unit /\ forall k r, stitch ∅ (all_writes unit all) !! k = Some r -> elem unit (GetData z) k = r.
Proof. intros. by apply (Stitch_answers p ps tail dt) with (o := o). Qed.

(** BroadcastArgs returns the shape two shapes broadcast to, and BroadcastGradientArgs for each of them the dimensions a
    gradient is summed over; both fail on shapes that do not broadcast. *)
Theorem broadcast_args_exact op x y d t s1 s2 v_output :
  index_type d t -> holds x d t [zlen s1] s1 -> holds y d t [zlen s2] s2 -> s1 <> [] -> s2 <> [] ->
  AllInputs op = 2 -> InputTypeAt op 0 = d -> InputTypeAt op 1 = d -> is_Some (InputDimsAt op 0) ->
  (AllOutputs op = 1 ->
   match broadcast s1 s2 with
   | None => BroadcastArgsKernel.Compute (Some op) [Some x; Some y] v_output = Err PARAM_INVALID
   | Some out => forall t' o, can_make op 0 t' o out ->
       exists z, BroadcastArgsKernel.Compute (Some op) [Some x; Some y] v_output = Ok (v_output ++ [z]) /\ holds z (OutputTypeAt op 0) t' [zlen out] out
   end) /\
  (AllOutputs op = 2 ->
   match broadcast s1 s2 with
   | None => BroadcastGradientArgsKernel.Compute (Some op) [Some x; Some y] v_output = Err PARAM_INVALID
   | Some _ => forall t1 t2 o1 o2, let g1 := BCast.ones 0 (pad (rank s1 s2) s1) in let g2 := BCast.ones 0 (pad (rank s1 s2) s2) in
       can_make op 0 t1 o1 g1 -> can_make op 1 t2 o2 g2 ->
       exists z1 z2, BroadcastGradientArgsKernel.Compute (Some op) [Some x; Some y] v_output = Ok (v_output ++ [z1; z2]) /\
         holds z1 (OutputTypeAt op 0) t1 [zlen g1] g1 /\ holds z2 (OutputTypeAt op 1) t2 [zlen g2] g2
   end).
Proof.
  intros Ht Hx Hy H1 H2 Hi Hd1 Hd2 Hs. split; intros Ho.
  - rewrite (broadcast_args_ok op x y d t s1 s2) by done. destruct (broadcast s1 s2); [|done]. intros t' o Hm.
    apply (construct_ok op 0 t' o _ v_output false Hm). cbn. lia.
  - rewrite (broadcast_gradient_ok op x y d t s1 s2) by done. destruct (broadcast s1 s2); [|done]. intros t1 t2 o1 o2 g1 g2 Hm1 Hm2. fold g1 g2.
    destruct (construct_ok op 0 t1 o1 g1 v_output false Hm1) as (z1 & -> & Hz1); [cbn; lia|]. cbn [mbind outcome_bind].
    destruct (construct_ok op 1 t2 o2 g2 (v_output ++ [z1]) false Hm2) as (z2 & -> & Hz2); [cbn; lia|].
    exists z1, z2. by rewrite <- app_assoc.
Qed.

(** Shape and ShapeN return the dimensions of their inputs, Size the product of the dimensions as a scalar, and Rank their
    number in four bytes. *)
Theorem shape_kernels_exact node op v_output :
  GetOpDesc node = Some op ->
  (forall dims t o, GetInputsSize op = 1 -> GetOutputsSize op = 1 -> InputDimsAt op 0 = Some dims -> Forall (Z.le 0) dims -> can_make op 0 t o dims ->
     exists z, ShapeKernel.Compute (Some node) v_output = Ok (v_output ++ [z]) /\ holds z (OutputTypeAt op 0) t [zlen dims] dims) /\
  (forall ds os ts, AllOutputs op = AllInputs op -> 0 <= AllInputs op ->
     (forall i, 0 <= i < AllInputs op -> InputDimsAt op i = Some (ds i) /\ Forall (Z.le 0) (ds i) /\ can_make op i (ts i) (os i) (ds i)) ->
     exists zs, ShapeNKernel.Compute (Some node) v_output = Ok (v_output ++ zs) /\ zlen zs = AllInputs op /\
       forall i z, 0 <= i -> vget zs i = Ok z -> holds z (OutputTypeAt op i) (ts i) [zlen (ds i)] (ds i)) /\
  (forall dims t o, GetInputsSize op = 1 -> GetOutputsSize op = 1 -> InputDimsAt op 0 = Some dims -> Forall (Z.lt 0) dims -> prodZ dims < 2 ^ 63 ->
     can_make op 0 t o [prodZ dims] ->
     exists z, SizeKernel.Compute (Some node) v_output = Ok (v_output ++ [z]) /\ holds z (OutputTypeAt op 0) t [] [prodZ dims]) /\
  (forall dims o, GetInputsSize op = 1 -> InputDimsAt op 0 = Some dims -> dims <> UNKNOWN_RANK -> GetSizeByDataType DT_INT32 = 4 -> MakeShared op 0 = Some o ->
     exists z, RankKernel.Compute (Some node) v_output = Ok (v_output ++ [z]) /\ GetData z = le_bytes 4 (zlen dims)).
Proof.
  intros Hop. split_and!.
  - intros dims t o Hi Ho Hd HF Hm. unfold ShapeKernel.Compute. rewrite Hop, Hi, Ho, Hd, known_shape by done. cbn [Z.eqb Pos.eqb negb orb].
    apply (construct_ok op 0 t o dims v_output false Hm). cbn. lia.
  - intros. by eapply ShapeN_ok.
  - intros dims t o Hi Ho Hd HF Hb Hm. assert (Forall (Z.le 0) dims) by (eapply Forall_impl; [exact HF|intros; lia]).
    unfold SizeKernel.Compute. rewrite Hop, Hi, Ho, Hd. cbn [Z.eqb Pos.eqb negb orb default]. cbv beta. unfold id.
    rewrite known_shape by done. rewrite count_ok by (done || lia). cbn [mbind outcome_bind]. rewrite Z.mul_1_l.
    by apply (construct_ok op 0 t o [prodZ dims] v_output true Hm).
  - intros dims o Hi Hd Hu Hs Hm. unfold RankKernel.Compute. rewrite Hop, Hi, Hd, Hs, Hm, bool_decide_eq_false_2 by done. cbn [Z.eqb Pos.eqb negb].
    eexists. split; [done|]. by rewrite get_data_data.
Qed.
End Theorems.

(** * Runs *)
Record ShapeOp := mkShapeOp { so_n : Z; so_ins : list (list Z); so_in_type : DataType; so_outs : Z; so_out_type : DataType }.
#[local] Instance stitch_lib : TensorLib := {|
  GeTensor := SampleTensor;
  OpDesc := ShapeOp;
  GetDims := s_dims;
  GetDataType := s_type;
  GetData := s_data;
  GetOutputsSize := so_outs;
  MakeShared := fun op _ => Some (mkSample [] (so_out_type op) []);
  SetData := fun b t => mkSample (s_dims t) (s_type t) b;
  SetDataType := fun d t => mkSample (s_dims t) d (s_data t);
  SetShape := fun s t => mkSample s (s_type t) (s_data t);
  GetDataTypeLength := fun d => num_size <$> num_type d;
|}.
#[local] Instance stitch_shapes : ShapeLib (T := stitch_lib) := {|
  GetShapeSize := fun s => match s with [] => 0 | _ => prodZ s end;
  GetDim := fun s i => if i <? 0 then 0 else default 0 (s !! Z.to_nat i);
  has_data := fun x => negb (zlen (s_data x) =? 0);
  GetInputsSize := fun op => zlen (so_ins op);
  InputDims := fun op => head (so_ins op);
  InputDataType := so_in_type;
  OutputDims := fun _ => [];
  GetInt_u32 := fun _ _ => None;
  GetInt_i32 := fun op name => if (name =? "N")%string then Some (so_n op) else None;
  GetInt_i64 := fun _ _ => None;
  GetListInt := fun _ _ => None;
  GetBool := fun _ _ => None;
  STRIDE_SLICE_ATTR_BEGIN_MASK := "begin_mask";
  STRIDE_SLICE_ATTR_END_MASK := "end_mask";
  STRIDE_SLICE_ATTR_ELLIPSIS_MASK := "ellipsis_mask";
  STRIDE_SLICE_ATTR_NEW_AXIS_MASK := "new_axis_mask";
  STRIDE_SLICE_ATTR_SHRINK_AXIS_MASK := "shrink_axis_mask";
  PACK_ATTR_NAME_NUM := "N";
  ATTR_NAME_AXIS := "axis";
  ATTR_NAME_N := "N";
|}.
#[local] Instance stitch_desc : DescLib (S := stitch_shapes) := {|
  InputFormat := fun _ => FORMAT_ND;
  OutputFormat := fun _ => FORMAT_ND;
  OutputDataType := so_out_type;
  HasOutputDesc := fun _ => true;
  CalcTensorMemSize := fun _ _ _ => None;
  SetDataStatus := fun _ _ => SUCCESS;
|}.
#[local] Instance stitch_nodes : NodeLib (D := stitch_desc) := {|
  Node := ShapeOp;
  GetOpDesc := Some;
  GetInDataNodes := fun _ => [];
  GetWeights := fun _ => [];
  AllInputs := fun op => zlen (so_ins op);
  AllOutputs := so_outs;
  InputDimsAt := fun op i => if i <? 0 then None else so_ins op !! Z.to_nat i;
  InputTypeAt := fun op _ => so_in_type op;
  OutputTypeAt := fun op _ => so_out_type op;
  UNKNOWN_RANK := [-2];
  GetDataTypeAttr := fun _ _ => None;
  ATTR_NAME_T := "T";
  UNPACK_ATTR_NAME_NUM := "num";
  MakeTensor := Some (mkSample [] DT_FLOAT []);
|}.
#[local] Instance stitch_lib_ok : TensorLibOk stitch_lib.
Proof. split; try done. intros d t H. cbn. by rewrite H. Qed.
#[local] Instance stitch_shapes_ok : ShapeLibOk stitch_shapes.
Proof.
  split; try done.
  - by intros [].
  - intros s i d H. cbn. unfold vget, at_ in H. destruct (i <? 0); [done|]. by destruct (s !! Z.to_nat i); simplify_eq.
  - intros s i H. cbn. destruct (Z.ltb_spec i 0); [done|]. rewrite lookup_ge_None_2; [done|]. unfold zlen in H. lia.
  - intros x H. cbn. destruct (s_data x) eqn:Ex; [by rewrite <- Ex in H|]. rewrite zlen_cons. pose proof (zlen_nonneg l).
    by destruct (Z.eqb_spec (zlen l + 1) 0); [lia|].
Qed.

Definition i32 := T_int true 32.
Definition stitch_op (n : Z) : ShapeOp := mkShapeOp n [] DT_FLOAT 1 DT_FLOAT.

(** Two inputs that both write row 1: the later wins. *)
Lemma dynamic_stitch_exact_witness :
  let pair ks vs := mkPair (tensor DT_INT32 i32 [zlen ks] ks) [zlen ks] ks (tensor DT_INT16 (T_int true 16) [zlen ks; 2] vs) in
  let ps := [pair [0; 1] [1; 2; 3; 4]; pair [2; 1] [5; 6; 7; 8]] in
  exists z, Compute (E := sample_env) (Some (stitch_op 2)) (inputs ps) [] = Ok [z] /\ GetDims z = [3; 2] /\ GetDataType z = DT_INT16 /\
    zlen (GetData z) = 12 /\ forall k r, stitch ∅ (all_writes 4 ps) !! k = Some r -> elem 4 (GetData z) k = r.
Proof.
  intros pair ps.
  apply (dynamic_stitch_exact (E := sample_env) (pair [0; 1] [1; 2; 3; 4]) [pair [2; 1] [5; 6; 7; 8]] [2] DT_INT16 (stitch_op 2) (mkSample [] DT_FLOAT []) []);
    try reflexivity; try discriminate.
  - by apply (bool_decide_eq_true_1 _).
  - repeat constructor.
  - repeat constructor; discriminate.
  - by eexists.
Defined.

(** The shapes [2; 1] and [3] in int64_t. *)
Lemma broadcast_args_exact_witness :
  exists z1 z2, BroadcastGradientArgsKernel.Compute (E := sample_env) (Some (mkShapeOp 0 [[2]; [1]] DT_INT64 2 DT_INT32))
    [Some (tensor DT_INT64 (T_int true 64) [2] [2; 1]); Some (tensor DT_INT64 (T_int true 64) [1] [3])] [] = Ok [z1; z2] /\
    holds z1 DT_INT32 i32 [1] [1] /\ holds z2 DT_INT32 i32 [1] [0].
Proof.
  refine (proj2 (broadcast_args_exact (E := sample_env) (mkShapeOp 0 [[2]; [1]] DT_INT64 2 DT_INT32) (tensor DT_INT64 (T_int true 64) [2] [2; 1])
    (tensor DT_INT64 (T_int true 64) [1] [3]) DT_INT64 (T_int true 64) [2; 1] [3] [] _ _ _ _ _ eq_refl eq_refl eq_refl _) eq_refl
    i32 i32 (mkSample [] DT_INT32 []) (mkSample [] DT_INT32 []) _ _); try discriminate.
  - by right.
  - repeat split; repeat constructor; discriminate.
  - repeat split; repeat constructor; discriminate.
  - by eexists.
  - split; [by left|]. split; [done|]. split; [done|]. split; [by eexists|]. repeat constructor; discriminate.
  - split; [by left|]. split; [done|]. split; [done|]. split; [by eexists|]. repeat constructor; discriminate.
Defined.

(** The shape [2; 3] and its size. *)
Lemma shape_kernels_exact_witness :
  let op := mkShapeOp 0 [[2; 3]] DT_FLOAT 1 DT_INT32 in
  (exists z, ShapeKernel.Compute (E := sample_env) (Some op) [] = Ok [z] /\ holds z DT_INT32 i32 [2] [2; 3]) /\
  (exists z, SizeKernel.Compute (E := sample_env) (Some op) [] = Ok [z] /\ holds z DT_INT32 i32 [] [6]).
Proof.
  intros op. destruct (shape_kernels_exact (E := sample_env) (T := stitch_lib) (S := stitch_shapes) (D := stitch_desc) (N := stitch_nodes) op op [] eq_refl) as (Hshape & _ & Hsize & _). split.
  - apply (Hshape [2; 3] i32 (mkSample [] DT_INT32 [])); try reflexivity; [repeat constructor; discriminate|].
    split; [by left|]. split; [done|]. split; [done|]. split; [by eexists|]. repeat constructor; discriminate.
  - apply (Hsize [2; 3] i32 (mkSample [] DT_INT32 [])); try reflexivity; [repeat constructor|].
    split; [by left|]. split; [done|]. split; [done|]. split; [by eexists|]. repeat constructor; discriminate.
Defined.

(** DynamicStitch reads past the end of an index tensor without elements, and so has no result; it leaves a
    row no index names as it was allocated; and it copies one dimension of data behind the indices, the first, where
    the data have more.  The tensors of shapes refuse the greatest int32_t. *)
Theorem shape_kernels_deviate :
  Compute (E := sample_env) (Some (stitch_op 1)) [Some (tensor DT_INT32 i32 [0] []); Some (tensor DT_INT8 (T_int true 8) [0] [])] [] = Stuck /\
  Compute (E := sample_env) (Some (stitch_op 1)) [Some (tensor DT_INT32 i32 [2] [0; 2]); Some (tensor DT_INT8 (T_int true 8) [2] [7; 8])] [] =
    Ok [mkSample [3] DT_INT8 [7; 205; 8]] /\
  Compute (E := sample_env) (Some (stitch_op 1)) [Some (tensor DT_INT32 i32 [2] [0; 1]); Some (tensor DT_INT8 (T_int true 8) [2; 1; 2] [1; 2; 3; 4])] [] =
    Ok [mkSample [2; 1] DT_INT8 [1; 2]] /\
  ShapeKernel.Compute (E := sample_env) (Some (mkShapeOp 0 [[INT32_MAX]] DT_FLOAT 1 DT_INT32)) [] = Err PARAM_INVALID.
Proof. vm_compute. done. Qed.
